(* ===== verification/_CoqProject ===== *)
-Q . S2P
Prelude.v
Bytes.v
GoStrings.v
Text.v
Base64.v
Decimal.v
Digest.v
Stream.v
Wire.v
Bufio.v
Sorting.v
Result.v
Runes.v
Starttls.v
Injection.v
Float.v
Json.v
Clock.v
Detail.v
Profile.v
Report.v
Service.v
Ssh.v
Smb.v
Services.v
Dns.v
Dnssec.v
Dane.v
Nameservers.v
Delegation.v
MailRecords.v
Dkim.v
Mail.v
Batch.v
Writeout.v
Distrust.v
Ech.v
Crl.v
Extensions.v
Flight.v
ServerHello.v
Tls13Hello.v
ClientHellos.v
Dh.v
Pqc.v
Obscure.v
Jarm.v
Diff.v
Ja4.v
Nsec3.v
Asn.v
DnsCheck.v
Csp.v
Cookies.v
Headers.v
Ldap.v
Mongo.v
Banners.v
Ports.v
Reputation.v
Ciphers.v
Preference.v
TlsCheck.v
ClientSim.v
EachCipher.v
Vulns.v
CtLogs.v
Ccs.v
Robot.v
CbcOracles.v
Reneg.v
TlsGrade.v
Mozilla.v
Tls13Record.v
Tls13Handshake.v
Tls13Probe.v
TlsPosture.v
TlsValues.v
TlsReport.v
