(* ===== verification/Prelude.v ===== *)
(** * netdoc: a verification development

    netdoc is a command-line program that examines a host from the network: its
    TLS configuration, DNS, mail, web headers and the services behind its ports.
    All its implementation files are in one flat Go package (src/).  Most of the
    logic that can go wrong is in hand-written protocol code: probes that build
    binary messages, read what an untrusted server answers, and turn the answer
    into a verdict.  The development models that code and the verdicts built on it.

    ** How the code is modelled

    A Go function becomes a function into [outcome] (below): a value, an error, or
    a run-time panic.  Every index and slice of the source is an [index] or [slice]
    of Bytes.v that can panic, and every Go loop is [loop] or [forRange] over its
    own turn, with an explicit state; a theorem that the code returns is a theorem
    about [wp] or [safe], which exclude panics and exhausted fuel.  The fuel of a
    loop is always computed from the data (the length of the buffer walked over, or
    of the bytes still to come on the connection, plus one), each turn consumes at
    least one byte of it, and [wp_loop] turns that into termination; nowhere does a
    theorem assume that the fuel suffices.

    Integers are [Z] with the wrap-around of their width written out where the code
    can reach it ([u16], [i32], [i64], [byteOf]).  Bytes are [Byte.byte], byte
    slices lists of them, strings Rocq strings of bytes, Go maps [gmap]s; where the
    order in which Go visits a map or in which goroutines finish can show, that
    order is an argument (a permutation) and the theorems hold for all of them.

    A connection is a [Reader] (Stream.v): a state with the bytes that are still to
    come, of which a read of n bytes gives the next n or fails.  One instance is a
    string; the other delivers its bytes in segments of any sizes and is read with
    the program's own [readN].  A [Peer] (Service.v) may also be written to, and its
    state after a write, so what it answers, is arbitrary.  What a probe dials is an
    argument, a function from the first bytes written to the connection they open.
    Random bytes are arguments.  Cryptography of the Go library is a parameter with
    the laws the code relies on (X25519, HKDF, AES-GCM, AES-CBC, RSA, X.509), except
    SHA-256, SHA-1, MD5 and HMAC, which Digest.v defines.

    ** Files

    - Prelude.v: outcomes, loops, weakest preconditions, the tactics.
      Bytes.v: bytes, indexing, slicing, big-endian integers.  GoStrings.v: the
      functions of [strings], [strconv], [sort] and [encoding/hex] the code uses.
      Decimal.v: the six hand-written integer printers (dns_chaos.go, tls_robot.go,
      tls_ja3s.go, dns_ede.go, dns_lame.go, service_mongodb.go).
      Digest.v: the hash functions.  Stream.v: connections, and [readN] (tls_alpn.go).
    - Extensions.v: the walk over TLS extensions (tls_extensions.go, tls_alpn.go,
      tls_jarm.go).  Flight.v: the walk over records and handshake messages that
      tls_alpn.go, tls_dh.go and tls_preference.go share, against the interface
      [Handler].  ServerHello.v, ClientHellos.v: its use in the ALPN and extension
      probes.  Preference.v, Dh.v: cipher preference (tls_preference.go) and DH
      parameters (tls_dh.go).
    - Tls13Hello.v, Tls13Record.v, Tls13Handshake.v, Tls13Probe.v: the TLS 1.3
      client of tls13_hello.go, tls13_nst.go, tls13_keysched.go, tls13_record.go and
      tls13_handshake.go, from the hello to the session tickets.
    - Vulns.v: tls_vulns.go, the list of vulnerabilities and the probes behind it.
      Ccs.v: the CCS-injection probe and the cryptography of tls_crypto.go.
      Robot.v: tls_robot.go.
    - Ciphers.v, TlsCheck.v, TlsGrade.v, Mozilla.v: enumeration and rating of cipher
      suites (cipher_enum.go, tls_cipher_pattern.go), the version table and
      certificate facts of tls.go, the letter grade (tls_grade.go) and the Mozilla
      profiles (tls_mozilla.go).
    - Jarm.v, Ja4.v: the fingerprints of tls_jarm.go, tls_ja3s.go, tls_ja4.go and
      tls_ja4_handshake.go.
    - Nsec3.v: the NSEC3 check of dns_nsec3.go.  Csp.v: the policy parser and score
      of csp_parser.go.  Service.v, Ldap.v, Mongo.v: services.go, service_ldap.go and
      service_mongodb.go.
    - Wire.v: buffered readers over a connection.  Starttls.v: the dialogues of
      starttls.go and starttls_dispatch.go that lead to TLS.  Injection.v: the
      STARTTLS injection probe of tls_starttls_injection.go.
    - Result.v, Profile.v, Report.v: the records and text helpers of result.go, the
      filters of profile.go, the pipeline of main.go, the verdict of verdict.go and
      the diagnosis of a tick of watch.go.  Float.v, Json.v: the floating-point
      numbers and the JSON encoder that reports are written with (Go library).
    - Diff.v: diff.go, baselines and what [--diff] reports.  Batch.v: batch.go and
      [parseTarget] of main.go; the goroutines of a batch are a step relation.
      Writeout.v: the templates of writeout.go.
    - Text.v: facts about strings.  Dns.v: the resource records and, of dns_extra.go,
      transports, queries with their retry over TCP and server identifiers; the
      exchange with the resolver is an argument.
    - MailRecords.v, Dkim.v, Mail.v: the mail check (mail.go and the mail_ files): SPF,
      DMARC, MTA-STS, TLS-RPT and BIMI records, DKIM keys with Go's base64 decoder, DANE
      and IPv6 of the mail exchangers, foreign report addresses, score and report.
    - Cookies.v, Headers.v: cookies.go, security_headers.go and security_owasp.go: the
      Security check over any response headers, built on Csp.v.
    - Dnssec.v: dnssec_chain.go and the other files on DNSSEC: the walk from the root
      anchors, algorithm changes, the NSEC walk, the tree that is printed.  Dane.v:
      dane.go with SHA-512.  Nameservers.v: the probes of the servers of a zone and of
      public resolvers.  Delegation.v: the walk of delegation.go and its check.
    - CbcOracles.v, Reneg.v: tls_cbc_oracles.go and tls_reneg.go, built on Ccs.v and
      Robot.v.
    - Base64.v, Bufio.v, Sorting.v, Runes.v: Go's base64 decoder, the buffered reader,
      sort.Slice and results stored at their own index, and white space and case
      outside ASCII.
    - Ssh.v, Smb.v, Services.v: service_ssh.go, service_smb2.go and service_rdp.go, and
      the six smaller services.  Banners.v, Ports.v: banners.go, ports.go, ports_udp.go:
      the Ports check, built on all of them.
    - ClientSim.v, EachCipher.v: tls_client_sim.go; tls_each_cipher.go with the registry
      of cipher_registry.go.  Pqc.v: tls_pqc.go and tls_ticketbleed.go.  Ech.v: tls_ech.go.
      Obscure.v: tls_obscure_ciphers.go.  TlsPosture.v: tls_winshock.go, tls_breach.go and
      tls_zero_rtt.go.  Distrust.v, Crl.v: tls_distrust.go and tls_crl.go.
    - Detail.v, Clock.v: the fields of a check and how a key of its detail is looked up;
      dates, [dur] and [ms] of result.go.  CtLogs.v: ct_logs.go and hsts_preload.go.
    - TlsValues.v, TlsReport.v: [checkTLS] of tls.go.  What the probes found is a record
      of their results; from it and the handshake come the status, the summary, the
      lines and the parts of the detail.
    - Asn.v: the origins of addresses and RPKI (asn.go, path_rpki.go).  DnsCheck.v:
      [checkDNS] with [enrichDNS] of dns.go, in the same way, and [checkIPv6].
      Reputation.v: reputation.go, the zones and the verdict over all listings.

    ** What is shown

    - Safety and termination: against any bytes from the network, in any
      segmentation, the TLS 1.3 probe, the ServerHello readers, the BSON scanner,
      the certificate scans and the vulnerability probes return.  For the LDAP and
      ROBOT probes the exceptions are characterised: the inputs that stop the program.
    - Functional correctness of the protocol probes: against a server described by
      what it sends (a flight of records, a sequence of messages, an answer to each
      hello) the verdict is the function of that description it should be.
    - Round trips: hellos, tickets, records, BSON, BER, SCT lists, DNS names, DMARC
      records, DKIM keys.
    - Invariants and equivalences: arrival orders do not matter, the records of a
      connection never share a nonce, message reassembly does not depend on the cut into records, the
      grade is one formula over its caps, NSEC3 rings cover what they should.
    - STARTTLS: the line-based dialogues refine one abstract plan of commands and
      acceptable replies; every dialogue ends; the injection verdict.
    - The program around the checks: which checks a filter lets run, that a batch
      ends under every schedule with each result in its place, or with the panic of
      one of its scans, which nothing recovers; targets, templates, when a report
      equals its own baseline and when the gate of [--diff] opens.
    - Mail and Security checks: they compute the rubrics of docs/ on everything a
      domain may publish and a server may send, within their bounds, but for three
      details which the theorems state beside the documented score; records are read as
      they are written.
    - DNS: a validated chain is a chain of trust; DANE matches are those of RFC 6698 and,
      stated apart, the leaf where the RFC asks for an authority or defines nothing; which
      name servers are lame; the walk of the delegation is bounded and goes where the
      glue and the names of the last server send it.
    - Ports and services: a list of ports is read as it is written; the Ports check
      reports every port with what the scans found, in any order of the goroutines; the
      service probes report what the server said, in any segments.
    - Tables over the network: the client simulation and the enumeration of registered
      suites do not depend on their schedules and are complete; which chains are
      reported as distrusted; what a revocation list says of a certificate.
    - The checks themselves: when the TLS check, the DNS check and the IPv6 check are OK,
      warn or fail, on everything their probes may answer (a TLS probe that panics ends
      the check), and what they leave for the
      checks behind them; an origin is asked for under the name of the address;
      when the Reputation check fails, in any order of its goroutines.
    - Where the code does not do what it says, a theorem states what it does; the
      comments of those theorems say so.

    ** Not modelled

    What is only a conversation with the Go library or the operating system: sockets
    and raw packets (traceroute, ping, MTU), crypto/tls handshakes and HTTP clients,
    the wire format of DNS (the miekg/dns package), WHOIS and RDAP,
    rendering to the terminal, HTML and Markdown, and the flags of main.go.
    Time is not modelled: a deadline that passes is a read that fails.  The strings
    functions are those of Go on ASCII; case folding of other letters is left out.
    The history file and the checks of http.go and its neighbours are not modelled either.

    ** Conventions

    Definitions keep the names of the source.  A witness lemma after a theorem
    applies it at a concrete input. *)

From Stdlib Require Import ZArith List String Ascii Lia Bool.
From stdpp Require Import base list strings numbers.

(** ** Outcomes of Go code

    A Go function either returns a value ([Ret]), returns a non-nil [error]
    ([Err], with the error's text), or stops with a run-time panic ([Panic]:
    an index or slice bound out of range).  [NoFuel] is not a Go behaviour: it
    is what a loop of the model gives when its fuel runs out, and the theorems
    show that the fuel chosen is always enough. *)
Inductive outcome (A : Type) : Type :=
| Ret (a : A)
| Err (e : string)
| Panic
| NoFuel.
Arguments Ret {A} a.
Arguments Err {A} e.
Arguments Panic {A}.
Arguments NoFuel {A}.

Definition bind {A B} (c : outcome A) (k : A -> outcome B) : outcome B :=
  match c with
  | Ret a => k a
  | Err e => Err e
  | Panic => Panic
  | NoFuel => NoFuel
  end.

Declare Scope go_scope.
Delimit Scope go_scope with go.
Notation "x <~ c1 ;; c2" := (bind c1 (fun x => c2))
  (at level 100, c1 at next level, right associativity) : go_scope.
Notation "'unpack' pat <~ c1 ;; c2" := (bind c1 (fun x => match x with pat => c2 end))
  (at level 100, pat pattern, c1 at next level, right associativity) : go_scope.
Open Scope go_scope.

(** [if cond { return nil, errors.New(e) }] *)
Definition errWhen {A} (cond : bool) (e : string) (k : outcome A) : outcome A :=
  if cond then Err e else k.
Notation "'guard' cond 'orelse' e ;; k" := (errWhen cond e k)
  (at level 100, cond at level 80, e at level 60, right associativity) : go_scope.

(** ** Weakest preconditions

    [wp c Q E]: [c] neither panics nor runs out of fuel, a value it returns
    satisfies [Q] and an error it returns satisfies [E]. *)
Definition wp {A} (c : outcome A) (Q : A -> Prop) (E : string -> Prop) : Prop :=
  match c with
  | Ret a => Q a
  | Err e => E e
  | Panic | NoFuel => False
  end.

(** The code returns: with a value or an error, but no panic and no divergence. *)
Definition safe {A} (c : outcome A) : Prop := wp c (fun _ => True) (fun _ => True).

Section Wp.
Context {A B : Type}.
Implicit Types (c : outcome A) (k : A -> outcome B).

Lemma wp_ret (a : A) (Q : A -> Prop) E : Q a -> wp (Ret a) Q E.
Proof. exact id. Qed.

Lemma wp_err e (Q : A -> Prop) (E : string -> Prop) : E e -> wp (Err e) Q E.
Proof. exact id. Qed.

Lemma wp_bind c k Q E : wp c (fun a => wp (k a) Q E) E -> wp (bind c k) Q E.
Proof. by destruct c. Qed.

Lemma wp_mono c (Q Q' : A -> Prop) (E E' : string -> Prop) :
  wp c Q E -> (forall a, Q a -> Q' a) -> (forall e, E e -> E' e) -> wp c Q' E'.
Proof. destruct c; cbn; auto. Qed.

Lemma wp_conj c (Q Q' : A -> Prop) E :
  wp c Q E -> wp c Q' E -> wp c (fun a => Q a /\ Q' a) E.
Proof. by destruct c. Qed.

Lemma wp_guard (b : bool) e (k : outcome A) Q (E : string -> Prop) :
  (b = true -> E e) -> (b = false -> wp k Q E) -> wp (errWhen b e k) Q E.
Proof. destruct b; cbn; auto. Qed.

Lemma wp_ret_inv c (Q : A -> Prop) E a : wp c Q E -> c = Ret a -> Q a.
Proof. by intros ? ->. Qed.
End Wp.

Lemma safe_wp {A} (c : outcome A) Q E : wp c Q E -> safe c.
Proof. by destruct c. Qed.

Lemma safe_cases {A} (c : outcome A) :
  safe c <-> (exists a, c = Ret a) \/ (exists e, c = Err e).
Proof.
  destruct c; cbn; split; eauto; try tauto;
    intros [[? ?]|[? ?]]; discriminate.
Qed.

Lemma bind_assoc {A B C} (c : outcome A) (k : A -> outcome B) (k' : B -> outcome C) :
  bind (bind c k) k' = bind c (fun a => bind (k a) k').
Proof. by destruct c. Qed.

Lemma bind_ext {A B} (c : outcome A) (k k' : A -> outcome B) :
  (forall a, k a = k' a) -> bind c k = bind c k'.
Proof. destruct c; cbn; auto. Qed.

(** ** Loops

    A Go loop body either goes round again with a new state, leaves the loop
    ([break], or the loop condition is false), or returns from the enclosing
    function. *)
Inductive step (S R : Type) : Type :=
| Next (s : S)
| Break (s : S)
| Return (r : R).
Arguments Next {S R} s.
Arguments Break {S R} s.
Arguments Return {S R} r.

Section Loop.
Context {S R : Type} (body : S -> outcome (step S R)).

Fixpoint loop (fuel : nat) (s : S) : outcome (S + R) :=
  match fuel with
  | O => NoFuel
  | Datatypes.S n =>
      match body s with
      | Ret (Next s') => loop n s'
      | Ret (Break s') => Ret (inl s')
      | Ret (Return r) => Ret (inr r)
      | Err e => Err e
      | Panic => Panic
      | NoFuel => NoFuel
      end
  end.

(** What one turn has to establish for the loop rule. *)
Definition stepPost (I : S -> Prop) (m : S -> nat) (Q : S + R -> Prop) (s : S)
    (r : step S R) : Prop :=
  match r with
  | Next s' => I s' /\ (m s' < m s)%nat
  | Break s' => Q (inl s')
  | Return r => Q (inr r)
  end.

(** Total-correctness rule: an invariant and a measure that decreases. *)
Lemma wp_loop (I : S -> Prop) (m : S -> nat) (Q : S + R -> Prop) (E : string -> Prop) :
  (forall s, I s -> wp (body s) (stepPost I m Q s) E) ->
  forall fuel s, I s -> (m s < fuel)%nat -> wp (loop fuel s) Q E.
Proof.
  intros Hbody fuel; induction fuel as [|fuel IH]; intros s Hs Hm; [lia|].
  specialize (Hbody s Hs). cbn.
  destruct (body s) as [[s'|s'|r]|e| |]; cbn in *; auto.
  destruct Hbody. apply IH; [done|lia].
Qed.

(** The result does not depend on the fuel, once there is enough of it. *)
Lemma loop_fuel_mono fuel fuel' s :
  loop fuel s <> NoFuel -> (fuel <= fuel')%nat -> loop fuel' s = loop fuel s.
Proof.
  revert fuel' s; induction fuel as [|fuel IH]; intros [|fuel'] s Hn Hle; try done; [lia|].
  cbn in *. destruct (body s) as [[s'|s'|r]|e| |]; auto.
  apply IH; [done|lia].
Qed.
End Loop.

(** [for _, x := range l { body }] with the state the body changes. *)
Fixpoint forRange {X S R} (body : X -> S -> outcome (step S R)) (l : list X) (s : S)
    : outcome (S + R) :=
  match l with
  | [] => Ret (inl s)
  | x :: l' =>
      match body x s with
      | Ret (Next s') => forRange body l' s'
      | Ret (Break s') => Ret (inl s')
      | Ret (Return r) => Ret (inr r)
      | Err e => Err e
      | Panic => Panic
      | NoFuel => NoFuel
      end
  end.

Lemma wp_forRange {X S R} (body : X -> S -> outcome (step S R)) (I : S -> Prop)
    (Q : S + R -> Prop) (E : string -> Prop) l s :
  (forall x s, In x l -> I s ->
     wp (body x s) (fun r => match r with
                             | Next s' => I s'
                             | Break s' => Q (inl s')
                             | Return r => Q (inr r)
                             end) E) ->
  (forall s, I s -> Q (inl s)) -> I s -> wp (forRange body l s) Q E.
Proof.
  intros Hb Hq. revert s. induction l as [|x l IH]; intros s Hs; cbn; [auto|].
  specialize (Hb x s (or_introl eq_refl) Hs) as Hx.
  destruct (body x s) as [[s'|s'|r]|e| |]; cbn in *; auto.
Qed.

(** Two loops in lock step: related states stay related, and the results agree. *)
Section LoopRel.
Context {S1 S2 R : Type} (Rel : S1 -> S2 -> Prop).
Context (body1 : S1 -> outcome (step S1 R)) (body2 : S2 -> outcome (step S2 R)).

Definition stepRel (r1 : outcome (step S1 R)) (r2 : outcome (step S2 R)) : Prop :=
  match r1, r2 with
  | Ret (Next s1), Ret (Next s2) => Rel s1 s2
  | Ret (Break _), Ret (Break _) => True
  | Ret (Return a), Ret (Return b) => a = b
  | Err a, Err b => a = b
  | Panic, Panic | NoFuel, NoFuel => True
  | _, _ => False
  end.

Lemma loop_rel (dflt : R) fuel s1 s2 :
  (forall s1 s2, Rel s1 s2 -> stepRel (body1 s1) (body2 s2)) -> Rel s1 s2 ->
  bind (loop body1 fuel s1) (fun r => Ret (match r with inl _ => dflt | inr r => r end)) =
  bind (loop body2 fuel s2) (fun r => Ret (match r with inl _ => dflt | inr r => r end)).
Proof.
  intros Hb. revert s1 s2. induction fuel as [|fuel IH]; intros s1 s2 Hs; cbn; [done|].
  specialize (Hb s1 s2 Hs).
  destruct (body1 s1) as [[?|?|?]|?| |], (body2 s2) as [[?|?|?]|?| |]; cbn in *;
    try done; try congruence. by apply IH.
Qed.
End LoopRel.

(** ** Tactics *)

(** Symbolic execution of a [wp] goal, one construct at a time. *)
Ltac wp_step :=
  lazymatch goal with
  | |- wp (bind _ _) _ _ => apply wp_bind
  | |- wp (errWhen _ _ _) _ _ => apply wp_guard; intro
  | |- wp (Ret _) _ _ => apply wp_ret
  | |- wp (Err _) _ _ => apply wp_err
  | |- wp (match ?x with _ => _ end) _ _ => let H := fresh "Hc" in destruct x eqn:H
  end.
Ltac wp_steps := repeat (wp_step; cbn beta iota).

(** Booleans of the code's conditions as propositions [lia] understands. *)
Ltac to_prop :=
  repeat match goal with
    | H : (_ && _)%bool = true |- _ => apply andb_true_iff in H as [? ?]
    | H : (_ && _)%bool = false |- _ => apply andb_false_iff in H
    | H : (_ || _)%bool = false |- _ => apply orb_false_iff in H as [? ?]
    | H : (_ || _)%bool = true |- _ => apply orb_true_iff in H
    | H : negb _ = true |- _ => apply negb_true_iff in H
    | H : negb _ = false |- _ => apply negb_false_iff in H
    | H : (_ <=? _)%Z = true |- _ => apply Z.leb_le in H
    | H : (_ <=? _)%Z = false |- _ => apply Z.leb_gt in H
    | H : (_ <? _)%Z = true |- _ => apply Z.ltb_lt in H
    | H : (_ <? _)%Z = false |- _ => apply Z.ltb_ge in H
    | H : (_ =? _)%Z = true |- _ => apply Z.eqb_eq in H
    | H : (_ =? _)%Z = false |- _ => apply Z.eqb_neq in H
    end.

Create HintDb netdoc discriminated.
Create Rewrite HintDb netdoc.
