(* ===== verification/Bytes.v ===== *)
(** Byte strings as the Go code has them: slices of bytes with checked
    indexing and slicing, fixed-width unsigned integers with their wrap-around,
    and the big- and little-endian encoders of [encoding/binary]. *)

From Stdlib Require Import ZArith List String Ascii Strings.Byte Lia Bool.
From stdpp Require Import base list strings numbers.
From S2P Require Import Prelude.
Open Scope Z_scope.

Abbreviation byte := Init.Byte.byte.
Abbreviation bytes := (list Init.Byte.byte).

#[global] Instance byte_eq_dec : EqDecision byte.
Proof. intros x y. exact (Byte.byte_eq_dec x y). Defined.

(** ** Bytes and their values *)

Definition bval (b : byte) : Z := Z.of_N (Byte.to_N b).

(** [byte(z)]: conversion to an 8-bit unsigned integer drops the high bits. *)
Definition byteOf (z : Z) : byte :=
  match Byte.of_N (Z.to_N (z mod 256)) with Some b => b | None => x00 end.

(** [uint16(z)], [uint32(z)], [uint64(z)]. *)
Definition u16 (z : Z) : Z := z mod 65536.
Definition u32 (z : Z) : Z := z mod 4294967296.
Definition u64 (z : Z) : Z := z mod 18446744073709551616.
#[global] Arguments bval : simpl never.
#[global] Arguments byteOf : simpl never.
#[global] Arguments u16 : simpl never.

Lemma bval_range b : 0 <= bval b < 256.
Proof. unfold bval. pose proof (Byte.to_N_bounded b). lia. Qed.

Lemma bval_byteOf z : bval (byteOf z) = z mod 256.
Proof.
  unfold bval, byteOf.
  pose proof (Z.mod_pos_bound z 256 ltac:(lia)).
  destruct (Byte.of_N (Z.to_N (z mod 256))) as [b|] eqn:E.
  - apply Byte.to_of_N in E. rewrite E. lia.
  - apply Byte.of_N_None_iff in E. lia.
Qed.

Lemma bval_inj a b : bval a = bval b -> a = b.
Proof.
  unfold bval. intros H%N2Z.inj.
  pose proof (Byte.of_to_N a) as Ha. pose proof (Byte.of_to_N b) as Hb. congruence.
Qed.

Lemma byteOf_bval b : byteOf (bval b) = b.
Proof. apply bval_inj. rewrite bval_byteOf. apply Z.mod_small, bval_range. Qed.

Lemma byteOf_mod z : byteOf (z mod 256) = byteOf z.
Proof. unfold byteOf. by rewrite Zmod_mod. Qed.

(** The comparison [b == c] of two bytes. *)
Definition beq (a b : byte) : bool := Byte.eqb a b.

Lemma beq_true a b : beq a b = true <-> a = b.
Proof. split; [apply Byte.byte_dec_bl|apply Byte.byte_dec_lb]. Qed.

Lemma beq_refl a : beq a a = true.
Proof. by apply beq_true. Qed.

(** ** Slices *)

Definition blen {A} (l : list A) : Z := Z.of_nat (length l).

#[global] Arguments blen : simpl never.

Lemma blen_nonneg {A} (l : list A) : 0 <= blen l.
Proof. unfold blen. lia. Qed.

Lemma blen_app {A} (l k : list A) : blen (l ++ k) = blen l + blen k.
Proof. unfold blen. rewrite length_app. lia. Qed.

Lemma blen_cons {A} (x : A) l : blen (x :: l) = 1 + blen l.
Proof. unfold blen. cbn. lia. Qed.

Lemma blen_nil {A} : blen (@nil A) = 0.
Proof. reflexivity. Qed.

Lemma blen_zero {A} (l : list A) : blen l <= 0 -> l = [].
Proof. unfold blen. destruct l; cbn; [done|lia]. Qed.

(** [b[lo:lo+n]] without the bound check. *)
Definition sub {A} (b : list A) (lo n : Z) : list A :=
  take (Z.to_nat n) (drop (Z.to_nat lo) b).

(** [b[i]]: a run-time panic out of range. *)
Definition index {A} (b : list A) (i : Z) : outcome A :=
  if (0 <=? i) && (i <? blen b)
  then match b !! Z.to_nat i with Some x => Ret x | None => Panic end
  else Panic.

(** [b[lo:hi]].  Go checks [hi] against the capacity, which is at least the
    length: a slice the model accepts is one Go accepts, with the same bytes. *)
Definition slice {A} (b : list A) (lo hi : Z) : outcome (list A) :=
  if (0 <=? lo) && (lo <=? hi) && (hi <=? blen b) then Ret (sub b lo (hi - lo)) else Panic.

(** [b[lo:]] *)
Definition sliceFrom {A} (b : list A) (lo : Z) : outcome (list A) := slice b lo (blen b).

Lemma blen_sub {A} (b : list A) lo n :
  0 <= lo -> 0 <= n -> lo + n <= blen b -> blen (sub b lo n) = n.
Proof. unfold sub, blen. intros. rewrite length_take, length_drop. lia. Qed.

Lemma blen_take {A} (l : list A) n : 0 <= n <= blen l -> blen (take (Z.to_nat n) l) = n.
Proof. unfold blen. intros. rewrite length_take. lia. Qed.

Lemma blen_drop {A} (l : list A) n : 0 <= n <= blen l -> blen (drop (Z.to_nat n) l) = blen l - n.
Proof. unfold blen. intros. rewrite length_drop. lia. Qed.

Lemma index_some {A} (b : list A) i : 0 <= i < blen b -> exists x, index b i = Ret x.
Proof.
  intros Hi. unfold index, blen in *.
  rewrite (proj2 (Z.leb_le _ _)), (proj2 (Z.ltb_lt _ _)) by lia. cbn.
  destruct (b !! Z.to_nat i) eqn:E; eauto.
  apply lookup_ge_None in E. lia.
Qed.

Lemma index_ret {A} (b : list A) i x :
  index b i = Ret x <-> 0 <= i /\ b !! Z.to_nat i = Some x.
Proof.
  unfold index. split.
  - destruct (0 <=? i) eqn:?, (i <? blen b) eqn:?; cbn; try done.
    destruct (b !! Z.to_nat i) eqn:?; intros [= ->]; to_prop; auto.
  - intros [Hi Hl]. pose proof (lookup_lt_Some _ _ _ Hl). unfold blen.
    rewrite (proj2 (Z.leb_le _ _)), (proj2 (Z.ltb_lt _ _)) by lia. cbn. by rewrite Hl.
Qed.

Lemma slice_ok {A} (b : list A) lo hi :
  0 <= lo -> lo <= hi -> hi <= blen b -> slice b lo hi = Ret (sub b lo (hi - lo)).
Proof.
  intros. unfold slice. rewrite !(proj2 (Z.leb_le _ _)) by lia. done.
Qed.

Lemma slice_panic {A} (b : list A) lo hi : lo < 0 \/ hi < lo \/ blen b < hi -> slice b lo hi = Panic.
Proof.
  intros. unfold slice.
  destruct (0 <=? lo) eqn:?, (lo <=? hi) eqn:?, (hi <=? blen b) eqn:?; cbn; to_prop; auto; lia.
Qed.

Lemma wp_index {A} (b : list A) i (Q : A -> Prop) E :
  0 <= i < blen b -> (forall x, b !! Z.to_nat i = Some x -> Q x) -> wp (index b i) Q E.
Proof.
  intros Hi HQ. destruct (index_some b i Hi) as [x Hx]. rewrite Hx. cbn.
  apply HQ. by apply index_ret in Hx as [_ ?].
Qed.

Lemma wp_slice {A} (b : list A) lo hi (Q : list A -> Prop) E :
  0 <= lo -> lo <= hi -> hi <= blen b ->
  (blen (sub b lo (hi - lo)) = hi - lo -> Q (sub b lo (hi - lo))) -> wp (slice b lo hi) Q E.
Proof.
  intros H1 H2 H3 HQ. rewrite slice_ok by done. apply HQ. apply blen_sub; lia.
Qed.

Lemma wp_sliceFrom {A} (b : list A) lo (Q : list A -> Prop) E :
  0 <= lo <= blen b ->
  (blen (sub b lo (blen b - lo)) = blen b - lo -> Q (sub b lo (blen b - lo))) ->
  wp (sliceFrom b lo) Q E.
Proof. intros. apply wp_slice; auto; lia. Qed.

(** ** Slices of concatenations *)

Lemma sub_app_l {A} (a b : list A) n : n = blen a -> sub (a ++ b) 0 n = a.
Proof.
  intros ->. unfold sub, blen. rewrite Z2Nat.inj_0, Nat2Z.id, drop_0, take_app_length. done.
Qed.

Lemma sub_app_r {A} (a b : list A) lo n :
  blen a <= lo -> sub (a ++ b) lo n = sub b (lo - blen a) n.
Proof.
  intros. unfold sub, blen in *. rewrite drop_app_ge by lia. do 2 f_equal. lia.
Qed.

Lemma sub_full {A} (a : list A) n : n = blen a -> sub a 0 n = a.
Proof. intros ->. rewrite <- (app_nil_r a) at 1. by apply sub_app_l. Qed.

Lemma slice_full {A} (a : list A) n : n = blen a -> slice a 0 n = Ret a.
Proof.
  intros ->. pose proof (blen_nonneg a). rewrite slice_ok by lia.
  rewrite Z.sub_0_r, sub_full; done.
Qed.

Lemma slice_mid {A} (a b c : list A) lo hi :
  lo = blen a -> hi = blen a + blen b -> slice (a ++ b ++ c) lo hi = Ret b.
Proof.
  intros -> ->. pose proof (blen_nonneg a). pose proof (blen_nonneg b).
  pose proof (blen_nonneg c).
  rewrite slice_ok by (rewrite ?blen_app; lia).
  rewrite sub_app_r by lia. rewrite Z.sub_diag, sub_app_l; [done|lia].
Qed.

Lemma sliceFrom_app {A} (a b : list A) lo : lo = blen a -> sliceFrom (a ++ b) lo = Ret b.
Proof.
  intros ->. unfold sliceFrom. rewrite <- (app_nil_r b) at 1. apply slice_mid; [done|].
  by rewrite blen_app.
Qed.

Lemma index_app_r {A} (a b : list A) i :
  blen a <= i -> index (a ++ b) i = index b (i - blen a).
Proof.
  intros Hi. pose proof (blen_nonneg a). unfold index. rewrite blen_app.
  rewrite (proj2 (Z.leb_le 0 i)), (proj2 (Z.leb_le 0 (i - blen a))) by lia. cbn.
  replace (i <? blen a + blen b) with (i - blen a <? blen b)
    by (destruct (i - blen a <? blen b) eqn:E; symmetry; to_prop;
        [apply Z.ltb_lt|apply Z.ltb_ge]; lia).
  destruct (i - blen a <? blen b); [|done].
  rewrite lookup_app_r by (unfold blen in *; lia).
  do 2 f_equal. unfold blen. replace (Z.to_nat i - length a)%nat
    with (Z.to_nat (i - Z.of_nat (length a))) by lia. done.
Qed.

Lemma index_app_l {A} (a b : list A) i : i < blen a -> index (a ++ b) i = index a i.
Proof.
  intros Hi. unfold index. destruct (0 <=? i) eqn:E; [|done]. to_prop. cbn.
  pose proof (blen_nonneg b).
  rewrite blen_app, !(proj2 (Z.ltb_lt _ _)) by lia.
  rewrite lookup_app_l by (unfold blen in *; lia). done.
Qed.

(** Reads of a byte string known as a concatenation. *)
Lemma read_index {A} (b p : list A) x r i : b = p ++ x :: r -> i = blen p -> index b i = Ret x.
Proof.
  intros -> ->. rewrite index_app_r by lia. rewrite Z.sub_diag. apply index_ret. split; [lia|done].
Qed.

Lemma read_slice {A} (b p q r : list A) lo hi :
  b = p ++ q ++ r -> lo = blen p -> hi = blen p + blen q -> slice b lo hi = Ret q.
Proof. intros ->. apply slice_mid. Qed.

Lemma read_from {A} (b p q : list A) lo : b = p ++ q -> lo = blen p -> sliceFrom b lo = Ret q.
Proof. intros ->. apply sliceFrom_app. Qed.

(** ** Big- and little-endian integers *)

(** [uint16(hi)<<8 | uint16(lo)] *)
Definition be16 (hi lo : byte) : Z := Z.lor (Z.shiftl (bval hi) 8) (bval lo).
(** [int(a)<<16 | int(b)<<8 | int(c)] *)
Definition be24 (a b c : byte) : Z :=
  Z.lor (Z.lor (Z.shiftl (bval a) 16) (Z.shiftl (bval b) 8)) (bval c).

#[global] Arguments be16 : simpl never.
#[global] Arguments be24 : simpl never.

Lemma lor_shiftl_add a b n : 0 <= n -> 0 <= b < 2 ^ n -> 0 <= a ->
  Z.lor (Z.shiftl a n) b = a * 2 ^ n + b.
Proof.
  intros Hn Hb Ha. rewrite <- Z.shiftl_mul_pow2 by done.
  symmetry. rewrite <- Z.lxor_lor; [apply Z.add_nocarry_lxor|];
    (apply Z.bits_inj'; intros i Hi; rewrite Z.land_spec, Z.bits_0;
     destruct (decide (i < n));
     [rewrite Z.shiftl_spec_low by lia; done|
      rewrite (Z.testbit_eqb b) by lia;
      rewrite Z.div_small by (split; [lia|];
        eapply Z.lt_le_trans; [apply Hb|apply Z.pow_le_mono_r; lia]); cbn;
      by rewrite andb_false_r]).
Qed.

Lemma be16_eq a b : be16 a b = bval a * 256 + bval b.
Proof.
  pose proof (bval_range a). pose proof (bval_range b).
  unfold be16. rewrite lor_shiftl_add by lia. lia.
Qed.

Lemma be24_eq a b c : be24 a b c = bval a * 65536 + bval b * 256 + bval c.
Proof.
  pose proof (bval_range a). pose proof (bval_range b). pose proof (bval_range c).
  unfold be24.
  replace (Z.shiftl (bval a) 16) with (Z.shiftl (Z.shiftl (bval a) 8) 8)
    by (rewrite Z.shiftl_shiftl by lia; done).
  rewrite <- Z.shiftl_lor, lor_shiftl_add by (try lia; apply Z.lor_nonneg; rewrite Z.shiftl_nonneg; lia).
  rewrite lor_shiftl_add by lia. lia.
Qed.

Lemma be16_range a b : 0 <= be16 a b < 65536.
Proof. rewrite be16_eq. pose proof (bval_range a). pose proof (bval_range b). lia. Qed.

Lemma be24_range a b c : 0 <= be24 a b c < 16777216.
Proof.
  rewrite be24_eq. pose proof (bval_range a). pose proof (bval_range b).
  pose proof (bval_range c). lia.
Qed.

(** [binary.BigEndian.Uint16(b)]: panics on fewer than two bytes. *)
Definition BE_Uint16 (b : bytes) : outcome Z :=
  b1 <~ index b 1 ;; b0 <~ index b 0 ;; Ret (be16 b0 b1).

(** [binary.BigEndian.Uint32(b)] *)
Definition BE_Uint32 (b : bytes) : outcome Z :=
  b3 <~ index b 3 ;; b0 <~ index b 0 ;; b1 <~ index b 1 ;; b2 <~ index b 2 ;;
  Ret (Z.lor (Z.shiftl (be16 b0 b1) 16) (be16 b2 b3)).

(** [binary.LittleEndian.Uint32(b)] *)
Definition LE_Uint32 (b : bytes) : outcome Z :=
  b3 <~ index b 3 ;; b0 <~ index b 0 ;; b1 <~ index b 1 ;; b2 <~ index b 2 ;;
  Ret (Z.lor (Z.shiftl (be16 b3 b2) 16) (be16 b1 b0)).

(** [binary.BigEndian.AppendUint16(nil, v)] for a [uint16] [v] *)
Definition putBE16 (v : Z) : bytes := [byteOf (Z.shiftr v 8); byteOf v].
(** [byte(n>>16), byte(n>>8), byte(n)] *)
Definition putBE24 (n : Z) : bytes := [byteOf (Z.shiftr n 16); byteOf (Z.shiftr n 8); byteOf n].
Definition putBE32 (v : Z) : bytes :=
  [byteOf (Z.shiftr v 24); byteOf (Z.shiftr v 16); byteOf (Z.shiftr v 8); byteOf v].
Definition putLE32 (v : Z) : bytes :=
  [byteOf v; byteOf (Z.shiftr v 8); byteOf (Z.shiftr v 16); byteOf (Z.shiftr v 24)].

Lemma be16_putBE16 v :
  be16 (byteOf (Z.shiftr v 8)) (byteOf v) = u16 v.
Proof.
  rewrite be16_eq, !bval_byteOf, Z.shiftr_div_pow2 by lia. unfold u16.
  change (2 ^ 8) with 256. change 65536 with (256 * 256).
  rewrite Z.rem_mul_r by lia. lia.
Qed.

Lemma be24_putBE24 n :
  be24 (byteOf (Z.shiftr n 16)) (byteOf (Z.shiftr n 8)) (byteOf n) = n mod 16777216.
Proof.
  rewrite be24_eq, !bval_byteOf, !Z.shiftr_div_pow2 by lia.
  change (2 ^ 8) with 256. change (2 ^ 16) with (256 * 256).
  change 16777216 with (256 * (256 * 256)).
  rewrite <- Z.div_div by lia. rewrite !Z.rem_mul_r by lia. lia.
Qed.

Lemma putBE16_be16 a b : putBE16 (be16 a b) = [a; b].
Proof.
  unfold putBE16. rewrite be16_eq. pose proof (bval_range a). pose proof (bval_range b).
  rewrite Z.shiftr_div_pow2 by lia. change (2 ^ 8) with 256.
  assert (E1 : (bval a * 256 + bval b) / 256 = bval a)
    by (symmetry; apply (Z.div_unique _ _ _ (bval b)); lia).
  rewrite E1, byteOf_bval. do 2 f_equal. rewrite <- (byteOf_bval b) at 2.
  rewrite <- byteOf_mod. f_equal. symmetry. apply (Z.mod_unique _ _ (bval a)); lia.
Qed.

Lemma u16_small v : 0 <= v < 65536 -> u16 v = v.
Proof. apply Z.mod_small. Qed.

Lemma u16_range v : 0 <= u16 v < 65536.
Proof. apply Z.mod_pos_bound. lia. Qed.

Lemma blen_putBE16 v : blen (putBE16 v) = 2.
Proof. reflexivity. Qed.

Lemma BE_Uint16_put v rest : BE_Uint16 (putBE16 v ++ rest) = Ret (u16 v).
Proof.
  unfold BE_Uint16.
  assert (H : forall i, 0 <= i < 2 -> index (putBE16 v ++ rest) i = index (putBE16 v) i)
    by (intros; apply index_app_l; rewrite blen_putBE16; lia).
  rewrite !H by lia.
  change (Ret (be16 (byteOf (Z.shiftr v 8)) (byteOf v)) = Ret (u16 v)).
  by rewrite be16_putBE16.
Qed.

Lemma wp_BE_Uint16 b (Q : Z -> Prop) E :
  2 <= blen b -> (forall v, 0 <= v < 65536 -> Q v) -> wp (BE_Uint16 b) Q E.
Proof.
  intros Hb HQ. unfold BE_Uint16. wp_step.
  apply wp_index; [lia|]; intros ? _. wp_step. apply wp_index; [lia|]; intros ? _.
  apply HQ, be16_range.
Qed.

Lemma wp_BE_Uint32 b (Q : Z -> Prop) E :
  4 <= blen b -> (forall v, 0 <= v < 4294967296 -> Q v) -> wp (BE_Uint32 b) Q E.
Proof.
  intros Hb HQ. unfold BE_Uint32.
  do 4 (wp_step; apply wp_index; [lia|]; intros ? _).
  apply HQ.
  match goal with |- context [Z.lor (Z.shiftl ?a _) ?b] =>
    assert (0 <= a < 65536) by apply be16_range; assert (0 <= b < 65536) by apply be16_range
  end.
  rewrite lor_shiftl_add by lia. lia.
Qed.

Lemma BE_Uint32_put v rest :
  0 <= v < 4294967296 -> BE_Uint32 (putBE32 v ++ rest) = Ret v.
Proof.
  intros Hv. unfold BE_Uint32.
  assert (H : forall i, 0 <= i < 4 -> index (putBE32 v ++ rest) i = index (putBE32 v) i)
    by (intros; apply index_app_l; change (blen (putBE32 v)) with 4; lia).
  rewrite !H by lia.
  change (Ret (Z.lor (Z.shiftl (be16 (byteOf (Z.shiftr v 24)) (byteOf (Z.shiftr v 16))) 16)
    (be16 (byteOf (Z.shiftr v 8)) (byteOf v))) = Ret v). f_equal.
  pose proof (be16_putBE16 (Z.shiftr v 16)) as Hhi. rewrite Z.shiftr_shiftr in Hhi by lia.
  change (16 + 8) with 24 in Hhi. rewrite Hhi, be16_putBE16.
  pose proof (u16_range (Z.shiftr v 16)). pose proof (u16_range v).
  rewrite lor_shiftl_add by lia. unfold u16.
  rewrite Z.shiftr_div_pow2 by lia. change (2 ^ 16) with 65536.
  rewrite (Z.mod_small (v / 65536)) by (split; [apply Z.div_pos|apply Z.div_lt_upper_bound]; lia).
  pose proof (Z.div_mod v 65536). lia.
Qed.

(** ** Strings and byte slices *)

(** [[]byte(s)] and [string(b)] *)
Definition ofString (s : string) : bytes := list_byte_of_string s.
Definition toString (b : bytes) : string := string_of_list_byte b.

Lemma toString_ofString s : toString (ofString s) = s.
Proof. apply string_of_list_byte_of_string. Qed.

Lemma ofString_toString b : ofString (toString b) = b.
Proof. apply list_byte_of_string_of_list_byte. Qed.

Lemma toString_app a b : toString (a ++ b) = (toString a +:+ toString b)%string.
Proof.
  induction a as [|x a IH]; [done|].
  change (String (ascii_of_byte x) (toString (a ++ b)) = String (ascii_of_byte x) (toString a +:+ toString b)). by rewrite IH.
Qed.

Definition slen (s : string) : Z := Z.of_nat (String.length s).

Lemma blen_ofString s : blen (ofString s) = slen s.
Proof.
  unfold blen, slen, ofString. f_equal.
  induction s as [|c s IH]; cbn; [done|]. unfold list_byte_of_string in IH. by rewrite <- IH.
Qed.

Lemma slen_nonneg s : 0 <= slen s.
Proof. unfold slen. lia. Qed.

Lemma LE_Uint32_put v rest : LE_Uint32 (putLE32 v ++ rest) = Ret (u32 v).
Proof.
  assert (Hb : LE_Uint32 (putLE32 v ++ rest) = BE_Uint32 (putBE32 (u32 v) ++ [])).
  { unfold LE_Uint32, BE_Uint32.
    assert (H1 : forall i, 0 <= i < 4 -> index (putLE32 v ++ rest) i = index (putLE32 v) i)
      by (intros; apply index_app_l; change (blen (putLE32 v)) with 4; lia).
    rewrite !H1 by lia. rewrite app_nil_r.
    change (Ret (Z.lor (Z.shiftl (be16 (byteOf (Z.shiftr v 24)) (byteOf (Z.shiftr v 16))) 16)
      (be16 (byteOf (Z.shiftr v 8)) (byteOf v)))
    = Ret (Z.lor (Z.shiftl (be16 (byteOf (Z.shiftr (u32 v) 24)) (byteOf (Z.shiftr (u32 v) 16))) 16)
      (be16 (byteOf (Z.shiftr (u32 v) 8)) (byteOf (u32 v))))).
    assert (Hs : forall k, 0 <= k <= 24 -> byteOf (Z.shiftr (u32 v) k) = byteOf (Z.shiftr v k)).
    { intros k Hk. rewrite <- byteOf_mod, <- (byteOf_mod (Z.shiftr v k)). f_equal.
      change 256 with (2 ^ 8). apply Z.bits_inj'. intros n Hn. unfold u32.
      change 4294967296 with (2 ^ 32).
      destruct (decide (n < 8)).
      - rewrite !Z.mod_pow2_bits_low, !Z.shiftr_spec, Z.mod_pow2_bits_low by lia. done.
      - rewrite !Z.mod_pow2_bits_high by lia. done. }
    rewrite (Hs 24), (Hs 16), (Hs 8) by lia. specialize (Hs 0). rewrite !Z.shiftr_0_r in Hs.
    by rewrite Hs by lia. }
  rewrite Hb. apply BE_Uint32_put. unfold u32. apply Z.mod_pos_bound. lia.
Qed.

(** The first bytes of a string *)
Lemma slice_prefix {A} (a b : list A) n : n = blen a -> slice (a ++ b) 0 n = Ret a.
Proof. intros ->. apply (slice_mid [] a b); [done|]. rewrite blen_nil. lia. Qed.

(** A field of a record of fields *)
Lemma slice_field (fs : list bytes) i x lo hi : fs !! i = Some x -> lo = blen (concat (take i fs)) -> hi = lo + blen x ->
  slice (concat fs) lo hi = Ret x.
Proof.
  intros Hx -> ->. rewrite <- (take_drop_middle fs i x Hx) at 1. rewrite concat_app. cbn [concat]. by apply slice_mid.
Qed.

(** ** Automation *)

(** Lengths of concatenations: [autorewrite with blen]. *)
Create Rewrite HintDb blen.
#[export] Hint Rewrite @blen_app @blen_cons @blen_nil blen_putBE16 blen_ofString : blen.

(** Record the ranges of the machine integers the goal mentions. *)
Ltac know P := lazymatch goal with H : P |- _ => fail | _ => idtac end.
Ltac ranges :=
  repeat match goal with
    | |- context [bval ?b] => know (0 <= bval b < 256); pose proof (bval_range b)
    | |- context [be16 ?a ?b] => know (0 <= be16 a b < 65536); pose proof (be16_range a b)
    | |- context [be24 ?a ?b ?c] =>
        know (0 <= be24 a b c < 16777216); pose proof (be24_range a b c)
    | H : context [be16 ?a ?b] |- _ => know (0 <= be16 a b < 65536); pose proof (be16_range a b)
    | H : context [be24 ?a ?b ?c] |- _ =>
        know (0 <= be24 a b c < 16777216); pose proof (be24_range a b c)
    | H : context [bval ?b] |- _ => know (0 <= bval b < 256); pose proof (bval_range b)
    end.
Ltac blia := ranges; lia.

(** Run a parser symbolically: the code's guards are recorded as they are
    passed, and the bounds of each index and slice are proved from them. *)
Ltac wp_read :=
  lazymatch goal with
  | |- wp (index _ _) _ _ => apply wp_index; [blia|intros ? ?]
  | |- wp (slice _ _ _) _ _ => apply wp_slice; [blia|blia|blia|intros ?]
  | |- wp (sliceFrom _ _) _ _ => apply wp_sliceFrom; [blia|intros ?]
  | |- wp (BE_Uint16 _) _ _ => apply wp_BE_Uint16; [blia|intros ? ?]
  | |- wp (BE_Uint32 _) _ _ => apply wp_BE_Uint32; [blia|intros ? ?]
  | |- wp (let _ := _ in _) _ _ => cbv zeta
  end.
Ltac wp_run := repeat (first [wp_step | wp_read]; cbn beta iota; to_prop).

#[export] Hint Resolve blen_nonneg bval_range be16_range be24_range u16_range : netdoc.
