(* ===== verification/GoStrings.v ===== *)
(** The functions of Go's [strings], [strconv], [fmt] and [encoding/hex]
    packages that the modelled code uses, on strings as sequences of bytes.

    [ToLower], [ToUpper], [TrimSpace] and [Fields] treat the ASCII letters and
    the six ASCII white-space characters; bytes from 0x80 up are left as they
    are, where Go would also map the cased letters of other alphabets. *)

From Stdlib Require Import ZArith List String Ascii Strings.Byte Lia Bool.
From stdpp Require Import base list strings numbers.
From S2P Require Import Prelude Bytes.
Open Scope Z_scope.

#[global] Arguments String.append : simpl nomatch.

Definition code (c : ascii) : Z := Z.of_N (N_of_ascii c).

(** ** Case and white space *)

Definition lowerByte (c : ascii) : ascii :=
  if (65 <=? code c) && (code c <=? 90) then ascii_of_N (Z.to_N (code c + 32)) else c.
Definition upperByte (c : ascii) : ascii :=
  if (97 <=? code c) && (code c <=? 122) then ascii_of_N (Z.to_N (code c - 32)) else c.
Definition isSpace (c : ascii) : bool :=
  (code c =? 32) || ((9 <=? code c) && (code c <=? 13)).

Fixpoint mapString (f : ascii -> ascii) (s : string) : string :=
  match s with
  | EmptyString => EmptyString
  | String c s' => String (f c) (mapString f s')
  end.

Definition ToLower : string -> string := mapString lowerByte.
Definition ToUpper : string -> string := mapString upperByte.

Fixpoint forallString (p : ascii -> bool) (s : string) : bool :=
  match s with
  | EmptyString => true
  | String c s' => p c && forallString p s'
  end.

(** Bytes below 0x80, the ones the model of the case functions is exact on. *)
Definition isAscii : string -> bool := forallString (fun c => code c <? 128).

Fixpoint trimLeftFunc (p : ascii -> bool) (s : string) : string :=
  match s with
  | EmptyString => EmptyString
  | String c s' => if p c then trimLeftFunc p s' else s
  end.

Definition revString (s : string) : string :=
  string_of_list_ascii (rev (list_ascii_of_string s)).
Definition trimRightFunc (p : ascii -> bool) (s : string) : string :=
  revString (trimLeftFunc p (revString s)).

Definition TrimSpace (s : string) : string := trimRightFunc isSpace (trimLeftFunc isSpace s).

(** ** Searching *)

Definition HasPrefix (s p : string) : bool := String.prefix p s.
Definition HasSuffix (s p : string) : bool := String.prefix (revString p) (revString s).

Fixpoint Contains (s x : string) : bool :=
  String.prefix x s ||
  match s with
  | EmptyString => false
  | String _ s' => Contains s' x
  end.

Fixpoint dropString (n : nat) (s : string) : string :=
  match n, s with
  | S n', String _ s' => dropString n' s'
  | _, _ => s
  end.
Fixpoint takeString (n : nat) (s : string) : string :=
  match n, s with
  | S n', String c s' => String c (takeString n' s')
  | _, _ => EmptyString
  end.

Definition TrimPrefix (s p : string) : string :=
  if HasPrefix s p then dropString (String.length p) s else s.
Definition TrimSuffix (s p : string) : string :=
  if HasSuffix s p then takeString (String.length s - String.length p) s else s.

(** ** Splitting and joining *)

(** [strings.Split(s, sep)] for a one-byte separator *)
Fixpoint Split (s : string) (sep : ascii) : list string :=
  match s with
  | EmptyString => [EmptyString]
  | String c s' =>
      if Ascii.eqb c sep then EmptyString :: Split s' sep
      else match Split s' sep with
           | [] => [String c EmptyString]
           | w :: ws => String c w :: ws
           end
  end.

(** [strings.Fields(s)]: the non-empty pieces between white space *)
Fixpoint fieldsAcc (cur : string) (s : string) : list string :=
  match s with
  | EmptyString => if String.eqb cur "" then [] else [revString cur]
  | String c s' =>
      if isSpace c
      then if String.eqb cur "" then fieldsAcc "" s' else revString cur :: fieldsAcc "" s'
      else fieldsAcc (String c cur) s'
  end.
Definition Fields (s : string) : list string := fieldsAcc "" s.

Definition Join (l : list string) (sep : string) : string := String.concat sep l.

(** [strings.Cut(s, sep)] for a one-byte separator: before, after, found *)
Fixpoint Cut (s : string) (sep : ascii) : string * string * bool :=
  match s with
  | EmptyString => (EmptyString, EmptyString, false)
  | String c s' =>
      if Ascii.eqb c sep then (EmptyString, s', true)
      else let '(a, b, ok) := Cut s' sep in (String c a, b, ok)
  end.

Fixpoint Repeat (s : string) (n : nat) : string :=
  match n with O => EmptyString | S n' => s +:+ Repeat s n' end.

(** ** Numbers *)

Definition digitChar (d : Z) : ascii := ascii_of_N (Z.to_N (48 + d)).

Fixpoint decAcc (fuel : nat) (n : Z) (acc : string) : string :=
  match fuel with
  | O => acc
  | S f => if n <=? 0 then acc
           else decAcc f (n / 10) (String (digitChar (n mod 10)) acc)
  end.

(** [fmt.Sprintf("%d", n)].  The fuel, one unit per binary digit of [n] and one
    more, is at least the number of decimal digits. *)
Definition decNat (n : Z) : string :=
  if n =? 0 then "0"%string else decAcc (S (Z.to_nat (Z.log2 n))) n "".
Definition fmtD (n : Z) : string := if n <? 0 then ("-" +:+ decNat (- n))%string else decNat n.

(** The value of a string of decimal digits. *)
Fixpoint decValue (acc : Z) (s : string) : Z :=
  match s with
  | EmptyString => acc
  | String c s' => decValue (acc * 10 + (code c - 48)) s'
  end.

Definition isDigit (c : ascii) : bool := (48 <=? code c) && (code c <=? 57).

(** [strconv.Atoi]: the value, and whether the error is nil.  Next to the error the
    value is 0 for a syntax error and the bound for a number out of range. *)
Definition Atoi (s : string) : Z * bool :=
  let '(neg, digits) := match s with
    | String "-" r => (true, r)
    | String "+" r => (false, r)
    | _ => (false, s)
    end in
  if String.eqb digits "" || negb (forallString isDigit digits) then (0, false)
  else
    let n := decValue 0 digits in
    if neg then (if n <=? 2 ^ 63 then (- n, true) else (-2 ^ 63, false))
    else if n <? 2 ^ 63 then (n, true) else (2 ^ 63 - 1, false).

Definition hexChar (d : Z) : ascii :=
  if d <? 10 then ascii_of_N (Z.to_N (48 + d)) else ascii_of_N (Z.to_N (87 + d)).

(** [hex.EncodeToString(b)] *)
Definition hexByte (b : byte) : string :=
  String (hexChar (Z.shiftr (bval b) 4)) (String (hexChar (Z.land (bval b) 15)) "").
Definition hexEncode (b : bytes) : string := String.concat "" (map hexByte b).

(** [hex.DecodeString(s)], [None] for an error *)
Definition hexDigitVal (c : ascii) : option Z :=
  if (48 <=? code c) && (code c <=? 57) then Some (code c - 48)
  else if (97 <=? code c) && (code c <=? 102) then Some (code c - 87)
  else if (65 <=? code c) && (code c <=? 70) then Some (code c - 55)
  else None.
Fixpoint hexDecodeString (s : string) : option bytes :=
  match s with
  | EmptyString => Some []
  | String a (String b s') =>
      match hexDigitVal a, hexDigitVal b, hexDecodeString s' with
      | Some hi, Some lo, Some r => Some (byteOf (hi * 16 + lo) :: r)
      | _, _, _ => None
      end
  | String _ EmptyString => None
  end.

(** [%04x] of a [uint16]: the four hexadecimal digits *)
Definition hex16 (v : Z) : string :=
  String (hexChar (Z.land (Z.shiftr v 12) 15)) (String (hexChar (Z.land (Z.shiftr v 8) 15))
  (String (hexChar (Z.land (Z.shiftr v 4) 15)) (String (hexChar (Z.land v 15)) ""))).

(** ** Comparison: Go compares strings byte by byte *)

Definition strLt (a b : string) : bool :=
  match String.compare a b with Lt => true | _ => false end.

(** [sort.Strings(l)]: insertion sort gives the sorted permutation *)
Fixpoint insertString (x : string) (l : list string) : list string :=
  match l with
  | [] => [x]
  | y :: l' => if String.leb x y then x :: l else y :: insertString x l'
  end.
Definition sortStrings (l : list string) : list string := foldr insertString [] l.

(** ** Lemmas *)

Lemma list_ascii_inj s t : list_ascii_of_string s = list_ascii_of_string t -> s = t.
Proof.
  intros H. rewrite <- (string_of_list_ascii_of_string s), H.
  apply string_of_list_ascii_of_string.
Qed.

Lemma revString_involutive s : revString (revString s) = s.
Proof.
  unfold revString.
  by rewrite list_ascii_of_string_of_list_ascii, rev_involutive, string_of_list_ascii_of_string.
Qed.

Lemma mapString_mapString f g s : mapString f (mapString g s) = mapString (fun c => f (g c)) s.
Proof. induction s as [|c s IH]; cbn; [done|]. by rewrite IH. Qed.

Lemma mapString_ext f g s : (forall c, f c = g c) -> mapString f s = mapString g s.
Proof. intros H. induction s as [|c s IH]; cbn; [done|]. by rewrite IH, H. Qed.

Lemma lowerByte_idem c : lowerByte (lowerByte c) = lowerByte c.
Proof. by destruct c as [[] [] [] [] [] [] [] []]. Qed.

Lemma ToLower_idem s : ToLower (ToLower s) = ToLower s.
Proof. unfold ToLower. rewrite mapString_mapString. apply mapString_ext, lowerByte_idem. Qed.

Lemma length_mapString f s : String.length (mapString f s) = String.length s.
Proof. induction s as [|c s IH]; cbn; [done|]. by rewrite IH. Qed.

Lemma Split_nonempty s sep : Split s sep <> [].
Proof.
  destruct s as [|c s]; cbn; [done|].
  destruct (Ascii.eqb c sep); [done|]. by destruct (Split s sep).
Qed.

(** Joining the pieces of [Split] gives the string back. *)
Lemma Join_Split s sep : Join (Split s sep) (String sep "") = s.
Proof.
  unfold Join. induction s as [|c s IH]; cbn; [done|].
  destruct (Ascii.eqb_spec c sep) as [->|Hne].
  - destruct (Split s sep) as [|w ws] eqn:E; [by apply Split_nonempty in E|].
    cbn in *. by rewrite IH.
  - destruct (Split s sep) as [|w ws] eqn:E; [by apply Split_nonempty in E|].
    cbn in *. destruct ws; cbn in *; by rewrite <- IH.
Qed.

(** A string without the separator. *)
Definition lacks (sep : ascii) (s : string) : bool := forallString (fun c => negb (Ascii.eqb c sep)) s.

Lemma Split_lacks_app w s sep :
  lacks sep w = true -> Split (w +:+ String sep s) sep = w :: Split s sep.
Proof.
  induction w as [|c w IH]; cbn; intros H.
  - by rewrite Ascii.eqb_refl.
  - apply andb_true_iff in H as [Hc Hw]. apply negb_true_iff in Hc. rewrite Hc.
    unfold lacks in IH. rewrite IH; done.
Qed.

Lemma Split_lacks w sep : lacks sep w = true -> Split w sep = [w].
Proof.
  induction w as [|c w IH]; cbn; intros H; [done|].
  apply andb_true_iff in H as [Hc Hw]. apply negb_true_iff in Hc. rewrite Hc.
  unfold lacks in IH. by rewrite IH.
Qed.

(** Splitting a join of separator-free pieces gives the pieces back. *)
Lemma Split_Join l sep :
  l <> [] -> forallb (lacks sep) l = true -> Split (Join l (String sep "")) sep = l.
Proof.
  intros Hne Hl. unfold Join. induction l as [|w [|w' l] IH]; [done| |].
  - cbn in *. apply andb_true_iff in Hl as [Hw _]. by apply Split_lacks.
  - cbn [forallb] in Hl. apply andb_true_iff in Hl as [Hw Hl].
    change (String.concat (String sep "") (w :: w' :: l))
      with (w +:+ String sep (String.concat (String sep "") (w' :: l))).
    rewrite Split_lacks_app by done. f_equal. by apply IH.
Qed.

Lemma forallString_app p s t :
  forallString p (s +:+ t) = forallString p s && forallString p t.
Proof. induction s as [|c s IH]; cbn; [done|]. rewrite IH. by rewrite andb_assoc. Qed.

Lemma length_appString s t : String.length (s +:+ t) = (String.length s + String.length t)%nat.
Proof. induction s as [|c s IH]; cbn; [done|]. by rewrite IH. Qed.

(** ** Decimal printing *)

Lemma code_digitChar d : 0 <= d < 10 -> code (digitChar d) = 48 + d.
Proof. intros Hd. unfold code, digitChar. rewrite N_ascii_embedding; lia. Qed.

Lemma decValue_decAcc fuel n acc a :
  0 <= n < 2 ^ Z.of_nat fuel ->
  decValue a (decAcc fuel n acc) = decValue (a * 10 ^ Z.of_nat (String.length (decAcc fuel n acc)
     - String.length acc) + n) acc.
Proof.
  revert n acc a. induction fuel as [|fuel IH]; intros n acc a Hn.
  - cbn. replace n with 0 by (cbn in Hn; lia). rewrite Nat.sub_diag. cbn. f_equal. lia.
  - cbn [decAcc]. destruct (n <=? 0) eqn:E; to_prop.
    + replace n with 0 by lia. rewrite Nat.sub_diag. cbn. f_equal. lia.
    + rewrite IH; cycle 1.
      { rewrite Nat2Z.inj_succ, Z.pow_succ_r in Hn by lia.
        split; [apply Z.div_pos; lia|apply Z.div_lt_upper_bound; lia]. }
      pose proof (Z.mod_pos_bound n 10 ltac:(lia)).
      cbn [decValue]. rewrite code_digitChar by lia. f_equal.
      assert (Hlen : forall f m s, (String.length s <= String.length (decAcc f m s))%nat).
      { induction f as [|f IHf]; intros m s; cbn; [lia|].
        destruct (m <=? 0); [lia|]. specialize (IHf (m / 10) (String (digitChar (m mod 10)) s)).
        cbn in IHf. lia. }
      specialize (Hlen fuel (n / 10) (String (digitChar (n mod 10)) acc)). cbn in Hlen.
      cbn [String.length].
      replace (Z.of_nat (String.length (decAcc fuel (n / 10) (String (digitChar (n mod 10)) acc))
                - String.length acc))
        with (Z.succ (Z.of_nat (String.length (decAcc fuel (n / 10) (String (digitChar (n mod 10)) acc))
                - S (String.length acc)))) by lia.
      rewrite Z.pow_succ_r by lia. pose proof (Z.div_mod n 10). lia.
Qed.

Lemma decValue_decNat n : 0 <= n -> decValue 0 (decNat n) = n.
Proof.
  intros Hn. unfold decNat. destruct (n =? 0) eqn:E; to_prop; [by subst|].
  rewrite decValue_decAcc.
  - cbn [decValue]. lia.
  - rewrite Nat2Z.inj_succ, Z2Nat.id by apply Z.log2_nonneg.
    split; [lia|]. apply Z.log2_spec. lia.
Qed.

Lemma forallString_decNat n : 0 <= n -> forallString isDigit (decNat n) = true.
Proof.
  intros Hn. unfold decNat. destruct (n =? 0) eqn:E; [done|]. to_prop.
  assert (Hg : forall fuel m acc, 0 <= m -> forallString isDigit acc = true -> forallString isDigit (decAcc fuel m acc) = true).
  { induction fuel as [|fuel IH]; intros m acc Hm Ha; [done|]. cbn [decAcc]. destruct (m <=? 0) eqn:Em; [done|]. to_prop.
    pose proof (Z.mod_pos_bound m 10 ltac:(lia)). apply IH; [apply Z.div_pos; lia|]. cbn [forallString]. rewrite Ha, andb_true_r.
    unfold isDigit. rewrite code_digitChar by lia. apply andb_true_iff. split; apply Z.leb_le; lia. }
  by apply Hg.
Qed.

Lemma Atoi_decNat n : 0 <= n < 2 ^ 63 -> Atoi (decNat n) = (n, true).
Proof.
  intros Hn. pose proof (forallString_decNat n ltac:(lia)) as Hd. pose proof (decValue_decNat n ltac:(lia)) as Hv.
  unfold Atoi. destruct (decNat n) as [|c r] eqn:E.
  { unfold decNat in E. destruct (n =? 0) eqn:En; [done|]. to_prop. cbn [decValue] in Hv. lia. }
  pose proof Hd as Hd'. cbn [forallString] in Hd. apply andb_true_iff in Hd as [Hc _].
  assert (Hs : match String c r with String "-" r => (true, r) | String "+" r => (false, r) | _ => (false, String c r) end = (false, String c r)).
  { destruct c as [[|] [|] [|] [|] [|] [|] [|] [|]]; by vm_compute in Hc. }
  rewrite Hs, Hd', Hv. cbn [String.eqb orb negb]. by rewrite (proj2 (Z.ltb_lt n (2 ^ 63))) by lia.
Qed.

Lemma decNat_inj m n : 0 <= m -> 0 <= n -> decNat m = decNat n -> m = n.
Proof. intros Hm Hn H. rewrite <- (decValue_decNat m), <- (decValue_decNat n) by done. by rewrite H. Qed.

Lemma hexChar_inj a b : 0 <= a < 16 -> 0 <= b < 16 -> hexChar a = hexChar b -> a = b.
Proof.
  intros Ha Hb H. apply (f_equal code) in H. unfold code, hexChar in H.
  destruct (a <? 10) eqn:?, (b <? 10) eqn:?; to_prop;
    rewrite !N_ascii_embedding in H by lia; lia.
Qed.

(** ** Sorting *)

Lemma insertString_Permutation x l : Permutation (x :: l) (insertString x l).
Proof.
  induction l as [|y l IH]; cbn; [done|].
  destruct (String.leb x y); [done|].
  etransitivity; [apply perm_swap|]. by apply perm_skip.
Qed.

Lemma sortStrings_Permutation l : Permutation l (sortStrings l).
Proof.
  induction l as [|x l IH]; cbn; [done|].
  etransitivity; [by apply perm_skip|]. apply insertString_Permutation.
Qed.

#[export] Hint Rewrite ToLower_idem revString_involutive toString_ofString ofString_toString
  length_mapString : netdoc.

(** ** Lengths and separators *)

Lemma length_takeString n s : String.length (takeString n s) = Nat.min n (String.length s).
Proof. revert s. induction n as [|n IH]; intros [|c s]; cbn; auto. Qed.

Lemma length_dropString n s : String.length (dropString n s) = (String.length s - n)%nat.
Proof. revert s. induction n as [|n IH]; intros [|c s]; cbn; try lia. apply IH. Qed.

Lemma appString_nil s : (s +:+ "")%string = s.
Proof. induction s as [|c s IH]; [done|]. cbn. by rewrite IH. Qed.

Lemma appString_assoc a b c : (a +:+ b +:+ c)%string = ((a +:+ b) +:+ c)%string.
Proof. induction a as [|x a IH]; [done|]. cbn. by rewrite IH. Qed.

Lemma takeString_all n s : (String.length s <= n)%nat -> takeString n s = s.
Proof. revert n. induction s as [|c s IH]; intros [|n] Hn; cbn in *; try lia; [done..|]. by rewrite IH by lia. Qed.

Lemma takeString_app x t : takeString (String.length x) (x +:+ t) = x.
Proof. induction x as [|c x IH]; [by destruct t|]. cbn. by rewrite IH. Qed.

Lemma dropString_app x t : dropString (String.length x) (x +:+ t) = t.
Proof. induction x as [|c x IH]; [by destruct t|]. cbn. apply IH. Qed.

Lemma length_Repeat c n : String.length (Repeat (String c "") n) = n.
Proof. induction n as [|n IH]; cbn; congruence. Qed.

Lemma concat_empty_cons x l : String.concat "" (x :: l) = (x +:+ String.concat "" l)%string.
Proof. destruct l as [|y l]; [|done]. cbn. by induction x as [|c x IH]; cbn; [|rewrite <- IH]. Qed.

Lemma length_hexEncode b : String.length (hexEncode b) = (2 * length b)%nat.
Proof.
  unfold hexEncode. induction b as [|x b IH]; [done|]. cbn [map].
  rewrite concat_empty_cons, length_appString, IH. cbn. lia.
Qed.

(** Pieces of [Split] are counted by the separators. *)
Fixpoint countChar (c : ascii) (s : string) : nat :=
  match s with
  | EmptyString => O
  | String x s => (if Ascii.eqb x c then 1 else 0) + countChar c s
  end.

Lemma length_Split s sep : length (Split s sep) = S (countChar sep s).
Proof.
  induction s as [|x s IH]; [done|]. cbn [Split countChar].
  destruct (Ascii.eqb x sep); cbn [length]; [by rewrite IH|].
  destruct (Split s sep) as [|p l] eqn:E; [by apply Split_nonempty in E|]. cbn in *. lia.
Qed.

Lemma countChar_app c s t : countChar c (s +:+ t) = (countChar c s + countChar c t)%nat.
Proof. induction s as [|x s IH]; [done|]. cbn. rewrite IH. lia. Qed.

Lemma countChar_Join c l :
  l <> [] -> countChar c (Join l (String c "")) =
  (length l - 1 + list_sum (map (countChar c) l))%nat.
Proof.
  intros Hl. induction l as [|x l IH]; [done|]. destruct l as [|y l]; [cbn; lia|].
  change (Join (x :: y :: l) (String c ""))
    with (x +:+ String c "" +:+ Join (y :: l) (String c ""))%string.
  rewrite !countChar_app, IH by done.
  change (list_sum (map (countChar c) (x :: y :: l)))
    with (countChar c x + list_sum (map (countChar c) (y :: l)))%nat.
  cbn [length countChar]. rewrite Ascii.eqb_refl. lia.
Qed.

Lemma lacks_count c s : lacks c s = true <-> countChar c s = O.
Proof.
  unfold lacks. induction s as [|x s IH]; cbn [forallString countChar]; [done|].
  destruct (Ascii.eqb x c); cbn; [split; [done|lia]|]. by rewrite IH.
Qed.

(** ** [sort.Strings] depends only on what is in the list *)

Lemma strLeb_cons x a y b :
  String.leb (String x a) (String y b) =
  match N.compare (N_of_ascii x) (N_of_ascii y) with Lt => true | Eq => String.leb a b | Gt => false end.
Proof. unfold String.leb. cbn. unfold Ascii.compare. by destruct (N.compare _ _). Qed.

Lemma strLeb_trans a b c : String.leb a b = true -> String.leb b c = true -> String.leb a c = true.
Proof.
  revert b c. induction a as [|x a IH]; intros [|y b] [|z c]; rewrite ?strLeb_cons; try done.
  intros H1 H2.
  destruct (N.compare_spec (N_of_ascii x) (N_of_ascii y)) as [E1|E1|E1],
    (N.compare_spec (N_of_ascii y) (N_of_ascii z)) as [E2|E2|E2]; try done;
    destruct (N.compare_spec (N_of_ascii x) (N_of_ascii z)) as [E3|E3|E3]; try done; try lia.
  eauto.
Qed.

Lemma insertString_comm x y l :
  insertString x (insertString y l) = insertString y (insertString x l).
Proof.
  assert (Hanti : forall a b, String.leb a b = true -> String.leb b a = true -> a = b)
    by (intros; by apply String.leb_antisym).
  assert (Htot : forall a b, String.leb a b = false -> String.leb b a = true)
    by (intros a b H; destruct (String.leb_total a b); congruence).
  induction l as [|z l IH]; cbn [insertString].
  - destruct (String.leb x y) eqn:E1, (String.leb y x) eqn:E2; try done.
    + by rewrite (Hanti x y).
    + apply Htot in E1. congruence.
  - destruct (String.leb x z) eqn:Exz, (String.leb y z) eqn:Eyz; cbn [insertString].
    + destruct (String.leb x y) eqn:E1, (String.leb y x) eqn:E2; rewrite ?Exz, ?Eyz; try done.
      * by rewrite (Hanti x y).
      * apply Htot in E1. congruence.
    + rewrite Exz. cbn [insertString].
      destruct (String.leb y x) eqn:E; [by rewrite (strLeb_trans y x z) in Eyz|]. by rewrite Eyz.
    + rewrite Eyz. cbn [insertString].
      destruct (String.leb x y) eqn:E; [by rewrite (strLeb_trans x y z) in Exz|]. by rewrite Exz.
    + by rewrite Exz, Eyz, IH.
Qed.

Lemma sortStrings_perm l l' : Permutation l l' -> sortStrings l = sortStrings l'.
Proof.
  unfold sortStrings. induction 1 as [|x l l' _ IH|x y l|l l2 l3 _ IH1 _ IH2]; cbn [foldr];
    [done|by rewrite IH|apply insertString_comm|congruence].
Qed.

(** ** Strict order on strings *)

Lemma strLt_leb a b : strLt a b = negb (String.leb b a).
Proof.
  unfold strLt, String.leb. rewrite (String.compare_antisym a b). by destruct (String.compare b a).
Qed.

Lemma strLt_irrefl a : strLt a a = false.
Proof. rewrite strLt_leb. destruct (String.leb_total a a) as [E|E]; by rewrite E. Qed.

Lemma strLt_trans a b c : strLt a b = true -> strLt b c = true -> strLt a c = true.
Proof.
  rewrite !strLt_leb, !negb_true_iff. intros H1 H2.
  destruct (String.leb c a) eqn:E; [|done]. exfalso.
  destruct (String.leb_total b c) as [H|H]; [|congruence].
  by rewrite (strLeb_trans b c a) in H1.
Qed.

Lemma strLt_cases a b : a = b \/ strLt a b = true \/ strLt b a = true.
Proof.
  rewrite !strLt_leb. destruct (String.leb b a) eqn:E1, (String.leb a b) eqn:E2; cbn; auto.
  left. by apply String.leb_antisym.
Qed.

Lemma strLt_asym a b : strLt a b = true -> strLt b a = false.
Proof.
  intros H. destruct (strLt b a) eqn:E; [|done].
  pose proof (strLt_trans a b a H E). by rewrite strLt_irrefl in *.
Qed.

Lemma strLt_total a b : a <> b -> strLt a b = true \/ strLt b a = true.
Proof. intros Hne. by destruct (strLt_cases a b). Qed.
