(* ===== verification/Text.v ===== *)
(** Facts about strings: white space and tokens, trimming, fields, separators. *)

From Stdlib Require Import ZArith List String Ascii Lia Bool.
From stdpp Require Import base list strings.
From S2P Require Import Prelude GoStrings.
Open Scope Z_scope.

(** A token: not empty, without white space. *)
Definition tokenOk (s : string) : Prop :=
  s <> ""%string /\ forallString (fun c => negb (isSpace c)) s = true.
Definition spaces (s : string) : Prop := forallString isSpace s = true.

Lemma revString_app s t : revString (s +:+ t) = (revString t +:+ revString s)%string.
Proof.
  unfold revString.
  assert (Hl : forall u v, list_ascii_of_string (u +:+ v) = list_ascii_of_string u ++ list_ascii_of_string v)
    by (induction u as [|c u IH]; intros v; cbn; [done|by rewrite IH]).
  assert (Hs : forall u v, string_of_list_ascii (u ++ v) = (string_of_list_ascii u +:+ string_of_list_ascii v)%string)
    by (induction u as [|c u IH]; intros v; cbn; [done|by rewrite IH]).
  by rewrite Hl, rev_app_distr, Hs.
Qed.

Lemma forallString_revString p s : forallString p (revString s) = forallString p s.
Proof.
  induction s as [|c s IH]; [done|].
  change (String c s) with (String c "" +:+ s)%string. rewrite revString_app, !forallString_app, IH.
  change (revString (String c "")) with (String c ""). apply andb_comm.
Qed.

Lemma trimLeft_spaces a s : spaces a -> trimLeftFunc isSpace (a +:+ s) = trimLeftFunc isSpace s.
Proof.
  unfold spaces. induction a as [|c a IH]; [done|]. cbn. intros [Hc Ha]%andb_prop. rewrite Hc. by apply IH.
Qed.

Lemma trimLeft_token s t : tokenOk s -> trimLeftFunc isSpace (s +:+ t) = (s +:+ t)%string.
Proof.
  intros [Hne Hs]. destruct s as [|c s]; [done|]. cbn in *.
  apply andb_prop in Hs as [Hc _]. apply negb_true_iff in Hc. by rewrite Hc.
Qed.

Lemma tokenOk_rev s : tokenOk s -> tokenOk (revString s).
Proof.
  intros [Hne Hs]. split; [|by rewrite forallString_revString].
  intros E. apply Hne. by rewrite <- (revString_involutive s), E.
Qed.

(** The first and the last token of a rendered list. *)
Lemma Join_tokens_ends ts :
  Forall tokenOk ts -> ts <> [] ->
  (exists t u, Join ts " " = (t +:+ u)%string /\ tokenOk t) /\
  (exists t u, Join ts " " = (u +:+ t)%string /\ tokenOk t).
Proof.
  intros Ht Hne. induction Ht as [|t ts Htok Hts IH]; [done|].
  destruct ts as [|t2 ts].
  - split; [exists t, ""%string|exists t, ""%string]; cbn; by rewrite ?appString_nil.
  - destruct (IH ltac:(done)) as [_ (t' & u & Hj & Ht')].
    change (Join (t :: t2 :: ts) " ") with (t +:+ " " +:+ Join (t2 :: ts) " ")%string. split.
    + by exists t, (" " +:+ Join (t2 :: ts) " ")%string.
    + exists t', (t +:+ " " +:+ u)%string. rewrite Hj, <- !appString_assoc. done.
Qed.

Lemma TrimSpace_segment a b ts :
  spaces a -> spaces b -> Forall tokenOk ts -> ts <> [] ->
  TrimSpace (a +:+ Join ts " " +:+ b) = Join ts " ".
Proof.
  intros Ha Hb Ht Hne. destruct (Join_tokens_ends ts Ht Hne) as [(t & u & Hj & Htok) (t' & u' & Hj' & Htok')].
  unfold TrimSpace, trimRightFunc. rewrite trimLeft_spaces by done.
  rewrite Hj, <- appString_assoc, trimLeft_token, appString_assoc, <- Hj by done.
  rewrite revString_app, trimLeft_spaces by (unfold spaces; by rewrite forallString_revString).
  rewrite Hj', revString_app, trimLeft_token by by apply tokenOk_rev.
  by rewrite <- revString_app, revString_involutive.
Qed.

Lemma fieldsAcc_token t : forall cur s,
  forallString (fun c => negb (isSpace c)) t = true ->
  fieldsAcc cur (t +:+ s) = fieldsAcc (revString t +:+ cur) s.
Proof.
  induction t as [|c t IH]; intros cur s Ht; [done|]. cbn in Ht.
  apply andb_prop in Ht as [Hc Ht]. apply negb_true_iff in Hc.
  change (String c t +:+ s)%string with (String c (t +:+ s)). cbn [fieldsAcc]. rewrite Hc, IH by done.
  change (String c t) with (String c "" +:+ t)%string. rewrite revString_app, <- appString_assoc. done.
Qed.

Lemma Fields_Join ts : Forall tokenOk ts -> Fields (Join ts " ") = ts.
Proof.
  unfold Fields. induction 1 as [|t ts [Hne Ht] _ IH]; [done|].
  assert (Hcur : String.eqb (revString t) "" = false).
  { apply String.eqb_neq. intros E. apply Hne. by rewrite <- (revString_involutive t), E. }
  destruct ts as [|t2 ts].
  - change (Join [t] " ") with t. rewrite <- (appString_nil t) at 1.
    rewrite fieldsAcc_token, appString_nil by done. cbn. by rewrite Hcur, revString_involutive.
  - change (Join (t :: t2 :: ts) " ") with (t +:+ " " +:+ Join (t2 :: ts) " ")%string.
    rewrite fieldsAcc_token, appString_nil by done.
    change (" " +:+ Join (t2 :: ts) " ")%string with (String " " (Join (t2 :: ts) " ")).
    cbn [fieldsAcc]. change (isSpace " ") with true. cbn iota.
    by rewrite Hcur, revString_involutive, IH.
Qed.

Lemma forallString_impl p q s : (forall c, p c = true -> q c = true) -> forallString p s = true -> forallString q s = true.
Proof. intros Hi. induction s as [|c s IH]; [done|]. cbn. intros [? ?]%andb_true_iff. by rewrite Hi, IH. Qed.

Lemma lacks_decNat c n : 0 <= n -> isDigit c = false -> lacks c (decNat n) = true.
Proof.
  intros Hn Hc. eapply forallString_impl; [|by apply forallString_decNat]. intros x Hx.
  destruct (Ascii.eqb_spec x c) as [->|]; [congruence|done].
Qed.

Lemma lacks_app c a b : lacks c (a +:+ b) = lacks c a && lacks c b.
Proof. apply forallString_app. Qed.

Lemma prefix_lacks c u v s : lacks c s = true -> String.prefix (u +:+ String c v) s = false.
Proof.
  revert s. induction u as [|x u IH]; intros [|y s] Hs; [done| |done|]; unfold lacks in Hs; cbn [forallString] in Hs;
    apply andb_true_iff in Hs as [Hy Hs]; cbn.
  - destruct (ascii_dec c y) as [->|]; [by rewrite Ascii.eqb_refl in Hy|done].
  - destruct (ascii_dec x y); [|done]. by apply IH.
Qed.

(** A string without some character of the pattern does not contain the pattern. *)
Lemma not_Contains c u v s : lacks c s = true -> Contains s (u +:+ String c v) = false.
Proof.
  induction s as [|x s IH]; intros Hs; [by destruct u|].
  pose proof (prefix_lacks c u v _ Hs) as Hp. unfold lacks in Hs. cbn [forallString] in Hs. apply andb_true_iff in Hs as [_ Hs].
  cbn [Contains]. by rewrite Hp, IH.
Qed.

Lemma HasPrefix_app w t : HasPrefix (w +:+ t) w = true.
Proof. unfold HasPrefix. induction w as [|c w IH]; [by destruct t|]. cbn. by destruct (ascii_dec c c). Qed.

Lemma HasPrefix_nil s : HasPrefix s "" = true.
Proof. by destruct s. Qed.

Lemma Cut_app a c b : lacks c a = true -> Cut (a +:+ String c b) c = (a, b, true).
Proof.
  induction a as [|x a IH]; unfold lacks; cbn [forallString]; [intros _; cbn; by rewrite Ascii.eqb_refl|].
  intros [Hx Ha]%andb_true_iff. cbn. apply negb_true_iff in Hx as ->. by rewrite IH.
Qed.

Lemma Cut_none s c : lacks c s = true -> Cut s c = (s, ""%string, false).
Proof.
  induction s as [|x s IH]; [done|]. unfold lacks. cbn [forallString]. intros [Hx Hs]%andb_true_iff. cbn. apply negb_true_iff in Hx as ->. by rewrite IH.
Qed.

Definition noSpace (s : string) : bool := forallString (fun c => negb (isSpace c)) s.

Lemma trimLeft_noSpace s : noSpace s = true -> trimLeftFunc isSpace s = s.
Proof.
  destruct s as [|c s]; [done|]. cbn. intros [Hc _]%andb_prop. apply negb_true_iff in Hc. by rewrite Hc.
Qed.

Lemma TrimSpace_noSpace s : noSpace s = true -> TrimSpace s = s.
Proof.
  intros Hs. unfold TrimSpace, trimRightFunc. rewrite (trimLeft_noSpace s) by done.
  rewrite trimLeft_noSpace; [apply revString_involutive|].
  unfold noSpace in *. by rewrite forallString_revString.
Qed.

(** A string that neither starts nor ends with white space *)
Definition trimmed (s : string) : bool :=
  String.eqb (trimLeftFunc isSpace s) s && String.eqb (trimLeftFunc isSpace (revString s)) (revString s).

Lemma trimLeft_app s t : s <> ""%string -> trimLeftFunc isSpace s = s -> trimLeftFunc isSpace (s +:+ t) = (s +:+ t)%string.
Proof.
  destruct s as [|c s]; [done|]. intros _. cbn. destruct (isSpace c); [|done]. intros E.
  assert (Hl : forall u, (String.length (trimLeftFunc isSpace u) <= String.length u)%nat)
    by (induction u as [|d u IH]; [done|]; cbn; destruct (isSpace d); cbn; lia).
  specialize (Hl s). rewrite E in Hl. cbn in Hl. lia.
Qed.

Lemma trimLeft_all s : spaces s -> trimLeftFunc isSpace s = ""%string.
Proof. intros Hs. rewrite <- (appString_nil s), trimLeft_spaces; done. Qed.

Lemma revString_nil s : revString s = ""%string -> s = ""%string.
Proof. intros E. by rewrite <- (revString_involutive s), E. Qed.

Lemma TrimSpace_pad a s b : spaces a -> spaces b -> trimmed s = true -> TrimSpace (a +:+ s +:+ b) = s.
Proof.
  intros Ha Hb [Hl%String.eqb_eq Hr%String.eqb_eq]%andb_true_iff.
  unfold TrimSpace, trimRightFunc. rewrite trimLeft_spaces by done.
  destruct (String.eqb_spec s "") as [->|Hne].
  { change ("" +:+ b)%string with b. rewrite (trimLeft_all b Hb). reflexivity. }
  rewrite trimLeft_app, revString_app, trimLeft_spaces by (try done; unfold spaces; by rewrite forallString_revString).
  by rewrite Hr, revString_involutive.
Qed.

Lemma TrimSpace_trimmed s : trimmed s = true -> TrimSpace s = s.
Proof. intros Hs. rewrite <- (TrimSpace_pad "" s "") at 2 by done. by rewrite appString_nil. Qed.

Lemma spaces_app a b : spaces a -> spaces b -> spaces (a +:+ b).
Proof. unfold spaces. intros Ha Hb. by rewrite forallString_app, Ha, Hb. Qed.

(** ** White space around the elements of a list *)

Lemma trimLeft_last p x s : p x = false -> trimLeftFunc p (s +:+ String x "") = (trimLeftFunc p s +:+ String x "")%string.
Proof. intros Hx. induction s as [|y s IH]; cbn; [by rewrite Hx|]. by destruct (p y). Qed.

(** Trimming on the right does not reach past a character that stays. *)
Lemma trimRight_cons p x s : p x = false -> trimRightFunc p (String x s) = String x (trimRightFunc p s).
Proof.
  intros Hx. unfold trimRightFunc. change (String x s) with (String x "" +:+ s)%string. rewrite revString_app.
  change (revString (String x "")) with (String x ""). rewrite trimLeft_last by done. by rewrite revString_app.
Qed.

Lemma trimLeft_split p s : exists sp, forallString p sp = true /\ s = (sp +:+ trimLeftFunc p s)%string.
Proof.
  induction s as [|c s (sp & Hsp & Hs)]; [by exists ""%string|]. cbn [trimLeftFunc]. destruct (p c) eqn:Ec; [|by exists ""%string].
  exists (String c sp). cbn. by rewrite Ec, Hsp, <- Hs.
Qed.

Lemma trimRight_split p s : exists sp, forallString p sp = true /\ s = (trimRightFunc p s +:+ sp)%string.
Proof.
  destruct (trimLeft_split p (revString s)) as (sp & Hsp & Hs). exists (revString sp). rewrite forallString_revString. split; [done|].
  unfold trimRightFunc. rewrite <- revString_app, <- Hs. by rewrite revString_involutive.
Qed.

Lemma trimLeft_TrimSpace s : TrimSpace (trimLeftFunc isSpace s) = TrimSpace s.
Proof.
  unfold TrimSpace. f_equal. destruct (trimLeftFunc isSpace s) as [|c t] eqn:E; [done|]. cbn. assert (Hc : isSpace c = false).
  { clear -E. induction s as [|d s IH]; [done|]. cbn in E. destruct (isSpace d) eqn:Ed; [by apply IH|]. by injection E as <- _. }
  by rewrite Hc.
Qed.

Lemma TrimSpace_right t sp : spaces sp -> TrimSpace (t +:+ sp) = TrimSpace t.
Proof.
  intros Hsp. rewrite <- (trimLeft_TrimSpace (t +:+ sp)), <- (trimLeft_TrimSpace t).
  induction t as [|c t IH]; [change ("" +:+ sp)%string with sp; by rewrite (trimLeft_all sp)|]. cbn [append trimLeftFunc]. destruct (isSpace c) eqn:Ec; [exact IH|].
  unfold TrimSpace. cbn [trimLeftFunc]. rewrite Ec. unfold trimRightFunc. change (String c (t +:+ sp)) with (String c t +:+ sp)%string.
  rewrite revString_app, (trimLeft_spaces (revString sp)); [done|]. unfold spaces. by rewrite forallString_revString.
Qed.

Lemma TrimSpace_left sp t : spaces sp -> TrimSpace (sp +:+ t) = TrimSpace t.
Proof. intros Hsp. rewrite <- (trimLeft_TrimSpace (sp +:+ t)), trimLeft_spaces by done. apply trimLeft_TrimSpace. Qed.

Lemma TrimSpace_idem s : TrimSpace (TrimSpace s) = TrimSpace s.
Proof.
  rewrite <- (trimLeft_TrimSpace s). destruct (trimRight_split isSpace (trimLeftFunc isSpace s)) as (sp & Hsp & Ht).
  rewrite Ht at 2. rewrite TrimSpace_right by done. rewrite trimLeft_TrimSpace. done.
Qed.

Lemma spaces_Split c sp : isSpace c = false -> spaces sp -> Split sp c = [sp].
Proof.
  intros Hc. induction sp as [|x sp IH]; [done|]. intros [Hx Hsp]%andb_true_iff. cbn. destruct (Ascii.eqb_spec x c) as [->|_]; [congruence|].
  by rewrite IH.
Qed.

(** White space around a list is white space around its first and last element. *)
Lemma Split_trimLeft c s : isSpace c = false -> map TrimSpace (Split (trimLeftFunc isSpace s) c) = map TrimSpace (Split s c).
Proof.
  intros Hc. induction s as [|x s IH]; [done|]. cbn [trimLeftFunc]. destruct (isSpace x) eqn:Ex; [|done]. rewrite IH. cbn [Split].
  destruct (Ascii.eqb_spec x c) as [->|_]; [congruence|]. destruct (Split s c) as [|w ws] eqn:Es; [by destruct s; cbn in Es; repeat case_match|].
  cbn [map]. f_equal. rewrite <- (trimLeft_TrimSpace (String x w)). cbn [trimLeftFunc]. rewrite Ex. by rewrite trimLeft_TrimSpace.
Qed.

Lemma Split_right c t sp : isSpace c = false -> spaces sp -> exists ws w, Split t c = ws ++ [w] /\ Split (t +:+ sp) c = ws ++ [(w +:+ sp)%string].
Proof.
  intros Hc Hsp. induction t as [|x t (ws & w & Ht & Hts)].
  - exists [], ""%string. split; [done|]. by apply spaces_Split.
  - cbn [append Split]. rewrite Ht, Hts. destruct (Ascii.eqb x c); [by exists (""%string :: ws), w|].
    destruct ws as [|v ws]; cbn [app]; [by exists [], (String x w)|by exists (String x v :: ws), w].
Qed.

Lemma Split_TrimSpace c s : isSpace c = false -> map TrimSpace (Split (TrimSpace s) c) = map TrimSpace (Split s c).
Proof.
  intros Hc. rewrite <- (Split_trimLeft c s) by done. unfold TrimSpace at 2. set (t := trimLeftFunc isSpace s).
  destruct (trimRight_split isSpace t) as (sp & Hsp & Ht). rewrite Ht at 2.
  destruct (Split_right c (trimRightFunc isSpace t) sp Hc Hsp) as (ws & w & -> & ->). rewrite !map_app. cbn. by rewrite TrimSpace_right.
Qed.

Lemma Contains_mid a x b : Contains (a +:+ x +:+ b) x = true.
Proof.
  induction a as [|c a IH]; cbn [append].
  - change ("" +:+ x +:+ b)%string with (x +:+ b)%string. pose proof (HasPrefix_app x b) as Hp. unfold HasPrefix in Hp. destruct (x +:+ b)%string; cbn [Contains]; by rewrite Hp.
  - cbn [Contains]. by rewrite IH, orb_true_r.
Qed.
