(* ===== verification/Base64.v ===== *)
(** Go's [encoding/base64] in its two alphabets, with padding: the decoder of DKIM keys
    and the encoder of fingerprints, and that each undoes the other. *)

From Stdlib Require Import ZArith List String Ascii Strings.Byte Lia Bool.
From stdpp Require Import base list strings.
From S2P Require Import Prelude Bytes GoStrings Text.
Open Scope Z_scope.

(** The 64 characters of an alphabet: [StdEncoding] and [URLEncoding] differ in the last two. *)
Definition alphabet (url : bool) : list ascii :=
  list_ascii_of_string ("ABCDEFGHIJKLMNOPQRSTUVWXYZabcdefghijklmnopqrstuvwxyz0123456789" +:+ (if url then "-_" else "+/"))%string.

Fixpoint indexOf (c : ascii) (l : list ascii) : option Z :=
  match l with
  | [] => None
  | x :: l => if Ascii.eqb x c then Some 0 else Z.succ <$> indexOf c l
  end.

Definition decodeChar (url : bool) (c : ascii) : option Z := indexOf c (alphabet url).

(** The three bytes of four digits *)
Definition quantum (x y z w : Z) : bytes :=
  let v := Z.lor (Z.lor (Z.lor (Z.shiftl x 18) (Z.shiftl y 12)) (Z.shiftl z 6)) w in
  [byteOf (Z.shiftr v 16); byteOf (Z.shiftr v 8); byteOf v].

Fixpoint decodeQuanta (url : bool) (s : string) : option bytes :=
  match s with
  | EmptyString => Some []
  | String a (String b (String c (String d rest))) =>
      match decodeChar url a, decodeChar url b with
      | Some x, Some y =>
          if Ascii.eqb c "=" then
            if Ascii.eqb d "=" && String.eqb rest "" then Some (take 1 (quantum x y 0 0)) else None
          else
            match decodeChar url c with
            | None => None
            | Some z =>
                if Ascii.eqb d "=" then if String.eqb rest "" then Some (take 2 (quantum x y z 0)) else None
                else match decodeChar url d with
                     | None => None
                     | Some w => match decodeQuanta url rest with Some t => Some (quantum x y z w ++ t) | None => None end
                     end
            end
      | _, _ => None
      end
  | _ => None
  end.

(** [strings.ReplaceAll(s, c, "")] of one character *)
Fixpoint removeChar (c : ascii) (s : string) : string :=
  match s with
  | EmptyString => ""
  | String x s => if Ascii.eqb x c then removeChar c s else String x (removeChar c s)
  end.

(** [DecodeString], which skips line ends *)
Definition base64Decode (url : bool) (s : string) : option bytes :=
  decodeQuanta url (removeChar (ascii_of_N 10) (removeChar (ascii_of_N 13) s)).

(** ** Reading base64 back *)

Definition digit (url : bool) (i : Z) : ascii := nth (Z.to_nat (i mod 64)) (alphabet url) "="%char.

(** RFC 4648, section 4 and 5, with padding *)
Fixpoint base64Encode (url : bool) (b : bytes) : string :=
  match b with
  | [] => ""
  | [x] => String (digit url (bval x / 4)) (String (digit url (bval x * 16)) "==")
  | [x; y] => String (digit url (bval x / 4)) (String (digit url (bval x * 16 + bval y / 16)) (String (digit url (bval y * 4)) "="))
  | x :: y :: z :: b =>
      String (digit url (bval x / 4)) (String (digit url (bval x * 16 + bval y / 16))
        (String (digit url (bval y * 4 + bval z / 64)) (String (digit url (bval z)) (base64Encode url b))))
  end.

Lemma decodeChar_digit url i : decodeChar url (digit url i) = Some (i mod 64).
Proof.
  unfold digit. pose proof (Z.mod_pos_bound i 64 ltac:(lia)) as Hi. set (k := i mod 64) in *. clearbody k.
  assert (Ha : forallb (fun n => match decodeChar url (nth (Z.to_nat (Z.of_nat n)) (alphabet url) "="%char) with Some j => j =? Z.of_nat n | None => false end)
                 (List.seq 0 64) = true) by (destruct url; by vm_compute).
  rewrite forallb_forall in Ha. specialize (Ha (Z.to_nat k) ltac:(apply in_seq; lia)). rewrite Z2Nat.id in Ha by lia.
  destruct (decodeChar url _) as [j|]; [|done]. apply Z.eqb_eq in Ha as ->. done.
Qed.

Lemma digit_char url i c : decodeChar url c = None -> Ascii.eqb (digit url i) c = false.
Proof. intros Hc. destruct (Ascii.eqb_spec (digit url i) c) as [E|]; [|done]. rewrite <- E, decodeChar_digit in Hc. done. Qed.

Lemma quantum_add x y z w : 0 <= x -> 0 <= y < 64 -> 0 <= z < 64 -> 0 <= w < 64 ->
  let v := x * 262144 + y * 4096 + z * 64 + w in
  quantum x y z w = [byteOf (v / 65536); byteOf (v / 256); byteOf v].
Proof.
  intros Hx Hy Hz Hw. unfold quantum.
  assert (E : Z.lor (Z.lor (Z.lor (Z.shiftl x 18) (Z.shiftl y 12)) (Z.shiftl z 6)) w = x * 262144 + y * 4096 + z * 64 + w).
  { replace (Z.shiftl x 18) with (Z.shiftl (Z.shiftl x 6) 12) by (by rewrite Z.shiftl_shiftl by lia).
    rewrite <- Z.shiftl_lor, (lor_shiftl_add x y 6) by lia.
    replace (Z.shiftl (x * 2 ^ 6 + y) 12) with (Z.shiftl (Z.shiftl (x * 2 ^ 6 + y) 6) 6) by (by rewrite Z.shiftl_shiftl by lia).
    rewrite <- Z.shiftl_lor, (lor_shiftl_add _ z 6), (lor_shiftl_add _ w 6) by lia. lia. }
  rewrite E, !Z.shiftr_div_pow2 by lia. done.
Qed.

Lemma bytes3_ind (P : bytes -> Prop) : P [] -> (forall x, P [x]) -> (forall x y, P [x; y]) ->
  (forall x y z b, P b -> P (x :: y :: z :: b)) -> forall b, P b.
Proof.
  intros H0 H1 H2 H3. fix rec 1. intros [|x [|y [|z b]]]; [exact H0|apply H1|apply H2|apply H3, rec].
Qed.

Lemma byteOf_eq b v : bval b = v mod 256 -> byteOf v = b.
Proof. intros E. apply bval_inj. by rewrite bval_byteOf. Qed.

Ltac b64_digits :=
  repeat match goal with b : byte |- _ => lazymatch goal with
    | _ : 0 <= bval b < 256 |- _ => fail | _ => pose proof (bval_range b) end end.

Lemma base64_decode_encode url b : decodeQuanta url (base64Encode url b) = Some b.
Proof.
  assert (He : decodeChar url "=" = None) by (destruct url; by vm_compute).
  induction b as [|x|x y|x y z b IH] using bytes3_ind; [done|..]; cbn [base64Encode decodeQuanta];
    rewrite ?decodeChar_digit, ?(digit_char url _ _ He), ?Ascii.eqb_refl; cbn [andb]; change (String.eqb "" "") with true; cbn iota;
    rewrite ?decodeChar_digit, ?IH; b64_digits; rewrite quantum_add by (Z.to_euclidean_division_equations; lia);
    cbn [take app]; repeat f_equal; apply byteOf_eq; Z.to_euclidean_division_equations; lia.
Qed.

Lemma removeChar_lacks c s : lacks c s = true -> removeChar c s = s.
Proof.
  induction s as [|x s IH]; [done|]. unfold lacks. cbn [forallString]. intros [Hx Hs]%andb_true_iff. cbn. apply negb_true_iff in Hx as ->.
  by rewrite IH.
Qed.

Lemma base64_lacks url c b : decodeChar url c = None -> Ascii.eqb c "=" = false -> lacks c (base64Encode url b) = true.
Proof.
  intros Hc He. rewrite Ascii.eqb_sym in He. unfold lacks.
  induction b as [|x|x y|x y z b IH] using bytes3_ind; [done|..]; cbn [base64Encode forallString];
    rewrite !(digit_char url _ _ Hc), ?He; [done..|]. cbn [negb andb]. done.
Qed.

Lemma base64Decode_encode url b : base64Decode url (base64Encode url b) = Some b.
Proof.
  unfold base64Decode. rewrite (removeChar_lacks (ascii_of_N 13)), (removeChar_lacks (ascii_of_N 10)) by (apply base64_lacks; by destruct url).
  apply base64_decode_encode.
Qed.
