(* ===== verification/Decimal.v ===== *)
(** The hand-written integer printers: [itoa] (dns_chaos.go), [uint8str]
    (tls_robot.go), [decimalUint16] (tls_ja3s.go), [uint16str] (dns_ede.go),
    [uint32str] (dns_lame.go) and [i32str] (service_mongodb.go).  Each fills a
    fixed buffer from its end; an index below zero is a panic. *)

From Stdlib Require Import ZArith List String Ascii Lia Bool.
From stdpp Require Import base list strings numbers.
From S2P Require Import Prelude Bytes GoStrings.
Open Scope Z_scope.

(** [for v > 0 { i--; buf[i] = '0' + byte(v%10); v /= 10 }]: [room] is [i], and
    [acc] is [buf[i:]].  The state the loop ends in. *)
Fixpoint digitsLoop (room : nat) (v : Z) (acc : string) : outcome (nat * string) :=
  if v <=? 0 then Ret (room, acc)
  else match room with
       | O => Panic
       | S room => digitsLoop room (v / 10) (String (digitChar (v mod 10)) acc)
       end.

Definition printer (size : nat) (v : Z) : outcome string :=
  if v =? 0 then Ret "0"%string
  else r <~ digitsLoop size v "" ;; Ret (snd r).

Definition itoa (n : Z) : outcome string := printer 12 n.
Definition uint8str (v : Z) : outcome string := printer 4 v.
Definition decimalUint16 (v : Z) : outcome string := printer 6 v.
Definition uint16str (v : Z) : outcome string := printer 6 v.
Definition uint32str (v : Z) : outcome string := printer 11 v.

(** [int32(z)]: two's complement *)
Definition i32 (z : Z) : Z := (z + 2147483648) mod 4294967296 - 2147483648.

Definition i32str (v : Z) : outcome string :=
  if v =? 0 then Ret "0"%string
  else
    let neg := v <? 0 in
    let v := if neg then i32 (- v) else v in
    unpack (idx, acc) <~ digitsLoop 12 v "" ;;
    if neg then match idx with O => Panic | S _ => Ret (String "-" acc) end
    else Ret acc.

(** ** The loop writes the decimal digits *)

Lemma decAcc_fuel f1 f2 n acc :
  0 <= n < 2 ^ Z.of_nat f1 -> n < 2 ^ Z.of_nat f2 -> decAcc f1 n acc = decAcc f2 n acc.
Proof.
  revert f2 n acc. induction f1 as [|f1 IH]; intros f2 n acc H1 H2.
  - replace n with 0 by (cbn in H1; lia). by destruct f2.
  - destruct f2 as [|f2]; [replace n with 0 by (cbn in H2; lia); done|].
    cbn [decAcc]. destruct (n <=? 0) eqn:E; [done|]. to_prop.
    rewrite Nat2Z.inj_succ, Z.pow_succ_r in H1, H2 by lia.
    apply IH; [split; [apply Z.div_pos; lia|]|]; apply Z.div_lt_upper_bound; lia.
Qed.

Lemma digitsLoop_decAcc room fuel v acc :
  0 <= v < 10 ^ Z.of_nat room -> v < 2 ^ Z.of_nat fuel ->
  exists left, digitsLoop room v acc = Ret (left, decAcc fuel v acc) /\ (left <= room)%nat /\
    forall k, v < 10 ^ Z.of_nat k -> (room <= left + k)%nat.
Proof.
  revert fuel v acc. induction room as [|room IH]; intros fuel v acc Hr Hf.
  - replace v with 0 by (cbn in Hr; lia). exists O. cbn. split; [by destruct fuel|]. split; [lia|intros; lia].
  - cbn [digitsLoop]. destruct (v <=? 0) eqn:E; to_prop.
    { exists (S room). replace v with 0 by lia. split; [by destruct fuel|]. split; [lia|]. intros; lia. }
    destruct fuel as [|fuel]; [cbn in Hf; lia|]. cbn [decAcc].
    rewrite (proj2 (Z.leb_gt v 0)) by lia.
    rewrite Nat2Z.inj_succ, Z.pow_succ_r in Hr, Hf by lia.
    destruct (IH fuel (v / 10) (String (digitChar (v mod 10)) acc)) as (left & -> & Hl & Hk).
    + split; [apply Z.div_pos; lia|apply Z.div_lt_upper_bound; lia].
    + apply Z.div_lt_upper_bound; lia.
    + exists left. split; [done|]. split; [lia|]. intros [|k] Hv; [cbn in Hv; lia|].
      rewrite Nat2Z.inj_succ, Z.pow_succ_r in Hv by lia.
      assert (v / 10 < 10 ^ Z.of_nat k) by (apply Z.div_lt_upper_bound; lia).
      specialize (Hk k). lia.
Qed.

Lemma digitsLoop_decNat room v :
  0 < v < 10 ^ Z.of_nat room ->
  exists left, digitsLoop room v "" = Ret (left, decNat v) /\
    forall k, v < 10 ^ Z.of_nat k -> (room <= left + k)%nat.
Proof.
  intros Hv. unfold decNat. rewrite (proj2 (Z.eqb_neq v 0)) by lia.
  destruct (digitsLoop_decAcc room (S (Z.to_nat (Z.log2 v))) v "") as (left & He & _ & Hk).
  - lia.
  - rewrite Nat2Z.inj_succ, Z2Nat.id by apply Z.log2_nonneg. apply Z.log2_spec. lia.
  - eauto.
Qed.

Lemma printer_decNat size v :
  0 <= v < 10 ^ Z.of_nat size -> printer size v = Ret (decNat v).
Proof.
  intros Hv. unfold printer. destruct (Z.eqb_spec v 0) as [->|Hne]; [done|].
  destruct (digitsLoop_decNat size v) as (left & -> & _); [lia|]. done.
Qed.

(** A buffer that is too small is a panic. *)
Lemma digitsLoop_panic room v acc : 10 ^ Z.of_nat room <= v -> digitsLoop room v acc = Panic.
Proof.
  revert v acc. induction room as [|room IH]; intros v acc Hv; cbn [digitsLoop].
  - by rewrite (proj2 (Z.leb_gt v 0)) by (cbn in Hv; lia).
  - assert (0 < 10 ^ Z.of_nat (S room)) by (apply Z.pow_pos_nonneg; lia).
    rewrite (proj2 (Z.leb_gt v 0)) by lia. apply IH.
    rewrite Nat2Z.inj_succ, Z.pow_succ_r in Hv by lia. apply Z.div_le_lower_bound; lia.
Qed.

Lemma itoa_small n : 0 <= n < 10 ^ 12 -> itoa n = Ret (decNat n).
Proof. apply (printer_decNat 12). Qed.

Lemma decimalUint16_decNat v : 0 <= v < 65536 -> decimalUint16 v = Ret (decNat v).
Proof. intros Hv. apply printer_decNat. lia. Qed.

(** The integer printers agree with decimal notation: [uint8str],
    [decimalUint16], [uint16str] and [uint32str] on every value of their type,
    and [itoa] on every number below 10^12; beyond it [itoa] overruns its
    twelve-byte buffer, and on a negative number it prints nothing. *)
Theorem unsigned_printers v :
  (0 <= v < 256 -> uint8str v = Ret (decNat v)) /\
  (0 <= v < 65536 -> decimalUint16 v = Ret (decNat v) /\ uint16str v = Ret (decNat v)) /\
  (0 <= v < 4294967296 -> uint32str v = Ret (decNat v)) /\
  itoa v = (if v <? 0 then Ret ""%string else if v <? 10 ^ 12 then Ret (decNat v) else Panic).
Proof.
  split; [intros; apply printer_decNat; lia|].
  split; [intros; split; apply printer_decNat; lia|].
  split; [intros; apply printer_decNat; lia|].
  destruct (v <? 0) eqn:E1, (v <? 10 ^ 12) eqn:E2; to_prop.
  - unfold itoa, printer. rewrite (proj2 (Z.eqb_neq v 0)) by lia. cbn [digitsLoop].
    by rewrite (proj2 (Z.leb_le v 0)) by lia.
  - lia.
  - by apply itoa_small.
  - unfold itoa, printer. rewrite (proj2 (Z.eqb_neq v 0)) by lia.
    by rewrite digitsLoop_panic.
Qed.

Lemma unsigned_printers_witness :
  uint8str 255 = Ret "255"%string /\ uint32str 4294967295 = Ret "4294967295"%string.
Proof.
  pose proof (unsigned_printers 255) as (H8 & _).
  pose proof (unsigned_printers 4294967295) as (_ & _ & H32 & _).
  rewrite H8, H32 by lia. split; reflexivity.
Defined.

Definition i32text (v : Z) : string := if v =? -2147483648 then "-"%string else fmtD v.

Lemma i32str_text v : -2147483648 <= v <= 2147483647 -> i32str v = Ret (i32text v).
Proof.
  intros Hv. unfold i32str, i32text, fmtD. destruct (Z.eqb_spec v 0) as [->|Hne]; [done|].
  destruct (Z.eqb_spec v (-2147483648)) as [->|Hmin]; [reflexivity|].
  destruct (v <? 0) eqn:E; to_prop.
  - replace (i32 (- v)) with (- v) by (unfold i32; rewrite Z.mod_small; lia).
    destruct (digitsLoop_decNat 12 (- v)) as (left & -> & Hk); [lia|]. cbn [bind].
    specialize (Hk 10%nat). destruct left as [|left]; [lia|]. done.
  - destruct (digitsLoop_decNat 12 v) as (left & -> & _); [lia|]. done.
Qed.

(** [i32str] prints every [int32] in decimal with its sign, except the least
    one: negating -2147483648 overflows back to itself, no digit is written, and
    the text is a lone minus sign. *)
Theorem i32str_spec v :
  -2147483648 <= v <= 2147483647 ->
  i32str v = Ret (if v =? -2147483648 then "-"%string else fmtD v).
Proof. apply i32str_text. Qed.

Lemma i32str_spec_witness :
  i32str (-2147483648) = Ret "-"%string /\ i32str (-2147483647) = Ret "-2147483647"%string.
Proof.
  rewrite (i32str_spec (-2147483648)), (i32str_spec (-2147483647)) by lia. split; reflexivity.
Defined.
