(* ===== verification/Digest.v ===== *)
(** The hash functions of Go's standard library that netdoc uses:
    [crypto/sha256] (FIPS 180-4), [crypto/sha1], [crypto/md5] and
    [crypto/hmac] over SHA-256.  They are executable, and the published test
    vectors are checked at the end of the file. *)

From Stdlib Require Import ZArith List String Ascii Strings.Byte Lia Bool.
From stdpp Require Import base list strings numbers.
From S2P Require Import Prelude Bytes GoStrings.
Open Scope Z_scope.

(** ** 32-bit words *)

Definition add32 (a b : Z) : Z := u32 (a + b).
Definition not32 (a : Z) : Z := Z.lxor a 4294967295.
Definition rotr32 (n a : Z) : Z := Z.lor (Z.shiftr a n) (u32 (Z.shiftl a (32 - n))).
Definition rotl32 (n a : Z) : Z := rotr32 (32 - n) a.

(** Split a byte string into blocks of [n] bytes; [fuel] bounds the number of blocks. *)
Fixpoint chunks (fuel : nat) (n : nat) (b : bytes) : list bytes :=
  match fuel with
  | O => []
  | S f => match b with [] => [] | _ => take n b :: chunks f n (drop n b) end
  end.

Definition beWord (b : bytes) : Z := foldl (fun acc x => acc * 256 + bval x) 0 b.
Definition leWord (b : bytes) : Z := foldr (fun x acc => acc * 256 + bval x) 0 b.
Definition beBytes (n : nat) (v : Z) : bytes :=
  map (fun i => byteOf (Z.shiftr v (8 * Z.of_nat i))) (rev (seq 0 n)).
Definition leBytes (n : nat) (v : Z) : bytes :=
  map (fun i => byteOf (Z.shiftr v (8 * Z.of_nat i))) (seq 0 n).

(** Merkle-Damgard padding to 64-byte blocks, the bit length written by [enc]. *)
Definition padMsg (enc : Z -> bytes) (m : bytes) : bytes :=
  let l := blen m in
  m ++ [x80] ++ repeat x00 (Z.to_nat ((55 - l) mod 64)) ++ enc (8 * l).

Definition blocks (enc : Z -> bytes) (m : bytes) : list bytes :=
  let p := padMsg enc m in chunks (S (length p / 64)) 64 p.

(** ** SHA-256 *)

Module Sha256.
(** FIPS 180-4 defines the constants by the fractional parts of the cube and
    square roots of the first primes; [root k n] is the [k]-th root, bit by bit. *)
Definition primes : list Z := Eval vm_compute in
  List.filter (fun n => forallb (fun d => negb (n mod Z.of_nat d =? 0)) (seq 2 (Z.to_nat (Z.sqrt n) - 1)))
    (map Z.of_nat (seq 2 310)).
Definition root (k n : Z) : Z :=
  fold_left (fun r i => let r' := r + 2 ^ Z.of_nat i in if r' ^ k <=? n then r' else r) (rev (seq 0 37)) 0.
Definition K : list Z := Eval vm_compute in map (fun p => u32 (root 3 (p * 2 ^ 96))) primes.
Definition H0 : list Z := Eval vm_compute in map (fun p => u32 (root 2 (p * 2 ^ 64))) (take 8 primes).

Definition sig0 x := Z.lxor (Z.lxor (rotr32 7 x) (rotr32 18 x)) (Z.shiftr x 3).
Definition sig1 x := Z.lxor (Z.lxor (rotr32 17 x) (rotr32 19 x)) (Z.shiftr x 10).
Definition Sig0 x := Z.lxor (Z.lxor (rotr32 2 x) (rotr32 13 x)) (rotr32 22 x).
Definition Sig1 x := Z.lxor (Z.lxor (rotr32 6 x) (rotr32 11 x)) (rotr32 25 x).

(** The message schedule, the newest word first. *)
Fixpoint schedule (n : nat) (w : list Z) : list Z :=
  match n with
  | O => w
  | S n' =>
      let at_ i := nth i w 0 in
      schedule n' (u32 (sig1 (at_ 1%nat) + at_ 6%nat + sig0 (at_ 14%nat) + at_ 15%nat) :: w)
  end.

Definition round (st : list Z) (kw : Z * Z) : list Z :=
  match st with
  | [a; b; c; d; e; f; g; h] =>
      let t1 := u32 (h + Sig1 e + Z.lxor (Z.land e f) (Z.land (not32 e) g) + fst kw + snd kw) in
      let t2 := u32 (Sig0 a + Z.lxor (Z.lxor (Z.land a b) (Z.land a c)) (Z.land b c)) in
      [add32 t1 t2; a; b; c; add32 d t1; e; f; g]
  | _ => st
  end.

Definition compress (st : list Z) (block : bytes) : list Z :=
  let w := rev (schedule 48 (rev (map beWord (chunks 16 4 block)))) in
  zip_with add32 st (foldl round st (combine K w)).

Definition sum (m : bytes) : bytes :=
  flat_map (beBytes 4) (foldl compress H0 (blocks (beBytes 8) m)).
End Sha256.

(** [sha256.Sum256(m)] *)
Definition sha256 : bytes -> bytes := Sha256.sum.
Definition sha256_Size : Z := 32.

(** [hmac.New(h, key)], [Write(m)], [Sum(nil)] for a hash [h] with blocks of 64 bytes *)
Definition hmac (h : bytes -> bytes) (key m : bytes) : bytes :=
  let k := if 64 <? blen key then h key else key in
  let k := k ++ repeat x00 (64 - length k) in
  let xorKey p := map (fun b => byteOf (Z.lxor (bval b) p)) k in
  h (xorKey 0x5c ++ h (xorKey 0x36 ++ m)).
Definition hmacSha256 : bytes -> bytes -> bytes := hmac sha256.

(** ** SHA-1 *)

Module Sha1.
Definition H0 : list Z := [0x67452301; 0xefcdab89; 0x98badcfe; 0x10325476; 0xc3d2e1f0].

Fixpoint schedule (n : nat) (w : list Z) : list Z :=
  match n with
  | O => w
  | S n' =>
      let at_ i := nth i w 0 in
      schedule n' (rotl32 1 (Z.lxor (Z.lxor (at_ 2%nat) (at_ 7%nat))
                                    (Z.lxor (at_ 13%nat) (at_ 15%nat))) :: w)
  end.

Definition fk (i : nat) (b c d : Z) : Z * Z :=
  if (i <? 20)%nat then (Z.lor (Z.land b c) (Z.land (not32 b) d), 0x5a827999)
  else if (i <? 40)%nat then (Z.lxor (Z.lxor b c) d, 0x6ed9eba1)
  else if (i <? 60)%nat
  then (Z.lor (Z.lor (Z.land b c) (Z.land b d)) (Z.land c d), 0x8f1bbcdc)
  else (Z.lxor (Z.lxor b c) d, 0xca62c1d6).

Definition round (st : list Z) (iw : nat * Z) : list Z :=
  match st with
  | [a; b; c; d; e] =>
      let '(f, k) := fk (fst iw) b c d in
      [u32 (rotl32 5 a + f + e + k + snd iw); a; rotl32 30 b; c; d]
  | _ => st
  end.

Definition compress (st : list Z) (block : bytes) : list Z :=
  let w := rev (schedule 64 (rev (map beWord (chunks 16 4 block)))) in
  zip_with add32 st (foldl round st (combine (seq 0 80) w)).

Definition sum (m : bytes) : bytes :=
  flat_map (beBytes 4) (foldl compress H0 (blocks (beBytes 8) m)).
End Sha1.

Definition sha1 : bytes -> bytes := Sha1.sum.
Definition hmacSha1 : bytes -> bytes -> bytes := hmac sha1.

(** ** MD5 *)

Module Md5.
Definition H0 : list Z := [0x67452301; 0xefcdab89; 0x98badcfe; 0x10325476].

Definition K : list Z := [
  0xd76aa478; 0xe8c7b756; 0x242070db; 0xc1bdceee; 0xf57c0faf; 0x4787c62a; 0xa8304613; 0xfd469501;
  0x698098d8; 0x8b44f7af; 0xffff5bb1; 0x895cd7be; 0x6b901122; 0xfd987193; 0xa679438e; 0x49b40821;
  0xf61e2562; 0xc040b340; 0x265e5a51; 0xe9b6c7aa; 0xd62f105d; 0x02441453; 0xd8a1e681; 0xe7d3fbc8;
  0x21e1cde6; 0xc33707d6; 0xf4d50d87; 0x455a14ed; 0xa9e3e905; 0xfcefa3f8; 0x676f02d9; 0x8d2a4c8a;
  0xfffa3942; 0x8771f681; 0x6d9d6122; 0xfde5380c; 0xa4beea44; 0x4bdecfa9; 0xf6bb4b60; 0xbebfbc70;
  0x289b7ec6; 0xeaa127fa; 0xd4ef3085; 0x04881d05; 0xd9d4d039; 0xe6db99e5; 0x1fa27cf8; 0xc4ac5665;
  0xf4292244; 0x432aff97; 0xab9423a7; 0xfc93a039; 0x655b59c3; 0x8f0ccc92; 0xffeff47d; 0x85845dd1;
  0x6fa87e4f; 0xfe2ce6e0; 0xa3014314; 0x4e0811a1; 0xf7537e82; 0xbd3af235; 0x2ad7d2bb; 0xeb86d391].

Definition shifts : list (list Z) := [[7; 12; 17; 22]; [5; 9; 14; 20]; [4; 11; 16; 23]; [6; 10; 15; 21]].

Definition round (w : list Z) (st : list Z) (ik : nat * Z) : list Z :=
  match st with
  | [a; b; c; d] =>
      let i := fst ik in
      let '(f, g) :=
        if (i <? 16)%nat then (Z.lor (Z.land b c) (Z.land (not32 b) d), i)
        else if (i <? 32)%nat
        then (Z.lor (Z.land d b) (Z.land (not32 d) c), ((5 * i + 1) mod 16)%nat)
        else if (i <? 48)%nat then (Z.lxor (Z.lxor b c) d, ((3 * i + 5) mod 16)%nat)
        else (Z.lxor c (Z.lor b (not32 d)), ((7 * i) mod 16)%nat) in
      let s := nth (i mod 4) (nth (i / 16) shifts []) 0 in
      [d; add32 b (rotl32 s (u32 (f + a + snd ik + nth g w 0))); b; c]
  | _ => st
  end.

Definition compress (st : list Z) (block : bytes) : list Z :=
  let w := map leWord (chunks 16 4 block) in
  zip_with add32 st (foldl (round w) st (combine (seq 0 64) K)).

Definition sum (m : bytes) : bytes :=
  flat_map (leBytes 4) (foldl compress H0 (blocks (leBytes 8) m)).
End Md5.

Definition md5 : bytes -> bytes := Md5.sum.

#[global] Arguments sha256 : simpl never.
#[global] Arguments sha1 : simpl never.
#[global] Arguments md5 : simpl never.
#[global] Arguments hmacSha256 : simpl never.

(** ** Lengths *)

Lemma length_beBytes n v : length (beBytes n v) = n.
Proof. unfold beBytes. by rewrite length_map, length_rev, length_seq. Qed.

Lemma blen_flat_map_beBytes n l : blen (flat_map (beBytes n) l) = Z.of_nat n * blen l.
Proof.
  induction l as [|x l IH]; cbn [flat_map]; [unfold blen; cbn; lia|].
  rewrite blen_app, IH, blen_cons. unfold blen at 1. rewrite length_beBytes. lia.
Qed.

Lemma Sha256_round_length st kw : length st = 8%nat -> length (Sha256.round st kw) = 8%nat.
Proof. intros H. do 9 (destruct st as [|? st]; try discriminate). done. Qed.

Lemma foldl_length {A B} (f : list A -> B -> list A) n l st :
  (forall st x, length st = n -> length (f st x) = n) -> length st = n -> length (foldl f st l) = n.
Proof. intros Hf. revert st. induction l as [|x l IH]; cbn; auto. Qed.

Lemma Sha256_compress_length st b : length st = 8%nat -> length (Sha256.compress st b) = 8%nat.
Proof.
  intros H. unfold Sha256.compress. rewrite length_zip_with, H.
  rewrite (foldl_length _ 8); auto using Sha256_round_length.
Qed.

Lemma blen_sha256 m : blen (sha256 m) = 32.
Proof.
  unfold sha256, Sha256.sum. rewrite blen_flat_map_beBytes. unfold blen.
  rewrite (foldl_length _ 8); auto using Sha256_compress_length.
Qed.

Lemma blen_hmacSha256 k m : blen (hmacSha256 k m) = 32.
Proof. apply blen_sha256. Qed.

Lemma Sha1_round_length st iw : length st = 5%nat -> length (Sha1.round st iw) = 5%nat.
Proof. intros H. do 6 (destruct st as [|? st]; try discriminate). cbn [Sha1.round]. by destruct (Sha1.fk _ _ _ _). Qed.

Lemma Sha1_compress_length st b : length st = 5%nat -> length (Sha1.compress st b) = 5%nat.
Proof.
  intros H. unfold Sha1.compress. rewrite length_zip_with, H.
  rewrite (foldl_length _ 5); auto using Sha1_round_length.
Qed.

Lemma blen_hmacSha1 k m : blen (hmacSha1 k m) = 20.
Proof.
  unfold hmacSha1, hmac, sha1, Sha1.sum. rewrite blen_flat_map_beBytes. unfold blen.
  rewrite (foldl_length _ 5); auto using Sha1_compress_length.
Qed.

(** ** Test vectors *)

Example sha256_empty :
  hexEncode (sha256 []) = "e3b0c44298fc1c149afbf4c8996fb92427ae41e4649b934ca495991b7852b855"%string.
Proof. vm_compute. reflexivity. Qed.

Example sha256_abc :
  hexEncode (sha256 (ofString "abc"))
  = "ba7816bf8f01cfea414140de5dae2223b00361a396177a9cb410ff61f20015ad"%string.
Proof. vm_compute. reflexivity. Qed.

Example sha256_two_blocks :
  hexEncode (sha256 (ofString "abcdbcdecdefdefgefghfghighijhijkijkljklmklmnlmnomnopnopq"))
  = "248d6a61d20638b8e5c026930c3e6039a33ce45964ff2167f6ecedd419db06c1"%string.
Proof. vm_compute. reflexivity. Qed.

Example hmac_rfc4231_2 :
  hexEncode (hmacSha256 (ofString "Jefe") (ofString "what do ya want for nothing?"))
  = "5bdcc146bf60754e6a042426089575c75a003f089d2739839dec58b964ec3843"%string.
Proof. vm_compute. reflexivity. Qed.

Example sha1_abc :
  hexEncode (sha1 (ofString "abc")) = "a9993e364706816aba3e25717850c26c9cd0d89d"%string.
Proof. vm_compute. reflexivity. Qed.

Example md5_abc :
  hexEncode (md5 (ofString "abc")) = "900150983cd24fb0d6963f7d28e17f72"%string.
Proof. vm_compute. reflexivity. Qed.
