(* ===== verification/Stream.v ===== *)
(** Reading from a connection.  [Reader] is what the protocol code relies on
    ([io.ReadFull], or the program's own [readN]): a read of [n] bytes gives
    the next [n] bytes of the stream, or fails when the peer closes or the
    deadline passes first.  The clients are proved against the class; the
    instances are a plain byte string and a connection that delivers its bytes
    in segments of any size, read with [readN] of [tls_alpn.go]. *)

From Stdlib Require Import ZArith List String Ascii Strings.Byte Lia Bool.
From stdpp Require Import base list strings numbers.
From S2P Require Import Prelude Bytes.
Open Scope Z_scope.

Class Reader (C : Type) := {
  (** the bytes still to come before the end of the stream *)
  pending : C -> bytes;
  readFull : Z -> C -> outcome (option bytes * C);
  readFull_spec : forall n c, 0 <= n ->
    exists r c', readFull n c = Ret (r, c') /\
    match r with
    | Some b => pending c = b ++ pending c' /\ blen b = n
    | None => blen (pending c) < n /\ pending c' = []
    end
}.

Section Client.
Context {C : Type} `{Reader C}.

Lemma wp_readFull n c (Q : option bytes * C -> Prop) E :
  0 <= n ->
  (forall b c', pending c = b ++ pending c' -> blen b = n -> Q (Some b, c')) ->
  (forall c', blen (pending c) < n -> pending c' = [] -> Q (None, c')) ->
  wp (readFull n c) Q E.
Proof.
  intros Hn Hs Hf. destruct (readFull_spec n c Hn) as (r & c' & -> & Hr).
  destruct r; cbn; destruct Hr; auto.
Qed.

Lemma readFull_ok n c b rest :
  pending c = b ++ rest -> blen b = n ->
  exists c', readFull n c = Ret (Some b, c') /\ pending c' = rest.
Proof.
  intros Hp Hb. pose proof (blen_nonneg b).
  destruct (readFull_spec n c ltac:(lia)) as (r & c' & Hr & Hs).
  destruct r as [b'|]; destruct Hs as [Hs Hl].
  - exists c'. rewrite Hp in Hs.
    destruct (app_inj_1 b b' rest (pending c')) as [-> ->]; auto.
    unfold blen in *. lia.
  - rewrite Hp, blen_app in Hs. pose proof (blen_nonneg rest). lia.
Qed.

Lemma readFull_eof n c :
  blen (pending c) < n -> exists c', readFull n c = Ret (None, c').
Proof.
  intros Hp. pose proof (blen_nonneg (pending c)).
  destruct (readFull_spec n c ltac:(lia)) as (r & c' & Hr & Hs).
  destruct r as [b|]; [|eauto]. destruct Hs as [Hs Hl].
  rewrite Hs, blen_app in Hp. pose proof (blen_nonneg (pending c')). lia.
Qed.
End Client.

(** Two readers with the same bytes to come read the same. *)
Lemma readFull_agree {C1 C2} `{Reader C1} `{Reader C2} n (c1 : C1) (c2 : C2) :
  0 <= n -> pending c1 = pending c2 ->
  exists r c1' c2', readFull n c1 = Ret (r, c1') /\ readFull n c2 = Ret (r, c2') /\
    pending c1' = pending c2'.
Proof.
  intros Hn Hp. destruct (readFull_spec n c1 Hn) as (r1 & c1' & Hr1 & Hs1).
  destruct r1 as [b|].
  - destruct Hs1 as [Hs1 Hl]. rewrite Hp in Hs1.
    destruct (readFull_ok n c2 b _ Hs1 Hl) as (c2' & Hr2 & Hp2). eauto 10.
  - destruct Hs1 as [Hs1 He]. destruct (readFull_spec n c2 Hn) as (r2 & c2' & Hr2 & Hs2).
    destruct r2 as [b|]; destruct Hs2 as [Hs2 Hl].
    + rewrite Hp, Hs2, blen_app, Hl in Hs1. pose proof (blen_nonneg (pending c2')). lia.
    + rewrite <- He in Hl. eauto 10.
Qed.

(** ** A plain byte string: [io.ReadFull] on a stream that ends with the string *)

Definition bytesReadFull (n : Z) (s : bytes) : outcome (option bytes * bytes) :=
  if n <=? blen s then Ret (Some (take (Z.to_nat n) s), drop (Z.to_nat n) s)
  else Ret (None, []).

#[export] Program Instance bytesReader : Reader bytes := {|
  pending s := s;
  readFull := bytesReadFull
|}.
Next Obligation.
  intros n s Hn. unfold bytesReadFull. destruct (n <=? blen s) eqn:E; to_prop.
  - do 2 eexists. split; [done|]. cbn. rewrite take_drop, blen_take by lia. done.
  - do 2 eexists. split; [done|]. split; [lia|done].
Qed.

(** ** A connection and [readN] *)

(** What the successive [Read] calls of a [net.Conn] will deliver: segments of
    data, each with whether an error (end of file, a timeout) comes along with
    its last byte. *)
Definition conn := list (bytes * bool).

(** [c.Read(p)] with [len(p) = n]: at most [n] bytes of the next segment. *)
Definition connRead (n : Z) (c : conn) : bytes * bool * conn :=
  match c with
  | [] => ([], true, [])
  | (seg, e) :: c' =>
      if blen seg <=? n then (seg, e, if e then [] else c')
      else (take (Z.to_nat n) seg, false, (drop (Z.to_nat n) seg, e) :: c')
  end.

Fixpoint connPending (c : conn) : bytes :=
  match c with
  | [] => []
  | (seg, e) :: c' => seg ++ (if e then [] else connPending c')
  end.

Fixpoint connSize (c : conn) : nat :=
  match c with [] => O | (seg, _) :: c' => S (length seg + connSize c') end.

(** One turn of the loop of [readN]: [got] holds the bytes read so far. *)
Definition readNTurn (n : Z) (st : bytes * conn) : outcome (step (bytes * conn) (option bytes * conn)) :=
  let '(got, c) := st in
  if blen got <? n then
    let '(b, err, c') := connRead (n - blen got) c in
    let got := got ++ b in
    if err then
      if blen got =? n then Ret (Return (Some got, c')) else Ret (Return (None, c'))
    else Ret (Next (got, c'))
  else Ret (Break (got, c)).

(** [readN(c, p)] with [len(p) = n]: [p]'s contents, or [None] on an error. *)
Definition readN (n : Z) (c : conn) : outcome (option bytes * conn) :=
  r <~ loop (readNTurn n) (S (connSize c)) ([], c) ;;
  Ret (match r with inl (got, c') => (Some got, c') | inr r => r end).

(** What [readN] has to establish, in terms of the bytes to come. *)
Definition readNPost (n : Z) (c : conn) (r : option bytes * conn) : Prop :=
  match fst r with
  | Some b => connPending c = b ++ connPending (snd r) /\ blen b = n
  | None => blen (connPending c) < n /\ connPending (snd r) = []
  end.

Lemma connRead_spec n c b e c' :
  0 < n -> connRead n c = (b, e, c') ->
  connPending c = b ++ connPending c' /\ blen b <= n /\ (e = true -> c' = []) /\
  (e = false -> (connSize c' < connSize c)%nat).
Proof.
  intros Hn. destruct c as [|[seg err] c]; cbn.
  { intros [= <- <- <-]. repeat split; try done. rewrite blen_nil. lia. }
  destruct (blen seg <=? n) eqn:E; to_prop; intros [= <- <- <-].
  - repeat split; [by destruct err|lia|by intros ->|]. intros ->. lia.
  - cbn [connPending]. rewrite app_assoc, take_drop, blen_take by (pose proof (blen_nonneg seg); lia).
    repeat split; [lia|done|]. intros _. cbn. rewrite length_drop. unfold blen in *. lia.
Qed.

(** Whatever the segmentation, [readN] reads exactly the next [n] bytes, and
    fails exactly when fewer than [n] are to come. *)
Lemma wp_readN n c : 0 <= n -> wp (readN n c) (readNPost n c) (fun _ => False).
Proof.
  intros Hn. unfold readN. wp_step.
  apply (wp_loop _ (fun x => connPending c = fst x ++ connPending (snd x) /\ blen (fst x) <= n)
    (fun x => connSize (snd x))); cbn [fst snd]; [|by rewrite blen_nil|lia].
  intros [got c1] [Hp Hg]; cbn [fst snd] in *. unfold readNTurn.
  destruct (blen got <? n) eqn:El; to_prop.
  - destruct (connRead (n - blen got) c1) as [[b e] c2] eqn:Er.
    destruct (connRead_spec (n - blen got) c1 b e c2 ltac:(lia) Er) as (Hp2 & Hb & He & Hs).
    destruct e.
    + rewrite (He eq_refl) in *. cbn in Hp2. rewrite app_nil_r in Hp2.
      destruct (blen (got ++ b) =? n) eqn:Eb; to_prop; cbn; unfold readNPost; cbn;
        rewrite Hp, Hp2, ?app_nil_r; [done|].
      rewrite blen_app in *. split; [lia|done].
    + cbn. rewrite Hp, Hp2, app_assoc, blen_app. split; [split; [done|lia]|auto].
  - cbn. unfold readNPost. cbn. split; [done|lia].
Qed.

#[export] Program Instance connReader : Reader conn := {|
  pending := connPending;
  readFull := readN
|}.
Next Obligation.
  intros n c Hn. pose proof (wp_readN n c Hn) as H.
  destruct (readN n c) as [[r c']| | |]; try done.
  exists r, c'. split; [done|]. by destruct r.
Qed.
