(* ===== verification/Wire.v ===== *)
(** Connections read with single [Read] calls, and Go's [bufio.Reader] on top of
    them, for the line protocols of [starttls.go], [starttls_dispatch.go] and
    [tls_starttls_injection.go].  A [Read] delivers what the network delivers: any
    non-empty piece of what the peer has sent.  The reader keeps what it has read
    and not used in its own buffer, which matters once the connection is handed to
    TLS. *)

From Stdlib Require Import ZArith List String Ascii Strings.Byte Lia Bool.
From stdpp Require Import base list strings numbers.
From S2P Require Import Prelude Bytes GoStrings.
Open Scope Z_scope.

(** A TCP connection.  [incoming] are the bytes the peer will have sent before the
    stream ends or the deadline passes, if nothing more is written; [recv n] is
    [conn.Read] on a buffer of [n] bytes with its error, which comes alone; [write]
    is [conn.Write], with the text of its error. *)
Class Wire (C : Type) := {
  incoming : C -> bytes;
  recv : Z -> C -> bytes * option string * C;
  write : bytes -> C -> C + string;
  recv_spec : forall n c b e c', 0 < n -> recv n c = (b, e, c') ->
    incoming c = b ++ incoming c' /\ blen b <= n /\
    match e with None => b <> [] | Some _ => b = [] /\ incoming c = [] end
}.

(** ** [bufio.Reader] *)

Record bufReader := { rbuf : bytes; rerr : option string }.
Definition newReader : bufReader := {| rbuf := []; rerr := None |}.

(** The first line of the buffer with its newline, and what follows. *)
Fixpoint splitLine (b : bytes) : option (bytes * bytes) :=
  match b with
  | [] => None
  | c :: b => if beq c x0a then Some ([c], b)
              else match splitLine b with Some (l, r) => Some (c :: l, r) | None => None end
  end.

Section Reader.
Context {C : Type} `{Wire C}.

(** One turn of [ReadString('\n')]: a newline in the buffer ends it; then a pending
    error does; a full buffer is set aside; otherwise the buffer is filled. *)
Definition readStringTurn (st : bytes * bufReader * C)
    : outcome (step (bytes * bufReader * C) (bytes * option string * bufReader * C)) :=
  let '(acc, rd, c) := st in
  match splitLine (rbuf rd) with
  | Some (l, r) => Ret (Return (acc ++ l, None, {| rbuf := r; rerr := rerr rd |}, c))
  | None =>
      match rerr rd with
      | Some e => Ret (Return (acc ++ rbuf rd, Some e, newReader, c))
      | None =>
          if 4096 <=? blen (rbuf rd) then Ret (Next (acc ++ rbuf rd, newReader, c))
          else let '(b, e, c') := recv (4096 - blen (rbuf rd)) c in
               Ret (Next (acc, {| rbuf := rbuf rd ++ b; rerr := e |}, c'))
      end
  end.

(** A turn either reads a byte or empties a full buffer. *)
Definition readFuel (c : C) : nat := (5 + 2 * length (incoming c))%nat.

Definition readString (rd : bufReader) (c : C) : outcome (string * option string * bufReader * C) :=
  r <~ loop readStringTurn (readFuel c) ([], rd, c) ;;
  Ret (match r with
       | inl (acc, rd, c) => (toString acc, None, rd, c)
       | inr (line, e, rd, c) => (toString line, e, rd, c)
       end).

(** [line, err := rd.ReadString('\n'); if err != nil { return fmt.Errorf(ctx+": %w", err) }] *)
Definition readLine {R} (ctx : string) (rd : bufReader) (c : C) (k : string -> bufReader -> C -> outcome R) : outcome R :=
  unpack (line, err, rd, c) <~ readString rd c ;;
  match err with Some e => Err (ctx +:+ ": " +:+ e) | None => k line rd c end.

(** [if _, err := conn.Write(b); err != nil { return fmt.Errorf(ctx+": %w", err) }] *)
Definition writeOr {R} (ctx : string) (b : bytes) (c : C) (k : C -> outcome R) : outcome R :=
  match write b c with inr e => Err (ctx +:+ ": " +:+ e) | inl c => k c end.

(** [io.ReadFull(conn, b)] for [len(b) = n]: the state is what was read so far. *)
Definition fullTurn (n : Z) (st : bytes * C) : outcome (step (bytes * C) (string * C)) :=
  let '(got, c) := st in
  if blen got <? n then
    let '(b, e, c') := recv (n - blen got) c in
    match e with
    | None => Ret (Next (got ++ b, c'))
    | Some e => Ret (Return (if (0 <? blen got) && String.eqb e "EOF" then "unexpected EOF"%string else e, c'))
    end
  else Ret (Break (got, c)).

Definition recvFull (n : Z) (c : C) : outcome ((bytes * C) + (string * C)) :=
  loop (fullTurn n) (S (length (incoming c))) ([], c).

(** ** What the reads do *)

(** [c'] is [c] after some successful reads. *)
Inductive reads : C -> C -> Prop :=
| reads_refl c : reads c c
| reads_step n c b c1 c2 : 0 < n -> recv n c = (b, None, c1) -> reads c1 c2 -> reads c c2.

Lemma reads_trans c1 c2 c3 : reads c1 c2 -> reads c2 c3 -> reads c1 c3.
Proof. induction 1; intros; [done|]. eapply reads_step; eauto. Qed.

Definition noNewline (b : bytes) : bool := forallb (fun c => negb (beq c x0a)) b.

Lemma splitLine_app l r : noNewline l = true -> splitLine (l ++ x0a :: r) = Some (l ++ [x0a], r).
Proof.
  induction l as [|c l IH]; cbn [noNewline forallb app splitLine]; [done|].
  intros [Hc Hl]%andb_true_iff. apply negb_true_iff in Hc. by rewrite Hc, IH.
Qed.

Lemma splitLine_none l : noNewline l = true -> splitLine l = None.
Proof.
  induction l as [|c l IH]; cbn [noNewline forallb splitLine]; [done|].
  intros [Hc Hl]%andb_true_iff. apply negb_true_iff in Hc. by rewrite Hc, IH.
Qed.

Lemma splitLine_some b l r : splitLine b = Some (l, r) -> b = l ++ r /\ l <> [].
Proof.
  revert l. induction b as [|c b IH]; cbn; intros l; [done|].
  destruct (beq c x0a); [by intros [= <- <-]|]. destruct (splitLine b) as [[l' r']|]; [|done].
  intros [= <- <-]. destruct (IH l' eq_refl) as [-> _]. done.
Qed.

Lemma noNewline_app a b : noNewline (a ++ b) = noNewline a && noNewline b.
Proof. apply forallb_app. Qed.

(** The reader never goes wrong, and what it returns and keeps are bytes of the
    stream; a line without error is not empty. *)
Definition readStringPost (rd : bufReader) (c : C) (r : string * option string * bufReader * C) : Prop :=
  let '(line, e, rd', c') := r in
  rbuf rd ++ incoming c = ofString line ++ rbuf rd' ++ incoming c' /\
  (e = None -> line <> ""%string) /\ (length (incoming c') <= length (incoming c))%nat.

Lemma wp_readString rd c E : wp (readString rd c) (readStringPost rd c) E.
Proof.
  unfold readString. wp_step.
  apply (wp_loop _ (fun '(acc, rd1, c1) => rbuf rd ++ incoming c = acc ++ rbuf rd1 ++ incoming c1 /\
                      (length (incoming c1) <= length (incoming c))%nat)
    (fun '(acc, rd1, c1) => (match rerr rd1 with None => 2 * length (incoming c1) + 2 | Some _ => 0 end
                             + (if (4096 <=? blen (rbuf rd1))%Z then 1 else 0))%nat)); [|done|].
  2:{ unfold readFuel. destruct (rerr rd), (4096 <=? blen (rbuf rd)); lia. }
  intros [[acc rd1] c1] [Hs Hl]. unfold readStringTurn.
  destruct (splitLine (rbuf rd1)) as [[l r]|] eqn:Hsp.
  { apply splitLine_some in Hsp as [Hb Hne]. apply wp_ret. cbn. rewrite ofString_toString. split_and!; [|intros _|done].
    - rewrite Hs, Hb. by rewrite <- !app_assoc.
    - intros Hnil. apply (f_equal ofString) in Hnil. rewrite ofString_toString in Hnil.
      apply app_eq_nil in Hnil as [_ Hnil]. done. }
  destruct (rerr rd1) as [e|] eqn:Herr.
  { apply wp_ret. cbn. rewrite ofString_toString. split_and!; [|done|done]. rewrite Hs. by rewrite <- !app_assoc. }
  destruct (4096 <=? blen (rbuf rd1)) eqn:Hfull.
  { apply wp_ret. cbn [stepPost rbuf rerr newReader]. rewrite Herr, Hfull. change (4096 <=? blen (@nil byte)) with false.
    split; [|lia]. split; [|done]. rewrite Hs. by rewrite <- !app_assoc. }
  destruct (recv _ c1) as [[b e] c2] eqn:Hr. apply recv_spec in Hr as (Hi & Hb & He); [|apply Z.leb_gt in Hfull; lia].
  apply wp_ret. cbn [stepPost rbuf rerr]. rewrite Herr, Hfull. pose proof Hi as Hlen. apply (f_equal length) in Hlen. rewrite length_app in Hlen.
  split; [split; [rewrite Hs, Hi; by rewrite <- !app_assoc|lia]|].
  destruct e; [destruct (4096 <=? blen (rbuf rd1 ++ b)); lia|]. destruct b; [done|]. cbn [length] in Hlen.
  destruct (4096 <=? blen (rbuf rd1 ++ _)); lia.
Qed.

(** A line that is in the buffer or on its way is returned, in whatever pieces it
    comes and however long it is, and no error is left behind. *)
Lemma readString_line rd c l rest :
  rerr rd = None -> rbuf rd ++ incoming c = l ++ x0a :: rest -> noNewline l = true ->
  exists rd' c', readString rd c = Ret (toString (l ++ [x0a]), None, rd', c') /\ rerr rd' = None
    /\ rbuf rd' ++ incoming c' = rest /\ reads c c'.
Proof.
  intros Herr Hs Hl. unfold readString.
  enough (exists rd' c', loop readStringTurn (readFuel c) ([], rd, c) = Ret (inr (l ++ [x0a], None, rd', c'))
            /\ rerr rd' = None /\ rbuf rd' ++ incoming c' = rest /\ reads c c') as (rd' & c' & -> & ?) by (exists rd', c'; done).
  assert (Hinv : forall fuel acc rd1 c1, rerr rd1 = None -> acc ++ rbuf rd1 ++ incoming c1 = l ++ x0a :: rest ->
    noNewline acc = true -> reads c c1 ->
    (2 * length (incoming c1) + 2 + (if (4096 <=? blen (rbuf rd1))%Z then 1 else 0) < fuel)%nat ->
    exists rd' c', loop readStringTurn fuel (acc, rd1, c1) = Ret (inr (l ++ [x0a], None, rd', c'))
      /\ rerr rd' = None /\ rbuf rd' ++ incoming c' = rest /\ reads c c').
  { clear Hs Herr. induction fuel as [|fuel IH]; intros acc rd1 c1 Herr Hs Hacc Hrd Hf; [lia|]. cbn [loop]. unfold readStringTurn at 1.
    destruct (splitLine (rbuf rd1)) as [[l' r']|] eqn:Hsp.
    - assert (acc ++ l' = l ++ [x0a] /\ r' ++ incoming c1 = rest) as [<- Hrest].
      { destruct (decide (noNewline (rbuf rd1) = true)) as [Hn|Hn]; [by rewrite splitLine_none in Hsp|].
        assert (exists p q, rbuf rd1 = p ++ x0a :: q /\ noNewline p = true) as (p & q & Hpq & Hp).
        { clear -Hn. induction (rbuf rd1) as [|x b IHb]; [done|]. cbn in Hn. destruct (beq x x0a) eqn:Ex.
          - apply beq_true in Ex as ->. by exists [], b.
          - cbn in Hn. destruct (IHb Hn) as (p & q & -> & Hp). exists (x :: p), q. cbn. by rewrite Ex. }
        rewrite Hpq, splitLine_app in Hsp by done. injection Hsp as <- <-. rewrite Hpq in Hs.
        assert (Heq : (acc ++ p) ++ x0a :: (q ++ incoming c1) = l ++ x0a :: rest) by (rewrite <- Hs, <- !app_assoc; done).
        assert (Hap : noNewline (acc ++ p) = true) by (rewrite noNewline_app; by rewrite Hacc).
        apply (f_equal splitLine) in Heq. rewrite !splitLine_app in Heq by done. injection Heq as H1 H2.
        by rewrite app_assoc, H1. }
      rewrite Herr. eexists _, _. split; [done|]. split; [done|]. done.
    - rewrite Herr. assert (Hbuf : noNewline (rbuf rd1) = true).
      { clear -Hsp. induction (rbuf rd1) as [|x b IHb]; [done|]. cbn in *. destruct (beq x x0a); [done|].
        cbn. apply IHb. by destruct (splitLine b) as [[? ?]|]. }
      destruct (4096 <=? blen (rbuf rd1)) eqn:Hfull; rewrite ?Hfull in Hf.
      + apply IH; [done| |by rewrite noNewline_app, Hacc|done|change (4096 <=? blen (rbuf newReader)) with false; cbn beta iota; lia]. cbn [rbuf newReader app].
        rewrite <- Hs. by rewrite <- app_assoc.
      + to_prop. destruct (recv _ c1) as [[b e] c2] eqn:Hr. pose proof Hr as Hr'.
        apply recv_spec in Hr as (Hi & Hb & He); [|lia].
        destruct e as [e|].
        { destruct He as [-> Hnil]. rewrite Hnil, app_nil_r in Hs. apply (f_equal noNewline) in Hs.
          rewrite !noNewline_app, Hacc, Hbuf in Hs. cbn in Hs. by rewrite andb_false_r in Hs. }
        apply (f_equal length) in Hi as Hlen. rewrite length_app in Hlen.
        apply IH; [done| |done| |].
        * cbn [rbuf]. rewrite <- Hs, Hi. by rewrite <- !app_assoc.
        * eapply reads_trans; [done|]. eapply reads_step; [|exact Hr'|constructor]. lia.
        * cbn [rbuf]. destruct b; [done|]. cbn [length] in Hlen. destruct (4096 <=? blen (rbuf rd1 ++ _)); lia. }
  apply Hinv; [done|done|done|constructor|]. unfold readFuel. destruct (4096 <=? blen (rbuf rd)); lia.
Qed.

(** [io.ReadFull]: the next [n] bytes, or an error when the stream is shorter. *)
Lemma wp_recvFull n c (Q : (bytes * C) + (string * C) -> Prop) E : 0 <= n ->
  (forall b c', incoming c = b ++ incoming c' -> blen b = n -> reads c c' -> Q (inl (b, c'))) ->
  (forall e c', blen (incoming c) < n -> Q (inr (e, c'))) -> wp (recvFull n c) Q E.
Proof.
  intros Hn Hs Hf. unfold recvFull.
  apply (wp_loop _ (fun '(got, c1) => incoming c = got ++ incoming c1 /\ blen got <= n /\ reads c c1)
    (fun '(_, c1) => length (incoming c1))); [|split; [done|]; split; [by rewrite blen_nil|constructor]|lia].
  intros [got c1] (Hi & Hg & Hr). unfold fullTurn. destruct (blen got <? n) eqn:E'; to_prop.
  - destruct (recv _ c1) as [[b e] c2] eqn:Hrecv. pose proof Hrecv as Hx. apply recv_spec in Hrecv as (Hi2 & Hb & He); [|lia].
    destruct e as [e|].
    + apply wp_ret. cbn. apply Hf. destruct He as [_ Hnil]. rewrite Hi, Hnil, app_nil_r. lia.
    + apply wp_ret. cbn [stepPost]. rewrite Hi, Hi2, app_assoc, blen_app. split_and!; [done|lia| |].
      * eapply reads_trans; [done|]. eapply reads_step; [|done|constructor]. lia.
      * rewrite length_app. destruct b; [done|]. cbn. lia.
  - apply wp_ret. cbn. apply Hs; [done|lia|done].
Qed.

Lemma recvFull_ok n c b rest : incoming c = b ++ rest -> blen b = n ->
  exists c', recvFull n c = Ret (inl (b, c')) /\ incoming c' = rest /\ reads c c'.
Proof.
  intros Hi Hb. pose proof (blen_nonneg b). pose proof (blen_nonneg rest).
  assert (Hw : wp (recvFull n c) (fun r => exists c', r = inl (b, c') /\ incoming c' = rest /\ reads c c') (fun _ => False)).
  { apply wp_recvFull; [lia| |].
    - intros b' c' Hi' Hb' Hr. rewrite Hi in Hi'. apply app_inj_1 in Hi' as [-> ->]; [by exists c'|]. unfold blen in *. lia.
    - intros e c' Hl. rewrite Hi, blen_app in Hl. lia. }
  destruct (recvFull n c) as [r| | |]; try done. destruct Hw as (c' & -> & Hr). by exists c'.
Qed.

(** A single [Read] of a peer that has sent something. *)
Lemma recv_some n c : 0 < n -> incoming c <> [] -> exists b c', recv n c = (b, None, c') /\ reads c c'
  /\ incoming c = b ++ incoming c' /\ b <> [] /\ blen b <= n.
Proof.
  intros Hn Hi. destruct (recv n c) as [[b e] c'] eqn:Hr. pose proof Hr as Hx. apply recv_spec in Hr as (H1 & H2 & H3); [|done].
  destruct e; [by destruct H3|]. exists b, c'. split_and!; try done. eapply reads_step; [done|done|constructor].
Qed.

(** A peer that waits for each command of the list before it sends its answer:
    once all it has sent is read, it takes the command and answers. *)
Fixpoint serves (c : C) (script : list (bytes * bytes)) : Prop :=
  match script with
  | [] => True
  | (cmd, answer) :: script => forall c', reads c c' -> incoming c' = [] ->
      exists c2, write cmd c' = inl c2 /\ incoming c2 = answer /\ serves c2 script
  end.

Lemma serves_reads c c' script : reads c c' -> serves c script -> serves c' script.
Proof. destruct script as [|[cmd ans] script]; [done|]. intros Hr Hs c2 Hr2. apply Hs. by eapply reads_trans. Qed.

(** The command is written and the answer comes, whatever the error texts. *)
Lemma writeOr_serves {R} ctx cmd answer script c (k : C -> outcome R) : serves c ((cmd, answer) :: script) -> incoming c = [] ->
  exists c', writeOr ctx cmd c k = k c' /\ incoming c' = answer /\ serves c' script.
Proof.
  intros Hs Hi. destruct (Hs c (reads_refl c) Hi) as (c2 & Hw & Ha & Hs2). exists c2. unfold writeOr. by rewrite Hw.
Qed.
End Reader.

(** ** A peer that follows a script, delivering its answers in given pieces *)

Record dialogue := { inbox : list bytes; script : list (list bytes); sent : list bytes }.

(** The next piece, or as much of it as fits. *)
Fixpoint recvPieces (n : Z) (segs : list bytes) : bytes * option string * list bytes :=
  match segs with
  | [] => ([], Some "EOF"%string, [])
  | [] :: segs => recvPieces n segs
  | seg :: segs => if blen seg <=? n then (seg, None, segs) else (take (Z.to_nat n) seg, None, drop (Z.to_nat n) seg :: segs)
  end.

Lemma recvPieces_spec n segs b e segs' : 0 < n -> recvPieces n segs = (b, e, segs') ->
  concat segs = b ++ concat segs' /\ blen b <= n /\ match e with None => b <> [] | Some _ => b = [] /\ concat segs = [] end.
Proof.
  intros Hn. induction segs as [|seg segs IH]; cbn [recvPieces].
  - intros [= <- <- <-]. cbn. split_and!; try done. change (blen (@nil byte)) with 0. lia.
  - destruct seg as [|x seg]; [exact IH|]. destruct (blen (x :: seg) <=? n) eqn:E; to_prop; intros [= <- <- <-].
    + done.
    + cbn [concat]. rewrite app_assoc, take_drop, blen_take by (pose proof (blen_nonneg (x :: seg)); lia).
      split_and!; [done|lia|]. destruct (Z.to_nat n) eqn:En; [lia|done].
Qed.

#[export] Program Instance dialogueWire : Wire dialogue := {|
  incoming d := concat (inbox d);
  recv n d := let '(b, e, segs) := recvPieces n (inbox d) in (b, e, {| inbox := segs; script := script d; sent := sent d |});
  write b d := inl (match script d with
                    | [] => {| inbox := inbox d; script := []; sent := sent d ++ [b] |}
                    | ans :: more => {| inbox := inbox d ++ ans; script := more; sent := sent d ++ [b] |}
                    end)
|}.
Next Obligation.
  intros n d b e d' Hn. cbn. destruct (recvPieces n (inbox d)) as [[b1 e1] segs] eqn:E. intros [= <- <- <-].
  by apply recvPieces_spec in E.
Qed.

(** It serves any commands with the answers of its script. *)
Lemma dialogue_serves cmds : forall d, serves d (combine cmds (map (@concat byte) (script d))).
Proof.
  induction cmds as [|cmd cmds IH]; intros d; [done|]. destruct (script d) as [|ans more] eqn:Es; [done|]. cbn.
  intros d' Hr Hi. assert (Hs : script d' = script d).
  { clear -Hr. induction Hr as [|n c b c1 c2 _ Hrecv _ IHr]; [done|]. rewrite IHr. cbn in Hrecv.
    destruct (recvPieces n (inbox c)) as [[? ?] ?]. by injection Hrecv as _ _ <-. }
  rewrite Hs, Es. eexists. split; [done|]. cbn. rewrite concat_app, Hi. split; [done|].
  exact (IH {| inbox := inbox d' ++ ans; script := more; sent := sent d' ++ [cmd] |}).
Qed.
