(* ===== verification/Bufio.v ===== *)
(** More of Go's [bufio.Reader]: [Read], and [io.ReadFull] and [io.ReadAll] over it.
    [Wire] has [ReadString]; the probes of [service_ssh.go] and [service_redis.go] go on
    with the same reader. *)

From Stdlib Require Import ZArith List String Ascii Strings.Byte Lia Bool.
From stdpp Require Import base list strings numbers.
From S2P Require Import Prelude Bytes GoStrings Wire.
Open Scope Z_scope.

Section Reader.
Context {C : Type} `{Wire C}.

(** [br.Read(p)] for [len(p) = n], [n] positive: from the buffer; when it is empty a
    pending error, a read of the connection past the buffer for a long [p], or one read
    into the buffer. *)
Definition bufRead (n : Z) (rd : bufReader) (c : C) : bytes * option string * bufReader * C :=
  match rbuf rd with
  | _ :: _ => (take (Z.to_nat n) (rbuf rd), None, {| rbuf := drop (Z.to_nat n) (rbuf rd); rerr := rerr rd |}, c)
  | [] =>
      match rerr rd with
      | Some e => ([], Some e, newReader, c)
      | None =>
          if 4096 <=? n then let '(b, e, c') := recv n c in (b, e, newReader, c')
          else
            let '(b, e, c') := recv 4096 c in
            match b with
            | [] => ([], e, newReader, c')
            | _ => (take (Z.to_nat n) b, None, {| rbuf := drop (Z.to_nat n) b; rerr := e |}, c')
            end
      end
  end.

(** [io.ReadFull(br, p)]: the loop of [io.ReadAtLeast]. *)
Definition bufFullTurn (n : Z) (st : bytes * bufReader * C)
    : outcome (step (bytes * bufReader * C) (string * bufReader * C)) :=
  let '(got, rd, c) := st in
  if blen got <? n then
    let '(b, e, rd, c) := bufRead (n - blen got) rd c in
    let got := got ++ b in
    match e with
    | None => Ret (Next (got, rd, c))
    | Some e =>
        if n <=? blen got then Ret (Break (got, rd, c))
        else Ret (Return (if (0 <? blen got) && String.eqb e "EOF" then "unexpected EOF"%string else e, rd, c))
    end
  else Ret (Break (got, rd, c)).

(** What a reader still has to give, as long as no error waits in it. *)
Definition ahead (rd : bufReader) (c : C) : bytes := rbuf rd ++ incoming c.

Definition bufFuel (rd : bufReader) (c : C) : nat := (2 + length (ahead rd c))%nat.

Definition bufFull (n : Z) (rd : bufReader) (c : C) : outcome ((bytes * bufReader * C) + (string * bufReader * C)) :=
  loop (bufFullTurn n) (bufFuel rd c) ([], rd, c).

(** [io.ReadAll(br)]: the sizes of its reads depend on the slice that grows and only
    change the pieces; [io.EOF] is no error. *)
Definition bufAllTurn (st : bytes * bufReader * C) : outcome (step (bytes * bufReader * C) (bytes * option string)) :=
  let '(got, rd, c) := st in
  let '(b, e, rd, c) := bufRead 512 rd c in
  let got := got ++ b in
  match e with
  | None => Ret (Next (got, rd, c))
  | Some e => Ret (Return (got, if String.eqb e "EOF" then None else Some e))
  end.

Definition bufAll (rd : bufReader) (c : C) : outcome (bytes * option string) :=
  r <~ loop bufAllTurn (bufFuel rd c) ([], rd, c) ;;
  Ret (match r with inl (got, _, _) => (got, None) | inr r => r end).

(** ** What they read *)

(** A read without error takes a piece from the front; one with an error has nothing
    more to take. *)
Lemma bufRead_spec n rd c b e rd' c' : 0 < n -> bufRead n rd c = (b, e, rd', c') ->
  match e with
  | None => ahead rd c = b ++ ahead rd' c' /\ b <> [] /\ blen b <= n
            /\ (rerr rd = None -> rerr rd' = None /\ reads c c')
  | Some _ => b = [] /\ rbuf rd = [] /\ (rerr rd = None -> incoming c = [])
  end.
Proof.
  intros Hn. unfold bufRead, ahead. destruct (rbuf rd) as [|x l] eqn:Eb.
  - destruct (rerr rd) as [e0|] eqn:Ee; [by intros [= <- <- <- <-]|]. destruct (4096 <=? n) eqn:E4.
    + destruct (recv n c) as [[b0 e0] c0] eqn:Er. pose proof Er as Hx. apply recv_spec in Er as (Hi & Hl & He); [|done].
      intros [= <- <- <- <-]. destruct e0; [by destruct He as [-> ?]|]. cbn [rbuf newReader app]. split_and!; try done.
      intros _. split; [done|]. eapply reads_step; [|exact Hx|constructor]. done.
    + destruct (recv 4096 c) as [[b0 e0] c0] eqn:Er. pose proof Er as Hx. apply recv_spec in Er as (Hi & Hl & He); [|done].
      destruct b0 as [|y b0].
      * intros [= <- <- <- <-]. destruct e0; [by destruct He as [_ ?]|done].
      * intros [= <- <- <- <-]. destruct e0; [by destruct He|]. cbn [rbuf rerr app].
        rewrite app_assoc, take_drop. split_and!; [done| | |].
        { replace (Z.to_nat n) with (S (Z.to_nat (n - 1))) by lia. done. }
        { unfold blen. rewrite length_take. lia. }
        intros _. split; [done|]. eapply reads_step; [|exact Hx|constructor]. lia.
  - intros [= <- <- <- <-]. cbn [rbuf rerr]. rewrite app_assoc, take_drop. split_and!; [done| | |intros Hr; split; [done|constructor]].
    + replace (Z.to_nat n) with (S (Z.to_nat (n - 1))) by lia. done.
    + unfold blen. rewrite length_take. lia.
Qed.

Lemma wp_bufFull n rd c (Q : (bytes * bufReader * C) + (string * bufReader * C) -> Prop) E : 0 <= n ->
  (forall b rd' c', ahead rd c = b ++ ahead rd' c' -> blen b = n ->
     (rerr rd = None -> rerr rd' = None /\ reads c c') -> Q (inl (b, rd', c'))) ->
  (forall e rd' c', (rerr rd = None -> blen (ahead rd c) < n) -> Q (inr (e, rd', c'))) -> wp (bufFull n rd c) Q E.
Proof.
  intros Hn Hs Hf. unfold bufFull.
  apply (wp_loop _ (fun '(got, rd1, c1) => ahead rd c = got ++ ahead rd1 c1 /\ blen got <= n
                        /\ (rerr rd = None -> rerr rd1 = None /\ reads c c1))
    (fun '(_, rd1, c1) => length (ahead rd1 c1)));
    [|split; [done|]; split; [by rewrite blen_nil|intros; split; [done|constructor]]|unfold bufFuel; lia].
  intros [[got rd1] c1] (Hi & Hg & Hr). unfold bufFullTurn. destruct (blen got <? n) eqn:E'; to_prop.
  - destruct (bufRead _ rd1 c1) as [[[b e] rd2] c2] eqn:Hb. apply bufRead_spec in Hb; [|lia]. destruct e as [e|].
    + destruct Hb as (-> & Hnil & Hend). rewrite app_nil_r. rewrite (proj2 (Z.leb_gt _ _)) by lia. apply wp_ret. cbn. apply Hf.
      intros Hok. destruct (Hr Hok) as [Hok1 _]. rewrite Hi. unfold ahead. rewrite Hnil, (Hend Hok1), !app_nil_r. lia.
    + destruct Hb as (Hb & Hne & Hbn & Hok). apply wp_ret. cbn [stepPost]. rewrite Hi, Hb, app_assoc, blen_app. split_and!; [done|lia| |].
      * intros Hrd. destruct (Hr Hrd) as [Hrd1 Hreads]. destruct (Hok Hrd1) as [? ?]. split; [done|]. by eapply reads_trans.
      * rewrite length_app. destruct b; [done|]. cbn. lia.
  - apply wp_ret. cbn. apply Hs; [done|lia|done].
Qed.

Lemma bufFull_ok n rd c b rest : rerr rd = None -> ahead rd c = b ++ rest -> blen b = n ->
  exists rd' c', bufFull n rd c = Ret (inl (b, rd', c')) /\ ahead rd' c' = rest /\ rerr rd' = None /\ reads c c'.
Proof.
  intros Hrd Hi Hb. pose proof (blen_nonneg b). pose proof (blen_nonneg rest).
  assert (Hw : wp (bufFull n rd c) (fun r => exists rd' c', r = inl (b, rd', c') /\ ahead rd' c' = rest /\ rerr rd' = None /\ reads c c') (fun _ => False)).
  { apply wp_bufFull; [lia| |].
    - intros b' rd' c' Hi' Hb' Hr. rewrite Hi in Hi'. destruct (Hr Hrd). apply app_inj_1 in Hi' as [-> ->]; [by exists rd', c'|]. unfold blen in *. lia.
    - intros e rd' c' Hl. specialize (Hl Hrd). rewrite Hi, blen_app in Hl. lia. }
  destruct (bufFull n rd c) as [r| | |]; try done. destruct Hw as (rd' & c' & -> & Hr). by exists rd', c'.
Qed.

(** Everything up to the end, with the error that ends it. *)
Lemma wp_bufAll rd c (Q : bytes * option string -> Prop) E : rerr rd = None ->
  (forall e n c1 c2, reads c c1 -> 0 < n -> recv n c1 = ([], Some e, c2) -> Q (ahead rd c, if String.eqb e "EOF" then None else Some e)) ->
  wp (bufAll rd c) Q E.
Proof.
  intros Hrd HQ. unfold bufAll. apply wp_bind.
  apply (wp_loop _ (fun '(got, rd1, c1) => ahead rd c = got ++ ahead rd1 c1 /\ rerr rd1 = None /\ reads c c1)
    (fun '(_, rd1, c1) => length (ahead rd1 c1))); [|split; [done|]; split; [done|constructor]|unfold bufFuel; lia].
  intros [[got rd1] c1] (Hi & Hr & Hreads). unfold bufAllTurn.
  destruct (bufRead 512 rd1 c1) as [[[b e] rd2] c2] eqn:Hb. pose proof Hb as Hb'. apply bufRead_spec in Hb; [|lia]. destruct e as [e|].
  - destruct Hb as (-> & Hnil & Hend). apply wp_ret. cbn [stepPost]. apply wp_ret. rewrite app_nil_r.
    assert (Ha : got = ahead rd c) by (rewrite Hi; unfold ahead; by rewrite Hnil, (Hend Hr), !app_nil_r).
    rewrite Ha. unfold bufRead in Hb'. rewrite Hnil, Hr in Hb'. change (4096 <=? 512) with false in Hb'. cbn iota in Hb'.
    destruct (recv 4096 c1) as [[b0 e0] c0] eqn:Er. destruct b0; [|done]. injection Hb' as -> <- <-.
    eapply HQ; [done| |done]. lia.
  - destruct Hb as (Hb & Hne & _ & Hok). destruct (Hok Hr) as [Hok' Hrd']. apply wp_ret. cbn [stepPost].
    rewrite Hi, Hb, app_assoc. split_and!; [done|done|by eapply reads_trans|].
    rewrite length_app. destruct b; [done|]. cbn. lia.
Qed.

Lemma wp_bufAll_returns rd c E : wp (bufAll rd c) (fun _ => True) E.
Proof.
  unfold bufAll. apply wp_bind. apply (wp_loop _ (fun _ => True) (fun '(_, rd1, c1) => length (ahead rd1 c1))); [|done|unfold bufFuel; lia].
  intros [[got rd1] c1] _. unfold bufAllTurn. destruct (bufRead 512 rd1 c1) as [[[b e] rd2] c2] eqn:Hb. apply bufRead_spec in Hb; [|lia].
  destruct e as [e|]; apply wp_ret; cbn [stepPost]; [by apply wp_ret|]. destruct Hb as (Hb & Hne & _). rewrite Hb, length_app. split; [done|].
  destruct b; [done|]. cbn. lia.
Qed.
End Reader.

(** ** A server that has sent all it will send *)

Definition recvAll (n : Z) (c : bytes) : bytes * option string * bytes :=
  match c with [] => ([], Some "EOF"%string, []) | x :: l => (take (Z.to_nat n) (x :: l), None, drop (Z.to_nat n) (x :: l)) end.

Lemma recvAll_spec n c b e c' : 0 < n -> recvAll n c = (b, e, c') ->
  c = b ++ c' /\ blen b <= n /\ match e with None => b <> [] | Some _ => b = [] /\ c = [] end.
Proof.
  intros Hn. destruct c as [|x c]; cbn [recvAll]; [intros [= <- <- <-]; split_and!; [done|rewrite blen_nil; lia|done|done]|]. intros [= <- <- <-].
  rewrite take_drop. split; [done|]. split; [unfold blen; rewrite length_take; lia|]. destruct (Z.to_nat n) eqn:E; [lia|done].
Qed.

#[export] Instance sentAll : Wire bytes := {| incoming c := c; recv := recvAll; write _ c := inl c; recv_spec := recvAll_spec |}.
