(* ===== verification/Sorting.v ===== *)
(** [sort.SliceStable] by a less-than function, and that its result depends only on the
    elements when the function orders them strictly; and workers that each write the slot
    of their index of a shared slice, in the order in which they finish. *)

From Stdlib Require Import ZArith List Lia Bool Permutation Sorting.Sorted.
From stdpp Require Import base list.
From S2P Require Import Prelude.

Lemma Permutation_lfilter {A} (f : A -> bool) l l' : Permutation l l' -> Permutation (List.filter f l) (List.filter f l').
Proof.
  induction 1 as [|x l l' Hl IH|x y l|l l1 l2 H12 IH12 H23 IH23]; cbn [List.filter]; [done|destruct (f x); [by constructor|done]| |by etransitivity].
  destruct (f x), (f y); try done. constructor.
Qed.

Section SortBy.
Context {A : Type} (less : A -> A -> bool).

(** [x] goes before the first element that is not less than it, so that equal elements
    keep their order. *)
Fixpoint insertBy (x : A) (l : list A) : list A :=
  match l with
  | [] => [x]
  | y :: l' => if less y x then y :: insertBy x l' else x :: l
  end.
Definition sortBy (l : list A) : list A := foldr insertBy [] l.

Lemma insertBy_Permutation x l : Permutation (x :: l) (insertBy x l).
Proof.
  induction l as [|y l IH]; [done|]. cbn [insertBy]. destruct (less y x); [|done].
  etransitivity; [apply perm_swap|]. by apply perm_skip.
Qed.

Lemma sortBy_Permutation l : Permutation l (sortBy l).
Proof. induction l as [|x l IH]; [done|]. cbn [sortBy foldr]. etransitivity; [by apply perm_skip|]. apply insertBy_Permutation. Qed.

Context (less_trans : forall x y z, less x y = true -> less y z = true -> less x z = true)
        (less_asym : forall x y, less x y = true -> less y x = false).

Lemma insertBy_lt x y l : less x y = true -> insertBy x (insertBy y l) = insertBy y (insertBy x l).
Proof.
  intros Hxy. pose proof (less_asym _ _ Hxy) as Hyx. induction l as [|z l IH]; cbn [insertBy]; [by rewrite Hxy, Hyx|].
  destruct (less z x) eqn:Ezx.
  - rewrite (less_trans _ _ _ Ezx Hxy). cbn [insertBy]. by rewrite Ezx, (less_trans _ _ _ Ezx Hxy), IH.
  - destruct (less z y) eqn:Ezy; cbn [insertBy]; rewrite ?Ezx, ?Hyx, ?Hxy; cbn [insertBy]; by rewrite Ezy.
Qed.

(** Elements that are equal or comparable *)
Definition comparable (x y : A) : Prop := x = y \/ less x y = true \/ less y x = true.

Lemma insertBy_comm x y l : comparable x y -> insertBy x (insertBy y l) = insertBy y (insertBy x l).
Proof. intros [->|[Hxy|Hyx]]; [done|by apply insertBy_lt|symmetry; by apply insertBy_lt]. Qed.

Lemma sortBy_perm l l' : (forall x y, In x l -> In y l -> comparable x y) -> Permutation l l' -> sortBy l = sortBy l'.
Proof.
  intros Hc Hp. revert Hc. induction Hp as [|x l l' Hp IH|x y l|l l2 l3 H12 IH12 H23 IH23]; intros Hc; cbn [sortBy foldr]; [done|..].
  - unfold sortBy in IH. rewrite IH; [done|]. intros a b Ha Hb. apply Hc; by right.
  - apply insertBy_comm. apply Hc; cbn; tauto.
  - rewrite IH12 by done. apply IH23. intros a b Ha Hb. apply Hc; by eapply Permutation_in; [symmetry; exact H12|].
Qed.

(** Sorted: no element is less than an earlier one. *)
Lemma sortBy_sorted l : (forall x y z, less y x = false -> less z y = false -> less z x = false) ->
  StronglySorted (fun x y => less y x = false) (sortBy l).
Proof.
  intros Hneg. induction l as [|x l IH]; [constructor|]. cbn [sortBy foldr]. fold (sortBy l). revert IH. generalize (sortBy l) as k.
  induction k as [|y k IH]; intros Hs; cbn [insertBy]; [by repeat constructor|]. inversion Hs as [|? ? Hk Hy]; subst.
  destruct (less y x) eqn:E.
  - constructor; [by apply IH|]. apply List.Forall_forall. intros z Hz. rewrite List.Forall_forall in Hy.
    apply (Permutation_in z (Permutation_sym (insertBy_Permutation x k))) in Hz as [<-|Hz]; [by apply less_asym|by apply Hy].
  - constructor; [by constructor|]. constructor; [done|]. eapply Forall_impl; [exact Hy|]. intros z Hz. cbn in *. by eapply Hneg.
Qed.
End SortBy.

(** ** Slots *)

Section Slots.
Context {A : Type}.

Definition slots (zero : list A) (arrivals : list (nat * A)) : list A :=
  foldl (fun results r => <[fst r := snd r]> results) zero arrivals.

Lemma slots_length zero arrivals : length (slots zero arrivals) = length zero.
Proof.
  revert zero. induction arrivals as [|r arrivals IH]; intros zero; [done|]. unfold slots in *. cbn [foldl]. by rewrite IH, length_insert.
Qed.

Lemma slots_lookup zero arrivals i : NoDup (map fst arrivals) -> Forall (fun r => fst r < length zero)%nat arrivals ->
  slots zero arrivals !! i = match find (fun r => Nat.eqb (fst r) i) arrivals with Some r => Some (snd r) | None => zero !! i end.
Proof.
  revert zero. induction arrivals as [|[j v] arrivals IH]; intros zero Hn Hl; [done|]. cbn [map fst] in Hn. apply NoDup_cons in Hn as [Hj Hn].
  inversion Hl as [|? ? Hjl Hl']; subst. cbn [fst] in Hjl. unfold slots in *. cbn [foldl find fst snd]. rewrite IH; [|done|].
  2:{ eapply Forall_impl; [exact Hl'|]. intros r Hr. cbn. by rewrite length_insert. }
  destruct (Nat.eqb_spec j i) as [->|Hne].
  - destruct (find _ arrivals) as [r|] eqn:E; [|by apply list_lookup_insert_eq].
    apply find_some in E as [Hr Hri]. apply Nat.eqb_eq in Hri. destruct Hj. rewrite <- Hri. apply list_elem_of_In, in_map, Hr.
  - destruct (find _ arrivals); [done|]. by apply list_lookup_insert_ne.
Qed.

(** When each index is served once, every slot holds the result of its own job: the
    order in which the workers finish does not matter. *)
Lemma slots_jobs {B} (l : list B) (f : B -> A) (zero : list A) arrival :
  length zero = length l -> Permutation arrival (seq 0 (length l)) ->
  slots zero (flat_map (fun i => match l !! i with Some p => [(i, f p)] | None => [] end) arrival) = map f l.
Proof.
  intros Hz Hp. set (job := fun i => _). assert (Hin : Forall (fun i => i < length l)%nat arrival) by (rewrite Hp; apply Forall_seq; lia).
  assert (Hfst : map fst (flat_map job arrival) = arrival).
  { clear Hp. induction Hin as [|i arrival Hi Ha IH]; [done|]. cbn [flat_map]. rewrite map_app, IH. unfold job.
    by destruct (lookup_lt_is_Some_2 l i Hi) as [p ->]. }
  assert (Hjob : forall r, In r (flat_map job arrival) -> exists p, l !! (fst r) = Some p /\ snd r = f p).
  { intros r Hr. apply in_flat_map in Hr as (i & _ & Hr). unfold job in Hr. destruct (l !! i) as [p|] eqn:E; [|destruct Hr].
    destruct Hr as [<-|[]]. by exists p. }
  apply list_eq. intros i. rewrite slots_lookup.
  2:{ rewrite Hfst, Hp. apply NoDup_seq. }
  2:{ apply List.Forall_forall. intros r Hr. destruct (Hjob r Hr) as (p & Hl & _). apply lookup_lt_Some in Hl. lia. }
  replace (map f l !! i) with (f <$> l !! i) by (symmetry; apply list_lookup_fmap). destruct (find _ _) as [r|] eqn:E.
  - apply find_some in E as [Hr Hri]. apply Nat.eqb_eq in Hri as <-. destruct (Hjob r Hr) as (p & -> & ->). done.
  - destruct (l !! i) as [p|] eqn:El; [|apply lookup_ge_None in El; apply lookup_ge_None; lia].
    assert (Hi : In i (map fst (flat_map job arrival))) by (rewrite Hfst, Hp; apply in_seq; apply lookup_lt_Some in El; lia).
    apply in_map_iff in Hi as (r & Hr & Hi). apply (find_none _ _ E) in Hi. by apply Nat.eqb_neq in Hi.
Qed.
End Slots.
