(* ===== verification/Result.v ===== *)
(** The types and string helpers of [result.go]: the outcome of a check, the report,
    and the shortening of text for the terminal. *)

From Stdlib Require Import ZArith List String Ascii Strings.Byte Lia Bool.
From stdpp Require Import base list strings numbers gmap.
From S2P Require Import Prelude Bytes GoStrings.
Open Scope Z_scope.

(** ** Runes

    [[]rune(s)] as the encodings of the runes: Go decodes UTF-8, and every byte that
    does not start a valid sequence becomes U+FFFD. *)
Definition within (lo hi : Z) (c : ascii) : bool := (lo <=? code c) && (code c <=? hi).

(** The length of the valid sequence at the start of the string, 0 if there is none. *)
Definition runeWidth (s : string) : nat :=
  match s with
  | EmptyString => 0%nat
  | String a r =>
      let x := code a in
      if x <? 0x80 then 1
      else if within 0xc2 0xdf a then
        match r with String b _ => if within 0x80 0xbf b then 2%nat else 0%nat | _ => 0%nat end
      else if within 0xe0 0xef a then
        match r with
        | String b (String c _) =>
            if within (if x =? 0xe0 then 0xa0 else 0x80) (if x =? 0xed then 0x9f else 0xbf) b && within 0x80 0xbf c then 3%nat else 0%nat
        | _ => 0%nat
        end
      else if within 0xf0 0xf4 a then
        match r with
        | String b (String c (String d _)) =>
            if within (if x =? 0xf0 then 0x90 else 0x80) (if x =? 0xf4 then 0x8f else 0xbf) b
               && within 0x80 0xbf c && within 0x80 0xbf d then 4%nat else 0%nat
        | _ => 0%nat
        end
      else 0%nat
  end.

Definition runeError : string := toString [xef; xbf; xbd].

Fixpoint runesFuel (fuel : nat) (s : string) : list string :=
  match fuel, s with
  | O, _ | _, EmptyString => []
  | S fuel, _ =>
      match runeWidth s with
      | O => runeError :: runesFuel fuel (dropString 1 s)
      | w => takeString w s :: runesFuel fuel (dropString w s)
      end
  end.
Definition runes (s : string) : list string := runesFuel (String.length s) s.

Definition ellipsis : string := toString [xe2; x80; xa6].

Definition truncate (s : string) (n : Z) : outcome string :=
  let r := runes s in
  if blen r <=? n then Ret s
  else r <~ slice r 0 (n - 1) ;; Ret (String.concat "" r +:+ ellipsis)%string.

Definition plural (n : Z) : string := if n =? 1 then "" else "s".

(** [%-ns] of a string: it counts runes. *)
Definition padRight (n : Z) (s : string) : string := (s +:+ Repeat " " (Z.to_nat (n - blen (runes s))))%string.

Definition emDash : string := toString [xe2; x80; x94].

(** What an [if] appends *)
Definition when {A} (b : bool) (x : A) : list A := if b then [x] else [].

(** [strings.TrimRight(err.Error(), " \t\n:;")] of the text of an error *)
Definition tidyErr (e : string) : string :=
  trimRightFunc (fun c => existsb (Z.eqb (code c)) [32; 9; 10; 58; 59]) e.

Definition middleDot : string := toString [xc2; xb7].

Definition previewList (items : list string) (n : Z) : outcome string :=
  if blen items =? 0 then Ret ""%string
  else
    let sep := ("  " +:+ middleDot +:+ "  ")%string in
    if blen items <=? n then Ret (Join items sep)
    else
      first <~ slice items 0 n ;;
      Ret (Join first sep +:+ sep +:+ "+" +:+ fmtD (blen items - n) +:+ " more")%string.

(** ** Shortening keeps at most [n] characters and never cuts one *)

Lemma runeWidth_le s : (runeWidth s <= String.length s)%nat.
Proof.
  unfold runeWidth. destruct s as [|a s]; [done|]. destruct (_ <? _); [cbn; lia|].
  destruct (within _ _ a); [destruct s; [|destruct (within _ _ _)]; cbn; lia|].
  destruct (within _ _ a); [destruct s as [|b [|c s]]; try (cbn; lia); destruct (_ && _); cbn; lia|].
  destruct (within _ _ a); [destruct s as [|b [|c [|d s]]]; try (cbn; lia); destruct (_ && _); cbn; lia|]. cbn. lia.
Qed.

(** The width is decided by the bytes of the sequence alone. *)
Lemma runeWidth_app x t : runeWidth x = String.length x -> x <> ""%string -> runeWidth (x +:+ t) = String.length x.
Proof.
  destruct x as [|a x]; [done|]. intros Hw _. revert Hw. unfold runeWidth. cbn [String.append].
  destruct (code a <? 0x80); [done|].
  destruct (within 0xc2 0xdf a); [destruct x as [|b x]; [done|]; cbn [String.append]; by destruct (within _ _ b)|].
  destruct (within 0xe0 0xef a).
  { destruct x as [|b [|c x]]; [done|done|]. cbn [String.append]. by destruct (within _ _ b && within _ _ c). }
  destruct (within 0xf0 0xf4 a); [|done]. destruct x as [|b [|c [|d x]]]; [done|done|done|]. cbn [String.append].
  by destruct (within _ _ b && within _ _ c && within _ _ d).
Qed.

Lemma runeWidth_take s : runeWidth (takeString (runeWidth s) s) = runeWidth s.
Proof.
  destruct s as [|a s]; [done|]. unfold runeWidth at 2 3.
  destruct (code a <? 0x80) eqn:E1; [cbn; by rewrite E1|].
  destruct (within 0xc2 0xdf a) eqn:E2.
  { destruct s as [|b s]; [done|]. destruct (within 0x80 0xbf b) eqn:Eb; [|done]. cbn. by rewrite E1, E2, Eb. }
  destruct (within 0xe0 0xef a) eqn:E3.
  { destruct s as [|b [|c s]]; [done|done|]. destruct (within _ _ b && within _ _ c) eqn:Eb; [|done].
    cbn. by rewrite E1, E2, E3, Eb. }
  destruct (within 0xf0 0xf4 a) eqn:E4; [|done]. destruct s as [|b [|c [|d s]]]; [done|done|done|].
  destruct (within _ _ b && within _ _ c && within _ _ d) eqn:Eb; [|done]. cbn. by rewrite E1, E2, E3, E4, Eb.
Qed.

(** One whole character. *)
Definition isRune (x : string) : Prop := runeWidth x = String.length x /\ x <> ""%string.

Lemma runesFuel_rune fuel s : Forall isRune (runesFuel fuel s).
Proof.
  revert s. induction fuel as [|fuel IH]; intros [|a s]; [constructor..|]. cbn [runesFuel].
  destruct (runeWidth (String a s)) as [|w] eqn:E; constructor; try apply IH; [by vm_compute|].
  rewrite <- E. split; [|rewrite E; done]. rewrite runeWidth_take, length_takeString.
  pose proof (runeWidth_le (String a s)). lia.
Qed.

(** Decoding the concatenation of characters gives them back. *)
Lemma runesFuel_concat l fuel : Forall isRune l -> (String.length (String.concat "" l) <= fuel)%nat ->
  runesFuel fuel (String.concat "" l) = l.
Proof.
  intros Hl. revert fuel. induction Hl as [|x l [Hw Hne] Hl IH]; intros fuel Hf; [by destruct fuel|].
  rewrite concat_empty_cons in *. rewrite length_appString in Hf.
  destruct x as [|a x]; [done|]. destruct fuel as [|fuel]; [cbn in Hf; lia|]. cbn [String.append runesFuel].
  change (String a (x +:+ String.concat "" l)) with (String a x +:+ String.concat "" l)%string.
  rewrite runeWidth_app by done. cbn [String.length]. change (S (String.length x)) with (String.length (String a x)).
  rewrite takeString_app, dropString_app, IH; [done|]. cbn in Hf. lia.
Qed.

Lemma runes_concat l : Forall isRune l -> runes (String.concat "" l) = l.
Proof. intros Hl. unfold runes. by apply runesFuel_concat. Qed.

Lemma concat_app_string l k : String.concat "" (l ++ k) = (String.concat "" l +:+ String.concat "" k)%string.
Proof.
  induction l as [|x l IH]; [done|]. rewrite <- app_comm_cons, !concat_empty_cons, IH. apply appString_assoc.
Qed.

(** Text of at most [n] characters is kept; of longer text the first [n-1] characters
    are kept whole and an ellipsis is the n-th. *)
Lemma truncate_spec s n : 1 <= n ->
  exists t, truncate s n = Ret t /\
    if blen (runes s) <=? n then t = s else runes t = take (Z.to_nat (n - 1)) (runes s) ++ [ellipsis] /\ blen (runes t) = n.
Proof.
  intros Hn. unfold truncate. destruct (blen (runes s) <=? n) eqn:E; [by exists s|]. to_prop.
  rewrite slice_ok by lia. cbn [bind]. eexists. split; [done|]. rewrite Z.sub_0_r.
  set (r := sub (runes s) 0 (n - 1)). assert (Hr : r = take (Z.to_nat (n - 1)) (runes s)) by done.
  assert (Hrunes : runes (String.concat "" r +:+ ellipsis) = r ++ [ellipsis]).
  { rewrite <- (appString_nil ellipsis) at 1. change (ellipsis +:+ "")%string with (String.concat "" [ellipsis]).
    rewrite <- concat_app_string. apply runes_concat. apply Forall_app. split; [|by repeat constructor; vm_compute].
    rewrite Hr. apply Forall_take, runesFuel_rune. }
  rewrite Hrunes, Hr. split; [done|]. rewrite blen_app, blen_take by lia. change (blen [ellipsis]) with 1. lia.
Qed.

Lemma wp_truncate s n (Q : string -> Prop) E : 1 <= n -> (forall t, Q t) -> wp (truncate s n) Q E.
Proof. intros Hn HQ. destruct (truncate_spec s n Hn) as (t & -> & _). apply HQ. Qed.
