(* ===== verification/Runes.v ===== *)
(** [strings.ToLower] and [strings.TrimSpace] on strings of UTF-8, rune by rune, for
    names in which letters and white space outside ASCII matter.  The case pairs are
    those of Latin-1, Latin Extended-A and the two letterlike symbols that fold to
    Latin letters; other runes are their own lower case here. *)

From Stdlib Require Import ZArith List String Ascii Strings.Byte Lia Bool.
From stdpp Require Import base list strings.
From S2P Require Import Prelude Bytes GoStrings Result.
Open Scope Z_scope.

(** A rune outside ASCII that [unicode.IsSpace] holds of *)
Definition isSpaceRune (r : string) : bool :=
  existsb (fun b => String.eqb r (toString b))
    ([[xc2; x85]; [xc2; xa0]; [xe1; x9a; x80]; [xe2; x80; xa8]; [xe2; x80; xa9]; [xe2; x80; xaf]; [xe2; x81; x9f]; [xe3; x80; x80]]
     ++ map (fun b => [xe2; x80; b]) [x80; x81; x82; x83; x84; x85; x86; x87; x88; x89; x8a]).

Definition isSpaceAt (r : string) : bool :=
  match r with String c EmptyString => isSpace c | _ => isSpaceRune r end.

Fixpoint dropSpaces (l : list string) : list string :=
  match l with
  | [] => []
  | r :: l' => if isSpaceAt r then dropSpaces l' else l
  end.

Definition trimSpaceRunes (l : list string) : list string := rev (dropSpaces (rev (dropSpaces l))).

(** The lower case of a code point from 0x80 to 0x7ff *)
Definition lowerPoint (cp : Z) : Z :=
  if (0xc0 <=? cp) && (cp <=? 0xde) && negb (cp =? 0xd7) then cp + 32
  else if cp =? 0x130 then 0x69
  else if cp =? 0x178 then 0xff
  else if ((0x100 <=? cp) && (cp <=? 0x137) || (0x14a <=? cp) && (cp <=? 0x177)) && Z.even cp then cp + 1
  else if ((0x139 <=? cp) && (cp <=? 0x148) || (0x179 <=? cp) && (cp <=? 0x17e)) && Z.odd cp then cp + 1
  else cp.

(** UTF-8 of a code point below 0x800 *)
Definition encodePoint (cp : Z) : string :=
  if cp <? 0x80 then String (ascii_of_N (Z.to_N cp)) ""
  else String (ascii_of_N (Z.to_N (0xc0 + cp / 64))) (String (ascii_of_N (Z.to_N (0x80 + cp mod 64))) "").

Definition lowerRune (r : string) : string :=
  match r with
  | String c EmptyString => String (lowerByte c) ""
  | String a (String b EmptyString) => encodePoint (lowerPoint ((code a - 0xc0) * 64 + (code b - 0x80)))
  | _ => if String.eqb r (toString [xe2; x84; xaa]) then "k"
         else if String.eqb r (toString [xe2; x84; xab]) then encodePoint 0xe5
         else r
  end.

(** [strings.ToLower(strings.TrimSpace(s))] *)
Definition lowerTrimmed (s : string) : string := String.concat "" (map lowerRune (trimSpaceRunes (runes s))).

(** ** ASCII *)

Lemma runesFuel_ascii n s : (String.length s <= n)%nat -> isAscii s = true ->
  runesFuel n s = map (fun c => String c "") (list_ascii_of_string s).
Proof.
  revert s. induction n as [|n IH]; intros [|c s] Hn Ha; cbn [String.length] in Hn; try lia; try done.
  cbn in Ha. apply andb_prop in Ha as [Hc Ha]. cbn [runesFuel]. unfold runeWidth. rewrite Hc. cbn. rewrite IH; [done|lia|done].
Qed.

Lemma runes_ascii s : isAscii s = true -> runes s = map (fun c => String c "") (list_ascii_of_string s).
Proof. intros Ha. by apply runesFuel_ascii. Qed.

Lemma list_of_string_of_list l : list_ascii_of_string (string_of_list_ascii l) = l.
Proof. induction l as [|c l IH]; [done|]. cbn. by rewrite IH. Qed.

Lemma string_of_list_of_string s : string_of_list_ascii (list_ascii_of_string s) = s.
Proof. induction s as [|c s IH]; [done|]. cbn. by rewrite IH. Qed.

Lemma dropSpaces_ascii l : dropSpaces (map (fun c => String c "") l) =
  map (fun c => String c "") (list_ascii_of_string (trimLeftFunc isSpace (string_of_list_ascii l))).
Proof. induction l as [|c l IH]; [done|]. cbn. destruct (isSpace c); [done|]. cbn. by rewrite list_of_string_of_list. Qed.

Lemma concat_lower l : String.concat "" (map lowerRune (map (fun c => String c "") l)) = ToLower (string_of_list_ascii l).
Proof.
  induction l as [|c l IH]; [done|]. cbn [map]. rewrite concat_empty_cons, IH. done.
Qed.

(** On ASCII the two functions are those on bytes. *)
Lemma lowerTrimmed_ascii s : isAscii s = true -> lowerTrimmed s = ToLower (TrimSpace s).
Proof.
  intros Ha. unfold lowerTrimmed, trimSpaceRunes. rewrite runes_ascii by done.
  rewrite dropSpaces_ascii, <- map_rev, dropSpaces_ascii, <- map_rev, concat_lower.
  rewrite string_of_list_of_string. reflexivity.
Qed.
