(* ===== verification/Starttls.v ===== *)
(** The STARTTLS dialogues of [starttls_dispatch.go] and [starttls.go]: the
    plaintext negotiation of fourteen protocols up to the point where the
    connection is handed to TLS.  A handshake gives the connection that TLS goes on
    with, or an error; what a [bufio.Reader] still holds at that point is gone. *)

From Stdlib Require Import ZArith List String Ascii Strings.Byte Lia Bool.
From stdpp Require Import base list strings numbers.
From S2P Require Import Prelude Bytes GoStrings Result Wire.
Open Scope Z_scope.

Definition startTLSProtocol := string.
Definition starttlsSMTP : startTLSProtocol := "smtp".
Definition starttlsLMTP : startTLSProtocol := "lmtp".
Definition starttlsPOP3 : startTLSProtocol := "pop3".
Definition starttlsIMAP : startTLSProtocol := "imap".
Definition starttlsFTP : startTLSProtocol := "ftp".
Definition starttlsNNTP : startTLSProtocol := "nntp".
Definition starttlsXMPP : startTLSProtocol := "xmpp".
Definition starttlsXMPPServer : startTLSProtocol := "xmpp-server".
Definition starttlsSieve : startTLSProtocol := "sieve".
Definition starttlsTelnet : startTLSProtocol := "telnet".
Definition starttlsLDAP : startTLSProtocol := "ldap".
Definition starttlsIRC : startTLSProtocol := "irc".
Definition starttlsMySQL : startTLSProtocol := "mysql".
Definition starttlsPostgres : startTLSProtocol := "postgres".

Definition validSTARTTLSProtocols : list startTLSProtocol :=
  [starttlsSMTP; starttlsLMTP; starttlsPOP3; starttlsIMAP; starttlsFTP; starttlsNNTP; starttlsXMPP; starttlsXMPPServer;
   starttlsSieve; starttlsTelnet; starttlsLDAP; starttlsIRC; starttlsMySQL; starttlsPostgres].

Definition oneOf (s : string) (l : list string) : bool := existsb (String.eqb s) l.

Definition crlf : string := toString [x0d; x0a].
Definition xmppNS : string := "urn:ietf:params:xml:ns:xmpp-tls".
Definition quoteChar : string := toString [x22].

(** [line[3] == ' '] for a line of at least four bytes *)
Definition finalLine (line : string) : bool :=
  match String.get 3 line with Some c => Ascii.eqb c " " | None => true end.

Section Handshakes.
(** [fmt]'s [%q] *)
Context (quote : string -> string).
Context {C : Type} `{Wire C}.

Definition parseSTARTTLSProtocol (name : string) : outcome startTLSProtocol :=
  let n := ToLower (TrimSpace name) in
  if oneOf n ["smtp"; "submission"; "smtps"]%string then Ret starttlsSMTP
  else if oneOf n ["lmtp"%string] then Ret starttlsLMTP
  else if oneOf n ["pop3"; "pop"]%string then Ret starttlsPOP3
  else if oneOf n ["imap"%string] then Ret starttlsIMAP
  else if oneOf n ["ftp"%string] then Ret starttlsFTP
  else if oneOf n ["nntp"%string] then Ret starttlsNNTP
  else if oneOf n ["xmpp"%string] then Ret starttlsXMPP
  else if oneOf n ["xmpp-server"; "xmpps"; "xmpp-s2s"]%string then Ret starttlsXMPPServer
  else if oneOf n ["sieve"%string] then Ret starttlsSieve
  else if oneOf n ["telnet"%string] then Ret starttlsTelnet
  else if oneOf n ["ldap"%string] then Ret starttlsLDAP
  else if oneOf n ["irc"%string] then Ret starttlsIRC
  else if oneOf n ["mysql"%string] then Ret starttlsMySQL
  else if oneOf n ["postgres"; "postgresql"; "pgsql"]%string then Ret starttlsPostgres
  else Err ("unknown --starttls protocol " +:+ quote name +:+ " (valid: smtp, lmtp, pop3, imap, ftp, nntp, xmpp, xmpp-server, sieve, telnet, ldap, irc, mysql, postgres)").

Definition defaultPortForSTARTTLS (p : startTLSProtocol) : Z :=
  if String.eqb p starttlsSMTP then 25 else if String.eqb p starttlsLMTP then 24
  else if String.eqb p starttlsPOP3 then 110 else if String.eqb p starttlsIMAP then 143
  else if String.eqb p starttlsFTP then 21 else if String.eqb p starttlsNNTP then 119
  else if String.eqb p starttlsXMPP then 5222 else if String.eqb p starttlsXMPPServer then 5269
  else if String.eqb p starttlsSieve then 4190 else if String.eqb p starttlsTelnet then 23
  else if String.eqb p starttlsLDAP then 389 else if String.eqb p starttlsIRC then 6667
  else if String.eqb p starttlsMySQL then 3306 else if String.eqb p starttlsPostgres then 5432 else 0.

(** ** Line protocols *)

(** One turn of [readSMTPLine]: the state is the text so far; the result is the text
    and the error. *)
Definition smtpLineTurn (st : string * bufReader * C) : outcome (step (string * bufReader * C) (string * option string * bufReader * C)) :=
  let '(out, rd, c) := st in
  unpack (line, err, rd, c) <~ readString rd c ;;
  match err with
  | Some e => Ret (Return (out, Some e, rd, c))
  | None =>
      let out := (out +:+ line)%string in
      if slen line <? 4 then Ret (Return (out, None, rd, c))
      else if finalLine line then Ret (Return (out, None, rd, c))
      else Ret (Next (out, rd, c))
  end.

Definition readSMTPLine (rd : bufReader) (c : C) : outcome (string * option string * bufReader * C) :=
  r <~ loop smtpLineTurn (S (length (rbuf rd ++ incoming c))) (""%string, rd, c) ;;
  Ret (match r with inl (out, rd, c) => (out, None, rd, c) | inr r => r end).

(** [reply, err := readSMTPLine(rd); if err != nil { return fmt.Errorf(ctx+": %w", err) }] *)
Definition readReply {R} (ctx : string) (rd : bufReader) (c : C) (k : string -> bufReader -> C -> outcome R) : outcome R :=
  unpack (reply, err, rd, c) <~ readSMTPLine rd c ;;
  match err with Some e => Err (ctx +:+ ": " +:+ e) | None => k reply rd c end.

(** [fmt.Errorf(ctx+": %s", truncate(s, 60))] *)
Definition refused (ctx s : string) : outcome C :=
  t <~ truncate s 60 ;; Err (ctx +:+ ": " +:+ t).

Definition starttlsSMTPHandshake (conn : C) (helo : string) : outcome C :=
  readReply "smtp banner" newReader conn (fun _ rd conn =>
  writeOr ("smtp " +:+ helo)%string (ofString (helo +:+ " netdoc" +:+ crlf)) conn (fun conn =>
  readReply ("smtp " +:+ helo +:+ " reply")%string rd conn (fun ehlo rd conn =>
  if negb (Contains (ToUpper ehlo) "STARTTLS") then Err "smtp: STARTTLS not advertised in EHLO/LHLO response" else
  writeOr "smtp STARTTLS" (ofString ("STARTTLS" +:+ crlf)) conn (fun conn =>
  readReply "smtp STARTTLS reply" rd conn (fun reply rd conn =>
  if negb (HasPrefix (TrimSpace reply) "220") then refused "smtp STARTTLS refused" (TrimSpace reply)
  else Ret conn))))).

Definition starttlsPOP3Handshake (conn : C) : outcome C :=
  readLine "pop3 banner" newReader conn (fun banner rd conn =>
  if negb (HasPrefix banner "+OK") then
    t <~ truncate (TrimSpace banner) 60 ;; Err ("pop3: bad banner " +:+ quote t)
  else
  writeOr "pop3 STLS" (ofString ("STLS" +:+ crlf)) conn (fun conn =>
  readLine "pop3 STLS reply" rd conn (fun reply rd conn =>
  if negb (HasPrefix reply "+OK") then refused "pop3 STLS refused" (TrimSpace reply)
  else Ret conn))).

(** [for i := 0; i < 5; i++] of the IMAP handshake *)
Definition imapTurn (_ : nat) (st : bufReader * C) : outcome (step (bufReader * C) C) :=
  let '(rd, conn) := st in
  readLine "imap STARTTLS reply" rd conn (fun line rd conn =>
  if HasPrefix line "a001 " then
    if negb (HasPrefix line "a001 OK") then
      t <~ truncate (TrimSpace line) 60 ;; Err ("imap STARTTLS refused: " +:+ t)
    else Ret (Return conn)
  else Ret (Next (rd, conn))).

Definition starttlsIMAPHandshake (conn : C) : outcome C :=
  readLine "imap banner" newReader conn (fun banner rd conn =>
  if negb (HasPrefix banner "* OK") then
    t <~ truncate (TrimSpace banner) 60 ;; Err ("imap: bad banner " +:+ quote t)
  else
  writeOr "imap STARTTLS" (ofString ("a001 STARTTLS" +:+ crlf)) conn (fun conn =>
  r <~ forRange imapTurn (seq 0 5) (rd, conn) ;;
  match r with
  | inr conn => Ret conn
  | inl _ => Err "imap STARTTLS: no tagged reply in 5 lines"
  end)).

Definition starttlsFTPHandshake (conn : C) : outcome C :=
  readReply "ftp banner" newReader conn (fun _ rd conn =>
  writeOr "ftp AUTH TLS" (ofString ("AUTH TLS" +:+ crlf)) conn (fun conn =>
  readReply "ftp AUTH TLS reply" rd conn (fun reply rd conn =>
  let code := TrimSpace reply in
  if negb (HasPrefix code "234" || HasPrefix code "200") then refused "ftp AUTH TLS refused" code
  else Ret conn))).

Definition starttlsNNTPHandshake (conn : C) : outcome C :=
  readLine "nntp banner" newReader conn (fun _ rd conn =>
  writeOr "nntp STARTTLS" (ofString ("STARTTLS" +:+ crlf)) conn (fun conn =>
  readLine "nntp STARTTLS reply" rd conn (fun reply rd conn =>
  if negb (HasPrefix reply "382") then refused "nntp STARTTLS refused" (TrimSpace reply)
  else Ret conn))).

(** [for i := 0; i < 32; i++] of the Sieve greeting: the state is the greeting *)
Definition sieveTurn (_ : nat) (st : string * bufReader * C) : outcome (step (string * bufReader * C) C) :=
  let '(greet, rd, conn) := st in
  readLine "sieve banner" rd conn (fun line rd conn =>
  let greet := (greet +:+ line)%string in
  let t := TrimSpace line in
  if HasPrefix t "OK" || HasPrefix t "NO" || HasPrefix t "BYE" then Ret (Break (greet, rd, conn))
  else Ret (Next (greet, rd, conn))).

Definition starttlsSieveHandshake (conn : C) : outcome C :=
  r <~ forRange sieveTurn (seq 0 32) (""%string, newReader, conn) ;;
  match r with
  | inr conn => Ret conn
  | inl (greet, rd, conn) =>
      if negb (Contains (ToUpper greet) (quoteChar +:+ "STARTTLS" +:+ quoteChar)) then
        Err "sieve: STARTTLS capability not advertised"
      else
      writeOr "sieve STARTTLS" (ofString ("STARTTLS" +:+ crlf)) conn (fun conn =>
      readLine "sieve STARTTLS reply" rd conn (fun reply rd conn =>
      if negb (HasPrefix (TrimSpace reply) "OK") then refused "sieve STARTTLS refused" (TrimSpace reply)
      else Ret conn))
  end.

(** [for i := 0; i < 32; i++] of the IRC handshake *)
Definition ircTurn (_ : nat) (st : bufReader * C) : outcome (step (bufReader * C) C) :=
  let '(rd, conn) := st in
  readLine "irc STARTTLS read" rd conn (fun line rd conn =>
  if Contains line " 670 " then Ret (Return conn)
  else if Contains line " 691 " then Err "irc STARTTLS failed (numeric 691)"
  else Ret (Next (rd, conn))).

Definition starttlsIRCHandshake (conn : C) : outcome C :=
  writeOr "irc CAP LS / STARTTLS" (ofString ("CAP LS" +:+ crlf +:+ "STARTTLS" +:+ crlf)) conn (fun conn =>
  r <~ forRange ircTurn (seq 0 32) (newReader, conn) ;;
  match r with
  | inr conn => Ret conn
  | inl _ => Err "irc STARTTLS: no 670 numeric received"
  end).
End Handshakes.

(** ** Protocols read in blocks *)

Section Blocks.
Context (quote : string -> string).
Context {C : Type} `{Wire C}.

(** [for i := 0; i < 16; i++] of the stream features: the state is what was collected *)
Definition featuresTurn (_ : nat) (st : string * C) : outcome (step (string * C) C) :=
  let '(collected, conn) := st in
  let '(b, err, conn) := recv 4096 conn in
  let collected := (collected +:+ toString b)%string in
  match err with
  | Some _ => Ret (Break (collected, conn))
  | None =>
      if Contains collected xmppNS then Ret (Break (collected, conn))
      else if Contains collected "</stream:features>" then Ret (Break (collected, conn))
      else Ret (Next (collected, conn))
  end.

(** [for i := 0; i < 8; i++] of the wait for [<proceed/>] *)
Definition proceedTurn (_ : nat) (st : string * C) : outcome (step (string * C) C) :=
  let '(collected, conn) := st in
  let '(b, err, conn) := recv 4096 conn in
  let collected := (collected +:+ toString b)%string in
  if Contains collected "<proceed" then Ret (Return conn)
  else if Contains collected "<failure" then Err "xmpp starttls: server replied <failure/>"
  else match err with Some _ => Ret (Break (collected, conn)) | None => Ret (Next (collected, conn)) end.

Definition xmppOpen (ns host : string) : string :=
  ("<?xml version='1.0'?><stream:stream xmlns='" +:+ ns +:+ "' xmlns:stream='http://etherx.jabber.org/streams' to='"
   +:+ host +:+ "' version='1.0'>")%string.

Definition starttlsXMPPHandshake (conn : C) (host : string) (isServer : bool) : outcome C :=
  let ns := if isServer then "jabber:server"%string else "jabber:client"%string in
  writeOr "xmpp stream open" (ofString (xmppOpen ns host)) conn (fun conn =>
  r <~ forRange featuresTurn (seq 0 16) (""%string, conn) ;;
  match r with
  | inr conn => Ret conn
  | inl (collected, conn) =>
      if negb (Contains collected xmppNS) then Err "xmpp: server didn't advertise starttls in stream features" else
      writeOr "xmpp starttls send" (ofString ("<starttls xmlns='" +:+ xmppNS +:+ "'/>")) conn (fun conn =>
      r <~ forRange proceedTurn (seq 0 8) (""%string, conn) ;;
      match r with
      | inr conn => Ret conn
      | inl _ => Err "xmpp starttls: no <proceed/> received"
      end)
  end).

Definition telnetOptStartTLS : byte := x2e.

(** [for j := 0; j+2 < n; j++]: is the sequence of three bytes in the buffer? *)
Definition seqTurn (a b c : byte) (buf : bytes) (j : Z) : outcome (step Z bool) :=
  if j + 2 <? blen buf then
    x <~ index buf j ;; y <~ index buf (j + 1) ;; z <~ index buf (j + 2) ;;
    if beq x a && beq y b && beq z c then Ret (Return true) else Ret (Next (j + 1))
  else Ret (Break j).

(** [for i := 0; i < 16; i++] of the Telnet negotiation *)
Definition telnetTurn (_ : nat) (conn : C) : outcome (step C C) :=
  let '(b, err, conn) := recv 64 conn in
  match err with
  | Some e => Err ("telnet read: " +:+ e)
  | None =>
      got <~ loop (seqTurn xff xfd telnetOptStartTLS b) (S (length b)) 0 ;;
      match got with inr _ => Ret (Return conn) | inl _ => Ret (Next conn) end
  end.

Definition telnetWill : bytes := [xff; xfb; telnetOptStartTLS].
Definition telnetFollows : bytes := [xff; xfa; telnetOptStartTLS; x01; xff; xf0].

Definition starttlsTelnetHandshake (conn : C) : outcome C :=
  writeOr "telnet WILL START_TLS" telnetWill conn (fun conn =>
  r <~ forRange telnetTurn (seq 0 16) conn ;;
  match r with
  | inl _ => Err "telnet: server didn't ack START_TLS option"
  | inr conn => writeOr "telnet SB" telnetFollows conn Ret
  end).

Definition startTLSOID : string := "1.3.6.1.4.1.1466.20037".
Definition ldapStartTLS : bytes :=
  [x30; x1d; x02; x01; x01; x77; x18; x80; byteOf (slen startTLSOID)] ++ ofString startTLSOID.

(** [for i := 0; i+2 < n; i++]: the first [0a 01 code] of the response *)
Definition resultCodeTurn (resp : bytes) (i : Z) : outcome (step Z unit) :=
  if i + 2 <? blen resp then
    a <~ index resp i ;; b <~ index resp (i + 1) ;; code <~ index resp (i + 2) ;;
    if beq a x0a && beq b x01 then
      if beq code x00 then Ret (Return tt)
      else Err ("ldap StartTLS refused with resultCode " +:+ decNat (bval code))
    else Ret (Next (i + 1))
  else Ret (Break i).

Definition starttlsLDAPHandshake (conn : C) : outcome C :=
  writeOr "ldap StartTLS write" ldapStartTLS conn (fun conn =>
  let '(resp, err, conn) := recv 256 conn in
  match err with
  | Some e => Err ("ldap StartTLS read: " +:+ e)
  | None =>
      if blen resp <? 10 then Err "ldap: short StartTLS response" else
      r <~ loop (resultCodeTurn resp) (S (length resp)) 0 ;;
      match r with
      | inr _ => Ret conn
      | inl _ => Err "ldap: couldn't parse StartTLS resultCode"
      end
  end).

Definition le16 (a b : byte) : Z := Z.lor (bval a) (Z.shiftl (bval b) 8).

(** [for i < len(body) && body[i] != 0 { i++ }] *)
Definition nulTurn (body : bytes) (i : Z) : outcome (step Z unit) :=
  if i <? blen body then x <~ index body i ;; if beq x x00 then Ret (Break i) else Ret (Next (i + 1)) else Ret (Break i).

(** The capability word of the greeting. *)
Definition mysqlCaps (body : bytes) : outcome Z :=
  b0 <~ (if 0 <? blen body then index body 0 else Ret x0a) ;;
  if (0 <? blen body) && negb (beq b0 x0a) then Err ("mysql: unsupported protocol version 0x" +:+ hexByte b0) else
  r <~ loop (nulTurn body) (S (length body)) 1 ;;
  let i := match r with inl i => i | inr _ => 1 end in
  let i := i + 1 in
  let i := i + (4 + 8 + 1) in
  if blen body <? i + 2 then Err "mysql: greeting truncated before capability flags" else
  lo <~ index body i ;; hi <~ index body (i + 1) ;;
  Ret (le16 lo hi).

Definition clientSSL : Z := 0x0800.
Definition sslRequestFlags : Z := 0x0a8af68f.
Definition mysqlSSLRequest : bytes :=
  let payload := putLE32 sslRequestFlags ++ putLE32 16777216 ++ [x21] ++ repeat x00 23 in
  [byteOf (blen payload); x00; x00; x01] ++ payload.

Definition starttlsMySQLHandshake (conn : C) : outcome C :=
  header <~ recvFull 4 conn ;;
  match header with
  | inr (e, _) => Err ("mysql greeting header: " +:+ e)
  | inl (header, conn) =>
      h0 <~ index header 0 ;; h1 <~ index header 1 ;; h2 <~ index header 2 ;;
      let pktLen := Z.lor (Z.lor (bval h0) (Z.shiftl (bval h1) 8)) (Z.shiftl (bval h2) 16) in
      if (pktLen <? 1) || (16384 <? pktLen) then Err ("mysql: implausible greeting length " +:+ fmtD pktLen) else
      body <~ recvFull pktLen conn ;;
      match body with
      | inr (e, _) => Err ("mysql greeting body: " +:+ e)
      | inl (body, conn) =>
          caps <~ mysqlCaps body ;;
          if Z.land caps clientSSL =? 0 then Err "mysql: server doesn't advertise CLIENT_SSL capability" else
          writeOr "mysql SSLRequest" mysqlSSLRequest conn Ret
      end
  end.

Definition postgresSSLRequest : bytes := [x00; x00; x00; x08; x04; xd2; x16; x2f].

Definition starttlsPostgresHandshake (conn : C) : outcome C :=
  writeOr "postgres SSLRequest" postgresSSLRequest conn (fun conn =>
  resp <~ recvFull 1 conn ;;
  match resp with
  | inr (e, _) => Err ("postgres SSLRequest reply: " +:+ e)
  | inl (resp, conn) =>
      r0 <~ index resp 0 ;;
      if beq r0 x53 then Ret conn
      else if beq r0 x4e then Err "postgres: server doesn't support TLS"
      else if beq r0 x45 then Err "postgres: server returned error to SSLRequest"
      else Err ("postgres: unexpected SSLRequest reply byte 0x" +:+ hexByte r0)
  end).

(** ** The dispatcher *)

Definition upgradeToTLS (conn : C) (host : string) (proto : startTLSProtocol) : outcome C :=
  if String.eqb proto starttlsSMTP then starttlsSMTPHandshake conn "EHLO"
  else if String.eqb proto starttlsLMTP then starttlsSMTPHandshake conn "LHLO"
  else if String.eqb proto starttlsPOP3 then starttlsPOP3Handshake quote conn
  else if String.eqb proto starttlsIMAP then starttlsIMAPHandshake quote conn
  else if String.eqb proto starttlsFTP then starttlsFTPHandshake conn
  else if String.eqb proto starttlsNNTP then starttlsNNTPHandshake conn
  else if String.eqb proto starttlsXMPP then starttlsXMPPHandshake conn host false
  else if String.eqb proto starttlsXMPPServer then starttlsXMPPHandshake conn host true
  else if String.eqb proto starttlsSieve then starttlsSieveHandshake conn
  else if String.eqb proto starttlsTelnet then starttlsTelnetHandshake conn
  else if String.eqb proto starttlsLDAP then starttlsLDAPHandshake conn
  else if String.eqb proto starttlsIRC then starttlsIRCHandshake conn
  else if String.eqb proto starttlsMySQL then starttlsMySQLHandshake conn
  else if String.eqb proto starttlsPostgres then starttlsPostgresHandshake conn
  else Err ("upgradeToTLS: unsupported protocol " +:+ quote proto).

(** [dialSTARTTLS]: [dial] opens the connection, [handshake] is the TLS client. *)
Definition dialSTARTTLS {T} (dial : C + string) (host : string) (proto : startTLSProtocol) (handshake : C -> T + string) : outcome T :=
  match dial with
  | inr e => Err ("starttls dial: " +:+ e)
  | inl conn =>
      conn <~ upgradeToTLS conn host proto ;;
      match handshake conn with
      | inr e => Err ("starttls TLS handshake: " +:+ e)
      | inl t => Ret t
      end
  end.
End Blocks.

(** ** The MX probe of [starttls.go] *)

Record mxSTARTTLSResult := {
  Host : string; Reachable : bool; Banner : string; STARTTLSAdvertised : bool; UpgradeSucceeded : bool;
  TLSVersion : string; CertIssuer : string; CertExpires : string; mxError : string
}.

(** What a completed TLS handshake shows: the version, and issuer and expiry date of
    the leaf if there is one. *)
Record tlsPeer := { peerVersion : string; peerLeaf : option (string * string) }.

Section Mx.
Context {C : Type} `{Wire C}.

Definition readSMTPResponse (rd : bufReader) (c : C) : outcome (string * option string * bufReader * C) := readSMTPLine rd c.

(** [r] before the upgrade, with what is known and an error *)
Definition mxResult (host : string) (reachable : bool) (banner : string) (advertised : bool) (err : string) : mxSTARTTLSResult :=
  {| Host := host; Reachable := reachable; Banner := banner; STARTTLSAdvertised := advertised; UpgradeSucceeded := false;
     TLSVersion := ""; CertIssuer := ""; CertExpires := ""; mxError := err |}.

Definition probeSTARTTLS (dial : C + string) (handshake : C -> tlsPeer + string) (host : string) : outcome mxSTARTTLSResult :=
  match dial with
  | inr e => Ret (mxResult host false "" false ("connect: " +:+ tidyErr e))
  | inl conn =>
      unpack (banner, err, rd, conn) <~ readSMTPResponse newReader conn ;;
      match err with
      | Some e => Ret (mxResult host true "" false ("banner: " +:+ tidyErr e))
      | None =>
          banner <~ truncate (TrimSpace banner) 80 ;;
          match write (ofString ("EHLO netdoc" +:+ crlf)) conn with
          | inr e => Ret (mxResult host true banner false ("EHLO write: " +:+ tidyErr e))
          | inl conn =>
              unpack (ehloResp, err, rd, conn) <~ readSMTPResponse rd conn ;;
              match err with
              | Some e => Ret (mxResult host true banner false ("EHLO read: " +:+ tidyErr e))
              | None =>
                  if negb (Contains (ToUpper ehloResp) "STARTTLS") then Ret (mxResult host true banner false "") else
                  match write (ofString ("STARTTLS" +:+ crlf)) conn with
                  | inr e => Ret (mxResult host true banner true ("STARTTLS write: " +:+ tidyErr e))
                  | inl conn =>
                      unpack (starttlsResp, err, rd, conn) <~ readSMTPResponse rd conn ;;
                      match err with
                      | Some e => Ret (mxResult host true banner true ("STARTTLS read: " +:+ tidyErr e))
                      | None =>
                          if negb (HasPrefix (TrimSpace starttlsResp) "220") then
                            t <~ truncate (TrimSpace starttlsResp) 40 ;;
                            Ret (mxResult host true banner true ("STARTTLS refused: " +:+ t))
                          else
                          match handshake conn with
                          | inr e => Ret (mxResult host true banner true ("TLS handshake: " +:+ tidyErr e))
                          | inl peer =>
                              Ret {| Host := host; Reachable := true; Banner := banner; STARTTLSAdvertised := true;
                                     UpgradeSucceeded := true; TLSVersion := peerVersion peer;
                                     CertIssuer := match peerLeaf peer with Some (i, _) => i | None => ""%string end;
                                     CertExpires := match peerLeaf peer with Some (_, x) => x | None => ""%string end;
                                     mxError := "" |}
                          end
                      end
                  end
              end
          end
      end
  end.

(** [answers] is what the MX query gave: [None] for an error; an answer that is no
    MX record is [None]. *)
Definition mxHostsOf (rrs : list (option string)) : list string :=
  flat_map (fun rr => match rr with
                      | Some mx => let h := TrimSuffix mx "." in if String.eqb h "" then [] else [h]
                      | None => []
                      end) rrs.

Fixpoint probeEach (probe : string -> outcome mxSTARTTLSResult) (hosts : list string) : outcome (list mxSTARTTLSResult) :=
  match hosts with
  | [] => Ret []
  | h :: hosts => r <~ probe h ;; rs <~ probeEach probe hosts ;; Ret (r :: rs)
  end.

Definition probeSTARTTLSForDomain (answers : option (list (option string))) (dial : string -> C + string)
    (handshake : string -> C -> tlsPeer + string) : outcome (list mxSTARTTLSResult) :=
  match answers with
  | None => Ret []
  | Some rrs =>
      let mxHosts := mxHostsOf rrs in
      mxHosts <~ (if 3 <? blen mxHosts then slice mxHosts 0 3 else Ret mxHosts) ;;
      probeEach (fun host => probeSTARTTLS (dial host) (handshake host) host) mxHosts
  end.
End Mx.

(** ** Every dialogue ends *)

Section Safety.
Context (quote : string -> string).
Context {C : Type} `{Wire C}.

Lemma wp_readLine {R} ctx rd (c : C) (k : string -> bufReader -> C -> outcome R) :
  (forall line rd c, safe (k line rd c)) -> safe (readLine ctx rd c k).
Proof.
  intros Hk. unfold safe, readLine. wp_step. eapply wp_mono; [apply (wp_readString rd c (fun _ => False))| |done].
  intros [[[line [e|]] rd'] c'] _; [done|apply Hk].
Qed.

Lemma wp_readSMTPLine rd (c : C) E : wp (readSMTPLine rd c) (fun _ => True) E.
Proof.
  unfold readSMTPLine. wp_step.
  apply (wp_loop _ (fun _ => True) (fun '(_, rd, c) => length (rbuf rd ++ incoming c))); [|done|lia].
  intros [[out rd1] c1] _. unfold smtpLineTurn. wp_step.
  eapply wp_mono; [apply (wp_readString rd1 c1 (fun _ => False))| |done].
  intros [[[line [e|]] rd'] c'] (Hs & Hne & _); [done|]. cbv zeta. wp_step; [done|]. wp_step; [done|].
  apply wp_ret. cbn [stepPost]. split; [done|]. apply (f_equal length) in Hs. rewrite Hs, (length_app (ofString line)).
  specialize (Hne eq_refl). pose proof (blen_ofString line) as Hl. unfold blen, slen in Hl.
  destruct line; [done|]. cbn [String.length] in Hl. lia.
Qed.

Lemma wp_readReply {R} ctx rd (c : C) (k : string -> bufReader -> C -> outcome R) :
  (forall reply rd c, safe (k reply rd c)) -> safe (readReply ctx rd c k).
Proof.
  intros Hk. unfold safe, readReply. wp_step. eapply wp_mono; [apply (wp_readSMTPLine rd c (fun _ => False))| |done].
  intros [[[reply [e|]] rd'] c'] _; [done|apply Hk].
Qed.

Lemma wp_writeOr {R} ctx b (c : C) (k : C -> outcome R) : (forall c, safe (k c)) -> safe (writeOr ctx b c k).
Proof. intros Hk. unfold writeOr. destruct (write b c); [apply Hk|done]. Qed.

Lemma safe_ret {R} (r : R) : safe (Ret r). Proof. done. Qed.
Lemma safe_err {R} e : safe (@Err R e). Proof. done. Qed.

Lemma safe_if {R} (b : bool) (x y : outcome R) : safe x -> safe y -> safe (if b then x else y).
Proof. by destruct b. Qed.

Lemma safe_truncate {R} s n (k : string -> outcome R) : 1 <= n -> (forall t, safe (k t)) -> safe (bind (truncate s n) k).
Proof. intros Hn Hk. destruct (truncate_spec s n Hn) as (t & -> & _). apply Hk. Qed.

(** The probe of a mail exchanger always gives a result. *)
Lemma probeSTARTTLS_returns (dial : C + string) handshake host : exists r, probeSTARTTLS dial handshake host = Ret r.
Proof.
  enough (Hw : wp (probeSTARTTLS dial handshake host) (fun _ => True) (fun _ => False)).
  { destruct (probeSTARTTLS dial handshake host) as [r|?| |]; [by exists r|done..]. }
  unfold probeSTARTTLS, readSMTPResponse. destruct dial as [conn|e]; [|by apply wp_ret].
  wp_step. eapply wp_mono; [apply (wp_readSMTPLine newReader conn (fun _ => False))| |done]. intros [[[banner [e|]] rd] c1] _; [by apply wp_ret|].
  wp_step. apply wp_truncate; [done|]. intros b. destruct (write _ c1) as [c2|e]; [|by apply wp_ret].
  wp_step. eapply wp_mono; [apply (wp_readSMTPLine rd c2 (fun _ => False))| |done]. intros [[[ehlo [e|]] rd2] c3] _; [by apply wp_ret|].
  destruct (negb _); [by apply wp_ret|]. destruct (write _ c3) as [c4|e]; [|by apply wp_ret].
  wp_step. eapply wp_mono; [apply (wp_readSMTPLine rd2 c4 (fun _ => False))| |done]. intros [[[answer [e|]] rd3] c5] _; [by apply wp_ret|].
  destruct (negb _); [wp_step; apply wp_truncate; [done|]; intros t; by apply wp_ret|].
  destruct (handshake c5); by apply wp_ret.
Qed.

Lemma probeSTARTTLSForDomain_returns answers (dial : string -> C + string) handshake :
  exists l, probeSTARTTLSForDomain answers dial handshake = Ret l.
Proof.
  destruct answers as [rrs|]; [|by exists []]. unfold probeSTARTTLSForDomain. cbv zeta.
  assert (He : forall hosts, exists l, probeEach (fun host => probeSTARTTLS (dial host) (handshake host) host) hosts = Ret l).
  { induction hosts as [|h hosts [l IH]]; [by exists []|]. cbn [probeEach].
    destruct (probeSTARTTLS_returns (dial h) (handshake h) h) as [r ->]. cbn [bind]. rewrite IH. by exists (r :: l). }
  destruct (Z.ltb_spec 3 (blen (mxHostsOf rrs))); [|apply He].
  rewrite slice_ok by lia. apply He.
Qed.

Lemma safe_refused ctx s : safe (refused (C := C) ctx s).
Proof. by apply safe_truncate. Qed.

Lemma safe_forRange {X S R A} (body : X -> S -> outcome (step S R)) l s (k : S + R -> outcome A) :
  (forall x s, safe (body x s)) -> (forall r, safe (k r)) -> safe (bind (forRange body l s) k).
Proof.
  intros Hb Hk. unfold safe. wp_step. apply (wp_forRange body (fun _ => True)); [|intros; apply Hk|done].
  intros x s' _ _. eapply wp_mono; [apply (Hb x s')| |done]. intros [?|?|?] _; [done|apply Hk..].
Qed.

Lemma wp_seq a b c buf E : wp (loop (seqTurn a b c buf) (S (length buf)) 0) (fun _ => True) E.
Proof.
  apply (wp_loop _ (fun j => 0 <= j) (fun j => length buf - Z.to_nat j)%nat); [|lia|lia].
  intros j Hj. unfold seqTurn. wp_step; [|done]. to_prop.
  wp_step. apply wp_index; [lia|]. intros x _. wp_step. apply wp_index; [lia|]. intros y _.
  wp_step. apply wp_index; [lia|]. intros z _. wp_step; [done|]. apply wp_ret. unfold blen in *. cbn. lia.
Qed.

Lemma wp_resultCode resp : safe (loop (resultCodeTurn resp) (S (length resp)) 0).
Proof.
  apply (wp_loop _ (fun j => 0 <= j) (fun j => length resp - Z.to_nat j)%nat); [|lia|lia].
  intros j Hj. unfold resultCodeTurn. wp_step; [|done]. to_prop.
  wp_step. apply wp_index; [lia|]. intros x _. wp_step. apply wp_index; [lia|]. intros y _.
  wp_step. apply wp_index; [lia|]. intros z _. wp_step; [by wp_step|]. apply wp_ret. unfold blen in *. cbn. lia.
Qed.

Lemma wp_nul body i E : 0 <= i -> wp (loop (nulTurn body) (S (length body)) i)
  (fun r => match r with inl j => i <= j | inr _ => False end) E.
Proof.
  intros Hi. apply (wp_loop _ (fun j => i <= j) (fun j => length body - Z.to_nat j)%nat); [|lia|lia].
  intros j Hj. unfold nulTurn. wp_step; [|by cbn]. to_prop.
  wp_step. apply wp_index; [lia|]. intros x _. wp_step; [by cbn|]. apply wp_ret. unfold blen in *. cbn. lia.
Qed.

Lemma safe_mysqlCaps body : safe (mysqlCaps body).
Proof.
  unfold safe, mysqlCaps. wp_step.
  assert (Hb0 : wp (if 0 <? blen body then index body 0 else Ret x0a) (fun _ => True) (fun _ => False)).
  { wp_step; [|done]. to_prop. by apply wp_index; [lia|]. }
  eapply wp_mono; [exact Hb0| |done]. intros b0 _. wp_step; [done|].
  wp_step. eapply wp_mono; [apply (wp_nul body 1 (fun _ => False)); lia| |done]. intros [i|?] Hi; [|done].
  cbv zeta. wp_step; [done|]. to_prop. wp_step. apply wp_index; [lia|]. intros lo _.
  wp_step. by apply wp_index; [lia|].
Qed.

Lemma safe_recvFull n (c : C) (k : (bytes * C) + (string * C) -> outcome C) : 0 <= n ->
  (forall b c, blen b = n -> safe (k (inl (b, c)))) -> (forall e c, safe (k (inr (e, c)))) -> safe (bind (recvFull n c) k).
Proof.
  intros Hn Hs Hf. unfold safe. wp_step. apply wp_recvFull; [done| |].
  - intros b c' _ Hb _. by apply Hs.
  - intros e c' _. apply Hf.
Qed.

(** Step through a dialogue. *)
Ltac dialogue :=
  repeat first
    [ apply safe_ret | apply safe_err | apply safe_refused
    | apply wp_readLine; intros ? ? ? | apply wp_readReply; intros ? ? ? | apply wp_writeOr; intros ?
    | apply safe_if | apply safe_truncate; [lia|intros ?]
    | apply safe_forRange; [intros ? ?|intros [?|?]] ].

Lemma safe_xmpp (conn : C) host isServer : safe (starttlsXMPPHandshake conn host isServer).
Proof.
  unfold starttlsXMPPHandshake. cbv zeta. dialogue.
  - destruct s as [collected c1]. unfold featuresTurn. destruct (recv 4096 c1) as [[b [e|]] c']; dialogue.
  - destruct p as [collected c1]. dialogue. destruct s as [col c2]. unfold proceedTurn.
    destruct (recv 4096 c2) as [[b [e|]] c']; dialogue.
Qed.

Lemma safe_sieve (conn : C) : safe (starttlsSieveHandshake conn).
Proof.
  unfold starttlsSieveHandshake. dialogue.
  - destruct s as [[greet rd] c]. unfold sieveTurn. dialogue.
  - destruct p as [[greet rd] c]. dialogue.
Qed.

Lemma safe_telnet (conn : C) : safe (starttlsTelnetHandshake conn).
Proof.
  unfold starttlsTelnetHandshake. dialogue.
  unfold telnetTurn. destruct (recv 64 s) as [[b [e|]] c']; [dialogue|]. unfold safe. wp_step.
  eapply wp_mono; [apply (wp_seq _ _ _ b (fun _ => False))| |done]. by intros [?|?] _.
Qed.

Lemma safe_ldap (conn : C) : safe (starttlsLDAPHandshake conn).
Proof.
  unfold starttlsLDAPHandshake. dialogue. destruct (recv 256 c) as [[b [e|]] c']; dialogue.
  unfold safe. wp_step. eapply wp_mono; [apply (wp_resultCode b)| |done]. by intros [?|?] _.
Qed.

Lemma safe_irc (conn : C) : safe (starttlsIRCHandshake conn).
Proof. unfold starttlsIRCHandshake. dialogue. destruct s as [rd c2]. unfold ircTurn. dialogue. Qed.

Lemma safe_mysql (conn : C) : safe (starttlsMySQLHandshake conn).
Proof.
  unfold starttlsMySQLHandshake. apply safe_recvFull; [lia| |intros; dialogue]. intros header c Hl.
  destruct (index_some header 0) as [h0 ->]; [lia|]. destruct (index_some header 1) as [h1 ->]; [lia|].
  destruct (index_some header 2) as [h2 ->]; [lia|]. cbn [bind]. cbv zeta.
  match goal with |- safe (if ?b then _ else _) => destruct b eqn:E end; [dialogue|]. to_prop.
  apply safe_recvFull; [lia| |intros; dialogue]. intros body c2 _. unfold safe. wp_step.
  eapply wp_mono; [apply (safe_mysqlCaps body)| |done]. intros caps _. match goal with |- wp ?x _ _ => change (safe x) end. dialogue.
Qed.

Lemma safe_postgres (conn : C) : safe (starttlsPostgresHandshake conn).
Proof.
  unfold starttlsPostgresHandshake. dialogue. apply safe_recvFull; [lia| |intros; dialogue]. intros resp c2 Hl.
  destruct (index_some resp 0) as [r0 ->]; [lia|]. cbn [bind]. dialogue.
Qed.

(** Every STARTTLS dialogue ends, with a connection for TLS or an error, for
    every protocol name and every peer: whatever it sends, in whatever pieces, and
    wherever it stops, none of the fourteen negotiations panics or loops for ever. *)
Theorem upgradeToTLS_returns (conn : C) host proto : safe (upgradeToTLS quote conn host proto).
Proof.
  unfold upgradeToTLS.
  repeat (apply safe_if; [first [apply safe_xmpp|apply safe_sieve|apply safe_telnet|apply safe_ldap|apply safe_irc
    |apply safe_mysql|apply safe_postgres|idtac]|]); [..|dialogue].
  - unfold starttlsSMTPHandshake. dialogue.
  - unfold starttlsSMTPHandshake. dialogue.
  - unfold starttlsPOP3Handshake. dialogue.
  - unfold starttlsIMAPHandshake. dialogue. destruct s. unfold imapTurn. dialogue.
  - unfold starttlsFTPHandshake. dialogue.
  - unfold starttlsNNTPHandshake. dialogue.
Qed.
End Safety.

(** ** Line protocols: an abstract description and the code that follows it *)

(** One exchange: what is sent (nothing before the greeting), whether the answer may
    have several lines, and what the answer must look like to go on. *)
Record exchange := { command : string; multiline : bool; accepts : string -> bool }.

Definition anyReply (_ : string) : bool := true.
Definition offersTLS (reply : string) : bool := Contains (ToUpper reply) "STARTTLS".

Definition smtpPlan (helo : string) : list exchange :=
  [{| command := ""; multiline := true; accepts := anyReply |};
   {| command := helo +:+ " netdoc" +:+ crlf; multiline := true; accepts := offersTLS |};
   {| command := "STARTTLS" +:+ crlf; multiline := true; accepts := fun r => HasPrefix (TrimSpace r) "220" |}]%string.

Definition linePlan (p : startTLSProtocol) : list exchange :=
  if String.eqb p starttlsSMTP then smtpPlan "EHLO"
  else if String.eqb p starttlsLMTP then smtpPlan "LHLO"
  else if String.eqb p starttlsFTP then
    [{| command := ""; multiline := true; accepts := anyReply |};
     {| command := "AUTH TLS" +:+ crlf; multiline := true;
        accepts := fun r => HasPrefix (TrimSpace r) "234" || HasPrefix (TrimSpace r) "200" |}]%string
  else if String.eqb p starttlsPOP3 then
    [{| command := ""; multiline := false; accepts := fun r => HasPrefix r "+OK" |};
     {| command := "STLS" +:+ crlf; multiline := false; accepts := fun r => HasPrefix r "+OK" |}]%string
  else if String.eqb p starttlsNNTP then
    [{| command := ""; multiline := false; accepts := anyReply |};
     {| command := "STARTTLS" +:+ crlf; multiline := false; accepts := fun r => HasPrefix r "382" |}]%string
  else [].

(** A reply: lines without their newlines, of which the last one ends it. *)
Record reply := { contLines : list bytes; lastLine : bytes }.

Definition lineEnds (l : bytes) : bool := (blen l <? 3) || finalLine (toString (l ++ [x0a])).
Definition encReply (r : reply) : bytes := flat_map (fun l => l ++ [x0a]) (contLines r) ++ lastLine r ++ [x0a].
Definition replyText (r : reply) : string := toString (encReply r).

(** A well-formed reply to an exchange: one line, or several of which only the last
    has no hyphen after its code. *)
Definition replyOk (e : exchange) (r : reply) : Prop :=
  noNewline (lastLine r) = true /\
  if multiline e then Forall (fun l => noNewline l = true /\ lineEnds l = false) (contLines r) /\ lineEnds (lastLine r) = true
  else contLines r = [].

Section Lines.
Context (quote : string -> string).
Context {C : Type} `{Wire C}.

Lemma slen_line l : slen (toString (l ++ [x0a])) = blen l + 1.
Proof. rewrite <- blen_ofString, ofString_toString, blen_app. done. Qed.

Lemma readSMTPLine_reply rd (c : C) cont last rest :
  rerr rd = None -> Forall (fun l => noNewline l = true /\ lineEnds l = false) cont ->
  noNewline last = true -> lineEnds last = true ->
  rbuf rd ++ incoming c = encReply {| contLines := cont; lastLine := last |} ++ rest ->
  exists rd' c', readSMTPLine rd c = Ret (replyText {| contLines := cont; lastLine := last |}, None, rd', c')
    /\ rerr rd' = None /\ rbuf rd' ++ incoming c' = rest /\ reads c c'.
Proof.
  intros Herr Hcont Hl He Hs. unfold readSMTPLine.
  enough (forall out fuel rd (c : C), rerr rd = None -> (length cont < fuel)%nat ->
      rbuf rd ++ incoming c = encReply {| contLines := cont; lastLine := last |} ++ rest ->
      exists rd' c', loop smtpLineTurn fuel (out, rd, c)
        = Ret (inr ((out +:+ replyText {| contLines := cont; lastLine := last |})%string, None, rd', c'))
        /\ rerr rd' = None /\ rbuf rd' ++ incoming c' = rest /\ reads c c') as Hloop.
  { destruct (Hloop ""%string (S (length (rbuf rd ++ incoming c))) rd c Herr) as (rd' & c' & -> & Hr); [|done|by exists rd', c'].
    rewrite Hs. unfold encReply. rewrite !length_app. cbn [contLines lastLine].
    enough (length cont <= length (flat_map (fun l => l ++ [x0a]) cont))%nat by lia. clear.
    induction cont as [|l cont IH]; cbn [flat_map length]; [lia|]. rewrite !length_app. cbn [length]. lia. }
  clear Herr Hs rd c. unfold replyText, encReply. cbn [contLines lastLine].
  induction Hcont as [|l cont [Hnl Hne] Hcont IH]; intros out [|fuel] rd c Herr Hf Hs; cbn [length] in Hf; try lia; cbn [loop].
  - cbn [flat_map app] in *. rewrite <- app_assoc in Hs.
    destruct (readString_line rd c last rest Herr Hs Hl) as (rd' & c' & Hr & Herr' & Hrest & Hreads).
    unfold smtpLineTurn. rewrite Hr. cbn [bind]. rewrite slen_line. unfold lineEnds in He. apply orb_true_iff in He.
    exists rd', c'. destruct (blen last + 1 <? 4) eqn:E; [done|]. to_prop. destruct He as [He|He]; [to_prop; lia|]. by rewrite He.
  - cbn [flat_map] in *. rewrite <- !app_assoc in Hs. cbn [app] in Hs.
    destruct (readString_line rd c l _ Herr Hs Hnl) as (rd' & c' & Hr & Herr' & Hrest & Hreads).
    unfold smtpLineTurn at 1. rewrite Hr. cbn [bind]. rewrite slen_line. unfold lineEnds in Hne. apply orb_false_iff in Hne as [Hlen Hfin].
    rewrite (proj2 (Z.ltb_ge _ _)) by (to_prop; lia). rewrite Hfin.
    destruct (IH (out +:+ toString (l ++ [x0a]))%string fuel rd' c' Herr' ltac:(lia)) as (rd2 & c2 & Hlo & Herr2 & Hrest2 & Hreads2).
    { rewrite Hrest. by rewrite <- !app_assoc. }
    exists rd2, c2. rewrite Hlo. split_and!; [|done|done|by eapply reads_trans].
    rewrite <- appString_assoc, <- toString_app, <- !app_assoc. done.
Qed.

(** Once everything sent is read, the reader is as new. *)
Lemma reader_clean rd (c : C) : rerr rd = None -> rbuf rd ++ incoming c = [] -> rd = newReader /\ incoming c = [].
Proof. destruct rd as [b e]. cbn. intros -> [-> ->]%app_eq_nil. done. Qed.

Lemma readReply_step {R} ctx e r script (c : C) (k : string -> bufReader -> C -> outcome R) :
  multiline e = true -> replyOk e r -> incoming c = encReply r -> serves c script ->
  exists c', readReply ctx newReader c k = k (replyText r) newReader c' /\ incoming c' = [] /\ serves c' script.
Proof.
  intros Hm [Hl Hr] Hi Hs. rewrite Hm in Hr. destruct Hr as [Hcont Hend], r as [cont last].
  destruct (readSMTPLine_reply newReader c cont last [] eq_refl Hcont Hl Hend) as (rd' & c' & Hrd & He & Hrest & Hreads).
  { cbn [rbuf newReader app]. by rewrite app_nil_r. }
  destruct (reader_clean rd' c' He Hrest) as [-> Hi']. exists c'. unfold readReply. rewrite Hrd. cbn [bind].
  split; [done|]. split; [done|]. by eapply serves_reads.
Qed.

Lemma readLine_step {R} ctx e r script (c : C) (k : string -> bufReader -> C -> outcome R) :
  multiline e = false -> replyOk e r -> incoming c = encReply r -> serves c script ->
  exists c', readLine ctx newReader c k = k (replyText r) newReader c' /\ incoming c' = [] /\ serves c' script.
Proof.
  intros Hm [Hl Hr] Hi Hs. rewrite Hm in Hr. destruct r as [cont last]. cbn [contLines lastLine] in *. subst cont.
  destruct (readString_line newReader c last [] eq_refl) as (rd' & c' & Hrd & He & Hrest & Hreads); [by rewrite Hi|done|].
  destruct (reader_clean rd' c' He Hrest) as [-> Hi']. exists c'. unfold readLine. rewrite Hrd. cbn [bind].
  split; [done|]. split; [done|]. by eapply serves_reads.
Qed.

Lemma refused_err ctx s : exists e, refused (C := C) ctx s = Err e.
Proof. unfold refused. destruct (truncate_spec s 60) as (t & -> & _); [lia|]. cbn. eauto. Qed.

(** The verdict of a plan on the replies of the server. *)
Fixpoint planAccepts (plan : list exchange) (replies : list reply) : bool :=
  match plan, replies with
  | e :: plan, r :: replies => accepts e (replyText r) && planAccepts plan replies
  | _, _ => true
  end.

(** One exchange of a proof: read the reply, or write the command. *)
Ltac exchange_step :=
  match goal with
  | Hr : replyOk ?e ?r, Hi : incoming ?c = encReply ?r, Hs : serves ?c _ |- context [readReply ?ctx newReader ?c ?k] =>
      let c' := fresh "c" in let Heq := fresh in let Hi' := fresh "Hi" in let Hs' := fresh "Hs" in
      destruct (readReply_step ctx e r _ c k eq_refl Hr Hi Hs) as (c' & Heq & Hi' & Hs'); rewrite Heq; clear Heq Hi Hs Hr
  | Hr : replyOk ?e ?r, Hi : incoming ?c = encReply ?r, Hs : serves ?c _ |- context [readLine ?ctx newReader ?c ?k] =>
      let c' := fresh "c" in let Heq := fresh in let Hi' := fresh "Hi" in let Hs' := fresh "Hs" in
      destruct (readLine_step ctx e r _ c k eq_refl Hr Hi Hs) as (c' & Heq & Hi' & Hs'); rewrite Heq; clear Heq Hi Hs Hr
  | Hi : incoming ?c = [], Hs : serves ?c ((?cmd0, ?ans) :: ?more) |- context [writeOr ?ctx ?cmd ?c ?k] =>
      let c' := fresh "c" in let Heq := fresh in let Hi' := fresh "Hi" in let Hs' := fresh "Hs" in
      destruct (writeOr_serves ctx cmd ans more c k Hs Hi) as (c' & Heq & Hi' & Hs'); rewrite Heq; clear Heq Hi Hs
  | |- context [if negb ?b then _ else _] => destruct b; cbn [negb andb orb]
  | |- context [refused ?ctx ?s] => destruct (refused_err ctx s) as [? ->]
  | |- context [truncate ?s 60] => destruct (truncate_spec s 60) as (? & -> & _); [lia|cbn [bind]]
  end.

(** All exchanges of a plan of [n] steps. *)
Ltac follow_plan :=
  match goal with Hplan : @eq (list exchange) _ _ |- _ => injection Hplan as <- <- end;
  repeat match goal with
    | Hok : Forall2 replyOk (_ :: _) (_ :: _) |- _ => apply Forall2_cons_1 in Hok as [? ?]
    | Hok : Forall2 replyOk (_ :: _) ?rs |- _ => destruct rs; [by inversion Hok|]
    | Hok : Forall2 replyOk [] ?rs |- _ => destruct rs; [clear Hok|by inversion Hok]
    end;
  cbn [combine map command planAccepts accepts andb] in *; unfold anyReply, offersTLS; cbn [andb];
  repeat exchange_step; eauto.

(** C18. Refinement of the SMTP, LMTP, FTP, POP3 and NNTP negotiations to their plans:
    against a server that greets, waits for each command and answers it with a
    well-formed reply, in whatever pieces its bytes arrive, the code sends exactly
    the commands of the plan and succeeds exactly when every reply is one the plan
    accepts; and then everything the server sent is consumed, so that TLS starts on
    a clean connection. *)
Theorem upgradeToTLS_follows_plan (conn : C) host proto greeting e0 steps replies
  (Hplan : linePlan proto = e0 :: steps)
  (Hgreet : incoming conn = encReply greeting) (Hok : Forall2 replyOk (e0 :: steps) (greeting :: replies))
  (Hserves : serves conn (combine (map (fun e => ofString (command e)) steps) (map encReply replies))) :
  if planAccepts (e0 :: steps) (greeting :: replies)
  then exists conn', upgradeToTLS quote conn host proto = Ret conn' /\ incoming conn' = []
  else exists e, upgradeToTLS quote conn host proto = Err e.
Proof.
  unfold linePlan in Hplan. unfold upgradeToTLS.
  destruct (String.eqb proto starttlsSMTP); [unfold starttlsSMTPHandshake; follow_plan|].
  destruct (String.eqb proto starttlsLMTP); [unfold starttlsSMTPHandshake; follow_plan|].
  destruct (String.eqb proto starttlsFTP) eqn:Eftp.
  { apply String.eqb_eq in Eftp as ->. cbn [String.eqb]. unfold starttlsFTPHandshake. follow_plan. }
  destruct (String.eqb proto starttlsPOP3); [unfold starttlsPOP3Handshake; follow_plan|].
  destruct (String.eqb proto starttlsNNTP) eqn:Enntp; [|done]. apply String.eqb_eq in Enntp as ->.
  unfold starttlsNNTPHandshake. follow_plan.
Qed.

(** [readSMTPResponse] on a reply, as [readReply_step]. *)
Lemma readSMTPResponse_step e r script (c : C) :
  replyOk e r -> multiline e = true -> incoming c = encReply r -> serves c script ->
  exists c', readSMTPResponse newReader c = Ret (replyText r, None, newReader, c') /\ incoming c' = [] /\ serves c' script.
Proof.
  intros [Hl Hr] Hm Hi Hs. rewrite Hm in Hr. destruct Hr as [Hcont Hend], r as [cont last].
  destruct (readSMTPLine_reply newReader c cont last [] eq_refl Hcont Hl Hend) as (rd' & c' & Hrd & He & Hrest & Hreads).
  { cbn [rbuf newReader app]. by rewrite app_nil_r. }
  destruct (reader_clean rd' c' He Hrest) as [-> Hi']. exists c'. split; [done|]. split; [done|]. by eapply serves_reads.
Qed.

(** The MX probe against such a server: it reports the server as offering STARTTLS
    exactly when the reply to EHLO has the word; it hands TLS a connection with
    nothing left on it, and only after the server accepted the command; and what it
    then reports is that handshake, its version and certificate or its error. *)
Theorem probeSTARTTLS_verdict (conn : C) handshake host greeting ehlo answer
  (Hgreet : incoming conn = encReply greeting)
  (Hok : Forall2 replyOk (smtpPlan "EHLO") [greeting; ehlo; answer])
  (Hserves : serves conn [(ofString ("EHLO netdoc" +:+ crlf), encReply ehlo); (ofString ("STARTTLS" +:+ crlf), encReply answer)]) :
  exists r conn', probeSTARTTLS (inl conn) handshake host = Ret r /\ incoming conn' = []
    /\ Host r = host /\ Reachable r = true /\ STARTTLSAdvertised r = offersTLS (replyText ehlo)
    /\ if planAccepts (smtpPlan "EHLO") [greeting; ehlo; answer]
       then match handshake conn' with
            | inl peer => UpgradeSucceeded r = true /\ TLSVersion r = peerVersion peer
                          /\ (CertIssuer r, CertExpires r) = default (""%string, ""%string) (peerLeaf peer)
            | inr e => UpgradeSucceeded r = false /\ mxError r = ("TLS handshake: " +:+ tidyErr e)%string
            end
       else UpgradeSucceeded r = false /\ TLSVersion r = ""%string.
Proof.
  apply Forall2_cons_1 in Hok as [Hg Hok]. apply Forall2_cons_1 in Hok as [He Hok]. apply Forall2_cons_1 in Hok as [Ha _].
  destruct (readSMTPResponse_step _ greeting _ conn Hg eq_refl Hgreet Hserves) as (c1 & E1 & Hi1 & Hs1).
  unfold probeSTARTTLS. rewrite E1. cbn [bind]. destruct (truncate_spec (TrimSpace (replyText greeting)) 80) as (banner & -> & _); [lia|].
  cbn [bind]. destruct (Hs1 c1 (reads_refl c1) Hi1) as (c2 & -> & Hi2 & Hs2).
  destruct (readSMTPResponse_step _ ehlo [(ofString ("STARTTLS" +:+ crlf), encReply answer)] c2 He eq_refl Hi2 Hs2) as (c3 & E3 & Hi3 & Hs3). rewrite E3. cbn [bind].
  unfold planAccepts, smtpPlan. cbn [accepts anyReply andb]. change (Contains (ToUpper (replyText ehlo)) "STARTTLS") with (offersTLS (replyText ehlo)).
  destruct (offersTLS (replyText ehlo)) eqn:Eo; cbn [negb andb]; [|by eexists _, c3].
  destruct (Hs3 c3 (reads_refl c3) Hi3) as (c4 & -> & Hi4 & Hs4).
  destruct (readSMTPResponse_step _ answer [] c4 Ha eq_refl Hi4 Hs4) as (c5 & E5 & Hi5 & _). rewrite E5. cbn [bind].
  destruct (HasPrefix (TrimSpace (replyText answer)) "220") eqn:Ep; cbn [negb andb].
  - destruct (handshake c5) as [peer|e] eqn:Eh.
    + eexists _, c5. split; [done|]. rewrite Eh. split_and!; try done. cbn. by destruct (peerLeaf peer) as [[? ?]|].
    + eexists _, c5. split; [done|]. by rewrite Eh.
  - destruct (truncate_spec (TrimSpace (replyText answer)) 40) as (t & -> & _); [lia|]. cbn [bind]. by eexists _, c5.
Qed.
End Lines.

(** ** Names and ports *)

(** The protocol names: each of the fourteen constants is read back from its own
    name in upper or lower case and with white space around it, has a port of its
    own, and nothing else is ever returned by the parser. *)
Theorem parseSTARTTLSProtocol_roundtrip quote :
  Forall (fun p => parseSTARTTLSProtocol quote p = Ret p /\ parseSTARTTLSProtocol quote ("  " +:+ ToUpper p +:+ crlf) = Ret p
                   /\ 0 < defaultPortForSTARTTLS p < 65536) validSTARTTLSProtocols
  /\ NoDup (map defaultPortForSTARTTLS validSTARTTLSProtocols)
  /\ forall name p, parseSTARTTLSProtocol quote name = Ret p -> In p validSTARTTLSProtocols.
Proof.
  split_and!.
  - repeat constructor.
  - apply (bool_decide_unpack _). by vm_compute.
  - intros name p. unfold parseSTARTTLSProtocol.
    repeat match goal with |- (if ?b then _ else _) = _ -> _ => destruct b; [by intros [= <-]; cbn; tauto|] end. done.
Qed.

(** ** What goes wrong: Telnet and MySQL *)

Section Blocks2.
Context (quote : string -> string).

(** The Telnet negotiation against a server that does what its comment describes:
    the server acknowledges the option, gets FOLLOWS and sends its own FOLLOWS
    before its TLS bytes. The code does not read that answer: the bytes TLS starts
    with are the server's sub-negotiation, not a TLS record. And when the three
    bytes of the acknowledgement arrive in two pieces they are not recognised. *)
Theorem telnet_follows_left (tls : bytes) :
  (exists d, starttlsTelnetHandshake {| inbox := []; script := [[[xff; xfd; x2e]]; [telnetFollows ++ tls]]; sent := [] |} = Ret d
     /\ sent d = [telnetWill; telnetFollows] /\ incoming d = telnetFollows ++ tls)
  /\ starttlsTelnetHandshake {| inbox := []; script := [[[xff]; [xfd; x2e]]; [telnetFollows ++ tls]]; sent := [] |}
     = Err "telnet read: EOF".
Proof.
  split; [|by vm_compute]. eexists. split; [by vm_compute|]. split; [done|]. cbn [incoming dialogueWire inbox concat].
  by rewrite app_nil_r.
Qed.

Context {C : Type} `{Wire C}.

(** The greeting of a MySQL server: version, connection and salt, and the lower
    half of its capabilities. *)
Definition mysqlGreeting (version ids : bytes) (lo hi : byte) (rest : bytes) : bytes :=
  x0a :: version ++ x00 :: ids ++ [lo; hi] ++ rest.
Definition mysqlPacket (body : bytes) : bytes :=
  [byteOf (blen body); byteOf (Z.shiftr (blen body) 8); byteOf (Z.shiftr (blen body) 16); x00] ++ body.

Lemma nulTurn_skip p i v rest : forall fuel, (length v < fuel)%nat -> i = blen p ->
  forallb (fun b => negb (beq b x00)) v = true ->
  loop (nulTurn (p ++ v ++ x00 :: rest)) fuel i = Ret (inl (i + blen v)).
Proof.
  revert p i. induction v as [|b v IH]; intros p i [|fuel] Hf Hi Hv; cbn [length] in Hf; try lia; cbn [loop];
    pose proof (blen_nonneg rest); pose proof (blen_nonneg p); unfold nulTurn at 1; cbn [app].
  - rewrite (proj2 (Z.ltb_lt _ _)) by (rewrite blen_app, blen_cons; lia).
    rewrite (read_index _ p x00 rest) by done. cbn [bind]. rewrite beq_refl. f_equal. f_equal. change (blen (@nil byte)) with 0. lia.
  - cbn [forallb] in Hv. apply andb_true_iff in Hv as [Hb Hv]. apply negb_true_iff in Hb.
    rewrite (proj2 (Z.ltb_lt _ _)) by (rewrite blen_app, blen_cons; pose proof (blen_nonneg (v ++ x00 :: rest)); lia).
    rewrite (read_index _ p b (v ++ x00 :: rest)) by done. cbn [bind]. rewrite Hb.
    replace (p ++ b :: v ++ x00 :: rest) with ((p ++ [b]) ++ v ++ x00 :: rest) by (by rewrite <- app_assoc).
    rewrite IH; [rewrite blen_cons; f_equal; f_equal; lia|lia|rewrite blen_app; change (blen [b]) with 1; lia|done].
Qed.

Lemma le24_bytes n : 0 <= n < 16777216 ->
  Z.lor (Z.lor (bval (byteOf n)) (Z.shiftl (bval (byteOf (Z.shiftr n 8))) 8)) (Z.shiftl (bval (byteOf (Z.shiftr n 16))) 16) = n.
Proof.
  intros Hn. rewrite !bval_byteOf, !Z.shiftr_div_pow2 by lia. change (2 ^ 8) with 256. change (2 ^ 16) with 65536.
  pose proof (Z.mod_pos_bound n 256). pose proof (Z.mod_pos_bound (n / 256) 256). pose proof (Z.mod_pos_bound (n / 65536) 256).
  rewrite (Z.lor_comm (n mod 256)), lor_shiftl_add, Z.lor_comm, lor_shiftl_add by lia.
  assert (E : n / 65536 = n / 256 / 256) by (rewrite Z.div_div by lia; done).
  assert (0 <= n / 65536 < 256) by (split; [apply Z.div_pos; lia|apply Z.div_lt_upper_bound; lia]).
  rewrite (Z.mod_small (n / 65536)) by lia.
  pose proof (Z.div_mod n 256). pose proof (Z.div_mod (n / 256) 256). lia.
Qed.

Lemma mysqlCaps_greeting version ids lo hi rest : blen ids = 13 -> forallb (fun b => negb (beq b x00)) version = true ->
  mysqlCaps (mysqlGreeting version ids lo hi rest) = Ret (le16 lo hi).
Proof.
  intros Hids Hv. pose proof (blen_nonneg version). pose proof (blen_nonneg rest).
  set (body := mysqlGreeting version ids lo hi rest).
  assert (Hb : blen body = 1 + blen version + 1 + 13 + 2 + blen rest).
  { unfold body, mysqlGreeting. rewrite blen_cons, blen_app, blen_cons, !blen_app, Hids. change (blen [lo; hi]) with 2. lia. }
  unfold mysqlCaps. rewrite (proj2 (Z.ltb_lt _ _)) by lia. change (index body 0) with (Ret x0a). cbn [bind].
  change (beq x0a x0a) with true. cbn [negb andb].
  change body with ([x0a] ++ version ++ x00 :: (ids ++ [lo; hi] ++ rest)).
  rewrite (nulTurn_skip [x0a] 1 version) by (done || (rewrite !length_app; cbn [length]; lia)).
  change ([x0a] ++ version ++ x00 :: (ids ++ [lo; hi] ++ rest)) with body. cbn [bind]. cbv zeta.
  rewrite (proj2 (Z.ltb_ge _ _)) by lia.
  assert (E : body = (x0a :: version ++ x00 :: ids) ++ lo :: hi :: rest) by (unfold body, mysqlGreeting; cbn; by rewrite <- app_assoc).
  assert (Hp : blen (x0a :: version ++ x00 :: ids) = 1 + blen version + 1 + (4 + 8 + 1)) by (rewrite blen_cons, blen_app, blen_cons; lia).
  rewrite (read_index body _ lo (hi :: rest)) by (exact E || lia). cbn [bind].
  rewrite (read_index body ((x0a :: version ++ x00 :: ids) ++ [lo]) hi rest);
    [done|rewrite E; by rewrite <- app_assoc|rewrite blen_app, Hp; done].
Qed.

(** The MySQL negotiation: against a server with a well-formed greeting it goes on
    exactly when the greeting advertises CLIENT_SSL, and then has sent one request
    of 36 bytes. But in the capability word of that request the CLIENT_SSL bit,
    which asks the server for TLS, is not set. *)
Theorem mysql_request_without_ssl (conn : C) version ids lo hi rest answer
  (Hids : blen ids = 13) (Hv : forallb (fun b => negb (beq b x00)) version = true)
  (Hlen : blen (mysqlGreeting version ids lo hi rest) <= 16384)
  (Hgreet : incoming conn = mysqlPacket (mysqlGreeting version ids lo hi rest))
  (Hserves : serves conn [(mysqlSSLRequest, answer)]) :
  (exists conn', incoming conn' = answer /\
     starttlsMySQLHandshake conn = if Z.land (le16 lo hi) clientSSL =? 0
       then Err "mysql: server doesn't advertise CLIENT_SSL capability" else Ret conn')
  /\ blen mysqlSSLRequest = 36
  /\ exists b4 b5, index mysqlSSLRequest 4 = Ret b4 /\ index mysqlSSLRequest 5 = Ret b5 /\ Z.land (le16 b4 b5) clientSSL = 0.
Proof.
  split; [|by split; [vm_compute|exists x8f, xf6]].
  set (body := mysqlGreeting version ids lo hi rest) in *. pose proof (blen_nonneg body).
  assert (1 <= blen body) by (unfold body, mysqlGreeting; rewrite blen_cons; pose proof (blen_nonneg (version ++ x00 :: ids ++ [lo; hi] ++ rest)); lia).
  unfold mysqlPacket in Hgreet.
  destruct (recvFull_ok 4 conn _ body Hgreet eq_refl) as (c1 & E1 & Hi1 & Hr1).
  destruct (recvFull_ok (blen body) c1 body []) as (c2 & E2 & Hi2 & Hr2); [by rewrite app_nil_r|done|].
  destruct (Hserves c2 (reads_trans _ _ _ Hr1 Hr2) Hi2) as (c3 & Hw & Hi3 & _).
  exists c3. split; [done|]. unfold starttlsMySQLHandshake. rewrite E1. cbn [bind].
  set (h := [byteOf (blen body); byteOf (Z.shiftr (blen body) 8); byteOf (Z.shiftr (blen body) 16); x00]).
  change (index h 0) with (Ret (byteOf (blen body))). change (index h 1) with (Ret (byteOf (Z.shiftr (blen body) 8))).
  change (index h 2) with (Ret (byteOf (Z.shiftr (blen body) 16))). cbn [bind]. rewrite le24_bytes by lia.
  rewrite (proj2 (Z.ltb_ge _ _)), (proj2 (Z.ltb_ge _ _)) by lia. cbn [orb]. rewrite E2. cbn [bind].
  unfold body. rewrite mysqlCaps_greeting by done. cbn [bind]. destruct (Z.land (le16 lo hi) clientSSL =? 0); [done|].
  unfold writeOr. by rewrite Hw.
Qed.
End Blocks2.

Module StarttlsWitnesses.
Definition line (s : string) : bytes := ofString s.
Definition crReply (s : string) : reply := {| contLines := []; lastLine := line s ++ [x0d] |}.
Definition ehloReply : reply := {| contLines := [line "250-mx.example.org" ++ [x0d]; line "250-PIPELINING" ++ [x0d]]; lastLine := line "250 STARTTLS" ++ [x0d] |}.

(** The greeting comes in two pieces, the rest reply by reply. *)
Definition mailServer : dialogue :=
  {| inbox := [line "220 mx"; line " ready" ++ [x0d; x0a]];
     script := [[encReply ehloReply]; [encReply (crReply "220 go ahead")]]; sent := [] |}.

Lemma mailReplies : Forall2 replyOk (smtpPlan "EHLO") [crReply "220 mx ready"; ehloReply; crReply "220 go ahead"].
Proof. repeat constructor; by vm_compute. Qed.

Lemma mailServes : serves mailServer [(ofString ("EHLO netdoc" +:+ crlf), encReply ehloReply);
  (ofString ("STARTTLS" +:+ crlf), encReply (crReply "220 go ahead"))].
Proof. exact (dialogue_serves [ofString ("EHLO netdoc" +:+ crlf); ofString ("STARTTLS" +:+ crlf)] mailServer). Qed.

Lemma upgradeToTLS_follows_plan_witness :
  exists conn', upgradeToTLS id mailServer "mx.example.org" starttlsSMTP = Ret conn' /\ incoming conn' = [].
Proof.
  exact (upgradeToTLS_follows_plan id mailServer "mx.example.org" starttlsSMTP (crReply "220 mx ready") _ _
    [ehloReply; crReply "220 go ahead"] eq_refl ltac:(by vm_compute) mailReplies mailServes).
Defined.

Lemma probeSTARTTLS_verdict_witness :
  exists r, probeSTARTTLS (inl mailServer) (fun _ => inl {| peerVersion := "TLS 1.3"; peerLeaf := None |}) "mx.example.org" = Ret r
    /\ UpgradeSucceeded r = true.
Proof.
  destruct (probeSTARTTLS_verdict mailServer (fun _ => inl {| peerVersion := "TLS 1.3"; peerLeaf := None |}) "mx.example.org"
    (crReply "220 mx ready") ehloReply (crReply "220 go ahead") ltac:(by vm_compute) mailReplies mailServes) as (r & c & Hr & _ & _ & _ & _ & Hu).
  exists r. split; [exact Hr|]. exact (proj1 Hu).
Defined.

Definition mysqlServer : dialogue :=
  {| inbox := [mysqlPacket (mysqlGreeting (line "8.0.36") (repeat x01 13) x00 x08 [])]; script := [[[x15]]]; sent := [] |}.

Lemma mysql_request_without_ssl_witness : exists conn', starttlsMySQLHandshake mysqlServer = Ret conn'.
Proof.
  destruct (mysql_request_without_ssl mysqlServer (line "8.0.36") (repeat x01 13) x00 x08 [] [x15] eq_refl eq_refl
    ltac:(by vm_compute) eq_refl (dialogue_serves [mysqlSSLRequest] mysqlServer)) as [(c & _ & Hc) _].
  exists c. exact Hc.
Defined.
End StarttlsWitnesses.
