(* ===== verification/Injection.v ===== *)
(** The STARTTLS command-injection probe of [tls_starttls_injection.go]: one write
    with the upgrade command and a second command behind it, and the first line that
    comes back inside TLS.  The TLS client is a parameter, its encrypted channel a
    [Wire] of its own. *)

From Stdlib Require Import ZArith List String Ascii Strings.Byte Lia Bool.
From stdpp Require Import base list strings numbers.
From S2P Require Import Prelude Bytes GoStrings Result Wire Starttls.
Open Scope Z_scope.

Record starttlsInjectionResult := { Probed : bool; Protocol : string; Vulnerable : bool; Evidence : string; Notes : string }.

Section Injection.
Context {C T : Type} `{Wire C} `{Wire T}.

(** [preamble] gives the reader and the connection, or an error. *)
Record injectionPlan := {
  preamble : C -> bufReader -> outcome (bufReader * C);
  injection : string;
  ackOK : string -> bool;
  indicatesInjection : string -> bool
}.

(** [line, err := rd.ReadString('\n'); if err != nil { return err }] *)
Definition readRaw {R} (rd : bufReader) (c : C) (k : string -> bufReader -> C -> outcome R) : outcome R :=
  unpack (line, err, rd, c) <~ readString rd c ;;
  match err with Some e => Err e | None => k line rd c end.

Definition fourth (line : string) : bool := (4 <=? slen line) && finalLine line.

(** The loop that drains the reply to EHLO. *)
Definition ehloTurn (i : nat) (st : bufReader * C) : outcome (step (bufReader * C) (bufReader * C)) :=
  let '(rd, conn) := st in
  readRaw rd conn (fun line rd conn =>
  if fourth line then
    if negb (Contains (ToUpper line) "STARTTLS") && (i =? 0)%nat then Err "STARTTLS not in EHLO response"
    else Ret (Return (rd, conn))
  else Ret (Next (rd, conn))).

Definition smtpPreamble (conn : C) (rd : bufReader) : outcome (bufReader * C) :=
  readLine "banner" rd conn (fun _ rd conn =>
  match write (ofString ("EHLO netdoc" +:+ crlf)) conn with
  | inr e => Err e
  | inl conn =>
      r <~ forRange ehloTurn (seq 0 32) (rd, conn) ;;
      match r with inr r => Ret r | inl _ => Err "EHLO too many lines" end
  end).

(** A greeting of one line that has to start with [prefix]. *)
Definition bannerPreamble (prefix bad : string) (conn : C) (rd : bufReader) : outcome (bufReader * C) :=
  unpack (banner, err, rd, conn) <~ readString rd conn ;;
  match err with
  | Some _ => Err bad
  | None => if negb (HasPrefix banner prefix) then Err bad else Ret (rd, conn)
  end.

Definition greetingTurn (_ : nat) (st : bufReader * C) : outcome (step (bufReader * C) (bufReader * C)) :=
  let '(rd, conn) := st in
  readRaw rd conn (fun line rd conn => if fourth line then Ret (Return (rd, conn)) else Ret (Next (rd, conn))).

Definition ftpPreamble (conn : C) (rd : bufReader) : outcome (bufReader * C) :=
  r <~ forRange greetingTurn (seq 0 16) (rd, conn) ;;
  match r with inr r => Ret r | inl _ => Err "FTP greeting too long" end.

Definition nntpPreamble (conn : C) (rd : bufReader) : outcome (bufReader * C) :=
  readRaw rd conn (fun _ rd conn => Ret (rd, conn)).

Definition injectionPlans (proto : startTLSProtocol) : option injectionPlan :=
  if String.eqb proto starttlsSMTP then Some {|
    preamble := smtpPreamble; injection := "STARTTLS" +:+ crlf +:+ "NOOP" +:+ crlf;
    ackOK line := HasPrefix (TrimSpace line) "220";
    indicatesInjection s := let t := ToUpper (TrimSpace s) in HasPrefix t "250" && Contains t "OK" |}
  else if String.eqb proto starttlsIMAP then Some {|
    preamble := bannerPreamble "* OK" "bad IMAP banner"; injection := "a001 STARTTLS" +:+ crlf +:+ "a002 NOOP" +:+ crlf;
    ackOK line := HasPrefix line "a001 OK";
    indicatesInjection s := HasPrefix (TrimSpace s) "a002" |}
  else if String.eqb proto starttlsPOP3 then Some {|
    preamble := bannerPreamble "+OK" "bad POP3 banner"; injection := "STLS" +:+ crlf +:+ "NOOP" +:+ crlf;
    ackOK line := HasPrefix line "+OK";
    indicatesInjection s := HasPrefix (TrimSpace s) "+OK" |}
  else if String.eqb proto starttlsFTP then Some {|
    preamble := ftpPreamble; injection := "AUTH TLS" +:+ crlf +:+ "NOOP" +:+ crlf;
    ackOK line := let t := TrimSpace line in HasPrefix t "234" || HasPrefix t "200";
    indicatesInjection s := HasPrefix (TrimSpace s) "200" |}
  else if String.eqb proto starttlsNNTP then Some {|
    preamble := nntpPreamble; injection := "STARTTLS" +:+ crlf +:+ "HELP" +:+ crlf;
    ackOK line := HasPrefix line "382";
    indicatesInjection s := HasPrefix (TrimSpace s) "100" |}
  else None.

Definition injResult (proto : startTLSProtocol) (probed vulnerable : bool) (evidence notes : string) : starttlsInjectionResult :=
  {| Probed := probed; Protocol := proto; Vulnerable := vulnerable; Evidence := evidence; Notes := notes |}.

Definition probeSTARTTLSInjection (dial : C + string) (handshake : C -> T + string) (proto : startTLSProtocol)
    : outcome starttlsInjectionResult :=
  match injectionPlans proto with
  | None => Ret (injResult proto false false "" ("no injection probe defined for protocol " +:+ proto))
  | Some plan =>
      match dial with
      | inr e => Ret (injResult proto false false "" ("dial failed: " +:+ tidyErr e))
      | inl conn =>
          match preamble plan conn newReader with
          | Panic => Panic
          | NoFuel => NoFuel
          | Err e => Ret (injResult proto false false "" ("preamble failed: " +:+ tidyErr e))
          | Ret (rd, conn) =>
              match write (ofString (injection plan)) conn with
              | inr e => Ret (injResult proto false false "" ("injection write failed: " +:+ tidyErr e))
              | inl conn =>
                  unpack (ack, err, rd, conn) <~ readString rd conn ;;
                  match err with
                  | Some e => Ret (injResult proto false false "" ("STARTTLS ack read failed: " +:+ tidyErr e))
                  | None =>
                      if negb (ackOK plan ack) then
                        t <~ truncate (TrimSpace ack) 60 ;;
                        Ret (injResult proto false false "" ("STARTTLS refused: " +:+ t))
                      else
                      match handshake conn with
                      | inr e => Ret (injResult proto true false "" ("TLS handshake failed: " +:+ tidyErr e))
                      | inl tlsConn =>
                          unpack (postLine, _, _, _) <~ readString newReader tlsConn ;;
                          if String.eqb postLine "" then
                            Ret (injResult proto true false "" ("no encrypted response read within 2s " +:+ emDash +:+ " clean"))
                          else if indicatesInjection plan postLine then
                            e <~ truncate (TrimSpace postLine) 100 ;;
                            Ret (injResult proto true true e ("FIRST encrypted-channel response was the reply to the pipelined command "
                                 +:+ emDash +:+ " buffer not drained after STARTTLS"))
                          else Ret (injResult proto true false "" ("first encrypted response was service banner (not pipelined-command reply) "
                                 +:+ emDash +:+ " buffer correctly drained"))
                      end
                  end
              end
          end
      end
  end.

Definition starttlsInjectionHeadline (r : starttlsInjectionResult) : string :=
  if negb (Probed r) then ""
  else if Vulnerable r then
    ("STARTTLS Injection VULNERABLE (" +:+ Protocol r +:+ ") " +:+ emDash +:+ " pipelined command leaked into encrypted channel")
  else ""%string.

(** ** It always returns *)

Lemma safe_readString {R} rd (c : C) (k : string * option string * bufReader * C -> outcome R) :
  (forall r, safe (k r)) -> safe (bind (readString rd c) k).
Proof.
  intros Hk. unfold safe. wp_step. eapply wp_mono; [apply (wp_readString rd c (fun _ => False))| |done]. intros r _. apply Hk.
Qed.

Lemma safe_readRaw {R} rd (c : C) (k : string -> bufReader -> C -> outcome R) :
  (forall line rd c, safe (k line rd c)) -> safe (readRaw rd c k).
Proof. intros Hk. apply safe_readString. intros [[[line [e|]] rd'] c']; [done|apply Hk]. Qed.

Lemma safe_preamble proto plan conn rd : injectionPlans proto = Some plan -> safe (preamble plan conn rd).
Proof.
  unfold injectionPlans.
  repeat match goal with |- (if ?b then _ else _) = _ -> _ => destruct b; [intros [= <-]; cbn [preamble]|] end; [..|done].
  - apply wp_readLine. intros _ rd1 c1. destruct (write _ c1) as [c2|e]; [|done]. apply safe_forRange; [|by intros [?|?]].
    intros i [rd2 c3]. apply safe_readRaw. intros line rd3 c4. by repeat apply safe_if.
  - apply safe_readString. intros [[[line [e|]] rd'] c']; [done|]. by apply safe_if.
  - apply safe_readString. intros [[[line [e|]] rd'] c']; [done|]. by apply safe_if.
  - apply safe_forRange; [|by intros [?|?]]. intros i [rd2 c3]. apply safe_readRaw. intros line rd3 c4. by apply safe_if.
  - by apply safe_readRaw.
Qed.
End Injection.

Section Returns.
Context {C T : Type} `{Wire C} `{Wire T}.

(** The injection probe returns a result, for every protocol and whatever the
    server sends before and after the handshake. *)
Theorem probeSTARTTLSInjection_returns dial (handshake : C -> T + string) proto :
  exists r, probeSTARTTLSInjection dial handshake proto = Ret r.
Proof.
  enough (Hw : wp (probeSTARTTLSInjection dial handshake proto) (fun _ => True) (fun _ => False)).
  { destruct (probeSTARTTLSInjection dial handshake proto); try done. eauto. }
  unfold probeSTARTTLSInjection. destruct (injectionPlans proto) as [plan|] eqn:Hp; [|done].
  destruct dial as [conn|e]; [|done]. pose proof (safe_preamble (C := C) proto plan conn newReader Hp) as Hs.
  destruct (preamble plan conn newReader) as [[rd c1]|e| |]; try done.
  destruct (write _ c1) as [c2|e]; [|done]. wp_step.
  eapply wp_mono; [apply (wp_readString rd c2 (fun _ => False))| |done]. intros [[[ack [e|]] rd'] c3] _; [done|].
  wp_step; [wp_step; by apply wp_truncate|]. destruct (handshake c3) as [t|e]; [|done]. wp_step.
  eapply wp_mono; [apply (wp_readString newReader t (fun _ => False))| |done]. intros [[[line e] rd2] t2] _.
  wp_step; [done|]. wp_step; [|done]. wp_step. by apply wp_truncate.
Qed.
End Returns.

(** ** The verdict on an SMTP server *)

Section Verdict.
Context {C T : Type} `{Wire C} `{Wire T}.

Lemma fourth_line l : fourth (toString (l ++ [x0a])) = (3 <=? blen l) && finalLine (toString (l ++ [x0a])).
Proof. unfold fourth. rewrite slen_line. f_equal. destruct (Z.leb_spec 4 (blen l + 1)), (Z.leb_spec 3 (blen l)); lia. Qed.

(** The drain reads a reply to its last line. *)
Lemma ehlo_drain cont last rest : Forall (fun l => noNewline l = true /\ lineEnds l = false) cont ->
  noNewline last = true -> 3 <= blen last -> lineEnds last = true ->
  forall i n rd (c : C), rerr rd = None -> (length cont < n)%nat ->
    rbuf rd ++ incoming c = encReply {| contLines := cont; lastLine := last |} ++ rest ->
    (negb (offersTLS (toString (last ++ [x0a]))) && (i + length cont =? 0)%nat) = false ->
  exists rd' c', forRange ehloTurn (seq i n) (rd, c) = Ret (inr (rd', c')) /\ rerr rd' = None
    /\ rbuf rd' ++ incoming c' = rest /\ reads c c'.
Proof.
  intros Hcont Hl H3 He. unfold lineEnds in He. rewrite (proj2 (Z.ltb_ge _ _)) in He by lia. cbn [orb] in He.
  unfold encReply. cbn [contLines lastLine].
  induction Hcont as [|l cont [Hnl Hne] Hcont IH]; intros i [|n] rd c Herr Hf Hs Hfirst; cbn [length] in *; try lia; cbn [seq forRange].
  - cbn [flat_map app] in Hs. rewrite <- app_assoc in Hs.
    destruct (readString_line rd c last rest Herr Hs Hl) as (rd' & c' & Hr & Herr' & Hrest & Hreads).
    unfold ehloTurn, readRaw. rewrite Hr. cbn [bind]. rewrite fourth_line, He, (proj2 (Z.leb_le _ _)) by lia. cbn [andb].
    rewrite Nat.add_0_r in Hfirst. unfold offersTLS in Hfirst. rewrite Hfirst. by exists rd', c'.
  - cbn [flat_map] in Hs. rewrite <- !app_assoc in Hs. cbn [app] in Hs.
    destruct (readString_line rd c l _ Herr Hs Hnl) as (rd' & c' & Hr & Herr' & Hrest & Hreads).
    unfold ehloTurn at 1, readRaw. rewrite Hr. cbn [bind]. unfold lineEnds in Hne. apply orb_false_iff in Hne as [_ Hfin].
    rewrite fourth_line, Hfin, andb_false_r.
    destruct (IH (S i) n rd' c' Herr' ltac:(lia)) as (rd2 & c2 & Hlo & Herr2 & Hrest2 & Hreads2).
    { rewrite Hrest. by rewrite <- !app_assoc. }
    { rewrite <- Hfirst. f_equal. f_equal. lia. }
    exists rd2, c2. rewrite Hlo. split_and!; [done|done|done|by eapply reads_trans].
Qed.

(** The first line on a channel, or what there is of it. *)
Definition firstLine (b : bytes) (line : string) : Prop :=
  (exists l rest, b = l ++ x0a :: rest /\ noNewline l = true /\ line = toString (l ++ [x0a])) \/ b = [] /\ line = ""%string.

Lemma readString_first (t : T) line : firstLine (incoming t) line ->
  exists e rd t', readString newReader t = Ret (line, e, rd, t').
Proof.
  intros [(l & rest & Hi & Hl & ->)|[Hi ->]].
  - destruct (readString_line newReader t l rest eq_refl Hi Hl) as (rd' & t' & -> & _). eauto.
  - pose proof (wp_readString newReader t (fun _ => False)) as Hw.
    destruct (readString newReader t) as [[[[line e] rd'] t']| | |]; try done. destruct Hw as (Hs & _).
    cbn [rbuf newReader app] in Hs. rewrite Hi in Hs. symmetry in Hs. apply app_eq_nil in Hs as [Hs _].
    apply (f_equal toString) in Hs. rewrite toString_ofString in Hs. cbn in Hs. subst line. eauto.
Qed.

(** C19. The injection probe against an SMTP server that greets, answers EHLO and then
    answers the pipelined write with one line [ack]: it is probed exactly when [ack]
    is a 220, and reported vulnerable exactly when, after the TLS handshake on a
    connection with nothing left to read, the first line inside TLS is the reply to
    the pipelined NOOP (a 250 with OK). A server that says nothing inside TLS, or
    something else, is not. *)
Theorem smtp_injection_verdict (conn : C) (handshake : C -> T + string) greeting ehlo ack line
  (Hgreet : incoming conn = greeting ++ [x0a]) (Hg : noNewline greeting = true)
  (Hehlo : Forall (fun l => noNewline l = true /\ lineEnds l = false) (contLines ehlo))
  (Hlast : noNewline (lastLine ehlo) = true /\ 3 <= blen (lastLine ehlo) /\ lineEnds (lastLine ehlo) = true)
  (Hlines : (length (contLines ehlo) < 32)%nat)
  (Hoffer : contLines ehlo <> [] \/ offersTLS (toString (lastLine ehlo ++ [x0a])) = true)
  (Hserves : serves conn [(ofString ("EHLO netdoc" +:+ crlf), encReply ehlo);
                          (ofString ("STARTTLS" +:+ crlf +:+ "NOOP" +:+ crlf), ack ++ [x0a])])
  (Hack : noNewline ack = true)
  (Htls : forall c, incoming c = [] -> exists t, handshake c = inl t /\ firstLine (incoming t) line) :
  exists r, probeSTARTTLSInjection (inl conn) handshake starttlsSMTP = Ret r
    /\ Probed r = HasPrefix (TrimSpace (toString (ack ++ [x0a]))) "220"
    /\ Vulnerable r = Probed r && negb (String.eqb line "")
         && (HasPrefix (ToUpper (TrimSpace line)) "250" && Contains (ToUpper (TrimSpace line)) "OK").
Proof.
  destruct Hlast as (Hl1 & Hl2 & Hl3), ehlo as [cont last]. cbn [contLines lastLine] in *.
  unfold probeSTARTTLSInjection, injectionPlans. change (String.eqb starttlsSMTP starttlsSMTP) with true. cbn [preamble ackOK indicatesInjection injection].
  destruct (readString_line newReader conn greeting [] eq_refl Hgreet Hg) as (rd1 & c1 & E1 & He1 & Hr1 & Hrd1).
  destruct (reader_clean rd1 c1 He1 Hr1) as [-> Hi1].
  destruct (Hserves c1 Hrd1 Hi1) as (c2 & Hw2 & Hi2 & Hs2).
  destruct (ehlo_drain cont last [] Hehlo Hl1 Hl2 Hl3 0 32 newReader c2 eq_refl Hlines) as (rd3 & c3 & E3 & He3 & Hr3 & Hrd3).
  { cbn [rbuf newReader app]. by rewrite app_nil_r. }
  { destruct Hoffer as [Hne| ->]; [|done]. destruct cont; [done|]. by rewrite andb_false_r. }
  destruct (reader_clean rd3 c3 He3 Hr3) as [-> Hi3].
  destruct (Hs2 c3 Hrd3 Hi3) as (c4 & Hw4 & Hi4 & _).
  destruct (readString_line newReader c4 ack [] eq_refl Hi4 Hack) as (rd5 & c5 & E5 & He5 & Hr5 & Hrd5).
  destruct (reader_clean rd5 c5 He5 Hr5) as [-> Hi5].
  unfold smtpPreamble, readLine. rewrite E1. cbn [bind]. rewrite Hw2, E3. cbn [bind]. rewrite Hw4, E5. cbn [bind].
  destruct (HasPrefix (TrimSpace (toString (ack ++ [x0a]))) "220") eqn:Eack; cbn [negb].
  - destruct (Htls c5 Hi5) as (t & -> & Hfirst). destruct (readString_first t line Hfirst) as (e & rd6 & t6 & ->). cbn [bind].
    destruct (String.eqb line "") eqn:El; [by eexists|]. cbn [negb andb].
    destruct (HasPrefix _ "250" && Contains _ "OK"); [|by eexists].
    destruct (truncate_spec (TrimSpace line) 100) as (ev & -> & _); [lia|]. by eexists.
  - destruct (truncate_spec (TrimSpace (toString (ack ++ [x0a]))) 60) as (ev & -> & _); [lia|]. by eexists.
Qed.
End Verdict.

Module InjectionWitnesses.
Definition plain : dialogue :=
  {| inbox := [ofString ("220 mx" +:+ crlf)];
     script := [[encReply StarttlsWitnesses.ehloReply]; [ofString ("220 ready" +:+ crlf)]]; sent := [] |}.
Definition encrypted : dialogue := {| inbox := [ofString ("250 2.0.0 OK" +:+ crlf)]; script := []; sent := [] |}.

Lemma probeSTARTTLSInjection_witness_reply : firstLine (incoming encrypted) ("250 2.0.0 OK" +:+ crlf).
Proof. left. exists (ofString "250 2.0.0 OK" ++ [x0d]), []. by vm_compute. Qed.

Lemma smtp_injection_verdict_witness :
  exists r, probeSTARTTLSInjection (inl plain) (fun _ : dialogue => inl encrypted) starttlsSMTP = Ret r /\ Vulnerable r = true.
Proof.
  destruct (smtp_injection_verdict plain (fun _ => inl encrypted) (ofString "220 mx" ++ [x0d]) StarttlsWitnesses.ehloReply
    (ofString "220 ready" ++ [x0d]) ("250 2.0.0 OK" +:+ crlf)) as (r & Hr & Hp & Hv).
  - by vm_compute.
  - by vm_compute.
  - repeat constructor; by vm_compute.
  - split; [by vm_compute|]. by split; vm_compute.
  - cbn. lia.
  - left. discriminate.
  - exact (dialogue_serves [ofString ("EHLO netdoc" +:+ crlf); ofString ("STARTTLS" +:+ crlf +:+ "NOOP" +:+ crlf)] plain).
  - by vm_compute.
  - intros c _. exists encrypted. split; [reflexivity|exact probeSTARTTLSInjection_witness_reply].
  - exists r. split; [exact Hr|]. rewrite Hv, Hp. by vm_compute.
Defined.
End InjectionWitnesses.
