(* ===== verification/Float.v ===== *)
(** Go's [float64] as dyadic rationals, and the ways the code prints them.

    A finite float64 is [mant * 2^ex]; infinities and NaN are not modelled (the
    program computes durations and counts).  Sums are rounded to 53 bits, half to
    even.  [shortest] is the decimal that [strconv] prints for precision -1: the one
    with fewest digits that reads back as the same float64. *)

From Stdlib Require Import ZArith List String Ascii Strings.Byte Lia Bool.
From stdpp Require Import base list strings numbers.
From S2P Require Import Prelude Bytes GoStrings Decimal Result.
Open Scope Z_scope.

Record float64 := Float { mant : Z; ex : Z }.

Definition isZero (f : float64) : bool := mant f =? 0.
Definition positive (f : float64) : bool := 0 <? mant f.

(** [round(num / den)], half to even, for [den > 0] *)
Definition divRound (num den : Z) : Z :=
  let q := num / den in
  match Z.compare (2 * (num mod den)) den with
  | Lt => q
  | Gt => q + 1
  | Eq => if Z.even q then q else q + 1
  end.

(** The float64 nearest to [m * 2^e] *)
Definition round53 (m e : Z) : float64 :=
  let k := Z.log2 (Z.abs m) - 52 in
  if k <=? 0 then Float m e else Float (divRound m (2 ^ k)) (e + k).

Definition ofInt (z : Z) : float64 := round53 z 0.

Definition fadd (a b : float64) : float64 :=
  let e := Z.min (ex a) (ex b) in
  round53 (mant a * 2 ^ (ex a - e) + mant b * 2 ^ (ex b - e)) e.

(** The numerator and denominator of the value *)
Definition ratio (f : float64) : Z * Z :=
  if 0 <=? ex f then (mant f * 2 ^ ex f, 1) else (mant f, 2 ^ (- ex f)).

(** [strconv.FormatFloat(v, 'f', 1, 64)] *)
Definition formatF1 (f : float64) : string :=
  let '(n, d) := ratio f in
  let tenths := divRound (10 * Z.abs n) d in
  ((if (n <? 0)%Z then "-" else "") +:+ decNat (tenths / 10)%Z +:+ "." +:+ decNat (tenths mod 10)%Z)%string.

(** ** The shortest decimal *)

(** Take the zeros off the end of a decimal [d * 10^k]. *)
Fixpoint stripZeros (fuel : nat) (d k : Z) : Z * Z :=
  match fuel with
  | O => (d, k)
  | S fuel => if (d =? 0) || negb (d mod 10 =? 0) then (d, k) else stripZeros fuel (d / 10) (k + 1)
  end.

(** [d * 10^k] as a fraction of the denominator [den], rounded down twice over: the
    pair is (numerator, denominator). *)
Definition scaled (d k : Z) : Z * Z := if 0 <=? k then (d * 10 ^ k, 1) else (d, 10 ^ (- k)).

(** Does the decimal lie in the interval of numbers that round to [f]?  [f] is positive. *)
Definition readsBack (f : float64) (d k : Z) : bool :=
  let l := Z.log2 (mant f) in
  let u := Z.max (ex f + l - 52) (-1074) in
  (* everything in units of 2^(u-2) *)
  let '(n, den) := ratio f in
  let '(dn, dd) := scaled d k in
  let unit := fun p q => if 0 <=? u - 2 then (p, q * 2 ^ (u - 2)) else (p * 2 ^ (2 - u), q) in
  let '(vn, vd) := unit n den in
  let '(wn, wd) := unit dn dd in
  let diff := wn * vd - vn * wd in
  let den := vd * wd in
  let below := if mant f =? 2 ^ l then 1 else 2 in
  let even := Z.even (mant f * 2 ^ (52 - l)) in
  if 0 <=? diff then if even then diff <=? 2 * den else diff <? 2 * den
  else if even then - diff <=? below * den else - diff <? below * den.

(** The decimal of [nd] digits nearest to [f], and more digits while it does not read
    back; 17 always do. *)
Fixpoint shortestFrom (fuel : nat) (f : float64) (p nd : Z) : Z * Z :=
  let k := p - nd in
  let '(n, den) := ratio f in
  let d := if 0 <=? k then divRound n (den * 10 ^ k) else divRound (n * 10 ^ (- k)) den in
  match fuel with
  | O => (d, k)
  | S fuel => if readsBack f d k then (d, k) else shortestFrom fuel f p (nd + 1)
  end.

(** The position of the decimal point before the digits: 10^(p-1) <= f < 10^p. *)
Fixpoint pointFrom (fuel : nat) (n den p : Z) : Z :=
  match fuel with
  | O => p
  | S fuel =>
      let '(a, b) := scaled 1 (p - 1) in
      if n * b <? a * den then pointFrom fuel n den (p - 1) else p
  end.

Definition shortest (f : float64) : Z * Z :=
  let '(n, den) := ratio f in
  if (n mod den =? 0) && (n / den <=? 2 ^ 53) then stripZeros 20 (n / den) 0
  else
    let p := pointFrom 6 n den ((Z.log2 n - Z.log2 den + 1) * 30103 / 100000 + 2) in
    let '(d, k) := shortestFrom 17 f p 1 in
    stripZeros 20 d k.

(** ** Printing *)

Definition padZeros (n : Z) : string := Repeat "0" (Z.to_nat n).
Definition pad2 (n : Z) : string := if n <? 10 then ("0" +:+ decNat n)%string else decNat n.

(** [%e]: one digit, the others after a point, and an exponent of at least [two] digits *)
Definition expForm (d k : Z) : string :=
  let s := decNat d in
  let nd := slen s in
  let x := k + nd - 1 in
  (takeString 1 s +:+ (if (nd <=? 1)%Z then "" else "." +:+ dropString 1 s) +:+ "e"
   +:+ (if (x <? 0)%Z then "-" else "+") +:+ pad2 (Z.abs x))%string.

(** [%f] with as many places as there are digits *)
Definition plainForm (d k : Z) : string :=
  let s := decNat d in
  let nd := slen s in
  if 0 <=? k then (if (d =? 0)%Z then "0" else s +:+ padZeros k)%string
  else
    let int := nd + k in
    if 0 <? int then (takeString (Z.to_nat int) s +:+ "." +:+ dropString (Z.to_nat int) s)%string
    else ("0." +:+ padZeros (- int)%Z +:+ s)%string.

Definition signed (f : float64) (print : Z -> Z -> string) : string :=
  let '(d, k) := shortest (Float (Z.abs (mant f)) (ex f)) in
  ((if (mant f <? 0)%Z then "-" else "") +:+ print d k)%string.

(** [fmt.Sprintf("%v", v)] *)
Definition fmtV (f : float64) : string :=
  signed f (fun d k => let x := k + slen (decNat d) - 1 in
                       if negb (d =? 0) && ((x <? -4) || (6 <=? x)) then expForm d k else plainForm d k).

(** [encoding/json] of a float64: the exponent has no leading zero *)
Definition jsonFloat (f : float64) : string :=
  signed f (fun d k =>
    let x := k + slen (decNat d) - 1 in
    if negb (d =? 0) && ((x <? -6) || (21 <=? x)) then
      let s := expForm d k in
      if (-10 <? x) && (x <? 0) then (takeString (String.length s - 2) s +:+ dropString (String.length s - 1) s)%string else s
    else plainForm d k).

(** ** Integers print alike as [int] and as [float64], below a million *)

Lemma decAcc_acc fuel n acc : decAcc fuel n acc = (decAcc fuel n "" +:+ acc)%string.
Proof.
  revert n acc. induction fuel as [|fuel IH]; intros n acc; [done|]. cbn [decAcc].
  destruct (n <=? 0); [done|]. rewrite IH, (IH _ (String _ "")). by rewrite <- appString_assoc.
Qed.

Lemma decNat_ten n : 0 < n -> decNat (10 * n) = (decNat n +:+ "0")%string.
Proof.
  intros Hn. unfold decNat. rewrite !(proj2 (Z.eqb_neq _ 0)) by lia. set (r := decAcc (S (Z.to_nat (Z.log2 n))) n "").
  cbn [decAcc]. rewrite (proj2 (Z.leb_gt (10 * n) 0)) by lia. rewrite (Z.mul_comm 10 n), Z.div_mul, Z.mod_mul by lia.
  rewrite decAcc_acc. f_equal. subst r. apply decAcc_fuel.
  - split; [lia|]. apply Z.log2_lt_pow2; [lia|]. rewrite Z2Nat.id by apply Z.log2_nonneg.
    apply Z.le_lt_trans with (Z.log2 (2 * n) - 1); [rewrite Z.log2_double by lia; lia|].
    pose proof (Z.log2_le_mono (2 * n) (n * 10)). lia.
  - rewrite Nat2Z.inj_succ, Z2Nat.id by apply Z.log2_nonneg. apply Z.log2_spec. lia.
Qed.

Lemma decNat_pow d k : 0 < d -> decNat (d * 10 ^ Z.of_nat k) = (decNat d +:+ Repeat "0" k)%string.
Proof.
  intros Hd. induction k as [|k IH]; [rewrite Z.mul_1_r; cbn; by rewrite appString_nil|].
  rewrite Nat2Z.inj_succ, Z.pow_succ_r by lia. replace (d * (10 * 10 ^ Z.of_nat k)) with (10 * (d * 10 ^ Z.of_nat k)) by lia.
  rewrite decNat_ten by (pose proof (Z.pow_pos_nonneg 10 (Z.of_nat k)); nia). rewrite IH, <- appString_assoc. f_equal.
  clear. induction k as [|k IH]; [done|]. cbn [Repeat]. by rewrite <- appString_assoc, IH.
Qed.

Lemma decAcc_length fuel n acc k : n < 10 ^ Z.of_nat k -> (String.length (decAcc fuel n acc) <= k + String.length acc)%nat.
Proof.
  revert n acc k. induction fuel as [|fuel IH]; intros n acc k Hn; cbn [decAcc]; [lia|].
  destruct (n <=? 0) eqn:E; [lia|]. to_prop. destruct k as [|k]; [cbn in Hn; lia|].
  rewrite Nat2Z.inj_succ, Z.pow_succ_r in Hn by lia.
  specialize (IH (n / 10) (String (digitChar (n mod 10)) acc) k ltac:(apply Z.div_lt_upper_bound; lia)). cbn in IH. lia.
Qed.

Lemma stripZeros_spec fuel d k : 0 < d -> exists i, let r := stripZeros fuel d k in
  r.2 = k + Z.of_nat i /\ 0 < r.1 /\ d = r.1 * 10 ^ Z.of_nat i.
Proof.
  revert d k. induction fuel as [|fuel IH]; intros d k Hd; cbn [stripZeros].
  { exists 0%nat. cbn. lia. }
  destruct ((d =? 0) || negb (d mod 10 =? 0)) eqn:E; [exists 0%nat; cbn; lia|]. to_prop.
  pose proof (Z.div_mod d 10). destruct (IH (d / 10) (k + 1) ltac:(lia)) as (i & H2 & H3 & H4).
  exists (S i). cbv zeta. rewrite Nat2Z.inj_succ, Z.pow_succ_r by lia. split; [lia|]. split; [done|]. lia.
Qed.

Lemma fmtV_ofInt z : 0 <= z < 10 ^ 6 -> fmtV (ofInt z) = fmtD z.
Proof.
  intros Hz. destruct (Z.eq_dec z 0) as [->|Hnz]; [by vm_compute|].
  assert (Hl : Z.log2 z < 20) by (apply Z.log2_lt_pow2; lia).
  assert (Ho : ofInt z = Float z 0). { unfold ofInt, round53. rewrite Z.abs_eq by lia. by rewrite (proj2 (Z.leb_le _ 0)) by lia. }
  unfold fmtV, signed, shortest, ratio. rewrite Ho. cbn [mant ex]. rewrite Z.leb_refl, Z.abs_eq, Z.mul_1_r, Z.mod_1_r, Z.div_1_r by lia.
  rewrite (proj2 (Z.leb_le z (2 ^ 53))) by lia. cbn [Z.eqb andb].
  destruct (stripZeros_spec 20 z 0 ltac:(lia)) as (i & Hk & Hp & Hd). destruct (stripZeros 20 z 0) as [d k]. cbn [fst snd] in *.
  rewrite (proj2 (Z.ltb_ge z 0)), (proj2 (Z.eqb_neq d 0)) by lia.
  assert (Hs : decNat z = (decNat d +:+ Repeat "0" i)%string) by (rewrite Hd at 1; by apply decNat_pow).
  assert (Hlen : slen (decNat d) + k <= 6).
  { pose proof (decAcc_length (S (Z.to_nat (Z.log2 z))) z "" 6 ltac:(lia)) as H6.
    assert (Hz' : decNat z = decAcc (S (Z.to_nat (Z.log2 z))) z "") by (unfold decNat; by rewrite (proj2 (Z.eqb_neq z 0))).
    rewrite <- Hz', Hs, length_appString, length_Repeat in H6. unfold slen. cbn [String.length] in H6. lia. }
  assert (Hpos : 0 <= slen (decNat d)) by (unfold slen; lia).
  rewrite (proj2 (Z.ltb_ge _ (-4))), (proj2 (Z.leb_gt 6 _)) by lia. cbn [negb orb andb String.append].
  unfold plainForm, fmtD. rewrite (proj2 (Z.leb_le 0 k)), (proj2 (Z.eqb_neq d 0)), (proj2 (Z.ltb_ge z 0)) by lia.
  rewrite Hs. unfold padZeros. by replace (Z.to_nat k) with i by lia.
Qed.

(** What is printed for a few float64s: 0.1, 2^-30, the least and the greatest. *)
Example fmtV_examples :
  map fmtV [ofInt 0; ofInt 1000000; Float 3602879701896397 (-55); Float 1 (-30); Float 1 (-1074); Float 9007199254740991 971] =
    ["0"; "1e+06"; "0.1"; "9.313225746154785e-10"; "5e-324"; "1.7976931348623157e+308"]%string /\
  map formatF1 [Float 1 (-2); Float 3 (-2); Float 6305039478318694 (-54)] = ["0.2"; "0.8"; "0.3"]%string /\
  map jsonFloat [Float 1 (-30); Float 1 100] = ["9.313225746154785e-10"; "1.2676506002282294e+30"]%string.
Proof. by vm_compute. Qed.
