(* ===== verification/Json.v ===== *)
(** The values a report holds and their JSON: [any] values by their dynamic type, the
    trees [encoding/json] writes and reads, and the text of a tree. *)

From Stdlib Require Import ZArith List String Ascii Strings.Byte Lia Bool.
From stdpp Require Import base list strings numbers.
From S2P Require Import Prelude Bytes GoStrings Result Float.
Open Scope Z_scope.

(** An [any] by its dynamic type.  [VStrings] is [[]string] and [VAny] is [[]any];
    [VSlice], [VStruct], [VMap] and [VNilPtr] carry the name of any other slice,
    struct or pointer to one, map with string keys, and nil pointer.  [None] is the
    nil slice.  The fields of a struct are the exported ones under their JSON names,
    without those that [omitempty] leaves out. *)
#[warnings="-register-all"]
Inductive value :=
| VNil
| VBool (b : bool)
| VInt (z : Z)
| VFloat (f : float64)
| VString (s : string)
| VStrings (l : option (list string))
| VAny (l : list value)
| VSlice (ty : string) (l : option (list value))
| VStruct (ty : string) (fields : list (string * value))
| VMap (ty : string) (entries : list (string * value))
| VNilPtr (ty : string).

#[warnings="-register-all"]
Inductive json :=
| JNull
| JBool (b : bool)
| JInt (z : Z)
| JFloat (f : float64)
| JString (s : string)
| JArray (l : list json)
| JObject (l : list (string * json)).

Fixpoint insertKey {A} (x : string * A) (l : list (string * A)) : list (string * A) :=
  match l with
  | [] => [x]
  | y :: l' => if strLt y.1 x.1 then y :: insertKey x l' else x :: l
  end.

(** Maps are written in the order of their keys. *)
Definition sortKeys {A} (l : list (string * A)) : list (string * A) := foldr insertKey [] l.

(** [json.Marshal], as a tree *)
Fixpoint encode (v : value) : json :=
  match v with
  | VNil | VNilPtr _ | VStrings None | VSlice _ None => JNull
  | VBool b => JBool b
  | VInt z => JInt z
  | VFloat f => JFloat f
  | VString s => JString s
  | VStrings (Some l) => JArray (map JString l)
  | VAny l => JArray (map encode l)
  | VSlice _ (Some l) => JArray (map encode l)
  | VStruct _ fields => JObject (map (fun '(k, v) => (k, encode v)) fields)
  | VMap _ entries => JObject (sortKeys (map (fun '(k, v) => (k, encode v)) entries))
  end.

Definition anyMap : string := "map[string]interface {}".

(** Bytes that are no UTF-8 become U+FFFD on the way through JSON. *)
Definition validUTF8 (s : string) : string := String.concat "" (runes s).

(** [json.Unmarshal] into an [any] *)
Fixpoint decode (j : json) : value :=
  match j with
  | JNull => VNil
  | JBool b => VBool b
  | JInt z => VFloat (ofInt z)
  | JFloat f => VFloat f
  | JString s => VString (validUTF8 s)
  | JArray l => VAny (map decode l)
  | JObject l => VMap anyMap (map (fun '(k, j) => (validUTF8 k, decode j)) l)
  end.

(** The fields with [omitempty], which a zero value leaves out *)
Definition optString (k s : string) : list (string * value) := when (negb (String.eqb s "")) (k, VString s).
Definition optStrings (k : string) (l : list string) : list (string * value) := when (negb (blen l =? 0)) (k, VStrings (Some l)).
Definition optInt (k : string) (n : Z) : list (string * value) := when (negb (n =? 0)) (k, VInt n).
Definition optBool (k : string) (b : bool) : list (string * value) := when b (k, VBool true).

(** A slice that is nil when it was never appended to, and one that was made *)
Definition appended {A} (ty : string) (f : A -> value) (l : list A) : value :=
  VSlice ty (if blen l =? 0 then None else Some (map f l)).
Definition made {A} (ty : string) (f : A -> value) (l : list A) : value := VSlice ty (Some (map f l)).

(** ** Text *)

Definition bs : string := toString [x5c].
Definition dquote : string := toString [x22].

(** One rune inside a JSON string: [json.Marshal] escapes HTML. *)
Definition escapeRune (r : string) : string :=
  match r with
  | String c "" =>
      let x := code c in
      if ((x =? 0x22) || (x =? 0x5c))%Z then bs +:+ r
      else if (x =? 8)%Z then bs +:+ "b" else if (x =? 12)%Z then bs +:+ "f"
      else if (x =? 10)%Z then bs +:+ "n" else if (x =? 13)%Z then bs +:+ "r" else if (x =? 9)%Z then bs +:+ "t"
      else if ((x <? 0x20) || (x =? 0x3c) || (x =? 0x3e) || (x =? 0x26))%Z then
        bs +:+ "u00" +:+ String (hexChar (x / 16)) (String (hexChar (x mod 16)) "")
      else r
  | _ =>
      if String.eqb r (toString [xe2; x80; xa8]) then bs +:+ "u2028"
      else if String.eqb r (toString [xe2; x80; xa9]) then bs +:+ "u2029" else r
  end%string.

Fixpoint escapeFuel (fuel : nat) (s : string) : string :=
  match fuel, s with
  | O, _ | _, EmptyString => ""%string
  | S fuel, _ =>
      match runeWidth s with
      | O => (bs +:+ "ufffd" +:+ escapeFuel fuel (dropString 1 s))%string
      | w => (escapeRune (takeString w s) +:+ escapeFuel fuel (dropString w s))%string
      end
  end.

Definition jsonString (s : string) : string := (dquote +:+ escapeFuel (String.length s) s +:+ dquote)%string.

Fixpoint jsonText (j : json) : string :=
  match j with
  | JNull => "null"
  | JBool b => if b then "true" else "false"
  | JInt z => fmtD z
  | JFloat f => jsonFloat f
  | JString s => jsonString s
  | JArray l => "[" +:+ Join (map jsonText l) "," +:+ "]"
  | JObject l => "{" +:+ Join (map (fun '(k, j) => jsonString k +:+ ":" +:+ jsonText j) l) "," +:+ "}"
  end%string.

(** [json.Marshal]: none of these values fails to marshal. *)
Definition marshal (v : value) : string := jsonText (encode v).

(** A value that was written to a file and read back *)
Definition reload (v : value) : value := decode (encode v).
