(* ===== verification/Clock.v ===== *)
(** Instants of the [time] package: comparison, differences and the layouts in which the
    program prints them, all in UTC; and durations in nanoseconds, as result.go shows
    them. *)

From Stdlib Require Import ZArith List String Ascii Lia Bool.
From stdpp Require Import base list strings.
From S2P Require Import Prelude Bytes GoStrings Float.
Open Scope Z_scope.

(** A [time.Time]: seconds and nanoseconds of Unix time. *)
Record goTime := { tSec : Z; tNsec : Z }.
(** [time.Time{}]: the first of January of the year 1 *)
Definition zeroTime : goTime := {| tSec := -62135596800; tNsec := 0 |}.

(** The Gregorian date of a day counted from the first of January 1970: eras of 400
    years that begin in March. *)
Definition civil (day : Z) : Z * Z * Z :=
  let z := day + 719468 in
  let era := z / 146097 in
  let doe := z - era * 146097 in
  let yoe := (doe - doe / 1460 + doe / 36524 - doe / 146096) / 365 in
  let doy := doe - (365 * yoe + yoe / 4 - yoe / 100) in
  let mp := (5 * doy + 2) / 153 in
  let d := doy - (153 * mp + 2) / 5 + 1 in
  let m := if mp <? 10 then mp + 3 else mp - 9 in
  (yoe + era * 400 + (if m <=? 2 then 1 else 0), m, d).

(** A number with at least [n] digits *)
Definition zeros (n : nat) (v : Z) : string := let s := decNat v in (Repeat "0" (n - String.length s) +:+ s)%string.

(** [t.UTC().Format(time.RFC3339)] *)
Definition formatRFC3339 (t : goTime) : string :=
  let '(y, m, d) := civil (tSec t / 86400) in
  let s := tSec t mod 86400 in
  (zeros 4 y +:+ "-" +:+ zeros 2 m +:+ "-" +:+ zeros 2 d +:+ "T" +:+ zeros 2 (s / 3600) +:+ ":" +:+ zeros 2 (s / 60 mod 60)
   +:+ ":" +:+ zeros 2 (s mod 60) +:+ "Z")%string.

(** [time.Since(t)] at the time [now]: without the saturation of a duration, which
    [untilAt] has. *)
Definition since (now t : goTime) : Z := (tSec now - tSec t) * 1000000000 + (tNsec now - tNsec t).

(** [time.Until(t)]: nanoseconds from [now] to [t]; a duration saturates. *)
Definition untilAt (now t : goTime) : Z := Z.max (- 2 ^ 63) (Z.min (2 ^ 63 - 1) (- since now t)).

Definition monthNames : list string := ["Jan"; "Feb"; "Mar"; "Apr"; "May"; "Jun"; "Jul"; "Aug"; "Sep"; "Oct"; "Nov"; "Dec"]%string.

(** [t.Format(layout) for the layout 2 Jan 2006] *)
Definition formatDay (t : goTime) : string :=
  let '(y, m, d) := civil (tSec t / 86400) in
  (fmtD d +:+ " " +:+ nth (Z.to_nat (m - 1)) monthNames "" +:+ " " +:+ zeros 4 y)%string.

Example formatDay_ex : formatDay {| tSec := 1800000000; tNsec := 0 |} = "15 Jan 2027"%string.
Proof. reflexivity. Qed.

(** ** Durations *)

(** The float64 nearest to [n / d], for [0 <= n] and [0 < d]: as many bits of the quotient
    as fit *)
Definition fromRatio (n d : Z) : float64 :=
  if n =? 0 then Float 0 0
  else
    let e := Z.log2 n - Z.log2 d in
    let below := if 0 <=? e then n <? d * 2 ^ e else n * 2 ^ (- e) <? d in
    let k := 52 - (if below then e - 1 else e) in
    Float (if 0 <=? k then divRound (n * 2 ^ k) d else divRound n (d * 2 ^ (- k))) (- k).

(** [d.Seconds()] *)
Definition seconds (d : Z) : float64 := fadd (ofInt (d / 10 ^ 9)) (fromRatio (d mod 10 ^ 9) (10 ^ 9)).

Definition dur (d : Z) : string :=
  if d <? 10 ^ 6 then (fmtD (d / 1000) +:+ toString [Byte.xc2; Byte.xb5] +:+ "s")%string
  else if d <? 10 ^ 9 then (fmtD (d / 10 ^ 6) +:+ "ms")%string
  else (formatF1 (seconds d) +:+ "s")%string.

(** [float64(d.Microseconds()) / 1000.0] *)
Definition ms (d : Z) : float64 := fromRatio (d / 1000) 1000.

Example dur_ex : map dur [12345; 42000000; 1260000000; 61950000000] = ["12µs"; "42ms"; "1.3s"; "62.0s"]%string.
Proof. vm_compute. reflexivity. Qed.
Example ms_ex : map (fun d => fmtV (ms d)) [1234567; 42000000; 0; 999] = ["1.234"; "42"; "0"; "0"]%string.
Proof. vm_compute. reflexivity. Qed.
