(* ===== verification/Detail.v ===== *)
(** The details of checks: structs as JSON values, and the map of a check as a list of
    parts, each of which may set the keys that are its own. *)

From Stdlib Require Import ZArith List String Lia Bool.
From stdpp Require Import base list strings gmap.
From S2P Require Import Prelude Bytes GoStrings Result Float Json.
Import ListNotations.
Open Scope Z_scope.

(** A field that is always written. *)
Definition str (k s : string) : list (string * value) := [(k, VString s)].
Definition int (k : string) (n : Z) : list (string * value) := [(k, VInt n)].
Definition boolean (k : string) (b : bool) : list (string * value) := [(k, VBool b)].
Definition struct (ty : string) (fields : list (list (string * value))) : value := VStruct ty (concat fields).

(** ** The keys of a detail *)

Definition keyed (part : list (string * value)) (keys : list string) : Prop := sublist (map fst part) keys.

Lemma keyed_concat P K : Forall2 keyed P K -> sublist (map fst (concat P)) (concat K).
Proof. induction 1; [done|]. cbn [concat]. rewrite map_app. by apply sublist_app. Qed.

Lemma sublist_In {A : Type} (x : A) l k : sublist l k -> x ∈ l -> x ∈ k.
Proof. intros Hs Hx. by eapply elem_of_submseteq, sublist_submseteq. Qed.

(** What stands under a key is what the part of the key says. *)
Lemma keyed_part P K i keys part k x : Forall2 keyed P K -> NoDup (concat K) -> K !! i = Some keys -> k ∈ keys -> P !! i = Some part ->
  In (k, x) (concat P) -> In (k, x) part.
Proof.
  intros HPK. revert i. induction HPK as [|p ks P K Hp HPK IH]; intros i Hnd HK Hk HP Hin; [done|]. cbn [concat] in *.
  apply NoDup_app in Hnd as (_ & Hdis & Hnd). apply in_app_or in Hin. destruct i as [|i]; cbn in HK, HP.
  - injection HK as ->. injection HP as ->. destruct Hin as [|Hin]; [done|]. destruct (Hdis k Hk).
    eapply sublist_In; [by apply keyed_concat|]. apply list_elem_of_In. by apply (in_map fst) in Hin.
  - destruct Hin as [Hin|Hin]; [|by eapply IH]. exfalso. apply (Hdis k).
    + eapply sublist_In; [exact Hp|]. apply list_elem_of_In. by apply (in_map fst) in Hin.
    + apply list_elem_of_In, in_concat. exists keys. split; [|by apply list_elem_of_In]. apply list_elem_of_In. by eapply list_elem_of_lookup_2.
Qed.

Lemma keyed_one k x : keyed [(k, x)] [k].
Proof. by unfold keyed. Qed.
Lemma keyed_two k x k' x' : keyed [(k, x); (k', x')] [k; k'].
Proof. by unfold keyed. Qed.
Lemma keyed_none ks : keyed [] ks.
Proof. apply sublist_nil_l. Qed.
Lemma keyed_when (b : bool) k x : keyed (when b (k, x)) [k].
Proof. destruct b; [apply keyed_one|apply keyed_none]. Qed.

Ltac keyed_tac :=
  lazymatch goal with
  | |- keyed [_] _ => apply keyed_one
  | |- keyed [_; _] _ => apply keyed_two
  | |- keyed [] _ => apply keyed_none
  | |- keyed (when _ _) _ => apply keyed_when
  | |- keyed (match ?x with _ => _ end) _ => destruct x; keyed_tac
  end.

Ltac keyed_all := repeat first [apply Forall2_nil_2 | apply Forall2_cons_2; [unfold str, int, boolean, optString, optStrings; keyed_tac|]].

(** Every part may set its keys, which no other part has: the map has under a key what
    the part of the key says. *)
Lemma parts_lookup P K i keys part k x : Forall2 keyed P K -> NoDup (concat K) -> K !! i = Some keys -> k ∈ keys -> P !! i = Some part ->
  (list_to_map (concat P) : gmap string value) !! k = Some x <-> In (k, x) part.
Proof.
  intros HPK Hnd HK Hk HP. rewrite <- elem_of_list_to_map, list_elem_of_In.
  - split; [by eapply keyed_part|]. intros Hin. apply in_concat. exists part. split; [|done]. apply list_elem_of_In. by eapply list_elem_of_lookup_2.
  - eapply sublist_NoDup; [exact Hnd|]. by apply keyed_concat.
Qed.

Lemma part_value P K i k part x : Forall2 keyed P K -> NoDup (concat K) -> K !! i = Some [k] -> P !! i = Some part -> part = [(k, x)] ->
  (list_to_map (concat P) : gmap string value) !! k = Some x.
Proof. intros HPK Hnd HK HP ->. eapply parts_lookup; [done..| |done|by left]. by left. Qed.
