(* ===== verification/Profile.v ===== *)
(** The filters of [profile.go]: [--check] and [--profile] as sets of the checks
    that may run. *)

From Stdlib Require Import ZArith List String Ascii Lia Bool.
From stdpp Require Import base list strings gmap.
From S2P Require Import Prelude Bytes GoStrings.
Open Scope Z_scope.

Definition canonicalNames : list string :=
  ["dns"; "domain"; "delegation"; "tcp"; "latency"; "path"; "tls"; "http"; "security"; "discovery"; "mail";
   "reputation"; "ipv6"; "ports"]%string.
(** the map [canonicalCheckNames], as the set of its keys *)
Definition canonicalCheckNames : gset string := list_to_set canonicalNames.

Definition profilePresets : list (string * list string) :=
  [("fast", ["dns"; "tcp"; "tls"; "http"]);
   ("web", ["dns"; "tcp"; "latency"; "tls"; "http"; "security"; "discovery"; "ipv6"]);
   ("mail", ["dns"; "domain"; "tcp"; "tls"; "mail"; "reputation"; "ipv6"]);
   ("full", ["dns"; "domain"; "delegation"; "tcp"; "latency"; "path"; "tls"; "http"; "security"; "discovery"; "mail";
             "reputation"; "ipv6"]);
   ("paranoid", ["dns"; "domain"; "delegation"; "tcp"; "latency"; "path"; "tls"; "http"; "security"; "discovery"; "mail";
                 "reputation"; "ipv6"; "ports"])]%string.

Record checkFilter := { allow : gset string }.

(** The receivers are pointers: [None] is nil. *)
Definition allowsAll (f : option checkFilter) : bool :=
  match f with None => true | Some f => (size (allow f) =? 0)%nat end.

Definition permits (f : option checkFilter) (name : string) : bool :=
  if allowsAll f then true
  else match f with None => false | Some f => bool_decide (ToLower name ∈ allow f) end.

(** The checks that need the addresses of the target *)
Definition dependents : list string :=
  ["tcp"; "latency"; "path"; "tls"; "http"; "security"; "discovery"; "mail"; "reputation"; "ipv6"; "ports"]%string.

Definition addDNSDependencyIfNeeded (allow : gset string) : gset string :=
  if bool_decide ("dns"%string ∈ allow) then allow
  else if existsb (fun dep => bool_decide (dep ∈ allow)) dependents then {["dns"%string]} ∪ allow
  else allow.

Section Filters.
(** [fmt]'s [%q] *)
Context (quote : string -> string).

Definition unknownName (t : string) : string :=
  ("--check: unknown name " +:+ quote t +:+ " (valid: dns, domain, delegation, tcp, latency, path, tls, http, security, discovery, mail, reputation, ipv6, ports)")%string.

Definition tokenTurn (tok : string) (allow : gset string) : outcome (step (gset string) Empty_set) :=
  let t := ToLower (TrimSpace tok) in
  if String.eqb t "" then Ret (Next allow)
  else if negb (bool_decide (t ∈ canonicalCheckNames)) then Err (unknownName t)
  else Ret (Next ({[t]} ∪ allow)).

Definition parseCheckFilter (spec : string) : outcome checkFilter :=
  let spec := TrimSpace spec in
  if String.eqb spec "" then Ret {| allow := ∅ |} else
  r <~ forRange tokenTurn (Split spec ",") ∅ ;;
  match r with
  | inl allow => Ret {| allow := addDNSDependencyIfNeeded allow |}
  | inr e => match e with end
  end.

(** [available] is the order in which the keys of [profilePresets] are visited. *)
Definition parseProfile (available : list string) (name : string) : outcome checkFilter :=
  let name := ToLower (TrimSpace name) in
  match find (fun p => String.eqb p.1 name) profilePresets with
  | None => Err ("--profile: unknown preset " +:+ quote name +:+ " (valid: " +:+ Join available ", " +:+ ")")
  | Some (_, preset) => Ret {| allow := addDNSDependencyIfNeeded (list_to_set preset) |}
  end.
End Filters.

(** ** What a filter lets through *)

Section Facts.
Context (quote : string -> string).

(** The names a specification asks for *)
Definition tokens (spec : string) : list string :=
  filter (fun t => t <> ""%string) (map (fun tok => ToLower (TrimSpace tok)) (Split spec ",")).

Definition known (t : string) : bool := existsb (String.eqb t) canonicalNames.

Lemma bool_decide_canonical t : bool_decide (t ∈ canonicalCheckNames) = known t.
Proof.
  unfold canonicalCheckNames, known. apply eq_true_iff_eq. rewrite bool_decide_eq_true, elem_of_list_to_set, existsb_exists.
  rewrite list_elem_of_In. split; [intros ?; exists t; by rewrite String.eqb_refl|intros (x & Hx & ->%String.eqb_eq); done].
Qed.

Lemma forRange_tokens l allow :
  forRange (tokenTurn quote) l allow =
  let ts := filter (fun t => t <> ""%string) (map (fun tok => ToLower (TrimSpace tok)) l) in
  match find (fun t => negb (known t)) ts with
  | Some t => Err (unknownName quote t)
  | None => Ret (inl (list_to_set ts ∪ allow))
  end.
Proof.
  revert allow. induction l as [|tok l IH]; intros allow; cbn [forRange map].
  { cbn. by rewrite union_empty_l_L. }
  unfold tokenTurn at 1. cbv zeta. set (t := ToLower (TrimSpace tok)). rewrite filter_cons.
  destruct (String.eqb_spec t "") as [He|He].
  { rewrite decide_False by (intros Hn; by apply Hn). cbn [bind]. apply IH. }
  rewrite decide_True by done. rewrite bool_decide_canonical. cbn [find].
  destruct (known t) eqn:Hk; cbn [negb bind]; [|done]. rewrite IH. cbv zeta.
  destruct (find _ _) as [u|]; [done|]. do 2 f_equal. by rewrite list_to_set_cons, !(assoc_L (∪)), (comm_L (∪) (list_to_set _) {[t]}).
Qed.

Definition needsDNS (t : string) : bool := negb (String.eqb t "domain" || String.eqb t "delegation").

Lemma known_needs t : known t = true ->
  (existsb (String.eqb t) dependents || String.eqb t "dns")%string = needsDNS t.
Proof.
  unfold known. rewrite existsb_exists. intros (x & Hx & ->%String.eqb_eq).
  repeat (destruct Hx as [<-|Hx]; [by vm_compute|]). done.
Qed.

Lemma elem_addDNS ts n : forallb known ts = true ->
  n ∈ addDNSDependencyIfNeeded (list_to_set ts) <-> n ∈ ts \/ (n = "dns"%string /\ existsb needsDNS ts = true).
Proof.
  intros Hk. rewrite forallb_forall in Hk. unfold addDNSDependencyIfNeeded.
  assert (Hdep : existsb needsDNS ts = true <->
    "dns"%string ∈ (list_to_set ts : gset string) \/ existsb (fun dep => bool_decide (dep ∈ (list_to_set ts : gset string))) dependents = true).
  { rewrite !existsb_exists, elem_of_list_to_set, list_elem_of_In. split.
    - intros (t & Ht & Hn). rewrite <- (known_needs t (Hk t Ht)) in Hn. apply orb_true_iff in Hn as [Hn|Hn%String.eqb_eq]; [|subst t; by left].
      right. apply existsb_exists in Hn as (d & Hd & ->%String.eqb_eq). exists d. split; [done|].
      by apply bool_decide_eq_true, elem_of_list_to_set, list_elem_of_In.
    - intros [Ht|(d & Hd & Ht)].
      + exists "dns"%string. by split.
      + apply bool_decide_eq_true, elem_of_list_to_set, list_elem_of_In in Ht. exists d. split; [done|].
        rewrite <- (known_needs d (Hk d Ht)). apply orb_true_iff. left. apply existsb_exists. exists d. by rewrite String.eqb_refl. }
  rewrite Hdep. clear Hdep Hk. case_bool_decide as Hd.
  - rewrite elem_of_list_to_set. split; [by left|]. intros [?|[-> _]]; [done|]. by apply elem_of_list_to_set in Hd.
  - destruct (existsb _ dependents) eqn:He.
    + rewrite elem_of_union, elem_of_singleton, elem_of_list_to_set.
      split; [intros [->|?]; [right; split; [done|by right]|by left]|intros [?|[-> _]]; [by right|by left]].
    + rewrite elem_of_list_to_set. split; [by left|]. by intros [?|[_ [?|?]]].
Qed.

Lemma size_addDNS ts : forallb known ts = true ->
  size (addDNSDependencyIfNeeded (list_to_set ts)) = 0%nat <-> ts = [].
Proof.
  intros Hk. split; [|by intros ->; vm_compute]. intros Hs%size_empty_inv. destruct ts as [|t ts]; [done|].
  exfalso. apply (not_elem_of_empty (C := gset string) t), Hs, elem_addDNS; [done|]. left. apply list_elem_of_here.
Qed.

Lemma permits_addDNS ts name : forallb known ts = true ->
  permits (Some {| allow := addDNSDependencyIfNeeded (list_to_set ts) |}) name =
    (length ts =? 0)%nat || existsb (String.eqb (ToLower name)) ts
    || (String.eqb (ToLower name) "dns" && existsb needsDNS ts).
Proof.
  intros Hk. unfold permits, allowsAll. cbn [allow]. pose proof (size_addDNS ts Hk) as Hs.
  destruct ts as [|t ts]; [by rewrite (proj2 Hs eq_refl)|].
  destruct (size _ =? 0)%nat eqn:Hz; [apply Nat.eqb_eq, Hs in Hz; discriminate|]. clear Hs Hz.
  change (length (t :: ts) =? 0)%nat with false. cbn [orb]. apply eq_true_iff_eq.
  rewrite bool_decide_eq_true, elem_addDNS by done.
  rewrite orb_true_iff, andb_true_iff, String.eqb_eq, !existsb_exists, list_elem_of_In.
  split; intros [Hx|Hx]; [left|by right|left|by right].
  - eexists. split; [exact Hx|apply String.eqb_refl].
  - by destruct Hx as (x & Hx & ->%String.eqb_eq).
Qed.

Lemma parseCheckFilter_tokens spec :
  parseCheckFilter quote spec =
  match find (fun t => negb (known t)) (tokens (TrimSpace spec)) with
  | Some t => Err (unknownName quote t)
  | None => Ret {| allow := addDNSDependencyIfNeeded (list_to_set (tokens (TrimSpace spec))) |}
  end.
Proof.
  unfold parseCheckFilter. cbv zeta. destruct (String.eqb_spec (TrimSpace spec) "") as [->|_]; [by vm_compute|].
  rewrite forRange_tokens. cbv zeta. fold (tokens (TrimSpace spec)).
  destruct (find _ _) as [t|]; [done|]. cbn [bind]. by rewrite union_empty_r_L.
Qed.

(** [parseCheckFilter] fails on the first unknown name of the specification and
    otherwise gives the filter that permits exactly the checks it names (in any
    case and with spaces around them), and DNS as soon as it names a check other
    than domain and delegation.  A specification that names nothing, such as a
    comma, permits every check. *)
Theorem parseCheckFilter_spec spec :
  match find (fun t => negb (known t)) (tokens (TrimSpace spec)) with
  | Some t => parseCheckFilter quote spec = Err (unknownName quote t)
  | None => exists f, parseCheckFilter quote spec = Ret f /\ forall name,
      permits (Some f) name =
        (length (tokens (TrimSpace spec)) =? 0)%nat || existsb (String.eqb (ToLower name)) (tokens (TrimSpace spec))
        || (String.eqb (ToLower name) "dns" && existsb needsDNS (tokens (TrimSpace spec)))
  end.
Proof.
  rewrite parseCheckFilter_tokens. destruct (find _ _) as [t|] eqn:Hf; [done|]. eexists. split; [done|].
  intros name. apply permits_addDNS, forallb_forall. intros t Ht. pose proof (find_none _ _ Hf t Ht) as Hn. by apply negb_false_iff in Hn.
Qed.

Lemma parseProfile_found available p preset : (p, preset) ∈ profilePresets ->
  parseProfile quote available p = Ret {| allow := addDNSDependencyIfNeeded (list_to_set preset) |} /\
  forallb known preset = true /\ existsb (String.eqb "dns") preset = true /\ tokens (TrimSpace (Join preset ",")) = preset.
Proof.
  rewrite list_elem_of_In. intros Hin. unfold parseProfile.
  repeat (destruct Hin as [[= <- <-]|Hin]; [split; [reflexivity|split; [by vm_compute|split; by vm_compute]]|]). done.
Qed.

(** A preset is the same filter as the list of its checks given to [--check] and
    permits these checks and no others; what fast permits web permits, what web or
    mail permit full permits, what full permits paranoid permits; and a name that is
    no preset is an error that lists the presets in the order their map is visited. *)
Theorem parseProfile_presets available :
  (forall p preset, (p, preset) ∈ profilePresets -> exists f,
     parseProfile quote available p = Ret f /\ parseCheckFilter quote (Join preset ",") = Ret f /\
     forall name, permits (Some f) name = existsb (String.eqb (ToLower name)) preset) /\
  (forall a b, (a, b) ∈ [("fast", "web"); ("web", "full"); ("mail", "full"); ("full", "paranoid")]%string ->
     exists fa fb, parseProfile quote available a = Ret fa /\ parseProfile quote available b = Ret fb /\
     forall name, permits (Some fa) name = true -> permits (Some fb) name = true) /\
  forall name, ToLower (TrimSpace name) ∉ profilePresets.*1 ->
    parseProfile quote available name =
      Err ("--profile: unknown preset " +:+ quote (ToLower (TrimSpace name)) +:+ " (valid: " +:+ Join available ", " +:+ ")").
Proof.
  assert (Hp : forall p preset, (p, preset) ∈ profilePresets -> forall name,
    permits (Some {| allow := addDNSDependencyIfNeeded (list_to_set preset) |}) name = existsb (String.eqb (ToLower name)) preset).
  { intros p preset Hin name. destruct (parseProfile_found available p preset Hin) as (_ & Hk & Hd & _).
    rewrite permits_addDNS by done. destruct preset as [|t ts]; [done|]. change (length (t :: ts) =? 0)%nat with false. cbn [orb].
    destruct (String.eqb_spec (ToLower name) "dns") as [->|_]; [by rewrite Hd|]. by rewrite orb_false_r. }
  split; [|split].
  - intros p preset Hin. destruct (parseProfile_found available p preset Hin) as (Hf & Hk & _ & Ht).
    eexists. split; [exact Hf|]. split; [|by apply (Hp p)]. rewrite parseCheckFilter_tokens, Ht.
    destruct (find _ preset) as [t|] eqn:Hn; [|done]. apply find_some in Hn as [Ht' Hn].
    rewrite forallb_forall in Hk. by rewrite (Hk t Ht') in Hn.
  - intros a b Hab. assert (exists la lb, (a, la) ∈ profilePresets /\ (b, lb) ∈ profilePresets /\
      forallb (fun t => existsb (String.eqb t) lb) la = true) as (la & lb & Ha & Hb & Hs).
    { rewrite list_elem_of_In in Hab. setoid_rewrite list_elem_of_In. cbn in Hab. unfold profilePresets.
      repeat (destruct Hab as [[= <- <-]|Hab]; [eexists _, _; split; [cbn; tauto|split; [cbn; tauto|by vm_compute]]|]). done. }
    destruct (parseProfile_found available a la Ha) as (Hfa & _). destruct (parseProfile_found available b lb Hb) as (Hfb & _).
    eexists _, _. split; [exact Hfa|]. split; [exact Hfb|]. intros name. rewrite (Hp a), (Hp b) by done.
    rewrite existsb_exists. intros (x & Hx & ->%String.eqb_eq). rewrite forallb_forall in Hs. by apply Hs.
  - intros name Hn. unfold parseProfile. cbv zeta. destruct (find _ profilePresets) as [[q l]|] eqn:Hf; [|done].
    exfalso. apply find_some in Hf as [Hin Hq%String.eqb_eq]. apply Hn. rewrite <- Hq. apply list_elem_of_fmap. exists (q, l). split; [done|].
    by apply list_elem_of_In.
Qed.
End Facts.
