(* ===== verification/Report.v ===== *)
(** The report: [Check] and [Report] of [result.go], the verdict of [verdict.go], the
    pipeline [runAllChecks] of [main.go] over the filters of [profile.go], and the
    state [--watch] starts a tick with ([watch.go]). *)

From Stdlib Require Import ZArith List String Ascii Strings.Byte Lia Bool.
From stdpp Require Import base list strings gmap.
From S2P Require Import Prelude Bytes GoStrings Result Float Json Profile.
Open Scope Z_scope.

Definition StatusOK : string := "ok".
Definition StatusWarn : string := "warn".
Definition StatusFail : string := "fail".
Definition StatusSkip : string := "skip".

(** [Detail] is a map; [None] is the nil map. *)
Record Check := {
  Name : string; Status : string; Summary : string; Hint : string; Millis : float64;
  Detail : option (gmap string value)
}.

(** The fields of a trace that reports are made from *)
Record TraceResult := {
  DNSPhase : float64; TCPPhase : float64; TLSPhase : float64; ServerPhase : float64; TotalPhase : float64;
  HTTPStatus : Z; HTTPProto : string; HTTPRedirects : Z; HTTPServer : string; ThroughputKBps : float64
}.

Record Report := {
  Target : string; Host : string; Port : Z; Scheme : string; Healthy : bool; Checks : list Check;
  Trace : option TraceResult; Problems : list string; FixFirst : string; Elapsed : string
}.

(** [diagnosis]: the options of a run, the trace, and what the stages share ([shared]:
    resolved addresses and the like). *)
Record diagnosis (X : Type) := {
  host : string; port : Z; scheme : string; filter : option checkFilter; portsToScan : list Z;
  ecsSubnets : list string; starttlsProto : string; cipherPattern : string; dnssecTree : bool; eachCipher : bool;
  trace : option TraceResult; shared : X
}.
Arguments host {X} _. Arguments port {X} _. Arguments scheme {X} _. Arguments filter {X} _.
Arguments portsToScan {X} _. Arguments trace {X} _. Arguments shared {X} _. Arguments ecsSubnets {X} _.
Arguments starttlsProto {X} _. Arguments cipherPattern {X} _. Arguments dnssecTree {X} _. Arguments eachCipher {X} _.

Definition dash : string := (" " +:+ toString [xe2; x80; x94] +:+ " ")%string.

(** ** The verdict *)

Definition isFail (c : Check) : bool := String.eqb (Status c) StatusFail.
Definition isWarn (c : Check) : bool := String.eqb (Status c) StatusWarn.

(** The two loops for [FixFirst]: the first check of a kind *)
Definition firstFix (p : Check -> bool) (checks : list Check) : string :=
  match find p checks with Some c => (Name c +:+ ": " +:+ Summary c)%string | None => ""%string end.

Definition buildReport {X} (d : diagnosis X) (checks : list Check) (trace : option TraceResult) (elapsed : string) : Report :=
  let problems := flat_map (fun c => if isFail c || isWarn c then [(Name c +:+ dash +:+ Summary c)%string] else []) checks in
  let fix1 := firstFix isFail checks in
  let fix2 := if String.eqb fix1 "" then firstFix isWarn checks else fix1 in
  {| Target := (scheme d +:+ "://" +:+ host d)%string; Host := host d; Port := port d; Scheme := scheme d;
     Healthy := (blen problems =? 0); Checks := checks; Trace := trace; Problems := problems; FixFirst := fix2;
     Elapsed := elapsed |}.

(** ** The pipeline *)

Section Pipeline.
Context {X : Type}.

Definition setShared (d : diagnosis X) (x : X) : diagnosis X :=
  {| host := host d; port := port d; scheme := scheme d; filter := filter d; portsToScan := portsToScan d;
     ecsSubnets := ecsSubnets d; starttlsProto := starttlsProto d; cipherPattern := cipherPattern d;
     dnssecTree := dnssecTree d; eachCipher := eachCipher d; trace := trace d; shared := x |}.
Definition setTrace (d : diagnosis X) (t : TraceResult) : diagnosis X :=
  {| host := host d; port := port d; scheme := scheme d; filter := filter d; portsToScan := portsToScan d;
     ecsSubnets := ecsSubnets d; starttlsProto := starttlsProto d; cipherPattern := cipherPattern d;
     dnssecTree := dnssecTree d; eachCipher := eachCipher d; trace := Some t; shared := shared d |}.

(** A stage reads the diagnosis, gives its check and updates what is shared. *)
Definition stage := diagnosis X -> Check * X.

Record stages := {
  checkDNS : stage; checkDomain : stage; checkDelegation : stage; checkTCP : stage; checkLatency : stage;
  checkPath : stage; runTrace : diagnosis X -> TraceResult; checkTLS : stage; checkHTTP : stage;
  checkSecurityHeaders : stage; checkDiscovery : stage; checkMail : stage; checkReputation : stage;
  checkIPv6 : stage; checkPorts : stage
}.

(** [add(runStage(name, fn))] on the diagnosis and the checks so far *)
Definition runStage (name : string) (fn : stage) (st : diagnosis X * list Check) : diagnosis X * list Check :=
  let '(d, checks) := st in
  if negb (permits (filter d) name) then (d, checks)
  else let '(c, x) := fn d in (setShared d x, checks ++ [c]).

Definition wantsTrace (f : option checkFilter) : bool :=
  permits f "HTTP" || permits f "Security" || permits f "Discovery" || permits f "TLS".

Definition traceStage (s : stages) (st : diagnosis X * list Check) : diagnosis X * list Check :=
  let '(d, checks) := st in
  if wantsTrace (filter d) then (setTrace d (runTrace s d), checks) else (d, checks).

(** [--ports] must ask for the Ports check as well. *)
Definition portsStage (s : stages) (st : diagnosis X * list Check) : diagnosis X * list Check :=
  if 0 <? blen (portsToScan (st.1)) then runStage "Ports" (checkPorts s) st else st.

Definition before (s : stages) : list (string * stage) :=
  [("DNS", checkDNS s); ("Domain", checkDomain s); ("Delegation", checkDelegation s); ("TCP", checkTCP s);
   ("Latency", checkLatency s); ("Path", checkPath s)]%string.
Definition after (s : stages) : list (string * stage) :=
  [("TLS", checkTLS s); ("HTTP", checkHTTP s); ("Security", checkSecurityHeaders s); ("Discovery", checkDiscovery s);
   ("Mail", checkMail s); ("Reputation", checkReputation s); ("IPv6", checkIPv6 s)]%string.

Definition runStages (l : list (string * stage)) (st : diagnosis X * list Check) : diagnosis X * list Check :=
  foldl (fun st p => runStage p.1 p.2 st) st l.

Definition runAllChecks (s : stages) (elapsed : string) (d : diagnosis X) : Report :=
  let st := runStages (before s) (d, []) in
  let st := traceStage s st in
  let st := runStages (after s) st in
  let '(d, checks) := portsStage s st in
  buildReport d checks (trace d) elapsed.

(** The diagnosis of one tick of [runWatch]; [fresh] is the shared state before a run. *)
Definition freshD (fresh : X) (d : diagnosis X) : diagnosis X :=
  {| host := host d; port := port d; scheme := scheme d; filter := None; portsToScan := portsToScan d;
     ecsSubnets := []; starttlsProto := ""; cipherPattern := ""; dnssecTree := false; eachCipher := false;
     trace := None; shared := fresh |}.
End Pipeline.
Arguments stages : clear implicits.

(** ** What the verdict says *)

Lemma find_none_forallb {A} (p : A -> bool) l : find p l = None <-> existsb p l = false.
Proof. induction l as [|x l IH]; [done|]. cbn. by destruct (p x). Qed.

Lemma firstFix_some p checks : firstFix p checks = ""%string <-> existsb p checks = false.
Proof.
  unfold firstFix. rewrite <- find_none_forallb. destruct (find p checks) as [c|]; [|done].
  split; [|done]. intros Hn%(f_equal String.length). rewrite !length_appString in Hn. cbn in Hn. lia.
Qed.

Lemma flat_map_filter {A B} (p : A -> bool) (g : A -> B) l :
  flat_map (fun x => if p x then [g x] else []) l = map g (List.filter p l).
Proof. induction l as [|x l IH]; [done|]. cbn. destruct (p x); cbn; by rewrite IH. Qed.

Lemma existsb_filter {A B} (p : A -> bool) (g : A -> B) l : (blen (map g (List.filter p l)) =? 0) = negb (existsb p l).
Proof. induction l as [|x l IH]; [done|]. cbn. by destruct (p x). Qed.

(** The report is healthy exactly when no check failed or warned; [Problems] lists
    these checks in order; [FixFirst] names the first failed check, or the first
    warning when nothing failed, and is empty exactly for a healthy report. *)
Theorem buildReport_verdict {X} (d : diagnosis X) checks t elapsed :
  let r := buildReport d checks t elapsed in
  Healthy r = negb (existsb (fun c => isFail c || isWarn c) checks) /\
  Problems r = map (fun c => Name c +:+ dash +:+ Summary c)%string (List.filter (fun c => isFail c || isWarn c) checks) /\
  FixFirst r = match find isFail checks with
               | Some c => (Name c +:+ ": " +:+ Summary c)%string
               | None => match find isWarn checks with Some c => (Name c +:+ ": " +:+ Summary c)%string | None => ""%string end
               end /\
  (FixFirst r = ""%string <-> Healthy r = true).
Proof.
  unfold buildReport. cbv zeta. cbn [Healthy Problems FixFirst].
  assert (Hf : (if String.eqb (firstFix isFail checks) "" then firstFix isWarn checks else firstFix isFail checks) =
    match find isFail checks with
    | Some c => (Name c +:+ ": " +:+ Summary c)%string
    | None => match find isWarn checks with Some c => (Name c +:+ ": " +:+ Summary c)%string | None => ""%string end
    end).
  { pose proof (firstFix_some isFail checks) as Hs. destruct (String.eqb_spec (firstFix isFail checks) "") as [He|Hne].
    - rewrite (proj2 (find_none_forallb _ _) (proj1 Hs He)). done.
    - unfold firstFix in *. destruct (find isFail checks); [done|]. by destruct Hne. }
  rewrite flat_map_filter, existsb_filter. split; [done|]. split; [done|]. split; [exact Hf|]. rewrite negb_true_iff.
  assert (Ho : existsb (fun c => isFail c || isWarn c) checks = existsb isFail checks || existsb isWarn checks).
  { clear. induction checks as [|c checks IH]; [done|]. cbn. rewrite IH. by destruct (isFail c), (isWarn c), (existsb isFail checks). }
  rewrite Ho, orb_false_iff, <- !firstFix_some.
  destruct (String.eqb_spec (firstFix isFail checks) "") as [->|Hne]; [by split; [|intros []]|]. by split; [|intros []].
Qed.

(** ** Which checks a run makes *)

Section Runs.
Context {X : Type} (s : stages X).

(** Every stage sets the name of its check. *)
Definition named : Prop :=
  Forall (fun p => forall d, Name (p.2 d).1 = p.1) (before s ++ after s ++ [("Ports"%string, checkPorts s)]).

Lemma runStages_names (l : list (string * stage)) (st : diagnosis X * list Check) : Forall (fun p => forall d, Name (p.2 d).1 = p.1) l ->
  let st' := runStages l st in
  filter st'.1 = filter st.1 /\ portsToScan st'.1 = portsToScan st.1 /\ trace st'.1 = trace st.1 /\
  map Name st'.2 = map Name st.2 ++ List.filter (permits (filter st.1)) (map fst l).
Proof.
  intros Hl. revert st. induction Hl as [|[n fn] l Hn Hl IH]; intros [d checks].
  { cbn. by rewrite app_nil_r. }
  change (runStages ((n, fn) :: l) (d, checks)) with (runStages l (runStage n fn (d, checks))).
  specialize (IH (runStage n fn (d, checks))). cbv zeta in IH |- *.
  destruct IH as (Hf & Hp & Ht & Hc). rewrite Hf, Hp, Ht, Hc. clear Hf Hp Ht Hc.
  unfold runStage. cbn [fst snd map List.filter]. specialize (Hn d). cbn [fst snd] in Hn.
  destruct (permits (filter d) n) eqn:E; cbn [negb]; [|done].
  destruct (fn d) as [c x] eqn:Ed. cbn [fst snd setShared filter portsToScan trace] in *.
  repeat (split; [done|]). rewrite map_app, <- app_assoc. cbn. by rewrite Hn.
Qed.

Definition canonicalOrder : list string :=
  ["DNS"; "Domain"; "Delegation"; "TCP"; "Latency"; "Path"; "TLS"; "HTTP"; "Security"; "Discovery"; "Mail"; "Reputation"; "IPv6"]%string.

Definition checksOf (f : option checkFilter) (ports : list Z) : list string :=
  List.filter (permits f) (canonicalOrder ++ if 0 <? blen ports then ["Ports"%string] else []).

Lemma runAllChecks_names elapsed d : named ->
  map Name (Checks (runAllChecks s elapsed d)) = checksOf (filter d) (portsToScan d).
Proof.
  intros Hn. unfold named in Hn. rewrite !Forall_app in Hn. destruct Hn as (Hb & Ha & Hp).
  unfold runAllChecks. pose proof (runStages_names (before s) (d, []) Hb) as H1.
  destruct (runStages (before s) (d, [])) as [d1 c1]. cbn [fst snd map app] in H1. destruct H1 as (Hf1 & Hp1 & _ & Hc1).
  assert (Ht : exists d2, traceStage s (d1, c1) = (d2, c1) /\ filter d2 = filter d /\ portsToScan d2 = portsToScan d).
  { unfold traceStage. destruct (wantsTrace (filter d1)); eexists; repeat (split; [done|]); done. }
  destruct Ht as (d2 & -> & Hf2 & Hp2).
  pose proof (runStages_names (after s) (d2, c1) Ha) as H2.
  destruct (runStages (after s) (d2, c1)) as [d3 c3]. cbn [fst snd] in H2. destruct H2 as (Hf3 & Hp3 & _ & Hc3).
  pose proof (runStages_names [("Ports"%string, checkPorts s)] (d3, c3) Hp) as H4. cbn [runStages foldl fst snd] in H4.
  unfold portsStage. cbn [fst]. rewrite Hp3, Hp2. unfold checksOf. rewrite List.filter_app.
  assert (H12 : map Name c3 = List.filter (permits (filter d)) canonicalOrder).
  { rewrite Hc3, Hc1, Hf2. by rewrite <- List.filter_app. }
  destruct (0 <? blen (portsToScan d)).
  - destruct (runStage _ _ _) as [d4 c4]. cbn [fst snd] in H4. destruct H4 as (_ & _ & _ & Hc4).
    cbn [buildReport Checks]. rewrite Hc4, H12, Hf3, Hf2. done.
  - cbn [buildReport Checks]. by rewrite H12, app_nil_r.
Qed.

(** C20. A run makes exactly the checks its filter permits, once each and in the order
    of the pipeline, with Ports at the end when ports are given.  So [--check tls]
    runs DNS and TLS and nothing else, whatever the stages find. *)
Theorem runAllChecks_permitted elapsed d (Hs : named) :
  map Name (Checks (runAllChecks s elapsed d)) =
    List.filter (permits (filter d)) (canonicalOrder ++ if 0 <? blen (portsToScan d) then ["Ports"%string] else []) /\
  NoDup (map Name (Checks (runAllChecks s elapsed d))) /\
  forall quote f, parseCheckFilter quote "tls" = Ret f -> filter d = Some f ->
    map Name (Checks (runAllChecks s elapsed d)) = ["DNS"; "TLS"]%string.
Proof.
  rewrite runAllChecks_names by done. split; [done|]. split.
  - unfold checksOf. apply NoDup_ListNoDup, List.NoDup_filter, NoDup_ListNoDup. destruct (0 <? _); apply (bool_decide_eq_true (NoDup _)); by vm_compute.
  - intros quote f Hf ->. assert (Hf' : f = {| allow := addDNSDependencyIfNeeded (list_to_set ["tls"%string]) |}).
    { change (parseCheckFilter quote "tls") with (Ret {| allow := addDNSDependencyIfNeeded (list_to_set ["tls"%string]) |} : outcome checkFilter) in Hf. by injection Hf. }
    subst f. unfold checksOf. destruct (0 <? _); by vm_compute.
Qed.

(** [--watch] forgets the filter: each tick builds a fresh diagnosis without it (and
    without the STARTTLS protocol and the other options), so every tick of
    [--watch --check tls] makes all the checks. *)
Theorem watch_ignores_filter fresh elapsed d (Hs : named) :
  map Name (Checks (runAllChecks s elapsed (freshD fresh d))) =
    canonicalOrder ++ (if 0 <? blen (portsToScan d) then ["Ports"%string] else []).
Proof.
  rewrite runAllChecks_names by done. cbn [freshD filter portsToScan]. unfold checksOf. by destruct (0 <? _).
Qed.
End Runs.

Module ReportWitnesses.
Definition good (n : string) : stage (X := unit) := fun _ =>
  ({| Name := n; Status := StatusOK; Summary := ""; Hint := ""; Millis := Float 0 0; Detail := None |}, tt).
Definition noTrace : TraceResult :=
  {| DNSPhase := Float 0 0; TCPPhase := Float 0 0; TLSPhase := Float 0 0; ServerPhase := Float 0 0; TotalPhase := Float 0 0;
     HTTPStatus := 200; HTTPProto := "HTTP/2.0"; HTTPRedirects := 0; HTTPServer := ""; ThroughputKBps := Float 0 0 |}.
Definition allGood : stages unit :=
  {| checkDNS := good "DNS"; checkDomain := good "Domain"; checkDelegation := good "Delegation"; checkTCP := good "TCP";
     checkLatency := good "Latency"; checkPath := good "Path"; runTrace := fun _ => noTrace; checkTLS := good "TLS";
     checkHTTP := good "HTTP"; checkSecurityHeaders := good "Security"; checkDiscovery := good "Discovery";
     checkMail := good "Mail"; checkReputation := good "Reputation"; checkIPv6 := good "IPv6"; checkPorts := good "Ports" |}.
Definition target (f : option checkFilter) : diagnosis unit :=
  {| host := "example.org"; port := 443; scheme := "https"; filter := f; portsToScan := []; ecsSubnets := [];
     starttlsProto := ""; cipherPattern := ""; dnssecTree := false; eachCipher := false; trace := None; shared := tt |}.
Definition tlsOnly : option checkFilter := Some {| allow := list_to_set ["dns"; "tls"]%string |}.

Lemma allGood_named : named allGood.
Proof. repeat constructor. Qed.

Lemma runAllChecks_permitted_witness :
  map Name (Checks (runAllChecks allGood "1.0s" (target tlsOnly))) = ["DNS"; "TLS"]%string.
Proof. destruct (runAllChecks_permitted allGood "1.0s" (target tlsOnly) allGood_named) as [-> _]. by vm_compute. Defined.

Lemma watch_ignores_filter_witness :
  map Name (Checks (runAllChecks allGood "1.0s" (freshD tt (target tlsOnly)))) = canonicalOrder.
Proof. rewrite (watch_ignores_filter allGood tt "1.0s" (target tlsOnly) allGood_named). by vm_compute. Defined.
End ReportWitnesses.
