(* ===== verification/Service.v ===== *)
(** What the service probes share: [serviceInfo] of [services.go], a connection
    as the probes of [service_*.go] use it, and the 64-bit [int]. *)

From Stdlib Require Import ZArith List String Ascii Strings.Byte Lia Bool.
From stdpp Require Import base list strings numbers gmap.
From S2P Require Import Prelude Bytes GoStrings Stream.
Open Scope Z_scope.

(** The result of a probe.  [Extra] is a Go map, [None] while it is nil. *)
Record serviceInfo := {
  Product : string;
  Version : string;
  Banner : string;
  Extra : option (gmap string string)
}.

(** [serviceInfo{Product: p}] *)
Definition productInfo (p : string) : serviceInfo :=
  {| Product := p; Version := ""; Banner := ""; Extra := None |}.

(** [extra[k]]: the empty string for an absent key *)
Definition get (extra : gmap string string) (k : string) : string := default ""%string (extra !! k).

(** [extra[k] = v] for each pair in turn, in a new map *)
Definition assigns (l : list (string * string)) : gmap string string := foldl (fun m kv => <[kv.1 := kv.2]> m) ∅ l.

Lemma assigns_lookup l k v : List.NoDup (map fst l) -> assigns l !! k = Some v <-> In (k, v) l.
Proof.
  unfold assigns. induction l as [|[k' v'] l IH] using rev_ind; intros Hd; [cbn; by rewrite lookup_empty|].
  rewrite foldl_app, in_app_iff. cbn [foldl fst snd]. rewrite map_app in Hd. cbn [map fst] in Hd.
  apply NoDup_remove in Hd as [Hd Hk]. rewrite app_nil_r in *. destruct (decide (k' = k)) as [->|Hne].
  - rewrite lookup_insert_eq. split; [intros [= ->]; right; by left|]. intros [Hin|[[= ->]|[]]]; [|done].
    destruct Hk. apply in_map_iff. by exists (k, v).
  - rewrite lookup_insert_ne, IH by done. split; [by left|]. intros [Hin|[[= ? ?]|[]]]; done.
Qed.

(** A connection one can write to: [conn.Write(b)] gives the connection with
    what the peer will answer, or [None] on an error. *)
Class Peer (C : Type) `{Reader C} := { send : bytes -> C -> option C }.

(** [int(z)], 64 bits: two's complement *)
Definition i64 (z : Z) : Z := (z + 9223372036854775808) mod 18446744073709551616 - 9223372036854775808.

Lemma i64_small z : -9223372036854775808 <= z < 9223372036854775808 -> i64 z = z.
Proof. intros Hz. unfold i64. rewrite Z.mod_small; lia. Qed.

(** The number a big-endian byte string stands for. *)
Definition beVal (bs : bytes) : Z := fold_left (fun v b => v * 256 + bval b) bs 0.

Lemma beVal_acc bs : forall v, 0 <= v -> fold_left (fun v b => v * 256 + bval b) bs v
  = v * 256 ^ blen bs + beVal bs.
Proof.
  unfold beVal. induction bs as [|b bs IH] using rev_ind; intros v Hv.
  - rewrite blen_nil, Z.pow_0_r. cbn. lia.
  - rewrite !fold_left_app, IH by done. cbn [fold_left].
    replace (blen (bs ++ [b])) with (blen bs + 1) by (autorewrite with blen; lia).
    rewrite Z.pow_add_r by (pose proof (blen_nonneg bs); lia). lia.
Qed.

Lemma beVal_cons b bs : beVal (b :: bs) = bval b * 256 ^ blen bs + beVal bs.
Proof.
  pose proof (bval_range b). unfold beVal at 1. cbn [fold_left]. rewrite beVal_acc by lia.
  by rewrite Z.add_0_l.
Qed.

Lemma beVal_range bs : 0 <= beVal bs < 256 ^ blen bs.
Proof.
  induction bs as [|b bs IH]; [by cbn|]. rewrite beVal_cons, blen_cons, Z.pow_add_r
    by (pose proof (blen_nonneg bs); lia). pose proof (bval_range b). nia.
Qed.

(** [v = (v << 8) | int(b)]: exact while [v] has fewer than 56 bits. *)
Definition shiftIn (v : Z) (b : byte) : Z := Z.lor (i64 (Z.shiftl v 8)) (bval b).

Lemma shiftIn_exact v b : 0 <= v < 2 ^ 55 -> shiftIn v b = v * 256 + bval b.
Proof.
  intros Hv. pose proof (bval_range b). unfold shiftIn.
  rewrite i64_small by (rewrite Z.shiftl_mul_pow2 by lia; lia).
  by rewrite lor_shiftl_add by lia.
Qed.

Lemma shiftIn_beVal bs v :
  0 <= v -> v * 256 ^ blen bs + beVal bs < 2 ^ 55 -> fold_left shiftIn bs v = v * 256 ^ blen bs + beVal bs.
Proof.
  revert v. induction bs as [|b bs IH]; intros v Hv Hb.
  - rewrite blen_nil, Z.pow_0_r. cbn. lia.
  - rewrite beVal_cons, blen_cons, Z.pow_add_r in * by (pose proof (blen_nonneg bs); lia).
    pose proof (bval_range b). pose proof (beVal_range bs). cbn [fold_left].
    assert (0 < 256 ^ blen bs) by (apply Z.pow_pos_nonneg; [lia|apply blen_nonneg]).
    assert (v * 256 + bval b <= v * (256 ^ 1 * 256 ^ blen bs) + (bval b * 256 ^ blen bs)) by nia.
    assert (v < 2 ^ 55) by nia.
    rewrite shiftIn_exact by lia. rewrite IH by nia. nia.
Qed.
