(* ===== verification/Ssh.v ===== *)
(** The SSH probe of [service_ssh.go]: the identification line, the name lists of the
    server's KEXINIT, and the fingerprints of its host key.  The key exchange itself is
    golang.org/x/crypto/ssh, an argument. *)

From Stdlib Require Import ZArith List String Ascii Strings.Byte Lia Bool.
From stdpp Require Import base list strings gmap.
From S2P Require Import Prelude Bytes GoStrings Text Base64 Digest Stream Wire Bufio Service.
Open Scope Z_scope.

(** ** The identification line *)

Definition isCRLF (c : ascii) : bool := (code c =? 13) || (code c =? 10).

Definition parseSSHBanner (banner : string) : string * string :=
  let rest := TrimPrefix banner "SSH-2.0-" in
  if String.eqb rest banner then ("", "")%string
  else
    let rest := fst (fst (Cut rest " ")) in
    let '(prod, ver, found) := Cut rest "_" in
    if negb found then ("", "")%string
    else
      match prod, ver with
      | String p _, String v _ =>
          if (code p <? 65) || (122 <? code p) then ("", "")%string
          else if (code v <? 48) || (57 <? code v) then ("", "")%string
          else (prod, ver)
      | _, _ => ("", "")%string
      end.

(** ** Packets and name lists *)

Record sshKexInfo := {
  KexAlgorithms : list string; HostKeyAlgorithms : list string;
  CiphersClientToServer : list string; CiphersServerToClient : list string;
  MACsClientToServer : list string; MACsServerToClient : list string;
  CompressionClientToServer : list string; CompressionServerToClient : list string }.

Definition splitCSV (s : string) : list string :=
  if String.eqb s "" then [] else List.filter (fun p => negb (String.eqb p "")) (map TrimSpace (Split s ",")).

(** The loop over the ten name lists: [None] is one of its errors. *)
Fixpoint nameLists (n : nat) (p : bytes) : outcome (option (list (list string))) :=
  match n with
  | O => Ret (Some [])
  | S n =>
      if blen p <? 4 then Ret None
      else
        h <~ slice p 0 4 ;;
        l <~ BE_Uint32 h ;;
        p <~ sliceFrom p 4 ;;
        if blen p <? l then Ret None
        else
          b <~ slice p 0 l ;;
          p <~ sliceFrom p l ;;
          lists <~ nameLists n p ;;
          Ret (match lists with Some ls => Some (splitCSV (toString b) :: ls) | None => None end)
  end.

Definition parseSSHKexInit (payload : bytes) : outcome (option sshKexInfo) :=
  if blen payload <? 16 then Ret None
  else
    p <~ sliceFrom payload 16 ;;
    ls <~ nameLists 10 p ;;
    match ls with
    | None => Ret None
    | Some lists =>
        l0 <~ index lists 0 ;; l1 <~ index lists 1 ;; l2 <~ index lists 2 ;; l3 <~ index lists 3 ;;
        l4 <~ index lists 4 ;; l5 <~ index lists 5 ;; l6 <~ index lists 6 ;; l7 <~ index lists 7 ;;
        Ret (Some {| KexAlgorithms := l0; HostKeyAlgorithms := l1; CiphersClientToServer := l2; CiphersServerToClient := l3;
                     MACsClientToServer := l4; MACsServerToClient := l5; CompressionClientToServer := l6; CompressionServerToClient := l7 |})
    end.

Definition kexAlgos : string := "curve25519-sha256,curve25519-sha256@libssh.org,ecdh-sha2-nistp256,ecdh-sha2-nistp384,ecdh-sha2-nistp521,diffie-hellman-group-exchange-sha256,diffie-hellman-group14-sha256".
Definition hostKeyAlgs : string := "ssh-ed25519,ecdsa-sha2-nistp256,ecdsa-sha2-nistp384,ecdsa-sha2-nistp521,rsa-sha2-512,rsa-sha2-256,ssh-rsa,ssh-dss".
Definition ciphers : string := "chacha20-poly1305@openssh.com,aes128-gcm@openssh.com,aes256-gcm@openssh.com,aes128-ctr,aes192-ctr,aes256-ctr".
Definition macs : string := "hmac-sha2-256-etm@openssh.com,hmac-sha2-512-etm@openssh.com,hmac-sha2-256,hmac-sha2-512".
Definition offered : list string := [kexAlgos; hostKeyAlgs; ciphers; ciphers; macs; macs; "none"; "none"; ""; ""]%string.

(** A string behind its length. *)
Definition sshString (s : string) : bytes := putBE32 (slen s) ++ ofString s.

(** The 17 characters of the marker do not fit: [copy] takes 16. *)
Definition buildSSHKexInit : bytes :=
  let cookie := take 16 (ofString "netdoc-prober-rev") in
  let payload := [x14] ++ cookie ++ flat_map sshString offered ++ [x00] ++ [x00; x00; x00; x00] in
  let pad := 8 - (4 + 1 + blen payload) mod 8 in
  let pad := if pad <? 4 then pad + 8 else pad in
  let totalLen := 1 + blen payload + pad in
  putBE32 totalLen ++ [byteOf pad] ++ payload ++ repeat x00 (Z.to_nat pad).

(** ** Fingerprints *)

Definition colonHex (b : bytes) : string := Join (map hexByte b) ":".

Record sshHostKeyInfo := { Type_ : string; SHA256 : string; MD5 : string }.

(** [ssh.Dial] up to the callback: the type and the blob of the key, if one was shown *)
Definition captureSSHHostKey (sshDial : string -> option (string * bytes)) (addr : string) : option sshHostKeyInfo :=
  match sshDial addr with
  | None => None
  | Some (type, blob) =>
      Some {| Type_ := type; SHA256 := trimRightFunc (fun c => Ascii.eqb c "=") (base64Encode false (sha256 blob)); MD5 := colonHex (md5 blob) |}
  end.

(** ** The conversation *)

Section Probe.
Context {C : Type} `{Wire C}.

(** [None] is one of its errors. *)
Definition readSSHPacket (br : bufReader) (conn : C) : outcome (option bytes) :=
  r <~ bufFull 5 br conn ;;
  match r with
  | inr _ => Ret None
  | inl (hdr, br, conn) =>
      h <~ slice hdr 0 4 ;;
      pktLen <~ BE_Uint32 h ;;
      p <~ index hdr 4 ;;
      let padLen := bval p in
      if (pktLen <? 1) || (262144 <? pktLen) then Ret None
      else
        r <~ bufFull (pktLen - 1) br conn ;;
        match r with
        | inr _ => Ret None
        | inl (rest, _, _) =>
            if blen rest <? padLen then Ret None
            else payload <~ slice rest 0 (blen rest - padLen) ;; Ret (Some payload)
        end
  end.

Definition identification : bytes := ofString "SSH-2.0-netdoc_probe" ++ [x0d; x0a].

Definition exchangeSSHIdentAndKEX (conn : C) : outcome (string * option sshKexInfo) :=
  unpack (line, err, br, conn) <~ readString newReader conn ;;
  match err with
  | Some _ => Ret (""%string, None)
  | None =>
      let banner := trimRightFunc isCRLF line in
      if negb (HasPrefix banner "SSH-") then Ret (""%string, None)
      else
        match write identification conn with
        | inr _ => Ret (banner, None)
        | inl conn =>
            match write buildSSHKexInit conn with
            | inr _ => Ret (banner, None)
            | inl conn =>
                pkt <~ readSSHPacket br conn ;;
                match pkt with
                | None => Ret (banner, None)
                | Some pkt =>
                    if blen pkt <? 1 then Ret (banner, None)
                    else
                      t <~ index pkt 0 ;;
                      if negb (beq t x14) then Ret (banner, None)
                      else payload <~ sliceFrom pkt 1 ;; kex <~ parseSSHKexInit payload ;; Ret (banner, kex)
                end
            end
        end
  end.

(** [if v := ...; v != "" { info.Extra[k] = v }] *)
Definition setIf (k v : string) (m : gmap string string) : gmap string string := if String.eqb v "" then m else <[k := v]> m.

Definition kexExtra (kex : sshKexInfo) (m : gmap string string) : gmap string string :=
  let m := setIf "kex_algorithms" (Join (KexAlgorithms kex) ",") m in
  let m := setIf "host_key_algorithms" (Join (HostKeyAlgorithms kex) ",") m in
  let m := setIf "ciphers_s2c" (Join (CiphersServerToClient kex) ",") m in
  let m := setIf "macs_s2c" (Join (MACsServerToClient kex) ",") m in
  let v := Join (CompressionServerToClient kex) "," in
  if negb (String.eqb v "") && negb (String.eqb v "none") then <["compression_s2c"%string := v]> m else m.

Definition probeSSH (dialProbe : string -> option C) (sshDial : string -> option (string * bytes)) (addr : string) : outcome serviceInfo :=
  match dialProbe addr with
  | None => Ret (productInfo "")
  | Some conn =>
      unpack (banner, kexInfo) <~ exchangeSSHIdentAndKEX conn ;;
      if String.eqb banner "" then Ret (productInfo "")
      else
        let '(product, version) := parseSSHBanner banner in
        let extra := {["banner"%string := banner]} in
        let extra := match kexInfo with Some kex => kexExtra kex extra | None => extra end in
        let extra := match captureSSHHostKey sshDial addr with
                     | Some hk => <["host_key_md5" := "MD5:" +:+ MD5 hk]> (<["host_key_sha256" := "SHA256:" +:+ SHA256 hk]>
                                    (<["host_key_type" := Type_ hk]> extra))%string
                     | None => extra
                     end in
        Ret {| Product := if String.eqb product "" then "SSH" else product; Version := version; Banner := banner; Extra := Some extra |}
  end.
End Probe.

Example own_kexinit : blen buildSSHKexInit mod 8 = 0 /\ 4 <= bval (nth 4 buildSSHKexInit x00).
Proof. vm_compute. split; [done|discriminate]. Qed.
Example banner_ex : parseSSHBanner "SSH-2.0-OpenSSH_9.6p1 Ubuntu-3ubuntu13" = ("OpenSSH", "9.6p1")%string.
Proof. reflexivity. Qed.
Example banner_ex2 : parseSSHBanner "SSH-2.0-8ad108e" = ("", "")%string.
Proof. reflexivity. Qed.

(** ** Reading back what a server writes *)

Definition nameOk (s : string) : Prop :=
  s <> ""%string /\ lacks "," s = true /\ noSpace s = true.

Definition nameList (names : list string) : bytes := sshString (Join names ",").

Lemma splitCSV_Join names : Forall nameOk names -> splitCSV (Join names ",") = names.
Proof.
  intros Hn. unfold splitCSV. destruct names as [|n names]; [done|].
  assert (Hne : Join (n :: names) "," <> ""%string).
  { apply Forall_cons_1 in Hn as [(Hn & _) _]. unfold Join. destruct names; cbn; [done|]. by destruct n. }
  rewrite (proj2 (String.eqb_neq _ _) Hne), Split_Join; [|done|].
  2:{ apply forallb_forall. intros x Hx. rewrite Forall_forall in Hn. apply Hn. by apply list_elem_of_In. }
  clear Hne. induction Hn as [|x l (Hx & _ & Hs) Hl IH]; [done|]. cbn [map List.filter].
  rewrite TrimSpace_noSpace by done. rewrite (proj2 (String.eqb_neq _ _) Hx). cbn [negb]. by rewrite IH.
Qed.

Lemma blen_sshString s : blen (sshString s) = 4 + slen s.
Proof. unfold sshString. rewrite blen_app, blen_ofString. by change (blen (putBE32 (slen s))) with 4. Qed.

Lemma nameLists_enc lists rest : Forall (Forall nameOk) lists -> Forall (fun l => slen (Join l ",") < 4294967296) lists ->
  nameLists (length lists) (flat_map nameList lists ++ rest) = Ret (Some lists).
Proof.
  induction lists as [|l lists IH]; intros Hok Hlen; [done|].
  apply Forall_cons_1 in Hok as [Hl Hok], Hlen as [Hll Hlen]. cbn [length nameLists flat_map].
  pose proof (slen_nonneg (Join l ",")). set (tail := flat_map nameList lists ++ rest) in *.
  assert (E : (nameList l ++ flat_map nameList lists) ++ rest = putBE32 (slen (Join l ",")) ++ ofString (Join l ",") ++ tail)
    by (unfold nameList, sshString, tail; by rewrite <- !app_assoc).
  rewrite E, (proj2 (Z.ltb_ge _ _)) by (rewrite blen_app; change (blen (putBE32 _)) with 4;
    pose proof (blen_nonneg (ofString (Join l ",") ++ tail)); lia).
  rewrite (slice_prefix (putBE32 _)) by done. cbn [bind].
  rewrite <- (app_nil_r (putBE32 (slen _))) at 1. rewrite BE_Uint32_put by lia. cbn [bind].
  rewrite sliceFrom_app by done. cbn [bind].
  rewrite (proj2 (Z.ltb_ge _ _)) by (rewrite blen_app, blen_ofString; pose proof (blen_nonneg tail); lia).
  rewrite (slice_prefix (ofString _) tail) by (by rewrite blen_ofString). cbn [bind].
  rewrite sliceFrom_app by (by rewrite blen_ofString). cbn [bind].
  rewrite (IH Hok Hlen). cbn [bind]. by rewrite toString_ofString, splitCSV_Join.
Qed.

Definition kexOf (lists : list (list string)) : sshKexInfo :=
  let l i := nth i lists [] in
  {| KexAlgorithms := l 0%nat; HostKeyAlgorithms := l 1%nat; CiphersClientToServer := l 2%nat; CiphersServerToClient := l 3%nat;
     MACsClientToServer := l 4%nat; MACsServerToClient := l 5%nat; CompressionClientToServer := l 6%nat; CompressionServerToClient := l 7%nat |}.

Lemma parseSSHKexInit_enc cookie lists rest : blen cookie = 16 -> length lists = 10%nat ->
  Forall (Forall nameOk) lists -> Forall (fun l => slen (Join l ",") < 4294967296) lists ->
  parseSSHKexInit (cookie ++ flat_map nameList lists ++ rest) = Ret (Some (kexOf lists)).
Proof.
  intros Hc H10 Hok Hlen. unfold parseSSHKexInit. rewrite blen_app, Hc, (proj2 (Z.ltb_ge _ _))
    by (pose proof (blen_nonneg (flat_map nameList lists ++ rest)); lia).
  rewrite sliceFrom_app by done. cbn [bind]. rewrite <- H10 at 1. rewrite nameLists_enc by done. cbn [bind].
  do 10 (destruct lists as [|? lists]; [done|]). destruct lists; done.
Qed.

(** No packet makes the parser panic. *)
Lemma wp_nameLists n : forall p (Q : option (list (list string)) -> Prop) E,
  (forall ls, length ls = n -> Q (Some ls)) -> Q None -> wp (nameLists n p) Q E.
Proof.
  induction n as [|n IH]; intros p Q E Hs Hf; cbn [nameLists]; [by apply wp_ret, Hs|]. destruct (blen p <? 4) eqn:E4; [by apply wp_ret|]. to_prop.
  wp_step. apply wp_slice; [blia..|]. intros Hh. wp_step. apply wp_BE_Uint32; [blia|]. intros l Hl.
  wp_step. apply wp_sliceFrom; [blia|]. intros Hp. destruct (_ <? l) eqn:El; [by apply wp_ret|]. to_prop.
  wp_step. apply wp_slice; [blia..|]. intros Hb. wp_step. apply wp_sliceFrom; [blia|]. intros Hp2.
  wp_step. apply IH; intros; apply wp_ret; [apply Hs; cbn; congruence|done].
Qed.

Lemma wp_parseSSHKexInit payload (Q : option sshKexInfo -> Prop) E : (forall r, Q r) -> wp (parseSSHKexInit payload) Q E.
Proof.
  intros HQ. unfold parseSSHKexInit. destruct (blen payload <? 16) eqn:E16; [by apply wp_ret|]. to_prop.
  wp_step. apply wp_sliceFrom; [blia|]. intros _. wp_step. apply wp_nameLists; [|by apply wp_ret].
  intros ls Hls. assert (Hl : blen ls = 10) by (unfold blen; by rewrite Hls).
  do 8 (wp_step; apply wp_index; [lia|]; intros ? _). by apply wp_ret.
Qed.

(** A packet of the unencrypted transport *)
Definition sshPacket (payload padding : bytes) : bytes :=
  putBE32 (1 + blen payload + blen padding) ++ [byteOf (blen padding)] ++ payload ++ padding.

Section Conversation.
Context {C : Type} `{Wire C}.

Lemma readSSHPacket_enc br (c : C) payload padding rest : rerr br = None -> ahead br c = sshPacket payload padding ++ rest ->
  blen padding < 256 -> 1 + blen payload + blen padding <= 262144 -> readSSHPacket br c = Ret (Some payload).
Proof.
  intros Hrd Ha Hp Hlen. pose proof (blen_nonneg payload). pose proof (blen_nonneg padding). unfold readSSHPacket.
  set (hdr := putBE32 (1 + blen payload + blen padding) ++ [byteOf (blen padding)]).
  assert (Hh : blen hdr = 5) by done.
  destruct (bufFull_ok 5 br c hdr (payload ++ padding ++ rest) Hrd) as (br1 & c1 & -> & Ha1 & Hrd1 & _); [|done|].
  { rewrite Ha. unfold sshPacket, hdr. by rewrite <- !app_assoc. }
  cbn [bind]. unfold hdr. rewrite slice_prefix by done. cbn [bind].
  rewrite <- (app_nil_r (putBE32 _)) at 1. rewrite BE_Uint32_put by lia. cbn [bind].
  rewrite index_app_r by done. change (4 - blen (putBE32 _)) with 0. change (index [byteOf (blen padding)] 0) with (Ret (byteOf (blen padding))).
  cbn [bind]. rewrite bval_byteOf, Z.mod_small by lia.
  rewrite (proj2 (Z.ltb_ge (1 + blen payload + blen padding) 1)), (proj2 (Z.ltb_ge 262144 _)) by lia. cbn [orb].
  destruct (bufFull_ok (1 + blen payload + blen padding - 1) br1 c1 (payload ++ padding) rest Hrd1) as (br2 & c2 & -> & _);
    [by rewrite <- app_assoc|rewrite blen_app; lia|].
  cbn [bind]. rewrite blen_app, (proj2 (Z.ltb_ge _ _)) by lia. rewrite slice_prefix by lia. done.
Qed.

(** The server takes what is written and sends nothing on its account. *)
Fixpoint takes (n : nat) (c : C) : Prop :=
  match n with
  | O => True
  | S n => forall b c', reads c c' -> exists c2, write b c' = inl c2 /\ incoming c2 = incoming c' /\ takes n c2
  end.

Lemma trimCRLF ident : trimRightFunc isCRLF ident = ident ->
  trimRightFunc isCRLF (ident +:+ toString [x0d; x0a]) = ident.
Proof.
  intros Ht. unfold trimRightFunc in *. rewrite revString_app. change (revString (toString [x0d; x0a])) with (toString [x0a; x0d]).
  change ((toString [x0a; x0d] +:+ revString ident)%string) with (String "010" (String "013" (revString ident))).
  cbn [trimLeftFunc]. by change (isCRLF "010") with true; change (isCRLF "013") with true.
Qed.

(** A server that sends its identification and its KEXINIT *)
Record greets (c : C) (ident : string) (lists : list (list string)) : Prop := {
  g_prefix : HasPrefix ident "SSH-" = true;
  g_line : noNewline (ofString ident) = true;
  g_trim : trimRightFunc isCRLF ident = ident;
  g_lists : length lists = 10%nat;
  g_names : Forall (Forall nameOk) lists;
  g_sent : exists cookie trailer padding rest,
    let payload := [x14] ++ cookie ++ flat_map nameList lists ++ trailer in
    blen cookie = 16 /\ blen padding < 256 /\ 1 + blen payload + blen padding <= 262144 /\
    incoming c = ofString ident ++ [x0d; x0a] ++ sshPacket payload padding ++ rest;
  g_takes : takes 2 c }.

Lemma blen_nameLists lists l : In l lists -> slen (Join l ",") <= blen (flat_map nameList lists).
Proof.
  induction lists as [|x lists IH]; [done|]. cbn [flat_map]. intros [->|Hin]; rewrite blen_app.
  - unfold nameList at 1. rewrite blen_sshString. pose proof (blen_nonneg (flat_map nameList lists)). lia.
  - specialize (IH Hin). pose proof (blen_nonneg (nameList x)). lia.
Qed.

Lemma exchange_greets c ident lists : greets c ident lists -> exchangeSSHIdentAndKEX c = Ret (ident, Some (kexOf lists)).
Proof.
  intros [Hpre Hline Htrim H10 Hok (cookie & trailer & padding & rest & Hc & Hp & Hlen & Hinc) Htakes].
  unfold exchangeSSHIdentAndKEX. set (payload := [x14] ++ _) in *.
  assert (Hnl : noNewline (ofString ident ++ [x0d]) = true) by (by rewrite noNewline_app, Hline).
  destruct (readString_line newReader c (ofString ident ++ [x0d]) (sshPacket payload padding ++ rest) eq_refl) as (br & c1 & Hread & Hrd & Ha & Hreads);
    [cbn [rbuf newReader app]; rewrite Hinc; by rewrite <- !app_assoc|done|].
  rewrite Hread. cbn [bind]. rewrite <- app_assoc. cbn [app].
  replace (toString (ofString ident ++ [x0d; x0a])) with (ident +:+ toString [x0d; x0a])%string
    by (by rewrite toString_app, toString_ofString).
  rewrite trimCRLF by done. rewrite Hpre. cbn [negb].
  destruct (Htakes identification c1 Hreads) as (c2 & -> & Hi2 & Ht2).
  destruct (Ht2 buildSSHKexInit c2 (reads_refl c2)) as (c3 & -> & Hi3 & _).
  rewrite (readSSHPacket_enc br c3 payload padding rest) by (try done; unfold ahead in *; congruence). cbn [bind].
  rewrite (proj2 (Z.ltb_ge _ _)) by (unfold payload; rewrite !blen_app; change (blen [x14]) with 1;
    pose proof (blen_nonneg cookie); pose proof (blen_nonneg (flat_map nameList lists)); pose proof (blen_nonneg trailer); lia).
  unfold payload at 1 2. rewrite index_app_l by done. change (index [x14] 0) with (Ret (A := byte) x14). cbn [bind].
  change (beq x14 x14) with true. cbn [negb]. rewrite sliceFrom_app by done. cbn [bind].
  rewrite parseSSHKexInit_enc; [done|done|done|done|]. apply Forall_forall. intros l Hl. apply list_elem_of_In, blen_nameLists in Hl.
  unfold payload in Hlen. rewrite !blen_app in Hlen. pose proof (blen_nonneg cookie). pose proof (blen_nonneg trailer). pose proof (blen_nonneg padding).
  change (blen [x14]) with 1 in Hlen. lia.
Qed.
End Conversation.

(** ** No server makes the probe panic *)

Section Total.
Context {C : Type} `{Wire C}.

Lemma wp_readSSHPacket br (c : C) (Q : option bytes -> Prop) E : (forall r, Q r) -> wp (readSSHPacket br c) Q E.
Proof.
  intros HQ. unfold readSSHPacket. apply wp_bind, wp_bufFull; [lia| |intros; by apply wp_ret].
  intros hdr br1 c1 _ Hh _. wp_step. apply wp_slice; [blia..|]. intros Hs. wp_step. apply wp_BE_Uint32; [blia|]. intros l Hl.
  wp_step. apply wp_index; [blia|]. intros p _. cbv zeta. destruct (_ || _) eqn:El; [by apply wp_ret|].
  apply orb_false_iff in El as [El1 El2]. to_prop. apply wp_bind, wp_bufFull; [lia| |intros; by apply wp_ret].
  intros rest br2 c2 _ Hr _. destruct (_ <? bval p) eqn:Ep; [by apply wp_ret|]. to_prop. pose proof (bval_range p).
  wp_step. apply wp_slice; [blia..|]. intros _. by apply wp_ret.
Qed.

Lemma wp_exchange (c : C) (Q : string * option sshKexInfo -> Prop) E : (forall r, Q r) -> wp (exchangeSSHIdentAndKEX c) Q E.
Proof.
  intros HQ. unfold exchangeSSHIdentAndKEX. apply wp_bind. eapply wp_mono; [apply (wp_readString newReader c (fun _ => False))| |done].
  intros [[[line err] br] c1] _. destruct err; [by apply wp_ret|]. destruct (negb _); [by apply wp_ret|].
  destruct (write _ c1) as [c2|]; [|by apply wp_ret]. destruct (write _ c2) as [c3|]; [|by apply wp_ret].
  apply wp_bind, wp_readSSHPacket. intros [pkt|]; [|by apply wp_ret]. destruct (blen pkt <? 1) eqn:El; [by apply wp_ret|]. to_prop.
  wp_step. apply wp_index; [blia|]. intros t _. destruct (negb _); [by apply wp_ret|].
  wp_step. apply wp_sliceFrom; [blia|]. intros _. apply wp_bind, wp_parseSSHKexInit. intros r. by apply wp_ret.
Qed.

Lemma probeSSH_total dialProbe sshDial addr E : wp (probeSSH (C := C) dialProbe sshDial addr) (fun _ => True) E.
Proof.
  unfold probeSSH. destruct (dialProbe addr); [|by apply wp_ret]. apply wp_bind, wp_exchange. intros [banner kex].
  destruct (String.eqb banner ""); [by apply wp_ret|]. destruct (parseSSHBanner banner). by apply wp_ret.
Qed.
End Total.

(** A product and a version are read back from the line of a server of protocol 2.0. *)
Lemma parseSSHBanner_written p prod v ver comment :
  65 <= code p <= 122 -> 48 <= code v <= 57 -> p <> " "%char -> p <> "_"%char ->
  lacks " " (prod +:+ ver) = true -> lacks "_" prod = true ->
  (comment = "" \/ exists c, comment = String " " c)%string ->
  parseSSHBanner ("SSH-2.0-" +:+ String p prod +:+ "_" +:+ String v ver +:+ comment) = (String p prod, String v ver).
Proof.
  intros Hp Hv Hps Hpu Hs Hu Hc. unfold parseSSHBanner.
  assert (Ht : forall s, TrimPrefix ("SSH-2.0-" +:+ s) "SSH-2.0-" = s) by (intros s; unfold TrimPrefix, HasPrefix; cbn; by destruct s).
  rewrite Ht. rewrite (proj2 (String.eqb_neq _ _)).
  2:{ intros Heq. apply (f_equal String.length) in Heq. rewrite !length_appString in Heq. cbn in Heq. lia. }
  set (token := (String p prod +:+ "_" +:+ String v ver)%string).
  assert (Htok : lacks " " token = true).
  { unfold token. change ("_" +:+ String v ver)%string with (String "_" (String v ver)). rewrite lacks_app in Hs |- *.
    apply andb_true_iff in Hs as [Hs1 Hs2]. unfold lacks in *. cbn [forallString]. rewrite Hs1, Hs2.
    destruct (Ascii.eqb_spec p " "); [done|]. destruct (Ascii.eqb_spec v " ") as [->|]; [change (code " ") with 32 in Hv; lia|done]. }
  assert (Hcut : fst (fst (Cut (token +:+ comment) " ")) = token).
  { destruct Hc as [->|[c ->]]; [|by rewrite Cut_app].
    rewrite appString_nil. clear -Htok. revert Htok. generalize token. intros t. induction t as [|x t IH]; [done|].
    cbn. intros [Hx Ht]%andb_true_iff. apply negb_true_iff in Hx. rewrite Hx. specialize (IH Ht). destruct (Cut t " ") as [[a b] f]. cbn in *. by rewrite IH. }
  replace (String p prod +:+ "_" +:+ String v ver +:+ comment)%string with (token +:+ comment)%string
    by (unfold token; by rewrite <- !appString_assoc).
  rewrite Hcut. unfold token. change ("_" +:+ String v ver)%string with (String "_" (String v ver)). rewrite Cut_app.
  2:{ cbn. unfold lacks in Hu. rewrite Hu. destruct (Ascii.eqb_spec p "_"); done. }
  cbn [negb]. rewrite (proj2 (Z.ltb_ge (code p) 65)), (proj2 (Z.ltb_ge 122 _)), (proj2 (Z.ltb_ge (code v) 48)), (proj2 (Z.ltb_ge 57 _)) by lia. done.
Qed.

(** What the details of an SSH server hold under a key *)
Definition sshDetail (ident : string) (lists : list (list string)) (key : option sshHostKeyInfo) (k : string) : option string :=
  let listed i := let v := Join (nth i lists []) "," in if String.eqb v "" then None else Some v in
  if String.eqb k "banner" then Some ident
  else if String.eqb k "kex_algorithms" then listed 0%nat
  else if String.eqb k "host_key_algorithms" then listed 1%nat
  else if String.eqb k "ciphers_s2c" then listed 3%nat
  else if String.eqb k "macs_s2c" then listed 5%nat
  else if String.eqb k "compression_s2c" then
    match listed 7%nat with Some v => if String.eqb v "none" then None else Some v | None => None end
  else match key with
       | Some hk => if String.eqb k "host_key_type" then Some (Type_ hk)
                    else if String.eqb k "host_key_sha256" then Some ("SHA256:" +:+ SHA256 hk)%string
                    else if String.eqb k "host_key_md5" then Some ("MD5:" +:+ MD5 hk)%string else None
       | None => None
       end.

Lemma lookup_put k v (m : gmap string string) j : <[k := v]> m !! j = if String.eqb j k then Some v else m !! j.
Proof. destruct (String.eqb_spec j k) as [->|Hne]; [by rewrite lookup_insert_eq|by rewrite lookup_insert_ne]. Qed.

Lemma lookup_setIf k v m j : setIf k v m !! j = if String.eqb j k then (if String.eqb v "" then m !! j else Some v) else m !! j.
Proof. unfold setIf. destruct (String.eqb v ""); [by destruct (String.eqb j k)|apply lookup_put]. Qed.

Lemma kexExtra_lookup kex m k : kexExtra kex m !! k =
  if String.eqb k "compression_s2c" then
    let v := Join (CompressionServerToClient kex) "," in if negb (String.eqb v "") && negb (String.eqb v "none") then Some v else m !! k
  else setIf "macs_s2c" (Join (MACsServerToClient kex) ",") (setIf "ciphers_s2c" (Join (CiphersServerToClient kex) ",")
         (setIf "host_key_algorithms" (Join (HostKeyAlgorithms kex) ",") (setIf "kex_algorithms" (Join (KexAlgorithms kex) ",") m))) !! k.
Proof.
  unfold kexExtra. cbv zeta. destruct (_ && _) eqn:E.
  - rewrite lookup_put. by destruct (String.eqb k _).
  - destruct (String.eqb_spec k "compression_s2c") as [->|]; [|done]. by rewrite !lookup_setIf.
Qed.

Lemma sshDetail_lookup ident lists key k :
  (match key with
   | Some hk => <["host_key_md5" := ("MD5:" +:+ MD5 hk)%string]> (<["host_key_sha256" := ("SHA256:" +:+ SHA256 hk)%string]>
                  (<["host_key_type" := Type_ hk]> (kexExtra (kexOf lists) {["banner"%string := ident]})))
   | None => kexExtra (kexOf lists) {["banner"%string := ident]}
   end) !! k = sshDetail ident lists key k.
Proof.
  unfold sshDetail.
  assert (Hb : ({["banner"%string := ident]} : gmap string string) !! k = if String.eqb k "banner" then Some ident else None).
  { destruct (String.eqb_spec k "banner") as [->|Hne]; [by rewrite lookup_singleton_eq|by rewrite lookup_singleton_ne]. }
  assert (Hk : kexExtra (kexOf lists) {["banner"%string := ident]} !! k =
    (if String.eqb k "compression_s2c" then _ else _)) by (apply kexExtra_lookup).
  destruct key as [hk|]; rewrite ?lookup_put, Hk, !lookup_setIf, Hb; cbn [kexOf KexAlgorithms HostKeyAlgorithms CiphersServerToClient
    MACsServerToClient CompressionServerToClient]; cbv zeta.
  all: repeat match goal with |- context [String.eqb ?x ?n] => is_var x; destruct (String.eqb_spec x n) as [->|]; cbn [String.eqb Ascii.eqb Bool.eqb] end.
  all: try done; repeat match goal with |- context [String.eqb (Join ?l ?s) ?n] => destruct (String.eqb (Join l s) n); cbn end; done.
Qed.

(** C35. Against a server that sends its identification and its KEXINIT, in whatever
    segments they come, the probe reports the identification, the product and version
    it names, the name lists of the server exactly as it sent them, and the type and
    the fingerprints of the host key when one was shown. *)
Theorem probeSSH_reports {C : Type} `{Wire C} (dialProbe : string -> option C) sshDial addr conn ident lists
  (Hdial : dialProbe addr = Some conn) (Hgreets : greets conn ident lists) :
  exists info extra, probeSSH dialProbe sshDial addr = Ret info
    /\ Banner info = ident /\ Version info = snd (parseSSHBanner ident)
    /\ Product info = (let p := fst (parseSSHBanner ident) in if String.eqb p "" then "SSH"%string else p)
    /\ Extra info = Some extra
    /\ forall k, extra !! k = sshDetail ident lists (captureSSHHostKey sshDial addr) k.
Proof.
  unfold probeSSH. rewrite Hdial, (exchange_greets conn ident lists Hgreets). cbn [bind].
  assert (Hne : String.eqb ident "" = false).
  { destruct (String.eqb_spec ident "") as [->|]; [|done]. by destruct Hgreets. }
  rewrite Hne. destruct (parseSSHBanner ident) as [product version] eqn:Ep. cbn [fst snd].
  eexists _, _. split; [done|]. split_and!; try done. intros k. apply sshDetail_lookup.
Qed.

Module SshWitnesses.
Definition names : list (list string) :=
  [["curve25519-sha256"]; ["ssh-ed25519"; "rsa-sha2-512"]; ["aes128-ctr"]; ["aes128-ctr"; "aes256-ctr"];
   ["hmac-sha2-256"]; ["hmac-sha2-512"]; ["none"]; ["none"]; []; []]%string.
Definition ident : string := "SSH-2.0-OpenSSH_9.6p1".
Definition server : bytes :=
  ofString ident ++ [x0d; x0a] ++ sshPacket ([x14] ++ repeat x07 16 ++ flat_map nameList names ++ repeat x00 5) (repeat x00 6) ++ [].

Lemma takes_all n : forall c : bytes, takes n c.
Proof. induction n as [|n IH]; intros c; [done|]. intros b c' _. exists c'. split; [done|]. by split. Qed.

Lemma probeSSH_reports_witness :
  Product <$> match probeSSH (fun _ => Some server) (fun _ => Some ("ssh-ed25519"%string, [x01])) "h:22" with Ret i => Some i | _ => None end
    = Some "OpenSSH"%string
  /\ exists info extra, probeSSH (fun _ => Some server) (fun _ => Some ("ssh-ed25519"%string, [x01])) "h:22" = Ret info
    /\ Banner info = ident /\ Version info = snd (parseSSHBanner ident)
    /\ Product info = (let p := fst (parseSSHBanner ident) in if String.eqb p "" then "SSH"%string else p)
    /\ Extra info = Some extra
    /\ forall k, extra !! k = sshDetail ident names (captureSSHHostKey (fun _ => Some ("ssh-ed25519"%string, [x01])) "h:22") k.
Proof.
  split; [by vm_compute|]. apply (probeSSH_reports _ _ _ server); [done|]. split.
  - reflexivity.
  - reflexivity.
  - reflexivity.
  - reflexivity.
  - repeat constructor; done.
  - exists (repeat x07 16), (repeat x00 5), (repeat x00 6), []. cbv zeta. split; [done|]. split; [done|]. split; [by vm_compute|reflexivity].
  - apply takes_all.
Defined.
End SshWitnesses.
