(* ===== verification/Smb.v ===== *)
(** The probes of Windows services: SMB2 NEGOTIATE ([service_smb2.go]) and the RDP
    connection request ([service_rdp.go]), which read with [readFullSMB].  Times are
    seconds and nanoseconds since 1970; the clock is an argument. *)

From Stdlib Require Import ZArith List String Ascii Strings.Byte Lia Bool.
From stdpp Require Import base list strings gmap.
From S2P Require Import Prelude Bytes GoStrings Clock Decimal Stream Wire Bufio Result Service.
Open Scope Z_scope.

(** ** Little-endian words and hexadecimal numbers *)

Definition putLE16 (v : Z) : bytes := [byteOf v; byteOf (Z.shiftr v 8)].
Definition LE_Uint16 (b : bytes) : outcome Z := b1 <~ index b 1 ;; b0 <~ index b 0 ;; Ret (be16 b1 b0).
Definition LE_Uint64 (b : bytes) : outcome Z :=
  lo <~ slice b 0 4 ;; l <~ LE_Uint32 lo ;; hi <~ slice b 4 8 ;; h <~ LE_Uint32 hi ;; Ret (Z.lor (Z.shiftl h 32) l).

(** [%08x] and [%x] of a 32-bit number *)
Definition hex32 (v : Z) : string := (hex16 (Z.shiftr v 16) +:+ hex16 v)%string.
Definition fmtX (v : Z) : string :=
  let s := trimLeftFunc (fun c => Ascii.eqb c "0") (hex32 v) in if String.eqb s "" then "0"%string else s.

Section Conversation.
Context {C : Type} `{Wire C}.

(** One turn of the loop of [readFullSMB] for [len(buf) = n]: [None] is its error. *)
Definition smbTurn (n : Z) (st : bytes * C) : outcome (step (bytes * C) C) :=
  let '(got, c) := st in
  if blen got <? n then
    let '(b, e, c') := recv (n - blen got) c in
    match e with Some _ => Ret (Return c') | None => Ret (Next (got ++ b, c')) end
  else Ret (Break (got, c)).

Definition readFullSMB (n : Z) (c : C) : outcome (option (bytes * C)) :=
  r <~ loop (smbTurn n) (S (length (incoming c))) ([], c) ;;
  Ret (match r with inl st => Some st | inr _ => None end).

(** ** SMB2 *)

Definition dialects : list Z := [0x0202; 0x0210; 0x0300; 0x0302; 0x0311].

Definition negotiateBody : bytes :=
  putLE16 36 ++ putLE16 (blen dialects) ++ putLE16 0x0001 ++ putLE16 0 ++ putLE32 0x0000007f
  ++ repeat x00 16 ++ repeat x00 8 ++ flat_map putLE16 dialects.

Definition smbMagic : bytes := [xfe; x53; x4d; x42].

Definition smbHeader : bytes :=
  smbMagic ++ putLE16 64 ++ putLE16 0 ++ repeat x00 4 ++ putLE16 0 ++ putLE16 1 ++ repeat x00 48.

Definition smbPacket : bytes := smbHeader ++ negotiateBody.

Definition negotiateRequest : bytes := [x00; x00] ++ putBE16 (u16 (blen smbPacket)) ++ smbPacket.
End Conversation.

Definition smb2DialectName (d : Z) : string :=
  if d =? 0x0202 then "2.0.2 (Vista / 2008)"
  else if d =? 0x0210 then "2.1 (Win7 / 2008 R2)"
  else if d =? 0x0300 then "3.0 (Win8 / 2012)"
  else if d =? 0x0302 then "3.0.2 (8.1 / 2012 R2)"
  else if d =? 0x0311 then "3.1.1 (Win10 / 2016+)"
  else ("0x" +:+ hex16 d)%string.

Definition smb2SigningPosture (mode : Z) : string :=
  if negb (Z.land mode 0x02 =? 0) then "required" else if negb (Z.land mode 0x01 =? 0) then "enabled" else "disabled".

(** Sixteen bytes as a GUID: the first three groups are little-endian. *)
Definition formatGUID (b : bytes) : string :=
  match b with
  | [b0; b1; b2; b3; b4; b5; b6; b7; b8; b9; b10; b11; b12; b13; b14; b15] =>
      Join [hexEncode [b3; b2; b1; b0]; hexEncode [b5; b4]; hexEncode [b7; b6]; hexEncode [b8; b9];
            hexEncode [b10; b11; b12; b13; b14; b15]] "-"
  | _ => ""
  end.

(** *** Times *)

Definition filetimeToTime (ft : Z) : goTime :=
  if ft <? 116444736000000000 then zeroTime
  else
    let unixTicks := ft - 116444736000000000 in
    {| tSec := unixTicks / 10000000; tNsec := unixTicks mod 10000000 * 100 |}.

(** [d.Truncate(time.Minute).String()] of a positive duration in nanoseconds *)
Definition minutesString (d : Z) : string :=
  let m := d / 60000000000 in
  if m =? 0 then "0s"
  else if m / 60 =? 0 then (decNat m +:+ "m0s")%string
  else (decNat (m / 60) +:+ "h" +:+ decNat (m mod 60) +:+ "m0s")%string.

Definition tenYears : Z := 365 * 24 * 3600 * 10 * 1000000000.

Section Smb.
Context {C : Type} `{Wire C}.

(** What is read from the body of the answer *)
Definition smbInfo (now : goTime) (respBody : bytes) : outcome serviceInfo :=
  b <~ slice respBody 4 6 ;; dialect <~ LE_Uint16 b ;;
  if (dialect =? 0) || (dialect =? 0xffff) then Ret (productInfo "")
  else
    b <~ slice respBody 2 4 ;; securityMode <~ LE_Uint16 b ;;
    serverGuid <~ slice respBody 8 24 ;;
    b <~ slice respBody 28 32 ;; maxTransact <~ LE_Uint32 b ;;
    b <~ slice respBody 32 36 ;; maxRead <~ LE_Uint32 b ;;
    b <~ slice respBody 36 40 ;; maxWrite <~ LE_Uint32 b ;;
    b <~ slice respBody 40 48 ;; systemTimeFT <~ LE_Uint64 b ;;
    b <~ slice respBody 48 56 ;; serverStartFT <~ LE_Uint64 b ;;
    transact <~ itoa maxTransact ;; read <~ itoa maxRead ;; write <~ itoa maxWrite ;;
    let name := smb2DialectName dialect in
    let t := filetimeToTime serverStartFT in
    let uptime := since now t in
    Ret {| Product := "SMB2"; Version := name;
           Banner := ("SMB " +:+ name +:+ " " +:+ middleDot +:+ " signing " +:+ smb2SigningPosture securityMode +:+ " " +:+ middleDot
                      +:+ " serverGUID " +:+ formatGUID serverGuid)%string;
           Extra := Some (assigns (
             [("dialect", "0x" +:+ hex16 dialect); ("dialect_name", name); ("signing", smb2SigningPosture securityMode);
              ("server_guid", formatGUID serverGuid); ("max_transact_size", transact); ("max_read_size", read); ("max_write_size", write)]
             ++ when (0 <? systemTimeFT)%Z ("system_time", formatRFC3339 (filetimeToTime systemTimeFT))
             ++ when (0 <? serverStartFT)%Z ("server_start", formatRFC3339 t)
             ++ when ((0 <? serverStartFT) && (0 <? uptime) && (uptime <? tenYears))%Z ("uptime_approx", minutesString uptime)))%list%string |}.

Definition probeSMB2 (dial : string -> option C) (now : goTime) (addr : string) : outcome serviceInfo :=
  let empty := productInfo "" in
  match dial addr with
  | None => Ret empty
  | Some conn =>
      match write negotiateRequest conn with
      | inr _ => Ret empty
      | inl conn =>
          r <~ readFullSMB 4 conn ;;
          match r with
          | None => Ret empty
          | Some (rb, conn) =>
              l <~ slice rb 2 4 ;;
              respLen <~ BE_Uint16 l ;;
              if (respLen <? 64 + 65) || (64 * 1024 <? respLen) then Ret empty
              else
                r <~ readFullSMB respLen conn ;;
                match r with
                | None => Ret empty
                | Some (resp, _) =>
                    magic <~ slice resp 0 4 ;;
                    if negb (String.eqb (toString magic) (toString smbMagic)) then Ret empty
                    else
                      respBody <~ sliceFrom resp 64 ;;
                      if blen respBody <? 65 then Ret empty
                      else
                        s <~ slice respBody 0 2 ;; size <~ LE_Uint16 s ;;
                        if negb (size =? 65) then Ret empty else smbInfo now respBody
                end
          end
      end
  end.
End Smb.

Example rfc_ex : formatRFC3339 (filetimeToTime 133500000000000000) = "2024-01-17T21:20:00Z"%string.
Proof. by vm_compute. Qed.
Example rfc_zero : formatRFC3339 zeroTime = "0001-01-01T00:00:00Z"%string.
Proof. by vm_compute. Qed.

(** ** The answer of a server *)

Lemma LE_Uint16_put v rest : LE_Uint16 (putLE16 v ++ rest) = Ret (u16 v).
Proof.
  unfold LE_Uint16. rewrite !index_app_l by (change (blen (putLE16 v)) with 2; lia).
  change (index (putLE16 v) 1) with (Ret (byteOf (Z.shiftr v 8))). change (index (putLE16 v) 0) with (Ret (byteOf v)).
  cbn [bind]. by rewrite be16_putBE16.
Qed.

Definition putLE64 (v : Z) : bytes := putLE32 v ++ putLE32 (Z.shiftr v 32).

Lemma LE_Uint64_put v : 0 <= v < 2 ^ 64 -> LE_Uint64 (putLE64 v) = Ret v.
Proof.
  intros Hv. unfold LE_Uint64, putLE64. rewrite (slice_prefix (putLE32 v)) by done. cbn [bind].
  rewrite <- (app_nil_r (putLE32 v)) at 1. rewrite LE_Uint32_put. cbn [bind].
  rewrite <- (app_nil_r (putLE32 (Z.shiftr v 32))) at 1. rewrite (slice_mid (putLE32 v) (putLE32 _) []) by done. cbn [bind].
  rewrite <- (app_nil_r (putLE32 (Z.shiftr v 32))). rewrite LE_Uint32_put. cbn [bind]. f_equal. unfold u32.
  rewrite (Z.mod_small (Z.shiftr v 32)) by (rewrite Z.shiftr_div_pow2 by lia; split; [apply Z.div_pos; lia|apply Z.div_lt_upper_bound; lia]).
  rewrite Z.shiftr_div_pow2 by lia. change 4294967296 with (2 ^ 32).
  pose proof (Z.mod_pos_bound v (2 ^ 32) ltac:(lia)). pose proof (Z.div_pos v (2 ^ 32) ltac:(lia) ltac:(lia)).
  rewrite lor_shiftl_add by lia. pose proof (Z.div_mod v (2 ^ 32)). lia.
Qed.

(** The fields of a NEGOTIATE response *)
Record smbReply := {
  rMode : Z; rDialect : Z; rContexts : bytes; rGuid : bytes; rCapabilities : bytes; rTransact : Z; rRead : Z; rWrite : Z;
  rSystemTime : Z; rServerStart : Z; rTail : bytes }.

Definition smbFields (r : smbReply) : list bytes :=
  [putLE16 65; putLE16 (rMode r); putLE16 (rDialect r); rContexts r; rGuid r; rCapabilities r; putLE32 (rTransact r);
   putLE32 (rRead r); putLE32 (rWrite r); putLE64 (rSystemTime r); putLE64 (rServerStart r); rTail r].

Definition smbReplyOk (r : smbReply) : Prop :=
  0 <= rMode r < 65536 /\ 0 < rDialect r < 65535 /\ blen (rContexts r) = 2 /\ blen (rGuid r) = 16 /\ blen (rCapabilities r) = 4
  /\ 0 <= rTransact r < 4294967296 /\ 0 <= rRead r < 4294967296 /\ 0 <= rWrite r < 4294967296
  /\ 0 <= rSystemTime r < 2 ^ 64 /\ 0 <= rServerStart r < 2 ^ 64 /\ 9 <= blen (rTail r).

(** What smbInfo reports of the fields, in the order it writes them *)
Definition smbReported (now : goTime) (r : smbReply) : list (string * string) :=
  let start := filetimeToTime (rServerStart r) in
  let uptime := since now start in
  [("dialect", "0x" +:+ hex16 (rDialect r)); ("dialect_name", smb2DialectName (rDialect r)); ("signing", smb2SigningPosture (rMode r));
   ("server_guid", formatGUID (rGuid r)); ("max_transact_size", decNat (rTransact r)); ("max_read_size", decNat (rRead r));
   ("max_write_size", decNat (rWrite r))]
  ++ when (0 <? rSystemTime r)%Z ("system_time", formatRFC3339 (filetimeToTime (rSystemTime r)))
  ++ when (0 <? rServerStart r)%Z ("server_start", formatRFC3339 start)
  ++ when ((0 <? rServerStart r) && (0 <? uptime) && (uptime <? tenYears))%Z ("uptime_approx", minutesString uptime)%list%string.

Lemma smbFields_sizes r i : smbReplyOk r -> (i <= 11)%nat ->
  blen (concat (take i (smbFields r))) = nth i [0; 2; 4; 6; 8; 24; 28; 32; 36; 40; 48; 56] 0.
Proof.
  intros (_ & _ & Hc & Hg & Ha & _) Hi. unfold smbFields.
  do 12 (destruct i as [|i]; [cbn [take concat nth]; rewrite ?blen_app, ?Hc, ?Hg, ?Ha; reflexivity|]). lia.
Qed.

Lemma smb_field r i x lo hi {B} (k : bytes -> outcome B) : smbReplyOk r -> (i <= 11)%nat ->
  smbFields r !! i = Some x -> lo = nth i [0; 2; 4; 6; 8; 24; 28; 32; 36; 40; 48; 56] 0 -> hi = lo + blen x ->
  (b <~ slice (concat (smbFields r)) lo hi ;; k b) = k x.
Proof.
  intros Hr Hi Hx -> ->. rewrite (slice_field _ i x) ; [done|done|by rewrite smbFields_sizes|done].
Qed.

Lemma smbFields_length r : smbReplyOk r -> blen (concat (smbFields r)) = 56 + blen (rTail r).
Proof.
  intros Hr. pose proof (smbFields_sizes r 11 Hr ltac:(lia)) as Hs. cbn [nth] in Hs.
  rewrite <- (take_drop 11 (smbFields r)), concat_app, blen_app, Hs. cbn [drop smbFields concat]. by rewrite app_nil_r.
Qed.

Lemma slice_after {A} (a b : list A) lo hi : lo = blen a -> hi = blen a + blen b -> slice (a ++ b) lo hi = Ret b.
Proof. intros -> ->. rewrite <- (app_nil_r b) at 1. by apply slice_mid. Qed.

Ltac by_field := first [assumption | lia | reflexivity | match goal with H : blen _ = 16 |- _ => rewrite H; reflexivity end].

Lemma smbInfo_enc now r : smbReplyOk r -> smbInfo now (concat (smbFields r)) =
  Ret {| Product := "SMB2"; Version := smb2DialectName (rDialect r);
         Banner := ("SMB " +:+ smb2DialectName (rDialect r) +:+ " " +:+ middleDot +:+ " signing " +:+ smb2SigningPosture (rMode r) +:+ " " +:+ middleDot
                    +:+ " serverGUID " +:+ formatGUID (rGuid r))%string;
         Extra := Some (assigns (smbReported now r)) |}.
Proof.
  intros Hr. pose proof Hr as (Hm & Hd & Hc & Hg & Ha & Ht & Hrd & Hw & Hs & Hst & Htl). unfold smbInfo.
  assert (H16 : forall v, 0 <= v < 65536 -> LE_Uint16 (putLE16 v) = Ret v).
  { intros v Hv. rewrite <- (app_nil_r (putLE16 v)), LE_Uint16_put. unfold u16. by rewrite Z.mod_small. }
  assert (H32 : forall v, 0 <= v < 4294967296 -> LE_Uint32 (putLE32 v) = Ret v).
  { intros v Hv. rewrite <- (app_nil_r (putLE32 v)), LE_Uint32_put. unfold u32. by rewrite Z.mod_small. }
  rewrite (smb_field r 2 (putLE16 (rDialect r))) by by_field. rewrite H16 by lia. cbn [bind].
  rewrite (proj2 (Z.eqb_neq (rDialect r) 0)), (proj2 (Z.eqb_neq (rDialect r) 65535)) by lia. cbn [orb].
  rewrite (smb_field r 1 (putLE16 (rMode r))) by by_field. rewrite H16 by lia. cbn [bind].
  rewrite (smb_field r 4 (rGuid r)) by by_field.
  rewrite (smb_field r 6 (putLE32 (rTransact r))) by by_field. rewrite H32 by lia. cbn [bind].
  rewrite (smb_field r 7 (putLE32 (rRead r))) by by_field. rewrite H32 by lia. cbn [bind].
  rewrite (smb_field r 8 (putLE32 (rWrite r))) by by_field. rewrite H32 by lia. cbn [bind].
  rewrite (smb_field r 9 (putLE64 (rSystemTime r))) by by_field. rewrite LE_Uint64_put by lia. cbn [bind].
  rewrite (smb_field r 10 (putLE64 (rServerStart r))) by by_field. rewrite LE_Uint64_put by lia. cbn [bind].
  assert (Hten : 4294967296 < 10 ^ 12) by reflexivity. set (limit := 10 ^ 12) in *.
  rewrite !itoa_small by (fold limit; lia). done.
Qed.

(** ** The conversation *)

Section Reading.
Context {C : Type} `{Wire C}.

Lemma wp_readFullSMB n (c : C) (Q : option (bytes * C) -> Prop) E : 0 <= n ->
  (forall b c', incoming c = b ++ incoming c' -> blen b = n -> reads c c' -> Q (Some (b, c'))) ->
  (blen (incoming c) < n -> Q None) -> wp (readFullSMB n c) Q E.
Proof.
  intros Hn Hs Hf. unfold readFullSMB. apply wp_bind.
  apply (wp_loop _ (fun '(got, c1) => incoming c = got ++ incoming c1 /\ blen got <= n /\ reads c c1)
    (fun '(_, c1) => length (incoming c1))); [|split; [done|]; split; [by rewrite blen_nil|constructor]|lia].
  intros [got c1] (Hi & Hg & Hr). unfold smbTurn. destruct (blen got <? n) eqn:E'; to_prop.
  - destruct (recv _ c1) as [[b e] c2] eqn:Hrecv. pose proof Hrecv as Hx. apply recv_spec in Hrecv as (Hi2 & Hb & He); [|lia].
    destruct e as [e|].
    + apply wp_ret. cbn [stepPost]. apply wp_ret, Hf. destruct He as [_ Hnil]. rewrite Hi, Hnil, app_nil_r. lia.
    + apply wp_ret. cbn [stepPost]. rewrite Hi, Hi2, app_assoc, blen_app. split_and!; [done|lia| |].
      * eapply reads_trans; [done|]. eapply reads_step; [|done|constructor]. lia.
      * rewrite length_app. destruct b; [done|]. cbn. lia.
  - apply wp_ret. cbn [stepPost]. apply wp_ret, Hs; [done|lia|done].
Qed.

Lemma readFullSMB_ok n (c : C) b rest : incoming c = b ++ rest -> blen b = n ->
  exists c', readFullSMB n c = Ret (Some (b, c')) /\ incoming c' = rest.
Proof.
  intros Hi Hb. pose proof (blen_nonneg b). pose proof (blen_nonneg rest).
  assert (Hw : wp (readFullSMB n c) (fun r => exists c', r = Some (b, c') /\ incoming c' = rest) (fun _ => False)).
  { apply wp_readFullSMB; [lia| |].
    - intros b' c' Hi' Hb' _. rewrite Hi in Hi'. apply app_inj_1 in Hi' as [-> ->]; [by exists c'|]. unfold blen in *. lia.
    - intros Hl. rewrite Hi, blen_app in Hl. lia. }
  destruct (readFullSMB n c) as [r| | |]; try done. destruct Hw as (c' & -> & Hr). by exists c'.
Qed.

(** No server makes the probe panic. *)
Lemma wp_LE_Uint16 b (Q : Z -> Prop) E : 2 <= blen b -> (forall v, 0 <= v < 65536 -> Q v) -> wp (LE_Uint16 b) Q E.
Proof.
  intros Hb HQ. unfold LE_Uint16. wp_step. apply wp_index; [lia|]. intros b1 _. wp_step. apply wp_index; [lia|]. intros b0 _.
  apply wp_ret, HQ, be16_range.
Qed.

Lemma wp_LE_Uint32 b (Q : Z -> Prop) E : 4 <= blen b -> (forall v, 0 <= v < 4294967296 -> Q v) -> wp (LE_Uint32 b) Q E.
Proof.
  intros Hb HQ. unfold LE_Uint32. do 4 (wp_step; apply wp_index; [lia|]; intros ? _). apply HQ.
  match goal with |- context [Z.lor (Z.shiftl ?a _) ?b] =>
    assert (0 <= a < 65536) by apply be16_range; assert (0 <= b < 65536) by apply be16_range end.
  rewrite lor_shiftl_add by lia. lia.
Qed.

Lemma wp_itoa n (Q : string -> Prop) E : 0 <= n < 4294967296 -> (forall s, Q s) -> wp (itoa n) Q E.
Proof.
  intros Hn HQ. assert (Hten : 4294967296 < 10 ^ 12) by reflexivity. set (limit := 10 ^ 12) in *.
  rewrite itoa_small by (fold limit; lia). by apply wp_ret.
Qed.

Lemma wp_smbInfo now body (Q : serviceInfo -> Prop) E : 65 <= blen body -> (forall i, Q i) -> wp (smbInfo now body) Q E.
Proof.
  intros Hb HQ. unfold smbInfo.
  assert (H16 : forall lo hi {B} (k : Z -> outcome B) (Q : B -> Prop), hi = lo + 2 -> 0 <= lo -> hi <= 65 ->
    (forall v, 0 <= v < 65536 -> wp (k v) Q E) -> wp (b <~ slice body lo hi ;; v <~ LE_Uint16 b ;; k v) Q E).
  { intros. wp_step. apply wp_slice; [lia..|]. intros ?. wp_step. apply wp_LE_Uint16; [lia|done]. }
  assert (H32 : forall lo hi {B} (k : Z -> outcome B) (Q : B -> Prop), hi = lo + 4 -> 0 <= lo -> hi <= 65 ->
    (forall v, 0 <= v < 4294967296 -> wp (k v) Q E) -> wp (b <~ slice body lo hi ;; v <~ LE_Uint32 b ;; k v) Q E).
  { intros. wp_step. apply wp_slice; [lia..|]. intros ?. wp_step. apply wp_LE_Uint32; [lia|done]. }
  assert (H64 : forall lo hi {B} (k : Z -> outcome B) (Q : B -> Prop), hi = lo + 8 -> 0 <= lo -> hi <= 65 ->
    (forall v, wp (k v) Q E) -> wp (b <~ slice body lo hi ;; v <~ LE_Uint64 b ;; k v) Q E).
  { intros. wp_step. apply wp_slice; [lia..|]. intros ?. wp_step. unfold LE_Uint64.
    do 2 (wp_step; apply wp_slice; [lia..|]; intros ?; wp_step; apply wp_LE_Uint32; [lia|]; intros ? _). by apply wp_ret. }
  apply H16; [lia..|]. intros d Hd. destruct (_ || _); [by apply wp_ret|]. apply H16; [lia..|]. intros m _.
  wp_step. apply wp_slice; [lia..|]. intros _. apply H32; [lia..|]. intros x1 Hx1. apply H32; [lia..|]. intros x2 Hx2.
  apply H32; [lia..|]. intros x3 Hx3. apply H64; [lia..|]. intros t1. apply H64; [lia..|]. intros t2.
  do 3 (wp_step; apply wp_itoa; [done|]; intros ?). by apply wp_ret.
Qed.

Lemma probeSMB2_total dial now addr E : wp (probeSMB2 (C := C) dial now addr) (fun _ => True) E.
Proof.
  unfold probeSMB2. cbv zeta. destruct (dial addr) as [c|]; [|by apply wp_ret]. destruct (write _ c) as [c1|]; [|by apply wp_ret].
  apply wp_bind, wp_readFullSMB; [lia| |intros _; by apply wp_ret]. intros rb c2 _ Hrb _.
  wp_step. apply wp_slice; [lia..|]. intros _. wp_step. apply wp_BE_Uint16; [rewrite blen_sub; lia|]. intros l Hl.
  destruct (_ || _) eqn:El; [by apply wp_ret|]. apply orb_false_iff in El as [El1 El2]. to_prop.
  apply wp_bind, wp_readFullSMB; [lia| |intros _; by apply wp_ret]. intros resp c3 _ Hresp _.
  wp_step. apply wp_slice; [lia..|]. intros _. destruct (negb _); [by apply wp_ret|].
  wp_step. apply wp_sliceFrom; [lia|]. intros Hsub. destruct (_ <? 65) eqn:E65; [by apply wp_ret|]. to_prop.
  wp_step. apply wp_slice; [lia..|]. intros ?. wp_step. apply wp_LE_Uint16; [lia|]. intros s _.
  destruct (negb _); [by apply wp_ret|]. by apply wp_smbInfo.
Qed.
End Reading.

(** The probe against the fields of the answer *)
Lemma probeSMB2_answer {C : Type} `{Wire C} (dial : string -> option C) now addr c c1 nb0 nb1 header r rest
  (Hdial : dial addr = Some c) (Hwrite : write negotiateRequest c = inl c1)
  (Hheader : blen header = 60) (Hok : smbReplyOk r) (Hlen : 64 + blen (concat (smbFields r)) < 65536)
  (Hsent : incoming c1 = [nb0; nb1] ++ putBE16 (64 + blen (concat (smbFields r))) ++ smbMagic ++ header ++ concat (smbFields r) ++ rest) :
  exists info extra, probeSMB2 dial now addr = Ret info
    /\ Product info = "SMB2"%string /\ Version info = smb2DialectName (rDialect r) /\ Extra info = Some extra
    /\ forall k v, extra !! k = Some v <-> In (k, v) (smbReported now r).
Proof.
  unfold probeSMB2. rewrite Hdial, Hwrite. cbv zeta. set (body := concat (smbFields r)) in *.
  destruct (readFullSMB_ok 4 c1 ([nb0; nb1] ++ putBE16 (64 + blen body)) (smbMagic ++ header ++ body ++ rest)) as (c2 & -> & Hc2);
    [rewrite Hsent; by rewrite <- !app_assoc|done|].
  cbn [bind]. rewrite (slice_after [nb0; nb1]) by done. cbn [bind].
  pose proof (smbFields_length r Hok) as Hb. fold body in Hb. pose proof Hok as (_ & _ & _ & _ & _ & _ & _ & _ & _ & _ & Htail).
  rewrite <- (app_nil_r (putBE16 _)), BE_Uint16_put. cbn [bind]. unfold u16. rewrite Z.mod_small by lia.
  rewrite (proj2 (Z.ltb_ge _ _)), (proj2 (Z.ltb_ge (64 * 1024) _)) by lia. cbn [orb].
  destruct (readFullSMB_ok (64 + blen body) c2 (smbMagic ++ header ++ body) rest) as (c3 & -> & _);
    [rewrite Hc2; by rewrite <- !app_assoc|rewrite !blen_app, Hheader; change (blen smbMagic) with 4; lia|].
  cbn [bind]. rewrite slice_prefix by done. cbn [bind]. rewrite String.eqb_refl. cbn [negb].
  rewrite app_assoc, sliceFrom_app by (rewrite blen_app, Hheader; done). cbn [bind].
  rewrite (proj2 (Z.ltb_ge _ _)) by lia. unfold body. rewrite (smb_field r 0 (putLE16 65)) by by_field.
  change (LE_Uint16 (putLE16 65)) with (Ret 65). cbn [bind]. change (65 =? 65) with true. cbn [negb].
  rewrite smbInfo_enc by done. eexists _, _. split; [done|]. cbn [Product Version Extra]. split_and!; try done.
  intros k v. apply assigns_lookup. unfold smbReported. destruct (0 <? rSystemTime r), (0 <? rServerStart r), (0 <? since _ _), (_ <? tenYears);
    cbn; repeat (apply List.NoDup_cons; [cbn; intuition discriminate|]); apply List.NoDup_nil.
Qed.

(** ** What a server is, as MS-SMB2 describes it

    The dialects by name, the two signing bits, the identifier as the four parts of a
    GUID, and the times as times, a zero field standing for a time the server withholds. *)
Inductive smbDialect := Smb202 | Smb210 | Smb300 | Smb302 | Smb311 | OtherDialect (revision : Z).

Definition dialectRevision (d : smbDialect) : Z :=
  match d with Smb202 => 514 | Smb210 => 528 | Smb300 => 768 | Smb302 => 770 | Smb311 => 785 | OtherDialect n => n end.

Definition dialectTexts (d : smbDialect) : string * string :=
  match d with
  | Smb202 => ("0x0202", "2.0.2 (Vista / 2008)")
  | Smb210 => ("0x0210", "2.1 (Win7 / 2008 R2)")
  | Smb300 => ("0x0300", "3.0 (Win8 / 2012)")
  | Smb302 => ("0x0302", "3.0.2 (8.1 / 2012 R2)")
  | Smb311 => ("0x0311", "3.1.1 (Win10 / 2016+)")
  | OtherDialect n => ("0x" +:+ hex16 n, "0x" +:+ hex16 n)
  end%string.

(** A GUID: one number of 32 bits, two of 16, and eight bytes. *)
Record guid := { Data1 : Z; Data2 : Z; Data3 : Z; Data4 : bytes }.

Definition guidText (g : guid) : string :=
  (hex32 (Data1 g) +:+ "-" +:+ hex16 (Data2 g) +:+ "-" +:+ hex16 (Data3 g) +:+ "-" +:+ hexEncode (take 2 (Data4 g)) +:+ "-"
   +:+ hexEncode (drop 2 (Data4 g)))%string.

Definition guidBytes (g : guid) : bytes := putLE32 (Data1 g) ++ putLE16 (Data2 g) ++ putLE16 (Data3 g) ++ Data4 g.

(** A FILETIME counts intervals of 100 ns since 1601, 11644473600 seconds before 1970. *)
Definition filetimeOf (t : option goTime) : Z :=
  match t with None => 0 | Some t => (tSec t + 11644473600) * 10000000 + tNsec t / 100 end.

Definition filetimeOk (t : option goTime) : Prop :=
  match t with None => True | Some t => 0 <= tSec t /\ 0 <= tNsec t < 1000000000 /\ tNsec t mod 100 = 0 /\ filetimeOf (Some t) < 2 ^ 64 end.

Record smbServer := {
  sEnabled : bool; sRequired : bool; sReserved : Z; sDialect : smbDialect; sContexts : bytes; sGuid : guid; sCapabilities : bytes;
  sTransact : Z; sRead : Z; sWrite : Z; sSystemTime : option goTime; sServerStart : option goTime; sTail : bytes }.

(** Its answer on the wire *)
Definition smbReplyOf (s : smbServer) : smbReply :=
  {| rMode := 4 * sReserved s + 2 * Z.b2z (sRequired s) + Z.b2z (sEnabled s); rDialect := dialectRevision (sDialect s);
     rContexts := sContexts s; rGuid := guidBytes (sGuid s); rCapabilities := sCapabilities s;
     rTransact := sTransact s; rRead := sRead s; rWrite := sWrite s;
     rSystemTime := filetimeOf (sSystemTime s); rServerStart := filetimeOf (sServerStart s); rTail := sTail s |}.

Definition smbServerOk (s : smbServer) : Prop :=
  0 <= sReserved s < 16384
  /\ (forall n, sDialect s = OtherDialect n -> 0 < n < 65535 /\ ~ In n dialects)
  /\ blen (sContexts s) = 2 /\ 0 <= Data1 (sGuid s) < 4294967296 /\ 0 <= Data2 (sGuid s) < 65536 /\ 0 <= Data3 (sGuid s) < 65536
  /\ blen (Data4 (sGuid s)) = 8 /\ blen (sCapabilities s) = 4
  /\ 0 <= sTransact s < 4294967296 /\ 0 <= sRead s < 4294967296 /\ 0 <= sWrite s < 4294967296
  /\ filetimeOk (sSystemTime s) /\ filetimeOk (sServerStart s) /\ 9 <= blen (sTail s).

(** What the details are to say of it *)
Definition smbFacts (now : goTime) (s : smbServer) : list (string * string) :=
  [("dialect", fst (dialectTexts (sDialect s))); ("dialect_name", snd (dialectTexts (sDialect s)));
   ("signing", if sRequired s then "required" else if sEnabled s then "enabled" else "disabled");
   ("server_guid", guidText (sGuid s)); ("max_transact_size", decNat (sTransact s)); ("max_read_size", decNat (sRead s));
   ("max_write_size", decNat (sWrite s))]
  ++ match sSystemTime s with Some t => [("system_time", formatRFC3339 t)] | None => [] end
  ++ match sServerStart s with
     | Some t => [("server_start", formatRFC3339 t)] ++ when ((0 <? since now t) && (since now t <? tenYears))%Z ("uptime_approx", minutesString (since now t))
     | None => []
     end%list%string.

Lemma hexByte_nibbles z : hexByte (byteOf z) = String (hexChar (Z.land (Z.shiftr z 4) 15)) (String (hexChar (Z.land z 15)) "").
Proof.
  unfold hexByte. rewrite bval_byteOf. change 256 with (2 ^ 8). change 15 with (Z.ones 4). rewrite <- Z.land_ones by lia.
  assert (H1 : Z.shiftr (Z.land z (Z.ones 8)) 4 = Z.land (Z.shiftr z 4) (Z.ones 4)) by (rewrite Z.shiftr_land; reflexivity).
  assert (H2 : Z.land (Z.land z (Z.ones 8)) (Z.ones 4) = Z.land z (Z.ones 4)) by (rewrite <- Z.land_assoc; reflexivity).
  by rewrite H1, H2.
Qed.

Lemma hexEncode_word z : hexEncode [byteOf (Z.shiftr z 8); byteOf z] = hex16 z.
Proof. unfold hexEncode, hex16. cbn [map String.concat]. rewrite !hexByte_nibbles, Z.shiftr_shiftr by lia. reflexivity. Qed.

Lemma formatGUID_bytes g : blen (Data4 g) = 8 -> formatGUID (guidBytes g) = guidText g.
Proof.
  intros H. destruct g as [d1 d2 d3 d4]. unfold guidBytes, guidText. cbn [Data1 Data2 Data3 Data4] in *.
  do 8 (destruct d4 as [|? d4]; [done|]). destruct d4; [|unfold blen in H; cbn in H; lia].
  unfold putLE32, putLE16. cbn [app formatGUID take drop]. unfold Join. cbn [String.concat].
  unfold hex32. rewrite <- !hexEncode_word, Z.shiftr_shiftr by lia. reflexivity.
Qed.

Lemma filetimeOf_pos t : filetimeOk (Some t) -> 116444736000000000 <= filetimeOf (Some t).
Proof. intros (H1 & H2 & _). cbn [filetimeOf]. pose proof (Z.div_pos (tNsec t) 100). lia. Qed.

Lemma filetimeOf_range t : filetimeOk t -> 0 <= filetimeOf t < 2 ^ 64.
Proof. destruct t as [t|]; [|done]. intros H. pose proof (filetimeOf_pos t H). destruct H as (_ & _ & _ & H). lia. Qed.

Lemma filetimeToTime_of t : filetimeOk (Some t) -> filetimeToTime (filetimeOf (Some t)) = t.
Proof.
  intros H. pose proof (filetimeOf_pos t H). destruct H as (H1 & H2 & H3 & _). unfold filetimeToTime.
  rewrite (proj2 (Z.ltb_ge _ _)) by lia. cbv zeta. destruct t as [s n]. cbn [filetimeOf tSec tNsec] in *.
  replace (_ - _) with (n / 100 + s * 10000000) by lia.
  assert (0 <= n / 100 < 10000000) by (split; [apply Z.div_pos; lia|apply Z.div_lt_upper_bound; lia]).
  rewrite Z.div_add, Z.mod_add, Z.div_small, Z.mod_small by lia. f_equal. pose proof (Z.div_mod n 100). lia.
Qed.

(** A time before 1970 is a FILETIME too, but is reported as the zero time. *)
Lemma filetime_before_1970 ft : 0 < ft < 116444736000000000 -> formatRFC3339 (filetimeToTime ft) = "0001-01-01T00:00:00Z"%string.
Proof. intros H. unfold filetimeToTime. rewrite (proj2 (Z.ltb_lt _ _)) by lia. by vm_compute. Qed.

Lemma dialect_texts d : (forall n, d = OtherDialect n -> 0 < n < 65535 /\ ~ In n dialects) ->
  ("0x" +:+ hex16 (dialectRevision d))%string = fst (dialectTexts d) /\ smb2DialectName (dialectRevision d) = snd (dialectTexts d).
Proof.
  intros H. destruct d as [| | | | |n]; [by vm_compute..|]. split; [done|]. destruct (H n eq_refl) as [_ Hn]. cbn in Hn.
  unfold smb2DialectName. cbn [dialectRevision]. rewrite !(proj2 (Z.eqb_neq n _)) by (intros ->; apply Hn; tauto). done.
Qed.

Lemma signing_text s : 0 <= sReserved s ->
  smb2SigningPosture (rMode (smbReplyOf s)) = (if sRequired s then "required" else if sEnabled s then "enabled" else "disabled")%string.
Proof.
  intros H. unfold smb2SigningPosture. cbn [rMode smbReplyOf].
  assert (Hbit : forall z i, 0 <= i -> negb (Z.land z (2 ^ i) =? 0) = Z.testbit z i).
  { intros z i Hi. destruct (Z.testbit z i) eqn:Ht.
    - apply negb_true_iff, Z.eqb_neq. intros Hz. apply (f_equal (fun x => Z.testbit x i)) in Hz.
      rewrite Z.land_spec, Z.pow2_bits_true, Ht, Z.bits_0 in Hz by lia. done.
    - apply negb_false_iff, Z.eqb_eq, Z.bits_inj'. intros j Hj. rewrite Z.land_spec, Z.pow2_bits_eqb, Z.bits_0 by lia.
      destruct (Z.eqb_spec i j) as [->|]; [by rewrite Ht|apply andb_false_r]. }
  change 2 with (2 ^ 1) at 2. rewrite (Hbit _ 1) by lia. change 1 with (2 ^ 0) at 2. rewrite (Hbit _ 0) by lia.
  replace (4 * sReserved s + 2 * Z.b2z (sRequired s) + Z.b2z (sEnabled s)) with (Z.b2z (sEnabled s) + 2 * (2 * sReserved s + Z.b2z (sRequired s))) by lia.
  set (high := 2 * sReserved s + Z.b2z (sRequired s)).
  assert (H1 : Z.testbit (Z.b2z (sEnabled s) + 2 * high) 1 = Z.testbit high 0).
  { rewrite Z.add_comm. change 1 with (Z.succ 0). by rewrite Z.testbit_succ_r by lia. }
  rewrite H1, Z.add_b2z_double_bit0. unfold high. by rewrite Z.add_comm, Z.add_b2z_double_bit0.
Qed.

Lemma smbReplyOf_ok s : smbServerOk s -> smbReplyOk (smbReplyOf s).
Proof.
  intros (Hm & Hd & Hc & H1 & H2 & H3 & H4 & Ha & Ht & Hr & Hw & Hs & Hst & Htl). unfold smbReplyOk. cbn [smbReplyOf
    rMode rDialect rContexts rGuid rCapabilities rTransact rRead rWrite rSystemTime rServerStart rTail].
  split; [destruct (sRequired s), (sEnabled s); cbn; lia|].
  split; [destruct (sDialect s) as [| | | | |n]; cbn; try lia; destruct (Hd n eq_refl); lia|].
  split; [done|]. split; [unfold guidBytes; rewrite !blen_app, H4; done|]. repeat (split; [done || by apply filetimeOf_range|]). done.
Qed.

Lemma smbReported_facts now s : smbServerOk s -> smbReported now (smbReplyOf s) = smbFacts now s.
Proof.
  intros (Hm & Hd & Hc & H1 & H2 & H3 & H4 & Ha & Ht & Hr & Hw & Hs & Hst & Htl).
  destruct (dialect_texts _ Hd) as [Hd1 Hd2]. unfold smbReported, smbFacts. rewrite signing_text by lia.
  cbn [smbReplyOf rDialect rGuid rTransact rRead rWrite rSystemTime rServerStart]. rewrite Hd1, Hd2, formatGUID_bytes by done. f_equal.
  assert (Htime : forall t, filetimeOk (Some t) -> (0 <? filetimeOf (Some t)) = true).
  { intros t Hx. pose proof (filetimeOf_pos t Hx). lia. }
  f_equal; [destruct (sSystemTime s) as [t|]; [by rewrite Htime, filetimeToTime_of|done]|].
  destruct (sServerStart s) as [t|]; [by rewrite Htime, filetimeToTime_of|done].
Qed.

(** C36. Against a server that answers NEGOTIATE, in whatever segments the answer comes,
    the SMB2 probe reports what the server is: its dialect by number and name, whether
    signing is required, enabled or neither by the bits of the security mode, its GUID in
    the usual text, the three sizes, the two times when the server gives them (from 1970
    on), and how long ago the server started when that is in the past and less than ten
    years; nothing else. *)
Theorem probeSMB2_reports {C : Type} `{Wire C} (dial : string -> option C) now addr c c1 nb0 nb1 header s rest
  (Hdial : dial addr = Some c) (Hwrite : write negotiateRequest c = inl c1)
  (Hheader : blen header = 60) (Hok : smbServerOk s) (Hlen : 64 + blen (concat (smbFields (smbReplyOf s))) < 65536)
  (Hsent : incoming c1 = [nb0; nb1] ++ putBE16 (64 + blen (concat (smbFields (smbReplyOf s)))) ++ smbMagic ++ header
             ++ concat (smbFields (smbReplyOf s)) ++ rest) :
  exists info extra, probeSMB2 dial now addr = Ret info
    /\ Product info = "SMB2"%string /\ Version info = snd (dialectTexts (sDialect s)) /\ Extra info = Some extra
    /\ forall k v, extra !! k = Some v <-> In (k, v) (smbFacts now s).
Proof.
  destruct (probeSMB2_answer dial now addr c c1 nb0 nb1 header (smbReplyOf s) rest Hdial Hwrite Hheader (smbReplyOf_ok s Hok) Hlen Hsent)
    as (info & extra & Hp & Hprod & Hv & He & Hx).
  exists info, extra. rewrite (smbReported_facts now s Hok) in Hx. split_and!; try done. rewrite Hv. apply dialect_texts, Hok.
Qed.

(** ** RDP *)

Definition rdpProtoSSL : Z := 0x01.
Definition rdpProtoHybrid : Z := 0x02.
Definition rdpProtoRDSTLS : Z := 0x04.
Definition rdpProtoHybridEX : Z := 0x08.
Definition rdpProtoRDSAAD : Z := 0x10.

Definition has (p bit : Z) : bool := negb (Z.land p bit =? 0).

Definition rdpProtocolName (p : Z) : string :=
  if p =? 0 then "RDP (legacy)"
  else
    let names := (when (has p rdpProtoSSL) "TLS" ++ when (has p rdpProtoHybrid) "CredSSP/NLA" ++ when (has p rdpProtoHybridEX) "CredSSP-EX"
                  ++ when (has p rdpProtoRDSTLS) "RDSTLS" ++ when (has p rdpProtoRDSAAD) "RDS-AAD")%list%string in
    match names with [] => ("unknown 0x" +:+ hex32 p)%string | _ => Join names "+" end.

Definition rdpFailureName (code : Z) : string :=
  if code =? 1 then "SSL_REQUIRED_BY_SERVER" else if code =? 2 then "SSL_NOT_ALLOWED_BY_SERVER"
  else if code =? 3 then "SSL_CERT_NOT_ON_SERVER" else if code =? 4 then "INCONSISTENT_FLAGS"
  else if code =? 5 then "HYBRID_REQUIRED_BY_SERVER" else if code =? 6 then "SSL_WITH_USER_AUTH_REQUIRED_BY_SERVER" else "unknown".

(** TPKT, X.224 connection request and RDP_NEG_REQ with all protocols. *)
Definition rdpRequest : bytes :=
  let protocols := Z.lor (Z.lor (Z.lor (Z.lor rdpProtoSSL rdpProtoHybrid) rdpProtoHybridEX) rdpProtoRDSTLS) rdpProtoRDSAAD in
  let negoData := [x01; x00] ++ putLE16 8 ++ putLE32 protocols in
  let x224 := [byteOf (6 + blen negoData); xe0] ++ putBE16 0 ++ putBE16 0 ++ [x00] in
  [x03; x00] ++ putBE16 (u16 (4 + blen x224 + blen negoData)) ++ x224 ++ negoData.

Definition enDash : string := toString [xe2; x80; x94].

(** What is read from the packet behind its TPKT header *)
Definition rdpInfo (rest : bytes) : outcome serviceInfo :=
  let info version banner extra := {| Product := "RDP"; Version := version; Banner := banner; Extra := Some (assigns extra) |} in
  if 7 + 8 <=? blen rest then
    negoResp <~ sliceFrom rest 7 ;;
    t <~ index negoResp 0 ;;
    if beq t x02 then
      b <~ slice negoResp 4 8 ;; selected <~ LE_Uint32 b ;;
      let name := rdpProtocolName selected in
      let nla := if has selected rdpProtoHybrid || has selected rdpProtoHybridEX then "true"%string else "false"%string in
      Ret (info name ("RDP nego ok " +:+ enDash +:+ " selected protocol: " +:+ name)%string
             [("protocol_selected", name); ("protocol_code", "0x" +:+ hex32 selected); ("nla_required", nla)]%string)
    else if beq t x03 then
      b <~ slice negoResp 4 8 ;; code <~ LE_Uint32 b ;;
      Ret (info ""%string ("RDP nego refused " +:+ enDash +:+ " code 0x" +:+ fmtX code +:+ " (" +:+ rdpFailureName code +:+ ")")%string
             [("nego_failure_code", "0x" +:+ hex32 code); ("nego_failure_reason", rdpFailureName code)]%string)
    else
      b <~ slice negoResp 0 1 ;;
      Ret (info ""%string ("RDP server responded with unknown nego type 0x" +:+ hexEncode b)%string [])
  else
    Ret (info "Legacy RDP"%string ("RDP server responded but offered no TLS / NLA " +:+ enDash +:+ " legacy MS-RDPBCGR only")%string
           [("protocol_selected", "RDP (legacy, no TLS)"); ("nla_required", "false")]%string).

Section Rdp.
Context {C : Type} `{Wire C}.

Definition probeRDP (dial : string -> option C) (addr : string) : outcome serviceInfo :=
  let empty := productInfo "" in
  match dial addr with
  | None => Ret empty
  | Some conn =>
      match write rdpRequest conn with
      | inr _ => Ret empty
      | inl conn =>
          r <~ readFullSMB 4 conn ;;
          match r with
          | None => Ret empty
          | Some (rb, conn) =>
              v <~ index rb 0 ;;
              if negb (beq v x03) then Ret empty
              else
                l <~ slice rb 2 4 ;; respLen <~ BE_Uint16 l ;;
                if (respLen <? 11) || (1024 <? respLen) then Ret empty
                else
                  r <~ readFullSMB (respLen - 4) conn ;;
                  match r with
                  | None => Ret empty
                  | Some (rest, _) =>
                      if blen rest <? 7 then Ret empty
                      else cc <~ index rest 1 ;; if negb (beq cc xd0) then Ret empty else rdpInfo rest
                  end
          end
      end
  end.

Lemma wp_rdpInfo rest (Q : serviceInfo -> Prop) E : (forall i, Q i) -> wp (rdpInfo rest) Q E.
Proof.
  intros HQ. unfold rdpInfo. cbv zeta. destruct (7 + 8 <=? blen rest) eqn:El; [|by apply wp_ret]. to_prop.
  wp_step. apply wp_sliceFrom; [lia|]. intros Hn. wp_step. apply wp_index; [lia|]. intros t _.
  destruct (beq t x02).
  { wp_step. apply wp_slice; [lia..|]. intros ?. wp_step. apply wp_LE_Uint32; [lia|]. intros v _. by apply wp_ret. }
  destruct (beq t x03).
  { wp_step. apply wp_slice; [lia..|]. intros ?. wp_step. apply wp_LE_Uint32; [lia|]. intros v _. by apply wp_ret. }
  wp_step. apply wp_slice; [lia..|]. intros _. by apply wp_ret.
Qed.

Lemma probeRDP_total dial addr E : wp (probeRDP dial addr) (fun _ => True) E.
Proof.
  unfold probeRDP. cbv zeta. destruct (dial addr) as [c|]; [|by apply wp_ret]. destruct (write _ c) as [c1|]; [|by apply wp_ret].
  apply wp_bind, wp_readFullSMB; [lia| |intros _; by apply wp_ret]. intros rb c2 _ Hrb _.
  wp_step. apply wp_index; [lia|]. intros v _. destruct (negb _); [by apply wp_ret|].
  wp_step. apply wp_slice; [lia..|]. intros _. wp_step. apply wp_BE_Uint16; [rewrite blen_sub; lia|]. intros l Hl.
  destruct (_ || _) eqn:El; [by apply wp_ret|]. apply orb_false_iff in El as [El1 El2]. to_prop.
  apply wp_bind, wp_readFullSMB; [lia| |intros _; by apply wp_ret]. intros rest c3 _ Hrest _.
  destruct (_ <? 7) eqn:E7; [by apply wp_ret|]. to_prop. wp_step. apply wp_index; [lia|]. intros cc _.
  destruct (negb _); [by apply wp_ret|]. by apply wp_rdpInfo.
Qed.
End Rdp.

(** The negotiation data of a connection confirm *)
Inductive rdpReply := Selected (flags : byte) (protocol : Z) | Refused (flags : byte) (failure : Z) | NoNego.

Definition encReply (r : rdpReply) : bytes :=
  match r with
  | Selected f p => [x02; f] ++ putLE16 8 ++ putLE32 p
  | Refused f c => [x03; f] ++ putLE16 8 ++ putLE32 c
  | NoNego => []
  end.

Definition rdpFacts (r : rdpReply) : list (string * string) :=
  match r with
  | Selected _ p => [("protocol_selected", rdpProtocolName p); ("protocol_code", "0x" +:+ hex32 p);
                     ("nla_required", if has p rdpProtoHybrid || has p rdpProtoHybridEX then "true" else "false")]
  | Refused _ c => [("nego_failure_code", "0x" +:+ hex32 c); ("nego_failure_reason", rdpFailureName c)]
  | NoNego => [("protocol_selected", "RDP (legacy, no TLS)"); ("nla_required", "false")]
  end%string.

Definition rdpReplyOk (r : rdpReply) : Prop :=
  match r with Selected _ p => 0 <= p < 4294967296 | Refused _ c => 0 <= c < 4294967296 | NoNego => True end.

Lemma rdpInfo_enc cotp r : blen cotp = 7 -> rdpReplyOk r ->
  exists version banner, rdpInfo (cotp ++ encReply r) = Ret {| Product := "RDP"; Version := version; Banner := banner; Extra := Some (assigns (rdpFacts r)) |}
    /\ (version = match r with Selected _ p => rdpProtocolName p | Refused _ _ => "" | NoNego => "Legacy RDP" end)%string.
Proof.
  intros Hc Hr. unfold rdpInfo. cbv zeta. rewrite blen_app, Hc. destruct r as [f p|f c|]; cbn [encReply rdpReplyOk] in *.
  - change (blen ([x02; f] ++ putLE16 8 ++ putLE32 p)) with 8. change (7 + 8 <=? 7 + 8) with true. cbn iota.
    rewrite sliceFrom_app by done. cbn [bind]. change (index ([x02; f] ++ _) 0) with (Ret (A := byte) x02). cbn [bind].
    change (beq x02 x02) with true. cbn iota. rewrite app_assoc, slice_after by done. cbn [bind].
    rewrite <- (app_nil_r (putLE32 p)), LE_Uint32_put. cbn [bind]. unfold u32. rewrite Z.mod_small by lia. by eexists _, _.
  - change (blen ([x03; f] ++ putLE16 8 ++ putLE32 c)) with 8. change (7 + 8 <=? 7 + 8) with true. cbn iota.
    rewrite sliceFrom_app by done. cbn [bind]. change (index ([x03; f] ++ _) 0) with (Ret (A := byte) x03). cbn [bind].
    change (beq x03 x02) with false. change (beq x03 x03) with true. cbn iota. rewrite app_assoc, slice_after by done. cbn [bind].
    rewrite <- (app_nil_r (putLE32 c)), LE_Uint32_put. cbn [bind]. unfold u32. rewrite Z.mod_small by lia. by eexists _, _.
  - change (7 + 8 <=? 7 + blen []) with false. cbn iota. by eexists _, _.
Qed.

(** Against a server that confirms the connection, the RDP probe reports the protocol
    it selected and whether that means network level authentication, or the code with
    which it refused, or that it negotiates nothing. *)
Theorem probeRDP_reports {C : Type} `{Wire C} (dial : string -> option C) addr c c1 z li refs r rest
  (Hdial : dial addr = Some c) (Hwrite : write rdpRequest c = inl c1) (Hrefs : blen refs = 5) (Hok : rdpReplyOk r)
  (Hsent : incoming c1 = [x03; z] ++ putBE16 (11 + blen (encReply r)) ++ ([li; xd0] ++ refs) ++ encReply r ++ rest) :
  exists info extra, probeRDP dial addr = Ret info /\ Product info = "RDP"%string /\ Extra info = Some extra
    /\ Version info = (match r with Selected _ p => rdpProtocolName p | Refused _ _ => "" | NoNego => "Legacy RDP" end)%string
    /\ forall k v, extra !! k = Some v <-> In (k, v) (rdpFacts r).
Proof.
  unfold probeRDP. rewrite Hdial, Hwrite. cbv zeta.
  assert (Hl : 0 <= blen (encReply r) <= 8) by (destruct r; by cbn).
  destruct (readFullSMB_ok 4 c1 ([x03; z] ++ putBE16 (11 + blen (encReply r))) (([li; xd0] ++ refs) ++ encReply r ++ rest)) as (c2 & -> & Hc2);
    [rewrite Hsent; by rewrite <- !app_assoc|done|].
  cbn [bind]. change (index ([x03; z] ++ _) 0) with (Ret (A := byte) x03). cbn [bind]. change (beq x03 x03) with true. cbn [negb].
  rewrite (slice_after [x03; z]) by done. cbn [bind]. rewrite <- (app_nil_r (putBE16 _)), BE_Uint16_put. cbn [bind].
  unfold u16. rewrite Z.mod_small by lia. rewrite (proj2 (Z.ltb_ge _ _)), (proj2 (Z.ltb_ge 1024 _)) by lia. cbn [orb].
  destruct (readFullSMB_ok (11 + blen (encReply r) - 4) c2 (([li; xd0] ++ refs) ++ encReply r) rest) as (c3 & -> & _);
    [rewrite Hc2; by rewrite <- !app_assoc|rewrite !blen_app, Hrefs; change (blen [li; xd0]) with 2; lia|].
  cbn [bind]. assert (Hcotp : blen ([li; xd0] ++ refs) = 7) by (rewrite blen_app, Hrefs; done).
  rewrite blen_app, Hcotp, (proj2 (Z.ltb_ge _ _)) by lia. rewrite index_app_l, index_app_l by (try rewrite Hcotp; done).
  change (index [li; xd0] 1) with (Ret (A := byte) xd0). cbn [bind].
  change (beq xd0 xd0) with true. cbn [negb]. destruct (rdpInfo_enc ([li; xd0] ++ refs) r Hcotp Hok) as (version & banner & -> & Hv).
  eexists _, _. split; [done|]. cbn [Product Version Extra]. split_and!; try done. intros k v. apply assigns_lookup.
  destruct r; cbn; repeat (apply List.NoDup_cons; [cbn; intuition discriminate|]); apply List.NoDup_nil.
Qed.

Module SmbWitnesses.
Definition windows : smbServer :=
  {| sEnabled := true; sRequired := true; sReserved := 0; sDialect := Smb311; sContexts := [x02; x00];
     sGuid := {| Data1 := 0x12345678; Data2 := 0x9abc; Data3 := 0xdef0; Data4 := [x01; x02; x03; x04; x05; x06; x07; x08] |};
     sCapabilities := [x2f; x00; x00; x00]; sTransact := 8388608; sRead := 8388608; sWrite := 8388608;
     sSystemTime := Some {| tSec := 1705526400; tNsec := 700 |}; sServerStart := Some {| tSec := 1705426400; tNsec := 0 |};
     sTail := repeat x00 9 |}.
Definition now : goTime := {| tSec := 1705526400; tNsec := 0 |}.
Definition answer : bytes := concat (smbFields (smbReplyOf windows)).
Definition server : bytes := [x00; x00] ++ putBE16 (64 + blen answer) ++ smbMagic ++ repeat x00 60 ++ answer ++ [].

Lemma windows_ok : smbServerOk windows.
Proof. unfold smbServerOk. split_and!; first [intros n Hn; discriminate Hn | split_and!; vm_compute; first [reflexivity | discriminate] | vm_compute; first [reflexivity | discriminate]]. Qed.

Lemma probeSMB2_reports_witness :
  (In ("uptime_approx", "27h46m0s") (smbFacts now windows) /\ In ("server_guid", "12345678-9abc-def0-0102-030405060708") (smbFacts now windows))%string /\
  exists info extra, probeSMB2 (fun _ => Some server) now "h:445" = Ret info
    /\ Product info = "SMB2"%string /\ Version info = "3.1.1 (Win10 / 2016+)"%string /\ Extra info = Some extra
    /\ forall k v, extra !! k = Some v <-> In (k, v) (smbFacts now windows).
Proof.
  split; [vm_compute; tauto|].
  apply (probeSMB2_reports _ now "h:445" server server x00 x00 (repeat x00 60) windows []); [done|done|done|apply windows_ok|by vm_compute|reflexivity].
Defined.

Definition confirm : bytes := [x03; x00] ++ putBE16 19 ++ ([x0e; xd0] ++ repeat x00 5) ++ encReply (Selected x1f 2) ++ [].

Lemma probeRDP_reports_witness :
  exists info extra, probeRDP (fun _ => Some confirm) "h:3389" = Ret info /\ Product info = "RDP"%string /\ Extra info = Some extra
    /\ Version info = "CredSSP/NLA"%string
    /\ forall k v, extra !! k = Some v <-> In (k, v) (rdpFacts (Selected x1f 2)).
Proof.
  apply (probeRDP_reports _ "h:3389" confirm confirm x00 x0e (repeat x00 5) (Selected x1f 2) []); [done|done|done|split; done|reflexivity].
Defined.
End SmbWitnesses.
