(* ===== verification/Services.v ===== *)
(** The smaller service probes: NTP readvar ([service_ntp.go]), CHAOS names
    ([service_dns_udp.go]), Telnet ([service_telnet.go]), PostgreSQL
    ([service_postgres.go]), Redis ([service_redis.go]) and Memcached
    ([service_memcached.go]).  Over UDP a read of the connection is a datagram. *)

From Stdlib Require Import ZArith List String Ascii Strings.Byte Lia Bool.
From stdpp Require Import base list strings gmap.
From S2P Require Import Prelude Bytes GoStrings Text Decimal Stream Wire Bufio Result Service.
Open Scope Z_scope.

Definition crlf : bytes := [x0d; x0a].
(** [strings.TrimRight] of line ends *)
Definition trimEOL (s : string) : string := trimRightFunc (fun c => (code c =? 13) || (code c =? 10)) s.

(** The pairs whose key is known, under the name it is reported by: a [switch] over the
    keys with an assignment in each case. *)
Definition renamed {A} (key : A -> option string) (l : list (A * string)) : list (string * string) :=
  omap (fun f => match key (fst f) with Some k => Some (k, snd f) | None => None end) l.

(** ** NTP *)

Definition readvar : bytes := [x16; x02; x00; x01; x00; x00; x00; x00; x00; x00; x00; x00].

(** [strings.Trim] of quotation marks *)
Definition isQuote (c : ascii) : bool := code c =? 34.
Definition Unquote (s : string) : string := trimRightFunc isQuote (trimLeftFunc isQuote s).

(** A pair of the text, as its key and its value *)
Definition ntpPair (pair : string) : option (string * string) :=
  let pair := TrimSpace pair in
  if String.eqb pair "" then None
  else let '(k, v, ok) := Cut pair "=" in if ok then Some (TrimSpace k, TrimSpace (Unquote v)) else None.

Definition ntpKeys : list string :=
  ["version"; "system"; "processor"; "stratum"; "precision"; "refid"; "leap"; "rootdelay"; "rootdisp"; "tc"; "mintc"]%string.

(** The variables of the text that are kept *)
Definition ntpVariables (body : string) : list (string * string) :=
  List.filter (fun kv => existsb (String.eqb (fst kv)) ntpKeys) (omap ntpPair (Split body ",")).

Definition ntpInfo (body : string) : serviceInfo :=
  let extra := assigns (ntpVariables body) in
  {| Product := "NTP"; Version := get extra "version"; Banner := TrimSpace body; Extra := Some extra |}.

Section Probes.
Context {C : Type} `{Wire C}.

Definition probeNTP (dial : string -> option C) (addr : string) : outcome serviceInfo :=
  let empty := productInfo "" in
  match dial addr with
  | None => Ret empty
  | Some conn =>
      match write readvar conn with
      | inr _ => Ret empty
      | inl conn =>
          let '(buf, err, _) := recv 4096 conn in
          match err with
          | Some _ => Ret empty
          | None =>
              if blen buf <? 12 then Ret empty
              else
                b0 <~ index buf 0 ;; b1 <~ index buf 1 ;;
                if negb (beq b0 x16) || negb (Z.land (bval b1) 0x1f =? 2) then Ret empty
                else
                  b10 <~ index buf 10 ;; b11 <~ index buf 11 ;;
                  let count := be16 b10 b11 in
                  let count := if blen buf <? 12 + count then blen buf - 12 else count in
                  body <~ slice buf 12 (12 + count) ;;
                  Ret (ntpInfo (toString body))
          end
      end
  end.

(** ** CHAOS names over UDP *)

(** The digits of a version: [v] is what is collected so far, [started] once a digit came. *)
Fixpoint versionDigits (started : bool) (s : string) : string :=
  match s with
  | EmptyString => ""
  | String c s =>
      if isDigit c then String c (versionDigits true s)
      else if started && existsb (Ascii.eqb c) (list_ascii_of_string ".-_p") then String c (versionDigits started s)
      else if started then "" else versionDigits started s
  end.

Definition parseVersionString (s : string) : string :=
  let out := trimRightFunc (fun c => existsb (Ascii.eqb c) (list_ascii_of_string ".-_p")) (versionDigits false s) in
  if lacks "." out then "" else out.

Definition containsCaseInsensitive (s sub : string) : bool := Contains (ToLower s) (ToLower sub).

(** [ask] is the exchange of a CHAOS question: the code and the texts of the answer. *)
Definition chaosTXTAt (ask : string -> string -> (Z * list (list string)) + string) (addr qname : string) : string :=
  match ask addr qname with
  | inr _ => ""
  | inl (rcode, txts) => if negb (rcode =? 0) then "" else TrimSpace (Join (concat txts) " ")
  end.

Definition dnsProduct (ver : string) : string :=
  let has := containsCaseInsensitive ver in
  if has "bind"%string then "BIND" else if has "unbound"%string then "Unbound" else if has "knot"%string then "Knot"
  else if has "powerdns"%string || has "PowerDNS"%string then "PowerDNS" else if has "nsd"%string then "NSD"
  else if has "dnsmasq"%string then "dnsmasq" else if has "coredns"%string then "CoreDNS" else "DNS".

Definition probeDNSUDP (ask : string -> string -> (Z * list (list string)) + string) (addr : string) : serviceInfo :=
  let ver := chaosTXTAt ask addr "version.bind." in
  let hostname := chaosTXTAt ask addr "hostname.bind." in
  let id := chaosTXTAt ask addr "id.server." in
  if String.eqb ver "" && String.eqb hostname "" && String.eqb id "" then productInfo ""
  else
    let given s := negb (String.eqb s "") in
    {| Product := if given ver then dnsProduct ver else "DNS"; Version := if given ver then parseVersionString ver else "";
       Banner := ver;
       Extra := Some (assigns (when (given ver) ("version_bind", ver) ++ when (given hostname) ("hostname_bind", hostname)
                               ++ when (given id) ("id_server", id)))%list%string |}.

(** ** Telnet *)

(** Behind a subnegotiation: what follows the first IAC SE, or nothing. *)
Fixpoint skipSub (b : bytes) : bytes :=
  match b with
  | x :: ((y :: r) as b') => if beq x xff && beq y xf0 then r else skipSub b'
  | _ => []
  end.

(** The bytes that survive: [fuel] counts the turns, each of which takes a byte at least. *)
Fixpoint stripIAC (fuel : nat) (b : bytes) : bytes :=
  match fuel, b with
  | S fuel, c :: r =>
      if negb (beq c xff) then c :: stripIAC fuel r
      else
        match r with
        | [] => []
        | next :: r' =>
            if beq next xff then xff :: stripIAC fuel r'
            else if (0xfb <=? bval next) && (bval next <=? 0xfe) then stripIAC fuel (drop 1 r')
            else if beq next xfa then stripIAC fuel (skipSub r')
            else stripIAC fuel r'
        end
  | _, _ => []
  end.

Definition printable (c : byte) : bool :=
  beq c x0a || beq c x0d || beq c x09 || ((0x20 <=? bval c) && (bval c <=? 0x7e)).

(** [strings.ReplaceAll] of CR LF by LF *)
Fixpoint unixLines (s : string) : string :=
  match s with
  | String a ((String b r) as s') => if (code a =? 13) && (code b =? 10) then String b (unixLines r) else String a (unixLines s')
  | _ => s
  end.

Definition stripTelnetIAC (b : bytes) : string :=
  TrimSpace (unixLines (toString (List.filter printable (stripIAC (length b) b)))).

Definition telnetProduct (clean : string) : string :=
  let has := Contains (ToLower clean) in
  if has "cisco"%string then "Cisco IOS Telnet"
  else if has "mikrotik"%string || has "routeros"%string then "MikroTik RouterOS Telnet"
  else if has "ubuntu"%string || has "debian"%string || has "linux"%string then "Linux Telnet"
  else if has "vxworks"%string then "VxWorks Telnet" else "Telnet".

Definition probeTelnet (dial : string -> option C) (addr : string) : outcome serviceInfo :=
  let empty := productInfo "" in
  match dial addr with
  | None => Ret empty
  | Some conn =>
      let conn := match write [xff; xfc; x01] conn with inl conn => conn | inr _ => conn end in
      let '(buf, _, _) := recv 4096 conn in
      if blen buf =? 0 then Ret empty
      else
        let clean := stripTelnetIAC buf in
        if String.eqb clean "" then Ret empty
        else
          n <~ itoa (blen buf) ;;
          Ret {| Product := telnetProduct clean; Version := ""; Banner := clean; Extra := Some {["banner_raw_bytes"%string := n]} |}
  end.
End Probes.

(** ** PostgreSQL *)

(** [string(b)] of a byte is the encoding of a rune. *)
Definition runeString (b : byte) : string :=
  if bval b <? 128 then toString [b] else toString [byteOf (Z.lor 0xc0 (Z.shiftr (bval b) 6)); byteOf (Z.lor 0x80 (Z.land (bval b) 0x3f))].

Definition startupMessage : bytes :=
  let payload := [x00; x03; x00; x00] ++ flat_map (fun s => ofString s ++ [x00])
                   ["user"; "netdoc_probe"; "database"; "postgres"; "application_name"; "netdoc"; ""]%string in
  putBE32 (u32 (blen payload + 4)) ++ payload.

(** [for end < len(body) && body[end] != 0 { end++ }] *)
Fixpoint untilNul (b : bytes) : bytes * bytes :=
  match b with
  | [] => ([], [])
  | x :: r => if beq x x00 then ([], b) else let '(v, rest) := untilNul r in (x :: v, rest)
  end.

(** The fields of the body: type and value. *)
Fixpoint pgFields (fuel : nat) (body : bytes) : list (byte * string) :=
  match fuel, body with
  | S fuel, t :: r =>
      if beq t x00 then []
      else let '(v, rest) := untilNul r in (t, toString v) :: pgFields fuel (drop 1 rest)
  | _, _ => []
  end.

Definition pgKey (t : byte) : option string :=
  if beq t x53 then Some "severity"%string else if beq t x56 then Some "severity_v"%string else if beq t x43 then Some "code"%string
  else if beq t x52 then Some "routine"%string else if beq t x46 then Some "file"%string else if beq t x4c then Some "line"%string else None.

Definition pgPairs (fields : list (byte * string)) : list (string * string) := renamed pgKey fields.

(** [info.Banner = value] for each message field in turn *)
Definition pgBanner (fields : list (byte * string)) : string :=
  foldl (fun b f => if beq (fst f) x4d then snd f else b) ""%string fields.

Definition pgInfo (body : bytes) : serviceInfo :=
  let fields := pgFields (length body) body in
  let extra := assigns (pgPairs fields) in
  {| Product := "PostgreSQL"; Version := match extra !! "severity_v"%string with Some _ => ">=9.3" | None => "<9.3 (no Severity-V field)" end;
     Banner := pgBanner fields; Extra := Some extra |}.

Section More.
Context {C : Type} `{Wire C}.

Definition probePostgreSQL (dialProbe : string -> option C) (addr : string) : outcome serviceInfo :=
  let info := productInfo "PostgreSQL" in
  match dialProbe addr with
  | None => Ret (productInfo "")
  | Some conn =>
      match write startupMessage conn with
      | inr _ => Ret info
      | inl conn =>
          r <~ recvFull 5 conn ;;
          match r with
          | inr _ => Ret info
          | inl (hdr, conn) =>
              t <~ index hdr 0 ;;
              if negb (beq t x45) then
                Ret {| Product := "PostgreSQL"; Version := ""; Banner := ("PG response type: " +:+ runeString t)%string; Extra := None |}
              else
                l <~ sliceFrom hdr 1 ;; v <~ BE_Uint32 l ;;
                let bodyLen := v - 4 in
                if (bodyLen <=? 0) || (16 * 1024 <? bodyLen) then Ret info
                else
                  r <~ recvFull bodyLen conn ;;
                  match r with inr _ => Ret info | inl (body, _) => Ret (pgInfo body) end
          end
      end
  end.

(** ** Redis *)

Definition resp (cmd : string) : bytes := ofString "*1" ++ crlf ++ ofString "$4" ++ crlf ++ ofString cmd ++ crlf.

(** [strings.Split] at CR LF *)
Fixpoint splitCRLF (cur : string) (s : string) : list string :=
  match s with
  | String a ((String b r) as s') => if (code a =? 13) && (code b =? 10) then cur :: splitCRLF "" r else splitCRLF (cur +:+ String a "") s'
  | _ => [(cur +:+ s)%string]
  end.

Definition redisKey (k : string) : option string :=
  if String.eqb k "redis_mode" then Some "mode"%string else if String.eqb k "os" then Some "os"%string
  else if String.eqb k "redis_build_id" then Some "build"%string else if String.eqb k "tcp_port" then Some "tcp_port"%string
  else if String.eqb k "role" then Some "role"%string else None.

(** The lines with a colon, as key and trimmed value *)
Definition redisPairs (body : string) : list (string * string) :=
  omap (fun line => let '(k, v, found) := Cut line ":" in if found then Some (k, TrimSpace v) else None) (splitCRLF "" body).

Definition redisInfo (body : string) : serviceInfo :=
  let pairs := redisPairs body in
  {| Product := "Redis"; Version := foldl (fun v kv => if String.eqb (fst kv) "redis_version" then snd kv else v) ""%string pairs;
     Banner := ("+PONG  " +:+ middleDot +:+ "  INFO ok")%string;
     Extra := Some (assigns (("auth", "open")%string :: renamed redisKey pairs)) |}.

Definition redisAuth (banner : string) : serviceInfo :=
  {| Product := "Redis"; Version := ""; Banner := banner; Extra := Some {["auth"%string := "required"%string]} |}.

Definition probeRedis (dialProbe : string -> option C) (addr : string) : outcome serviceInfo :=
  let info := productInfo "Redis" in
  match dialProbe addr with
  | None => Ret (productInfo "")
  | Some conn =>
      match write (resp "PING") conn with
      | inr _ => Ret info
      | inl conn =>
          unpack (pingResp, err, br, conn) <~ readString newReader conn ;;
          match err with
          | Some _ => Ret info
          | None =>
              let pingResp := trimEOL pingResp in
              if negb (HasPrefix pingResp "+PONG") then
                Ret (if HasPrefix pingResp "-NOAUTH" then redisAuth pingResp else info)
              else
                match write (resp "INFO") conn with
                | inr _ => Ret info
                | inl conn =>
                    unpack (header, err, br, conn) <~ readString br conn ;;
                    match err with
                    | Some _ => Ret info
                    | None =>
                        let header := trimEOL header in
                        if HasPrefix header "-NOAUTH" || HasPrefix header "-ERR" then
                          Ret (redisAuth ("+PONG  " +:+ middleDot +:+ "  " +:+ header)%string)
                        else if negb (HasPrefix header "$") then
                          Ret {| Product := "Redis"; Version := ""; Banner := (pingResp +:+ "  " +:+ middleDot +:+ "  " +:+ header)%string; Extra := None |}
                        else
                          unpack (body, err) <~ bufAll br conn ;;
                          match err with Some _ => Ret info | None => Ret (redisInfo (toString body)) end
                    end
                end
          end
      end
  end.

(** ** Memcached *)

Definition memcachedInfo (line : string) : serviceInfo :=
  if HasPrefix line "VERSION " then
    {| Product := "memcached"; Version := TrimSpace (TrimPrefix line "VERSION"); Banner := line; Extra := Some {["auth"%string := "open"%string]} |}
  else if HasPrefix line "ERROR" || HasPrefix line "CLIENT_ERROR" then
    {| Product := "memcached"; Version := ""; Banner := line; Extra := Some {["auth"%string := "restricted"%string]} |}
  else productInfo "memcached".

Definition probeMemcached (dialProbe : string -> option C) (addr : string) : outcome serviceInfo :=
  let info := productInfo "memcached" in
  match dialProbe addr with
  | None => Ret (productInfo "")
  | Some conn =>
      match write (ofString "version" ++ crlf) conn with
      | inr _ => Ret info
      | inl conn =>
          unpack (line, err, _, _) <~ readString newReader conn ;;
          match err with Some _ => Ret info | None => Ret (memcachedInfo (trimEOL line)) end
      end
  end.
End More.

Example ntp_ex : get (assigns (ntpVariables "version=4.2.8, stratum=2"%string)) "stratum" = "2"%string.
Proof. by vm_compute. Qed.
Example version_ex : parseVersionString "9.18.24-1ubuntu1" = "9.18.24-1"%string.
Proof. reflexivity. Qed.

(** ** Telnet commands *)

(** The items of a Telnet stream, RFC 854 and 855. *)
Inductive telnetItem :=
| TChar (c : byte)
| TEscaped
| TOption (verb opt : byte)
| TSub (body : bytes)
| TCommand (c : byte).

(** A subnegotiation ends at the first IAC SE. *)
Fixpoint noSE (b : bytes) : bool :=
  match b with
  | x :: ((y :: _) as b') => negb (beq x xff && beq y xf0) && noSE b'
  | _ => true
  end.

Definition itemOk (i : telnetItem) : Prop :=
  match i with
  | TChar c => c <> xff
  | TEscaped => True
  | TOption v _ => 0xfb <= bval v <= 0xfe
  | TSub body => noSE (body ++ [xff]) = true
  | TCommand c => bval c < 0xfa
  end.

Definition encItem (i : telnetItem) : bytes :=
  match i with
  | TChar c => [c]
  | TEscaped => [xff; xff]
  | TOption v o => [xff; v; o]
  | TSub body => [xff; xfa] ++ body ++ [xff; xf0]
  | TCommand c => [xff; c]
  end.

Definition itemText (i : telnetItem) : bytes :=
  match i with TChar c => [c] | TEscaped => [xff] | _ => [] end.

Lemma skipSub_enc body rest : noSE (body ++ [xff]) = true -> skipSub (body ++ [xff; xf0] ++ rest) = rest.
Proof.
  induction body as [|x body IH]; intros Hn; [done|]. destruct body as [|y body].
  - cbn in *. destruct (beq x xff) eqn:Ex; cbn; [|done]. change (beq xff xf0) with false. done.
  - cbn [app noSE] in Hn. apply andb_true_iff in Hn as [Hxy Hn]. change (skipSub (x :: (y :: body) ++ [xff; xf0] ++ rest) = rest).
    cbn [app]. cbn [skipSub]. apply negb_true_iff in Hxy. rewrite Hxy. apply IH, Hn.
Qed.

Lemma beq_neq x y : x <> y -> beq x y = false.
Proof. intros Hne. destruct (beq x y) eqn:E; [|done]. by apply beq_true in E. Qed.

Lemma bval_neq x y : bval x <> bval y -> beq x y = false.
Proof. intros Hne. apply beq_neq. by intros ->. Qed.

Lemma stripIAC_items items : Forall itemOk items -> forall fuel, (length (flat_map encItem items) <= fuel)%nat ->
  stripIAC fuel (flat_map encItem items) = flat_map itemText items.
Proof.
  induction 1 as [|i items Hi Hl IH]; intros fuel Hf; [by destruct fuel|]. cbn [flat_map] in *. rewrite length_app in Hf.
  destruct fuel as [|fuel]; [destruct i; cbn in Hf; lia|].
  destruct i as [c| |v o|body|c]; cbn [encItem itemText app length] in *; cbn [stripIAC].
  - rewrite (beq_neq c xff) by done. cbn [negb]. f_equal. apply IH. lia.
  - change (beq xff xff) with true. cbn [negb]. f_equal. apply IH. lia.
  - change (beq xff xff) with true. cbn [negb]. cbn in Hi. rewrite (bval_neq v xff) by (change (bval xff) with 255; lia).
    rewrite (proj2 (Z.leb_le 0xfb _)), (proj2 (Z.leb_le _ 0xfe)) by lia. cbn [andb drop]. apply IH. lia.
  - change (beq xff xff) with true. cbn [negb]. change (beq xfa xff) with false. change ((0xfb <=? bval xfa) && (bval xfa <=? 0xfe)) with false.
    change (beq xfa xfa) with true. cbn iota. rewrite <- app_assoc, skipSub_enc by done. apply IH.
    rewrite !length_app in Hf. cbn in Hf. lia.
  - change (beq xff xff) with true. cbn [negb]. cbn in Hi. rewrite (bval_neq c xff) by (change (bval xff) with 255; lia).
    rewrite (proj2 (Z.leb_gt 0xfb _)) by lia. cbn [andb]. rewrite (bval_neq c xfa) by (change (bval xfa) with 250; lia). apply IH. lia.
Qed.

(** The banner of a Telnet server is the text between the commands of its stream:
    whatever options, subnegotiations, commands and escapes it sends in its first
    segment, the printable characters are kept, in order, and nothing else. *)
Theorem stripTelnetIAC_text items (Hitems : Forall itemOk items) :
  stripTelnetIAC (flat_map encItem items) = TrimSpace (unixLines (toString (List.filter printable (flat_map itemText items)))).
Proof. unfold stripTelnetIAC. by rewrite stripIAC_items. Qed.

(** A single read: what comes in a later segment is never seen, although the comment
    promises to read until the line is idle.  A server that sends its options first has
    no banner. *)
Lemma telnet_first_segment {C : Type} `{Wire C} dial addr (c c1 c2 : C) items e :
  dial addr = Some c -> write [xff; xfc; x01] c = inl c1 -> recv 4096 c1 = (flat_map encItem items, e, c2) ->
  Forall itemOk items -> flat_map itemText items = [] -> probeTelnet dial addr = Ret (productInfo "").
Proof.
  intros Hd Hw Hr Hok Ht. unfold probeTelnet. rewrite Hd, Hw, Hr. destruct (_ =? 0); [done|].
  unfold stripTelnetIAC. by rewrite stripIAC_items, Ht.
Qed.

(** In a subnegotiation the octet 255 is doubled (RFC 855): followed by 240 it is data,
    and taken for the end. *)
Example escaped_subnegotiation : stripTelnetIAC ([xff; xfa; x18; xff; xff; xf0; x41; xff; xf0] ++ ofString "login:") = "Alogin:"%string.
Proof. by vm_compute. Qed.

(** ** PostgreSQL: the fields of an ErrorResponse *)

Definition fieldOk (f : byte * bytes) : Prop := fst f <> x00 /\ Forall (fun c => c <> x00) (snd f).
Definition encField (f : byte * bytes) : bytes := fst f :: snd f ++ [x00].

Lemma untilNul_enc v rest : Forall (fun c => c <> x00) v -> untilNul (v ++ x00 :: rest) = (v, x00 :: rest).
Proof.
  induction 1 as [|c v Hc Hv IH]; [done|]. cbn [app untilNul]. rewrite beq_neq by done. by rewrite IH.
Qed.

Lemma pgFields_enc fields rest : Forall fieldOk fields -> forall fuel, (length (flat_map encField fields ++ x00 :: rest) <= fuel)%nat ->
  pgFields fuel (flat_map encField fields ++ x00 :: rest) = map (fun f => (fst f, toString (snd f))) fields.
Proof.
  induction 1 as [|[t v] fields [Ht Hv] Hl IH]; intros fuel Hf; [by destruct fuel|]. cbn [flat_map map fst snd] in *.
  destruct fuel as [|fuel]; [cbn in Hf; lia|]. unfold encField at 1. cbn [fst snd app pgFields]. rewrite beq_neq by done.
  rewrite <- !app_assoc. cbn [app]. rewrite untilNul_enc by done. cbn [drop]. f_equal. apply IH.
  unfold encField at 1 in Hf. cbn [fst snd app length] in Hf. rewrite <- !app_assoc in Hf. cbn [app] in Hf.
  rewrite length_app in Hf. cbn [length] in Hf. lia.
Qed.

Ltac byteCases := repeat match goal with |- context [beq ?a ?b] =>
  destruct (beq a b) eqn:?; [match goal with E : beq _ _ = true |- _ => apply beq_true in E; subst end|] end.

Lemma pgKey_inj a b k : pgKey a = Some k -> pgKey b = Some k -> a = b.
Proof. unfold pgKey. byteCases; congruence. Qed.

Section Renamed.
Context {A : Type} (key : A -> option string) (key_inj : forall a b k, key a = Some k -> key b = Some k -> a = b).

Lemma renamed_in l k v : In (k, v) (renamed key l) <-> exists a, In (a, v) l /\ key a = Some k.
Proof.
  unfold renamed. rewrite <- list_elem_of_In, list_elem_of_omap. split.
  - intros ([a w] & Hin & Hs). cbn in Hs. destruct (key a) as [k'|] eqn:Ek; [|done]. injection Hs as -> ->. exists a. split; [by apply list_elem_of_In|done].
  - intros (a & Hin & Hk). exists (a, v). split; [by apply list_elem_of_In|]. cbn. by rewrite Hk.
Qed.

Lemma renamed_NoDup l : List.NoDup (map fst l) -> List.NoDup (map fst (renamed key l)).
Proof.
  unfold renamed. induction l as [|[a v] l IH]; cbn; [constructor|]. intros Hd. inversion Hd as [|? ? Hni Hd']; subst.
  destruct (key a) as [k|] eqn:Ek; [|by apply IH]. cbn. constructor; [|by apply IH]. intros Hin.
  apply in_map_iff in Hin as ([k' w] & Hk & Hin). cbn in Hk. subst k'. apply (renamed_in l) in Hin as (b & Hin & Hb).
  apply Hni, in_map_iff. exists (b, w). split; [|done]. cbn. by eapply key_inj.
Qed.

Lemma renamed_lookup l k v : List.NoDup (map fst l) -> assigns (renamed key l) !! k = Some v <-> exists a, In (a, v) l /\ key a = Some k.
Proof. intros Hd. rewrite assigns_lookup by by apply renamed_NoDup. apply renamed_in. Qed.
End Renamed.

(** The variable that each key of interest overwrites *)
Lemma foldl_pick {A B} (p : A -> bool) (f : A -> B) l x d : In x l -> p x = true ->
  (forall y, In y l -> p y = true -> f y = f x) -> foldl (fun b y => if p y then f y else b) d l = f x.
Proof.
  intros Hin Hp Hall. apply in_split in Hin as (l1 & l2 & ->). rewrite foldl_app. cbn [foldl]. rewrite Hp.
  assert (Hl : forall y, In y l2 -> p y = true -> f y = f x) by (intros y Hy; apply Hall, in_app_iff; right; by right). clear Hall.
  induction l2 as [|y l2 IH]; [done|]. cbn [foldl]. destruct (p y) eqn:Ey.
  - rewrite (Hl y) by (by left || done). apply IH. intros z Hz. apply Hl. by right.
  - apply IH. intros z Hz. apply Hl. by right.
Qed.

Lemma NoDup_fst {A B} (l : list (A * B)) a v w : List.NoDup (map fst l) -> In (a, v) l -> In (a, w) l -> v = w.
Proof.
  induction l as [|[b u] l IH]; [done|]. cbn. intros Hd. inversion Hd as [|? ? Hni Hd']; subst.
  intros [Hv|Hv] [Hw|Hw]; [congruence| | |by apply IH]; destruct Hni.
  - injection Hv as -> ->. by apply (in_map fst _ (a, w)).
  - injection Hw as -> ->. by apply (in_map fst _ (a, v)).
Qed.

Lemma foldl_banner (fields : list (byte * string)) v : List.NoDup (map fst fields) -> In (x4d, v) fields -> pgBanner fields = v.
Proof.
  intros Hd Hin. unfold pgBanner. apply (foldl_pick (fun f => beq (fst f) x4d) snd fields (x4d, v)); [done|done|].
  intros [t w] Hw Ht%beq_true. cbn in Ht. subst t. cbn. by eapply NoDup_fst.
Qed.

Section Conversations.
Context {C : Type} `{Wire C}.

(** Against a PostgreSQL server that refuses the login with an ErrorResponse of
    distinct fields, the probe reports each field under its name and the message as
    banner, and takes the non-localised severity for a sign of version 9.3. *)
Theorem probePostgreSQL_reports dialProbe addr (c c1 : C) fields msg rest
  (Hdial : dialProbe addr = Some c) (Hwrite : write startupMessage c = inl c1)
  (Hfields : Forall fieldOk fields) (Hdistinct : List.NoDup (map fst fields)) (Hmsg : In (x4d, msg) fields)
  (Hlen : blen (flat_map encField fields ++ [x00]) <= 16384)
  (Hsent : incoming c1 = [x45] ++ putBE32 (4 + blen (flat_map encField fields ++ [x00])) ++ flat_map encField fields ++ [x00] ++ rest) :
  exists info extra, probePostgreSQL dialProbe addr = Ret info /\ Product info = "PostgreSQL"%string
    /\ Banner info = toString msg /\ Extra info = Some extra
    /\ (forall k v, extra !! k = Some v <-> exists t b, In (t, b) fields /\ pgKey t = Some k /\ v = toString b)
    /\ (Version info = ">=9.3"%string <-> exists b, In (x56, b) fields).
Proof.
  set (body := flat_map encField fields ++ [x00]) in *. assert (Hb : 1 <= blen body) by (unfold body; rewrite blen_app; change (blen [x00]) with 1;
    pose proof (blen_nonneg (flat_map encField fields)); lia).
  unfold probePostgreSQL. rewrite Hdial, Hwrite.
  destruct (recvFull_ok 5 c1 ([x45] ++ putBE32 (4 + blen body)) (body ++ rest)) as (c2 & -> & Hc2 & _);
    [rewrite Hsent; unfold body; by rewrite <- !app_assoc|done|].
  cbn [bind]. change (index ([x45] ++ _) 0) with (Ret (A := byte) x45). cbn [bind]. change (beq x45 x45) with true. cbn [negb].
  rewrite sliceFrom_app by done. cbn [bind]. rewrite <- (app_nil_r (putBE32 _)), BE_Uint32_put by lia. cbn [bind].
  replace (4 + blen body - 4) with (blen body) by lia. rewrite (proj2 (Z.leb_gt _ _)), (proj2 (Z.ltb_ge _ _)) by lia. cbn [orb].
  destruct (recvFull_ok (blen body) c2 body rest Hc2 eq_refl) as (c3 & -> & _). cbn [bind].
  set (read := map (fun f => (fst f, toString (snd f))) fields).
  assert (Hp : pgFields (length body) body = read) by (unfold body; by apply pgFields_enc).
  assert (Hd : List.NoDup (map fst read)) by (unfold read; by rewrite map_map).
  assert (Hin : forall t b, In (t, b) fields -> In (t, toString b) read)
    by (intros t b Hin; apply in_map_iff; by exists (t, b)).
  assert (Hlook : forall k v, assigns (pgPairs read) !! k = Some v <-> exists t b, In (t, b) fields /\ pgKey t = Some k /\ v = toString b).
  { intros k v. unfold pgPairs. rewrite (renamed_lookup pgKey pgKey_inj) by done. unfold read. split.
    - intros (t & ([t' b] & [= <- <-] & Hin')%in_map_iff & Hk). by exists t', b.
    - intros (t & b & Hin' & Hk & ->). exists t. split; [by apply Hin|done]. }
  eexists _, _. split; [reflexivity|]. unfold pgInfo. rewrite Hp. cbn [Product Banner Extra Version].
  split; [done|]. split; [by apply foldl_banner, Hin|]. split; [done|]. split; [done|].
  destruct (assigns (pgPairs read) !! "severity_v"%string) as [v|] eqn:Ev.
  - split; [intros _|done]. apply Hlook in Ev as (t & b & Hin' & Hk & _). exists b. revert Hk. unfold pgKey. byteCases; congruence.
  - split; [done|]. intros (b & Hin'). assert (Hs : assigns (pgPairs read) !! "severity_v"%string = Some (toString b)) by (apply Hlook; by exists x56, b). congruence.
Qed.
End Conversations.

(** ** NTP: the variables of an answer *)

(** A variable as it is written: white space, key, value and whether it is quoted *)
Record ntpVar := { vSpace : string; vKey : string; vValue : string; vQuoted : bool }.

Definition varOk (v : ntpVar) : Prop :=
  spaces (vSpace v) /\ lacks "," (vSpace v) = true /\
  vKey v <> ""%string /\ noSpace (vKey v) = true /\ lacks "," (vKey v) = true /\ lacks "=" (vKey v) = true /\
  trimmed (vValue v) = true /\ lacks "," (vValue v) = true /\ lacks (ascii_of_N 34) (vValue v) = true.

Definition quote : string := String (ascii_of_N 34) "".
Definition quoted (v : ntpVar) : string := if vQuoted v then (quote +:+ vValue v +:+ quote)%string else vValue v.
Definition renderVar (v : ntpVar) : string := (vSpace v +:+ vKey v +:+ "=" +:+ quoted v)%string.

Lemma trimLeft_lacks p c s : (forall x, p x = Ascii.eqb x c) -> lacks c s = true -> trimLeftFunc p s = s.
Proof. intros Hp. destruct s as [|x s]; [done|]. cbn. rewrite Hp. intros [Hx _]%andb_true_iff. apply negb_true_iff in Hx. by rewrite Hx. Qed.

Lemma isQuote_eqb x : isQuote x = Ascii.eqb x (ascii_of_N 34).
Proof. destruct x as [[] [] [] [] [] [] [] []]; reflexivity. Qed.

Lemma lacks_rev c s : lacks c (revString s) = lacks c s.
Proof. apply forallString_revString. Qed.

Lemma trimQuote_lacks s t : lacks (ascii_of_N 34) s = true -> s <> ""%string -> trimLeftFunc isQuote (s +:+ t) = (s +:+ t)%string.
Proof.
  destruct s as [|x s]; [done|]. intros [Hx _]%andb_true_iff _. cbn [append trimLeftFunc]. rewrite isQuote_eqb.
  apply negb_true_iff in Hx. by rewrite Hx.
Qed.

Lemma trimQuotes s : lacks (ascii_of_N 34) s = true -> trimLeftFunc isQuote s = s.
Proof. intros Hl. apply (trimLeft_lacks isQuote (ascii_of_N 34)); [apply isQuote_eqb|exact Hl]. Qed.

Lemma Unquote_quoted v : lacks (ascii_of_N 34) (vValue v) = true -> Unquote (quoted v) = vValue v.
Proof.
  intros Hl. unfold Unquote, quoted, trimRightFunc. destruct (vQuoted v).
  - change (quote +:+ vValue v +:+ quote)%string with (String (ascii_of_N 34) (vValue v +:+ quote)). cbn [trimLeftFunc].
    change (isQuote (ascii_of_N 34)) with true. cbn iota.
    destruct (String.eqb_spec (vValue v) "") as [->|Hne]; [reflexivity|].
    rewrite trimQuote_lacks, revString_app by done. change (revString quote +:+ revString (vValue v))%string with (String (ascii_of_N 34) (revString (vValue v))).
    cbn [trimLeftFunc]. change (isQuote (ascii_of_N 34)) with true. cbn iota.
    rewrite trimQuotes by by rewrite lacks_rev. by rewrite revString_involutive.
  - rewrite (trimQuotes (vValue v)), trimQuotes by (rewrite ?lacks_rev; done). by rewrite revString_involutive.
Qed.

Lemma trimmed_sides k mid v : noSpace k = true -> k <> ""%string -> trimmed v = true -> mid <> ""%string ->
  noSpace mid = true -> trimmed (k +:+ mid +:+ v) = true.
Proof.
  intros Hk Hne Hv Hmid Hms. unfold trimmed in *. apply andb_true_iff in Hv as [Hv1 Hv2]. apply String.eqb_eq in Hv1, Hv2. apply andb_true_iff. split; apply String.eqb_eq.
  - rewrite trimLeft_app; [done|done|by apply trimLeft_noSpace].
  - rewrite appString_assoc, revString_app. destruct (String.eqb_spec v "") as [->|Hvne].
    + change (revString "" +:+ revString (k +:+ mid))%string with (revString (k +:+ mid)).
      apply trimLeft_noSpace. unfold noSpace in *. rewrite forallString_revString, forallString_app. by rewrite Hk, Hms.
    + rewrite trimLeft_app; [done|intros E; apply Hvne; by apply revString_nil|done].
Qed.

Lemma ntpPair_written v : varOk v -> ntpPair (renderVar v) = Some (vKey v, vValue v).
Proof.
  intros (Hs & _ & Hne & Hns & _ & Heq & Ht & _ & Hq). unfold ntpPair, renderVar.
  assert (Htq : trimmed (quoted v) = true).
  { unfold quoted. destruct (vQuoted v); [|done]. unfold trimmed. change (quote +:+ vValue v +:+ quote)%string with (String (ascii_of_N 34) (vValue v +:+ quote)).
    apply andb_true_iff. split; apply String.eqb_eq; [reflexivity|].
    change (String (ascii_of_N 34) (vValue v +:+ quote)) with ((quote +:+ vValue v) +:+ quote)%string. by rewrite revString_app. }
  assert (Htrim : TrimSpace (vSpace v +:+ vKey v +:+ "=" +:+ quoted v) = (vKey v +:+ "=" +:+ quoted v)%string).
  { rewrite <- (appString_nil (vKey v +:+ "=" +:+ quoted v)) at 1. apply TrimSpace_pad; [done|done|]. by apply trimmed_sides. }
  rewrite Htrim. rewrite (proj2 (String.eqb_neq _ _)) by (destruct (vKey v); done).
  change ("=" +:+ quoted v)%string with (String "=" (quoted v)). rewrite Cut_app by done.
  rewrite Unquote_quoted, TrimSpace_noSpace, TrimSpace_trimmed by done. done.
Qed.

Lemma renderVar_lacks v : varOk v -> lacks "," (renderVar v) = true.
Proof.
  intros (_ & Hs & _ & _ & Hk & _ & _ & Hv & _). unfold renderVar. rewrite !lacks_app, Hs, Hk. cbn. unfold quoted.
  destruct (vQuoted v); [|done]. rewrite !lacks_app, Hv. done.
Qed.

Lemma ntpVariables_written vars : vars <> [] -> Forall varOk vars ->
  ntpVariables (Join (map renderVar vars) ",") = List.filter (fun kv => existsb (String.eqb (fst kv)) ntpKeys) (map (fun v => (vKey v, vValue v)) vars).
Proof.
  intros Hne Hok. unfold ntpVariables. rewrite Split_Join; [|by destruct vars|].
  2:{ apply forallb_forall. intros s Hs. apply in_map_iff in Hs as (v & <- & Hv). apply renderVar_lacks. rewrite Forall_forall in Hok. by apply Hok, list_elem_of_In. }
  f_equal. clear Hne. induction Hok as [|v vars Hv Hl IH]; [done|]. cbn. by rewrite ntpPair_written, IH.
Qed.

Lemma filter_keys_NoDup {A} (p : string * A -> bool) l : List.NoDup (map fst l) -> List.NoDup (map fst (List.filter p l)).
Proof.
  induction l as [|x l IH]; [done|]. cbn. intros Hd. inversion Hd as [|? ? Hni Hd']; subst. destruct (p x); [|by apply IH].
  cbn. constructor; [|by apply IH]. intros Hin. apply Hni. apply in_map_iff in Hin as (y & <- & Hy). apply filter_In in Hy as [Hy _]. by apply in_map.
Qed.

Section Ntp.
Context {C : Type} `{Wire C}.

(** Against an NTP server that answers readvar, the probe reports exactly the known
    variables of the answer with their values, whether quoted or not, and the version
    among them. *)
Theorem probeNTP_reports dial addr (c c1 c2 : C) head tail vars
  (Hdial : dial addr = Some c) (Hwrite : write readvar c = inl c1) (Hne : vars <> []) (Hvars : Forall varOk vars)
  (Hdistinct : List.NoDup (map vKey vars)) (Hhead : blen head = 8) (Hlen : slen (Join (map renderVar vars) ",") < 65536)
  (Hanswer : recv 4096 c1 = ([x16; x82] ++ head ++ putBE16 (slen (Join (map renderVar vars) ",")) ++ ofString (Join (map renderVar vars) ",") ++ tail, None, c2)) :
  exists info extra, probeNTP dial addr = Ret info /\ Product info = "NTP"%string /\ Extra info = Some extra
    /\ Version info = get extra "version"
    /\ forall k v, extra !! k = Some v <-> In k ntpKeys /\ exists x, In x vars /\ vKey x = k /\ vValue x = v.
Proof.
  set (text := Join (map renderVar vars) ",") in *. pose proof (slen_nonneg text).
  unfold probeNTP. rewrite Hdial, Hwrite, Hanswer. cbv zeta.
  assert (Hb : forall t : bytes, blen ([x16; x82] ++ head ++ putBE16 (slen text) ++ t) = 12 + blen t)
    by (intros t; rewrite !blen_app, Hhead; change (blen [x16; x82]) with 2; change (blen (putBE16 _)) with 2; lia).
  rewrite Hb, blen_app, blen_ofString. pose proof (blen_nonneg tail). rewrite (proj2 (Z.ltb_ge _ 12)) by lia.
  rewrite !(index_app_l [x16; x82]) by reflexivity. change (index [x16; x82] 0) with (Ret x16). change (index [x16; x82] 1) with (Ret x82). cbn [bind].
  change (negb (beq x16 x16) || negb (Z.land (bval x82) 0x1f =? 2)) with false. cbn iota.
  set (t := ofString text ++ tail). rewrite app_assoc.
  assert (Hp : blen ([x16; x82] ++ head) = 10) by (rewrite blen_app, Hhead; done).
  rewrite !(index_app_r ([x16; x82] ++ head)) by (rewrite Hp; lia). rewrite Hp.
  rewrite !(index_app_l (putBE16 (slen text))) by reflexivity.
  change (index (putBE16 (slen text)) (10 - 10)) with (Ret (byteOf (Z.shiftr (slen text) 8))).
  change (index (putBE16 (slen text)) (11 - 10)) with (Ret (byteOf (slen text))). cbn [bind].
  rewrite be16_putBE16. unfold u16. rewrite Z.mod_small by lia. rewrite (proj2 (Z.ltb_ge _ _)) by lia.
  rewrite app_assoc. unfold t. rewrite (slice_mid (([x16; x82] ++ head) ++ putBE16 (slen text)) (ofString text) tail)
    by (rewrite blen_app, Hp, ?blen_ofString; done).
  cbn [bind]. rewrite toString_ofString. unfold ntpInfo. unfold text. rewrite ntpVariables_written by done.
  eexists _, _. split; [done|]. cbn [Product Extra Version]. split_and!; try done.
  intros k v. rewrite assigns_lookup by (apply filter_keys_NoDup; by rewrite map_map). rewrite filter_In, in_map_iff, existsb_exists. split.
  - intros [(x & [= <- <-] & Hx) (k0 & Hk & <-%String.eqb_eq)]. split; [done|]. by exists x.
  - intros [Hk (x & Hx & <- & <-)]. split; [by exists x|]. exists (vKey x). by rewrite String.eqb_refl.
Qed.

(** The response bit is not looked at: a service that echoes the request is taken for an
    NTP server. *)
Lemma echo_is_ntp dial addr (c c1 c2 : C) : dial addr = Some c -> write readvar c = inl c1 -> recv 4096 c1 = (readvar, None, c2) ->
  exists info, probeNTP dial addr = Ret info /\ Product info = "NTP"%string.
Proof. intros Hd Hw Hr. unfold probeNTP. rewrite Hd, Hw, Hr. by eexists. Qed.
End Ntp.

(** A comma in a quoted value cuts it, as in the version that ntpd itself reports. *)
Example quoted_comma : ntpVariables ("version=" +:+ quote +:+ "ntpd 4.2.8p15, Wed" +:+ quote) = [("version", "ntpd 4.2.8p15")]%string.
Proof. by vm_compute. Qed.

(** ** Redis: the INFO reply *)

Definition crlfS : string := String (ascii_of_N 13) (String (ascii_of_N 10) "").

(** A line of the reply: a property, or one without a colon (a section or an empty line). *)
Inductive infoLine := IProperty (k v : string) | IOther (s : string).

Definition infoLineText (l : infoLine) : string := match l with IProperty k v => k +:+ ":" +:+ v | IOther s => s end.
Definition infoLineOk (l : infoLine) : Prop :=
  lacks (ascii_of_N 13) (infoLineText l) = true /\ match l with IProperty k _ => lacks ":" k = true | IOther s => lacks ":" s = true end.
Definition infoProps (ls : list infoLine) : list (string * string) :=
  omap (fun l => match l with IProperty k v => Some (k, TrimSpace v) | IOther _ => None end) ls.
Definition infoText (ls : list infoLine) : string := foldr (fun l s => infoLineText l +:+ crlfS +:+ s)%string ""%string ls.

Lemma splitCRLF_cons x s cur : (code x =? 13) = false -> s <> ""%string -> splitCRLF cur (String x s) = splitCRLF (cur +:+ String x "") s.
Proof. intros Hx Hs. destruct s as [|y s]; [done|]. cbn [splitCRLF]. by rewrite Hx. Qed.

Lemma splitCRLF_line line rest : lacks (ascii_of_N 13) line = true -> forall cur,
  splitCRLF cur (line +:+ crlfS +:+ rest) = ((cur +:+ line)%string :: splitCRLF "" rest).
Proof.
  induction line as [|x line IH]; intros Hl cur.
  - change ("" +:+ crlfS +:+ rest)%string with (String (ascii_of_N 13) (String (ascii_of_N 10) rest)). cbn [splitCRLF].
    change ((code (ascii_of_N 13) =? 13) && (code (ascii_of_N 10) =? 10)) with true. cbn iota. by rewrite appString_nil.
  - apply andb_true_iff in Hl as [Hx Hl]. assert (Hc : (code x =? 13) = false).
    { apply negb_true_iff, Ascii.eqb_neq in Hx. apply Z.eqb_neq. intros Hc. apply Hx. unfold code in Hc.
      rewrite <- (ascii_N_embedding x). f_equal. lia. }
    change (String x line +:+ crlfS +:+ rest)%string with (String x (line +:+ crlfS +:+ rest)).
    rewrite splitCRLF_cons, IH by (try done; by destruct line).
    rewrite <- appString_assoc. done.
Qed.

Lemma redisPairs_text ls : Forall infoLineOk ls -> redisPairs (infoText ls) = infoProps ls.
Proof.
  unfold redisPairs. induction 1 as [|l ls [Hcr Hl] Hls IH]; [reflexivity|]. cbn [infoText foldr].
  rewrite splitCRLF_line by done. change (foldr _ _ ls) with (infoText ls). cbn [append omap list_omap]. unfold infoProps. cbn [omap list_omap].
  destruct l as [k v|s]; cbn [infoLineText] in *.
  - change (":" +:+ v)%string with (String ":" v). rewrite Cut_app by done. f_equal. apply IH.
  - rewrite Cut_none by done. apply IH.
Qed.

Lemma redisKey_inj a b k : redisKey a = Some k -> redisKey b = Some k -> a = b.
Proof.
  unfold redisKey. repeat match goal with |- context [String.eqb ?x ?y] => destruct (String.eqb_spec x y) as [->|_] end; congruence.
Qed.

Lemma redisKey_auth a : redisKey a <> Some "auth"%string.
Proof. unfold redisKey. repeat match goal with |- context [String.eqb ?x ?y] => destruct (String.eqb_spec x y) as [->|_] end; congruence. Qed.

Section RedisServer.
Context {C : Type} `{Wire C}.

(** A server without a password, from the state after PING on: it answers PONG; given
    INFO then, it sends a bulk reply and nothing else, and the reads past it fail with
    [e]: ["EOF"] if it closes the connection, the deadline if it waits for the next command. *)
Record redisServer (c : C) (ls : list infoLine) (e : string) : Prop := {
  rs_pong : incoming c = ofString "+PONG" ++ crlf;
  rs_info : forall c1, reads c c1 -> incoming c1 = [] -> exists c2 size,
    write (resp "INFO") c1 = inl c2 /\ noNewline (ofString size) = true /\
    incoming c2 = ofString ("$" +:+ size) ++ crlf ++ ofString (infoText ls) /\
    forall c3 c4 n e', reads c2 c3 -> recv n c3 = ([], Some e', c4) -> e' = e }.

Lemma bufAll_ends rd c2 e : rerr rd = None -> (forall c3 c4 n e', reads c2 c3 -> recv n c3 = ([], Some e', c4) -> e' = e) ->
  bufAll rd c2 = Ret (ahead rd c2, if String.eqb e "EOF" then None else Some e).
Proof.
  intros Hrd He.
  assert (Hw : wp (bufAll rd c2) (fun r => r = (ahead rd c2, if String.eqb e "EOF" then None else Some e)) (fun _ => False)).
  { apply wp_bufAll; [done|]. intros e' n c3 c4 Hr _ Hc. by rewrite (He c3 c4 n e'). }
  destruct (bufAll rd c2); try done. by rewrite Hw.
Qed.
End RedisServer.

Lemma trimEOL_dollar s : trimEOL (String "$" s) = String "$" (trimEOL s).
Proof. by apply trimRight_cons. Qed.

Section RedisProbe.
Context {C : Type} `{Wire C}.

(** Against a Redis server without a password the probe reports the version, the
    known properties of the INFO reply and that access is open, provided that the server
    closes the connection after the reply; one that keeps it open, as Redis does, is
    reported by name alone, since the reply is read up to the end of the connection
    and not by its length. *)
Theorem probeRedis_reports dialProbe addr (c c1 : C) ls e
  (Hdial : dialProbe addr = Some c) (Hping : write (resp "PING") c = inl c1) (Hserver : redisServer c1 ls e)
  (Hls : Forall infoLineOk ls) (Hdistinct : List.NoDup (map fst (infoProps ls))) :
  exists info, probeRedis dialProbe addr = Ret info
    /\ (e <> "EOF"%string -> info = productInfo "Redis")
    /\ (e = "EOF"%string -> Product info = "Redis"%string
        /\ (forall v, In ("redis_version"%string, v) (infoProps ls) -> Version info = v)
        /\ exists extra, Extra info = Some extra /\ extra !! "auth"%string = Some "open"%string
           /\ forall k v, k <> "auth"%string -> extra !! k = Some v <-> exists p, In (p, v) (infoProps ls) /\ redisKey p = Some k).
Proof.
  destruct Hserver as [Hpong Hinfo]. unfold probeRedis. rewrite Hdial, Hping.
  destruct (readString_line newReader c1 (ofString "+PONG" ++ [x0d]) [] eq_refl Hpong eq_refl) as (rd1 & c2 & -> & Hrd1 & Hc2 & Hr1).
  cbn [bind]. apply app_eq_nil in Hc2 as [Hb1 Hc2]. change (trimEOL (toString _)) with "+PONG"%string.
  change (negb (HasPrefix "+PONG" "+PONG")) with false. cbn iota.
  destruct (Hinfo c2 Hr1 Hc2) as (c3 & size & -> & Hnl & Hc3 & Hend).
  destruct (readString_line rd1 c3 (ofString ("$" +:+ size) ++ [x0d]) (ofString (infoText ls)) Hrd1) as (rd2 & c4 & -> & Hrd2 & Hc4 & Hr2).
  { rewrite Hb1, Hc3. by rewrite <- !app_assoc. }
  { rewrite noNewline_app. change (noNewline (ofString size) && noNewline [x0d] = true). by rewrite Hnl. }
  cbn [bind]. change (toString ((ofString ("$" +:+ size) ++ [x0d]) ++ [x0a])) with (String "$" (toString ((ofString size ++ [x0d]) ++ [x0a]))).
  rewrite trimEOL_dollar. cbv zeta.
  set (tl := trimEOL _). change (HasPrefix (String "$" tl) "-NOAUTH") with false. change (HasPrefix (String "$" tl) "-ERR") with false.
  change (HasPrefix (String "$" tl) "$") with (HasPrefix tl ""). rewrite HasPrefix_nil. cbn [orb negb].
  rewrite (bufAll_ends rd2 c4 e) by (try done; intros c5 c6 n e' Hr; apply Hend; by eapply reads_trans).
  cbn [bind]. unfold ahead. rewrite Hc4. destruct (String.eqb_spec e "EOF") as [->|Hne].
  - rewrite toString_ofString. unfold redisInfo. rewrite redisPairs_text by done. eexists. split; [done|]. split; [done|]. intros _.
    cbn [Product Version Extra]. split; [done|]. split; [|eexists; split; [done|]].
    + intros v Hv. apply (foldl_pick (fun kv => String.eqb (fst kv) "redis_version") snd _ ("redis_version"%string, v)); [done|done|].
      intros [k w] Hw Hk%String.eqb_eq. cbn in Hk. subst k. cbn. by eapply NoDup_fst.
    + assert (Hauth : ~ In "auth"%string (map fst (renamed redisKey (infoProps ls)))).
      { intros ([k w] & Hk & (p & _ & Hp)%renamed_in)%in_map_iff. cbn in Hk. subst k. by apply (redisKey_auth p). }
      assert (Hnd : List.NoDup (map fst (("auth", "open")%string :: renamed redisKey (infoProps ls)))).
      { cbn. constructor; [done|]. by apply (renamed_NoDup redisKey redisKey_inj). }
      split; [apply assigns_lookup; [done|by left]|]. intros k v Hk. rewrite assigns_lookup by done. rewrite <- renamed_in. split; [|by right].
      intros [[= <- _]|?]; done.
  - eexists. split; [done|]. split; [done|]. intros ->. done.
Qed.
End RedisProbe.

(** ** Every probe returns *)

Section Returns.
Context {C : Type} `{Wire C}.

Lemma wp_probeNTP dial addr E : wp (probeNTP (C := C) dial addr) (fun i => Product i = ""%string \/ Product i = "NTP"%string) E.
Proof.
  unfold probeNTP. cbv zeta. destruct (dial addr) as [c|]; [|apply wp_ret; by left]. destruct (write _ c) as [c1|]; [|apply wp_ret; by left].
  destruct (recv 4096 c1) as [[buf e] c2]. destruct e; [apply wp_ret; by left|]. destruct (_ <? 12) eqn:El; [apply wp_ret; by left|]. to_prop.
  wp_step. wp_read. wp_step. wp_read. destruct (_ || _); [apply wp_ret; by left|]. wp_step. wp_read. wp_step. wp_read.
  match goal with |- context [be16 ?x ?y] => pose proof (be16_range x y) end.
  wp_step. apply wp_slice; [lia| |destruct (_ <? _) eqn:Ec; to_prop; lia|intros _; apply wp_ret; by right].
  destruct (_ <? _) eqn:Ec; to_prop; lia.
Qed.

Lemma wp_probePostgreSQL dial addr E : wp (probePostgreSQL (C := C) dial addr) (fun i => Product i = ""%string \/ Product i = "PostgreSQL"%string) E.
Proof.
  unfold probePostgreSQL. cbv zeta. destruct (dial addr) as [c|]; [|apply wp_ret; by left]. destruct (write _ c) as [c1|]; [|apply wp_ret; by right].
  wp_step. apply wp_recvFull; [lia| |intros; apply wp_ret; by right]. intros hdr c2 _ Hh _. wp_step. wp_read.
  destruct (negb _); [apply wp_ret; by right|]. wp_step. apply wp_sliceFrom; [lia|]. intros Hl. wp_step. apply wp_BE_Uint32; [lia|]. intros v Hv.
  destruct (_ || _) eqn:Eb; [apply wp_ret; by right|]. to_prop.
  wp_step. apply wp_recvFull; [lia| |intros; apply wp_ret; by right]. intros. apply wp_ret. by right.
Qed.

Lemma wp_probeRedis dial addr E : wp (probeRedis (C := C) dial addr) (fun i => Product i = ""%string \/ Product i = "Redis"%string) E.
Proof.
  unfold probeRedis. cbv zeta. destruct (dial addr) as [c|]; [|apply wp_ret; by left]. destruct (write _ c) as [c1|]; [|apply wp_ret; by right].
  wp_step. eapply wp_mono; [apply (wp_readString _ _ (fun _ => False))| |done]. intros [[[l e] rd] c2] _. destruct e; [apply wp_ret; by right|].
  destruct (negb _); [destruct (HasPrefix _ _); apply wp_ret; by right|]. destruct (write _ c2) as [c3|]; [|apply wp_ret; by right].
  wp_step. eapply wp_mono; [apply (wp_readString _ _ (fun _ => False))| |done]. intros [[[h e] rd2] c4] _. destruct e; [apply wp_ret; by right|].
  destruct (_ || _); [apply wp_ret; by right|]. destruct (negb _); [apply wp_ret; by right|].
  wp_step. eapply wp_mono; [apply (wp_bufAll_returns rd2 c4 (fun _ => False))| |done]. intros [body e] _. destruct e; apply wp_ret; by right.
Qed.

Lemma wp_probeMemcached dial addr E : wp (probeMemcached (C := C) dial addr) (fun i => Product i = ""%string \/ Product i = "memcached"%string) E.
Proof.
  unfold probeMemcached. cbv zeta. destruct (dial addr) as [c|]; [|apply wp_ret; by left]. destruct (write _ c) as [c1|]; [|apply wp_ret; by right].
  wp_step. eapply wp_mono; [apply (wp_readString _ _ (fun _ => False))| |done]. intros [[[l e] rd] c2] _. destruct e; apply wp_ret; right; [done|].
  unfold memcachedInfo. destruct (HasPrefix _ _); [done|]. by destruct (_ || _).
Qed.

Lemma wp_probeTelnet dial addr E : wp (probeTelnet (C := C) dial addr) (fun _ => True) E.
Proof.
  unfold probeTelnet. cbv zeta. destruct (dial addr) as [c|]; [|by apply wp_ret].
  set (c1 := match write _ c with inl c => c | inr _ => c end). destruct (recv 4096 c1) as [[buf e] c2] eqn:Er.
  apply recv_spec in Er as (_ & Hl & _); [|lia]. destruct (_ =? 0); [by apply wp_ret|]. destruct (String.eqb _ ""); [by apply wp_ret|].
  rewrite itoa_small by (pose proof (blen_nonneg buf); lia). by apply wp_ret.
Qed.

(** Whatever a server sends and however it is cut, the NTP, PostgreSQL, Redis,
    memcached and Telnet probes return: no read is out of bounds and no loop goes on. *)
Theorem serviceProbes_return dial addr :
  (exists i, probeNTP (C := C) dial addr = Ret i) /\ (exists i, probePostgreSQL dial addr = Ret i) /\
  (exists i, probeRedis dial addr = Ret i) /\ (exists i, probeMemcached dial addr = Ret i) /\ (exists i, probeTelnet dial addr = Ret i).
Proof.
  assert (Hr : forall (m : outcome serviceInfo) (Q : serviceInfo -> Prop), wp m Q (fun _ => False) -> exists i, m = Ret i)
    by (intros [i| | |] Q; try done; by exists i).
  split; [eapply Hr, wp_probeNTP|]. split; [eapply Hr, wp_probePostgreSQL|]. split; [eapply Hr, wp_probeRedis|].
  split; [eapply Hr, wp_probeMemcached|eapply Hr, wp_probeTelnet].
Qed.
End Returns.

(** ** Concrete conversations *)

(** A peer that keeps the connection open: a read past what it sent meets the deadline. *)
Record patient := Patient { talk : dialogue }.

#[export] Program Instance patientWire : Wire patient := {|
  incoming o := incoming (talk o);
  recv n o := let '(b, e, d) := recv n (talk o) in (b, (fun _ => "i/o timeout"%string) <$> e, Patient d);
  write b o := match write b (talk o) with inl d => inl (Patient d) | inr e => inr e end
|}.
Next Obligation.
  intros n o b e o' Hn. cbn [recv incoming]. destruct (recv n (talk o)) as [[b1 e1] d] eqn:E. intros [= <- <- <-].
  apply recv_spec in E; [|done]. by destruct e1.
Qed.

Module ServiceWitnesses.
Lemma stripTelnetIAC_text_witness :
  let items := [TOption xfb x01; TSub [x18; x01]; TCommand xf9] ++ map TChar (ofString "login: ") in
  flat_map encItem items = [xff; xfb; x01; xff; xfa; x18; x01; xff; xf0; xff; xf9] ++ ofString "login: "
  /\ stripTelnetIAC (flat_map encItem items) = TrimSpace (unixLines (toString (List.filter printable (flat_map itemText items))))
  /\ TrimSpace (unixLines (toString (List.filter printable (flat_map itemText items)))) = "login:"%string.
Proof.
  split; [reflexivity|]. split; [|by vm_compute]. apply stripTelnetIAC_text.
  repeat (apply Forall_cons; split; [solve [done|split; done|reflexivity]|]). done.
Defined.

Definition refusal : list (byte * bytes) := [(x53, ofString "FATAL"); (x56, ofString "FATAL"); (x43, ofString "28000"); (x4d, ofString "no such role")].
Definition postgres : bytes := [x45] ++ putBE32 (4 + blen (flat_map encField refusal ++ [x00])) ++ flat_map encField refusal ++ [x00] ++ [].

Lemma probePostgreSQL_reports_witness :
  (exists info extra, probePostgreSQL (fun _ => Some postgres) "h:5432" = Ret info /\ Product info = "PostgreSQL"%string
    /\ Banner info = toString (ofString "no such role") /\ Extra info = Some extra
    /\ (forall k v, extra !! k = Some v <-> exists t b, In (t, b) refusal /\ pgKey t = Some k /\ v = toString b)
    /\ (Version info = ">=9.3"%string <-> exists b, In (x56, b) refusal)).
Proof.
  apply (probePostgreSQL_reports _ _ postgres postgres refusal _ []).
  - reflexivity.
  - reflexivity.
  - repeat (apply Forall_cons; split; [split; [done|repeat constructor; done]|]). done.
  - repeat (constructor; [cbn; intuition congruence|]). constructor.
  - cbn. tauto.
  - by vm_compute.
  - reflexivity.
Defined.

Definition ntpVars : list ntpVar :=
  [{| vSpace := ""; vKey := "version"; vValue := "ntpd 4.2.8"; vQuoted := true |}; {| vSpace := " "; vKey := "stratum"; vValue := "2"; vQuoted := false |}].
Definition ntpText : string := Join (map renderVar ntpVars) ",".
Definition ntpAnswer : bytes := [x16; x82] ++ repeat x00 8 ++ putBE16 (slen ntpText) ++ ofString ntpText ++ [].

Lemma probeNTP_reports_witness :
  exists info extra, probeNTP (fun _ => Some ntpAnswer) "h:123" = Ret info /\ Product info = "NTP"%string /\ Extra info = Some extra
    /\ Version info = get extra "version"
    /\ forall k v, extra !! k = Some v <-> In k ntpKeys /\ exists x, In x ntpVars /\ vKey x = k /\ vValue x = v.
Proof.
  apply (probeNTP_reports _ _ ntpAnswer ntpAnswer [] (repeat x00 8) []).
  - reflexivity.
  - reflexivity.
  - done.
  - repeat (apply Forall_cons; split; [unfold varOk; cbn; split_and!; try done; constructor|]). done.
  - repeat (constructor; [cbn; intuition congruence|]). constructor.
  - reflexivity.
  - by vm_compute.
  - by vm_compute.
Defined.

Definition infoReply : list infoLine :=
  [IOther "# Server"; IProperty "redis_version" "7.2.4"; IProperty "role" "master"; IOther ""]%string.
Definition redis : dialogue :=
  {| inbox := []; script := [[ofString "+PONG"; crlf]; [ofString "$60" ++ crlf; ofString (infoText infoReply)]]; sent := [] |}.
Definition afterPing : dialogue := match write (resp "PING") redis with inl c => c | inr _ => redis end.

Lemma dialogue_eof n (d : dialogue) e d' : recv n d = ([], Some e, d') -> e = "EOF"%string.
Proof.
  cbn. destruct (recvPieces n (inbox d)) as [[b e1] segs] eqn:E. intros [= -> -> _]. revert E.
  induction (inbox d) as [|seg l IH]; cbn [recvPieces]; [by intros [= <- _]|]. destruct seg; [exact IH|]. by destruct (_ <=? n).
Qed.

Lemma redis_server : redisServer afterPing infoReply "EOF".
Proof.
  split; [by vm_compute|]. intros c1 Hr Hi.
  destruct (dialogue_serves [resp "INFO"] afterPing c1 Hr Hi) as (c2 & Hw & Hc2 & _). exists c2, "60"%string.
  split; [done|]. split; [reflexivity|]. split; [by rewrite Hc2; vm_compute|]. intros c3 c4 n e' _. apply dialogue_eof.
Qed.

Lemma probeRedis_reports_witness :
  exists info, probeRedis (fun _ => Some redis) "h:6379" = Ret info
    /\ ("EOF"%string <> "EOF"%string -> info = productInfo "Redis")
    /\ ("EOF"%string = "EOF"%string -> Product info = "Redis"%string
        /\ (forall v, In ("redis_version"%string, v) (infoProps infoReply) -> Version info = v)
        /\ exists extra, Extra info = Some extra /\ extra !! "auth"%string = Some "open"%string
           /\ forall k v, k <> "auth"%string -> extra !! k = Some v <-> exists p, In (p, v) (infoProps infoReply) /\ redisKey p = Some k).
Proof.
  apply (probeRedis_reports _ _ redis afterPing infoReply "EOF").
  - reflexivity.
  - reflexivity.
  - exact redis_server.
  - repeat (apply Forall_cons; split; [by split|]). done.
  - repeat (constructor; [cbn; intuition congruence|]). constructor.
Defined.

(** The same server, that waits for the next command: its version is lost. *)
Example redis_open : probeRedis (fun _ => Some (Patient redis)) "h:6379" = Ret (productInfo "Redis")
  /\ Version <$> match probeRedis (fun _ => Some redis) "h:6379" with Ret i => Some i | _ => None end = Some "7.2.4"%string.
Proof. split; by vm_compute. Qed.
End ServiceWitnesses.
