(* ===== verification/Dns.v ===== *)
(** DNS: the resource records the checks look at, and of [dns_extra.go] the transports
    of [--dns], [queryDNS], [resolveViaTransport] and [queryNSID] over an exchange with a
    resolver. *)

From Stdlib Require Import ZArith List String Ascii Strings.Byte Lia Bool.
From stdpp Require Import base list strings.
From S2P Require Import Prelude Bytes GoStrings Text.
Open Scope Z_scope.

(** The records of the miekg/dns package, as far as the code reads them; a name is in
    the textual form with its final dot. *)
Inductive rr :=
| A (addr : string)
| TXT (txt : list string)
| MX (mx : string)
| AAAA (addr : option string)
| TLSA (usage : Z)
| OtherRR.

Definition TypeA : Z := 1.
Definition TypeMX : Z := 15.
Definition TypeTXT : Z := 16.
Definition TypeAAAA : Z := 28.
Definition TypeTLSA : Z := 52.

Record dnsTransport := { Mode : string; Server : string }.

Definition showTransport (t : option dnsTransport) : string :=
  match t with None => "udp:1.1.1.1:53" | Some t => (Mode t +:+ "://" +:+ Server t)%string end.

Definition hasChar (c : ascii) (s : string) : bool := negb (lacks c s).

(** [net.JoinHostPort] *)
Definition JoinHostPort (host port : string) : string :=
  if hasChar ":" host || hasChar "%" host then ("[" +:+ host +:+ "]:" +:+ port)%string else (host +:+ ":" +:+ port)%string.

(** [if server == "" ...; if !strings.Contains(server, ":") ...] *)
Definition withDefaults (host port server : string) : string :=
  let server := if String.eqb server "" then host else server in
  if hasChar ":" server then server else JoinHostPort server port.

(** [quote] is [%q]; no transport is the one of the system. *)
Definition parseDNSTransport (quote : string -> string) (spec : string) : option dnsTransport + string :=
  let spec := TrimSpace spec in
  if String.eqb spec "" || String.eqb spec "system" then inl None
  else if String.eqb spec "doh" || HasPrefix spec "doh:" then
    let server := TrimPrefix (TrimPrefix spec "doh") ":" in
    inl (Some {| Mode := "doh"; Server := if String.eqb server "" then "https://cloudflare-dns.com/dns-query" else server |})
  else
    let '(mode, server, _) := Cut spec ":" in
    let transport s := inl (Some {| Mode := mode; Server := s |}) in
    if String.eqb mode "udp" || String.eqb mode "tcp" then transport (withDefaults "1.1.1.1" "53" server)
    else if String.eqb mode "dot" then transport (withDefaults "1.1.1.1" "853" server)
    else if String.eqb mode "doq" then transport (withDefaults "dns.quad9.net" "853" server)
    else inr ("unknown DNS transport " +:+ quote mode +:+ " (use system, udp, tcp, dot, doh or doq)")%string.

Record dnsMsg := { Truncated : bool; Rcode : Z; Answer : list rr }.

Section Query.
(** [dnsExchange]: the answer of the resolver behind a transport to a question *)
Context (dnsExchange : option dnsTransport -> string -> Z -> dnsMsg + string).
(** [dns.RcodeToString] *)
Context (rcodeToString : Z -> string).

(** [dns.Fqdn] of a name without escapes *)
Definition Fqdn (s : string) : string := if HasSuffix s "." then s else (s +:+ ".")%string.

Definition tcpTransport (transport : option dnsTransport) : dnsTransport :=
  {| Mode := "tcp"; Server := match transport with Some t => Server t | None => "1.1.1.1:53"%string end |}.

Definition queryDNS (transport : option dnsTransport) (host : string) (qtype : Z) : list rr + string :=
  match dnsExchange transport (Fqdn host) qtype with
  | inr e => inr e
  | inl r =>
      let r :=
        if Truncated r && match transport with None => true | Some t => String.eqb (Mode t) "udp" end then
          match dnsExchange (Some (tcpTransport transport)) (Fqdn host) qtype with inl r2 => r2 | inr _ => r end
        else r in
      if negb (Rcode r =? 0) && negb (Rcode r =? 3) then inr ("rcode " +:+ rcodeToString (Rcode r))%string
      else inl (Answer r)
  end.
End Query.

(** ** Addresses of a host *)

Section Resolve.
Context (query : string -> Z -> list rr + string).

(** The turn of a goroutine: the addresses it appends, or the first error. *)
Definition resolveTurn (host : string) (st : list (option string) * option string) (qtype : Z) : list (option string) * option string :=
  let '(ips, firstErr) := st in
  match query host qtype with
  | inr e => (ips, match firstErr with None => Some e | _ => firstErr end)
  | inl rrs => (ips ++ flat_map (fun x => match x with A a => [Some a] | AAAA a => [a] | _ => [] end) rrs, firstErr)
  end.

(** [arrival]: the order in which the goroutines of A and AAAA get the lock *)
Definition resolveViaTransport (arrival : list Z -> list Z) (host : string) : list (option string) + string :=
  match foldl (resolveTurn host) ([], None) (arrival [TypeA; TypeAAAA]) with
  | ([], Some e) => inr e
  | (ips, _) => inl ips
  end.
End Resolve.

(** ** Name server identifiers *)

Definition hexNibble (c : ascii) : option Z :=
  if isDigit c then Some (code c - 48)
  else if (97 <=? code c) && (code c <=? 102) then Some (code c - 97 + 10)
  else if (65 <=? code c) && (code c <=? 70) then Some (code c - 65 + 10)
  else None.

(** The loop that fills [buf] *)
Fixpoint nsidBytes (s : string) : option bytes :=
  match s with
  | String a (String b s) =>
      match hexNibble a, hexNibble b, nsidBytes s with
      | Some hi, Some lo, Some buf => Some (byteOf (Z.lor (Z.shiftl hi 4) lo) :: buf)
      | _, _, _ => None
      end
  | EmptyString => Some []
  | _ => None
  end.

Definition printable (b : bytes) : bool := forallb (fun c => (32 <=? bval c) && (bval c <? 127)) b.

Definition decodeNSID (hexStr : string) : string :=
  if String.eqb hexStr "" then hexStr
  else
    match nsidBytes hexStr with
    | None => hexStr
    | Some buf => if printable buf then toString buf else hexStr
    end.

(** What the answer holds in its OPT records: the texts of the NSID options in order *)
Definition queryNSID (answer : list (list string) + string) : string :=
  match answer with
  | inr _ => ""
  | inl opts => match List.filter (fun n => negb (String.eqb n "")) (concat opts) with n :: _ => decodeNSID n | [] => "" end
  end.

(** The records of a query whose error is ignored *)
Definition records (r : list rr + string) : list rr := match r with inl l => l | inr _ => [] end.

(** [strings.Join(t.Txt, "")] of each TXT record *)
Definition texts (l : list rr) : list string := flat_map (fun r => match r with TXT t => [Join t ""] | _ => [] end) l.

(** ** What is read of a transport *)

Definition defaultPort (mode : string) : string := if String.eqb mode "udp" || String.eqb mode "tcp" then "53" else "853".

(** The value of [--dns]: a mode followed by a server is that transport, with the
    server as it is when it has a port (or any colon) and with the port of the mode
    added when it is a plain name; a DoH server is taken whole. *)
Theorem parseDNSTransport_written quote mode server
    (Hm : In mode ["udp"; "tcp"; "dot"; "doq"]%string) (Hs : server <> ""%string) (Ht : trimmed (mode +:+ ":" +:+ server) = true) :
  parseDNSTransport quote (mode +:+ ":" +:+ server) =
    inl (Some {| Mode := mode;
                 Server := if lacks ":" server && lacks "%" server then (server +:+ ":" +:+ defaultPort mode)%string
                           else if lacks ":" server then ("[" +:+ server +:+ "]:" +:+ defaultPort mode)%string else server |}) /\
  (trimmed ("doh:" +:+ server) = true -> parseDNSTransport quote ("doh:" +:+ server) = inl (Some {| Mode := "doh"; Server := server |})).
Proof.
  apply String.eqb_neq in Hs. split.
  - unfold parseDNSTransport. rewrite TrimSpace_trimmed by done.
    assert (Hw : forall h p, withDefaults h p server =
      if lacks ":" server && lacks "%" server then (server +:+ ":" +:+ p)%string
      else if lacks ":" server then ("[" +:+ server +:+ "]:" +:+ p)%string else server).
    { intros h p. unfold withDefaults, JoinHostPort, hasChar. rewrite Hs. destruct (lacks ":" server); [|done]. by destruct (lacks "%" server). }
    change (mode +:+ ":" +:+ server)%string with (mode +:+ String ":" server)%string in *.
    destruct Hm as [<-|[<-|[<-|[<-|[]]]]]; rewrite Cut_app by done; cbn -[lacks withDefaults]; rewrite Hw; done.
  - intros Ht'. unfold parseDNSTransport. rewrite TrimSpace_trimmed by done.
    change (TrimPrefix (TrimPrefix ("doh:" +:+ server) "doh") ":") with (TrimPrefix (":" +:+ server) ":").
    assert (Hp : TrimPrefix (":" +:+ server) ":" = server).
    { unfold TrimPrefix, HasPrefix. cbn. by destruct server. }
    cbv zeta. rewrite Hp, Hs. cbn. by destruct server.
Qed.

(** ** Identifiers *)

Lemma hexNibble_char d : 0 <= d < 16 -> hexNibble (hexChar d) = Some d.
Proof.
  intros Hd. assert (Ha : forallb (fun n => match hexNibble (hexChar (Z.of_nat n)) with Some j => j =? Z.of_nat n | None => false end) (List.seq 0 16) = true)
    by (by vm_compute).
  rewrite forallb_forall in Ha. specialize (Ha (Z.to_nat d) ltac:(apply in_seq; lia)). rewrite Z2Nat.id in Ha by lia.
  destruct (hexNibble _) as [j|]; [|done]. apply Z.eqb_eq in Ha as ->. done.
Qed.

Lemma nibbles x : 0 <= Z.shiftr (bval x) 4 < 16 /\ 0 <= Z.land (bval x) 15 < 16 /\
  byteOf (Z.lor (Z.shiftl (Z.shiftr (bval x) 4) 4) (Z.land (bval x) 15)) = x.
Proof. destruct x; by vm_compute. Qed.

Lemma nsidBytes_encode b : nsidBytes (hexEncode b) = Some b.
Proof.
  unfold hexEncode. induction b as [|x b IH]; [done|]. cbn [map]. rewrite concat_empty_cons. unfold hexByte at 1.
  destruct (nibbles x) as (Hh & Hl & Hx). change (String ?a (String ?c "") +:+ ?r)%string with (String a (String c r)).
  cbn [nsidBytes]. by rewrite !hexNibble_char, IH, Hx.
Qed.

(** An NSID is shown as text exactly when all its bytes are printable, and as its
    hexadecimal digits otherwise; nothing else is changed. *)
Theorem decodeNSID_hex b : decodeNSID (hexEncode b) = if printable b then toString b else hexEncode b.
Proof.
  unfold decodeNSID. rewrite nsidBytes_encode. destruct b as [|x b]; [done|].
  destruct (String.eqb_spec (hexEncode (x :: b)) "") as [E|_]; [|done].
  apply (f_equal String.length) in E. rewrite length_hexEncode in E. cbn in E. lia.
Qed.
