(* ===== verification/Dnssec.v ===== *)
(** DNSSEC: the validation of a chain from the root ([dnssec_chain.go]), the status in
    the DNS check ([dnssec.go]), its picture ([dnssec_visualizer.go]), the changes of
    algorithm ([dns_algo_rollover.go], [dns_dnskey_query.go]) and the walk along NSEC
    records ([dns_nsec_walk.go]).  The exchange with the resolver, the cryptography of
    the miekg/dns package and the list of public suffixes are parameters. *)

From Stdlib Require Import ZArith List String Ascii Strings.Byte Lia Bool.
From stdpp Require Import base list strings.
From S2P Require Import Prelude Bytes GoStrings Text Result Dns.
Open Scope Z_scope.

(** ** Records of the miekg/dns package *)

Record dnskey := { kName : string; kFlags : Z; kAlgorithm : Z; kPublicKey : string }.
Record dsData := { dTag : Z; dAlgorithm : Z; dDigestType : Z; dDigest : string }.
Record rrsig := { sTypeCovered : Z; sAlgorithm : Z; sTag : Z; sSigner : string; sInception : Z; sExpiration : Z; sSignature : string }.

(** The records of an answer, as far as these files read them. *)
Inductive secRR :=
| RA (addr : string)
| RDNSKEY (k : dnskey)
| RDS (d : dsData)
| RRRSIG (s : rrsig)
| RNSEC (owner next : string)
| ROther.

Record secMsg := { mRcode : Z; mAD : bool; mAnswer : list secRR; mNs : list secRR }.

Definition TypeDS : Z := 43.
Definition TypeDNSKEY : Z := 48.
Definition SHA256 : Z := 2.

(** [DNSKEY.KeyTag], [DNSKEY.ToDS] with its digest in hexadecimal, and
    [RRSIG.Verify], which is the cryptographic test alone. *)
Class DnsCrypto := {
  KeyTag : dnskey -> Z;
  ToDS : dnskey -> Z -> option string;
  Verify : rrsig -> dnskey -> list secRR -> bool
}.

(** [strings.EqualFold] on ASCII *)
Definition EqualFold (s t : string) : bool := String.eqb (ToLower s) (ToLower t).

(** [strings.ReplaceAll(s, " ", "")] *)
Fixpoint dropSpaces (s : string) : string :=
  match s with
  | EmptyString => EmptyString
  | String c s => if Ascii.eqb c " " then dropSpaces s else String c (dropSpaces s)
  end.

(** ** The chain of trust *)

Record rootTrustAnchor := { rKeyTag : Z; rAlgorithm : Z; rDigestType : Z; rDigest : string }.

Definition rootAnchors : list rootTrustAnchor :=
  [{| rKeyTag := 20326; rAlgorithm := 8; rDigestType := 2;
      rDigest := "E06D44B80B8F1D39A95C0B0D7C65D08458E880409BBC683457104237C7F8EC8D" |};
   {| rKeyTag := 38696; rAlgorithm := 8; rDigestType := 2;
      rDigest := "683D2D0ACB8C9B712A1948B27F741219298D0A450D612C483AF444A4C0FB2B16" |}].

Record dnssecLevelResult := {
  Zone : string; Trusted : bool; lReason : string; KSKTag : Z; ZSKTags : list Z; lAlgorithm : string }.
Record dnssecAnswer := { aType : string; Records : list string; SignedBy : Z; Verified : bool }.
Record dnssecValidation := {
  Validated : bool; vReason : string; Levels : list dnssecLevelResult; LeafAnswer : option dnssecAnswer }.

Definition algorithmName (alg : Z) : string :=
  if alg =? 8 then "RSASHA256"
  else if alg =? 13 then "ECDSAP256SHA256"
  else if alg =? 14 then "ECDSAP384SHA384"
  else if alg =? 15 then "Ed25519"
  else if alg =? 16 then "Ed448"
  else ("alg-" +:+ fmtD alg)%string.

(** What the loops over an answer collect. *)
Definition dnskeysOf (rrs : list secRR) : list dnskey := flat_map (fun r => match r with RDNSKEY k => [k] | _ => [] end) rrs.
Definition ksks (keys : list dnskey) : list dnskey := List.filter (fun k => kFlags k =? 257) keys.
Definition isDS (r : secRR) : bool := match r with RDS _ => true | _ => false end.
Definition isA (r : secRR) : bool := match r with RA _ => true | _ => false end.

(** The last signature over records of the type. *)
Definition sigOver (qtype : Z) (rrs : list secRR) : option rrsig :=
  foldl (fun sig r => match r with RRRSIG s => if sTypeCovered s =? qtype then Some s else sig | _ => sig end) None rrs.

Section Chain.
Context `{DnsCrypto}.
(** [dnsExchange] for a question with EDNS0 and the DO bit: a name and a type. *)
Context (exchange : string -> Z -> secMsg + string).

(** The KSKs and all keys of the zone, or the error. *)
Definition fetchDNSKEYs (zone : string) : (list dnskey * list dnskey) + string :=
  match exchange (Fqdn zone) TypeDNSKEY with
  | inr e => inr e
  | inl r =>
      let all := dnskeysOf (mAnswer r) in
      match all with
      | [] => inr ("zone " +:+ zone +:+ " has no DNSKEY records")%string
      | _ => inl (ksks all, all)
      end
  end.

Definition fetchSignedDS (zone : string) : (list secRR * rrsig) + string :=
  match exchange (Fqdn zone) TypeDS with
  | inr e => inr e
  | inl r =>
      let dsSet := List.filter isDS (mAnswer r) in
      match dsSet, sigOver TypeDS (mAnswer r) with
      | [], _ => inr ("no DS records for " +:+ zone)%string
      | _, None => inr ("no RRSIG over DS for " +:+ zone)%string
      | _, Some sig => inl (dsSet, sig)
      end
  end.

Definition fetchSignedA (qname : string) : (list secRR * rrsig) + string :=
  match exchange (Fqdn qname) TypeA with
  | inr e => inr e
  | inl r =>
      let aSet := List.filter isA (mAnswer r) in
      match aSet, sigOver TypeA (mAnswer r) with
      | [], _ => inr "no A records"%string
      | _, None => inr "no RRSIG over A — name is not signed"%string
      | _, Some sig => inl (aSet, sig)
      end
  end.

(** [None] is the nil error. *)
Definition verifyRRSIG (sig : rrsig) (rrset : list secRR) (keys : list dnskey) : option string :=
  if existsb (fun k => (KeyTag k =? sTag sig) && (kAlgorithm k =? sAlgorithm sig) && Verify sig k rrset) keys then None
  else Some ("no matching DNSKEY verified the signature (key tag " +:+ fmtD (sTag sig) +:+ ", alg " +:+ fmtD (sAlgorithm sig) +:+ ")")%string.

(** [for i := range rootAnchors] for a key with its digest *)
Definition anchorMatches (k : dnskey) (digestHex : string) (a : rootTrustAnchor) : bool :=
  (rKeyTag a =? KeyTag k) && (rAlgorithm a =? kAlgorithm k) && (rDigestType a =? SHA256)
  && (EqualFold (rDigest a) digestHex || EqualFold (dropSpaces (rDigest a)) digestHex).

Fixpoint matchRootAnchor (keys : list dnskey) : option (dnskey * rootTrustAnchor) :=
  match keys with
  | [] => None
  | k :: keys =>
      if negb (kFlags k =? 257) then matchRootAnchor keys else
      match ToDS k SHA256 with
      | None => matchRootAnchor keys
      | Some digest =>
          match List.find (anchorMatches k (ToUpper digest)) rootAnchors with
          | Some a => Some (k, a)
          | None => matchRootAnchor keys
          end
      end
  end.

Definition dsMatches (d : dsData) (k : dnskey) : bool :=
  (KeyTag k =? dTag d) && (kAlgorithm k =? dAlgorithm d)
  && match ToDS k (dDigestType d) with Some computed => EqualFold computed (dDigest d) | None => false end.

Fixpoint matchDSToDNSKEY (dsRRs : list secRR) (keys : list dnskey) : option dnskey :=
  match dsRRs with
  | [] => None
  | RDS d :: dsRRs => match List.find (dsMatches d) keys with Some k => Some k | None => matchDSToDNSKEY dsRRs keys end
  | _ :: dsRRs => matchDSToDNSKEY dsRRs keys
  end.

Definition levelError (zone reason : string) : dnssecLevelResult :=
  {| Zone := zone; Trusted := false; lReason := reason; KSKTag := 0; ZSKTags := []; lAlgorithm := "" |}.

(** One zone of Phase 2: its level and its keys, or the level of the failure. *)
Definition zoneStep (parentDNSKEYs : list dnskey) (zone : string) : (dnssecLevelResult * list dnskey) + dnssecLevelResult :=
  match fetchSignedDS zone with
  | inr e => inr (levelError zone ("no DS in parent: " +:+ e))
  | inl (dsRRs, dsRRSIG) =>
      match verifyRRSIG dsRRSIG dsRRs parentDNSKEYs with
      | Some e => inr (levelError zone ("DS RRSIG verification failed: " +:+ e))
      | None =>
          match fetchDNSKEYs zone with
          | inr e => inr (levelError zone ("could not fetch zone DNSKEY: " +:+ e))
          | inl (zoneKSKs, all) =>
              match matchDSToDNSKEY dsRRs zoneKSKs with
              | None => inr (levelError zone "no DS digest matched any DNSKEY at zone")
              | Some matched =>
                  inl ({| Zone := zone; Trusted := true; lReason := ""; KSKTag := KeyTag matched;
                          ZSKTags := map KeyTag (List.filter (fun k => kFlags k =? 256) all);
                          lAlgorithm := algorithmName (kAlgorithm matched) |}, all)
              end
          end
      end
  end.

(** [for _, zone := range zones[1:]]: the levels, with the keys of the last zone or the
    reason of the failure. *)
Fixpoint walkZones (zones : list string) (parentDNSKEYs : list dnskey) (levels : list dnssecLevelResult)
    : list dnssecLevelResult * (list dnskey + string) :=
  match zones with
  | [] => (levels, inl parentDNSKEYs)
  | zone :: zones =>
      match zoneStep parentDNSKEYs zone with
      | inr level => (levels ++ [level], inr (lReason level))
      | inl (level, keys) => walkZones zones keys (levels ++ [level])
      end
  end.

(** [publicsuffix.EffectiveTLDPlusOne] *)
Context (eTLDPlusOne : string -> string + string).

(** [regDomain[strings.Index(regDomain, ".")+1:]] *)
Definition afterDot (s : string) : string := snd (fst (Cut s ".")).

Definition failed (levels : list dnssecLevelResult) (reason : string) : dnssecValidation :=
  {| Validated := false; vReason := reason; Levels := levels; LeafAnswer := None |}.

Definition validateDNSSECChain (qname : string) : dnssecValidation :=
  let qname := Fqdn (ToLower qname) in
  match eTLDPlusOne (TrimSuffix qname ".") with
  | inr _ | inl ""%string => failed [] "could not derive registrable domain"
  | inl regDomain =>
      let regDomain := Fqdn regDomain in
      let tld := Fqdn (afterDot regDomain) in
      match fetchDNSKEYs "." with
      | inr e => failed [] ("could not fetch root DNSKEY: " +:+ e)
      | inl (rootKSKs, rootDNSKEYs) =>
          match matchRootAnchor rootKSKs with
          | None =>
              let reason := "root KSK does not match any IANA trust anchor"%string in
              failed [levelError "." reason] reason
          | Some (matchedKSK, anchor) =>
              let rootLevel := {| Zone := "."; Trusted := true; lReason := ""; KSKTag := KeyTag matchedKSK; ZSKTags := [];
                                  lAlgorithm := algorithmName (rAlgorithm anchor) |} in
              match walkZones [tld; regDomain] rootDNSKEYs [rootLevel] with
              | (levels, inr reason) => failed levels reason
              | (levels, inl parentDNSKEYs) =>
                  match fetchSignedA qname with
                  | inr e => failed levels ("no signed A for " +:+ qname +:+ ": " +:+ e)
                  | inl (rrset, sig) =>
                      match verifyRRSIG sig rrset parentDNSKEYs with
                      | Some e =>
                          {| Validated := false; vReason := ("A RRSIG verification failed: " +:+ e)%string; Levels := levels;
                             LeafAnswer := Some {| aType := "A"; Records := []; SignedBy := 0; Verified := false |} |}
                      | None =>
                          {| Validated := true; vReason := ""; Levels := levels;
                             LeafAnswer := Some {| aType := "A";
                               Records := flat_map (fun r => match r with RA a => [a] | _ => [] end) rrset;
                               SignedBy := sTag sig; Verified := true |} |}
                      end
                  end
              end
          end
      end
  end.

(** ** The status of the DNS check *)

Record dnssecStatus := {
  Signed : bool; sValidated : bool; ChainValidated : bool; statusAlgorithm : string; statusChain : option dnssecValidation }.

(** [dns.AlgorithmToString] *)
Context (algorithmToString : Z -> option string).

Definition firstSig (rrs : list secRR) : option rrsig :=
  match List.find (fun r => match r with RRRSIG _ => true | _ => false end) rrs with Some (RRRSIG s) => Some s | _ => None end.

Definition checkDNSSECStatus (host : string) : dnssecStatus :=
  match exchange (Fqdn host) TypeA with
  | inr _ => {| Signed := false; sValidated := false; ChainValidated := false; statusAlgorithm := ""; statusChain := None |}
  | inl r =>
      match firstSig (mAnswer r) with
      | None => {| Signed := false; sValidated := mAD r; ChainValidated := false; statusAlgorithm := ""; statusChain := None |}
      | Some sig =>
          let chain := validateDNSSECChain host in
          {| Signed := true; sValidated := mAD r; ChainValidated := Validated chain;
             statusAlgorithm := default ""%string (algorithmToString (sAlgorithm sig)); statusChain := Some chain |}
      end
  end.
End Chain.

(** ** What a chain of trust is *)

Section Trust.
Context `{DnsCrypto} (exchange : string -> Z -> secMsg + string) (eTLDPlusOne : string -> string + string).

(** The records in the answer to a question; none when the exchange fails. *)
Definition answerTo (name : string) (qtype : Z) : list secRR :=
  match exchange (Fqdn name) qtype with inl r => mAnswer r | inr _ => [] end.
Definition zoneKeys (zone : string) : list dnskey := dnskeysOf (answerTo zone TypeDNSKEY).

(** One of the keys made the signature over the set. *)
Definition signedBy (keys : list dnskey) (sig : rrsig) (rrset : list secRR) : Prop :=
  exists k, In k keys /\ KeyTag k = sTag sig /\ kAlgorithm k = sAlgorithm sig /\ Verify sig k rrset = true.

(** A key-signing key of the root has the digest of a published anchor. *)
Definition rootTrusted : Prop :=
  exists k a digest, In k (zoneKeys ".") /\ kFlags k = 257 /\ In a rootAnchors /\ ToDS k SHA256 = Some digest
    /\ KeyTag k = rKeyTag a /\ kAlgorithm k = rAlgorithm a /\ EqualFold (rDigest a) digest = true.

(** The parent signs a DS set that holds the digest of a key-signing key of the zone. *)
Definition delegates (parent zone : string) : Prop :=
  let ds := answerTo zone TypeDS in
  exists sig d k digest, sigOver TypeDS ds = Some sig /\ signedBy (zoneKeys parent) sig (List.filter isDS ds)
    /\ In (RDS d) ds /\ In k (zoneKeys zone) /\ kFlags k = 257 /\ KeyTag k = dTag d /\ kAlgorithm k = dAlgorithm d
    /\ ToDS k (dDigestType d) = Some digest /\ EqualFold digest (dDigest d) = true.

(** The zone signs the addresses of the name. *)
Definition signsAddresses (zone name : string) : Prop :=
  let rrs := answerTo name TypeA in
  exists sig, sigOver TypeA rrs = Some sig /\ List.filter isA rrs <> [] /\ signedBy (zoneKeys zone) sig (List.filter isA rrs).

Definition chainOfTrust (name : string) : Prop :=
  let qname := Fqdn (ToLower name) in
  exists reg, eTLDPlusOne (TrimSuffix qname ".") = inl reg /\ reg <> ""%string /\
    let tld := Fqdn (afterDot (Fqdn reg)) in
    rootTrusted /\ delegates "." tld /\ delegates tld (Fqdn reg) /\ signsAddresses (Fqdn reg) qname.

(** *** The functions decide it *)

Lemma verifyRRSIG_none sig rrset keys : verifyRRSIG sig rrset keys = None <-> signedBy keys sig rrset.
Proof.
  unfold verifyRRSIG, signedBy. split.
  - destruct (existsb _ keys) eqn:E; [|done]. intros _. apply existsb_exists in E as (k & Hin & Hk).
    exists k. repeat rewrite andb_true_iff in Hk. destruct Hk as [[Ht%Z.eqb_eq Ha%Z.eqb_eq] Hv]. done.
  - intros (k & Hin & Ht & Ha & Hv). replace (existsb _ keys) with true; [done|]. symmetry. apply existsb_exists.
    exists k. split; [done|]. by rewrite Ht, Ha, !Z.eqb_refl, Hv.
Qed.

Lemma fetchDNSKEYs_ok zone ks all : fetchDNSKEYs exchange zone = inl (ks, all) -> all = zoneKeys zone /\ ks = ksks all.
Proof.
  unfold fetchDNSKEYs, zoneKeys, answerTo. destruct (exchange _ _) as [r|e]; [|done].
  destruct (dnskeysOf (mAnswer r)) eqn:E; [done|]. intros [= <- <-]. done.
Qed.

Lemma fetchDNSKEYs_some zone k : In k (zoneKeys zone) -> fetchDNSKEYs exchange zone = inl (ksks (zoneKeys zone), zoneKeys zone).
Proof.
  unfold fetchDNSKEYs, zoneKeys, answerTo. destruct (exchange _ _) as [r|e]; [|done].
  by destruct (dnskeysOf (mAnswer r)).
Qed.

Lemma In_ksks k keys : In k (ksks keys) <-> In k keys /\ kFlags k = 257.
Proof. unfold ksks. rewrite filter_In. by rewrite Z.eqb_eq. Qed.

Lemma fetchSignedDS_iff zone rrset sig :
  fetchSignedDS exchange zone = inl (rrset, sig) <->
  rrset = List.filter isDS (answerTo zone TypeDS) /\ rrset <> [] /\ sigOver TypeDS (answerTo zone TypeDS) = Some sig.
Proof.
  unfold fetchSignedDS, answerTo. destruct (exchange _ _) as [r|e]; [|split; [done|intros (-> & Hn & _); done]].
  destruct (List.filter isDS (mAnswer r)) eqn:E; [split; [done|intros (-> & Hn & _); done]|].
  destruct (sigOver TypeDS (mAnswer r)); split; [by intros [= <- <-]|by intros (-> & _ & [= ->])|done|by intros (_ & _ & ?)].
Qed.

Lemma fetchSignedA_iff name rrset sig :
  fetchSignedA exchange name = inl (rrset, sig) <->
  rrset = List.filter isA (answerTo name TypeA) /\ rrset <> [] /\ sigOver TypeA (answerTo name TypeA) = Some sig.
Proof.
  unfold fetchSignedA, answerTo. destruct (exchange _ _) as [r|e]; [|split; [done|intros (-> & Hn & _); done]].
  destruct (List.filter isA (mAnswer r)) eqn:E; [split; [done|intros (-> & Hn & _); done]|].
  destruct (sigOver TypeA (mAnswer r)); split; [by intros [= <- <-]|by intros (-> & _ & [= ->])|done|by intros (_ & _ & ?)].
Qed.

Lemma matchDSToDNSKEY_iff rrs keys :
  (exists k, matchDSToDNSKEY rrs keys = Some k) <-> (exists d k, In (RDS d) rrs /\ In k keys /\ dsMatches d k = true).
Proof.
  induction rrs as [|r rrs IH]; [split; [by intros [k Hk]|by intros (d & k & [] & _)]|].
  assert (Hskip : (forall d, r <> RDS d) -> (exists d k, In (RDS d) rrs /\ In k keys /\ dsMatches d k = true)
     <-> (exists d k, In (RDS d) (r :: rrs) /\ In k keys /\ dsMatches d k = true)).
  { intros Hr. split; intros (d & k & Hd & Hk); exists d, k; (split; [|done]); [by right|]. destruct Hd as [Hd|Hd]; [by destruct (Hr d)|done]. }
  destruct r as [| |d| | |]; cbn [matchDSToDNSKEY]; try (rewrite IH; apply Hskip; intros d0; discriminate).
  destruct (List.find (dsMatches d) keys) as [k|] eqn:E.
  - apply find_some in E as [Hin Hm]. split; [|by exists k]. intros _. exists d, k. split; [by left|done].
  - rewrite IH. split; intros (d' & k & Hd & Hk & Hm); exists d', k; (split; [|done]); [by right|].
    destruct Hd as [[= ->]|Hd]; [|done]. by rewrite (find_none _ _ E k Hk) in Hm.
Qed.

Lemma zoneStep_iff parent zone :
  (exists level, zoneStep exchange (zoneKeys parent) zone = inl (level, zoneKeys zone)) <-> delegates parent zone.
Proof.
  unfold zoneStep, delegates. cbv zeta. split.
  - intros [level Hz]. destruct (fetchSignedDS exchange zone) as [[rrs sig]|] eqn:Eds; [|done].
    apply fetchSignedDS_iff in Eds as (-> & Hne & Hsig). destruct (verifyRRSIG _ _ _) eqn:Ev; [done|]. apply verifyRRSIG_none in Ev.
    destruct (fetchDNSKEYs exchange zone) as [[ks all]|] eqn:Ek; [|done]. apply fetchDNSKEYs_ok in Ek as [-> ->].
    destruct (matchDSToDNSKEY _ _) as [k|] eqn:Em; [|done].
    destruct (proj1 (matchDSToDNSKEY_iff _ _) (ex_intro _ k Em)) as (d & k' & Hd & Hk & Hm).
    apply filter_In in Hd as [Hd _]. apply In_ksks in Hk as [Hk Hf]. unfold dsMatches in Hm.
    repeat rewrite andb_true_iff in Hm. destruct Hm as [[Ht%Z.eqb_eq Ha%Z.eqb_eq] Hdig].
    destruct (ToDS k' (dDigestType d)) as [digest|] eqn:Etd; [|done]. by exists sig, d, k', digest.
  - intros (sig & d & k & digest & Hsig & Hsigned & Hd & Hk & Hf & Ht & Ha & Htd & He).
    assert (Hin : In (RDS d) (List.filter isDS (answerTo zone TypeDS))) by by apply filter_In.
    rewrite (proj2 (fetchSignedDS_iff zone (List.filter isDS (answerTo zone TypeDS)) sig)); [|split_and!; [done|by intros E; rewrite E in Hin|done]].
    rewrite (proj2 (verifyRRSIG_none _ _ _) Hsigned). rewrite (fetchDNSKEYs_some zone k Hk).
    destruct (proj2 (matchDSToDNSKEY_iff (List.filter isDS (answerTo zone TypeDS)) (ksks (zoneKeys zone)))) as [k' ->]; [|by eexists].
    exists d, k. split_and!; [done|by apply In_ksks|]. unfold dsMatches. by rewrite Ht, Ha, !Z.eqb_refl, Htd, He.
Qed.

Lemma zoneStep_keys parent zone level keys : zoneStep exchange parent zone = inl (level, keys) -> keys = zoneKeys zone.
Proof.
  unfold zoneStep. destruct (fetchSignedDS _ _) as [[rrs sig]|]; [|done]. destruct (verifyRRSIG _ _ _); [done|].
  destruct (fetchDNSKEYs _ _) as [[ks all]|] eqn:Ek; [|done]. apply fetchDNSKEYs_ok in Ek as [-> ->].
  destruct (matchDSToDNSKEY _ _); [|done]. by intros [= _ <-].
Qed.

(** Along two zones. *)
Lemma walkZones_iff tld reg levels :
  (exists levels', walkZones exchange [tld; reg] (zoneKeys ".") levels = (levels', inl (zoneKeys reg)))
  <-> delegates "." tld /\ delegates tld reg.
Proof.
  rewrite <- !zoneStep_iff. cbn [walkZones]. split.
  - intros [levels' Hw]. destruct (zoneStep exchange (zoneKeys ".") tld) as [[l1 k1]|] eqn:E1; [|done].
    pose proof (zoneStep_keys _ _ _ _ E1) as ->. split; [by exists l1|].
    destruct (zoneStep exchange (zoneKeys tld) reg) as [[l2 k2]|] eqn:E2; [|done].
    pose proof (zoneStep_keys _ _ _ _ E2) as ->. by exists l2.
  - intros [[l1 ->] [l2 ->]]. by eexists.
Qed.

Lemma walkZones_keys tld reg parent levels levels' keys :
  walkZones exchange [tld; reg] parent levels = (levels', inl keys) -> keys = zoneKeys reg.
Proof.
  cbn [walkZones]. destruct (zoneStep exchange parent tld) as [[l1 k1]|]; [|done].
  destruct (zoneStep exchange k1 reg) as [[l2 k2]|] eqn:E2; [|done]. intros [= _ <-]. by apply zoneStep_keys in E2.
Qed.

Lemma lower_upper c : lowerByte (upperByte c) = lowerByte c.
Proof. by destruct c as [[] [] [] [] [] [] [] []]. Qed.

Lemma EqualFold_upper s t : EqualFold s (ToUpper t) = EqualFold s t.
Proof.
  unfold EqualFold, ToLower, ToUpper. rewrite mapString_mapString. f_equal. apply mapString_ext, lower_upper.
Qed.

Lemma anchorMatches_iff k digest a : In a rootAnchors ->
  anchorMatches k (ToUpper digest) a = true
  <-> KeyTag k = rKeyTag a /\ kAlgorithm k = rAlgorithm a /\ EqualFold (rDigest a) digest = true.
Proof.
  intros Hin. assert (Hd : (rDigestType a =? SHA256) = true /\ dropSpaces (rDigest a) = rDigest a).
  { destruct Hin as [<-|[<-|[]]]; split; reflexivity. }
  destruct Hd as [Ht Hs]. unfold anchorMatches. rewrite Ht, Hs, orb_diag, EqualFold_upper, andb_true_r, !andb_true_iff, !Z.eqb_eq.
  split; [intros [[? ?] ?]|intros (? & ? & ?)]; done.
Qed.

Lemma matchRootAnchor_iff keys :
  (exists r, matchRootAnchor (ksks keys) = Some r) <->
  exists k a digest, In k keys /\ kFlags k = 257 /\ In a rootAnchors /\ ToDS k SHA256 = Some digest
    /\ KeyTag k = rKeyTag a /\ kAlgorithm k = rAlgorithm a /\ EqualFold (rDigest a) digest = true.
Proof.
  induction keys as [|k keys IH]; [split; [by intros [? ?]|by intros (? & ? & ? & [] & _)]|].
  assert (Hskip : (forall a digest, kFlags k = 257 -> In a rootAnchors -> ToDS k SHA256 = Some digest ->
      anchorMatches k (ToUpper digest) a = false) ->
    (exists k a digest, In k keys /\ kFlags k = 257 /\ In a rootAnchors /\ ToDS k SHA256 = Some digest
      /\ KeyTag k = rKeyTag a /\ kAlgorithm k = rAlgorithm a /\ EqualFold (rDigest a) digest = true)
    <-> (exists k' a digest, In k' (k :: keys) /\ kFlags k' = 257 /\ In a rootAnchors /\ ToDS k' SHA256 = Some digest
      /\ KeyTag k' = rKeyTag a /\ kAlgorithm k' = rAlgorithm a /\ EqualFold (rDigest a) digest = true)).
  { intros Hno. split; intros (k' & a & digest & Hin & Hf & Ha & Hd & Hm); exists k', a, digest; (split; [|done]); [by right|].
    destruct Hin as [<-|Hin]; [|done]. apply anchorMatches_iff in Hm; [|done]. by rewrite Hno in Hm. }
  unfold ksks. cbn [List.filter]. destruct (Z.eqb_spec (kFlags k) 257) as [Hf|Hf]; fold (ksks keys).
  2:{ rewrite IH. apply Hskip. intros a digest Hf'. by destruct Hf. }
  cbn [matchRootAnchor]. rewrite (proj2 (Z.eqb_eq _ _) Hf). cbn [negb]. destruct (ToDS k SHA256) as [digest|] eqn:Ed.
  2:{ rewrite IH. apply Hskip. done. }
  destruct (List.find _ rootAnchors) as [a|] eqn:Ea.
  - apply find_some in Ea as [Ha Hm]. apply anchorMatches_iff in Hm; [|done]. split; [|by eexists].
    intros _. exists k, a, digest. split_and!; try apply Hm; try done. by left.
  - rewrite IH. apply Hskip. intros a digest' _ Ha [= <-]. by apply (find_none _ _ Ea).
Qed.

Lemma validate_decides name : Validated (validateDNSSECChain exchange eTLDPlusOne name) = true <-> chainOfTrust name.
Proof.
  unfold validateDNSSECChain, chainOfTrust. cbv zeta. set (qname := Fqdn (ToLower name)).
  destruct (eTLDPlusOne _) as [[|ch reg0]|e]; [split; [done|intros (r & [= <-] & Hr & _); done]| |split; [done|by intros (? & ? & _)]].
  set (reg := String ch reg0).
  transitivity (rootTrusted /\ delegates "." (Fqdn (afterDot (Fqdn reg))) /\ delegates (Fqdn (afterDot (Fqdn reg))) (Fqdn reg)
    /\ signsAddresses (Fqdn reg) qname).
  2:{ split; [intros Ht; exists reg; done|by intros (r & [= <-] & _ & Ht)]. }
  unfold rootTrusted. rewrite <- matchRootAnchor_iff.
  destruct (fetchDNSKEYs exchange ".") as [[ks all]|e] eqn:Er.
  2:{ split; [done|]. intros [Hroot _]. apply matchRootAnchor_iff in Hroot as (k & a & d & Hin & _).
      by rewrite (fetchDNSKEYs_some "." k Hin) in Er. }
  apply fetchDNSKEYs_ok in Er as [-> ->]. destruct (matchRootAnchor _) as [[k a]|]; [|split; [done|by intros [[? ?] _]]].
  match goal with |- context [walkZones _ _ _ ?l] => set (levels := l); pose proof (walkZones_iff (Fqdn (afterDot (Fqdn reg))) (Fqdn reg) levels) as Hw end.
  destruct (walkZones _ _ _ _) as [levels' [keys|reason]] eqn:E.
  2:{ split; [done|]. intros (_ & Hd1 & Hd2 & _). destruct (proj2 Hw (conj Hd1 Hd2)) as [l' [= ]]. }
  pose proof (walkZones_keys _ _ _ _ _ _ E) as ->. clear E.
  assert (Hdel : delegates "." (Fqdn (afterDot (Fqdn reg))) /\ delegates (Fqdn (afterDot (Fqdn reg))) (Fqdn reg)) by (apply Hw; by eexists).
  transitivity (signsAddresses (Fqdn reg) qname); [|split; [intros Hs; split_and!; [by eexists|apply Hdel..|done]|by intros (_ & _ & _ & ?)]].
  unfold signsAddresses. destruct (fetchSignedA exchange qname) as [[rrset sig]|e] eqn:Ea.
  - apply fetchSignedA_iff in Ea as (-> & Hne & Hsig). rewrite Hsig. destruct (verifyRRSIG _ _ _) eqn:Ev; cbn [Validated].
    + split; [done|]. intros (sg & [= <-] & _ & Hs). apply verifyRRSIG_none in Hs. by rewrite Hs in Ev.
    + apply verifyRRSIG_none in Ev. split; [by exists sig|done].
  - split; [done|]. intros (sg & Hs & Hne & _). by rewrite (proj2 (fetchSignedA_iff qname _ sg) (conj eq_refl (conj Hne Hs))) in Ea.
Qed.
End Trust.

(** ** Attacks and limits *)

Section Forgery.
Context `{DnsCrypto} (exchange : string -> Z -> secMsg + string) (eTLDPlusOne : string -> string + string).

(** The answers of an attacker on the path, who lets all questions through but two: to
    the keys of [zone] it adds its own, and for the address of [name] it answers [addr]
    with a signature that it makes with that key. *)
Definition forge (zone name addr : string) (own : dnskey) (sig : rrsig) : string -> Z -> secMsg + string :=
  fun q t =>
    if String.eqb q (Fqdn zone) && (t =? TypeDNSKEY) then
      inl {| mRcode := 0; mAD := false; mAnswer := answerTo exchange zone TypeDNSKEY ++ [RDNSKEY own]; mNs := [] |}
    else if String.eqb q (Fqdn name) && (t =? TypeA) then
      inl {| mRcode := 0; mAD := false; mAnswer := [RA addr; RRRSIG sig]; mNs := [] |}
    else exchange q t.

Lemma dnskeysOf_app a b : dnskeysOf (a ++ b) = dnskeysOf a ++ dnskeysOf b.
Proof. apply flat_map_app. Qed.

Lemma forge_ds zone name addr own sig q : answerTo (forge zone name addr own sig) q TypeDS = answerTo exchange q TypeDS.
Proof. unfold answerTo, forge. by rewrite !andb_false_r. Qed.

Lemma Fqdn_idem s : Fqdn (Fqdn s) = Fqdn s.
Proof.
  unfold Fqdn. destruct (HasSuffix s ".") eqn:E; [by rewrite E|].
  unfold HasSuffix. rewrite revString_app. change (revString ".") with "."%string. cbn. by destruct (revString s).
Qed.

Lemma forge_keys zone name addr own sig q k :
  In k (zoneKeys exchange q) -> In k (zoneKeys (forge zone name addr own sig) q).
Proof.
  unfold zoneKeys, answerTo at 2, forge. change (TypeDNSKEY =? TypeDNSKEY) with true. change (TypeDNSKEY =? TypeA) with false.
  rewrite andb_true_r, andb_false_r. destruct (String.eqb_spec (Fqdn q) (Fqdn zone)) as [E|E]; [|done].
  cbn [mAnswer]. rewrite dnskeysOf_app. intros Hk. apply in_or_app. left. unfold answerTo in *. by rewrite <- E.
Qed.

Lemma forge_signed zone name addr own sig q s rrset :
  signedBy (zoneKeys exchange q) s rrset -> signedBy (zoneKeys (forge zone name addr own sig) q) s rrset.
Proof. intros (k & Hk & Hr). exists k. split; [by apply forge_keys|done]. Qed.

Lemma forge_delegates zone name addr own sig p z :
  delegates exchange p z -> delegates (forge zone name addr own sig) p z.
Proof.
  unfold delegates. cbv zeta. rewrite forge_ds. intros (s & d & k & digest & Hs & Hsg & Hd & Hk & Hr).
  exists s, d, k, digest. split; [done|]. split; [by apply forge_signed|]. split; [done|]. split; [by apply forge_keys|done].
Qed.

Lemma forge_root zone name addr own sig : rootTrusted exchange -> rootTrusted (forge zone name addr own sig).
Proof. intros (k & a & d & Hk & Hr). exists k, a, d. split; [by apply forge_keys|done]. Qed.
End Forgery.

Lemma validated_answer `{DnsCrypto} exchange eTLDPlusOne name :
  Validated (validateDNSSECChain exchange eTLDPlusOne name) = true ->
  exists tag, LeafAnswer (validateDNSSECChain exchange eTLDPlusOne name) =
    Some {| aType := "A"; SignedBy := tag; Verified := true;
            Records := flat_map (fun r => match r with RA a => [a] | _ => [] end)
                         (List.filter isA (answerTo exchange (Fqdn (ToLower name)) TypeA)) |}.
Proof.
  unfold validateDNSSECChain. cbv zeta.
  destruct (eTLDPlusOne _) as [[|ch reg0]|e]; [done| |done].
  destruct (fetchDNSKEYs exchange ".") as [[ks all]|e]; [|done]. destruct (matchRootAnchor ks) as [[k a]|]; [|done].
  destruct (walkZones _ _ _ _) as [levels [keys|reason]]; [|done].
  destruct (fetchSignedA exchange _) as [[rrset sig]|e] eqn:Ea; [|done]. apply fetchSignedA_iff in Ea as (-> & _).
  destruct (verifyRRSIG _ _ _); [done|]. intros _. by eexists.
Qed.

(** C29. What a validated chain means: [validateDNSSECChain] reports [Validated] exactly
    when a key-signing key of the root has the digest of a published anchor, the root
    signs a DS set for the public suffix that holds the digest of one of its key-signing
    keys, the suffix does the same for the registrable domain, and a key of that domain
    signs the addresses of the name; and then it reports exactly these addresses.  In
    particular the order of the records, extra keys and DS records of other keys do not
    matter. *)
Theorem validateDNSSECChain_decides `{DnsCrypto} exchange eTLDPlusOne name :
  (Validated (validateDNSSECChain exchange eTLDPlusOne name) = true <-> chainOfTrust exchange eTLDPlusOne name)
  /\ (Validated (validateDNSSECChain exchange eTLDPlusOne name) = true ->
      exists tag, LeafAnswer (validateDNSSECChain exchange eTLDPlusOne name) =
        Some {| aType := "A"; SignedBy := tag; Verified := true;
                Records := flat_map (fun r => match r with RA a => [a] | _ => [] end)
                             (List.filter isA (answerTo exchange (Fqdn (ToLower name)) TypeA)) |}).
Proof. split; [apply validate_decides|apply validated_answer]. Qed.

(** A forged answer validates: the DNSKEY set of a zone is not authenticated beyond
    the one key that the parent names, so that an attacker who adds a key of its own to
    the answer can sign any address with it.  Whatever the name's own zone publishes or
    signs, and whenever its signature was valid, the forged address is reported as
    verified. *)
Theorem forged_answer_validates `{DnsCrypto} exchange eTLDPlusOne name reg addr own sig
  (Hreg : eTLDPlusOne (TrimSuffix (Fqdn (ToLower name)) ".") = inl reg) (Hne : reg <> ""%string)
  (Hroot : rootTrusted exchange)
  (Htld : delegates exchange "." (Fqdn (afterDot (Fqdn reg))))
  (Hzone : delegates exchange (Fqdn (afterDot (Fqdn reg))) (Fqdn reg))
  (Htype : sTypeCovered sig = TypeA) (Htag : KeyTag own = sTag sig) (Halg : kAlgorithm own = sAlgorithm sig)
  (Hown : Verify sig own [RA addr] = true) :
  let v := validateDNSSECChain (forge exchange reg (Fqdn (ToLower name)) addr own sig) eTLDPlusOne name in
  Validated v = true /\ exists tag, LeafAnswer v = Some {| aType := "A"; Records := [addr]; SignedBy := tag; Verified := true |}.
Proof.
  cbv zeta. set (forged := forge _ _ _ _ _ _).
  assert (Hans : answerTo forged (Fqdn (ToLower name)) TypeA = [RA addr; RRRSIG sig]).
  { unfold answerTo, forged, forge. change (TypeA =? TypeDNSKEY) with false. change (TypeA =? TypeA) with true.
    rewrite andb_false_r, andb_true_r, String.eqb_refl. done. }
  assert (Hval : Validated (validateDNSSECChain forged eTLDPlusOne name) = true).
  { apply validate_decides. exists reg. split; [done|]. split; [done|]. cbv zeta.
    split_and!; [by apply forge_root|by apply forge_delegates..|]. unfold signsAddresses. rewrite Hans.
    exists sig. cbn. rewrite Htype. split_and!; [done|done|]. exists own. split_and!; [|done..].
    unfold zoneKeys, answerTo, forged, forge. rewrite Fqdn_idem, String.eqb_refl. change (TypeDNSKEY =? TypeDNSKEY) with true.
    cbn [andb mAnswer]. rewrite dnskeysOf_app. apply in_or_app. right. by left. }
  split; [done|]. destruct (validated_answer forged eTLDPlusOne name Hval) as [tag ->]. exists tag. by rewrite Hans.
Qed.

(** ** Changes of algorithm *)

Record rolloverResult := {
  Analyzed : bool; Algorithms : list Z; AlgorithmsNamed : list string; Families : list string; InProgress : bool }.

Definition algorithmFamily (name : string) : string :=
  if existsb (String.eqb name) ["RSAMD5"; "DSA"; "RSASHA1"; "DSA-NSEC3-SHA1"; "RSASHA1-NSEC3-SHA1"; "RSASHA256"; "RSASHA512"]
  then "RSA"
  else if String.eqb name "ECC-GOST" then "GOST"
  else if existsb (String.eqb name) ["ECDSAP256SHA256"; "ECDSAP384SHA384"] then "ECDSA"
  else if existsb (String.eqb name) ["ED25519"; "ED448"] then "EdDSA"
  else "".

Definition dnssecAlgorithmName (code : Z) : string :=
  if code =? 1 then "RSAMD5"
  else if code =? 3 then "DSA"
  else if code =? 5 then "RSASHA1"
  else if code =? 6 then "DSA-NSEC3-SHA1"
  else if code =? 7 then "RSASHA1-NSEC3-SHA1"
  else if code =? 8 then "RSASHA256"
  else if code =? 10 then "RSASHA512"
  else if code =? 12 then "ECC-GOST"
  else if code =? 13 then "ECDSAP256SHA256"
  else if code =? 14 then "ECDSAP384SHA384"
  else if code =? 15 then "ED25519"
  else if code =? 16 then "ED448"
  else "".

(** [if !seen[x] { seen[x] = true; l = append(l, x) }]: the map holds what the list does. *)
Definition addNew (l : list string) (x : string) : list string := if existsb (String.eqb x) l then l else l ++ [x].
Definition addFamily (l : list string) (name : string) : list string :=
  let fam := algorithmFamily name in if String.eqb fam "" then l else addNew l fam.

Definition rolloverStart : rolloverResult :=
  {| Analyzed := true; Algorithms := []; AlgorithmsNamed := []; Families := []; InProgress := false |}.
Definition inProgress (out : rolloverResult) : rolloverResult :=
  {| Analyzed := Analyzed out; Algorithms := Algorithms out; AlgorithmsNamed := AlgorithmsNamed out; Families := Families out;
     InProgress := 2 <=? blen (Families out) |}.

Definition levelTurn (out : rolloverResult) (lv : dnssecLevelResult) : rolloverResult :=
  if String.eqb (lAlgorithm lv) "" then out else
  {| Analyzed := Analyzed out; Algorithms := Algorithms out; AlgorithmsNamed := addNew (AlgorithmsNamed out) (lAlgorithm lv);
     Families := addFamily (Families out) (lAlgorithm lv); InProgress := InProgress out |}.

Definition analyzeDNSSECRollover (chain : option dnssecValidation) : rolloverResult :=
  match chain with
  | Some chain =>
      match Levels chain with
      | [] => {| Analyzed := false; Algorithms := []; AlgorithmsNamed := []; Families := []; InProgress := false |}
      | _ => inProgress (foldl levelTurn rolloverStart (Levels chain))
      end
  | None => {| Analyzed := false; Algorithms := []; AlgorithmsNamed := []; Families := []; InProgress := false |}
  end.

Definition keyTurn (out : rolloverResult) (dk : dnskey) : rolloverResult :=
  if existsb (Z.eqb (kAlgorithm dk)) (Algorithms out) then out else
  let named := dnssecAlgorithmName (kAlgorithm dk) in
  {| Analyzed := Analyzed out; Algorithms := Algorithms out ++ [kAlgorithm dk]; AlgorithmsNamed := AlgorithmsNamed out ++ [named];
     Families := addFamily (Families out) named; InProgress := InProgress out |}.

Definition analyzeDNSKEYRollover (dnskeys : list secRR) : rolloverResult :=
  inProgress (foldl keyTurn rolloverStart (dnskeysOf dnskeys)).

(** The records of the query, none when it fails. *)
Definition queryDNSKEYSet (r : list secRR + string) : list secRR := match r with inl rrs => rrs | inr _ => [] end.

Definition rolloverHeadline (r : rolloverResult) : string :=
  if negb (Analyzed r) || negb (InProgress r) then "" else ("rollover: " +:+ Join (Families r) "+")%string.

(** *** The key set *)

Lemma existsb_eqb (x : string) l : existsb (String.eqb x) l = true <-> In x l.
Proof.
  rewrite existsb_exists. split; [intros (y & Hy & ->%String.eqb_eq); done|]. intros Hx. exists x. by rewrite String.eqb_refl.
Qed.

Lemma existsb_Zeqb (x : Z) l : existsb (Z.eqb x) l = true <-> In x l.
Proof. rewrite existsb_exists. split; [intros (y & Hy & ->%Z.eqb_eq); done|]. intros Hx. exists x. by rewrite Z.eqb_refl. Qed.

Lemma addNew_NoDup l x : List.NoDup l -> List.NoDup (addNew l x).
Proof.
  intros Hl. unfold addNew. destruct (existsb _ l) eqn:E; [done|]. apply Permutation.Permutation_NoDup with (x :: l);
    [apply Permutation.Permutation_cons_append|]. constructor; [|done]. rewrite <- existsb_eqb. by rewrite E.
Qed.

Lemma In_addNew l x y : In y (addNew l x) <-> In y l \/ y = x.
Proof.
  unfold addNew. destruct (existsb _ l) eqn:E.
  - apply existsb_eqb in E. split; [by left|by intros [?| ->]].
  - rewrite in_app_iff. cbn. intuition.
Qed.

(** The family of a key, if it has one. *)
Definition familyOf (k : dnskey) : string := algorithmFamily (dnssecAlgorithmName (kAlgorithm k)).

Definition rolloverInv (keys : list dnskey) (out : rolloverResult) : Prop :=
  (forall a, In a (Algorithms out) <-> exists k, In k keys /\ kAlgorithm k = a)
  /\ AlgorithmsNamed out = map dnssecAlgorithmName (Algorithms out)
  /\ List.NoDup (Algorithms out) /\ List.NoDup (Families out)
  /\ (forall f, In f (Families out) <-> f <> ""%string /\ exists k, In k keys /\ familyOf k = f).

Lemma keyTurn_inv keys out k : rolloverInv keys out -> rolloverInv (keys ++ [k]) (keyTurn out k).
Proof.
  intros (Ha & Hn & Hd & Hf & Hfam). unfold keyTurn. destruct (existsb _ (Algorithms out)) eqn:E.
  - apply existsb_Zeqb in E as Hin. apply Ha in Hin as (k0 & Hk0 & He0). split_and!; try done.
    + intros a. rewrite Ha. split; intros (k1 & Hk1 & <-); [by exists k1; rewrite in_app_iff; auto|].
      apply in_app_iff in Hk1 as [Hk1|[<-|[]]]; [by exists k1|by exists k0].
    + intros f. rewrite Hfam. split; intros [Hne (k1 & Hk1 & <-)]; (split; [done|]); [by exists k1; rewrite in_app_iff; auto|].
      apply in_app_iff in Hk1 as [Hk1|[<-|[]]]; [by exists k1|]. exists k0. split; [done|]. unfold familyOf. by rewrite He0.
  - assert (Hnew : ~ In (kAlgorithm k) (Algorithms out)) by (rewrite <- existsb_Zeqb; by rewrite E).
    unfold rolloverInv. cbn [Algorithms AlgorithmsNamed Families]. split_and!.
    + intros a. rewrite in_app_iff. rewrite Ha. split.
      * intros [(k1 & Hk1 & <-)|[<-|[]]]; [exists k1|exists k]; rewrite in_app_iff; cbn; auto.
      * intros (k1 & Hk1 & <-). apply in_app_iff in Hk1 as [Hk1|[<-|[]]]; [left; by exists k1|right; by left].
    + by rewrite map_app, Hn.
    + apply Permutation.Permutation_NoDup with (kAlgorithm k :: Algorithms out);
        [apply Permutation.Permutation_cons_append|by constructor].
    + unfold addFamily. fold (familyOf k). destruct (String.eqb _ ""); [done|by apply addNew_NoDup].
    + intros f. unfold addFamily. fold (familyOf k).
      assert (Hiff : (f <> ""%string /\ exists k0, In k0 (keys ++ [k]) /\ familyOf k0 = f)
                     <-> In f (Families out) \/ (f = familyOf k /\ f <> ""%string)).
      { rewrite Hfam. split.
        - intros [Hne (k1 & Hk1 & <-)]. apply in_app_iff in Hk1 as [Hk1|[<-|[]]]; [left|by right]. split; [done|by exists k1].
        - intros [[Hne (k1 & Hk1 & <-)]|[-> Hne]]; (split; [done|]); [exists k1|exists k]; rewrite in_app_iff; cbn; auto. }
      rewrite Hiff. destruct (String.eqb_spec (familyOf k) "") as [Ee|Ee].
      * split; [by left|]. intros [?|[-> Hne]]; [done|]. by rewrite Ee in Hne.
      * rewrite In_addNew. split; intros [?| ?]; subst; auto. right. by destruct H.
Qed.

Lemma keyTurns_inv keys : forall pre out, rolloverInv pre out -> rolloverInv (pre ++ keys) (foldl keyTurn out keys).
Proof.
  induction keys as [|k keys IH]; intros pre out Hinv; cbn [foldl]; [by rewrite app_nil_r|].
  change (k :: keys) with ([k] ++ keys). rewrite app_assoc. by apply IH, keyTurn_inv.
Qed.

Lemma two_distinct {A} (l : list A) : List.NoDup l -> 2 <= blen l <-> exists x y, In x l /\ In y l /\ x <> y.
Proof.
  intros Hd. split.
  - destruct l as [|x [|y l]]; rewrite ?blen_cons, ?blen_nil; try lia. intros _. inversion Hd as [|? ? Hx _]; subst.
    exists x, y. cbn. split_and!; [auto..|]. intros ->. apply Hx. by left.
  - intros (x & y & Hx & Hy & Hne). destruct l as [|a [|b l]]; [done|destruct Hx as [->|[]], Hy as [->|[]]; done|].
    rewrite !blen_cons. pose proof (blen_nonneg l). lia.
Qed.

(** A change of algorithm is reported exactly when the key set of the zone holds two
    keys of different families; the algorithms are those of the keys, each once, with
    their names in the same order. *)
Theorem analyzeDNSKEYRollover_families rrs :
  let r := analyzeDNSKEYRollover rrs in
  (InProgress r = true <-> exists k1 k2, In (RDNSKEY k1) rrs /\ In (RDNSKEY k2) rrs
      /\ familyOf k1 <> ""%string /\ familyOf k2 <> ""%string /\ familyOf k1 <> familyOf k2)
  /\ (forall a, In a (Algorithms r) <-> exists k, In (RDNSKEY k) rrs /\ kAlgorithm k = a) /\ List.NoDup (Algorithms r)
  /\ AlgorithmsNamed r = map dnssecAlgorithmName (Algorithms r).
Proof.
  cbv zeta. unfold analyzeDNSKEYRollover.
  assert (Hin : forall k, In k (dnskeysOf rrs) <-> In (RDNSKEY k) rrs).
  { intros k. unfold dnskeysOf. rewrite in_flat_map. split.
    - intros (r & Hr & Hk). destruct r; cbn in Hk; try done. by destruct Hk as [<-|[]].
    - intros Hk. exists (RDNSKEY k). split; [done|by left]. }
  pose proof (keyTurns_inv (dnskeysOf rrs) [] rolloverStart) as Hinv. cbn [app] in Hinv.
  destruct Hinv as (Ha & Hn & Hd & Hf & Hfam).
  { split_and!; [|done|constructor|constructor|]; cbn; [intros a; split; [done|by intros (? & [] & _)]|].
    intros f; split; [done|by intros (_ & ? & [] & _)]. }
  set (out := foldl _ _ _) in *. unfold inProgress. cbn [InProgress Algorithms AlgorithmsNamed]. split_and!; [| |done|done].
  - rewrite Z.leb_le, two_distinct by done. split.
    + intros (f1 & f2 & H1 & H2 & Hne). apply Hfam in H1 as (Hn1 & k1 & Hk1 & <-). apply Hfam in H2 as (Hn2 & k2 & Hk2 & <-).
      exists k1, k2. by rewrite <- !Hin.
    + intros (k1 & k2 & Hk1 & Hk2 & Hn1 & Hn2 & Hne). exists (familyOf k1), (familyOf k2). rewrite !Hfam.
      split_and!; [done|exists k1; by rewrite Hin|done|exists k2; by rewrite Hin|done].
  - intros a. rewrite Ha. split; intros (k & Hk & He); exists k; by rewrite ?Hin in *.
Qed.

(** The families of a chain are those of other names than [algorithmName] gives: a
    change from RSA to Ed25519 along the chain is not seen, and in the key set it is. *)
Lemma chain_rollover_missed levels :
  (forall l, In l levels -> lAlgorithm l = algorithmName 8 \/ lAlgorithm l = algorithmName 15 \/ lAlgorithm l = algorithmName 16) ->
  forall v, Levels v = levels -> InProgress (analyzeDNSSECRollover (Some v)) = false.
Proof.
  intros Hl v Hv. unfold analyzeDNSSECRollover. rewrite Hv. destruct levels as [|l0 levels0] eqn:E; [done|]. rewrite <- E in *. clear E.
  assert (Hgen : forall ls out, (forall l, In l ls -> lAlgorithm l = algorithmName 8 \/ lAlgorithm l = algorithmName 15 \/ lAlgorithm l = algorithmName 16) ->
    Families out = [] \/ Families out = ["RSA"%string] ->
    Families (foldl levelTurn out ls) = [] \/ Families (foldl levelTurn out ls) = ["RSA"%string]).
  { induction ls as [|l ls IH]; intros out Hls Ho; cbn [foldl]; [done|]. apply IH; [intros x Hx; apply Hls; by right|].
    unfold levelTurn. destruct (Hls l) as [->|[->| ->]]; [by left| | |]; cbn; [|done..]. unfold addFamily. cbn.
    destruct Ho as [->| ->]; by right. }
  unfold inProgress. cbn [InProgress]. destruct (Hgen levels rolloverStart Hl (or_introl eq_refl)) as [->| ->]; done.
Qed.

(** ** The walk along NSEC records *)

Definition maxNSECWalkHops : nat := 50.

Record nsecWalkResult := { Attempted : bool; ZoneUsesNSEC : bool; NamesFound : list string; Hops : Z; wTruncated : bool }.

Definition appendUnique (s : list string) (v : string) : list string := if existsb (String.eqb v) s then s else s ++ [v].

Section Walk.
Context (exchange : string -> Z -> secMsg + string).

(** The next name and the owner of the first NSEC record, if there is one. *)
Definition queryNSECNext (name : string) : option (string * string) :=
  match exchange (Fqdn name) TypeA with
  | inr _ => None
  | inl resp =>
      if negb (mRcode resp =? 3) && negb (mRcode resp =? 0) then None
      else match List.find (fun r => match r with RNSEC _ _ => true | _ => false end) (mNs resp) with
           | Some (RNSEC owner next) => Some (next, owner)
           | _ => None
           end
  end.

(** [for hops := 0; hops < maxNSECWalkHops; hops++] *)
Fixpoint walkHops (zone : string) (room : nat) (hops : Z) (curName : string) (out : nsecWalkResult) : nsecWalkResult :=
  match room with
  | O => out
  | S room =>
      match queryNSECNext curName with
      | None => out
      | Some (next, owner) =>
          let out := if hops =? 0 then {| Attempted := Attempted out; ZoneUsesNSEC := true; NamesFound := NamesFound out;
                                          Hops := Hops out; wTruncated := wTruncated out |} else out in
          let owner := TrimSuffix (ToLower owner) "." in
          let next := TrimSuffix (ToLower next) "." in
          let out := if negb (String.eqb owner "") && negb (HasPrefix owner "z-walk-start")
                     then {| Attempted := Attempted out; ZoneUsesNSEC := ZoneUsesNSEC out;
                             NamesFound := appendUnique (NamesFound out) owner; Hops := Hops out; wTruncated := wTruncated out |}
                     else out in
          if String.eqb next "" then out
          else if String.eqb next zone || String.eqb next (zone +:+ ".") then out
          else walkHops zone room (hops + 1) (next +:+ ".a")
                 {| Attempted := Attempted out; ZoneUsesNSEC := ZoneUsesNSEC out; NamesFound := NamesFound out;
                    Hops := hops + 1; wTruncated := wTruncated out |}
      end
  end.

Definition walkZoneNSEC (zone : string) : nsecWalkResult :=
  let zone := ToLower (TrimSuffix zone ".") in
  let out := walkHops zone maxNSECWalkHops 0 ("z-walk-start-netdoc." +:+ zone)
               {| Attempted := true; ZoneUsesNSEC := false; NamesFound := []; Hops := 0; wTruncated := false |} in
  if 50 <=? Hops out then {| Attempted := Attempted out; ZoneUsesNSEC := ZoneUsesNSEC out; NamesFound := NamesFound out;
                             Hops := Hops out; wTruncated := true |} else out.
End Walk.

(** [itoa] of a small number *)
Definition nsecWalkHeadline (r : nsecWalkResult) : string :=
  match NamesFound r with
  | [] => ""
  | _ => if negb (ZoneUsesNSEC r) then ""
         else ("NSEC walk: " +:+ fmtD (blen (NamesFound r)) +:+ (if wTruncated r then "+" else "") +:+ " names exposed")%string
  end.

(** *** Bounds *)

Lemma appendUnique_NoDup s v : List.NoDup s -> List.NoDup (appendUnique s v).
Proof. apply addNew_NoDup. Qed.

Lemma blen_appendUnique s v : blen (appendUnique s v) <= blen s + 1.
Proof. unfold appendUnique. destruct (existsb _ _); rewrite ?blen_app; change (blen [v]) with 1; lia. Qed.

Lemma walkHops_bounds ex zone room : forall hops cur out,
  0 <= hops -> Hops out = hops -> List.NoDup (NamesFound out) -> blen (NamesFound out) <= hops ->
  (0 < hops -> ZoneUsesNSEC out = true) ->
  let r := walkHops ex zone room hops cur out in
  Hops out <= Hops r <= hops + Z.of_nat room /\ List.NoDup (NamesFound r) /\ blen (NamesFound r) <= Hops r + 1
  /\ (Hops r = hops + Z.of_nat room -> blen (NamesFound r) <= Hops r)
  /\ wTruncated r = wTruncated out /\ Attempted r = Attempted out /\ (NamesFound r <> [] -> ZoneUsesNSEC r = true).
Proof.
  induction room as [|room IH]; intros hops cur out H0 Hh Hd Hl Hu; cbn [walkHops].
  - split_and!; try done; try lia. intros Hne. apply Hu. destruct (NamesFound out); [done|]. rewrite blen_cons in Hl.
    pose proof (blen_nonneg l). lia.
  - destruct (queryNSECNext ex cur) as [[next owner]|].
    2:{ split_and!; try done; try lia. intros Hne. apply Hu. destruct (NamesFound out); [done|]. rewrite blen_cons in Hl.
        pose proof (blen_nonneg l). lia. }
    cbv zeta. set (o1 := if hops =? 0 then _ else out).
    assert (Ho1 : Hops o1 = hops /\ NamesFound o1 = NamesFound out /\ ZoneUsesNSEC o1 = true /\ wTruncated o1 = wTruncated out /\ Attempted o1 = Attempted out).
    { unfold o1. destruct (Z.eqb_spec hops 0); [done|]. split_and!; try done. apply Hu. lia. }
    clearbody o1. set (ow := TrimSuffix (ToLower owner) "."). set (nx := TrimSuffix (ToLower next) ".").
    set (o2 := if negb _ && negb _ then _ else o1).
    assert (Ho2 : Hops o2 = hops /\ List.NoDup (NamesFound o2) /\ blen (NamesFound o2) <= hops + 1 /\ ZoneUsesNSEC o2 = true
              /\ wTruncated o2 = wTruncated out /\ Attempted o2 = Attempted out).
    { destruct Ho1 as (E1 & E2 & E3 & E4 & E5). unfold o2. destruct (negb _ && negb _); cbn; rewrite ?E2; split_and!; try done; try lia.
      - by apply appendUnique_NoDup.
      - pose proof (blen_appendUnique (NamesFound out) ow). lia. }
    clearbody o2. destruct Ho2 as (E1 & E2 & E3 & E4 & E5 & E6).
    destruct (String.eqb nx ""); [split_and!; try done; lia|]. destruct (_ || _); [split_and!; try done; lia|].
    set (o3 := {| Attempted := _ |}). specialize (IH (hops + 1) (nx +:+ ".a")%string o3 ltac:(lia) eq_refl E2 E3 ltac:(done)).
    cbv zeta in IH. destruct IH as (I1 & I2 & I3 & I4 & I5 & I6 & I7). cbn [o3 Hops] in I1. split_and!; try done; try lia.
    + by rewrite I5.
    + by rewrite I6.
Qed.

(** The names of [zone] as they end. *)
Definition inZone (zone name : string) : Prop := exists pre, name = (pre +:+ "." +:+ zone +:+ ".")%string.

Lemma walkHops_agree ex1 ex2 zone room : forall hops cur out,
  (ex1 (Fqdn cur) TypeA = ex2 (Fqdn cur) TypeA) ->
  (forall n, ex1 (n +:+ ".a.")%string TypeA = ex2 (n +:+ ".a.")%string TypeA) ->
  walkHops ex1 zone room hops cur out = walkHops ex2 zone room hops cur out.
Proof.
  induction room as [|room IH]; intros hops cur out Hcur Hn; [done|]. cbn [walkHops].
  assert (Hq : queryNSECNext ex1 cur = queryNSECNext ex2 cur) by (unfold queryNSECNext; by rewrite Hcur). rewrite Hq.
  destruct (queryNSECNext ex2 cur) as [[next owner]|]; [|done]. cbv zeta.
  destruct (String.eqb _ ""); [done|]. destruct (_ || _); [done|]. apply IH; [|done].
  set (nx := TrimSuffix _ _). assert (Hf : Fqdn (nx +:+ ".a") = (nx +:+ ".a.")%string).
  { unfold Fqdn, HasSuffix. rewrite revString_app. change (revString ".a") with "a."%string. change (revString ".") with "."%string. cbn.
    by rewrite <- appString_assoc. }
  rewrite Hf. apply Hn.
Qed.

Lemma left_zone zone n : zone <> ""%string -> HasSuffix ("." +:+ zone) ".a" = false -> ~ inZone zone (n +:+ ".a.").
Proof.
  intros Hne Hs [pre E]. apply (f_equal revString) in E. rewrite !revString_app in E.
  change (revString ".a.") with ".a."%string in E. change (revString ".") with "."%string in E.
  unfold HasSuffix in Hs. rewrite revString_app in Hs. change (revString ".a") with "a."%string in Hs. change (revString ".") with "."%string in Hs.
  destruct (revString zone) as [|c1 [|c2 r]] eqn:Er; [by apply revString_nil in Er| |]; cbn in E.
  - injection E as <- E. done.
  - injection E as <- <- E. cbn in Hs. by destruct r.
Qed.

(** The NSEC walk: it always ends, after at most fifty hops; each name is listed once,
    and at most one more than the hops; it is marked as truncated exactly after fifty
    hops; and it lists names only for a zone it reports as using NSEC. *)
Theorem walkZoneNSEC_bounds ex zone :
  let r := walkZoneNSEC ex zone in
  Attempted r = true /\ 0 <= Hops r <= 50 /\ List.NoDup (NamesFound r) /\ blen (NamesFound r) <= Z.min 50 (Hops r + 1)
  /\ (wTruncated r = true <-> Hops r = 50) /\ (NamesFound r <> [] -> ZoneUsesNSEC r = true).
Proof.
  cbv zeta. unfold walkZoneNSEC. set (z := ToLower _).
  match goal with |- context [walkHops ex z maxNSECWalkHops 0 ?c ?o] =>
    pose proof (walkHops_bounds ex z maxNSECWalkHops 0 c o ltac:(lia) eq_refl (List.NoDup_nil _) ltac:(done) ltac:(done)) as Hb;
    set (r := walkHops ex z maxNSECWalkHops 0 c o) in * end.
  clearbody r. cbv zeta in Hb. destruct Hb as (H1 & H2 & H3 & H4 & H5 & H6 & H7). cbn in H1, H5, H6.
  assert (Hm : 0 + Z.of_nat maxNSECWalkHops = 50) by reflexivity. rewrite Hm in H4. change (Z.of_nat maxNSECWalkHops) with 50 in H1.
  destruct (Z.leb_spec 50 (Hops r)); cbn; split_and!; try done; try lia; split; intros; try done; try lia. by rewrite H5 in *.
Qed.

(** The walk leaves the zone after its first question: the names it goes on with end
    in ".a", so that of the zone's own records it sees those of one answer, and the rest
    of the walk is through whatever holds the top-level domain "a" - two servers that
    agree there and on the first question are indistinguishable, whatever names the
    zone has. *)
Theorem walkZoneNSEC_leaves_zone ex1 ex2 zone :
  let z := ToLower (TrimSuffix zone ".") in
  z <> ""%string -> HasSuffix ("." +:+ z) ".a" = false ->
  (ex1 (Fqdn ("z-walk-start-netdoc." +:+ z)) TypeA = ex2 (Fqdn ("z-walk-start-netdoc." +:+ z)) TypeA) ->
  (forall q, ~ inZone z q -> ex1 q TypeA = ex2 q TypeA) ->
  walkZoneNSEC ex1 zone = walkZoneNSEC ex2 zone.
Proof.
  intros z Hne Ha H1 Hout. unfold walkZoneNSEC. fold z. rewrite (walkHops_agree ex1 ex2); [done|done|].
  intros n. by apply Hout, left_zone.
Qed.

(** ** The picture of a chain *)

(** [strings.TrimRight(s, "\n")] *)
Definition trimNewlines (s : string) : string := trimRightFunc (fun c => Ascii.eqb c "010") s.
Definition nl : string := String "010" "".
Definition esc (code s : string) : string := (String "027" ("[" +:+ code +:+ "m") +:+ s +:+ String "027" "[0m")%string.

Section Picture.
Context (check cross : string).

Definition verdictLine (lvl : dnssecLevelResult) : string :=
  if Trusted lvl && String.eqb (Zone lvl) "." then (check +:+ " matches IANA trust anchor")%string
  else if Trusted lvl then (check +:+ " DNSKEY signed by parent DS")%string
  else if negb (String.eqb (lReason lvl) "") then (cross +:+ " " +:+ lReason lvl)%string
  else (cross +:+ " not trusted")%string.

Definition levelLines (last : bool) (lvl : dnssecLevelResult) : string :=
  let branch := if last then "└─ "%string else "├─ "%string in
  let gutter := if last then "   "%string else "│  "%string in
  let zoneLabel := if String.eqb (Zone lvl) "." then ". (root)"%string else Zone lvl in
  let line := (branch +:+ zoneLabel)%string in
  let line := if negb (KSKTag lvl =? 0) then (line +:+ "  KSK " +:+ fmtD (KSKTag lvl))%string else line in
  let line := if negb (String.eqb (lAlgorithm lvl) "") then (line +:+ "  " +:+ lAlgorithm lvl)%string else line in
  let zsks := match ZSKTags lvl with
              | [] => ""%string
              | tags => (gutter +:+ "ZSKs: " +:+ Join (map fmtD tags) ", " +:+ nl)%string
              end in
  (line +:+ nl +:+ gutter +:+ verdictLine lvl +:+ nl +:+ zsks)%string.

Fixpoint levelsLines (hasLeaf : bool) (levels : list dnssecLevelResult) : string :=
  match levels with
  | [] => ""
  | lvl :: rest => (levelLines (match rest with [] => negb hasLeaf | _ => false end) lvl +:+ levelsLines hasLeaf rest)%string
  end.

Definition leafLines (la : dnssecAnswer) : string :=
  let mark := if Verified la then check else cross in
  let rec := match Records la with [] => aType la | l => (aType la +:+ " → " +:+ Join l ", ")%string end in
  let signedBy := if negb (SignedBy la =? 0) then (" signed by ZSK " +:+ fmtD (SignedBy la))%string else ""%string in
  ("└─ " +:+ rec +:+ nl +:+ "   " +:+ mark +:+ " RRSIG verified" +:+ signedBy)%string.
End Picture.

Definition renderDNSSECChain (v : option dnssecValidation) (qname : string) (color : bool) : string :=
  match v with
  | None => ""
  | Some v =>
      let check := if color then esc "32" "✓" else "✓"%string in
      let cross := if color then esc "31" "✗" else "✗"%string in
      let header := ("DNSSEC chain — " +:+ qname)%string in
      let header := if Validated v then (header +:+ " " +:+ check +:+ " validated")%string
                    else if negb (String.eqb (vReason v) "") then (header +:+ " " +:+ cross +:+ " " +:+ vReason v)%string
                    else (header +:+ " " +:+ cross +:+ " not validated")%string in
      let hasLeaf := match LeafAnswer v with Some _ => true | None => false end in
      trimNewlines (header +:+ nl +:+ levelsLines check cross hasLeaf (Levels v)
                    +:+ match LeafAnswer v with Some la => leafLines check cross la | None => "" end)
  end.

Module DnssecWitnesses.
(** Keys whose public key is their digest and their signature; the root's is the first anchor. *)
#[local] Instance toyCrypto : DnsCrypto := {|
  KeyTag k := if String.eqb (kPublicKey k) "root" then 20326 else Z.of_nat (String.length (kPublicKey k));
  ToDS k _ := Some (if String.eqb (kPublicKey k) "root"
                    then "e06d44b80b8f1d39a95c0b0d7c65d08458e880409bbc683457104237c7f8ec8d"%string else kPublicKey k);
  Verify s k _ := String.eqb (sSignature s) (kPublicKey k) |}.

Definition key (flags alg : Z) (p : string) : dnskey := {| kName := "."; kFlags := flags; kAlgorithm := alg; kPublicKey := p |}.
Definition sign (t alg tag : Z) (p : string) : rrsig :=
  {| sTypeCovered := t; sAlgorithm := alg; sTag := tag; sSigner := "."; sInception := 0; sExpiration := 0; sSignature := p |}.
Definition answer (l : list secRR) : secMsg + string := inl {| mRcode := 0; mAD := false; mAnswer := l; mNs := [] |}.

Definition world (q : string) (t : Z) : secMsg + string :=
  if t =? TypeDNSKEY then
    if String.eqb q "." then answer [RDNSKEY (key 257 8 "root"); RDNSKEY (key 256 8 "rootz")]
    else if String.eqb q "org." then answer [RDNSKEY (key 256 8 "orgz"); RDNSKEY (key 257 8 "orgkey")]
    else if String.eqb q "example.org." then answer [RDNSKEY (key 257 13 "exkey")]
    else inr "nxdomain"%string
  else if t =? TypeDS then
    if String.eqb q "org." then answer [RDS {| dTag := 6; dAlgorithm := 8; dDigestType := 2; dDigest := "ORGKEY" |}; RRRSIG (sign TypeDS 8 5 "rootz")]
    else answer [RRRSIG (sign TypeDS 8 4 "orgz"); RDS {| dTag := 5; dAlgorithm := 13; dDigestType := 2; dDigest := "EXKEY" |}]
  else answer [RA "192.0.2.1"; RRRSIG (sign TypeA 13 5 "exkey")].
Definition suffixes (s : string) : string + string := inl "example.org"%string.

Example world_validates : Validated (validateDNSSECChain world suffixes "www.Example.org") = true.
Proof. reflexivity. Qed.

Lemma forged_answer_validates_witness :
  Validated (validateDNSSECChain (forge world "example.org" "www.example.org." "198.51.100.66" (key 0 13 "evil") (sign TypeA 13 4 "evil"))
    suffixes "www.example.org") = true.
Proof.
  refine (proj1 (forged_answer_validates world suffixes "www.example.org" "example.org" "198.51.100.66" (key 0 13 "evil")
    (sign TypeA 13 4 "evil") eq_refl ltac:(done) _ _ _ eq_refl eq_refl eq_refl eq_refl)).
  - exists (key 257 8 "root"), (List.hd {| rKeyTag := 0; rAlgorithm := 0; rDigestType := 0; rDigest := "" |} rootAnchors),
      "e06d44b80b8f1d39a95c0b0d7c65d08458e880409bbc683457104237c7f8ec8d"%string. split_and!; try reflexivity; by left.
  - exists (sign TypeDS 8 5 "rootz"), {| dTag := 6; dAlgorithm := 8; dDigestType := 2; dDigest := "ORGKEY" |}, (key 257 8 "orgkey"), "orgkey"%string.
    split; [reflexivity|]. split; [|split_and!; try reflexivity; [by left|by right; left]].
    exists (key 256 8 "rootz"). split_and!; try reflexivity. by right; left.
  - exists (sign TypeDS 8 4 "orgz"), {| dTag := 5; dAlgorithm := 13; dDigestType := 2; dDigest := "EXKEY" |}, (key 257 13 "exkey"), "exkey"%string.
    split; [reflexivity|]. split; [|split_and!; try reflexivity; [by right; left|by left]].
    exists (key 256 8 "orgz"). split_and!; try reflexivity. by left.
Defined.

Definition oneNsec (q : string) (t : Z) : secMsg + string :=
  if String.eqb q "z-walk-start-netdoc.example.org."
  then inl {| mRcode := 3; mAD := false; mAnswer := []; mNs := [RNSEC "www.example.org." "example.org."] |} else inr "timeout"%string.
Lemma walkZoneNSEC_leaves_zone_witness : walkZoneNSEC oneNsec "example.org" = walkZoneNSEC oneNsec "example.org".
Proof. apply (walkZoneNSEC_leaves_zone oneNsec oneNsec "example.org"); [done|reflexivity|done|done]. Defined.
End DnssecWitnesses.
