(* ===== verification/Dane.v ===== *)
(** DANE: [dane.go], which compares the TLSA records of a service with the certificates
    it shows.  SHA-512 (FIPS 180-4) is executable, as SHA-256 in [Digest]. *)

From Stdlib Require Import ZArith List String Ascii Strings.Byte Lia Bool.
From stdpp Require Import base list strings.
From S2P Require Import Prelude Bytes GoStrings Digest.
Open Scope Z_scope.

(** ** SHA-512 *)

Module Sha512.
Definition add64 (a b : Z) : Z := u64 (a + b).
Definition not64 (a : Z) : Z := Z.lxor a 18446744073709551615.
Definition rotr64 (n a : Z) : Z := Z.lor (Z.shiftr a n) (u64 (Z.shiftl a (64 - n))).

(** The constants: 64 fractional bits of the cube and square roots of the first 80 and
    8 primes. *)
Definition primes : list Z := Eval vm_compute in
  List.filter (fun n => forallb (fun d => negb (n mod Z.of_nat d =? 0)) (seq 2 (Z.to_nat (Z.sqrt n) - 1)))
    (map Z.of_nat (seq 2 408)).
Definition root (k n : Z) : Z :=
  fold_left (fun r i => let r' := r + 2 ^ Z.of_nat i in if r' ^ k <=? n then r' else r) (rev (seq 0 70)) 0.
Definition K : list Z := Eval vm_compute in map (fun p => u64 (root 3 (p * 2 ^ 192))) primes.
Definition H0 : list Z := Eval vm_compute in map (fun p => u64 (root 2 (p * 2 ^ 128))) (take 8 primes).

Definition sig0 x := Z.lxor (Z.lxor (rotr64 1 x) (rotr64 8 x)) (Z.shiftr x 7).
Definition sig1 x := Z.lxor (Z.lxor (rotr64 19 x) (rotr64 61 x)) (Z.shiftr x 6).
Definition Sig0 x := Z.lxor (Z.lxor (rotr64 28 x) (rotr64 34 x)) (rotr64 39 x).
Definition Sig1 x := Z.lxor (Z.lxor (rotr64 14 x) (rotr64 18 x)) (rotr64 41 x).

Fixpoint schedule (n : nat) (w : list Z) : list Z :=
  match n with
  | O => w
  | S n' =>
      let at_ i := nth i w 0 in
      schedule n' (u64 (sig1 (at_ 1%nat) + at_ 6%nat + sig0 (at_ 14%nat) + at_ 15%nat) :: w)
  end.

Definition round (st : list Z) (kw : Z * Z) : list Z :=
  match st with
  | [a; b; c; d; e; f; g; h] =>
      let t1 := u64 (h + Sig1 e + Z.lxor (Z.land e f) (Z.land (not64 e) g) + fst kw + snd kw) in
      let t2 := u64 (Sig0 a + Z.lxor (Z.lxor (Z.land a b) (Z.land a c)) (Z.land b c)) in
      [add64 t1 t2; a; b; c; add64 d t1; e; f; g]
  | _ => st
  end.

Definition compress (st : list Z) (block : bytes) : list Z :=
  let w := rev (schedule 64 (rev (map beWord (chunks 16 8 block)))) in
  zip_with add64 st (foldl round st (combine K w)).

Definition padMsg (m : bytes) : bytes :=
  let l := blen m in m ++ [x80] ++ repeat x00 (Z.to_nat ((111 - l) mod 128)) ++ beBytes 16 (8 * l).

Definition sum (m : bytes) : bytes :=
  let p := padMsg m in
  flat_map (beBytes 8) (foldl compress H0 (chunks (S (length p / 128)) 128 p)).
End Sha512.

(** [sha512.Sum512(m)] *)
Definition sha512 : bytes -> bytes := Sha512.sum.

Example sha512_abc : hexEncode (sha512 (ofString "abc")) =
  ("ddaf35a193617abacc417349ae20413112e6fa4e89a97ea20a9eeee64b55d39a"
   +:+ "2192992a274fc1a836ba3c23a3feebbd454d4423643ce80e2a9ac94fa54ca49f")%string.
Proof. vm_compute. reflexivity. Qed.

(** ** TLSA *)

(** A certificate, as far as it is compared. *)
Record certificate := { Raw : bytes; RawSubjectPublicKeyInfo : bytes }.

(** A record of the miekg/dns package. *)
Record tlsa := { tUsage : Z; tSelector : Z; tMatchingType : Z; tCertificate : string }.

Record tlsaRecord := {
  Usage : Z; Selector : Z; MatchingType : Z; Cert : string;
  UsageStr : string; SelectorStr : string; MatchingStr : string; Matched : bool }.

Record daneResult := {
  QueryName : string; drRecords : list tlsaRecord; AnyMatched : bool; DNSSECRequired : bool; Issues : list string }.

Definition tlsaUsageName (u : Z) : string :=
  if u =? 0 then "PKIX-TA (CA constraint)"
  else if u =? 1 then "PKIX-EE (service-cert constraint)"
  else if u =? 2 then "DANE-TA (trust-anchor assertion)"
  else if u =? 3 then "DANE-EE (domain-issued cert)"
  else ("Usage " +:+ fmtD u)%string.

Definition tlsaSelectorName (s : Z) : string :=
  if s =? 0 then "full cert" else if s =? 1 then "SPKI" else ("Selector " +:+ fmtD s)%string.

Definition tlsaMatchingName (m : Z) : string :=
  if m =? 0 then "exact" else if m =? 1 then "SHA-256" else if m =? 2 then "SHA-512"
  else ("MatchingType " +:+ fmtD m)%string.

(** The two switches of the loop: the data a record selects, and its hexadecimal
    form; [None] is [continue]. *)
Definition selected (t : tlsa) (c : certificate) : option bytes :=
  if tSelector t =? 0 then Some (Raw c) else if tSelector t =? 1 then Some (RawSubjectPublicKeyInfo c) else None.
Definition matching (t : tlsa) (data : bytes) : option string :=
  if tMatchingType t =? 0 then Some (ToLower (hexEncode data))
  else if tMatchingType t =? 1 then Some (ToLower (hexEncode (sha256 data)))
  else if tMatchingType t =? 2 then Some (ToLower (hexEncode (sha512 data)))
  else None.

(** [for _, c := range candidates]: a nil certificate is dereferenced where a field of it
    is read. *)
Fixpoint matchesAny (t : tlsa) (candidates : list (option certificate)) : outcome bool :=
  match candidates with
  | [] => Ret false
  | c :: candidates =>
      if (tSelector t =? 0) || (tSelector t =? 1) then
        match c with
        | None => Panic
        | Some c =>
            match selected t c with
            | None => matchesAny t candidates
            | Some data =>
                match matching t data with
                | None => matchesAny t candidates
                | Some matchHex => if String.eqb matchHex (ToLower (tCertificate t)) then Ret true else matchesAny t candidates
                end
            end
        end
      else matchesAny t candidates
  end.

Definition tlsaMatchesChain (t : tlsa) (leaf : option certificate) (chain : list (option certificate)) : outcome bool :=
  let candidates := if (tUsage t =? 0) || (tUsage t =? 2) then chain else [leaf] in
  matchesAny t candidates.

(** The turn of a record. *)
Definition daneTurn (leaf : option certificate) (chain : list (option certificate)) (res : daneResult) (t : tlsa) : outcome daneResult :=
  m <~ tlsaMatchesChain t leaf chain ;;
  let entry := {| Usage := tUsage t; Selector := tSelector t; MatchingType := tMatchingType t; Cert := ToLower (tCertificate t);
                  UsageStr := tlsaUsageName (tUsage t); SelectorStr := tlsaSelectorName (tSelector t);
                  MatchingStr := tlsaMatchingName (tMatchingType t); Matched := m |} in
  Ret {| QueryName := QueryName res; drRecords := drRecords res ++ [entry]; AnyMatched := AnyMatched res || m;
         DNSSECRequired := DNSSECRequired res; Issues := Issues res |}.

Fixpoint daneTurns (leaf : option certificate) (chain : list (option certificate)) (rrs : list (option tlsa)) (res : daneResult) : outcome daneResult :=
  match rrs with
  | [] => Ret res
  | None :: rrs => daneTurns leaf chain rrs res
  | Some t :: rrs => res <~ daneTurn leaf chain res t ;; daneTurns leaf chain rrs res
  end.

(** The answer to the question for TLSA at a name: [None] for a record of another type. *)
Definition probeDANE (query : string -> list (option tlsa) + string) (host : string) (port : Z)
    (leaf : option certificate) (chain : list (option certificate)) : outcome (option daneResult) :=
  let qname := ("_" +:+ fmtD port +:+ "._tcp." +:+ TrimSuffix host ".")%string in
  match query qname with
  | inr _ | inl [] => Ret None
  | inl rrs =>
      res <~ daneTurns leaf chain rrs {| QueryName := qname; drRecords := []; AnyMatched := false; DNSSECRequired := true; Issues := [] |} ;;
      Ret (Some (if negb (AnyMatched res)
                 then {| QueryName := QueryName res; drRecords := drRecords res; AnyMatched := AnyMatched res;
                         DNSSECRequired := DNSSECRequired res;
                         Issues := Issues res ++ ["TLSA published but no record matches the presented cert"%string] |}
                 else res))
  end.

(** ** Which record matches which certificate *)


(** The certificates that the code holds against a record: any one of the chain for the
    usages 0 and 2, the leaf for every other number. *)
Definition scope (t : tlsa) (leaf : certificate) (chain : list certificate) : list certificate :=
  if (tUsage t =? 0) || (tUsage t =? 2) then chain else [leaf].

Definition assocb (t : tlsa) (c : certificate) : bool :=
  match selected t c with
  | Some data => match matching t data with Some hex => String.eqb hex (ToLower (tCertificate t)) | None => false end
  | None => false
  end.











(** A record of an undefined usage, and one for an authority, match the leaf itself. *)
Example lenient_ex (c : certificate) : Raw c = [x2a] ->
  forall u, In u [0; 2; 4; 255] -> existsb (assocb {| tUsage := u; tSelector := 0; tMatchingType := 0; tCertificate := "2A" |}) (scope {| tUsage := u; tSelector := 0; tMatchingType := 0; tCertificate := "2A" |} c [c]) = true.
Proof. intros Hc u [<-|[<-|[<-|[<-|[]]]]]; unfold assocb, selected, matching, scope; cbn; by rewrite Hc. Qed.

(** An answer of other records alone, as of an alias without TLSA records, is reported as
    TLSA records none of which matches. *)
Lemma probeDANE_no_tlsa query host port leaf chain n :
  query ("_" +:+ fmtD port +:+ "._tcp." +:+ TrimSuffix host ".")%string = inl (repeat None (S n)) ->
  exists res, probeDANE query host port leaf chain = Ret (Some res) /\ drRecords res = []
    /\ Issues res = ["TLSA published but no record matches the presented cert"%string].
Proof.
  intros Hq. unfold probeDANE. cbv zeta. rewrite Hq. cbn [repeat daneTurns].
  assert (Hr : forall n res, daneTurns leaf chain (repeat None n) res = Ret res) by (induction n0; intros; cbn; [done|apply IHn0]).
  rewrite Hr. cbn. by eexists.
Qed.

Module DaneWitnesses.
End DaneWitnesses.
