(* ===== verification/Nameservers.v ===== *)
(** The probes of a zone's name servers and of public resolvers: [dns_lame.go],
    [dns_propagation.go], [dns_glue.go], [dns_axfr.go], [dns_chaos.go], [dns_ecs.go],
    [dns_cookies.go] and [dns_ede.go].  The exchange with a
    server is a parameter; the goroutines of a probe write to entries of their own, so
    that their results are those of a map.  [itoa] of a count is its decimal text
    ([Decimal]). *)

From Stdlib Require Import ZArith List String Ascii Strings.Byte Lia Bool Permutation.
From stdpp Require Import base list strings gmap.
From S2P Require Import Prelude Bytes GoStrings Text Digest Result Dns.
Open Scope Z_scope.

(** The records of the miekg/dns package that these probes read, with the names of those
    whose owner they read. *)
Inductive nsRR :=
| NsA (name ip : string)
| NsAAAA (name ip : string)
| NsNS (name target : string)
| NsSOA (serial : Z)
| NsTXT (txt : list string)
| NsOther.

Record nsMsg := { nRcode : Z; nAuthoritative : bool; nAnswer : list nsRR; nNs : list nsRR; nExtra : list nsRR }.

Definition TypeNS : Z := 2.
Definition TypeSOA : Z := 6.

(** [if !strings.Contains(addr, ":") { addr += ":53" }] *)
Definition withPort53 (addr : string) : string := if hasChar ":" addr then addr else (addr +:+ ":53")%string.

Definition foldName (s : string) : string := ToLower (TrimSuffix s ".").

(** ** Lame delegations *)

Record lameNSResult := { lNS : string; Reachable : bool; lAuthoritative : bool; SOASerial : Z; IsLame : bool; lReason : string }.

(** The serial of the first SOA record, 0 without one. *)
Definition firstSerial (rrs : list nsRR) : Z :=
  match flat_map (fun r => match r with NsSOA s => [s] | _ => [] end) rrs with s :: _ => s | [] => 0 end.

Definition probeOneLameNS (ask : string -> string -> Z -> nsMsg + string) (zone nsHost : string) : lameNSResult :=
  match ask (withPort53 nsHost) (Fqdn zone) TypeSOA with
  | inr _ => {| lNS := nsHost; Reachable := false; lAuthoritative := false; SOASerial := 0; IsLame := false; lReason := "" |}
  | inl resp =>
      let serial := firstSerial (nAnswer resp) in
      let serial := if serial =? 0 then firstSerial (nNs resp) else serial in
      {| lNS := nsHost; Reachable := true; lAuthoritative := nAuthoritative resp; SOASerial := serial; IsLame := false; lReason := "" |}
  end.

(** [counts[r.SOASerial]++] *)
Fixpoint bump (counts : list (Z * Z)) (s : Z) : list (Z * Z) :=
  match counts with
  | [] => [(s, 1)]
  | (t, c) :: counts => if t =? s then (t, c + 1) :: counts else (t, c) :: bump counts s
  end.

Definition serialCounts (results : list lameNSResult) : list (Z * Z) :=
  foldl (fun counts r => if lAuthoritative r && (0 <? SOASerial r) then bump counts (SOASerial r) else counts) [] results.

(** [for s, c := range counts]: over the entries as the map visits them; the state is
    [consensus] and [maxCount]. *)
Definition consensusTurn (st : Z * Z) (e : Z * Z) : Z * Z :=
  let '(consensus, maxCount) := st in let '(s, c) := e in if maxCount <? c then (s, c) else st.
Definition consensusOf (order : list (Z * Z)) : Z := fst (foldl consensusTurn (0, 0) order).

Definition flagLame (consensus : Z) (r : lameNSResult) : lameNSResult :=
  let lame reason := {| lNS := lNS r; Reachable := Reachable r; lAuthoritative := lAuthoritative r; SOASerial := SOASerial r;
                        IsLame := true; lReason := reason |} in
  if negb (Reachable r) then lame "unreachable"%string
  else if negb (lAuthoritative r) then lame "AA bit not set"%string
  else if SOASerial r =? 0 then lame "no SOA"%string
  else if negb (consensus =? 0) && negb (SOASerial r =? consensus)
  then lame ("SOA serial mismatch (" +:+ fmtD (SOASerial r) +:+ " vs consensus " +:+ fmtD consensus +:+ ")")%string
  else r.

(** [visit] is the order of the range over the counts. *)
Definition checkLameDelegation (ask : string -> string -> Z -> nsMsg + string) (visit : list (Z * Z) -> list (Z * Z))
    (zone : string) (nameservers : list string) : list lameNSResult :=
  let results := map (probeOneLameNS ask zone) (take 8 nameservers) in
  map (flagLame (consensusOf (visit (serialCounts results)))) results.

Definition lameDelegationHeadline (results : list lameNSResult) : string :=
  let lame := blen (List.filter IsLame results) in
  if lame =? 0 then "" else ("lame delegation: " +:+ fmtD lame +:+ " NS")%string.

(** ** Propagation *)

Record propagationResult := {
  Resolver : string; pAddr : string; pIPs : list string; Hash : string; OK : bool; RCode : string; pError : string; MS : Z }.
Record propagationVerdict := {
  Verdict : string; ConsistentBuckets : Z; ResolversAnswered : Z; ResolversTotal : Z; pResults : list propagationResult }.

Definition publicResolvers : list (string * string) :=
  [("Cloudflare", "1.1.1.1:53"); ("Cloudflare-2", "1.0.0.1:53"); ("Google", "8.8.8.8:53"); ("Google-2", "8.8.4.4:53");
   ("Quad9", "9.9.9.9:53"); ("Quad9-ECS", "9.9.9.11:53"); ("OpenDNS", "208.67.222.222:53"); ("AdGuard", "94.140.14.14:53");
   ("AdGuard-2", "94.140.15.15:53"); ("NextDNS", "45.90.28.0:53"); ("CleanBrowsing", "185.228.168.9:53");
   ("Mullvad", "194.242.2.2:53"); ("Yandex", "77.88.8.8:53")]%string.

Definition addressesOf (rrs : list nsRR) : list string := flat_map (fun r => match r with NsA _ ip => [ip] | _ => [] end) rrs.

(** [took]: the milliseconds of the exchange; [rcodeToString] is [dns.RcodeToString]. *)
Definition queryOneResolver (ask : string -> string -> Z -> nsMsg + string) (rcodeToString : Z -> string) (took : string -> Z)
    (host : string) (r : string * string) : propagationResult :=
  let '(name, addr) := r in
  let out ips hash ok rcode err := {| Resolver := name; pAddr := addr; pIPs := ips; Hash := hash; OK := ok; RCode := rcode;
                                      pError := err; MS := took addr |} in
  match ask addr (Fqdn host) TypeA with
  | inr e => out [] ""%string false ""%string (tidyErr e)
  | inl resp =>
      if negb (nRcode resp =? 0) then out [] ""%string false (rcodeToString (nRcode resp)) ""%string
      else
        let ips := sortStrings (addressesOf (nAnswer resp)) in
        let hash := match ips with [] => ""%string | _ => hexEncode (take 8 (sha256 (ofString (Join ips ",")))) end in
        out ips hash true (rcodeToString (nRcode resp)) ""%string
  end.

(** The distinct keys of a map that counts. *)
Definition distinct (l : list string) : list string := foldl (fun seen x => if existsb (String.eqb x) seen then seen else seen ++ [x]) [] l.

Definition answered (results : list propagationResult) : list propagationResult := List.filter OK results.

Definition aggregatePropagation (results : list propagationResult) : propagationVerdict :=
  let total := blen results in
  let n := blen (answered results) in
  let buckets := blen (distinct (map Hash (answered results))) in
  {| Verdict := if n =? 0 then "failed" else if buckets =? 0 then "failed"
                else if (buckets =? 1) && (n =? total) then "consistent"
                else if buckets =? 1 then "partial" else "split";
     ConsistentBuckets := buckets; ResolversAnswered := n; ResolversTotal := total; pResults := results |}.

Definition probePropagation (ask : string -> string -> Z -> nsMsg + string) (rcodeToString : Z -> string) (took : string -> Z)
    (host : string) : propagationVerdict :=
  aggregatePropagation (map (queryOneResolver ask rcodeToString took host) publicResolvers).

Definition itoaIntents (v : propagationVerdict) : string :=
  (fmtD (ResolversAnswered v) +:+ "/" +:+ fmtD (ResolversTotal v) +:+ " consistent")%string.

(** [sort.Sort(sort.Reverse(sort.IntSlice(sizes)))] *)
Fixpoint insertDown (x : Z) (l : list Z) : list Z :=
  match l with [] => [x] | y :: l' => if y <=? x then x :: l else y :: insertDown x l' end.
Definition sortDown (l : list Z) : list Z := foldr insertDown [] l.

(** The size of each bucket. *)
Definition bucketSizes (results : list propagationResult) : list Z :=
  let hashes := map Hash (answered results) in
  map (fun h => blen (List.filter (String.eqb h) hashes)) (distinct hashes).

Definition propagationHeadline (v : propagationVerdict) : string :=
  if ResolversTotal v =? 0 then ""
  else if String.eqb (Verdict v) "consistent" then itoaIntents v
  else if String.eqb (Verdict v) "partial" then (itoaIntents v +:+ " (some no-answer)")%string
  else if String.eqb (Verdict v) "split" then
    ("split " +:+ Join (map fmtD (sortDown (bucketSizes (pResults v)))) "/" +:+ " across " +:+ fmtD (ResolversTotal v))%string
  else if String.eqb (Verdict v) "failed" then "all resolvers failed"
  else "".

(** The first address list of each distinct answer. *)
Definition uniqueAnswers (v : propagationVerdict) : gmap string (list string) :=
  foldl (fun seen r => if OK r then let key := Join (pIPs r) "," in
                                    match seen !! key with Some _ => seen | None => <[key := pIPs r]> seen end
                       else seen) ∅ (pResults v).

(** ** Glue *)

Record glueResult := { gNS : string; InBailiwick : bool; HasGlue : bool; GlueIPv4 : list string; GlueIPv6 : list string; gError : string }.

Definition parentZone (zone : string) : string :=
  let zone := foldName zone in
  let '(_, rest, found) := Cut zone "." in if found then rest else "."%string.

Section Glue.
Context (ask : string -> string -> Z -> nsMsg + string).
(** [net.LookupHost]; [is4] is [net.ParseIP(ip).To4() != nil] *)
Context (lookupHost : string -> list string + string) (is4 : string -> bool).

Definition nsHostsOf (rrs : list nsRR) : list string := flat_map (fun r => match r with NsNS _ t => [TrimSuffix t "."] | _ => [] end) rrs.

Definition findParentNS (parent : string) : list string :=
  if String.eqb parent "." then ["198.41.0.4"%string]
  else
    match ask "1.1.1.1:53" (Fqdn parent) TypeNS with
    | inr _ => []
    | inl resp =>
        match flat_map (fun h => match lookupHost h with inl ips => List.filter is4 ips | inr _ => [] end) (nsHostsOf (nAnswer resp)) with
        | ip :: _ => [ip]
        | [] => []
        end
    end.

Definition checkOneGlue (zone nsHost parentAddr : string) : glueResult :=
  let zone := TrimSuffix (ToLower zone) "." in
  let host := TrimSuffix (ToLower nsHost) "." in
  let bailiwick := HasSuffix host ("." +:+ zone) || String.eqb host zone in
  if negb bailiwick then {| gNS := nsHost; InBailiwick := false; HasGlue := true; GlueIPv4 := []; GlueIPv6 := []; gError := "" |}
  else
    match ask parentAddr (Fqdn zone) TypeNS with
    | inr _ => {| gNS := nsHost; InBailiwick := true; HasGlue := false; GlueIPv4 := []; GlueIPv6 := []; gError := "could not query parent" |}
    | inl resp =>
        let same name := String.eqb (ToLower (TrimSuffix name ".")) (ToLower host) in
        let v4 := flat_map (fun r => match r with NsA n ip => if same n then [ip] else [] | _ => [] end) (nExtra resp) in
        let v6 := flat_map (fun r => match r with NsAAAA n ip => if same n then [ip] else [] | _ => [] end) (nExtra resp) in
        {| gNS := nsHost; InBailiwick := true; HasGlue := (0 <? blen v4) || (0 <? blen v6); GlueIPv4 := v4; GlueIPv6 := v6; gError := "" |}
    end.

Definition checkGlue (zone : string) (nameservers : list string) : list glueResult :=
  match nameservers, findParentNS (parentZone zone) with
  | [], _ | _, [] => []
  | _, p :: _ => map (fun ns => checkOneGlue zone ns (p +:+ ":53")) nameservers
  end.
End Glue.

Definition isMissing (r : glueResult) : bool := InBailiwick r && negb (HasGlue r).

Definition glueHeadline (results : list glueResult) : string :=
  match List.filter isMissing results with
  | [] => ""
  | [r] => ("missing glue: " +:+ gNS r)%string
  | l => ("missing glue on " +:+ fmtD (blen l) +:+ " NS")%string
  end.

(** ** Zone transfers *)

Record axfrResult := { aNS : string; Refused : bool; Transferred : bool; RecordCount : Z; aError : string }.

(** What the channel of [(tr).In] delivers: the number of records of an envelope, or its error. *)
Fixpoint drainAXFR (envs : list (Z + string)) (count : Z) : Z * option string :=
  match envs with
  | [] => (count, None)
  | inr e :: _ => (count, Some e)
  | inl n :: envs => let count := count + n in if 10000 <? count then (count, None) else drainAXFR envs count
  end.

(** [transfer] is [tr.In] for the address and the zone. *)
Definition probeAXFR (transfer : string -> string -> list (Z + string) + string) (zone nsHost : string) : axfrResult :=
  match transfer (withPort53 nsHost) (Fqdn zone) with
  | inr e => {| aNS := nsHost; Refused := true; Transferred := false; RecordCount := 0; aError := tidyErr e |}
  | inl envs =>
      let '(count, err) := drainAXFR envs 0 in
      let refused := match err with Some _ => true | None => false end in
      let msg := match err with Some e => tidyErr e | None => ""%string end in
      if 0 <? count then {| aNS := nsHost; Refused := false; Transferred := true; RecordCount := count; aError := msg |}
      else {| aNS := nsHost; Refused := refused; Transferred := false; RecordCount := count; aError := msg |}
  end.

Definition probeAXFRAll (transfer : string -> string -> list (Z + string) + string) (zone : string) (nameservers : list string) : list axfrResult :=
  map (probeAXFR transfer zone) (take 8 nameservers).

Definition axfrHeadline (results : list axfrResult) : string :=
  let open := blen (List.filter Transferred results) in
  if open =? 0 then "" else ("AXFR OPEN on " +:+ fmtD open +:+ " NS — zone exposed!")%string.

(** ** CHAOS *)

Record nsChaosResult := { cNS : string; VersionBind : string; HostnameBind : string; IDServer : string }.

(** [ask] asks in the class CHAOS. *)
Definition chaosTXT (ask : string -> string -> nsMsg + string) (addr name : string) : string :=
  match ask addr name with
  | inr _ => ""
  | inl resp =>
      if (nRcode resp =? 5) || (nRcode resp =? 3) then ""
      else Join (flat_map (fun r => match r with NsTXT txt => List.filter (fun s => negb (String.eqb s "")) txt | _ => [] end) (nAnswer resp)) " "
  end.

Definition queryCHAOS (ask : string -> string -> nsMsg + string) (nsHost : string) : nsChaosResult :=
  let addr := withPort53 nsHost in
  {| cNS := nsHost; VersionBind := chaosTXT ask addr "version.bind."; HostnameBind := chaosTXT ask addr "hostname.bind.";
     IDServer := chaosTXT ask addr "id.server." |}.

Definition queryCHAOSAll (ask : string -> string -> nsMsg + string) (nameservers : list string) : list nsChaosResult :=
  List.filter (fun r => negb (String.eqb (VersionBind r) "") || negb (String.eqb (HostnameBind r) "") || negb (String.eqb (IDServer r) ""))
    (map (queryCHAOS ask) (take 8 nameservers)).

Definition chaosVersion (r : nsChaosResult) : string := if String.eqb (VersionBind r) "" then IDServer r else VersionBind r.

Definition times : string := toString [xc3; x97].

(** [visit] is the order of the range over the map of versions. *)
Definition chaosHeadline (visit : list string -> list string) (results : list nsChaosResult) : string :=
  let versions := List.filter (fun v => negb (String.eqb v "")) (map chaosVersion results) in
  Join (map (fun v => let count := blen (List.filter (String.eqb v) versions) in
                      if 1 <? count then (v +:+ " " +:+ times +:+ fmtD count)%string else v) (visit (distinct versions))) ", ".

(** ** Client subnets *)

Record ecsResult := { Subnet : string; eIPs : list string; eRCode : string; eError : string }.

(** What [net.ParseCIDR] gives: the length of the prefix and the masked address, as four
    bytes when it is an IPv4 one. *)
Record cidr := { cPrefix : Z; cIs4 : bool; cAddress : bytes }.

(** The option that goes with the question. *)
Record subnetOption := { Family : Z; SourceNetmask : Z; SourceScope : Z; Address : bytes }.

Definition probeECS (parseCIDR : string -> cidr + string) (ask : subnetOption -> string -> nsMsg + string) (rcodeToString : Z -> string)
    (host subnetCIDR : string) : ecsResult :=
  match parseCIDR subnetCIDR with
  | inr e => {| Subnet := subnetCIDR; eIPs := []; eRCode := ""; eError := ("invalid CIDR: " +:+ e)%string |}
  | inl n =>
      let ecs := {| Family := if cIs4 n then 1 else 2; SourceNetmask := cPrefix n mod 256; SourceScope := 0; Address := cAddress n |} in
      match ask ecs (Fqdn host) with
      | inr e => {| Subnet := subnetCIDR; eIPs := []; eRCode := ""; eError := tidyErr e |}
      | inl resp => {| Subnet := subnetCIDR; eIPs := addressesOf (nAnswer resp); eRCode := rcodeToString (nRcode resp); eError := "" |}
      end
  end.

(** [ch <- indexed{...}] and [out[v.idx] = v.r]: [arrival] is the order in which the
    results come. *)
Definition probeECSMultiple (probe : string -> ecsResult) (arrival : list nat) (subnets : list string) : list ecsResult :=
  let zero := {| Subnet := ""; eIPs := []; eRCode := ""; eError := "" |} in
  foldl (fun out idx => <[idx := probe (nth idx subnets ""%string)]> out) (repeat zero (length subnets)) arrival.

Definition ecsHeadline (results : list ecsResult) : string :=
  let seen := blen (distinct (map (fun r => Join (eIPs r) ",") results)) in
  if seen <=? 1 then "" else ("ECS: " +:+ fmtD seen +:+ " distinct answer sets across " +:+ fmtD (blen results) +:+ " subnets")%string.

(** ** Cookies *)

Record dnsCookieResult := {
  cAttempted : bool; Supported : bool; ClientCookie : string; ServerCookie : string; ErrorBadCookie : bool }.

(** What an answer holds: its code, and the cookies of the options of its OPT records. *)
Definition probeDNSCookies (exchange : string -> (Z * list string) + string) (clientCookie : bytes) : dnsCookieResult :=
  let client := hexEncode clientCookie in
  let start := {| cAttempted := true; Supported := false; ClientCookie := client; ServerCookie := ""; ErrorBadCookie := false |} in
  match exchange client with
  | inr _ => start
  | inl (rcode, cookies) =>
      if rcode =? 23 then {| cAttempted := true; Supported := true; ClientCookie := client; ServerCookie := ""; ErrorBadCookie := true |}
      else foldl (fun out full => if 16 <? slen full
                                  then {| cAttempted := true; Supported := true; ClientCookie := ClientCookie out;
                                          ServerCookie := dropString 16 full; ErrorBadCookie := ErrorBadCookie out |}
                                  else out) start cookies
  end.

Definition dnsCookiesHeadline (r : dnsCookieResult) : string :=
  if negb (cAttempted r) || negb (Supported r) then ""
  else if negb (String.eqb (ServerCookie r) "") then
    ("DNS Cookies: " +:+ (if (8 <? slen (ServerCookie r))%Z then takeString 8 (ServerCookie r) +:+ ellipsis else ServerCookie r))%string
  else if ErrorBadCookie r then "DNS Cookies: supported (BADCOOKIE)"
  else "".

(** ** Extended errors *)

Definition edeCodes : list string :=
  ["Other Error"; "Unsupported DNSKEY Algorithm"; "Unsupported DS Digest Type"; "Stale Answer (out-of-date data from cache)";
   "Forged Answer (resolver believes record is malicious)"; "DNSSEC Indeterminate (chain didn't validate but wasn't bogus)";
   "DNSSEC Bogus (chain failed validation)"; "Signature Expired"; "Signature Not Yet Valid"; "DNSKEY Missing"; "RRSIG Missing";
   "No Zone Key Bit Set"; "NSEC Missing"; "Cached Error (negative result was cached)"; "Not Ready (recursive resolver still working)";
   "Blocked (administratively blocked)"; "Censored (blocked by external authority)"; "Filtered (blocked at request of client)";
   "Prohibited (resolver doesn't serve this query)"; "Stale NXDOMAIN Answer (negative result from stale cache)";
   "Not Authoritative (resolver isn't authoritative for this zone)"; "Not Supported (resolver doesn't implement this query type)";
   "No Reachable Authority (couldn't reach any auth NS)"; "Network Error"; "Invalid Data (received malformed DNS data upstream)";
   "Signature Expired Before Valid"; "Too Early (early data not allowed)"; "Unsupported NSEC3 Iterations Value";
   "Unable To Conform To Policy"; "Synthesized (record was synthesized, not retrieved)"]%string.

Definition describeEDE (infoCode : Z) (extraText : string) : string :=
  let desc := match edeCodes !! Z.to_nat infoCode with Some d => d | None => ("EDE code " +:+ fmtD infoCode)%string end in
  if negb (String.eqb extraText "") then (desc +:+ " — " +:+ extraText)%string else desc.

(** ** The consensus serial *)

(** How many authoritative servers gave the serial. *)
Definition votes (results : list lameNSResult) (s : Z) : Z :=
  blen (List.filter (fun r => lAuthoritative r && (0 <? SOASerial r) && (SOASerial r =? s)) results).

Lemma In_bump counts s t c : List.NoDup (map fst counts) ->
  In (t, c) (bump counts s) <->
  (t <> s /\ In (t, c) counts) \/ (t = s /\ ((exists d, In (s, d) counts /\ c = d + 1) \/ (~ In s (map fst counts) /\ c = 1))).
Proof.
  induction counts as [|[u d] counts IH]; cbn [bump map fst]; intros Hd.
  - cbn. split; [intros [[= <- <-]|[]]; right; split; [done|right; split; [by intros []|done]]|].
    intros [[_ []]|[-> [(d & [] & _)|[_ ->]]]]. by left.
  - inversion Hd as [|? ? Hu Hd']; subst. destruct (Z.eqb_spec u s) as [->|Hus].
    + cbn [In]. split.
      * intros [[= <- <-]|Hin].
        { right. split; [done|]. left. exists d. split; [by left|done]. }
        left. split; [|by right]. intros ->. apply Hu. by apply (in_map fst) in Hin.
      * intros [[Hne [[= ->]|Hin]]|[-> [(d' & [[= ->]|Hin] & ->)|[Hn _]]]]; [done|by right|by left| |by destruct Hn; left].
        destruct Hu. by apply (in_map fst) in Hin.
    + cbn [In]. rewrite IH by done. split.
      * intros [[= <- <-]|[[Hne Hin]|[-> [(d' & Hin & ->)|[Hn ->]]]]].
        { left. split; [done|by left]. }
        { left. split; [done|by right]. }
        { right. split; [done|]. left. exists d'. split; [by right|done]. }
        { right. split; [done|]. right. split; [|done]. intros [->|Hin]; done. }
      * intros [[Hne [[= -> ->]|Hin]]|[-> [(d' & [[= -> ->]|Hin] & ->)|[Hn ->]]]]; [by left| |done| |].
        { right. by left. }
        { right. right. split; [done|]. left. by exists d'. }
        { right. right. split; [done|]. right. split; [|done]. intros Hin. apply Hn. by right. }
Qed.

Lemma bump_NoDup counts s : List.NoDup (map fst counts) -> List.NoDup (map fst (bump counts s)).
Proof.
  induction counts as [|[u d] counts IH]; cbn [bump map fst]; intros Hd; [repeat constructor; by intros []|].
  inversion Hd as [|? ? Hu Hd']; subst. destruct (Z.eqb_spec u s) as [->|Hus]; cbn [map fst]; constructor; auto.
  intros Hin. apply in_map_iff in Hin as ([t c] & Ht & Hin). cbn in Ht. subst t. apply In_bump in Hin as [[_ Hin]|[-> _]]; [|done|done].
  apply Hu. by apply (in_map fst) in Hin.
Qed.

Lemma votes_snoc results r s :
  votes (results ++ [r]) s = votes results s + if lAuthoritative r && (0 <? SOASerial r) && (SOASerial r =? s) then 1 else 0.
Proof. unfold votes. rewrite List.filter_app, blen_app. cbn [List.filter]. by destruct (_ && _). Qed.

Lemma votes_nonneg results s : 0 <= votes results s.
Proof. apply blen_nonneg. Qed.

(** The counts of the map are the votes. *)
Lemma serialCounts_votes results :
  List.NoDup (map fst (serialCounts results)) /\
  forall s c, In (s, c) (serialCounts results) <-> c = votes results s /\ 0 < c.
Proof.
  induction results as [|r results IH] using rev_ind; [cbn; split; [apply List.NoDup_nil|]; intros s c; cbn; split; [done|]; intros [-> Hp]; exact (Z.lt_irrefl 0 Hp)|].
  destruct IH as [Hd Hv]. unfold serialCounts in *. rewrite foldl_app. cbn [foldl]. set (counts := foldl _ [] results) in *.
  assert (Hno : forall s, ~ In s (map fst counts) -> votes results s = 0).
  { intros s Hs. pose proof (votes_nonneg results s). destruct (Z.eq_dec (votes results s) 0); [done|].
    destruct Hs. apply in_map_iff. exists (s, votes results s). split; [done|]. apply Hv. lia. }
  destruct (lAuthoritative r && (0 <? SOASerial r)) eqn:E.
  - split; [by apply bump_NoDup|]. intros s c. rewrite In_bump by done. rewrite votes_snoc, E. cbn [andb].
    destruct (Z.eqb_spec (SOASerial r) s) as [<-|Hne].
    + split.
      * intros [[? _]|[_ [(d & Hin & ->)|[Hn ->]]]]; [done|apply Hv in Hin as [-> Hpos]; lia|]. rewrite Hno by done. lia.
      * intros [-> Hpos]. right. split; [done|]. destruct (in_dec Z.eq_dec (SOASerial r) (map fst counts)) as [Hin|Hn].
        -- left. apply in_map_iff in Hin as ([t d] & Ht & Hin). cbn in Ht. subst t. exists d. split; [done|]. by apply Hv in Hin as [-> _].
        -- right. split; [done|]. by rewrite Hno.
    + rewrite Z.add_0_r. split; [intros [[_ Hin]|[-> _]]; [by apply Hv|done]|]. intros Hc. left. split; [done|by apply Hv].
  - split; [done|]. intros s c. rewrite votes_snoc, E. cbn [andb]. rewrite Z.add_0_r. apply Hv.
Qed.

(** A serial with more votes than any other wins, in whatever order the map is read. *)
Lemma consensusOf_winner order s n :
  In (s, n) order -> 0 < n -> (forall t c, In (t, c) order -> t <> s -> c < n) -> (forall c, In (s, c) order -> c = n) ->
  consensusOf order = s.
Proof.
  intros Hin Hn Hmax Hs. unfold consensusOf.
  assert (Hgen : forall l st, (forall t c, In (t, c) l -> t <> s -> c < n) -> (forall c, In (s, c) l -> c = n) ->
    st = (s, n) \/ (snd st < n /\ In (s, n) l) -> foldl consensusTurn st l = (s, n)).
  { induction l as [|[t c] l IH]; intros [s0 c0] Hm Hu Hst; cbn [foldl]; [destruct Hst as [->|[_ []]]; done|].
    apply IH; [intros t' c' H'; apply (Hm t' c'); by right|intros c' H'; apply Hu; by right|].
    unfold consensusTurn. destruct Hst as [[= -> ->]|[Hlt Hin']].
    - left. destruct (Z.eq_dec t s) as [->|Hne]; [by rewrite (Hu c) by (by left); rewrite Z.ltb_irrefl|].
      rewrite (proj2 (Z.ltb_ge _ _)); [done|]. pose proof (Hm t c ltac:(by left) Hne). lia.
    - cbn [snd] in Hlt. destruct Hin' as [[= -> ->]|Hin'].
      + left. by rewrite (proj2 (Z.ltb_lt _ _)).
      + destruct (Z.eq_dec t s) as [->|Hne].
        * left. rewrite (Hu c) by (by left). by rewrite (proj2 (Z.ltb_lt _ _)).
        * right. pose proof (Hm t c ltac:(by left) Hne). destruct (Z.ltb_spec c0 c); cbn; split; done. }
  rewrite (Hgen order (0, 0)); [done|done|done|]. by right.
Qed.

(** A server that is in order: it answers with authority and has the serial. *)
Definition agrees (s : Z) (r : lameNSResult) : Prop := Reachable r = true /\ lAuthoritative r = true /\ SOASerial r <> 0 /\ SOASerial r = s.

Lemma flagLame_iff s r : s <> 0 -> IsLame r = false -> IsLame (flagLame s r) = true <-> ~ agrees s r.
Proof.
  intros Hs Hr. unfold flagLame, agrees. apply Z.eqb_neq in Hs. rewrite Hs. cbn [negb andb].
  destruct (Reachable r); cbn; [|split; [by intros _ [? _]|done]].
  destruct (lAuthoritative r); cbn; [|split; [by intros _ (_ & ? & _)|done]].
  destruct (Z.eqb_spec (SOASerial r) 0); cbn; [split; [by intros _ (_ & _ & ? & _)|done]|].
  destruct (Z.eqb_spec (SOASerial r) s); cbn; [rewrite Hr; split; [done|intros Hn; destruct Hn; done]|].
  split; [by intros _ (_ & _ & _ & ?)|done].
Qed.

(** C33. Lame delegations: when one serial has more votes among the first eight name
    servers than any other, then in whatever order Go's map is read a server is flagged
    exactly when it does not answer with authority and that serial. *)
Theorem checkLameDelegation_consensus ask visit zone nameservers s
  (Hvisit : forall l, Permutation (visit l) l)
  (Hpos : 0 < votes (map (probeOneLameNS ask zone) (take 8 nameservers)) s)
  (Hmax : forall t, t <> s -> votes (map (probeOneLameNS ask zone) (take 8 nameservers)) t
                              < votes (map (probeOneLameNS ask zone) (take 8 nameservers)) s) :
  Forall2 (fun r r' => IsLame r' = true <-> ~ agrees s r)
    (map (probeOneLameNS ask zone) (take 8 nameservers)) (checkLameDelegation ask visit zone nameservers).
Proof.
  unfold checkLameDelegation. cbv zeta. set (results := map _ (take 8 nameservers)) in *.
  destruct (serialCounts_votes results) as [Hd Hv].
  assert (Hc : consensusOf (visit (serialCounts results)) = s).
  { assert (Hin : forall t c, In (t, c) (visit (serialCounts results)) <-> c = votes results t /\ 0 < c).
    { intros t c. rewrite <- Hv. split; apply Permutation_in; [done|by symmetry]. }
    apply (consensusOf_winner _ s (votes results s)); [by apply Hin|done| |].
    - intros t c Ht Hne. apply Hin in Ht as [-> _]. by apply Hmax.
    - intros c Hs. by apply Hin in Hs as [-> _]. }
  rewrite Hc. assert (Hne : s <> 0).
  { intros ->. unfold votes in Hpos. destruct (List.filter _ results) as [|r l] eqn:E; [done|].
    assert (Hr : In r (List.filter (fun r => lAuthoritative r && (0 <? SOASerial r) && (SOASerial r =? 0)) results)) by (rewrite E; by left).
    apply filter_In in Hr as [_ Hr]. repeat rewrite andb_true_iff in Hr. destruct Hr as [[_ H1] H2]. lia. }
  apply Forall2_fmap_r, Forall_Forall2_diag, Forall_forall. intros r Hr. apply flagLame_iff; [done|].
  unfold results in Hr. apply list_elem_of_fmap in Hr as (ns & -> & _). unfold probeOneLameNS. by destruct (ask _ _ _).
Qed.

(** With a tie the order of the map decides: of two servers with the serials 1 and 2,
    one order flags the first and another the second. *)
Definition twoSerials (addr name : string) (t : Z) : nsMsg + string :=
  inl {| nRcode := 0; nAuthoritative := true; nNs := []; nExtra := [];
         nAnswer := [NsSOA (if String.eqb addr "ns1.example.org:53" then 1 else 2)] |}.
Lemma lame_tie :
  map IsLame (checkLameDelegation twoSerials id "example.org" ["ns1.example.org"; "ns2.example.org"]%string) = [false; true] /\
  map IsLame (checkLameDelegation twoSerials (rev (A := Z * Z)) "example.org" ["ns1.example.org"; "ns2.example.org"]%string) = [true; false].
Proof. split; reflexivity. Qed.

(** ** The verdict on propagation *)

Lemma In_distinct x l : In x (distinct l) <-> In x l.
Proof.
  unfold distinct. assert (Hgen : forall l seen, In x (foldl (fun seen x => if existsb (String.eqb x) seen then seen else seen ++ [x]) seen l)
    <-> In x seen \/ In x l).
  { clear l. induction l as [|y l IH]; intros seen; cbn [foldl In]; [tauto|]. rewrite IH. destruct (existsb (String.eqb y) seen) eqn:E.
    - apply existsb_exists in E as (z & Hz & ->%String.eqb_eq). split; [tauto|]. intros [?|[->|?]]; tauto.
    - rewrite in_app_iff. cbn. tauto. }
  rewrite Hgen. cbn. tauto.
Qed.

Lemma distinct_NoDup l : List.NoDup (distinct l).
Proof.
  unfold distinct. assert (Hgen : forall l seen, List.NoDup seen ->
    List.NoDup (foldl (fun seen x => if existsb (String.eqb x) seen then seen else seen ++ [x]) seen l)).
  { clear l. induction l as [|y l IH]; intros seen Hs; cbn [foldl]; [done|]. apply IH. destruct (existsb (String.eqb y) seen) eqn:E; [done|].
    apply Permutation_NoDup with (y :: seen); [apply Permutation_cons_append|]. constructor; [|done]. intros Hin.
    assert (existsb (String.eqb y) seen = true) by (apply existsb_exists; exists y; by rewrite String.eqb_refl). congruence. }
  apply Hgen, List.NoDup_nil.
Qed.

(** At most one bucket: all answers are alike. *)
Lemma distinct_le_one l : blen (distinct l) <= 1 <-> forall x y, In x l -> In y l -> x = y.
Proof.
  pose proof (distinct_NoDup l) as Hd. setoid_rewrite <- In_distinct. destruct (distinct l) as [|a [|b d]]; cbn.
  - split; [by intros _ x y []|done].
  - split; [|done]. intros _ x y [->|[]] [->|[]]. done.
  - rewrite !blen_cons. pose proof (blen_nonneg d). split; [lia|]. intros Ha. inversion Hd as [|? ? Hn _]; subst.
    destruct Hn. rewrite (Ha a b); [by left|by left|by right; left].
Qed.

Lemma distinct_zero l : blen (distinct l) = 0 <-> l = [].
Proof.
  split; [|by intros ->]. intros Hl. destruct l as [|x l]; [done|].
  assert (Hx : In x (distinct (x :: l))) by (apply In_distinct; by left).
  destruct (distinct (x :: l)); [done|]. rewrite blen_cons in Hl. pose proof (blen_nonneg l0). lia.
Qed.

(** Two resolvers that answered. *)
Definition conflict (results : list propagationResult) : Prop :=
  exists r1 r2, In r1 results /\ In r2 results /\ OK r1 = true /\ OK r2 = true /\ Hash r1 <> Hash r2.

Lemma answered_zero results : blen (answered results) = 0 <-> forall r, In r results -> OK r = false.
Proof.
  unfold answered. split.
  - intros Hl r Hr. destruct (OK r) eqn:E; [|done]. assert (Hin : In r (List.filter OK results)) by by apply filter_In.
    destruct (List.filter OK results); [done|]. rewrite blen_cons in Hl. pose proof (blen_nonneg l). lia.
  - intros Ha. destruct (List.filter OK results) as [|r l] eqn:E; [done|].
    assert (Hin : In r (List.filter OK results)) by (rewrite E; by left). apply filter_In in Hin as [Hin Hok]. by rewrite Ha in Hok.
Qed.

Lemma answered_all results : blen (answered results) = blen results <-> forall r, In r results -> OK r = true.
Proof.
  unfold answered, blen. rewrite Nat2Z.inj_iff. induction results as [|r l IH]; [by split|]. cbn [List.filter length].
  pose proof (filter_length_le OK l). destruct (OK r) eqn:E; cbn [length].
  - rewrite Nat.succ_inj_wd, IH. split; [intros Ha x [->|Hx]; auto|intros Ha x Hx; apply Ha; by right].
  - split; [lia|]. intros Ha. rewrite (Ha r) in E; [done|by left].
Qed.

Lemma buckets_conflict results : 1 < blen (distinct (map Hash (answered results))) <-> conflict results.
Proof.
  split.
  - intros Hlt. destruct (distinct (map Hash (answered results))) as [|a [|b d]] eqn:E; [done|done|].
    pose proof (distinct_NoDup (map Hash (answered results))) as Hnd. rewrite E in Hnd. inversion Hnd as [|? ? Hni _]; subst.
    assert (Ha : In a (map Hash (answered results))) by (apply In_distinct; rewrite E; by left).
    assert (Hb : In b (map Hash (answered results))) by (apply In_distinct; rewrite E; by right; left).
    apply in_map_iff in Ha as (r1 & <- & Hr1), Hb as (r2 & <- & Hr2). apply filter_In in Hr1 as [Hr1 O1], Hr2 as [Hr2 O2].
    exists r1, r2. split_and!; try done. intros Heq. apply Hni. rewrite Heq. by left.
  - intros (r1 & r2 & Hr1 & Hr2 & O1 & O2 & Hne). destruct (Z.lt_ge_cases 1 (blen (distinct (map Hash (answered results))))) as [|Hle]; [done|].
    destruct Hne. apply (proj1 (distinct_le_one _) Hle); apply in_map, filter_In; done.
Qed.

Lemma buckets_zero results : blen (distinct (map Hash (answered results))) = 0 <-> blen (answered results) = 0.
Proof.
  rewrite distinct_zero. destruct (answered results) as [|r l]; [by split|]. cbn. split; [done|]. rewrite blen_cons. pose proof (blen_nonneg l). lia.
Qed.

(** Whether all, some or none of the resolvers answered. *)
Inductive turnout (results : list propagationResult) : Prop :=
| Nobody : (forall r, In r results -> OK r = false) -> turnout results
| Everybody r : In r results -> OK r = true -> (forall r, In r results -> OK r = true) -> turnout results
| Somebody r r' : In r results -> OK r = true -> In r' results -> OK r' = false -> turnout results.

Lemma turnout_cases results : turnout results.
Proof.
  induction results as [|x l IH]; [by apply Nobody|]. destruct (OK x) eqn:E, IH as [Hn|r Hr Ho Ha|r r' Hr Ho Hr' Ho'].
  - destruct l as [|y l]; [apply (Everybody _ x); [by left|done|by intros ? [->|[]]]|].
    apply (Somebody _ x y); [by left|done|by right; left|]. apply Hn. by left.
  - apply (Everybody _ x); [by left|done|]. intros y [->|Hy]; auto.
  - apply (Somebody _ r r'); try done; by right.
  - apply Nobody. intros y [->|Hy]; auto.
  - apply (Somebody _ r x); try done; [by right|by left].
  - apply (Somebody _ r r'); try done; by right.
Qed.

(** The verdict on propagation is one of four: "failed" exactly when no resolver
    answered with NOERROR; "split" exactly when two of those that did have different
    hashes; "consistent" when all did and agree, and "partial" when some did not and the
    others agree. *)
Theorem aggregatePropagation_verdict results :
  let v := aggregatePropagation results in
  (Verdict v = "failed"%string <-> forall r, In r results -> OK r = false)
  /\ (Verdict v = "split"%string <-> conflict results)
  /\ (Verdict v = "consistent"%string <-> (exists r, In r results) /\ (forall r, In r results -> OK r = true) /\ ~ conflict results)
  /\ (Verdict v = "partial"%string <-> (exists r, In r results /\ OK r = true) /\ (exists r, In r results /\ OK r = false) /\ ~ conflict results).
Proof.
  cbv zeta. unfold aggregatePropagation. cbn [Verdict].
  pose proof (answered_zero results) as Hn. pose proof (answered_all results) as Htot.
  pose proof (buckets_conflict results) as Hc. pose proof (buckets_zero results) as Hz.
  pose proof (blen_nonneg (distinct (map Hash (answered results)))).
  set (n := blen (answered results)) in *. set (b := blen (distinct _)) in *. set (total := blen results) in *.
  destruct (turnout_cases results) as [Hf|r Hr Ho Ha|r r' Hr Ho Hr' Ho'].
  - apply Hn in Hf as Hn0. rewrite Hn0. cbn. refine (conj _ (conj _ (conj _ _))); (split; try done).
    + intros (r1 & r2 & Hr1 & _ & Ho & _). rewrite Hf in Ho; done.
    + intros ((r & Hr) & Ha & _). pose proof (Ha r Hr). rewrite Hf in *; done.
    + intros ((r & Hr & Ho) & _). rewrite Hf in Ho; done.
  - assert (Hn0 : n <> 0) by (intros E; pose proof (proj1 Hn E r Hr); congruence). pose proof (proj2 Htot Ha) as He.
    rewrite (proj2 (Z.eqb_neq n 0)), (proj2 (Z.eqb_neq b 0)) by tauto. rewrite He, Z.eqb_refl, andb_true_r.
    destruct (Z.eqb_spec b 1) as [Hb|Hb]; [assert (~ conflict results) by (rewrite <- Hc; lia)|assert (conflict results) by (apply Hc; lia)].
    + refine (conj _ (conj _ (conj _ _))); (split; try done); [intros Hf; by rewrite (Hf r Hr) in Ho|intros _; split_and!; by try exists r|].
      intros (_ & (x & Hx & Hf) & _). rewrite Ha in Hf; done.
    + refine (conj _ (conj _ (conj _ _))); (split; try done); [intros Hf; by rewrite (Hf r Hr) in Ho|tauto|tauto].
  - assert (Hn0 : n <> 0) by (intros E; pose proof (proj1 Hn E r Hr); congruence).
    assert (He : n <> total) by (intros E; pose proof (proj1 Htot E r' Hr'); congruence).
    rewrite (proj2 (Z.eqb_neq n 0)), (proj2 (Z.eqb_neq b 0)), (proj2 (Z.eqb_neq n total)), andb_false_r by tauto.
    destruct (Z.eqb_spec b 1) as [Hb|Hb]; [assert (~ conflict results) by (rewrite <- Hc; lia)|assert (conflict results) by (apply Hc; lia)].
    + refine (conj _ (conj _ (conj _ _))); (split; try done); [intros Hf; by rewrite (Hf r Hr) in Ho|intros (_ & Ha & _); by rewrite (Ha r' Hr') in Ho'|].
      intros _. split_and!; [by exists r|by exists r'|done].
    + refine (conj _ (conj _ (conj _ _))); (split; try done); [intros Hf; by rewrite (Hf r Hr) in Ho|tauto|tauto].
Qed.

(** A resolver that says NXDOMAIN counts as one that gave no answer: half of the world
    not knowing the name is "partial", not "split". *)
Definition halfKnows (addr name : string) (t : Z) : nsMsg + string :=
  inl {| nRcode := if HasSuffix addr "1:53" then 0 else 3; nAuthoritative := false; nNs := []; nExtra := [];
         nAnswer := if HasSuffix addr "1:53" then [NsA name "192.0.2.1"] else [] |}.
Lemma nxdomain_not_split :
  let v := probePropagation halfKnows (fun _ => ""%string) (fun _ => 0) "example.org" in
  Verdict v = "partial"%string /\ ResolversAnswered v = 3.
Proof. by vm_compute. Qed.

(** ** Results by index *)

(** The results of goroutines that each write to the entry of their index are those of
    the map, whatever the order in which they arrive. *)
Lemma foldl_insert_arrival {A} (f : nat -> A) (arrival : list nat) : forall out i x,
  foldl (fun out idx => <[idx := f idx]> out) out arrival !! i = Some x <->
  (i < length out)%nat /\ (if bool_decide (i ∈ arrival) then x = f i else out !! i = Some x).
Proof.
  induction arrival as [|a arrival IH]; intros out i x; cbn [foldl].
  - rewrite bool_decide_eq_false_2 by apply not_elem_of_nil. split; [|tauto]. intros Hx. split; [by eapply lookup_lt_Some|done].
  - rewrite IH, length_insert. destruct (decide (i ∈ arrival)) as [Hi|Hi].
    + rewrite !bool_decide_eq_true_2; [done|by right|done].
    + rewrite bool_decide_eq_false_2 by done. destruct (decide (i = a)) as [->|Hne].
      * rewrite bool_decide_eq_true_2 by left. split; intros [Hl Hx]; (split; [done|]).
        { rewrite list_lookup_insert_eq in Hx by done. congruence. }
        { rewrite list_lookup_insert_eq by done. congruence. }
      * rewrite bool_decide_eq_false_2 by (intros [->|?]%elem_of_cons; done). by rewrite list_lookup_insert_ne.
Qed.

(** The answers per client subnet do not depend on the order in which the goroutines
    finish: the result of every subnet is in its place. *)
Theorem probeECSMultiple_arrival probe arrival subnets
  (Harr : Permutation arrival (seq 0 (length subnets))) :
  probeECSMultiple probe arrival subnets = map probe subnets.
Proof.
  unfold probeECSMultiple. apply list_eq. intros i. apply option_eq. intros x.
  rewrite (foldl_insert_arrival (fun idx => probe (nth idx subnets ""%string))), repeat_length.
  assert (Hin : i ∈ arrival <-> (i < length subnets)%nat) by (rewrite Harr, elem_of_seq; lia).
  rewrite list_lookup_fmap_Some. split.
  - intros [Hl Hx]. rewrite bool_decide_eq_true_2 in Hx by (by apply Hin).
    exists (nth i subnets ""%string). split; [done|]. destruct (nth_lookup_or_length subnets i (String.EmptyString)); [done|lia].
  - intros (s & -> & Hs). apply lookup_lt_Some in Hs as Hl. split; [done|]. rewrite bool_decide_eq_true_2 by (by apply Hin).
    f_equal. symmetry. by apply nth_lookup_Some.
Qed.

(** ** Glue and cookies *)

(** A name server is reported without glue exactly when it is inside the zone and the
    parent did not answer or named no address for it: a parent that could not be asked
    counts as one that publishes no glue. *)
Lemma checkOneGlue_missing ask zone nsHost parentAddr :
  let zone' := TrimSuffix (ToLower zone) "." in
  let host := TrimSuffix (ToLower nsHost) "." in
  isMissing (checkOneGlue ask zone nsHost parentAddr) = true <->
  (HasSuffix host ("." +:+ zone') = true \/ host = zone') /\
  forall resp x, ask parentAddr (Fqdn zone') TypeNS = inl resp -> In x (nExtra resp) ->
    match x with NsA n _ | NsAAAA n _ => ToLower (TrimSuffix n ".") <> ToLower host | _ => True end.
Proof.
  cbv zeta. unfold checkOneGlue, isMissing. cbv zeta. set (host := TrimSuffix (ToLower nsHost) ".").
  set (zone' := TrimSuffix (ToLower zone) "."). destruct (HasSuffix host ("." +:+ zone') || String.eqb host zone') eqn:Eb; cbn [negb].
  - assert (Hb : HasSuffix host ("." +:+ zone') = true \/ host = zone') by (by rewrite orb_true_iff, String.eqb_eq in Eb).
    destruct (ask parentAddr (Fqdn zone') TypeNS) as [resp|e]; cbn [InBailiwick HasGlue andb negb]; [|split; [by split|done]].
    rewrite negb_true_iff, orb_false_iff, !Z.ltb_ge. split.
    + intros [Hv4 Hv6]. split; [done|]. intros resp' x [= <-] Hx.
      assert (Hnil : forall l : list string, blen l <= 0 -> l = []) by (intros [|? l]; [done|]; rewrite blen_cons; pose proof (blen_nonneg l); lia).
      apply Hnil in Hv4, Hv6. destruct x as [n ip|n ip| | | |]; try done; intros Heq.
      * assert (Hin : In ip []) by (rewrite <- Hv4; apply in_flat_map; exists (NsA n ip); split; [done|]; rewrite Heq, String.eqb_refl; by left). done.
      * assert (Hin : In ip []) by (rewrite <- Hv6; apply in_flat_map; exists (NsAAAA n ip); split; [done|]; rewrite Heq, String.eqb_refl; by left). done.
    + assert (Hnil : forall f : nsRR -> list string, (forall x, In x (nExtra resp) -> f x = []) -> blen (flat_map f (nExtra resp)) <= 0).
      { intros f. induction (nExtra resp) as [|x l IH]; intros Hf; [done|]. cbn. rewrite (Hf x) by by left. apply IH. intros y Hy. apply Hf. by right. }
      intros [_ Hx]. split; apply Hnil.
      all: intros x Hin; pose proof (Hx resp x eq_refl Hin) as Hne; destruct x; try done; by rewrite (proj2 (String.eqb_neq _ _) Hne).
  - split; [done|]. intros [Hb _]. rewrite <- String.eqb_eq, <- orb_true_iff in Hb. congruence.
Qed.

(** The client's half of the cookie in the answer is not compared with the one sent: an
    answer with another client's cookie counts as support. *)
Lemma cookie_of_another_client client other server :
  slen other = 16 -> 0 < slen server ->
  let r := probeDNSCookies (fun _ => inl (0, [(other +:+ server)%string])) client in
  Supported r = true /\ ServerCookie r = server.
Proof.
  intros Ho Hs. unfold probeDNSCookies. cbn [foldl Z.eqb]. unfold slen in *.
  rewrite length_appString, (proj2 (Z.ltb_lt _ _)) by lia. cbn [Supported ServerCookie]. split; [done|].
  replace 16%nat with (String.length other) by lia. apply dropString_app.
Qed.

Module NameserverWitnesses.
Definition zoneServers : list string := ["ns1.example.org"; "ns2.example.org"; "ns3.example.org"]%string.
Definition answers (addr name : string) (t : Z) : nsMsg + string :=
  if String.eqb addr "ns3.example.org:53" then inl {| nRcode := 0; nAuthoritative := true; nNs := []; nExtra := []; nAnswer := [NsSOA 7] |}
  else inl {| nRcode := 0; nAuthoritative := true; nNs := []; nExtra := []; nAnswer := [NsSOA 8] |}.

Lemma checkLameDelegation_consensus_witness :
  map IsLame (checkLameDelegation answers (rev (A := Z * Z)) "example.org" zoneServers) = [false; false; true] /\
  Forall2 (fun r r' => IsLame r' = true <-> ~ agrees 8 r)
    (map (probeOneLameNS answers "example.org") (take 8 zoneServers)) (checkLameDelegation answers (rev (A := Z * Z)) "example.org" zoneServers).
Proof.
  split; [reflexivity|]. apply checkLameDelegation_consensus; [intros l; symmetry; apply Permutation_rev|reflexivity|].
  intros t Ht. destruct (Z.eq_dec t 7) as [->|H7]; [reflexivity|].
  unfold votes. set (l := map _ _). vm_compute in l. subst l. cbn [List.filter lAuthoritative SOASerial Z.ltb Z.compare andb].
  rewrite !(proj2 (Z.eqb_neq 8 t)), !(proj2 (Z.eqb_neq 7 t)) by congruence. reflexivity.
Defined.

Lemma probeECSMultiple_arrival_witness :
  let probe s := {| Subnet := s; eIPs := [s]; eRCode := "NOERROR"; eError := "" |} in
  probeECSMultiple probe [2; 0; 1]%nat ["a"; "b"; "c"]%string = map probe ["a"; "b"; "c"]%string.
Proof.
  apply probeECSMultiple_arrival. cbn. apply Permutation_sym.
  change [0; 1; 2]%nat with ([0; 1] ++ [2])%nat. apply Permutation_app_comm.
Defined.
End NameserverWitnesses.
