(* ===== verification/Delegation.v ===== *)
(** The walk from a root server to the servers of a zone: [delegation.go].  The exchange
    with a server, its time in milliseconds and the system's resolver are parameters. *)

From Stdlib Require Import ZArith List String Ascii Strings.Byte Lia Bool.
From stdpp Require Import base list strings gmap.
From S2P Require Import Prelude Bytes GoStrings Text Result Float Json Profile Report Dns Nameservers.
Open Scope Z_scope.

(** ** The trace from the root *)

Record delegationStep := {
  Level : Z; dZone : string; dServer : string; ServerName : string; NSRecords : list string; Authoritative : bool; RTTms : float64 }.

Definition rootServerAddr : string := "198.41.0.4:53".
Definition rootServerName : string := "a.root-servers.net".

Section Trace.
Context (ask : string -> string -> Z -> nsMsg + string) (rtt : string -> float64).
(** [net.DefaultResolver.LookupHost] *)
Context (lookupHost : string -> list string + string).

(** The zone of the first NS record that names one. *)
Definition zoneOf (rrs : list nsRR) : string :=
  match flat_map (fun r => match r with NsNS n _ => let z := TrimSuffix n "." in if String.eqb z "" || String.eqb z "." then [] else [z] | _ => [] end) rrs with
  | z :: _ => z
  | [] => "."%string
  end.

(** The glue: the first A record whose owner is one of the name servers. *)
Definition glueFor (nsNames : list string) (extra : list nsRR) : option (string * string) :=
  match flat_map (fun r => match r with
                           | NsA n ip => let ah := TrimSuffix n "." in if existsb (String.eqb ah) nsNames && negb (String.eqb ip "") then [(ip, ah)] else []
                           | _ => [] end) extra with
  | g :: _ => Some g
  | [] => None
  end.

(** One turn of [for level := 0; level < 12; level++]: the step, and the next server if
    there is one; [inr] is [return steps, err]. *)
Definition traceTurn (fqdn : string) (level : Z) (server serverName : string) : (delegationStep * option (string * string)) + string :=
  match ask server fqdn TypeA with
  | inr e => inr e
  | inl r =>
      let nsNames := nsHostsOf (nNs r) in
      let zone := zoneOf (nNs r) in
      let zone := if nAuthoritative r && String.eqb zone "." then TrimSuffix fqdn "." else zone in
      let step := {| Level := level; dZone := zone; dServer := server; ServerName := serverName; NSRecords := nsNames;
                     Authoritative := nAuthoritative r; RTTms := rtt server |} in
      if nAuthoritative r || (0 <? blen (nAnswer r)) then inl (step, None)
      else
        match nsNames with
        | [] => inl (step, None)
        | first :: _ =>
            match glueFor nsNames (nExtra r) with
            | Some (ip, n) => inl (step, Some (JoinHostPort ip "53", n))
            | None =>
                match lookupHost first with
                | inl (ip :: _) => inl (step, Some (JoinHostPort ip "53", first))
                | _ => inl (step, None)
                end
            end
        end
  end.

Fixpoint traceFrom (fqdn : string) (room : nat) (level : Z) (server serverName : string) : list delegationStep * option string :=
  match room with
  | O => ([], None)
  | S room =>
      match traceTurn fqdn level server serverName with
      | inr e => ([], Some e)
      | inl (step, None) => ([step], None)
      | inl (step, Some (server, serverName)) =>
          let '(steps, err) := traceFrom fqdn room (level + 1) server serverName in (step :: steps, err)
      end
  end.

Definition traceDelegation (host : string) : list delegationStep * option string :=
  traceFrom (Fqdn host) 12 0 rootServerAddr rootServerName.
End Trace.


Definition stepValue (s : delegationStep) : value :=
  VStruct "delegationStep" ([("level", VInt (Level s)); ("zone", VString (dZone s)); ("server", VString (dServer s))]
    ++ optString "server_name" (ServerName s) ++ optStrings "ns" (NSRecords s) ++ optBool "authoritative" (Authoritative s)
    ++ [("rtt_ms", VFloat (RTTms s))])%list%string.

Definition arrow : string := toString [xe2; x86; x92].
Definition star : string := toString [xe2; x98; x85].

(** One line of the hint *)
Definition stepLine (s : delegationStep) : outcome string :=
  let zone := if String.eqb (dZone s) "" then "."%string else dZone s in
  let marker := if Authoritative s then star else arrow in
  short <~ truncate zone 18 ;;
  Ret (marker +:+ "  " +:+ padRight 20 short +:+ "  via " +:+ ServerName s)%string.

Fixpoint stepLines (steps : list delegationStep) : outcome (list string) :=
  match steps with
  | [] => Ret []
  | s :: steps => line <~ stepLine s ;; lines <~ stepLines steps ;; Ret (line :: lines)
  end.

Section Check.
Context (ask : string -> string -> Z -> nsMsg + string) (rtt : string -> float64) (lookupHost : string -> list string + string).

Definition checkDelegation (resolved : bool) (host : string) : outcome Check :=
  if negb resolved then
    Ret {| Name := "Delegation"; Status := StatusSkip; Summary := ("skipped " +:+ emDash +:+ " DNS did not resolve")%string; Hint := "";
           Millis := Float 0 0; Detail := None |}
  else
    let '(steps, err) := traceDelegation ask rtt lookupHost host in
    if blen steps =? 0 then
      Ret {| Name := "Delegation"; Status := StatusWarn; Summary := "delegation trace failed"; Hint := ""; Millis := Float 0 0;
             Detail := match err with Some e => Some {["error"%string := VString (tidyErr e)]} | None => None end |}
    else
      lines <~ stepLines steps ;;
      Ret {| Name := "Delegation"; Status := StatusOK;
             Summary := ("walked " +:+ fmtD (blen steps) +:+ " level" +:+ plural (blen steps) +:+ " from root to authoritative")%string;
             Hint := Join lines (toString [x0a]); Millis := Float 0 0;
             Detail := Some {["steps"%string := VSlice "delegationStep" (Some (map stepValue steps))]} |}.
End Check.

(** ** The walk *)

Section Walk.
Context (ask : string -> string -> Z -> nsMsg + string) (rtt : string -> float64) (lookupHost : string -> list string + string).

(** What a step says is what its server answered. *)
Definition told (fqdn : string) (s : delegationStep) : Prop :=
  exists r, ask (dServer s) fqdn TypeA = inl r /\ Authoritative s = nAuthoritative r /\ NSRecords s = nsHostsOf (nNs r).

(** The glue of an answer: an address record whose owner is one of its name servers *)
Definition isGlue (nsNames : list string) (x : nsRR) (ip name : string) : Prop :=
  exists owner, x = NsA owner ip /\ ip <> ""%string /\ TrimSuffix owner "." = name /\ In name nsNames.

(** Where an answer sends the walk: to the first glue there is, or, without any, to the
    first address that the resolver has for the first name server. *)
Definition refersTo (r : nsMsg) (name ip : string) : Prop :=
  let nsNames := nsHostsOf (nNs r) in
  (exists before x after, nExtra r = before ++ x :: after /\ isGlue nsNames x ip name
     /\ forall y, In y before -> forall ip' name', ~ isGlue nsNames y ip' name')
  \/ (forall y, In y (nExtra r) -> forall ip' name', ~ isGlue nsNames y ip' name')
     /\ head nsNames = Some name /\ exists ips, lookupHost name = inl (ip :: ips).

(** A server is left only when it answered without authority and without an answer, for
    the server it referred to, at the address it gave or the resolver knows. *)
Definition refers (fqdn : string) (s s' : delegationStep) : Prop :=
  exists r ip, ask (dServer s) fqdn TypeA = inl r /\ nAuthoritative r = false /\ nAnswer r = []
    /\ refersTo r (ServerName s') ip /\ dServer s' = JoinHostPort ip "53".

Lemma glueFor_spec nsNames extra :
  match glueFor nsNames extra with
  | Some (ip, name) => exists before x after, extra = before ++ x :: after /\ isGlue nsNames x ip name
      /\ forall y, In y before -> forall ip' name', ~ isGlue nsNames y ip' name'
  | None => forall y, In y extra -> forall ip' name', ~ isGlue nsNames y ip' name'
  end.
Proof.
  unfold glueFor. set (take_ := fun r => match r with NsA n ip => _ | _ => [] end).
  assert (Hno : forall y, take_ y = [] -> forall ip' name', ~ isGlue nsNames y ip' name').
  { intros y Hy ip' name' (owner & -> & Hip & Hn & Hin). cbn in Hy. rewrite Hn in Hy.
    rewrite (proj2 (existsb_exists (String.eqb name') nsNames)) in Hy by (exists name'; by rewrite String.eqb_refl).
    apply String.eqb_neq in Hip. by rewrite Hip in Hy. }
  induction extra as [|x extra IH]; [by intros y []|]. cbn [flat_map]. destruct (take_ x) as [|g l] eqn:Ex; cbn [app].
  - destruct (flat_map take_ extra) as [|[ip name] l].
    + intros y [<-|Hy]; [by apply Hno|by apply IH].
    + destruct IH as (before & z & after & -> & Hz & Hb). exists (x :: before), z, after. split; [done|]. split; [done|].
      intros y [<-|Hy]; [by apply Hno|by apply Hb].
  - destruct x; try done. cbn in Ex. destruct (existsb _ nsNames) eqn:Ee; cbn in Ex; [|done]. destruct (String.eqb_spec ip "") as [|Hip]; [done|].
    injection Ex as <- <-. exists [], (NsA name ip), extra. split; [done|]. split; [|by intros y []].
    exists name. split_and!; try done. by apply existsb_exists in Ee as (y & Hy & ->%String.eqb_eq).
Qed.

Lemma traceTurn_step fqdn level server name s next :
  traceTurn ask rtt lookupHost fqdn level server name = inl (s, next) ->
  Level s = level /\ dServer s = server /\ ServerName s = name /\ told fqdn s /\
  forall server' name', next = Some (server', name') ->
    exists r ip, ask server fqdn TypeA = inl r /\ nAuthoritative r = false /\ nAnswer r = []
      /\ refersTo r name' ip /\ server' = JoinHostPort ip "53".
Proof.
  unfold traceTurn. destruct (ask server fqdn TypeA) as [r|e] eqn:Er; [|done]. cbv zeta.
  destruct (nAuthoritative r || (0 <? blen (nAnswer r))) eqn:Estop.
  { intros [= <- <-]. repeat split; [|done..]. by exists r. }
  apply orb_false_iff in Estop as [Hauth Hans].
  assert (Hnil : nAnswer r = []) by (destruct (nAnswer r); [done|]; rewrite blen_cons in Hans; pose proof (blen_nonneg l); lia).
  destruct (nsHostsOf (nNs r)) as [|first rest] eqn:Ens.
  { intros [= <- <-]. repeat split; [|done..]. exists r. by rewrite Ens. }
  pose proof (glueFor_spec (first :: rest) (nExtra r)) as Hg.
  destruct (glueFor (first :: rest) (nExtra r)) as [[ip n]|].
  - intros [= <- <-]. repeat split; [by exists r; rewrite Ens|]. intros ? ? [= <- <-]. exists r, ip. split_and!; try done.
    left. by rewrite Ens.
  - destruct (lookupHost first) as [[|ip ips]|e] eqn:El; intros [= <- <-]; (repeat split; [by exists r; rewrite Ens|]); intros ? ? Hn; [done| |done].
    injection Hn as <- <-. exists r, ip. split_and!; try done. right. rewrite Ens. split_and!; try done. by exists ips.
Qed.

Lemma traceFrom_walk fqdn room : forall level server name steps err,
  traceFrom ask rtt lookupHost fqdn room level server name = (steps, err) ->
  (length steps <= room)%nat
  /\ (forall i s, steps !! i = Some s -> Level s = level + Z.of_nat i /\ told fqdn s)
  /\ (forall s, steps !! 0%nat = Some s -> dServer s = server /\ ServerName s = name)
  /\ (forall i s s', steps !! i = Some s -> steps !! S i = Some s' -> refers fqdn s s')
  /\ (forall e, err = Some e -> exists server', ask server' fqdn TypeA = inr e)
  /\ (room <> 0%nat -> steps = [] -> exists e, err = Some e).
Proof.
  induction room as [|room IH]; intros level server name steps err; cbn [traceFrom].
  { intros [= <- <-]. repeat split; cbn; try done; lia. }
  destruct (traceTurn _ _ _ _ _ _ _) as [[s next]|e] eqn:Et.
  - apply traceTurn_step in Et as (Hl & Hs & Hn & Ht & Hnext).
    assert (H0 : forall i x, [s] !! i = Some x -> Level x = level + Z.of_nat i /\ told fqdn x).
    { intros [|i] x; cbn; [intros [= <-]; by rewrite Hl, Z.add_0_r|done]. }
    destruct next as [[server' name']|].
    + destruct (traceFrom ask rtt lookupHost fqdn room (level + 1) server' name') as [rest err'] eqn:Er.
      intros [= <- <-]. destruct (IH _ _ _ _ _ Er) as (Hlen & Hlev & Hfst & Href & Herr & _).
      destruct (Hnext _ _ eq_refl) as (r & ip & Href').
      split; [cbn; lia|]. split.
      { intros [|i] x Hx; [by apply H0|]. apply Hlev in Hx as [-> Hx]. split; [lia|done]. }
      split; [by intros x [= <-]|]. split.
      { intros [|i] x x' Hx Hx'; [|by eapply Href]. injection Hx as <-. destruct (Hfst _ Hx') as [Hd' Hn']. unfold refers.
        rewrite Hd', Hn', Hs. by exists r, ip. }
      split; [done|done].
    + intros [= <- <-]. split; [cbn; lia|]. split; [done|]. split; [by intros x [= <-]|]. split; [|done]. by intros [|[|i]] x x'.
  - intros [= <- <-]. split; [cbn; lia|]. do 3 (split; [done|]). split; [|intros; by exists e].
    intros e' [= <-]. exists server. revert Et. unfold traceTurn. destruct (ask server fqdn TypeA); [|by intros [= ->]].
    cbv zeta. repeat case_match; congruence.
Qed.
End Walk.

Lemma stepLines_total steps : exists lines, stepLines steps = Ret lines /\ length lines = length steps.
Proof.
  induction steps as [|s steps (lines & El & Hl)]; [by exists []|]. cbn [stepLines]. rewrite El. unfold stepLine.
  destruct (truncate_spec (if String.eqb (dZone s) "" then "." else dZone s)%string 18 ltac:(lia)) as (t & -> & _).
  cbn [bind]. eexists. split; [done|]. cbn. by rewrite Hl.
Qed.

(** C34. The walk of the delegation: at most twelve steps, numbered from 0, from a root
    server; each step tells what its server answered, and a server is left only when it
    answered without authority and without an answer, for a name server it named, at the
    address of the first glue of its answer, or without glue at the first address that
    the system's resolver has for the first of them.  The
    check never panics: it is a warning exactly when the root server did not answer, and
    then its detail is the error. *)
Theorem checkDelegation_walk ask rtt lookupHost host :
  exists steps err chk, traceDelegation ask rtt lookupHost host = (steps, err)
  /\ checkDelegation ask rtt lookupHost true host = Ret chk
  /\ (length steps <= 12)%nat
  /\ (forall i s, steps !! i = Some s -> Level s = Z.of_nat i /\ told ask (Fqdn host) s)
  /\ (forall s, steps !! 0%nat = Some s -> dServer s = rootServerAddr)
  /\ (forall i s s', steps !! i = Some s -> steps !! S i = Some s' -> refers ask lookupHost (Fqdn host) s s')
  /\ (Status chk = StatusWarn <-> exists e, ask rootServerAddr (Fqdn host) TypeA = inr e).
Proof.
  remember (checkDelegation ask rtt lookupHost true host) as c eqn:Hc. unfold checkDelegation in Hc. cbn [negb] in Hc. destruct (traceDelegation ask rtt lookupHost host) as [steps err] eqn:Et.
  assert (Hroot : steps = [] <-> exists e, ask rootServerAddr (Fqdn host) TypeA = inr e).
  { revert Et. unfold traceDelegation. cbn [traceFrom]. unfold traceTurn at 1. destruct (ask rootServerAddr (Fqdn host) TypeA) as [r|e].
    - cbv zeta. split; [intros ->|by intros [? ?]]. repeat case_match; simplify_eq.
    - intros [= <- <-]. split; [by exists e|done]. }
  apply traceFrom_walk in Et as (Hlen & Hlev & Hfst & Href & _).
  destruct (stepLines_total steps) as (lines & El & _). rewrite El in Hc.
  assert (exists chk, c = Ret chk /\ (Status chk = StatusWarn <-> steps = [])) as (chk & -> & Hw).
  { subst c. destruct steps as [|s steps]; [by eexists|]. rewrite blen_cons.
    rewrite (proj2 (Z.eqb_neq _ 0)) by (pose proof (blen_nonneg steps); lia). cbn [bind]. eexists. split; [done|]. by split. }
  exists steps, err, chk. split; [done|]. split; [done|]. split; [done|]. split; [apply Hlev|].
  split; [intros s Hs; by apply Hfst|]. split; [apply Href|]. by rewrite Hw.
Qed.

(** The summary says that the walk ended with authority also when it ended in a referral
    that leads nowhere. *)
Definition deadEnd (addr name : string) (t : Z) : nsMsg + string :=
  inl {| nRcode := 0; nAuthoritative := false; nAnswer := []; nNs := [NsNS "org." "ns.example.org."]; nExtra := [] |}.
Lemma checkDelegation_dead_end :
  match checkDelegation deadEnd (fun _ => Float 0 0) (fun _ => inr "no such host"%string) true "example.org" with
  | Ret c => Status c = StatusOK /\ Summary c = "walked 1 level from root to authoritative"%string
  | _ => False
  end.
Proof. by vm_compute. Qed.
