(* ===== verification/MailRecords.v ===== *)
(** The records of a mail domain and their parsers: SPF, DMARC, the policy of MTA-STS,
    TLS-RPT ([mail.go]) and BIMI ([mail_bimi.go]). *)

From Stdlib Require Import ZArith List String Ascii Strings.Byte Lia Bool.
From stdpp Require Import base list strings.
From S2P Require Import Prelude Bytes GoStrings Text Result Dns.
Open Scope Z_scope.

Definition isOneOf (s : string) (l : list string) : bool := existsb (String.eqb s) l.

(** A tag of a record: key and value around the first separator, both trimmed, the key
    in lower case *)
Definition tagOf (sep : ascii) (part : string) : option (string * string) :=
  match Cut (TrimSpace part) sep with
  | (k, v, true) => Some (ToLower (TrimSpace k), TrimSpace v)
  | _ => None
  end.

(** The tags of a record, in its order *)
Definition tagsOf (sep eq : ascii) (s : string) : list (string * string) := omap (tagOf eq) (Split s sep).

(** ** SPF *)

Record spfPolicy := { spfRaw : string; Mechanisms : list string; All : string; Lookups : Z; spfIssues : list string }.

Definition isAll (tl : string) : bool := isOneOf tl ["-all"; "~all"; "?all"; "+all"]%string.

Definition causesLookup (tl : string) : bool :=
  HasPrefix tl "a" || HasPrefix tl "mx" || HasPrefix tl "include:" || HasPrefix tl "exists:" || HasPrefix tl "ptr".

(** One turn of the loop over the tokens: [p.Mechanisms], [p.All], [p.Lookups] *)
Definition spfToken (st : list string * string * Z) (t : string) : list string * string * Z :=
  let '(mechanisms, all, lookups) := st in
  let tl := ToLower t in
  let mechanisms := mechanisms ++ [t] in
  if isAll tl then (mechanisms, tl, lookups)
  else if causesLookup tl then (mechanisms, all, lookups + 1)
  else (mechanisms, all, lookups).

Definition spfIssuesOf (all : string) (lookups : Z) : list string :=
  (when (String.eqb all "") "no terminal 'all' mechanism"
   ++ when (String.eqb all "+all") ("+all permits anyone " +:+ emDash +:+ " equivalent to no SPF")
   ++ when (10 <? lookups)%Z (fmtD lookups +:+ " lookup-causing mechanisms (RFC 7208 max 10)"))%list%string.

Definition parseSPF (txt : string) : outcome (option spfPolicy) :=
  let s := TrimSpace txt in
  if negb (HasPrefix (ToLower s) "v=spf1") then Ret None
  else
    let fields := Fields s in
    tokens <~ slice fields 1 (blen fields) ;;
    let '(mechanisms, all, lookups) := foldl spfToken ([], ""%string, 0) tokens in
    Ret (Some {| spfRaw := s; Mechanisms := mechanisms; All := all; Lookups := lookups; spfIssues := spfIssuesOf all lookups |}).

(** ** DMARC *)

Record dmarcPolicy := {
  dmarcRaw : string; Version : string; Policy : string; SubPolicy : string; Percentage : Z;
  RUA : list string; RUF : list string; AlignDKIM : string; AlignSPF : string; dmarcIssues : list string
}.

Definition splitDMARCAddrs (s : string) : list string :=
  List.filter (fun a => negb (String.eqb a "")) (map TrimSpace (Split s ",")).

Definition setTag (p : dmarcPolicy) (kv : string * string) : dmarcPolicy :=
  let '(key, val) := kv in
  let named := String.eqb key in
  {| dmarcRaw := dmarcRaw p;
     Version := if named "v"%string then val else Version p;
     Policy := if named "p"%string then ToLower val else Policy p;
     SubPolicy := if named "sp"%string then ToLower val else SubPolicy p;
     Percentage := if named "pct"%string then (match Atoi val with (n, true) => n | _ => Percentage p end) else Percentage p;
     RUA := if named "rua"%string then splitDMARCAddrs val else RUA p;
     RUF := if named "ruf"%string then splitDMARCAddrs val else RUF p;
     AlignDKIM := if named "adkim"%string then ToLower val else AlignDKIM p;
     AlignSPF := if named "aspf"%string then ToLower val else AlignSPF p;
     dmarcIssues := dmarcIssues p |}.

Definition dmarcIssuesOf (p : dmarcPolicy) : list string :=
  (when (String.eqb (Policy p) "") "no p= directive"
   ++ when (String.eqb (Policy p) "none") ("p=none " +:+ emDash +:+ " monitoring mode, not enforced")
   ++ when ((blen (RUA p) =? 0) && (blen (RUF p) =? 0))%Z "no rua/ruf reporting endpoints"
   ++ when (Percentage p <? 100)%Z ("pct=" +:+ fmtD (Percentage p) +:+ " " +:+ emDash +:+ " partial enforcement"))%list%string.

Definition withIssues (p : dmarcPolicy) (l : list string) : dmarcPolicy :=
  {| dmarcRaw := dmarcRaw p; Version := Version p; Policy := Policy p; SubPolicy := SubPolicy p; Percentage := Percentage p;
     RUA := RUA p; RUF := RUF p; AlignDKIM := AlignDKIM p; AlignSPF := AlignSPF p; dmarcIssues := l |}.

Definition newDMARC (raw : string) : dmarcPolicy :=
  {| dmarcRaw := raw; Version := ""; Policy := ""; SubPolicy := ""; Percentage := 100; RUA := []; RUF := [];
     AlignDKIM := ""; AlignSPF := ""; dmarcIssues := [] |}.

Definition parseDMARC (txt : string) : option dmarcPolicy :=
  let s := TrimSpace txt in
  if negb (HasPrefix (ToLower s) "v=dmarc1") then None
  else
    let p := foldl setTag (newDMARC s) (tagsOf ";" "=" s) in
    Some (withIssues p (dmarcIssuesOf p)).

(** ** MTA-STS, TLS-RPT and BIMI *)

Record mtaSTS := {
  DNSPresent : bool; DNSValue : string; PolicyPresent : bool; stsMode : string; MaxAge : Z;
  MXPatterns : list string; stsIssues : list string
}.

Definition stsIssue (out : mtaSTS) (issue : string) : mtaSTS :=
  {| DNSPresent := DNSPresent out; DNSValue := DNSValue out; PolicyPresent := PolicyPresent out; stsMode := stsMode out;
     MaxAge := MaxAge out; MXPatterns := MXPatterns out; stsIssues := stsIssues out ++ [issue] |}.

Definition stsRecord (out : mtaSTS) (joined : string) : mtaSTS :=
  if Contains (ToLower joined) "v=stsv1" then
    {| DNSPresent := true; DNSValue := joined; PolicyPresent := PolicyPresent out; stsMode := stsMode out;
       MaxAge := MaxAge out; MXPatterns := MXPatterns out; stsIssues := stsIssues out |}
  else out.

(** A line of the policy *)
Definition stsLine (out : mtaSTS) (kv : string * string) : mtaSTS :=
  let '(k, v) := kv in
  {| DNSPresent := DNSPresent out; DNSValue := DNSValue out; PolicyPresent := PolicyPresent out;
     stsMode := if String.eqb k "mode" then ToLower v else stsMode out;
     MaxAge := if String.eqb k "max_age" then (match Atoi v with (n, true) => n | _ => MaxAge out end) else MaxAge out;
     MXPatterns := if String.eqb k "mx" then MXPatterns out ++ [v] else MXPatterns out; stsIssues := stsIssues out |}.

Definition newSTS : mtaSTS :=
  {| DNSPresent := false; DNSValue := ""; PolicyPresent := false; stsMode := ""; MaxAge := 0; MXPatterns := []; stsIssues := [] |}.

Definition policyFound (out : mtaSTS) : mtaSTS :=
  {| DNSPresent := DNSPresent out; DNSValue := DNSValue out; PolicyPresent := true; stsMode := stsMode out;
     MaxAge := MaxAge out; MXPatterns := MXPatterns out; stsIssues := stsIssues out |}.

(** The policy of a body, cut at 16 KiB *)
Definition stsPolicy (out : mtaSTS) (body : string) : mtaSTS :=
  let body := takeString (Z.to_nat 16384) body in
  let out := foldl stsLine (policyFound out) (tagsOf (ascii_of_N 10) ":" body) in
  let out := if String.eqb (stsMode out) "none" then
               stsIssue out ("mode=none " +:+ emDash +:+ " policy advertised but not enforced")%string else out in
  if String.eqb (stsMode out) "testing" then
    stsIssue out ("mode=testing " +:+ emDash +:+ " failures reported but not blocked")%string else out.

Record tlsRPT := { Present : bool; rptRaw : string; ReportTo : string }.

(** The endpoint of the last [rua=] part *)
Definition rptPart (report part : string) : string :=
  let part := TrimSpace part in
  if HasPrefix (ToLower part) "rua=" then TrimSpace (dropString 4 part) else report.

Definition rptRecord (out : tlsRPT) (joined : string) : tlsRPT :=
  if Contains (ToLower joined) "v=tlsrptv1" then
    {| Present := true; rptRaw := joined; ReportTo := foldl rptPart (ReportTo out) (Split joined ";") |}
  else out.

Record bimiRecord := { Found : bool; bimiRaw : string; Logo : string; VMC : string; bimiErrors : list string }.

Definition bimiTag (out : bimiRecord) (kv : string * string) : bimiRecord :=
  let '(k, v) := kv in
  {| Found := Found out; bimiRaw := bimiRaw out;
     Logo := if String.eqb k "l" then v else Logo out;
     VMC := if String.eqb k "a" then v else VMC out;
     bimiErrors := bimiErrors out
       ++ when (String.eqb k "v" && negb (String.eqb v "BIMI1")) ("unknown version: " +:+ v)%string |}.

Definition noBIMI : bimiRecord := {| Found := false; bimiRaw := ""; Logo := ""; VMC := ""; bimiErrors := [] |}.

Definition parseBIMI (combined : string) : bimiRecord :=
  let out := foldl bimiTag {| Found := true; bimiRaw := combined; Logo := ""; VMC := ""; bimiErrors := [] |} (tagsOf ";" "=" combined) in
  {| Found := true; bimiRaw := combined; Logo := Logo out; VMC := VMC out;
     bimiErrors := (bimiErrors out ++ when (String.eqb (Logo out) "") "no l= (logo URI)"
                    ++ when (HasPrefix (Logo out) "http://") "l= must be https://")%list%string |}.

Definition bimiHeadline (b : bimiRecord) : string :=
  if negb (Found b) then ""
  else if negb (String.eqb (Logo b) "") && negb (String.eqb (VMC b) "") then "BIMI: logo+VMC"
  else if negb (String.eqb (Logo b) "") then "BIMI: logo (no VMC)"
  else "BIMI: present".

(** ** The probes *)

Section Probes.
(** [queryDNS] over the transport of the run: the answer to a name and type *)
Context (query : string -> Z -> list rr + string).
(** The HTTP client: status code and body, or an error *)
Context (httpGet : string -> (Z * string) + string).

Fixpoint probeSPFIn (l : list string) : outcome (option spfPolicy) :=
  match l with
  | [] => Ret None
  | joined :: l => p <~ parseSPF joined ;; match p with Some p => Ret (Some p) | None => probeSPFIn l end
  end.

Definition probeSPF (domain : string) : outcome (option spfPolicy) := probeSPFIn (texts (records (query domain TypeTXT))).

Definition probeDMARC (domain : string) : option dmarcPolicy :=
  head (omap parseDMARC (texts (records (query ("_dmarc." +:+ domain)%string TypeTXT)))).

Definition probeMTASTS (domain : string) : mtaSTS :=
  let out := foldl stsRecord newSTS (texts (records (query ("_mta-sts." +:+ domain)%string TypeTXT))) in
  if negb (DNSPresent out) then out
  else
    match httpGet ("https://mta-sts." +:+ domain +:+ "/.well-known/mta-sts.txt")%string with
    | inr e => stsIssue out ("policy fetch failed: " +:+ tidyErr e)%string
    | inl (code, body) =>
        if negb (code =? 200) then stsIssue out ("policy HTTP " +:+ fmtD code)%string
        else stsPolicy out body
    end.

Definition probeTLSRPT (domain : string) : tlsRPT :=
  foldl rptRecord {| Present := false; rptRaw := ""; ReportTo := "" |} (texts (records (query ("_smtp._tls." +:+ domain)%string TypeTXT))).

Definition probeBIMI (domain : string) : bimiRecord :=
  match texts (records (query ("default._bimi." +:+ TrimSuffix domain ".")%string TypeTXT)) with
  | [] => noBIMI
  | combined :: _ => if String.eqb combined "" then noBIMI else parseBIMI combined
  end.
End Probes.

(** ** Tags as they are written *)

(** A tag with white space around its key and its value *)
Record tagText := { pre : string; tagKey : string; mid : string; mid' : string; tagVal : string; post : string }.

Definition renderTag (eq : ascii) (t : tagText) : string :=
  (pre t +:+ tagKey t +:+ mid t +:+ String eq (mid' t +:+ tagVal t +:+ post t))%string.

Definition tagOk (sep eq : ascii) (t : tagText) : Prop :=
  spaces (pre t) /\ spaces (mid t) /\ spaces (mid' t) /\ spaces (post t) /\
  tagKey t <> ""%string /\ trimmed (tagKey t) = true /\ trimmed (tagVal t) = true /\
  lacks eq (tagKey t) = true /\ lacks sep (renderTag eq t) = true.

Lemma spaces_lacks c s : isSpace c = false -> spaces s -> lacks c s = true.
Proof. intros Hc. apply forallString_impl. intros x Hx. destruct (Ascii.eqb_spec x c) as [->|]; [congruence|done]. Qed.

(** What is left of a tag when its outer white space is cut off *)
Lemma TrimSpace_renderTag sep eq t : isSpace eq = false -> tagOk sep eq t ->
  exists v', TrimSpace (renderTag eq t) = (tagKey t +:+ mid t +:+ String eq v')%string /\ TrimSpace v' = tagVal t.
Proof.
  intros Heq (Ha & Hb & Hc & Hd & Hk & Htk & Htv & _). unfold renderTag.
  pose proof Htk as [Hkl%String.eqb_eq _]%andb_true_iff. pose proof Htv as [Hvl%String.eqb_eq Hvr%String.eqb_eq]%andb_true_iff.
  set (front := (tagKey t +:+ mid t +:+ String eq "")%string).
  assert (Hf : forall x, (tagKey t +:+ mid t +:+ String eq x)%string = (front +:+ x)%string)
    by (intros x; unfold front; by rewrite <- !appString_assoc).
  unfold TrimSpace at 1, trimRightFunc. rewrite trimLeft_spaces by done. rewrite Hf.
  rewrite trimLeft_app; [|unfold front; destruct (tagKey t); done|unfold front; rewrite !trimLeft_app by done; done].
  rewrite revString_app, revString_app, revString_app.
  rewrite <- !appString_assoc, (trimLeft_spaces (revString (post t))) by (unfold spaces; by rewrite forallString_revString).
  destruct (String.eqb_spec (tagVal t) "") as [Hv|Hv].
  - rewrite Hv. change (revString "" +:+ revString (mid' t) +:+ revString front)%string with (revString (mid' t) +:+ revString front)%string.
    rewrite trimLeft_spaces by (unfold spaces; by rewrite forallString_revString).
    exists ""%string. split; [|done]. rewrite Hf, appString_nil.
    assert (Hr : revString front = String eq (revString (tagKey t +:+ mid t))).
    { unfold front. rewrite appString_assoc, revString_app. done. }
    rewrite Hr. cbn [trimLeftFunc]. rewrite Heq, <- Hr. apply revString_involutive.
  - rewrite trimLeft_app by (try done; intros E; by apply Hv, revString_nil).
    exists (mid' t +:+ tagVal t)%string. split.
    + rewrite Hf, <- !revString_app, revString_involutive. by rewrite <- appString_assoc.
    + pose proof (TrimSpace_pad (mid' t) (tagVal t) "" Hc eq_refl Htv) as Ht. by rewrite appString_nil in Ht.
Qed.

Lemma tagOf_render sep eq t : isSpace eq = false -> tagOk sep eq t ->
  tagOf eq (renderTag eq t) = Some (ToLower (tagKey t), tagVal t).
Proof.
  intros Heq Hok. destruct (TrimSpace_renderTag sep eq t Heq Hok) as (v' & Ht & Hv).
  destruct Hok as (_ & Hb & _ & _ & _ & Htk & _ & Hl & _).
  unfold tagOf. rewrite Ht, appString_assoc, Cut_app by (by rewrite lacks_app, Hl, (spaces_lacks _ _ Heq Hb)).
  rewrite Hv. replace (TrimSpace (tagKey t +:+ mid t)) with (tagKey t); [done|].
  symmetry. by apply (TrimSpace_pad "" (tagKey t) (mid t)).
Qed.

(** Any record written as tags with separators between them is read tag by tag. *)
Lemma tagsOf_render sep eq l : isSpace eq = false -> l <> [] -> Forall (tagOk sep eq) l ->
  tagsOf sep eq (Join (map (renderTag eq) l) (String sep "")) = map (fun t => (ToLower (tagKey t), tagVal t)) l.
Proof.
  intros Heq Hne Hl. unfold tagsOf. rewrite Split_Join.
  - clear Hne. induction Hl as [|t l Ht _ IH]; [done|]. cbn. by rewrite (tagOf_render sep), IH.
  - by destruct l.
  - clear Hne. induction Hl as [|t l Ht _ IH]; [done|]. cbn. rewrite IH, andb_true_r. apply Ht.
Qed.

(** ** SPF: what is read *)

Definition lastAll (tokens : list string) : string := List.last (List.filter isAll (map ToLower tokens)) "".
Definition lookupTokens (tokens : list string) : Z :=
  blen (List.filter (fun t => negb (isAll t) && causesLookup t) (map ToLower tokens)).

Lemma spf_fold tokens : forall m a n,
  foldl spfToken (m, a, n) tokens =
  (m ++ tokens, List.last (List.filter isAll (map ToLower tokens)) a, n + lookupTokens tokens).
Proof.
  unfold lookupTokens. induction tokens as [|t tokens IH]; intros m a n; [cbn; by rewrite app_nil_r, Z.add_0_r|].
  cbn [foldl map List.filter]. unfold spfToken at 2. destruct (isAll (ToLower t)) eqn:E.
  - rewrite IH. cbn [negb andb]. rewrite <- app_assoc. cbn [app]. do 2 f_equal.
    generalize (List.filter isAll (map ToLower tokens)) as l. intros l. revert a. generalize (ToLower t) as x.
    induction l as [|y l IHl]; intros x a; [done|]. change (List.last (y :: l) x = List.last (y :: l) a). destruct l; [done|]. apply (IHl x a).
  - cbn [negb andb]. destruct (causesLookup (ToLower t)); rewrite IH, <- app_assoc; cbn [app]; [|done].
    f_equal. unfold blen. cbn [length]. lia.
Qed.

Lemma fieldsAcc_nonempty s : forall cur, cur <> ""%string -> fieldsAcc cur s <> [].
Proof.
  induction s as [|c s IH]; intros cur Hc; cbn [fieldsAcc]; destruct (String.eqb_spec cur ""); try done.
  destruct (isSpace c); [done|]. by apply IH.
Qed.

Lemma Fields_starts c s : isSpace c = false -> Fields (String c s) <> [].
Proof. intros Hc. unfold Fields. cbn [fieldsAcc]. rewrite Hc. by apply fieldsAcc_nonempty. Qed.

Lemma prefix_v s p : HasPrefix (ToLower s) (String "v" p) = true -> exists c s', s = String c s' /\ isSpace c = false.
Proof.
  destruct s as [|c s]; [done|]. intros Hp. exists c, s. split; [done|].
  unfold HasPrefix in Hp. cbn [ToLower mapString String.prefix] in Hp. destruct (ascii_dec "v" (lowerByte c)) as [E|]; [|done].
  destruct (isSpace c) eqn:Es; [|done]. exfalso. revert E Es. destruct c as [[] [] [] [] [] [] [] []]; by vm_compute.
Qed.

Definition spfOf (s : string) (tokens : list string) : spfPolicy :=
  {| spfRaw := s; Mechanisms := tokens; All := lastAll tokens; Lookups := lookupTokens tokens;
     spfIssues := spfIssuesOf (lastAll tokens) (lookupTokens tokens) |}.

Lemma parseSPF_tokens txt version tokens : HasPrefix (ToLower (TrimSpace txt)) "v=spf1" = true -> Fields (TrimSpace txt) = version :: tokens ->
  parseSPF txt = Ret (Some (spfOf (TrimSpace txt) tokens)).
Proof.
  intros Hp Hf. unfold parseSPF. rewrite Hp, Hf. cbn [negb].
  change (slice (version :: tokens) 1 (blen (version :: tokens))) with (sliceFrom ([version] ++ tokens) 1).
  rewrite sliceFrom_app by done. cbn [bind]. rewrite spf_fold. by rewrite Z.add_0_l.
Qed.

Lemma Fields_version s : HasPrefix (ToLower s) "v=spf1" = true -> exists version tokens, Fields s = version :: tokens.
Proof.
  intros Hp. destruct (prefix_v _ _ Hp) as (c & s' & -> & Hc). pose proof (Fields_starts c s' Hc) as Hn.
  destruct (Fields (String c s')) as [|version tokens]; [done|]. by exists version, tokens.
Qed.

Lemma spf_total txt : exists p, parseSPF txt = Ret p.
Proof.
  destruct (HasPrefix (ToLower (TrimSpace txt)) "v=spf1") eqn:Hp; [|exists None; unfold parseSPF; by rewrite Hp].
  destruct (Fields_version _ Hp) as (version & tokens & Hf). eexists. by eapply parseSPF_tokens.
Qed.

(** SPF records: every text is read without a panic, and what is read is a function of
    its white-space separated tokens after the version: the mechanisms are those tokens
    in order, the terminal mechanism the last token among -all, ~all, ?all and +all, the
    lookups the number of the others that begin like a mechanism with a lookup (so that
    a bare "all" counts as one and redirect= does not).  Tokens written with single
    spaces, and white space around, are read as written. *)
Theorem parseSPF_spec txt :
  (let s := TrimSpace txt in
   if HasPrefix (ToLower s) "v=spf1"
   then exists version tokens, Fields s = version :: tokens /\ parseSPF txt = Ret (Some (spfOf s tokens))
   else parseSPF txt = Ret None) /\
  (forall a b tokens, spaces a -> spaces b -> Forall tokenOk tokens ->
     txt = (a +:+ Join ("v=spf1"%string :: tokens) " " +:+ b)%string ->
     parseSPF txt = Ret (Some (spfOf (Join ("v=spf1"%string :: tokens) " ") tokens))).
Proof.
  pose proof (parseSPF_tokens txt) as Hs.
  split.
  - cbv zeta. destruct (HasPrefix (ToLower (TrimSpace txt)) "v=spf1") eqn:Hp; [|unfold parseSPF; by rewrite Hp].
    destruct (Fields_version _ Hp) as (version & tokens & Hf). exists version, tokens. split; [done|]. by eapply Hs.
  - intros a b tokens Ha Hb Ht ->. assert (Hok : Forall tokenOk ("v=spf1"%string :: tokens)) by (constructor; [by vm_compute|done]).
    pose proof (TrimSpace_segment a b ("v=spf1"%string :: tokens) Ha Hb Hok ltac:(done)) as Et.
    rewrite <- Et at 2. apply (Hs "v=spf1"%string); rewrite Et; [|by apply Fields_Join]. by destruct tokens.
Qed.

(** ** DMARC and MTA-STS: what is read *)

(** The values of a key, in order *)
Definition valuesOf (k : string) (l : list (string * string)) : list string :=
  map snd (List.filter (fun kv => String.eqb kv.1 k) l).
Definition lastValue (k : string) (l : list (string * string)) : string := List.last (valuesOf k l) "".

(** The last value that is a number *)
Definition numbers (l : list string) : list Z := flat_map (fun v => match Atoi v with (n, true) => [n] | _ => [] end) l.

Lemma last_snoc {A} (l : list A) x d : List.last (l ++ [x]) d = x.
Proof. induction l as [|y l IH]; [done|]. cbn. rewrite IH. by destruct l. Qed.

Lemma valuesOf_snoc k l kv : valuesOf k (l ++ [kv]) = valuesOf k l ++ when (String.eqb kv.1 k) kv.2.
Proof. unfold valuesOf, when. rewrite List.filter_app, map_app. cbn. by destruct (String.eqb kv.1 k). Qed.

Lemma lastValue_snoc k l kv : lastValue k (l ++ [kv]) = if String.eqb kv.1 k then kv.2 else lastValue k l.
Proof. unfold lastValue. rewrite valuesOf_snoc. unfold when. destruct (String.eqb kv.1 k); [apply last_snoc|by rewrite app_nil_r]. Qed.

Lemma numbers_snoc k l kv d : List.last (numbers (valuesOf k (l ++ [kv]))) d =
  if String.eqb kv.1 k then match Atoi kv.2 with (n, true) => n | _ => List.last (numbers (valuesOf k l)) d end
  else List.last (numbers (valuesOf k l)) d.
Proof.
  rewrite valuesOf_snoc. unfold when, numbers. rewrite flat_map_app. destruct (String.eqb kv.1 k); [|by rewrite app_nil_r].
  cbn. destruct (Atoi kv.2) as [n [|]]; cbn; [apply last_snoc|by rewrite app_nil_r].
Qed.

Definition dmarcOf (s : string) (l : list (string * string)) : dmarcPolicy :=
  {| dmarcRaw := s; Version := lastValue "v" l; Policy := ToLower (lastValue "p" l); SubPolicy := ToLower (lastValue "sp" l);
     Percentage := List.last (numbers (valuesOf "pct" l)) 100;
     RUA := splitDMARCAddrs (lastValue "rua" l); RUF := splitDMARCAddrs (lastValue "ruf" l);
     AlignDKIM := ToLower (lastValue "adkim" l); AlignSPF := ToLower (lastValue "aspf" l); dmarcIssues := [] |}.

Lemma dmarc_fold s l : foldl setTag (newDMARC s) l = dmarcOf s l.
Proof.
  induction l as [|kv l IH] using rev_ind; [done|]. rewrite foldl_snoc, IH. unfold dmarcOf. rewrite !lastValue_snoc, numbers_snoc.
  destruct kv as [k v]. cbn [setTag fst snd dmarcRaw Version Policy SubPolicy Percentage RUA RUF AlignDKIM AlignSPF dmarcIssues].
  f_equal; by destruct (String.eqb k _).
Qed.

Definition tagPair (t : tagText) : string * string := (ToLower (tagKey t), tagVal t).
Definition written (sep : ascii) (eq : ascii) (l : list tagText) : string := Join (map (renderTag eq) l) (String sep "").

Lemma cons_len {A} (x : A) l : (blen (x :: l) =? 0) = false.
Proof. unfold blen. cbn [length]. apply Z.eqb_neq. lia. Qed.

(** DMARC records are read as they are written, with any white space around keys and
    values, keys in any case, tags in any order and unknown tags among them: each field
    is the last value of its key, the percentage the last that is a number, the report
    addresses the trimmed non-empty parts between commas.  Nothing is reported as an
    issue exactly for a policy other than none, with a report address, for all mail. *)
Theorem parseDMARC_written l (Hl : Forall (tagOk ";" "=") l) (Ht : trimmed (written ";" "=" l) = true)
    (Hv : HasPrefix (ToLower (written ";" "=" l)) "v=dmarc1" = true) :
  exists p, parseDMARC (written ";" "=" l) = Some p /\
    withIssues p [] = dmarcOf (written ";" "=" l) (map tagPair l) /\
    (length (dmarcIssues p) <= 3)%nat /\
    (dmarcIssues p = [] <-> Policy p <> ""%string /\ Policy p <> "none"%string /\ (RUA p <> [] \/ RUF p <> []) /\ 100 <= Percentage p).
Proof.
  assert (Hne : l <> []) by (by intros ->). unfold parseDMARC. rewrite TrimSpace_trimmed, Hv by done. cbn [negb].
  assert (Et : tagsOf ";" "=" (written ";" "=" l) = map tagPair l) by (by apply tagsOf_render). cbv zeta. rewrite Et, dmarc_fold.
  set (p := dmarcOf _ _). exists (withIssues p (dmarcIssuesOf p)).
  split; [done|]. split; [done|]. generalize p. clear. intros p.
  unfold withIssues, dmarcIssuesOf. cbn [Policy RUA RUF Percentage dmarcIssues].
  destruct (String.eqb_spec (Policy p) "") as [E|E], (String.eqb_spec (Policy p) "none") as [E'|E']; [congruence|..];
    destruct (RUA p) as [|? ?], (RUF p) as [|? ?]; unfold when; rewrite ?cons_len; change (blen (@nil string) =? 0) with true; cbn [andb app];
    destruct (Z.ltb_spec (Percentage p) 100); (split; [cbn; lia|]); split; try done; intuition (try done; try lia; by left + by right).
Qed.

Lemma sts_fold out l : stsMode out = ""%string -> MaxAge out = 0 -> MXPatterns out = [] ->
  foldl stsLine out l =
  {| DNSPresent := DNSPresent out; DNSValue := DNSValue out; PolicyPresent := PolicyPresent out;
     stsMode := ToLower (lastValue "mode" l); MaxAge := List.last (numbers (valuesOf "max_age" l)) 0;
     MXPatterns := valuesOf "mx" l; stsIssues := stsIssues out |}.
Proof.
  intros Hm Ha Hp. induction l as [|kv l IH] using rev_ind; [destruct out; cbn in *; by subst|].
  rewrite foldl_snoc, IH, lastValue_snoc, numbers_snoc, valuesOf_snoc.
  destruct kv as [k v]. cbn [stsLine fst snd DNSPresent DNSValue PolicyPresent stsMode MaxAge MXPatterns stsIssues]. unfold when.
  f_equal; destruct (String.eqb k _); by rewrite ?app_nil_r.
Qed.

(** The policy of a host that serves [l] as its policy file *)
Lemma probeMTASTS_written query httpGet domain v l :
  texts (records (query ("_mta-sts." +:+ domain)%string TypeTXT)) = [v] -> Contains (ToLower v) "v=stsv1" = true ->
  l <> [] -> Forall (tagOk (ascii_of_N 10) ":") l -> Z.of_nat (String.length (written (ascii_of_N 10) ":" l)) <= 16384 ->
  httpGet ("https://mta-sts." +:+ domain +:+ "/.well-known/mta-sts.txt")%string = inl (200, written (ascii_of_N 10) ":" l) ->
  let p := probeMTASTS query httpGet domain in
  DNSPresent p = true /\ PolicyPresent p = true /\ stsMode p = ToLower (lastValue "mode" (map tagPair l)) /\
  MaxAge p = List.last (numbers (valuesOf "max_age" (map tagPair l))) 0 /\ MXPatterns p = valuesOf "mx" (map tagPair l) /\
  (stsIssues p = [] <-> stsMode p <> "none"%string /\ stsMode p <> "testing"%string).
Proof.
  intros Hq Hv Hne Hl Hlen Hget. unfold probeMTASTS. rewrite Hq, Hget. cbn [foldl]. unfold stsRecord. rewrite Hv. cbn [DNSPresent negb newSTS].
  change (200 =? 200) with true. cbn [negb]. unfold stsPolicy. rewrite takeString_all by lia.
  assert (Et : tagsOf (ascii_of_N 10) ":" (written (ascii_of_N 10) ":" l) = map tagPair l) by (by apply tagsOf_render). rewrite Et.
  rewrite sts_fold by done. cbn [policyFound DNSPresent DNSValue PolicyPresent stsIssues].
  set (m := ToLower _). unfold stsIssue. cbn [stsMode].
  destruct (String.eqb_spec m "none") as [->|Hn]; cbn -[String.eqb]; [repeat split; done || (intros []; done)|].
  destruct (String.eqb_spec m "testing") as [->|Ht]; cbn; repeat split; try done; tauto.
Qed.

(** ** Report addresses *)

Lemma length_trimLeft p s : (String.length (trimLeftFunc p s) <= String.length s)%nat.
Proof. induction s as [|c s IH]; [done|]. cbn. destruct (p c); cbn; lia. Qed.

Lemma length_revString s : String.length (revString s) = String.length s.
Proof.
  induction s as [|c s IH]; [done|]. change (String c s) with (String c "" +:+ s)%string.
  rewrite revString_app, !length_appString, IH. cbn. lia.
Qed.

Lemma length_TrimSpace s : (String.length (TrimSpace s) <= String.length s)%nat.
Proof.
  unfold TrimSpace, trimRightFunc. rewrite length_revString.
  pose proof (length_trimLeft isSpace (revString (trimLeftFunc isSpace s))) as H1. rewrite length_revString in H1.
  pose proof (length_trimLeft isSpace s). lia.
Qed.

Lemma length_Cut s c : (String.length (Cut s c).1.2 <= String.length s)%nat.
Proof. induction s as [|x s IH]; cbn; [done|]. destruct (Ascii.eqb x c); cbn; [lia|]. destruct (Cut s c) as [[a b] f]. cbn in *. lia. Qed.

Lemma length_Split_elem s c w : In w (Split s c) -> (String.length w <= String.length s)%nat.
Proof.
  revert w. induction s as [|x s IH]; intros w; cbn; [intros [<-|[]]; done|].
  destruct (Ascii.eqb x c); [intros [<-|Hw%IH]; cbn; lia|].
  destruct (Split s c) as [|y l]; [intros [<-|[]]; cbn; lia|]. intros [<-|Hw]; cbn.
  - pose proof (IH y (or_introl eq_refl)). lia.
  - pose proof (IH w (or_intror Hw)). lia.
Qed.

Lemma countChar_length c s : (countChar c s <= String.length s)%nat.
Proof. induction s as [|x s IH]; [done|]. cbn. destruct (Ascii.eqb x c); lia. Qed.

Lemma length_filter_le {A} (p : A -> bool) l : (length (List.filter p l) <= length l)%nat.
Proof. induction l as [|x l IH]; [done|]. cbn. destruct (p x); cbn; lia. Qed.

Lemma length_addrs v : (length (splitDMARCAddrs v) <= S (String.length v))%nat.
Proof.
  unfold splitDMARCAddrs. etrans; [apply length_filter_le|]. rewrite length_map, length_Split.
  pose proof (countChar_length "," v). lia.
Qed.

(** A record of n bytes names at most n + 1 addresses under a key. *)
Lemma parseDMARC_addresses txt p : parseDMARC txt = Some p ->
  (length (RUA p ++ RUF p) <= 2 * S (String.length txt))%nat.
Proof.
  unfold parseDMARC. destruct (negb _); [done|]. cbv zeta. rewrite dmarc_fold. intros [= <-].
  cbn [withIssues dmarcOf RUA RUF]. rewrite length_app.
  assert (Hv : forall k, (String.length (lastValue k (tagsOf ";" "=" (TrimSpace txt))) <= String.length txt)%nat).
  { intros k. pose proof (length_TrimSpace txt) as Ht. unfold lastValue.
    assert (Hin : forall l, (forall v, In v l -> (String.length v <= String.length txt)%nat) -> (String.length (List.last l "") <= String.length txt)%nat).
    { induction l as [|v [|w l] IH]; intros Hl; [cbn; lia|apply Hl; by left|]. apply IH. intros u Hu. apply Hl. by right. }
    apply Hin. intros v. unfold valuesOf, tagsOf. rewrite in_map_iff. intros ((k' & v') & <- & [Hi _]%filter_In).
    apply list_elem_of_In, list_elem_of_omap in Hi as (part & Hpart%list_elem_of_In & Ho). unfold tagOf in Ho.
    pose proof (length_Cut (TrimSpace part) "=") as Hc. destruct (Cut (TrimSpace part) "=") as [[a b] [|]]; [|done].
    injection Ho as <- <-. cbn [fst snd] in *. pose proof (length_TrimSpace b). pose proof (length_TrimSpace part).
    apply length_Split_elem in Hpart. lia. }
  pose proof (length_addrs (lastValue "rua" (tagsOf ";" "=" (TrimSpace txt)))). pose proof (Hv "rua"%string).
  pose proof (length_addrs (lastValue "ruf" (tagsOf ";" "=" (TrimSpace txt)))). pose proof (Hv "ruf"%string). lia.
Qed.

(** A tag without white space *)
Definition tagAt (k v : string) : tagText := {| pre := ""; tagKey := k; mid := ""; mid' := ""; tagVal := v; post := "" |}.

Module MailRecordsWitnesses.
Lemma parseDMARC_written_witness :
  exists p, parseDMARC (written ";" "=" [tagAt "v" "DMARC1"; tagAt "p" "reject"]) = Some p /\ Policy p = "reject"%string.
Proof.
  destruct (parseDMARC_written [tagAt "v" "DMARC1"; tagAt "p" "reject"]) as (p & Hp & Hw & _).
  - by repeat constructor.
  - by vm_compute.
  - by vm_compute.
  - exists p. split; [exact Hp|]. apply (f_equal Policy) in Hw. by vm_compute in Hw.
Defined.
End MailRecordsWitnesses.
