(* ===== verification/Dkim.v ===== *)
(** DKIM: the selectors a domain publishes ([mail.go]) and the strength of their keys
    ([mail_dkim_key.go]). *)

From Stdlib Require Import ZArith List String Ascii Strings.Byte Lia Bool.
From stdpp Require Import base list strings gmap.
From S2P Require Import Prelude Bytes GoStrings Text Base64 Result Dns MailRecords.
Open Scope Z_scope.

(** ** Keys *)

(** What [x509.ParsePKIXPublicKey] gives: an RSA key with its modulus bits, an ECDSA key
    with the bits of its curve, or another kind *)
Inductive publicKey := RSAKey (bits : Z) | ECDSAKey (bits : Z) | OtherKey.

Record dkimKeyInfo := { Selector : string; Algo : string; Bits : Z; Strong : bool; Reason : string }.

(** [out[k] = v] for each tag in turn, in a Go map *)
Definition parseDKIMTags (txt : string) : gmap string string :=
  foldl (fun m kv => <[kv.1 := kv.2]> m) ∅ (tagsOf ";" "=" txt).

Definition tag (tags : gmap string string) (k : string) : string := default ""%string (tags !! k).

Section Keys.
Context (parsePKIX : bytes -> publicKey + string).

Definition keyInfo (selector algo : string) (bits : Z) (strong : bool) (reason : string) : dkimKeyInfo :=
  {| Selector := selector; Algo := algo; Bits := bits; Strong := strong; Reason := reason |}.

Definition rsaInfo (selector : string) (keyBytes : bytes) : dkimKeyInfo * bool :=
  match parsePKIX keyBytes with
  | inr e => (keyInfo selector "rsa" 0 false ("PKIX parse failed: " +:+ tidyErr e)%string, false)
  | inl (RSAKey bits) =>
      let info :=
        if 2048 <=? bits then keyInfo selector "rsa" bits true ""
        else if 1024 <=? bits then keyInfo selector "rsa" bits true ("1024-bit transitional " +:+ emDash +:+ " recommend 2048+")%string
        else keyInfo selector "rsa" bits false ("RSA key < 1024 bits " +:+ emDash +:+ " broken")%string in
      (info, Strong info)
  | inl _ => (keyInfo selector "rsa" 0 false "key tagged k=rsa but not actually RSA", false)
  end.

Definition ed25519Info (selector : string) (keyBytes : bytes) : dkimKeyInfo * bool :=
  if 32 <=? blen keyBytes then (keyInfo selector "ed25519" 256 true "", true)
  else (keyInfo selector "ed25519" 256 false "Ed25519 key wrong length", false).

Definition ecdsaInfo (selector : string) (keyBytes : bytes) : dkimKeyInfo * bool :=
  match parsePKIX keyBytes with
  | inr e => (keyInfo selector "ecdsa" 0 false ("ECDSA parse failed: " +:+ tidyErr e)%string, false)
  | inl (ECDSAKey bits) =>
      if 256 <=? bits then (keyInfo selector "ecdsa" bits true "", true)
      else (keyInfo selector "ecdsa" bits false "ECDSA curve < 256 bits", false)
  | inl _ => (keyInfo selector "ecdsa" 0 false "key tagged k=ecdsa but not actually ECDSA", false)
  end.

(** The switch over [algoTag] *)
Definition keyOfTag (selector algoTag : string) (keyBytes : bytes) : dkimKeyInfo * bool :=
  if isOneOf algoTag [""; "rsa"]%string then rsaInfo selector keyBytes
  else if String.eqb algoTag "ed25519" then ed25519Info selector keyBytes
  else if String.eqb algoTag "ecdsa" then ecdsaInfo selector keyBytes
  else (keyInfo selector "unknown" 0 false ("unknown k= algorithm: " +:+ algoTag)%string, false).

Definition parseDKIMKey (selector txt : string) : dkimKeyInfo * bool :=
  let tags := parseDKIMTags txt in
  let pVal := tag tags "p" in
  if String.eqb pVal "" then (keyInfo selector "" 0 false "revoked (p= empty)", false)
  else
    let pVal := removeChar (ascii_of_N 9) (removeChar " " pVal) in
    match (match base64Decode false pVal with Some b => Some b | None => base64Decode true pVal end) with
    | None => (keyInfo selector "" 0 false "base64 decode failed", false)
    | Some keyBytes =>
        keyOfTag selector (ToLower (tag tags "k")) keyBytes
    end.

Definition countOf {A} (p : A -> bool) (l : list A) : Z := blen (List.filter p l).

Definition dkimKeyHeadline (keys : list dkimKeyInfo) : string :=
  if blen keys =? 0 then ""
  else
    let strong := countOf Strong keys in
    let weak := countOf (fun k => negb (Strong k)) keys in
    if weak =? 0 then ("DKIM keys " +:+ toString [xe2; x9c; x93] +:+ " all strong")%string
    else ("DKIM keys " +:+ fmtD strong +:+ " strong, " +:+ fmtD weak +:+ " weak")%string.

(** ** Selectors *)

Definition commonDKIMSelectors : list string :=
  ["default"; "google"; "selector1"; "selector2"; "k1"; "k2"; "dkim"; "mail"; "mta1"; "mta2"; "smtp"; "s1"; "s2"]%string.

Record dkimSelector := { selName : string; selFound : bool; Key : string; KeyType : string }.

Context (query : string -> Z -> list rr + string).

(** A text that counts as a DKIM record *)
Definition looksLikeDKIM (joined : string) : bool :=
  let low := ToLower joined in Contains low "v=dkim1" || Contains low "k=" || Contains low "p=".

(** The goroutine of one selector *)
Definition probeSelector (domain sel : string) : outcome (option dkimSelector) :=
  match query (sel +:+ "._domainkey." +:+ domain)%string TypeTXT with
  | inr _ => Ret None
  | inl rrs =>
      match List.filter looksLikeDKIM (texts rrs) with
      | [] => Ret None
      | joined :: _ =>
          key <~ truncate joined 80 ;;
          Ret (Some {| selName := sel; selFound := true; Key := key;
                       KeyType := if Contains (ToLower joined) "k=ed25519" then "ed25519" else "rsa" |})
      end
  end.

Fixpoint probeSelectors (domain : string) (sels : list string) : outcome (list dkimSelector) :=
  match sels with
  | [] => Ret []
  | sel :: sels =>
      e <~ probeSelector domain sel ;;
      found <~ probeSelectors domain sels ;;
      Ret (match e with Some e => e :: found | None => found end)
  end.

(** The goroutines append in the order in which they finish, [arrival]. *)
Definition probeDKIMSelectors (arrival : list dkimSelector -> list dkimSelector) (domain : string) : outcome (list dkimSelector) :=
  found <~ probeSelectors domain commonDKIMSelectors ;;
  Ret (arrival found).

Definition keyOf (domain : string) (sel : dkimSelector) : option dkimKeyInfo :=
  match query (selName sel +:+ "._domainkey." +:+ domain)%string TypeTXT with
  | inr _ => None
  | inl rrs =>
      let txt := default ""%string (head (texts rrs)) in
      if String.eqb txt "" then None else Some (parseDKIMKey (selName sel) txt).1
  end.

Definition probeDKIMKeyStrength (domain : string) (selectors : list dkimSelector) : list dkimKeyInfo :=
  omap (keyOf domain) selectors.
End Keys.

(** ** Keys as they are published *)

Lemma tag_fold l k : tag (foldl (fun m kv => <[kv.1 := kv.2]> m) ∅ l) k = lastValue k l.
Proof.
  unfold tag. induction l as [|[k' v] l IH] using rev_ind; [done|]. rewrite foldl_snoc, lastValue_snoc. cbn [fst snd].
  destruct (String.eqb_spec k' k) as [->|Hn]; [by rewrite lookup_insert_eq|by rewrite lookup_insert_ne].
Qed.

(** The baseline of the rubric: RSA of 1024 bits or more, an Ed25519 key, a curve of 256
    bits or more *)
Definition strongKey (parsePKIX : bytes -> publicKey + string) (algo : string) (key : bytes) : bool :=
  if isOneOf algo [""; "rsa"]%string then match parsePKIX key with inl (RSAKey bits) => 1024 <=? bits | _ => false end
  else if String.eqb algo "ed25519" then 32 <=? blen key
  else if String.eqb algo "ecdsa" then match parsePKIX key with inl (ECDSAKey bits) => 256 <=? bits | _ => false end
  else false.

Definition keyBits (parsePKIX : bytes -> publicKey + string) (algo : string) (key : bytes) : Z :=
  if isOneOf algo [""; "rsa"]%string then match parsePKIX key with inl (RSAKey bits) => bits | _ => 0 end
  else if String.eqb algo "ed25519" then 256
  else if String.eqb algo "ecdsa" then match parsePKIX key with inl (ECDSAKey bits) => bits | _ => 0 end
  else 0.

Lemma keyOfTag_spec parsePKIX selector algo key :
  let r := keyOfTag parsePKIX selector algo key in
  Selector r.1 = selector /\ r.2 = Strong r.1 /\ Strong r.1 = strongKey parsePKIX algo key /\ Bits r.1 = keyBits parsePKIX algo key.
Proof.
  cbv zeta. unfold keyOfTag, strongKey, keyBits, rsaInfo, ed25519Info, ecdsaInfo.
  destruct (isOneOf algo _); [|destruct (String.eqb algo "ed25519"); [by destruct (32 <=? blen key)|destruct (String.eqb algo "ecdsa"); [|done]]].
  - destruct (parsePKIX key) as [[bits|bits|]|e]; cbn; [|done..]. destruct (Z.leb_spec 2048 bits), (Z.leb_spec 1024 bits); cbn; (done || lia).
  - destruct (parsePKIX key) as [[bits|bits|]|e]; cbn; [done| |done..]. by destruct (256 <=? bits).
Qed.

(** C27. A published DKIM key is read back: from a record written with any white space,
    tags in any order, and blanks inside the base64 text of [p=], the probe reaches the
    key bytes that were encoded, and reports the bits of the key and whether it meets
    the baseline of its algorithm ([k=], RSA when absent).  A record without a key is
    reported as revoked. *)
Theorem parseDKIMKey_written parsePKIX selector l key (Hne : l <> []) (Hl : Forall (tagOk ";" "=") l) :
  let tags := map tagPair l in
  let algo := ToLower (lastValue "k" tags) in
  let '(info, ok) := parseDKIMKey parsePKIX selector (written ";" "=" l) in
  Selector info = selector /\ ok = Strong info /\
  (lastValue "p" tags = ""%string -> Strong info = false /\ Reason info = "revoked (p= empty)"%string) /\
  (lastValue "p" tags <> ""%string ->
   removeChar (ascii_of_N 9) (removeChar " " (lastValue "p" tags)) = base64Encode false key ->
   Strong info = strongKey parsePKIX algo key /\ Bits info = keyBits parsePKIX algo key).
Proof.
  cbv zeta. unfold parseDKIMKey, parseDKIMTags.
  assert (Et : tagsOf ";" "=" (written ";" "=" l) = map tagPair l) by (by apply tagsOf_render).
  rewrite Et, !tag_fold. set (p := lastValue "p" _). set (algo := ToLower _).
  destruct (String.eqb_spec p "") as [Hp|Hp]; [by rewrite Hp|].
  destruct (match base64Decode false _ with Some b => Some b | None => _ end) as [k|] eqn:Ed.
  - pose proof (keyOfTag_spec parsePKIX selector algo k) as (Hs & Ho & Hk & Hb).
    destruct (keyOfTag parsePKIX selector algo k) as [info ok]. split; [done|]. split; [done|]. split; [done|].
    intros _ Ec. rewrite Ec, base64Decode_encode in Ed. by injection Ed as ->.
  - split; [done|]. split; [done|]. split; [done|]. intros _ Ec. by rewrite Ec, base64Decode_encode in Ed.
Qed.

Module DkimWitnesses.
Definition parse (b : bytes) : publicKey + string := if blen b =? 6 then inl (RSAKey 2048) else inr "no key"%string.

Lemma parseDKIMKey_written_witness : Strong (parseDKIMKey parse "k1" (written ";" "=" [tagAt "k" "rsa"; tagAt "p" "AQIDBAUG"])).1 = true.
Proof.
  pose proof (parseDKIMKey_written parse "k1" [tagAt "k" "rsa"; tagAt "p" "AQIDBAUG"] [x01; x02; x03; x04; x05; x06] ltac:(done) ltac:(by repeat constructor)) as Hk.
  cbv zeta in Hk. destruct (parseDKIMKey _ _ _) as [info ok]. destruct Hk as (_ & _ & _ & Hk). destruct Hk as [Hk _]; [done|by vm_compute|].
  cbn [fst]. rewrite Hk. by vm_compute.
Defined.
End DkimWitnesses.
