(* ===== verification/Mail.v ===== *)
(** The mail check: DANE and IPv6 of the mail exchangers ([mail_dane_mx.go],
    [mail_ipv6_mx.go]), the authorisation of foreign DMARC report addresses
    ([mail_dmarc_external.go]), and [checkMail] of [mail.go], which puts the probes
    together and scores them. *)

From Stdlib Require Import ZArith List String Ascii Strings.Byte Lia Bool.
From stdpp Require Import base list strings gmap.
From S2P Require Import Prelude Bytes GoStrings Text Decimal Stream Wire Starttls Result Float Json Profile Report Dns MailRecords Dkim.
Open Scope Z_scope.


(** ** DANE of the mail exchangers *)




Section Exchangers.
Context (query : string -> Z -> list rr + string).
(** Whether a TCP connection to an address can be opened *)
Context (dialTCP6 : string -> bool).



(** ** IPv6 of the mail exchangers *)





(** ** Foreign report addresses *)

Record dmarcExternalAuth := { URI : string; External : bool; Destination : string; Authorized : bool; ExpectedRecord : string }.

(** The parts around the last occurrence of a character *)
Fixpoint lastCut (c : ascii) (s : string) : option (string * string) :=
  match s with
  | EmptyString => None
  | String x s' =>
      match lastCut c s' with
      | Some (a, b) => Some (String x a, b)
      | None => if Ascii.eqb x c then Some (""%string, s') else None
      end
  end.

(** [url.Parse] and [Hostname()] *)
Context (urlHostname : string -> option string).

Definition extractDMARCDestination (uri : string) : string :=
  let uri := TrimSpace uri in
  if HasPrefix (ToLower uri) "mailto:" then
    let addr := TrimPrefix (TrimPrefix uri "mailto:") "MAILTO:" in
    let '(addr, _, _) := Cut addr "!" in
    match lastCut "@" addr with None => ""%string | Some (_, d) => ToLower d end
  else
    match urlHostname uri with Some h => ToLower h | None => ""%string end.

(** The last two labels *)
Definition lastTwo (l : list string) : option (string * string) :=
  match rev l with y :: x :: _ => Some (x, y) | _ => None end.

Definition sameApex (a b : string) : bool :=
  let a := ToLower (TrimSuffix a ".") in
  let b := ToLower (TrimSuffix b ".") in
  if String.eqb a b then true
  else
    match lastTwo (Split a "."), lastTwo (Split b ".") with
    | Some (a1, a2), Some (b1, b2) => String.eqb a1 b1 && String.eqb a2 b2
    | _, _ => false
    end.

Definition checkOneDMARCAuth (source uri : string) : dmarcExternalAuth :=
  let dest := extractDMARCDestination uri in
  let auth external authorized expected :=
    {| URI := uri; External := external; Destination := dest; Authorized := authorized; ExpectedRecord := expected |} in
  if String.eqb dest "" then auth false false ""%string
  else if sameApex source dest then auth false true ""%string
  else
    let expected := (source +:+ "._report._dmarc." +:+ dest)%string in
    auth true (existsb (fun t => HasPrefix (ToLower t) "v=dmarc1") (texts (records (query expected TypeTXT)))) expected.

End Exchangers.




(** ** The values in the report *)













(** ** The check *)












Section Check.
Context (query : string -> Z -> list rr + string) (httpGet : string -> (Z * string) + string).
Context (parsePKIX : bytes -> publicKey + string) (arrival : list dkimSelector -> list dkimSelector).
Context (dialTCP6 : string -> bool) (urlHostname : string -> option string).
Context {C : Type} `{Wire C} (dial : string -> C + string) (handshake : string -> C -> tlsPeer + string).





End Check.

(** ** What the probes say of the published records *)










(** ** DKIM *)

Definition selectorName (domain sel : string) : string := (sel +:+ "._domainkey." +:+ domain)%string.
Definition published (query : string -> Z -> list rr + string) (domain sel : string) : list string :=
  texts (records (query (selectorName domain sel) TypeTXT)).

(** A selector that counts: one of its texts looks like a DKIM record *)
Definition advertised (query : string -> Z -> list rr + string) (domain sel : string) : bool :=
  existsb looksLikeDKIM (published query domain sel).




(** The key whose strength is rated: that of the first text, whatever it is *)
Definition strongSelector (parsePKIX : bytes -> publicKey + string) (query : string -> Z -> list rr + string) (domain sel : string) : bool :=
  match published query domain sel with
  | txt :: _ => negb (String.eqb txt "") && Strong (parseDKIMKey parsePKIX sel txt).1
  | [] => false
  end.





(** ** The rubric of docs/MAIL_SCORING.md *)

Section Rubric.
Context (query : string -> Z -> list rr + string) (httpGet : string -> (Z * string) + string).
Context (parsePKIX : bytes -> publicKey + string) (arrival : list dkimSelector -> list dkimSelector).
Context (dialTCP6 : string -> bool) (urlHostname : string -> option string).
Context {C : Type} `{Wire C} (dial : string -> C + string) (handshake : string -> C -> tlsPeer + string).
Context (domain : string).





















End Rubric.

(** ** Foreign report addresses *)

Lemma lastCut_app c a b : lacks c b = true -> lastCut c (a +:+ String c b) = Some (a, b).
Proof.
  intros Hb. assert (Hn : lastCut c b = None).
  { induction b as [|x b IH]; [done|]. unfold lacks in Hb. cbn [forallString] in Hb. apply andb_true_iff in Hb as [Hx Hb]. cbn [lastCut].
    rewrite IH by done. by apply negb_true_iff in Hx as ->. }
  induction a as [|x a IH]; cbn; [by rewrite Hn, Ascii.eqb_refl|by rewrite IH].
Qed.

Lemma prefix_self p x : String.prefix p (p +:+ x) = true.
Proof. induction p as [|c p IH]; [by destruct x|]. cbn. by destruct (ascii_dec c c). Qed.

Lemma TrimPrefix_app p x : TrimPrefix (p +:+ x) p = x.
Proof. unfold TrimPrefix, HasPrefix. by rewrite prefix_self, dropString_app. Qed.

Lemma mapString_app f a b : mapString f (a +:+ b) = (mapString f a +:+ mapString f b)%string.
Proof. induction a as [|x a IH]; [done|]. cbn. by rewrite IH. Qed.

(** Report addresses of another organisation: for an address [mailto:user@dest], with
    or without a size limit, the check compares the last two labels of the names; an
    address under the same ones needs no authorisation, any other is authorised exactly
    when the destination publishes a text that starts with v=DMARC1 under the name of
    the source. *)
Theorem checkOneDMARCAuth_mailto query urlHostname source user dest limit
    (Hu : lacks "!" user = true) (Hd : lacks "!" dest = true /\ lacks "@" dest = true /\ dest <> ""%string)
    (Ht : trimmed ("mailto:" +:+ user +:+ "@" +:+ dest +:+ limit) = true)
    (Hs : HasPrefix (user +:+ "@" +:+ dest +:+ limit) "MAILTO:" = false)
    (Hl : limit = ""%string \/ exists size, limit = ("!" +:+ size)%string) :
  let r := checkOneDMARCAuth query urlHostname source ("mailto:" +:+ user +:+ "@" +:+ dest +:+ limit) in
  let name := (source +:+ "._report._dmarc." +:+ ToLower dest)%string in
  Destination r = ToLower dest /\ External r = negb (sameApex source (ToLower dest)) /\
  (Authorized r = true <-> sameApex source (ToLower dest) = true \/
     exists t, In t (texts (records (query name TypeTXT))) /\ HasPrefix (ToLower t) "v=dmarc1" = true).
Proof.
  cbv zeta. destruct Hd as (Hd1 & Hd2 & Hd3).
  assert (He : extractDMARCDestination urlHostname ("mailto:" +:+ user +:+ "@" +:+ dest +:+ limit) = ToLower dest).
  { unfold extractDMARCDestination. rewrite TrimSpace_trimmed by done. unfold ToLower at 1. rewrite mapString_app.
    change (mapString lowerByte "mailto:") with "mailto:"%string. unfold HasPrefix at 1. rewrite prefix_self, TrimPrefix_app.
    unfold TrimPrefix. rewrite Hs. change (user +:+ "@" +:+ dest +:+ limit)%string with (user +:+ String "@" (dest +:+ limit))%string.
    assert (Hc : (Cut (user +:+ String "@" (dest +:+ limit)) "!").1.1 = (user +:+ String "@" dest)%string).
    { assert (Hl' : lacks "!" (user +:+ String "@" dest) = true) by (rewrite lacks_app, Hu; done).
      destruct Hl as [->|[size ->]]; [rewrite appString_nil, Cut_none by done; done|].
      change (user +:+ String "@" (dest +:+ "!" +:+ size))%string with (user +:+ (String "@" dest +:+ String "!" size))%string.
      rewrite appString_assoc, Cut_app by done. done. }
    destruct (Cut _ "!") as [[addr x] f]. cbn [fst] in Hc. rewrite Hc, lastCut_app by done. done. }
  unfold checkOneDMARCAuth. rewrite He. destruct (String.eqb_spec (ToLower dest) "") as [E|_].
  { destruct dest; done. }
  destruct (sameApex source (ToLower dest)) eqn:Es; cbn [Destination External Authorized negb]; [by repeat split; auto|].
  split; [done|]. split; [done|]. rewrite existsb_exists. split; [intros (t & Hi & Hp); right; by exists t|intros [|(t & ? & ?)]; [done|by exists t]].
Qed.

(** The selector is found by any of its texts, its key is rated by the first one: with
    another record in front, a strong key counts as a weak one. *)
Lemma dkim_first_text_rated parsePKIX query domain sel other rest :
  published query domain sel = other :: rest -> existsb looksLikeDKIM rest = true -> lastValue "p" (tagsOf ";" "=" other) = ""%string ->
  advertised query domain sel = true /\ strongSelector parsePKIX query domain sel = false.
Proof.
  intros Hp Hr Hk. unfold advertised, strongSelector. rewrite Hp. cbn [existsb]. rewrite Hr, orb_true_r. split; [done|].
  unfold parseDKIMKey, parseDKIMTags. rewrite tag_fold, Hk. cbn. by destruct (negb _).
Qed.

Module MailWitnesses.
(** A domain that publishes everything; its key is six bytes that the parser takes for
    an RSA key of 2048 bits. *)
Definition answers (name : string) : list rr :=
  if String.eqb name "example.org" then [MX "mx.example.org."; TXT ["v=spf1 mx "; "-all"]]
  else if String.eqb name "_dmarc.example.org" then [TXT ["v=DMARC1; p=reject; rua=mailto:d@example.org"]]
  else if String.eqb name "_mta-sts.example.org" then [TXT ["v=STSv1; id=1"]]
  else if String.eqb name "_smtp._tls.example.org" then [TXT ["v=TLSRPTv1; rua=mailto:t@example.org"]]
  else if String.eqb name "k1._domainkey.example.org" then [TXT ["v=DKIM1; k=rsa; p=AQIDBAUG"]]
  else if String.eqb name "_25._tcp.mx.example.org." then [TLSA 3]
  else if String.eqb name "mx.example.org" then [AAAA (Some "2001:db8::1")]
  else [].
Definition query (name : string) (type : Z) : list rr + string := inl (answers name).


Lemma checkOneDMARCAuth_mailto_witness :
  External (checkOneDMARCAuth query (fun _ => None) "example.org" "mailto:r@collector.net!10m") = true.
Proof.
  destruct (checkOneDMARCAuth_mailto query (fun _ => None) "example.org" "r" "collector.net" "!10m" eq_refl
    ltac:(by repeat split) ltac:(by vm_compute) ltac:(by vm_compute) ltac:(right; by exists "10m"%string)) as (_ & He & _).
  etrans; [apply He|]. by vm_compute.
Defined.
End MailWitnesses.
