(* ===== verification/Batch.v ===== *)
(** Targets and batches: [parseTarget] of [main.go] and the multi-target mode of
    [batch.go], whose scans run as goroutines behind a semaphore. *)

From Stdlib Require Import ZArith List String Ascii Strings.Byte Lia Bool.
From stdpp Require Import base list strings gmap relations.
From S2P Require Import Prelude Bytes GoStrings Text Result Float Json Profile Report.
Open Scope Z_scope.

(** ** [net.SplitHostPort] *)

(** The part before and after the last colon *)
Fixpoint lastColon (s : string) : option (string * string) :=
  match s with
  | EmptyString => None
  | String c s' =>
      match lastColon s' with
      | Some (a, b) => Some (String c a, b)
      | None => if Ascii.eqb c ":" then Some (""%string, s') else None
      end
  end.

Definition hasChar (c : ascii) (s : string) : bool := negb (lacks c s).

Definition splitHostPort (hostport : string) : option (string * string) :=
  match lastColon hostport with
  | None => None
  | Some (before, port) =>
      if HasPrefix hostport "[" then
        let rest := dropString 1 hostport in
        let '(host, tail, found) := Cut rest "]" in
        let port' := dropString 1 tail in
        if negb found then None
        (* what follows the bracket must be the last colon *)
        else if negb (HasPrefix tail ":") || hasChar ":" port' then None
        else if hasChar "[" rest || hasChar "]" tail then None
        else Some (host, port')
      else if hasChar ":" before then None
      else if hasChar "[" hostport || hasChar "]" hostport then None
      else Some (before, port)
  end.

(** ** Targets *)

Section Targets.
(** [url.Parse]: scheme, [Hostname()] and [Port()] *)
Context (urlParse : string -> (string * string * string) + string).
Context (quote : string -> string).

(** A pair of results: the value, or the error *)
Definition parseTarget (arg : string) : (string * Z * string) + string :=
  let parsed :=
    if Contains arg "://" then
      match urlParse arg with
      | inr e => inr e
      | inl (uscheme, hostname, uport) =>
          inl (if String.eqb uscheme "" then "https"%string else uscheme, hostname,
               if String.eqb uport "" then 0 else (Atoi uport).1)
      end
    else
      match splitHostPort arg with
      | Some (h, p) => inl ("https"%string, h, (Atoi p).1)
      | None => inl ("https"%string, arg, 0)
      end in
  match parsed with
  | inr e => inr e
  | inl (scheme, host, port) =>
      if String.eqb host "" then inr ("could not find a hostname in " +:+ quote arg)%string
      else if negb (String.eqb scheme "http") && negb (String.eqb scheme "https") then
        inr ("unsupported scheme " +:+ quote scheme +:+ " (use http or https)")%string
      else
        let port := if port =? 0 then (if String.eqb scheme "http" then 80 else 443) else port in
        inl (host, port, scheme)
  end.

(** ** One scan *)

Context {X : Type} (s : stages X) (fresh : X) (configure : diagnosis X -> diagnosis X) (elapsed : string -> string).
(** Whether a probe of the run panics: the stages of Report.v are functions, the probes
    behind them may stop the program (Robot.v, Ldap.v). *)
Context (crashes : diagnosis X -> bool).

(** [None] is a scan that panics. *)
Definition scanTarget (target : string) : option (Report + string) :=
  match parseTarget target with
  | inr e => Some (inr e)
  | inl (host, port, scheme) =>
      let d := {| host := host; port := port; scheme := scheme; filter := None; portsToScan := []; ecsSubnets := [];
                  starttlsProto := ""; cipherPattern := ""; dnssecTree := false; eachCipher := false; trace := None; shared := fresh |} in
      if crashes (configure d) then None else Some (inl (runAllChecks s (elapsed target) (configure d)))
  end.
End Targets.

(** ** The goroutines of [runBatch]

    A goroutine is spawned when it gets a slot of the semaphore; it stores its result
    at its own index, gives the slot back and then counts itself done.  None of them
    recovers: a scan that panics ends the program, and with it every goroutine. *)
Record batchResult := { target : string; outcomeOf : Report + string }.

Record batchState := {
  nextIdx : nat;                       (* the loop over the targets *)
  working : list nat;                  (* holding a slot, scanning *)
  stored : list nat;                   (* holding a slot, the result is stored *)
  released : list nat;                 (* before wg.Done() *)
  results : list (option batchResult);
  crashed : bool                       (* a panic has ended the program *)
}.

Section Scheduling.
Context (scan : string -> option (Report + string)) (targets : list string) (requested : Z).

(** [cfg.concurrency] after its default *)
Definition concurrency : nat := Z.to_nat (if requested <=? 0 then 8 else requested).

Definition initial : batchState :=
  {| nextIdx := 0; working := []; stored := []; released := []; results := replicate (length targets) None; crashed := false |}.

Inductive batchStep : batchState -> batchState -> Prop :=
| spawn st : crashed st = false -> (nextIdx st < length targets)%nat -> (length (working st) + length (stored st) < concurrency)%nat ->
    batchStep st {| nextIdx := S (nextIdx st); working := nextIdx st :: working st; stored := stored st;
                    released := released st; results := results st; crashed := false |}
| store st i a b t r : crashed st = false -> working st = a ++ i :: b -> targets !! i = Some t -> scan t = Some r ->
    batchStep st {| nextIdx := nextIdx st; working := a ++ b; stored := i :: stored st; released := released st;
                    results := <[i := Some {| target := t; outcomeOf := r |}]> (results st); crashed := false |}
| crash st i a b t : crashed st = false -> working st = a ++ i :: b -> targets !! i = Some t -> scan t = None ->
    batchStep st {| nextIdx := nextIdx st; working := working st; stored := stored st; released := released st;
                    results := results st; crashed := true |}
| release st i a b : crashed st = false -> stored st = a ++ i :: b ->
    batchStep st {| nextIdx := nextIdx st; working := working st; stored := a ++ b; released := i :: released st; results := results st; crashed := false |}
| done_ st i a b : crashed st = false -> released st = a ++ i :: b ->
    batchStep st {| nextIdx := nextIdx st; working := working st; stored := stored st; released := a ++ b; results := results st; crashed := false |}.












End Scheduling.

(** ** What a batch reports *)

Definition healthyMark : string := (toString [xe2; x9c; x93] +:+ " healthy")%string.
Definition problemsMark : string := (toString [xe2; x9c; x97] +:+ " problems")%string.
Definition lf : string := toString [x0a].

(** One line of the JSON output: a report, or the map of a target and its error *)
Inductive batchLine := LineReport (r : Report) | LineError (target err : string).

(** The loops of [--json] and of the table: what is written so far, and [unhealthy] *)
Definition jsonTurn (st : list batchLine * Z) (r : batchResult) : list batchLine * Z :=
  let '(out, unhealthy) := st in
  match outcomeOf r with
  | inr e => (out ++ [LineError (target r) e], unhealthy + 1)
  | inl rep =>
      let unhealthy := if negb (Healthy rep) then unhealthy + 1 else unhealthy in
      (out ++ [LineReport rep], unhealthy)
  end.

Definition tableRow (target status elapsed note : string) : string :=
  ("  " +:+ padRight 40 target +:+ "  " +:+ padRight 10 status +:+ "  " +:+ padRight 12 elapsed +:+ "  " +:+ note +:+ lf)%string.

Definition tableTurn (r : batchResult) (st : string * Z) : outcome (step (string * Z) Empty_set) :=
  let '(out, unhealthy) := st in
  name <~ truncate (target r) 40 ;;
  match outcomeOf r with
  | inr e =>
      note <~ truncate e 40 ;;
      Ret (Next ((out +:+ tableRow name "error" emDash note)%string, unhealthy + 1))
  | inl rep =>
      let '(status, unhealthy) := if negb (Healthy rep) then (problemsMark, unhealthy + 1) else (healthyMark, unhealthy) in
      let fix_ := if String.eqb (FixFirst rep) "" && Healthy rep then emDash else FixFirst rep in
      note <~ truncate fix_ 40 ;;
      Ret (Next ((out +:+ tableRow name status (Elapsed rep) note)%string, unhealthy))
  end.

Inductive batchOutput := JSONLines (l : list batchLine) | Table (text : string).

(** [runBatch] after [wg.Wait()], given the results: the reports appended to the
    history, what is printed, and the number of unhealthy targets. *)
Definition reportBatch (jsonOut noHistory : bool) (results : list batchResult) : outcome (list Report * batchOutput * Z) :=
  let history := if noHistory then [] else flat_map (fun r => match outcomeOf r with inl rep => [rep] | inr _ => [] end) results in
  if jsonOut then
    let '(out, unhealthy) := foldl jsonTurn ([], 0) results in
    Ret (history, JSONLines out, unhealthy)
  else
    let head := (lf +:+ "  netdoc batch " +:+ emDash +:+ " " +:+ fmtD (blen results) +:+ " target" +:+ plural (blen results) +:+ lf +:+ lf
                 +:+ tableRow "TARGET" "STATUS" "ELAPSED" "FIX FIRST / NOTES"
                 +:+ "  " +:+ Repeat (toString [xe2; x94; x80]) 100 +:+ lf)%string in
    r <~ forRange tableTurn results (head, 0) ;;
    match r with
    | inr e => match e with end
    | inl (out, unhealthy) =>
        let foot := (lf +:+ "  " +:+ fmtD (blen results - unhealthy) +:+ "/" +:+ fmtD (blen results) +:+ " healthy"
                     +:+ (if (0 <? unhealthy)%Z then " " +:+ middleDot +:+ " " +:+ fmtD unhealthy +:+ " need attention" else "")
                     +:+ lf +:+ lf)%string in
        Ret (history, Table (out +:+ foot)%string, unhealthy)
    end.

(** A target that counts as unhealthy *)
Definition bad (r : batchResult) : bool := match outcomeOf r with inl rep => negb (Healthy rep) | inr _ => true end.
Definition badCount (l : list batchResult) : Z := blen (List.filter bad l).
Definition lineOf (r : batchResult) : batchLine := match outcomeOf r with inl rep => LineReport rep | inr e => LineError (target r) e end.

Lemma badCount_cons r l : badCount (r :: l) = (if bad r then 1 else 0) + badCount l.
Proof. unfold badCount. cbn [List.filter]. destruct (bad r); rewrite ?blen_cons; lia. Qed.

Lemma jsonTurn_all l out n : foldl jsonTurn (out, n) l = (out ++ map lineOf l, n + badCount l).
Proof.
  revert out n. induction l as [|r l IH]; intros out n; [cbn; by rewrite app_nil_r, Z.add_0_r|].
  cbn [foldl map]. rewrite badCount_cons. unfold jsonTurn at 2, bad, lineOf.
  destruct (outcomeOf r) as [rep|e]; rewrite IH, <- app_assoc; cbn [app]; f_equal; [|lia].
  destruct (Healthy rep); cbn [negb]; lia.
Qed.

Lemma tableTurn_all l out n : exists text, forRange tableTurn l (out, n) = Ret (inl (text, n + badCount l)).
Proof.
  revert out n. induction l as [|r l IH]; intros out n; [exists out; cbn; by rewrite Z.add_0_r|].
  cbn [forRange]. unfold tableTurn at 1. destruct (truncate_spec (target r) 40 ltac:(lia)) as (name & -> & _). cbn [bind].
  rewrite badCount_cons. unfold bad. destruct (outcomeOf r) as [rep|e].
  - destruct (negb (Healthy rep));
      [destruct (truncate_spec (if String.eqb (FixFirst rep) "" && Healthy rep then emDash else FixFirst rep) 40 ltac:(lia)) as (note & -> & _)..];
      cbn [bind]; [destruct (IH (out +:+ tableRow name problemsMark (Elapsed rep) note)%string (n + 1)) as [text ->]
                  |destruct (IH (out +:+ tableRow name healthyMark (Elapsed rep) note)%string n) as [text ->]];
      exists text; do 3 f_equal; lia.
  - destruct (truncate_spec e 40 ltac:(lia)) as (note & -> & _). cbn [bind].
    destruct (IH (out +:+ tableRow name "error" emDash note)%string (n + 1)) as [text ->]. exists text. do 3 f_equal; lia.
Qed.

(** What a batch says: in both forms of output [unhealthy], which decides the exit
    status, is the number of targets that do not parse or whose report is not healthy;
    [--json] writes one line per target in the order they were given, and the history
    gets the reports in that order, unless it is switched off. *)
Theorem reportBatch_verdict jsonOut noHistory results :
  exists out, reportBatch jsonOut noHistory results =
    Ret (if noHistory then [] else flat_map (fun r => match outcomeOf r with inl rep => [rep] | inr _ => [] end) results,
         out, badCount results) /\
  (jsonOut = true -> out = JSONLines (map lineOf results)) /\
  (badCount results = 0 <-> forall r, r ∈ results -> exists rep, outcomeOf r = inl rep /\ Healthy rep = true).
Proof.
  assert (Hbad : badCount results = 0 <-> forall r, r ∈ results -> exists rep, outcomeOf r = inl rep /\ Healthy rep = true).
  { induction results as [|r l IH]; [split; [by intros _ r ?%elem_of_nil|done]|]. rewrite badCount_cons.
    pose proof (blen_nonneg (List.filter bad l)) as Hp. fold (badCount l) in Hp. split.
    - intros Hz x [->|Hx]%elem_of_cons; [|apply IH; [destruct (bad r); lia|done]].
      unfold bad in Hz. destruct (outcomeOf r) as [rep|e]; [|lia]. exists rep. split; [done|]. destruct (Healthy rep); [done|cbn in Hz; lia].
    - intros Hx. rewrite (proj2 IH) by (intros x Hin; apply Hx; by apply list_elem_of_further).
      destruct (Hx r ltac:(apply list_elem_of_here)) as (rep & Ho & Hh). unfold bad. by rewrite Ho, Hh. }
  unfold reportBatch. destruct jsonOut.
  - rewrite jsonTurn_all. eexists. split; [done|]. by split.
  - match goal with |- context [forRange tableTurn results (?h, 0)] => destruct (tableTurn_all results h 0) as [text ->] end.
    cbn [bind]. eexists. split; [done|]. by split.
Qed.

(** ** Targets as they are written *)

Definition plainHost (h : string) : bool :=
  negb (String.eqb h "") && lacks ":" h && lacks "/" h && lacks "[" h && lacks "]" h.

Lemma lastColon_none b : lacks ":" b = true -> lastColon b = None.
Proof.
  induction b as [|c b IH]; [done|]. unfold lacks. cbn [forallString]. intros [Hc Hb]%andb_true_iff.
  cbn [lastColon]. rewrite IH by done. by apply negb_true_iff in Hc as ->.
Qed.

Lemma lastColon_app a b : lacks ":" b = true -> lastColon (a +:+ String ":" b) = Some (a, b).
Proof. intros Hb. induction a as [|x a IH]; cbn; [by rewrite lastColon_none|by rewrite IH]. Qed.

(** A text is free of a character because its parts are. *)
Ltac lacks_done := rewrite ?lacks_app; repeat (apply andb_true_iff; split); done.

Section ParseTarget.
Context (urlParse : string -> (string * string * string) + string) (quote : string -> string).

(** C23. What [parseTarget] gives is a host name that is not empty, a port other than 0
    and one of the two schemes, whatever the library makes of a URL. *)
Theorem parseTarget_sound arg host port scheme (Hp : parseTarget urlParse quote arg = inl (host, port, scheme)) :
  host <> ""%string /\ port <> 0 /\ (scheme = "http" \/ scheme = "https")%string.
Proof.
  unfold parseTarget in Hp. cbv zeta in Hp.
  match type of Hp with match ?x with _ => _ end = _ => destruct x as [[[s h] p]|?]; [|done] end.
  destruct (String.eqb_spec h "") as [|Hh]; [done|].
  destruct (String.eqb_spec s "http") as [->|Hs]; cbn [negb andb] in Hp.
  - injection Hp as <- <- <-. split; [done|]. split; [destruct (p =? 0) eqn:E; to_prop; lia|by left].
  - destruct (String.eqb_spec s "https") as [->|]; [|done]. injection Hp as <- <- <-.
    split; [done|]. split; [destruct (p =? 0) eqn:E; to_prop; lia|by right].
Qed.

Lemma lacks_slash t : lacks "/" t = true -> Contains t "://" = false.
Proof. apply (not_Contains "/" ":" "/"). Qed.

Lemma noBracket t : lacks "[" t = true -> HasPrefix t "[" = false.
Proof. apply (prefix_lacks "[" "" ""). Qed.

Lemma prefix_one c t : HasPrefix (String c "" +:+ t) (String c "") = true.
Proof. unfold HasPrefix. cbn. destruct (ascii_dec c c); [by destruct t|done]. Qed.

Lemma parseTarget_split arg h ps q : Contains arg "://" = false -> splitHostPort arg = Some (h, ps) -> h <> ""%string ->
  (Atoi ps).1 = q -> q <> 0 -> parseTarget urlParse quote arg = inl (h, q, "https"%string).
Proof.
  intros Hc Hs Hh Hq Hq0. unfold parseTarget. rewrite Hc, Hs, Hq. apply String.eqb_neq in Hh as ->. cbn. by apply Z.eqb_neq in Hq0 as ->.
Qed.

Lemma parseTarget_alone arg : Contains arg "://" = false -> splitHostPort arg = None -> arg <> ""%string ->
  parseTarget urlParse quote arg = inl (arg, 443, "https"%string).
Proof. intros Hc Hs Hh. unfold parseTarget. rewrite Hc, Hs. by apply String.eqb_neq in Hh as ->. Qed.

(** C22. Targets are read as they are written: a name alone means port 443; [name:port]
    and [[v6]:port] are split; an IPv6 address alone is a host of its own. *)
Theorem parseTarget_roundtrip h v6 p (Hh : plainHost h = true) (Hv : v6 <> ""%string)
  (Hb : lacks "[" v6 && lacks "]" v6 && lacks "/" v6 = true) (Hp : 0 < p < 2 ^ 63) :
  parseTarget urlParse quote h = inl (h, 443, "https"%string) /\
  parseTarget urlParse quote (h +:+ ":" +:+ decNat p) = inl (h, p, "https"%string) /\
  parseTarget urlParse quote ("[" +:+ v6 +:+ "]:" +:+ decNat p) = inl (v6, p, "https"%string) /\
  forall a b, v6 = (a +:+ ":" +:+ b)%string -> lacks ":" b = true -> lacks ":" a = false ->
    parseTarget urlParse quote v6 = inl (v6, 443, "https"%string).
Proof.
  unfold plainHost in Hh. to_prop. destruct (String.eqb_spec h "") as [|Hne]; [done|].
  pose proof (lacks_decNat ":" p ltac:(lia) eq_refl) as Hpc. pose proof (lacks_decNat "/" p ltac:(lia) eq_refl) as Hps.
  pose proof (lacks_decNat "[" p ltac:(lia) eq_refl) as Hpo. pose proof (lacks_decNat "]" p ltac:(lia) eq_refl) as Hpe.
  split; [|split; [|split]].
  - apply parseTarget_alone; [by apply lacks_slash|by unfold splitHostPort; rewrite lastColon_none|done].
  - apply parseTarget_split with (decNat p); [apply lacks_slash; lacks_done| |done|by rewrite Atoi_decNat by lia|lia].
    unfold splitHostPort. change (h +:+ ":" +:+ decNat p)%string with (h +:+ String ":" (decNat p))%string. rewrite lastColon_app by done.
    change (String ":" (decNat p)) with (":" +:+ decNat p)%string. rewrite noBracket by lacks_done.
    unfold hasChar. rewrite !lacks_app. by repeat match goal with H : lacks _ _ = true |- _ => rewrite H end.
  - apply parseTarget_split with (decNat p); [apply lacks_slash; lacks_done| |done|by rewrite Atoi_decNat by lia|lia].
    unfold splitHostPort. rewrite (appString_assoc "[" v6). change ("]:" +:+ decNat p)%string with ("]" +:+ String ":" (decNat p))%string.
    rewrite (appString_assoc ("[" +:+ v6) "]"), lastColon_app by done. rewrite <- !appString_assoc.
    rewrite prefix_one.
    change (dropString 1 ("[" +:+ v6 +:+ "]" +:+ String ":" (decNat p))) with (v6 +:+ String "]" (String ":" (decNat p)))%string.
    cbv zeta. rewrite Cut_app by done. unfold hasChar.
    change (v6 +:+ String "]" (String ":" (decNat p)))%string with (v6 +:+ "]" +:+ ":" +:+ decNat p)%string.
    change (String ":" (decNat p)) with (":" +:+ decNat p)%string. rewrite prefix_one, !lacks_app.
    change (dropString 1 (":" +:+ decNat p)) with (decNat p).
    by repeat match goal with H : lacks _ _ = true |- _ => rewrite H end.
  - intros a b -> Hcb Hca. apply parseTarget_alone; [by apply lacks_slash| |done].
    unfold splitHostPort. change (a +:+ ":" +:+ b)%string with (a +:+ String ":" b)%string in *. rewrite lastColon_app by done.
    rewrite noBracket by done. unfold hasChar. by rewrite Hca.
Qed.
End ParseTarget.

Module BatchWitnesses.
Definition noURL (s : string) : (string * string * string) + string := inr s.



(** One hostile target ends the batch, whatever the other one gave. *)
Example crash_ends_batch : nsteps (batchStep (fun t => if String.eqb t "b" then None else Some (inr t)) ["a"; "b"]%string 2) 3 (initial ["a"; "b"]%string)
  {| nextIdx := 2; working := [1%nat; 0%nat]; stored := []; released := []; results := [None; None]; crashed := true |}.
Proof.
  eapply nsteps_l; [apply spawn; [done|vm_compute; lia..]|]. eapply nsteps_l; [apply spawn; [done|vm_compute; lia..]|]. cbn.
  eapply nsteps_l; [eapply (crash _ _ _ _ 1%nat [] [0%nat]); reflexivity|]. apply nsteps_O.
Qed.

Lemma parseTarget_sound_witness : ("example.org" <> "")%string /\ 8443 <> 0.
Proof.
  destruct (parseTarget_sound noURL id "example.org:8443" "example.org" 8443 "https" ltac:(by vm_compute)) as (? & ? & _). by split.
Defined.

Lemma parseTarget_roundtrip_witness : parseTarget noURL id "[::1]:8443" = inl ("::1", 8443, "https")%string.
Proof.
  destruct (parseTarget_roundtrip noURL id "example.org" "::1" 8443 eq_refl ltac:(done) eq_refl ltac:(lia)) as (_ & _ & <- & _).
  by vm_compute.
Defined.
End BatchWitnesses.
