(* ===== verification/Writeout.v ===== *)
(** [--write-out]: the template expansion of [writeout.go]. *)

From Stdlib Require Import ZArith List String Ascii Strings.Byte Lia Bool.
From stdpp Require Import base list strings gmap.
From S2P Require Import Prelude Bytes GoStrings Text Result Float Json Profile Report.
Open Scope Z_scope.

(** ** Escapes *)

Definition backslash : ascii := ascii_of_N 92.
Definition lfChar : ascii := ascii_of_N 10.
Definition crChar : ascii := ascii_of_N 13.
Definition tabChar : ascii := ascii_of_N 9.

(** The loop consumes one byte, or a backslash and the byte behind it. *)
Fixpoint processEscapes (t : string) : string :=
  match t with
  | EmptyString => EmptyString
  | String c r =>
      if negb (Ascii.eqb c backslash) then String c (processEscapes r)
      else
        match r with
        | EmptyString => String c EmptyString
        | String d r' =>
            if Ascii.eqb d "n" then String lfChar (processEscapes r')
            else if Ascii.eqb d "r" then String crChar (processEscapes r')
            else if Ascii.eqb d "t" then String tabChar (processEscapes r')
            else if Ascii.eqb d backslash then String backslash (processEscapes r')
            else String c (String d (processEscapes r'))
        end
  end.

(** ** Substitution *)

(** One turn of the loop: the state is what is written and what is left of the template. *)
Definition substTurn (values : gmap string string) (st : string * string) : outcome (step (string * string) string) :=
  let '(out, rest) := st in
  match rest with
  | EmptyString => Ret (Return out)
  | String c r =>
      let literal := Ret (Next ((out +:+ String c "")%string, r)) in
      if HasPrefix rest "${" then
        match Cut (dropString 2 rest) "}" with
        | (name, after, true) => Ret (Next ((out +:+ default "" (values !! name))%string, after))
        | (_, _, false) => literal
        end
      else literal
  end.

Definition substitute (values : gmap string string) (template : string) : outcome string :=
  r <~ loop (substTurn values) (S (String.length template)) (""%string, template) ;;
  match r with inl (out, _) => Ret out | inr out => Ret out end.

(** ** The variables *)

Definition formatMS (v : float64) : string := if isZero v then "0" else formatF1 v.

Definition strOrEmpty (v : value) : string := match v with VString s => s | _ => ""%string end.

Definition detail (d : gmap string value) (k : string) : value := default VNil (d !! k).

(** A string field of a struct, by its name in JSON; [omitempty] leaves out empty ones. *)
Definition field (k : string) (fields : list (string * value)) : string :=
  match find (fun f => String.eqb f.1 k) fields with Some (_, v) => strOrEmpty v | None => ""%string end.

#[local] Abbreviation vars := (gmap string string).

Definition traceVars (t : TraceResult) (v : vars) : vars :=
  foldl (fun v p => <[p.1 := p.2]> v) v
    [("time_dns", formatMS (DNSPhase t)); ("time_tcp", formatMS (TCPPhase t)); ("time_tls", formatMS (TLSPhase t));
     ("time_server", formatMS (ServerPhase t)); ("time_total", formatMS (TotalPhase t));
     ("ttfb", formatMS (fadd (fadd (fadd (TCPPhase t) (TLSPhase t)) (ServerPhase t)) (DNSPhase t)));
     ("http_status", fmtD (HTTPStatus t)); ("http_proto", HTTPProto t); ("http_server", HTTPServer t);
     ("redirects", fmtD (HTTPRedirects t)); ("throughput_kbps", formatMS (ThroughputKBps t))]%string.

(** [if x, ok := v.(ty); ok { v[key] = x.name }] *)
Definition structVar (ty name key : string) (x : value) (v : vars) : vars :=
  match x with VStruct t fields => if String.eqb t ty then <[key := field name fields]> v else v | _ => v end.

Definition tlsVars (d : gmap string value) (v : vars) : vars :=
  let v := <["tls_version" := strOrEmpty (detail d "version")]> v in
  let v := <["cipher" := strOrEmpty (detail d "cipher")]> v in
  let v := match detail d "days_left" with VInt dl => <["days_left" := fmtD dl]> v | _ => v end in
  let v := match detail d "vulnerabilities" with
           | VSlice ty l =>
               let names := map (fun x => match x with VStruct _ fields => field "name" fields | _ => ""%string end) (default [] l) in
               if String.eqb ty "tlsVuln" then <["vulns" := Join names ","]> v else v
           | _ => v
           end in
  structVar "jarmResult" "fingerprint" "jarm" (detail d "jarm") v.

Definition securityVars (d : gmap string value) (v : vars) : vars :=
  let v := match detail d "score" with VInt s => <["score" := fmtD s]> v | _ => v end in
  <["grade" := strOrEmpty (detail d "grade")]> v.

(** [visit] is the order in which the range over a map meets its entries. *)
Definition dnsVars (visit : list (string * value) -> list (string * value)) (d : gmap string value) (v : vars) : vars :=
  let v := match detail d "ipv4" with VStrings (Some (ip :: _)) => <["ipv4" := ip]> v | _ => v end in
  let v := match detail d "ipv6" with VStrings (Some (ip :: _)) => <["ipv6" := ip]> v | _ => v end in
  let v := match detail d "asn" with
           | VMap ty entries =>
               match visit entries with
               | (_, VStruct _ info) :: _ => if String.eqb ty "map[string]asnInfo" then <["asn" := field "asn" info]> v else v
               | _ => v
               end
           | _ => v
           end in
  structVar "propagationVerdict" "verdict" "propagation" (detail d "propagation") v.

Definition mailVars (d : gmap string value) (v : vars) : vars :=
  let v := match detail d "score" with VInt s => <["mail_score" := fmtD s]> v | _ => v end in
  let v := <["mail_grade" := strOrEmpty (detail d "grade")]> v in
  let v := structVar "*spfPolicy" "all" "spf" (detail d "spf") v in
  structVar "*dmarcPolicy" "policy" "dmarc" (detail d "dmarc") v.

Definition checkVars (visit : list (string * value) -> list (string * value)) (v : vars) (c : Check) : vars :=
  match Detail c with
  | None => v
  | Some d =>
      if String.eqb (Name c) "TLS" then tlsVars d v
      else if String.eqb (Name c) "Security" then securityVars d v
      else if String.eqb (Name c) "DNS" then dnsVars visit d v
      else if String.eqb (Name c) "Mail" then mailVars d v
      else v
  end.

Definition globalVars (r : Report) (exitCode : Z) : list (string * string) :=
  [("target", Target r); ("host", Host r); ("port", fmtD (Port r)); ("scheme", Scheme r);
   ("healthy", if Healthy r then "true" else "false"); ("problems", Join (Problems r) ", ");
   ("fix_first", FixFirst r); ("elapsed", Elapsed r); ("exit_code", fmtD exitCode)]%string.

Definition writeOutValues (visit : list (string * value) -> list (string * value)) (r : Report) (exitCode : Z) : vars :=
  let v := list_to_map (globalVars r exitCode) in
  let v := match Trace r with Some t => traceVars t v | None => v end in
  foldl (checkVars visit) v (Checks r).

Definition runWriteOut (visit : list (string * value) -> list (string * value)) (template : string) (r : Report) (exitCode : Z) : outcome string :=
  substitute (writeOutValues visit r exitCode) (processEscapes template).

(** ** Templates as a sequence of text and variables *)

Inductive segment := Lit (s : string) | Var (name : string).

Definition renderSegment (g : segment) : string :=
  match g with Lit s => s | Var n => ("${" +:+ n +:+ "}")%string end.
Definition render (l : list segment) : string := String.concat "" (map renderSegment l).

Definition expandSegment (values : vars) (g : segment) : string :=
  match g with Lit s => s | Var n => default ""%string (values !! n) end.
Definition expand (values : vars) (l : list segment) : string := String.concat "" (map (expandSegment values) l).

Definition segmentOk (g : segment) : Prop := match g with Lit s => lacks "$" s = true | Var n => lacks "}" n = true end.

(** The user's notation for a text *)
Fixpoint escape (s : string) : string :=
  match s with
  | EmptyString => EmptyString
  | String c r =>
      if Ascii.eqb c lfChar then String backslash (String "n" (escape r))
      else if Ascii.eqb c crChar then String backslash (String "r" (escape r))
      else if Ascii.eqb c tabChar then String backslash (String "t" (escape r))
      else if Ascii.eqb c backslash then String backslash (String backslash (escape r))
      else String c (escape r)
  end.

Lemma processEscapes_escape s : processEscapes (escape s) = s.
Proof.
  induction s as [|c s IH]; [done|]. cbn [escape].
  destruct (Ascii.eqb_spec c lfChar) as [->|_]; [cbn; by rewrite IH|].
  destruct (Ascii.eqb_spec c crChar) as [->|_]; [cbn; by rewrite IH|].
  destruct (Ascii.eqb_spec c tabChar) as [->|_]; [cbn; by rewrite IH|].
  destruct (Ascii.eqb_spec c backslash) as [->|Hc]; [cbn; by rewrite IH|].
  cbn [processEscapes]. apply Ascii.eqb_neq in Hc as ->. cbn. by rewrite IH.
Qed.

Lemma Cut_length s c a b : Cut s c = (a, b, true) -> (String.length b < String.length s)%nat.
Proof.
  revert a b. induction s as [|x s IH]; intros a b; cbn; [done|].
  destruct (Ascii.eqb x c); [by intros [= _ <-]; lia|]. destruct (Cut s c) as [[a' b'] [|]]; [|done].
  intros [= _ <-]. specialize (IH a' b' eq_refl). lia.
Qed.

Lemma substitute_returns values template : exists out, substitute values template = Ret out.
Proof.
  assert (Hw : wp (substitute values template) (fun _ => True) (fun _ => False)).
  { unfold substitute. wp_step.
    apply (wp_loop _ (fun _ => True) (fun st => String.length st.2)); [|done|cbn; lia].
    intros [out rest] _. unfold substTurn. destruct rest as [|c r]; [by cbn|]. cbv zeta.
    destruct (HasPrefix (String c r) "${"); [|cbn; lia].
    destruct (Cut _ "}") as [[name after] [|]] eqn:E; [|cbn; lia]. cbn. split; [done|].
    apply Cut_length in E. rewrite length_dropString in E. cbn in E. lia. }
  destruct (substitute values template); [eauto|done..].
Qed.

(** The loop over a text without dollar signs copies it. *)
Lemma subst_text values s rest : lacks "$" s = true -> forall fuel out, (String.length s <= fuel)%nat ->
  loop (substTurn values) fuel (out, (s +:+ rest)%string) =
  loop (substTurn values) (fuel - String.length s) ((out +:+ s)%string, rest).
Proof.
  induction s as [|c s IH]; intros Hs fuel out Hf; [cbn; by rewrite Nat.sub_0_r, appString_nil|].
  unfold lacks in Hs. cbn [forallString] in Hs. apply andb_true_iff in Hs as [Hc Hs].
  destruct fuel as [|fuel]; [cbn in Hf; lia|]. cbn [loop String.append]. unfold substTurn at 1. cbv zeta.
  assert (Hp : HasPrefix (String c (s +:+ rest)) "${" = false).
  { unfold HasPrefix. cbn [String.prefix]. destruct (ascii_dec "$" c) as [<-|]; [by vm_compute in Hc|done]. }
  rewrite Hp. cbn [bind]. rewrite IH by (done || (cbn in Hf; lia)). cbn [String.length Nat.sub].
  rewrite <- appString_assoc. done.
Qed.

Lemma subst_var values n rest : lacks "}" n = true -> forall fuel out,
  loop (substTurn values) (S fuel) (out, ("${" +:+ n +:+ "}" +:+ rest)%string) =
  loop (substTurn values) fuel ((out +:+ default "" (values !! n))%string, rest).
Proof.
  intros Hn fuel out. cbn [loop]. unfold substTurn at 1.
  change ("${" +:+ n +:+ "}" +:+ rest)%string with (String "$" (String "{" (n +:+ String "}" rest))). cbv zeta iota.
  assert (Hp : HasPrefix (String "$" (String "{" (n +:+ String "}" rest))) "${" = true) by (unfold HasPrefix; cbn; by destruct (n +:+ _)%string).
  rewrite Hp. cbn [dropString]. by rewrite Cut_app.
Qed.

Lemma subst_render values l : Forall segmentOk l -> forall fuel out, (String.length (render l) < fuel)%nat ->
  loop (substTurn values) fuel (out, render l) = Ret (inr (out +:+ expand values l)%string).
Proof.
  unfold render, expand. induction 1 as [|g l Hg Hl IH]; intros fuel out Hf.
  { destruct fuel as [|fuel]; [cbn in Hf; lia|]. cbn. by rewrite appString_nil. }
  cbn [map] in *. rewrite concat_empty_cons in *. rewrite length_appString in Hf. destruct g as [s|n]; cbn [renderSegment expandSegment] in *.
  - rewrite subst_text by (done || lia). rewrite IH by lia. by rewrite concat_empty_cons, appString_assoc.
  - destruct fuel as [|fuel]; [lia|]. rewrite <- !appString_assoc. rewrite subst_var by done.
    rewrite !length_appString in Hf. cbn in Hf. rewrite IH by lia. by rewrite concat_empty_cons, appString_assoc.
Qed.

(** C25. [runWriteOut] returns for every template; and on a template of texts and
    variables, the texts in the user's notation for newlines, tabs and backslashes, it
    is the concatenation of the texts and the values: a value is never read as a
    template again, and an unknown variable is empty. *)
Theorem runWriteOut_segments visit r exitCode :
  (forall template, exists out, runWriteOut visit template r exitCode = Ret out) /\
  forall l, Forall segmentOk l ->
    runWriteOut visit (escape (render l)) r exitCode = Ret (expand (writeOutValues visit r exitCode) l).
Proof.
  split; [intros template; apply substitute_returns|]. intros l Hl. unfold runWriteOut, substitute.
  rewrite processEscapes_escape, subst_render by (done || lia). done.
Qed.

(** ** The variables there are *)

Definition traceKeys : list string :=
  ["time_dns"; "time_tcp"; "time_tls"; "time_server"; "time_total"; "ttfb"; "http_status"; "http_proto"; "http_server";
   "redirects"; "throughput_kbps"]%string.
Definition checkKeys : list string :=
  ["tls_version"; "cipher"; "days_left"; "vulns"; "jarm"; "score"; "grade"; "ipv4"; "ipv6"; "asn"; "propagation";
   "mail_score"; "mail_grade"; "spf"; "dmarc"]%string.

Lemma traceVars_other k t v : k ∉ traceKeys -> traceVars t v !! k = v !! k.
Proof.
  unfold traceKeys. rewrite !not_elem_of_cons. intros Hk. destruct_and?. unfold traceVars. cbn [foldl fst snd].
  by rewrite !lookup_insert_ne by congruence.
Qed.

Lemma structVar_other ty name key x v k : k <> key -> structVar ty name key x v !! k = v !! k.
Proof. intros Hk. unfold structVar. destruct x; try done. destruct (String.eqb ty0 ty); [by rewrite lookup_insert_ne by congruence|done]. Qed.

Lemma checkVars_other visit k v c : k ∉ checkKeys -> checkVars visit v c !! k = v !! k.
Proof.
  unfold checkKeys. rewrite !not_elem_of_cons. intros Hk. destruct_and?.
  unfold checkVars. destruct (Detail c) as [d|]; [|done].
  destruct (String.eqb (Name c) "TLS"); [|destruct (String.eqb (Name c) "Security"); [|destruct (String.eqb (Name c) "DNS");
    [|destruct (String.eqb (Name c) "Mail"); [|done]]]].
  - unfold tlsVars. cbv zeta. rewrite structVar_other by assumption.
    repeat case_match; by rewrite ?lookup_insert_ne by (apply not_eq_sym; assumption).
  - unfold securityVars. cbv zeta. repeat case_match; by rewrite ?lookup_insert_ne by (apply not_eq_sym; assumption).
  - unfold dnsVars. cbv zeta. rewrite structVar_other by assumption.
    repeat case_match; by rewrite ?lookup_insert_ne by (apply not_eq_sym; assumption).
  - unfold mailVars. cbv zeta. rewrite !structVar_other by assumption.
    repeat case_match; by rewrite ?lookup_insert_ne by (apply not_eq_sym; assumption).
Qed.

(** The variables of a template: apart from those of the trace and of the TLS,
    Security, DNS and Mail checks they are the nine global ones, which no check
    overwrites, and every other name has no value. *)
Theorem writeOutValues_globals visit r exitCode k (Hk : k ∉ traceKeys ++ checkKeys) :
  writeOutValues visit r exitCode !! k = (list_to_map (globalVars r exitCode) : gmap string string) !! k /\
  (k ∉ (globalVars r exitCode).*1 -> writeOutValues visit r exitCode !! k = None).
Proof.
  rewrite not_elem_of_app in Hk. destruct Hk as [Ht Hc].
  assert (Hv : writeOutValues visit r exitCode !! k = (list_to_map (globalVars r exitCode) : gmap string string) !! k).
  { unfold writeOutValues. cbv zeta.
    assert (Hf : forall l (v : gmap string string), foldl (checkVars visit) v l !! k = v !! k).
    { induction l as [|c l IH]; intros v; [done|]. cbn [foldl]. by rewrite IH, checkVars_other. }
    rewrite Hf. destruct (Trace r) as [t|]; [by apply traceVars_other|done]. }
  split; [done|]. intros Hg. rewrite Hv. by apply not_elem_of_list_to_map_1.
Qed.

Module WriteoutWitnesses.
Definition sample : Report :=
  {| Target := "https://example.org"; Host := "example.org"; Port := 443; Scheme := "https"; Healthy := true; Checks := [];
     Trace := None; Problems := []; FixFirst := ""; Elapsed := "1.2s" |}.

Lemma writeOutValues_globals_witness : writeOutValues id sample 0 !! "host"%string = Some "example.org"%string.
Proof.
  destruct (writeOutValues_globals id sample 0 "host") as [-> _]; [|by vm_compute].
  apply (bool_decide_eq_true (_ ∉ _)). by vm_compute.
Defined.

(** [netdoc --write-out '${host}:${port} ${nothing}\n'] *)
Example host_port : runWriteOut id "${host}:${port} ${nothing}\n" sample 0 = Ret ("example.org:443 " +:+ String lfChar "")%string.
Proof. by vm_compute. Qed.
End WriteoutWitnesses.
