(* ===== verification/Distrust.v ===== *)
(** The list of distrusted authorities of [tls_distrust.go] and the search of a
    certificate chain for them. *)

From Stdlib Require Import ZArith List String Ascii Strings.Byte Lia Bool.
From stdpp Require Import base list strings.
From S2P Require Import Prelude Bytes GoStrings Decimal Digest Result Runes.
Open Scope Z_scope.

Record distrustedRoot := {
  IssuerDN : string; FingerprintSHA256 : string; CommonName : string; Reason : string; DistrustedBy : list string; Since : string
}.

Definition root (cn dn fp reason : string) (by_ : list string) (since : string) : distrustedRoot :=
  {| IssuerDN := dn; FingerprintSHA256 := fp; CommonName := cn; Reason := reason; DistrustedBy := by_; Since := since |}.

(** Roots whose fingerprint is listed *)
Definition entrustRoots : list distrustedRoot := [
  root "Entrust Root Certification Authority" "entrust root certification authority" "73c176434f1bc6d5adf45b0e76e727287c8de57616c1e6e6141a2b2cbc7d8e4c"
    "Entrust distrust 2024 — operational failures, audit issues" ["Mozilla"; "Chrome"] "2024-11-30";
  root "Entrust Root Certification Authority - G2" "entrust root certification authority - g2" "43df5774b03e7fef5fe40d931a7bedf1bb2e6b42738c4e6d3841103d3aa7f339"
    "Entrust G2 distrust 2024" ["Mozilla"; "Chrome"] "2024-11-30";
  root "Entrust Root Certification Authority - EC1" "entrust root certification authority - ec1" "02ed0eb28c14da45165c566791700d6451d7fb56f0b2ab1d3b8eb070e56edff5"
    "Entrust EC1 distrust 2024" ["Mozilla"; "Chrome"] "2024-11-30";
  root "Entrust.net Premium 2048 Secure Server CA" "entrust.net certification authority (2048)" "6dc47172e01cbcb0bf62580d895fe2b8ac9ad4f873801e0c10b9c837d21eb177"
    "Entrust 2048 distrust 2024" ["Mozilla"; "Chrome"] "2024-11-30";
  root "ePKI Root Certification Authority" "epki root certification authority" "c0a6f4dc63a24bfdcf54ef2a6a082a0a72de35803e2ff5ff527ae5d87206dfd5"
    "Chunghwa Telecom ePKI Root distrust — operational issues" ["Mozilla"] "2024-06-30"
  ]%string.

(** WoSign and StartCom *)
Definition wosignRoots : list distrustedRoot := [
  root "WoSign CA Free SSL Certificate G2" "wosign ca free ssl certificate g2" ""
    "mis-issuance, backdated SHA-1 certs (2016)" ["Mozilla"; "Chrome"; "Apple"] "2017-09-01";
  root "WoSign CA Free SSL Certificate G3" "wosign ca free ssl certificate g3" ""
    "WoSign trust chain — distrusted with G2" ["Mozilla"; "Chrome"; "Apple"] "2017-09-01";
  root "Certification Authority of WoSign" "certification authority of wosign" ""
    "WoSign trust chain — distrusted" ["Mozilla"; "Chrome"; "Apple"] "2017-09-01";
  root "StartCom Certification Authority" "startcom certification authority" ""
    "WoSign affiliate; same mis-issuance" ["Mozilla"; "Chrome"; "Apple"; "Microsoft"] "2017-09-01";
  root "StartCom Certification Authority G2" "startcom certification authority g2" ""
    "WoSign affiliate G2 — distrusted" ["Mozilla"; "Chrome"; "Apple"; "Microsoft"] "2017-09-01"
  ]%string.

(** Symantec and its brands *)
Definition symantecRoots : list distrustedRoot := [
  root "Symantec Class 3 Public Primary Certification Authority - G6" "symantec class 3 public primary certification authority - g6" ""
    "Symantec-issued cert distrust (post-Google audit)" ["Mozilla"; "Chrome"] "2018-04-01";
  root "Symantec Class 3 Public Primary Certification Authority - G4" "symantec class 3 public primary certification authority - g4" ""
    "Symantec distrust event" ["Mozilla"; "Chrome"] "2018-04-01";
  root "GeoTrust Primary Certification Authority" "geotrust primary certification authority" ""
    "Symantec subsidiary — same distrust" ["Mozilla"; "Chrome"] "2018-04-01";
  root "GeoTrust Primary Certification Authority - G3" "geotrust primary certification authority - g3" ""
    "Symantec subsidiary G3 — distrusted" ["Mozilla"; "Chrome"] "2018-04-01";
  root "GeoTrust Global CA" "geotrust global ca" ""
    "Symantec subsidiary — same distrust" ["Mozilla"; "Chrome"] "2018-04-01";
  root "thawte Primary Root CA" "thawte primary root ca" ""
    "Symantec subsidiary thawte — distrusted" ["Mozilla"; "Chrome"] "2018-04-01";
  root "thawte Primary Root CA - G2" "thawte primary root ca - g2" ""
    "Symantec subsidiary thawte G2 — distrusted" ["Mozilla"; "Chrome"] "2018-04-01";
  root "thawte Primary Root CA - G3" "thawte primary root ca - g3" ""
    "Symantec subsidiary thawte G3 — distrusted" ["Mozilla"; "Chrome"] "2018-04-01";
  root "VeriSign Class 3 Public Primary CA - G4" "verisign class 3 public primary certification authority - g4" ""
    "Symantec/VeriSign — distrusted" ["Mozilla"; "Chrome"] "2018-04-01";
  root "VeriSign Class 3 Public Primary CA - G5" "verisign class 3 public primary certification authority - g5" ""
    "Symantec/VeriSign G5 — distrusted" ["Mozilla"; "Chrome"] "2018-04-01"
  ]%string.

(** Single authorities, and once more Entrust *)
Definition otherRoots : list distrustedRoot := [
  root "CNNIC ROOT" "cnnic root" ""
    "MCS Holdings unauthorized intermediate (2015)" ["Mozilla"; "Chrome"; "Apple"] "2015-04-01";
  root "China Internet Network Information Center EV Certificates Root" "china internet network information center ev certificates root" ""
    "CNNIC EV root — distrusted post-2015" ["Mozilla"; "Chrome"] "2015-04-01";
  root "TURKTRUST Elektronik Sertifika Hizmet Sağlayıcısı" "türktrust elektronik sertifika hizmet sağlayıcısı" ""
    "fraudulent *.google.com certificate (2013)" ["Mozilla"; "Chrome"; "Microsoft"] "2013-01-01";
  root "DigiNotar Root CA" "diginotar root ca" ""
    "compromised — *.google.com fraud (2011)" ["Mozilla"; "Chrome"; "Apple"; "Microsoft"] "2011-09-01";
  root "DigiNotar Root CA G2" "diginotar root ca g2" ""
    "DigiNotar G2 — distrusted alongside G1" ["Mozilla"; "Chrome"; "Apple"; "Microsoft"] "2011-09-01";
  root "Camerfirma Chambers of Commerce Root - 2008" "chambers of commerce root - 2008" ""
    "audit failures, mis-issuance (Camerfirma)" ["Mozilla"] "2021-04-01";
  root "Camerfirma Global Chambersign Root - 2008" "global chambersign root - 2008" ""
    "Camerfirma global root — distrusted" ["Mozilla"] "2021-04-01";
  root "TrustCor RootCert CA-1" "trustcor rootcert ca-1" ""
    "TrustCor distrust (2022) — surveillance-vendor ties" ["Mozilla"; "Chrome"; "Apple"; "Microsoft"] "2022-11-01";
  root "TrustCor RootCert CA-2" "trustcor rootcert ca-2" ""
    "TrustCor distrust (2022)" ["Mozilla"; "Chrome"; "Apple"; "Microsoft"] "2022-11-01";
  root "TrustCor ECA-1" "trustcor eca-1" ""
    "TrustCor ECA — distrusted with parent" ["Mozilla"; "Chrome"; "Apple"; "Microsoft"] "2022-11-01";
  root "e-Tugra Certification Authority" "e-tugra certification authority" ""
    "October 2022 security incident — distrusted by browsers" ["Mozilla"; "Chrome"; "Apple"] "2023-04-01";
  root "E-Tugra Global Root CA RSA v3" "e-tugra global root ca rsa v3" ""
    "e-Tugra family — distrusted 2023" ["Mozilla"; "Chrome"; "Apple"] "2023-04-01";
  root "Entrust.net Certification Authority (Entrust)" "entrust root certification authority" ""
    "Entrust distrust (2024) — operational failures" ["Mozilla"; "Chrome"] "2024-11-30";
  root "Entrust Root Certification Authority - G2" "entrust root certification authority - g2" ""
    "Entrust G2 — distrusted 2024" ["Mozilla"; "Chrome"] "2024-11-30";
  root "Entrust Root Certification Authority - EC1" "entrust root certification authority - ec1" ""
    "Entrust EC1 — distrusted 2024" ["Mozilla"; "Chrome"] "2024-11-30"
  ]%string.

Definition distrustedRootDB : list distrustedRoot := entrustRoots ++ wosignRoots ++ symantecRoots ++ otherRoots.

Record distrustHit := { CertSubject : string; CertIssuer : string; Root : distrustedRoot; Confidence : string }.

(** Of a certificate: its DER bytes and the common names of subject and issuer *)
Record chainCert := { Raw : bytes; SubjectCN : string; IssuerCN : string }.

(** One entry of the list against one certificate: the confidence of a match *)
Definition matchRoot (fp subCN issCN : string) (d : distrustedRoot) : option string :=
  if negb (String.eqb (FingerprintSHA256 d) "") && String.eqb fp (FingerprintSHA256 d) then Some "fingerprint"%string
  else if String.eqb subCN (IssuerDN d) then Some "dn-match (cert is distrusted root)"%string
  else if String.eqb issCN (IssuerDN d) then Some "dn-match (issued by distrusted root)"%string
  else None.

(** The turn of the outer loop; [None] is a nil certificate. *)
Definition certHits (cert : option chainCert) : list distrustHit :=
  match cert with
  | None => []
  | Some c =>
      let fp := ToLower (hexEncode (sha256 (Raw c))) in
      let subCN := lowerTrimmed (SubjectCN c) in
      let issCN := lowerTrimmed (IssuerCN c) in
      flat_map (fun d => match matchRoot fp subCN issCN d with
                         | Some conf => [{| CertSubject := SubjectCN c; CertIssuer := IssuerCN c; Root := d; Confidence := conf |}]
                         | None => []
                         end) distrustedRootDB
  end.

Definition checkChainDistrust (chain : list (option chainCert)) : list distrustHit := flat_map certHits chain.

Definition distrustHeadline (hits : list distrustHit) : outcome string :=
  match hits with
  | [] => Ret ""%string
  | [h] => Ret ("DISTRUSTED root: " +:+ CommonName (Root h))%string
  | _ => n <~ itoa (blen hits) ;; Ret ("DISTRUSTED roots ×" +:+ n)%string
  end.

(** ** What the search finds *)

(** The evidence that connects a certificate with an entry *)
Definition fingerprintOf (c : chainCert) (d : distrustedRoot) : Prop :=
  FingerprintSHA256 d <> ""%string /\ hexEncode (sha256 (Raw c)) = FingerprintSHA256 d.
Definition named (cn : string) (d : distrustedRoot) : Prop := lowerTrimmed cn = IssuerDN d.
Definition connected (c : chainCert) (d : distrustedRoot) : Prop :=
  fingerprintOf c d \/ named (SubjectCN c) d \/ named (IssuerCN c) d.

Lemma lower_hexByte b : ToLower (hexByte b) = hexByte b.
Proof. by destruct b. Qed.

Lemma ToLower_app s t : ToLower (s +:+ t) = (ToLower s +:+ ToLower t)%string.
Proof. induction s as [|c s IH]; [done|]. cbn in *. by rewrite IH. Qed.

Lemma lower_hexEncode b : ToLower (hexEncode b) = hexEncode b.
Proof.
  unfold hexEncode. induction b as [|x b IH]; [done|]. cbn [map]. by rewrite concat_empty_cons, ToLower_app, lower_hexByte, IH.
Qed.

(** The strongest evidence, as it is reported *)
Definition evidence (c : chainCert) (d : distrustedRoot) (conf : string) : Prop :=
  fingerprintOf c d /\ conf = "fingerprint"%string
  \/ ~ fingerprintOf c d /\ named (SubjectCN c) d /\ conf = "dn-match (cert is distrusted root)"%string
  \/ ~ fingerprintOf c d /\ ~ named (SubjectCN c) d /\ named (IssuerCN c) d /\ conf = "dn-match (issued by distrusted root)"%string.

Definition matched (c : chainCert) (d : distrustedRoot) : option string :=
  matchRoot (ToLower (hexEncode (sha256 (Raw c)))) (lowerTrimmed (SubjectCN c)) (lowerTrimmed (IssuerCN c)) d.

Lemma matchRoot_cases c d : match matched c d with Some conf => evidence c d conf | None => ~ connected c d end.
Proof.
  unfold matched. rewrite lower_hexEncode. unfold matchRoot, connected, evidence, fingerprintOf, named.
  destruct (String.eqb_spec (FingerprintSHA256 d) ""), (String.eqb_spec (hexEncode (sha256 (Raw c))) (FingerprintSHA256 d)),
    (String.eqb_spec (lowerTrimmed (SubjectCN c)) (IssuerDN d)), (String.eqb_spec (lowerTrimmed (IssuerCN c)) (IssuerDN d)); cbn; tauto.
Qed.

Lemma evidence_unique c d x y : evidence c d x -> evidence c d y -> x = y.
Proof. unfold evidence. intuition congruence. Qed.

Lemma evidence_connected c d x : evidence c d x -> connected c d.
Proof. unfold evidence, connected. tauto. Qed.

Lemma matched_some c d conf : matched c d = Some conf <-> evidence c d conf.
Proof.
  pose proof (matchRoot_cases c d) as Hm. destruct (matched c d) as [x|].
  - split; [by intros [= <-]|]. intros He. f_equal. by eapply evidence_unique.
  - split; [done|]. by intros ?%evidence_connected.
Qed.

Lemma matched_none c d : matched c d = None <-> ~ connected c d.
Proof.
  pose proof (matchRoot_cases c d) as Hm. destruct (matched c d) as [x|]; [|done]. split; [done|]. by apply evidence_connected in Hm.
Qed.

Lemma certHits_nil c : certHits (Some c) = [] <-> forall d, In d distrustedRootDB -> ~ connected c d.
Proof.
  unfold certHits. cbv zeta. generalize distrustedRootDB as db. induction db as [|d db IH]; [by split; [intros _ d []|]|].
  cbn [flat_map]. pose proof (matched_none c d) as Hd. unfold matched in Hd. destruct (matchRoot _ _ _ d); cbn [app].
  - split; [done|]. intros Hall. discriminate (proj2 Hd (Hall d (or_introl eq_refl))).
  - rewrite IH. split; [|intros Hall d' Hin; apply Hall; by right].
    intros Hall d' [<-|Hin]; [by apply Hd|by apply Hall].
Qed.

Lemma certHits_In c h : In h (certHits (Some c)) <->
  In (Root h) distrustedRootDB /\ CertSubject h = SubjectCN c /\ CertIssuer h = IssuerCN c /\ evidence c (Root h) (Confidence h).
Proof.
  unfold certHits. cbv zeta. rewrite in_flat_map, <- matched_some. unfold matched. split.
  - intros (d & Hd & Hin). destruct (matchRoot _ _ _ d) eqn:E; [|done]. destruct Hin as [<-|[]]. done.
  - destruct h as [s i d conf]. cbn [CertSubject CertIssuer Root Confidence]. intros (Hd & -> & -> & E). exists d. rewrite E. split; [done|]. by left.
Qed.

(** The lists are as the comparison needs them: the names and the fingerprints are in
    lower case. *)
Lemma db_lower : forall d, In d distrustedRootDB -> lowerTrimmed (IssuerDN d) = IssuerDN d /\ ToLower (FingerprintSHA256 d) = FingerprintSHA256 d.
Proof.
  assert (Hall : forallb (fun d => String.eqb (lowerTrimmed (IssuerDN d)) (IssuerDN d) && String.eqb (ToLower (FingerprintSHA256 d)) (FingerprintSHA256 d))
                   distrustedRootDB = true) by by vm_compute.
  intros d Hd. rewrite forallb_forall in Hall. apply Hall, andb_prop in Hd as [H1 H2]. by split; apply String.eqb_eq.
Qed.

Lemma length_certHits c : (length (certHits c) <= length distrustedRootDB)%nat.
Proof.
  destruct c as [c|]; [|cbn [certHits length]; lia]. unfold certHits. cbv zeta. induction distrustedRootDB as [|d db IH]; [done|].
  cbn [flat_map length]. rewrite length_app. destruct (matchRoot _ _ _ d); cbn [length]; lia.
Qed.

Lemma length_hits chain : (length (checkChainDistrust chain) <= length chain * 35)%nat.
Proof.
  induction chain as [|c chain IH]; [done|]. unfold checkChainDistrust in *. cbn [flat_map length]. rewrite length_app.
  pose proof (length_certHits c). change (length distrustedRootDB) with 35%nat in *. lia.
Qed.

(** The report says nothing exactly when no certificate of the chain is connected with
    an entry, by its fingerprint or by the name of its subject or issuer; what it says is
    one hit per connected pair, with the strongest evidence as confidence; nil entries of
    the chain do not matter, and the headline is always printed. *)
Theorem checkChainDistrust_decides chain (Hlen : blen chain < 10 ^ 10) :
  (distrustHeadline (checkChainDistrust chain) = Ret ""%string <->
     forall c d, In (Some c) chain -> In d distrustedRootDB -> ~ connected c d)
  /\ (exists t, distrustHeadline (checkChainDistrust chain) = Ret t)
  /\ forall h, In h (checkChainDistrust chain) <->
       exists c, In (Some c) chain /\ In (Root h) distrustedRootDB /\ CertSubject h = SubjectCN c /\ CertIssuer h = IssuerCN c /\ evidence c (Root h) (Confidence h).
Proof.
  assert (Htext : exists t, distrustHeadline (checkChainDistrust chain) = Ret t /\ (t = ""%string <-> checkChainDistrust chain = [])).
  { pose proof (length_hits chain) as Hl. destruct (checkChainDistrust chain) as [|h [|h2 hits]] eqn:E.
    - by exists ""%string.
    - exists ("DISTRUSTED root: " +:+ CommonName (Root h))%string. by split.
    - unfold distrustHeadline. rewrite itoa_small by (unfold blen in *; lia). eexists. split; [reflexivity|]. by split. }
  destruct Htext as (t & Ht & Hnil). split_and!.
  - rewrite Ht. transitivity (checkChainDistrust chain = []); [rewrite <- Hnil; split; [by intros [= ->]|by intros ->]|].
    clear. induction chain as [|[c|] chain IH]; [by split; [intros _ c d []|]|..].
    + unfold checkChainDistrust in *. cbn [flat_map]. split.
      * intros [Hc Hr]%app_nil c' d [[= <-]|Hin] Hd; [by eapply certHits_nil|by eapply (proj1 IH)].
      * intros Hall. rewrite (proj2 (certHits_nil c)) by (intros d; apply Hall; by left). apply IH. intros c' d Hin. apply Hall. by right.
    + unfold checkChainDistrust in *. cbn [flat_map certHits app]. rewrite IH. split; intros Hall c d; [|intros Hin; apply Hall; by right].
      intros [?|Hin]; [done|by apply Hall].
  - by exists t.
  - intros h. unfold checkChainDistrust. rewrite in_flat_map. split.
    + intros ([c|] & Hin & Hh); [|destruct Hh]. exists c. by apply certHits_In in Hh.
    + intros (c & Hin & Hh). exists (Some c). split; [done|]. by apply certHits_In.
Qed.

(** A name counts in any case and with any white space around it. *)
Lemma named_written d cn : In d distrustedRootDB -> isAscii cn = true -> ToLower (TrimSpace cn) = IssuerDN d -> named cn d.
Proof. intros _ Ha Hn. unfold named. by rewrite lowerTrimmed_ascii. Qed.

Module DistrustWitnesses.
Definition entrust : chainCert := {| Raw := [x30]; SubjectCN := "ENTRUST Root Certification Authority "; IssuerCN := "Entrust Root Certification Authority" |}.

(** One Entrust root is two hits, since the list has it twice. *)
Example entrust_twice : distrustHeadline (checkChainDistrust [Some entrust]) = Ret "DISTRUSTED roots ×2"%string.
Proof. by vm_compute. Qed.

Example turktrust : map Confidence (checkChainDistrust
  [None; Some {| Raw := []; SubjectCN := "www.example.com"; IssuerCN := "TÜRKTRUST Elektronik Sertifika Hizmet Sağlayıcısı" |}])
  = ["dn-match (issued by distrusted root)"]%string.
Proof. by vm_compute. Qed.

Lemma checkChainDistrust_decides_witness :
  blen [Some entrust] < 10 ^ 10 /\ exists t, distrustHeadline (checkChainDistrust [Some entrust]) = Ret t.
Proof. split; [reflexivity|]. exact (proj1 (proj2 (checkChainDistrust_decides [Some entrust] eq_refl))). Defined.
End DistrustWitnesses.
