(* ===== verification/Ech.v ===== *)
(** Encrypted ClientHello in the HTTPS records of DNS: [tls_ech.go]. *)

From Stdlib Require Import ZArith List String Ascii Strings.Byte Lia Bool.
From stdpp Require Import base list strings numbers.
From S2P Require Import Prelude Bytes GoStrings Decimal.
Open Scope Z_scope.

Record echPosture := {
  Supported : bool; ConfigCount : Z; Version : Z; CipherSuiteCount : Z; PublicKeyBits : Z; RawLength : Z
}.
Definition noEch : echPosture :=
  {| Supported := false; ConfigCount := 0; Version := 0; CipherSuiteCount := 0; PublicKeyBits := 0; RawLength := 0 |}.
Definition setBits (n : Z) (out : echPosture) : echPosture :=
  {| Supported := Supported out; ConfigCount := ConfigCount out; Version := Version out; CipherSuiteCount := CipherSuiteCount out;
     PublicKeyBits := n; RawLength := RawLength out |}.
Definition setSuites (n : Z) (out : echPosture) : echPosture :=
  {| Supported := Supported out; ConfigCount := ConfigCount out; Version := Version out; CipherSuiteCount := n;
     PublicKeyBits := PublicKeyBits out; RawLength := RawLength out |}.
Definition setVersion (n : Z) (out : echPosture) : echPosture :=
  {| Supported := Supported out; ConfigCount := ConfigCount out; Version := n; CipherSuiteCount := CipherSuiteCount out;
     PublicKeyBits := PublicKeyBits out; RawLength := RawLength out |}.
Definition setCount (n : Z) (out : echPosture) : echPosture :=
  {| Supported := Supported out; ConfigCount := n; Version := Version out; CipherSuiteCount := CipherSuiteCount out;
     PublicKeyBits := PublicKeyBits out; RawLength := RawLength out |}.

Definition parseECHConfigContents (b : bytes) (out : echPosture) : outcome echPosture :=
  if blen b <? 3 then Ret out else
  let off := 3 in
  if blen b <? off + 2 then Ret out else
  p1 <~ index b off ;; p0 <~ index b (off + 1) ;;
  let pubLen := be16 p1 p0 in
  let off := off + 2 in
  if blen b <? off + pubLen then Ret out else
  let out := setBits (pubLen * 8) out in
  let off := off + pubLen in
  if blen b <? off + 2 then Ret out else
  s1 <~ index b off ;; s0 <~ index b (off + 1) ;;
  Ret (setSuites (be16 s1 s0 / 4) out).

(** One turn of the loop over the configurations; the state is the offset, [count] and
    the posture. *)
Definition configTurn (body : bytes) (st : Z * Z * echPosture) : outcome (step (Z * Z * echPosture) unit) :=
  let '(i, count, out) := st in
  if i + 4 <=? blen body then
    v1 <~ index body i ;; v0 <~ index body (i + 1) ;;
    l1 <~ index body (i + 2) ;; l0 <~ index body (i + 3) ;;
    let version := be16 v1 v0 in
    let configLen := be16 l1 l0 in
    if blen body <? i + 4 + configLen then Ret (Break (i, count, out)) else
    let count := count + 1 in
    out <~ (if count =? 1 then
              contents <~ slice body (i + 4) (i + 4 + configLen) ;;
              parseECHConfigContents contents (setVersion version out)
            else Ret out) ;;
    Ret (Next (i + (4 + configLen), count, out))
  else Ret (Break (i, count, out)).

Definition parseECHConfigList (raw : bytes) (out : echPosture) : outcome echPosture :=
  if blen raw <? 2 then Ret out else
  l1 <~ index raw 0 ;; l0 <~ index raw 1 ;;
  let listLen := be16 l1 l0 in
  if blen raw <? 2 + listLen then Ret out else
  body <~ slice raw 2 (2 + listLen) ;;
  r <~ loop (configTurn body) (S (length body)) (0, 0, out) ;;
  match r with
  | inl (_, count, out) => Ret (setCount count out)
  | inr tt => Ret out
  end.

(** The answer to the query for HTTPS records: of each record that is one, its
    parameters, and of each parameter that is an ECH configuration, its bytes. *)
Definition probeECH (query : string -> list (option (list (option bytes))) + string) (host : string) : outcome echPosture :=
  match query host with
  | inr _ => Ret noEch
  | inl rrs =>
      let params := flat_map (fun rr => default [] rr) rrs in
      match find (fun kv => match kv with Some raw => negb (blen raw =? 0) | None => false end) params with
      | Some (Some raw) =>
          parseECHConfigList raw {| Supported := true; ConfigCount := 0; Version := 0; CipherSuiteCount := 0; PublicKeyBits := 0; RawLength := blen raw |}
      | _ => Ret noEch
      end
  end.

Definition echHeadline (p : echPosture) : outcome string :=
  if negb (Supported p) then Ret ""%string else
  let parts := ["ECH"]%string in
  let parts := if Version p =? 0xfe0d then parts ++ ["draft-13"]%string else parts in
  if 0 <? ConfigCount p then
    n <~ itoa (ConfigCount p) ;;
    Ret (Join (parts ++ [("×" +:+ n)%string]) " ")
  else Ret (Join parts " ").

(** ** Configurations as they are written *)

Record echConfig := { eVersion : Z; eId : byte; eKem : Z; ePublic : bytes; eSuites : bytes; eRest : bytes }.
Definition contentsOf (c : echConfig) : bytes :=
  [eId c] ++ putBE16 (eKem c) ++ putBE16 (blen (ePublic c)) ++ ePublic c ++ putBE16 (blen (eSuites c)) ++ eSuites c ++ eRest c.
Definition encConfig (c : echConfig) : bytes := putBE16 (eVersion c) ++ putBE16 (blen (contentsOf c)) ++ contentsOf c.
Definition encConfigs (l : list echConfig) : bytes := flat_map encConfig l.
Definition configOk (c : echConfig) : Prop := 0 <= eVersion c < 65536 /\ blen (contentsOf c) < 65536.

Lemma blen_contents c : blen (contentsOf c) = 7 + blen (ePublic c) + blen (eSuites c) + blen (eRest c).
Proof. unfold contentsOf. autorewrite with blen. lia. Qed.

Lemma read_be16 b pre v rest i : b = pre ++ putBE16 v ++ rest -> i = blen pre -> 0 <= v < 65536 ->
  exists x y, index b i = Ret x /\ index b (i + 1) = Ret y /\ be16 x y = v.
Proof.
  intros -> -> Hv. exists (byteOf (Z.shiftr v 8)), (byteOf v). split_and!.
  - by eapply (read_index _ pre _ (byteOf v :: rest)).
  - apply (read_index _ (pre ++ [byteOf (Z.shiftr v 8)]) _ rest); [by rewrite <- app_assoc|autorewrite with blen; lia].
  - by rewrite be16_putBE16, u16_small.
Qed.

Lemma parseContents_enc c out : configOk c ->
  parseECHConfigContents (contentsOf c) out = Ret (setSuites (blen (eSuites c) / 4) (setBits (blen (ePublic c) * 8) out)).
Proof.
  intros [_ Hl]. pose proof (blen_contents c) as Hb. pose proof (blen_nonneg (ePublic c)). pose proof (blen_nonneg (eSuites c)).
  pose proof (blen_nonneg (eRest c)). unfold parseECHConfigContents. rewrite (proj2 (Z.ltb_ge _ 3)), (proj2 (Z.ltb_ge _ (3 + 2))) by lia.
  destruct (read_be16 (contentsOf c) ([eId c] ++ putBE16 (eKem c)) (blen (ePublic c)) (ePublic c ++ putBE16 (blen (eSuites c)) ++ eSuites c ++ eRest c) 3)
    as (x & y & -> & -> & Hxy); [by unfold contentsOf; rewrite <- !app_assoc|autorewrite with blen; lia|lia|].
  cbn [bind]. rewrite Hxy.
  rewrite (proj2 (Z.ltb_ge _ (3 + 2 + _))), (proj2 (Z.ltb_ge _ (_ + 2))) by lia.
  destruct (read_be16 (contentsOf c) ([eId c] ++ putBE16 (eKem c) ++ putBE16 (blen (ePublic c)) ++ ePublic c) (blen (eSuites c)) (eSuites c ++ eRest c)
    (3 + 2 + blen (ePublic c))) as (x' & y' & -> & -> & Hxy');
    [by unfold contentsOf; rewrite <- !app_assoc|autorewrite with blen; lia|lia|]. cbn [bind]. by rewrite Hxy'.
Qed.

Lemma configTurn_enc pre c rest count out : configOk c ->
  configTurn (pre ++ encConfig c ++ rest) (blen pre, count, out)
  = (out <~ (if count + 1 =? 1 then parseECHConfigContents (contentsOf c) (setVersion (eVersion c) out) else Ret out) ;;
     Ret (Next (blen (pre ++ encConfig c), count + 1, out))).
Proof.
  intros [Hv Hl]. pose proof (blen_nonneg pre). pose proof (blen_nonneg rest). pose proof (blen_nonneg (contentsOf c)).
  set (body := pre ++ encConfig c ++ rest).
  assert (Hb : blen body = blen pre + 4 + blen (contentsOf c) + blen rest) by (unfold body, encConfig; autorewrite with blen; lia).
  unfold configTurn. rewrite (proj2 (Z.leb_le _ _)) by lia.
  destruct (read_be16 body pre (eVersion c) (putBE16 (blen (contentsOf c)) ++ contentsOf c ++ rest) (blen pre)) as (x & y & -> & -> & Hxy);
    [by unfold body, encConfig; rewrite <- !app_assoc|done|lia|]. cbn [bind].
  destruct (read_be16 body (pre ++ putBE16 (eVersion c)) (blen (contentsOf c)) (contentsOf c ++ rest) (blen pre + 2)) as (x' & y' & -> & Hy' & Hl');
    [by unfold body, encConfig; rewrite <- !app_assoc|autorewrite with blen; lia|lia|].
  replace (blen pre + 2 + 1) with (blen pre + 3) in Hy' by lia. rewrite Hy'. cbn [bind]. rewrite Hxy, Hl'.
  rewrite (proj2 (Z.ltb_ge _ _)) by lia.
  rewrite (read_slice body (pre ++ putBE16 (eVersion c) ++ putBE16 (blen (contentsOf c))) (contentsOf c) rest).
  - cbn [bind]. replace (blen (pre ++ encConfig c)) with (blen pre + (4 + blen (contentsOf c))) by (unfold encConfig; autorewrite with blen; lia). done.
  - by unfold body, encConfig; rewrite <- !app_assoc.
  - autorewrite with blen. lia.
  - autorewrite with blen. lia.
Qed.

Lemma configTurn_end body count out : configTurn body (blen body, count, out) = Ret (Break (blen body, count, out)).
Proof. unfold configTurn. by rewrite (proj2 (Z.leb_gt _ _)) by lia. Qed.

Lemma configs_loop l : Forall configOk l -> forall pre fuel count out, 1 <= count -> (length l < fuel)%nat ->
  loop (configTurn (pre ++ encConfigs l)) fuel (blen pre, count, out) = Ret (inl (blen (pre ++ encConfigs l), count + blen l, out)).
Proof.
  induction 1 as [|c l Hc Hl IH]; intros pre fuel count out Hcount Hf; (destruct fuel as [|fuel]; [cbn in Hf; lia|]); cbn [loop].
  - cbn [encConfigs flat_map]. rewrite app_nil_r, configTurn_end, Z.add_0_r. done.
  - cbn [encConfigs flat_map]. rewrite configTurn_enc by done. rewrite (proj2 (Z.eqb_neq _ _)) by lia. cbn [bind].
    rewrite app_assoc. fold (encConfigs l). rewrite IH; [|lia|cbn in Hf; lia]. rewrite blen_cons. do 4 f_equal. lia.
Qed.

Lemma length_encConfigs l : (length l <= length (encConfigs l))%nat.
Proof. induction l as [|c l IH]; [done|]. cbn [encConfigs flat_map length]. rewrite length_app. unfold encConfig at 1, putBE16. cbn [app length]. fold (encConfigs l). lia. Qed.

Lemma first_config c l out fuel : configOk c -> Forall configOk l -> (length l < fuel)%nat ->
  loop (configTurn (encConfigs (c :: l))) (S fuel) (0, 0, out)
  = Ret (inl (blen (encConfigs (c :: l)), 1 + blen l, setSuites (blen (eSuites c) / 4) (setBits (blen (ePublic c) * 8) (setVersion (eVersion c) out)))).
Proof.
  intros Hc Hl Hf. pose proof (configTurn_enc [] c (encConfigs l) 0 out Hc) as Ht. cbn [app] in Ht. change (blen []) with 0 in Ht.
  change (0 + 1 =? 1) with true in Ht. cbn iota in Ht. rewrite parseContents_enc in Ht by done. cbn [bind] in Ht.
  pose proof (configs_loop l Hl (encConfig c) fuel 1 (setSuites (blen (eSuites c) / 4) (setBits (blen (ePublic c) * 8) (setVersion (eVersion c) out)))
    ltac:(lia) Hf) as Hloop.
  cbn [encConfigs flat_map]. fold (encConfigs l). cbn [loop]. rewrite Ht. exact Hloop.
Qed.

(** What is published is read back: the number of configurations, and of the first one
    its version, the size of its public key and the number of its suites. *)
Theorem parseECHConfigList_written c l out (Hc : configOk c) (Hl : Forall configOk l) (Hlen : blen (encConfigs (c :: l)) < 65536) :
  parseECHConfigList (putBE16 (blen (encConfigs (c :: l))) ++ encConfigs (c :: l)) out
  = Ret {| Supported := Supported out; ConfigCount := 1 + blen l; Version := eVersion c; CipherSuiteCount := blen (eSuites c) / 4;
           PublicKeyBits := blen (ePublic c) * 8; RawLength := RawLength out |}.
Proof.
  set (body := encConfigs (c :: l)) in *. pose proof (blen_nonneg body). unfold parseECHConfigList.
  rewrite (proj2 (Z.ltb_ge _ 2)) by (autorewrite with blen; lia).
  destruct (read_be16 (putBE16 (blen body) ++ body) [] (blen body) body 0) as (x & y & -> & Hy & Hxy); [done|done|lia|].
  change (0 + 1) with 1 in Hy. rewrite Hy. cbn [bind]. rewrite Hxy.
  rewrite (proj2 (Z.ltb_ge _ _)) by (autorewrite with blen; lia).
  rewrite (read_slice _ (putBE16 (blen body)) body []) by (rewrite ?app_nil_r; autorewrite with blen; (done || lia)). cbn [bind].
  subst body. rewrite first_config by (done || (pose proof (length_encConfigs (c :: l)); cbn [length] in *; lia)). done.
Qed.

(** Any bytes at all are read without going wrong. *)
Theorem parseECHConfigList_total raw out : safe (parseECHConfigList raw out).
Proof.
  assert (Hcontents : forall b o, wp (parseECHConfigContents b o) (fun _ => True) (fun _ => True)).
  { intros b o. unfold parseECHConfigContents. destruct (blen b <? 3) eqn:E1; [exact I|]. destruct (blen b <? 3 + 2) eqn:E2; [exact I|]. to_prop.
    apply wp_bind, wp_index; [lia|]. intros p1 _. apply wp_bind, wp_index; [lia|]. intros p0 _. pose proof (be16_range p1 p0).
    destruct (blen b <? 3 + 2 + be16 p1 p0) eqn:E3; [exact I|]. destruct (blen b <? 3 + 2 + be16 p1 p0 + 2) eqn:E4; [exact I|]. to_prop.
    apply wp_bind, wp_index; [lia|]. intros s1 _. apply wp_bind, wp_index; [lia|]. intros s0 _. exact I. }
  unfold safe, parseECHConfigList. destruct (blen raw <? 2) eqn:E1; [exact I|]. to_prop.
  apply wp_bind, wp_index; [lia|]. intros l1 _. apply wp_bind, wp_index; [lia|]. intros l0 _. pose proof (be16_range l1 l0).
  destruct (blen raw <? 2 + be16 l1 l0) eqn:E2; [exact I|]. to_prop. apply wp_bind, wp_slice; [lia..|].
  intros _. set (body := sub _ _ _). clearbody body.
  apply wp_bind. apply (wp_loop _ (fun '(i, _, _) => 0 <= i) (fun '(i, _, _) => Z.to_nat (blen body - i))); [|done|unfold blen; lia].
  intros [[i count] o] Hi. unfold configTurn. destruct (i + 4 <=? blen body) eqn:E3; [|exact I]. to_prop.
  do 4 (apply wp_bind, wp_index; [lia|]; intros ? _). match goal with |- context [be16 ?a ?b] => pose proof (be16_range a b) end.
  match goal with |- context [blen body <? ?x] => destruct (blen body <? x) eqn:E4 end; [exact I|]. to_prop.
  apply wp_bind. destruct (count + 1 =? 1).
  - apply wp_bind, wp_slice; [lia..|]. intros _. eapply wp_mono; [apply Hcontents|intros o' _|done]. cbn. lia.
  - cbn. lia.
Qed.

(** The count of suites is read off a length that nothing is checked against. *)
Example suites_unchecked : parseECHConfigContents [x00; x00; x20; x00; x00; xff; xfc] noEch = Ret (setSuites 16383 noEch).
Proof. reflexivity. Qed.
