(* ===== verification/Crl.v ===== *)
(** The certificate revocation list of the leaf: [tls_crl.go].  The HTTP client and the
    parser of [crypto/x509] are arguments. *)

From Stdlib Require Import ZArith List String Ascii Strings.Byte Lia Bool.
From stdpp Require Import base list strings numbers.
From S2P Require Import Prelude Bytes GoStrings Clock Result.
Open Scope Z_scope.

(** Of the leaf: the distribution points and the serial number, which may be nil *)
Record leafCert := { CRLDistributionPoints : list string; SerialNumber : option Z }.

(** A parsed list; of each entry the serial number. *)
Record revocationList := { ThisUpdate : goTime; NextUpdate : goTime; RevokedEntries : list (option Z) }.

Record crlResult := {
  Attempted : bool; DistributionURL : string; rThisUpdate : goTime; rNextUpdate : goTime; RevocationCount : Z;
  LeafRevoked : bool; Fresh : bool; Stale : bool; Note : string; Error : string
}.
Definition noCRL (attempted : bool) (url note err : string) : crlResult :=
  {| Attempted := attempted; DistributionURL := url; rThisUpdate := zeroTime; rNextUpdate := zeroTime; RevocationCount := 0;
     LeafRevoked := false; Fresh := false; Stale := false; Note := note; Error := err |}.

(** What becomes of one GET: no request, no response, or a response with its status and
    body, whose reading may fail. *)
Inductive httpGet := NoRequest (e : string) | NoResponse (e : string) | Response (status : Z) (body : bytes) (readErr : option string).

Definition isHTTP (url : string) : bool := HasPrefix (ToLower url) "http://" || HasPrefix (ToLower url) "https://".

(** The loop over the distribution points: where the list comes from and its bytes, or
    the last error. *)
Fixpoint fetchCRL (get : string -> httpGet) (urls : list string) (fetchErr : option string) : (string * bytes) + option string :=
  match urls with
  | [] => inr fetchErr
  | url :: urls =>
      if negb (isHTTP url) then fetchCRL get urls fetchErr
      else
        match get url with
        | NoRequest e | NoResponse e => fetchCRL get urls (Some e)
        | Response status body readErr =>
            match readErr with
            | Some e => fetchCRL get urls (Some e)
            | None => if negb (status =? 200) then fetchCRL get urls (Some ("HTTP " +:+ fmtD status)%string)
                      else inl (url, take (Z.to_nat (32 * 1024 * 1024)) body)
            end
        end
  end.

(** The quotients of durations are taken of integers. *)
Definition humanCRLNextUpdate (now next : goTime) : string :=
  let d := untilAt now next in
  let hour := 3600 * 1000000000 in
  if d <=? 0 then "expired"
  else if d <? hour then ("in " +:+ fmtD (d / (60 * 1000000000)) +:+ "m")%string
  else if d <? 24 * hour then ("in " +:+ fmtD (d / hour) +:+ "h")%string
  else ("in " +:+ fmtD (d / (24 * hour)) +:+ "d")%string.

Definition sameSerial (leaf entry : option Z) : bool :=
  match leaf, entry with Some a, Some b => a =? b | _, _ => false end.

(** [now] is the time of the comparison, [now2] that of the text. *)
Definition probeCRL (get : string -> httpGet) (parse : bytes -> revocationList + string) (now now2 : goTime) (leaf : option leafCert) : crlResult :=
  match leaf with
  | None => noCRL false "" "no CRLDistributionPoints extension" ""
  | Some leaf =>
      if blen (CRLDistributionPoints leaf) =? 0 then noCRL false "" "no CRLDistributionPoints extension" ""
      else
        match fetchCRL get (CRLDistributionPoints leaf) None with
        | inr (Some e) => noCRL true "" "" ("fetch failed: " +:+ tidyErr e)%string
        | inr None => noCRL true "" "" "no HTTP CRL distribution point reachable"
        | inl (url, crlBytes) =>
            match parse crlBytes with
            | inr e =>
                if Contains (toString crlBytes) "-----BEGIN X509 CRL-----" then noCRL true url "" "PEM-format CRL not supported in stdlib parser"
                else noCRL true url "" ("parse failed: " +:+ tidyErr e)%string
            | inl rl =>
                let fresh := since now (NextUpdate rl) <? 0 in
                let stale := 0 <? since now (NextUpdate rl) in
                let revoked := existsb (sameSerial (SerialNumber leaf)) (RevokedEntries rl) in
                {| Attempted := true; DistributionURL := url; rThisUpdate := ThisUpdate rl; rNextUpdate := NextUpdate rl;
                   RevocationCount := blen (RevokedEntries rl); LeafRevoked := revoked; Fresh := fresh; Stale := stale;
                   Note := if revoked then "leaf is REVOKED according to CRL"
                           else if stale then ("CRL is stale — next_update was " +:+ formatRFC3339 (NextUpdate rl))%string
                           else if fresh then ("CRL fresh — next_update " +:+ humanCRLNextUpdate now2 (NextUpdate rl) +:+ " · "
                                               +:+ fmtD (blen (RevokedEntries rl)) +:+ " revoked")%string
                           else "";
                   Error := "" |}
            end
        end
  end.

(** ** Which list is taken *)

(** The URL is served: it is an HTTP one and the answer is a whole one with status 200. *)
Definition served (get : string -> httpGet) (url : string) (body : bytes) : Prop :=
  isHTTP url = true /\ get url = Response 200 body None.

Lemma fetchCRL_spec get urls e :
  match fetchCRL get urls e with
  | inl (url, b) => exists before after body, urls = before ++ url :: after /\ served get url body
      /\ b = take (Z.to_nat (32 * 1024 * 1024)) body /\ forall u x, In u before -> ~ served get u x
  | inr _ => forall u x, In u urls -> ~ served get u x
  end.
Proof.
  revert e. induction urls as [|url urls IH]; intros e; [by intros u x []|]. cbn [fetchCRL].
  assert (Hskip : forall e', (forall x, ~ served get url x) ->
    match fetchCRL get urls e' with
    | inl (u, b) => exists before after body, url :: urls = before ++ u :: after /\ served get u body
        /\ b = take (Z.to_nat (32 * 1024 * 1024)) body /\ forall v x, In v before -> ~ served get v x
    | inr _ => forall u x, In u (url :: urls) -> ~ served get u x
    end).
  { intros e' Hns. specialize (IH e'). destruct (fetchCRL get urls e') as [[u b]|].
    - destruct IH as (before & after & body & -> & Hs & Hb & Hn). exists (url :: before), after, body. split_and!; try done.
      intros v x [<-|Hv]; [apply Hns|by apply Hn].
    - intros u x [<-|Hu]; [apply Hns|by apply IH]. }
  destruct (isHTTP url) eqn:Eh; cbn [negb]; [|apply Hskip; intros x [Hx _]; congruence].
  destruct (get url) as [e1|e1|status body [e1|]] eqn:Eg; [apply Hskip; intros x [_ Hx]; congruence..|].
  destruct (Z.eqb_spec status 200) as [->|Hne]; cbn [negb]; [|apply Hskip; intros x [_ Hx]; congruence].
  exists [], urls, body. split_and!; try done.
Qed.

(** The verdict rests on the first distribution point that is served over HTTP with status
    200, and on that one alone: if it parses, the leaf is revoked exactly if its serial
    number is listed, and the list is stale, fresh or neither as its next update is
    before, after or at the present. *)
Theorem probeCRL_verdict get parse now now2 leaf before url after body rl
  (Hpoints : CRLDistributionPoints leaf = before ++ url :: after) (Hserved : served get url body)
  (Hbefore : forall u x, In u before -> ~ served get u x) (Hsize : blen body <= 32 * 1024 * 1024) (Hparse : parse body = inl rl) :
  let r := probeCRL get parse now now2 (Some leaf) in
  DistributionURL r = url /\ Error r = ""%string /\ RevocationCount r = blen (RevokedEntries rl) /\
  (LeafRevoked r = true <-> exists s, SerialNumber leaf = Some s /\ In (Some s) (RevokedEntries rl)) /\
  (Fresh r = true <-> 0 < - since now (NextUpdate rl)) /\ (Stale r = true <-> - since now (NextUpdate rl) < 0) /\
  (Note r = "leaf is REVOKED according to CRL"%string <-> LeafRevoked r = true).
Proof.
  assert (Hfetch : fetchCRL get (CRLDistributionPoints leaf) None = inl (url, body)).
  { rewrite Hpoints. pose proof (fetchCRL_spec get (before ++ url :: after) None) as Hs.
    destruct (fetchCRL get (before ++ url :: after) None) as [[u b]|].
    - destruct Hs as (b2 & a2 & body2 & Hsplit & Hs2 & -> & Hn2).
      assert (Hb : b2 = before).
      { clear -Hsplit Hserved Hbefore Hs2 Hn2. revert b2 Hsplit Hn2. induction before as [|v before IH]; intros [|w b2] Hsplit Hn2.
        - done.
        - injection Hsplit as <- _. by destruct (Hn2 url body (or_introl eq_refl)).
        - injection Hsplit as -> _. by destruct (Hbefore u body2 (or_introl eq_refl)).
        - injection Hsplit as -> Hsplit. f_equal. apply IH; [intros x y Hx; apply Hbefore; by right|done|intros x y Hx; apply Hn2; by right]. }
      subst b2. apply app_inv_head in Hsplit. injection Hsplit as -> _. destruct Hs2 as [_ Hg]. destruct Hserved as [_ Hg2]. rewrite Hg2 in Hg.
      injection Hg as ->. rewrite take_ge; [done|]. unfold blen in Hsize. lia.
    - destruct (Hs url body); [apply in_or_app; right; by left|done]. }
  assert (Hne : (blen (CRLDistributionPoints leaf) =? 0) = false).
  { apply Z.eqb_neq. rewrite Hpoints, blen_app, blen_cons. pose proof (blen_nonneg before). pose proof (blen_nonneg after). lia. }
  unfold probeCRL. rewrite Hne, Hfetch, Hparse. cbn [DistributionURL Error RevocationCount LeafRevoked Fresh Stale Note]. cbv zeta.
  split_and!; try done.
  - rewrite existsb_exists. split.
    + intros ([b|] & Hin & Hb); unfold sameSerial in Hb; destruct (SerialNumber leaf) as [a|]; try done. apply Z.eqb_eq in Hb as ->. by exists b.
    + intros (s & -> & Hin). exists (Some s). split; [done|]. apply Z.eqb_refl.
  - rewrite Z.ltb_lt. lia.
  - rewrite Z.ltb_lt. lia.
  - destruct (existsb _ _); [done|]. split; [|done]. destruct (0 <? _); [by intros Hx|]. destruct (_ <? 0); by intros Hx.
Qed.

(** A list without a next update has the zero time there, and is stale. *)
Lemma crl_without_next_update get parse now now2 leaf url body rl : CRLDistributionPoints leaf = [url] -> served get url body ->
  blen body <= 32 * 1024 * 1024 -> parse body = inl rl -> NextUpdate rl = zeroTime -> 0 <= tSec now -> 0 <= tNsec now ->
  Stale (probeCRL get parse now now2 (Some leaf)) = true.
Proof.
  intros Hp Hs Hl Hparse Hz Hsec Hnsec.
  destruct (probeCRL_verdict get parse now now2 leaf [] url [] body rl Hp Hs ltac:(by intros u x []) Hl Hparse) as (_ & _ & _ & _ & _ & [_ Hst] & _).
  apply Hst. rewrite Hz. unfold since, zeroTime. cbn [tSec tNsec]. lia.
Qed.

Module CrlWitnesses.
Definition url : string := "http://crl.example/1.crl".
Definition leaf : leafCert := {| CRLDistributionPoints := ["ldap://crl.example/1"; url]%string; SerialNumber := Some 7 |}.
Definition list7 : revocationList := {| ThisUpdate := {| tSec := 100; tNsec := 0 |}; NextUpdate := {| tSec := 100000; tNsec := 0 |}; RevokedEntries := [Some 3; None; Some 7] |}.
Definition get (u : string) : httpGet := if String.eqb u url then Response 200 [x30] None else NoResponse "refused".

Lemma probeCRL_verdict_witness : LeafRevoked (probeCRL get (fun _ => inl list7) {| tSec := 200; tNsec := 0 |} {| tSec := 200; tNsec := 0 |} (Some leaf)) = true.
Proof.
  assert (Hb : forall u x, In u ["ldap://crl.example/1"]%string -> ~ served get u x) by (intros u x [<-|[]] [Hh _]; discriminate Hh).
  destruct (probeCRL_verdict get (fun _ => inl list7) {| tSec := 200; tNsec := 0 |} {| tSec := 200; tNsec := 0 |} leaf
    ["ldap://crl.example/1"]%string url [] [x30] list7 eq_refl (conj eq_refl eq_refl) Hb ltac:(by vm_compute) eq_refl) as (_ & _ & _ & [_ Hr] & _).
  apply Hr. exists 7. split; [reflexivity|]. cbn. right. right. by left.
Defined.

Example hours : humanCRLNextUpdate {| tSec := 0; tNsec := 1 |} {| tSec := 86400; tNsec := 0 |} = "in 23h"%string.
Proof. reflexivity. Qed.
End CrlWitnesses.
