(* ===== verification/Extensions.v ===== *)
(** TLS extension blocks.  Every ServerHello and ClientHello reader of netdoc
    walks the block with the same loop,

<<
    for i := 0; i+4 <= len(ext); {
        extType := uint16(ext[i])<<8 | uint16(ext[i+1])
        extDataLen := int(ext[i+2])<<8 | int(ext[i+3])
        end := i + 4 + extDataLen
        if end > len(ext) { break or return }
        ...
        i = end
    }
>>
    [walkExts] is that loop with its two variable parts as arguments, and
    [extList] is the specification it is checked against: the extensions of
    the block as a list, with the way the block ends.  The readers themselves
    ([tls_alpn.go], [tls_extensions.go], [tls_jarm.go]) follow. *)

From Stdlib Require Import ZArith List String Ascii Strings.Byte Lia Bool.
From stdpp Require Import base list strings numbers.
From S2P Require Import Prelude Bytes GoStrings.
Open Scope Z_scope.

(** ** The loop *)

Section Walk.
Context {A R : Type}.
(** What the loop does when an extension runs past the block: leave the loop
    ([inl]) or return ([inr]). *)
Variable onOverflow : A -> outcome (A + R).
(** The loop's body for one extension. *)
Variable onExt : A -> Z -> bytes -> outcome (step A R).

Definition atOffset (i : Z) (r : step A R) : step (Z * A) R :=
  match r with
  | Next a => Next (i, a)
  | Break a => Break (i, a)
  | Return r => Return r
  end.

Definition walkBody (ext : bytes) (st : Z * A) : outcome (step (Z * A) R) :=
  let '(i, a) := st in
  if i + 4 <=? blen ext then
    b0 <~ index ext i ;;
    b1 <~ index ext (i + 1) ;;
    b2 <~ index ext (i + 2) ;;
    b3 <~ index ext (i + 3) ;;
    let end_ := i + 4 + be16 b2 b3 in
    if blen ext <? end_ then
      r <~ onOverflow a ;;
      Ret (match r with inl a' => Break (i, a') | inr r => Return r end)
    else
      edata <~ slice ext (i + 4) end_ ;;
      r <~ onExt a (be16 b0 b1) edata ;;
      Ret (atOffset end_ r)
  else Ret (Break (i, a)).

Definition walkExts (ext : bytes) (a : A) : outcome (A + R) :=
  r <~ loop (walkBody ext) (S (length ext)) (0, a) ;;
  Ret (match r with inl (_, a') => inl a' | inr r => inr r end).
End Walk.

(** ** The specification *)

(** How a block ends: fewer than four bytes left over, or an extension whose
    length runs past the block. *)
Inductive extTail := Clean | Overflow.

Fixpoint splitExts (fuel : nat) (b : bytes) : list (Z * bytes) * extTail :=
  match fuel, b with
  | S f, t1 :: t0 :: l1 :: l0 :: rest =>
      if blen rest <? be16 l1 l0 then ([], Overflow)
      else let n := Z.to_nat (be16 l1 l0) in
           let '(l, t) := splitExts f (drop n rest) in
           ((be16 t1 t0, take n rest) :: l, t)
  | _, _ => ([], Clean)
  end.

(** The extensions of a block and how it ends. *)
Definition extList (b : bytes) : list (Z * bytes) * extTail := splitExts (S (length b)) b.

(** The encoding of one extension and of a block. *)
Definition encExt (e : Z * bytes) : bytes :=
  putBE16 (u16 (fst e)) ++ putBE16 (u16 (blen (snd e))) ++ snd e.
Definition encExts (l : list (Z * bytes)) : bytes := flat_map encExt l.

Lemma blen_encExt ty d : blen (encExt (ty, d)) = 4 + blen d.
Proof. unfold encExt. rewrite !blen_app, !blen_putBE16. cbn [snd]. lia. Qed.

Lemma blen_encExts l : blen (encExts l) = foldr (fun e n => 4 + blen (snd e) + n) 0 l.
Proof.
  induction l as [|[ty d] l IH]; [done|]. unfold encExts in *. cbn [flat_map foldr snd].
  by rewrite blen_app, blen_encExt, IH.
Qed.

(** Extensions that fit the wire format. *)
Definition extOk (e : Z * bytes) : Prop := 0 <= fst e < 65536 /\ blen (snd e) < 65536.

Section Fold.
Context {A R : Type}.
Variable onOverflow : A -> outcome (A + R).
Variable onExt : A -> Z -> bytes -> outcome (step A R).

Fixpoint foldExts (l : list (Z * bytes)) (t : extTail) (a : A) : outcome (A + R) :=
  match l with
  | [] => match t with Clean => Ret (inl a) | Overflow => onOverflow a end
  | (ty, d) :: l' =>
      match onExt a ty d with
      | Ret (Next a') => foldExts l' t a'
      | Ret (Break a') => Ret (inl a')
      | Ret (Return r) => Ret (inr r)
      | Err e => Err e
      | Panic => Panic
      | NoFuel => NoFuel
      end
  end.

#[local] Abbreviation Body := (walkBody onOverflow onExt).

Lemma walkBody_short pre b a :
  blen b < 4 -> Body (pre ++ b) (blen pre, a) = Ret (Break (blen pre, a)).
Proof.
  intros H. cbn. rewrite blen_app.
  rewrite (proj2 (Z.leb_gt _ _)) by lia. done.
Qed.

Lemma index_pre pre (b : bytes) k i x :
  i = blen pre + k -> 0 <= k -> b !! Z.to_nat k = Some x -> index (pre ++ b) i = Ret x.
Proof.
  intros -> Hk Hx. rewrite index_app_r by lia.
  apply index_ret. replace (blen pre + k - blen pre) with k by lia. done.
Qed.

Lemma walkBody_ext pre t1 t0 l1 l0 rest a :
  let b := t1 :: t0 :: l1 :: l0 :: rest in
  Body (pre ++ b) (blen pre, a) =
  if blen rest <? be16 l1 l0 then
    r <~ onOverflow a ;;
    Ret (match r with inl a' => Break (blen pre, a') | inr r => Return r end)
  else
    r <~ onExt a (be16 t1 t0) (take (Z.to_nat (be16 l1 l0)) rest) ;;
    Ret (atOffset (blen pre + 4 + be16 l1 l0) r).
Proof.
  intros b. pose proof (blen_nonneg rest). pose proof (be16_range l1 l0).
  unfold walkBody.
  assert (Hb : blen b = 4 + blen rest) by (unfold b; rewrite !blen_cons; lia).
  rewrite blen_app, Hb, (proj2 (Z.leb_le _ _)) by lia.
  rewrite (index_pre pre b 0 (blen pre) t1), (index_pre pre b 1 (blen pre + 1) t0),
    (index_pre pre b 2 (blen pre + 2) l1), (index_pre pre b 3 (blen pre + 3) l0) by done || lia.
  cbn [bind].
  destruct (blen rest <? be16 l1 l0) eqn:E; to_prop.
  - rewrite (proj2 (Z.ltb_lt _ _)) by lia. done.
  - rewrite (proj2 (Z.ltb_ge _ _)) by lia.
    change (pre ++ b) with (pre ++ [t1; t0; l1; l0] ++ rest).
    rewrite app_assoc, <- (take_drop (Z.to_nat (be16 l1 l0)) rest) at 1.
    rewrite slice_mid; [done| |].
    + rewrite blen_app. done.
    + rewrite blen_app, blen_take by lia. rewrite !blen_cons, blen_nil. lia.
Qed.

Lemma loop_walk pre fuel fuel' b a :
  (length b < fuel)%nat -> (length b < fuel')%nat ->
  (r <~ loop (Body (pre ++ b)) fuel (blen pre, a) ;;
   Ret (match r with inl (_, a') => inl a' | inr r => inr r end))
  = let '(l, t) := splitExts fuel' b in foldExts l t a.
Proof.
  revert pre fuel' b a. induction fuel as [|fuel IH]; intros pre fuel' b a Hf Hf'; [lia|].
  destruct fuel' as [|fuel']; [lia|].
  destruct b as [|t1 [|t0 [|l1 [|l0 rest]]]];
    try (cbn [loop]; rewrite walkBody_short by (rewrite ?blen_cons, ?blen_nil; lia); done).
  cbn [loop splitExts]. rewrite walkBody_ext.
  destruct (blen rest <? be16 l1 l0) eqn:E; to_prop.
  - cbn. by destruct (onOverflow a) as [[a'|r]|e| |].
  - set (n := Z.to_nat (be16 l1 l0)).
    specialize (IH (pre ++ [t1; t0; l1; l0] ++ take n rest) fuel' (drop n rest)).
    destruct (splitExts fuel' (drop n rest)) as [l t] eqn:El. cbn [foldExts].
    destruct (onExt a (be16 t1 t0) (take n rest)) as [[a'|a'|r]|e| |]; cbn; try done.
    rewrite <- IH by (rewrite length_drop; cbn in *; lia).
    rewrite <- !app_assoc, take_drop. cbn [app].
    replace (blen pre + 4 + be16 l1 l0)
      with (blen (pre ++ t1 :: t0 :: l1 :: l0 :: take n rest)); [done|].
    pose proof (be16_range l1 l0).
    unfold n. rewrite blen_app, !blen_cons, blen_take by lia. lia.
Qed.

(** The loop computes the fold over the specification's list, on every block:
    it never indexes out of range and always ends. *)
Lemma walkExts_spec ext a :
  walkExts onOverflow onExt ext a = let '(l, t) := extList ext in foldExts l t a.
Proof. apply (loop_walk [] (S (length ext)) (S (length ext)) ext a); lia. Qed.
End Fold.

(** Proof rule for a reader built on the walk. *)
Lemma wp_walkExts {A R} onOverflow (onExt : A -> Z -> bytes -> outcome (step A R))
    (I : A -> Prop) (Q : A + R -> Prop) E ext a :
  (forall a, I a -> wp (onOverflow a) Q E) ->
  (forall a ty d, I a -> wp (onExt a ty d)
     (fun r => match r with
               | Next a' => I a'
               | Break a' => Q (inl a')
               | Return r => Q (inr r)
               end) E) ->
  (forall a, I a -> Q (inl a)) -> I a -> wp (walkExts onOverflow onExt ext a) Q E.
Proof.
  intros Ho He Hq Ha. rewrite walkExts_spec. destruct (extList ext) as [l t].
  revert a Ha. induction l as [|[ty d] l IH]; intros a Ha; cbn.
  - destruct t; cbn; auto.
  - specialize (He a ty d Ha).
    destruct (onExt a ty d) as [[a'|a'|r]|e| |]; cbn in *; auto.
Qed.

Lemma splitExts_fuel f f' b :
  (length b < f)%nat -> (length b < f')%nat -> splitExts f b = splitExts f' b.
Proof.
  revert f' b. induction f as [|f IH]; intros f' b Hf Hf'; [lia|].
  destruct f' as [|f']; [lia|].
  destruct b as [|t1 [|t0 [|l1 [|l0 rest]]]]; try done. cbn [splitExts].
  destruct (blen rest <? be16 l1 l0); [done|].
  rewrite (IH f'); [done| |]; rewrite length_drop; cbn in *; lia.
Qed.

Lemma extList_short b : blen b < 4 -> extList b = ([], Clean).
Proof.
  intros H. destruct b as [|? [|? [|? [|? b]]]]; try done.
  rewrite !blen_cons in H. pose proof (blen_nonneg b). lia.
Qed.

Lemma extList_step t1 t0 l1 l0 rest :
  extList (t1 :: t0 :: l1 :: l0 :: rest) =
  if blen rest <? be16 l1 l0 then ([], Overflow)
  else let n := Z.to_nat (be16 l1 l0) in
       ((be16 t1 t0, take n rest) :: fst (extList (drop n rest)), snd (extList (drop n rest))).
Proof.
  assert (H : forall f, (length rest < f)%nat ->
    splitExts (S f) (t1 :: t0 :: l1 :: l0 :: rest) =
    if blen rest <? be16 l1 l0 then ([], Overflow)
    else let n := Z.to_nat (be16 l1 l0) in
       ((be16 t1 t0, take n rest) :: fst (extList (drop n rest)), snd (extList (drop n rest)))).
  { intros f Hf. cbn [splitExts]. destruct (blen rest <? be16 l1 l0); [done|].
    rewrite (splitExts_fuel f (S (length (drop (Z.to_nat (be16 l1 l0)) rest))))
      by (rewrite length_drop; lia).
    cbv zeta. unfold extList. by destruct (splitExts _ _). }
  apply H. cbn. lia.
Qed.

Lemma extList_cons ty d rest :
  extOk (ty, d) ->
  extList (encExt (ty, d) ++ rest) = ((ty, d) :: fst (extList rest), snd (extList rest)).
Proof.
  intros [Ht Hd]; cbn [fst snd] in *. pose proof (blen_nonneg d). pose proof (blen_nonneg rest).
  unfold encExt. cbn [fst snd]. rewrite (u16_small ty), (u16_small (blen d)) by lia.
  rewrite <- !app_assoc. cbn [putBE16 app]. rewrite extList_step, !be16_putBE16, !u16_small by lia.
  rewrite blen_app, (proj2 (Z.ltb_ge _ _)) by lia. cbv zeta.
  unfold blen. by rewrite Nat2Z.id, take_app_length, drop_app_length.
Qed.

(** Decoding an encoded block gives the extensions back. *)
Lemma extList_encExts l : Forall extOk l -> extList (encExts l) = (l, Clean).
Proof.
  induction 1 as [|[ty d] l Hok _ IH]; [done|].
  cbn [encExts flat_map]. rewrite extList_cons by done. unfold encExts in IH. by rewrite IH.
Qed.

(** Every length of a decoded extension is a 16-bit number, every type too. *)
Lemma splitExts_ok f b l t : splitExts f b = (l, t) -> Forall extOk l.
Proof.
  revert b l t. induction f as [|f IH]; intros b l t; [by intros [= <- <-]|].
  destruct b as [|t1 [|t0 [|l1 [|l0 rest]]]]; try by intros [= <- <-].
  cbn [splitExts]. destruct (blen rest <? be16 l1 l0) eqn:E; [by intros [= <- <-]|].
  destruct (splitExts f _) as [l' t'] eqn:El. intros [= <- <-].
  constructor; [|by eapply IH]. split; cbn; [apply be16_range|].
  pose proof (be16_range l1 l0). to_prop. rewrite blen_take by lia. lia.
Qed.
