(* ===== verification/Flight.v ===== *)
(** Reading a server's first flight.  [tls_alpn.go], [tls_dh.go] and
    [tls_preference.go] each contain the same two nested loops: over the TLS
    records of the connection, and over the handshake messages of a record.  The
    loops are modelled here once, over what each of them does with a message
    ([onMsg]) and what it returns when it gives up ([abort]). *)

From Stdlib Require Import ZArith List String Ascii Strings.Byte Lia Bool.
From stdpp Require Import base list strings numbers.
From S2P Require Import Prelude Bytes GoStrings Stream Extensions.
Open Scope Z_scope.

(** The result of a function whose loop is its last statement but for a final
    [return dflt]. *)
Definition orElse {A R} (dflt : R) (c : outcome (A + R)) : outcome R :=
  r <~ c ;; Ret (match r with inl _ => dflt | inr r => r end).

Section Loops.
Context {R : Type} (abort : R) (onMsg : bytes -> byte -> Z -> Z -> outcome (option R)).

(** One turn of the walk over the handshake messages of a record:
    [onMsg recBody hsType (i+4) end] says whether the message ends the search. *)
Definition hsTurn (recBody : bytes) (i : Z) : outcome (step Z R) :=
  if i + 4 <=? blen recBody then
    hsType <~ index recBody i ;;
    l2 <~ index recBody (i + 1) ;;
    l1 <~ index recBody (i + 2) ;;
    l0 <~ index recBody (i + 3) ;;
    let end_ := i + 4 + be24 l2 l1 l0 in
    if blen recBody <? end_ then Ret (Return abort) else
    r <~ onMsg recBody hsType (i + 4) end_ ;;
    Ret (match r with Some r => Return r | None => Next end_ end)
  else Ret (Break i).

Definition hsLoop (recBody : bytes) : outcome (Z + R) :=
  loop (hsTurn recBody) (S (length recBody)) 0.

Context {C : Type} `{Reader C}.

(** One turn of the loop over records. *)
Definition recordTurn (c : C) : outcome (step C R) :=
  unpack (hdr, c) <~ readFull 5 c ;;
  match hdr with
  | None => Ret (Return abort)
  | Some hdr =>
      recType <~ index hdr 0 ;;
      h3 <~ index hdr 3 ;;
      h4 <~ index hdr 4 ;;
      let recLen := be16 h3 h4 in
      if (recLen <=? 0) || (Z.shiftl 1 14 + 2048 <? recLen) then Ret (Return abort) else
      unpack (recBody, c) <~ readFull recLen c ;;
      match recBody with
      | None => Ret (Return abort)
      | Some recBody =>
          if beq recType x15 then Ret (Return abort)
          else if negb (beq recType x16) then Ret (Next c)
          else
            r <~ hsLoop recBody ;;
            Ret (match r with inl _ => Next c | inr r => Return r end)
      end
  end.

(** A turn reads at least the record header, so the bytes to come bound the
    number of turns. *)
Definition readFlight (c : C) : outcome R := orElse abort (loop recordTurn (S (length (pending c))) c).
End Loops.

(** What a client of the loops promises: on a message inside the record, [onMsg]
    returns what [pick] says of its type and body. *)
Class Handler {R} (onMsg : bytes -> byte -> Z -> Z -> outcome (option R)) (pick : byte -> bytes -> option R) : Prop :=
  onMsg_pick : forall recBody ty lo hi, 0 <= lo <= hi -> hi <= blen recBody ->
    onMsg recBody ty lo hi = Ret (pick ty (sub recBody lo (hi - lo))).

(** ** Messages and records on the wire *)

Definition encMsg (ty : byte) (body : bytes) : bytes := ty :: putBE24 (blen body) ++ body.
Definition encMsgs (msgs : list (byte * bytes)) : bytes := flat_map (fun m => encMsg (fst m) (snd m)) msgs.
Definition encRecord (ty : byte) (ver payload : bytes) : bytes :=
  ty :: ver ++ putBE16 (blen payload) ++ payload.

Lemma encMsg_length ty body : blen (encMsg ty body) = 4 + blen body.
Proof. unfold encMsg. rewrite blen_cons, blen_app. change (blen (putBE24 (blen body))) with 3. lia. Qed.

Lemma length_encMsgs (msgs : list (byte * bytes)) : (length msgs <= length (encMsgs msgs))%nat.
Proof.
  unfold encMsgs. induction msgs as [|m msgs IH]; cbn [flat_map length]; [lia|].
  rewrite length_app. cbn [encMsg length]. lia.
Qed.

(** A ServerHelloDone is among the messages. *)
Definition hasDone (msgs : list (byte * bytes)) : bool := existsb (fun m => beq (fst m) x0e) msgs.

(** [sub] occurs in [b]. *)
Definition occurs (s b : bytes) : Prop := exists pre post, b = pre ++ s ++ post.

Lemma occurs_app_r s a b : occurs s b -> occurs s (a ++ b).
Proof. intros (p & q & ->). exists (a ++ p), q. by rewrite app_assoc. Qed.

Lemma occurs_app_l s a b : occurs s a -> occurs s (a ++ b).
Proof. intros (p & q & ->). exists p, (q ++ b). by rewrite <- !app_assoc. Qed.

Lemma occurs_sub (b : bytes) i n : occurs (sub b i n) b.
Proof.
  exists (take (Z.to_nat i) b), (drop (Z.to_nat n) (drop (Z.to_nat i) b)).
  unfold sub. by rewrite take_drop, take_drop.
Qed.

Lemma putBE24_be24 a b c : putBE24 (be24 a b c) = [a; b; c].
Proof.
  unfold putBE24. rewrite be24_eq.
  pose proof (bval_range a). pose proof (bval_range b). pose proof (bval_range c).
  rewrite !Z.shiftr_div_pow2 by lia. change (2 ^ 16) with 65536. change (2 ^ 8) with 256.
  assert (E1 : (bval a * 65536 + bval b * 256 + bval c) / 65536 = bval a)
    by (symmetry; apply (Z.div_unique _ _ _ (bval b * 256 + bval c)); lia).
  assert (E2 : (bval a * 65536 + bval b * 256 + bval c) / 256 = bval a * 256 + bval b)
    by (symmetry; apply (Z.div_unique _ _ _ (bval c)); lia).
  rewrite E1, E2, byteOf_bval. f_equal. f_equal; [|f_equal].
  - rewrite <- byteOf_mod, Z.add_comm, Z_mod_plus_full, byteOf_mod. apply byteOf_bval.
  - rewrite <- byteOf_mod.
    replace (bval a * 65536 + bval b * 256 + bval c)
      with (bval c + (bval a * 256 + bval b) * 256) by lia.
    rewrite Z_mod_plus_full, byteOf_mod. apply byteOf_bval.
Qed.

(** A range of a byte string that starts with a known header. *)
Lemma sub_cons_lookup (b : bytes) i x n :
  0 <= i -> 0 <= n -> b !! Z.to_nat i = Some x -> sub b i (1 + n) = x :: sub b (i + 1) n.
Proof.
  intros Hi Hn Hx. unfold sub.
  replace (Z.to_nat (1 + n)) with (S (Z.to_nat n)) by lia.
  replace (Z.to_nat (i + 1)) with (S (Z.to_nat i)) by lia.
  rewrite (drop_S _ x) by done. done.
Qed.

(** The bytes of a message whose header was read at [i]. *)
Lemma sub_encMsg (b : bytes) i ty l2 l1 l0 :
  0 <= i -> i + 4 + be24 l2 l1 l0 <= blen b ->
  b !! Z.to_nat i = Some ty -> b !! Z.to_nat (i + 1) = Some l2 ->
  b !! Z.to_nat (i + 2) = Some l1 -> b !! Z.to_nat (i + 3) = Some l0 ->
  sub b i (4 + be24 l2 l1 l0) = encMsg ty (sub b (i + 4) (be24 l2 l1 l0)).
Proof.
  intros Hi Hl Hty H2 H1 H0. pose proof (be24_range l2 l1 l0).
  unfold encMsg. rewrite blen_sub, putBE24_be24 by lia.
  replace (4 + be24 l2 l1 l0) with (1 + (1 + (1 + (1 + be24 l2 l1 l0)))) by lia.
  rewrite (sub_cons_lookup _ _ ty), (sub_cons_lookup _ _ l2), (sub_cons_lookup _ _ l1),
    (sub_cons_lookup _ _ l0) by (done || lia || (rewrite <- ?Z.add_assoc; done)).
  rewrite <- !Z.add_assoc. done.
Qed.

(** The two reads every probe makes for a record. *)
Lemma record_reads {C} `{Reader C} (c : C) ty v1 v0 payload rest :
  pending c = encRecord ty [v1; v0] payload ++ rest -> blen payload < 65536 ->
  exists hdr c1 c2 h3 h4,
    readFull 5 c = Ret (Some hdr, c1) /\ index hdr 0 = Ret ty /\ index hdr 3 = Ret h3 /\ index hdr 4 = Ret h4
    /\ be16 h3 h4 = blen payload /\ readFull (blen payload) c1 = Ret (Some payload, c2) /\ pending c2 = rest.
Proof.
  intros Hp Hl. unfold encRecord in Hp. rewrite <- app_comm_cons in Hp.
  change (ty :: ([v1; v0] ++ putBE16 (blen payload) ++ payload) ++ rest)
    with ([ty; v1; v0; byteOf (Z.shiftr (blen payload) 8); byteOf (blen payload)]
          ++ payload ++ rest) in Hp.
  destruct (readFull_ok 5 c _ _ Hp) as (c1 & Hr1 & Hp1); [done|].
  destruct (readFull_ok (blen payload) c1 _ _ Hp1) as (c2 & Hr2 & Hp2); [done|].
  eexists _, c1, c2, _, _. split_and!; [exact Hr1|reflexivity..| |exact Hr2|exact Hp2].
  rewrite be16_putBE16, u16_small; [done|]. pose proof (blen_nonneg payload). lia.
Qed.

(** The reads a walk makes at the start of a message. *)
Record headerAt (b : bytes) (i : Z) (ty : byte) (body : bytes) : Prop := {
  ha_type : index b i = Ret ty;
  ha_len : exists l2 l1 l0, index b (i + 1) = Ret l2 /\ index b (i + 2) = Ret l1 /\ index b (i + 3) = Ret l0
             /\ be24 l2 l1 l0 = blen body;
  ha_fits : 0 <= i /\ i + 4 + blen body <= blen b;
  ha_body : slice b (i + 4) (i + 4 + blen body) = Ret body
}.

Lemma msg_header pre ty body rest :
  blen body < 16777216 -> headerAt (pre ++ encMsg ty body ++ rest) (blen pre) ty body.
Proof.
  intros Hl. pose proof (blen_nonneg body). pose proof (blen_nonneg rest). pose proof (blen_nonneg pre).
  split.
  - by rewrite (index_pre pre _ 0 (blen pre) ty) by done || lia.
  - exists (byteOf (Z.shiftr (blen body) 16)), (byteOf (Z.shiftr (blen body) 8)), (byteOf (blen body)).
    rewrite (index_pre pre _ 1 _ (byteOf (Z.shiftr (blen body) 16))), (index_pre pre _ 2 _ (byteOf (Z.shiftr (blen body) 8))),
      (index_pre pre _ 3 _ (byteOf (blen body))) by done || lia.
    rewrite be24_putBE24, Z.mod_small by lia. done.
  - rewrite !blen_app, encMsg_length. lia.
  - apply (read_slice _ (pre ++ ty :: putBE24 (blen body)) body rest).
    + unfold encMsg. rewrite <- !app_assoc. done.
    + rewrite blen_app, blen_cons. change (blen (putBE24 _)) with 3. lia.
    + rewrite blen_app, blen_cons. change (blen (putBE24 _)) with 3. lia.
Qed.

(** ** Soundness: what a search returns comes from a message of the stream *)

Section Spec.
Context {R : Type} (abort : R) (onMsg : bytes -> byte -> Z -> Z -> outcome (option R)).
Context (pick : byte -> bytes -> option R) `{Hh : !Handler onMsg pick}.

(** [r] is what [pick] says of a message in [b]. *)
Definition picked (b : bytes) (r : R) : Prop := exists ty body, pick ty body = Some r /\ occurs (encMsg ty body) b.

Definition hsFound (recBody : bytes) (r : Z + R) : Prop :=
  match r with inr r => r = abort \/ picked recBody r | inl _ => True end.

Lemma wp_hsLoop recBody E : wp (hsLoop abort onMsg recBody) (hsFound recBody) E.
Proof using Hh.
  apply (wp_loop _ (fun i => 0 <= i) (fun i => Z.to_nat (blen recBody - i)));
    [|lia|unfold blen; lia].
  intros i Hi. unfold hsTurn. wp_step; [|done]. to_prop.
  wp_step. apply wp_index; [lia|]. intros ty Hty.
  wp_step. apply wp_index; [lia|]. intros l2 Hl2.
  wp_step. apply wp_index; [lia|]. intros l1 Hl1.
  wp_step. apply wp_index; [lia|]. intros l0 Hl0.
  pose proof (be24_range l2 l1 l0). cbv zeta. wp_step; [by left|]. to_prop.
  rewrite onMsg_pick by lia. cbn [bind].
  replace (i + 4 + be24 l2 l1 l0 - (i + 4)) with (be24 l2 l1 l0) by lia.
  apply wp_ret. destruct (pick ty _) as [r|] eqn:Hp; cbn; [|lia].
  right. exists ty, (sub recBody (i + 4) (be24 l2 l1 l0)). split; [done|].
  rewrite <- (sub_encMsg recBody i ty l2 l1 l0) by (done || lia). apply occurs_sub.
Qed.

Lemma wp_readFlight {C} `{Reader C} (c : C) :
  wp (readFlight abort onMsg c) (fun r => r = abort \/ picked (pending c) r) (fun _ => False).
Proof using Hh.
  unfold readFlight, orElse. wp_step.
  apply (wp_loop _ (fun c1 => exists pre, pending c = pre ++ pending c1)
    (fun c1 => length (pending c1))); [|by exists []|lia].
  intros c1 [pre Hpre]. unfold recordTurn.
  wp_step. apply wp_readFull; [lia| |by left].
  intros hdr c2 Hp2 Hh2. cbn beta iota.
  wp_step. apply wp_index; [lia|]. intros recType _.
  wp_step. apply wp_index; [lia|]. intros h3 _.
  wp_step. apply wp_index; [lia|]. intros h4 _.
  cbv zeta. wp_step; [by left|]. to_prop.
  wp_step. apply wp_readFull; [lia| |by left].
  intros recBody c3 Hp3 Hr. cbn beta iota.
  assert (Hsmall : (length (pending c3) < length (pending c1))%nat).
  { apply (f_equal length) in Hp2, Hp3. rewrite length_app in Hp2, Hp3. unfold blen in *. lia. }
  assert (Hnext : exists pre', pending c = pre' ++ pending c3).
  { exists (pre ++ hdr ++ recBody). by rewrite <- !app_assoc, Hpre, Hp2, Hp3. }
  wp_step; [by left|]. wp_step; [done|].
  wp_step. eapply wp_mono; [apply (wp_hsLoop recBody (fun _ => False))| |done].
  intros [i|r] Hf; cbn; [done|]. destruct Hf as [->|(ty & body & Hf & Ho)]; [by left|].
  right. exists ty, body. split; [done|]. rewrite Hpre, Hp2, Hp3. by apply occurs_app_r, occurs_app_r, occurs_app_l.
Qed.

(** ** Completeness: the first message that [pick] takes decides *)

Definition msgOk (m : byte * bytes) : Prop := blen (snd m) < 16777216.

Fixpoint firstPick (msgs : list (byte * bytes)) : option R :=
  match msgs with
  | [] => None
  | m :: msgs => match pick (fst m) (snd m) with Some r => Some r | None => firstPick msgs end
  end.

Lemma firstPick_app a b : firstPick (a ++ b) = match firstPick a with Some r => Some r | None => firstPick b end.
Proof. induction a as [|m a IH]; cbn; [done|]. by destruct (pick _ _). Qed.

Lemma hsTurn_msg pre ty body rest :
  blen body < 16777216 ->
  hsTurn abort onMsg (pre ++ encMsg ty body ++ rest) (blen pre)
  = Ret (match pick ty body with Some r => Return r | None => Next (blen (pre ++ encMsg ty body)) end).
Proof using Hh.
  intros Hl. pose proof (blen_nonneg body). pose proof (blen_nonneg rest). pose proof (blen_nonneg pre).
  unfold hsTurn. rewrite !blen_app, encMsg_length, (proj2 (Z.leb_le _ _)) by lia.
  set (b := encMsg ty body ++ rest).
  rewrite (index_pre pre b 0 (blen pre) ty), (index_pre pre b 1 _ (byteOf (Z.shiftr (blen body) 16))),
    (index_pre pre b 2 _ (byteOf (Z.shiftr (blen body) 8))),
    (index_pre pre b 3 _ (byteOf (blen body))) by done || lia.
  cbn [bind]. rewrite be24_putBE24, Z.mod_small by lia.
  rewrite (proj2 (Z.ltb_ge _ _)) by lia.
  rewrite onMsg_pick by (unfold b; rewrite ?blen_app, ?encMsg_length; lia). cbn [bind].
  replace (sub (pre ++ b) (blen pre + 4) (blen pre + 4 + blen body - (blen pre + 4))) with body.
  - destruct (pick ty body); [done|]. do 2 f_equal. lia.
  - unfold b, encMsg. change ((ty :: putBE24 (blen body) ++ body) ++ rest)
      with ((ty :: putBE24 (blen body)) ++ body ++ rest).
    rewrite app_assoc. unfold sub. rewrite drop_app_length', take_app_length'; [done|..].
    + unfold blen in *. lia.
    + rewrite length_app. cbn [length putBE24]. unfold blen in *. lia.
Qed.

Lemma hsLoop_msgs pre msgs fuel :
  Forall msgOk msgs -> (length msgs < fuel)%nat ->
  loop (hsTurn abort onMsg (pre ++ encMsgs msgs)) fuel (blen pre)
  = Ret (match firstPick msgs with Some r => inr r | None => inl (blen (pre ++ encMsgs msgs)) end).
Proof using Hh.
  intros Hm. revert pre fuel. induction Hm as [|[ty body] msgs Hb Hm IH]; intros pre [|fuel] Hf; cbn [length] in Hf;
    try lia; cbn [loop firstPick fst snd].
  - unfold encMsgs, hsTurn. cbn [flat_map]. rewrite app_nil_r, (proj2 (Z.leb_gt _ _)) by lia. done.
  - unfold encMsgs. cbn [flat_map fst snd]. fold (encMsgs msgs). rewrite hsTurn_msg by done.
    destruct (pick ty body); [done|]. rewrite app_assoc. apply IH. lia.
Qed.

(** What [hsLoop] does with a record of whole messages, and with one that holds
    more after the message that is picked. *)
Lemma hsLoop_spec msgs : Forall msgOk msgs ->
  hsLoop abort onMsg (encMsgs msgs)
  = Ret (match firstPick msgs with Some r => inr r | None => inl (blen (encMsgs msgs)) end).
Proof using Hh.
  intros Hm. unfold hsLoop. change 0 with (blen (@nil byte)).
  change (encMsgs msgs) with ([] ++ encMsgs msgs) at 1.
  rewrite hsLoop_msgs by (done || (pose proof (length_encMsgs msgs); lia)). done.
Qed.

Lemma hsLoop_prefix pre msgs r rest fuel :
  Forall msgOk msgs -> firstPick msgs = Some r -> (length msgs < fuel)%nat ->
  loop (hsTurn abort onMsg (pre ++ encMsgs msgs ++ rest)) fuel (blen pre) = Ret (inr r).
Proof using Hh.
  intros Hm. revert pre fuel. induction Hm as [|[ty body] msgs Hb Hm IH]; intros pre [|fuel] Hr Hf; cbn [length] in Hf;
    try lia; cbn [firstPick fst snd loop] in *; [done|].
  unfold encMsgs. cbn [flat_map fst snd]. fold (encMsgs msgs). rewrite <- app_assoc, hsTurn_msg by done.
  destruct (pick ty body) as [r'|] eqn:E; [by injection Hr as ->|]. rewrite app_assoc. apply IH; [done|lia].
Qed.

Lemma recordTurn_record {C} `{Reader C} (c : C) ty v1 v0 payload rest :
  pending c = encRecord ty [v1; v0] payload ++ rest ->
  0 < blen payload <= 18432 ->
  exists c', pending c' = rest /\
    recordTurn abort onMsg c =
    (if beq ty x15 then Ret (Return abort)
     else if negb (beq ty x16) then Ret (Next c')
     else r <~ hsLoop abort onMsg payload ;;
          Ret (match r with inl _ => Next c' | inr r => Return r end)).
Proof.
  intros Hp Hl. destruct (record_reads c ty v1 v0 payload rest Hp) as (hdr & c1 & c2 & h3 & h4 & Hr1 & H0 & H3 & H4 & Hlen & Hr2 & Hp2);
    [lia|].
  exists c2. split; [done|]. unfold recordTurn. rewrite Hr1. cbn [bind]. rewrite H0, H3, H4. cbn [bind]. rewrite Hlen.
  change (Z.shiftl 1 14 + 2048) with 18432.
  rewrite (proj2 (Z.leb_gt _ _)), (proj2 (Z.ltb_ge _ _)) by lia. cbn [orb].
  rewrite Hr2. cbn [bind]. done.
Qed.

(** The records of a flight: handshake messages, or of a type the search skips. *)
Inductive flightRecord := Messages (msgs : list (byte * bytes)) | Other (ty : byte) (payload : bytes).
Definition recPayload (r : flightRecord) : bytes :=
  match r with Messages msgs => encMsgs msgs | Other _ p => p end.
Definition recType (r : flightRecord) : byte := match r with Messages _ => x16 | Other ty _ => ty end.
Definition recMsgs (r : flightRecord) : list (byte * bytes) := match r with Messages msgs => msgs | Other _ _ => [] end.
Definition recOk (r : flightRecord) : Prop :=
  0 < blen (recPayload r) <= 18432
  /\ match r with Messages msgs => Forall msgOk msgs | Other ty _ => ty <> x15 /\ ty <> x16 end.
Definition encFlight (v1 v0 : byte) (recs : list flightRecord) : bytes :=
  flat_map (fun r => encRecord (recType r) [v1; v0] (recPayload r)) recs.
Definition flightMsgs (recs : list flightRecord) : list (byte * bytes) := flat_map recMsgs recs.

Lemma loop_records {C} `{Reader C} v1 v0 recs : Forall recOk recs -> forall (c : C) rest fuel,
  pending c = encFlight v1 v0 recs ++ rest -> (length recs <= fuel)%nat ->
  exists c', pending c' = rest /\
    loop (recordTurn abort onMsg) fuel c
    = match firstPick (flightMsgs recs) with
      | Some r => Ret (inr r)
      | None => loop (recordTurn abort onMsg) (fuel - length recs) c'
      end.
Proof using Hh.
  induction 1 as [|r recs [Hl Hr] Hrecs IH]; intros c rest fuel Hp Hf; cbn [length] in Hf.
  { exists c. split; [done|]. cbn [flightMsgs flat_map firstPick length]. by rewrite Nat.sub_0_r. }
  destruct fuel as [|fuel]; [lia|].
  unfold encFlight in Hp. cbn [flat_map] in Hp. fold (encFlight v1 v0 recs) in Hp. rewrite <- app_assoc in Hp.
  destruct (recordTurn_record c _ v1 v0 _ _ Hp Hl) as (c1 & Hp1 & Ht).
  destruct (IH c1 rest fuel Hp1 ltac:(lia)) as (c' & Hp' & HIH).
  exists c'. split; [done|]. cbn [loop length]. rewrite Ht. clear Ht.
  unfold flightMsgs. cbn [flat_map]. rewrite firstPick_app. fold (flightMsgs recs).
  destruct r as [msgs|ty p]; cbn [recType recPayload recMsgs] in *.
  - change (beq x16 x15) with false. change (beq x16 x16) with true. cbn [negb].
    rewrite hsLoop_spec by done. cbn [bind]. destruct (firstPick msgs); [done|]. exact HIH.
  - destruct Hr as [H15 H16]. destruct (beq ty x15) eqn:E; [by apply beq_true in E|].
    destruct (beq ty x16) eqn:E'; [by apply beq_true in E'|]. exact HIH.
Qed.

Lemma length_encFlight v1 v0 recs : (length recs <= length (encFlight v1 v0 recs))%nat.
Proof.
  unfold encFlight. induction recs as [|r recs IH]; cbn [flat_map length]; [lia|].
  rewrite length_app. cbn [encRecord length]. lia.
Qed.

(** The first message [pick] takes decides, whatever follows. *)
Lemma readFlight_finds {C} `{Reader C} (c : C) v1 v0 recs rest r :
  Forall recOk recs -> pending c = encFlight v1 v0 recs ++ rest -> firstPick (flightMsgs recs) = Some r ->
  readFlight abort onMsg c = Ret r.
Proof using Hh.
  intros Hrecs Hp Hr. unfold readFlight, orElse.
  destruct (loop_records v1 v0 recs Hrecs c rest (S (length (pending c))) Hp) as (c' & _ & ->).
  - rewrite Hp, length_app. pose proof (length_encFlight v1 v0 recs). lia.
  - by rewrite Hr.
Qed.

(** A flight that ends without such a message, or with an alert, is given up. *)
Lemma readFlight_alert {C} `{Reader C} (c : C) v1 v0 recs rest level desc :
  Forall recOk recs -> pending c = encFlight v1 v0 recs ++ encRecord x15 [v1; v0] [level; desc] ++ rest ->
  firstPick (flightMsgs recs) = None -> readFlight abort onMsg c = Ret abort.
Proof using Hh.
  intros Hrecs Hp Hr. unfold readFlight, orElse.
  destruct (loop_records v1 v0 recs Hrecs c _ (S (length (pending c))) Hp) as (c' & Hp' & ->).
  - rewrite Hp, length_app. pose proof (length_encFlight v1 v0 recs). lia.
  - rewrite Hr. destruct (recordTurn_record c' x15 v1 v0 [level; desc] rest Hp') as (c2 & _ & Ht); [by vm_compute|].
    rewrite Nat.sub_succ_l by (rewrite Hp, length_app; pose proof (length_encFlight v1 v0 recs); lia).
    cbn [loop]. by rewrite Ht.
Qed.

(** A message that goes on in the next record makes the search give up. *)
Lemma hsTurn_truncated pre ty body n :
  blen body < 16777216 -> 4 <= n < 4 + blen body ->
  hsTurn abort onMsg (pre ++ take (Z.to_nat n) (encMsg ty body)) (blen pre) = Ret (Return abort).
Proof.
  intros Hl Hn. unfold hsTurn. pose proof (encMsg_length ty body).
  rewrite blen_app, blen_take, (proj2 (Z.leb_le _ _)) by lia.
  set (b := take _ _).
  assert (Hb : b = [ty; byteOf (Z.shiftr (blen body) 16); byteOf (Z.shiftr (blen body) 8); byteOf (blen body)]
    ++ take (Z.to_nat (n - 4)) body).
  { unfold b, encMsg, putBE24. replace (Z.to_nat n) with (4 + Z.to_nat (n - 4))%nat by lia. reflexivity. }
  rewrite Hb.
  rewrite (index_pre pre _ 0 (blen pre) ty), (index_pre pre _ 1 _ (byteOf (Z.shiftr (blen body) 16))),
    (index_pre pre _ 2 _ (byteOf (Z.shiftr (blen body) 8))), (index_pre pre _ 3 _ (byteOf (blen body))) by done || lia.
  cbn [bind]. rewrite be24_putBE24, Z.mod_small by (pose proof (blen_nonneg body); lia).
  by rewrite (proj2 (Z.ltb_lt _ _)) by lia.
Qed.

Lemma readFlight_truncated {C} `{Reader C} (c : C) v1 v0 recs msgs ty body n rest :
  Forall recOk recs -> Forall msgOk msgs -> blen body < 16777216 -> 4 <= n < 4 + blen body ->
  let payload := encMsgs msgs ++ take (Z.to_nat n) (encMsg ty body) in
  blen payload <= 18432 ->
  pending c = encFlight v1 v0 recs ++ encRecord x16 [v1; v0] payload ++ rest ->
  firstPick (flightMsgs recs ++ msgs) = None -> readFlight abort onMsg c = Ret abort.
Proof using Hh.
  intros Hrecs Hmsgs Hb Hn payload Hl Hp Hr. rewrite firstPick_app in Hr.
  destruct (firstPick (flightMsgs recs)) eqn:E; [done|].
  assert (Hpos : 0 < blen payload).
  { unfold payload. rewrite blen_app, blen_take by (rewrite encMsg_length; lia). pose proof (blen_nonneg (encMsgs msgs)). lia. }
  unfold readFlight, orElse.
  destruct (loop_records v1 v0 recs Hrecs c _ (S (length (pending c))) Hp) as (c' & Hp' & ->).
  - rewrite Hp, length_app. pose proof (length_encFlight v1 v0 recs). lia.
  - rewrite E. destruct (recordTurn_record c' x16 v1 v0 payload rest Hp' (conj Hpos Hl)) as (c2 & _ & Ht).
    rewrite Nat.sub_succ_l by (rewrite Hp, length_app; pose proof (length_encFlight v1 v0 recs); lia).
    cbn [loop]. rewrite Ht. change (beq x16 x15) with false. change (beq x16 x16) with true. cbn [negb].
    enough (Hhs : hsLoop abort onMsg payload = Ret (inr abort)) by (by rewrite Hhs).
    unfold hsLoop. change 0 with (blen (@nil byte)).
    assert (Hgen : forall ms pre fuel, Forall msgOk ms -> firstPick ms = None -> (length ms < fuel)%nat ->
      loop (hsTurn abort onMsg (pre ++ encMsgs ms ++ take (Z.to_nat n) (encMsg ty body))) fuel (blen pre) = Ret (inr abort)).
    { clear -Hh Hb Hn. induction ms as [|[t m] ms IH]; intros pre [|fuel] Hok Hnone Hf; cbn [length] in Hf; try lia;
        cbn [loop firstPick fst snd] in *.
      - change (encMsgs []) with (@nil byte). cbn [app]. by rewrite hsTurn_truncated.
      - inversion Hok; subst. unfold encMsgs. cbn [flat_map fst snd]. fold (encMsgs ms). rewrite <- app_assoc, hsTurn_msg by done.
        destruct (pick t m); [done|]. rewrite app_assoc. apply IH; [done..|lia]. }
    apply (Hgen msgs []); [done..|]. unfold payload. rewrite length_app. pose proof (length_encMsgs msgs). lia.
Qed.

Lemma readFlight_eof {C} `{Reader C} (c : C) v1 v0 recs rest :
  Forall recOk recs -> pending c = encFlight v1 v0 recs ++ rest -> blen rest < 5 ->
  firstPick (flightMsgs recs) = None -> readFlight abort onMsg c = Ret abort.
Proof using Hh.
  intros Hrecs Hp Hl Hr. unfold readFlight, orElse.
  destruct (loop_records v1 v0 recs Hrecs c _ (S (length (pending c))) Hp) as (c' & Hp' & ->).
  - rewrite Hp, length_app. pose proof (length_encFlight v1 v0 recs). lia.
  - rewrite Hr. rewrite Nat.sub_succ_l by (rewrite Hp, length_app; pose proof (length_encFlight v1 v0 recs); lia).
    cbn [loop]. unfold recordTurn. rewrite <- Hp' in Hl. destruct (readFull_eof 5 c' Hl) as (c2 & ->). done.
Qed.
End Spec.

(** ** The answer depends on the bytes the peer sends, not on how they are read *)

Lemma recordTurn_rel {R} (abort : R) onMsg {C1 C2} `{Reader C1} `{Reader C2} (c1 : C1) (c2 : C2) :
  pending c1 = pending c2 ->
  stepRel (fun c1 c2 => pending c1 = pending c2) (recordTurn abort onMsg c1) (recordTurn abort onMsg c2).
Proof.
  intros Hp. unfold recordTurn.
  destruct (readFull_agree 5 c1 c2 ltac:(lia) Hp) as (r & c1' & c2' & -> & -> & Hp').
  cbn [bind]. destruct r as [hdr|]; [|done].
  destruct (index hdr 0) as [ty| | |]; cbn [bind]; try done.
  destruct (index hdr 3) as [h3| | |]; cbn [bind]; try done.
  destruct (index hdr 4) as [h4| | |]; cbn [bind]; try done.
  destruct (_ || _); [done|].
  destruct (readFull_agree (be16 h3 h4) c1' c2' ltac:(apply be16_range) Hp')
    as (r & c1'' & c2'' & -> & -> & Hp'').
  cbn [bind]. destruct r as [recBody|]; [|done].
  destruct (beq ty x15); [done|]. destruct (beq ty x16); cbn [negb]; [|done].
  by destruct (hsLoop abort onMsg recBody) as [[?|?]| | |].
Qed.

Lemma readFlight_agree {R} (abort : R) onMsg {C1 C2} `{Reader C1} `{Reader C2} (c1 : C1) (c2 : C2) :
  pending c1 = pending c2 -> readFlight abort onMsg c1 = readFlight abort onMsg c2.
Proof.
  intros Hp. unfold readFlight. rewrite Hp.
  apply (loop_rel (fun c1 c2 => pending c1 = pending c2)); [|done].
  intros ???. by apply recordTurn_rel.
Qed.
