(* ===== verification/ServerHello.v ===== *)
(** Reading a server's first flight: [tls_alpn.go], [tls_extensions.go] and
    the extension readers of [tls_jarm.go] - the ServerHello message among the
    records of the connection, its extension block, and what the block says
    about ALPN, the selected version and the two posture extensions. *)

From Stdlib Require Import ZArith List String Ascii Strings.Byte Lia Bool.
From stdpp Require Import base list strings numbers.
From S2P Require Import Prelude Bytes GoStrings Stream Extensions Flight.
Open Scope Z_scope.

(** ** The extension block of a ServerHello *)

Definition serverHelloExtensions (body : bytes) : outcome (option bytes) :=
  if blen body <? 35 then Ret None else
  sid <~ index body 34 ;;
  let off := 35 + bval sid + 2 + 1 in
  if blen body <? off + 2 then Ret None else
  e1 <~ index body off ;;
  e0 <~ index body (off + 1) ;;
  let extLen := be16 e1 e0 in
  let off := off + 2 in
  if blen body <? off + extLen then Ret None else
  ext <~ slice body off (off + extLen) ;;
  Ret (Some ext).

(** ** Readers of one extension *)

Definition extensionPresent (ext : bytes) (wantType : Z) : outcome bool :=
  orElse false
    (walkExts (fun _ => Ret (inr false))
       (fun a extType _ => Ret (if extType =? wantType then Return true else Next a))
       ext tt).

Definition alpnOfData (data : bytes) : outcome string :=
  if blen data <? 3 then Ret ""%string else
  b <~ index data 2 ;;
  let plen := bval b in
  if blen data <? 3 + plen then Ret ""%string else
  p <~ slice data 3 (3 + plen) ;;
  Ret (toString p).

Definition alpnFromExtensions (ext : bytes) : outcome string :=
  orElse ""%string
    (walkExts (fun _ => Ret (inr ""%string))
       (fun a extType data =>
          if extType =? 16 then s <~ alpnOfData data ;; Ret (Return s) else Ret (Next a))
       ext tt).

Definition supportedVersionsFromExtensions (ext : bytes) : outcome Z :=
  orElse 0
    (walkExts (fun _ => Ret (inr 0))
       (fun a extType data =>
          if (extType =? 43) && (2 <=? blen data) then
            v1 <~ index data 0 ;; v0 <~ index data 1 ;; Ret (Return (be16 v1 v0))
          else Ret (Next a))
       ext tt).

(** ** Specifications over the list of extensions *)

Definition firstExt (ty : Z) (l : list (Z * bytes)) : option bytes :=
  match filter (fun e => fst e = ty) l with [] => None | e :: _ => Some (snd e) end.

Lemma firstExt_cons ty t d l :
  firstExt ty ((t, d) :: l) = if t =? ty then Some d else firstExt ty l.
Proof.
  unfold firstExt. cbn. destruct (Z.eqb_spec t ty) as [->|Hne].
  - by rewrite decide_True.
  - by rewrite decide_False.
Qed.

Lemma foldExts_find {R} (P : Z -> bytes -> bool) (f : Z -> bytes -> R) (dflt : R) l t :
  orElse dflt
    (foldExts (fun _ : unit => Ret (inr dflt))
       (fun a ty d => Ret (if P ty d then Return (f ty d) else Next a)) l t tt)
  = Ret (match List.find (fun e => P (fst e) (snd e)) l with
         | Some e => f (fst e) (snd e)
         | None => dflt
         end).
Proof.
  induction l as [|[ty d] l IH]; cbn; [by destruct t|].
  destruct (P ty d); [done|]. exact IH.
Qed.

Lemma foldExts_ext {A R} ov (f g : A -> Z -> bytes -> outcome (step A R)) l t a :
  (forall a ty d, f a ty d = g a ty d) -> foldExts ov f l t a = foldExts ov g l t a.
Proof.
  intros H. revert a. induction l as [|[ty d] l IH]; intros a; cbn; [done|].
  rewrite H. destruct (g a ty d) as [[a'|a'|r]|e| |]; auto.
Qed.

(** The first extension of the wanted type decides, wherever the block breaks off. *)
Lemma extensionPresent_spec ext want :
  extensionPresent ext want = Ret (existsb (fun e => fst e =? want) (fst (extList ext))).
Proof.
  unfold extensionPresent. rewrite walkExts_spec. destruct (extList ext) as [l t]. cbn.
  rewrite (foldExts_find (fun ty _ => ty =? want) (fun _ _ => true)). f_equal.
  induction l as [|[ty d] l IH]; cbn; [done|]. destruct (ty =? want); done.
Qed.

(** The value [alpnOfData] gives, as a total function. *)
Definition alpnValue (data : bytes) : string :=
  match data with
  | _ :: _ :: n :: p =>
      if blen p <? bval n then ""%string else toString (take (Z.to_nat (bval n)) p)
  | _ => ""%string
  end.

Lemma alpnOfData_spec data : alpnOfData data = Ret (alpnValue data).
Proof.
  unfold alpnOfData. destruct data as [|a [|b [|n p]]]; try done.
  rewrite !blen_cons. pose proof (blen_nonneg p). pose proof (bval_range n).
  rewrite (proj2 (Z.ltb_ge _ _)) by lia. unfold alpnValue.
  change (a :: b :: n :: p) with ([a; b; n] ++ p).
  rewrite index_app_l by (rewrite !blen_cons, blen_nil; lia).
  change (index [a; b; n] 2) with (@Ret byte n). cbn [bind].
  destruct (blen p <? bval n) eqn:E; to_prop.
  - by rewrite (proj2 (Z.ltb_lt _ _)) by lia.
  - rewrite (proj2 (Z.ltb_ge _ _)) by lia.
    rewrite <- (take_drop (Z.to_nat (bval n)) p) at 1.
    rewrite slice_mid; [done|done|].
    rewrite blen_take by lia. rewrite !blen_cons, blen_nil. lia.
Qed.

Lemma alpnFromExtensions_spec ext :
  alpnFromExtensions ext =
  Ret (match firstExt 16 (fst (extList ext)) with Some d => alpnValue d | None => ""%string end).
Proof.
  unfold alpnFromExtensions. rewrite walkExts_spec. destruct (extList ext) as [l t]. cbn [fst].
  erewrite foldExts_ext; [rewrite (foldExts_find (fun ty _ => ty =? 16) (fun _ d => alpnValue d))|].
  - f_equal. induction l as [|[ty d] l IH]; cbn; [done|].
    rewrite firstExt_cons. by destruct (ty =? 16).
  - intros a ty d. cbn. rewrite alpnOfData_spec. by destruct (ty =? 16).
Qed.

Lemma supportedVersions_spec ext :
  supportedVersionsFromExtensions ext =
  Ret (match List.find (fun e => (fst e =? 43) && (2 <=? blen (snd e))) (fst (extList ext)) with
       | Some (_, v1 :: v0 :: _) => be16 v1 v0
       | _ => 0
       end).
Proof.
  unfold supportedVersionsFromExtensions. rewrite walkExts_spec.
  destruct (extList ext) as [l t]. cbn [fst].
  erewrite foldExts_ext; [rewrite (foldExts_find (fun ty d => (ty =? 43) && (2 <=? blen d))
      (fun _ d => match d with v1 :: v0 :: _ => be16 v1 v0 | _ => 0 end))|].
  - f_equal. destruct (List.find _ l) as [[ty d]|]; done.
  - intros a ty d. cbn.
    destruct ((ty =? 43) && (2 <=? blen d)) eqn:E; [|done].
    apply andb_true_iff in E as [_ E].
    destruct d as [|v1 [|v0 d]]; try done. rewrite !blen_cons in E. to_prop.
    pose proof (blen_nonneg d).
    change (v1 :: v0 :: d) with ([v1; v0] ++ d).
    rewrite (index_app_l [v1; v0] d 0), (index_app_l [v1; v0] d 1) by (unfold blen; cbn; lia).
    done.
Qed.

(** [serverHelloExtensions] never panics; on a well-formed body it gives the
    extension block. *)
Lemma serverHelloExtensions_safe body : safe (serverHelloExtensions body).
Proof.
  unfold safe, serverHelloExtensions. wp_steps; try done. to_prop.
  apply wp_index; [lia|]. intros sid _. pose proof (bval_range sid).
  wp_steps; try done. to_prop.
  apply wp_index; [lia|]. intros e1 _. wp_step. apply wp_index; [lia|]. intros e0 _.
  pose proof (be16_range e1 e0). wp_steps; try done. to_prop.
  apply wp_slice; try lia. done.
Qed.

(** ** The ServerHello among the records of the connection *)

(** [if hsType == 0x02 { return body[i+4:end] }] *)
Definition onServerHello (recBody : bytes) (hsType : byte) (lo hi : Z) : outcome (option (option bytes)) :=
  if beq hsType x02 then body <~ slice recBody lo hi ;; Ret (Some (Some body)) else Ret None.

Section ReadServerHello.
Context {C : Type} `{Reader C}.

(** [readServerHelloBody(conn)]: [None] for [nil]. *)
Definition readServerHelloBody (c : C) : outcome (option bytes) := readFlight None onServerHello c.

(** [readServerHelloALPN(conn)] *)
Definition readServerHelloALPN (c : C) : outcome string :=
  body <~ readServerHelloBody c ;;
  match body with
  | None => Ret ""%string
  | Some body =>
      ext <~ serverHelloExtensions body ;;
      match ext with None => Ret ""%string | Some ext => alpnFromExtensions ext end
  end.
End ReadServerHello.

Definition pickServerHello (ty : byte) (body : bytes) : option (option bytes) :=
  if beq ty x02 then Some (Some body) else None.

#[export] Instance onServerHello_handler : Handler onServerHello pickServerHello.
Proof.
  intros recBody ty lo hi Hlo Hhi. unfold onServerHello, pickServerHello. destruct (beq ty x02); [|done].
  by rewrite slice_ok by lia.
Qed.

(** A body [readServerHelloBody] returns is a ServerHello message of the stream. *)
Definition bodyFound (stream : bytes) (r : option bytes) : Prop :=
  match r with Some body => occurs (encMsg x02 body) stream | None => True end.

Lemma wp_readServerHelloBody {C} `{Reader C} (c : C) :
  wp (readServerHelloBody c) (bodyFound (pending c)) (fun _ => False).
Proof.
  eapply wp_mono; [apply (wp_readFlight None onServerHello pickServerHello c)| |done].
  intros r [->|(ty & body & Hp & Ho)]; [done|]. unfold pickServerHello in Hp.
  destruct (beq ty x02) eqn:E; [|done]. apply beq_true in E as ->. by injection Hp as <-.
Qed.

Lemma firstPick_serverHello msgs body rest :
  Forall (fun m => fst m <> x02) msgs ->
  firstPick pickServerHello (msgs ++ (x02, body) :: rest) = Some (Some body).
Proof.
  intros Hm. rewrite firstPick_app. replace (firstPick pickServerHello msgs) with (@None (option bytes)); [done|].
  induction Hm as [|[ty m] msgs Hty Hm IH]; [done|]. cbn [firstPick fst snd pickServerHello] in *.
  unfold pickServerHello at 1. destruct (beq ty x02) eqn:E; [by apply beq_true in E|done].
Qed.

Section Complete.
Context {C : Type} `{Reader C}.

(** A stream that starts with a handshake record holding a ServerHello. *)
Lemma readServerHelloBody_finds (c : C) v1 v0 msgs body mrest rest :
  let payload := flat_map (fun m => encMsg (fst m) (snd m)) msgs ++ encMsg x02 body ++ mrest in
  pending c = encRecord x16 [v1; v0] payload ++ rest ->
  Forall (fun m => fst m <> x02 /\ blen (snd m) < 16777216) msgs ->
  blen payload <= 18432 ->
  readServerHelloBody c = Ret (Some body).
Proof.
  intros payload Hp Hm Hl.
  assert (Hpay : payload = encMsgs (msgs ++ [(x02, body)]) ++ mrest).
  { unfold payload, encMsgs. rewrite flat_map_app. cbn [flat_map fst snd]. by rewrite app_nil_r, <- app_assoc. }
  assert (Hok : Forall msgOk (msgs ++ [(x02, body)])).
  { apply Forall_app. split; [eapply List.Forall_impl; [|exact Hm]; by intros m []|]. constructor; [|done].
    unfold msgOk. cbn [snd]. unfold payload in Hl. rewrite !blen_app, encMsg_length in Hl.
    pose proof (blen_nonneg mrest). pose proof (blen_nonneg (flat_map (fun m => encMsg (fst m) (snd m)) msgs)). lia. }
  assert (Hpos : 0 < blen payload).
  { unfold payload. rewrite !blen_app, encMsg_length. pose proof (blen_nonneg mrest). pose proof (blen_nonneg body).
    pose proof (blen_nonneg (flat_map (fun m => encMsg (fst m) (snd m)) msgs)). lia. }
  destruct (recordTurn_record None onServerHello c x16 v1 v0 payload rest Hp (conj Hpos Hl)) as (c' & _ & Ht).
  unfold readServerHelloBody, readFlight, orElse. cbn [loop]. rewrite Ht. cbn [beq].
  change (beq x16 x15) with false. change (beq x16 x16) with true. cbn [negb].
  pose proof (hsLoop_prefix None onServerHello pickServerHello [] (msgs ++ [(x02, body)]) (Some body) mrest
    (S (length payload)) Hok) as Hf.
  cbn [app] in Hf. rewrite <- Hpay in Hf. change (blen (@nil byte)) with 0 in Hf. unfold hsLoop. rewrite Hf; [done|..].
  - apply (firstPick_serverHello msgs body []). eapply List.Forall_impl; [|exact Hm]. by intros m [].
  - rewrite Hpay, (length_app (encMsgs _)). pose proof (length_encMsgs (msgs ++ [(x02, body)])). lia.
Qed.
End Complete.

Lemma readServerHelloBody_agree {C1 C2} `{Reader C1} `{Reader C2} (c1 : C1) (c2 : C2) :
  pending c1 = pending c2 -> readServerHelloBody c1 = readServerHelloBody c2.
Proof. apply readFlight_agree. Qed.

(** ** Claims about the ServerHello reader *)

(** [readServerHelloBody] returns for every peer and every way its bytes are
    cut into segments by the network: it needs no more turns than there are
    bytes, and a body it returns is the body of a ServerHello message, type and
    24-bit length included, that occurs in the stream. *)
Theorem readServerHelloBody_sound (c : conn) :
  exists r, readServerHelloBody c = Ret r /\ bodyFound (pending c) r.
Proof.
  pose proof (wp_readServerHelloBody c) as Hw.
  destruct (readServerHelloBody c) as [r| | |]; try done. by exists r.
Qed.

(** A ServerHello that follows other handshake messages in the first record
    is found, whatever the segmentation: over [readN] on a segmented connection
    the result is the one a reader of the whole stream gets. *)
Theorem readServerHelloBody_complete (c : conn) v1 v0 msgs body mrest rest :
  let record := flat_map (fun m => encMsg (fst m) (snd m)) msgs ++ encMsg x02 body ++ mrest in
  pending c = encRecord x16 [v1; v0] record ++ rest ->
  Forall (fun m => fst m <> x02 /\ blen (snd m) < 16777216) msgs ->
  blen record <= 18432 ->
  readServerHelloBody c = Ret (Some body) /\
  readServerHelloBody c = readServerHelloBody (C := bytes) (pending c).
Proof.
  intros record Hp Hm Hl. split; [by eapply readServerHelloBody_finds|].
  by apply readServerHelloBody_agree.
Qed.

Lemma readServerHelloBody_complete_witness :
  readServerHelloBody (C := conn)
    [([x16; x03], false); ([x03; x00; x0c; x08; x00; x00; x00; x02; x00; x00; x03; xaa], false);
     ([], false); ([xbb; xcc; x7f; x17], true)]
  = Ret (Some [xaa; xbb; xcc]).
Proof.
  apply (readServerHelloBody_complete
    [([x16; x03], false); ([x03; x00; x0c; x08; x00; x00; x00; x02; x00; x00; x03; xaa], false);
     ([], false); ([xbb; xcc; x7f; x17], true)] x03 x03 [(x08, [])] [xaa; xbb; xcc] [x7f] [x17]);
    [reflexivity|repeat constructor; discriminate|by vm_compute].
Defined.

(** What the program reads of a block of extensions: [extensionPresent],
    [alpnFromExtensions] and [supportedVersionsFromExtensions] never panic and
    look at the extensions of the block in order: the first says whether any has
    the wanted type, the protocol is that of the first extension of type 16, and
    the version is that of the first of type 43 with two bytes. *)
Theorem extensions_lookup ext want :
  let l := fst (extList ext) in
  extensionPresent ext want = Ret (existsb (fun e => fst e =? want) l) /\
  alpnFromExtensions ext
    = Ret (match firstExt 16 l with Some d => alpnValue d | None => ""%string end) /\
  supportedVersionsFromExtensions ext
    = Ret (match List.find (fun e => (fst e =? 43) && (2 <=? blen (snd e))) l with
           | Some (_, v1 :: v0 :: _) => be16 v1 v0
           | _ => 0
           end).
Proof.
  split; [apply extensionPresent_spec|]. split; [apply alpnFromExtensions_spec|].
  apply supportedVersions_spec.
Qed.
