(* ===== verification/Tls13Hello.v ===== *)
(** The TLS 1.3 ClientHello builder, ServerHello parser and NewSessionTicket
    parser of the 0-RTT probe: [tls13_hello.go] and [tls13_nst.go]. *)

From Stdlib Require Import ZArith List String Ascii Strings.Byte Lia Bool.
From stdpp Require Import base list strings numbers.
From S2P Require Import Prelude Bytes GoStrings Stream Extensions Flight ServerHello.
Open Scope Z_scope.

(** ** Constants *)

Definition tls13CipherAES128GCMSHA256 : Z := 0x1301.

Definition extServerName : Z := 0.
Definition extSupportedGroups : Z := 10.
Definition extSignatureAlgos : Z := 13.
Definition extALPN : Z := 16.
Definition extSupportedVersions : Z := 43.
Definition extPSKKeyExchModes : Z := 45.
Definition extKeyShare : Z := 51.
Definition extEarlyData : Z := 42.

Definition groupX25519 : Z := 0x001d.

Definition clientSignatureAlgos : list Z :=
  [0x0804; 0x0403; 0x0401; 0x0805; 0x0503; 0x0806; 0x0603; 0x0501; 0x0601].

Definition hsClientHello : byte := x01.
Definition hsServerHello : byte := x02.
Definition hsNewSessionTicket : byte := x04.
Definition hsFinished : byte := x14.

Definition recordChangeCipherSpec : byte := x14.
Definition recordAlert : byte := x15.
Definition recordHandshake : byte := x16.
Definition recordApplicationData : byte := x17.

(** ** Elliptic-curve Diffie-Hellman: [crypto/ecdh]'s X25519

    The probe only relies on public keys being 32 bytes long. *)
Class X25519 (PrivateKey : Type) := {
  publicKeyBytes : PrivateKey -> bytes;
  (** [ecdh.X25519().NewPublicKey(b)], and [priv.ECDH(peer)] *)
  newPublicKey : bytes -> outcome bytes;
  ecdhShared : PrivateKey -> bytes -> outcome bytes;
  publicKeyBytes_length : forall k, blen (publicKeyBytes k) = 32;
  newPublicKey_safe : forall b, safe (newPublicKey b);
  ecdhShared_safe : forall k b, safe (ecdhShared k b)
}.

(** ** ClientHello *)

(** [appendExtension(ext, extType, data)] *)
Definition appendExtension (ext : bytes) (extType : Z) (data : bytes) : bytes :=
  let ext := ext ++ putBE16 extType in
  let ext := ext ++ putBE16 (u16 (blen data)) in
  ext ++ data.

Section ClientHello.
Context {PrivateKey : Type} `{X25519 PrivateKey}.

Record clientHelloMaterial := {
  chBytes : bytes;
  chRandom : bytes;
  chSessionID : bytes;
  x25519Priv : PrivateKey;
  x25519Pub : bytes
}.

(** The results of the three reads of [rand.Reader] the builder makes: the
    client random, the session id, and key generation. *)
Record entropy := {
  randRandom : outcome bytes;
  randSessionID : outcome bytes;
  randKey : outcome PrivateKey
}.

(** A source that works: both buffers are filled ([io.ReadFull] on 32 bytes). *)
Definition goodEntropy (rnd sid : bytes) (k : PrivateKey) : entropy :=
  {| randRandom := Ret rnd; randSessionID := Ret sid; randKey := Ret k |}.

(** The extension block of the hello for public key [pub]. *)
Definition clientExtensions (sni : string) (pub : bytes) : bytes :=
  let ext := appendExtension [] extSupportedVersions [x02; x03; x04] in
  let ext := appendExtension ext extSupportedGroups [x00; x02; x00; x1d] in
  let sigAlgoBuf := putBE16 (u16 (2 * blen clientSignatureAlgos))
                    ++ flat_map putBE16 clientSignatureAlgos in
  let ext := appendExtension ext extSignatureAlgos sigAlgoBuf in
  let keyShareEntry := putBE16 groupX25519 ++ putBE16 (u16 (blen pub)) ++ pub in
  let ksBuf := putBE16 (u16 (blen keyShareEntry)) ++ keyShareEntry in
  let ext := appendExtension ext extKeyShare ksBuf in
  let ext := appendExtension ext extPSKKeyExchModes [x01; x01] in
  if String.eqb sni "" then ext
  else
    let nameBytes := ofString sni in
    let entry := [x00] ++ putBE16 (u16 (blen nameBytes)) ++ nameBytes in
    let sniBuf := putBE16 (u16 (blen entry)) ++ entry in
    appendExtension ext extServerName sniBuf.

(** The hello after its four-byte handshake header. *)
Definition clientHelloBody (sni : string) (random sessionID pub : bytes) : bytes :=
  let body := [x03; x03] in
  let body := body ++ random in
  let body := body ++ [x20] in
  let body := body ++ sessionID in
  let body := body ++ putBE16 2 in
  let body := body ++ putBE16 tls13CipherAES128GCMSHA256 in
  let body := body ++ [x01; x00] in
  let ext := clientExtensions sni pub in
  let body := body ++ putBE16 (u16 (blen ext)) in
  body ++ ext.

Definition buildClientHello (sni : string) (e : entropy) : outcome clientHelloMaterial :=
  random <~ randRandom e ;;
  sessionID <~ randSessionID e ;;
  priv <~ randKey e ;;
  let pub := publicKeyBytes priv in
  let body := clientHelloBody sni random sessionID pub in
  let hs := [hsClientHello] in
  let hs := hs ++ putBE24 (blen body) in
  let hs := hs ++ body in
  Ret {| chBytes := hs; chRandom := random; chSessionID := sessionID;
         x25519Priv := priv; x25519Pub := pub |}.
End ClientHello.
Arguments clientHelloMaterial PrivateKey : clear implicits.
Arguments entropy PrivateKey : clear implicits.

(** ** ServerHello *)

Record parsedServerHello := {
  shRandom : bytes;
  shCipherSuite : Z;
  (** [nil] when no key share was found: a copy of zero bytes is [nil] as well *)
  x25519ServerPub : bytes;
  helloRetryRequest : bool;
  shBytes : bytes
}.

Definition hrrRandom : bytes :=
  [xcf; x21; xad; x74; xe5; x9a; x61; x11;
   xbe; x1d; x8c; x02; x1e; x65; xb8; x91;
   xc2; xa2; x11; x16; x7a; xbb; x8c; x5e;
   x07; x9e; x09; xe2; xc8; xa8; x33; x9c].

(** The loop that compares the 32 random bytes with the sentinel. *)
Definition hrrLoop (random : bytes) : outcome bool :=
  r <~ forRange (fun i (hrr : bool) =>
         a <~ index random i ;;
         b <~ index hrrRandom i ;;
         Ret (if negb (beq a b) then @Break bool unit false else Next hrr))
       (map Z.of_nat (seq 0 32)) true ;;
  Ret (match r with inl hrr => hrr | inr _ => false end).

(** The loop body for one extension: [pub] is [out.x25519ServerPub]. *)
Definition shExtension (pub : bytes) (etype : Z) (edata : bytes) : outcome (step bytes unit) :=
  if etype =? extKeyShare then
    guard blen edata <? 4 orelse "ServerHello: key_share too short" ;;
    gb <~ slice edata 0 2 ;;
    group <~ BE_Uint16 gb ;;
    guard negb (group =? groupX25519) orelse "ServerHello: server selected unsupported group" ;;
    kb <~ slice edata 2 4 ;;
    klen <~ BE_Uint16 kb ;;
    guard blen edata <? 4 + klen orelse "ServerHello: key_share length overflow" ;;
    key <~ slice edata 4 (4 + klen) ;;
    Ret (Next key)
  else Ret (Next pub).

Definition shExtensions (exts : bytes) : outcome bytes :=
  r <~ walkExts (fun _ => Err "ServerHello: extension length overflow") shExtension exts [] ;;
  Ret (match r with inl pub => pub | inr _ => [] end).

Definition isServerHelloMsg (msg : bytes) : outcome bool :=
  if blen msg <? 4 then Ret false
  else b <~ index msg 0 ;; Ret (beq b hsServerHello).

(** The parser after the four-byte header; [raw] is [msg[:4+bodyLen]]. *)
Definition parseServerHelloBody (body raw : bytes) : outcome parsedServerHello :=
  guard blen body <? 2 + 32 + 1 orelse "ServerHello: truncated header" ;;
  let off := 2 in
  random <~ slice body off (off + 32) ;;
  let off := off + 32 in
  sid <~ index body off ;;
  let sidLen := bval sid in
  let off := off + 1 in
  guard blen body <? off + sidLen + 2 + 1 orelse "ServerHello: truncated session_id" ;;
  let off := off + sidLen in
  cb <~ sliceFrom body off ;;
  cipherSuite <~ BE_Uint16 cb ;;
  let off := off + 2 in
  let off := off + 1 in
  guard blen body <? off + 2 orelse "ServerHello: missing extensions length" ;;
  eb <~ sliceFrom body off ;;
  extLen <~ BE_Uint16 eb ;;
  let off := off + 2 in
  guard blen body <? off + extLen orelse "ServerHello: extensions truncated" ;;
  exts <~ slice body off (off + extLen) ;;
  hrr <~ hrrLoop random ;;
  pub <~ shExtensions exts ;;
  guard negb hrr && (blen pub =? 0) orelse "ServerHello: missing x25519 key_share" ;;
  Ret {| shRandom := random; shCipherSuite := cipherSuite; x25519ServerPub := pub;
         helloRetryRequest := hrr; shBytes := raw |}.

Definition parseServerHello (msg : bytes) : outcome parsedServerHello :=
  ok <~ isServerHelloMsg msg ;;
  guard negb ok orelse "not a ServerHello" ;;
  l2 <~ index msg 1 ;; l1 <~ index msg 2 ;; l0 <~ index msg 3 ;;
  let bodyLen := be24 l2 l1 l0 in
  guard blen msg <? 4 + bodyLen orelse "ServerHello: short body" ;;
  body <~ slice msg 4 (4 + bodyLen) ;;
  raw <~ slice msg 0 (4 + bodyLen) ;;
  parseServerHelloBody body raw.

(** ** NewSessionTicket *)

Record tls13NewSessionTicket := {
  lifetime : Z;
  ageAdd : Z;
  nstNonce : bytes;
  ticket : bytes;
  maxEarlyData : Z
}.

Definition nstExtension (med : Z) (etype : Z) (edata : bytes) : outcome (step Z unit) :=
  if etype =? extEarlyData then
    if 4 <=? blen edata then
      b <~ slice edata 0 4 ;; v <~ BE_Uint32 b ;; Ret (Next v)
    else Ret (Next med)
  else Ret (Next med).

Definition nstExtensions (exts : bytes) : outcome Z :=
  r <~ walkExts (fun _ => Err "NST: extension length overflow") nstExtension exts 0 ;;
  Ret (match r with inl med => med | inr _ => 0 end).

Definition parseNewSessionTicket (body : bytes) : outcome tls13NewSessionTicket :=
  guard blen body <? 9 orelse "NST: too short" ;;
  let off := 0 in
  lb <~ sliceFrom body off ;; life <~ BE_Uint32 lb ;;
  let off := off + 4 in
  ab <~ sliceFrom body off ;; age <~ BE_Uint32 ab ;;
  let off := off + 4 in
  guard blen body <? off + 1 orelse "NST: missing nonce length" ;;
  nl <~ index body off ;;
  let nonceLen := bval nl in
  let off := off + 1 in
  guard blen body <? off + nonceLen orelse "NST: nonce overflow" ;;
  nonce <~ slice body off (off + nonceLen) ;;
  let off := off + nonceLen in
  guard blen body <? off + 2 orelse "NST: missing ticket length" ;;
  tb <~ sliceFrom body off ;; ticketLen <~ BE_Uint16 tb ;;
  let off := off + 2 in
  guard blen body <? off + ticketLen orelse "NST: ticket overflow" ;;
  tick <~ slice body off (off + ticketLen) ;;
  let off := off + ticketLen in
  if blen body <? off + 2 then
    Ret {| lifetime := life; ageAdd := age; nstNonce := nonce; ticket := tick; maxEarlyData := 0 |}
  else
  eb <~ sliceFrom body off ;; extLen <~ BE_Uint16 eb ;;
  let off := off + 2 in
  guard blen body <? off + extLen orelse "NST: extensions overflow" ;;
  exts <~ slice body off (off + extLen) ;;
  med <~ nstExtensions exts ;;
  Ret {| lifetime := life; ageAdd := age; nstNonce := nonce; ticket := tick; maxEarlyData := med |}.

(** ** The builder *)

Lemma appendExtension_enc ext ty data :
  0 <= ty < 65536 -> appendExtension ext ty data = ext ++ encExt (ty, data).
Proof.
  intros H. unfold appendExtension, encExt. cbn [fst snd].
  by rewrite (u16_small ty), <- !app_assoc.
Qed.

(** The extensions of the hello, as a list. *)
Definition clientExtList (sni : string) (pub : bytes) : list (Z * bytes) :=
  [(extSupportedVersions, [x02; x03; x04]);
   (extSupportedGroups, [x00; x02; x00; x1d]);
   (extSignatureAlgos, putBE16 18 ++ flat_map putBE16 clientSignatureAlgos);
   (extKeyShare, putBE16 36 ++ putBE16 groupX25519 ++ putBE16 32 ++ pub);
   (extPSKKeyExchModes, [x01; x01])] ++
  (if String.eqb sni "" then []
   else [(extServerName, putBE16 (slen sni + 3) ++ [x00] ++ putBE16 (slen sni) ++ ofString sni)]).

Lemma clientExtensions_enc sni pub :
  blen pub = 32 -> slen sni < 65000 -> clientExtensions sni pub = encExts (clientExtList sni pub).
Proof.
  intros Hp Hs. pose proof (slen_nonneg sni). unfold clientExtensions, clientExtList.
  rewrite !appendExtension_enc by (vm_compute; split; congruence). rewrite blen_ofString, !blen_app, !blen_putBE16, Hp.
  change (u16 (2 * blen clientSignatureAlgos)) with 18.
  change (u16 32) with 32. change (u16 (2 + (2 + 32))) with 36.
  change (blen [x00]) with 1. rewrite blen_ofString.
  rewrite (u16_small (slen sni)), (u16_small (1 + (2 + slen sni))) by lia.
  replace (1 + (2 + slen sni)) with (slen sni + 3) by lia.
  unfold encExts. rewrite flat_map_app. cbn [flat_map].
  destruct (String.eqb sni ""); cbn [flat_map]; rewrite ?app_nil_r, <- ?app_assoc; done.
Qed.

Lemma clientExtList_ok sni pub :
  blen pub = 32 -> slen sni < 65000 -> Forall extOk (clientExtList sni pub).
Proof.
  intros Hp Hs. pose proof (slen_nonneg sni). unfold clientExtList. apply Forall_app. split.
  - repeat (constructor; [split; cbn [fst snd]|]);
      rewrite ?blen_app, ?blen_putBE16, ?Hp; try (vm_compute; split; congruence);
      try (vm_compute; congruence). constructor.
  - destruct (String.eqb sni ""); [done|]. constructor; [|done].
    split; cbn [fst snd]; [vm_compute; split; congruence|].
    autorewrite with blen. lia.
Qed.

Lemma blen_clientExtensions sni pub :
  blen pub = 32 ->
  slen sni < 65000 ->
  blen (clientExtensions sni pub) = if String.eqb sni "" then 87 else 96 + slen sni.
Proof.
  intros Hp Hs. rewrite clientExtensions_enc, blen_encExts by done. unfold clientExtList.
  destruct (String.eqb sni ""); cbn [app foldr snd]; autorewrite with blen; rewrite ?Hp;
    change (blen (flat_map putBE16 clientSignatureAlgos)) with 18;
    lia.
Qed.

(** ** The parsers always return *)

Lemma hrrLoop_from random k m :
  (k + m <= length random)%nat -> (k + m <= 32)%nat ->
  forRange (fun i (hrr : bool) =>
         a <~ index random i ;;
         b <~ index hrrRandom i ;;
         Ret (if negb (beq a b) then @Break bool unit false else Next hrr))
       (map Z.of_nat (seq k m)) true
  = Ret (inl (bool_decide (take m (drop k random) = take m (drop k hrrRandom)))).
Proof.
  revert k. induction m as [|m IH]; intros k Hr Hh; [done|].
  cbn [seq map forRange].
  destruct (lookup_lt_is_Some_2 random k ltac:(lia)) as [x Hx].
  destruct (lookup_lt_is_Some_2 hrrRandom k ltac:(cbn; lia)) as [y Hy].
  rewrite (proj2 (index_ret random (Z.of_nat k) x)),
    (proj2 (index_ret hrrRandom (Z.of_nat k) y)) by (rewrite Nat2Z.id; split; [lia|done]). cbn [bind].
  rewrite (drop_S random x k), (drop_S hrrRandom y k) by done. cbn [take].
  destruct (beq x y) eqn:E; cbn [negb].
  - apply beq_true in E as ->. rewrite IH by lia. do 2 f_equal.
    apply bool_decide_ext. split; [by intros ->|by intros [= ->]].
  - rewrite bool_decide_false; [done|]. intros [= -> _]. by rewrite beq_refl in E.
Qed.

Lemma hrrLoop_spec random :
  blen random = 32 -> hrrLoop random = Ret (bool_decide (random = hrrRandom)).
Proof.
  intros Hl. unfold hrrLoop.
  rewrite hrrLoop_from by (unfold blen in Hl; lia). cbn [bind].
  rewrite !drop_0, !firstn_all2 by (unfold blen in Hl; cbn; lia). done.
Qed.

Lemma wp_shExtensions exts E :
  (forall e, E e) -> wp (shExtensions exts) (fun _ => True) E.
Proof.
  intros HE. unfold shExtensions. wp_step.
  apply (wp_walkExts _ _ (fun _ => True)); auto.
  - intros; apply HE.
  - intros pub ty d _. unfold shExtension. wp_run; auto.
Qed.

(** What holds of every ServerHello the parser accepts. *)
Record shAccepted (msg : bytes) (sh : parsedServerHello) : Prop := {
  sh_random : blen (shRandom sh) = 32;
  sh_cipher : 0 <= shCipherSuite sh < 65536;
  sh_hrr : helloRetryRequest sh = bool_decide (shRandom sh = hrrRandom);
  sh_pub : helloRetryRequest sh = false -> x25519ServerPub sh <> [];
  (** the transcript bytes are the message: type, length and that many bytes *)
  sh_raw : exists body rest, shBytes sh = encMsg hsServerHello body /\ msg = shBytes sh ++ rest
}.

Lemma sub_header (msg : bytes) l2 l1 l0 :
  msg !! 0%nat = Some hsServerHello -> msg !! 1%nat = Some l2 -> msg !! 2%nat = Some l1 ->
  msg !! 3%nat = Some l0 -> 4 + be24 l2 l1 l0 <= blen msg ->
  sub msg 0 (4 + be24 l2 l1 l0) = encMsg hsServerHello (sub msg 4 (be24 l2 l1 l0)).
Proof.
  intros H0 H1 H2 H3 Hl. pose proof (be24_range l2 l1 l0).
  unfold encMsg. rewrite blen_sub, putBE24_be24 by lia.
  destruct msg as [|b0 [|b1 [|b2 [|b3 msg]]]]; try done. cbn in H0, H1, H2, H3. simplify_eq.
  unfold sub. rewrite Z2Nat.inj_add by lia. done.
Qed.

Lemma wp_isServerHelloMsg msg (Q : bool -> Prop) E :
  (4 <= blen msg -> msg !! 0%nat = Some hsServerHello -> Q true) -> Q false ->
  wp (isServerHelloMsg msg) Q E.
Proof.
  intros HT HF. unfold isServerHelloMsg. wp_run; [done|].
  destruct (beq x hsServerHello) eqn:E1; [|done]. apply beq_true in E1 as ->. auto.
Qed.

Lemma wp_parseServerHello msg :
  wp (parseServerHello msg) (shAccepted msg) (fun _ => True).
Proof.
  unfold parseServerHello, parseServerHelloBody.
  wp_step. apply wp_isServerHelloMsg; [|done]. intros Hl4 Hty. cbn [negb]. wp_step; [done|].
  wp_run; auto.
  rewrite hrrLoop_spec by lia. apply wp_ret. wp_step.
  eapply wp_mono; [by apply (wp_shExtensions _ (fun _ => True))| |done].
  intros pub _. cbn beta. wp_run; [done|].
  split; cbn; auto; try lia.
  - intros Hh ->. rewrite Hh in *. by match goal with H : _ \/ _ |- _ => destruct H end.
  - rewrite !Z.sub_0_r in *.
    rewrite (sub_header msg x x0 x1) by done || lia.
    eexists _, (drop (Z.to_nat (4 + be24 x x0 x1)) msg). split; [done|].
    rewrite <- (sub_header msg x x0 x1) by done || lia.
    unfold sub. by rewrite drop_0, take_drop.
Qed.

Lemma wp_nstExtensions exts :
  wp (nstExtensions exts) (fun med => 0 <= med < 4294967296) (fun _ => True).
Proof.
  unfold nstExtensions. wp_step.
  apply (wp_walkExts _ _ (fun med => 0 <= med < 4294967296)); [by intros| |by intros|lia].
  intros med ty d Hmed. unfold nstExtension. wp_run; auto.
Qed.

(** What holds of every ticket the parser accepts. *)
Record nstAccepted (body : bytes) (t : tls13NewSessionTicket) : Prop := {
  nst_lifetime : 0 <= lifetime t < 4294967296;
  nst_ageAdd : 0 <= ageAdd t < 4294967296;
  nst_maxEarlyData : 0 <= maxEarlyData t < 4294967296;
  nst_nonce : blen (nstNonce t) <= 255 /\ occurs (nstNonce t) body;
  nst_ticket : blen (ticket t) < 65536 /\ occurs (ticket t) body
}.

Lemma wp_parseNewSessionTicket body :
  wp (parseNewSessionTicket body) (nstAccepted body) (fun _ => True).
Proof.
  unfold parseNewSessionTicket. wp_run; auto.
  2: { eapply wp_mono; [apply wp_nstExtensions| |done]. intros med Hmed. cbn beta. wp_run.
       split; cbn; auto using occurs_sub; split; auto using occurs_sub; blia. }
  split; cbn; auto using occurs_sub; try lia; split; auto using occurs_sub; blia.
Qed.

(** ** Well-formed messages *)

(** The body of a ServerHello (RFC 8446, 4.1.3). *)
Definition encServerHello (random sid : bytes) (cipher : Z) (comp : byte) (exts : bytes) : bytes :=
  [x03; x03] ++ random ++ [byteOf (blen sid)] ++ sid ++ putBE16 cipher ++ [comp]
  ++ putBE16 (blen exts) ++ exts.

(** Parts of a ServerHello that fit their fields. *)
Record shParts (random sid : bytes) (cipher : Z) (exts : bytes) : Prop := {
  parts_random : blen random = 32;
  parts_sid : blen sid < 256;
  parts_cipher : 0 <= cipher < 65536;
  parts_exts : blen exts < 65536
}.

Lemma blen_encServerHello random sid cipher comp exts :
  blen random = 32 -> blen (encServerHello random sid cipher comp exts) = 40 + blen sid + blen exts.
Proof. intros H. unfold encServerHello. autorewrite with blen. lia. Qed.

(** Reading the fields of a well-formed body. *)
Lemma parseServerHelloBody_fields random sid cipher comp exts raw :
  shParts random sid cipher exts ->
  let hrr := bool_decide (random = hrrRandom) in
  parseServerHelloBody (encServerHello random sid cipher comp exts) raw =
  (pub <~ shExtensions exts ;;
   guard negb hrr && (blen pub =? 0) orelse "ServerHello: missing x25519 key_share" ;;
   Ret {| shRandom := random; shCipherSuite := cipher; x25519ServerPub := pub;
          helloRetryRequest := hrr; shBytes := raw |}).
Proof.
  intros [Hr Hs Hc He] hrr.
  pose proof (blen_encServerHello random sid cipher comp exts Hr) as Hb.
  pose proof (blen_nonneg sid). pose proof (blen_nonneg exts).
  assert (Hsid : bval (byteOf (blen sid)) = blen sid)
    by (rewrite bval_byteOf, Z.mod_small; lia).
  unfold parseServerHelloBody. unfold errWhen at 1 2 3 4. rewrite !Hb.
  set (body := encServerHello random sid cipher comp exts) in *.
  rewrite (proj2 (Z.ltb_ge _ _)) by lia.
  rewrite (read_slice body [x03; x03] random
    ([byteOf (blen sid)] ++ sid ++ putBE16 cipher ++ [comp] ++ putBE16 (blen exts) ++ exts))
    by done || (rewrite Hr; done).
  cbn [bind].
  rewrite (read_index body ([x03; x03] ++ random) (byteOf (blen sid))
    (sid ++ putBE16 cipher ++ [comp] ++ putBE16 (blen exts) ++ exts))
    by (done || (autorewrite with blen; lia)).
  cbn [bind]. rewrite Hsid, (proj2 (Z.ltb_ge _ _)) by lia.
  rewrite (read_from body ([x03; x03] ++ random ++ [byteOf (blen sid)] ++ sid)
    (putBE16 cipher ++ [comp] ++ putBE16 (blen exts) ++ exts))
    by ((unfold body, encServerHello; by rewrite <- !app_assoc) || (autorewrite with blen; lia)).
  cbn [bind]. rewrite BE_Uint16_put. cbn [bind]. rewrite (u16_small cipher) by lia.
  rewrite (proj2 (Z.ltb_ge _ _)) by lia.
  rewrite (read_from body ([x03; x03] ++ random ++ [byteOf (blen sid)] ++ sid ++ putBE16 cipher ++ [comp])
    (putBE16 (blen exts) ++ exts))
    by ((unfold body, encServerHello; by rewrite <- !app_assoc) || (autorewrite with blen; lia)).
  cbn [bind]. rewrite BE_Uint16_put. cbn [bind]. rewrite (u16_small (blen exts)) by lia.
  rewrite (proj2 (Z.ltb_ge _ _)) by lia.
  rewrite (read_slice body ([x03; x03] ++ random ++ [byteOf (blen sid)] ++ sid ++ putBE16 cipher
      ++ [comp] ++ putBE16 (blen exts)) exts [])
    by ((unfold body, encServerHello; by rewrite app_nil_r, <- !app_assoc)
        || (autorewrite with blen; lia)).
  cbn [bind]. by rewrite hrrLoop_spec.
Qed.

(** The header of a well-formed message; what follows the message is ignored. *)
Lemma parseServerHello_msg body rest :
  blen body < 16777216 ->
  parseServerHello (encMsg hsServerHello body ++ rest)
  = parseServerHelloBody body (encMsg hsServerHello body).
Proof.
  intros Hb. pose proof (blen_nonneg body). pose proof (blen_nonneg rest).
  assert (Hm : blen (encMsg hsServerHello body ++ rest) = 4 + blen body + blen rest)
    by (rewrite blen_app, encMsg_length; lia).
  set (msg := encMsg hsServerHello body ++ rest) in *.
  unfold parseServerHello, isServerHelloMsg, errWhen.
  rewrite Hm, (proj2 (Z.ltb_ge _ _)) by lia.
  set (h := Z.shiftr (blen body) 16). set (m := Z.shiftr (blen body) 8).
  rewrite (read_index msg [] hsServerHello (putBE24 (blen body) ++ body ++ rest)),
    (read_index msg [hsServerHello] (byteOf h) ([byteOf m; byteOf (blen body)] ++ body ++ rest)),
    (read_index msg [hsServerHello; byteOf h] (byteOf m) ([byteOf (blen body)] ++ body ++ rest)),
    (read_index msg [hsServerHello; byteOf h; byteOf m] (byteOf (blen body)) (body ++ rest))
    by (unfold msg, encMsg; cbn; rewrite <- ?app_assoc; done).
  cbn [bind]. change (negb (beq hsServerHello hsServerHello)) with false. cbn iota.
  unfold h, m. rewrite be24_putBE24, Z.mod_small by lia.
  rewrite (proj2 (Z.ltb_ge _ _)) by lia.
  rewrite (read_slice msg (hsServerHello :: putBE24 (blen body)) body rest)
    by (unfold msg, encMsg; cbn; rewrite <- ?app_assoc; done).
  rewrite (read_slice msg [] (encMsg hsServerHello body) rest)
    by (done || (rewrite encMsg_length, blen_nil; lia)).
  done.
Qed.

(** *** Key shares *)

(** A KeyShareEntry as a ServerHello carries it, and the HelloRetryRequest form
    of the extension, which holds only the selected group (RFC 8446, 4.2.8). *)
Definition keyShareData (pub : bytes) : bytes := putBE16 groupX25519 ++ putBE16 (blen pub) ++ pub.
Definition hrrKeyShareData (group : Z) : bytes := putBE16 group.

Lemma shExtension_other pub ty d : ty <> extKeyShare -> shExtension pub ty d = Ret (Next pub).
Proof. intros H. unfold shExtension. by rewrite (proj2 (Z.eqb_neq _ _)). Qed.

Lemma shExtension_share pub0 pub :
  blen pub < 65536 -> shExtension pub0 extKeyShare (keyShareData pub) = Ret (Next pub).
Proof.
  intros Hp. pose proof (blen_nonneg pub).
  assert (Hl : blen (keyShareData pub) = 4 + blen pub) by (unfold keyShareData; autorewrite with blen; lia).
  unfold shExtension, errWhen. rewrite Z.eqb_refl, Hl, (proj2 (Z.ltb_ge _ _)) by lia.
  rewrite (read_slice (keyShareData pub) [] (putBE16 groupX25519) (putBE16 (blen pub) ++ pub)) by done.
  cbn [bind]. rewrite <- (app_nil_r (putBE16 groupX25519)), BE_Uint16_put. cbn [bind].
  rewrite (read_slice (keyShareData pub) (putBE16 groupX25519) (putBE16 (blen pub)) pub) by done.
  cbn [bind]. rewrite <- (app_nil_r (putBE16 (blen pub))), BE_Uint16_put. cbn [bind].
  rewrite (u16_small (blen pub)), (proj2 (Z.ltb_ge (4 + blen pub) _)) by lia.
  change (negb (u16 groupX25519 =? groupX25519)) with false. cbn iota.
  rewrite (read_slice (keyShareData pub) (putBE16 groupX25519 ++ putBE16 (blen pub)) pub []);
    [done|unfold keyShareData; by rewrite app_nil_r, <- app_assoc|done|done].
Qed.

Lemma foldExts_skip pre l t pub :
  Forall (fun e => fst e <> extKeyShare) pre ->
  foldExts (fun _ => Err "ServerHello: extension length overflow") shExtension (pre ++ l) t pub
  = foldExts (fun _ => Err "ServerHello: extension length overflow") shExtension l t pub.
Proof.
  induction 1 as [|[ty d] pre Hty _ IH]; [done|]. cbn. by rewrite shExtension_other.
Qed.

Lemma shExtensions_share pre post pub :
  Forall extOk (pre ++ post) -> Forall (fun e => fst e <> extKeyShare) (pre ++ post) ->
  blen pub < 65000 ->
  shExtensions (encExts (pre ++ (extKeyShare, keyShareData pub) :: post)) = Ret pub.
Proof.
  intros Hok Hne Hp. apply Forall_app in Hok as [Hok1 Hok2]. apply Forall_app in Hne as [Hn1 Hn2].
  unfold shExtensions. rewrite walkExts_spec, extList_encExts.
  - rewrite foldExts_skip by done. cbn [foldExts]. rewrite shExtension_share by lia.
    rewrite <- (app_nil_r post), foldExts_skip by done. done.
  - apply Forall_app. split; [done|]. constructor; [|done].
    split; cbn [fst snd]; [by vm_compute|]. unfold keyShareData. autorewrite with blen. lia.
Qed.

Lemma shExtensions_hrr pre post group :
  Forall extOk (pre ++ post) -> Forall (fun e => fst e <> extKeyShare) pre ->
  shExtensions (encExts (pre ++ (extKeyShare, hrrKeyShareData group) :: post))
  = Err "ServerHello: key_share too short".
Proof.
  intros Hok Hn. apply Forall_app in Hok as [Hok1 Hok2].
  unfold shExtensions. rewrite walkExts_spec, extList_encExts.
  - rewrite foldExts_skip by done. done.
  - apply Forall_app. split; [done|]. constructor; [|done]. by split.
Qed.

(** *** Tickets *)

Definition encNST (t : tls13NewSessionTicket) (exts : bytes) : bytes :=
  putBE32 (lifetime t) ++ putBE32 (ageAdd t) ++ [byteOf (blen (nstNonce t))] ++ nstNonce t
  ++ putBE16 (blen (ticket t)) ++ ticket t ++ putBE16 (blen exts) ++ exts.

(** A ticket that fits its fields. *)
Record nstParts (t : tls13NewSessionTicket) (exts : bytes) : Prop := {
  nparts_lifetime : 0 <= lifetime t < 4294967296;
  nparts_age : 0 <= ageAdd t < 4294967296;
  nparts_nonce : blen (nstNonce t) < 256;
  nparts_ticket : blen (ticket t) < 65536;
  nparts_exts : blen exts < 65536
}.

Lemma parseNewSessionTicket_fields t exts :
  nstParts t exts ->
  parseNewSessionTicket (encNST t exts) =
  (med <~ nstExtensions exts ;;
   Ret {| lifetime := lifetime t; ageAdd := ageAdd t; nstNonce := nstNonce t;
          ticket := ticket t; maxEarlyData := med |}).
Proof.
  intros [Hl Ha Hn Ht He].
  pose proof (blen_nonneg (nstNonce t)). pose proof (blen_nonneg (ticket t)).
  pose proof (blen_nonneg exts).
  destruct t as [life age nonce tick med0]; cbn [lifetime ageAdd nstNonce ticket] in *.
  unfold encNST; cbn [lifetime ageAdd nstNonce ticket].
  set (body := _ ++ _).
  assert (H32 : forall v, blen (putBE32 v) = 4) by done.
  assert (Hb : blen body = 13 + blen nonce + blen tick + blen exts)
    by (unfold body; autorewrite with blen; rewrite !H32; lia).
  assert (Hnl : bval (byteOf (blen nonce)) = blen nonce) by (rewrite bval_byteOf, Z.mod_small; lia).
  unfold parseNewSessionTicket, errWhen. rewrite Hb.
  rewrite !(proj2 (Z.ltb_ge (13 + blen nonce + blen tick + blen exts) _)) by lia.
  rewrite (read_from body [] body) by done. cbn [bind]. unfold body at 1.
  rewrite BE_Uint32_put by done. cbn [bind].
  rewrite (read_from body (putBE32 life) (putBE32 age ++ [byteOf (blen nonce)] ++ nonce
    ++ putBE16 (blen tick) ++ tick ++ putBE16 (blen exts) ++ exts)) by done.
  cbn [bind]. rewrite BE_Uint32_put by done. cbn [bind].
  rewrite (read_index body (putBE32 life ++ putBE32 age) (byteOf (blen nonce))
    (nonce ++ putBE16 (blen tick) ++ tick ++ putBE16 (blen exts) ++ exts)) by done.
  cbn [bind]. rewrite Hnl, !(proj2 (Z.ltb_ge (13 + blen nonce + blen tick + blen exts) _)) by lia.
  rewrite (read_slice body (putBE32 life ++ putBE32 age ++ [byteOf (blen nonce)]) nonce
    (putBE16 (blen tick) ++ tick ++ putBE16 (blen exts) ++ exts))
    by (done || (autorewrite with blen; rewrite ?H32; lia)).
  cbn [bind].
  rewrite (read_from body (putBE32 life ++ putBE32 age ++ [byteOf (blen nonce)] ++ nonce)
    (putBE16 (blen tick) ++ tick ++ putBE16 (blen exts) ++ exts))
    by ((unfold body; by rewrite <- ?app_assoc) || (autorewrite with blen; rewrite ?H32; lia)).
  cbn [bind]. rewrite BE_Uint16_put. cbn [bind]. rewrite (u16_small (blen tick)) by lia.
  rewrite !(proj2 (Z.ltb_ge (13 + blen nonce + blen tick + blen exts) _)) by lia.
  rewrite (read_slice body (putBE32 life ++ putBE32 age ++ [byteOf (blen nonce)] ++ nonce
    ++ putBE16 (blen tick)) tick (putBE16 (blen exts) ++ exts))
    by ((unfold body; by rewrite <- ?app_assoc) || (autorewrite with blen; rewrite ?H32; lia)).
  cbn [bind].
  rewrite (read_from body (putBE32 life ++ putBE32 age ++ [byteOf (blen nonce)] ++ nonce
    ++ putBE16 (blen tick) ++ tick) (putBE16 (blen exts) ++ exts))
    by ((unfold body; by rewrite <- ?app_assoc) || (autorewrite with blen; rewrite ?H32; lia)).
  cbn [bind]. rewrite BE_Uint16_put. cbn [bind]. rewrite (u16_small (blen exts)) by lia.
  rewrite (proj2 (Z.ltb_ge (13 + blen nonce + blen tick + blen exts) _)) by lia.
  rewrite (read_slice body (putBE32 life ++ putBE32 age ++ [byteOf (blen nonce)] ++ nonce
    ++ putBE16 (blen tick) ++ tick ++ putBE16 (blen exts)) exts [])
    by ((unfold body; by rewrite app_nil_r, <- ?app_assoc)
        || (autorewrite with blen; rewrite ?H32; lia)).
  done.
Qed.

Lemma nstExtension_other med ty d : ty <> extEarlyData -> nstExtension med ty d = Ret (Next med).
Proof. intros H. unfold nstExtension. by rewrite (proj2 (Z.eqb_neq _ _)). Qed.

Lemma foldExts_nst_skip pre l t med :
  Forall (fun e => fst e <> extEarlyData) pre ->
  foldExts (fun _ => Err "NST: extension length overflow") nstExtension (pre ++ l) t med
  = foldExts (fun _ => Err "NST: extension length overflow") nstExtension l t med.
Proof.
  induction 1 as [|[ty d] pre Hty _ IH]; [done|]. cbn. by rewrite nstExtension_other.
Qed.

(** The value of the early_data extension, 0 without one. *)
Lemma nstExtensions_absent exts :
  Forall extOk exts -> Forall (fun e => fst e <> extEarlyData) exts ->
  nstExtensions (encExts exts) = Ret 0.
Proof.
  intros Hok Hn. unfold nstExtensions. rewrite walkExts_spec, extList_encExts by done.
  rewrite <- (app_nil_r exts), foldExts_nst_skip by done. done.
Qed.

Lemma nstExtensions_earlyData pre post n :
  Forall extOk (pre ++ post) -> Forall (fun e => fst e <> extEarlyData) (pre ++ post) ->
  0 <= n < 4294967296 ->
  nstExtensions (encExts (pre ++ (extEarlyData, putBE32 n) :: post)) = Ret n.
Proof.
  intros Hok Hn Hr. apply Forall_app in Hok as [Hok1 Hok2]. apply Forall_app in Hn as [Hn1 Hn2].
  unfold nstExtensions. rewrite walkExts_spec, extList_encExts.
  - rewrite foldExts_nst_skip by done. cbn [foldExts]. unfold nstExtension at 1.
    change (extEarlyData =? extEarlyData) with true.
    change (4 <=? blen (putBE32 n)) with true. cbn iota.
    rewrite slice_full by done. cbn [bind]. rewrite <- (app_nil_r (putBE32 n)), BE_Uint32_put by done.
    cbn [bind]. rewrite <- (app_nil_r post), foldExts_nst_skip by done. done.
  - apply Forall_app. split; [done|]. constructor; [|done]. by split.
Qed.

(** ** Claims about the messages of the probe *)

(** The ClientHello: for a working random source [buildClientHello] gives
    one handshake message whose length fields are all exact, holding the random,
    the session id and the one cipher suite; its extension block decodes, with
    the decoder the program uses on servers, to supported_versions,
    supported_groups, signature_algorithms, the key share of the public key, the
    psk modes, and the server name when there is one. *)
Theorem buildClientHello_wellformed {Key} `{X25519 Key} sni rnd sid (k : Key) :
  blen rnd = 32 -> blen sid = 32 -> slen sni < 65000 ->
  let exts := clientExtensions sni (publicKeyBytes k) in
  let body := [x03; x03] ++ rnd ++ [byteOf (blen sid)] ++ sid
              ++ [x00; x02; x13; x01] ++ [x01; x00] ++ putBE16 (blen exts) ++ exts in
  buildClientHello sni (goodEntropy rnd sid k)
  = Ret {| chBytes := encMsg hsClientHello body; chRandom := rnd; chSessionID := sid;
           x25519Priv := k; x25519Pub := publicKeyBytes k |} /\
  blen exts < 65536 /\ blen body < 16777216 /\
  extList exts = (clientExtList sni (publicKeyBytes k), Clean).
Proof.
  intros Hr Hs Hl exts body. pose proof (publicKeyBytes_length k) as Hk.
  pose proof (blen_clientExtensions sni _ Hk Hl) as He. fold exts in He.
  pose proof (slen_nonneg sni).
  assert (Hlen : blen exts < 65536) by (destruct (String.eqb sni ""); lia).
  assert (Hb : clientHelloBody sni rnd sid (publicKeyBytes k) = body).
  { unfold clientHelloBody, body. fold exts. rewrite Hs, u16_small by (pose proof (blen_nonneg exts); lia).
    rewrite <- !app_assoc. reflexivity. }
  unfold buildClientHello. cbn [goodEntropy randRandom randSessionID randKey bind].
  rewrite Hb. split; [done|]. split; [done|]. split.
  - unfold body. autorewrite with blen. lia.
  - unfold exts. rewrite clientExtensions_enc by done. by apply extList_encExts, clientExtList_ok.
Qed.

(** [parseServerHello] returns for every input, and what it accepts is
    consistent: a 32-byte random, a 16-bit cipher suite, the HelloRetryRequest
    flag exactly for RFC 8446's special random, a key share unless it is one, and
    transcript bytes that are the whole first message of the input. *)
Theorem parseServerHello_sound msg :
  match parseServerHello msg with
  | Ret sh => shAccepted msg sh
  | Err _ => True
  | Panic | NoFuel => False
  end.
Proof. pose proof (wp_parseServerHello msg) as Hw. by destruct (parseServerHello msg). Qed.

(** Round trip: a ServerHello with one x25519 share among any other
    extensions is parsed to the fields it was built from; bytes that follow the
    message in the record do not matter. *)
Theorem parseServerHello_roundtrip random sid cipher comp pre post pub rest :
  let exts := encExts (pre ++ (extKeyShare, keyShareData pub) :: post) in
  let msg := encMsg hsServerHello (encServerHello random sid cipher comp exts) in
  shParts random sid cipher exts -> random <> hrrRandom -> 0 < blen pub < 65000 ->
  Forall extOk (pre ++ post) -> Forall (fun e => fst e <> extKeyShare) (pre ++ post) ->
  parseServerHello (msg ++ rest)
  = Ret {| shRandom := random; shCipherSuite := cipher; x25519ServerPub := pub;
           helloRetryRequest := false; shBytes := msg |}.
Proof.
  intros exts msg Hparts Hr Hpub Ho Hn. pose proof Hparts as [Hrl Hs _ He].
  unfold msg. rewrite parseServerHello_msg by (rewrite blen_encServerHello by done; lia).
  rewrite parseServerHelloBody_fields by done. unfold exts at 1.
  rewrite shExtensions_share by (done || lia). cbn [bind].
  rewrite bool_decide_false by done. cbn [negb andb errWhen].
  by rewrite (proj2 (Z.eqb_neq _ _)) by lia.
Qed.

(** A HelloRetryRequest as RFC 8446 defines it, whose key_share extension
    holds only the selected group, is never reported as one: the parser fails
    on it with "key_share too short" before its [helloRetryRequest] flag can be
    looked at. *)
Theorem helloRetryRequest_rejected sid cipher comp pre post group rest :
  let exts := encExts (pre ++ (extKeyShare, hrrKeyShareData group) :: post) in
  shParts hrrRandom sid cipher exts ->
  Forall extOk (pre ++ post) -> Forall (fun e => fst e <> extKeyShare) pre ->
  parseServerHello (encMsg hsServerHello (encServerHello hrrRandom sid cipher comp exts) ++ rest)
  = Err "ServerHello: key_share too short".
Proof.
  intros exts Hparts Ho Hn. pose proof Hparts as [Hrl Hs _ He].
  rewrite parseServerHello_msg by (rewrite blen_encServerHello by done; lia).
  rewrite parseServerHelloBody_fields by done. unfold exts.
  by rewrite shExtensions_hrr.
Qed.

(** Round trip of tickets: [parseNewSessionTicket] reads back every field of
    an encoded NewSessionTicket, with the size the early_data extension gives,
    or 0 when there is none. *)
Theorem parseNewSessionTicket_roundtrip t pre post (early : option Z) :
  let exts := encExts (pre ++ match early with
                              | Some n => (extEarlyData, putBE32 n) :: post
                              | None => post
                              end) in
  nstParts t exts ->
  Forall extOk (pre ++ post) -> Forall (fun e => fst e <> extEarlyData) (pre ++ post) ->
  match early with Some n => 0 <= n < 4294967296 | None => True end ->
  parseNewSessionTicket (encNST t exts)
  = Ret {| lifetime := lifetime t; ageAdd := ageAdd t; nstNonce := nstNonce t;
           ticket := ticket t; maxEarlyData := default 0 early |}.
Proof.
  intros exts Hp Ho Hn He. rewrite parseNewSessionTicket_fields by done. unfold exts.
  destruct early as [n|].
  - by rewrite nstExtensions_earlyData.
  - by rewrite nstExtensions_absent.
Qed.

Module HelloWitnesses.
Definition key32 : bytes := repeat x09 32.
#[export] Program Instance fixedX25519 : X25519 unit := {|
  publicKeyBytes _ := key32;
  newPublicKey b := if blen b =? 32 then Ret b else Err "crypto/ecdh: invalid public key";
  ecdhShared _ b := Ret b
|}.
Next Obligation. done. Qed.
Next Obligation. intros b. cbn beta. by destruct (blen b =? 32). Qed.
Next Obligation. done. Qed.

Lemma buildClientHello_wellformed_witness :
  blen (clientExtensions "example.com" key32) = 107 /\
  extList (clientExtensions "example.com" key32) = (clientExtList "example.com" key32, Clean).
Proof.
  pose proof (buildClientHello_wellformed "example.com" (repeat x01 32) (repeat x02 32) tt
    eq_refl eq_refl ltac:(by vm_compute)) as (_ & _ & _ & H).
  split; [vm_compute; reflexivity|exact H].
Defined.

Definition shPre : list (Z * bytes) := [(extSupportedVersions, [x03; x04])].

Lemma parseServerHello_roundtrip_witness :
  parseServerHello (encMsg hsServerHello (encServerHello (repeat x07 32) [x01] 0x1301 x00
    (encExts (shPre ++ [(extKeyShare, keyShareData key32)]))) ++ [xff])
  = Ret {| shRandom := repeat x07 32; shCipherSuite := 0x1301; x25519ServerPub := key32;
           helloRetryRequest := false;
           shBytes := encMsg hsServerHello (encServerHello (repeat x07 32) [x01] 0x1301 x00
             (encExts (shPre ++ [(extKeyShare, keyShareData key32)]))) |}.
Proof.
  apply (parseServerHello_roundtrip (repeat x07 32) [x01] 0x1301 x00 shPre [] key32 [xff]).
  - split; try reflexivity. vm_compute; split; congruence.
  - vm_compute; congruence.
  - vm_compute; split; congruence.
  - repeat constructor; vm_compute; congruence.
  - repeat constructor; vm_compute; congruence.
Defined.

Lemma helloRetryRequest_rejected_witness :
  parseServerHello (encMsg hsServerHello (encServerHello hrrRandom [] 0x1301 x00
    (encExts (shPre ++ [(extKeyShare, hrrKeyShareData 0x0018)]))) ++ [])
  = Err "ServerHello: key_share too short".
Proof.
  apply (helloRetryRequest_rejected [] 0x1301 x00 shPre [] 0x0018 []).
  - split; try reflexivity. vm_compute; split; congruence.
  - repeat constructor; vm_compute; congruence.
  - repeat constructor; vm_compute; congruence.
Defined.

Definition sampleTicket : tls13NewSessionTicket :=
  {| lifetime := 7200; ageAdd := 4294967295; nstNonce := [x00; x01]; ticket := repeat x77 48;
     maxEarlyData := 0 |}.

Lemma parseNewSessionTicket_roundtrip_witness :
  parseNewSessionTicket (encNST sampleTicket
    (encExts ([(0x1234, [x01])] ++ [(extEarlyData, putBE32 4294967295)])))
  = Ret {| lifetime := 7200; ageAdd := 4294967295; nstNonce := [x00; x01]; ticket := repeat x77 48;
           maxEarlyData := 4294967295 |}.
Proof.
  apply (parseNewSessionTicket_roundtrip sampleTicket [(0x1234, [x01])] [] (Some 4294967295)).
  - split; vm_compute; repeat split; congruence.
  - repeat constructor; vm_compute; congruence.
  - repeat constructor; vm_compute; congruence.
  - lia.
Defined.
End HelloWitnesses.
