(* ===== verification/ClientHellos.v ===== *)
(** The TLS 1.2 ClientHellos that advertise one thing and look for its echo:
    the ALPN enumeration of [tls_alpn.go], the extension check of
    [tls_extensions.go], and the extension builders they share with the other
    probes ([buildSNIExtension] of [tls_vulns.go], [buildALPNExtension]). *)

From Stdlib Require Import ZArith List String Ascii Strings.Byte Lia Bool Permutation.
From stdpp Require Import base list strings numbers.
From S2P Require Import Prelude Bytes GoStrings Stream Extensions Flight ServerHello Tls13Hello.
Open Scope Z_scope.

(** ** Extensions *)

Definition buildSNIExtension (host : string) : bytes :=
  let hostBytes := ofString host in
  let inner := [x00] ++ putBE16 (blen hostBytes) in
  let inner := inner ++ hostBytes in
  let list := putBE16 (blen inner) in
  let list := list ++ inner in
  let ext := [x00; x00] ++ putBE16 (blen list) in
  ext ++ list.

Definition buildALPNExtension (protos : list string) : bytes :=
  let protoList := flat_map (fun p => [byteOf (slen p)] ++ ofString p) protos in
  let listLen := blen protoList in
  let out := [x00; x10] ++ putBE16 (listLen + 2) in
  let out := out ++ putBE16 listLen in
  out ++ protoList.

(** ** The ClientHello record

    The bytes that follow the choice of ciphers and extensions are the same in
    every builder; [rnd] is what [rand.Read] left in the 32-byte buffer. *)
Definition helloRecord (version : Z) (rnd cipherBytes extensions : bytes) : bytes :=
  let body := putBE16 version in
  let body := body ++ rnd in
  let body := body ++ [x00] in
  let body := body ++ putBE16 (blen cipherBytes) in
  let body := body ++ cipherBytes in
  let body := body ++ [x01; x00] in
  let body := body ++ putBE16 (blen extensions) in
  let body := body ++ extensions in
  let hs := [x01] ++ putBE24 (blen body) in
  let hs := hs ++ body in
  let rec := [x16] ++ putBE16 version ++ putBE16 (blen hs) in
  rec ++ hs.

Definition legacyCipherSuites : list Z :=
  [0xc02f; 0xc030; 0xc02b; 0xc02c; 0xcca8; 0xcca9; 0xc013; 0xc014; 0xc009; 0xc00a;
   0x009c; 0x009d; 0x002f; 0x0035].

Definition legacyGroups : bytes := [x00; x0a; x00; x08; x00; x06; x00; x1d; x00; x17; x00; x18].
Definition legacySigAlgs : bytes :=
  [x00; x0d; x00; x14; x00; x12;
   x04; x03; x05; x03; x08; x04; x08; x05; x08; x07; x04; x01; x05; x01; x02; x01; x02; x03].

Definition alpnClientHello (host proto : string) (rnd : bytes) : bytes :=
  let cipherBytes := flat_map putBE16 legacyCipherSuites in
  let extensions := buildSNIExtension host in
  let extensions := extensions ++ legacyGroups in
  let extensions := extensions ++ legacySigAlgs in
  let extensions := extensions ++ buildALPNExtension [proto] in
  helloRecord 0x0303 rnd cipherBytes extensions.

Definition extensionAdvertisingClientHello (host : string) (rnd : bytes) : bytes :=
  let cipherBytes := flat_map putBE16 legacyCipherSuites in
  let extensions := buildSNIExtension host in
  let extensions := extensions ++ legacyGroups in
  let extensions := extensions ++ legacySigAlgs in
  let extensions := extensions ++ [x00; x17; x00; x00] in
  let extensions := extensions ++ [xff; x01; x00; x01; x00] in
  helloRecord 0x0303 rnd cipherBytes extensions.

(** ** ALPN enumeration *)

Definition knownALPNProtocols : list string :=
  ["h2"; "http/1.1"; "http/1.0"; "h3"; "h3-29"; "acme-tls/1"; "dot"; "doq"; "smtp"; "imap"; "pop3";
   "managesieve"; "mqtt"; "ftp"; "xmpp-client"; "xmpp-server"; "webrtc"; "c-webrtc"; "coap";
   "stun.turn"; "stun.nat-discovery"; "sunrpc"; "irc"; "nntp"; "radius/1.0"; "radius/1.1"]%string.

Section Probes.
Context {C : Type} `{Reader C}.

(** A connection attempt: [None] when the dial or the write fails, else the
    connection, whose peer may answer according to the hello it was sent. *)
Definition attemptConn : Type := bytes -> option C.

Definition probeOneALPN (net : attemptConn) (host proto : string) (rnd : bytes) : outcome bool :=
  let hello := alpnClientHello host proto rnd in
  match net hello with
  | None => Ret false
  | Some conn =>
      picked <~ readServerHelloALPN conn ;;
      Ret (String.eqb picked proto)
  end.

Record tlsExtensionPosture := {
  ExtendedMasterSecret : bool;
  SecureRenegotiation : bool;
  Determined : bool
}.

Definition probeTLSExtensions (net : attemptConn) (host : string) (rnd : bytes)
    : outcome tlsExtensionPosture :=
  let out := {| ExtendedMasterSecret := false; SecureRenegotiation := false; Determined := false |} in
  let hello := extensionAdvertisingClientHello host rnd in
  match net hello with
  | None => Ret out
  | Some conn =>
      body <~ readServerHelloBody conn ;;
      match body with
      | None => Ret out
      | Some body =>
          ext <~ serverHelloExtensions body ;;
          let ext := default [] ext in
          ems <~ extensionPresent ext 0x0017 ;;
          sr <~ extensionPresent ext 0xff01 ;;
          Ret {| ExtendedMasterSecret := ems; SecureRenegotiation := sr; Determined := true |}
      end
  end.
End Probes.

(** The goroutines of [probeALPN] put their results on a channel in any order:
    [arrivals] is what the receiving loop sees.  [got] is the map it fills. *)
Definition gotAfter (arrivals : list (string * bool)) (p : string) : bool :=
  existsb (fun r => String.eqb (fst r) p && snd r) arrivals.
Definition probeALPN (arrivals : list (string * bool)) : list string :=
  List.filter (gotAfter arrivals) knownALPNProtocols.

(** ** The hellos are well formed *)

Definition sniData (host : string) : bytes :=
  putBE16 (3 + slen host) ++ [x00] ++ putBE16 (slen host) ++ ofString host.
Definition alpnData (proto : string) : bytes :=
  putBE16 (1 + slen proto) ++ [byteOf (slen proto)] ++ ofString proto.

Lemma putBE16_u16 v : putBE16 (u16 v) = putBE16 v.
Proof.
  unfold putBE16, u16. rewrite Z.shiftr_div_pow2 by lia. change (2 ^ 8) with 256.
  f_equal; [|f_equal].
  - rewrite <- byteOf_mod, <- (byteOf_mod (Z.shiftr v 8)), Z.shiftr_div_pow2 by lia.
    change (2 ^ 8) with 256. f_equal. change 65536 with (256 * 256).
    rewrite Z.rem_mul_r by lia. rewrite Z.mul_comm, Z.div_add by lia.
    rewrite Z.div_small by (apply Z.mod_pos_bound; lia). by rewrite Z.add_0_l, Zmod_mod.
  - rewrite <- byteOf_mod, <- (byteOf_mod v). f_equal. change 65536 with (256 * 256).
    rewrite Z.rem_mul_r by lia. rewrite Z.mul_comm, Z_mod_plus_full. apply Zmod_mod.
Qed.

Lemma buildSNIExtension_enc host : buildSNIExtension host = encExt (0, sniData host).
Proof.
  unfold buildSNIExtension, encExt, sniData. cbn [fst snd]. rewrite !putBE16_u16.
  autorewrite with blen. change (putBE16 0) with [x00; x00].
  rewrite <- !app_assoc. cbn [app]. repeat first [lia | progress f_equal].
Qed.

Lemma buildALPNExtension_enc proto : buildALPNExtension [proto] = encExt (16, alpnData proto).
Proof.
  unfold buildALPNExtension, encExt, alpnData. cbn [fst snd flat_map].
  rewrite app_nil_r, !putBE16_u16. autorewrite with blen. change (putBE16 16) with [x00; x10].
  rewrite <- !app_assoc. cbn [app]. repeat first [lia | progress f_equal].
Qed.

(** The extension lists of the two hellos, in order. *)
Definition legacyExts (host : string) (more : list (Z * bytes)) : list (Z * bytes) :=
  (0, sniData host) :: (10, drop 4 legacyGroups) :: (13, drop 4 legacySigAlgs) :: more.

Definition alpnExts (host proto : string) : list (Z * bytes) := legacyExts host [(16, alpnData proto)].
Definition postureExts (host : string) : list (Z * bytes) := legacyExts host [(0x17, []); (0xff01, [x00])].

Lemma blen_sniData host : blen (sniData host) = 5 + slen host.
Proof. unfold sniData. autorewrite with blen. lia. Qed.
Lemma blen_alpnData proto : blen (alpnData proto) = 3 + slen proto.
Proof. unfold alpnData. autorewrite with blen. lia. Qed.

Lemma legacyExts_ok host more :
  slen host < 65000 -> Forall extOk more -> Forall extOk (legacyExts host more).
Proof.
  intros Hh Hm. pose proof (slen_nonneg host).
  constructor; [split; cbn [fst snd]; rewrite ?blen_sniData; lia|].
  constructor; [split; vm_compute; repeat split; congruence|].
  constructor; [split; vm_compute; repeat split; congruence|done].
Qed.

(** [helloRecord] frames its arguments exactly while they fit their fields. *)
Definition helloBody (version : Z) (rnd cipherBytes extensions : bytes) : bytes :=
  putBE16 version ++ rnd ++ [x00] ++ putBE16 (blen cipherBytes) ++ cipherBytes ++ [x01; x00]
  ++ putBE16 (blen extensions) ++ extensions.

Lemma helloRecord_enc version rnd cipherBytes extensions :
  helloRecord version rnd cipherBytes extensions
  = encRecord x16 (putBE16 version) (encMsg x01 (helloBody version rnd cipherBytes extensions)).
Proof. unfold helloRecord, encRecord, encMsg, helloBody. by rewrite <- ?app_assoc. Qed.

Lemma alpnClientHello_enc host proto rnd :
  alpnClientHello host proto rnd
  = helloRecord 0x0303 rnd (flat_map putBE16 legacyCipherSuites) (encExts (alpnExts host proto)).
Proof.
  unfold alpnClientHello, alpnExts, legacyExts. cbn [encExts flat_map].
  rewrite buildSNIExtension_enc, buildALPNExtension_enc, app_nil_r, <- !app_assoc. reflexivity.
Qed.

Lemma extensionAdvertisingClientHello_enc host rnd :
  extensionAdvertisingClientHello host rnd
  = helloRecord 0x0303 rnd (flat_map putBE16 legacyCipherSuites) (encExts (postureExts host)).
Proof.
  unfold extensionAdvertisingClientHello, postureExts, legacyExts. cbn [encExts flat_map].
  rewrite buildSNIExtension_enc, app_nil_r, <- !app_assoc. reflexivity.
Qed.

(** Our own reader finds the protocol that was offered. *)
Lemma alpnValue_alpnData proto : slen proto < 256 -> alpnValue (alpnData proto) = proto.
Proof.
  intros Hp. pose proof (slen_nonneg proto). unfold alpnData, putBE16. cbn [app alpnValue].
  rewrite bval_byteOf, Z.mod_small, blen_ofString, (proj2 (Z.ltb_ge _ _)) by lia.
  rewrite take_ge, toString_ofString; [done|].
  pose proof (blen_ofString proto) as Hl. unfold blen in Hl. lia.
Qed.

(** ** What a server's answer says *)

(** A ServerHello body with any legacy version. *)
Definition legacyServerHello (v1 v0 : byte) (random sid : bytes) (cipher : Z) (comp : byte)
    (exts : bytes) : bytes :=
  [v1; v0] ++ random ++ [byteOf (blen sid)] ++ sid ++ putBE16 cipher ++ [comp]
  ++ putBE16 (blen exts) ++ exts.

Lemma blen_legacyServerHello v1 v0 random sid cipher comp exts :
  blen random = 32 ->
  blen (legacyServerHello v1 v0 random sid cipher comp exts) = 40 + blen sid + blen exts.
Proof. intros H. unfold legacyServerHello. autorewrite with blen. lia. Qed.

Lemma serverHelloExtensions_block v1 v0 random sid cipher comp exts :
  blen random = 32 -> blen sid < 256 -> blen exts < 65536 ->
  serverHelloExtensions (legacyServerHello v1 v0 random sid cipher comp exts) = Ret (Some exts).
Proof.
  intros Hr Hs He. pose proof (blen_nonneg sid). pose proof (blen_nonneg exts).
  unfold serverHelloExtensions. rewrite blen_legacyServerHello by done.
  set (body := legacyServerHello _ _ _ _ _ _ _).
  assert (Hsid : bval (byteOf (blen sid)) = blen sid) by (rewrite bval_byteOf, Z.mod_small; lia).
  set (e1 := byteOf (Z.shiftr (blen exts) 8)). set (e0 := byteOf (blen exts)).
  rewrite (proj2 (Z.ltb_ge _ 35)) by lia.
  rewrite (read_index body ([v1; v0] ++ random) (byteOf (blen sid))
    (sid ++ putBE16 cipher ++ [comp] ++ putBE16 (blen exts) ++ exts))
    by (done || (autorewrite with blen; lia)).
  cbn [bind]. rewrite Hsid, (proj2 (Z.ltb_ge _ _)) by lia.
  set (pre := [v1; v0] ++ random ++ [byteOf (blen sid)] ++ sid ++ putBE16 cipher ++ [comp]).
  assert (Hpre : blen pre = 38 + blen sid) by (unfold pre; autorewrite with blen; lia).
  assert (Hbody : body = pre ++ [e1; e0] ++ exts)
    by (unfold body, pre, legacyServerHello; by rewrite <- !app_assoc).
  rewrite (read_index body pre e1 (e0 :: exts)) by (done || lia).
  rewrite (read_index body (pre ++ [e1]) e0 exts)
    by ((by rewrite Hbody, <- app_assoc) || (autorewrite with blen; lia)).
  cbn [bind]. unfold e1, e0. rewrite be16_putBE16, u16_small by lia.
  rewrite (proj2 (Z.ltb_ge _ _)) by lia.
  rewrite (read_slice body (pre ++ [e1; e0]) exts [])
    by ((by rewrite Hbody, app_nil_r, <- app_assoc) || (autorewrite with blen; lia)).
  done.
Qed.

(** The fixed fields of the body, read by index. *)
Lemma legacyServerHello_reads v1 v0 random sid cipher comp exts :
  blen random = 32 ->
  let body := legacyServerHello v1 v0 random sid cipher comp exts in
  index body 0 = Ret v1 /\ index body 1 = Ret v0 /\
  index body 34 = Ret (byteOf (blen sid)) /\
  index body (35 + blen sid) = Ret (byteOf (Z.shiftr cipher 8)) /\
  index body (35 + blen sid + 1) = Ret (byteOf cipher).
Proof.
  intros Hr body. set (tail := [comp] ++ putBE16 (blen exts) ++ exts).
  set (pre := [v1; v0] ++ random ++ [byteOf (blen sid)] ++ sid).
  assert (Hpre : blen pre = 35 + blen sid) by (unfold pre; autorewrite with blen; lia).
  assert (Hbody : body = pre ++ putBE16 cipher ++ tail).
  { unfold body, pre, legacyServerHello, tail. by rewrite <- !app_assoc. }
  set (rest := random ++ [byteOf (blen sid)] ++ sid ++ putBE16 cipher ++ tail).
  split; [by apply (read_index body [] v1 (v0 :: rest))|].
  split; [by apply (read_index body [v1] v0 rest)|]. split; [|split].
  - apply (read_index body ([v1; v0] ++ random) (byteOf (blen sid)) (sid ++ putBE16 cipher ++ tail));
      [done|autorewrite with blen; lia].
  - apply (read_index body pre _ (byteOf cipher :: tail)); [done|lia].
  - apply (read_index body (pre ++ [byteOf (Z.shiftr cipher 8)]) _ tail);
      [by rewrite Hbody, <- app_assoc|autorewrite with blen; lia].
Qed.

Section Answers.
Context {C : Type} `{Reader C}.

(** The peer's first record holds a ServerHello with extensions [exts]. *)
Record answered (c : C) (exts : list (Z * bytes)) : Prop := {
  ans_stream : exists rv1 rv0 v1 v0 random sid cipher comp mrest rest,
    let record := encMsg x02 (legacyServerHello v1 v0 random sid cipher comp (encExts exts)) ++ mrest in
    pending c = encRecord x16 [rv1; rv0] record ++ rest /\
    blen random = 32 /\ blen sid < 256 /\ blen record <= 18432;
  ans_exts : Forall extOk exts
}.

(** What [readServerHelloBody] then gives has the extension block. *)
Lemma answered_body c exts :
  answered c exts ->
  exists body, readServerHelloBody c = Ret (Some body) /\
    serverHelloExtensions body = Ret (Some (encExts exts)).
Proof.
  intros [(rv1 & rv0 & v1 & v0 & random & sid & cipher & comp & mrest & rest & Hp & Hr & Hs & Hl) _].
  exists (legacyServerHello v1 v0 random sid cipher comp (encExts exts)). split.
  - apply (readServerHelloBody_finds c rv1 rv0 [] _ mrest rest); [exact Hp|constructor|exact Hl].
  - apply serverHelloExtensions_block; [done|done|].
    rewrite blen_app, encMsg_length, blen_legacyServerHello in Hl by done.
    pose proof (blen_nonneg mrest). pose proof (blen_nonneg sid). lia.
Qed.

Definition firstALPN (exts : list (Z * bytes)) : string :=
  match firstExt 16 exts with Some d => alpnValue d | None => ""%string end.

Lemma readServerHelloALPN_answered c exts :
  answered c exts -> readServerHelloALPN c = Ret (firstALPN exts).
Proof.
  intros Ha. destruct (answered_body c exts Ha) as (body & Hb & He).
  unfold readServerHelloALPN. rewrite Hb. cbn [bind]. rewrite He. cbn [bind].
  rewrite alpnFromExtensions_spec, extList_encExts by apply Ha. done.
Qed.
End Answers.

(** ** Claims about the ALPN and extension probes *)

(** The ClientHellos of the two probes are well formed for every host and
    protocol name that fits a DNS name and an ALPN entry: every length field is
    exact, the extension block decodes to server_name, supported_groups,
    signature_algorithms and the advertised extension(s), in that order, and the
    program's own reader finds the one offered protocol in it. *)
Theorem legacyHellos_wellformed host proto rnd :
  slen host <= 60000 -> slen proto < 256 -> blen rnd = 32 ->
  (exists body, alpnClientHello host proto rnd = encRecord x16 [x03; x03] (encMsg x01 body) /\
     body = helloBody 0x0303 rnd (flat_map putBE16 legacyCipherSuites) (encExts (alpnExts host proto)) /\
     blen (encExts (alpnExts host proto)) < 65536 /\ blen (encMsg x01 body) < 65536 /\
     extList (encExts (alpnExts host proto)) = (alpnExts host proto, Clean) /\
     alpnFromExtensions (encExts (alpnExts host proto)) = Ret proto) /\
  (exists body, extensionAdvertisingClientHello host rnd = encRecord x16 [x03; x03] (encMsg x01 body) /\
     body = helloBody 0x0303 rnd (flat_map putBE16 legacyCipherSuites) (encExts (postureExts host)) /\
     blen (encExts (postureExts host)) < 65536 /\ blen (encMsg x01 body) < 65536 /\
     extList (encExts (postureExts host)) = (postureExts host, Clean)).
Proof.
  intros Hh Hp Hr. pose proof (slen_nonneg host). pose proof (slen_nonneg proto).
  assert (Ha : Forall extOk (alpnExts host proto)).
  { apply legacyExts_ok; [lia|]. constructor; [|done]. split; cbn [fst snd]; rewrite ?blen_alpnData; lia. }
  assert (Hx : Forall extOk (postureExts host)).
  { apply legacyExts_ok; [lia|]. repeat constructor; vm_compute; congruence. }
  assert (Hc : blen (flat_map putBE16 legacyCipherSuites) = 28) by reflexivity.
  assert (La : blen (encExts (alpnExts host proto)) = 52 + slen host + slen proto).
  { rewrite blen_encExts. unfold alpnExts, legacyExts. cbn [foldr snd].
    rewrite blen_sniData, blen_alpnData. change (blen (drop 4 legacyGroups)) with 8.
    change (blen (drop 4 legacySigAlgs)) with 20. lia. }
  assert (Lx : blen (encExts (postureExts host)) = 54 + slen host).
  { rewrite blen_encExts. unfold postureExts, legacyExts. cbn [foldr snd].
    rewrite blen_sniData. change (blen (drop 4 legacyGroups)) with 8.
    change (blen (drop 4 legacySigAlgs)) with 20. autorewrite with blen. lia. }
  split; eexists.
  - rewrite alpnClientHello_enc, helloRecord_enc. split; [done|]. split; [done|].
    split; [lia|]. split; [unfold helloBody; rewrite encMsg_length; autorewrite with blen; lia|].
    split; [by apply extList_encExts|].
    rewrite alpnFromExtensions_spec, extList_encExts by done. 
    change (firstExt 16 (fst (alpnExts host proto, Clean))) with (Some (alpnData proto)). cbv iota beta.
    by rewrite alpnValue_alpnData.
  - rewrite extensionAdvertisingClientHello_enc, helloRecord_enc. split; [done|]. split; [done|].
    split; [lia|]. split; [unfold helloBody; rewrite encMsg_length; autorewrite with blen; lia|].
    by apply extList_encExts.
Qed.

Lemma legacyHellos_wellformed_witness :
  alpnFromExtensions (encExts (alpnExts "example.com" "acme-tls/1")) = Ret "acme-tls/1"%string.
Proof.
  pose proof (legacyHellos_wellformed "example.com" "acme-tls/1" (repeat x5a 32)
    ltac:(by vm_compute) ltac:(by vm_compute) eq_refl) as ((body & _ & _ & _ & _ & _ & Hv) & _).
  exact Hv.
Defined.

(** The verdicts of the two probes: when the peer answers with a ServerHello
    carrying extensions [exts], [probeOneALPN] says whether the first ALPN
    extension picks the offered protocol, and [probeTLSExtensions] is determined
    and reports exactly the presence of extended_master_secret and
    renegotiation_info. *)
Theorem legacyProbes_verdict {C} `{Reader C} (net : attemptConn (C := C)) host proto rnd c exts :
  answered c exts ->
  (net (alpnClientHello host proto rnd) = Some c ->
   probeOneALPN net host proto rnd = Ret (String.eqb (firstALPN exts) proto)) /\
  (net (extensionAdvertisingClientHello host rnd) = Some c ->
   probeTLSExtensions net host rnd
   = Ret {| ExtendedMasterSecret := existsb (fun e => fst e =? 0x0017) exts;
            SecureRenegotiation := existsb (fun e => fst e =? 0xff01) exts;
            Determined := true |}).
Proof.
  intros Ha. split; intros Hnet.
  - unfold probeOneALPN. rewrite Hnet, (readServerHelloALPN_answered c exts Ha). done.
  - destruct (answered_body c exts Ha) as (body & Hb & He).
    unfold probeTLSExtensions. rewrite Hnet, Hb. cbn [bind]. rewrite He.
    change (default [] (Some (encExts exts))) with (encExts exts). cbn [bind].
    change (default [] (Some (encExts exts))) with (encExts exts).
    rewrite !extensionPresent_spec, extList_encExts by apply Ha. done.
Qed.

Definition sampleAnswer : list (Z * bytes) := [(0xff01, [x00]); (16, alpnData "h2")].
Definition sampleStream : bytes :=
  encRecord x16 [x03; x03]
    (encMsg x02 (legacyServerHello x03 x03 (repeat x01 32) [] 0xc02f x00 (encExts sampleAnswer))).

Lemma legacyProbes_verdict_witness :
  probeOneALPN (fun _ => Some sampleStream) "example.com" "h2" (repeat x5a 32) = Ret true /\
  probeTLSExtensions (fun _ => Some sampleStream) "example.com" (repeat x5a 32)
  = Ret {| ExtendedMasterSecret := false; SecureRenegotiation := true; Determined := true |}.
Proof.
  assert (Ha : answered sampleStream sampleAnswer).
  { split; [|repeat constructor; vm_compute; congruence].
    exists x03, x03, x03, x03, (repeat x01 32), [], 0xc02f, x00, [], []. by vm_compute. }
  pose proof (legacyProbes_verdict (fun _ => Some sampleStream) "example.com" "h2" (repeat x5a 32)
    sampleStream sampleAnswer Ha) as [H1 H2].
  split; [exact (H1 eq_refl)|exact (H2 eq_refl)].
Defined.

Lemma gotAfter_Permutation l l' p : Permutation l l' -> gotAfter l p = gotAfter l' p.
Proof.
  unfold gotAfter. induction 1 as [|? ? ? _ IH| |]; cbn; try congruence.
  by rewrite !orb_assoc, (orb_comm (_ && _)).
Qed.

Lemma gotAfter_map ok l p :
  In p l -> gotAfter (map (fun q => (q, ok q)) l) p = ok p.
Proof.
  intros Hin. unfold gotAfter. apply eq_true_iff_eq. rewrite existsb_exists. split.
  - intros (r & Hr & Hb). apply in_map_iff in Hr as (q & <- & _). cbn in Hb.
    apply andb_prop in Hb as [Hq Ho]. apply String.eqb_eq in Hq. by subst.
  - intros Ho. exists (p, ok p). split; [apply in_map_iff; by exists p|]. cbn.
    by rewrite String.eqb_refl, Ho.
Qed.

(** The ALPN enumeration does not depend on the scheduling of its goroutines:
    in whatever order the per-protocol results arrive on the channel, the list
    reported is the accepted protocols in registry order. *)
Theorem probeALPN_deterministic ok arrivals :
  Permutation arrivals (map (fun p => (p, ok p)) knownALPNProtocols) ->
  probeALPN arrivals = List.filter ok knownALPNProtocols.
Proof.
  intros Hp. unfold probeALPN.
  assert (Hin : incl knownALPNProtocols knownALPNProtocols) by apply incl_refl.
  revert Hin. generalize knownALPNProtocols at 1 3 4 as l. induction l as [|p l IH]; intros Hin; [done|].
  cbn [List.filter]. rewrite IH by (intros q Hq; apply Hin; by right).
  rewrite (gotAfter_Permutation _ _ p Hp), gotAfter_map by (apply Hin; by left). done.
Qed.

Lemma probeALPN_deterministic_witness :
  probeALPN (rev (map (fun p => (p, HasPrefix p "h")) knownALPNProtocols))
  = ["h2"; "http/1.1"; "http/1.0"; "h3"; "h3-29"]%string.
Proof.
  rewrite (probeALPN_deterministic (fun p => HasPrefix p "h")).
  - reflexivity.
  - symmetry. apply Permutation_rev.
Defined.
