(* ===== verification/Dh.v ===== *)
(** The Diffie-Hellman probe of [tls_dh.go]: a DHE-only ClientHello, the walk to
    the ServerKeyExchange, the prime in it, and the table of shared primes. *)

From Stdlib Require Import ZArith List String Ascii Strings.Byte Lia Bool.
From stdpp Require Import base list strings numbers gmap.
From S2P Require Import Prelude Bytes GoStrings Digest Stream Extensions Flight Service ClientHellos.
Open Scope Z_scope.

Record dhParameterPosture := {
  Supported : bool;
  Bits : Z;
  CommonPrime : bool;
  PrimeName : string;
  FingerprintSHA : string;
  Determined : bool
}.
Definition noPosture : dhParameterPosture :=
  {| Supported := false; Bits := 0; CommonPrime := false; PrimeName := ""; FingerprintSHA := ""; Determined := false |}.

(** ** The table of shared primes *)

Definition commonPrimeRaw : list (string * string) :=
  [
    ("RFC 2409 Group 1 (768-bit MODP)",
     "FFFFFFFFFFFFFFFFC90FDAA22168C234C4C6628B80DC1CD1"
       +:+ "29024E088A67CC74020BBEA63B139B22514A08798E3404DD"
       +:+ "EF9519B3CD3A431B302B0A6DF25F14374FE1356D6D51C245"
       +:+ "E485B576625E7EC6F44C42E9A63A3620FFFFFFFFFFFFFFFF");
    ("RFC 2409 Group 2 (1024-bit MODP — Apache/mod_ssl/JDK default)",
     "FFFFFFFFFFFFFFFFC90FDAA22168C234C4C6628B80DC1CD1"
       +:+ "29024E088A67CC74020BBEA63B139B22514A08798E3404DD"
       +:+ "EF9519B3CD3A431B302B0A6DF25F14374FE1356D6D51C245"
       +:+ "E485B576625E7EC6F44C42E9A637ED6B0BFF5CB6F406B7ED"
       +:+ "EE386BFB5A899FA5AE9F24117C4B1FE649286651ECE65381"
       +:+ "FFFFFFFFFFFFFFFF");
    ("RFC 5114 Group 22 (1024-bit MODP with 160-bit prime-order subgroup)",
     "B10B8F96A080E01DDE92DE5EAE5D54EC52C99FBCFB06A3C6"
       +:+ "9A6A9DCA52D23B616073E28675A23D189838EF1E2EE652C0"
       +:+ "13ECB4AEA906112324975C3CD49B83BFACCBDD7D90C4BD70"
       +:+ "98488E9C219A73724EFFD6FAE5644738FAA31A4FF55BCCC0"
       +:+ "A151AF5F0DC8B4BD45BF37DF365C1A65E68CFDA76D4DA708"
       +:+ "DF1FB2BC2E4A4371");
    ("RFC 3526 Group 5 (1536-bit MODP)",
     "FFFFFFFFFFFFFFFFC90FDAA22168C234C4C6628B80DC1CD1"
       +:+ "29024E088A67CC74020BBEA63B139B22514A08798E3404DD"
       +:+ "EF9519B3CD3A431B302B0A6DF25F14374FE1356D6D51C245"
       +:+ "E485B576625E7EC6F44C42E9A637ED6B0BFF5CB6F406B7ED"
       +:+ "EE386BFB5A899FA5AE9F24117C4B1FE649286651ECE45B3D"
       +:+ "C2007CB8A163BF0598DA48361C55D39A69163FA8FD24CF5F"
       +:+ "83655D23DCA3AD961C62F356208552BB9ED529077096966D"
       +:+ "670C354E4ABC9804F1746C08CA237327FFFFFFFFFFFFFFFF");
    ("RFC 3526 Group 14 (2048-bit MODP — strong)",
     "FFFFFFFFFFFFFFFFC90FDAA22168C234C4C6628B80DC1CD1"
       +:+ "29024E088A67CC74020BBEA63B139B22514A08798E3404DD"
       +:+ "EF9519B3CD3A431B302B0A6DF25F14374FE1356D6D51C245"
       +:+ "E485B576625E7EC6F44C42E9A637ED6B0BFF5CB6F406B7ED"
       +:+ "EE386BFB5A899FA5AE9F24117C4B1FE649286651ECE45B3D"
       +:+ "C2007CB8A163BF0598DA48361C55D39A69163FA8FD24CF5F"
       +:+ "83655D23DCA3AD961C62F356208552BB9ED529077096966D"
       +:+ "670C354E4ABC9804F1746C08CA18217C32905E462E36CE3B"
       +:+ "E39E772C180E86039B2783A2EC07A28FB5C55DF06F4C52C9"
       +:+ "DE2BCBF6955817183995497CEA956AE515D2261898FA0510"
       +:+ "15728E5A8AACAA68FFFFFFFFFFFFFFFF")
  ]%string.

(** Without the white space; [nil] when what is left is no hexadecimal string. *)
Fixpoint stripBlanks (s : string) : string :=
  match s with
  | EmptyString => EmptyString
  | String r s' => if (code r =? 32) || (code r =? 10) || (code r =? 9) || (code r =? 13) then stripBlanks s'
                   else String r (stripBlanks s')
  end.
Definition parseHexBlob (s : string) : bytes := default [] (hexDecodeString (stripBlanks s)).

Definition fingerprint (p : bytes) : string := ToUpper (hexEncode (sha256 p)).
Definition commonPrimeDB : gmap string string :=
  fold_left (fun db e => <[fingerprint (parseHexBlob (snd e)) := fst e]> db) commonPrimeRaw ∅.

(** ** The probe *)

Definition dhCipherSuites : list Z := [0x009e; 0x009f; 0xccaa; 0x0033; 0x0039; 0x0067; 0x006b; 0x0016].
Definition dhClientHello (host : string) (rnd : bytes) : bytes :=
  let cipherBytes := flat_map putBE16 dhCipherSuites in
  let extensions := buildSNIExtension host in
  let extensions := extensions ++ legacyGroups in
  let extensions := extensions ++ legacySigAlgs in
  helloRecord 0x0303 rnd cipherBytes extensions.

(** [None] is [nil]. *)
Definition extractDHPrime (ske : bytes) : outcome (option bytes) :=
  if blen ske <? 2 then Ret None else
  a <~ index ske 0 ;; b <~ index ske 1 ;;
  let pLen := be16 a b in
  if blen ske <? 2 + pLen then Ret None else
  p <~ slice ske 2 (2 + pLen) ;;
  Ret (Some p).

(** [new(big.Int).SetBytes(p).BitLen()] *)
Definition bitLen (v : Z) : Z := if v =? 0 then 0 else Z.log2 v + 1.

(** [out] before the walk. *)
Definition reached : dhParameterPosture :=
  {| Supported := false; Bits := 0; CommonPrime := false; PrimeName := ""; FingerprintSHA := ""; Determined := true |}.

Definition postureOfPrime (p : bytes) : dhParameterPosture :=
  let fp := fingerprint p in
  {| Supported := true; Bits := bitLen (beVal p);
     CommonPrime := match commonPrimeDB !! fp with Some _ => true | None => false end;
     PrimeName := default ""%string (commonPrimeDB !! fp);
     FingerprintSHA := fp; Determined := true |}.

(** The [switch] on the type of a message. *)
Definition onKeyExchange (body : bytes) (hsType : byte) (lo hi : Z) : outcome (option dhParameterPosture) :=
  if beq hsType x0c then
    ske <~ slice body lo hi ;;
    p <~ extractDHPrime ske ;;
    match p with
    | None => Ret (Some {| Supported := true; Bits := 0; CommonPrime := false; PrimeName := ""; FingerprintSHA := "";
                           Determined := true |})
    | Some p => Ret (Some (postureOfPrime p))
    end
  else if beq hsType x0e then Ret (Some reached)
  else Ret None.

Definition probeDHParameters {C} `{Reader C} (net : attemptConn (C := C)) (host : string) (rnd : bytes)
    : outcome dhParameterPosture :=
  match net (dhClientHello host rnd) with
  | None => Ret noPosture
  | Some conn => readFlight reached onKeyExchange conn
  end.

(** ** What the probe reports *)

Definition primeOf (ske : bytes) : option bytes :=
  match ske with
  | a :: b :: r => if blen r <? be16 a b then None else Some (take (Z.to_nat (be16 a b)) r)
  | _ => None
  end.

Lemma extractDHPrime_spec ske : extractDHPrime ske = Ret (primeOf ske).
Proof.
  unfold extractDHPrime. destruct ske as [|a [|b r]]; try done.
  pose proof (blen_nonneg r). pose proof (be16_range a b).
  rewrite !blen_cons, (proj2 (Z.ltb_ge _ _)) by lia. cbn [primeOf].
  rewrite (read_index (a :: b :: r) [] a (b :: r) 0), (read_index (a :: b :: r) [a] b r 1) by done. cbn [bind].
  destruct (Z.ltb_spec (blen r) (be16 a b)).
  - by rewrite (proj2 (Z.ltb_lt _ _)) by lia.
  - rewrite (proj2 (Z.ltb_ge _ _)) by lia.
    rewrite (read_slice _ [a; b] (take (Z.to_nat (be16 a b)) r) (drop (Z.to_nat (be16 a b)) r)); [done|..].
    + by rewrite take_drop.
    + done.
    + rewrite blen_take by lia. done.
Qed.

Definition pickKeyExchange (hsType : byte) (body : bytes) : option dhParameterPosture :=
  if beq hsType x0c then
    Some (match primeOf body with
          | None => {| Supported := true; Bits := 0; CommonPrime := false; PrimeName := ""; FingerprintSHA := "";
                       Determined := true |}
          | Some p => postureOfPrime p
          end)
  else if beq hsType x0e then Some reached else None.

#[export] Instance onKeyExchange_handler : Handler onKeyExchange pickKeyExchange.
Proof.
  intros b ty lo hi Hlo Hhi. unfold onKeyExchange, pickKeyExchange.
  destruct (beq ty x0c); [|by destruct (beq ty x0e)].
  rewrite slice_ok by lia. cbn [bind]. rewrite extractDHPrime_spec. cbn [bind]. by destruct (primeOf _).
Qed.

(** A ServerKeyExchange body: prime, generator and share, and the signature. *)
Definition encSKE (p rest : bytes) : bytes := putBE16 (blen p) ++ p ++ rest.

Lemma primeOf_enc p rest : blen p < 65536 -> primeOf (encSKE p rest) = Some p.
Proof.
  intros Hp. unfold encSKE, putBE16. cbn [app primeOf].
  rewrite be16_putBE16, u16_small, blen_app by (pose proof (blen_nonneg p); lia).
  rewrite (proj2 (Z.ltb_ge _ _)) by (pose proof (blen_nonneg rest); lia).
  rewrite take_app_length'; [done|]. unfold blen. lia.
Qed.

Lemma firstPick_before before m after :
  Forall (fun m : byte * bytes => fst m <> x0c /\ fst m <> x0e) before ->
  firstPick pickKeyExchange (before ++ m :: after)
  = match pickKeyExchange (fst m) (snd m) with Some r => Some r | None => firstPick pickKeyExchange after end.
Proof.
  intros Hb. rewrite firstPick_app. replace (firstPick pickKeyExchange before) with (@None dhParameterPosture); [done|].
  induction Hb as [|[ty b] before [H1 H2] Hb IH]; [done|]. cbn [firstPick fst snd] in *. unfold pickKeyExchange at 1.
  destruct (beq ty x0c) eqn:E; [by apply beq_true in E|]. by destruct (beq ty x0e) eqn:E'; [apply beq_true in E'|].
Qed.

(** The DH probe against any peer: it returns, and when it says that the server
    did a DHE key exchange the stream holds a ServerKeyExchange message. Against a
    server that sends its flight as records of whole messages, the first
    ServerKeyExchange gives exactly the posture of its prime - bit length of the
    number, SHA-256 fingerprint, and the entry of the table with that fingerprint -
    and a ServerHelloDone before any ServerKeyExchange gives "not supported". *)
Theorem probeDHParameters_report {C} `{Reader C} (net : attemptConn (C := C)) host rnd conn v1 v0 recs rest before ty body after
  (Hnet : net (dhClientHello host rnd) = Some conn)
  (Hrecs : Forall recOk recs)
  (Hconn : pending conn = encFlight v1 v0 recs ++ rest)
  (Hmsgs : flightMsgs recs = before ++ (ty, body) :: after)
  (Hbefore : Forall (fun m : byte * bytes => fst m <> x0c /\ fst m <> x0e) before) :
  (forall p r, ty = x0c -> blen p < 65536 -> body = encSKE p r ->
     probeDHParameters net host rnd = Ret (postureOfPrime p))
  /\ (ty = x0e -> probeDHParameters net host rnd = Ret reached)
  /\ (forall net' host' rnd', exists out, probeDHParameters (C := C) net' host' rnd' = Ret out
       /\ (Supported out = true -> exists conn' ske, net' (dhClientHello host' rnd') = Some conn'
            /\ occurs (encMsg x0c ske) (pending conn'))).
Proof.
  unfold probeDHParameters. rewrite Hnet. split_and!.
  - intros p r -> Hp ->. eapply readFlight_finds; [apply onKeyExchange_handler|exact Hrecs|exact Hconn|].
    rewrite Hmsgs, firstPick_before by done. cbn [fst snd]. unfold pickKeyExchange. change (beq x0c x0c) with true.
    by rewrite primeOf_enc.
  - intros ->. eapply readFlight_finds; [apply onKeyExchange_handler|exact Hrecs|exact Hconn|].
    by rewrite Hmsgs, firstPick_before.
  - intros net' host' rnd'. destruct (net' (dhClientHello host' rnd')) as [c|]; [|by exists noPosture].
    pose proof (wp_readFlight reached onKeyExchange pickKeyExchange c) as Hw.
    destruct (readFlight reached onKeyExchange c) as [out| | |]; try done. exists out. split; [done|].
    intros Hs. destruct Hw as [->|(t & ske & Hp & Ho)]; [done|]. exists c, ske. split; [done|].
    unfold pickKeyExchange in Hp. destruct (beq t x0c) eqn:E; [by apply beq_true in E as ->|].
    destruct (beq t x0e); [|done]. by injection Hp as <-.
Qed.

Definition group1 : bytes := parseHexBlob (snd (nth 0 commonPrimeRaw ("", "")%string)).
Definition dhFlight : list flightRecord :=
  [Messages [(x02, [x03; x03]); (x0b, [x00; x00; x00])]; Other x14 [x01]; Messages [(x0c, encSKE group1 [x00; x01; x02])]].

Lemma probeDHParameters_report_witness :
  exists out, probeDHParameters (fun _ => Some (encFlight x03 x03 dhFlight ++ [x16])) "h" (repeat x07 32) = Ret out
  /\ Bits out = 768 /\ CommonPrime out = true.
Proof.
  exists (postureOfPrime group1). split; [|by vm_compute].
  refine (proj1 (probeDHParameters_report (fun _ => Some (encFlight x03 x03 dhFlight ++ [x16])) "h" (repeat x07 32)
    (encFlight x03 x03 dhFlight ++ [x16]) x03 x03 dhFlight [x16] [(x02, [x03; x03]); (x0b, [x00; x00; x00])]
    x0c (encSKE group1 [x00; x01; x02]) [] eq_refl _ eq_refl eq_refl _) group1 [x00; x01; x02] eq_refl _ eq_refl).
  - repeat constructor; by vm_compute.
  - by repeat constructor.
  - by vm_compute.
Defined.

(** The table of shared primes: its five primes have the bit lengths their names
    give and five different fingerprints, and each of them - and by the fingerprint
    alone, so the 2048-bit group too, that the table calls strong - is reported as a
    shared prime under its own name. A zero byte in front, which leaves the number
    and the reported bit length as they are, hides a shared prime. *)
Theorem commonPrimeDB_spec :
  map (fun e => bitLen (beVal (parseHexBlob (snd e)))) commonPrimeRaw = [768; 1024; 1024; 1536; 2048]
  /\ size commonPrimeDB = 5%nat
  /\ Forall (fun e => CommonPrime (postureOfPrime (parseHexBlob (snd e))) = true
       /\ PrimeName (postureOfPrime (parseHexBlob (snd e))) = fst e
       /\ CommonPrime (postureOfPrime (x00 :: parseHexBlob (snd e))) = false
       /\ Bits (postureOfPrime (x00 :: parseHexBlob (snd e))) = Bits (postureOfPrime (parseHexBlob (snd e)))) commonPrimeRaw.
Proof. apply (bool_decide_unpack _). by vm_compute. Qed.

(** A ServerKeyExchange that does not end in the record it starts in is legal
    TLS and is missed: the probe reports, as a determined result, that the server
    does not do DHE. *)
Theorem dh_fragmented_missed {C} `{Reader C} (net : attemptConn (C := C)) host rnd conn v1 v0 recs msgs ske n rest
  (Hnet : net (dhClientHello host rnd) = Some conn)
  (Hrecs : Forall recOk recs) (Hmsgs : Forall msgOk msgs)
  (Hbefore : Forall (fun m : byte * bytes => fst m <> x0c /\ fst m <> x0e) (flightMsgs recs ++ msgs))
  (Hske : blen ske < 16777216) (Hn : 4 <= n < 4 + blen ske)
  (Hlen : blen (encMsgs msgs ++ take (Z.to_nat n) (encMsg x0c ske)) <= 18432)
  (Hconn : pending conn = encFlight v1 v0 recs
     ++ encRecord x16 [v1; v0] (encMsgs msgs ++ take (Z.to_nat n) (encMsg x0c ske)) ++ rest) :
  probeDHParameters net host rnd = Ret reached /\ Supported reached = false /\ Determined reached = true.
Proof.
  split; [|done]. unfold probeDHParameters. rewrite Hnet.
  eapply readFlight_truncated; [apply onKeyExchange_handler|exact Hrecs|exact Hmsgs|exact Hske|exact Hn|exact Hlen|exact Hconn|].
  pose proof (firstPick_before _ (x00, []) [] Hbefore) as Hf. cbn in Hf.
  rewrite firstPick_app in Hf. by destruct (firstPick pickKeyExchange (flightMsgs recs ++ msgs)).
Qed.

Definition fragmentedStream : bytes :=
  encFlight x03 x03 [Messages [(x02, [x03; x03])]]
  ++ encRecord x16 [x03; x03] (encMsgs [] ++ take 50 (encMsg x0c (encSKE group1 []))) ++ [x16].

Lemma dh_fragmented_missed_witness :
  probeDHParameters (fun _ => Some fragmentedStream) "h" [] = Ret reached.
Proof.
  refine (proj1 (dh_fragmented_missed (fun _ => Some fragmentedStream) "h" [] fragmentedStream x03 x03
    [Messages [(x02, [x03; x03])]] [] (encSKE group1 []) 50 [x16] eq_refl _ _ _ _ _ _ eq_refl)).
  - repeat constructor; by vm_compute.
  - constructor.
  - by repeat constructor.
  - by vm_compute.
  - vm_compute. split; [discriminate|reflexivity].
  - vm_compute. discriminate.
Defined.
