(* ===== verification/Pqc.v ===== *)
(** The post-quantum key-exchange probe of [tls_pqc.go] and the Ticketbleed probe of
    [tls_ticketbleed.go]: one ClientHello each, and one look at the ServerHello. *)

From Stdlib Require Import ZArith List String Ascii Strings.Byte Lia Bool.
From stdpp Require Import base list strings numbers.
From S2P Require Import Prelude Bytes GoStrings Stream Extensions Flight ServerHello ClientHellos.
Open Scope Z_scope.

(** ** X25519MLKEM768 *)

Record pqcResult := { Supported : bool; GroupCode : Z; GroupName : string }.

(** The two buffers that [rand.Read] fills are arguments. *)
Definition pqcClientHello (host : string) (rnd pqcKey : bytes) : bytes :=
  let supportedGroups := [x00; x0a; x00; x08; x00; x06; x11; xec; x00; x1d; x00; x17] in
  let supportedVersions := [x00; x2b; x00; x03; x02; x03; x04] in
  let keyShareEntry := [x11; xec; x04; xc0] ++ pqcKey in
  let keyShareList := putBE16 (blen keyShareEntry) ++ keyShareEntry in
  let keyShare := [x00; x33] ++ putBE16 (blen keyShareList) ++ keyShareList in
  let extensions := buildSNIExtension host in
  let extensions := extensions ++ supportedGroups in
  let extensions := extensions ++ legacySigAlgs in
  let extensions := extensions ++ supportedVersions in
  let extensions := extensions ++ buildALPNExtension ["h2"; "http/1.1"]%string in
  let extensions := extensions ++ keyShare in
  helloRecord 0x0303 rnd [x13; x01; x13; x02; x13; x03] extensions.

(** The walk over the extensions; [wide] is the test on the length of a key_share. *)
Definition keyShareGroup (wide : Z -> bool) (ext : bytes) : outcome bool :=
  orElse false
    (walkExts (fun a => Ret (inl a))
       (fun (a : unit) extType edata =>
          if (extType =? 0x0033) && wide (blen edata) then
            g1 <~ index edata 0 ;; g0 <~ index edata 1 ;;
            Ret (if be16 g1 g0 =? 0x11ec then Return true else Next a)
          else Ret (Next a))
       ext tt).

Definition hrrMagic : bytes :=
  [xcf; x21; xad; x74; xe5; x9a; x61; x11; xbe; x1d; x8c; x02; x1e; x65; xb8; x91;
   xc2; xa2; x11; x16; x7a; xbb; x8c; x5e; x07; x9e; x09; xe2; xc8; xa8; x33; x9c].

Definition pqcYes : pqcResult := {| Supported := true; GroupCode := 0x11ec; GroupName := "X25519MLKEM768" |}.
Definition pqcNo : pqcResult := {| Supported := false; GroupCode := 0; GroupName := "" |}.

Definition bytesEqual (a b : bytes) : bool := bool_decide (a = b).

Section Probes.
Context {C : Type} `{Reader C}.

Definition probePQC (net : attemptConn (C := C)) (host : string) (rnd pqcKey : bytes) : outcome pqcResult :=
  match net (pqcClientHello host rnd pqcKey) with
  | None => Ret pqcNo
  | Some conn =>
      body <~ readServerHelloBody conn ;;
      match body with
      | None => Ret pqcNo
      | Some body =>
          ext <~ serverHelloExtensions body ;;
          let ext := default [] ext in
          found <~ keyShareGroup (fun n => 2 <=? n) ext ;;
          if (found : bool) then Ret pqcYes
          else if 34 <=? blen body then
            serverRandom <~ slice body 2 34 ;;
            if bytesEqual serverRandom hrrMagic then
              found <~ keyShareGroup (fun n => n =? 2) ext ;;
              Ret (if (found : bool) then pqcYes else pqcNo)
            else Ret pqcNo
          else Ret pqcNo
      end
  end.

(** ** Ticketbleed *)

Definition ticketbleedClientHello (host : string) (marker : byte) (rnd : bytes) : bytes :=
  let cipherBytes := flat_map putBE16 [0xc02f; 0xc030; 0xc02b; 0xc02c; 0xc013; 0xc014; 0xc009; 0xc00a; 0x009c; 0x009d; 0x002f; 0x0035] in
  let extensions := buildSNIExtension host in
  let extensions := extensions ++ legacyGroups in
  let extensions := extensions ++ legacySigAlgs in
  let body := [x03; x02] ++ rnd in
  let body := body ++ [x01; marker] in
  let body := body ++ putBE16 (blen cipherBytes) in
  let body := body ++ cipherBytes in
  let body := body ++ [x01; x00] in
  let body := body ++ putBE16 (blen extensions) in
  let body := body ++ extensions in
  let hs := [x01] ++ putBE24 (blen body) in
  let hs := hs ++ body in
  let rec := [x16; x03; x02] ++ putBE16 (blen hs) in
  rec ++ hs.

Definition probeTicketbleed (net : attemptConn (C := C)) (host : string) (rnd : bytes) : outcome bool :=
  let marker := xaa in
  match net (ticketbleedClientHello host marker rnd) with
  | None => Ret false
  | Some conn =>
      body <~ readServerHelloBody conn ;;
      match body with
      | None => Ret false
      | Some body =>
          if blen body <? 35 then Ret false else
          sidLen <~ index body 34 ;;
          if negb (bval sidLen =? 32) then Ret false
          else if blen body <? 35 + bval sidLen then Ret false
          else first <~ index body 35 ;; Ret (beq first marker)
      end
  end.
End Probes.

Definition pqcHeadline (p : pqcResult) : string :=
  if negb (Supported p) then "" else ("PQC: " +:+ GroupName p)%string.

(** ** The walk for the group *)

Definition namesGroup (wide : Z -> bool) (e : Z * bytes) : bool :=
  (fst e =? 0x0033) && wide (blen (snd e)) && bool_decide (take 2 (snd e) = [x11; xec]).

Lemma be16_11ec a b : (be16 a b =? 0x11ec) = bool_decide ([a; b] = [x11; xec]).
Proof.
  rewrite be16_eq. pose proof (bval_range a). pose proof (bval_range b). case_bool_decide as E.
  - by injection E as -> ->.
  - apply Z.eqb_neq. intros Hv. apply E. assert (Ha : bval a = bval x11) by (change (bval x11) with 17; lia).
    assert (Hb : bval b = bval xec) by (change (bval xec) with 236; lia). by rewrite (bval_inj _ _ Ha), (bval_inj _ _ Hb).
Qed.

Lemma keyShareGroup_spec wide ext : (forall n, wide n = true -> 2 <= n) ->
  keyShareGroup wide ext = Ret (existsb (namesGroup wide) (fst (extList ext))).
Proof.
  intros Hw. unfold keyShareGroup. rewrite walkExts_spec. destruct (extList ext) as [l t]. cbn [fst]. unfold orElse.
  induction l as [|[ty d] l IH]; [by destruct t|]. cbn [foldExts existsb namesGroup fst snd]. unfold namesGroup at 1. cbn [fst snd].
  destruct (ty =? 0x33); [|exact IH]. cbn [andb]. destruct (wide (blen d)) eqn:E; [|exact IH]. apply Hw in E.
  destruct d as [|a [|b d]]; [by rewrite blen_nil in E|by rewrite blen_cons, blen_nil in E|].
  rewrite (read_index (a :: b :: d) [] a (b :: d)), (read_index (a :: b :: d) [a] b d) by done. cbn [bind take andb].
  rewrite take_0, be16_11ec. case_bool_decide; [done|]. exact IH.
Qed.

(** The walk for an answer to HelloRetryRequest finds nothing that the first did not. *)
Lemma second_walk_dead l : existsb (namesGroup (fun n => n =? 2)) l = true -> existsb (namesGroup (fun n => 2 <=? n)) l = true.
Proof.
  rewrite !existsb_exists. intros ([ty d] & Hin & He). exists (ty, d). split; [done|]. unfold namesGroup in *. cbn [fst snd] in *.
  apply andb_prop in He as [[Hty Hl]%andb_prop Hg]. apply Z.eqb_eq in Hl. by rewrite Hty, Hg, Hl.
Qed.

(** ** The probes *)

Section Claims.
Context {C : Type} `{Reader C}.

(** Against any server the probe for post-quantum key exchange returns.  When the
    server answers with a ServerHello - or a HelloRetryRequest, which has the same
    form - it reports support exactly if a key_share extension names X25519MLKEM768:
    the branch for HelloRetryRequest never changes the verdict. *)
Theorem probePQC_verdict (net : attemptConn (C := C)) host rnd key c exts (Ha : answered c exts)
  (Hnet : net (pqcClientHello host rnd key) = Some c) :
  probePQC net host rnd key = Ret (if existsb (namesGroup (fun n => 2 <=? n)) exts then pqcYes else pqcNo).
Proof.
  destruct (answered_body c exts Ha) as (body & Hb & He). unfold probePQC. rewrite Hnet, Hb. cbn [bind]. rewrite He. cbn [bind].
  change (default [] (Some (encExts exts))) with (encExts exts).
  rewrite keyShareGroup_spec by (intros n; rewrite Z.leb_le; lia). rewrite extList_encExts by apply Ha. cbn [bind fst].
  destruct (existsb (namesGroup (fun n => 2 <=? n)) exts) eqn:E; [done|].
  destruct (34 <=? blen body) eqn:El; [|done]. to_prop. rewrite slice_ok by lia. cbn [bind].
  destruct (bytesEqual _ _); [|done]. rewrite keyShareGroup_spec by (intros n; rewrite Z.eqb_eq; lia).
  rewrite extList_encExts by apply Ha. cbn [bind fst]. destruct (existsb (namesGroup (fun n => n =? 2)) exts) eqn:E2; [|done].
  apply second_walk_dead in E2. congruence.
Qed.

(** A server that answers with a ServerHello is reported exactly if its session id has 32
    bytes and starts with the marker. *)
Theorem probeTicketbleed_verdict (net : attemptConn (C := C)) host rnd c rv1 rv0 v1 v0 random sid cipher comp exts mrest rest
  (Hnet : net (ticketbleedClientHello host xaa rnd) = Some c)
  (Hp : pending c = encRecord x16 [rv1; rv0] (encMsg x02 (legacyServerHello v1 v0 random sid cipher comp exts) ++ mrest) ++ rest)
  (Hrandom : blen random = 32) (Hsid : blen sid < 256)
  (Hl : blen (encMsg x02 (legacyServerHello v1 v0 random sid cipher comp exts) ++ mrest) <= 18432) :
  probeTicketbleed net host rnd = Ret ((blen sid =? 32) && match sid with b :: _ => beq b xaa | [] => false end).
Proof.
  unfold probeTicketbleed. rewrite Hnet. rewrite (readServerHelloBody_finds c rv1 rv0 [] _ mrest rest Hp ltac:(constructor) Hl). cbn [bind].
  rewrite blen_legacyServerHello by done. pose proof (blen_nonneg sid). pose proof (blen_nonneg exts). rewrite (proj2 (Z.ltb_ge _ _)) by lia.
  destruct (legacyServerHello_reads v1 v0 random sid cipher comp exts Hrandom) as (_ & _ & -> & _). cbn [bind].
  rewrite bval_byteOf, Z.mod_small by lia. destruct (blen sid =? 32) eqn:E; [|done]. cbn [negb andb]. to_prop.
  rewrite (proj2 (Z.ltb_ge _ _)) by lia. destruct sid as [|s sid]; [by rewrite blen_nil in E|].
  rewrite (read_index _ ([v1; v0] ++ random ++ [byteOf (blen (s :: sid))]) s (sid ++ putBE16 cipher ++ [comp] ++ putBE16 (blen exts) ++ exts)); [done|..].
  - unfold legacyServerHello. by rewrite <- !app_assoc.
  - autorewrite with blen. lia.
Qed.

(** Both probes return against any peer. *)
Theorem pqcProbes_total (net : attemptConn (C := C)) host rnd key : safe (probePQC net host rnd key) /\ safe (probeTicketbleed net host rnd).
Proof.
  split.
  - unfold probePQC. destruct (net _) as [c|]; [|exact I]. apply wp_bind.
    eapply wp_mono; [apply wp_readServerHelloBody|intros [body|] _|done]; [|exact I]. apply wp_bind.
    pose proof (serverHelloExtensions_safe body) as Hs. destruct (serverHelloExtensions body) as [ext| | |]; try done. cbn [wp].
    rewrite keyShareGroup_spec by (intros n; rewrite Z.leb_le; lia). cbn [bind]. destruct (existsb _ _); [exact I|].
    destruct (34 <=? blen body) eqn:E; [|exact I]. to_prop. rewrite slice_ok by lia. cbn [bind]. destruct (bytesEqual _ _); [|exact I].
    rewrite keyShareGroup_spec by (intros n; rewrite Z.eqb_eq; lia). exact I.
  - unfold probeTicketbleed. destruct (net _) as [c|]; [|exact I]. apply wp_bind.
    eapply wp_mono; [apply wp_readServerHelloBody|intros [body|] _|done]; [|exact I].
    destruct (blen body <? 35) eqn:E; [exact I|]. to_prop. apply wp_bind, wp_index; [lia|]. intros sidLen _.
    destruct (bval sidLen =? 32) eqn:E2; [|exact I]. cbn [negb]. destruct (blen body <? 35 + bval sidLen) eqn:E3; [exact I|]. to_prop.
    apply wp_bind, wp_index; [lia|]. intros first _. exact I.
Qed.
End Claims.

(** ** The hello *)

Definition pqcExts (host : string) (key : bytes) : list (Z * bytes) :=
  [(0, sniData host); (10, [x00; x06; x11; xec; x00; x1d; x00; x17]); (13, drop 4 legacySigAlgs); (43, [x02; x03; x04]);
   (16, drop 4 (buildALPNExtension ["h2"; "http/1.1"]%string));
   (51, putBE16 (4 + blen key) ++ putBE16 0x11ec ++ putBE16 1216 ++ key)].

(** The hello has exact lengths for every key of the size that the group has, and its
    key_share is one entry with that key. *)
Theorem pqcClientHello_wellformed host rnd key (Hhost : slen host <= 60000) (Hkey : blen key = 1216) :
  let body := helloBody 0x0303 rnd [x13; x01; x13; x02; x13; x03] (encExts (pqcExts host key)) in
  pqcClientHello host rnd key = encRecord x16 [x03; x03] (encMsg x01 body) /\
  blen (encExts (pqcExts host key)) < 65536 /\ extList (encExts (pqcExts host key)) = (pqcExts host key, Clean).
Proof.
  intros body. pose proof (slen_nonneg host).
  assert (Hok : Forall extOk (pqcExts host key)).
  { unfold pqcExts. repeat constructor; cbn [fst snd]; rewrite ?blen_sniData; try (vm_compute; congruence); try lia.
    autorewrite with blen. lia. }
  assert (Hlen : blen (encExts (pqcExts host key)) = 1296 + slen host).
  { rewrite blen_encExts. unfold pqcExts. cbn [foldr snd]. rewrite blen_sniData. change (blen (drop 4 legacySigAlgs)) with 20.
    change (blen (drop 4 (buildALPNExtension ["h2"; "http/1.1"]%string))) with 14. autorewrite with blen. rewrite Hkey. lia. }
  split; [|split; [lia|by apply extList_encExts]].
  subst body. change [x03; x03] with (putBE16 0x0303). rewrite <- helloRecord_enc. unfold pqcClientHello. cbv zeta. f_equal.
  rewrite buildSNIExtension_enc. unfold pqcExts. cbn [encExts flat_map]. rewrite app_nil_r, <- !app_assoc. f_equal.
  unfold encExt. cbn [fst snd]. autorewrite with blen. rewrite Hkey. reflexivity.
Qed.
