(* ===== verification/Obscure.v ===== *)
(** The probe for cipher suites outside [crypto/tls], [tls_obscure_ciphers.go]: one
    ClientHello that offers the catalogue, and what the server makes of it. *)

From Stdlib Require Import ZArith List String Ascii Strings.Byte Lia Bool.
From stdpp Require Import base list strings numbers.
From S2P Require Import Prelude Bytes GoStrings Stream Wire Result Extensions Flight Tls13Hello ClientHellos.
Open Scope Z_scope.

Record obscureCipherEntry := { Code : Z; Name : string; Family : string; Severity : string }.
Definition spec (c : Z) (n f s : string) : obscureCipherEntry := {| Code := c; Name := n; Family := f; Severity := s |}.

Definition obscureCipherCatalog : list obscureCipherEntry := [
  spec 0x0080 "TLS_GOSTR341094_WITH_28147_CNT_IMIT" "GOST" "policy";
  spec 0x0081 "TLS_GOSTR341001_WITH_28147_CNT_IMIT" "GOST" "policy";
  spec 0xc100 "TLS_GOSTR341112_256_WITH_KUZNYECHIK_CTR_OMAC" "GOST" "policy";
  spec 0xc101 "TLS_GOSTR341112_256_WITH_MAGMA_CTR_OMAC" "GOST" "policy";
  spec 0xc102 "TLS_GOSTR341112_256_WITH_28147_CNT_IMIT" "GOST" "policy";
  spec 0x0041 "TLS_RSA_WITH_CAMELLIA_128_CBC_SHA" "Camellia" "info";
  spec 0x0084 "TLS_RSA_WITH_CAMELLIA_256_CBC_SHA" "Camellia" "info";
  spec 0x00ba "TLS_RSA_WITH_CAMELLIA_128_CBC_SHA256" "Camellia" "info";
  spec 0x00c0 "TLS_RSA_WITH_CAMELLIA_256_CBC_SHA256" "Camellia" "info";
  spec 0xc072 "TLS_ECDHE_ECDSA_WITH_CAMELLIA_128_CBC_SHA256" "Camellia" "info";
  spec 0xc073 "TLS_ECDHE_ECDSA_WITH_CAMELLIA_256_CBC_SHA384" "Camellia" "info";
  spec 0xc076 "TLS_ECDHE_RSA_WITH_CAMELLIA_128_CBC_SHA256" "Camellia" "info";
  spec 0xc077 "TLS_ECDHE_RSA_WITH_CAMELLIA_256_CBC_SHA384" "Camellia" "info";
  spec 0xc09c "TLS_RSA_WITH_AES_128_CCM" "Camellia" "info";
  spec 0xc09e "TLS_DHE_RSA_WITH_AES_128_CCM" "Camellia" "info";
  spec 0xc0a4 "TLS_RSA_WITH_CAMELLIA_128_GCM_SHA256" "Camellia" "info";
  spec 0xc0a5 "TLS_RSA_WITH_CAMELLIA_256_GCM_SHA384" "Camellia" "info";
  spec 0x0096 "TLS_RSA_WITH_SEED_CBC_SHA" "SEED" "info";
  spec 0x0097 "TLS_DH_DSS_WITH_SEED_CBC_SHA" "SEED" "info";
  spec 0x0098 "TLS_DH_RSA_WITH_SEED_CBC_SHA" "SEED" "info";
  spec 0x0099 "TLS_DHE_DSS_WITH_SEED_CBC_SHA" "SEED" "info";
  spec 0x009a "TLS_DHE_RSA_WITH_SEED_CBC_SHA" "SEED" "info";
  spec 0xc03c "TLS_RSA_WITH_ARIA_128_CBC_SHA256" "ARIA" "info";
  spec 0xc03d "TLS_RSA_WITH_ARIA_256_CBC_SHA384" "ARIA" "info";
  spec 0xc050 "TLS_RSA_WITH_ARIA_128_GCM_SHA256" "ARIA" "info";
  spec 0xc051 "TLS_RSA_WITH_ARIA_256_GCM_SHA384" "ARIA" "info";
  spec 0x0007 "TLS_RSA_WITH_IDEA_CBC_SHA" "IDEA" "broken";
  spec 0x0006 "TLS_RSA_EXPORT_WITH_RC2_CBC_40_MD5" "RC2" "broken";
  spec 0x0001 "TLS_RSA_WITH_NULL_MD5" "NULL" "broken";
  spec 0x0002 "TLS_RSA_WITH_NULL_SHA" "NULL" "broken";
  spec 0x003b "TLS_RSA_WITH_NULL_SHA256" "NULL" "broken";
  spec 0xc010 "TLS_ECDHE_RSA_WITH_NULL_SHA" "NULL" "broken"
  ]%string.

Record obscureCipherResult := { Probed : bool; OfferedSuite : option obscureCipherEntry; Note : string; Probed_Count : Z }.

(** ** The hello *)

Definition obscureGroups : bytes := [x00; x08; x00; x17; x00; x18; x00; x19; x00; x1d].
Definition obscureSigAlgs : bytes :=
  [x00; x10; x04; x01; x05; x01; x06; x01; x08; x04; x08; x05; x08; x06; x04; x03; x05; x03].

(** [random] and [sessionID] are what [rand.Reader] gives, or its error. *)
Definition buildObscureClientHello (random sessionID : bytes + string) (sni : string) : bytes + string :=
  match random with inr e => inr e | inl random =>
  match sessionID with inr e => inr e | inl sessionID =>
  let body := [x03; x03] ++ random ++ [byteOf 32] ++ sessionID in
  let body := body ++ putBE16 (u16 (2 * blen obscureCipherCatalog)) in
  let body := body ++ flat_map (fun c => putBE16 (Code c)) obscureCipherCatalog in
  let body := body ++ [x01; x00] in
  let ext := if negb (String.eqb sni "") then
               let nameBytes := ofString sni in
               let entry := [x00] ++ putBE16 (u16 (blen nameBytes)) ++ nameBytes in
               appendExtension [] 0 (putBE16 (u16 (blen entry)) ++ entry)
             else [] in
  let ext := appendExtension ext 10 obscureGroups in
  let ext := appendExtension ext 13 obscureSigAlgs in
  let ext := appendExtension ext 43 [x02; x03; x03] in
  let body := body ++ putBE16 (u16 (blen ext)) in
  let body := body ++ ext in
  let hs := [x01; byteOf (Z.shiftr (blen body) 16); byteOf (Z.shiftr (blen body) 8); byteOf (blen body)] ++ body in
  inl ([x16; x03; x01] ++ putBE16 (u16 (blen hs)) ++ hs)
  end end.

(** ** The probe *)

Section Probe.
Context {C : Type} `{Wire C}.

(** [io.ReadFull] into a buffer of two zero bytes whose error is dropped: what was read
    before it is there. *)
Definition alertTurn (st : bytes * C) : outcome (step (bytes * C) unit) :=
  let '(got, c) := st in
  if blen got <? 2 then
    let '(b, e, c') := recv (2 - blen got) c in
    match e with None => Ret (Next (got ++ b, c')) | Some _ => Ret (Break (got, c')) end
  else Ret (Break (got, c)).
Definition readAlert (c : C) : outcome bytes :=
  r <~ loop alertTurn (S (length (incoming c))) ([], c) ;;
  match r with inl (got, _) => Ret (take 2 (got ++ [x00; x00])) | inr tt => Ret [x00; x00] end.

(** What is made of the body of a ServerHello *)
Definition obscureVerdict (shBody : bytes) : outcome (option obscureCipherEntry * string) :=
  if blen shBody <? 2 + 32 + 1 then Ret (None, "ServerHello too short"%string) else
  let off := 2 + 32 in
  sidLen <~ index shBody off ;;
  let off := off + 1 in
  let off := off + bval sidLen in
  if blen shBody <? off + 2 then Ret (None, "ServerHello truncated before cipher_suite"%string) else
  s1 <~ index shBody off ;; s0 <~ index shBody (off + 1) ;;
  let selected := be16 s1 s0 in
  Ret (match find (fun c => Code c =? selected) obscureCipherCatalog with
       | Some c => (Some c, ("server selected 0x" +:+ hex16 selected +:+ " (" +:+ Name c +:+ ", family=" +:+ Family c
                             +:+ ", severity=" +:+ Severity c +:+ ")")%string)
       | None => (None, ("server selected unexpected 0x" +:+ hex16 selected +:+ " (not in obscure catalog)")%string)
       end).

Definition obscureAnswer (conn : C) : outcome (option obscureCipherEntry * string) :=
  r <~ recvFull 5 conn ;;
  match r with
  | inr _ => Ret (None, "no response — server closed connection (no obscure cipher accepted)"%string)
  | inl (header, conn) =>
      recType <~ index header 0 ;;
      if beq recType x15 then
        alert <~ readAlert conn ;;
        level <~ index alert 0 ;; desc <~ index alert 1 ;;
        Ret (None, ("alert level=" +:+ fmtD (bval level) +:+ " desc=" +:+ fmtD (bval desc) +:+ " — no obscure cipher offered")%string)
      else if negb (beq recType x16) then Ret (None, ("unexpected record type " +:+ fmtD (bval recType))%string)
      else
        l1 <~ index header 3 ;; l0 <~ index header 4 ;;
        let recLen := be16 l1 l0 in
        if (recLen <? 10) || (4096 <? recLen) then Ret (None, ("implausible record length " +:+ fmtD recLen)%string)
        else
          b <~ recvFull recLen conn ;;
          match b with
          | inr (err, _) => Ret (None, ("ServerHello read truncated: " +:+ tidyErr err)%string)
          | inl (body, _) =>
              if blen body <? 4 then ty <~ index body 0 ;; Ret (None, ("unexpected handshake type 0x" +:+ hexByte ty)%string)
              else
                ty <~ index body 0 ;;
                if negb (beq ty x02) then Ret (None, ("unexpected handshake type 0x" +:+ hexByte ty)%string)
                else shBody <~ sliceFrom body 4 ;; obscureVerdict shBody
          end
  end.

(** [dial] is [net.DialTimeout]. *)
Definition probeObscureCiphers (dial : C + string) (random sessionID : bytes + string) (host : string) : outcome obscureCipherResult :=
  let count := blen obscureCipherCatalog in
  let out probed suite note := {| Probed := probed; OfferedSuite := suite; Note := note; Probed_Count := count |} in
  match dial with
  | inr err => Ret (out false None ("dial failed: " +:+ tidyErr err)%string)
  | inl conn =>
      match buildObscureClientHello random sessionID host with
      | inr err => Ret (out true None ("ClientHello build failed: " +:+ tidyErr err)%string)
      | inl hello =>
          match write hello conn with
          | inr err => Ret (out true None ("ClientHello write failed: " +:+ tidyErr err)%string)
          | inl conn => r <~ obscureAnswer conn ;; Ret (out true (fst r) (snd r))
          end
      end
  end.
End Probe.

Definition obscureCipherHeadline (r : obscureCipherResult) : string :=
  match Probed r, OfferedSuite r with
  | true, Some s =>
      if String.eqb (Severity s) "broken" then ("DANGER: " +:+ Family s +:+ " cipher offered (" +:+ Name s +:+ ")")%string
      else if String.eqb (Severity s) "policy" then (Family s +:+ " suite offered (policy-sensitive)")%string
      else (Family s +:+ " suite offered")%string
  | _, _ => ""%string
  end.

(** ** The hello is well formed *)

Definition obscureExts (sni : string) : list (Z * bytes) :=
  (if negb (String.eqb sni "") then [(0, sniData sni)] else []) ++ [(10, obscureGroups); (13, obscureSigAlgs); (43, [x02; x03; x03])].

Lemma appendExtension_app ext ty data : 0 <= ty < 65536 -> appendExtension ext ty data = ext ++ encExt (ty, data).
Proof. intros Ht. unfold appendExtension, encExt. cbn [fst snd]. rewrite (u16_small ty) by lia. by rewrite <- !app_assoc. Qed.

Lemma catalog_NoDup : NoDup (map Code obscureCipherCatalog).
Proof. apply (bool_decide_unpack _). by vm_compute. Qed.

(** Every length in the hello is exact, it offers exactly the suites of the catalogue, and
    its extensions are the server name if there is one, the groups, the signature
    algorithms and the version - not extended_master_secret, which the comment promises. *)
Theorem buildObscureClientHello_wellformed random sessionID sni (Hr : blen random = 32) (Hs : blen sessionID = 32) (Hn : slen sni <= 60000) :
  exists body, buildObscureClientHello (inl random) (inl sessionID) sni = inl (encRecord x16 [x03; x01] (encMsg x01 body))
    /\ body = [x03; x03] ++ random ++ [x20] ++ sessionID ++ putBE16 (2 * 32) ++ flat_map putBE16 (map Code obscureCipherCatalog)
              ++ [x01; x00] ++ putBE16 (blen (encExts (obscureExts sni))) ++ encExts (obscureExts sni)
    /\ blen (encMsg x01 body) < 65536 /\ extList (encExts (obscureExts sni)) = (obscureExts sni, Clean)
    /\ existsb (fun e => fst e =? 23) (obscureExts sni) = false.
Proof.
  pose proof (slen_nonneg sni) as Hn0.
  assert (Hok : Forall extOk (obscureExts sni)).
  { unfold obscureExts. apply Forall_app. split; [|repeat constructor; vm_compute; congruence]. destruct (negb _); repeat constructor; cbn [fst snd]; rewrite ?blen_sniData; lia. }
  assert (Hl : blen (encExts (obscureExts sni)) <= 52 + slen sni).
  { unfold obscureExts, encExts. rewrite flat_map_app, blen_app. change (blen (flat_map encExt [(10, obscureGroups); (13, obscureSigAlgs); (43, [x02; x03; x03])])) with 43.
    destruct (negb _); cbn [flat_map]; rewrite ?app_nil_r, ?blen_encExt, ?blen_sniData, ?blen_nil; lia. }
  assert (Hext : (let ext := if negb (String.eqb sni "") then
               let nameBytes := ofString sni in
               let entry := [x00] ++ putBE16 (u16 (blen nameBytes)) ++ nameBytes in
               appendExtension [] 0 (putBE16 (u16 (blen entry)) ++ entry)
             else [] in
           let ext := appendExtension ext 10 obscureGroups in
           let ext := appendExtension ext 13 obscureSigAlgs in appendExtension ext 43 [x02; x03; x03]) = encExts (obscureExts sni)).
  { cbv zeta. rewrite !appendExtension_app by lia. unfold obscureExts, encExts. destruct (negb _); cbn [flat_map app]; [|done].
    unfold sniData. rewrite !putBE16_u16. autorewrite with blen. rewrite <- !app_assoc. cbn [app]. repeat first [lia|progress f_equal]. }
  cbv zeta in Hext. unfold buildObscureClientHello. rewrite Hext. cbv zeta. eexists. split; [|split; [reflexivity|split; [|split]]].
  - unfold encRecord, encMsg. f_equal. rewrite !putBE16_u16. change (byteOf 32) with x20. change (blen obscureCipherCatalog) with 32.
    assert (Hm : forall l, flat_map (fun c => putBE16 (Code c)) l = flat_map putBE16 (map Code l)) by (induction l as [|c l IH]; [done|]; cbn; by rewrite IH).
    rewrite Hm, <- !app_assoc. reflexivity.
  - rewrite encMsg_length. change (blen (flat_map putBE16 (map Code obscureCipherCatalog))) with 64. autorewrite with blen. rewrite Hr, Hs.
    change (blen (flat_map putBE16 (map Code obscureCipherCatalog))) with 64. lia.
  - by apply extList_encExts.
  - unfold obscureExts. by destruct (negb _).
Qed.

(** ** What is reported *)

Section Claims.
Context {C : Type} `{Wire C}.

Lemma wp_obscureAlert (c : C) E : wp (readAlert c) (fun b => blen b = 2) E.
Proof.
  assert (Htwo : forall got : bytes, blen (take 2 (got ++ [x00; x00])) = 2).
  { intros got. unfold blen. rewrite length_take, length_app. cbn [length]. lia. }
  unfold readAlert. apply wp_bind.
  apply (wp_loop _ (fun '(got, c1) => blen got <= 2) (fun '(_, c1) => length (incoming c1))); [|by vm_compute|lia].
  intros [got c1] Hg. unfold alertTurn. destruct (blen got <? 2) eqn:E'; to_prop.
  - destruct (recv _ c1) as [[b e] c2] eqn:Hr. apply recv_spec in Hr as (Hi & Hb & He); [|lia]. destruct e as [e|]; apply wp_ret; cbn [stepPost].
    + apply wp_ret, Htwo.
    + rewrite blen_app, Hi, length_app. split; [lia|]. destruct b; [done|]. cbn. lia.
  - apply wp_ret. cbn [stepPost]. apply wp_ret, Htwo.
Qed.

Lemma header_reads ty v1 v0 n : let hdr := ty :: v1 :: v0 :: putBE16 n in
  index hdr 0 = Ret ty /\ index hdr 3 = Ret (byteOf (Z.shiftr n 8)) /\ index hdr 4 = Ret (byteOf n).
Proof. done. Qed.

Lemma wp_obscureVerdict b E : wp (obscureVerdict b) (fun r => forall s, fst r = Some s -> In s obscureCipherCatalog) E.
Proof.
  unfold obscureVerdict. destruct (blen b <? 2 + 32 + 1) eqn:E1; [done|]. to_prop. apply wp_bind, wp_index; [lia|]. intros sidLen _.
  pose proof (bval_range sidLen). destruct (blen b <? _) eqn:E2; [done|]. to_prop.
  apply wp_bind, wp_index; [lia|]. intros s1 _. apply wp_bind, wp_index; [lia|]. intros s0 _. apply wp_ret.
  destruct (find _ _) as [c|] eqn:Ef; [|done]. intros s [= <-]. by apply find_some in Ef as [Hin _].
Qed.

(** Against any peer the probe returns; a suite that it reports is one of the catalogue. *)
Theorem probeObscureCiphers_total (dial : C + string) random sessionID host :
  exists r, probeObscureCiphers dial random sessionID host = Ret r /\ forall s, OfferedSuite r = Some s -> In s obscureCipherCatalog.
Proof.
  assert (Hans : forall c, wp (obscureAnswer c) (fun r => forall s, fst r = Some s -> In s obscureCipherCatalog) (fun _ => False)).
  { intros c. assert (Hnone : forall note E, wp (Ret (@None obscureCipherEntry, note : string)) (fun r : option obscureCipherEntry * string => forall s, fst r = Some s -> In s obscureCipherCatalog) E).
    { intros note E. apply wp_ret. cbn. by intros s [=]. }
    unfold obscureAnswer. apply wp_bind, wp_recvFull; [lia| |intros; apply Hnone]. intros header c' _ Hh _.
    apply wp_bind, wp_index; [lia|]. intros ty _. destruct (beq ty x15).
    { apply wp_bind. eapply wp_mono; [apply (wp_obscureAlert c' (fun _ => False))|intros al Hal; cbn beta in Hal|done]. apply wp_bind, wp_index; [lia|]. intros level _.
      apply wp_bind, wp_index; [lia|]. intros desc _. apply Hnone. }
    destruct (negb _); [apply Hnone|]. apply wp_bind, wp_index; [lia|]. intros l1 _. apply wp_bind, wp_index; [lia|]. intros l0 _.
    pose proof (be16_range l1 l0). destruct (_ || _) eqn:E; [apply Hnone|]. apply orb_false_iff in E as [E _]. to_prop. apply wp_bind, wp_recvFull; [lia| |intros; apply Hnone].
    intros body c2 _ Hb _. rewrite (proj2 (Z.ltb_ge _ _)) by lia. apply wp_bind, wp_index; [lia|]. intros t _. destruct (negb _); [apply Hnone|].
    apply wp_bind, wp_sliceFrom; [lia|]. intros _. apply wp_obscureVerdict. }
  unfold probeObscureCiphers. destruct dial as [c|e]; [|by eexists]. destruct (buildObscureClientHello _ _ _) as [hello|e]; [|by eexists].
  destruct (write hello c) as [c1|e]; [|by eexists]. specialize (Hans c1). destruct (obscureAnswer c1) as [[s n]| | |]; try done. by eexists.
Qed.

(** A server that answers with a ServerHello is reported with the entry of the suite it
    selects, or with none if the suite is not of the catalogue; one that answers with an
    alert is reported with none. *)
Theorem probeObscureCiphers_verdict (dial : C + string) random sessionID host hello conn c
  (Hdial : dial = inl conn) (Hhello : buildObscureClientHello random sessionID host = inl hello) (Hwrite : write hello conn = inl c) :
  (forall v1 v0 w1 w0 rnd sid cipher comp exts mrest rest,
     let record := encMsg x02 (legacyServerHello w1 w0 rnd sid cipher comp exts) ++ mrest in
     incoming c = encRecord x16 [v1; v0] record ++ rest -> blen rnd = 32 -> blen sid < 256 -> 0 <= cipher < 65536 -> blen record <= 4096 ->
     exists note, probeObscureCiphers dial random sessionID host
       = Ret {| Probed := true; OfferedSuite := find (fun s => Code s =? cipher) obscureCipherCatalog; Note := note; Probed_Count := 32 |})
  /\ (forall v1 v0 payload rest, incoming c = encRecord x15 [v1; v0] payload ++ rest ->
     exists note, probeObscureCiphers dial random sessionID host = Ret {| Probed := true; OfferedSuite := None; Note := note; Probed_Count := 32 |}).
Proof.
  unfold probeObscureCiphers. rewrite Hdial, Hhello, Hwrite. split.
  - intros v1 v0 w1 w0 rnd sid cipher comp exts mrest rest.
    set (record := encMsg x02 _ ++ mrest). intros Hi Hrnd Hsid Hcipher Hrec.
    set (sh := legacyServerHello w1 w0 rnd sid cipher comp exts) in *.
    pose proof (blen_legacyServerHello w1 w0 rnd sid cipher comp exts Hrnd) as Hsh. fold sh in Hsh.
    pose proof (blen_nonneg sid). pose proof (blen_nonneg exts). pose proof (blen_nonneg mrest).
    assert (Hreclen : blen record = 4 + blen sh + blen mrest) by (unfold record; autorewrite with blen; rewrite encMsg_length; lia).
    unfold encRecord in Hi. cbn [app] in Hi. rewrite <- ?app_assoc in Hi.
    destruct (recvFull_ok 5 c (x16 :: v1 :: v0 :: putBE16 (blen record)) (record ++ rest)) as (c1 & Hr & Hi1 & _); [exact Hi|done|].
    destruct (header_reads x16 v1 v0 (blen record)) as (Hh0 & Hh3 & Hh4). unfold obscureAnswer. rewrite Hr. cbn [bind]. rewrite Hh0. cbn [bind].
    change (beq x16 x15) with false. change (beq x16 x16) with true. cbn [negb]. rewrite Hh3, Hh4. cbn [bind].
    rewrite be16_putBE16, u16_small by lia. rewrite (proj2 (Z.ltb_ge _ 10)), (proj2 (Z.ltb_ge 4096 _)) by lia. cbn [orb].
    destruct (recvFull_ok (blen record) c1 record rest Hi1 eq_refl) as (c2 & -> & _). cbn [bind]. rewrite (proj2 (Z.ltb_ge _ 4)) by lia.
    assert (Hty : index record 0 = Ret x02) by (by apply (read_index record [] x02 (putBE24 (blen sh) ++ sh ++ mrest))). rewrite Hty. cbn [bind].
    change (beq x02 x02) with true. cbn [negb].
    rewrite (read_from record (x02 :: putBE24 (blen sh)) (sh ++ mrest)) by done. cbn [bind].
    unfold obscureVerdict. rewrite blen_app, (proj2 (Z.ltb_ge _ _)) by lia.
    destruct (legacyServerHello_reads w1 w0 rnd sid cipher comp exts Hrnd) as (_ & _ & H34 & Hs1 & Hs0). fold sh in H34, Hs1, Hs0.
    assert (Hidx : forall i x, index sh i = Ret x -> index (sh ++ mrest) i = Ret x).
    { intros i x Hx. pose proof Hx as Hr2. apply index_ret in Hr2 as [Hb Hlk]. rewrite index_app_l; [done|].
      apply lookup_lt_Some in Hlk. unfold blen. lia. }
    change (2 + 32) with 34. rewrite (Hidx _ _ H34). cbn [bind]. rewrite bval_byteOf, Z.mod_small by lia. rewrite (proj2 (Z.ltb_ge _ _)) by lia.
    change (34 + 1) with 35. rewrite (Hidx _ _ Hs1), (Hidx _ _ Hs0). cbn [bind]. rewrite be16_putBE16, u16_small by lia.
    destruct (find _ _); cbn [fst snd]; by eexists.
  - intros v1 v0 payload rest Hi. unfold encRecord in Hi. cbn [app] in Hi. rewrite <- ?app_assoc in Hi.
    destruct (recvFull_ok 5 c (x15 :: v1 :: v0 :: putBE16 (blen payload)) (payload ++ rest)) as (c1 & Hr & Hi1 & _); [exact Hi|done|].
    destruct (header_reads x15 v1 v0 (blen payload)) as (Hh0 & _). unfold obscureAnswer. rewrite Hr. cbn [bind]. rewrite Hh0. cbn [bind].
    change (beq x15 x15) with true. pose proof (wp_obscureAlert c1 (fun _ => False)) as Ha. destruct (readAlert c1) as [al| | |]; try done. cbn [wp] in Ha. cbn [bind].
    destruct al as [|a [|b [|x al]]]; [done|done| |by rewrite !blen_cons in Ha; pose proof (blen_nonneg al); lia]. change (index [a; b] 0) with (@Ret byte a). change (index [a; b] 1) with (@Ret byte b). cbn [bind fst snd]. by eexists.
Qed.
End Claims.

(** Two suites of AES in CCM mode are reported as Camellia. *)
Example ccm_is_camellia : map Name (List.filter (fun s => String.eqb (Family s) "Camellia" && negb (Contains (Name s) "CAMELLIA")) obscureCipherCatalog)
  = ["TLS_RSA_WITH_AES_128_CCM"; "TLS_DHE_RSA_WITH_AES_128_CCM"]%string.
Proof. by vm_compute. Qed.
