(* ===== verification/Jarm.v ===== *)
(** The JARM server fingerprint of [tls_jarm.go]: the ten ClientHellos, the
    serialised answers and the 62-character hash over them. *)

From Stdlib Require Import ZArith List String Ascii Strings.Byte Lia Bool Permutation.
From stdpp Require Import base list strings numbers.
From S2P Require Import Prelude Bytes GoStrings Digest Stream Extensions Flight ServerHello Tls13Hello.
From S2P Require Import ClientHellos.
Open Scope Z_scope.

(** ** The probes *)

Definition jarmCipherList : list Z := [
  0x0016; 0x0033; 0x0067; 0xc09e; 0xc0a2; 0x009e; 0x0039; 0x006b;
  0xc09f; 0xc0a3; 0x009f; 0x0045; 0x00be; 0x0088; 0x00c4; 0x009a;
  0xc008; 0xc009; 0xc023; 0xc0ac; 0xc0ae; 0xc02b; 0xc00a; 0xc024;
  0xc0ad; 0xc0af; 0xc02c; 0xc072; 0xc073; 0xcca9; 0x1302; 0x1301;
  0xcc14; 0xc007; 0xc012; 0xc013; 0xc027; 0xc02f; 0xc014; 0xc028;
  0xc030; 0xcca8; 0x1305; 0x1304; 0x1303; 0xcc13; 0xc011; 0x000a;
  0x002f; 0x003c; 0x0035; 0x003d].

Record jarmProbeSpec := {
  Name : string;
  Version : Z;
  IsTLS13 : bool;
  CipherMode : string;
  ExtSpec : string;
  GREASE : bool
}.

Definition spec (name : string) (version : Z) (tls13 : bool) (mode ext : string) (grease : bool) :=
  {| Name := name; Version := version; IsTLS13 := tls13; CipherMode := mode; ExtSpec := ext;
     GREASE := grease |}.

Definition jarm10Probes : list jarmProbeSpec := [
  spec "TLS_1.2_FORWARD" 0x0303 false "FORWARD" "1" false;
  spec "TLS_1.2_REVERSE" 0x0303 false "REVERSE" "1" false;
  spec "TLS_1.2_TOP_HALF" 0x0303 false "TOP_HALF" "2" false;
  spec "TLS_1.2_BOTTOM_HALF" 0x0303 false "BOTTOM_HALF" "2" false;
  spec "TLS_1.2_MIDDLE_OUT" 0x0303 false "MIDDLE_OUT" "2" false;
  spec "TLS_1.1_MIDDLE_OUT" 0x0302 false "MIDDLE_OUT" "2" false;
  spec "TLS_1.3_FORWARD" 0x0303 true "FORWARD" "1" true;
  spec "TLS_1.3_REVERSE" 0x0303 true "REVERSE" "1" false;
  spec "TLS_1.3_INVALID" 0x0303 true "FORWARD" "3" false;
  spec "TLS_1.3_MIDDLE_OUT" 0x0303 true "MIDDLE_OUT" "1" true].

(** ** Cipher orders *)

(** [for i, c := range ciphers { out[len(ciphers)-1-i] = c }] *)
Fixpoint reverseInto (ciphers : list Z) (i : Z) (n : Z) (out : list Z) : outcome (list Z) :=
  match ciphers with
  | [] => Ret out
  | c :: rest =>
      if (0 <=? n - 1 - i) && (n - 1 - i <? blen out)
      then reverseInto rest (i + 1) n (<[Z.to_nat (n - 1 - i) := c]> out)
      else Panic
  end.

(** [for i := 1; i <= mid; i++ { append hi+i; append mid-i }], [k] turns left *)
Fixpoint middleOut (ciphers : list Z) (hi mid i : Z) (k : nat) (out : list Z) : outcome (list Z) :=
  match k with
  | O => Ret out
  | S k =>
      a <~ index ciphers (hi + i) ;;
      b <~ index ciphers (mid - i) ;;
      middleOut ciphers hi mid (i + 1) k (out ++ [a; b])
  end.

Definition applyCipherMode (ciphers : list Z) (mode : string) : outcome (list Z) :=
  let n := blen ciphers in
  if String.eqb mode "FORWARD" then Ret ciphers
  else if String.eqb mode "REVERSE" then reverseInto ciphers 0 n (repeat 0 (length ciphers))
  else if String.eqb mode "TOP_HALF" then slice ciphers 0 (n / 2)
  else if String.eqb mode "BOTTOM_HALF" then
    if n mod 2 =? 1 then sliceFrom ciphers (n / 2 + 1) else sliceFrom ciphers (n / 2)
  else if String.eqb mode "MIDDLE_OUT" then
    let mid := n / 2 in
    if n mod 2 =? 1 then
      c <~ index ciphers mid ;;
      middleOut ciphers mid mid 1 (Z.to_nat mid) [c]
    else middleOut ciphers (mid - 1) mid 1 (Z.to_nat mid) []
  else Ret ciphers.

(** ** The hellos *)

Definition jarmExtensions (host : string) (tls13 includeSNI invalidOrder : bool) : bytes :=
  let parts := if includeSNI then [buildSNIExtension host] else [] in
  let parts := parts ++
    [ [x00; x17; x00; x00];
      [xff; x01; x00; x01; x00];
      [x00; x0a; x00; x0a; x00; x08; x00; x1d; x00; x17; x00; x18; x00; x19];
      [x00; x0b; x00; x02; x01; x00];
      [x00; x23; x00; x00];
      buildALPNExtension ["h2"; "http/1.1"]%string;
      [x00; x05; x00; x05; x01; x00; x00; x00; x00];
      [x00; x0d; x00; x14; x00; x12;
       x04; x03; x08; x04; x04; x01; x05; x03; x08; x05; x05; x01;
       x08; x06; x06; x01; x02; x01] ] in
  let parts :=
    if tls13 then
      let supportedVersions := [x00; x2b; x00; x03; x02; x03; x04] in
      let keyShare := [x00; x33; x00; x02; x00; x00] in
      let psk := [x00; x2d; x00; x02; x01; x01] in
      if invalidOrder then ([supportedVersions] ++ parts) ++ [keyShare; psk]
      else parts ++ [supportedVersions; keyShare; psk]
    else parts in
  concat parts.

Definition buildJARMClientHello (host : string) (s : jarmProbeSpec) (rnd : bytes) : outcome bytes :=
  ciphers <~ applyCipherMode jarmCipherList (CipherMode s) ;;
  let cipherBytes := if GREASE s then [x0a; x0a] else [] in
  let cipherBytes := cipherBytes ++ flat_map putBE16 ciphers in
  let extensions :=
    if String.eqb (ExtSpec s) "1" then jarmExtensions host (IsTLS13 s) true false
    else if String.eqb (ExtSpec s) "2" then jarmExtensions host (IsTLS13 s) false false
    else if String.eqb (ExtSpec s) "3" then jarmExtensions host (IsTLS13 s) true true
    else [] in
  Ret (helloRecord (Version s) rnd cipherBytes extensions).

(** ** One answer *)

Definition uint16hex (v : Z) : string := hex16 v.

Definition extensionIDsList (ext : bytes) : outcome string :=
  ids <~ walkExts (R := list string) (fun ids => Ret (inl ids))
           (fun ids extType _ => Ret (Next (ids ++ [uint16hex extType]))) ext [] ;;
  Ret (match ids with inl l | inr l => Join l "-" end).

Definition jarmAnswer (body : bytes) : outcome string :=
  if blen body <? 35 then Ret ""%string else
  b0 <~ index body 0 ;; b1 <~ index body 1 ;;
  let chosenVer := be16 b0 b1 in
  sid <~ index body 34 ;;
  let off := 35 + bval sid in
  if blen body <? off + 2 then Ret ""%string else
  c0 <~ index body off ;; c1 <~ index body (off + 1) ;;
  let chosenCipher := be16 c0 c1 in
  ext <~ serverHelloExtensions body ;;
  let ext := default [] ext in
  alpn <~ alpnFromExtensions ext ;;
  supportedVer <~ supportedVersionsFromExtensions ext ;;
  extList <~ extensionIDsList ext ;;
  Ret (uint16hex chosenCipher +:+ "|" +:+ uint16hex chosenVer +:+ "|" +:+ alpn +:+ "|"
       +:+ uint16hex supportedVer +:+ "|" +:+ extList)%string.

Section Probe.
Context {C : Type} `{Reader C}.

Definition jarmOneProbe (net : attemptConn (C := C)) (host : string) (s : jarmProbeSpec) (rnd : bytes)
    : outcome string :=
  hello <~ buildJARMClientHello host s rnd ;;
  match net hello with
  | None => Ret ""%string
  | Some conn =>
      body <~ readServerHelloBody conn ;;
      match body with None => Ret ""%string | Some body => jarmAnswer body end
  end.
End Probe.

(** ** The hash *)

Definition empty62 : string := Repeat "0" 62.

Definition cipherFuzzyBytes (cipherHex : string) : string :=
  if (String.length cipherHex <? 4)%nat then "00"
  else ToLower (takeString 2 (dropString 2 cipherHex)).

Definition versionFuzzyByte (versionHex : string) : string :=
  if String.eqb versionHex "0301" then "a"
  else if String.eqb versionHex "0302" then "b"
  else if String.eqb versionHex "0303" then "c"
  else if String.eqb versionHex "0304" then "d"
  else if String.eqb versionHex "0000" then "0"
  else "0".

(** One handshake of the loop: what it adds to [fuzzy] and to [extConcat], and
    whether it counts as an answer. *)
Definition fuzzyPart (h : string) : string * string * bool :=
  match Split h "|" with
  | p0 :: p1 :: rest =>
      if String.eqb p0 "" then ("000", "", false)%string
      else ((cipherFuzzyBytes p0 +:+ versionFuzzyByte p1)%string,
            match rest with p2 :: p3 :: p4 :: _ => (p2 +:+ p3 +:+ p4)%string | _ => ""%string end, true)
  | _ => ("000", "", false)%string
  end.

(** [for len(prefix) < 30 { prefix += "0" }] *)
Definition pad30 (prefix : string) : string :=
  (prefix +:+ Repeat "0" (30 - String.length prefix))%string.

Definition jarmHash (raw : string) : string :=
  if String.eqb raw (Repeat "," 9) then empty62 else
  let handshakes := Split raw "," in
  if negb (length handshakes =? 10)%nat then empty62 else
  let parts := map fuzzyPart handshakes in
  let fuzzy := String.concat "" (map (fun p => fst (fst p)) parts) in
  let extConcat := String.concat "" (map (fun p => snd (fst p)) parts) in
  if negb (existsb snd parts) then empty62 else
  let prefix := if (30 <? String.length fuzzy)%nat then takeString 30 fuzzy else fuzzy in
  let prefix := pad30 prefix in
  let sum := sha256 (ofString extConcat) in
  (prefix +:+ takeString 32 (hexEncode sum))%string.

(** ** The whole fingerprint *)

Definition jarmProbeNames : list string := map Name jarm10Probes.

Record jarmResult := { Fingerprint : string; Raw : string; ProbeNames : list string }.

(** The receiving loop of [probeJARM]: [results[v.idx] = v.raw] for each answer,
    in the order the goroutines finish. *)
Definition collect (arrivals : list (nat * string)) : list string :=
  foldl (fun results v => <[fst v := snd v]> results) (repeat ""%string (length jarm10Probes)) arrivals.

Definition probeJARM (arrivals : list (nat * string)) : jarmResult :=
  let raw := Join (collect arrivals) "," in
  {| Fingerprint := jarmHash raw; Raw := raw; ProbeNames := jarmProbeNames |}.

Definition allZeros (s : string) : bool := forallString (fun c => Ascii.eqb c "0") s.

Definition jarmHeadline (j : jarmResult) : string :=
  let f := Fingerprint j in
  if String.eqb f "" || allZeros f then ""
  else if (String.length f <? 12)%nat then "JARM: " +:+ f
  else "JARM: " +:+ takeString 8 f +:+ "…" +:+ dropString (String.length f - 4) f.

(** ** The cipher orders *)

Lemma reverseInto_spec l : forall i out,
  0 <= i -> i + blen l = blen out ->
  reverseInto l i (blen out) out = Ret (rev l ++ drop (length l) out).
Proof.
  induction l as [|c l IH]; intros i out Hi Hl; cbn [reverseInto]; [by rewrite drop_0|].
  rewrite blen_cons in Hl. pose proof (blen_nonneg l).
  rewrite (proj2 (Z.leb_le _ _)), (proj2 (Z.ltb_lt _ _)) by lia. cbn [andb].
  replace (Z.to_nat (blen out - 1 - i)) with (length l) by (unfold blen in *; lia).
  assert (Hlen : blen (<[length l := c]> out) = blen out)
    by (unfold blen; by rewrite length_insert).
  rewrite <- Hlen at 1. rewrite (IH (i + 1)) by (rewrite ?Hlen; lia).
  f_equal. cbn [rev length]. rewrite <- app_assoc. f_equal.
  rewrite (drop_S _ c).
  - cbn [app]. f_equal. rewrite drop_insert_lt; [done|lia].
  - apply list_lookup_insert_eq. unfold blen in *. lia.
Qed.

Lemma sub_snoc_lookup (b : list Z) i x n :
  0 <= i -> 0 <= n -> b !! Z.to_nat (i + n) = Some x -> sub b i (n + 1) = sub b i n ++ [x].
Proof.
  intros Hi Hn Hx. unfold sub.
  replace (Z.to_nat (n + 1)) with (S (Z.to_nat n)) by lia.
  apply take_S_r. rewrite lookup_drop.
  by replace (Z.to_nat i + Z.to_nat n)%nat with (Z.to_nat (i + n)) by lia.
Qed.

Lemma sub_cons_index (b : list Z) i x n :
  0 <= i -> 0 <= n -> b !! Z.to_nat i = Some x -> sub b i (n + 1) = x :: sub b (i + 1) n.
Proof.
  intros Hi Hn Hx. unfold sub.
  replace (Z.to_nat (n + 1)) with (S (Z.to_nat n)) by lia.
  replace (Z.to_nat (i + 1)) with (S (Z.to_nat i)) by lia.
  by rewrite (drop_S _ x).
Qed.

(** The loop takes the [k] entries above the middle and the [k] below. *)
Lemma middleOut_spec l hi mid : forall k i out,
  0 <= hi + i -> hi + i + Z.of_nat k <= blen l -> 0 <= mid - i - Z.of_nat k + 1 -> mid - i < blen l ->
  exists out', middleOut l hi mid i k out = Ret out' /\
    Permutation out' (out ++ sub l (hi + i) (Z.of_nat k) ++ sub l (mid - i - Z.of_nat k + 1) (Z.of_nat k)).
Proof.
  induction k as [|k IH]; intros i out H1 H2 H3 H4; cbn [middleOut].
  { exists out. split; [done|]. unfold sub. cbn. by rewrite app_nil_r. }
  destruct (index_some l (hi + i)) as [a Ha]; [lia|].
  destruct (index_some l (mid - i)) as [b Hb]; [lia|].
  rewrite Ha, Hb. cbn [bind].
  apply index_ret in Ha as [_ Ha]. apply index_ret in Hb as [_ Hb].
  destruct (IH (i + 1) (out ++ [a; b])) as (out' & -> & Hp); [lia..|].
  exists out'. split; [done|]. rewrite Hp.
  replace (Z.of_nat (S k)) with (Z.of_nat k + 1) by lia.
  rewrite (sub_cons_index l (hi + i) a) by (done || lia).
  rewrite (sub_snoc_lookup l (mid - i - (Z.of_nat k + 1) + 1) b)
    by (done || lia || (replace (mid - i - (Z.of_nat k + 1) + 1 + Z.of_nat k) with (mid - i) by lia; done)).
  replace (mid - (i + 1) - Z.of_nat k + 1) with (mid - i - (Z.of_nat k + 1) + 1) by lia.
  replace (hi + (i + 1)) with (hi + i + 1) by lia.
  rewrite <- app_assoc. apply Permutation_app_head. cbn [app]. apply perm_skip.
  rewrite app_assoc. rewrite <- Permutation_cons_append. done.
Qed.

Lemma sub_split (l : list Z) n : 0 <= n <= blen l -> sub l 0 n ++ sub l n (blen l - n) = l.
Proof.
  intros Hn. unfold sub. cbn [Z.to_nat]. rewrite drop_0.
  rewrite (take_ge (drop _ _)) by (rewrite length_drop; unfold blen in *; lia).
  apply take_drop.
Qed.

Lemma applyCipherMode_middle l :
  exists out, applyCipherMode l "MIDDLE_OUT" = Ret out /\ Permutation out l.
Proof.
  unfold applyCipherMode. cbn [String.eqb Ascii.eqb Bool.eqb]. cbv zeta.
  pose proof (blen_nonneg l). pose proof (Z.div_mod (blen l) 2 ltac:(lia)) as Hd.
  pose proof (Z.mod_pos_bound (blen l) 2 ltac:(lia)) as Hm.
  set (mid := blen l / 2) in *.
  destruct (blen l mod 2 =? 1) eqn:E; to_prop.
  - destruct (index_some l mid) as [c Hc]; [lia|]. rewrite Hc. cbn [bind].
    apply index_ret in Hc as [_ Hc].
    destruct (middleOut_spec l mid mid (Z.to_nat mid) 1 [c]) as (out & Ho & Hp); [lia..|].
    exists out. split; [done|]. rewrite Hp, Z2Nat.id by lia.
    replace (mid - 1 - mid + 1) with 0 by lia.
    rewrite <- (sub_split l mid) at 3 by lia.
    replace (blen l - mid) with (mid + 1) by lia.
    rewrite (sub_cons_index l mid c) by (done || lia).
    rewrite app_assoc, Permutation_app_comm. done.
  - destruct (middleOut_spec l (mid - 1) mid (Z.to_nat mid) 1 []) as (out & Ho & Hp); [lia..|].
    exists out. split; [done|]. rewrite Hp, Z2Nat.id by lia. cbn [app].
    replace (mid - 1 + 1) with mid by lia. replace (mid - 1 - mid + 1) with 0 by lia.
    rewrite <- (sub_split l mid) at 3 by lia.
    replace (blen l - mid) with mid by lia. apply Permutation_app_comm.
Qed.

(** ** The hash *)

Lemma jarmHash_length raw : String.length (jarmHash raw) = 62%nat.
Proof.
  unfold jarmHash. destruct (String.eqb _ _); [done|]. destruct (negb _); [done|].
  destruct (negb _); [done|].
  set (fuzzy := String.concat _ _). set (ext := String.concat _ _).
  rewrite length_appString, length_takeString, length_hexEncode.
  pose proof (blen_sha256 (ofString ext)) as Hs. unfold blen in Hs.
  unfold pad30. rewrite length_appString, length_Repeat.
  destruct (30 <? String.length fuzzy)%nat eqn:E.
  - apply Nat.ltb_lt in E. rewrite length_takeString. lia.
  - apply Nat.ltb_ge in E. lia.
Qed.

(** A comma inside one answer makes the number of pieces wrong. *)
Lemma jarmHash_comma outs s :
  length outs = 10%nat -> In s outs -> lacks "," s = false -> jarmHash (Join outs ",") = empty62.
Proof.
  intros Hl Hin Hc. unfold jarmHash. destruct (String.eqb _ _); [done|].
  rewrite length_Split, countChar_Join by (by destruct outs).
  assert (Hs : (0 < list_sum (map (countChar ",") outs))%nat).
  { destruct (countChar "," s) as [|n] eqn:E; [apply lacks_count in E; congruence|].
    apply in_split in Hin as (l1 & l2 & ->). rewrite map_app, list_sum_app. cbn. lia. }
  rewrite (proj2 (Nat.eqb_neq _ _)) by lia. done.
Qed.

(** The three characters of one answer. *)
Definition jarmCode (h : string) : string := fst (fst (fuzzyPart h)).
Definition jarmExtText (h : string) : string := snd (fst (fuzzyPart h)).
Definition jarmAnswered (h : string) : bool := snd (fuzzyPart h).

Lemma length_versionFuzzyByte v : String.length (versionFuzzyByte v) = 1%nat.
Proof. unfold versionFuzzyByte. by repeat destruct (String.eqb v _). Qed.

Lemma length_cipherFuzzyBytes h : String.length (cipherFuzzyBytes h) = 2%nat.
Proof.
  unfold cipherFuzzyBytes. destruct (_ <? 4)%nat eqn:E; [done|]. apply Nat.ltb_ge in E.
  unfold ToLower. rewrite length_mapString, length_takeString, length_dropString. lia.
Qed.

Lemma length_jarmCode h : String.length (jarmCode h) = 3%nat.
Proof.
  unfold jarmCode, fuzzyPart. destruct (Split h "|") as [|p0 [|p1 rest]]; try done.
  destruct (String.eqb p0 ""); [done|]. cbn [fst].
  by rewrite length_appString, length_cipherFuzzyBytes, length_versionFuzzyByte.
Qed.

Lemma length_jarmCodes outs :
  String.length (String.concat "" (map jarmCode outs)) = (3 * length outs)%nat.
Proof.
  induction outs as [|h outs IH]; [done|]. cbn [map].
  rewrite concat_empty_cons, length_appString, IH, length_jarmCode. cbn. lia.
Qed.

Lemma jarmHash_outs outs :
  length outs = 10%nat -> forallb (lacks ",") outs = true ->
  jarmHash (Join outs ",") =
  if existsb jarmAnswered outs then
    (String.concat "" (map jarmCode outs)
     +:+ takeString 32 (hexEncode (sha256 (ofString (String.concat "" (map jarmExtText outs))))))%string
  else empty62.
Proof.
  intros Hl Ho. assert (Hs : Split (Join outs ",") "," = outs) by (apply Split_Join; by destruct outs).
  unfold jarmHash. destruct (String.eqb_spec (Join outs ",") (Repeat "," 9)) as [Hr|_].
  - rewrite Hr in Hs. rewrite <- Hs. reflexivity.
  - rewrite Hs, Hl. cbn [negb Nat.eqb]. rewrite !map_map.
    replace (existsb snd (map fuzzyPart outs)) with (existsb jarmAnswered outs)
      by (clear; unfold jarmAnswered; induction outs as [|h t IH]; cbn; [done|by rewrite IH]).
    destruct (existsb jarmAnswered outs); cbn [negb]; [|done].
    fold jarmCode. change (map (fun h => fst (fst (fuzzyPart h))) outs) with (map jarmCode outs).
    change (map (fun h => snd (fst (fuzzyPart h))) outs) with (map jarmExtText outs).
    pose proof (length_jarmCodes outs) as Hc. rewrite Hl in Hc. rewrite Hc.
    cbn [Nat.ltb Nat.leb Nat.mul Nat.add]. unfold pad30. rewrite Hc. cbn [Nat.sub Nat.mul Nat.add Repeat].
    f_equal. generalize (String.concat "" (map jarmCode outs)) as t. clear.
    induction t as [|c t IH]; cbn; [done|by rewrite IH].
Qed.

(** ** Arrival order *)

Lemma foldl_insert_length {A} (arr : list (nat * A)) base :
  length (foldl (fun r v => <[fst v := snd v]> r) base arr) = length base.
Proof.
  revert base. induction arr as [|v arr IH]; intros base; cbn; [done|]. by rewrite IH, length_insert.
Qed.

Lemma foldl_insert_lookup {A} (arr : list (nat * A)) base i :
  NoDup (map fst arr) ->
  foldl (fun r v => <[fst v := snd v]> r) base arr !! i =
  match List.find (fun v => (fst v =? i)%nat) arr with
  | Some v => if decide (i < length base)%nat then Some (snd v) else None
  | None => base !! i
  end.
Proof.
  revert base. induction arr as [|[j x] arr IH]; intros base Hnd; cbn; [done|].
  inversion_clear Hnd as [|? ? Hj Hnd']. rewrite IH by done. rewrite length_insert.
  destruct (Nat.eqb_spec j i) as [->|Hji].
  - destruct (List.find _ arr) as [[k y]|] eqn:Ef.
    + apply List.find_some in Ef as [Hin Hk]. apply Nat.eqb_eq in Hk. cbn in Hk. subst.
      exfalso. apply Hj. apply list_elem_of_In. apply in_map_iff. by exists (i, y).
    + destruct (decide (i < length base)%nat).
      * by apply list_lookup_insert_eq.
      * apply lookup_ge_None_2. rewrite length_insert. lia.
  - destruct (List.find _ arr); [done|]. by apply list_lookup_insert_ne.
Qed.

Lemma find_Permutation {A} (l l' : list (nat * A)) i :
  NoDup (map fst l) -> Permutation l l' ->
  List.find (fun v => (fst v =? i)%nat) l = List.find (fun v => (fst v =? i)%nat) l'.
Proof.
  intros Hnd Hp. induction Hp as [|v l l' Hp IH|v w l|l l2 l3 H12 IH1 H23 IH2]; cbn in *.
  - done.
  - inversion_clear Hnd. destruct (fst v =? i)%nat; [done|auto].
  - destruct (Nat.eqb_spec (fst w) i), (Nat.eqb_spec (fst v) i); try done.
    inversion_clear Hnd as [|? ? Hn _]. exfalso. apply Hn, list_elem_of_In. left. congruence.
  - rewrite IH1 by done. apply IH2. by rewrite <- H12.
Qed.

Lemma collect_Permutation arr arr' :
  NoDup (map fst arr) -> Permutation arr arr' -> collect arr = collect arr'.
Proof.
  intros Hnd Hp. unfold collect. apply list_eq. intros i.
  rewrite !foldl_insert_lookup; [by rewrite (find_Permutation arr arr')| |done].
  by rewrite <- Hp.
Qed.

(** ** The hellos *)

Definition jarmBaseExts : list (Z * bytes) :=
  [(0x17, []); (0xff01, [x00]); (10, [x00; x08; x00; x1d; x00; x17; x00; x18; x00; x19]);
   (11, [x01; x00]); (35, []);
   (16, [x00; x0c; x02] ++ ofString "h2" ++ [x08] ++ ofString "http/1.1");
   (5, [x01; x00; x00; x00; x00]);
   (13, [x00; x12; x04; x03; x08; x04; x04; x01; x05; x03; x08; x05; x05; x01;
         x08; x06; x06; x01; x02; x01])].
Definition jarmExtList (host : string) (tls13 sni invalid : bool) : list (Z * bytes) :=
  let versions := [(43, [x02; x03; x04])] in
  (if tls13 && invalid then versions else [])
  ++ (if sni then [(0, sniData host)] else []) ++ jarmBaseExts
  ++ (if tls13 then (if invalid then [] else versions) ++ [(51, [x00; x00]); (45, [x01; x01])] else []).

Lemma jarmExtensions_enc host tls13 sni invalid :
  jarmExtensions host tls13 sni invalid = encExts (jarmExtList host tls13 sni invalid).
Proof.
  unfold jarmExtensions, jarmExtList. rewrite buildSNIExtension_enc.
  destruct tls13, sni, invalid; cbn [andb app concat encExts flat_map jarmBaseExts];
    rewrite ?app_nil_r, <- ?app_assoc; reflexivity.
Qed.

Lemma jarmExtList_ok host tls13 sni invalid :
  slen host <= 60000 -> Forall extOk (jarmExtList host tls13 sni invalid).
Proof.
  intros Hh. pose proof (slen_nonneg host).
  assert (Hc : Forall extOk jarmBaseExts) by (repeat constructor; vm_compute; congruence).
  assert (Hv : Forall extOk [(43, [x02; x03; x04])]) by (repeat constructor; vm_compute; congruence).
  unfold jarmExtList. repeat (apply Forall_app; split).
  - by destruct (tls13 && invalid).
  - destruct sni; [|done]. constructor; [|done]. split; cbn [fst snd]; rewrite ?blen_sniData; lia.
  - done.
  - destruct tls13; [|done]. apply Forall_app. split; [by destruct invalid|].
    repeat constructor; vm_compute; congruence.
Qed.

(** The choices of [buildJARMClientHello] on the extension spec. *)
Definition specExts (host : string) (s : jarmProbeSpec) : list (Z * bytes) :=
  if String.eqb (ExtSpec s) "1" then jarmExtList host (IsTLS13 s) true false
  else if String.eqb (ExtSpec s) "2" then jarmExtList host (IsTLS13 s) false false
  else if String.eqb (ExtSpec s) "3" then jarmExtList host (IsTLS13 s) true true
  else [].

Lemma buildJARMClientHello_enc host s rnd ciphers :
  applyCipherMode jarmCipherList (CipherMode s) = Ret ciphers ->
  buildJARMClientHello host s rnd
  = Ret (helloRecord (Version s) rnd ((if GREASE s then [x0a; x0a] else []) ++ flat_map putBE16 ciphers)
           (encExts (specExts host s))).
Proof.
  intros Hm. unfold buildJARMClientHello, specExts. rewrite Hm. cbn [bind].
  rewrite !jarmExtensions_enc. by repeat destruct (String.eqb (ExtSpec s) _).
Qed.

(** ** Answers *)

Lemma extensionIDsList_spec ext :
  extensionIDsList ext = Ret (Join (map (fun e => uint16hex (fst e)) (fst (extList ext))) "-").
Proof.
  unfold extensionIDsList. rewrite walkExts_spec. destruct (extList ext) as [l t]. cbn [fst].
  assert (Hf : forall acc, foldExts (R := list string) (fun ids => Ret (inl ids))
    (fun ids ty _ => Ret (Next (ids ++ [uint16hex ty]))) l t acc
    = Ret (inl (acc ++ map (fun e => uint16hex (fst e)) l))).
  { induction l as [|[ty d] l IH]; intros acc; cbn [foldExts map fst].
    - rewrite app_nil_r. by destruct t.
    - by rewrite IH, <- app_assoc. }
  by rewrite Hf.
Qed.

Lemma jarmAnswer_safe body : safe (jarmAnswer body).
Proof.
  unfold safe, jarmAnswer. wp_run; try done.
  eapply wp_mono; [apply serverHelloExtensions_safe| |done]. intros ext _. cbn beta.
  rewrite alpnFromExtensions_spec, supportedVersions_spec, extensionIDsList_spec. done.
Qed.

(** The text of an answer. *)
Definition versionsOf (exts : list (Z * bytes)) : Z :=
  match List.find (fun e => (fst e =? 43) && (2 <=? blen (snd e))) exts with
  | Some (_, v1 :: v0 :: _) => be16 v1 v0
  | _ => 0
  end.
Definition jarmText (cipher ver : Z) (exts : list (Z * bytes)) : string :=
  (uint16hex cipher +:+ "|" +:+ uint16hex ver +:+ "|" +:+ firstALPN exts +:+ "|"
   +:+ uint16hex (versionsOf exts) +:+ "|"
   +:+ Join (map (fun e => uint16hex (fst e)) exts) "-")%string.

Lemma jarmAnswer_text v1 v0 random sid cipher comp exts :
  blen random = 32 -> blen sid < 256 -> 0 <= cipher < 65536 -> blen (encExts exts) < 65536 ->
  Forall extOk exts ->
  jarmAnswer (legacyServerHello v1 v0 random sid cipher comp (encExts exts))
  = Ret (jarmText cipher (be16 v1 v0) exts).
Proof.
  intros Hr Hs Hc He Ho. pose proof (blen_nonneg sid). pose proof (blen_nonneg (encExts exts)).
  destruct (legacyServerHello_reads v1 v0 random sid cipher comp (encExts exts) Hr)
    as (R0 & R1 & R2 & R3 & R4).
  unfold jarmAnswer. rewrite blen_legacyServerHello, serverHelloExtensions_block, R0, R1, R2 by done.
  rewrite (proj2 (Z.ltb_ge _ 35)) by lia. cbn [bind].
  rewrite bval_byteOf, (Z.mod_small (blen sid)), (proj2 (Z.ltb_ge _ _)), R3, R4 by lia.
  cbn [bind]. change (default [] (Some (encExts exts))) with (encExts exts).
  rewrite alpnFromExtensions_spec, supportedVersions_spec, extensionIDsList_spec, extList_encExts by done.
  cbn [bind fst]. by rewrite be16_putBE16, u16_small by lia.
Qed.

(** ** Claims about the fingerprint *)

(** [applyCipherMode] never exceeds a bound, whatever list it reorders:
    FORWARD and REVERSE give the list and its reverse, MIDDLE_OUT a permutation
    of it, and the two halves are the first and the last [len/2] ciphers, so
    that for a list of even length (as [jarmCipherList] is) together they are
    the list. *)
Theorem applyCipherMode_spec l :
  applyCipherMode l "FORWARD" = Ret l /\
  applyCipherMode l "REVERSE" = Ret (rev l) /\
  (exists out, applyCipherMode l "MIDDLE_OUT" = Ret out /\ Permutation out l) /\
  (exists top bottom, applyCipherMode l "TOP_HALF" = Ret top /\
     applyCipherMode l "BOTTOM_HALF" = Ret bottom /\
     blen top = blen l / 2 /\ blen bottom = blen l / 2 /\
     exists middle, l = top ++ middle ++ bottom /\ blen middle = blen l mod 2).
Proof.
  pose proof (blen_nonneg l). pose proof (Z.div_mod (blen l) 2 ltac:(lia)) as Hd.
  pose proof (Z.mod_pos_bound (blen l) 2 ltac:(lia)) as Hm.
  split; [done|]. split.
  { change (applyCipherMode l "REVERSE") with (reverseInto l 0 (blen l) (repeat 0 (length l))).
    assert (Hr : blen (repeat 0 (length l)) = blen l) by (unfold blen; by rewrite repeat_length).
    rewrite <- Hr. rewrite reverseInto_spec by lia.
    by rewrite drop_ge, app_nil_r by (rewrite repeat_length; lia). }
  split; [apply applyCipherMode_middle|].
  set (m := blen l / 2) in *.
  exists (sub l 0 m), (sub l (blen l - m) m).
  assert (Ht : applyCipherMode l "TOP_HALF" = slice l 0 m) by done.
  assert (Hb : applyCipherMode l "BOTTOM_HALF" = sliceFrom l (blen l - m)).
  { change (applyCipherMode l "BOTTOM_HALF")
      with (if blen l mod 2 =? 1 then sliceFrom l (m + 1) else sliceFrom l m).
    destruct (blen l mod 2 =? 1) eqn:E; to_prop; f_equal; lia. }
  rewrite Ht, Hb. unfold sliceFrom. rewrite !slice_ok by lia.
  rewrite Z.sub_0_r. replace (blen l - (blen l - m)) with m by lia.
  rewrite !blen_sub by lia. do 4 (split; [done|]).
  exists (sub l m (blen l - 2 * m)). rewrite blen_sub by lia. split; [|lia].
  rewrite <- (sub_split l m) at 1 by lia. f_equal.
  unfold sub. rewrite <- (take_drop (Z.to_nat (blen l - 2 * m)) (take _ _)) at 1. f_equal.
  - rewrite take_take. f_equal. lia.
  - rewrite (take_ge (drop _ _)) by (rewrite length_drop; unfold blen; lia).
    rewrite drop_drop, take_ge by (rewrite length_drop; unfold blen in *; lia).
    f_equal. lia.
Qed.

(** The ten ClientHellos: for every host name, each probe of [jarm10Probes]
    is one well-formed record of its version, its cipher list is made of the base
    list (with the GREASE value in front where the probe asks for it), and its
    extension block decodes to the probe's extension list; for TLS_1.3_INVALID
    supported_versions comes before server_name. *)
Theorem jarmHellos_wellformed host s rnd :
  In s jarm10Probes -> slen host <= 60000 -> blen rnd = 32 ->
  exists ciphers cipherBytes body,
    buildJARMClientHello host s rnd = Ret (encRecord x16 (putBE16 (Version s)) (encMsg x01 body)) /\
    incl ciphers jarmCipherList /\
    cipherBytes = (if GREASE s then [x0a; x0a] else []) ++ flat_map putBE16 ciphers /\
    body = helloBody (Version s) rnd cipherBytes (encExts (specExts host s)) /\
    blen (encExts (specExts host s)) < 65536 /\ blen (encMsg x01 body) < 65536 /\
    extList (encExts (specExts host s)) = (specExts host s, Clean).
Proof.
  intros Hin Hh Hr. pose proof (slen_nonneg host).
  assert (Hm : exists ciphers, applyCipherMode jarmCipherList (CipherMode s) = Ret ciphers /\
    forallb (fun c => existsb (Z.eqb c) jarmCipherList) ciphers = true /\ blen ciphers <= 52).
  { revert Hin. vm_compute jarm10Probes. intros Hin. cbn [In] in Hin.
    repeat (destruct Hin as [<-|Hin];
      [eexists; split; [vm_compute; reflexivity|split; [reflexivity|by vm_compute]]|]). done. }
  destruct Hm as (ciphers & Hm & Hinc & Hlen).
  assert (Hx : exists t sni i, specExts host s = jarmExtList host t sni i).
  { revert Hin. vm_compute jarm10Probes. intros Hin. cbn [In] in Hin.
    repeat (destruct Hin as [<-|Hin]; [do 3 eexists; reflexivity|]). done. }
  destruct Hx as (t & sni & i & Hx).
  assert (Hok : Forall extOk (specExts host s)) by (rewrite Hx; by apply jarmExtList_ok).
  assert (Hel : blen (encExts (specExts host s)) <= slen host + 200).
  { rewrite Hx, blen_encExts. unfold jarmExtList.
    destruct t, sni, i; cbn [andb app foldr snd jarmBaseExts]; rewrite ?blen_sniData;
      autorewrite with blen; vm_compute (slen "h2"); vm_compute (slen "http/1.1"); lia. }
  assert (Hcl : blen (flat_map putBE16 ciphers) = 2 * blen ciphers).
  { clear. induction ciphers as [|c l IH]; [done|]. cbn [flat_map].
    rewrite blen_app, IH, blen_cons, blen_putBE16. lia. }
  do 3 eexists. rewrite (buildJARMClientHello_enc host s rnd ciphers Hm), helloRecord_enc.
  split; [done|]. split.
  { intros c Hc. rewrite forallb_forall in Hinc. specialize (Hinc c Hc).
    apply existsb_exists in Hinc as (d & Hd & Heq). apply Z.eqb_eq in Heq. by subst. }
  split; [done|]. split; [done|]. split; [lia|]. split; [|by apply extList_encExts].
  rewrite encMsg_length. unfold helloBody. autorewrite with blen. rewrite Hcl.
  destruct (GREASE s); autorewrite with blen; lia.
Qed.

Lemma jarmHellos_wellformed_witness :
  extList (encExts (specExts "example.com" (spec "TLS_1.3_INVALID" 0x0303 true "FORWARD" "3" false)))
  = ((43, [x02; x03; x04]) :: (0, sniData "example.com") ::
     jarmBaseExts ++ [(51, [x00; x00]); (45, [x01; x01])], Clean).
Proof.
  pose proof (jarmHellos_wellformed "example.com" (spec "TLS_1.3_INVALID" 0x0303 true "FORWARD" "3" false)
    (repeat x01 32) ltac:(do 8 right; by left) ltac:(by vm_compute) eq_refl)
    as (? & ? & ? & _ & _ & _ & _ & _ & _ & H).
  exact H.
Defined.

(** One probe returns for every peer ([jarmOneProbe] has no bound it can
    exceed), and the text it makes of a ServerHello is cipher, version, ALPN
    choice, selected version and the extension types in observed order. *)
Theorem jarmOneProbe_answer {C} `{Reader C} (net : attemptConn (C := C)) host s rnd :
  In s jarm10Probes ->
  safe (jarmOneProbe net host s rnd) /\
  (forall hello c v1 v0 random sid cipher comp exts rv1 rv0 rest,
     buildJARMClientHello host s rnd = Ret hello -> net hello = Some c ->
     let msg := encMsg x02 (legacyServerHello v1 v0 random sid cipher comp (encExts exts)) in
     pending c = encRecord x16 [rv1; rv0] msg ++ rest ->
     blen random = 32 -> blen sid < 256 -> 0 <= cipher < 65536 -> blen msg <= 18432 ->
     Forall extOk exts ->
     jarmOneProbe net host s rnd = Ret (jarmText cipher (be16 v1 v0) exts)).
Proof.
  intros Hin. split.
  - assert (Hb : exists hello, buildJARMClientHello host s rnd = Ret hello).
    { revert Hin. vm_compute jarm10Probes. intros Hin. cbn [In] in Hin.
      repeat (destruct Hin as [<-|Hin];
        [eexists; eapply buildJARMClientHello_enc; vm_compute; reflexivity|]). done. }
    destruct Hb as [hello Hb]. unfold jarmOneProbe, safe. rewrite Hb. cbn [bind].
    destruct (net hello) as [c|]; [|done]. wp_step.
    eapply wp_mono; [apply wp_readServerHelloBody| |done]. intros [body|] _; [|done].
    apply jarmAnswer_safe.
  - intros hello c v1 v0 random sid cipher comp exts rv1 rv0 rest Hb Hn msg Hp Hr Hs Hc Hl Ho.
    unfold jarmOneProbe. rewrite Hb. cbn [bind]. rewrite Hn.
    pose proof (blen_nonneg sid). pose proof (blen_nonneg (encExts exts)).
    assert (He : blen (encExts exts) < 65536).
    { unfold msg in Hl. rewrite encMsg_length, blen_legacyServerHello in Hl by done. lia. }
    rewrite (readServerHelloBody_finds c rv1 rv0 []
      (legacyServerHello v1 v0 random sid cipher comp (encExts exts)) [] rest);
      [|cbn [flat_map app]; by rewrite app_nil_r|constructor|cbn [flat_map app]; by rewrite app_nil_r].
    cbn [bind]. by apply jarmAnswer_text.
Qed.

Lemma jarmOneProbe_answer_witness :
  jarmOneProbe (fun _ => Some sampleStream) "example.com"
    (spec "TLS_1.2_FORWARD" 0x0303 false "FORWARD" "1" false) (repeat x00 32)
  = Ret "c02f|0303|h2|0000|ff01-0010"%string.
Proof.
  destruct (jarmOneProbe_answer (fun _ => Some sampleStream) "example.com"
    (spec "TLS_1.2_FORWARD" 0x0303 false "FORWARD" "1" false) (repeat x00 32)) as [_ H]; [by left|].
  rewrite (H _ sampleStream x03 x03 (repeat x01 32) [] 0xc02f x00 sampleAnswer x03 x03 []
    ltac:(vm_compute; reflexivity) eq_refl eq_refl eq_refl eq_refl).
  - vm_compute. reflexivity.
  - lia.
  - by vm_compute.
  - repeat constructor; vm_compute; congruence.
Defined.

(** The fingerprint: [jarmHash] always has 62 characters; over ten answers
    without a comma it is the ten three-character codes and half a SHA-256 of the
    answers' extension texts, or all zeros when no probe was answered; but one
    comma in an answer (an ALPN name may hold one) makes it all zeros too. *)
Theorem jarmHash_spec outs raw :
  String.length (jarmHash raw) = 62%nat /\
  (length outs = 10%nat ->
   jarmHash (Join outs ",") =
   if forallb (lacks ",") outs && existsb jarmAnswered outs then
     (String.concat "" (map jarmCode outs)
      +:+ takeString 32 (hexEncode (sha256 (ofString (String.concat "" (map jarmExtText outs))))))%string
   else empty62).
Proof.
  split; [apply jarmHash_length|]. intros Hl. destruct (forallb (lacks ",") outs) eqn:E.
  - by rewrite jarmHash_outs.
  - cbn [andb]. assert (Hs : exists s, In s outs /\ lacks "," s = false).
    { clear Hl. induction outs as [|s l IH]; cbn in E; [done|].
      destruct (lacks "," s) eqn:Es; [|exists s; split; [by left|done]].
      destruct (IH E) as (t & Ht & Hc). exists t. split; [by right|done]. }
    destruct Hs as (s & Hin & Hc). by eapply jarmHash_comma.
Qed.

Lemma jarmHash_spec_witness :
  jarmHash (Join ("c02f|0303|a,b|0000|ff01"%string :: repeat ""%string 9) ",") = empty62 /\
  takeString 30 (jarmHash (Join ("c02f|0303|h2|0000|ff01"%string :: repeat ""%string 9) ","))
  = "2fc000000000000000000000000000"%string.
Proof.
  pose proof (jarmHash_spec ("c02f|0303|a,b|0000|ff01"%string :: repeat ""%string 9) "") as [_ H1].
  pose proof (jarmHash_spec ("c02f|0303|h2|0000|ff01"%string :: repeat ""%string 9) "") as [_ H2].
  rewrite (H1 eq_refl), (H2 eq_refl). split; vm_compute; reflexivity.
Defined.

(** The fingerprint does not depend on the order in which the ten goroutines
    finish: every order of the indexed answers gives the hash of the answers in
    probe order. *)
Theorem probeJARM_deterministic outs arrivals :
  length outs = 10%nat ->
  Permutation arrivals (combine (seq 0 10) outs) ->
  probeJARM arrivals
  = {| Fingerprint := jarmHash (Join outs ","); Raw := Join outs ","; ProbeNames := jarmProbeNames |}.
Proof.
  intros Hl Hp. unfold probeJARM.
  assert (Hnd : NoDup (map fst (combine (seq 0 10) outs))).
  { do 11 (destruct outs as [|? outs]; [try done|]); cbn; try done.
    apply (bool_decide_unpack (NoDup [0;1;2;3;4;5;6;7;8;9]%nat)). by vm_compute. }
  rewrite (collect_Permutation _ (combine (seq 0 10) outs)); [|by rewrite Hp|done].
  assert (Hc : collect (combine (seq 0 10) outs) = outs).
  { do 11 (destruct outs as [|? outs]; [try done|]); cbn; done. }
  by rewrite Hc.
Qed.

Lemma probeJARM_deterministic_witness :
  Raw (probeJARM (rev (combine (seq 0 10) ["a"; "b"; "c"; "d"; "e"; "f"; "g"; "h"; "i"; "j"]%string)))
  = "a,b,c,d,e,f,g,h,i,j"%string.
Proof.
  rewrite (probeJARM_deterministic ["a"; "b"; "c"; "d"; "e"; "f"; "g"; "h"; "i"; "j"]%string).
  - reflexivity.
  - reflexivity.
  - symmetry. apply Permutation_rev.
Defined.
