(* ===== verification/Diff.v ===== *)
(** [--diff]: the comparison of two reports of [diff.go], and a baseline as the report
    that was written as JSON and read back. *)

From Stdlib Require Import ZArith List String Ascii Strings.Byte Lia Bool.
From stdpp Require Import base list strings gmap.
From S2P Require Import Prelude Bytes GoStrings Jarm Result Float Json Profile Report.
Open Scope Z_scope.

Record diffEntry := { Path : string; Before : string; After : string }.

Definition bstr (b : bool) : string := if b then "true" else "false".

(** [stringifyValue]: [None] is ok = false.  The sort of a [[]string] is in place; the
    report is not read again except through this function. *)
Definition stringifyValue (v : value) : option string :=
  match v with
  | VNil => None
  | VString s => Some s
  | VBool b => Some (bstr b)
  | VFloat f => Some (fmtV f)
  | VInt z => Some (fmtD z)
  | VStrings l => Some (Join (sortStrings (default [] l)) ",")
  | VAny l => Some (Join (sortStrings (flat_map (fun e => match e with VString s => [s] | _ => [] end) l)) ",")
  | _ => Some (marshal v)
  end.

Definition curatedKeysFor (checkName : string) : list string :=
  if String.eqb checkName "DNS" then ["ipv4"; "ipv6"; "ns"; "dnssec_status"]
  else if String.eqb checkName "Domain" then ["registrar"; "expires"; "status"]
  else if String.eqb checkName "TLS" then ["version"; "issuer"; "expires"; "supported_versions"; "vulnerabilities"; "jarm"]
  else if String.eqb checkName "HTTP" then ["status"; "proto"; "redirects"; "hsts"]
  else if String.eqb checkName "Security" then ["score"; "grade"]
  else if String.eqb checkName "Mail" then ["score"; "grade"]
  else if String.eqb checkName "Reputation" then ["hits"; "fcrdns"]
  else if String.eqb checkName "IPv6" then ["has_aaaa"; "reachable"]
  else []%string.

(** [m[k]] of a map that may be nil *)
Definition at_ (m : option (gmap string value)) (k : string) : value :=
  match m with Some m => default VNil (m !! k) | None => VNil end.

Definition changed (path before after : string) : diffEntry := {| Path := path; Before := before; After := after |}.

Definition diffKey (checkName : string) (before after : option (gmap string value)) (k : string) : list diffEntry :=
  let path := (checkName +:+ "." +:+ k)%string in
  match stringifyValue (at_ after k) with
  | None => match stringifyValue (at_ before k) with Some b => [changed path b "(removed)"] | None => [] end
  | Some a =>
      match stringifyValue (at_ before k) with
      | None => [changed path "(new)" a]
      | Some b => if String.eqb b a then [] else [changed path b a]
      end
  end.

Definition diffCheckDetail (checkName : string) (before after : option (gmap string value)) : list diffEntry :=
  match before, after with
  | None, None => []
  | _, _ => flat_map (diffKey checkName before after) (curatedKeysFor checkName)
  end.

(** A later check of the same name wins. *)
Definition indexChecks (checks : list Check) : gmap string Check :=
  foldl (fun out c => <[Name c := c]> out) ∅ checks.

Definition canonical : list string :=
  ["DNS"; "Domain"; "Delegation"; "TCP"; "Latency"; "Path"; "TLS"; "HTTP"; "Security"; "Discovery"; "Mail";
   "Reputation"; "IPv6"; "Ports"]%string.

(** [visit] is the order in which the loop over [have] meets the names that are left. *)
Definition mergeCheckNames (visit : list string -> list string) (a b : gmap string Check) : list string :=
  let have := dom a ∪ dom b in
  let out := List.filter (fun n => bool_decide (n ∈ have)) canonical in
  out ++ visit (elements (have ∖ list_to_set canonical)).

Definition diffCheck (a b : option Check) (name : string) : list diffEntry :=
  let path := (name +:+ ".status")%string in
  match b, a with
  | None, Some a => [changed path "(new check)" (Status a)]
  | Some b, None => [changed path (Status b) "(removed)"]
  | Some b, Some a =>
      (if String.eqb (Status b) (Status a) then [] else [changed path (Status b) (Status a)])
      ++ (if String.eqb (Summary b) (Summary a) then [] else [changed (name +:+ ".summary") (Summary b) (Summary a)])
      ++ diffCheckDetail name (Detail b) (Detail a)
  | None, None => []
  end.

Definition reportDiff (visit : list string -> list string) (before after : Report) : list diffEntry :=
  let beforeChecks := indexChecks (Checks before) in
  let afterChecks := indexChecks (Checks after) in
  (if Bool.eqb (Healthy before) (Healthy after) then [] else [changed "healthy" (bstr (Healthy before)) (bstr (Healthy after))])
  ++ (if String.eqb (FixFirst before) (FixFirst after) then [] else [changed "fix_first" (FixFirst before) (FixFirst after)])
  ++ flat_map (fun name => diffCheck (afterChecks !! name) (beforeChecks !! name) name) (mergeCheckNames visit beforeChecks afterChecks).

(** The exit status of a run with [--diff] *)
Definition diffExitCode (r : Report) (diffs : list diffEntry) : Z :=
  let exitCode := if Healthy r then 0 else 1 in
  if (0 <? blen diffs) && (exitCode =? 0) then 1 else exitCode.

(** ** A baseline *)

(** [json.Marshal] and [loadBaseline] on a check and on a report; the trace is not
    compared and left out. *)
Definition reloadCheck (c : Check) : Check :=
  {| Name := validUTF8 (Name c); Status := validUTF8 (Status c); Summary := validUTF8 (Summary c); Hint := validUTF8 (Hint c);
     Millis := Millis c;
     Detail := match Detail c with
               | Some m => if (size m =? 0)%nat then None else Some (reload <$> m)
               | None => None
               end |}.

Definition baseline (r : Report) : Report :=
  {| Target := validUTF8 (Target r); Host := validUTF8 (Host r); Port := Port r; Scheme := validUTF8 (Scheme r);
     Healthy := Healthy r; Checks := map reloadCheck (Checks r); Trace := Trace r; Problems := map validUTF8 (Problems r);
     FixFirst := validUTF8 (FixFirst r); Elapsed := validUTF8 (Elapsed r) |}.

(** ** Rendering *)

Definition rule : string := Repeat (toString [xe2; x94; x80]) 60.
Definition newline : string := toString [x0a].

(** [byCheck] and [order]: the entries of each head in the order of first appearance *)
Definition headOf (d : diffEntry) : string := (Cut (Path d) ".").1.1.
Definition groupTurn (groups : list (string * list diffEntry)) (d : diffEntry) : list (string * list diffEntry) :=
  let head := headOf d in
  if existsb (fun g => String.eqb g.1 head) groups then
    map (fun g => if String.eqb g.1 head then (g.1, g.2 ++ [d]) else g) groups
  else groups ++ [(head, [d])].
Definition groupDiffs (diffs : list diffEntry) : list (string * list diffEntry) := foldl groupTurn [] diffs.

Fixpoint renderEntries (l : list diffEntry) : outcome string :=
  match l with
  | [] => Ret ""%string
  | d :: l =>
      b <~ truncate (Before d) 80 ;; a <~ truncate (After d) 80 ;; rest <~ renderEntries l ;;
      Ret ("  " +:+ Path d +:+ ":" +:+ newline +:+ "    - " +:+ b +:+ newline +:+ "    + " +:+ a +:+ newline +:+ rest)%string
  end.

Fixpoint renderGroups (groups : list (string * list diffEntry)) : outcome string :=
  match groups with
  | [] => Ret ""%string
  | (name, l) :: groups =>
      body <~ renderEntries l ;; rest <~ renderGroups groups ;;
      Ret (newline +:+ name +:+ newline +:+ body +:+ rest)%string
  end.

Definition renderDiff (diffs : list diffEntry) (baselinePath : string) : outcome string :=
  let head := ("netdoc diff vs " +:+ baselinePath +:+ newline +:+ rule +:+ newline)%string in
  if blen diffs =? 0 then Ret (head +:+ "(no significant changes)" +:+ newline)%string
  else body <~ renderGroups (groupDiffs diffs) ;; Ret (head +:+ body)%string.

(** ** When two reports have no difference *)

Lemma flat_map_nil {A B} (f : A -> list B) l : flat_map f l = [] <-> forall x, x ∈ l -> f x = [].
Proof.
  induction l as [|y l IH]; cbn; [by split; [intros _ x Hx; apply elem_of_nil in Hx|]|]. split.
  - intros [Hy Hl]%app_eq_nil x [->|Hx]%elem_of_cons; [done|by apply IH].
  - intros Hx. rewrite (Hx y) by apply list_elem_of_here. apply IH. intros x Hin. apply Hx. by apply list_elem_of_further.
Qed.

Lemma if_nil {A} (b : bool) (x : A) : (if b then [] else [x]) = [] <-> b = true.
Proof. by destruct b. Qed.

Lemma diffKey_nil n b a k : diffKey n b a k = [] <-> stringifyValue (at_ b k) = stringifyValue (at_ a k).
Proof.
  unfold diffKey. destruct (stringifyValue (at_ a k)) as [x|], (stringifyValue (at_ b k)) as [y|]; [|done..].
  rewrite if_nil, String.eqb_eq. split; [by intros ->|by intros [=]].
Qed.

Lemma diffCheckDetail_nil n b a :
  diffCheckDetail n b a = [] <-> forall k, k ∈ curatedKeysFor n -> stringifyValue (at_ b k) = stringifyValue (at_ a k).
Proof.
  assert (Hf : flat_map (diffKey n b a) (curatedKeysFor n) = [] <->
    forall k, k ∈ curatedKeysFor n -> stringifyValue (at_ b k) = stringifyValue (at_ a k)).
  { rewrite flat_map_nil. by setoid_rewrite diffKey_nil. }
  unfold diffCheckDetail. destruct a, b; done.
Qed.

Definition sameCheck (name : string) (b a : option Check) : Prop :=
  match b, a with
  | Some b, Some a =>
      Status b = Status a /\ Summary b = Summary a /\
      forall k, k ∈ curatedKeysFor name -> stringifyValue (at_ (Detail b) k) = stringifyValue (at_ (Detail a) k)
  | None, None => True
  | _, _ => False
  end.

Lemma diffCheck_nil a b n : diffCheck a b n = [] <-> sameCheck n b a.
Proof.
  unfold diffCheck, sameCheck. destruct b as [b|], a as [a|]; [|done..].
  by rewrite !app_nil, !if_nil, !String.eqb_eq, diffCheckDetail_nil.
Qed.

Section Compare.
Context (visit : list string -> list string) (visit_perm : forall l, Permutation (visit l) l).

Lemma elem_mergeCheckNames a b n : n ∈ mergeCheckNames visit a b <-> n ∈ dom a ∪ dom b.
Proof.
  unfold mergeCheckNames. rewrite elem_of_app, visit_perm, elem_of_elements, list_elem_of_In, filter_In, bool_decide_eq_true.
  rewrite elem_of_difference, elem_of_list_to_set. rewrite <- list_elem_of_In.
  destruct (decide (n ∈ canonical)); split; [intros [[? ?]|[? ?]]; done|by left|intros [[? ?]|[? ?]]; done|by right].
Qed.

Definition agree (before after : Report) : Prop :=
  Healthy before = Healthy after /\ FixFirst before = FixFirst after /\
  forall name, sameCheck name (indexChecks (Checks before) !! name) (indexChecks (Checks after) !! name).

Lemma reportDiff_nil before after : reportDiff visit before after = [] <-> agree before after.
Proof.
  unfold reportDiff, agree. cbv zeta.
  rewrite !app_nil, !if_nil, String.eqb_eq, Bool.eqb_true_iff, flat_map_nil. setoid_rewrite diffCheck_nil. setoid_rewrite elem_mergeCheckNames.
  split; intros (Hh & Hf & Hc); (split; [done|split; [done|]]); [|by intros; apply Hc].
  intros name. destruct (decide (name ∈ dom (indexChecks (Checks before)) ∪ dom (indexChecks (Checks after)))) as [Hin|Hout]; [by apply Hc|].
  rewrite elem_of_union, !elem_of_dom in Hout.
  destruct (indexChecks (Checks before) !! name), (indexChecks (Checks after) !! name); [destruct Hout; eauto..|done].
Qed.

Lemma diffExitCode_drift r diffs : diffs <> [] -> diffExitCode r diffs = 1.
Proof. unfold diffExitCode, blen. destruct diffs; [done|]. intros _. cbn [length]. rewrite (proj2 (Z.ltb_lt 0 _)) by lia. by destruct (Healthy r). Qed.

(** C24. The gate of [--diff]: the run exits with 0 exactly when the report is healthy and
    the baseline agrees with it on the verdict, on what to fix first, on the set of the
    checks, and for each check on status, summary and the watched details as they are
    printed; in whatever order the names outside the canonical list are visited. *)
Theorem diff_gate before after :
  diffExitCode after (reportDiff visit before after) = 0 <-> Healthy after = true /\ agree before after.
Proof.
  rewrite <- reportDiff_nil. destruct (reportDiff visit before after) as [|d l] eqn:E.
  - unfold diffExitCode. cbn. by destruct (Healthy after); split; [|intros []|done|intros []].
  - rewrite diffExitCode_drift by done. by split; [|intros [_ ?]].
Qed.

(** ** A report and its own baseline *)

Definition valid (s : string) : bool := String.eqb (validUTF8 s) s.

(** Values that print the same after a round trip *)
Definition plain (v : value) : bool :=
  match v with
  | VNil | VBool _ | VFloat _ => true
  | VInt z => (0 <=? z) && (z <? 10 ^ 6)
  | VString s => valid s
  | VStrings (Some l) => forallb valid l
  | _ => false
  end.

Lemma map_valid l : forallb valid l = true -> map validUTF8 l = l.
Proof.
  induction l as [|s l IH]; [done|]. cbn [forallb map]. intros [Hs%String.eqb_eq Hl]%andb_true_iff. by rewrite Hs, IH.
Qed.

Lemma reload_plain v : plain v = true -> stringifyValue (reload v) = stringifyValue v.
Proof.
  destruct v as [|b|z|f|s|[l|]|l|ty l|ty l|ty l|ty]; try done; cbn [plain]; intros Hv.
  - to_prop. cbn. by rewrite fmtV_ofInt by lia.
  - apply String.eqb_eq in Hv. unfold reload. cbn. by rewrite Hv.
  - unfold reload. cbn [encode decode stringifyValue]. do 3 f_equal. rewrite map_map. cbn [decode default].
    rewrite <- (map_valid l Hv) at 2. clear Hv. induction l as [|s l IH]; [done|]. cbn. by rewrite IH.
Qed.

Lemma at_reload c k : at_ (Detail (reloadCheck c)) k = reload (at_ (Detail c) k).
Proof.
  cbn [reloadCheck Detail]. destruct (Detail c) as [m|]; [|done]. destruct (size m =? 0)%nat eqn:E.
  - apply Nat.eqb_eq, map_size_empty_inv in E as ->. cbn [at_]. by rewrite lookup_empty.
  - cbn [at_]. rewrite lookup_fmap. by destruct (m !! k).
Qed.

Lemma indexChecks_reload l n : forallb (fun c => valid (Name c)) l = true ->
  indexChecks (map reloadCheck l) !! n = reloadCheck <$> indexChecks l !! n.
Proof.
  intros Hv. unfold indexChecks.
  assert (Hg : forall acc acc' : gmap string Check, acc' = reloadCheck <$> acc ->
    foldl (fun out c => <[Name c := c]> out) acc' (map reloadCheck l) = reloadCheck <$> foldl (fun out c => <[Name c := c]> out) acc l).
  { induction l as [|c l IH]; intros acc acc' Hacc; [done|]. cbn [forallb] in Hv. apply andb_true_iff in Hv as [Hc Hl].
    cbn [foldl map]. apply IH; [done|]. rewrite Hacc, fmap_insert. f_equal. cbn [reloadCheck Name]. by apply String.eqb_eq. }
  rewrite (Hg ∅ ∅) by (by rewrite fmap_empty). apply lookup_fmap.
Qed.

Lemma indexChecks_elem l n c : indexChecks l !! n = Some c -> In c l /\ Name c = n.
Proof.
  unfold indexChecks. assert (Hg : forall acc : gmap string Check,
    foldl (fun out c => <[Name c := c]> out) acc l !! n = Some c -> acc !! n = Some c \/ In c l /\ Name c = n).
  { induction l as [|c' l IH]; intros acc; cbn [foldl]; [by left|]. intros [Hi|[Hi ?]]%IH; [|right; split; [by right|done]].
    destruct (decide (Name c' = n)) as [<-|Hn]; [rewrite lookup_insert_eq in Hi|rewrite lookup_insert_ne in Hi by done; by left].
    injection Hi as ->. right. split; [by left|done]. }
  intros [Hi|?]%Hg; [|done]. by rewrite lookup_empty in Hi.
Qed.

Definition plainCheck (c : Check) : bool :=
  valid (Name c) && valid (Status c) && valid (Summary c) && forallb (fun k => plain (at_ (Detail c) k)) (curatedKeysFor (Name c)).

(** A report whose watched details are strings, lists of strings, booleans and small
    numbers, in valid UTF-8, has no difference to the baseline written from it: the
    exit status is the one without [--diff]. *)
Theorem own_baseline r (Hf : valid (FixFirst r) = true) (Hc : forallb plainCheck (Checks r) = true) :
  reportDiff visit (baseline r) r = [] /\ diffExitCode r (reportDiff visit (baseline r) r) = if Healthy r then 0 else 1.
Proof.
  assert (Hn : reportDiff visit (baseline r) r = []); [|by rewrite Hn].
  apply reportDiff_nil. split; [done|]. split; [by apply String.eqb_eq|]. intros n. cbn [baseline Checks].
  rewrite indexChecks_reload; cycle 1.
  { rewrite forallb_forall in Hc |- *. intros c Hin. specialize (Hc c Hin). unfold plainCheck in Hc. by to_prop. }
  destruct (indexChecks (Checks r) !! n) as [c|] eqn:Hi; [|done]. apply indexChecks_elem in Hi as [Hin <-].
  rewrite forallb_forall in Hc. specialize (Hc c Hin). unfold plainCheck in Hc. to_prop. cbn [fmap option_fmap option_map sameCheck].
  split; [by apply String.eqb_eq|]. split; [by apply String.eqb_eq|]. intros k Hk%list_elem_of_In.
  rewrite at_reload. apply reload_plain. rewrite forallb_forall in *. auto.
Qed.
End Compare.

(** ** Details that always drift *)

(** The detail of [checkReputation] ([reputation.go]): typed slices of structs.  The
    fields of a [dnsblHit] or [fcrdnsResult] are those it has in JSON. *)
Definition structs (ty : string) (l : option (list (list (string * value)))) : value :=
  VSlice ty (map (VStruct ty) <$> l).
Definition reputationDetail (ips zones : Z) (hits fcrdns : option (list (list (string * value)))) : gmap string value :=
  list_to_map [("ips_checked", VInt ips); ("zones_checked", VInt zones); ("hits", structs "dnsblHit" hits);
               ("fcrdns", structs "fcrdnsResult" fcrdns)]%string.

Lemma reload_structs ty l : stringifyValue (reload (structs ty l)) <> stringifyValue (structs ty l).
Proof.
  destruct l as [l|]; [|done]. unfold structs, reload. cbn [fmap option_fmap option_map encode decode stringifyValue].
  assert (Hs : flat_map (fun e => match e with VString s => [s] | _ => [] end) (map decode (map encode (map (VStruct ty) l))) = []).
  { induction l as [|f l IH]; [done|]. cbn [map flat_map]. by rewrite IH. }
  rewrite Hs. unfold marshal. cbn [encode jsonText]. by intros [=].
Qed.

(** The drift of one watched detail is a drift of the report. *)
Lemma detail_drift visit (visit_perm : forall l, Permutation (visit l) l) r name c k
  (Hv : forallb (fun c => valid (Name c)) (Checks r) = true) (Hi : indexChecks (Checks r) !! name = Some c)
  (Hk : k ∈ curatedKeysFor name) (Hd : stringifyValue (reload (at_ (Detail c) k)) <> stringifyValue (at_ (Detail c) k)) :
  reportDiff visit (baseline r) r <> [].
Proof.
  rewrite (reportDiff_nil visit visit_perm). intros (_ & _ & Hs). specialize (Hs name). cbn [baseline Checks] in Hs.
  rewrite indexChecks_reload, Hi in Hs by done. destruct Hs as (_ & _ & Hs). specialize (Hs k Hk). by rewrite at_reload in Hs.
Qed.

(** The reputation details never survive a round trip through JSON: whenever the
    Reputation check got as far as its queries, a report differs from the baseline
    written from that very report, and [--diff] exits with 1. *)
Theorem reputation_drifts visit r c ips zones hits fcrdns
  (visit_perm : forall l, Permutation (visit l) l) (Hv : forallb (fun c => valid (Name c)) (Checks r) = true)
  (Hi : indexChecks (Checks r) !! "Reputation"%string = Some c) (Hd : Detail c = Some (reputationDetail ips zones hits fcrdns)) :
  reportDiff visit (baseline r) r <> [] /\ diffExitCode r (reportDiff visit (baseline r) r) = 1.
Proof.
  assert (Hn : reportDiff visit (baseline r) r <> []); [|split; [done|by apply diffExitCode_drift]].
  apply (detail_drift visit visit_perm r "Reputation" c "hits" Hv Hi); [apply list_elem_of_here|].
  rewrite Hd. apply (reload_structs "dnsblHit" hits).
Qed.

(** [jarmResult] of [tls_jarm.go] in a detail *)
Definition jarmValue (j : jarmResult) : value :=
  VStruct "jarmResult" ([("fingerprint"%string, VString (Fingerprint j))]
    ++ (if String.eqb (Raw j) "" then [] else [("raw"%string, VString (Raw j))])
    ++ (if blen (ProbeNames j) =? 0 then [] else [("probes"%string, VStrings (Some (ProbeNames j)))])).

Lemma appString_inj (p a b : string) : (p +:+ a = p +:+ b)%string -> a = b.
Proof. induction p as [|x p IH]; [done|]. by intros [= ?%IH]. Qed.

(** Nor does a JARM fingerprint: the struct is written with its fields in the order
    of their declaration, the map it is read back into in the order of the keys. *)
Theorem jarm_drifts visit r c m j
  (visit_perm : forall l, Permutation (visit l) l) (Hv : forallb (fun c => valid (Name c)) (Checks r) = true)
  (Hi : indexChecks (Checks r) !! "TLS"%string = Some c) (Hd : Detail c = Some m) (Hj : m !! "jarm"%string = Some (jarmValue j))
  (Hf : valid (Fingerprint j) = true) (Hr : Raw j <> ""%string) (Hp : ProbeNames j <> []) :
  reportDiff visit (baseline r) r <> [] /\ diffExitCode r (reportDiff visit (baseline r) r) = 1.
Proof.
  assert (Hn : reportDiff visit (baseline r) r <> []); [|split; [done|by apply diffExitCode_drift]].
  apply (detail_drift visit visit_perm r "TLS" c "jarm" Hv Hi); [by repeat constructor|].
  rewrite Hd. cbn [at_]. rewrite Hj. cbn [default].
  apply String.eqb_eq in Hf. unfold jarmValue. destruct (String.eqb_spec (Raw j) "") as [|_]; [done|].
  destruct (ProbeNames j) as [|pn pns]; [done|]. change (blen (pn :: pns) =? 0) with false. cbn [app].
  unfold reload, marshal. cbn [id encode decode stringifyValue map].
  change (validUTF8 "fingerprint") with "fingerprint"%string. change (validUTF8 "raw") with "raw"%string.
  change (validUTF8 "probes") with "probes"%string. rewrite ?Hf. unfold marshal.
  cbn -[jsonString String.append validUTF8 Join]. change (strLt "probes" "raw") with true.
  cbn -[jsonString String.append validUTF8 Join strLt]. change (strLt "probes" "fingerprint") with false.
  unfold Join. cbn -[jsonString String.append validUTF8]. intros Heq%(inj Some).
  rewrite <- !appString_assoc in Heq. do 5 apply appString_inj in Heq.
  change (jsonString "probes") with (dquote +:+ "probes" +:+ dquote)%string in Heq.
  change (jsonString "raw") with (dquote +:+ "raw" +:+ dquote)%string in Heq.
  rewrite <- !appString_assoc in Heq. apply appString_inj in Heq. discriminate.
Qed.

(** ** What is printed *)

Lemma renderEntries_returns l : safe (renderEntries l).
Proof.
  induction l as [|d l IH]; [done|]. unfold safe. cbn [renderEntries].
  wp_step. apply wp_truncate; [lia|]. intros b. wp_step. apply wp_truncate; [lia|]. intros a.
  wp_step. by eapply wp_mono; [apply IH| |].
Qed.

Lemma renderGroups_returns groups : safe (renderGroups groups).
Proof.
  induction groups as [|[n l] groups IH]; [done|]. unfold safe. cbn [renderGroups].
  wp_step. eapply wp_mono; [apply renderEntries_returns| |done]. intros body _.
  wp_step. by eapply wp_mono; [apply IH| |].
Qed.

(** The groups after the entries [seen] *)
Definition grouped (seen : list diffEntry) (groups : list (string * list diffEntry)) : Prop :=
  NoDup groups.*1 /\ (forall d, d ∈ seen -> headOf d ∈ groups.*1) /\
  forall h l, (h, l) ∈ groups -> l = List.filter (fun d => String.eqb (headOf d) h) seen.

Lemma groupTurn_grouped seen groups d : grouped seen groups -> grouped (seen ++ [d]) (groupTurn groups d).
Proof.
  intros (Hn & Hs & Hg). unfold groupTurn. cbv zeta.
  assert (Hf : forall h, List.filter (fun d => String.eqb (headOf d) h) (seen ++ [d]) =
    List.filter (fun d => String.eqb (headOf d) h) seen ++ if String.eqb (headOf d) h then [d] else []).
  { intros h. rewrite List.filter_app. cbn. by destruct (String.eqb (headOf d) h). }
  destruct (existsb _ groups) eqn:E.
  - assert (Hm : (map (fun g => if String.eqb g.1 (headOf d) then (g.1, g.2 ++ [d]) else g) groups).*1 = groups.*1).
    { clear. induction groups as [|g groups IH]; [done|]. cbn. f_equal; [by destruct (String.eqb g.1 (headOf d))|exact IH]. }
    unfold grouped. rewrite Hm. split; [done|]. split.
    + intros d' [?| ->%list_elem_of_singleton]%elem_of_app; [by apply Hs|].
      apply existsb_exists in E as (g & Hin & <-%String.eqb_eq). apply list_elem_of_fmap. exists g. by rewrite list_elem_of_In.
    + intros h l Hin. apply list_elem_of_In, in_map_iff in Hin as ([h' l'] & Heq & Hin%list_elem_of_In). cbn [fst snd] in Heq.
      rewrite Hf. specialize (Hg h' l' Hin). destruct (String.eqb_spec h' (headOf d)) as [->|Hne]; injection Heq as <- <-.
      * by rewrite String.eqb_refl, Hg.
      * by rewrite (proj2 (String.eqb_neq _ _)), app_nil_r by congruence.
  - assert (Hout : headOf d ∉ groups.*1).
    { intros (g & Hg' & Hin)%list_elem_of_fmap. assert (existsb (fun g => String.eqb g.1 (headOf d)) groups = true); [|congruence].
      apply existsb_exists. exists g. rewrite Hg', String.eqb_refl. split; [by apply list_elem_of_In|done]. }
    unfold grouped. rewrite fmap_app. split; [|split].
    + apply NoDup_app. split; [done|]. split; [|apply NoDup_singleton]. by intros h Hin ->%list_elem_of_singleton.
    + intros d' [?| ->%list_elem_of_singleton]%elem_of_app; apply elem_of_app; [left; by apply Hs|right; apply list_elem_of_here].
    + intros h l [Hin|Hin]%elem_of_app; rewrite Hf.
      * rewrite (Hg h l Hin), (proj2 (String.eqb_neq _ _)) by (intros <-; apply Hout, list_elem_of_fmap; by exists (headOf d, l)).
        by rewrite app_nil_r.
      * apply list_elem_of_singleton in Hin as [= -> ->]. rewrite String.eqb_refl.
        destruct (List.filter _ seen) as [|d' l'] eqn:Ef; [done|]. exfalso. apply Hout.
        assert (Hd' : In d' (List.filter (fun d' => String.eqb (headOf d') (headOf d)) seen)) by (rewrite Ef; by left).
        apply filter_In in Hd' as [Hin <-%String.eqb_eq]. by apply Hs, list_elem_of_In.
Qed.

Lemma groupDiffs_grouped diffs : grouped diffs (groupDiffs diffs).
Proof.
  induction diffs as [|d diffs IH] using rev_ind; [split; [constructor|by split; [intros ? ?%elem_of_nil|intros ? ? ?%elem_of_nil]]|].
  unfold groupDiffs. rewrite foldl_app. by apply groupTurn_grouped.
Qed.

(** The text of a diff is produced for every diff; its groups are the checks in the
    order they first appear, each once, and each with exactly its entries in order. *)
Theorem renderDiff_groups diffs path :
  safe (renderDiff diffs path) /\ NoDup (groupDiffs diffs).*1 /\
  (forall d, d ∈ diffs -> headOf d ∈ (groupDiffs diffs).*1) /\
  forall h l, (h, l) ∈ groupDiffs diffs -> l = List.filter (fun d => String.eqb (headOf d) h) diffs.
Proof.
  split; [|apply groupDiffs_grouped]. unfold safe, renderDiff. wp_step; [done|]. wp_step.
  by eapply wp_mono; [apply renderGroups_returns| |].
Qed.

Module DiffWitnesses.
Definition tlsDetail : gmap string value :=
  list_to_map [("version", VString "TLS 1.3"); ("issuer", VString "R11"); ("supported_versions", VStrings (Some ["TLS 1.3"; "TLS 1.2"]))]%string.
Definition check (n : string) (detail : gmap string value) : Check :=
  {| Name := n; Status := StatusOK; Summary := "fine"; Hint := ""; Millis := Float 0 0; Detail := Some detail |}.
Definition httpDetail : gmap string value := list_to_map [("status", VInt 200); ("redirects", VInt 1)]%string.
Definition report (checks : list Check) : Report :=
  {| Target := "https://example.org"; Host := "example.org"; Port := 443; Scheme := "https"; Healthy := true; Checks := checks;
     Trace := None; Problems := []; FixFirst := ""; Elapsed := "1.0s" |}.

Lemma own_baseline_witness :
  let r := report [check "TLS" tlsDetail; check "HTTP" httpDetail] in
  forallb plainCheck (Checks r) = true /\ reportDiff id (baseline r) r = [].
Proof. split; [by vm_compute|]. by apply (own_baseline id (fun l => Permutation_refl l)); vm_compute. Defined.

Lemma diff_gate_witness :
  let r := report [check "HTTP" httpDetail] in
  diffExitCode r (reportDiff id r r) = 0 <-> Healthy r = true /\ agree r r.
Proof. apply (diff_gate id (fun l => Permutation_refl l)). Defined.

Definition clean : gmap string value := reputationDetail 1 116 None (Some [[("ip", VString "192.0.2.1"); ("verdict", VString "pass")]]%string).

Lemma reputation_drifts_witness :
  let r := report [check "Reputation" clean] in diffExitCode r (reportDiff id (baseline r) r) = 1.
Proof.
  cbv zeta. apply (reputation_drifts id (report [check "Reputation" clean]) (check "Reputation" clean) 1 116 None
    (Some [[("ip", VString "192.0.2.1"); ("verdict", VString "pass")]]%string) (fun l => Permutation_refl l)); by vm_compute.
Defined.

Definition fingerprint : jarmResult := {| Fingerprint := "27d40d40d29d40d1dc42d43d00041d"; Raw := "c02f|0303|h2|"; ProbeNames := ["tls12_forward"] |}.

Lemma jarm_drifts_witness :
  let r := report [check "TLS" (<["jarm" := jarmValue fingerprint]> tlsDetail)] in
  diffExitCode r (reportDiff id (baseline r) r) = 1.
Proof.
  cbv zeta. eapply (jarm_drifts id _ (check "TLS" (<["jarm" := jarmValue fingerprint]> tlsDetail)) _ fingerprint (fun l => Permutation_refl l));
    [by vm_compute|by vm_compute|reflexivity|by vm_compute|by vm_compute|done|done].
Defined.
End DiffWitnesses.
