(* ===== verification/Ja4.v ===== *)
(** The JA3S, JA4 and JA4S fingerprints: [tls_ja3s.go], [tls_ja4.go] and
    [tls_ja4_handshake.go]. *)

From Stdlib Require Import ZArith List String Ascii Strings.Byte Lia Bool Permutation.
From stdpp Require Import base list strings numbers.
From S2P Require Import Prelude Bytes GoStrings Decimal Digest Stream Extensions Flight ServerHello.
From S2P Require Import Tls13Hello ClientHellos Jarm.
Open Scope Z_scope.

(** ** Components of the fingerprints *)

Definition isGREASE (v : Z) : bool :=
  let low := Z.land v 0xff in
  let high := Z.land (Z.shiftr v 8) 0xff in
  (Z.land low 0x0f =? 0x0a) && (low =? high).

Definition sha256_12 (s : string) : string := takeString 12 (hexEncode (sha256 (ofString s))).

Definition fmtTwoDigit (n : Z) : outcome string :=
  let n := if n <? 0 then 0 else n in
  let n := if 99 <? n then 99 else n in
  s <~ itoa n ;;
  Ret (if n <? 10 then String "0" s else s).

Definition ja4VersionString (v : Z) : string :=
  if v =? 0x0304 then "13" else if v =? 0x0303 then "12" else if v =? 0x0302 then "11"
  else if v =? 0x0301 then "10" else if v =? 0x0300 then "s3" else if v =? 0x0200 then "s2"
  else "00".

(** [string(b)] for a byte: the UTF-8 encoding of that code point. *)
Definition runeOfByte (c : ascii) : string :=
  let v := code c in
  if v <? 128 then String c ""
  else String (ascii_of_N (Z.to_N (192 + Z.shiftr v 6)))
         (String (ascii_of_N (Z.to_N (128 + Z.land v 63))) "").

Fixpoint lastChar (c : ascii) (s : string) : ascii :=
  match s with EmptyString => c | String d s => lastChar d s end.

Definition ja4ALPNComponent (alpn : string) : string :=
  match alpn with
  | EmptyString => "00"
  | String c rest =>
      if String.eqb alpn "h2" then "h2"
      else if String.eqb alpn "h3" then "h3"
      else if String.eqb alpn "http/1.1" then "h1"
      else if String.eqb alpn "http/1.0" then "h0"
      else runeOfByte c +:+ runeOfByte (lastChar c rest)
  end%string.

(** ** Loops over 16-bit numbers

    [for j := start; cond(j+2); j += 2 { a = f(a, uint16(b[j])<<8 | uint16(b[j+1])) }] *)
Definition each16Turn {A} (cond : Z -> bool) (f : A -> Z -> A) (b : bytes) (st : Z * A)
    : outcome (step (Z * A) unit) :=
  let '(j, a) := st in
  if cond (j + 2) then
    hi <~ index b j ;; lo <~ index b (j + 1) ;;
    Ret (Next (j + 2, f a (be16 hi lo)))
  else Ret (Break (j, a)).
Definition each16 {A} (cond : Z -> bool) (f : A -> Z -> A) (b : bytes) (start : Z) (a : A) : outcome A :=
  r <~ loop (each16Turn cond f b) (S (length b)) (start, a) ;;
  Ret (match r with inl (_, a') => a' | inr _ => a end).

(** The walk over the extensions of a ServerHello that collects type ids. *)
Definition collectIDs (keep : Z -> bool) (ext : bytes) : outcome (list Z) :=
  r <~ walkExts (R := unit) (fun ids => Ret (inl ids))
         (fun ids ty _ => Ret (Next (if keep ty then ids ++ [ty] else ids))) ext [] ;;
  Ret (match r with inl ids => ids | inr _ => [] end).

(** ** JA3S *)

Record ja3sResult := { ja3sHash : string; ja3sRaw : string; ja3sVersion : Z; ja3sCipher : Z;
                       ja3sExtCount : Z }.

Definition decimals (l : list Z) : outcome (list string) :=
  foldr (fun v acc => s <~ decimalUint16 v ;; l <~ acc ;; Ret (s :: l)) (Ret []) l.

Definition md5sum (b : bytes) : string := hexEncode (md5 b).

Definition computeJA3S (body : bytes) : outcome ja3sResult :=
  if blen body <? 35 then
    Ret {| ja3sHash := ""; ja3sRaw := ""; ja3sVersion := 0; ja3sCipher := 0; ja3sExtCount := 0 |}
  else
  b0 <~ index body 0 ;; b1 <~ index body 1 ;;
  let version := be16 b0 b1 in
  sid <~ index body 34 ;;
  let off := 35 + bval sid in
  if blen body <? off + 2 then
    Ret {| ja3sHash := ""; ja3sRaw := ""; ja3sVersion := version; ja3sCipher := 0; ja3sExtCount := 0 |}
  else
  c0 <~ index body off ;; c1 <~ index body (off + 1) ;;
  let cipher := be16 c0 c1 in
  ext <~ serverHelloExtensions body ;;
  ids <~ collectIDs (fun _ => true) (default [] ext) ;;
  extIDs <~ decimals ids ;;
  v <~ decimalUint16 version ;;
  c <~ decimalUint16 cipher ;;
  let raw := (v +:+ "," +:+ c +:+ "," +:+ Join extIDs "-")%string in
  Ret {| ja3sHash := md5sum (ofString raw); ja3sRaw := raw; ja3sVersion := version;
         ja3sCipher := cipher; ja3sExtCount := blen extIDs |}.

Definition ja3sHeadline (j : ja3sResult) : string :=
  if String.eqb (ja3sHash j) "" then "" else "JA3S: " +:+ takeString 8 (ja3sHash j) +:+ "…".

(** ** JA4S *)

(** The [JA4S] field of [ja4Result]; [JA4] is left empty by the code. *)
Definition computeJA4S (body : bytes) (protocol alpn : string) : outcome string :=
  if blen body <? 35 then Ret ""%string else
  b0 <~ index body 0 ;; b1 <~ index body 1 ;;
  let tlsVer := be16 b0 b1 in
  sid <~ index body 34 ;;
  let off := 35 + bval sid in
  if blen body <? off + 2 then Ret ""%string else
  c0 <~ index body off ;; c1 <~ index body (off + 1) ;;
  let cipher := be16 c0 c1 in
  ext <~ serverHelloExtensions body ;;
  let ext := default [] ext in
  sv <~ supportedVersionsFromExtensions ext ;;
  let tlsVer := if negb (sv =? 0) then sv else tlsVer in
  extIDs <~ collectIDs (fun ty => negb (isGREASE ty)) ext ;;
  let verStr := ja4VersionString tlsVer in
  let transport := if String.eqb protocol "h3" || String.eqb protocol "h3-29" then "q"%string else "t"%string in
  let alpnComponent := ja4ALPNComponent alpn in
  n <~ fmtTwoDigit (blen extIDs) ;;
  let a := (transport +:+ verStr +:+ n +:+ alpnComponent)%string in
  let b := uint16hex cipher in
  let c := sha256_12 (Join (map uint16hex extIDs) ",") in
  Ret (a +:+ "_" +:+ b +:+ "_" +:+ c)%string.

Definition ja4Headline (ja4s : string) : string :=
  if String.eqb ja4s "" then ""
  else if (12 <? String.length ja4s)%nat then "JA4S: " +:+ takeString 12 ja4s +:+ "…"
  else "JA4S: " +:+ ja4s.

Section Handshake.
Context {C : Type} `{Reader C}.

(** The probe: the TLS_1.3_FORWARD hello of JARM. *)
Definition computeJA4SFromHandshake (net : attemptConn (C := C)) (host : string) (rnd : bytes)
    : outcome string :=
  s <~ index jarm10Probes 6 ;;
  hello <~ buildJARMClientHello host s rnd ;;
  match net hello with
  | None => Ret ""%string
  | Some conn =>
      body <~ readServerHelloBody conn ;;
      match body with
      | None => Ret ""%string
      | Some body =>
          ext <~ serverHelloExtensions body ;;
          alpn <~ alpnFromExtensions (default [] ext) ;;
          computeJA4S body "h2" alpn
      end
  end.
End Handshake.

(** ** JA4 *)

(** [extIDs], [sigAlgs], [alpn], [hasSNI] and [tlsVer]. *)
Record ja4State := { jExtIDs : list Z; jSigAlgs : list Z; jAlpn : string; jSNI : bool; jVer : Z }.

Definition maxVersion (tlsVer v : Z) : Z := if tlsVer <? v then v else tlsVer.

(** The [switch] on the extension type. *)
Definition ja4Switch (s : ja4State) (extType : Z) (data : bytes) : outcome ja4State :=
  if extType =? 0x0000 then
    Ret {| jExtIDs := jExtIDs s; jSigAlgs := jSigAlgs s; jAlpn := jAlpn s; jSNI := true; jVer := jVer s |}
  else if extType =? 0x000d then
    if 2 <=? blen data then
      h <~ index data 0 ;; l <~ index data 1 ;;
      let slen := be16 h l in
      sigs <~ each16 (fun j => (j <=? 2 + slen) && (j <=? blen data)) (fun acc v => acc ++ [v])
                data 2 (jSigAlgs s) ;;
      Ret {| jExtIDs := jExtIDs s; jSigAlgs := sigs; jAlpn := jAlpn s; jSNI := jSNI s; jVer := jVer s |}
    else Ret s
  else if extType =? 0x0010 then
    if 3 <? blen data then
      n <~ index data 2 ;;
      let plen := bval n in
      if 3 + plen <=? blen data then
        p <~ slice data 3 (3 + plen) ;;
        Ret {| jExtIDs := jExtIDs s; jSigAlgs := jSigAlgs s; jAlpn := toString p; jSNI := jSNI s;
               jVer := jVer s |}
      else Ret s
    else Ret s
  else if extType =? 0x002b then
    if 3 <=? blen data then
      n <~ index data 0 ;;
      let cnt := bval n in
      v <~ each16 (fun j => (j <=? 1 + cnt) && (j <=? blen data)) maxVersion data 1 (jVer s) ;;
      Ret {| jExtIDs := jExtIDs s; jSigAlgs := jSigAlgs s; jAlpn := jAlpn s; jSNI := jSNI s; jVer := v |}
    else Ret s
  else Ret s.

Definition ja4Ext (s : ja4State) (extType : Z) (data : bytes) : outcome (step ja4State unit) :=
  let s := if negb (isGREASE extType)
           then {| jExtIDs := jExtIDs s ++ [extType]; jSigAlgs := jSigAlgs s; jAlpn := jAlpn s;
                   jSNI := jSNI s; jVer := jVer s |}
           else s in
  s <~ ja4Switch s extType data ;; Ret (Next s).

(** The text, from what the hello was found to hold. *)
Definition ja4Text (ciphers : list Z) (s : ja4State) : outcome string :=
  let verStr := ja4VersionString (jVer s) in
  let transport := "t"%string in
  let sniMarker := if negb (jSNI s) then "i"%string else "d"%string in
  let alpnComponent := ja4ALPNComponent (jAlpn s) in
  nc <~ fmtTwoDigit (blen ciphers) ;;
  ne <~ fmtTwoDigit (blen (jExtIDs s)) ;;
  let a := (transport +:+ verStr +:+ sniMarker +:+ nc +:+ ne +:+ alpnComponent)%string in
  let cipherStrs := sortStrings (map uint16hex ciphers) in
  let b := sha256_12 (Join cipherStrs ",") in
  let filteredExts := List.filter (fun e => negb ((e =? 0x0000) || (e =? 0x0010))) (jExtIDs s) in
  let extStrs := sortStrings (map uint16hex filteredExts) in
  let sigStrs := map uint16hex (jSigAlgs s) in
  let cInput := Join extStrs "," in
  let cInput := if 0 <? blen sigStrs then (cInput +:+ "_" +:+ Join sigStrs ",")%string else cInput in
  let c := sha256_12 cInput in
  Ret (a +:+ "_" +:+ b +:+ "_" +:+ c)%string.

(** [computeJA4FromClientHello(helloBody, sni)]; the second argument is unused. *)
Definition computeJA4FromClientHello (helloBody : bytes) (sni : string) : outcome string :=
  if blen helloBody <? 38 then Ret ""%string else
  v1 <~ index helloBody 0 ;; v0 <~ index helloBody 1 ;;
  let tlsVer := be16 v1 v0 in
  sid <~ index helloBody 34 ;;
  let off := 35 + bval sid in
  if blen helloBody <? off + 2 then Ret ""%string else
  l1 <~ index helloBody off ;; l0 <~ index helloBody (off + 1) ;;
  let cipherListLen := be16 l1 l0 in
  let off := off + 2 in
  let cipherListEnd := off + cipherListLen in
  if blen helloBody <? cipherListEnd then Ret ""%string else
  ciphers <~ each16 (fun i => i <=? cipherListEnd)
               (fun acc c => if negb (isGREASE c) then acc ++ [c] else acc) helloBody off [] ;;
  let off := cipherListEnd in
  if blen helloBody <? off + 1 then Ret ""%string else
  comp <~ index helloBody off ;;
  let off := off + (1 + bval comp) in
  if blen helloBody <? off + 2 then Ret ""%string else
  e1 <~ index helloBody off ;; e0 <~ index helloBody (off + 1) ;;
  let extLen := be16 e1 e0 in
  let off := off + 2 in
  if blen helloBody <? off + extLen then Ret ""%string else
  ext <~ slice helloBody off (off + extLen) ;;
  let s0 := {| jExtIDs := []; jSigAlgs := []; jAlpn := ""; jSNI := false; jVer := tlsVer |} in
  r <~ walkExts (fun s => Ret (inl s)) ja4Ext ext s0 ;;
  ja4Text ciphers (match r with inl s => s | inr _ => s0 end).

(** ** Reading 16-bit numbers *)

Fixpoint pairs16 (b : bytes) : list Z :=
  match b with h :: l :: r => be16 h l :: pairs16 r | _ => [] end.

Lemma pairs16_short b : (length b < 2)%nat -> pairs16 b = [].
Proof. destruct b as [|x [|y b]]; cbn; try done; lia. Qed.

Lemma pairs16_enc l rest :
  Forall (fun v => 0 <= v < 65536) l -> pairs16 (flat_map putBE16 l ++ rest) = l ++ pairs16 rest.
Proof.
  induction 1 as [|v l Hv _ IH]; [done|].
  change (flat_map putBE16 (v :: l) ++ rest)
    with (byteOf (Z.shiftr v 8) :: byteOf v :: flat_map putBE16 l ++ rest).
  cbn [pairs16]. by rewrite be16_putBE16, u16_small, IH.
Qed.

Section Each16.
Context {A : Type} (cond : Z -> bool) (f : A -> Z -> A) (b : bytes) (hi : Z).
Hypothesis Hcond : forall j, cond j = (j <=? hi).
Hypothesis Hhi : hi <= blen b.

Lemma each16_loop fuel : forall j a,
  0 <= j -> blen b - j < Z.of_nat fuel -> 0 < Z.of_nat fuel ->
  (r <~ loop (each16Turn cond f b) fuel (j, a) ;;
   Ret (match r with inl (_, a') => a' | inr _ => a end))
  = Ret (fold_left f (pairs16 (sub b j (hi - j))) a).
Proof.
  assert (Hgen : forall fuel j a a0, 0 <= j -> blen b - j < Z.of_nat fuel -> 0 < Z.of_nat fuel ->
    (r <~ loop (each16Turn cond f b) fuel (j, a) ;;
     Ret (match r with inl (_, a') => a' | inr _ => a0 end))
    = Ret (fold_left f (pairs16 (sub b j (hi - j))) a)); [|eauto].
  clear fuel. induction fuel as [|fuel IH]; intros j a a0 Hj Hf Hpos; [lia|]. cbn [loop].
  unfold each16Turn at 1. rewrite Hcond.
  destruct (j + 2 <=? hi) eqn:E; to_prop.
  - destruct (index_some b j) as [x Hx]; [lia|]. destruct (index_some b (j + 1)) as [y Hy]; [lia|].
    rewrite Hx, Hy. cbn [bind].
    apply index_ret in Hx as [_ Hx]. apply index_ret in Hy as [_ Hy].
    replace (hi - j) with (1 + (1 + (hi - (j + 2)))) by lia.
    rewrite (sub_cons_lookup b j x), (sub_cons_lookup b (j + 1) y) by (done || lia).
    replace (j + 1 + 1) with (j + 2) by lia. cbn [pairs16 fold_left].
    destruct (Z_le_dec (blen b) (j + 2)) as [Hend|Hend].
    + destruct fuel as [|fuel]; [lia|]. apply IH; lia.
    + apply IH; lia.
  - rewrite pairs16_short; [done|]. unfold sub. rewrite length_take. lia.
Qed.

Lemma each16_spec start a :
  0 <= start -> each16 cond f b start a = Ret (fold_left f (pairs16 (sub b start (hi - start))) a).
Proof. intros Hs. unfold each16. apply each16_loop; unfold blen; lia. Qed.
End Each16.

Lemma fold_left_snoc {A} (l acc : list A) : fold_left (fun acc v => acc ++ [v]) l acc = acc ++ l.
Proof.
  revert acc. induction l as [|x l IH]; intros acc; cbn; [by rewrite app_nil_r|].
  by rewrite IH, <- app_assoc.
Qed.

(** ** The extension walk as a fold *)

Definition sigsOf (d : bytes) : list Z :=
  match d with h :: l :: r => pairs16 (take (Z.to_nat (be16 h l)) r) | _ => [] end.
Definition offeredVersions (d : bytes) : list Z :=
  match d with n :: (_ :: _ :: _) as r => pairs16 (take (Z.to_nat (bval n)) (tl d)) | _ => [] end.
Definition alpnOf4 (d : bytes) (old : string) : string :=
  match d with
  | _ :: _ :: n :: (_ :: _) as r =>
      if 3 + bval n <=? blen d then toString (take (Z.to_nat (bval n)) (drop 3 d)) else old
  | _ => old
  end.

Definition addID (s : ja4State) (ty : Z) : ja4State :=
  {| jExtIDs := if negb (isGREASE ty) then jExtIDs s ++ [ty] else jExtIDs s;
     jSigAlgs := jSigAlgs s; jAlpn := jAlpn s; jSNI := jSNI s; jVer := jVer s |}.

Definition ja4Step (s : ja4State) (e : Z * bytes) : ja4State :=
  let '(ty, d) := e in
  {| jExtIDs := if negb (isGREASE ty) then jExtIDs s ++ [ty] else jExtIDs s;
     jSigAlgs := if ty =? 0x000d then jSigAlgs s ++ sigsOf d else jSigAlgs s;
     jAlpn := if ty =? 0x0010 then alpnOf4 d (jAlpn s) else jAlpn s;
     jSNI := jSNI s || (ty =? 0);
     jVer := if ty =? 0x002b then fold_left maxVersion (offeredVersions d) (jVer s) else jVer s |}.

Lemma cond_min a b j : (j <=? a) && (j <=? b) = (j <=? Z.min a b).
Proof. destruct (j <=? a) eqn:?, (j <=? b) eqn:?; cbn; to_prop; symmetry; [apply Z.leb_le|apply Z.leb_gt..]; lia. Qed.

Lemma sub_min (p r : bytes) n :
  0 <= n -> sub (p ++ r) (blen p) (Z.min (blen p + n) (blen p + blen r) - blen p) = take (Z.to_nat n) r.
Proof.
  intros Hn. rewrite sub_app_r, Z.sub_diag by lia. unfold sub. cbn. rewrite drop_0.
  destruct (Z_le_dec n (blen r)).
  - f_equal. lia.
  - rewrite !take_ge by (unfold blen in *; lia). done.
Qed.

Lemma ja4Ext_spec s ty d : ja4Ext s ty d = Ret (Next (ja4Step s (ty, d))).
Proof.
  unfold ja4Ext. change (if negb (isGREASE ty) then _ else s) with (if negb (isGREASE ty)
    then {| jExtIDs := jExtIDs s ++ [ty]; jSigAlgs := jSigAlgs s; jAlpn := jAlpn s;
            jSNI := jSNI s; jVer := jVer s |} else s).
  replace (if negb (isGREASE ty)
    then {| jExtIDs := jExtIDs s ++ [ty]; jSigAlgs := jSigAlgs s; jAlpn := jAlpn s;
            jSNI := jSNI s; jVer := jVer s |} else s) with (addID s ty)
    by (unfold addID; destruct (negb _); [done|by destruct s]).
  cbv zeta. unfold ja4Switch.
  assert (Hsame : Ret (Next (ja4Step s (ty, d))) = Ret (Next (ja4Step s (ty, d)) : step ja4State unit)) by done.
  destruct (Z.eqb_spec ty 0) as [->|H0].
  { unfold ja4Step. cbn. by rewrite orb_true_r. }
  destruct (Z.eqb_spec ty 13) as [->|H1].
  { unfold ja4Step, addID. cbn [Z.eqb isGREASE]. rewrite orb_false_r.
    destruct d as [|h [|l r]]; [cbn; by rewrite ?app_nil_r..|].
    autorewrite with blen. pose proof (blen_nonneg r). rewrite (proj2 (Z.leb_le 2 _)) by lia.
    change (h :: l :: r) with ([h; l] ++ r).
    rewrite (read_index _ [] h (l :: r)), (read_index _ [h] l r) by done. cbn [bind].
    rewrite (each16_spec _ _ _ (Z.min (2 + be16 h l) (2 + blen r))).
    - cbn [bind]. rewrite fold_left_snoc. cbn [jSigAlgs jExtIDs jAlpn jSNI jVer].
      pose proof (sub_min [h; l] r (be16 h l) ltac:(apply be16_range)) as Hs.
      change (blen [h; l]) with 2 in Hs. by rewrite Hs.
    - intros j. rewrite cond_min. do 2 f_equal. lia.
    - autorewrite with blen. lia.
    - lia. }
  destruct (Z.eqb_spec ty 16) as [->|H2].
  { unfold ja4Step, addID. cbn [Z.eqb isGREASE]. rewrite orb_false_r.
    destruct d as [|a [|b [|n [|x r]]]]; try done.
    set (d := a :: b :: n :: x :: r). assert (Hd : blen d = 4 + blen r) by (unfold d; autorewrite with blen; lia).
    pose proof (blen_nonneg r). rewrite Hd, (proj2 (Z.ltb_lt 3 _)) by lia.
    rewrite (read_index d [a; b] n (x :: r)) by done. cbn [bind].
    assert (Ha : forall old, alpnOf4 d old = if 3 + bval n <=? blen d
      then toString (take (Z.to_nat (bval n)) (drop 3 d)) else old) by done.
    rewrite Ha, Hd. destruct (3 + bval n <=? 4 + blen r) eqn:E; [|done]. to_prop.
    pose proof (bval_range n). rewrite slice_ok by lia. cbn [bind].
    replace (3 + bval n - 3) with (bval n) by lia. done. }
  destruct (Z.eqb_spec ty 43) as [->|H3].
  { unfold ja4Step, addID. cbn [Z.eqb isGREASE]. rewrite orb_false_r.
    destruct d as [|n [|x [|y r]]]; try done.
    set (q := x :: y :: r). autorewrite with blen. pose proof (blen_nonneg r). pose proof (bval_range n).
    assert (Hq : blen q = 2 + blen r) by (unfold q; autorewrite with blen; lia).
    rewrite (proj2 (Z.leb_le 3 _)) by lia. change (n :: q) with ([n] ++ q).
    rewrite (read_index _ [] n q) by done. cbn [bind].
    rewrite (each16_spec _ _ _ (Z.min (1 + bval n) (1 + blen q))).
    - cbn [bind jSigAlgs jExtIDs jAlpn jSNI jVer].
      pose proof (sub_min [n] q (bval n) ltac:(lia)) as Hs.
      change (blen [n]) with 1 in Hs. by rewrite Hs.
    - intros j. rewrite cond_min. autorewrite with blen. f_equal; lia.
    - autorewrite with blen. lia.
    - lia. }
  unfold ja4Step, addID. cbn [bind]. rewrite !(proj2 (Z.eqb_neq _ _)) by done. by rewrite orb_false_r.
Qed.

Lemma ja4Walk_spec ext s :
  walkExts (fun s => Ret (inl s)) ja4Ext ext s = Ret (inl (fold_left ja4Step (fst (extList ext)) s)).
Proof.
  rewrite walkExts_spec. destruct (extList ext) as [l t]. cbn [fst]. revert s.
  induction l as [|[ty d] l IH]; intros s; cbn [foldExts fold_left]; [by destruct t|].
  rewrite ja4Ext_spec. apply IH.
Qed.

(** ** The printers never fail here *)

Definition twoDigits (n : Z) : string :=
  let n := Z.min n 99 in if n <? 10 then String "0" (decNat n) else decNat n.

Lemma fmtTwoDigit_spec n : 0 <= n -> fmtTwoDigit n = Ret (twoDigits n).
Proof.
  intros Hn. unfold fmtTwoDigit, twoDigits. rewrite (proj2 (Z.ltb_ge n 0)) by lia.
  replace (if 99 <? n then 99 else n) with (Z.min n 99) by (destruct (99 <? n) eqn:E; to_prop; lia).
  rewrite itoa_small by lia. done.
Qed.

Lemma length_twoDigits n : 0 <= n -> String.length (twoDigits n) = 2%nat.
Proof.
  intros Hn. unfold twoDigits. assert (Hm : 0 <= Z.min n 99 <= 99) by lia.
  revert Hm. generalize (Z.min n 99) as m. clear n Hn. intros m Hm.
  assert (Hall : forallb (fun k => Nat.eqb (String.length (let n := Z.of_nat k in
    if n <? 10 then String "0" (decNat n) else decNat n)) 2) (seq 0 100) = true) by (vm_compute; reflexivity).
  rewrite forallb_forall in Hall. specialize (Hall (Z.to_nat m)). rewrite in_seq in Hall.
  specialize (Hall ltac:(lia)). cbv zeta in Hall. rewrite Z2Nat.id in Hall by lia. by apply Nat.eqb_eq.
Qed.

Lemma decimals_spec l : Forall (fun v => 0 <= v < 65536) l -> decimals l = Ret (map decNat l).
Proof.
  induction 1 as [|v l Hv _ IH]; [done|]. unfold decimals in *. cbn [foldr].
  rewrite decimalUint16_decNat, IH by done. done.
Qed.

Lemma collectIDs_spec keep ext :
  collectIDs keep ext = Ret (List.filter keep (map fst (fst (extList ext)))).
Proof.
  unfold collectIDs. rewrite walkExts_spec. destruct (extList ext) as [l t]. cbn [fst].
  assert (Hf : forall acc, foldExts (R := unit) (fun ids => Ret (inl ids))
    (fun ids ty _ => Ret (Next (if keep ty then ids ++ [ty] else ids))) l t acc
    = Ret (inl (acc ++ List.filter keep (map fst l)))).
  { induction l as [|[ty d] l IH]; intros acc; cbn [foldExts map fst List.filter].
    - rewrite app_nil_r. by destruct t.
    - rewrite IH. destruct (keep ty); [by rewrite <- app_assoc|done]. }
  by rewrite Hf.
Qed.

Lemma extList_ids_range ext : Forall (fun v => 0 <= v < 65536) (map fst (fst (extList ext))).
Proof.
  destruct (extList ext) as [l t] eqn:E. cbn [fst]. apply splitExts_ok in E.
  induction E as [|[ty d] l [Hty _] _ IH]; cbn; constructor; auto.
Qed.

Definition ja4Pure (ciphers : list Z) (s : ja4State) : string :=
  let sigStrs := map uint16hex (jSigAlgs s) in
  let extStrs := sortStrings (map uint16hex
    (List.filter (fun e => negb ((e =? 0x0000) || (e =? 0x0010))) (jExtIDs s))) in
  let c := sha256_12 (if 0 <? blen sigStrs then Join extStrs "," +:+ "_" +:+ Join sigStrs ","
                      else Join extStrs ",") in
  ("t" +:+ ja4VersionString (jVer s) +:+ (if negb (jSNI s) then "i" else "d")
   +:+ twoDigits (blen ciphers) +:+ twoDigits (blen (jExtIDs s)) +:+ ja4ALPNComponent (jAlpn s)
   +:+ "_" +:+ sha256_12 (Join (sortStrings (map uint16hex ciphers)) ",") +:+ "_" +:+ c)%string.

Lemma ja4Text_spec ciphers s : ja4Text ciphers s = Ret (ja4Pure ciphers s).
Proof.
  unfold ja4Text, ja4Pure. rewrite !fmtTwoDigit_spec by apply blen_nonneg. cbn [bind].
  cbv zeta. by rewrite <- !appString_assoc.
Qed.

(** ** A well-formed ClientHello *)

Definition encClientHello (v1 v0 : byte) (random sid : bytes) (ciphers : list Z) (comp exts : bytes) : bytes :=
  [v1; v0] ++ random ++ [byteOf (blen sid)] ++ sid
  ++ putBE16 (2 * blen ciphers) ++ flat_map putBE16 ciphers
  ++ [byteOf (blen comp)] ++ comp ++ putBE16 (blen exts) ++ exts.

Record chParts (random sid : bytes) (ciphers : list Z) (comp exts : bytes) : Prop := {
  ch_random : blen random = 32;
  ch_sid : blen sid < 256;
  ch_ciphers : blen ciphers < 32768 /\ Forall (fun c => 0 <= c < 65536) ciphers;
  ch_comp : blen comp < 256;
  ch_exts : blen exts < 65536
}.

Lemma blen_flat_putBE16 l : blen (flat_map putBE16 l) = 2 * blen l.
Proof.
  induction l as [|c l IH]; [done|]. cbn [flat_map]. rewrite blen_app, IH, blen_cons, blen_putBE16. lia.
Qed.

Definition ja4Start (v1 v0 : byte) : ja4State :=
  {| jExtIDs := []; jSigAlgs := []; jAlpn := ""; jSNI := false; jVer := be16 v1 v0 |}.

Lemma fold_keep (p : Z -> bool) l acc :
  fold_left (fun acc c => if p c then acc ++ [c] else acc) l acc = acc ++ List.filter p l.
Proof.
  revert acc. induction l as [|x l IH]; intros acc; cbn; [by rewrite app_nil_r|].
  rewrite IH. destruct (p x); [by rewrite <- app_assoc|done].
Qed.

Lemma ja4_fields v1 v0 random sid ciphers comp exts sni :
  chParts random sid ciphers comp exts ->
  computeJA4FromClientHello (encClientHello v1 v0 random sid ciphers comp exts) sni
  = Ret (ja4Pure (List.filter (fun c => negb (isGREASE c)) ciphers)
           (fold_left ja4Step (fst (extList exts)) (ja4Start v1 v0))).
Proof.
  intros [Hr Hs [Hc Hcr] Hco He].
  pose proof (blen_nonneg sid). pose proof (blen_nonneg ciphers). pose proof (blen_nonneg comp).
  pose proof (blen_nonneg exts). pose proof (blen_flat_putBE16 ciphers) as Hcl.
  set (body := encClientHello _ _ _ _ _ _ _). set (cs := flat_map putBE16 ciphers) in *.
  assert (Hb : blen body = 40 + blen sid + 2 * blen ciphers + blen comp + blen exts).
  { unfold body, encClientHello. fold cs. autorewrite with blen. lia. }
  assert (Hsid : bval (byteOf (blen sid)) = blen sid) by (rewrite bval_byteOf, Z.mod_small; lia).
  assert (Hcomp : bval (byteOf (blen comp)) = blen comp) by (rewrite bval_byteOf, Z.mod_small; lia).
  set (tail3 := putBE16 (blen exts) ++ exts).
  set (tail2 := [byteOf (blen comp)] ++ comp ++ tail3).
  set (pre1 := [v1; v0] ++ random ++ [byteOf (blen sid)] ++ sid).
  assert (Hp1 : blen pre1 = 35 + blen sid) by (unfold pre1; autorewrite with blen; lia).
  set (pre2 := pre1 ++ putBE16 (2 * blen ciphers)).
  assert (Hp2 : blen pre2 = 37 + blen sid) by (unfold pre2; autorewrite with blen; lia).
  set (pre3 := pre2 ++ cs). assert (Hp3 : blen pre3 = 37 + blen sid + 2 * blen ciphers)
    by (unfold pre3; autorewrite with blen; lia).
  set (pre4 := pre3 ++ [byteOf (blen comp)] ++ comp).
  assert (Hp4 : blen pre4 = 38 + blen sid + 2 * blen ciphers + blen comp)
    by (unfold pre4; autorewrite with blen; lia).
  assert (E1 : body = pre1 ++ putBE16 (2 * blen ciphers) ++ cs ++ tail2)
    by (unfold body, encClientHello, pre1, tail2, tail3; by rewrite <- !app_assoc).
  assert (E2 : body = pre2 ++ cs ++ tail2) by (unfold pre2; by rewrite <- app_assoc).
  assert (E3 : body = pre3 ++ tail2) by (unfold pre3; by rewrite <- app_assoc).
  assert (E4 : body = pre4 ++ tail3) by (unfold pre4; rewrite E3; unfold tail2; by rewrite <- !app_assoc).
  clearbody body. unfold computeJA4FromClientHello. rewrite Hb, (proj2 (Z.ltb_ge _ 38)) by lia.
  rewrite (read_index body [] v1 (v0 :: random ++ [byteOf (blen sid)] ++ sid ++ drop (length pre1) body)),
    (read_index body [v1] v0 (random ++ [byteOf (blen sid)] ++ sid ++ drop (length pre1) body)),
    (read_index body ([v1; v0] ++ random) (byteOf (blen sid)) (sid ++ drop (length pre1) body))
    by ((rewrite E1, drop_app_length; unfold pre1; rewrite <- !app_assoc; reflexivity)
        || (autorewrite with blen; lia)).
  cbn [bind]. rewrite Hsid, (proj2 (Z.ltb_ge _ (35 + blen sid + 2))) by lia.
  rewrite (read_index body pre1 (byteOf (Z.shiftr (2 * blen ciphers) 8))
      (byteOf (2 * blen ciphers) :: cs ++ tail2)) by (done || lia).
  rewrite (read_index body (pre1 ++ [byteOf (Z.shiftr (2 * blen ciphers) 8)])
      (byteOf (2 * blen ciphers)) (cs ++ tail2))
    by ((rewrite E1, <- app_assoc; reflexivity) || (autorewrite with blen; lia)).
  cbn [bind]. rewrite be16_putBE16, u16_small by lia.
  rewrite (proj2 (Z.ltb_ge _ (35 + blen sid + 2 + 2 * blen ciphers))) by lia.
  rewrite (each16_spec _ _ _ (35 + blen sid + 2 + 2 * blen ciphers)) by (done || lia). cbn [bind].
  replace (sub body (35 + blen sid + 2) (35 + blen sid + 2 + 2 * blen ciphers - (35 + blen sid + 2)))
    with cs.
  2: { rewrite E2. rewrite sub_app_r by lia. rewrite Hp2.
       replace (35 + blen sid + 2 - (37 + blen sid)) with 0 by lia. by rewrite sub_app_l by lia. }
  rewrite <- (app_nil_r cs). unfold cs. rewrite pairs16_enc by done. cbn [pairs16]. fold cs.
  rewrite app_nil_r, (proj2 (Z.ltb_ge _ (35 + blen sid + 2 + 2 * blen ciphers + 1))) by lia.
  rewrite (fold_keep (fun c => negb (isGREASE c))). cbn [app].
  rewrite (read_index body pre3 (byteOf (blen comp)) (comp ++ tail3)) by (done || lia).
  cbn [bind]. rewrite Hcomp.
  set (off := 35 + blen sid + 2 + 2 * blen ciphers + (1 + blen comp)).
  rewrite (proj2 (Z.ltb_ge _ (off + 2))) by (unfold off; lia).
  rewrite (read_index body pre4 (byteOf (Z.shiftr (blen exts) 8)) (byteOf (blen exts) :: exts))
    by (done || (unfold off; lia)).
  rewrite (read_index body (pre4 ++ [byteOf (Z.shiftr (blen exts) 8)]) (byteOf (blen exts)) exts)
    by ((rewrite E4, <- app_assoc; reflexivity) || (autorewrite with blen; unfold off; lia)).
  cbn [bind]. rewrite be16_putBE16, u16_small by lia.
  rewrite (proj2 (Z.ltb_ge _ (off + 2 + blen exts))) by (unfold off; lia).
  rewrite (read_slice body (pre4 ++ putBE16 (blen exts)) exts [])
    by ((rewrite E4, app_nil_r, <- app_assoc; reflexivity) || (autorewrite with blen; unfold off; lia)).
  cbn [bind]. rewrite ja4Walk_spec. cbn [bind]. by rewrite ja4Text_spec.
Qed.

(** ** Nothing panics *)

Lemma computeJA4FromClientHello_safe body sni : safe (computeJA4FromClientHello body sni).
Proof.
  unfold safe, computeJA4FromClientHello. wp_run; try done.
  rewrite (each16_spec _ _ _ (35 + bval x1 + 2 + be16 x2 x3)) by (done || blia). cbn [bind].
  wp_run; try done. rewrite ja4Walk_spec. cbn [wp]. by rewrite ja4Text_spec.
Qed.

Lemma computeJA4S_safe body protocol alpn : safe (computeJA4S body protocol alpn).
Proof.
  unfold safe, computeJA4S. wp_run; try done.
  eapply wp_mono; [apply serverHelloExtensions_safe| |done]. intros ext _. cbn beta.
  rewrite supportedVersions_spec, collectIDs_spec. cbn [bind].
  rewrite fmtTwoDigit_spec by apply blen_nonneg. done.
Qed.

Lemma computeJA3S_safe body : safe (computeJA3S body).
Proof.
  unfold safe, computeJA3S. wp_run; try done.
  eapply wp_mono; [apply serverHelloExtensions_safe| |done]. intros ext _. cbn beta.
  rewrite collectIDs_spec. cbn [bind].
  assert (Ha : forall l, List.filter (fun _ : Z => true) l = l)
    by (induction l as [|y l IH]; cbn; congruence).
  rewrite Ha, decimals_spec by apply extList_ids_range. cbn [bind].
  rewrite !decimalUint16_decNat by apply be16_range. done.
Qed.

(** ** The order of the extensions *)

(** States that give the same fingerprint: the same extensions in any order. *)
Record ja4Equiv (s t : ja4State) : Prop := {
  eq_ids : Permutation (jExtIDs s) (jExtIDs t);
  eq_sigs : jSigAlgs s = jSigAlgs t;
  eq_alpn : jAlpn s = jAlpn t;
  eq_sni : jSNI s = jSNI t;
  eq_ver : jVer s = jVer t
}.

#[export] Instance ja4Equiv_equivalence : Equivalence ja4Equiv.
Proof.
  split.
  - by intros s.
  - intros s t [? ? ? ? ?]. by split.
  - intros s t u [? ? ? ? ?] [? ? ? ? ?]. split; congruence || by etransitivity.
Qed.

Lemma filter_Permutation {A} (p : A -> bool) l l' :
  Permutation l l' -> Permutation (List.filter p l) (List.filter p l').
Proof.
  induction 1 as [|x l l' _ IH|x y l|l l2 l3 _ IH1 _ IH2]; cbn; [done| | |by etransitivity].
  - destruct (p x); [by apply perm_skip|done].
  - destruct (p x), (p y); try done. apply perm_swap.
Qed.

#[export] Instance ja4Pure_proper : Proper (@Permutation Z ==> ja4Equiv ==> eq) ja4Pure.
Proof.
  intros c c' Hc s t [Hi Hs Ha Hn Hv]. unfold ja4Pure. rewrite Hs, Ha, Hn, Hv.
  rewrite (sortStrings_perm _ (map uint16hex c')) by by apply Permutation_map.
  rewrite (sortStrings_perm (map uint16hex (List.filter _ (jExtIDs s)))
    (map uint16hex (List.filter (fun e => negb ((e =? 0x0000) || (e =? 0x0010))) (jExtIDs t))))
    by (by apply Permutation_map, filter_Permutation).
  assert (Hl : forall l l' : list Z, Permutation l l' -> blen l = blen l')
    by (intros l l' Hp; unfold blen; by rewrite (Permutation_length Hp)).
  by rewrite (Hl c c' Hc), (Hl _ _ Hi).
Qed.

#[export] Instance ja4Step_proper : Proper (ja4Equiv ==> eq ==> ja4Equiv) ja4Step.
Proof.
  intros s t [Hi Hs Ha Hn Hv] e ? <-. destruct e as [ty d]. unfold ja4Step.
  split; cbn [jExtIDs jSigAlgs jAlpn jSNI jVer].
  - destruct (negb (isGREASE ty)); [by rewrite Hi|done].
  - by rewrite Hs.
  - by rewrite Ha.
  - by rewrite Hn.
  - by rewrite Hv.
Qed.

Lemma ja4Step_comm s e1 e2 :
  fst e1 <> fst e2 -> ja4Equiv (ja4Step (ja4Step s e1) e2) (ja4Step (ja4Step s e2) e1).
Proof.
  destruct e1 as [t1 d1], e2 as [t2 d2]. cbn [fst]. intros Hne.
  unfold ja4Step. split; cbn [jExtIDs jSigAlgs jAlpn jSNI jVer].
  - destruct (negb (isGREASE t1)), (negb (isGREASE t2)); try done.
    rewrite <- !app_assoc. apply Permutation_app_head, perm_swap.
  - destruct (Z.eqb_spec t1 0x000d), (Z.eqb_spec t2 0x000d); try done. congruence.
  - destruct (Z.eqb_spec t1 0x0010), (Z.eqb_spec t2 0x0010); try done. congruence.
  - by destruct (jSNI s), (t1 =? 0), (t2 =? 0).
  - destruct (Z.eqb_spec t1 0x002b), (Z.eqb_spec t2 0x002b); try done. congruence.
Qed.

Lemma fold_ja4Step_proper l s t :
  ja4Equiv s t -> ja4Equiv (fold_left ja4Step l s) (fold_left ja4Step l t).
Proof.
  revert s t. induction l as [|e l IH]; intros s t Hst; cbn; [done|]. apply IH. by rewrite Hst.
Qed.

Lemma fold_ja4Step_perm l l' s :
  Permutation l l' -> NoDup (map fst l) -> ja4Equiv (fold_left ja4Step l s) (fold_left ja4Step l' s).
Proof.
  intros Hp. revert s. induction Hp as [|e l l' Hp IH|e1 e2 l|l l2 l3 H12 IH1 H23 IH2]; intros s Hnd; cbn.
  - done.
  - apply IH. by inversion_clear Hnd.
  - apply fold_ja4Step_proper, ja4Step_comm. cbn in Hnd. inversion_clear Hnd as [|? ? Hn _].
    intros Heq. apply Hn. rewrite Heq. left.
  - rewrite IH1 by done. apply IH2. by rewrite <- H12.
Qed.

(** ** Lengths and versions *)

Lemma length_sha256_12 s : String.length (sha256_12 s) = 12%nat.
Proof.
  unfold sha256_12. rewrite length_takeString, length_hexEncode.
  pose proof (blen_sha256 (ofString s)) as Hs. unfold blen in Hs. lia.
Qed.

Lemma length_ja4VersionString v : String.length (ja4VersionString v) = 2%nat.
Proof. unfold ja4VersionString. by repeat destruct (v =? _). Qed.

Lemma length_runeOfByte c : code c < 128 -> String.length (runeOfByte c) = 1%nat.
Proof. intros Hc. unfold runeOfByte. by rewrite (proj2 (Z.ltb_lt _ _)) by lia. Qed.

Lemma lastChar_ascii c s : isAscii (String c s) = true -> code (lastChar c s) < 128.
Proof.
  revert c. induction s as [|d s IH]; intros c; cbn; intros [H1 H2]%andb_prop.
  - to_prop. done.
  - apply IH. exact H2.
Qed.

Lemma length_ja4ALPNComponent alpn :
  isAscii alpn = true -> String.length (ja4ALPNComponent alpn) = 2%nat.
Proof.
  destruct alpn as [|c rest]; [done|]. intros Ha. unfold ja4ALPNComponent.
  repeat (destruct (String.eqb _ _); [done|]).
  rewrite length_appString, !length_runeOfByte; [done| |].
  - by apply lastChar_ascii.
  - cbn in Ha. apply andb_prop in Ha as [Ha _]. by to_prop.
Qed.

Lemma length_ja4Pure ciphers s :
  String.length (ja4Pure ciphers s) = (34 + String.length (ja4ALPNComponent (jAlpn s)))%nat.
Proof.
  unfold ja4Pure. rewrite !length_appString, !length_sha256_12, length_ja4VersionString,
    !length_twoDigits by apply blen_nonneg.
  destruct (negb (jSNI s)); cbn [String.length]; lia.
Qed.

Lemma isGREASE_big g : 0 <= g -> isGREASE g = true -> 0x0a0a <= g.
Proof.
  unfold isGREASE. intros Hg [H1 H2]%andb_prop. to_prop.
  change 0x0f with (Z.ones 4) in H1. change 0xff with (Z.ones 8) in *.
  rewrite !Z.land_ones in * by lia. rewrite Z.shiftr_div_pow2 in H2 by lia.
  change (2 ^ 8) with 256 in *. change (2 ^ 4) with 16 in *.
  pose proof (Z.mod_pos_bound g 256 ltac:(lia)). pose proof (Z.mod_pos_bound (g / 256) 256 ltac:(lia)).
  pose proof (Z.div_mod (g mod 256) 16 ltac:(lia)). pose proof (Z.div_mod g 256 ltac:(lia)).
  pose proof (Z.div_mod (g / 256) 256 ltac:(lia)).
  pose proof (Z.div_pos (g mod 256) 16 ltac:(lia) ltac:(lia)).
  pose proof (Z.div_pos g 256 ltac:(lia) ltac:(lia)).
  pose proof (Z.div_pos (g / 256) 256 ltac:(lia) ltac:(lia)). lia.
Qed.

Lemma fold_maxVersion_ge l v0 : v0 <= fold_left maxVersion l v0.
Proof.
  revert v0. induction l as [|v l IH]; intros v0; cbn; [lia|].
  specialize (IH (maxVersion v0 v)). unfold maxVersion in *. destruct (v0 <? v) eqn:E; to_prop; lia.
Qed.

Lemma fold_maxVersion_In l v0 g : In g l -> g <= fold_left maxVersion l v0.
Proof.
  revert v0. induction l as [|v l IH]; intros v0; cbn; [done|]. intros [->|Hin]; [|auto].
  pose proof (fold_maxVersion_ge l (maxVersion v0 g)).
  unfold maxVersion in *. destruct (v0 <? g) eqn:E; to_prop; lia.
Qed.

Lemma ja4Step_ver_other l s :
  Forall (fun e => fst e <> 0x002b) l -> jVer (fold_left ja4Step l s) = jVer s.
Proof.
  revert s. induction l as [|[ty d] l IH]; intros s Hl; cbn; [done|].
  inversion_clear Hl as [|? ? Hty Hl']. rewrite IH by done. cbn. by rewrite (proj2 (Z.eqb_neq _ _)).
Qed.

(** The data of a client's supported_versions extension. *)
Definition versionsData (vs : list Z) : bytes := [byteOf (2 * blen vs)] ++ flat_map putBE16 vs.

Lemma offeredVersions_data vs :
  vs <> [] -> blen vs < 128 -> Forall (fun v => 0 <= v < 65536) vs ->
  offeredVersions (versionsData vs) = vs.
Proof.
  intros Hne Hl Hr. unfold versionsData. pose proof (blen_flat_putBE16 vs) as Hb.
  assert (Hp : pairs16 (flat_map putBE16 vs) = vs)
    by (rewrite <- (app_nil_r (flat_map putBE16 vs)), pairs16_enc by done; cbn; apply app_nil_r).
  destruct vs as [|v vs]; [done|].
  remember (flat_map putBE16 (v :: vs)) as q eqn:Hq.
  destruct q as [|x [|y r]]; [discriminate Hq..|]. cbn [app offeredVersions tl].
  rewrite bval_byteOf, Z.mod_small by (pose proof (blen_nonneg (v :: vs)); lia).
  rewrite take_ge; [done|]. unfold blen in *. lia.
Qed.

(** ** Claims about the fingerprints *)

(** The fingerprint functions return for every byte string: no handshake
    message a peer can send makes [computeJA3S], [computeJA4S] or
    [computeJA4FromClientHello] index out of range or loop. *)
Theorem fingerprints_total body protocol alpn :
  safe (computeJA3S body) /\ safe (computeJA4S body protocol alpn) /\
  safe (computeJA4FromClientHello body alpn).
Proof.
  split; [apply computeJA3S_safe|]. split; [apply computeJA4S_safe|apply computeJA4FromClientHello_safe].
Qed.

(** The server fingerprints of a ServerHello are what their formats say:
    JA3S is the MD5 of version, cipher and extension types in decimal; JA4S is
    transport, version (the selected one when supported_versions gives it),
    number of non-GREASE extensions and ALPN, the cipher in hex, and a hash of
    the extension types in observed order. *)
Theorem serverFingerprints_spec v1 v0 random sid cipher comp exts protocol alpn :
  blen random = 32 -> blen sid < 256 -> 0 <= cipher < 65536 -> blen (encExts exts) < 65536 ->
  Forall extOk exts ->
  let body := legacyServerHello v1 v0 random sid cipher comp (encExts exts) in
  let ver := be16 v1 v0 in
  let raw := (decNat ver +:+ "," +:+ decNat cipher +:+ ","
              +:+ Join (map (fun e => decNat (fst e)) exts) "-")%string in
  let ids := List.filter (fun ty => negb (isGREASE ty)) (map fst exts) in
  let sel := if versionsOf exts =? 0 then ver else versionsOf exts in
  computeJA3S body = Ret {| ja3sHash := md5sum (ofString raw); ja3sRaw := raw; ja3sVersion := ver;
                            ja3sCipher := cipher; ja3sExtCount := blen exts |} /\
  computeJA4S body protocol alpn
  = Ret ((if String.eqb protocol "h3" || String.eqb protocol "h3-29" then "q" else "t")
         +:+ ja4VersionString sel +:+ twoDigits (blen ids) +:+ ja4ALPNComponent alpn
         +:+ "_" +:+ uint16hex cipher +:+ "_" +:+ sha256_12 (Join (map uint16hex ids) ","))%string.
Proof.
  intros Hr Hs Hc He Ho body ver raw ids sel.
  pose proof (blen_nonneg sid). pose proof (blen_nonneg (encExts exts)).
  destruct (legacyServerHello_reads v1 v0 random sid cipher comp (encExts exts) Hr)
    as (R0 & R1 & R2 & R3 & R4). fold body in R0, R1, R2, R3, R4.
  assert (Hb : blen body = 40 + blen sid + blen (encExts exts)) by by apply blen_legacyServerHello.
  assert (Hx : serverHelloExtensions body = Ret (Some (encExts exts)))
    by by apply serverHelloExtensions_block.
  assert (Hsid : bval (byteOf (blen sid)) = blen sid) by (rewrite bval_byteOf, Z.mod_small; lia).
  split.
  - unfold computeJA3S. rewrite Hb, (proj2 (Z.ltb_ge _ 35)), R0, R1, R2 by lia. cbn [bind].
    rewrite Hsid, (proj2 (Z.ltb_ge _ _)), R3, R4, Hx by lia.
    change (default [] (Some (encExts exts))) with (encExts exts). cbn [bind].
    change (default [] (Some (encExts exts))) with (encExts exts).
    rewrite collectIDs_spec, extList_encExts by done. cbn [fst bind].
    assert (Ha : forall l, List.filter (fun _ : Z => true) l = l)
      by (induction l as [|y l IH]; cbn; congruence).
    assert (Hids : Forall (fun v => 0 <= v < 65536) (map fst exts))
      by (clear - Ho; induction Ho as [|[ty d] l [Hty _] _ IH]; cbn; constructor; auto).
    rewrite Ha, decimals_spec by done. cbn [bind].
    rewrite be16_putBE16, (u16_small cipher) by lia.
    rewrite !decimalUint16_decNat by (done || apply be16_range). cbn [bind].
    rewrite map_map. unfold blen at 1. rewrite length_map. done.
  - unfold computeJA4S. rewrite Hb, (proj2 (Z.ltb_ge _ 35)), R0, R1, R2 by lia. cbn [bind].
    rewrite Hsid, (proj2 (Z.ltb_ge _ _)), R3, R4, Hx by lia. cbn [bind].
    change (default [] (Some (encExts exts))) with (encExts exts).
    rewrite supportedVersions_spec, collectIDs_spec, extList_encExts by done. cbn [fst bind].
    rewrite fmtTwoDigit_spec by apply blen_nonneg. cbn [bind].
    rewrite be16_putBE16, (u16_small cipher) by lia. fold (versionsOf exts). fold ver ids.
    replace (if negb (versionsOf exts =? 0) then versionsOf exts else ver) with sel
      by (unfold sel; by destruct (versionsOf exts =? 0)).
    by rewrite <- !appString_assoc.
Qed.

Lemma serverFingerprints_spec_witness :
  let body := legacyServerHello x03 x03 (repeat x01 32) [] 0x1301 x00
                (encExts [(51, [x00; x1d]); (43, [x03; x04])]) in
  (exists r, computeJA3S body = Ret r /\ ja3sRaw r = "771,4865,51-43"%string) /\
  computeJA4S body "h2" "" = Ret "t130200_1301_234ea6891581"%string.
Proof.
  pose proof (serverFingerprints_spec x03 x03 (repeat x01 32) [] 0x1301 x00
    [(51, [x00; x1d]); (43, [x03; x04])] "h2" "" eq_refl eq_refl ltac:(lia) eq_refl
    ltac:(repeat constructor; vm_compute; congruence)) as [H1 H2].
  split.
  - eexists. split; [exact H1|]. vm_compute. reflexivity.
  - rewrite H2. vm_compute. reflexivity.
Defined.

(** JA4 of a ClientHello: for every well-formed hello the function gives the
    JA4 text of its non-GREASE ciphers and of its extensions in order, which for
    an ASCII ALPN has exactly 36 characters. *)
Theorem ja4_clientHello v1 v0 random sid ciphers comp exts sni :
  chParts random sid ciphers comp (encExts exts) -> Forall extOk exts ->
  let s := fold_left ja4Step exts (ja4Start v1 v0) in
  let text := ja4Pure (List.filter (fun c => negb (isGREASE c)) ciphers) s in
  computeJA4FromClientHello (encClientHello v1 v0 random sid ciphers comp (encExts exts)) sni = Ret text /\
  (isAscii (jAlpn s) = true -> String.length text = 36%nat).
Proof.
  intros Hp Ho s text. split.
  - rewrite ja4_fields, extList_encExts by done. done.
  - intros Ha. unfold text. by rewrite length_ja4Pure, length_ja4ALPNComponent.
Qed.

(** The offer of a hello without the GREASE values *)
Definition realCiphers (ciphers : list Z) : list Z := List.filter (fun c => negb (isGREASE c)) ciphers.
Definition realExts (exts : list (Z * bytes)) : list (Z * bytes) := List.filter (fun e => negb (isGREASE (fst e))) exts.

(** An extension of a GREASE type is passed over, whatever it holds. *)
Lemma ja4Step_grease s e : isGREASE (fst e) = true -> ja4Step s e = s.
Proof.
  destruct e as [ty d]. cbn [fst]. intros Hg. unfold ja4Step. rewrite Hg. cbn [negb].
  assert (Hn : forall k, isGREASE k = false -> (ty =? k) = false) by (intros k Hk; apply Z.eqb_neq; intros ->; congruence).
  rewrite (Hn 0x000d), (Hn 0x0010), (Hn 0), (Hn 0x002b), orb_false_r by reflexivity. by destruct s.
Qed.

Lemma fold_realExts exts s : fold_left ja4Step exts s = fold_left ja4Step (realExts exts) s.
Proof.
  revert s. induction exts as [|e exts IH]; intros s; [done|]. cbn [fold_left realExts List.filter].
  destruct (isGREASE (fst e)) eqn:Hg; cbn [negb]; [rewrite ja4Step_grease by done|cbn [fold_left]]; apply IH.
Qed.

(** C9. JA4 does not change when a client reorders its offer or adds GREASE to it: two
    hellos whose ciphers and whose extensions are permutations of each other once the
    GREASE ciphers and the extensions of GREASE types are left out (each other type at
    most once) have the same fingerprint, whatever the random and the session id are.
    This is not so for GREASE values inside supported_versions, see
    [ja4_grease_version]. *)
Theorem ja4_order_independent v1 v0 random random' sid sid' ciphers ciphers' comp exts exts' sni sni' :
  chParts random sid ciphers comp (encExts exts) ->
  chParts random' sid' ciphers' comp (encExts exts') ->
  Forall extOk exts -> Forall extOk exts' -> NoDup (map fst (realExts exts)) ->
  Permutation (realCiphers ciphers) (realCiphers ciphers') -> Permutation (realExts exts) (realExts exts') ->
  computeJA4FromClientHello (encClientHello v1 v0 random sid ciphers comp (encExts exts)) sni
  = computeJA4FromClientHello (encClientHello v1 v0 random' sid' ciphers' comp (encExts exts')) sni'.
Proof.
  intros Hp Hp' Ho Ho' Hnd Hc He. rewrite !ja4_fields, !extList_encExts by done. cbn [fst]. f_equal.
  rewrite (fold_realExts exts), (fold_realExts exts'). apply ja4Pure_proper; [done|by apply fold_ja4Step_perm].
Qed.

Definition browserExts : list (Z * bytes) :=
  [(0, sniData "example.com"); (16, alpnData "h2"); (13, [x00; x02; x04; x03]);
   (43, versionsData [0x0304; 0x0303])].

(** The same hello in another order, with GREASE among the ciphers and the extensions *)
Definition greaseExts : list (Z * bytes) := (0x2a2a, [x00]) :: rev browserExts ++ [(0x9a9a, [])].

Lemma ja4_order_independent_witness :
  computeJA4FromClientHello (encClientHello x03 x03 (repeat x01 32) [] [0x1301; 0xc02f] [x00]
    (encExts browserExts)) ""
  = computeJA4FromClientHello (encClientHello x03 x03 (repeat x02 32) [x05] [0x0a0a; 0xc02f; 0x1301] [x00]
    (encExts greaseExts)) "".
Proof.
  apply (ja4_order_independent x03 x03 (repeat x01 32) (repeat x02 32) [] [x05]
    [0x1301; 0xc02f] [0x0a0a; 0xc02f; 0x1301] [x00] browserExts greaseExts "" "").
  - split; try by vm_compute. split; [by vm_compute|]. repeat constructor; by vm_compute.
  - split; try by vm_compute. split; [by vm_compute|]. repeat constructor; by vm_compute.
  - repeat constructor; vm_compute; congruence.
  - repeat constructor; vm_compute; congruence.
  - apply (bool_decide_unpack (NoDup [0; 16; 13; 43])). by vm_compute.
  - apply perm_swap.
  - apply (Permutation_rev browserExts).
Defined.

Lemma ja4_clientHello_witness :
  computeJA4FromClientHello (encClientHello x03 x03 (repeat x01 32) [] [0x0a0a; 0x1301; 0xc02f] [x00]
    (encExts browserExts)) ""
  = Ret (ja4Pure [0x1301; 0xc02f] (fold_left ja4Step browserExts (ja4Start x03 x03))) /\
  takeString 10 (ja4Pure [0x1301; 0xc02f] (fold_left ja4Step browserExts (ja4Start x03 x03)))
  = "t13d0204h2"%string.
Proof.
  split; [|vm_compute; reflexivity].
  apply (ja4_clientHello x03 x03 (repeat x01 32) [] [0x0a0a; 0x1301; 0xc02f] [x00] browserExts "").
  - split; try by vm_compute. split; [by vm_compute|]. repeat constructor; by vm_compute.
  - repeat constructor; vm_compute; congruence.
Defined.

(** A GREASE value among the offered versions hides the TLS version: because
    the maximum is taken over all of supported_versions and every GREASE value is
    above 0x0304, such a hello (as browsers send) gets the version digits "00". *)
Theorem ja4_grease_version v1 v0 random sid ciphers comp pre vs post sni g :
  let exts := pre ++ (0x002b, versionsData vs) :: post in
  chParts random sid ciphers comp (encExts exts) -> Forall extOk exts ->
  Forall (fun e => fst e <> 0x002b) (pre ++ post) ->
  blen vs < 128 -> Forall (fun v => 0 <= v < 65536) vs ->
  In g vs -> isGREASE g = true ->
  exists text,
    computeJA4FromClientHello (encClientHello v1 v0 random sid ciphers comp (encExts exts)) sni = Ret text /\
    takeString 3 text = "t00"%string.
Proof.
  intros exts Hp Ho Hne Hl Hr Hin Hg.
  eexists. split; [rewrite ja4_fields, extList_encExts by done; reflexivity|]. cbn [fst].
  apply Forall_app in Hne as [Hpre Hpost].
  set (s := fold_left ja4Step exts (ja4Start v1 v0)).
  assert (Hv : 0x0a0a <= jVer s).
  { unfold s, exts. rewrite fold_left_app. cbn [fold_left].
    rewrite ja4Step_ver_other by done. cbn [ja4Step jVer]. rewrite Z.eqb_refl.
    rewrite offeredVersions_data by (done || by destruct vs).
    pose proof (fold_maxVersion_In vs (jVer (fold_left ja4Step pre (ja4Start v1 v0))) g Hin).
    rewrite List.Forall_forall in Hr. pose proof (isGREASE_big g (proj1 (Hr g Hin)) Hg). lia. }
  unfold ja4Pure. replace (ja4VersionString (jVer s)) with "00"%string; [done|].
  unfold ja4VersionString. by rewrite !(proj2 (Z.eqb_neq _ _)) by lia.
Qed.

Lemma ja4_grease_version_witness :
  exists text, computeJA4FromClientHello (encClientHello x03 x03 (repeat x01 32) [] [0x1301] [x00]
    (encExts [(0x002b, versionsData [0x1a1a; 0x0304; 0x0303])])) "" = Ret text /\
    takeString 3 text = "t00"%string.
Proof.
  apply (ja4_grease_version x03 x03 (repeat x01 32) [] [0x1301] [x00] [] [0x1a1a; 0x0304; 0x0303] [] "" 0x1a1a).
  - split; try by vm_compute. split; [by vm_compute|]. repeat constructor; by vm_compute.
  - repeat constructor; vm_compute; congruence.
  - done.
  - by vm_compute.
  - repeat constructor; by vm_compute.
  - by left.
  - reflexivity.
Defined.

(** The probe's own hello has a fixed JA4: the body [buildClientHello] makes is
    fingerprinted the same for every server name, random, session id and key. *)
Theorem ja4_of_own_hello sni rnd sid pub :
  sni <> ""%string -> slen sni < 65000 -> blen rnd = 32 -> blen sid = 32 -> blen pub = 32 ->
  computeJA4FromClientHello (clientHelloBody sni rnd sid pub) sni
  = Ret "t13d010600_0f2cb44170f4_2fee020bb440"%string.
Proof.
  intros Hsni Hl Hr Hs Hp. pose proof (slen_nonneg sni).
  pose proof (blen_clientExtensions sni pub Hp Hl) as Hx.
  rewrite (proj2 (String.eqb_neq _ _)) in Hx by done.
  assert (Hb : clientHelloBody sni rnd sid pub
    = encClientHello x03 x03 rnd sid [0x1301] [x00] (encExts (clientExtList sni pub))).
  { unfold clientHelloBody, encClientHello. rewrite <- (clientExtensions_enc sni pub) by done.
    rewrite u16_small, Hs by lia. cbn [flat_map]. rewrite app_nil_r, <- !app_assoc. reflexivity. }
  rewrite Hb, ja4_fields, extList_encExts.
  - unfold clientExtList. rewrite (proj2 (String.eqb_neq _ _)) by done.
    vm_compute. reflexivity.
  - by apply clientExtList_ok.
  - split; [done|lia|split; [by vm_compute|repeat constructor; by vm_compute]|by vm_compute|].
    rewrite <- (clientExtensions_enc sni pub) by done. lia.
Qed.

Lemma ja4_of_own_hello_witness :
  computeJA4FromClientHello
    (clientHelloBody "example.com" (repeat x01 32) (repeat x02 32) (repeat x03 32)) "example.com"
  = Ret "t13d010600_0f2cb44170f4_2fee020bb440"%string.
Proof.
  apply (ja4_of_own_hello "example.com" (repeat x01 32) (repeat x02 32) (repeat x03 32));
    [done|by vm_compute|reflexivity..].
Defined.
