(* ===== verification/Nsec3.v ===== *)
(** NSEC3 denial of existence: [dns_nsec3.go].  Name canonicalisation and the
    DNS messages are those of github.com/miekg/dns, a parameter of the model. *)

From Stdlib Require Import ZArith List String Ascii Strings.Byte Lia Bool.
From stdpp Require Import base list strings numbers.
From S2P Require Import Prelude Bytes GoStrings Text Digest.
Open Scope Z_scope.

(** ** Names on the wire *)

Fixpoint wireLabels (labels : list string) (out : bytes) : outcome bytes :=
  match labels with
  | [] => Ret out
  | label :: labels =>
      guard 63 <? slen label orelse "label too long" ;;
      let out := out ++ [byteOf (slen label)] in
      wireLabels labels (out ++ ofString (ToLower label))
  end.

Definition canonicalNameWire (name : string) : outcome bytes :=
  if String.eqb name "" || String.eqb name "." then Ret [x00]
  else
    let name := if negb (HasSuffix name ".") then (name +:+ ".")%string else name in
    out <~ wireLabels (Split (TrimSuffix name ".") ".") [] ;;
    Ret (out ++ [x00]).

(** ** The salt *)

Definition hexVal (c : byte) : option Z :=
  let v := bval c in
  if (48 <=? v) && (v <=? 57) then Some (v - 48)
  else if (97 <=? v) && (v <=? 102) then Some (v - 97 + 10)
  else if (65 <=? v) && (v <=? 70) then Some (v - 65 + 10)
  else None.

Fixpoint hexDecodeLoop (s : bytes) (i : Z) (k : nat) (out : bytes) : outcome bytes :=
  match k with
  | O => Ret out
  | S k =>
      c1 <~ index s (2 * i) ;;
      c0 <~ index s (2 * i + 1) ;;
      match hexVal c1, hexVal c0 with
      | Some hi, Some lo =>
          hexDecodeLoop s (i + 1) k (out ++ [byteOf (Z.lor (Z.shiftl hi 4) lo)])
      | _, _ => Err "invalid hex in salt"
      end
  end.

Definition hexDecodeOrEmpty (s : string) : outcome bytes :=
  let s := TrimSpace s in
  if String.eqb s "" || String.eqb s "-" then Ret []
  else hexDecodeLoop (ofString s) 0 (Z.to_nat (slen s / 2)) [].

(** ** The hash *)

(** [base32.HexEncoding.WithPadding(base32.NoPadding).EncodeToString(b)]: five
    bits to a character of "0-9A-V", the last group filled with zero bits. *)
Definition byteBits (b : byte) : list bool :=
  map (fun i => Z.testbit (bval b) (Z.of_nat i)) (rev (seq 0 8)).
Definition bitsVal (l : list bool) : Z := fold_left (fun acc (x : bool) => 2 * acc + (if x then 1 else 0)) l 0.
Definition base32Char (v : Z) : ascii :=
  if v <? 10 then ascii_of_N (Z.to_N (48 + v)) else ascii_of_N (Z.to_N (55 + v)).
Fixpoint base32Groups (l : list bool) : string :=
  match l with
  | a :: b :: c :: d :: e :: r => String (base32Char (bitsVal [a; b; c; d; e])) (base32Groups r)
  | [] => ""
  | _ => String (base32Char (bitsVal (take 5 (l ++ repeat false 5)))) ""
  end.
Definition base32HexEncode (b : bytes) : string := base32Groups (flat_map byteBits b).

Section Miekg.
(** [dns.CanonicalName(dns.Fqdn(name))] *)
Variable canonicalName : string -> string.

Definition nsec3Hash (name saltHex : string) (iterations : nat) : string :=
  let canonical := canonicalName name in
  match canonicalNameWire canonical with
  | Ret wire =>
      match hexDecodeOrEmpty saltHex with
      | Ret salt =>
          let cur := sha1 (wire ++ salt) in
          let cur := Nat.iter iterations (fun cur => sha1 (cur ++ salt)) cur in
          ToLower (base32HexEncode cur)
      | _ => ""
      end
  | _ => ""
  end.
End Miekg.

(** ** Coverage *)

Definition nsec3Covers (owner next hashed : string) : bool :=
  let owner := ToLower owner in
  let next := ToLower next in
  let hashed := ToLower hashed in
  if strLt owner next then strLt owner hashed && strLt hashed next
  else strLt owner hashed || strLt hashed next.

(** ** The probe *)

Record nsec3RR := { rrName : string; rrHash : Z; rrIterations : Z; rrSalt : string;
                    rrNextDomain : string }.
Inductive dnsRR :=
| NSEC3 (r : nsec3RR)
| NSEC
| OtherRR.
Record dnsMsg := { Rcode : Z; Ns : list dnsRR }.
Definition RcodeNameError : Z := 3.

Record nsec3ProofResult := {
  Attempted : bool;
  Status : string;
  Algorithm : Z;
  Iterations : Z;
  SaltLen : Z;
  HashedQName : string;
  CoverageOwner : string;
  CoverageNext : string
}.

Definition proofStart (status : string) : nsec3ProofResult :=
  {| Attempted := true; Status := status; Algorithm := 0; Iterations := 0; SaltLen := 0;
     HashedQName := ""; CoverageOwner := ""; CoverageNext := "" |}.

Definition nsec3sOf (l : list dnsRR) : list nsec3RR :=
  flat_map (fun rr => match rr with NSEC3 n => [n] | _ => [] end) l.

(** [strings.ToLower(strings.SplitN(n.Hdr.Name, ".", 2)[0])] *)
Definition ownerOf (n : nsec3RR) : string := ToLower (fst (fst (Cut (rrName n) "."))).
Definition nextOf (n : nsec3RR) : string := ToLower (rrNextDomain n).

Definition probeName (zone : string) : string :=
  ("nonexistent-netdoc-probe-7f3c2.deadbeef." +:+ TrimSuffix zone ".")%string.

Section Probe.
Variable canonicalName : string -> string.

(** [resp] is the answer of [dnsExchange] for [probeName zone], [None] for an
    error or no answer. *)
Definition probeNSEC3Proof (zone : string) (resp : option dnsMsg) : nsec3ProofResult :=
  match resp with
  | None => proofStart "no_nxdomain"
  | Some resp =>
      if negb (Rcode resp =? RcodeNameError) then proofStart "no_nxdomain"
      else
        let nsec3s := nsec3sOf (Ns resp) in
        match nsec3s with
        | [] =>
            if existsb (fun rr => match rr with NSEC => true | _ => false end) (Ns resp)
            then proofStart "nsec_only" else proofStart "no_nsec3"
        | first :: _ =>
            let hashed := nsec3Hash canonicalName (probeName zone) (rrSalt first)
                            (Z.to_nat (rrIterations first)) in
            let result status owner next :=
              {| Attempted := true; Status := status; Algorithm := rrHash first;
                 Iterations := rrIterations first; SaltLen := slen (rrSalt first) / 2;
                 HashedQName := hashed; CoverageOwner := owner; CoverageNext := next |} in
            match List.find (fun n => nsec3Covers (ownerOf n) (nextOf n) hashed) nsec3s with
            | Some n => result "proven"%string (ownerOf n) (nextOf n)
            | None => result "unproven"%string ""%string ""%string
            end
        end
  end.
End Probe.

Definition nsec3Headline (r : nsec3ProofResult) : string :=
  if negb (Attempted r) then ""
  else if String.eqb (Status r) "proven" then "NSEC3 proven"
  else if String.eqb (Status r) "unproven" then "NSEC3 unproven"
  else if String.eqb (Status r) "nsec_only" then "NSEC (no NSEC3)"
  else "".

(** RFC 5155, appendix A: the hash of "example" with salt aabbccdd, 12 iterations. *)
Example rfc5155_example :
  nsec3Hash (fun n => ToLower (n +:+ ".")) "example" "aabbccdd" 12
  = "0p9mhaveqvm6t7vbl5lop2u3t2rp3tom"%string.
Proof. vm_compute. reflexivity. Qed.

(** ** The order of hashes: text and number *)

Lemma bitsVal_app l r : bitsVal (l ++ r) = bitsVal l * 2 ^ Z.of_nat (length r) + bitsVal r.
Proof.
  unfold bitsVal. rewrite fold_left_app.
  assert (Hg : forall r acc, fold_left (fun acc (x : bool) => 2 * acc + (if x then 1 else 0)) r acc
    = acc * 2 ^ Z.of_nat (length r) + fold_left (fun acc (x : bool) => 2 * acc + (if x then 1 else 0)) r 0).
  { clear. induction r as [|x r IH]; intros acc; cbn [fold_left length]; [cbn; lia|].
    rewrite IH, (IH (2 * 0 + _)), Nat2Z.inj_succ, Z.pow_succ_r by lia. lia. }
  apply Hg.
Qed.

Lemma bitsVal_range l : 0 <= bitsVal l < 2 ^ Z.of_nat (length l).
Proof.
  induction l as [|x l IH] using rev_ind; [done|].
  rewrite bitsVal_app, length_app. cbn [length]. rewrite Nat2Z.inj_add, Z.pow_add_r by lia.
  change (2 ^ Z.of_nat 1) with 2. destruct x; cbn; lia.
Qed.

Lemma bitsVal_byteBits x : bitsVal (byteBits x) = bval x.
Proof. by destruct x. Qed.

Lemma length_byteBits b : length (flat_map byteBits b) = (8 * length b)%nat.
Proof. induction b as [|x b IH]; [done|]. cbn [flat_map]. rewrite length_app, IH. cbn. lia. Qed.

Lemma bitsVal_bytes b : bitsVal (flat_map byteBits b) = beWord b.
Proof.
  induction b as [|x b IH] using rev_ind; [done|].
  rewrite flat_map_app, bitsVal_app, IH. cbn [flat_map]. rewrite app_nil_r, bitsVal_byteBits.
  change (length (byteBits x)) with 8%nat. unfold beWord. by rewrite foldl_app.
Qed.

(** The characters as [strings.ToLower] leaves them are in the order of their values. *)
Definition b32 (v : Z) : ascii := lowerByte (base32Char v).

Lemma b32_order v w : 0 <= v < 32 -> 0 <= w < 32 ->
  N.compare (N_of_ascii (b32 v)) (N_of_ascii (b32 w)) = (v ?= w).
Proof.
  intros Hv Hw.
  assert (Hall : forallb (fun i => forallb (fun j =>
      match N.compare (N_of_ascii (b32 (Z.of_nat i))) (N_of_ascii (b32 (Z.of_nat j))),
            (Z.of_nat i ?= Z.of_nat j) with
      | Lt, Lt | Eq, Eq | Gt, Gt => true | _, _ => false end) (seq 0 32)) (seq 0 32) = true)
    by (vm_compute; reflexivity).
  rewrite forallb_forall in Hall. specialize (Hall (Z.to_nat v)). rewrite in_seq in Hall.
  specialize (Hall ltac:(lia)). rewrite forallb_forall in Hall. specialize (Hall (Z.to_nat w)).
  rewrite in_seq in Hall. specialize (Hall ltac:(lia)). rewrite !Z2Nat.id in Hall by lia.
  by destruct (N.compare _ _), (v ?= w).
Qed.

Lemma strLt_cons x a y b :
  strLt (String x a) (String y b) =
  match N.compare (N_of_ascii x) (N_of_ascii y) with Lt => true | Eq => strLt a b | Gt => false end.
Proof. unfold strLt. cbn. unfold Ascii.compare. by destruct (N.compare _ _). Qed.

Lemma base32_order n : forall l r,
  length l = (5 * n)%nat -> length r = (5 * n)%nat ->
  strLt (ToLower (base32Groups l)) (ToLower (base32Groups r)) = (bitsVal l <? bitsVal r).
Proof.
  induction n as [|n IH]; intros l r Hl Hr.
  { by destruct l, r. }
  destruct l as [|a [|b [|c [|d [|e l]]]]]; cbn in Hl; try lia.
  destruct r as [|a' [|b' [|c' [|d' [|e' r]]]]]; cbn in Hr; try lia.
  cbn [base32Groups]. unfold ToLower in *. cbn [mapString]. fold (b32 (bitsVal [a; b; c; d; e])).
  fold (b32 (bitsVal [a'; b'; c'; d'; e'])). rewrite strLt_cons.
  set (g := [a; b; c; d; e]). set (g' := [a'; b'; c'; d'; e']).
  change (a :: b :: c :: d :: e :: l) with (g ++ l). change (a' :: b' :: c' :: d' :: e' :: r) with (g' ++ r).
  pose proof (bitsVal_range g) as Hg. pose proof (bitsVal_range g') as Hg'.
  change (2 ^ Z.of_nat (length g)) with 32 in Hg. change (2 ^ Z.of_nat (length g')) with 32 in Hg'.
  rewrite b32_order, !bitsVal_app by done.
  pose proof (bitsVal_range l) as Bl. pose proof (bitsVal_range r) as Br.
  assert (Hlr : length r = length l) by lia. rewrite Hlr in Br |- *.
  assert (Hpow : 0 < 2 ^ Z.of_nat (length l)) by (apply Z.pow_pos_nonneg; lia).
  destruct (Z.compare_spec (bitsVal g) (bitsVal g')) as [E|E|E].
  - rewrite IH by lia. rewrite E.
    destruct (bitsVal l <? bitsVal r) eqn:E2; to_prop; symmetry; [apply Z.ltb_lt|apply Z.ltb_ge]; lia.
  - symmetry. apply Z.ltb_lt. nia.
  - symmetry. apply Z.ltb_ge. nia.
Qed.

(** The text of a 20-byte digest. *)
Definition digestText (d : bytes) : string := ToLower (base32HexEncode d).

Lemma digestText_order a b :
  blen a = 20 -> blen b = 20 -> strLt (digestText a) (digestText b) = (beWord a <? beWord b).
Proof.
  intros Ha Hb. unfold digestText, base32HexEncode.
  rewrite (base32_order 32), !bitsVal_bytes; [done|rewrite length_byteBits; unfold blen in *; lia..].
Qed.

(** ** A complete chain *)

(** The zone's owner hashes in order; each record points to the next, the last
    one back to the first. *)
Fixpoint increasing (o : string) (l : list string) : Prop :=
  match l with [] => True | p :: l => strLt o p = true /\ increasing p l end.
Fixpoint links (o : string) (l : list string) (first : string) : list (string * string) :=
  match l with [] => [(o, first)] | p :: l => (o, p) :: links p l first end.
Definition covering (h : string) (ring : list (string * string)) : list (string * string) :=
  List.filter (fun r => nsec3Covers (fst r) (snd r) h) ring.

Definition lowered (s : string) : Prop := ToLower s = s.

Lemma covers_lowered o n h :
  lowered o -> lowered n -> lowered h ->
  nsec3Covers o n h = if strLt o n then strLt o h && strLt h n else strLt o h || strLt h n.
Proof. unfold lowered, nsec3Covers. by intros -> -> ->. Qed.

Lemma links_cover h first l : forall o,
  lowered h -> lowered first -> Forall lowered (o :: l) -> increasing o l ->
  first = o \/ strLt first o = true -> ~ In h (o :: l) ->
  length (covering h (links o l first))
  = if strLt o h then 1%nat else if strLt h first then 1%nat else 0%nat.
Proof.
  induction l as [|p l IH]; intros o Hh Hf Ho Hinc Hfo Hin; inversion_clear Ho as [|? ? Hlo Hl].
  - cbn [links covering List.filter fst snd]. rewrite covers_lowered by done.
    assert (E : strLt o first = false).
    { destruct Hfo as [<-|Hlt]; [apply strLt_irrefl|by apply strLt_asym]. }
    rewrite E. destruct (strLt o h), (strLt h first); done.
  - destruct Hinc as [Hop Hinc]. inversion_clear Hl as [|? ? Hlp Hl'].
    assert (Hfp : strLt first p = true) by (destruct Hfo as [<-|Hlt]; [done|by eapply strLt_trans]).
    cbn [links covering List.filter fst snd]. rewrite covers_lowered, Hop by done.
    specialize (IH p Hh Hf ltac:(by constructor) Hinc (or_intror Hfp) ltac:(intros Hx; apply Hin; by right)).
    unfold covering in IH.
    destruct (strLt_cases o h) as [->|[Eoh|Eho]]; [exfalso; apply Hin; by left| |].
    + rewrite Eoh. cbn [andb].
      destruct (strLt_cases h p) as [->|[Ehp|Eph]]; [exfalso; apply Hin; right; by left| |].
      * rewrite Ehp. cbn [length]. rewrite IH, (strLt_asym h p Ehp).
        assert (Ehf : strLt h first = false).
        { apply strLt_asym. destruct Hfo as [->|Hlt]; [done|by apply (strLt_trans _ o)]. }
        by rewrite Ehf.
      * rewrite (strLt_asym p h Eph). by rewrite IH, Eph.
    + rewrite (strLt_asym h o Eho). cbn [andb]. rewrite IH.
      by rewrite (strLt_asym h p) by by apply (strLt_trans _ o).
Qed.

(** ** Names and salts *)

Lemma revString_snoc s c : revString (s +:+ String c "") = String c (revString s).
Proof.
  unfold revString.
  assert (Hl : list_ascii_of_string (s +:+ String c "") = list_ascii_of_string s ++ [c])
    by (induction s as [|d s IH]; cbn; [done|by rewrite IH]).
  by rewrite Hl, rev_unit.
Qed.

Lemma HasSuffix_snoc s c : HasSuffix (s +:+ String c "") (String c "") = true.
Proof.
  unfold HasSuffix. rewrite revString_snoc. cbn.
  destruct (ascii_dec c c); [by destruct (revString s)|done].
Qed.

Lemma TrimSuffix_snoc s c : TrimSuffix (s +:+ String c "") (String c "") = s.
Proof.
  unfold TrimSuffix. rewrite HasSuffix_snoc, length_appString. cbn [String.length].
  replace (String.length s + 1 - 1)%nat with (String.length s) by lia. apply takeString_app.
Qed.

Definition wireLabel (l : string) : bytes := byteOf (slen l) :: ofString (ToLower l).

Lemma wireLabels_ok labels out :
  Forall (fun l => slen l <= 63) labels ->
  wireLabels labels out = Ret (out ++ flat_map wireLabel labels).
Proof.
  intros Hl. revert out. induction Hl as [|l ls Hl _ IH]; intros out; cbn [wireLabels flat_map];
    [by rewrite app_nil_r|].
  unfold errWhen. rewrite (proj2 (Z.ltb_ge _ _)) by lia. rewrite IH, <- !app_assoc. done.
Qed.

Lemma wireLabels_long labels out :
  Exists (fun l => 63 < slen l) labels -> wireLabels labels out = Err "label too long".
Proof.
  intros Hl. revert out. induction Hl as [l ls Hl|l ls _ IH]; intros out; cbn [wireLabels]; unfold errWhen.
  - by rewrite (proj2 (Z.ltb_lt _ _)).
  - destruct (63 <? slen l); [done|apply IH].
Qed.

(** A reader of the wire form: length octets and labels, up to the root label. *)
Fixpoint wireRead (fuel : nat) (b : bytes) : option (list string) :=
  match fuel, b with
  | S f, n :: r =>
      if bval n =? 0 then match r with [] => Some [] | _ => None end
      else if blen r <? bval n then None
      else l ← wireRead f (drop (Z.to_nat (bval n)) r);
           Some (toString (take (Z.to_nat (bval n)) r) :: l)
  | _, _ => None
  end.

Lemma length_ofString s : length (ofString s) = String.length s.
Proof. pose proof (blen_ofString s) as H. unfold blen, slen in H. lia. Qed.

Lemma wireRead_labels labels fuel :
  Forall (fun l => 0 < slen l <= 63) labels -> (length labels < fuel)%nat ->
  wireRead fuel (flat_map wireLabel labels ++ [x00]) = Some (map ToLower labels).
Proof.
  intros Hl. revert fuel. induction Hl as [|l ls Hl _ IH]; intros fuel Hf;
    (destruct fuel as [|fuel]; [cbn in Hf; lia|]); [done|].
  cbn [flat_map wireLabel app wireRead]. rewrite bval_byteOf, Z.mod_small by lia.
  rewrite (proj2 (Z.eqb_neq _ _)) by lia.
  assert (Hlen : String.length (ToLower l) = String.length l) by apply length_mapString.
  rewrite <- app_assoc. pose proof (blen_nonneg (flat_map wireLabel ls ++ [x00])).
  rewrite (proj2 (Z.ltb_ge _ _)) by (rewrite blen_app, blen_ofString; unfold slen in *; lia).
  assert (Hn : Z.to_nat (slen l) = length (ofString (ToLower l)))
    by (rewrite length_ofString, Hlen; unfold slen; lia).
  rewrite Hn, drop_app_length, take_app_length, toString_ofString, IH by (cbn in Hf; lia). done.
Qed.

Lemma Join_not_dot labels : labels <> [""%string] -> labels <> [] ->
  forallb (lacks ".") labels = true -> Forall (fun l => 0 < slen l) labels ->
  String.eqb (Join labels "." +:+ ".") "." = false.
Proof.
  intros _ Hne _ Hl. apply String.eqb_neq. destruct labels as [|l ls]; [done|].
  inversion_clear Hl as [|? ? Hl1 _]. destruct l as [|c l]; [by vm_compute in Hl1|].
  intros Heq. apply (f_equal String.length) in Heq.
  assert (Hge : (1 <= String.length (Join (String c l :: ls) "."))%nat).
  { destruct ls as [|m ls]; [cbn; lia|].
    change (Join (String c l :: m :: ls) ".") with (String c l +:+ "." +:+ Join (m :: ls) ".")%string.
    rewrite length_appString. cbn. lia. }
  rewrite length_appString in Heq. cbn [String.length] in Heq. lia.
Qed.

Lemma canonicalNameWire_name labels :
  labels <> [] -> forallb (lacks ".") labels = true -> Forall (fun l => 0 < slen l) labels ->
  canonicalNameWire (Join labels "." +:+ ".") =
  (out <~ wireLabels labels [] ;; Ret (out ++ [x00])).
Proof.
  intros Hne Hlk Hl. unfold canonicalNameWire.
  rewrite Join_not_dot; [|intros ->; by inversion_clear Hl|done..].
  replace (String.eqb (Join labels "." +:+ ".") "") with false by (by destruct (Join labels ".")).
  cbn [orb]. rewrite HasSuffix_snoc. cbn [negb]. by rewrite TrimSuffix_snoc, Split_Join.
Qed.

(** The structural reading of the salt. *)
Lemma hexDecodeLoop_safe s i k out :
  0 <= i -> 2 * (i + Z.of_nat k) <= blen s -> safe (hexDecodeLoop s i k out).
Proof.
  revert i out. induction k as [|k IH]; intros i out Hi Hk; cbn [hexDecodeLoop]; [done|].
  unfold safe. wp_step. apply wp_index; [lia|]. intros c1 _. wp_step. apply wp_index; [lia|]. intros c0 _.
  destruct (hexVal c1), (hexVal c0); try done. apply IH; lia.
Qed.

Definition hexChars (b : bytes) : bytes := flat_map (fun x => ofString (hexByte x)) b.

Lemma ofString_app s t : ofString (s +:+ t) = ofString s ++ ofString t.
Proof. unfold ofString, list_byte_of_string. induction s as [|c s IH]; [done|]. cbn in *. by rewrite IH. Qed.

Lemma ofString_hexEncode b : ofString (hexEncode b) = hexChars b.
Proof.
  unfold hexEncode. induction b as [|x b IH]; [done|]. cbn [map].
  by rewrite concat_empty_cons, ofString_app, IH.
Qed.

Definition hexByteOk (x : byte) : bool :=
  match ofString (hexByte x) with
  | [c1; c0] =>
      match hexVal c1, hexVal c0 with
      | Some hi, Some lo => beq (byteOf (Z.lor (Z.shiftl hi 4) lo)) x
      | _, _ => false
      end
  | _ => false
  end.

Lemma hexByteOk_all x : hexByteOk x = true.
Proof.
  assert (Hall : forallb hexByteOk (map (fun i => byteOf (Z.of_nat i)) (seq 0 256)) = true)
    by (vm_compute; reflexivity).
  rewrite forallb_forall in Hall. apply Hall. apply in_map_iff. pose proof (bval_range x).
  exists (Z.to_nat (bval x)). rewrite Z2Nat.id, byteOf_bval by lia. split; [done|]. apply in_seq. lia.
Qed.

Lemma hexByte_chars x : exists c1 c0, ofString (hexByte x) = [c1; c0] /\
  exists hi lo, hexVal c1 = Some hi /\ hexVal c0 = Some lo /\ byteOf (Z.lor (Z.shiftl hi 4) lo) = x.
Proof.
  pose proof (hexByteOk_all x) as H. unfold hexByteOk in H.
  destruct (ofString (hexByte x)) as [|c1 [|c0 [|? ?]]]; try done.
  destruct (hexVal c1) as [hi|] eqn:E1, (hexVal c0) as [lo|] eqn:E0; try done.
  apply beq_true in H. eauto 10.
Qed.

Lemma hexDecodeLoop_hex b : forall pre out,
  blen pre mod 2 = 0 ->
  hexDecodeLoop (pre ++ hexChars b) (blen pre / 2) (length b) out = Ret (out ++ b).
Proof.
  induction b as [|x b IH]; intros pre out Hp; cbn [hexDecodeLoop length]; [by rewrite app_nil_r|].
  pose proof (Z.div_mod (blen pre) 2 ltac:(lia)).
  destruct (hexByte_chars x) as (c1 & c0 & Hx & hi & lo & H1 & H0 & Hv).
  cbn [hexChars flat_map]. rewrite Hx. fold (hexChars b).
  rewrite (read_index _ pre c1 (c0 :: hexChars b)) by (done || lia).
  rewrite (read_index _ (pre ++ [c1]) c0 (hexChars b)) by
    ((by rewrite <- app_assoc) || (rewrite blen_app; change (blen [c1]) with 1; lia)).
  cbn [bind]. rewrite H1, H0, Hv.
  specialize (IH (pre ++ [c1; c0]) (out ++ [x])). rewrite blen_app in IH.
  change (blen [c1; c0]) with 2 in IH. rewrite <- !app_assoc in IH. cbn [app] in IH.
  replace ((blen pre + 2) / 2) with (blen pre / 2 + 1) in IH
    by (change 2 with (1 * 2) at 2; rewrite Z.div_add by lia; lia).
  apply IH. change 2 with (1 * 2) at 1. by rewrite Z_mod_plus_full.
Qed.

Lemma hexEncode_noSpace b : noSpace (hexEncode b) = true.
Proof.
  unfold hexEncode, noSpace. induction b as [|x b IH]; [done|]. cbn [map].
  rewrite concat_empty_cons, forallString_app, IH, andb_true_r. by destruct x.
Qed.

(** ** Claims about denial of existence *)

(** Names: for every list of non-empty labels of at most 63 bytes the wire form
    reads back as those labels in lower case, so names that differ in case hash
    alike; a label of more than 63 bytes is an error and never a truncated
    length octet. *)
Theorem canonicalNameWire_roundtrip labels :
  labels <> [] -> forallb (lacks ".") labels = true -> Forall (fun l => 0 < slen l) labels ->
  match canonicalNameWire (Join labels "." +:+ ".") with
  | Ret wire =>
      Forall (fun l => slen l <= 63) labels /\
      wireRead (S (length labels)) wire = Some (map ToLower labels) /\
      canonicalNameWire (Join (map ToLower labels) "." +:+ ".") = Ret wire
  | Err e => e = "label too long"%string /\ Exists (fun l => 63 < slen l) labels
  | Panic | NoFuel => False
  end.
Proof.
  intros Hne Hlk Hl. rewrite canonicalNameWire_name by done.
  destruct (Exists_dec (fun l => 63 < slen l) labels) as [Hx|Hx]; [intros l; apply Z_lt_dec| |].
  { by rewrite wireLabels_long. }
  apply Forall_Exists_neg in Hx.
  assert (Hle : Forall (fun l => slen l <= 63) labels).
  { apply List.Forall_forall. intros l Hin. rewrite List.Forall_forall in Hx.
    specialize (Hx l Hin). cbn in Hx. lia. }
  rewrite wireLabels_ok by done. cbn [bind app]. split; [done|]. split.
  - apply wireRead_labels; [|lia]. apply List.Forall_forall. intros l Hin.
    rewrite List.Forall_forall in Hl, Hle. auto.
  - assert (Hs : forall l, slen (ToLower l) = slen l)
      by (intros l; unfold slen, ToLower; by rewrite length_mapString).
    assert (Hmap : Forall (fun l => 0 < slen l <= 63) (map ToLower labels)).
    { apply Forall_map, List.Forall_forall. intros l Hin. cbn. rewrite Hs.
      rewrite List.Forall_forall in Hl, Hle. auto. }
    rewrite canonicalNameWire_name.
    + rewrite wireLabels_ok.
      * cbn [bind app]. do 2 f_equal. clear. induction labels as [|l ls IH]; [done|].
        cbn [map flat_map]. rewrite IH. unfold wireLabel. rewrite ToLower_idem.
        unfold slen, ToLower. by rewrite length_mapString.
      * eapply Forall_impl; [|exact Hmap]. cbn. lia.
    + by destruct labels.
    + clear - Hlk. induction labels as [|l ls IH]; [done|]. cbn in *.
      apply andb_prop in Hlk as [H1 H2]. rewrite IH, andb_true_r by done. clear - H1.
      induction l as [|c l IHl]; [done|]. cbn in *. apply andb_prop in H1 as [Hc Hl].
      unfold lacks in IHl. rewrite IHl, andb_true_r by done.
      destruct c as [[] [] [] [] [] [] [] []]; by vm_compute in Hc |- *.
    + eapply Forall_impl; [|exact Hmap]. cbn. lia.
Qed.

Lemma canonicalNameWire_roundtrip_witness :
  exists wire, canonicalNameWire "Example.COM." = Ret wire /\
    wireRead 3 wire = Some ["example"; "com"]%string.
Proof.
  pose proof (canonicalNameWire_roundtrip ["Example"; "COM"]%string ltac:(done) eq_refl
    ltac:(repeat constructor; by vm_compute)) as H.
  change (Join ["Example"; "COM"]%string "." +:+ ".") with "Example.COM."%string in H.
  destruct (canonicalNameWire "Example.COM.") as [wire| | |] eqn:E; [|by vm_compute in E..].
  exists wire. split; [done|]. exact (proj1 (proj2 H)).
Defined.

(** Salts: [hexDecodeOrEmpty] returns for every text (an odd last digit is
    ignored, never read past), and it decodes the hex encoding of every salt to
    that salt. *)
Theorem hexDecodeOrEmpty_spec s salt :
  safe (hexDecodeOrEmpty s) /\ hexDecodeOrEmpty (hexEncode salt) = Ret salt.
Proof.
  split.
  - unfold hexDecodeOrEmpty. destruct (_ || _); [done|].
    pose proof (blen_ofString (TrimSpace s)) as Hl.
    pose proof (Z.div_mod (slen (TrimSpace s)) 2 ltac:(lia)).
    pose proof (Z.mod_pos_bound (slen (TrimSpace s)) 2 ltac:(lia)).
    assert (0 <= slen (TrimSpace s) / 2) by (apply Z.div_pos; unfold slen; lia).
    apply hexDecodeLoop_safe; lia.
  - unfold hexDecodeOrEmpty. rewrite TrimSpace_noSpace by apply hexEncode_noSpace.
    destruct salt as [|x salt]; [done|].
    pose proof (length_hexEncode (x :: salt)) as Hl. set (h := hexEncode (x :: salt)) in *.
    destruct (String.eqb_spec h "") as [E|_]; [rewrite E in Hl; cbn in Hl; lia|].
    destruct (String.eqb_spec h "-") as [E|_]; [rewrite E in Hl; cbn in Hl; lia|].
    cbn [orb]. unfold slen. rewrite Hl, Nat2Z.inj_mul, Z.mul_comm, Z.div_mul, Nat2Z.id by lia.
    unfold h. rewrite ofString_hexEncode. by apply (hexDecodeLoop_hex (x :: salt) [] []).
Qed.

(** Comparing the texts is comparing the hashes: on the base32hex form that
    [nsec3Hash] gives of 20-byte digests, [nsec3Covers] is the circular interval
    of RFC 5155 on the digests as 160-bit numbers. *)
Theorem nsec3Covers_numeric o n h :
  blen o = 20 -> blen n = 20 -> blen h = 20 ->
  nsec3Covers (digestText o) (digestText n) (digestText h)
  = if beWord o <? beWord n then (beWord o <? beWord h) && (beWord h <? beWord n)
    else (beWord o <? beWord h) || (beWord h <? beWord n).
Proof.
  intros Ho Hn Hh. rewrite covers_lowered by apply ToLower_idem.
  by rewrite !digestText_order.
Qed.

Lemma nsec3Covers_numeric_witness :
  nsec3Covers (digestText (repeat xf0 20)) (digestText (repeat x10 20)) (digestText (repeat x05 20)) = true.
Proof. rewrite (nsec3Covers_numeric (repeat xf0 20) (repeat x10 20) (repeat x05 20)) by done. reflexivity. Defined.

(** C10. A complete chain denies every name once: if the records are the zone's
    owner hashes in order, each pointing to the next and the last to the first,
    then a hash that is no owner is covered by exactly one record (the wrap-around
    record when it lies outside all others, also in a zone with a single name),
    and so the probe, given those records, reports "proven". *)
Theorem nsec3_chain_covers first rest h :
  lowered h -> Forall lowered (first :: rest) -> increasing first rest -> ~ In h (first :: rest) ->
  length (covering h (links first rest first)) = 1%nat.
Proof.
  intros Hh Hl Hinc Hin. rewrite links_cover; [|done|by inversion_clear Hl|done|done|by left|done].
  destruct (strLt_cases first h) as [->|[E|E]]; [exfalso; apply Hin; by left|by rewrite E|].
  by rewrite (strLt_asym h first E), E.
Qed.

Lemma nsec3_chain_covers_witness :
  length (covering "zz" (links "b" ["m"; "t"]%string "b")) = 1%nat /\
  length (covering "a" (links "b" [] "b")) = 1%nat.
Proof.
  split.
  - apply (nsec3_chain_covers "b" ["m"; "t"]%string "zz"); [done|repeat constructor|done|].
    intros [H|[H|[H|H]]]; done.
  - apply (nsec3_chain_covers "b" [] "a"); [done|repeat constructor|done|]. intros [H|H]; done.
Defined.

(** The verdict of the probe, on every branch: "proven" exactly for NXDOMAIN
    with an NSEC3 record that covers the hash of the probe name, and the record it
    names is one of the response that does; "unproven" when there are NSEC3
    records and none covers; "nsec_only" and "no_nsec3" for NXDOMAIN without
    NSEC3 records; "no_nxdomain" otherwise. *)
Theorem probeNSEC3Proof_verdict canonicalName zone resp :
  let r := probeNSEC3Proof canonicalName zone (Some resp) in
  let rrs := nsec3sOf (Ns resp) in
  let covered n := nsec3Covers (ownerOf n) (nextOf n) (HashedQName r) = true in
  (Status r = "proven"%string <->
     Rcode resp = 3 /\ exists n, In n rrs /\ covered n) /\
  (Status r = "proven"%string ->
     exists n, In n rrs /\ covered n /\ CoverageOwner r = ownerOf n /\ CoverageNext r = nextOf n) /\
  (Status r = "unproven"%string <-> Rcode resp = 3 /\ rrs <> [] /\ forall n, In n rrs -> ~ covered n) /\
  (Status r = "nsec_only"%string <-> Rcode resp = 3 /\ rrs = [] /\ In NSEC (Ns resp)) /\
  (Status r = "no_nxdomain"%string <-> Rcode resp <> 3).
Proof.
  cbv zeta. unfold probeNSEC3Proof, RcodeNameError.
  destruct (Z.eqb_spec (Rcode resp) 3) as [Hr|Hr]; cbn [negb].
  2: { cbn. repeat split; try done; try tauto; intros []; congruence. }
  rewrite Hr. destruct (nsec3sOf (Ns resp)) as [|first rest] eqn:Ers.
  - destruct (existsb _ (Ns resp)) eqn:E.
    + assert (Hin : In NSEC (Ns resp))
        by (apply existsb_exists in E as ([| |] & Hi & ?); done).
      cbn. repeat split; try done; try tauto; intros (_ & n & [] & _).
    + assert (Hin : ~ In NSEC (Ns resp)).
      { intros Hi. apply not_true_iff_false in E. apply E, existsb_exists. by exists NSEC. }
      cbn. repeat split; try done; try tauto; intros (_ & n & [] & _).
  - set (hashed := nsec3Hash _ _ _ _).
    destruct (List.find _ (first :: rest)) as [n|] eqn:E.
    + apply List.find_some in E as [Hin Hc]. cbn [Status HashedQName CoverageOwner CoverageNext].
      repeat split; try done; try (intros; by exists n).
      all: try (intros (_ & _ & Hnone); by destruct (Hnone n Hin)).
      all: intros (_ & H & _); done.
    + assert (Hnone : forall n, In n (first :: rest) -> nsec3Covers (ownerOf n) (nextOf n) hashed <> true)
        by (intros n Hin; rewrite (List.find_none _ _ E n Hin); done).
      cbn [Status HashedQName CoverageOwner CoverageNext].
      repeat split; try done; try (intros (_ & H & _); done).
      intros (_ & n & Hin & Hc). by destruct (Hnone n Hin).
Qed.

(** When the name cannot be hashed, [nsec3Hash] gives the empty text, and every
    record that wraps around (its next owner not after its owner) then counts as
    covering it: the probe reports "proven" although nothing was proved. *)
Theorem nsec3_unhashable_proven canonicalName zone resp first rest n :
  Rcode resp = 3 -> nsec3sOf (Ns resp) = first :: rest ->
  canonicalNameWire (canonicalName (probeName zone)) = Err "label too long" ->
  In n (first :: rest) -> strLt (ownerOf n) (nextOf n) = false -> nextOf n <> ""%string ->
  HashedQName (probeNSEC3Proof canonicalName zone (Some resp)) = ""%string /\
  Status (probeNSEC3Proof canonicalName zone (Some resp)) = "proven"%string.
Proof.
  intros Hr Hrs Hw Hin Hwrap Hne. unfold probeNSEC3Proof, RcodeNameError. rewrite Hr, Hrs. cbn [Z.eqb Pos.eqb negb].
  assert (Hh : nsec3Hash canonicalName (probeName zone) (rrSalt first) (Z.to_nat (rrIterations first)) = ""%string)
    by (unfold nsec3Hash; by rewrite Hw).
  rewrite Hh. destruct (List.find _ (first :: rest)) as [m|] eqn:E; [done|].
  exfalso. pose proof (List.find_none _ _ E n Hin) as Hc. cbn beta in Hc.
  rewrite covers_lowered in Hc by (apply ToLower_idem || done). rewrite Hwrap in Hc.
  apply orb_false_iff in Hc as [_ Hc]. unfold strLt in Hc. by destruct (nextOf n).
Qed.

Definition wrapRecord : nsec3RR :=
  {| rrName := "t.example."; rrHash := 1; rrIterations := 0; rrSalt := ""; rrNextDomain := "b" |}.

Lemma nsec3_unhashable_proven_witness :
  Status (probeNSEC3Proof (fun _ => Repeat "a" 64 +:+ ".") "example."
    (Some {| Rcode := 3; Ns := [NSEC3 wrapRecord] |})) = "proven"%string.
Proof.
  apply (nsec3_unhashable_proven (fun _ => Repeat "a" 64 +:+ ".") "example."
    {| Rcode := 3; Ns := [NSEC3 wrapRecord] |} wrapRecord [] wrapRecord eq_refl eq_refl
    ltac:(vm_compute; reflexivity) (or_introl eq_refl)); by vm_compute.
Defined.
