(* ===== verification/Asn.v ===== *)
(** Origins of addresses: asn.go and path_rpki.go, the lookups in the zones of Team
    Cymru, over the records of Dns.v. *)

From Stdlib Require Import ZArith List String Ascii Strings.Byte Lia Bool Permutation.
From stdpp Require Import base list strings gmap.
From S2P Require Import Prelude Bytes GoStrings Text Decimal Result Dns.
Open Scope Z_scope.

(** ** Addresses of the net package *)

(** An [IP] has 4 or 16 bytes; an IPv4 address may have either form. *)
Definition v4InV6Prefix : bytes := [x00; x00; x00; x00; x00; x00; x00; x00; x00; x00; xff; xff].
Definition To4 (ip : bytes) : option bytes :=
  if blen ip =? 4 then Some ip
  else if (blen ip =? 16) && bool_decide (take 12 ip = v4InV6Prefix) then Some (drop 12 ip) else None.
Definition To16 (ip : bytes) : option bytes :=
  if blen ip =? 4 then Some (v4InV6Prefix ++ ip) else if blen ip =? 16 then Some ip else None.

(** [fmt.Sprintf("%x", n)] of a number below 65536 *)
Definition hexShort (n : Z) : string :=
  if n <? 0x10 then String (hexChar n) ""
  else if n <? 0x100 then String (hexChar (n / 16)) (String (hexChar (n mod 16)) "")
  else if n <? 0x1000 then String (hexChar (n / 256)) (String (hexChar (n / 16 mod 16)) (String (hexChar (n mod 16)) ""))
  else String (hexChar (n / 4096)) (String (hexChar (n / 256 mod 16)) (String (hexChar (n / 16 mod 16)) (String (hexChar (n mod 16)) ""))).

Fixpoint groups (ip : bytes) : list Z :=
  match ip with a :: b :: ip => be16 a b :: groups ip | _ => [] end.

Fixpoint zeroRun (l : list Z) : nat := match l with 0 :: l => S (zeroRun l) | _ => O end.
(** The first of the longest runs of zeros from position [i] on: (start, length) *)
Fixpoint longestRun (i : nat) (l : list Z) : nat * nat :=
  match l with
  | [] => (i, O)
  | _ :: rest =>
      let here := zeroRun l in let '(j, n) := longestRun (S i) rest in
      if (n <=? here)%nat then (i, here) else (j, n)
  end.

(** [ip.String()] *)
Definition ipString (ip : bytes) : string :=
  match To4 ip with
  | Some v4 => Join (map (fun b => fmtD (bval b)) v4) "."
  | None =>
      if negb (blen ip =? 16) then (if (blen ip =? 0)%Z then "<nil>" else "?" +:+ hexEncode ip)%string
      else
        let gs := groups ip in
        let '(i, n) := longestRun 0 gs in
        if (n <? 2)%nat then Join (map hexShort gs) ":"
        else (Join (map hexShort (take i gs)) ":" +:+ "::" +:+ Join (map hexShort (drop (i + n) gs)) ":")%string
  end.

Example ipString_ex : map ipString [[x08; x08; x04; x04]; v4InV6Prefix ++ [x01; x02; x03; xff]; [x20; x01; x0d; xb8] ++ repeat x00 11 ++ [x01]; repeat x00 16;
    [x20; x01; x00; x00; x00; x01; x00; x00; x00; x00; x00; x01; x00; x00; x00; x00]]
  = ["8.8.4.4"; "1.2.3.255"; "2001:db8::1"; "::"; "2001:0:1::1:0:0"]%string.
Proof. vm_compute. reflexivity. Qed.

(** ** asn.go *)

Record asnInfo := { ASN : string; Prefix : string; Country : string; Registry : string; Date : string; Org : string }.
Definition noASN : asnInfo := {| ASN := ""; Prefix := ""; Country := ""; Registry := ""; Date := ""; Org := "" |}.

Definition stripCCFromOrg (org cc : string) : string :=
  let org := TrimSpace org in
  if String.eqb cc "" || String.eqb org "" then org
  else
    let suffix := (", " +:+ ToUpper cc)%string in
    if HasSuffix (ToUpper org) suffix then TrimSpace (takeString (String.length org - String.length suffix) org) else org.

Definition asnString (a : asnInfo) : outcome string :=
  if String.eqb (ASN a) "" then Ret ""%string else
  let org := stripCCFromOrg (Org a) (Country a) in
  short <~ (if String.eqb org "" then Ret ""%string else truncate org 32) ;;
  Ret (Join (("AS" +:+ ASN a)%string :: when (negb (String.eqb org "")) short ++ when (negb (String.eqb (Country a) "")) (Country a))
            (" " +:+ middleDot +:+ " ")).

Definition cymruQueryName (ip : bytes) : string :=
  match To4 ip with
  | Some v4 => (Join (map (fun b => fmtD (bval b)) (rev v4)) "." +:+ ".origin.asn.cymru.com")%string
  | None =>
      match To16 ip with
      | Some v6 => (Join (flat_map (fun b => [hexShort (Z.land (bval b) 0xf); hexShort (Z.shiftr (bval b) 4)]) (rev v6)) "." +:+ ".origin6.asn.cymru.com")%string
      | None => ""
      end
  end.

(** [fmt.Sscanf(s, "%d", &n)]: white space, a sign and digits; what follows is not read. *)
Fixpoint leadingDigits (s : string) : string :=
  match s with String c s => if isDigit c then String c (leadingDigits s) else "" | "" => "" end%string.
Definition signOf (s : string) : bool * string :=
  match s with
  | String c s' => if Ascii.eqb c "-" then (true, s') else if Ascii.eqb c "+" then (false, s') else (false, s)
  | EmptyString => (false, s)
  end.
Definition scanInt (s : string) : option Z :=
  let '(neg, s) := signOf (trimLeftFunc isSpace s) in
  let ds := leadingDigits s in
  if String.eqb ds "" then None
  else let v := if neg then - decValue 0 ds else decValue 0 ds in if (- 2 ^ 63 <=? v) && (v <? 2 ^ 63) then Some v else None.

Definition prefixBitsCIDR (prefix : string) : Z :=
  match Cut prefix "/" with
  | (_, rest, true) => default (-1) (scanInt rest)
  | _ => -1
  end.

Definition originInfo (joined : string) : option asnInfo :=
  match map TrimSpace (Split joined "|") with
  | asn :: prefix :: cc :: registry :: rest =>
      Some {| ASN := asn; Prefix := prefix; Country := cc; Registry := registry; Date := hd ""%string rest; Org := "" |}
  | _ => None
  end.

(** One turn of the loop: the state is [best] and [bestBits]. *)
Definition originTurn (st : asnInfo * Z) (r : rr) : asnInfo * Z :=
  match r with
  | TXT txt =>
      match originInfo (Join txt "") with
      | Some info => let bits := prefixBitsCIDR (Prefix info) in if snd st <? bits then (info, bits) else st
      | None => st
      end
  | _ => st
  end.
Definition parseCymruOriginTXT (rrs : list rr) : option asnInfo :=
  let best := fst (foldl originTurn (noASN, -1) rrs) in
  if String.eqb (ASN best) "" then None else Some best.

Fixpoint parseCymruASTXT (rrs : list rr) : option string :=
  match rrs with
  | [] => None
  | TXT txt :: rrs =>
      match Split (Join txt "") "|" with
      | _ :: _ :: _ :: _ :: org :: _ => Some (TrimSpace org)
      | _ => parseCymruASTXT rrs
      end
  | _ :: rrs => parseCymruASTXT rrs
  end.

(** [IsLoopback], [IsLinkLocalUnicast] and [IsPrivate] of the net package *)
Definition IPv6loopback : bytes := repeat x00 15 ++ [x01].
Definition isPrivateIP (ip : bytes) : bool :=
  let octet l i := bval (nth i l x00) in
  match To4 ip with
  | Some v4 =>
      (octet v4 0%nat =? 127) || ((octet v4 0%nat =? 169) && (octet v4 1%nat =? 254))
      || (octet v4 0%nat =? 10) || ((octet v4 0%nat =? 172) && (Z.land (octet v4 1%nat) 0xf0 =? 16)) || ((octet v4 0%nat =? 192) && (octet v4 1%nat =? 168))
  | None =>
      bool_decide (ip = IPv6loopback)
      || ((blen ip =? 16) && (octet ip 0%nat =? 0xfe) && (Z.land (octet ip 1%nat) 0xc0 =? 0x80))
      || ((blen ip =? 16) && (Z.land (octet ip 0%nat) 0xfe =? 0xfc))
  end.

Example private_addresses : map isPrivateIP [[x0a; x00; x00; x01]; [xac; x1f; x00; x01]; [xac; x20; x00; x01]; v4InV6Prefix ++ [xc0; xa8; x01; x01]; IPv6loopback;
    xfd :: repeat x00 15; [x20; x01] ++ repeat x00 14; []] = [true; true; false; true; true; true; false; false].
Proof. reflexivity. Qed.

Section Lookups.
(** [queryDNS] through the transport of the run *)
Context (query : string -> Z -> list rr + string).

Definition lookupASN (ip : bytes) : asnInfo + string :=
  let qname := cymruQueryName ip in
  if String.eqb qname "" then inr "unsupported address family"%string
  else match query qname TypeTXT with
  | inr e => inr e
  | inl rrs =>
      match parseCymruOriginTXT rrs with
      | None => inr "no origin record"%string
      | Some info =>
          match query ("AS" +:+ ASN info +:+ ".asn.cymru.com")%string TypeTXT with
          | inl rrs2 =>
              match parseCymruASTXT rrs2 with
              | Some org => inl {| ASN := ASN info; Prefix := Prefix info; Country := Country info; Registry := Registry info; Date := Date info; Org := org |}
              | None => inl info
              end
          | inr _ => inl info
          end
      end
  end.

(** One goroutine per address; [order] is the order in which they take the lock. *)
Definition lookupASNs (order : list bytes) : gmap string asnInfo :=
  foldl (fun out ip => match lookupASN ip with inl info => <[ipString ip := info]> out | inr _ => out end) ∅ order.

(** ** path_rpki.go *)

Record rpkiStatus := { rIP : string; rStatus : string }.
Record rpkiResult := { Attempted : bool; Statuses : list rpkiStatus }.

Definition trimAndUpper (s : string) : string :=
  string_of_list_ascii (map upperByte (List.filter (fun c => negb (Ascii.eqb c " " || (code c =? 9) || (code c =? 10) || (code c =? 13))) (list_ascii_of_string s))).

Fixpoint firstTXT (rrs : list rr) : string :=
  match rrs with
  | [] => "UNKNOWN"
  | TXT txt :: _ => trimAndUpper (Join txt "")
  | _ :: rrs => firstTXT rrs
  end.

Definition queryRPKIStatus (ip : bytes) (asn prefix : string) : string :=
  if String.eqb asn "" || String.eqb prefix "" then "UNKNOWN"
  else match To4 ip with
  | None => "UNKNOWN"
  | Some v4 =>
      match query (Join (map (fun b => fmtD (bval b)) (rev v4)) "." +:+ "." +:+ asn +:+ ".rpki.cymru.com")%string TypeTXT with
      | inl rrs => firstTXT rrs
      | inr _ => "UNKNOWN"
      end
  end.

(** Each goroutine writes its own index. *)
Definition probeRPKIAll (ips : list bytes) (asns : gmap string asnInfo) : rpkiResult :=
  {| Attempted := true;
     Statuses := map (fun ip => {| rIP := ipString ip; rStatus := match asns !! ipString ip with
                                   | Some info => queryRPKIStatus ip (ASN info) (Prefix info) | None => "UNKNOWN" end |}) ips |}.
End Lookups.

Definition rpkiCount (p : string -> bool) (r : rpkiResult) : Z := blen (List.filter (fun s => p (rStatus s)) (Statuses r)).

Definition rpkiHeadline (r : rpkiResult) : outcome string :=
  if negb (Attempted r) || (blen (Statuses r) =? 0) then Ret ""%string else
  let valid := rpkiCount (fun s => String.eqb s "VALID") r in
  let invalid := rpkiCount (fun s => String.eqb s "INVALID") r in
  let unknown := rpkiCount (fun s => negb (String.eqb s "VALID") && negb (String.eqb s "INVALID")) r in
  if 0 <? invalid then i <~ itoa invalid ;; n <~ itoa (blen (Statuses r)) ;; Ret ("RPKI INVALID: " +:+ i +:+ "/" +:+ n)%string
  else if (0 <? valid) && (unknown =? 0) then v <~ itoa valid ;; n <~ itoa (blen (Statuses r)) ;; Ret ("RPKI: " +:+ v +:+ "/" +:+ n +:+ " VALID")%string
  else if 0 <? valid then v <~ itoa valid ;; u <~ itoa unknown ;; Ret ("RPKI: " +:+ v +:+ " VALID, " +:+ u +:+ " unknown")%string
  else Ret ""%string.

(** ** The name of a question tells its address *)

(** How the zone reads the labels in front of its own *)
Fixpoint readOctets (labels : list string) : bytes :=
  match labels with [] => [] | l :: labels => readOctets labels ++ [byteOf (decValue 0 l)] end.
Fixpoint readNibbles (labels : list string) : bytes :=
  match labels with
  | lo :: hi :: labels =>
      let digit s := match s with String c "" => default 0 (hexDigitVal c) | _ => 0 end in
      readNibbles labels ++ [byteOf (digit hi * 16 + digit lo)]
  | _ => []
  end.
Definition readCymru (name : string) : option bytes :=
  match rev (Split name ".") with
  | "com" :: "cymru" :: "asn" :: "origin" :: labels => Some (readOctets (rev labels))
  | "com" :: "cymru" :: "asn" :: "origin6" :: labels => Some (readNibbles (rev labels))
  | _ => None
  end%string.

Lemma Join_snoc l t : l <> [] -> (Join l "." +:+ String "." t)%string = Join (l ++ [t]) ".".
Proof.
  unfold Join. induction l as [|w [|w2 l] IH]; intros Hne; [done|done|].
  change (String.concat "." (w :: w2 :: l)) with (w +:+ "." +:+ String.concat "." (w2 :: l)).
  change (String.concat "." ((w :: w2 :: l) ++ [t])) with (w +:+ "." +:+ String.concat "." ((w2 :: l) ++ [t])).
  rewrite <- IH by done. by rewrite !appString_assoc.
Qed.

Lemma Split_zone labels zone : labels <> [] -> forallb (lacks ".") labels = true ->
  Split (Join labels "." +:+ String "." (zone +:+ ".asn.cymru.com")) "." = labels ++ Split (zone +:+ ".asn.cymru.com") ".".
Proof.
  intros Hne Hl. revert Hne. induction labels as [|w [|w2 l] IH]; intros Hne; [done| |].
  - cbn in Hl. apply andb_prop in Hl as [Hw _]. cbn [Join String.concat]. by rewrite Split_lacks_app.
  - cbn [forallb] in Hl. apply andb_prop in Hl as [Hw Hl].
    change (Join (w :: w2 :: l) ".") with (w +:+ "." +:+ Join (w2 :: l) ".")%string.
    rewrite <- !appString_assoc. change ("." +:+ ?t)%string with (String "." t). rewrite Split_lacks_app by done.
    cbn [app]. f_equal. by apply IH.
Qed.

Lemma hexShort_nibble d : 0 <= d < 16 -> hexShort d = String (hexChar d) "".
Proof. intros Hd. unfold hexShort. by rewrite (proj2 (Z.ltb_lt _ _)) by lia. Qed.

Lemma nibble_check : forallb (fun d => lacks "." (String (hexChar d) "") && (default 0 (hexDigitVal (hexChar d)) =? d))
  [0; 1; 2; 3; 4; 5; 6; 7; 8; 9; 10; 11; 12; 13; 14; 15] = true.
Proof. reflexivity. Qed.

Lemma nibble_ok d : 0 <= d < 16 -> lacks "." (String (hexChar d) "") = true /\ default 0 (hexDigitVal (hexChar d)) = d.
Proof.
  intros Hd. pose proof nibble_check as Hall. rewrite forallb_forall in Hall. specialize (Hall d).
  destruct (andb_prop _ _ (Hall ltac:(cbn; lia))) as [H1 H2]. split; [done|by apply Z.eqb_eq].
Qed.

Lemma readOctets_labels v : readOctets (map (fun b => fmtD (bval b)) (rev v)) = v.
Proof.
  rewrite <- (rev_involutive v) at 2. induction (rev v) as [|b l IH]; [done|]. cbn [map readOctets rev]. rewrite IH. do 2 f_equal.
  pose proof (bval_range b). unfold fmtD. rewrite (proj2 (Z.ltb_ge _ _)), decValue_decNat by lia. by rewrite byteOf_bval.
Qed.

Lemma nibbles_bounds b : 0 <= Z.land (bval b) 0xf < 16 /\ 0 <= Z.shiftr (bval b) 4 < 16 /\ Z.shiftr (bval b) 4 * 16 + Z.land (bval b) 0xf = bval b.
Proof.
  destruct (nibbles b) as (Hhi & Hlo & _). split; [exact Hlo|]. split; [exact Hhi|].
  rewrite Z.shiftr_div_pow2 by lia. change 0xf with (Z.ones 4). rewrite Z.land_ones by lia. change (2 ^ 4) with 16.
  pose proof (Z.div_mod (bval b) 16 ltac:(lia)). lia.
Qed.

Lemma readNibbles_labels v : readNibbles (flat_map (fun b => [hexShort (Z.land (bval b) 0xf); hexShort (Z.shiftr (bval b) 4)]) (rev v)) = v.
Proof.
  rewrite <- (rev_involutive v) at 2. induction (rev v) as [|b l IH]; [done|]. cbn [flat_map app rev readNibbles]. rewrite IH. do 2 f_equal.
  destruct (nibbles_bounds b) as (Hlo & Hhi & Hb). rewrite !hexShort_nibble by done. cbv zeta.
  rewrite (proj2 (nibble_ok _ Hlo)), (proj2 (nibble_ok _ Hhi)), Hb. apply byteOf_bval.
Qed.

(** The question about an address names the address: its labels are read back as the
    four bytes of an IPv4 address, in either form, or the sixteen of another one; for
    anything else there is no question. *)
Theorem cymruQueryName_names ip :
  match To4 ip, To16 ip with
  | Some v4, _ => readCymru (cymruQueryName ip) = Some v4
  | None, Some v6 => readCymru (cymruQueryName ip) = Some v6
  | None, None => cymruQueryName ip = ""%string
  end.
Proof.
  unfold cymruQueryName. destruct (To4 ip) as [v4|] eqn:E4; [|destruct (To16 ip) as [v6|] eqn:E6; [|done]].
  - assert (Hv : v4 <> []).
    { unfold To4 in E4. destruct (Z.eqb_spec (blen ip) 4); [injection E4 as <-; by intros ->|]. destruct ((_ =? _) && _) eqn:E; [|done].
      to_prop. injection E4 as <-. intros Hd. assert (length (drop 12 ip) = 0%nat) by (by rewrite Hd). rewrite length_drop in *. unfold blen in *. lia. }
    unfold readCymru. rewrite (Split_zone _ "origin").
    + rewrite rev_app_distr. cbn [Split rev app]. cbn. rewrite rev_involutive. by rewrite readOctets_labels.
    + intros Hm. apply map_eq_nil in Hm. apply Hv. by rewrite <- (rev_involutive v4), Hm.
    + apply forallb_forall. intros x (b & <- & _)%in_map_iff. pose proof (bval_range b). unfold fmtD.
      rewrite (proj2 (Z.ltb_ge _ _)) by lia. by apply lacks_decNat; [lia|].
  - assert (Hv : v6 <> []).
    { unfold To16 in E6. unfold To4 in E4. destruct (Z.eqb_spec (blen ip) 4); [done|]. destruct (Z.eqb_spec (blen ip) 16) as [Hl|]; [|done]. injection E6 as <-. by intros ->. }
    unfold readCymru. rewrite (Split_zone _ "origin6").
    + rewrite rev_app_distr. cbn [Split rev app]. cbn. rewrite rev_involutive. by rewrite readNibbles_labels.
    + intros Hm. apply Hv. rewrite <- (rev_involutive v6). by destruct (rev v6).
    + apply forallb_forall. intros x (b & _ & Hx)%in_flat_map. destruct (nibbles_bounds b) as (Hlo & Hhi & _).
      rewrite !hexShort_nibble in Hx by done. destruct Hx as [<-|[<-|[]]]; by apply nibble_ok.
Qed.

(** ** Which origin is taken *)

Definition rowOf (r : rr) : option asnInfo := match r with TXT txt => originInfo (Join txt "") | _ => None end.
Definition bitsOf (r : rr) : Z := match rowOf r with Some i => prefixBitsCIDR (Prefix i) | None => -1 end.

Lemma originTurn_row st r : -1 <= snd st -> originTurn st r = match rowOf r with Some i => if snd st <? bitsOf r then (i, bitsOf r) else st | None => st end.
Proof. intros Hst. unfold originTurn, rowOf, bitsOf, rowOf. destruct r; try done. by destruct (originInfo _). Qed.

(** The state after some rows: nothing yet, or the first row with the longest prefix *)
Lemma originTurns rrs : let st := foldl originTurn (noASN, -1) rrs in
  (st = (noASN, -1) /\ Forall (fun r => bitsOf r <= -1) rrs)
  \/ exists l r l', rrs = l ++ r :: l' /\ rowOf r = Some (fst st) /\ bitsOf r = snd st /\ -1 < snd st
       /\ Forall (fun q => bitsOf q < snd st) l /\ Forall (fun q => bitsOf q <= snd st) l'.
Proof.
  intros st. subst st. induction rrs as [|x rrs IH] using rev_ind; [by left|]. rewrite foldl_app. cbn [foldl].
  destruct IH as [[-> Hall]|(l & r & l' & Heq & Hrow & Hbits & Hpos & Hl & Hl')].
  - rewrite originTurn_row by done. cbn [snd]. destruct (rowOf x) as [i|] eqn:Ex.
    + destruct (Z.ltb_spec (-1) (bitsOf x)).
      * right. exists rrs, x, []. cbn [fst snd]. split_and!; try done. eapply Forall_impl; [exact Hall|]. cbn. lia.
      * left. split; [done|]. apply Forall_app. split; [done|by constructor].
    + left. split; [done|]. apply Forall_app. split; [done|]. constructor; [|done]. unfold bitsOf. by rewrite Ex.
  - destruct (foldl originTurn _ rrs) as [best bits]. cbn [fst snd] in *. rewrite originTurn_row by (cbn; lia). cbn [snd].
    assert (Hall : Forall (fun q => bitsOf q <= bits) rrs).
    { rewrite Heq. apply Forall_app. split; [eapply Forall_impl; [exact Hl|cbn; lia]|constructor; [lia|done]]. }
    right. destruct (rowOf x) as [i|] eqn:Ex; [destruct (Z.ltb_spec bits (bitsOf x))|].
    + exists rrs, x, []. cbn [fst snd]. split_and!; try done; [lia|]. eapply Forall_impl; [exact Hall|]. cbn. lia.
    + exists l, r, (l' ++ [x]). cbn [fst snd]. rewrite Heq, <- app_assoc. split_and!; try done. apply Forall_app. split; [done|by constructor].
    + exists l, r, (l' ++ [x]). cbn [fst snd]. rewrite Heq, <- app_assoc. split_and!; try done. apply Forall_app. split; [done|].
      constructor; [|done]. unfold bitsOf. rewrite Ex. lia.
Qed.

(** Of the rows with four fields or more and a prefix that has a length, the first one
    with the longest prefix is the answer; its text must name an AS. *)
Theorem parseCymruOriginTXT_longest rrs :
  match parseCymruOriginTXT rrs with
  | Some info => ASN info <> ""%string /\ exists l r l', rrs = l ++ r :: l' /\ rowOf r = Some info /\ -1 < bitsOf r
      /\ Forall (fun q => bitsOf q < bitsOf r) l /\ Forall (fun q => bitsOf q <= bitsOf r) l'
  | None => Forall (fun q => bitsOf q <= -1) rrs \/ exists l r l', rrs = l ++ r :: l' /\ (exists i, rowOf r = Some i /\ ASN i = ""%string) /\ -1 < bitsOf r
      /\ Forall (fun q => bitsOf q < bitsOf r) l /\ Forall (fun q => bitsOf q <= bitsOf r) l'
  end.
Proof.
  unfold parseCymruOriginTXT. destruct (originTurns rrs) as [[-> Hall]|(l & r & l' & Heq & Hrow & Hbits & Hpos & Hl & Hl')]; [by left|].
  destruct (foldl originTurn _ rrs) as [best bits]. cbn [fst snd] in *. subst bits. destruct (String.eqb_spec (ASN best) "") as [E|E].
  - right. exists l, r, l'. split_and!; eauto.
  - split; [done|]. exists l, r, l'. split_and!; done.
Qed.

(** ** The order of the goroutines *)

Lemma lookupASNs_In query order out k : List.NoDup (map ipString order) ->
  foldl (fun out ip => match lookupASN query ip with inl info => <[ipString ip := info]> out | inr _ => out end) out order !! k
  = match find (fun ip => String.eqb (ipString ip) k) order with
    | Some ip => match lookupASN query ip with inl info => Some info | inr _ => (out : gmap string asnInfo) !! k end
    | None => out !! k end.
Proof.
  revert out. induction order as [|ip order IH]; intros out Hnd; [done|]. cbn [map] in Hnd. inversion Hnd as [|? ? Hni Hnd']. subst.
  cbn [foldl find]. rewrite IH by done. destruct (String.eqb_spec (ipString ip) k) as [<-|Hne].
  - destruct (find _ order) as [q|] eqn:Ef; [exfalso; apply find_some in Ef as [Hq Heq]; apply Hni; apply String.eqb_eq in Heq; rewrite <- Heq; by apply in_map|].
    destruct (lookupASN query ip); [by rewrite lookup_insert_eq|done].
  - destruct (find _ order) as [q|]; [destruct (lookupASN query q); [done|]|]; destruct (lookupASN query ip); rewrite ?lookup_insert_ne by done; done.
Qed.

(** Whatever the order in which the lookups finish, the map has for every address what
    its own lookup found, and nothing for those whose lookup failed. *)
Theorem lookupASNs_arrival query ips order (Hnd : List.NoDup (map ipString ips)) (Hperm : Permutation order ips) :
  (forall ip, In ip ips -> lookupASNs query order !! ipString ip = match lookupASN query ip with inl info => Some info | inr _ => None end)
  /\ forall k, ~ In k (map ipString ips) -> lookupASNs query order !! k = None.
Proof.
  assert (Hnd' : List.NoDup (map ipString order)) by (eapply Permutation_NoDup; [|exact Hnd]; by apply Permutation_map, Permutation_sym).
  unfold lookupASNs. split; [intros ip Hin|intros k Hk]; rewrite lookupASNs_In by done.
  - destruct (find _ order) as [q|] eqn:Ef.
    + apply find_some in Ef as [Hq Heq]. apply String.eqb_eq in Heq.
      assert (q = ip) as ->; [|by destruct (lookupASN query ip); rewrite ?lookup_empty].
      clear -Hnd' Hq Heq Hin Hperm. apply Permutation_sym in Hperm. pose proof (Permutation_in _ Hperm Hin) as Hin'. clear Hperm Hin.
      induction order as [|x order IH]; [destruct Hq|]. cbn [map] in Hnd'. inversion Hnd' as [|? ? Hni Hnd]. subst.
      destruct Hq as [->|Hq], Hin' as [->|Hin']; [done|exfalso; apply Hni; rewrite Heq; by apply in_map|exfalso; apply Hni; rewrite <- Heq; by apply in_map|by apply IH].
    + pose proof (find_none _ _ Ef ip (Permutation_in _ (Permutation_sym Hperm) Hin)) as Hf. cbv beta in Hf. by rewrite String.eqb_refl in Hf.
  - destruct (find _ order) as [q|] eqn:Ef; [|apply lookup_empty]. exfalso. apply find_some in Ef as [Hq Heq]. apply String.eqb_eq in Heq.
    apply Hk. rewrite <- Heq. apply in_map. by apply (Permutation_in _ Hperm).
Qed.

Module AsnWitnesses.
Definition zone (name : string) (t : Z) : list rr + string :=
  if String.eqb name "8.8.8.8.origin.asn.cymru.com" then
    inl [TXT ["15169 | 8.8.0.0/16 | US | arin | 1992-12-01"]; TXT ["15169 | 8.8.8.0/24 | US "; "| arin |"]]%string
  else if String.eqb name "AS15169.asn.cymru.com" then inl [OtherRR; TXT ["15169 | US | arin | 2000-03-30 | GOOGLE - Google LLC, US"]]%string
  else inr "no such name"%string.

Lemma lookupASNs_arrival_witness :
  lookupASNs zone [[x01; x01; x01; x01]; [x08; x08; x08; x08]] !! "8.8.8.8"%string
  = Some {| ASN := "15169"; Prefix := "8.8.8.0/24"; Country := "US"; Registry := "arin"; Date := ""; Org := "GOOGLE - Google LLC, US" |}.
Proof.
  refine (proj1 (lookupASNs_arrival zone [[x08; x08; x08; x08]; [x01; x01; x01; x01]] _ _ _) [x08; x08; x08; x08] _).
  - repeat constructor; cbn; intuition discriminate.
  - apply perm_swap.
  - by left.
Defined.

Example label : asnString {| ASN := "15169"; Prefix := "8.8.8.0/24"; Country := "US"; Registry := "arin"; Date := ""; Org := "GOOGLE - Google LLC, US" |}
  = Ret "AS15169 · GOOGLE - Google LLC · US"%string.
Proof. reflexivity. Qed.

(** A prefix with two origins: the question for the name of the AS has a space in it. *)
Example two_origins : option_map (fun i => ("AS" +:+ ASN i +:+ ".asn.cymru.com")%string) (parseCymruOriginTXT [TXT ["15169 36040 | 8.8.8.0/24 | US | arin |"%string]])
  = Some "AS15169 36040.asn.cymru.com"%string.
Proof. reflexivity. Qed.
End AsnWitnesses.
