(* ===== verification/DnsCheck.v ===== *)
(** [checkDNS] and [enrichDNS] of dns.go: the resolution of the host, the lookups of other
    records and the probes of its name servers become one check.

    The probes are modelled in their own files; their results are the fields of a
    [dnsEvidence].  Every goroutine of the source appends to a slot of its own, so the
    order in which they finish does not show. *)

From Stdlib Require Import ZArith List String Ascii Lia Bool Strings.Byte.
From stdpp Require Import base list strings gmap.
From S2P Require Import Prelude Bytes GoStrings Base64 Decimal Result Float Json Detail Clock Dns Dnssec Nameservers Nsec3 Asn Report.
Import ListNotations.
Open Scope Z_scope.
Open Scope string_scope.

(** ** What the check is given *)

Record dnsTarget := {
  nHost : string; nTransport : option dnsTransport; nECS : list string; nTree : bool; nColor : bool
}.

(** The resolver of the Go library, the raw queries, and the probes.  A [None] in an
    answer is a record of another type. *)
Record dnsEvidence := {
  lookupMX : list (string * Z) + string; lookupNS : list string + string; lookupTXT : list string + string; lookupCNAME : string + string;
  lookupAddr : string -> list string + string;
  querySRV : list (option (Z * Z * string * Z)) + string; queryCAA : list (option (string * string)) + string;
  queryHTTPS : list (option string) + string; querySVCB : list (option string) + string;
  evDNSSEC : dnssecStatus; evASNs : gmap string asnInfo; evNSID : string;
  evChaos : list string -> list nsChaosResult; evAXFR : list string -> list axfrResult; evGlue : list string -> list glueResult;
  evLame : list string -> list lameNSResult; evCookies : dnsCookieResult; evWalk : nsecWalkResult; evRPKI : rpkiResult;
  evPropagation : propagationVerdict; evNsec3 : nsec3ProofResult; evECS : list string -> list ecsResult; evDNSKEYs : list secRR
}.

(** ** The lookups *)

(** The error of a lookup leaves its slot empty. *)
Definition got {A} (r : list A + string) : list A := match r with inl l => l | inr _ => [] end.
Definition typed {A} (r : list (option A) + string) : list A := flat_map (fun x => match x with Some a => [a] | None => [] end) (got r).

Definition mxOf (ev : dnsEvidence) : list string := map (fun r => TrimSuffix (fst r) "." +:+ " (pref " +:+ fmtD (snd r) +:+ ")") (got (lookupMX ev)).
Definition nsOf (ev : dnsEvidence) : list string := map (fun h => TrimSuffix h ".") (got (lookupNS ev)).
Definition txtOf (ev : dnsEvidence) : list string := got (lookupTXT ev).
Definition cnameOf (host : string) (ev : dnsEvidence) : string :=
  match lookupCNAME ev with
  | inl v => let v := TrimSuffix v "." in if String.eqb v "" || String.eqb v host then "" else v
  | inr _ => ""
  end.
Definition ptrOf (ipv4 : list bytes) (ev : dnsEvidence) : list string :=
  match ipv4 with [] => [] | ip :: _ => map (fun r => TrimSuffix r ".") (got (lookupAddr ev (ipString ip))) end.
Definition srvOf (ev : dnsEvidence) : list string :=
  map (fun r => let '(priority, weight, target, port) := r in
                fmtD priority +:+ "/" +:+ fmtD weight +:+ " → " +:+ TrimSuffix target "." +:+ ":" +:+ fmtD port) (typed (querySRV ev)).
Definition caaOf (ev : dnsEvidence) : list string := map (fun r => fst r +:+ " " +:+ dquote +:+ snd r +:+ dquote) (typed (queryCAA ev)).

(** The probes behind the list of name servers run only when there is one. *)
Definition behindNS {A} (ev : dnsEvidence) (probe : list string -> list A) : list A := match nsOf ev with [] => [] | ns => probe ns end.

Definition noWalk : nsecWalkResult := {| Dnssec.Attempted := false; ZoneUsesNSEC := false; NamesFound := []; Hops := 0; wTruncated := false |}.
Definition walkOf (ev : dnsEvidence) : nsecWalkResult := if Signed (evDNSSEC ev) then evWalk ev else noWalk.
Definition noProof : nsec3ProofResult :=
  {| Nsec3.Attempted := false; Nsec3.Status := ""; Algorithm := 0; Iterations := 0; SaltLen := 0; HashedQName := ""; CoverageOwner := ""; CoverageNext := "" |}.
Definition proofOf (ev : dnsEvidence) : nsec3ProofResult := if Signed (evDNSSEC ev) || sValidated (evDNSSEC ev) then evNsec3 ev else noProof.
Definition noRollover : rolloverResult := {| Analyzed := false; Algorithms := []; AlgorithmsNamed := []; Families := []; InProgress := false |}.
Definition rolloverOf (ev : dnsEvidence) : rolloverResult :=
  if Signed (evDNSSEC ev) && (0 <? blen (evDNSKEYs ev))%Z then analyzeDNSKEYRollover (evDNSKEYs ev) else noRollover.
Definition ecsOf (t : dnsTarget) (ev : dnsEvidence) : list ecsResult := match nECS t with [] => [] | subnets => evECS ev subnets end.

(** ** The line of addresses *)

Definition bigDot : string := "  " +:+ middleDot +:+ "  ".

(** The origin that all addresses share: the loop with [sharedASN] and [allSame] *)
Fixpoint sharedASN (asns : gmap string asnInfo) (shared : string) (all : list bytes) : bool :=
  match all with
  | [] => true
  | ip :: all =>
      match asns !! ipString ip with
      | Some info => negb (String.eqb (ASN info) "") && (String.eqb shared "" || String.eqb (ASN info) shared) && sharedASN asns (ASN info) all
      | None => false
      end
  end.

Fixpoint ipLabels (asns : gmap string asnInfo) (all : list bytes) : outcome (list string) :=
  match all with
  | [] => Ret []
  | ip :: all =>
      label <~ match asns !! ipString ip with
               | Some info => if String.eqb (ASN info) "" then Ret (ipString ip) else text <~ asnString info ;; Ret (ipString ip +:+ " (" +:+ text +:+ ")")
               | None => Ret (ipString ip)
               end ;;
      labels <~ ipLabels asns all ;; Ret (label :: labels)
  end.

(** [visit] is the order in which a range visits the map of origins. *)
Definition formatIPLine (visit : gmap string asnInfo -> list asnInfo) (v4 v6 : list bytes) (asns : gmap string asnInfo) : outcome string :=
  let all := (v4 ++ v6)%list in
  match all with
  | [] => Ret ""
  | _ =>
      if negb (bool_decide (asns = ∅)) && sharedASN asns "" all then
        line <~ previewList (map ipString all) 4 ;;
        match visit asns with
        | info :: _ => text <~ asnString info ;; Ret (line +:+ bigDot +:+ text)
        | [] => Ret line
        end
      else labels <~ ipLabels asns all ;; previewList labels 4
  end.

(** ** The second line *)

Definition counted (what : string) (l : list string) : list string := when (0 <? blen l)%Z (what +:+ "×" +:+ fmtD (blen l)).
Definition noted (h : string) : list string := when (negb (String.eqb h "")) h.

(** The distinct algorithms of the levels, in order *)
Definition chainAlgorithms (v : dnssecValidation) : list string :=
  foldl (fun algs lv => if negb (String.eqb (lAlgorithm lv) "") && negb (existsb (String.eqb (lAlgorithm lv)) algs) then algs ++ [lAlgorithm lv] else algs)%list
    [] (Levels v).
Definition dnssecLine (sec : dnssecStatus) : list string :=
  if ChainValidated sec then
    let algs := match statusChain sec with Some v => chainAlgorithms v | None => [] end in
    ["DNSSEC: chain-validated" +:+ (if (0 <? blen algs)%Z then " (" +:+ Join algs ", " +:+ ")" else "")]
  else if sValidated sec then ["DNSSEC: validated (AD bit)"]
  else if Signed sec then ["DNSSEC: signed"] else [].

(** ** The detail *)

Definition levelValue (l : dnssecLevelResult) : value :=
  struct "dnssecLevelResult" [str "zone" (Zone l); boolean "trusted" (Trusted l); optString "reason" (Dnssec.lReason l); optInt "ksk_tag" (KSKTag l);
    when (0 <? blen (ZSKTags l))%Z ("zsk_tags", made "uint16" VInt (ZSKTags l)); optString "algorithm" (lAlgorithm l)].
Definition answerValue (a : dnssecAnswer) : value :=
  struct "dnssecAnswer" [str "type" (aType a); optStrings "records" (Records a); optInt "signed_by_key_tag" (SignedBy a); boolean "verified" (Verified a)].
Definition chainValue (v : dnssecValidation) : value :=
  struct "dnssecValidation" [boolean "validated" (Validated v); optString "reason" (vReason v);
    when (0 <? blen (Levels v))%Z ("levels", made "dnssecLevelResult" levelValue (Levels v));
    match LeafAnswer v with Some a => [("leaf_answer", answerValue a)] | None => [] end].
Definition dnssecValue (s : dnssecStatus) : value :=
  struct "dnssecStatus" [boolean "signed" (Signed s); boolean "validated" (sValidated s); boolean "chain_validated" (ChainValidated s);
    optString "algorithm" (statusAlgorithm s); match statusChain s with Some v => [("chain", chainValue v)] | None => [] end].
(** A slice of bytes is written in base64. *)
Definition rolloverValue (r : rolloverResult) : value :=
  struct "rolloverResult" [boolean "analyzed" (Analyzed r);
    when (0 <? blen (Algorithms r))%Z ("algorithms", VString (base64Encode false (map byteOf (Algorithms r))));
    optStrings "algorithms_named" (AlgorithmsNamed r); optStrings "families" (Families r); optBool "in_progress" (InProgress r)].
Definition walkValue (w : nsecWalkResult) : value :=
  struct "nsecWalkResult" [boolean "attempted" (Dnssec.Attempted w); boolean "zone_uses_nsec" (ZoneUsesNSEC w); optStrings "names_found" (NamesFound w);
    int "hops" (Hops w); boolean "truncated" (wTruncated w)].
Definition nsec3Value (r : nsec3ProofResult) : value :=
  struct "nsec3ProofResult" [boolean "attempted" (Nsec3.Attempted r); str "status" (Nsec3.Status r); optInt "algorithm" (Algorithm r);
    optInt "iterations" (Iterations r); optInt "salt_len" (SaltLen r); optString "hashed_qname" (HashedQName r);
    optString "coverage_owner" (CoverageOwner r); optString "coverage_next" (CoverageNext r)].
Definition lameValue (r : lameNSResult) : value :=
  struct "lameNSResult" [str "ns" (lNS r); boolean "reachable" (Reachable r); boolean "authoritative" (lAuthoritative r); optInt "soa_serial" (SOASerial r);
    optBool "is_lame" (IsLame r); optString "reason" (Nameservers.lReason r)].
Definition propagationRow (r : propagationResult) : value :=
  struct "propagationResult" [str "resolver" (Resolver r); str "addr" (pAddr r); optStrings "ips" (pIPs r); optString "hash" (Nameservers.Hash r);
    boolean "ok" (OK r); optString "rcode" (RCode r); optString "error" (pError r); [("ms", VFloat (ofInt (MS r)))]].
Definition propagationValue (v : propagationVerdict) : value :=
  struct "propagationVerdict" [str "verdict" (Verdict v); int "buckets" (ConsistentBuckets v); int "answered" (ResolversAnswered v);
    int "total" (ResolversTotal v); when (0 <? blen (pResults v))%Z ("results", made "propagationResult" propagationRow (pResults v))].
Definition glueValue (g : glueResult) : value :=
  struct "glueResult" [str "ns" (gNS g); boolean "in_bailiwick" (InBailiwick g); boolean "has_glue" (HasGlue g); optStrings "glue_ipv4" (GlueIPv4 g);
    optStrings "glue_ipv6" (GlueIPv6 g); optString "error" (gError g)].
Definition axfrValue (a : axfrResult) : value :=
  struct "axfrResult" [str "ns" (aNS a); boolean "refused" (Refused a); boolean "transferred" (Transferred a); optInt "record_count" (RecordCount a);
    optString "error" (aError a)].
Definition chaosValue (c : nsChaosResult) : value :=
  struct "nsChaosResult" [str "ns" (cNS c); optString "version_bind" (VersionBind c); optString "hostname_bind" (HostnameBind c); optString "id_server" (IDServer c)].
Definition ecsValue (e : ecsResult) : value :=
  struct "ecsResult" [str "subnet" (Subnet e); optStrings "ips" (eIPs e); optString "rcode" (eRCode e); optString "error" (eError e)].
Definition cookieValue (c : dnsCookieResult) : value :=
  struct "dnsCookieResult" [boolean "attempted" (cAttempted c); boolean "supported" (Nameservers.Supported c); optString "client_cookie" (ClientCookie c);
    optString "server_cookie" (ServerCookie c); optBool "error_bad_cookie" (ErrorBadCookie c)].
Definition asnValue (a : asnInfo) : value :=
  struct "asnInfo" [str "asn" (ASN a); str "prefix" (Asn.Prefix a); str "country" (Country a); str "registry" (Registry a); optString "date" (Date a); optString "org" (Org a)].
Definition rpkiValue (r : rpkiResult) : value :=
  struct "rpkiResult" [boolean "attempted" (Asn.Attempted r);
    when (0 <? blen (Statuses r))%Z ("statuses", made "rpkiStatus" (fun s => struct "rpkiStatus" [str "ip" (rIP s); str "status" (rStatus s)]) (Statuses r))].

(** [if len(l) > 0 { c.Detail[k] = l }] *)
Definition slot {A} (k ty : string) (f : A -> value) (l : list A) : list (string * value) := when (0 <? blen l)%Z (k, made ty f l).

(** The entries of [c.Detail], statement by statement; [took] is the time of the
    resolution in nanoseconds. *)
Definition dnsParts (t : dnsTarget) (took : Z) (ipv4 ipv6 : list bytes) (ev : dnsEvidence) : list (list (string * value)) :=
  let sec := evDNSSEC ev in
  [ [("ms", VFloat (ms took))]; [("ipv4", VStrings (Some (map ipString ipv4)))]; [("ipv6", VStrings (Some (map ipString ipv6)))];
    match nTransport t with Some _ => str "transport" (showTransport (nTransport t)) | None => [] end;
    when (Nsec3.Attempted (proofOf ev)) ("nsec3", nsec3Value (proofOf ev));
    optStrings "mx" (mxOf ev); optStrings "ns" (nsOf ev);
    slot "ns_chaos" "nsChaosResult" chaosValue (behindNS ev (evChaos ev)); slot "axfr" "axfrResult" axfrValue (behindNS ev (evAXFR ev));
    slot "glue" "glueResult" glueValue (behindNS ev (evGlue ev));
    when (0 <? ResolversTotal (evPropagation ev))%Z ("propagation", propagationValue (evPropagation ev));
    slot "ecs" "ecsResult" ecsValue (ecsOf t ev); slot "lame_delegation" "lameNSResult" lameValue (behindNS ev (evLame ev));
    when (Nameservers.Supported (evCookies ev)) ("dns_cookies", cookieValue (evCookies ev));
    when (ZoneUsesNSEC (walkOf ev)) ("nsec_walk", walkValue (walkOf ev));
    when (Asn.Attempted (evRPKI ev) && (0 <? blen (Statuses (evRPKI ev)))%Z) ("rpki", rpkiValue (evRPKI ev));
    when (InProgress (rolloverOf ev)) ("algorithm_rollover", rolloverValue (rolloverOf ev));
    optStrings "txt" (txtOf ev); optString "cname" (cnameOf (nHost t) ev); optStrings "ptr" (ptrOf ipv4 ev); optStrings "srv" (srvOf ev);
    optStrings "caa" (caaOf ev); optStrings "https" (typed (queryHTTPS ev)); optStrings "svcb" (typed (querySVCB ev));
    when (Signed sec || sValidated sec) ("dnssec", dnssecValue sec);
    when (negb (bool_decide (evASNs ev = ∅))) ("asn", VMap "map[string]asnInfo" (map (fun e => (fst e, asnValue (snd e))) (map_to_list (evASNs ev))));
    optString "nsid" (evNSID ev) ].

Section Report.
Context (visit : gmap string asnInfo -> list asnInfo) (visitVersions : list string -> list string).

Definition extrasOf (t : dnsTarget) (ipv4 : list bytes) (ev : dnsEvidence) : outcome (list string) :=
  let cname := cnameOf (nHost t) ev in let ptr := ptrOf ipv4 ev in
  let chaos := chaosHeadline visitVersions (behindNS ev (evChaos ev)) in
  let propagation := propagationHeadline (evPropagation ev) in
  shortCname <~ (if String.eqb cname "" then Ret "" else truncate cname 28) ;;
  shortPtr <~ match ptr with [] => Ret "" | p :: _ => truncate p 28 end ;;
  shortChaos <~ (if String.eqb chaos "" then Ret "" else truncate chaos 32) ;;
  rpki <~ rpkiHeadline (evRPKI ev) ;;
  shortNSID <~ (if String.eqb (evNSID ev) "" then Ret "" else truncate (evNSID ev) 20) ;;
  Ret (when (negb (String.eqb cname "")) ("CNAME → " +:+ shortCname)
    ++ counted "MX" (mxOf ev) ++ counted "NS" (nsOf ev) ++ counted "TXT" (txtOf ev) ++ counted "CAA" (caaOf ev) ++ counted "SRV" (srvOf ev)
    ++ when (0 <? blen (typed (queryHTTPS ev)))%Z "HTTPS" ++ when (0 <? blen (typed (querySVCB ev)))%Z "SVCB"
    ++ dnssecLine (evDNSSEC ev)
    ++ when (0 <? blen ptr)%Z ("rDNS: " +:+ shortPtr)
    ++ when (negb (String.eqb chaos "")) ("NS: " +:+ shortChaos)
    ++ when (negb (String.eqb propagation "")) ("propagation: " +:+ propagation)
    ++ noted (axfrHeadline (behindNS ev (evAXFR ev)))
    ++ noted (glueHeadline (behindNS ev (evGlue ev)))
    ++ noted (ecsHeadline (ecsOf t ev))
    ++ noted (nsec3Headline (proofOf ev))
    ++ noted (lameDelegationHeadline (behindNS ev (evLame ev)))
    ++ noted (dnsCookiesHeadline (evCookies ev))
    ++ noted (nsecWalkHeadline (walkOf ev))
    ++ noted rpki
    ++ noted (rolloverHeadline (rolloverOf ev))
    ++ when (negb (String.eqb (evNSID ev) "")) ("via " +:+ shortNSID))%list.

(** [c.Hint] after the addresses, the second line and the tree *)
Definition dnsHint (t : dnsTarget) (ipLine : string) (extras : list string) (sec : dnssecStatus) : string :=
  let hint := match extras with [] => ipLine | _ => (if String.eqb ipLine "" then "" else ipLine +:+ nl) +:+ Join extras bigDot end in
  match statusChain sec with
  | Some v =>
      if nTree t then
        let tree := renderDNSSECChain (Some v) (nHost t) (nColor t) in
        if String.eqb tree "" then hint else (if String.eqb hint "" then "" else hint +:+ nl +:+ nl) +:+ tree
      else hint
  | None => hint
  end.

(** ** The check *)

Definition dnsCheck (status summary hint : string) (millis : float64) (detail : option (gmap string value)) : Check :=
  {| Report.Name := "DNS"; Report.Status := status; Summary := summary; Hint := hint; Millis := millis; Detail := detail |}.

(** [d.ipv4] and [d.ipv6] *)
Definition isIPv4 (ip : bytes) : bool := match To4 ip with Some _ => true | None => false end.
Definition families (addrs : list bytes) : list bytes * list bytes := (List.filter isIPv4 addrs, List.filter (fun ip => negb (isIPv4 ip)) addrs).

Definition counts (ipv4 ipv6 : list bytes) : string := fmtD (blen ipv4) +:+ " IPv4, " +:+ fmtD (blen ipv6) +:+ " IPv6".

(** The check, and the addresses that it leaves in the diagnosis: [None] for a host that
    is not resolved.  [resolve] is the answer of the transport or of the resolvers. *)
Definition checkDNS (quote : string -> string) (t : dnsTarget) (resolve : list bytes + string) (took : Z) (ev : dnsEvidence)
    : outcome (Check * option (list bytes * list bytes)) :=
  match resolve with
  | inr e => Ret (dnsCheck StatusFail ("could not resolve " +:+ quote (nHost t)) "" (Float 0 0)
                    (Some (list_to_map [("error", VString (tidyErr e)); ("ms", VFloat (ms took))])), None)
  | inl [] => Ret (dnsCheck StatusFail (quote (nHost t) +:+ " has no DNS records") "" (Float 0 0) None, None)
  | inl addrs =>
      let '(ipv4, ipv6) := families addrs in
      ipLine <~ formatIPLine visit ipv4 ipv6 (evASNs ev) ;;
      extras <~ extrasOf t ipv4 ev ;;
      let slow := (300 * 10 ^ 6 <? took)%Z in
      Ret (dnsCheck (if slow then StatusWarn else StatusOK)
             (if slow then "slow DNS — resolved in " +:+ dur took +:+ " (" +:+ counts ipv4 ipv6 +:+ ")"
              else "resolved in " +:+ dur took +:+ " — " +:+ counts ipv4 ipv6)
             (dnsHint t ipLine extras (evDNSSEC ev)) (ms took) (Some (list_to_map (concat (dnsParts t took ipv4 ipv6 ev)))), Some (ipv4, ipv6))
  end.
End Report.

(** The addresses of the resolution: the configured transport, or the two resolvers of
    the Go library *)
Definition resolveHost (t : dnsTarget) (viaTransport : dnsTransport -> list bytes + string) (pureGo system : list bytes + string) : list bytes + string :=
  match nTransport t with
  | Some tr => viaTransport tr
  | None => match pureGo with inl addrs => inl addrs | inr _ => system end
  end.

(** ** The keys *)

Definition dnsKeys : list (list string) := [
  ["ms"]; ["ipv4"]; ["ipv6"]; ["transport"]; ["nsec3"]; ["mx"]; ["ns"]; ["ns_chaos"]; ["axfr"]; ["glue"]; ["propagation"]; ["ecs"]; ["lame_delegation"];
  ["dns_cookies"]; ["nsec_walk"]; ["rpki"]; ["algorithm_rollover"]; ["txt"]; ["cname"]; ["ptr"]; ["srv"]; ["caa"]; ["https"]; ["svcb"]; ["dnssec"]; ["asn"]; ["nsid"]].

Lemma dnsParts_keyed t took ipv4 ipv6 ev : Forall2 keyed (dnsParts t took ipv4 ipv6 ev) dnsKeys.
Proof. unfold dnsParts, dnsKeys, slot. cbv zeta. keyed_all. Qed.

Lemma dnsKeys_NoDup : NoDup (concat dnsKeys).
Proof. apply (bool_decide_unpack _). by vm_compute. Qed.

(** ** The line of addresses *)

Lemma sharedASN_spec asns shared all : sharedASN asns shared all = true <->
  exists asn, (shared = "" \/ asn = shared \/ all = []) /\ forall ip, In ip all -> exists info, asns !! ipString ip = Some info /\ ASN info = asn /\ asn <> "".
Proof.
  revert shared. induction all as [|ip all IH]; intros shared; cbn [sharedASN].
  - split; [intros _; exists ""; by split; [right; right|intros ? []]|done].
  - destruct (asns !! ipString ip) as [info|] eqn:E.
    + rewrite !andb_true_iff, orb_true_iff, negb_true_iff, String.eqb_neq, !String.eqb_eq, IH. split.
      * intros [[Hne Hs] (asn & Ha & Hall)]. exists (ASN info). split; [destruct Hs as [->|Hs]; [by left|right; by left]|].
        intros q [<-|Hq]; [by exists info|]. destruct (Hall q Hq) as (i & Hi & Hasn & Hne'). exists i. split; [done|].
        destruct Ha as [Ha|[Ha|Ha]]; [congruence|subst asn; done|subst all; destruct Hq].
      * intros (asn & Ha & Hall). destruct (Hall ip (or_introl eq_refl)) as (i & Hi & Hasn & Hne). rewrite E in Hi. injection Hi as <-. rewrite Hasn.
        split; [split; [done|destruct Ha as [->|[->|]]; [by left|by right|done]]|].
        exists asn. split; [by right; left|]. intros q Hq. apply Hall. by right.
    + split; [done|]. intros (asn & _ & Hall). destruct (Hall ip (or_introl eq_refl)) as (i & Hi & _). congruence.
Qed.

(** All addresses belong to one origin. *)
Definition oneOrigin (asns : gmap string asnInfo) (all : list bytes) : Prop :=
  exists asn, asn <> "" /\ forall ip, In ip all -> exists info, asns !! ipString ip = Some info /\ ASN info = asn.

Lemma wp_truncate_any s n E : (1 <= n)%Z -> wp (truncate s n) (fun _ => True) E.
Proof. intros Hn. by apply wp_truncate. Qed.

Lemma wp_asnString a E : wp (asnString a) (fun _ => True) E.
Proof.
  unfold asnString. wp_step; [by apply wp_ret|]. wp_step. apply (wp_mono _ (fun _ => True) _ (fun _ => False)); [|intros; by apply wp_ret|done].
  wp_step; [by apply wp_ret|apply wp_truncate_any; lia].
Qed.

Lemma wp_ipLabels asns all E : wp (ipLabels asns all) (fun l => length l = length all) E.
Proof.
  induction all as [|ip all IH]; cbn [ipLabels]; [done|]. wp_step. apply (wp_mono _ (fun _ => True) _ (fun _ => False)); [|intros label _|done].
  - destruct (asns !! ipString ip) as [info|]; [|by apply wp_ret]. wp_step; [by apply wp_ret|]. wp_step.
    apply (wp_mono _ (fun _ => True) _ (fun _ => False)); [apply wp_asnString|intros; by apply wp_ret|done].
  - wp_step. eapply wp_mono; [exact IH| |done]. intros l Hl. apply wp_ret. cbn [length]. by rewrite Hl.
Qed.

Lemma wp_previewList items n E : (0 <= n)%Z -> wp (previewList items n) (fun _ => True) E.
Proof.
  intros Hn. unfold previewList. wp_step; [by apply wp_ret|]. wp_step; [by apply wp_ret|]. to_prop. wp_step. apply wp_slice; [lia..|]. intros _. by apply wp_ret.
Qed.

Lemma wp_formatIPLine visit v4 v6 asns E : wp (formatIPLine visit v4 v6 asns) (fun _ => True) E.
Proof.
  unfold formatIPLine. destruct (v4 ++ v6)%list as [|ip all]; [done|]. wp_step.
  - wp_step. apply (wp_mono _ (fun _ => True) _ (fun _ => False)); [by apply wp_previewList| |done].
    intros line _. wp_step; [by apply wp_ret|]. wp_step.
    apply (wp_mono _ (fun _ => True) _ (fun _ => False)); [apply wp_asnString|intros; by apply wp_ret|done].
  - wp_step. eapply wp_mono; [apply wp_ipLabels| |done]. intros labels _. by apply wp_previewList.
Qed.

Lemma rpkiCount_bounds p r : 0 <= rpkiCount p r <= blen (Statuses r).
Proof. unfold rpkiCount, blen. pose proof (filter_length_le (fun s => p (rStatus s)) (Statuses r)). lia. Qed.

Lemma wp_rpkiHeadline r E : blen (Statuses r) < 10 ^ 12 -> wp (rpkiHeadline r) (fun _ => True) E.
Proof.
  intros Hn. pose proof (fun p => rpkiCount_bounds p r) as Hc. pose proof (blen_nonneg (Statuses r)).
  unfold rpkiHeadline. cbv zeta. repeat rewrite itoa_small by (first [lia | match goal with |- _ <= rpkiCount ?p _ < _ => specialize (Hc p); lia end]).
  by repeat (wp_step; cbn beta).
Qed.

Lemma wp_extrasOf vs t ipv4 ev E : blen (Statuses (evRPKI ev)) < 10 ^ 12 -> wp (extrasOf vs t ipv4 ev) (fun _ => True) E.
Proof.
  intros Hn. unfold extrasOf. cbv zeta.
  assert (Hshort : forall (b : bool) s n (k : string -> outcome (list string)), 1 <= n ->
      (forall x, wp (k x) (fun _ => True) E) -> wp (x <~ (if b then Ret "" else truncate s n) ;; k x) (fun _ => True) E).
  { intros b s n k Hs Hk. wp_step. apply (wp_mono _ (fun _ => True) _ (fun _ => False)); [|intros; apply Hk|done].
    destruct b; [by apply wp_ret|by apply wp_truncate_any]. }
  apply Hshort; [lia|]. intros cname. wp_step. apply (wp_mono _ (fun _ => True) _ (fun _ => False)); [|intros shortPtr _|done].
  { destruct (ptrOf ipv4 ev); [by apply wp_ret|apply wp_truncate_any; lia]. }
  apply Hshort; [lia|]. intros chaos. wp_step. apply (wp_mono _ (fun _ => True) _ (fun _ => False)); [by apply wp_rpkiHeadline|intros rpki _|done].
  apply Hshort; [lia|]. intros nsid. by apply wp_ret.
Qed.

(** ** The detail under a key *)

(** The place of a key among the parts *)
Lemma dns_lookup t took ipv4 ipv6 ev i k part x : dnsKeys !! i = Some [k] -> dnsParts t took ipv4 ipv6 ev !! i = Some part ->
  (list_to_map (concat (dnsParts t took ipv4 ipv6 ev)) : gmap string value) !! k = Some x <-> In (k, x) part.
Proof. intros HK HP. eapply parts_lookup; [apply dnsParts_keyed|exact dnsKeys_NoDup|exact HK|by left|exact HP]. Qed.

Lemma lookup_when (m : gmap string value) k (b : bool) v : (forall x, m !! k = Some x <-> In (k, x) (when b (k, v))) -> m !! k = if b then Some v else None.
Proof.
  intros H. apply option_eq. intros x. rewrite H. destruct b; cbn; [|by split].
  split; [by intros [[= ->]|[]]|intros [= ->]; by left].
Qed.

Lemma dns_addresses t took ipv4 ipv6 ev : let m := list_to_map (concat (dnsParts t took ipv4 ipv6 ev)) : gmap string value in
  m !! "ipv4" = Some (VStrings (Some (map ipString ipv4))) /\ m !! "ipv6" = Some (VStrings (Some (map ipString ipv6))).
Proof. split; [apply (dns_lookup t took ipv4 ipv6 ev 1 "ipv4" _ _ eq_refl eq_refl)|apply (dns_lookup t took ipv4 ipv6 ev 2 "ipv6" _ _ eq_refl eq_refl)]; by left. Qed.

Lemma dns_walk t took ipv4 ipv6 ev : (list_to_map (concat (dnsParts t took ipv4 ipv6 ev)) : gmap string value) !! "nsec_walk"
  = if ZoneUsesNSEC (walkOf ev) then Some (walkValue (walkOf ev)) else None.
Proof. apply lookup_when. intros x. exact (dns_lookup t took ipv4 ipv6 ev 14 "nsec_walk" _ x eq_refl eq_refl). Qed.

Lemma dns_dnssec t took ipv4 ipv6 ev : (list_to_map (concat (dnsParts t took ipv4 ipv6 ev)) : gmap string value) !! "dnssec"
  = if Signed (evDNSSEC ev) || sValidated (evDNSSEC ev) then Some (dnssecValue (evDNSSEC ev)) else None.
Proof. apply lookup_when. intros x. exact (dns_lookup t took ipv4 ipv6 ev 24 "dnssec" _ x eq_refl eq_refl). Qed.

(** ** The check *)

Lemma families_split addrs : let '(v4, v6) := families addrs in
  Permutation (v4 ++ v6) addrs /\ Forall (fun ip => isIPv4 ip = true) v4 /\ Forall (fun ip => isIPv4 ip = false) v6.
Proof.
  cbn. induction addrs as [|ip addrs (Hp & H4 & H6)]; [by split_and!|]. cbn [List.filter]. destruct (isIPv4 ip) eqn:E; cbn [negb app].
  - split_and!; [by constructor|by constructor|done].
  - split_and!; [by apply Permutation_sym, Permutation_cons_app, Permutation_sym|done|by constructor].
Qed.

(** C38. For every answer of the resolvers and of the probes the check returns.  It fails
    exactly when the host does not resolve or resolves to nothing, and then leaves no
    addresses for the checks behind it; else it leaves all of them, each in its family,
    and writes them under [ipv4] and [ipv6].  It is OK exactly within 300 ms and warns
    else, whatever the probes found.  A walk shows only for a signed zone that links its
    names, and the status of DNSSEC only for a zone that is signed or validated. *)
Theorem checkDNS_reports visit visitVersions quote t resolve took ev (Hr : blen (Statuses (evRPKI ev)) < 10 ^ 12) :
  exists c left, checkDNS visit visitVersions quote t resolve took ev = Ret (c, left)
    /\ (Status c = StatusFail <-> left = None)
    /\ (left = None <-> forall addrs, resolve = inl addrs -> addrs = [])
    /\ forall v4 v6, left = Some (v4, v6) -> exists addrs m, resolve = inl addrs
         /\ Permutation (v4 ++ v6) addrs /\ Forall (fun ip => isIPv4 ip = true) v4 /\ Forall (fun ip => isIPv4 ip = false) v6
         /\ (Status c = StatusOK <-> took <= 300 * 10 ^ 6) /\ (Status c = StatusWarn <-> 300 * 10 ^ 6 < took)
         /\ Report.Detail c = Some m
         /\ m !! "ipv4" = Some (VStrings (Some (map ipString v4))) /\ m !! "ipv6" = Some (VStrings (Some (map ipString v6)))
         /\ m !! "nsec_walk" = (if Signed (evDNSSEC ev) && ZoneUsesNSEC (evWalk ev) then Some (walkValue (evWalk ev)) else None)
         /\ m !! "dnssec" = (if Signed (evDNSSEC ev) || sValidated (evDNSSEC ev) then Some (dnssecValue (evDNSSEC ev)) else None).
Proof.
  unfold checkDNS. destruct resolve as [[|ip addrs]|e].
  - eexists _, None. split; [reflexivity|]. split; [by split|]. split; [|done]. split; [by intros _ ? [= <-]|done].
  - pose proof (families_split (ip :: addrs)) as Hf. set (all := ip :: addrs) in *. destruct (families all) as [v4 v6] eqn:Ef. destruct Hf as (Hperm & H4 & H6).
    pose proof (wp_formatIPLine visit v4 v6 (evASNs ev) (fun _ => False)) as Hl. destruct (formatIPLine visit v4 v6 (evASNs ev)) as [line| | |]; try done.
    pose proof (wp_extrasOf visitVersions t v4 ev (fun _ => False) Hr) as Hx. destruct (extrasOf visitVersions t v4 ev) as [extras| | |]; try done.
    cbn [bind]. eexists _, _. split; [reflexivity|]. cbn [Status dnsCheck Report.Detail].
    destruct (dns_addresses t took v4 v6 ev) as [D4 D6]. cbv zeta in *.
    destruct (Z.ltb_spec (300 * 10 ^ 6) took) as [Hs|Hs]; (split; [by split|]); (split; [split; [done|intros H; by specialize (H _ eq_refl)]|]);
      intros ? ? [= <- <-]; (eexists _, _; split_and!; try done; try exact D4; try exact D6; try (split; [discriminate|lia]); try apply dns_dnssec;
        rewrite dns_walk; unfold walkOf; by destruct (Signed (evDNSSEC ev))).
  - eexists _, None. split; [reflexivity|]. split; [by split|]. split; [|done]. by split.
Qed.

(** With one origin for all addresses, the origin is named once behind them. *)
Lemma formatIPLine_shared visit v4 v6 asns line : (v4 ++ v6)%list <> [] -> oneOrigin asns (v4 ++ v6) ->
  previewList (map ipString (v4 ++ v6)) 4 = Ret line ->
  formatIPLine visit v4 v6 asns
  = match visit asns with info :: _ => text <~ asnString info ;; Ret (line +:+ bigDot +:+ text) | [] => Ret line end.
Proof.
  intros Hne (asn & Hasn & Hall) Hline. unfold formatIPLine. rewrite Hline. destruct (v4 ++ v6)%list as [|ip all]; [done|].
  rewrite bool_decide_eq_false_2, (proj2 (sharedASN_spec asns "" (ip :: all))).
  - done.
  - exists asn. split; [by left|]. intros q Hq. destruct (Hall q Hq) as (i & Hi & Ha). exists i. by rewrite Ha.
  - intros ->. destruct (Hall ip (or_introl eq_refl)) as (i & Hi & _). by rewrite lookup_empty in Hi.
Qed.

(** ** IPv6 *)

(** [checkIPv6] of ipv6.go; [connected] are the addresses that TCP reached, and
    [localWorks] what the probe of the local network says. *)
Definition checkIPv6 (ipv6 connected : list bytes) (localWorks : bool) : outcome Check :=
  let detail := Some (list_to_map [("aaaa_count", VInt (blen ipv6)); ("connected", VBool (0 <? blen connected)%Z)]) in
  let check status summary hint := {| Report.Name := "IPv6"; Report.Status := status; Summary := summary; Hint := hint; Millis := Float 0 0; Detail := detail |} in
  match ipv6 with
  | [] => Ret (check StatusSkip "no IPv6 — host has no AAAA record" "")
  | _ =>
      match connected with
      | _ :: _ =>
          hint <~ previewList (map ipString connected) 3 ;;
          Ret (check StatusOK ("reachable over IPv6 (" +:+ fmtD (blen ipv6) +:+ " AAAA record" +:+ plural (blen ipv6) +:+ ")") hint)
      | [] =>
          if localWorks then Ret (check StatusFail "AAAA record exists but the host refuses IPv6 connections — black-holing IPv6 users" "")
          else Ret (check StatusSkip "IPv6 not tested — this machine has no IPv6 connectivity" "")
      end
  end.

(** The check fails exactly when the host promises IPv6, refuses it, and the local
    network is not to blame. *)
Theorem checkIPv6_status ipv6 connected localWorks : exists c, checkIPv6 ipv6 connected localWorks = Ret c
  /\ (Status c = StatusFail <-> ipv6 <> [] /\ connected = [] /\ localWorks = true)
  /\ (Status c = StatusOK <-> ipv6 <> [] /\ connected <> [])
  /\ (Status c = StatusSkip <-> ipv6 = [] \/ connected = [] /\ localWorks = false).
Proof.
  unfold checkIPv6. destruct ipv6 as [|ip ipv6]; [eexists; split; [reflexivity|]; cbn; split_and!; split; intuition (try congruence; try discriminate)|].
  destruct connected as [|k connected].
  - destruct localWorks; (eexists; split; [reflexivity|]; cbn; split_and!; split; intuition (try congruence; try discriminate)).
  - pose proof (wp_previewList (map ipString (k :: connected)) 3 (fun _ => False) ltac:(lia)) as Hp. destruct (previewList _ 3) as [h| | |]; try done.
    cbn [bind]. eexists. split; [reflexivity|]. cbn. split_and!; split; intuition (try congruence; try discriminate).
Qed.

Module DnsWitnesses.
Definition info (asn country : string) : asnInfo := {| ASN := asn; Asn.Prefix := "192.0.2.0/24"; Country := country; Registry := ""; Date := ""; Org := "" |}.
Definition walk : nsecWalkResult := {| Dnssec.Attempted := true; ZoneUsesNSEC := true; NamesFound := ["a.example.org."]; Hops := 1; wTruncated := false |}.
Definition evidence (signed : bool) : dnsEvidence := {|
  lookupMX := inl [("mx.example.org.", 10%Z)]; lookupNS := inl ["ns.example.org."]; lookupTXT := inr "timeout"; lookupCNAME := inl "www.example.org.";
  lookupAddr := fun _ => inl []; querySRV := inr "timeout"; queryCAA := inl [None; Some ("issue", "ca.example")]; queryHTTPS := inl []; querySVCB := inl [];
  evDNSSEC := {| Signed := signed; sValidated := false; ChainValidated := false; statusAlgorithm := ""; statusChain := None |};
  evASNs := {[ "192.0.2.1" := info "64500" "DE"; "192.0.2.2" := info "64500" "FR" ]}; evNSID := "";
  evChaos := fun _ => []; evAXFR := fun _ => []; evGlue := fun _ => []; evLame := fun _ => [];
  evCookies := {| cAttempted := false; Nameservers.Supported := false; ClientCookie := ""; ServerCookie := ""; ErrorBadCookie := false |};
  evWalk := walk; evRPKI := {| Asn.Attempted := true; Statuses := [{| rIP := "192.0.2.1"; rStatus := "VALID" |}] |};
  evPropagation := {| Verdict := ""; ConsistentBuckets := 0; ResolversAnswered := 0; ResolversTotal := 0; pResults := [] |};
  evNsec3 := noProof; evECS := fun _ => []; evDNSKEYs := [] |}.
Definition target : dnsTarget := {| nHost := "example.org"; nTransport := None; nECS := []; nTree := false; nColor := false |}.
Definition addrs : list bytes := [[x20; x01; x0d; xb8; x00; x00; x00; x00; x00; x00; x00; x00; x00; x00; x00; x01]; [xc0; x00; x02; x01]; [xc0; x00; x02; x02]].

Lemma checkDNS_reports_witness : exists c v4 v6, checkDNS (fun m => map snd (map_to_list m)) id id target (inl addrs) (20 * 10 ^ 6) (evidence true) = Ret (c, Some (v4, v6))
  /\ Status c = StatusOK /\ Permutation (v4 ++ v6) addrs.
Proof.
  destruct (checkDNS_reports (fun m => map snd (map_to_list m)) id id target (inl addrs) (20 * 10 ^ 6) (evidence true) ltac:(vm_compute; reflexivity))
    as (c & left & Hc & _ & Hleft & Hall).
  destruct left as [[v4 v6]|].
  - destruct (Hall v4 v6 eq_refl) as (addrs' & m & Heq & Hp & _ & _ & Hok & _). injection Heq as <-.
    exists c, v4, v6. split; [exact Hc|]. split; [apply Hok; lia|exact Hp].
  - exfalso. pose proof (proj1 Hleft eq_refl addrs eq_refl) as Hn. discriminate Hn.
Defined.

(** Two addresses of one AS in two countries: the order in which the map is visited
    shows in the line. *)
Example order_shows :
  formatIPLine (fun _ => [info "64500" "DE"]) [[xc0; x00; x02; x01]; [xc0; x00; x02; x02]] [] (evASNs (evidence true))
    = Ret ("192.0.2.1" +:+ bigDot +:+ "192.0.2.2" +:+ bigDot +:+ "AS64500 " +:+ middleDot +:+ " DE")
  /\ formatIPLine (fun _ => [info "64500" "FR"]) [[xc0; x00; x02; x01]; [xc0; x00; x02; x02]] [] (evASNs (evidence true))
    = Ret ("192.0.2.1" +:+ bigDot +:+ "192.0.2.2" +:+ bigDot +:+ "AS64500 " +:+ middleDot +:+ " FR").
Proof. split; vm_compute; reflexivity. Qed.

(** The numbers of the algorithms are written as the base64 of their bytes. *)
Example rollover_base64 : rolloverValue {| Analyzed := true; Algorithms := [8%Z; 13%Z]; AlgorithmsNamed := []; Families := []; InProgress := true |}
  = VStruct "rolloverResult" [("analyzed", VBool true); ("algorithms", VString "CA0="); ("in_progress", VBool true)].
Proof. vm_compute. reflexivity. Qed.
End DnsWitnesses.
