(* ===== verification/Csp.v ===== *)
(** The Content-Security-Policy parser and strictness score: [csp_parser.go].

    A policy's [Directives] is a Go map from strings to source lists, a [gmap]
    here; a lookup of an absent key gives the [nil] list. *)

From Stdlib Require Import ZArith List String Ascii Lia Bool.
From stdpp Require Import base list strings numbers gmap.
From S2P Require Import Prelude GoStrings Text Decimal.
Open Scope Z_scope.

(** ** Parsing *)

Record cspPolicy := { Raw : string; Directives : gmap string (list string) }.

(** One segment between semicolons. *)
Definition cspSegment (m : gmap string (list string)) (segment : string) : gmap string (list string) :=
  let segment := TrimSpace segment in
  if String.eqb segment "" then m else
  match Fields segment with
  | [] => m
  | name :: srcs =>
      let name := ToLower name in
      <[name := default [] (m !! name) ++ srcs]> m
  end.

Definition parseCSP (raw : string) : cspPolicy :=
  {| Raw := raw; Directives := fold_left cspSegment (Split raw ";") ∅ |}.

Definition inherits : list string :=
  ["script-src"; "style-src"; "img-src"; "font-src"; "media-src"; "connect-src"; "object-src";
   "frame-src"; "child-src"; "worker-src"; "manifest-src"; "prefetch-src"]%string.

Definition directive (p : cspPolicy) (name : string) : option (list string) :=
  match Directives p !! name with
  | Some v => Some v
  | None => if existsb (String.eqb name) inherits then Directives p !! "default-src"%string else None
  end.

(** ** Source lists *)

Definition hasNonce (sources : list string) : bool :=
  existsb (fun s => let l := ToLower s in HasPrefix l "'nonce-" && HasSuffix l "'") sources.

Definition hasHash (sources : list string) : bool :=
  existsb (fun s => let l := ToLower s in
    (HasPrefix l "'sha256-" || HasPrefix l "'sha384-" || HasPrefix l "'sha512-") && HasSuffix l "'") sources.

Definition hasKeyword (sources : list string) (kw : string) : bool :=
  let kw := ToLower kw in existsb (fun s => String.eqb (ToLower s) kw) sources.

Definition hasWildcard (sources : list string) : bool :=
  existsb (fun s => let l := ToLower (TrimSpace s) in
    existsb (String.eqb l) ["*"; "data:"; "blob:"; "http:"; "https:"; "filesystem:"; "ws:"; "wss:"]%string)
    sources.

(** ** Scoring *)

Record cspFinding := { Directive : string; Severity : string; Issue : string; Suggestion : string }.

Record cspAnalysis := {
  Strictness : string;
  Score : Z;
  Findings : list cspFinding;
  UsesNonces : bool;
  UsesHashes : bool;
  StrictDyn : bool;
  ReportingOn : bool
}.

Definition finding (d s i g : string) : cspFinding :=
  {| Directive := d; Severity := s; Issue := i; Suggestion := g |}.

(** [if cond { a.Findings = append(a.Findings, f); a.Score -= n }] *)
Definition penalise (cond : bool) (f : cspFinding) (n : Z) (a : list cspFinding * Z) : list cspFinding * Z :=
  if cond then (fst a ++ [f], snd a - n) else a.

Definition missing (m : gmap string (list string)) (name : string) : bool :=
  match m !! name with Some _ => false | None => true end.

(** The findings and the score before the bonuses. *)
Definition cspPenalties (p : cspPolicy) (nonces hashes strictDyn reporting : bool) : list cspFinding * Z :=
  let scriptSrc := default [] (directive p "script-src") in
  let hasScriptSrc := match directive p "script-src" with Some _ => true | None => false end in
  let objectSrc := default [] (directive p "object-src") in
  let a := ([], 100) in
  let a := penalise (hasKeyword scriptSrc "'unsafe-inline'" && negb nonces && negb hashes && negb strictDyn)
    (finding "script-src" "critical" "'unsafe-inline' without nonce/hash escape hatch"
       "use nonces or hashes; for legacy back-compat add 'strict-dynamic'") 20 a in
  let a := penalise (hasKeyword scriptSrc "'unsafe-eval'")
    (finding "script-src" "critical" "'unsafe-eval' allows JS string evaluation (XSS amplifier)"
       "remove 'unsafe-eval'; refactor any eval()/new Function() callers") 20 a in
  let a := penalise (hasWildcard scriptSrc)
    (finding "script-src" "critical" "wildcard or schema source in script-src"
       "replace * / data: / blob: / http: with specific hosts or 'strict-dynamic'") 20 a in
  let a := penalise (negb (hasKeyword objectSrc "'none'"))
    (finding "object-src" "critical" "object-src not 'none' — legacy plugin XSS surface"
       "set object-src 'none'") 20 a in
  let a := penalise (missing (Directives p) "default-src")
    (finding "default-src" "high" "default-src absent — no fallback for non-script directives"
       "set default-src 'self' (or 'none' if locking everything down)") 15 a in
  let a := penalise (negb hasScriptSrc)
    (finding "script-src" "high" "script-src absent — no scripting policy in effect"
       "set script-src 'self' (and nonces/hashes for inline)") 15 a in
  let a := penalise (missing (Directives p) "base-uri")
    (finding "base-uri" "high" "base-uri unset — <base> injection bypass surface"
       "set base-uri 'self' or 'none'") 15 a in
  let a := penalise (missing (Directives p) "form-action")
    (finding "form-action" "high" "form-action unset — credential exfil to attacker-controlled forms"
       "set form-action 'self'") 15 a in
  let a := penalise (missing (Directives p) "frame-ancestors")
    (finding "frame-ancestors" "medium" "frame-ancestors unset — clickjacking via iframe embedding"
       "set frame-ancestors 'none' or 'self' (modern replacement for X-Frame-Options)") 10 a in
  let a := penalise (hasKeyword scriptSrc "'unsafe-hashes'")
    (finding "script-src" "medium" "'unsafe-hashes' permits inline event-handler scripts"
       "refactor to addEventListener; remove 'unsafe-hashes'") 10 a in
  let a := penalise (negb reporting)
    (finding "report-to/report-uri" "medium" "no CSP violation reporting endpoint"
       "add report-to (CSP3) or report-uri (legacy) for violation telemetry") 10 a in
  let a := penalise (negb strictDyn && nonces)
    (finding "script-src" "medium" "nonces in use without 'strict-dynamic' — host allowlist still needed"
       "add 'strict-dynamic' to drop host allowlist enforcement") 10 a in
  penalise (missing (Directives p) "upgrade-insecure-requests")
    (finding "" "low" "upgrade-insecure-requests not set — mixed HTTP subresources won't auto-upgrade"
       "add upgrade-insecure-requests for HTTPS-only sites") 5 a.

(** [severityRank[s]]: an unknown severity has rank 0. *)
Definition severityRank (s : string) : Z :=
  if String.eqb s "high" then 1 else if String.eqb s "medium" then 2
  else if String.eqb s "low" then 3 else if String.eqb s "info" then 4 else 0.

(** [sort.SliceStable] by rank: an element goes before the first of greater rank. *)
Fixpoint insertRank (f : cspFinding) (l : list cspFinding) : list cspFinding :=
  match l with
  | [] => [f]
  | g :: l' => if severityRank (Severity f) <? severityRank (Severity g) then f :: l
               else g :: insertRank f l'
  end.
Definition sortFindings (l : list cspFinding) : list cspFinding :=
  fold_left (fun acc f => insertRank f acc) l [].

Definition strictnessOf (score : Z) : string :=
  if 90 <=? score then "strict" else if 60 <=? score then "moderate" else "loose".

(** [evaluateCSP(p)]; [None] is the nil policy. *)
Definition evaluateCSP (p : option cspPolicy) : cspAnalysis :=
  let absent := {| Strictness := "missing"; Score := 0; Findings := []; UsesNonces := false;
                   UsesHashes := false; StrictDyn := false; ReportingOn := false |} in
  match p with
  | None => absent
  | Some p =>
      if decide (Directives p = ∅) then absent else
      let scriptSrc := default [] (directive p "script-src") in
      let nonces := hasNonce scriptSrc in
      let hashes := hasHash scriptSrc in
      let strictDyn := hasKeyword scriptSrc "'strict-dynamic'" in
      let reporting := negb (missing (Directives p) "report-uri") || negb (missing (Directives p) "report-to") in
      let '(findings, score) := cspPenalties p nonces hashes strictDyn reporting in
      let score := if nonces then score + 5 else score in
      let score := if hashes then score + 5 else score in
      let score := if strictDyn then score + 10 else score in
      let score := if 100 <? score then 100 else score in
      let score := if score <? 0 then 0 else score in
      {| Strictness := strictnessOf score; Score := score; Findings := sortFindings findings;
         UsesNonces := nonces; UsesHashes := hashes; StrictDyn := strictDyn; ReportingOn := reporting |}
  end.

(** ** The headline *)

Definition countSeverity (s : string) (l : list cspFinding) : Z :=
  Z.of_nat (length (List.filter (fun f => String.eqb (Severity f) s) l)).

Definition cspAnalysisHeadline (a : cspAnalysis) : string :=
  if String.eqb (Strictness a) "missing" then "CSP: missing"%string else
  let parts := flat_map (fun s =>
    let n := countSeverity s (Findings a) in
    if 0 <? n then [(fmtD n +:+ " " +:+ s)%string] else []) ["critical"; "high"; "medium"; "low"]%string in
  let bonus :=
    if UsesNonces a || UsesHashes a || StrictDyn a then
      let extras := (if UsesNonces a then ["nonces"]%string else [])
                    ++ (if UsesHashes a then ["hashes"]%string else [])
                    ++ (if StrictDyn a then ["strict-dynamic"]%string else []) in
      (" [" +:+ Join extras "+" +:+ "]")%string
    else ""%string in
  let head := ("CSP: " +:+ Strictness a +:+ " (" +:+ fmtD (Score a) +:+ "/100)")%string in
  match parts with
  | [] => (head +:+ bonus)%string
  | _ => (head +:+ " — " +:+ Join parts ", " +:+ bonus)%string
  end.

(** ** The score is the findings *)

Definition penaltyOf (f : cspFinding) : Z :=
  if String.eqb (Severity f) "critical" then 20 else if String.eqb (Severity f) "high" then 15
  else if String.eqb (Severity f) "medium" then 10 else if String.eqb (Severity f) "low" then 5 else 0.
Definition totalPenalty (l : list cspFinding) : Z := foldr (fun f acc => penaltyOf f + acc) 0 l.
Definition bonusOf (a : cspAnalysis) : Z :=
  (if UsesNonces a then 5 else 0) + (if UsesHashes a then 5 else 0) + (if StrictDyn a then 10 else 0).

Definition rankOf (f : cspFinding) : Z := severityRank (Severity f).
Fixpoint ranked (k : Z) (l : list cspFinding) : Prop :=
  match l with [] => True | f :: l => k <= rankOf f /\ ranked (rankOf f) l end.

Lemma totalPenalty_app l1 l2 : totalPenalty (l1 ++ l2) = totalPenalty l1 + totalPenalty l2.
Proof.
  induction l1 as [|f l1 IH]; [done|].
  change (penaltyOf f + totalPenalty (l1 ++ l2) = penaltyOf f + totalPenalty l1 + totalPenalty l2). lia.
Qed.

Lemma ranked_snoc k l f :
  ranked k l -> Forall (fun g => rankOf g <= rankOf f) l -> k <= rankOf f -> ranked k (l ++ [f]).
Proof.
  revert k. induction l as [|g l IH]; intros k Hr Hl Hk; cbn in *; [done|].
  inversion_clear Hl. destruct Hr as [? ?]. split; [done|]. by apply IH.
Qed.

(** The findings so far are ranked up to [k], and the score accounts for them. *)
Record accounted (k : Z) (a : list cspFinding * Z) : Prop := {
  acc_score : snd a = 100 - totalPenalty (fst a);
  acc_ranked : ranked 0 (fst a);
  acc_last : Forall (fun g => rankOf g <= k) (fst a);
  acc_severity : Forall (fun g => In (Severity g) ["critical"; "high"; "medium"; "low"]%string) (fst a)
}.

Lemma accounted_mono k k' a : accounted k a -> k <= k' -> accounted k' a.
Proof.
  intros [Hs Hr Hl Hv] Hk. split; try done. eapply Forall_impl; [exact Hl|]. cbv beta. intros. lia.
Qed.

Lemma penalise_accounted k cond f n a :
  rankOf f = k -> penaltyOf f = n -> 0 <= k ->
  In (Severity f) ["critical"; "high"; "medium"; "low"]%string ->
  accounted k a -> accounted k (penalise cond f n a).
Proof.
  intros <- Hn H0 Hin [Hs Hr Hl Hv]. unfold penalise. destruct cond; [|by split]. split; cbn [fst snd].
  - rewrite totalPenalty_app. cbn. lia.
  - by apply ranked_snoc.
  - apply Forall_app. split; [done|]. constructor; [lia|constructor].
  - apply Forall_app. split; [done|]. by constructor.
Qed.

(** One line of the rubric: the rank of its finding is at most the bound. *)
Ltac rubric_line :=
  lazymatch goal with
  | |- accounted _ (penalise _ ?f _ _) =>
      let r := eval vm_compute in (rankOf f) in
      apply (accounted_mono r); [apply penalise_accounted;
        [reflexivity|reflexivity|lia|cbn; tauto|]|lia]
  end.

Lemma cspPenalties_accounted p n h s r : accounted 3 (cspPenalties p n h s r).
Proof.
  unfold cspPenalties. cbv zeta. do 13 rubric_line. split; cbn; constructor || done.
Qed.

Lemma insertRank_last f l :
  Forall (fun g => rankOf g <= rankOf f) l -> insertRank f l = l ++ [f].
Proof.
  induction 1 as [|g l Hg _ IH]; cbn; [done|]. fold (rankOf f) (rankOf g).
  rewrite (proj2 (Z.ltb_ge _ _)) by lia. by rewrite IH.
Qed.

Lemma ranked_le k l : ranked k l -> Forall (fun f => k <= rankOf f) l.
Proof.
  revert k. induction l as [|f l IH]; intros k Hr; [constructor|]. destruct Hr as [Hk Hr].
  constructor; [done|]. eapply Forall_impl; [apply (IH _ Hr)|]. cbv beta. intros. lia.
Qed.

(** The stable sort leaves a ranked list as it is. *)
Lemma sortFindings_ranked k l : ranked k l -> sortFindings l = l.
Proof.
  intros Hr. unfold sortFindings.
  assert (Hg : forall pre k l, ranked k l -> Forall (fun g => rankOf g <= k) pre ->
    fold_left (fun acc f => insertRank f acc) l pre = pre ++ l); [|by apply (Hg [] k)].
  clear. intros pre k l. revert pre k. induction l as [|f l IH]; intros pre k Hr Hp; cbn [fold_left].
  { by rewrite app_nil_r. }
  destruct Hr as [Hk Hr].
  assert (Hp' : Forall (fun g => rankOf g <= rankOf f) pre) by (eapply Forall_impl; [exact Hp|]; cbv beta; intros; lia).
  rewrite insertRank_last by done.
  rewrite (IH _ (rankOf f)), <- app_assoc; [done..|].
  apply Forall_app. split; [done|]. constructor; [lia|constructor].
Qed.

Definition clamp100 (z : Z) : Z := Z.max 0 (Z.min 100 z).

Lemma evaluateCSP_some p :
  Directives p <> ∅ ->
  let a := evaluateCSP (Some p) in
  Findings a = fst (cspPenalties p (UsesNonces a) (UsesHashes a) (StrictDyn a) (ReportingOn a)) /\
  Score a = clamp100 (100 - totalPenalty (Findings a) + bonusOf a) /\
  Strictness a = strictnessOf (Score a).
Proof.
  intros Hne a. unfold a, evaluateCSP. rewrite decide_False by done.
  set (nonces := hasNonce _). set (hashes := hasHash _). set (dyn := hasKeyword _ "'strict-dynamic'").
  set (rep := _ || _).
  pose proof (cspPenalties_accounted p nonces hashes dyn rep) as [Hs Hr _ _].
  destruct (cspPenalties p nonces hashes dyn rep) as [fs score] eqn:E. cbn [fst snd] in *.
  cbn [Findings Score Strictness UsesNonces UsesHashes StrictDyn ReportingOn].
  rewrite E, (sortFindings_ranked 0) by done. split; [done|]. split; [|done].
  unfold clamp100, bonusOf. cbn [UsesNonces UsesHashes StrictDyn]. rewrite Hs.
  destruct nonces, hashes, dyn;
    (match goal with |- context [100 <? ?y] => destruct (100 <? y) eqn:?; to_prop end);
    (match goal with |- context [?y <? 0] => destruct (y <? 0) eqn:?; to_prop end); lia.
Qed.

Lemma Score_range p : 0 <= Score (evaluateCSP p) <= 100.
Proof.
  destruct p as [p|]; [|done]. destruct (decide (Directives p = ∅)) as [He|He].
  - unfold evaluateCSP. by rewrite decide_True.
  - destruct (evaluateCSP_some p He) as (_ & -> & _). unfold clamp100. lia.
Qed.

(** ** Reading a rendered policy *)

(** One directive with white space around it. *)
Record segment := { before : string; dirName : string; dirSources : list string; after : string }.
Definition tokensOf (d : segment) : list string := dirName d :: dirSources d.
Definition renderSegment (d : segment) : string :=
  (before d +:+ Join (tokensOf d) " " +:+ after d)%string.
Definition segmentOk (d : segment) : Prop :=
  spaces (before d) /\ spaces (after d) /\ Forall tokenOk (tokensOf d) /\
  lacks ";" (renderSegment d) = true.

Lemma cspSegment_render m d :
  segmentOk d ->
  cspSegment m (renderSegment d)
  = <[ToLower (dirName d) := default [] (m !! ToLower (dirName d)) ++ dirSources d]> m.
Proof.
  intros (Ha & Hb & Ht & _). unfold cspSegment, renderSegment.
  rewrite TrimSpace_segment by done.
  destruct (String.eqb_spec (Join (tokensOf d) " ") "") as [E|_]; [|by rewrite Fields_Join].
  pose proof (Fields_Join (tokensOf d) Ht) as Hf. by rewrite E in Hf.
Qed.

(** The sources of a name over all its directives, in order. *)
Definition sourcesOf (l : list segment) (k : string) : option (list string) :=
  match List.filter (fun d => String.eqb (ToLower (dirName d)) k) l with
  | [] => None
  | ds => Some (concat (map dirSources ds))
  end.

Lemma sourcesOf_snoc l d k :
  sourcesOf (l ++ [d]) k =
  if String.eqb (ToLower (dirName d)) k then Some (default [] (sourcesOf l k) ++ dirSources d)
  else sourcesOf l k.
Proof.
  unfold sourcesOf. rewrite List.filter_app. cbn [List.filter].
  destruct (String.eqb (ToLower (dirName d)) k); [|by rewrite app_nil_r].
  destruct (List.filter _ l) as [|e es]; cbn; [by rewrite app_nil_r|].
  rewrite map_app, concat_app. cbn. by rewrite app_nil_r, <- app_assoc.
Qed.

Lemma fold_segments l k :
  Forall segmentOk l ->
  fold_left cspSegment (map renderSegment l) (∅ : gmap string (list string)) !! k = sourcesOf l k.
Proof.
  intros Hl. induction l as [|d l IH] using rev_ind; [apply lookup_empty|].
  apply Forall_app in Hl as [Hl Hd]. inversion_clear Hd as [|? ? Hd' _].
  rewrite map_app, fold_left_app. cbn [map fold_left]. rewrite cspSegment_render, sourcesOf_snoc by done.
  destruct (String.eqb_spec (ToLower (dirName d)) k) as [<-|Hne].
  - rewrite lookup_insert_eq, IH by done. done.
  - rewrite lookup_insert_ne by done. by apply IH.
Qed.

(** ** Claims about policies *)

(** C11. The parser: for any directives, written with any white space around them and
    joined by semicolons, the map it builds has under each lower-cased name the
    sources of all directives of that name, in order, and nothing else; directive
    names differ in case only once. *)
Theorem parseCSP_spec l k :
  Forall segmentOk l -> l <> [] ->
  Directives (parseCSP (Join (map renderSegment l) ";")) !! k = sourcesOf l k.
Proof.
  intros Hl Hne. unfold parseCSP. cbn [Directives].
  rewrite Split_Join; [by apply fold_segments|by destruct l|].
  clear Hne. induction Hl as [|d l (_ & _ & _ & Hd) _ IH]; [done|]. cbn. by rewrite Hd.
Qed.

Lemma parseCSP_spec_witness :
  Directives (parseCSP "Script-Src 'self' ; object-src 'none'; SCRIPT-SRC https:") !! "script-src"%string
  = Some ["'self'"; "https:"]%string.
Proof.
  apply (parseCSP_spec
    [{| before := ""; dirName := "Script-Src"; dirSources := ["'self'"]; after := " " |};
     {| before := " "; dirName := "object-src"; dirSources := ["'none'"]; after := "" |};
     {| before := " "; dirName := "SCRIPT-SRC"; dirSources := ["https:"]; after := "" |}]%string
    "script-src"); [|done].
  repeat constructor; try done; cbn; intros; discriminate.
Defined.

(** The score is explained by the findings: for every policy with a directive it
    is 100, less 20, 15, 10 or 5 for each critical, high, medium or low finding,
    plus the bonuses, kept within 0 and 100; the label follows from it; and the
    findings are in order of severity (the final stable sort moves nothing). *)
Theorem evaluateCSP_score p :
  Directives p <> ∅ ->
  let a := evaluateCSP (Some p) in
  Score a = clamp100 (100 - totalPenalty (Findings a) + bonusOf a) /\
  Strictness a = strictnessOf (Score a) /\
  ranked 0 (Findings a) /\
  Forall (fun g => In (Severity g) ["critical"; "high"; "medium"; "low"]%string) (Findings a).
Proof.
  intros Hne a. destruct (evaluateCSP_some p Hne) as (Hf & Hs & Hl). fold a in Hf, Hs, Hl.
  split; [done|]. split; [done|]. rewrite Hf.
  pose proof (cspPenalties_accounted p (UsesNonces a) (UsesHashes a) (StrictDyn a) (ReportingOn a)) as [_ Hr _ Hv].
  done.
Qed.

Definition samplePolicy : cspPolicy :=
  parseCSP "default-src 'self'; object-src 'none'; base-uri 'self'; form-action 'self'; frame-ancestors 'none'; report-to r; upgrade-insecure-requests; script-src 'nonce-abc' 'sha256-def' 'strict-dynamic' 'unsafe-eval'".

Lemma evaluateCSP_score_witness :
  Directives samplePolicy <> ∅ /\ Score (evaluateCSP (Some samplePolicy)) = 100.
Proof.
  assert (Hne : Directives samplePolicy <> ∅) by (intros E; apply (f_equal (lookup "base-uri"%string)) in E; by vm_compute in E).
  split; [exact Hne|]. rewrite (proj1 (evaluateCSP_score samplePolicy Hne)). vm_compute. reflexivity.
Defined.

Lemma countSeverity_penalty l :
  20 * countSeverity "critical" l + 15 * countSeverity "high" l <= totalPenalty l.
Proof.
  induction l as [|f l IH]; [done|].
  change (totalPenalty (f :: l)) with (penaltyOf f + totalPenalty l).
  unfold countSeverity in *. cbn [List.filter]. unfold penaltyOf.
  destruct (String.eqb_spec (Severity f) "critical") as [Hc|Hc].
  - rewrite Hc. cbn [String.eqb Ascii.eqb Bool.eqb]. cbn [length]. lia.
  - destruct (String.eqb (Severity f) "high"); cbn [length]; [lia|].
    destruct (String.eqb (Severity f) "medium"), (String.eqb (Severity f) "low"); lia.
Qed.

(** What the label "strict" guarantees: at most one critical finding, and none
    when the policy uses no nonce, hash or 'strict-dynamic'; one is possible,
    because the bonuses pay for it: a policy with 'unsafe-eval' scores 100. *)
Theorem strict_guarantee p :
  (Strictness (evaluateCSP p) = "strict"%string ->
   let a := evaluateCSP p in
   countSeverity "critical" (Findings a) <= 1 /\
   (countSeverity "critical" (Findings a) = 1 -> 10 <= bonusOf a)) /\
  (Strictness (evaluateCSP (Some samplePolicy)) = "strict"%string /\
   Score (evaluateCSP (Some samplePolicy)) = 100 /\
   exists f, In f (Findings (evaluateCSP (Some samplePolicy))) /\
     Severity f = "critical"%string /\ Directive f = "script-src"%string).
Proof.
  split.
  - intros Hstr a. fold a in Hstr. destruct p as [p|]; [|done].
    destruct (decide (Directives p = ∅)) as [He|He].
    { unfold a, evaluateCSP in Hstr. by rewrite decide_True in Hstr. }
    destruct (evaluateCSP_some p He) as (_ & Hs & Hl). fold a in Hs, Hl.
    rewrite Hstr in Hl. assert (H90 : 90 <= Score a).
    { unfold strictnessOf in Hl. destruct (90 <=? Score a) eqn:E; [by to_prop|].
      by destruct (60 <=? Score a). }
    pose proof (countSeverity_penalty (Findings a)) as Hp.
    assert (Hb : 0 <= bonusOf a <= 20)
      by (unfold bonusOf; destruct (UsesNonces a), (UsesHashes a), (StrictDyn a); lia).
    assert (Hh : 0 <= countSeverity "high" (Findings a)) by (unfold countSeverity; lia).
    unfold clamp100 in Hs. lia.
  - split; [vm_compute; reflexivity|]. split; [vm_compute; reflexivity|].
    eexists. split; [vm_compute; left; reflexivity|]. split; reflexivity.
Qed.

Lemma strict_guarantee_witness : countSeverity "critical" (Findings (evaluateCSP (Some samplePolicy))) <= 1.
Proof.
  apply (proj1 (strict_guarantee (Some samplePolicy))). vm_compute. reflexivity.
Defined.

(** The documented rubric takes 5 points when block-all-mixed-content is absent;
    the code does not look at it: adding the directive to a policy changes
    neither score nor findings. *)
Theorem mixedContent_ignored p srcs :
  Directives p <> ∅ -> Directives p !! "block-all-mixed-content"%string = None ->
  evaluateCSP (Some {| Raw := Raw p; Directives := <["block-all-mixed-content"%string := srcs]> (Directives p) |})
  = evaluateCSP (Some p).
Proof.
  intros Hne _. set (p' := {| Raw := Raw p; Directives := _ |}).
  assert (Hlk : forall k, k <> "block-all-mixed-content"%string -> Directives p' !! k = Directives p !! k)
    by (intros k Hk; cbn; by rewrite lookup_insert_ne).
  assert (Hdir : forall k, k <> "block-all-mixed-content"%string -> directive p' k = directive p k)
    by (intros k Hk; unfold directive; rewrite !Hlk by done; done).
  unfold evaluateCSP. rewrite !decide_False; [|done|apply insert_non_empty].
  unfold cspPenalties, missing. by rewrite !Hdir, !Hlk by done.
Qed.

Lemma mixedContent_ignored_witness :
  Score (evaluateCSP (Some {| Raw := Raw samplePolicy;
    Directives := <["block-all-mixed-content"%string := []]> (Directives samplePolicy) |})) = 100.
Proof.
  rewrite (mixedContent_ignored samplePolicy []).
  - vm_compute. reflexivity.
  - intros E. apply (f_equal (lookup "base-uri"%string)) in E. by vm_compute in E.
  - vm_compute. reflexivity.
Defined.
