(* ===== verification/Cookies.v ===== *)
(** The audit of Set-Cookie headers ([cookies.go]). *)

From Stdlib Require Import ZArith List String Ascii Strings.Byte Lia Bool.
From stdpp Require Import base list strings.
From S2P Require Import Prelude Bytes GoStrings Text Result Dns MailRecords.
Open Scope Z_scope.

Record cookieAudit := {
  cookieName : string; Secure : bool; HttpOnly : bool; SameSite : string; cookiePrefix : string;
  cookieIssues : list string; cookiePass : bool
}.

Definition noCookie : cookieAudit :=
  {| cookieName := ""; Secure := false; HttpOnly := false; SameSite := ""; cookiePrefix := ""; cookieIssues := []; cookiePass := false |}.

(** Key in lower case and value of one attribute; an attribute without "=" has none. *)
Definition attrOf (attr : string) : string * string :=
  let attr := TrimSpace attr in
  match Cut attr "=" with
  | (k, v, true) => (ToLower (TrimSpace k), TrimSpace v)
  | _ => (ToLower attr, ""%string)
  end.

Record attrState := { secure : bool; httpOnly : bool; sameSite : string; hasDomain : bool; pathRoot : bool }.
Definition noAttrs : attrState := {| secure := false; httpOnly := false; sameSite := ""; hasDomain := false; pathRoot := false |}.

(** The switch over an attribute; an empty one is skipped. *)
Definition setAttr (c : attrState) (attr : string) : attrState :=
  if String.eqb (TrimSpace attr) "" then c
  else
    let '(key, val) := attrOf attr in
    {| secure := secure c || String.eqb key "secure"; httpOnly := httpOnly c || String.eqb key "httponly";
       sameSite := if String.eqb key "samesite" then val else sameSite c;
       hasDomain := hasDomain c || String.eqb key "domain"; pathRoot := pathRoot c || String.eqb key "path" && String.eqb val "/" |}.

Definition prefixOf (name : string) : string :=
  if HasPrefix name "__Host-" then "__Host-" else if HasPrefix name "__Secure-" then "__Secure-" else "".

Definition cookieIssuesOf (prefix : string) (c : attrState) : list string :=
  (when (negb (secure c)) "no Secure" ++ when (negb (httpOnly c)) "no HttpOnly"
   ++ (let site := ToLower (sameSite c) in
       if String.eqb site "" then ["no SameSite"]
       else when (String.eqb site "none" && negb (secure c)) "SameSite=None without Secure (browsers will reject)")
   ++ (if String.eqb prefix "__Host-" then
         when (negb (secure c)) "__Host- prefix requires Secure" ++ when (hasDomain c) "__Host- prefix forbids Domain attribute"
         ++ when (negb (pathRoot c)) "__Host- prefix requires Path=/"
       else [])
   ++ when (String.eqb prefix "__Secure-" && negb (secure c)) "__Secure- prefix requires Secure")%list%string.

Definition parseSetCookie (raw : string) : cookieAudit :=
  match Split raw ";" with
  | [] => noCookie
  | part :: attrs =>
      let '(name, _, _) := Cut (TrimSpace part) "=" in
      if String.eqb name "" then noCookie
      else
        let c := foldl setAttr noAttrs attrs in
        let issues := cookieIssuesOf (prefixOf name) c in
        {| cookieName := name; Secure := secure c; HttpOnly := httpOnly c; SameSite := sameSite c; cookiePrefix := prefixOf name;
           cookieIssues := issues; cookiePass := (blen issues =? 0) |}
  end.

Definition auditCookies (headers : list string) : list cookieAudit :=
  List.filter (fun c => negb (String.eqb (cookieName c) "")) (map parseSetCookie headers).

Definition cookieSummary (audits : list cookieAudit) : string :=
  if blen audits =? 0 then ""
  else
    let pass := blen (List.filter cookiePass audits) in
    if pass =? blen audits then ("cookies: " +:+ fmtD pass +:+ "/" +:+ fmtD (blen audits) +:+ " secure")%string
    else ("cookies: " +:+ fmtD pass +:+ "/" +:+ fmtD (blen audits) +:+ " secure " +:+ middleDot +:+ " "
          +:+ fmtD (blen audits - pass) +:+ " need work")%string.

(** ** What is read of the attributes *)

Definition attrs (raw : string) : list (string * string) :=
  match Split raw ";" with [] => [] | _ :: l => map attrOf (List.filter (fun a => negb (String.eqb (TrimSpace a) "")) l) end.

Definition hasKey (k : string) (l : list (string * string)) : bool := existsb (fun kv => String.eqb kv.1 k) l.

Definition attrsState (l : list (string * string)) : attrState :=
  {| secure := hasKey "secure" l; httpOnly := hasKey "httponly" l; sameSite := lastValue "samesite" l; hasDomain := hasKey "domain" l;
     pathRoot := existsb (fun kv => String.eqb kv.1 "path" && String.eqb kv.2 "/") l |}.

Lemma hasKey_snoc k l kv : hasKey k (l ++ [kv]) = hasKey k l || String.eqb kv.1 k.
Proof. unfold hasKey. rewrite existsb_app. cbn. by rewrite orb_false_r. Qed.

Lemma setAttr_fold l : foldl setAttr noAttrs l = attrsState (map attrOf (List.filter (fun a => negb (String.eqb (TrimSpace a) "")) l)).
Proof.
  induction l as [|a l IH] using rev_ind; [done|]. rewrite foldl_snoc, IH, List.filter_app, map_app. unfold setAttr. cbn [List.filter].
  destruct (String.eqb (TrimSpace a) ""); cbn [negb map]; [by rewrite app_nil_r|].
  destruct (attrOf a) as [k v]. unfold attrsState. rewrite !hasKey_snoc, lastValue_snoc, existsb_app. cbn. by rewrite orb_false_r.
Qed.

Lemma lower_empty s : String.eqb (ToLower s) "" = String.eqb s "".
Proof. by destruct s. Qed.

(** The cookie rules of RFC 6265bis: for every Set-Cookie header with a name, attributes
    in any order, case and white space (of a repeated SameSite the last), the cookie passes
    exactly when it is Secure, HttpOnly and has a SameSite value, and, with the __Host-
    prefix, has no Domain and the path "/"; otherwise something is named as an issue. *)
Theorem parseSetCookie_rules raw :
  let c := parseSetCookie raw in
  let l := attrs raw in
  cookieName c <> ""%string ->
  Secure c = hasKey "secure" l /\ HttpOnly c = hasKey "httponly" l /\ SameSite c = lastValue "samesite" l /\
  (cookiePass c = true <-> cookieIssues c = []) /\
  (cookiePass c = true <->
     hasKey "secure" l = true /\ hasKey "httponly" l = true /\ lastValue "samesite" l <> ""%string /\
     (HasPrefix (cookieName c) "__Host-" = true ->
        hasKey "domain" l = false /\ existsb (fun kv => String.eqb kv.1 "path" && String.eqb kv.2 "/") l = true)).
Proof.
  cbv zeta. unfold parseSetCookie, attrs. destruct (Split raw ";") as [|part l]; [done|].
  destruct (Cut (TrimSpace part) "=") as [[name v] f]. destruct (String.eqb_spec name "") as [|Hn]; [done|]. intros _.
  rewrite setAttr_fold. cbn [Secure HttpOnly SameSite cookiePass cookieIssues cookieName]. set (a := map attrOf _).
  split; [done|]. split; [done|]. split; [done|]. split.
  { unfold blen. rewrite Z.eqb_eq. destruct (cookieIssuesOf _ _); [done|]. split; [cbn; lia|done]. }
  unfold cookieIssuesOf, attrsState. cbn [secure httpOnly sameSite hasDomain pathRoot]. rewrite lower_empty. unfold prefixOf, when.
  destruct (String.eqb_spec (lastValue "samesite" a) "") as [E|E];
    destruct (hasKey "secure" a), (hasKey "httponly" a); cbn [negb app andb]; rewrite ?andb_false_r;
    try (split; [done|]; intros (? & ? & ? & _); done).
  destruct (HasPrefix name "__Host-"); cbn [app].
  - change (String.eqb "__Host-" "__Host-") with true. change (String.eqb "__Host-" "__Secure-") with false. cbn iota.
    destruct (hasKey "domain" a), (existsb _ a); cbn; (split; [try done|]); try (intros (_ & _ & _ & Hp); specialize (Hp eq_refl) as [? ?]; done).
  - destruct (HasPrefix name "__Secure-"); cbn; (split; [done|done]).
Qed.

Lemma parseSetCookie_rules_witness : cookiePass (parseSetCookie "__Host-id=1; Secure; HttpOnly; SameSite=Lax; Path=/") = true.
Proof.
  destruct (parseSetCookie_rules "__Host-id=1; Secure; HttpOnly; SameSite=Lax; Path=/") as (_ & _ & _ & _ & Hp); [done|].
  apply Hp. by repeat split.
Defined.
