(* ===== verification/Headers.v ===== *)
(** The security headers of a response: the graded headers and [checkSecurityHeaders] of
    [security_headers.go], and the OWASP profile of [security_owasp.go]. *)

From Stdlib Require Import ZArith List String Ascii Strings.Byte Lia Bool.
From stdpp Require Import base list strings gmap.
From S2P Require Import Prelude Bytes GoStrings Text Decimal Result Float Json Profile Report Dns MailRecords Cookies Mail.
From S2P Require Csp.
Open Scope Z_scope.

(** ** [http.Header] *)

(** [textproto.CanonicalMIMEHeaderKey] of a name of letters, digits and hyphens *)
Fixpoint canonicalFrom (upper : bool) (s : string) : string :=
  match s with
  | EmptyString => ""
  | String c s => String (if upper then upperByte c else lowerByte c) (canonicalFrom (Ascii.eqb c "-") s)
  end.
Definition canonicalKey : string -> string := canonicalFrom true.

#[local] Abbreviation header := (gmap string (list string)).

Definition Values (h : header) (name : string) : list string := default [] (h !! canonicalKey name).
Definition Get (h : header) (name : string) : string := match Values h name with v :: _ => v | [] => ""%string end.

(** ** The graders

    Each gives whether the header passes, the value to show, and a reason. *)



Definition parseDirectives (s : string) : gmap string string :=
  foldl (fun out part =>
    let part := TrimSpace part in
    if String.eqb part "" then out
    else
      match Cut part "=" with
      | (k, v, true) => <[ToLower (TrimSpace k) := TrimSpace v]> out
      | _ => <[ToLower part := part]> out
      end) ∅ (Split s ";").





















(** ** The OWASP profile *)

Record owaspRule := { ruleHeader : string; Required : bool; ValueCheck : string -> bool * string }.

Definition pass : bool * string := (true, ""%string).

Definition owaspHSTS (v : string) : bool * string :=
  if String.eqb v "" then (false, "header not present"%string)
  else
    let lv := ToLower v in
    if negb (Contains lv "max-age=") then (false, "missing max-age"%string)
    else if negb (Contains lv "includesubdomains") then (false, "missing includeSubDomains (OWASP-recommended)"%string)
    else pass.

Definition owaspCSP (v : string) : bool * string :=
  if String.eqb v "" then (false, "header not present"%string)
  else
    let lv := ToLower v in
    if Contains lv "unsafe-inline" then (false, "contains 'unsafe-inline'"%string)
    else if Contains lv "unsafe-eval" then (false, "contains 'unsafe-eval'"%string)
    else if negb (Contains lv "default-src") && negb (Contains lv "script-src") then (false, "no default-src or script-src directive"%string)
    else pass.

Definition owaspXFO (v : string) : bool * string :=
  if String.eqb v "" then (false, "header not present (CSP frame-ancestors also acceptable)"%string)
  else
    let lv := ToUpper (TrimSpace v) in
    if negb (String.eqb lv "DENY") && negb (String.eqb lv "SAMEORIGIN") then (false, "value should be DENY or SAMEORIGIN"%string) else pass.

Definition owaspXCTO (v : string) : bool * string :=
  if negb (String.eqb (ToLower (TrimSpace v)) "nosniff") then (false, "must be 'nosniff'"%string) else pass.

Definition weakReferrer : list string := ["unsafe-url"; "origin-when-cross-origin"]%string.

Definition owaspReferrer (v : string) : bool * string :=
  if String.eqb v "" then (false, "header not present"%string)
  else
    match find (Contains (ToLower v)) weakReferrer with
    | Some w => (false, ("policy '" +:+ w +:+ "' is weak")%string)
    | None => pass
    end.

Definition owaspPermissions (v : string) : bool * string :=
  if String.eqb v "" then (false, "header not present (limits powerful API isolation)"%string) else pass.

(** The rules that ask for one of some values *)
Definition owaspOneOf (values : list string) (why v : string) : bool * string :=
  if isOneOf (ToLower (TrimSpace v)) values then pass else (false, why).

Definition owaspRules : list owaspRule :=
  let rule h r f := {| ruleHeader := h; Required := r; ValueCheck := f |} in
  [rule "Strict-Transport-Security" true owaspHSTS; rule "Content-Security-Policy" true owaspCSP; rule "X-Frame-Options" false owaspXFO;
   rule "X-Content-Type-Options" true owaspXCTO; rule "Referrer-Policy" true owaspReferrer; rule "Permissions-Policy" true owaspPermissions;
   rule "Cross-Origin-Opener-Policy" true
     (owaspOneOf ["same-origin"; "same-origin-allow-popups"] "value should be 'same-origin' or 'same-origin-allow-popups'");
   rule "Cross-Origin-Embedder-Policy" false
     (owaspOneOf ["require-corp"; "credentialless"] "missing or weak (set 'require-corp' or 'credentialless')");
   rule "Cross-Origin-Resource-Policy" true
     (owaspOneOf ["same-origin"; "same-site"; "cross-origin"] "value should be same-origin / same-site / cross-origin")]%string.

Record owaspRuleResult := { resHeader : string; resRequired : bool; resPasses : bool; resReason : string }.
Record owaspComplianceResult := { owaspPasses : bool; owaspScore : Z; owaspResults : list owaspRuleResult }.

Definition evaluateRule (h : header) (rule : owaspRule) : owaspRuleResult :=
  let '(passes, reason) := ValueCheck rule (Get h (ruleHeader rule)) in
  {| resHeader := ruleHeader rule; resRequired := Required rule; resPasses := passes; resReason := reason |}.

Definition evaluateOWASPHeaders (h : header) : owaspComplianceResult :=
  let rules := map (evaluateRule h) owaspRules in
  let requiredTotal := Dkim.countOf resRequired rules in
  let requiredPass := Dkim.countOf (fun r => resRequired r && resPasses r) rules in
  let optionalTotal := Dkim.countOf (fun r => negb (resRequired r)) rules in
  let optionalPass := Dkim.countOf (fun r => negb (resRequired r) && resPasses r) rules in
  let score := if 0 <? requiredTotal then Z.quot (requiredPass * 80) requiredTotal else 0 in
  let score := if 0 <? optionalTotal then score + Z.quot (optionalPass * 20) optionalTotal else score in
  {| owaspPasses := (requiredPass =? requiredTotal); owaspScore := score; owaspResults := rules |}.



(** ** The values in the report *)







(** ** The check *)



(** ** The rubric of docs/SECURITY_HEADERS_RUBRIC.md *)

Definition has (h : header) (name : string) : bool := 0 <? blen (Values h name).

Definition hstsOk (h : header) : bool :=
  15768000 <=? (Atoi (default ""%string (parseDirectives (Join (Values h "Strict-Transport-Security") ", ") !! "max-age"%string))).1.
Definition cspOk (h : header) : bool :=
  let a := Csp.evaluateCSP (Some (Csp.parseCSP (Join (Values h "Content-Security-Policy") ", "))) in
  negb (String.eqb (Csp.Strictness a) "missing") && (60 <=? Csp.Score a).
Definition xfoOk (h : header) : bool :=
  isOneOf (ToUpper (TrimSpace (Get h "X-Frame-Options"))) ["DENY"; "SAMEORIGIN"]%string
  || Contains (ToLower (Get h "Content-Security-Policy")) "frame-ancestors".

Definition criteria (h : header) : list (Z * bool) :=
  [(20, has h "Strict-Transport-Security" && hstsOk h); (20, has h "Content-Security-Policy" && cspOk h);
   (12, has h "X-Frame-Options" && xfoOk h); (10, String.eqb (ToLower (TrimSpace (Get h "X-Content-Type-Options"))) "nosniff");
   (8, has h "Referrer-Policy"); (8, has h "Cross-Origin-Opener-Policy"); (5, has h "Permissions-Policy");
   (4, has h "Cross-Origin-Embedder-Policy"); (4, has h "Cross-Origin-Resource-Policy");
   (3, String.eqb (TrimSpace (Get h "Origin-Agent-Cluster")) "?1"); (3, has h "Document-Policy"); (3, has h "Reporting-Endpoints")].



























(** A policy with frame-ancestors does not stand in for an absent X-Frame-Options: the
    grader is only asked about a header that is there. *)
Lemma frame_ancestors_ignored h : Values h "X-Frame-Options" = [] -> (criteria h) !! 2%nat = Some (12, false).
Proof. intros Hv. unfold criteria. cbn. unfold has. by rewrite Hv. Qed.

Definition requiredOk (h : header) : list bool :=
  [fst (owaspHSTS (Get h "Strict-Transport-Security")); fst (owaspCSP (Get h "Content-Security-Policy"));
   String.eqb (ToLower (TrimSpace (Get h "X-Content-Type-Options"))) "nosniff";
   negb (String.eqb (Get h "Referrer-Policy") "") && negb (existsb (Contains (ToLower (Get h "Referrer-Policy"))) weakReferrer);
   negb (String.eqb (Get h "Permissions-Policy") "");
   isOneOf (ToLower (TrimSpace (Get h "Cross-Origin-Opener-Policy"))) ["same-origin"; "same-origin-allow-popups"]%string;
   isOneOf (ToLower (TrimSpace (Get h "Cross-Origin-Resource-Policy"))) ["same-origin"; "same-site"; "cross-origin"]%string].

Definition optionalOk (h : header) : list bool :=
  [isOneOf (ToUpper (TrimSpace (Get h "X-Frame-Options"))) ["DENY"; "SAMEORIGIN"]%string;
   isOneOf (ToLower (TrimSpace (Get h "Cross-Origin-Embedder-Policy"))) ["require-corp"; "credentialless"]%string].

Definition trues (l : list bool) : Z := Dkim.countOf id l.

Lemma owaspReferrer_ok v : fst (owaspReferrer v) = negb (String.eqb v "") && negb (existsb (Contains (ToLower v)) weakReferrer).
Proof.
  unfold owaspReferrer. destruct (String.eqb v ""); [done|]. unfold weakReferrer. cbn [find existsb].
  destruct (Contains (ToLower v) "unsafe-url"), (Contains (ToLower v) "origin-when-cross-origin"); reflexivity.
Qed.

Lemma owaspOneOf_ok l why v : fst (owaspOneOf l why v) = isOneOf (ToLower (TrimSpace v)) l.
Proof. unfold owaspOneOf. by destruct (isOneOf _ _). Qed.

Lemma owaspXFO_ok v : fst (owaspXFO v) = isOneOf (ToUpper (TrimSpace v)) ["DENY"; "SAMEORIGIN"]%string.
Proof.
  unfold owaspXFO, isOneOf. cbn [existsb]. rewrite orb_false_r. destruct (String.eqb_spec v "") as [->|_]; [done|].
  by destruct (String.eqb _ "DENY"), (String.eqb _ "SAMEORIGIN").
Qed.

Lemma owaspXCTO_ok v : fst (owaspXCTO v) = String.eqb (ToLower (TrimSpace v)) "nosniff".
Proof. unfold owaspXCTO. by destruct (String.eqb _ _). Qed.

Lemma owaspPermissions_ok v : fst (owaspPermissions v) = negb (String.eqb v "").
Proof. unfold owaspPermissions. by destruct (String.eqb v ""). Qed.

(** Required or not, and passed or not, for each rule of the table *)
Definition outcomes (h : header) : list (bool * bool) :=
  match requiredOk h, optionalOk h with
  | [a; b; c; d; e; f; g], [x; y] => [(true, a); (true, b); (false, x); (true, c); (true, d); (true, e); (true, f); (false, y); (true, g)]
  | _, _ => []
  end.

Lemma evaluateRule_outcome h r : (resRequired (evaluateRule h r), resPasses (evaluateRule h r)) = (Required r, fst (ValueCheck r (Get h (ruleHeader r)))).
Proof. unfold evaluateRule. by destruct (ValueCheck r _). Qed.

Lemma owasp_outcomes h : map (fun r => (resRequired r, resPasses r)) (map (evaluateRule h) owaspRules) = outcomes h.
Proof.
  rewrite map_map, (map_ext _ _ (evaluateRule_outcome h)). unfold owaspRules, outcomes, requiredOk, optionalOk. cbn [map Required ValueCheck ruleHeader].
  by rewrite owaspReferrer_ok, owaspXCTO_ok, owaspPermissions_ok, owaspXFO_ok, !owaspOneOf_ok.
Qed.

Lemma countOf_map {A B} (f : A -> B) (p : B -> bool) l : Dkim.countOf (fun x => p (f x)) l = Dkim.countOf p (map f l).
Proof. unfold Dkim.countOf, blen. f_equal. induction l as [|x l IH]; [done|]. cbn. destruct (p (f x)); cbn; by rewrite IH. Qed.

Definition scoreOf (l : list (bool * bool)) : bool * Z :=
  let requiredTotal := Dkim.countOf fst l in
  let requiredPass := Dkim.countOf (fun p => p.1 && p.2) l in
  let optionalTotal := Dkim.countOf (fun p => negb p.1) l in
  let optionalPass := Dkim.countOf (fun p => negb p.1 && p.2) l in
  let score := if 0 <? requiredTotal then Z.quot (requiredPass * 80) requiredTotal else 0 in
  (requiredPass =? requiredTotal, if 0 <? optionalTotal then score + Z.quot (optionalPass * 20) optionalTotal else score).

Lemma owasp_scoreOf h : (owaspPasses (evaluateOWASPHeaders h), owaspScore (evaluateOWASPHeaders h)) = scoreOf (outcomes h).
Proof. rewrite <- owasp_outcomes. unfold scoreOf. rewrite <- !(countOf_map (fun r => (resRequired r, resPasses r))). done. Qed.

(** The OWASP profile: the result passes exactly when the seven required rules hold, and
    the score is 80 points shared by them and 20 by the two optional ones, rounded down
    apart; it is between 0 and 100, and 100 exactly when all nine hold.  Every value of
    Referrer-Policy that contains "origin-when-cross-origin" is refused, the recommended
    strict-origin-when-cross-origin included. *)
Theorem evaluateOWASP_profile h :
  let r := evaluateOWASPHeaders h in
  (owaspPasses r = true <-> forallb id (requiredOk h) = true) /\
  owaspScore r = trues (requiredOk h) * 80 / 7 + trues (optionalOk h) * 10 /\
  0 <= owaspScore r <= 100 /\
  (owaspScore r = 100 <-> forallb id (requiredOk h ++ optionalOk h) = true) /\
  (Get h "Referrer-Policy" = "strict-origin-when-cross-origin"%string -> owaspPasses r = false).
Proof.
  cbv zeta.
  pose proof (owasp_scoreOf h) as Hs. apply pair_equal_spec in Hs as [Hp Hs]. rewrite Hp, Hs.
  assert (Hweak : Get h "Referrer-Policy" = "strict-origin-when-cross-origin"%string ->
    negb (String.eqb (Get h "Referrer-Policy") "") && negb (existsb (Contains (ToLower (Get h "Referrer-Policy"))) weakReferrer) = false)
    by (intros ->; by vm_compute).
  revert Hweak. clear Hp Hs. unfold outcomes, requiredOk, optionalOk.
  set (P := Get h "Referrer-Policy" = _). clearbody P.
  generalize (fst (owaspHSTS (Get h "Strict-Transport-Security"))) as a, (fst (owaspCSP (Get h "Content-Security-Policy"))) as b,
    (String.eqb (ToLower (TrimSpace (Get h "X-Content-Type-Options"))) "nosniff") as c,
    (negb (String.eqb (Get h "Referrer-Policy") "") && negb (existsb (Contains (ToLower (Get h "Referrer-Policy"))) weakReferrer)) as d,
    (negb (String.eqb (Get h "Permissions-Policy") "")) as e,
    (isOneOf (ToLower (TrimSpace (Get h "Cross-Origin-Opener-Policy"))) ["same-origin"; "same-origin-allow-popups"]%string) as f,
    (isOneOf (ToLower (TrimSpace (Get h "Cross-Origin-Resource-Policy"))) ["same-origin"; "same-site"; "cross-origin"]%string) as g,
    (isOneOf (ToUpper (TrimSpace (Get h "X-Frame-Options"))) ["DENY"; "SAMEORIGIN"]%string) as x,
    (isOneOf (ToLower (TrimSpace (Get h "Cross-Origin-Embedder-Policy"))) ["require-corp"; "credentialless"]%string) as y.
  intros a b c d e f g x y Hweak.
  destruct a, b, c, d, e, f, g, x, y; vm_compute; (split; [done|]); (split; [done|]); (split; [done|]); (split; [done|]); try done;
    intros Hq; by apply Hweak in Hq.
Qed.
