(* ===== verification/Ldap.v ===== *)
(** The LDAP rootDSE probe of [service_ldap.go]: the BER reader of
    SearchResultEntry messages, the request builder, and the conversation. *)

From Stdlib Require Import ZArith List String Ascii Strings.Byte Lia Bool.
From stdpp Require Import base list strings numbers gmap.
From S2P Require Import Prelude Bytes GoStrings Stream Service.
Open Scope Z_scope.

(** ** BER lengths *)

(** [for i := 0; i < nlen; i++ { v = (v << 8) | int(b[off+i]) }] *)
Fixpoint berLoop (b : bytes) (off : Z) (nlen : nat) (v : Z) : outcome Z :=
  match nlen with
  | O => Ret v
  | S n => x <~ index b off ;; berLoop b (off + 1) n (shiftIn v x)
  end.

Definition berLen (b : bytes) : outcome (Z * Z) :=
  if blen b =? 0 then Ret (0, 0) else
  b0 <~ index b 0 ;;
  if Z.land (bval b0) 0x80 =? 0 then Ret (bval b0, 1) else
  let nlen := Z.land (bval b0) 0x7f in
  if (nlen =? 0) || (4 <? nlen) || (blen b <? 1 + nlen) then Ret (0, 0) else
  v <~ berLoop b 1 (Z.to_nat nlen) 0 ;;
  Ret (v, 1 + nlen).

(** The two copies of the header code of [parseRootDSEAttributes]: the length
    after the tag and the rest, or [None] for its [return]. *)
Definition berHeader (body : bytes) : outcome (option (Z * bytes)) :=
  b1 <~ index body 1 ;;
  let len := bval b1 in
  if negb (Z.land len 0x80 =? 0) then
    let nlen := Z.land len 0x7f in
    if (nlen =? 0) || (blen body <=? 2 + nlen) then Ret None else
    v <~ berLoop body 2 (Z.to_nat nlen) 0 ;;
    rest <~ sliceFrom body (2 + nlen) ;;
    Ret (Some (v, rest))
  else
    rest <~ sliceFrom body 2 ;; Ret (Some (len, rest)).

(** ** The attributes of an entry *)

Abbreviation attrMap := (gmap string string).

(** From the attribute's name on: what one turn of the walk does with the
    contents of a PartialAttribute. *)
Definition parseAttribute (attrBody : bytes) (extra : attrMap) : outcome attrMap :=
  if blen attrBody <? 2 then Ret extra else
  a0 <~ index attrBody 0 ;;
  if negb (beq a0 x04) then Ret extra else
  a1 <~ index attrBody 1 ;;
  let nameLen := bval a1 in
  if blen attrBody <? 2 + nameLen then Ret extra else
  name <~ slice attrBody 2 (2 + nameLen) ;;
  rest <~ sliceFrom attrBody (2 + nameLen) ;;
  if blen rest <? 2 then Ret extra else
  r0 <~ index rest 0 ;;
  if negb (beq r0 x31) then Ret extra else
  tl <~ sliceFrom rest 1 ;;
  unpack (setLen, setHdrLen) <~ berLen tl ;;
  if (setHdrLen =? 0) || (blen rest <? 1 + setHdrLen + setLen) then Ret extra else
  setBody <~ slice rest (1 + setHdrLen) (1 + setHdrLen + setLen) ;;
  if blen setBody <? 2 then Ret extra else
  s0 <~ index setBody 0 ;;
  if negb (beq s0 x04) then Ret extra else
  s1 <~ index setBody 1 ;;
  let vlen := bval s1 in
  if blen setBody <? 2 + vlen then Ret extra else
  val <~ slice setBody 2 (2 + vlen) ;;
  Ret (<[toString name := toString val]> extra).

(** One turn of [for len(body) > 0]. *)
Definition attrTurn (st : bytes * attrMap) : outcome (step (bytes * attrMap) attrMap) :=
  let '(body, extra) := st in
  if negb (0 <? blen body) then Ret (Break (body, extra)) else
  b0 <~ index body 0 ;;
  if negb (beq b0 x30) then Ret (Return extra) else
  tl <~ sliceFrom body 1 ;;
  unpack (attrLen, attrHdrLen) <~ berLen tl ;;
  if (attrHdrLen =? 0) || (blen body <? 1 + attrHdrLen + attrLen) then Ret (Return extra) else
  attrBody <~ slice body (1 + attrHdrLen) (1 + attrHdrLen + attrLen) ;;
  body <~ sliceFrom body (1 + attrHdrLen + attrLen) ;;
  extra <~ parseAttribute attrBody extra ;;
  Ret (Next (body, extra)).

Definition walkAttributes (body : bytes) (extra : attrMap) : outcome attrMap :=
  r <~ loop attrTurn (S (length body)) (body, extra) ;;
  Ret (match r with inl (_, extra) => extra | inr extra => extra end).

(** The part of [parseRootDSEAttributes] from the attribute list on. *)
Definition parseList (body : bytes) (extra : attrMap) : outcome attrMap :=
  if blen body <? 2 then Ret extra else
  l0 <~ index body 0 ;;
  if negb (beq l0 x30) then Ret extra else
  h <~ berHeader body ;;
  match h with
  | None => Ret extra
  | Some (listLen, body) =>
      let end_ := if blen body <? listLen then blen body else listLen in
      body <~ slice body 0 end_ ;;
      walkAttributes body extra
  end.

(** [parseRootDSEAttributes(body, extra)]: the map after the call. *)
Definition parseRootDSEAttributes (body : bytes) (extra : attrMap) : outcome attrMap :=
  if blen body <? 2 then Ret extra else
  b0 <~ index body 0 ;;
  if negb (Z.land (bval b0) 0x1f =? 0x04) then Ret extra else
  h <~ berHeader body ;;
  match h with
  | None => Ret extra
  | Some (_, body) =>
      if blen body <? 2 then Ret extra else
      n0 <~ index body 0 ;;
      if negb (beq n0 x04) then Ret extra else
      n1 <~ index body 1 ;;
      let nameLen := bval n1 in
      body <~ sliceFrom body (2 + nameLen) ;;
      parseList body extra
  end.

(** ** Requests *)

Definition bindReq : bytes :=
  [x30; x0c; x02; x01; x01; x60; x07; x02; x01; x03; x04; x00; x80; x00].

Definition ldapAttributes : list string :=
  ["vendorName"; "vendorVersion"; "supportedLDAPVersion"; "supportedSASLMechanisms"; "namingContexts";
   "defaultNamingContext"; "dnsHostName"; "serverName"; "isGlobalCatalogReady"]%string.

Definition buildLDAPSearchRequest (msgID : byte) : bytes :=
  let attrSeq := flat_map (fun a => [x04; byteOf (slen a)] ++ ofString a) ldapAttributes in
  let attrSeq := [x30; byteOf (blen attrSeq)] ++ attrSeq in
  let filter := [x87; x0b] ++ ofString "objectClass" in
  let body := [x04; x00; x0a; x01; x00; x0a; x01; x00; x02; x01; x00; x02; x01; x1e; x01; x01; x00] in
  let body := body ++ filter in
  let body := body ++ attrSeq in
  let search := [x63; byteOf (blen body)] ++ body in
  let msg := [x02; x01; msgID] ++ search in
  [x30; byteOf (blen msg)] ++ msg.

(** ** The conversation *)

Section Conversation.
Context {C : Type} `{Peer C}.

(** The long-form length bytes of [readLDAPMessage]. *)
Definition readLength (totalLen : Z) (c : C) : outcome (option Z * C) :=
  if negb (Z.land totalLen 0x80 =? 0) then
    let nlen := Z.land totalLen 0x7f in
    if (nlen =? 0) || (4 <? nlen) then Ret (None, c) else
    unpack (lenBytes, c) <~ readFull nlen c ;;
    Ret (match lenBytes with
         | None => None
         | Some lenBytes => Some (fold_left shiftIn lenBytes 0)
         end, c)
  else Ret (Some totalLen, c).

(** [readLDAPMessage(c)]: the operation and its tag; [None] is [(false, nil, 0)]. *)
Definition readLDAPMessage (c : C) : outcome (option (bytes * byte) * C) :=
  unpack (hdr, c) <~ readFull 2 c ;;
  match hdr with
  | None => Ret (None, c)
  | Some hdr =>
      h0 <~ index hdr 0 ;;
      if negb (beq h0 x30) then Ret (None, c) else
      h1 <~ index hdr 1 ;;
      unpack (totalLen, c) <~ readLength (bval h1) c ;;
      match totalLen with
      | None => Ret (None, c)
      | Some totalLen =>
          if (totalLen <=? 0) || (64 * 1024 <? totalLen) then Ret (None, c) else
          unpack (body, c) <~ readFull totalLen c ;;
          match body with
          | None => Ret (None, c)
          | Some body =>
              if blen body <? 5 then Ret (None, c) else
              b0 <~ index body 0 ;;
              if negb (beq b0 x02) then Ret (None, c) else
              b1 <~ index body 1 ;;
              let off := 2 + bval b1 in
              if blen body <=? off then Ret (None, c) else
              payload <~ sliceFrom body off ;;
              msgType <~ index body off ;;
              Ret (Some (payload, msgType), c)
          end
      end
  end.

(** One turn of the loop of [probeLDAP]. *)
Definition searchTurn (st : C * attrMap) : outcome (step (C * attrMap) attrMap) :=
  let '(c, extra) := st in
  unpack (m, c) <~ readLDAPMessage c ;;
  match m with
  | None => Ret (Break (c, extra))
  | Some (payload, msgType) =>
      extra <~ (if beq msgType x64 then parseRootDSEAttributes payload extra else Ret extra) ;;
      if beq msgType x65 then Ret (Break (c, extra)) else Ret (Next (c, extra))
  end.

Definition searchLoop (c : C) : outcome attrMap :=
  r <~ loop searchTurn (S (length (pending c))) (c, ∅) ;;
  Ret (match r with inl (_, extra) => extra | inr extra => extra end).

(** The last lines of [probeLDAP]. *)
Definition ldapInfo (extra : attrMap) : serviceInfo :=
  let product := if negb (String.eqb (get extra "vendorName") "") then get extra "vendorName" else "LDAP"%string in
  let v := get extra "vendorVersion" in
  let h := get extra "dnsHostName" in
  {| Product := product;
     Version := if negb (String.eqb v "") then v else ""%string;
     Banner := if negb (String.eqb v "") then ""%string
               else if negb (String.eqb h "") then ("AD host: " +:+ h)%string else ""%string;
     Extra := Some extra |}.

(** [probeLDAP]: [conn] is what [dialProbe] gave, [None] on an error. *)
Definition probeLDAP (conn : option C) : outcome serviceInfo :=
  let info := productInfo "LDAP" in
  match conn with
  | None => Ret info
  | Some c =>
      match send bindReq c with
      | None => Ret info
      | Some c =>
          unpack (_, c) <~ readLDAPMessage c ;;
          match send (buildLDAPSearchRequest x02) c with
          | None => Ret info
          | Some c => extra <~ searchLoop c ;; Ret (ldapInfo extra)
          end
      end
  end.
End Conversation.

(** ** Reading lengths *)

Lemma bval_bits b :
  Z.land (bval b) 0x80 = (if bval b <? 128 then 0 else 128) /\ Z.land (bval b) 0x7f = bval b mod 128.
Proof. by destruct b. Qed.

Lemma berLoop_sub b off n v :
  0 <= off -> off + Z.of_nat n <= blen b ->
  berLoop b off n v = Ret (fold_left shiftIn (sub b off (Z.of_nat n)) v).
Proof.
  revert off v. induction n as [|n IH]; intros off v Ho Hb; [done|]. cbn [berLoop].
  destruct (index_some b off ltac:(lia)) as [x Hx]. rewrite Hx. cbn [bind]. rewrite IH by lia.
  apply index_ret in Hx as [_ Hx]. unfold sub. rewrite !Nat2Z.id.
  rewrite (drop_S b x (Z.to_nat off)) by done. cbn [take firstn fold_left].
  by replace (Z.to_nat (off + 1)) with (S (Z.to_nat off)) by lia.
Qed.

(** The encodings of a length: one byte, or a count and up to four bytes. *)
Inductive lengthOf : bytes -> Z -> Prop :=
| shortLength n : 0 <= n < 128 -> lengthOf [byteOf n] n
| longLength bs : 1 <= blen bs <= 4 -> lengthOf (byteOf (128 + blen bs) :: bs) (beVal bs).

Lemma lengthOf_range lb n : lengthOf lb n -> 0 <= n < 4294967296 /\ 1 <= blen lb <= 5.
Proof.
  destruct 1 as [n Hn|bs Hb]; [autorewrite with blen; lia|]. rewrite blen_cons.
  pose proof (beVal_range bs). split; [|lia]. split; [lia|].
  eapply Z.lt_le_trans; [apply H|]. change 4294967296 with (256 ^ 4). apply Z.pow_le_mono_r; lia.
Qed.

Lemma shiftIn_bytes bs : blen bs <= 6 -> fold_left shiftIn bs 0 = beVal bs.
Proof.
  intros Hb. pose proof (beVal_range bs). assert (256 ^ blen bs <= 256 ^ 6) by (apply Z.pow_le_mono_r; lia).
  rewrite shiftIn_beVal; lia.
Qed.

(** The first byte of a length. *)
Lemma length_first lb n :
  lengthOf lb n ->
  (lb = [byteOf n] /\ bval (byteOf n) = n /\ Z.land n 0x80 = 0) \/
  (exists b bs, lb = b :: bs /\ 1 <= blen bs <= 4 /\ n = beVal bs /\
     Z.land (bval b) 0x80 = 128 /\ Z.land (bval b) 0x7f = blen bs).
Proof.
  destruct 1 as [n Hn|bs Hb]; [left|right].
  - assert (E : bval (byteOf n) = n) by (rewrite bval_byteOf, Z.mod_small; lia).
    split; [done|]. split; [done|]. destruct (bval_bits (byteOf n)) as [Hl _]. rewrite E in Hl.
    by rewrite (proj2 (Z.ltb_lt _ _)) in Hl by lia.
  - exists (byteOf (128 + blen bs)), bs. split; [done|]. split; [done|]. split; [done|].
    destruct (bval_bits (byteOf (128 + blen bs))) as [-> ->].
    rewrite bval_byteOf, Z.mod_small by lia. rewrite (proj2 (Z.ltb_ge _ _)) by lia.
    split; [done|]. rewrite <- (Z.mod_unique (128 + blen bs) 128 1 (blen bs)); lia.
Qed.

Lemma berLen_enc lb n rest : lengthOf lb n -> berLen (lb ++ rest) = Ret (n, blen lb).
Proof.
  intros Hl. pose proof (blen_nonneg rest). pose proof (lengthOf_range lb n Hl). unfold berLen.
  rewrite (proj2 (Z.eqb_neq _ 0)) by (rewrite blen_app; lia).
  destruct (length_first lb n Hl) as [(-> & Hv & Hb)|(b & bs & -> & Hbs & -> & Hb & Hk)].
  - rewrite (read_index _ [] (byteOf n) rest) by done. cbn [bind]. by rewrite Hv, Hb.
  - rewrite (read_index _ [] b (bs ++ rest)) by done. cbn [bind]. rewrite Hb, Hk.
    change (128 =? 0) with false. cbn iota.
    rewrite (proj2 (Z.eqb_neq (blen bs) 0)), (proj2 (Z.ltb_ge 4 _)), (proj2 (Z.ltb_ge _ _))
      by (autorewrite with blen; lia).
    cbn [orb]. rewrite berLoop_sub; rewrite ?Z2Nat.id by lia; [|lia|autorewrite with blen; lia].
    change ((b :: bs) ++ rest) with ([b] ++ bs ++ rest).
    rewrite sub_app_r, sub_app_l by (autorewrite with blen; lia).
    cbn [bind]. rewrite shiftIn_bytes by lia. by rewrite blen_cons.
Qed.

(** Reading the header of a tagged value; the long form with nothing after it is
    refused, the short form is not. *)
Lemma berHeader_enc t lb n rest :
  lengthOf lb n ->
  berHeader (t :: lb ++ rest) =
  Ret (if (blen lb =? 1) || negb (blen rest =? 0) then Some (n, rest) else None).
Proof.
  intros Hl. pose proof (blen_nonneg rest). unfold berHeader.
  destruct (length_first lb n Hl) as [(-> & Hv & Hb)|(b & bs & -> & Hbs & -> & Hb & Hk)].
  - rewrite (read_index _ [t] (byteOf n) rest) by done. cbn [bind]. rewrite Hv, Hb. cbn [negb Z.eqb].
    by rewrite (read_from _ [t; byteOf n] rest).
  - rewrite (read_index _ [t] b (bs ++ rest)) by done. cbn [bind]. rewrite Hb, Hk.
    change (128 =? 0) with false. cbn [negb]. cbn iota.
    rewrite (proj2 (Z.eqb_neq (blen bs) 0)) by lia.
    assert (Hlen : blen (t :: (b :: bs) ++ rest) = 2 + blen bs + blen rest) by (autorewrite with blen; lia).
    assert (E1 : (blen (b :: bs) =? 1) = false) by (apply Z.eqb_neq; autorewrite with blen; lia).
    rewrite Hlen, E1. cbn [orb]. destruct (blen rest =? 0) eqn:E; to_prop.
    + by rewrite (proj2 (Z.leb_le _ _)) by lia.
    + rewrite (proj2 (Z.leb_gt _ _)) by lia. cbn [negb].
      rewrite berLoop_sub; rewrite ?Z2Nat.id by lia; [|lia|lia].
      change (t :: (b :: bs) ++ rest) with ([t; b] ++ bs ++ rest).
      rewrite sub_app_r, sub_app_l by (autorewrite with blen; lia). cbn [bind].
      rewrite shiftIn_bytes by lia.
      by rewrite (read_from _ ([t; b] ++ bs) rest) by ((by rewrite <- app_assoc) || (autorewrite with blen; lia)).
Qed.

(** ** Entries as servers encode them *)

(** A tagged value with its length bytes. *)
Definition tlv (tag : byte) (lb content : bytes) : bytes := tag :: lb ++ content.

(** An OCTET STRING with a one-byte length. *)
Definition octets (s : string) : bytes := tlv x04 [byteOf (slen s)] (ofString s).

(** A PartialAttribute: its name, its values, and the length bytes chosen for
    the set and for the whole. *)
Record attribute := { aName : string; aValues : list string; setBytes : bytes; attrBytes : bytes }.

Definition setContent (a : attribute) : bytes := flat_map octets (aValues a).
Definition attrContent (a : attribute) : bytes := octets (aName a) ++ tlv x31 (setBytes a) (setContent a).
Definition encAttribute (a : attribute) : bytes := tlv x30 (attrBytes a) (attrContent a).

(** Names and values under 128 bytes, and any encoding of the two lengths. *)
Definition attributeOk (a : attribute) : Prop :=
  slen (aName a) < 128 /\ Forall (fun v => slen v < 128) (aValues a) /\
  lengthOf (setBytes a) (blen (setContent a)) /\ lengthOf (attrBytes a) (blen (attrContent a)).

(** What the probe keeps of an attribute: its first value. *)
Definition keepFirst (m : attrMap) (a : attribute) : attrMap :=
  match aValues a with [] => m | v :: _ => <[aName a := v]> m end.

Lemma blen_octets s : blen (octets s) = 2 + slen s.
Proof. unfold octets, tlv. autorewrite with blen. lia. Qed.

Lemma bval_slen s : slen s < 128 -> bval (byteOf (slen s)) = slen s.
Proof. intros Hs. pose proof (slen_nonneg s). rewrite bval_byteOf, Z.mod_small; lia. Qed.

(** Reading one OCTET STRING off the front: tag, length, value, rest. *)
Lemma octets_reads s rest :
  slen s < 128 ->
  let b := octets s ++ rest in
  blen b = 2 + slen s + blen rest /\
  index b 0 = Ret x04 /\ index b 1 = Ret (byteOf (slen s)) /\
  slice b 2 (2 + slen s) = Ret (ofString s) /\ sliceFrom b (2 + slen s) = Ret rest.
Proof.
  intros Hs b. pose proof (slen_nonneg s).
  assert (Hb : b = [x04; byteOf (slen s)] ++ ofString s ++ rest) by (unfold b, octets, tlv; by rewrite <- ?app_assoc).
  split; [unfold b; rewrite blen_app, blen_octets; lia|].
  split; [by apply (read_index b [] x04 (byteOf (slen s) :: ofString s ++ rest))|].
  split; [by apply (read_index b [x04] (byteOf (slen s)) (ofString s ++ rest))|].
  split; [apply (read_slice b [x04; byteOf (slen s)] (ofString s) rest)|
          apply (read_from b ([x04; byteOf (slen s)] ++ ofString s) rest)];
    try (by rewrite Hb, <- ?app_assoc); autorewrite with blen; lia.
Qed.

Lemma parseAttribute_enc a m : attributeOk a -> parseAttribute (attrContent a) m = Ret (keepFirst m a).
Proof.
  intros (Hn & Hv & Hs & _). unfold parseAttribute, attrContent.
  destruct (octets_reads (aName a) (tlv x31 (setBytes a) (setContent a)) Hn) as (Hl & -> & -> & Hsl & Hfr).
  destruct (lengthOf_range _ _ Hs) as [_ Hlb].
  pose proof (slen_nonneg (aName a)). pose proof (blen_nonneg (setContent a)).
  assert (Ht : blen (tlv x31 (setBytes a) (setContent a)) = 1 + blen (setBytes a) + blen (setContent a))
    by (unfold tlv; autorewrite with blen; lia).
  rewrite Hl, (proj2 (Z.ltb_ge _ 2)) by lia. cbn [bind]. rewrite beq_refl. cbn [negb].
  rewrite bval_slen by done. rewrite (proj2 (Z.ltb_ge _ _)) by lia. rewrite Hsl, Hfr. cbn [bind].
  rewrite Ht, (proj2 (Z.ltb_ge _ 2)) by lia.
  rewrite (read_index _ [] x31 (setBytes a ++ setContent a)) by done. cbn [bind]. rewrite beq_refl. cbn [negb].
  rewrite (read_from _ [x31] (setBytes a ++ setContent a)) by done. cbn [bind].
  rewrite (berLen_enc _ _ _ Hs). cbn [bind].
  rewrite (proj2 (Z.eqb_neq _ 0)), (proj2 (Z.ltb_ge _ _)) by lia. cbn [orb].
  rewrite (read_slice _ (x31 :: setBytes a) (setContent a) [])
    by ((by rewrite app_nil_r) || (autorewrite with blen; lia)).
  cbn [bind]. unfold keepFirst, setContent. destruct (aValues a) as [|v vs]; [done|].
  inversion_clear Hv as [|? ? Hv0 _]. cbn [flat_map].
  destruct (octets_reads v (flat_map octets vs) Hv0) as (Hl2 & -> & -> & Hsl2 & _).
  pose proof (slen_nonneg v). pose proof (blen_nonneg (flat_map octets vs)).
  rewrite Hl2, (proj2 (Z.ltb_ge _ 2)) by lia. cbn [bind]. rewrite beq_refl. cbn [negb].
  rewrite bval_slen by done. rewrite (proj2 (Z.ltb_ge _ _)) by lia. rewrite Hsl2. cbn [bind].
  by rewrite !toString_ofString.
Qed.

Lemma attrTurn_enc a rest m :
  attributeOk a -> attrTurn (encAttribute a ++ rest, m) = Ret (Next (rest, keepFirst m a)).
Proof.
  intros Ha. destruct Ha as (Hn & Hv & Hs & Hl) eqn:E. pose proof (parseAttribute_enc a m Ha) as Hp.
  destruct (lengthOf_range _ _ Hl) as [_ Hlb]. pose proof (blen_nonneg rest).
  set (c := attrContent a) in *. pose proof (blen_nonneg c).
  assert (Hb : encAttribute a ++ rest = (x30 :: attrBytes a) ++ c ++ rest)
    by (unfold encAttribute, tlv; cbn; by rewrite <- app_assoc).
  rewrite Hb. unfold attrTurn.
  assert (Ht : blen ((x30 :: attrBytes a) ++ c ++ rest) = 1 + blen (attrBytes a) + blen c + blen rest)
    by (autorewrite with blen; lia).
  rewrite Ht, (proj2 (Z.ltb_lt 0 _)) by lia. cbn [negb].
  rewrite (read_index _ [] x30 (attrBytes a ++ c ++ rest)) by done. cbn [bind]. rewrite beq_refl. cbn [negb].
  rewrite (read_from _ [x30] (attrBytes a ++ c ++ rest)) by done. cbn [bind].
  rewrite (berLen_enc _ _ _ Hl). cbn [bind].
  rewrite (proj2 (Z.eqb_neq _ 0)), (proj2 (Z.ltb_ge _ _)) by lia. cbn [orb].
  rewrite (read_slice _ (x30 :: attrBytes a) c rest) by (done || (autorewrite with blen; lia)). cbn [bind].
  rewrite (read_from _ ((x30 :: attrBytes a) ++ c) rest)
    by ((by rewrite <- app_assoc) || (autorewrite with blen; lia)).
  cbn [bind]. by rewrite Hp.
Qed.

Lemma walk_enc attrs : forall fuel m,
  Forall attributeOk attrs -> (length attrs < fuel)%nat ->
  loop attrTurn fuel (flat_map encAttribute attrs, m) = Ret (inl ([], fold_left keepFirst attrs m)).
Proof.
  induction attrs as [|a attrs IH]; intros [|fuel] m Ha Hf; try (cbn in Hf; lia); [done|].
  inversion_clear Ha. cbn [flat_map loop fold_left]. rewrite attrTurn_enc by done.
  apply IH; [done|cbn in Hf; lia].
Qed.

Lemma walkAttributes_enc attrs m :
  Forall attributeOk attrs -> walkAttributes (flat_map encAttribute attrs) m = Ret (fold_left keepFirst attrs m).
Proof.
  intros Ha. unfold walkAttributes. rewrite walk_enc; [done|done|].
  assert (length attrs <= length (flat_map encAttribute attrs))%nat; [|lia].
  clear. induction attrs as [|a l IH]; cbn [flat_map length]; [lia|].
  rewrite length_app. change (length (encAttribute a)) with (S (length (attrBytes a ++ attrContent a))). lia.
Qed.

(** A SearchResultEntry: the object's name and its attributes. *)
Record entry := {
  objectName : string;
  attributes : list attribute;
  listBytes : bytes;
  entryBytes : bytes
}.

Definition entryContent (e : entry) : bytes :=
  octets (objectName e) ++ tlv x30 (listBytes e) (flat_map encAttribute (attributes e)).
Definition encEntry (e : entry) : bytes := tlv x64 (entryBytes e) (entryContent e).

Definition entryOk (e : entry) : Prop :=
  slen (objectName e) < 128 /\ Forall attributeOk (attributes e) /\
  lengthOf (listBytes e) (blen (flat_map encAttribute (attributes e))) /\
  lengthOf (entryBytes e) (blen (entryContent e)).

Definition keepEntry (m : attrMap) (e : entry) : attrMap := fold_left keepFirst (attributes e) m.

Lemma parseRootDSE_enc e m : entryOk e -> parseRootDSEAttributes (encEntry e) m = Ret (keepEntry m e).
Proof.
  intros (Hn & Ha & Hl & He). unfold parseRootDSEAttributes, encEntry, keepEntry.
  destruct (lengthOf_range _ _ Hl) as [Hn2 Hlb]. destruct (lengthOf_range _ _ He) as [_ Heb].
  set (ats := flat_map encAttribute (attributes e)) in *. pose proof (blen_nonneg ats).
  destruct (octets_reads (objectName e) (tlv x30 (listBytes e) ats) Hn) as (Hlen & H0' & H1' & _ & Hfr).
  pose proof (slen_nonneg (objectName e)).
  assert (Ht : blen (tlv x30 (listBytes e) ats) = 1 + blen (listBytes e) + blen ats)
    by (unfold tlv; autorewrite with blen; lia).
  fold (entryContent e) in Hlen, H0', H1', Hfr. fold ats in Hlen, H0', H1', Hfr.
  assert (Hec : entryContent e = octets (objectName e) ++ tlv x30 (listBytes e) ats) by done.
  rewrite <- Hec in Hlen, H0', H1', Hfr.
  rewrite (proj2 (Z.ltb_ge _ 2)) by (unfold tlv; autorewrite with blen; lia).
  rewrite (read_index _ [] x64 (entryBytes e ++ entryContent e)) by done. cbn [bind].
  change (negb (Z.land (bval x64) 0x1f =? 0x04)) with false. cbn iota.
  unfold tlv at 1. rewrite (berHeader_enc _ _ _ _ He). cbn [bind].
  rewrite (proj2 (Z.eqb_neq (blen (entryContent e)) 0)) by lia. rewrite orb_true_r.
  rewrite (proj2 (Z.ltb_ge _ 2)) by lia. rewrite H0'. cbn [bind]. rewrite beq_refl. cbn [negb].
  rewrite H1'. cbn [bind]. rewrite bval_slen by done. rewrite Hfr. cbn [bind]. unfold parseList.
  rewrite Ht, (proj2 (Z.ltb_ge _ 2)) by lia.
  rewrite (read_index _ [] x30 (listBytes e ++ ats)) by done. cbn [bind]. rewrite beq_refl. cbn [negb].
  unfold tlv. rewrite (berHeader_enc _ _ _ _ Hl). cbn [bind].
  destruct ((blen (listBytes e) =? 1) || negb (blen ats =? 0)) eqn:Eh.
  - rewrite Z.ltb_irrefl, slice_full by done. cbn [bind]. by apply walkAttributes_enc.
  - apply orb_false_elim in Eh as [_ Eh]. apply negb_false_iff, Z.eqb_eq in Eh.
    assert (Hnil : ats = []) by (apply blen_zero; lia).
    unfold ats in Hnil. destruct (attributes e) as [|a l]; [done|]. by cbn in Hnil.
Qed.

(** ** Every other input *)

Lemma wp_berLen b E :
  wp (berLen b) (fun r => 0 <= fst r /\ 0 <= snd r) E.
Proof.
  unfold berLen. wp_steps; [cbn; lia|]. to_prop. pose proof (blen_nonneg b).
  apply wp_index; [lia|]. intros b0 _. pose proof (bval_range b0). destruct (bval_bits b0) as [_ Hk].
  wp_step; [cbn; lia|]. cbv zeta. rewrite Hk.
  pose proof (Z.mod_pos_bound (bval b0) 128 ltac:(lia)).
  wp_step; [cbn; lia|]. to_prop. wp_step. set (k := bval b0 mod 128) in *.
  rewrite berLoop_sub; rewrite ?Z2Nat.id by lia; [|lia|lia].
  rewrite shiftIn_bytes by (rewrite blen_sub; lia). cbn [wp fst snd].
  pose proof (beVal_range (sub b 1 k)). lia.
Qed.

Lemma parseAttribute_total attrBody m : wp (parseAttribute attrBody m) (fun _ => True) (fun _ => False).
Proof.
  unfold parseAttribute. wp_run; try done.
  apply (wp_mono _ (fun r => 0 <= fst r /\ 0 <= snd r) _ (fun _ => False)); [apply wp_berLen| |done].
  intros [setLen setHdrLen] [? ?]. cbn [fst snd] in *. wp_run; done.
Qed.

Lemma walkAttributes_total body m : exists m', walkAttributes body m = Ret m'.
Proof.
  assert (H : wp (walkAttributes body m) (fun _ => True) (fun _ => False)).
  { unfold walkAttributes. wp_step.
    apply (wp_loop _ (fun _ => True) (fun st => length (fst st)));
      [|done|cbn; lia].
    intros [b extra] _. unfold attrTurn. wp_run; try done.
    apply (wp_mono _ (fun r => 0 <= fst r /\ 0 <= snd r) _ (fun _ => False)); [apply wp_berLen| |done].
    intros [attrLen hdr] [? ?]. cbn [fst snd] in *. wp_run; try done.
    eapply wp_mono; [apply parseAttribute_total| |done]. intros m' _. cbn [stepPost wp fst].
    split; [done|]. unfold blen in *. lia. }
  destruct (walkAttributes body m) as [m'| | |]; try done. by exists m'.
Qed.

Lemma berHeader_total body : 2 <= blen body -> exists r, berHeader body = Ret r.
Proof.
  intros Hb. destruct (index_some body 1 ltac:(lia)) as [b1 Hb1]. unfold berHeader. rewrite Hb1. cbn [bind].
  destruct (bval_bits b1) as [_ Hk]. rewrite Hk.
  pose proof (bval_range b1). pose proof (Z.mod_pos_bound (bval b1) 128 ltac:(lia)).
  set (k := bval b1 mod 128) in *.
  destruct (negb (Z.land (bval b1) 0x80 =? 0)).
  - destruct ((k =? 0) || (blen body <=? 2 + k)) eqn:E; [by eexists|]. to_prop.
    rewrite berLoop_sub; rewrite ?Z2Nat.id by lia; [|lia|lia]. cbn [bind].
    unfold sliceFrom. rewrite slice_ok by lia. by eexists.
  - unfold sliceFrom. rewrite slice_ok by lia. by eexists.
Qed.

(** The entries on which [parseRootDSEAttributes] slices out of range: an object
    name longer than what is left, or a list length whose eight or more bytes
    make the [int] negative. *)
Inductive crashes (body : bytes) : Prop :=
| nameOverrun v n t :
    Z.land (bval (hd x00 body)) 0x1f = 0x04 -> 2 <= blen body ->
    berHeader body = Ret (Some (v, x04 :: n :: t)) -> blen t < bval n -> crashes body
| negativeList v n name t l rest :
    Z.land (bval (hd x00 body)) 0x1f = 0x04 -> 2 <= blen body ->
    berHeader body = Ret (Some (v, x04 :: n :: name ++ x30 :: t)) -> blen name = bval n ->
    1 <= blen t -> berHeader (x30 :: t) = Ret (Some (l, rest)) -> l < 0 -> crashes body.

Lemma index_cons0 {A} (x : A) l : index (x :: l) 0 = Ret x.
Proof. by apply (read_index _ [] x l). Qed.

Lemma beq_spec a b : Bool.reflect (a = b) (beq a b).
Proof. apply iff_reflect. by rewrite beq_true. Qed.

Lemma parseList_cases t m :
  (exists m', parseList t m = Ret m') \/
  (parseList t m = Panic /\ exists t' l rest, t = x30 :: t' /\ 1 <= blen t' /\
     berHeader t = Ret (Some (l, rest)) /\ l < 0).
Proof.
  unfold parseList. destruct (blen t <? 2) eqn:E; [left; by eexists|]. to_prop.
  destruct t as [|l0 t]; [by rewrite blen_nil in E|]. rewrite index_cons0. cbn [bind].
  destruct (beq_spec l0 x30) as [->|]; [|left; by eexists]. cbn [negb].
  destruct (berHeader_total (x30 :: t) E) as [[[l b]|] Hr]; rewrite Hr; cbn [bind]; [|left; by eexists].
  pose proof (blen_nonneg b). destruct (l <? 0) eqn:El; to_prop.
  - right. split.
    + rewrite (proj2 (Z.ltb_ge _ _)) by lia. by rewrite slice_panic by lia.
    + exists t, l, b. rewrite blen_cons in E. split; [done|]. split; [lia|done].
  - left. destruct (blen b <? l) eqn:?; to_prop; rewrite slice_ok by lia; apply walkAttributes_total.
Qed.

Lemma parseList_crash t l rest m :
  1 <= blen t -> berHeader (x30 :: t) = Ret (Some (l, rest)) -> l < 0 -> parseList (x30 :: t) m = Panic.
Proof.
  intros Ht Hr Hl. unfold parseList. rewrite (proj2 (Z.ltb_ge _ _)) by (rewrite blen_cons; lia).
  rewrite index_cons0. cbn [bind]. rewrite Hr. change (negb (beq x30 x30)) with false. cbn [bind].
  pose proof (blen_nonneg rest). rewrite (proj2 (Z.ltb_ge _ _)) by lia. by rewrite slice_panic by lia.
Qed.

(** Up to the list: the entry with an object name. *)
Lemma parse_named body m v n t :
  Z.land (bval (hd x00 body)) 0x1f = 0x04 -> 2 <= blen body ->
  berHeader body = Ret (Some (v, x04 :: n :: t)) ->
  parseRootDSEAttributes body m
  = if blen t <? bval n then Panic else parseList (drop (Z.to_nat (bval n)) t) m.
Proof.
  intros Ht Hb Hr. unfold parseRootDSEAttributes. rewrite (proj2 (Z.ltb_ge _ _)) by lia.
  destruct body as [|b0 body]; [by rewrite blen_nil in Hb|]. rewrite index_cons0. cbn [bind hd] in *.
  rewrite Ht. cbn [negb]. change (4 =? 4) with true. cbn [negb]. rewrite Hr. cbn [bind].
  pose proof (blen_nonneg t). pose proof (bval_range n).
  rewrite (proj2 (Z.ltb_ge _ 2)) by (rewrite !blen_cons; lia). rewrite index_cons0. cbn [bind].
  rewrite beq_refl. cbn [negb]. rewrite (read_index (x04 :: n :: t) [x04] n t) by done. cbn [bind].
  destruct (blen t <? bval n) eqn:En; to_prop.
  - unfold sliceFrom. by rewrite slice_panic by (rewrite !blen_cons; lia).
  - rewrite (read_from _ (x04 :: n :: take (Z.to_nat (bval n)) t) (drop (Z.to_nat (bval n)) t)).
    + reflexivity.
    + cbn. by rewrite take_drop.
    + rewrite !blen_cons, blen_take by lia. lia.
Qed.

Lemma parse_cases body m :
  parseRootDSEAttributes body m = Ret m \/
  (Z.land (bval (hd x00 body)) 0x1f = 0x04 /\ 2 <= blen body /\ exists v n t,
     berHeader body = Ret (Some (v, x04 :: n :: t))).
Proof.
  unfold parseRootDSEAttributes. destruct (blen body <? 2) eqn:E; [by left|]. to_prop.
  destruct body as [|b0 body]; [by rewrite blen_nil in E|]. rewrite index_cons0. cbn [bind hd].
  destruct (Z.land (bval b0) 0x1f =? 0x04) eqn:Et; [|by left]. to_prop. cbn [negb].
  destruct (berHeader_total (b0 :: body) E) as [[[v b]|] Hr]; rewrite Hr; cbn [bind]; [|by left].
  destruct (blen b <? 2) eqn:Eb; [by left|]. to_prop.
  destruct b as [|n0 [|n t]]; [by rewrite blen_nil in Eb|by rewrite blen_cons, blen_nil in Eb|].
  rewrite index_cons0. cbn [bind]. destruct (beq_spec n0 x04) as [->|]; [|by left].
  right. split; [done|]. split; [done|]. by exists v, n, t.
Qed.

Lemma crashes_panics body m : crashes body -> parseRootDSEAttributes body m = Panic.
Proof.
  intros [v n t Ht Hb Hr Hn|v n name t l rest Ht Hb Hr Hn Ht1 Hr2 Hl].
  - rewrite (parse_named body m v n t) by done. by rewrite (proj2 (Z.ltb_lt _ _)).
  - rewrite (parse_named body m v n (name ++ x30 :: t)) by done. rewrite blen_app.
    pose proof (blen_nonneg (x30 :: t)). rewrite (proj2 (Z.ltb_ge _ _)) by lia.
    rewrite <- Hn. unfold blen. rewrite Nat2Z.id, drop_app_length.
    by apply (parseList_crash t l rest).
Qed.

(** C6. The reader of SearchResultEntry messages panics exactly on the entries
    [crashes] describes - an object name whose length byte runs past the entry,
    or a list length of eight or more bytes that is negative as an [int] - and
    on every other byte string it returns a map: no loop diverges and no other
    index is out of range. *)
Theorem parseRootDSE_panics body m :
  (parseRootDSEAttributes body m = Panic <-> crashes body) /\
  (parseRootDSEAttributes body m = Panic \/ exists m', parseRootDSEAttributes body m = Ret m').
Proof.
  destruct (parse_cases body m) as [Hret|(Ht & Hb & v & n & t & Hr)].
  - rewrite Hret. split; [split; [done|]|right; by eexists].
    intros Hc. by rewrite (crashes_panics body m Hc) in Hret.
  - pose proof (parse_named body m v n t Ht Hb Hr) as Hp.
    destruct (blen t <? bval n) eqn:En; to_prop.
    { split; [split; [intros _; by eapply nameOverrun|done]|by left]. }
    destruct (parseList_cases (drop (Z.to_nat (bval n)) t) m)
      as [[m' Hm]|(Hc & t' & l & rest & Hd & Ht' & Hh & Hl)].
    + split; [|right; exists m'; congruence]. split; [congruence|].
      intros Hc. pose proof (crashes_panics body m Hc). congruence.
    + split; [|left; congruence]. split; [intros _|intros; congruence].
      rewrite <- (take_drop (Z.to_nat (bval n)) t), Hd in Hr. rewrite Hd in Hh.
      eapply (negativeList _ v n (take (Z.to_nat (bval n)) t) t' l rest); try done.
      pose proof (bval_range n). apply blen_take. lia.
Qed.

(** ** Messages and the conversation *)

(** An LDAPMessage: the bytes of its id, its length bytes, its operation. *)
Record message := { msgId : bytes; msgBytes : bytes; operation : bytes }.

Definition messageContent (m : message) : bytes := tlv x02 [byteOf (blen (msgId m))] (msgId m) ++ operation m.
Definition encMessage (m : message) : bytes := tlv x30 (msgBytes m) (messageContent m).

Definition messageOk (m : message) : Prop :=
  blen (msgId m) < 128 /\ operation m <> [] /\ 5 <= blen (messageContent m) <= 65536 /\
  lengthOf (msgBytes m) (blen (messageContent m)).

Section Messages.
Context {C : Type} `{Reader C}.

Lemma readLength_enc b lb n c rest :
  lengthOf (b :: lb) n -> pending c = lb ++ rest ->
  exists c', readLength (bval b) c = Ret (Some n, c') /\ pending c' = rest.
Proof.
  intros Hl Hp. unfold readLength.
  destruct (length_first _ _ Hl) as [(E & Hv & Hb)|(b' & bs & E & Hbs & -> & Hb & Hk)]; injection E as -> ->.
  - rewrite Hv, Hb. exists c. by rewrite Hp.
  - rewrite Hb, Hk. change (128 =? 0) with false. cbn [negb].
    rewrite (proj2 (Z.eqb_neq (blen bs) 0)), (proj2 (Z.ltb_ge 4 _)) by lia. cbn [orb].
    destruct (readFull_ok (blen bs) c bs rest Hp eq_refl) as (c' & -> & Hc'). cbn [bind].
    exists c'. by rewrite shiftIn_bytes by lia.
Qed.

Lemma readLDAPMessage_enc m c rest :
  messageOk m -> pending c = encMessage m ++ rest ->
  exists c', readLDAPMessage c = Ret (Some (operation m, hd x00 (operation m)), c') /\ pending c' = rest.
Proof.
  intros (Hid & Hop & Hc & Hl) Hp. destruct (lengthOf_range _ _ Hl) as [_ Hlb].
  destruct (msgBytes m) as [|b lb] eqn:Eb; [rewrite blen_nil in Hlb; lia|].
  unfold encMessage, tlv in Hp. rewrite Eb in Hp. set (content := messageContent m) in *.
  unfold readLDAPMessage.
  destruct (readFull_ok 2 c [x30; b] (lb ++ content ++ rest)) as (c1 & -> & Hc1); [|done|].
  { rewrite Hp. cbn. by rewrite <- app_assoc. }
  cbn [bind]. rewrite index_cons0. cbn [bind]. rewrite beq_refl. cbn [negb].
  rewrite (read_index [x30; b] [x30] b []) by done. cbn [bind].
  destruct (readLength_enc b lb _ c1 (content ++ rest) Hl Hc1) as (c2 & -> & Hc2). cbn [bind].
  rewrite (proj2 (Z.leb_gt _ 0)), (proj2 (Z.ltb_ge (64 * 1024) _)) by lia. cbn [orb].
  destruct (readFull_ok (blen content) c2 content rest Hc2 eq_refl) as (c3 & -> & Hc3). cbn [bind].
  rewrite (proj2 (Z.ltb_ge _ 5)) by lia.
  set (pre := x02 :: byteOf (blen (msgId m)) :: msgId m).
  assert (Hco : content = pre ++ operation m) by (unfold content, messageContent, tlv, pre; done).
  pose proof (blen_nonneg (msgId m)).
  assert (Hpre : blen pre = 2 + blen (msgId m)) by (unfold pre; rewrite !blen_cons; lia).
  rewrite (read_index content [] x02 (byteOf (blen (msgId m)) :: msgId m ++ operation m)) by done.
  cbn [bind]. rewrite beq_refl. cbn [negb].
  rewrite (read_index content [x02] (byteOf (blen (msgId m))) (msgId m ++ operation m)) by done. cbn [bind].
  rewrite bval_byteOf, Z.mod_small by lia.
  destruct (operation m) as [|o op] eqn:Eo; [done|].
  rewrite (proj2 (Z.leb_gt _ _)) by (rewrite Hco, blen_app, blen_cons; pose proof (blen_nonneg op); lia).
  rewrite (read_from content pre (o :: op)) by (done || lia). cbn [bind].
  rewrite (read_index content pre o op) by (done || lia). cbn [bind hd]. by exists c3.
Qed.

(** Whatever comes, a message is read or refused, and consumes what it read. *)
Lemma readLDAPMessage_total c :
  wp (readLDAPMessage c) (fun r => fst r <> None -> (length (pending (snd r)) < length (pending c))%nat)
     (fun _ => False).
Proof.
  unfold readLDAPMessage. wp_step. apply wp_readFull; [lia| |]; [|intros c' _ _; by wp_run].
  intros hdr c1 Hp1 Hl1. cbn beta iota. wp_run; try done.
  assert (Hlen : wp (readLength (bval x0) c1) (fun r => (length (pending (snd r)) <= length (pending c1))%nat)
    (fun _ => False)).
  { unfold readLength. destruct (bval_bits x0) as [_ Hk]. rewrite Hk.
    pose proof (bval_range x0). pose proof (Z.mod_pos_bound (bval x0) 128 ltac:(lia)).
    wp_run; cbn [snd]; try lia.
    apply wp_readFull; [lia| |]; [intros b c' Hp _|intros c' _ Hp]; cbn; rewrite Hp, ?length_app; cbn; lia. }
  eapply wp_mono; [exact Hlen| |done]. intros [len c2] Hc2. cbn [fst snd] in Hc2.
  destruct len as [len|]; wp_run; try done.
  apply wp_readFull; [lia| |]; [|intros c' _ _; by wp_run].
  intros body c3 Hp3 Hl3. wp_run; try done. cbn [snd]. intros _.
  rewrite Hp1, length_app. rewrite Hp3, length_app in Hc2. unfold blen in *. lia.
Qed.
End Messages.

(** The messages of a search: entries, and operations the probe passes over. *)
Inductive answer := EntryAnswer (m : message) (e : entry) | OtherAnswer (m : message).
Definition answerMessage (a : answer) : message :=
  match a with EntryAnswer m _ | OtherAnswer m => m end.
Definition answerOk (a : answer) : Prop :=
  messageOk (answerMessage a) /\
  match a with
  | EntryAnswer m e => operation m = encEntry e /\ entryOk e
  | OtherAnswer m => hd x00 (operation m) <> x64 /\ hd x00 (operation m) <> x65
  end.
Definition keepAnswer (m : attrMap) (a : answer) : attrMap :=
  match a with EntryAnswer _ e => keepEntry m e | OtherAnswer _ => m end.
Definition encAnswers (l : list answer) : bytes := flat_map (fun a => encMessage (answerMessage a)) l.

Section Search.
Context {C : Type} `{Reader C}.

Lemma beq_ne a b : a <> b -> beq a b = false.
Proof. by destruct (beq_spec a b). Qed.

Lemma searchTurn_answer a c m rest :
  answerOk a -> pending c = encMessage (answerMessage a) ++ rest ->
  exists c', searchTurn (c, m) = Ret (Next (c', keepAnswer m a)) /\ pending c' = rest.
Proof.
  intros [Hm Ha] Hp. destruct (readLDAPMessage_enc _ c rest Hm Hp) as (c' & Hr & Hc').
  exists c'. split; [|done]. unfold searchTurn. rewrite Hr. cbn [bind].
  destruct a as [msg e|msg]; cbn [answerMessage keepAnswer] in *.
  - destruct Ha as [Ho He]. rewrite Ho, (parseRootDSE_enc e m He). done.
  - destruct Ha as [H4 H5]. by rewrite !beq_ne by done.
Qed.

Lemma search_prefix l : forall fuel c m rest,
  Forall answerOk l -> pending c = encAnswers l ++ rest ->
  exists c', loop searchTurn (length l + fuel) (c, m)
    = loop searchTurn fuel (c', fold_left keepAnswer l m) /\ pending c' = rest.
Proof.
  induction l as [|a l IH]; intros fuel c m rest Hl Hp; [by exists c|]. inversion_clear Hl.
  unfold encAnswers in Hp. cbn [flat_map] in Hp. rewrite <- app_assoc in Hp.
  destruct (searchTurn_answer a c m _ ltac:(done) Hp) as (c1 & Ht & Hc1).
  cbn [length Nat.add loop fold_left]. rewrite Ht. by apply IH.
Qed.

(** The loop after the entries, with the fuel that is left. *)
Lemma searchLoop_prefix l c rest :
  Forall answerOk l -> pending c = encAnswers l ++ rest ->
  exists c' fuel, loop searchTurn (S (length (pending c))) (c, ∅)
    = loop searchTurn (S fuel) (c', fold_left keepAnswer l ∅) /\ pending c' = rest.
Proof.
  intros Hl Hp. assert (Hlen : (length l <= length (encAnswers l))%nat).
  { clear. unfold encAnswers. induction l as [|a l IH]; cbn [flat_map length]; [lia|].
    rewrite length_app. unfold encMessage at 1, tlv at 1. cbn [length]. lia. }
  rewrite Hp, length_app.
  set (fuel := (length (encAnswers l) + length rest - length l)%nat).
  replace (S (length (encAnswers l) + length rest)) with (length l + S fuel)%nat by (unfold fuel; lia).
  destruct (search_prefix l (S fuel) c ∅ rest Hl Hp) as (c' & Hr & Hc'). by exists c', fuel.
Qed.

Lemma searchLoop_done l c m rest :
  Forall answerOk l -> messageOk m -> hd x00 (operation m) = x65 ->
  pending c = encAnswers l ++ encMessage m ++ rest -> searchLoop c = Ret (fold_left keepAnswer l ∅).
Proof.
  intros Hl Hm Ho Hp. destruct (searchLoop_prefix l c _ Hl Hp) as (c' & fuel & Hr & Hc').
  unfold searchLoop. rewrite Hr. cbn [loop]. unfold searchTurn at 1.
  destruct (readLDAPMessage_enc m c' rest Hm Hc') as (c2 & -> & _). cbn [bind]. rewrite Ho. done.
Qed.

Lemma searchLoop_crash l c m rest :
  Forall answerOk l -> messageOk m -> hd x00 (operation m) = x64 -> crashes (operation m) ->
  pending c = encAnswers l ++ encMessage m ++ rest -> searchLoop c = Panic.
Proof.
  intros Hl Hm Ho Hcr Hp. destruct (searchLoop_prefix l c _ Hl Hp) as (c' & fuel & Hr & Hc').
  unfold searchLoop. rewrite Hr. cbn [loop]. unfold searchTurn at 1.
  destruct (readLDAPMessage_enc m c' rest Hm Hc') as (c2 & -> & _). cbn [bind]. rewrite Ho.
  by rewrite beq_refl, (crashes_panics _ _ Hcr).
Qed.

(** The search ends on every stream, unless an entry crashes it. *)
Lemma searchLoop_ends c : searchLoop c = Panic \/ exists m, searchLoop c = Ret m.
Proof.
  unfold searchLoop. generalize (∅ : attrMap) as m.
  assert (Hg : forall fuel c m, (length (pending c) < fuel)%nat ->
    loop searchTurn fuel (c, m) = Panic \/ exists r, loop searchTurn fuel (c, m) = Ret r).
  { induction fuel as [|fuel IH]; intros c0 m Hf; [lia|]. cbn [loop]. unfold searchTurn at 1 3.
    pose proof (readLDAPMessage_total c0) as Ht.
    destruct (readLDAPMessage c0) as [[[[payload ty]|] c1]| | |]; try done; cbn [bind wp fst snd] in *;
      [|right; by eexists].
    specialize (Ht ltac:(done)).
    assert (Hx : (if beq ty x64 then parseRootDSEAttributes payload m else Ret m) = Panic \/
      exists m', (if beq ty x64 then parseRootDSEAttributes payload m else Ret m) = Ret m').
    { destruct (beq ty x64); [|right; by eexists].
      destruct (parse_cases payload m) as [->|(Hg & Hb & v & n & t & Hr)]; [right; by eexists|].
      rewrite (parse_named payload m v n t) by done. destruct (blen t <? bval n); [by left|].
      destruct (parseList_cases (drop (Z.to_nat (bval n)) t) m) as [?|[? _]]; auto. }
    destruct Hx as [->|[m' ->]]; [by left|]. cbn [bind].
    destruct (beq ty x65); [right; by eexists|]. apply IH. lia. }
  intros m. destruct (Hg (S (length (pending c))) c m ltac:(lia)) as [->|[[[? ?]|?] ->]]; cbn; eauto.
Qed.
End Search.

(** ** Claims about the probe *)

(** C7. What the probe reports of a server that answers: after the bind - whatever
    its response - and for any entries and other operations up to the
    SearchResultDone, whose attributes have names and values of less than 128 bytes with
    lengths of one byte, while the lengths of messages, entries, attributes and sets of
    values have any BER encoding, the map holds the first value of every attribute, later
    ones over earlier ones; product, version and banner come from vendorName,
    vendorVersion and dnsHostName.  Beyond these bounds it is false: a longer value is
    misread ([longValue_misread]). *)
Theorem probeLDAP_reports {C} `{Peer C} (c c1 c2 c3 : C) r l m rest :
  send bindReq c = Some c1 -> readLDAPMessage c1 = Ret (r, c2) ->
  send (buildLDAPSearchRequest x02) c2 = Some c3 ->
  Forall answerOk l -> messageOk m -> hd x00 (operation m) = x65 ->
  pending c3 = encAnswers l ++ encMessage m ++ rest ->
  let extra := fold_left keepAnswer l ∅ in
  probeLDAP (Some c) = Ret
    {| Product := if String.eqb (get extra "vendorName") "" then "LDAP" else get extra "vendorName";
       Version := get extra "vendorVersion";
       Banner := if String.eqb (get extra "vendorVersion") "" && negb (String.eqb (get extra "dnsHostName") "")
                 then "AD host: " +:+ get extra "dnsHostName" else "";
       Extra := Some extra |}%string.
Proof.
  intros Hs1 Hr Hs2 Hl Hm Ho Hp extra. unfold probeLDAP. rewrite Hs1, Hr. cbn [bind]. rewrite Hs2.
  rewrite (searchLoop_done l c3 m rest Hl Hm Ho Hp). cbn [bind]. fold extra. unfold ldapInfo.
  destruct (String.eqb_spec (get extra "vendorVersion") "") as [->|];
    destruct (String.eqb_spec (get extra "vendorName") ""), (String.eqb_spec (get extra "dnsHostName") "");
    done.
Qed.

(** One reply stops the program: when the server's search answers continue,
    after any entries, with an entry that [crashes] describes, the probe
    panics; apart from such entries it returns on every stream and every
    failure of the connection. *)
Theorem probeLDAP_crash {C} `{Peer C} (c c1 c2 c3 : C) r l m rest :
  send bindReq c = Some c1 -> readLDAPMessage c1 = Ret (r, c2) ->
  send (buildLDAPSearchRequest x02) c2 = Some c3 ->
  (Forall answerOk l -> messageOk m -> hd x00 (operation m) = x64 -> crashes (operation m) ->
   pending c3 = encAnswers l ++ encMessage m ++ rest -> probeLDAP (Some c) = Panic) /\
  (searchLoop c3 <> Panic -> exists info, probeLDAP (Some c) = Ret info).
Proof.
  intros Hs1 Hr Hs2. unfold probeLDAP. rewrite Hs1, Hr. cbn [bind]. rewrite Hs2. split.
  - intros Hl Hm Ho Hc Hp. by rewrite (searchLoop_crash l c3 m rest Hl Hm Ho Hc Hp).
  - intros Hn. destruct (searchLoop_ends c3) as [|[m' ->]]; [done|]. by eexists.
Qed.

(** A length of 68 bytes. *)
Lemma refused_length {C} `{Reader C} (c : C) tail :
  pending c = [x30; xc4] ++ tail -> exists c', readLDAPMessage c = Ret (None, c').
Proof.
  intros Hp. destruct (readFull_ok 2 c [x30; xc4] tail Hp eq_refl) as (c' & Hr & _).
  unfold readLDAPMessage. rewrite Hr. by exists c'.
Qed.

(** The search request is not BER: its attribute list, filter and body are
    longer than 127 bytes, and their lengths are written in one byte, which
    announces a long form instead.  A reader that follows the encoding rules -
    the probe's own [readLDAPMessage] - refuses every request the builder makes,
    whatever follows it on the connection. *)
Theorem searchRequest_malformed {C} `{Reader C} (id : byte) (c : C) rest :
  pending c = buildLDAPSearchRequest id ++ rest ->
  (exists c', readLDAPMessage c = Ret (None, c')) /\
  forall m, messageOk m -> encMessage m <> buildLDAPSearchRequest id.
Proof.
  intros Hp. assert (Hshape : exists tail, buildLDAPSearchRequest id = [x30; xc4] ++ tail) by (by eexists).
  destruct Hshape as [tail Ht]. split.
  - rewrite Ht, <- app_assoc in Hp. by apply (refused_length c (tail ++ rest)).
  - intros m Hm E.
    destruct (@readLDAPMessage_enc bytes bytesReader m (encMessage m ++ []) [] Hm eq_refl) as (c1 & Hr & _).
    rewrite E, app_nil_r, Ht in Hr.
    destruct (@refused_length bytes bytesReader ([x30; xc4] ++ tail) tail eq_refl) as [c2 Hr2]. congruence.
Qed.

(** A first value of 128 to 255 bytes is not skipped but misread: the byte
    after the tag is taken as the length, so what is reported is the value's own
    length byte followed by its first 128 bytes. *)
Theorem longValue_misread name v setB m :
  slen name < 128 -> 128 <= slen v < 256 -> lengthOf setB (3 + slen v) ->
  let value := tlv x04 [x81; byteOf (slen v)] (ofString v) in
  parseAttribute (octets name ++ tlv x31 setB value) m
  = Ret (<[name := toString (byteOf (slen v) :: take 128 (ofString v))]> m).
Proof.
  intros Hn Hv Hs value. unfold parseAttribute.
  assert (Hval : blen value = 3 + slen v) by (unfold value, tlv; autorewrite with blen; lia).
  destruct (octets_reads name (tlv x31 setB value) Hn) as (Hl & -> & -> & Hsl & Hfr).
  destruct (lengthOf_range _ _ Hs) as [_ Hlb]. pose proof (slen_nonneg name).
  assert (Ht : blen (tlv x31 setB value) = 1 + blen setB + blen value)
    by (unfold tlv; autorewrite with blen; lia).
  rewrite Hl, (proj2 (Z.ltb_ge _ 2)) by lia. cbn [bind]. rewrite beq_refl. cbn [negb].
  rewrite bval_slen by done. rewrite (proj2 (Z.ltb_ge _ _)) by lia. rewrite Hsl, Hfr. cbn [bind].
  rewrite Ht, (proj2 (Z.ltb_ge _ 2)) by lia. unfold tlv. rewrite index_cons0. cbn [bind].
  rewrite beq_refl. cbn [negb].
  rewrite (read_from _ [x31] (setB ++ value)) by done. cbn [bind].
  rewrite (berLen_enc _ _ _ Hs). cbn [bind].
  rewrite (proj2 (Z.eqb_neq _ 0)), (proj2 (Z.ltb_ge _ _)) by lia. cbn [orb].
  rewrite (read_slice _ (x31 :: setB) value [])
    by ((by rewrite app_nil_r) || (autorewrite with blen; lia)).
  cbn [bind]. rewrite Hval, (proj2 (Z.ltb_ge _ 2)) by lia.
  unfold value, tlv. rewrite index_cons0. cbn [bind]. rewrite beq_refl. cbn [negb].
  rewrite (read_index _ [x04] x81 (byteOf (slen v) :: ofString v)) by done. cbn [bind].
  change (bval x81) with 129. rewrite (proj2 (Z.ltb_ge _ _)) by lia.
  rewrite (read_slice _ [x04; x81] (byteOf (slen v) :: take 128 (ofString v)) (drop 128 (ofString v))).
  - by rewrite toString_ofString.
  - cbn. by rewrite take_drop.
  - done.
  - rewrite !blen_cons, blen_nil. pose proof (blen_ofString v) as Hb. unfold blen in *.
    rewrite length_take. lia.
Qed.

(** ** Witnesses *)

Module LdapWitnesses.
(** A peer whose answers do not depend on what it is sent. *)
#[local] Instance scripted : Peer bytes := {| send := fun _ c => Some c |}.

Definition shortAttribute (name : string) (values : list string) : attribute :=
  let a := {| aName := name; aValues := values; setBytes := []; attrBytes := [] |} in
  let setB := [byteOf (blen (setContent a))] in
  let content := octets name ++ tlv x31 setB (setContent a) in
  {| aName := name; aValues := values; setBytes := setB; attrBytes := [byteOf (blen content)] |}.

Definition sampleAttributes : list attribute :=
  [shortAttribute "vendorName" ["OpenLDAP"]; shortAttribute "namingContexts" ["dc=a"; "dc=b"];
   shortAttribute "supportedControl" []]%string.

Definition sampleEntry : entry :=
  let list := flat_map encAttribute sampleAttributes in
  let content := octets "" ++ tlv x30 [x82; x00; byteOf (blen list)] list in
  {| objectName := ""; attributes := sampleAttributes;
     listBytes := [x82; x00; byteOf (blen list)]; entryBytes := [x81; byteOf (blen content)] |}.

Definition shortMessage (op : bytes) : message :=
  {| msgId := [x02]; operation := op;
     msgBytes := [byteOf (blen (tlv x02 [x01] [x02] ++ op))] |}.

Definition entryAnswer : answer := EntryAnswer (shortMessage (encEntry sampleEntry)) sampleEntry.
Definition doneMessage : message := shortMessage [x65; x07; x0a; x01; x00; x04; x00; x04; x00].
Definition bindResponse : message := shortMessage [x61; x07; x0a; x01; x00; x04; x00; x04; x00].

Definition sampleStream : bytes :=
  encMessage bindResponse ++ encAnswers [entryAnswer] ++ encMessage doneMessage ++ [].

Lemma short_length n lb : lb = [byteOf n] -> 0 <= n < 128 -> lengthOf lb n.
Proof. intros -> Hn. by apply shortLength. Qed.

Lemma long_length b bs n :
  n = beVal bs -> b = byteOf (128 + blen bs) -> 1 <= blen bs <= 4 -> lengthOf (b :: bs) n.
Proof. intros -> -> Hb. by apply longLength. Qed.

Ltac length_ok :=
  first [apply short_length; [reflexivity|split; [by vm_compute|reflexivity]]
        |apply long_length; [reflexivity|reflexivity|split; by vm_compute]].

Lemma shortMessage_ok op : 2 <= blen op < 100 -> messageOk (shortMessage op).
Proof.
  intros Hop. assert (Hc : blen (messageContent (shortMessage op)) = 3 + blen op)
    by (unfold messageContent, shortMessage, tlv; cbn [msgId operation]; autorewrite with blen; lia).
  split; [done|]. split; [intros E; cbn in E; rewrite E, blen_nil in Hop; lia|].
  split; [lia|]. rewrite Hc. apply short_length; [|lia].
  unfold shortMessage, tlv. cbn [msgBytes]. do 2 f_equal. autorewrite with blen. lia.
Qed.

Lemma sampleEntry_ok : entryOk sampleEntry.
Proof.
  split; [done|]. split; [|split; length_ok].
  repeat constructor; try done; length_ok.
Qed.

Lemma probeLDAP_reports_witness :
  probeLDAP (Some sampleStream) = Ret
    {| Product := "OpenLDAP"; Version := ""; Banner := "";
       Extra := Some (<["namingContexts" := "dc=a"]> {["vendorName" := "OpenLDAP"]}) |}%string.
Proof.
  assert (Ha : Forall answerOk [entryAnswer]).
  { constructor; [|constructor]. split; [apply shortMessage_ok; split; by vm_compute|].
    split; [done|apply sampleEntry_ok]. }
  assert (Hb : messageOk bindResponse) by (apply shortMessage_ok; split; by vm_compute).
  destruct (@readLDAPMessage_enc bytes bytesReader bindResponse sampleStream
    (encAnswers [entryAnswer] ++ encMessage doneMessage ++ []) Hb eq_refl) as (c2 & Hr & Hc2).
  rewrite (@probeLDAP_reports bytes bytesReader scripted sampleStream sampleStream c2 c2 _ [entryAnswer] doneMessage []
    eq_refl Hr eq_refl Ha ltac:(apply shortMessage_ok; split; by vm_compute) eq_refl Hc2).
  vm_compute. reflexivity.
Defined.

(** The empty name of an entry announced as five bytes. *)
Definition badEntry : bytes := [x64; x02; x04; x05].

Lemma probeLDAP_crash_witness :
  probeLDAP (Some (encMessage bindResponse ++ encMessage (shortMessage badEntry))) = Panic.
Proof.
  assert (Hb : messageOk bindResponse) by (apply shortMessage_ok; split; by vm_compute).
  set (s := encMessage bindResponse ++ encMessage (shortMessage badEntry)).
  destruct (@readLDAPMessage_enc bytes bytesReader bindResponse s (encMessage (shortMessage badEntry)) Hb eq_refl)
    as (c2 & Hr & Hc2).
  apply (proj1 (@probeLDAP_crash bytes bytesReader scripted s s c2 c2 _ [] (shortMessage badEntry) [] eq_refl Hr eq_refl)).
  - constructor.
  - apply shortMessage_ok. split; by vm_compute.
  - reflexivity.
  - by apply (nameOverrun _ 2 x05 []).
  - rewrite Hc2. reflexivity.
Defined.

Lemma searchRequest_malformed_witness :
  exists c', readLDAPMessage (buildLDAPSearchRequest x02) = Ret (None, c').
Proof. exact (proj1 (@searchRequest_malformed bytes bytesReader x02 (buildLDAPSearchRequest x02) [] eq_refl)). Defined.

Lemma longValue_misread_witness :
  parseAttribute (octets "n" ++ tlv x31 [x81; x83] (tlv x04 [x81; x80] (ofString (Repeat "v" 128)))) ∅
  = Ret (<["n"%string := toString (x80 :: take 128 (ofString (Repeat "v" 128)))]> ∅).
Proof.
  apply (longValue_misread "n" (Repeat "v" 128) [x81; x83] ∅); [done|split; by vm_compute|].
  apply long_length; [reflexivity|reflexivity|split; by vm_compute].
Defined.
End LdapWitnesses.
