(* ===== verification/Mongo.v ===== *)
(** The MongoDB probe of [service_mongodb.go]: the OP_MSG hello it sends, the
    BSON scanner, and what the server's answer says about its version. *)

From Stdlib Require Import ZArith List String Ascii Strings.Byte Lia Bool.
From stdpp Require Import base list strings numbers gmap.
From S2P Require Import Prelude Bytes GoStrings Decimal Stream Service.
Open Scope Z_scope.

(** ** The scanner *)

(** The values of [map[string]any] the scanner stores. *)
Inductive bsonValue := BInt32 (v : Z) | BString (s : string) | BBool (b : bool).
Abbreviation bsonMap := (gmap string bsonValue).

(** [binary.LittleEndian.Uint32(doc[i:i+4])] *)
Definition le32At (doc : bytes) (i : Z) : outcome Z := b <~ slice doc i (i + 4) ;; LE_Uint32 b.

(** [for nameEnd < docLen && doc[nameEnd] != 0 { nameEnd++ }] *)
Definition nameTurn (doc : bytes) (docLen nameEnd : Z) : outcome (step Z unit) :=
  if nameEnd <? docLen then
    x <~ index doc nameEnd ;;
    if beq x x00 then Ret (Break nameEnd) else Ret (Next (nameEnd + 1))
  else Ret (Break nameEnd).
Definition nameLoop (doc : bytes) (docLen i : Z) : outcome Z :=
  r <~ loop (nameTurn doc docLen) (S (length doc)) i ;;
  Ret (match r with inl n => n | inr _ => i end).

(** The [switch tag] on the value at [i]. *)
Definition scanValue (doc : bytes) (docLen : Z) (tag : byte) (name : string) (i : Z) (out : bsonMap)
    : outcome (step (Z * bsonMap) bsonMap) :=
  let skip n := if docLen <? i + n then Ret (Return out) else Ret (Next (i + n, out)) in
  if beq tag x10 then
    if docLen <? i + 4 then Ret (Return out) else
    v <~ le32At doc i ;;
    Ret (Next (i + 4, <[name := BInt32 (i32 v)]> out))
  else if beq tag x12 then skip 8
  else if beq tag x02 then
    if docLen <? i + 4 then Ret (Return out) else
    n <~ le32At doc i ;;
    let i := i + 4 in
    if (docLen <? i + n) || (n <? 1) then Ret (Return out) else
    s <~ slice doc i (i + n - 1) ;;
    Ret (Next (i + n, <[name := BString (toString s)]> out))
  else if beq tag x08 then
    if docLen <? i + 1 then Ret (Return out) else
    x <~ index doc i ;;
    Ret (Next (i + 1, <[name := BBool (negb (beq x x00))]> out))
  else if beq tag x01 then skip 8
  else if beq tag x09 then skip 8
  else if beq tag x07 then skip 12
  else if beq tag x03 || beq tag x04 then
    if docLen <? i + 4 then Ret (Return out) else
    n <~ le32At doc i ;;
    Ret (Next (i + n, out))
  else if beq tag x0a then Ret (Next (i, out))
  else Ret (Return out).

(** One turn of [for i < docLen-1]. *)
Definition scanTurn (doc : bytes) (docLen : Z) (st : Z * bsonMap) : outcome (step (Z * bsonMap) bsonMap) :=
  let '(i, out) := st in
  if negb (i <? docLen - 1) then Ret (Break (i, out)) else
  tag <~ index doc i ;;
  if beq tag x00 then Ret (Break (i, out)) else
  let i := i + 1 in
  nameEnd <~ nameLoop doc docLen i ;;
  if docLen <=? nameEnd then Ret (Return out) else
  name <~ slice doc i nameEnd ;;
  scanValue doc docLen tag (toString name) (nameEnd + 1) out.

Definition scanBSONFields (doc : bytes) : outcome bsonMap :=
  if blen doc <? 5 then Ret ∅ else
  n <~ le32At doc 0 ;;
  let docLen := if blen doc <? n then blen doc else n in
  r <~ loop (scanTurn doc docLen) (S (length doc)) (4, ∅) ;;
  Ret (match r with inl (_, out) => out | inr out => out end).

(** ** The hello message *)

Definition buildHelloBSON : bytes :=
  let doc := [x10] ++ ofString "hello" ++ [x00] in
  let doc := doc ++ [x01; x00; x00; x00] in
  let doc := doc ++ [x02] in
  let doc := doc ++ ofString "$db" ++ [x00] in
  let doc := doc ++ [x06; x00; x00; x00] in
  let doc := doc ++ ofString "admin" ++ [x00] in
  let doc := doc ++ [x00] in
  (* the placeholder of four bytes, overwritten with the length of the whole *)
  putLE32 (4 + blen doc) ++ doc.

Definition buildMongoHelloMessage : bytes :=
  let body := [x00; x00; x00; x00] ++ [x00] ++ buildHelloBSON in
  putLE32 (16 + blen body) ++ [x01; x00; x00; x00] ++ [x00; x00; x00; x00] ++ [xdd; x07; x00; x00] ++ body.

(** ** The answer *)

Definition mongoWireToVersion (wire : Z) : option string :=
  match wire with
  | 25 => Some "8.0" | 21 => Some "7.0" | 17 => Some "6.0" | 13 => Some "5.0" | 9 => Some "4.4"
  | 8 => Some "4.2" | 7 => Some "4.0" | 6 => Some "3.6" | 5 => Some "3.4" | _ => None
  end%string.

Definition boolStr (b : bool) : string := if b then "true" else "false".

(** [if info.Extra == nil { info.Extra = ... }; info.Extra[k] = v] *)
Definition setExtra (k v : string) (info : serviceInfo) : serviceInfo :=
  {| Product := Product info; Version := Version info; Banner := Banner info;
     Extra := Some (<[k := v]> (default ∅ (Extra info))) |}.

(** [if v, ok := fields[name]; ok { if x, ok2 := v.(T); ok2 { ... } }] *)
Definition int32Field (fields : bsonMap) (name : string) : option Z :=
  match fields !! name with Some (BInt32 v) => Some v | _ => None end.
Definition boolField (fields : bsonMap) (name : string) : option bool :=
  match fields !! name with Some (BBool b) => Some b | _ => None end.
Definition stringField (fields : bsonMap) (name : string) : option string :=
  match fields !! name with Some (BString s) => Some s | _ => None end.

Definition wireVersion (wire : Z) : outcome string :=
  match mongoWireToVersion wire with
  | Some v => Ret v
  | None =>
      s <~ i32str wire ;;
      Ret (if 25 <? wire then ("8.x+ (wire " +:+ s +:+ ")")%string else ("wire " +:+ s)%string)
  end.

(** The fields of the answer, from [fields] on. *)
Definition mongoFields (fields : bsonMap) (info : serviceInfo) : outcome serviceInfo :=
  info <~ match int32Field fields "maxWireVersion" with
          | Some wire =>
              v <~ wireVersion wire ;;
              s <~ i32str wire ;;
              Ret {| Product := Product info; Version := v; Banner := Banner info;
                     Extra := Some {["max_wire_version" := s]} |}
          | None => Ret info
          end ;;
  info <~ match int32Field fields "minWireVersion" with
          | Some w => s <~ i32str w ;; Ret (setExtra "min_wire_version" s info)
          | None => Ret info
          end ;;
  let info := match boolField fields "isWritablePrimary" with
              | Some b => setExtra "primary" (boolStr b) info | None => info end in
  let info := match boolField fields "readOnly" with
              | Some b => setExtra "read_only" (boolStr b) info | None => info end in
  let info := match stringField fields "msg" with
              | Some s => setExtra "msg" s info | None => info end in
  Ret {| Product := Product info; Version := Version info; Banner := "OP_MSG hello — accepted";
         Extra := Extra info |}.

Section Probe.
Context {C : Type} `{Peer C}.

Definition probeMongoDB (conn : option C) : outcome serviceInfo :=
  let info := productInfo "MongoDB" in
  match conn with
  | None => Ret (productInfo "")
  | Some c =>
      match send buildMongoHelloMessage c with
      | None => Ret info
      | Some c =>
          unpack (hdr, c) <~ readFull 16 c ;;
          match hdr with
          | None => Ret info
          | Some hdr =>
              totalLen <~ le32At hdr 0 ;;
              opCode <~ le32At hdr 12 ;;
              if negb (i32 opCode =? 2013) then Ret info else
              let bodyLen := i32 totalLen - 16 in
              if (bodyLen <=? 0) || (16 * 1024 * 1024 <? bodyLen) then Ret info else
              unpack (body, c) <~ readFull bodyLen c ;;
              match body with
              | None => Ret info
              | Some body =>
                  if blen body <? 5 then Ret info else
                  kind <~ index body 4 ;;
                  if negb (beq kind x00) then Ret info else
                  doc <~ sliceFrom body 5 ;;
                  fields <~ scanBSONFields doc ;;
                  mongoFields fields info
              end
          end
      end
  end.
End Probe.

(** ** Little-endian lengths *)

Lemma wp_le32At doc i (Q : Z -> Prop) E :
  0 <= i -> i + 4 <= blen doc -> (forall v, 0 <= v < 4294967296 -> Q v) -> wp (le32At doc i) Q E.
Proof.
  intros Hi Hb HQ. unfold le32At. wp_step. apply wp_slice; [lia..|]. intros Hl.
  unfold LE_Uint32. do 4 (wp_step; apply wp_index; [lia|]; intros ? _). apply HQ.
  match goal with |- context [Z.lor (Z.shiftl ?a _) ?b] =>
    assert (0 <= a < 65536) by apply be16_range; assert (0 <= b < 65536) by apply be16_range
  end.
  rewrite lor_shiftl_add by lia. lia.
Qed.

Lemma le32At_put doc pre v rest i :
  doc = pre ++ putLE32 v ++ rest -> i = blen pre -> le32At doc i = Ret (u32 v).
Proof.
  intros Hd ->. unfold le32At. rewrite (read_slice doc pre (putLE32 v) rest) by done. cbn [bind].
  rewrite <- (app_nil_r (putLE32 v)). apply LE_Uint32_put.
Qed.

Lemma i32_u32 v : -2147483648 <= v <= 2147483647 -> i32 (u32 v) = v.
Proof. intros Hv. unfold i32, u32. rewrite Z.add_mod_idemp_l by lia. rewrite Z.mod_small; lia. Qed.

(** ** The scanner returns on every byte string *)

Lemma wp_nameLoop doc docLen i E :
  0 <= i -> docLen <= blen doc -> wp (nameLoop doc docLen i) (fun n => i <= n) E.
Proof.
  intros Hi Hd. unfold nameLoop. wp_step.
  destruct (decide (docLen <= i)) as [Hle|Hgt].
  { cbn [loop]. unfold nameTurn. rewrite (proj2 (Z.ltb_ge _ _)) by lia. cbn. lia. }
  apply (wp_loop _ (fun n => i <= n <= docLen) (fun n => Z.to_nat (docLen - n))); [|lia|unfold blen in *; lia].
  intros n Hn. unfold nameTurn. destruct (n <? docLen) eqn:E0; to_prop; [|cbn; lia].
  wp_step. apply wp_index; [lia|]. intros x _. destruct (beq x x00); cbn; lia.
Qed.

(** The numbers of the map are 32-bit. *)
Definition mapOk (m : bsonMap) : Prop := forall k v, m !! k = Some (BInt32 v) -> -2147483648 <= v <= 2147483647.

Lemma mapOk_insert k v m : mapOk m -> (forall n, v = BInt32 n -> -2147483648 <= n <= 2147483647) -> mapOk (<[k := v]> m).
Proof. intros Hm Hv k' n. rewrite lookup_insert_Some. intros [[_ ->]|[_ Hn]]; [by apply Hv|by eapply Hm]. Qed.

Lemma i32_range v : -2147483648 <= i32 v <= 2147483647.
Proof. unfold i32. pose proof (Z.mod_pos_bound (v + 2147483648) 4294967296 ltac:(lia)). lia. Qed.

(** A value is stored or skipped, or ends the scan; the offset does not go back. *)
Lemma wp_scanValue doc docLen tag name i out E :
  0 <= i -> docLen <= blen doc -> mapOk out ->
  wp (scanValue doc docLen tag name i out)
     (fun r => match r with Next (j, m) => i <= j /\ mapOk m | Break _ => False | Return m => mapOk m end) E.
Proof.
  intros Hi Hd Hm. unfold scanValue. cbv zeta.
  repeat (wp_step; to_prop; try done; try (cbn; by (split; [lia|])));
    first [apply wp_le32At; [lia..|]; intros v Hv | apply wp_index; [lia|]; intros ? ?];
    repeat (wp_step; to_prop; try done; try (cbn; split; [lia|done])).
  - cbn. split; [lia|]. apply mapOk_insert; [done|]. intros n [= <-]. apply i32_range.
  - apply wp_slice; [lia..|]. intros _. cbn. split; [lia|]. by apply mapOk_insert.
  - cbn. split; [lia|]. by apply mapOk_insert.
Qed.

Lemma scan_ok doc : exists out, scanBSONFields doc = Ret out /\ mapOk out.
Proof.
  assert (H : wp (scanBSONFields doc) mapOk (fun _ => False)).
  { unfold scanBSONFields. wp_step; [done|]. to_prop. wp_step. apply wp_le32At; [lia..|]. intros n Hn.
    cbv zeta. set (docLen := if blen doc <? n then blen doc else n).
    assert (Hdl : docLen <= blen doc) by (unfold docLen; destruct (blen doc <? n) eqn:?; to_prop; lia).
    wp_step. apply (wp_loop _ (fun st => 4 <= fst st /\ mapOk (snd st)) (fun st => Z.to_nat (docLen - fst st)));
      [|by (split; [cbn; lia|])|cbn [fst]; unfold blen in *; lia].
    intros [i out] [Hi Hm]. cbn [fst snd] in Hi, Hm. unfold scanTurn.
    destruct (negb (i <? docLen - 1)) eqn:Ei; [done|]. to_prop.
    wp_step. apply wp_index; [lia|]. intros tag _. wp_step; [done|]. cbv zeta. wp_step.
    eapply wp_mono; [apply (wp_nameLoop _ _ _ (fun _ => False)); lia| |done]. intros nameEnd Hne. cbv beta in Hne.
    wp_step; [done|]. to_prop. wp_step. apply wp_slice; [lia..|]. intros _.
    eapply wp_mono; [apply (wp_scanValue _ _ _ _ _ _ (fun _ => False)); [lia|lia|done]| |done].
    intros [[j m]|[j m]|m] Hr; cbn [stepPost fst snd] in *; [|done|done]. destruct Hr as [Hj Hm']. split; [split; [lia|done]|lia]. }
  destruct (scanBSONFields doc) as [out| | |]; try done. by exists out.
Qed.

Lemma scan_total doc : exists out, scanBSONFields doc = Ret out.
Proof. destruct (scan_ok doc) as (out & Ho & _). by exists out. Qed.

Lemma mongoFields_total fields info : mapOk fields -> exists r, mongoFields fields info = Ret r.
Proof.
  intros Hm. unfold mongoFields, wireVersion, int32Field. destruct (fields !! "maxWireVersion"%string) as [[v|?|?]|] eqn:E1;
    cbn [bind]; try (rewrite !i32str_text by (by eapply Hm); cbn [bind]).
  1: destruct (mongoWireToVersion v); cbn [bind].
  all: destruct (fields !! "minWireVersion"%string) as [[w|?|?]|] eqn:E2; cbn [bind]; try (rewrite i32str_text by (by eapply Hm); cbn [bind]); by eexists.
Qed.

Lemma probeMongoDB_total {C} `{Peer C} (conn : option C) : exists info, probeMongoDB conn = Ret info.
Proof.
  assert (Hw : wp (probeMongoDB conn) (fun _ => True) (fun _ => False)).
  { unfold probeMongoDB. cbv zeta. destruct conn as [c|]; [|done]. destruct (send _ c) as [c1|]; [|done]. wp_step.
    apply wp_readFull; [lia| |intros c' _ _; done]. intros hdr c2 _ Hh. cbn beta iota. wp_step. apply wp_le32At; [lia..|]. intros l Hl.
    wp_step. apply wp_le32At; [lia..|]. intros op _. destruct (negb _); [done|]. cbv zeta. destruct (_ || _) eqn:Eb; [done|]. to_prop.
    wp_step. apply wp_readFull; [lia| |intros c' _ _; done]. intros body c3 _ Hb. cbn beta iota. destruct (blen body <? 5) eqn:E5; [done|]. to_prop.
    wp_step. apply wp_index; [lia|]. intros k _. destruct (negb _); [done|]. wp_step. apply wp_sliceFrom; [lia|]. intros _.
    wp_step.
    match goal with |- wp (scanBSONFields ?d) _ _ => destruct (scan_ok d) as (out' & -> & Hm') end.
    apply wp_ret. destruct (mongoFields_total out' (productInfo "MongoDB") Hm') as [r ->]. done. }
  destruct (probeMongoDB conn) as [r| | |]; try done. by exists r.
Qed.

(** ** Documents as servers encode them *)

(** The values of BSON elements, with the bytes of those the scanner passes
    over; [Other] stands for the types it does not know. *)
Inductive bson :=
| Int32 (v : Z) | Str (s : string) | Bool (b : byte)
| Int64 (p : bytes) | Double (p : bytes) | Date (p : bytes) | ObjectId (p : bytes)
| Document (sub : bytes) | Array (sub : bytes) | Null | Other (tag : byte) (p : bytes).

Definition tagOf (v : bson) : byte :=
  match v with
  | Int32 _ => x10 | Str _ => x02 | Bool _ => x08 | Int64 _ => x12 | Double _ => x01 | Date _ => x09
  | ObjectId _ => x07 | Document _ => x03 | Array _ => x04 | Null => x0a | Other tag _ => tag
  end.
Definition payloadOf (v : bson) : bytes :=
  match v with
  | Int32 v => putLE32 v
  | Str s => putLE32 (1 + slen s) ++ ofString s ++ [x00]
  | Bool b => [b]
  | Int64 p | Double p | Date p | ObjectId p | Other _ p => p
  | Document sub | Array sub => putLE32 (4 + blen sub) ++ sub
  | Null => []
  end.
Definition knownTags : bytes := [x10; x12; x02; x08; x01; x09; x07; x03; x04; x0a].

Definition bsonOk (v : bson) : Prop :=
  match v with
  | Int32 v => -2147483648 <= v <= 2147483647
  | Int64 p | Double p | Date p => blen p = 8
  | ObjectId p => blen p = 12
  | Other tag _ => tag <> x00 /\ ~ In tag knownTags
  | _ => True
  end.

Definition element : Type := string * bson.
Definition nulFree (s : string) : Prop := Forall (fun b => b <> x00) (ofString s).
Definition elementOk (e : element) : Prop := nulFree (fst e) /\ bsonOk (snd e).
Definition encElement (e : element) : bytes :=
  tagOf (snd e) :: ofString (fst e) ++ [x00] ++ payloadOf (snd e).
Definition docBody (els : list element) : bytes := flat_map encElement els ++ [x00].
Definition encDoc (els : list element) : bytes := putLE32 (4 + blen (docBody els)) ++ docBody els.

(** What the scanner keeps: the scalars, up to the first unknown type. *)
Definition keptValue (v : bson) : option bsonValue :=
  match v with
  | Int32 v => Some (BInt32 v)
  | Str s => Some (BString s)
  | Bool b => Some (BBool (negb (beq b x00)))
  | _ => None
  end.
Definition keepValue (out : bsonMap) (e : element) : bsonMap :=
  match keptValue (snd e) with Some x => <[fst e := x]> out | None => out end.
Fixpoint keepElements (els : list element) (out : bsonMap) : bsonMap :=
  match els with
  | [] => out
  | (_, Other _ _) :: _ => out
  | e :: els => keepElements els (keepValue out e)
  end.

Lemma nameLoop_scan doc docLen : forall n pre suf fuel,
  doc = pre ++ n ++ x00 :: suf -> Forall (fun b => b <> x00) n ->
  blen pre + blen n < docLen -> (length n < fuel)%nat ->
  loop (nameTurn doc docLen) fuel (blen pre) = Ret (inl (blen pre + blen n)).
Proof.
  induction n as [|x n IH]; intros pre suf [|fuel] Hd Hn Hl Hf; try (cbn [length] in Hf; lia);
    cbn [loop]; unfold nameTurn at 1.
  - rewrite blen_nil in *. rewrite (proj2 (Z.ltb_lt _ _)) by lia.
    rewrite (read_index doc pre x00 suf) by done. cbn [bind]. by rewrite beq_refl, Z.add_0_r.
  - inversion_clear Hn as [|? ? Hx Hn']. cbn [length] in Hf. rewrite blen_cons in *.
    pose proof (blen_nonneg n). rewrite (proj2 (Z.ltb_lt _ _)) by lia.
    rewrite (read_index doc pre x (n ++ x00 :: suf)) by done. cbn [bind].
    assert (E : beq x x00 = false) by (destruct (beq x x00) eqn:E; [by apply beq_true in E|done]).
    rewrite E. replace (blen pre + 1) with (blen (pre ++ [x])) by (autorewrite with blen; lia).
    rewrite (IH (pre ++ [x]) suf fuel).
    + do 2 f_equal. autorewrite with blen. lia.
    + by rewrite Hd, <- app_assoc.
    + done.
    + autorewrite with blen. lia.
    + lia.
Qed.

Lemma nameLoop_name doc docLen n pre suf :
  doc = pre ++ n ++ x00 :: suf -> Forall (fun b => b <> x00) n -> blen pre + blen n < docLen ->
  nameLoop doc docLen (blen pre) = Ret (blen pre + blen n).
Proof.
  intros Hd Hn Hl. unfold nameLoop. rewrite (nameLoop_scan doc docLen n pre suf) by
    (done || (rewrite Hd, !length_app; lia)). done.
Qed.

(** The tags of known values, one by one. *)
Lemma other_tag tag : ~ In tag knownTags -> Forall (fun t => beq tag t = false) knownTags.
Proof.
  intros Hn. apply List.Forall_forall. intros t Ht.
  destruct (beq tag t) eqn:E; [|done]. apply beq_true in E. by subst.
Qed.

Ltac tags :=
  repeat match goal with
    | |- context [beq ?a ?b] =>
        let r := eval vm_compute in (beq a b) in
        lazymatch r with true => idtac | false => idtac end;
        change (beq a b) with r; cbn [orb]; cbn iota
    end.

(** Passing over an embedded document by its length. *)
Lemma skip_document doc docLen pre sub suf (out : bsonMap) :
  doc = pre ++ (putLE32 (4 + blen sub) ++ sub) ++ suf ->
  blen pre + blen (putLE32 (4 + blen sub) ++ sub) <= docLen -> docLen < 4294967296 ->
  (if docLen <? blen pre + 4 then Ret (Return out)
   else n <~ le32At doc (blen pre) ;; Ret (Next (blen pre + n, out)))
  = @Ret (step (Z * bsonMap) bsonMap) (Next (blen pre + blen (putLE32 (4 + blen sub) ++ sub), out)).
Proof.
  intros Hd Hl Hm. pose proof (blen_nonneg pre). pose proof (blen_nonneg sub).
  rewrite blen_app in *. change (blen (putLE32 (4 + blen sub))) with 4 in *.
  rewrite (proj2 (Z.ltb_ge _ _)) by lia.
  rewrite (le32At_put doc pre (4 + blen sub) (sub ++ suf)) by (done || by rewrite Hd, <- app_assoc).
  cbn [bind]. unfold u32. by rewrite Z.mod_small by lia.
Qed.

Lemma scanValue_enc doc docLen pre v suf name out :
  bsonOk v -> doc = pre ++ payloadOf v ++ suf -> blen pre + blen (payloadOf v) <= docLen ->
  docLen < 4294967296 ->
  scanValue doc docLen (tagOf v) name (blen pre) out =
  Ret (match v with
       | Other _ _ => Return out
       | _ => Next (blen pre + blen (payloadOf v), keepValue out (name, v))
       end).
Proof.
  intros Hv Hd Hl Hm. pose proof (blen_nonneg pre).
  assert (Hskip : forall n, n <= blen (payloadOf v) -> (docLen <? blen pre + n) = false)
    by (intros n Hn; apply Z.ltb_ge; lia).
  destruct v as [i|s|b|p|p|p|p|sub|sub| |tag p]; cbn [bsonOk payloadOf tagOf] in *;
    unfold scanValue, keepValue; cbv zeta; cbn [fst snd keptValue]; tags.
  - rewrite Hskip by done. rewrite (le32At_put doc pre i suf) by done. cbn [bind].
    by rewrite i32_u32.
  - pose proof (slen_nonneg s). rewrite blen_app in *. change (blen (putLE32 (1 + slen s))) with 4 in *.
    assert (Hs : blen (ofString s ++ [x00]) = 1 + slen s) by (autorewrite with blen; lia).
    pose proof (blen_nonneg pre). rewrite Hskip by lia.
    rewrite (le32At_put doc pre (1 + slen s) ((ofString s ++ [x00]) ++ suf)) by (done || by rewrite Hd, <- app_assoc).
    cbn [bind]. unfold u32. rewrite Z.mod_small by lia.
    replace (docLen <? blen pre + 4 + (1 + slen s)) with false by (symmetry; apply Z.ltb_ge; lia).
    rewrite (proj2 (Z.ltb_ge _ 1)) by lia. cbn [orb].
    rewrite (read_slice doc (pre ++ putLE32 (1 + slen s)) (ofString s) (x00 :: suf));
      [|by rewrite Hd, <- !app_assoc|rewrite blen_app; change (blen (putLE32 (1 + slen s))) with 4; lia
       |rewrite blen_app, blen_ofString; change (blen (putLE32 (1 + slen s))) with 4; lia].
    cbn [bind]. rewrite toString_ofString, Hs. do 3 f_equal. lia.
  - rewrite Hskip by done. by rewrite (read_index doc pre b suf) by done.
  - rewrite Hskip by lia. by rewrite Hv.
  - rewrite Hskip by lia. by rewrite Hv.
  - rewrite Hskip by lia. by rewrite Hv.
  - rewrite Hskip by lia. by rewrite Hv.
  - rewrite (skip_document doc docLen pre sub suf) by done. done.
  - rewrite (skip_document doc docLen pre sub suf) by done. done.
  - by rewrite blen_nil, Z.add_0_r.
  - destruct Hv as [_ Hv]. pose proof (other_tag tag Hv) as Ho.
    repeat (apply List.Forall_cons_iff in Ho as [? Ho]).
    by repeat match goal with H : beq tag _ = false |- _ => rewrite H; clear H end.
Qed.

(** One element read by one turn of the scan. *)
Lemma scanTurn_enc doc docLen pre e suf out :
  elementOk e -> doc = pre ++ encElement e ++ suf -> blen pre + blen (encElement e) < docLen ->
  docLen < 4294967296 ->
  scanTurn doc docLen (blen pre, out) =
  Ret (match snd e with
       | Other _ _ => Return out
       | _ => Next (blen (pre ++ encElement e), keepValue out e)
       end).
Proof.
  destruct e as [name v]. cbn [fst snd]. intros [Hn Hv] Hd Hl Hm. cbn [fst snd] in *.
  pose proof (slen_nonneg name). pose proof (blen_nonneg pre). pose proof (blen_nonneg (payloadOf v)).
  assert (He : blen (encElement (name, v)) = 2 + slen name + blen (payloadOf v))
    by (unfold encElement; cbn [fst snd]; autorewrite with blen; lia).
  unfold scanTurn. rewrite (proj2 (Z.ltb_lt _ _)) by lia. cbn [negb].
  rewrite (read_index doc pre (tagOf v) (ofString name ++ x00 :: payloadOf v ++ suf));
    [|by rewrite Hd; unfold encElement; cbn; rewrite <- !app_assoc|done]. cbn [bind].
  assert (Ht : beq (tagOf v) x00 = false).
  { destruct v; try reflexivity. destruct Hv as [Hv _]. cbn. destruct (beq tag x00) eqn:E; [|done].
    by apply beq_true in E. }
  rewrite Ht. set (pre1 := pre ++ [tagOf v]).
  replace (blen pre + 1) with (blen pre1) by (unfold pre1; autorewrite with blen; lia).
  assert (Hd1 : doc = pre1 ++ ofString name ++ x00 :: payloadOf v ++ suf)
    by (unfold pre1; rewrite Hd; unfold encElement; cbn; by rewrite <- !app_assoc).
  assert (Hp1 : blen pre1 = blen pre + 1) by (unfold pre1; autorewrite with blen; lia).
  rewrite (nameLoop_name doc docLen (ofString name) pre1 (payloadOf v ++ suf))
    by (done || (rewrite ?blen_ofString; lia)).
  cbn [bind]. rewrite blen_ofString, (proj2 (Z.leb_gt _ _)) by lia.
  rewrite (read_slice doc pre1 (ofString name) (x00 :: payloadOf v ++ suf))
    by (done || (rewrite ?blen_ofString; lia)).
  cbn [bind]. rewrite toString_ofString. set (pre2 := pre1 ++ ofString name ++ [x00]).
  replace (blen pre1 + slen name + 1) with (blen pre2) by (unfold pre2; autorewrite with blen; lia).
  assert (Hp2 : blen pre2 = blen pre + slen name + 2) by (unfold pre2; autorewrite with blen; lia).
  rewrite (scanValue_enc doc docLen pre2 v suf name out);
    [|done|by rewrite Hd1; unfold pre2; rewrite <- !app_assoc|lia|done].
  replace (blen pre2 + blen (payloadOf v)) with (blen (pre ++ encElement (name, v)))
    by (rewrite blen_app; lia).
  done.
Qed.

Definition scanned (r : (Z * bsonMap) + bsonMap) : bsonMap :=
  match r with inl (_, out) => out | inr out => out end.

Lemma scan_elements doc docLen rest : forall els fuel pre out,
  Forall elementOk els -> doc = pre ++ docBody els ++ rest -> docLen = blen pre + blen (docBody els) ->
  docLen < 4294967296 -> (length els < fuel)%nat ->
  exists r, loop (scanTurn doc docLen) fuel (blen pre, out) = Ret r /\ scanned r = keepElements els out.
Proof.
  induction els as [|e els IH]; intros [|fuel] pre out Ho Hd Hl Hm Hf; try (cbn in Hf; lia).
  - exists (inl (blen pre, out)). split; [|done]. cbn [loop]. unfold scanTurn.
    change (blen (docBody [])) with 1 in Hl. by rewrite (proj2 (Z.ltb_ge _ _)) by lia.
  - inversion_clear Ho as [|? ? Hoe Hos].
    assert (Hb : docBody (e :: els) = encElement e ++ docBody els)
      by (unfold docBody; cbn [flat_map]; by rewrite <- app_assoc).
    rewrite Hb, blen_app in Hl. rewrite Hb, <- app_assoc in Hd.
    assert (0 < blen (docBody els)) by (unfold docBody; rewrite blen_app; pose proof (blen_nonneg (flat_map encElement els)); change (blen [x00]) with 1; lia).
    cbn [loop]. rewrite (scanTurn_enc doc docLen pre e (docBody els ++ rest) out) by (done || lia).
    specialize (IH fuel (pre ++ encElement e)). cbn [length] in Hf.
    destruct e as [name v]. cbn [fst snd] in *.
    destruct v; cbn [keepElements]; try (apply IH;
      [done|by rewrite Hd, <- app_assoc|rewrite blen_app; lia|done|lia]).
    by exists (inr out).
Qed.

Lemma scanBSON_enc els rest :
  Forall elementOk els -> blen (encDoc els) < 4294967296 ->
  scanBSONFields (encDoc els ++ rest) = Ret (keepElements els ∅).
Proof.
  intros Ho Hm. pose proof (blen_nonneg rest).
  assert (Hbody : 1 <= blen (docBody els)) by (unfold docBody; rewrite blen_app; pose proof (blen_nonneg (flat_map encElement els)); change (blen [x00]) with 1; lia).
  assert (He : blen (encDoc els) = 4 + blen (docBody els))
    by (unfold encDoc; rewrite blen_app; change (blen (putLE32 (4 + blen (docBody els)))) with 4; lia).
  unfold scanBSONFields. rewrite (proj2 (Z.ltb_ge _ 5)) by (rewrite blen_app; lia).
  rewrite (le32At_put _ [] (4 + blen (docBody els)) (docBody els ++ rest))
    by (done || (unfold encDoc; by rewrite <- !app_assoc)).
  cbn [bind]. unfold u32. rewrite Z.mod_small by lia.
  rewrite (proj2 (Z.ltb_ge _ _)) by (rewrite blen_app; lia).
  destruct (scan_elements (encDoc els ++ rest) (4 + blen (docBody els)) rest els
    (S (length (encDoc els ++ rest))) (putLE32 (4 + blen (docBody els))) ∅) as (r & Hr & Hs).
  - done.
  - unfold encDoc. by rewrite <- app_assoc.
  - reflexivity.
  - lia.
  - unfold encDoc, docBody. rewrite !length_app.
    assert (length els <= length (flat_map encElement els))%nat; [|lia].
    clear. induction els as [|e els IH]; [done|]. cbn [flat_map length]. rewrite length_app.
    assert (1 <= length (encElement e))%nat by (unfold encElement; cbn; lia). lia.
  - change (blen (putLE32 (4 + blen (docBody els)))) with 4 in Hr. rewrite Hr. cbn [bind].
    unfold scanned in Hs. destruct r as [[? ?]|?]; by rewrite Hs.
Qed.

(** ** Claims about the scanner and the probe *)

(** C8. The BSON scanner returns on every byte string - no index out of range, no
    endless loop, whatever the lengths inside say; on a well-formed document,
    with anything after it, it gives the int32, string and boolean elements
    under their names, later ones over earlier ones, up to the first element of
    a type it does not know; and the hello command the probe sends is such a
    document, with every length exact. *)
Theorem scanBSON_correct :
  (forall doc, exists out, scanBSONFields doc = Ret out) /\
  (forall els rest, Forall elementOk els -> blen (encDoc els) < 4294967296 ->
     scanBSONFields (encDoc els ++ rest) = Ret (keepElements els ∅)) /\
  buildHelloBSON = encDoc [("hello", Int32 1); ("$db", Str "admin")]%string /\
  buildMongoHelloMessage = putLE32 (blen buildMongoHelloMessage) ++ [x01; x00; x00; x00; x00; x00; x00; x00]
    ++ putLE32 2013 ++ [x00; x00; x00; x00; x00] ++ buildHelloBSON.
Proof.
  split; [exact scan_total|]. split; [intros; by apply scanBSON_enc|]. split; reflexivity.
Qed.

(** What the answer's fields say, as a table: the version of the wire number,
    and an entry of [Extra] for each field that is present with its type. *)
Definition versionText (wire : Z) : string :=
  match mongoWireToVersion wire with
  | Some v => v
  | None => if 25 <? wire then ("8.x+ (wire " +:+ i32text wire +:+ ")")%string
            else ("wire " +:+ i32text wire)%string
  end.
Definition extraTable (fields : bsonMap) : list (string * option string) :=
  [("max_wire_version", i32text <$> int32Field fields "maxWireVersion");
   ("min_wire_version", i32text <$> int32Field fields "minWireVersion");
   ("primary", boolStr <$> boolField fields "isWritablePrimary");
   ("read_only", boolStr <$> boolField fields "readOnly");
   ("msg", stringField fields "msg")]%string.
Definition presentRows (l : list (string * option string)) : list (string * string) :=
  flat_map (fun r => match snd r with Some v => [(fst r, v)] | None => [] end) l.
Definition mongoInfo (fields : bsonMap) : serviceInfo :=
  {| Product := "MongoDB";
     Version := match int32Field fields "maxWireVersion" with Some w => versionText w | None => "" end;
     Banner := "OP_MSG hello — accepted";
     Extra := match presentRows (extraTable fields) with [] => None | rows => Some (list_to_map rows) end |}.

(** The int32 values of a map are in range. *)
Definition int32s (out : bsonMap) : Prop :=
  forall k v, out !! k = Some (BInt32 v) -> -2147483648 <= v <= 2147483647.

Lemma keepElements_int32s els : forall out,
  Forall elementOk els -> int32s out -> int32s (keepElements els out).
Proof.
  induction els as [|[name v] els IH]; intros out Ho Hi; [done|]. inversion_clear Ho as [|? ? [_ Hv] Hos].
  assert (Hk : int32s (keepValue out (name, v))).
  { unfold keepValue. cbn [fst snd] in *. destruct v; cbn [keptValue]; try done;
      intros k w; (destruct (decide (k = name)) as [->|Hne];
        [rewrite lookup_insert_eq; intros [= <-]; done|rewrite lookup_insert_ne by done; apply Hi]). }
  destruct v; cbn [keepElements]; try (by apply IH). done.
Qed.

Lemma wireVersion_text w : -2147483648 <= w <= 2147483647 -> wireVersion w = Ret (versionText w).
Proof.
  intros Hw. unfold wireVersion, versionText. destruct (mongoWireToVersion w); [done|].
  by rewrite i32str_text.
Qed.

Lemma mongoFields_info fields : int32s fields -> mongoFields fields (productInfo "MongoDB") = Ret (mongoInfo fields).
Proof.
  intros Hi. unfold mongoFields, mongoInfo, extraTable.
  assert (Hr : forall k v, int32Field fields k = Some v -> -2147483648 <= v <= 2147483647).
  { intros k v. unfold int32Field. destruct (fields !! k) as [[w|?|?]|] eqn:E; try done.
    intros [= <-]. by apply (Hi k). }
  pose proof (Hr "maxWireVersion"%string) as Hmax. pose proof (Hr "minWireVersion"%string) as Hmin.
  destruct (int32Field fields "maxWireVersion") as [w|], (int32Field fields "minWireVersion") as [m|];
    cbn [fmap option_fmap option_map];
    rewrite ?wireVersion_text, ?i32str_text by auto; cbn [bind];
    rewrite ?i32str_text by auto; cbn [bind];
    destruct (boolField fields "isWritablePrimary"), (boolField fields "readOnly"), (stringField fields "msg");
    cbn [presentRows flat_map fst snd app fmap option_fmap option_map productInfo Product Version Banner Extra
         setExtra]; f_equal.
Qed.

(** An OP_MSG reply with one document section. *)
Definition opMsgBody (flags : bytes) (els : list element) (trailer : bytes) : bytes :=
  flags ++ [x00] ++ encDoc els ++ trailer.
Definition opMsg (ids flags : bytes) (els : list element) (trailer : bytes) : bytes :=
  (putLE32 (16 + blen (opMsgBody flags els trailer)) ++ ids ++ putLE32 2013) ++ opMsgBody flags els trailer.

Lemma le32_split (a b : Z) (i : bytes) :
  blen i = 8 -> le32At (putLE32 a ++ i ++ putLE32 b) 0 = Ret (u32 a) /\
  le32At (putLE32 a ++ i ++ putLE32 b) 12 = Ret (u32 b).
Proof.
  intros Hi. split; [by apply (le32At_put _ [] a (i ++ putLE32 b))|].
  apply (le32At_put _ (putLE32 a ++ i) b []); [by rewrite app_nil_r, <- app_assoc|].
  rewrite blen_app, Hi. reflexivity.
Qed.

(** What the probe reports of a server that answers the hello with an OP_MSG
    reply: the version the wire-version table gives for maxWireVersion, the five
    facts it extracts as far as the reply has them with the right type, and
    nothing else, whatever the reply's ids, flags and further elements are and
    whatever follows the document. *)
Theorem probeMongoDB_reports {C} `{Peer C} (c c1 : C) ids flags els trailer rest :
  send buildMongoHelloMessage c = Some c1 -> pending c1 = opMsg ids flags els trailer ++ rest ->
  blen ids = 8 -> blen flags = 4 -> Forall elementOk els ->
  blen (opMsgBody flags els trailer) <= 16777216 ->
  probeMongoDB (Some c) = Ret (mongoInfo (keepElements els ∅)).
Proof.
  intros Hs Hp Hi Hf Ho Hl. set (body := opMsgBody flags els trailer) in *.
  assert (Hdoc : 5 <= blen (encDoc els)).
  { unfold encDoc, docBody. rewrite !blen_app. pose proof (blen_nonneg (flat_map encElement els)).
    change (blen (putLE32 _)) with 4. change (blen [x00]) with 1. lia. }
  pose proof (blen_nonneg trailer).
  assert (Hb : blen body = 5 + blen (encDoc els) + blen trailer)
    by (unfold body, opMsgBody; rewrite !blen_app; change (blen [x00]) with 1; lia).
  unfold probeMongoDB. rewrite Hs. set (hdr := putLE32 (16 + blen body) ++ ids ++ putLE32 2013).
  unfold opMsg in Hp. fold body hdr in Hp. rewrite <- app_assoc in Hp.
  destruct (readFull_ok 16 c1 hdr (body ++ rest) Hp) as (c2 & -> & Hc2).
  { unfold hdr. rewrite !blen_app, Hi. reflexivity. }
  cbn [bind]. destruct (le32_split (16 + blen body) 2013 ids Hi) as [H0' H12]. fold hdr in H0', H12.
  rewrite H0', H12. cbn [bind]. change (negb (i32 (u32 2013) =? 2013)) with false. cbn iota.
  rewrite i32_u32 by lia. replace (16 + blen body - 16) with (blen body) by lia.
  rewrite (proj2 (Z.leb_gt _ 0)) by lia.
  replace (16 * 1024 * 1024 <? blen body) with false by (symmetry; apply Z.ltb_ge; lia). cbn [orb].
  destruct (readFull_ok (blen body) c2 body rest Hc2 eq_refl) as (c3 & -> & _). cbn [bind].
  rewrite (proj2 (Z.ltb_ge _ 5)) by lia.
  rewrite (read_index body flags x00 (encDoc els ++ trailer)) by (done || lia). cbn [bind].
  change (negb (beq x00 x00)) with false. cbn iota.
  rewrite (read_from body (flags ++ [x00]) (encDoc els ++ trailer))
    by ((unfold body, opMsgBody; by rewrite <- app_assoc) || (rewrite blen_app, Hf; reflexivity)).
  cbn [bind]. rewrite scanBSON_enc by (done || lia). cbn [bind].
  apply mongoFields_info, keepElements_int32s; [done|]. intros k v Hk. by rewrite lookup_empty in Hk.
Qed.

Module MongoWitnesses.
#[local] Instance scripted : Peer bytes := {| send := fun _ c => Some c |}.

Definition helloReply : list element :=
  [("isWritablePrimary", Bool x01); ("topologyVersion", Document [x00; x01; x02]); ("maxWireVersion", Int32 21);
   ("logicalSessionTimeoutMinutes", Double (repeat x00 8)); ("minWireVersion", Int32 0);
   ("operationTime", Other x11 (repeat x00 8)); ("msg", Str "isdbgrid")]%string.

Lemma helloReply_ok : Forall elementOk helloReply.
Proof.
  assert (Hn : forall s, forallb (fun b => negb (beq b x00)) (ofString s) = true -> nulFree s).
  { intros s Hs. apply List.Forall_forall. intros b Hb ->.
    apply (proj1 (forallb_forall _ _) Hs) in Hb. by rewrite beq_refl in Hb. }
  repeat constructor; try (apply Hn; reflexivity); try done; try (cbn; lia).
  cbn. intros Hin. repeat destruct Hin as [Hin|Hin]; done.
Qed.

Lemma probeMongoDB_reports_witness :
  probeMongoDB (Some (opMsg (repeat x07 8) (repeat x00 4) helloReply [xaa] ++ []))
  = Ret {| Product := "MongoDB"; Version := "7.0"; Banner := "OP_MSG hello — accepted";
           Extra := Some (<["max_wire_version" := "21"]> (<["min_wire_version" := "0"]>
             (<["primary" := "true"]> ∅))) |}%string.
Proof.
  set (s := opMsg (repeat x07 8) (repeat x00 4) helloReply [xaa] ++ []).
  rewrite (@probeMongoDB_reports bytes bytesReader scripted s s (repeat x07 8) (repeat x00 4) helloReply
    [xaa] [] eq_refl eq_refl eq_refl eq_refl helloReply_ok).
  - vm_compute. reflexivity.
  - by vm_compute.
Defined.
End MongoWitnesses.
