(* ===== verification/Banners.v ===== *)
(** The banners of [banners.go]: the regular expressions of Go's [regexp] that its rules
    use, the rules and [parseBanner]; and the Elasticsearch probe of
    [service_elasticsearch.go]. *)

From Stdlib Require Import ZArith List String Ascii Strings.Byte Lia Bool.
From stdpp Require Import base list strings gmap.
From S2P Require Import Prelude Bytes GoStrings Text Result Stream Wire Service.
Open Scope Z_scope.

(** ** Regular expressions

    The fragment the rules are written in: literals, classes, greedy repetition of a
    class, sequence, choice and capturing groups.  Every class is a set of ASCII
    characters, so bytes are as good as runes. *)
Inductive re :=
| REps
| RLit (s : string)
| RMany (p : ascii -> bool)
| RSeq (a b : re)
| RAlt (a b : re)
| RCls (p : ascii -> bool)
| RGrp (i : nat) (a : re).

Definition ROpt (a : re) : re := RAlt a REps.
Definition RPlus (p : ascii -> bool) : re := RSeq (RCls p) (RMany p).
Definition RSeqs (l : list re) : re := foldr RSeq REps l.
Definition RAlts (l : list string) : re :=
  match l with [] => RLit "" | s :: l => foldl (fun r s => RAlt r (RLit s)) (RLit s) l end.

(** The ways to go on behind a repetition, the longest first. *)
Fixpoint many (p : ascii -> bool) (s : string) : list string :=
  match s with
  | String c s' => if p c then many p s' ++ [s] else [s]
  | EmptyString => [s]
  end.

(** A match: what is left of the text and the captured groups. *)
Definition found : Type := string * list (nat * string).

(** The part of [s] in front of its suffix [t] *)
Definition upTo (s t : string) : string := takeString (String.length s - String.length t) s.

(** All matches at the start of [s], the preferred one first (leftmost-first semantics). *)
Fixpoint run (r : re) (s : string) : list found :=
  match r with
  | REps => [(s, [])]
  | RLit w => if HasPrefix s w then [(dropString (String.length w) s, [])] else []
  | RCls p => match s with String c s' => if p c then [(s', [])] else [] | EmptyString => [] end
  | RMany p => map (fun t => (t, [])) (many p s)
  | RSeq a b => flat_map (fun f => map (fun g => (fst g, snd f ++ snd g)) (run b (fst f))) (run a s)
  | RAlt a b => run a s ++ run b s
  | RGrp i a => map (fun f => (fst f, (i, upTo s (fst f)) :: snd f)) (run a s)
  end.

(** The number of groups *)
Fixpoint groups (r : re) : nat :=
  match r with
  | RSeq a b | RAlt a b => groups a + groups b
  | RGrp _ a => S (groups a)
  | _ => 0
  end.

Definition group (i : nat) (g : list (nat * string)) : string :=
  match List.find (fun kv => Nat.eqb (fst kv) i) g with Some kv => snd kv | None => "" end.

(** A rule's expression: whether it is anchored by [^], and the rest *)
Record regexp := { anchored : bool; body : re }.

(** [Re.FindStringSubmatch(s)]: the groups of the leftmost match *)
Fixpoint search (r : re) (s : string) : option (list (nat * string)) :=
  match run r s with
  | f :: _ => Some (snd f)
  | [] => match s with String _ s' => search r s' | EmptyString => None end
  end.

Definition FindStringSubmatch (r : regexp) (s : string) : option (list (nat * string)) :=
  if anchored r then match run (body r) s with f :: _ => Some (snd f) | [] => None end else search (body r) s.

(** *** Classes *)

Definition among (cs : string) (c : ascii) : bool := existsb (Ascii.eqb c) (list_ascii_of_string cs).
Definition isUpper (c : ascii) : bool := (65 <=? code c) && (code c <=? 90).
Definition isLower (c : ascii) : bool := (97 <=? code c) && (code c <=? 122).
Definition isLetter (c : ascii) : bool := isUpper c || isLower c.
Definition isAlnum (c : ascii) : bool := isLetter c || isDigit c.
(** [\w] *)
Definition isWord (c : ascii) : bool := isAlnum c || (code c =? 95).
(** [\s] *)
Definition isBlank (c : ascii) : bool := among " " c || existsb (Z.eqb (code c)) [9; 10; 12; 13].
(** [[\w.+\-]] *)
Definition isVersion (c : ascii) : bool := isWord c || among ".+-" c.

(** ** The rules *)

Record bannerRule := { Re : regexp; ruleProduct : string }.

Definition version2 : re := RGrp 2 (RSeq (RCls isDigit) (RMany isVersion)).

Definition bannerRules : list bannerRule :=
  [{| Re := {| anchored := true;
               body := RSeqs [RLit "SSH-"; RPlus isDigit; RLit "."; RPlus isDigit; RLit "-";
                              RGrp 1 (RSeq (RCls isLetter) (RMany isAlnum)); RCls (among "_ "); version2] |};
      ruleProduct := "" |};
   {| Re := {| anchored := false;
               body := RSeqs [RLit "ESMTP "; RGrp 1 (RAlts ["Postfix"; "Exim"; "Sendmail"; "qmail"; "OpenSMTPD"; "Microsoft ESMTP"]);
                              ROpt (RSeq (RPlus isBlank) (RGrp 2 (RSeq (RCls isDigit) (RMany (fun c => isWord c || among "." c)))))] |};
      ruleProduct := "" |};
   {| Re := {| anchored := false;
               body := RSeqs [ROpt (RLit "("); RGrp 1 (RAlts ["vsFTPd"; "ProFTPD"; "FileZilla Server"; "Pure-FTPd"; "Microsoft FTP"]);
                              RPlus isBlank; version2; ROpt (RLit ")")] |};
      ruleProduct := "" |};
   {| Re := {| anchored := false; body := RGrp 1 (RAlts ["Dovecot"; "Cyrus IMAP"; "Courier-IMAP"; "Microsoft Exchange"]) |};
      ruleProduct := "" |};
   {| Re := {| anchored := true;
               body := RSeqs [RLit "RFB "; RGrp 1 (RSeqs [RCls isDigit; RCls isDigit; RCls isDigit; RLit ".";
                                                           RCls isDigit; RCls isDigit; RCls isDigit])] |};
      ruleProduct := "VNC" |};
   {| Re := {| anchored := false;
               body := RSeqs [RGrp 1 (RSeqs [RPlus isDigit; RLit "."; RPlus isDigit; RLit "."; RPlus isDigit]);
                              RMany (fun c => among "-" c || isWord c); RGrp 2 (RAlts ["MySQL"; "MariaDB"])] |};
      ruleProduct := "" |}]%string.

Fixpoint applyRules (rules : list bannerRule) (banner : string) : string * string :=
  match rules with
  | [] => (""%string, ""%string)
  | rule :: rules =>
      match FindStringSubmatch (Re rule) banner with
      | None => applyRules rules banner
      | Some m =>
          let n := groups (body (Re rule)) in
          if negb (String.eqb (ruleProduct rule) "") then (ruleProduct rule, if (1 <=? n)%nat then group 1 m else ""%string)
          else if (2 <=? n)%nat then (group 1 m, group 2 m)
          else if (1 <=? n)%nat then (group 1 m, ""%string)
          else applyRules rules banner
      end
  end.

Definition parseBanner (banner : string) : string * string :=
  if String.eqb banner "" then (""%string, ""%string) else applyRules bannerRules banner.

(** ** Elasticsearch *)

(** What the probe looks at in a response: status, the first WWW-Authenticate header,
    and the body up to the error that ends it. *)
Record esResponse := { esCode : Z; esStatus : string; esAuth : string; esBody : bytes * option string }.

(** The root document as [json.Unmarshal] fills it in: missing fields are empty. *)
Record esDoc := { esName : string; esCluster : string; esNumber : string; esLucene : string; esDistribution : string; esTagline : string }.

(** [io.ReadAll(io.LimitReader(body, n))] *)
Definition readLimited (n : Z) (body : bytes * option string) : bytes * option string :=
  if blen (fst body) <? n then body else (take (Z.to_nat n) (fst body), None).

Definition quoteS : string := String (ascii_of_N 34) "".

Definition esInfo (doc : esDoc) : serviceInfo :=
  let given k v := when (negb (String.eqb v "")) (k, v) in
  {| Product := if String.eqb (esDistribution doc) "opensearch" then "OpenSearch" else "Elasticsearch"; Version := esNumber doc; Banner := esTagline doc;
     Extra := Some (assigns (("auth", "open") :: given "cluster" (esCluster doc) ++ given "lucene" (esLucene doc)
                             ++ given "tagline" (esTagline doc) ++ given "node_name" (esName doc)))%list%string |}.

Definition crlfString : string := String (ascii_of_N 13) (String (ascii_of_N 10) "").

Definition esRequest (host : string) : string :=
  ("GET / HTTP/1.0" +:+ crlfString +:+ "Host: " +:+ host +:+ crlfString +:+ "User-Agent: netdoc" +:+ crlfString +:+
   "Accept: application/json" +:+ crlfString +:+ "Connection: close" +:+ crlfString +:+ crlfString)%string.

(** [readResponse] is [http.ReadResponse], [unmarshal] is [json.Unmarshal] into the document. *)
Definition probeElasticsearch {C : Type} `{Wire C} (dialProbe : string -> option C) (readResponse : C -> option esResponse)
    (unmarshal : bytes -> option esDoc) (addr host : string) : serviceInfo :=
  let info := productInfo "Elasticsearch" in
  match dialProbe addr with
  | None => productInfo ""
  | Some conn =>
      match write (ofString (esRequest host)) conn with
      | inr _ => info
      | inl conn =>
          match readResponse conn with
          | None => info
          | Some resp =>
              let auth := esAuth resp in
              if esCode resp =? 401 then
                if Contains (ToLower auth) "elasticsearch" || Contains (ToLower auth) ("realm=" +:+ quoteS +:+ "security" +:+ quoteS) then
                  {| Product := "Elasticsearch"; Version := ""; Banner := ("401 Unauthorized " +:+ middleDot +:+ " " +:+ auth)%string;
                     Extra := Some (assigns [("auth", "required"); ("www_authenticate", auth)]%string) |}
                else productInfo ""
              else if negb (esCode resp =? 200) then {| Product := "Elasticsearch"; Version := ""; Banner := esStatus resp; Extra := None |}
              else
                let '(body, err) := readLimited 16384 (esBody resp) in
                match err with
                | Some _ => info
                | None =>
                    match unmarshal body with
                    | None => {| Product := ""; Version := ""; Banner := toString (take 64 body); Extra := None |}
                    | Some doc => esInfo doc
                    end
                end
          end
      end
  end.

Example banner_ssh : parseBanner "SSH-2.0-OpenSSH_8.9p1 Ubuntu-3ubuntu0.1" = ("OpenSSH", "8.9p1")%string.
Proof. by vm_compute. Qed.
Example banner_exim : parseBanner "220 mx ESMTP Exim 4.94" = ("Exim", "4.94")%string.
Proof. by vm_compute. Qed.
Example banner_postfix : parseBanner "220 mx.example.com ESMTP Postfix (Ubuntu)" = ("Postfix", "")%string.
Proof. by vm_compute. Qed.
Example banner_ftp : parseBanner "220 (vsFTPd 3.0.3)" = ("vsFTPd", "3.0.3")%string.
Proof. by vm_compute. Qed.
Example banner_vnc : parseBanner "RFB 003.008" = ("VNC", "003.008")%string.
Proof. by vm_compute. Qed.

(** The rule for MySQL captures the version first: it is reported as the product, and
    the product as the version. *)
Example banner_mysql : parseBanner "8.0.32-MySQL Community Server" = ("8.0.32", "MySQL")%string.
Proof. by vm_compute. Qed.

(** Microsoft's server greets with "Microsoft ESMTP"; the rule expects ESMTP twice. *)
Example banner_exchange : parseBanner "220 mail Microsoft ESMTP MAIL Service, Version: 10.0" = ("", "")%string.
Proof. by vm_compute. Qed.

(** ** What a match captures is a piece of the text *)

Definition infix (s x : string) : Prop := exists a b, s = (a +:+ x +:+ b)%string.

Lemma infix_nil s : infix s "".
Proof. by exists ""%string, s. Qed.

Lemma infix_app a s x : infix s x -> infix (a +:+ s) x.
Proof. intros (u & v & ->). exists (a +:+ u)%string, v. by rewrite <- !appString_assoc. Qed.

Lemma upTo_app w t : upTo (w +:+ t) t = w.
Proof.
  unfold upTo. rewrite length_appString. replace (String.length w + String.length t - String.length t)%nat with (String.length w) by lia.
  by rewrite takeString_app.
Qed.

Lemma prefix_drop w s : HasPrefix s w = true -> s = (w +:+ dropString (String.length w) s)%string.
Proof.
  unfold HasPrefix. revert s. induction w as [|c w IH]; intros s; [done|]. destruct s as [|d s]; [done|]. cbn.
  destruct (ascii_dec c d) as [->|]; [|done]. intros Hp. by rewrite <- IH.
Qed.

Lemma many_suffix p s t : In t (many p s) -> exists w, s = (w +:+ t)%string.
Proof.
  induction s as [|c s IH]; cbn; [intros [<-|[]]; by exists ""%string|]. destruct (p c); [|intros [<-|[]]; by exists ""%string].
  rewrite in_app_iff. intros [Hin|[<-|[]]]; [|by exists ""%string]. destruct (IH Hin) as [w ->]. by exists (String c w).
Qed.

Lemma run_captures r : forall s f, In f (run r s) -> (exists w, s = (w +:+ fst f)%string) /\ forall i x, In (i, x) (snd f) -> infix s x.
Proof.
  induction r as [|w|p|a IHa b IHb|a IHa b IHb|p|k a IHa]; intros s f; cbn [run].
  - intros [<-|[]]. split; [by exists ""%string|done].
  - destruct (HasPrefix s w) eqn:Ep; [|done]. intros [<-|[]]. split; [exists w; by apply prefix_drop|done].
  - intros (t & <- & Ht)%in_map_iff. split; [by eapply many_suffix|done].
  - intros (fa & Ha & (fb & <- & Hb)%in_map_iff)%in_flat_map. destruct (IHa _ _ Ha) as [[u Hu] Ga], (IHb _ _ Hb) as [[v Hv] Gb].
    cbn [fst snd]. split; [exists (u +:+ v)%string; by rewrite <- appString_assoc, <- Hv|].
    intros i x [Hin|Hin]%in_app_iff; [by eapply Ga|]. rewrite Hu. by eapply infix_app, Gb.
  - intros [Hin|Hin]%in_app_iff; [by apply IHa|by apply IHb].
  - destruct s as [|c s]; [done|]. destruct (p c); [|done]. intros [<-|[]]. split; [by exists (String c "")|done].
  - intros (g & <- & Hg)%in_map_iff. destruct (IHa _ _ Hg) as [[w Hw] G]. cbn [fst snd]. split; [by exists w|].
    intros i x [[= <- <-]|Hin]; [|by eapply G]. rewrite Hw at 2. rewrite upTo_app. exists ""%string, (fst g). done.
Qed.

Lemma search_captures r : forall s g, search r s = Some g -> forall i x, In (i, x) g -> infix s x.
Proof.
  assert (Hrun : forall s f l, run r s = f :: l -> forall i x, In (i, x) (snd f) -> infix s x).
  { intros s f l Hr. apply (run_captures r s f). rewrite Hr. by left. }
  induction s as [|c s IH]; intros g; cbn [search]; destruct (run r _) as [|f l] eqn:Er; try done.
  - intros [= <-]. by eapply Hrun.
  - intros Hg i x Hin. change (String c s) with (String c "" +:+ s)%string. by eapply infix_app, IH.
  - intros [= <-]. by eapply Hrun.
Qed.

Lemma find_captures re s m i : FindStringSubmatch re s = Some m -> infix s (group i m).
Proof.
  intros Hm. assert (Hall : forall i x, In (i, x) m -> infix s x).
  { unfold FindStringSubmatch in Hm. destruct (anchored re); [|by eapply search_captures].
    destruct (run (body re) s) as [|f l] eqn:Er; [done|]. injection Hm as <-. apply (run_captures (body re) s f). rewrite Er. by left. }
  unfold group. destruct (List.find _ m) as [[j x]|] eqn:Ef; [|apply infix_nil]. apply List.find_some in Ef as [Hin _]. by eapply Hall.
Qed.

Definition ruleOk (banner : string) (r : bannerRule) : Prop :=
  ruleProduct r = ""%string \/ (ruleProduct r = "VNC"%string /\ (FindStringSubmatch (Re r) banner <> None -> HasPrefix banner "RFB " = true)).

Lemma bannerRules_ok banner : Forall (ruleOk banner) bannerRules.
Proof.
  unfold bannerRules. repeat (apply Forall_cons; split; [try by left|]); [|done]. right. split; [done|].
  unfold FindStringSubmatch. cbn [Re anchored body RSeqs foldr run]. by destruct (HasPrefix banner "RFB ").
Qed.

Lemma applyRules_captures banner p v rules : Forall (ruleOk banner) rules -> applyRules rules banner = (p, v) ->
  infix banner v /\ (infix banner p \/ (p = "VNC" /\ HasPrefix banner "RFB " = true))%string.
Proof.
  induction 1 as [|r rules Hr Hrs IH]; cbn [applyRules]; [intros [= <- <-]; split; [|left]; apply infix_nil|].
  destruct (FindStringSubmatch (Re r) banner) as [m|] eqn:Em; [|exact IH]. cbv zeta. pose proof (find_captures (Re r) banner m) as Hc.
  destruct Hr as [->|[-> Hv]].
  - cbn [String.eqb negb]. destruct (2 <=? _)%nat; [intros [= <- <-]; split; [|left]; by apply Hc|].
    destruct (1 <=? _)%nat; [|exact IH]. intros [= <- <-]. split; [apply infix_nil|left; by apply Hc].
  - change (negb (String.eqb "VNC" "")) with true. cbn iota. destruct (1 <=? _)%nat; intros [= <- <-];
      (split; [by first [apply Hc|apply infix_nil]|right; split; [done|apply Hv; by rewrite Em]]).
Qed.

(** What [parseBanner] reports was in the banner: the version is a piece of it, and so
    is the product, unless it is VNC, whose banner begins with RFB. *)
Theorem parseBanner_reported banner p v (Hparse : parseBanner banner = (p, v)) :
  infix banner v /\ (infix banner p \/ (p = "VNC" /\ HasPrefix banner "RFB " = true))%string.
Proof.
  unfold parseBanner in Hparse. destruct (String.eqb banner ""); [injection Hparse as <- <-; split; [|left]; apply infix_nil|].
  eapply applyRules_captures, Hparse. apply bannerRules_ok.
Qed.

(** ** Reading an identification *)

Lemma run_seq a b s s1 t g1 g2 l k : run a s = (s1, g1) :: l -> run b s1 = (t, g2) :: k ->
  exists l', run (RSeq a b) s = (t, g1 ++ g2) :: l'.
Proof. intros Ha Hb. cbn [run]. rewrite Ha. cbn [flat_map fst snd]. rewrite Hb. cbn [map app fst snd]. by eexists. Qed.

Lemma many_all p w t : forallString p w = true -> match t with String c _ => p c = false | EmptyString => True end ->
  exists l, many p (w +:+ t) = t :: l.
Proof.
  intros Hw Ht. induction w as [|c w IH].
  - change ("" +:+ t)%string with t. destruct t as [|c t]; [by exists []|]. cbn. rewrite Ht. by exists [].
  - cbn in Hw. apply andb_true_iff in Hw as [Hc Hw]. destruct (IH Hw) as [l Hl]. change (String c w +:+ t)%string with (String c (w +:+ t)).
    cbn [many]. rewrite Hc, Hl. by eexists.
Qed.

Lemma run_many p w t : forallString p w = true -> match t with String c _ => p c = false | EmptyString => True end ->
  exists l, run (RMany p) (w +:+ t) = (t, []) :: l.
Proof. intros Hw Ht. destruct (many_all p w t Hw Ht) as [l Hl]. cbn [run]. rewrite Hl. by eexists. Qed.

(** A class and its repetition read a word up to the first character outside. *)
Lemma run_word p q c w t : p c = true -> forallString q w = true -> match t with String d _ => q d = false | EmptyString => True end ->
  exists l, run (RSeq (RCls p) (RMany q)) (String c w +:+ t) = (t, []) :: l.
Proof.
  intros Hc Hw Ht. destruct (run_many q w t Hw Ht) as [l Hl]. eapply (run_seq (RCls p) (RMany q) _ (w +:+ t)%string t [] [] []); [|exact Hl].
  change (String c w +:+ t)%string with (String c (w +:+ t)). cbn [run]. by rewrite Hc.
Qed.

Lemma run_group i a s t l w : run a s = (t, []) :: l -> s = (w +:+ t)%string -> exists l', run (RGrp i a) s = (t, [(i, w)]) :: l'.
Proof. intros Ha Hs. cbn [run]. rewrite Ha. cbn [map fst snd]. rewrite Hs, upTo_app. by eexists. Qed.

Lemma run_lit w t : run (RLit w) (w +:+ t) = [(t, [])].
Proof. cbn [run]. rewrite HasPrefix_app, dropString_app. done. Qed.

Definition stops (p : ascii -> bool) (t : string) : Prop := match t with String d _ => p d = false | EmptyString => True end.

Lemma find_anchored re s t g l : anchored re = true -> run (body re) s = (t, g) :: l -> FindStringSubmatch re s = Some g.
Proof. intros Ha Hr. unfold FindStringSubmatch. by rewrite Ha, Hr. Qed.

(** An SSH identification is read back: of a line of any protocol version the product
    is the word in front of the first underscore or blank and the version is what follows,
    up to the first character that no version has. *)
Theorem parseBanner_ssh a major b minor c product sep d version rest
  (Ha : isDigit a = true) (Hmajor : forallString isDigit major = true) (Hb : isDigit b = true) (Hminor : forallString isDigit minor = true)
  (Hc : isLetter c = true) (Hproduct : forallString isAlnum product = true) (Hsep : among "_ " sep = true)
  (Hd : isDigit d = true) (Hversion : forallString isVersion version = true) (Hrest : stops isVersion rest) :
  parseBanner ("SSH-" +:+ (String a major +:+ ("." +:+ (String b minor +:+ ("-" +:+ (String c product +:+ String sep (String d version +:+ rest)))))))
    = (String c product, String d version).
Proof.
  destruct (run_word isDigit isVersion d version rest Hd Hversion Hrest) as [l1 R1].
  destruct (run_group 2 _ _ rest l1 (String d version) R1 eq_refl) as [l2 R2].
  destruct (run_seq version2 REps _ _ rest _ [] _ [] R2 eq_refl) as [l3 R3].
  destruct (run_seq (RCls (among "_ ")) _ (String sep (String d version +:+ rest)) (String d version +:+ rest)%string rest [] _ [] _
    ltac:(cbn [run]; by rewrite Hsep) R3) as [l4 R4].
  destruct (run_word isLetter isAlnum c product (String sep (String d version +:+ rest)) Hc Hproduct) as [l5 R5]; [cbn; by destruct sep as [[] [] [] [] [] [] [] []]|].
  destruct (run_group 1 _ _ _ l5 (String c product) R5 eq_refl) as [l6 R6].
  destruct (run_seq (RGrp 1 _) _ _ _ _ _ _ _ _ R6 R4) as [l7 R7].
  destruct (run_seq (RLit "-") _ _ _ _ _ _ _ _ (run_lit "-" _) R7) as [l8 R8].
  destruct (run_word isDigit isDigit b minor ("-" +:+ (String c product +:+ String sep (String d version +:+ rest))) Hb Hminor) as [l9 R9]; [done|].
  destruct (run_seq (RPlus isDigit) _ _ _ _ _ _ _ _ R9 R8) as [l10 R10].
  destruct (run_seq (RLit ".") _ _ _ _ _ _ _ _ (run_lit "." _) R10) as [l11 R11].
  set (t := ("." +:+ _)%string) in *.
  destruct (run_word isDigit isDigit a major t Ha Hmajor) as [l12 R12]; [done|].
  destruct (run_seq (RPlus isDigit) _ _ _ _ _ _ _ _ R12 R11) as [l13 R13].
  destruct (run_seq (RLit "SSH-") _ _ _ _ _ _ _ _ (run_lit "SSH-" _) R13) as [l14 R14].
  unfold parseBanner. rewrite (proj2 (String.eqb_neq _ _)) by done. unfold bannerRules. cbn [applyRules Re RSeqs foldr].
  rewrite (find_anchored {| anchored := true; body := _ |} _ _ _ _ eq_refl R14). reflexivity.
Qed.

Module BannerWitnesses.
Lemma parseBanner_reported_witness :
  parseBanner "220 (vsFTPd 3.0.3)" = ("vsFTPd", "3.0.3")%string
  /\ infix "220 (vsFTPd 3.0.3)" "3.0.3" /\ (infix "220 (vsFTPd 3.0.3)" "vsFTPd" \/ ("vsFTPd" = "VNC" /\ HasPrefix "220 (vsFTPd 3.0.3)" "RFB " = true))%string.
Proof. split; [by vm_compute|]. apply (parseBanner_reported "220 (vsFTPd 3.0.3)"). by vm_compute. Defined.

Lemma parseBanner_ssh_witness :
  parseBanner ("SSH-" +:+ (String "2" "" +:+ ("." +:+ (String "0" "" +:+ ("-" +:+ (String "O" "penSSH" +:+ String "_" (String "9" ".6p1" +:+ " Ubuntu")))))))
    = (String "O" "penSSH", String "9" ".6p1").
Proof. apply parseBanner_ssh; reflexivity. Defined.
End BannerWitnesses.
