(* ===== verification/Ports.v ===== *)
(** The port scan: [ports.go], [ports_udp.go] and the dispatch of [services.go] over the
    probes of the services, as they are modelled in Ssh.v, Smb.v, Services.v, Banners.v,
    Ldap.v and Mongo.v. *)

From Stdlib Require Import ZArith List String Ascii Strings.Byte Lia Bool Sorting.Permutation.
From stdpp Require Import base list strings gmap sets.
From S2P Require Import Prelude Bytes GoStrings Clock Text Decimal Result Runes Float Json Profile Report Stream.
From S2P Require Import Wire Bufio Service Ssh Smb Services Banners Ldap Mongo Dns Nameservers.
Open Scope Z_scope.

(** ** The ports to scan *)

Definition nmapTop100TCP : list Z :=
  [7; 9; 13; 21; 22; 23; 25; 26; 37; 53; 79; 80; 81; 88; 106; 110; 111; 113; 119; 135; 139; 143; 144; 179; 199; 389; 427; 443; 444; 445; 465;
   513; 514; 515; 543; 544; 548; 554; 587; 631; 646; 873; 990; 993; 995; 1025; 1026; 1027; 1028; 1029; 1110; 1433; 1720; 1723; 1755; 1900;
   2000; 2001; 2049; 2121; 2717; 3000; 3128; 3306; 3389; 3986; 4899; 5000; 5009; 5051; 5060; 5101; 5190; 5357; 5432; 5631; 5666; 5800; 5900;
   6000; 6001; 6646; 7070; 8000; 8008; 8009; 8080; 8081; 8443; 8888; 9100; 9999; 10000; 32768; 49152; 49153; 49154; 49155; 49156; 49157].

Definition nmapTop20TCP : list Z :=
  [21; 22; 23; 25; 53; 80; 110; 111; 135; 139; 143; 443; 445; 993; 995; 1723; 3306; 3389; 5900; 8080].

Definition nmapTop1000TCP : list Z :=
  [1; 3; 4; 6; 7; 9; 13; 17; 19; 20; 21; 22; 23; 24; 25; 26; 30; 32; 33; 37; 42; 43; 49; 53; 70; 79; 80; 81; 82; 83; 84; 85; 88; 89; 90; 99;
   100; 106; 109; 110; 111; 113; 119; 125; 135; 139; 143; 144; 146; 161; 163; 179; 199; 211; 212; 222; 254; 255; 256; 259; 264; 280; 301; 306;
   311; 340; 366; 389; 406; 407; 416; 417; 425; 427; 443; 444; 445; 458; 464; 465; 481; 497; 500; 512; 513; 514; 515; 524; 541; 543; 544; 545;
   548; 554; 555; 563; 587; 593; 616; 617; 625; 631; 636; 646; 648; 666; 667; 668; 683; 687; 691; 700; 705; 711; 714; 720; 722; 726; 749; 765;
   777; 783; 787; 800; 801; 808; 843; 873; 880; 888; 898; 900; 901; 902; 903; 911; 912; 981; 987; 990; 992; 993; 995; 999; 1000; 1001; 1002;
   1007; 1009; 1010; 1011; 1021; 1022; 1023; 1024; 1025; 1026; 1027; 1028; 1029; 1030; 1031; 1032; 1033; 1034; 1035; 1036; 1037; 1038; 1039;
   1040; 1041; 1042; 1043; 1044; 1045; 1046; 1047; 1048; 1049; 1050; 1051; 1052; 1053; 1054; 1055; 1056; 1057; 1058; 1059; 1060; 1061; 1062;
   1063; 1064; 1065; 1066; 1067; 1068; 1069; 1070; 1071; 1072; 1073; 1074; 1075; 1076; 1077; 1078; 1079; 1080; 1081; 1082; 1083; 1084; 1085;
   1086; 1087; 1088; 1089; 1090; 1091; 1093; 1094; 1096; 1097; 1098; 1099; 1100; 1104; 1106; 1107; 1108; 1110; 1111; 1112; 1114; 1117; 1119;
   1122; 1124; 1131; 1138; 1148; 1151; 1152; 1169; 1175; 1183; 1186; 1199; 1201; 1218; 1234; 1247; 1248; 1271; 1272; 1296; 1310; 1311; 1334;
   1352; 1417; 1433; 1434; 1443; 1455; 1461; 1494; 1500; 1501; 1503; 1521; 1524; 1533; 1580; 1600; 1666; 1687; 1700; 1717; 1718; 1720; 1723;
   1755; 1761; 1782; 1783; 1801; 1840; 1862; 1863; 1864; 1900; 1935; 1947; 1984; 1998; 1999; 2000; 2001; 2002; 2003; 2004; 2005; 2006; 2007;
   2008; 2009; 2010; 2013; 2020; 2021; 2022; 2030; 2033; 2034; 2035; 2038; 2040; 2041; 2042; 2043; 2045; 2046; 2047; 2048; 2049; 2065; 2068;
   2100; 2103; 2105; 2106; 2107; 2111; 2119; 2121; 2126; 2135; 2144; 2160; 2161; 2179; 2190; 2191; 2222; 2251; 2260; 2301; 2323; 2381; 2383;
   2393; 2394; 2399; 2401; 2492; 2500; 2522; 2525; 2601; 2602; 2604; 2605; 2607; 2608; 2638; 2701; 2702; 2717; 2718; 2725; 2809; 2811; 2869;
   2875; 2909; 2967; 2998; 3000; 3001; 3003; 3005; 3006; 3011; 3017; 3030; 3031; 3052; 3071; 3077; 3128; 3168; 3211; 3221; 3260; 3261; 3268;
   3269; 3283; 3300; 3301; 3306; 3322; 3323; 3324; 3325; 3333; 3351; 3367; 3369; 3370; 3371; 3372; 3389; 3390; 3404; 3476; 3493; 3517; 3527;
   3546; 3551; 3580; 3659; 3689; 3690; 3703; 3737; 3766; 3784; 3800; 3801; 3809; 3814; 3826; 3827; 3828; 3851; 3869; 3871; 3878; 3880; 3889;
   3905; 3914; 3918; 3920; 3945; 3971; 3986; 3995; 3998; 4000; 4001; 4002; 4003; 4004; 4005; 4006; 4045; 4111; 4125; 4126; 4129; 4224; 4242;
   4279; 4321; 4343; 4443; 4444; 4445; 4446; 4449; 4550; 4567; 4662; 4848; 4899; 4900; 4998; 5000; 5001; 5002; 5003; 5004; 5009; 5030; 5033;
   5050; 5051; 5054; 5060; 5061; 5080; 5087; 5100; 5101; 5102; 5120; 5190; 5200; 5214; 5221; 5222; 5225; 5226; 5269; 5280; 5298; 5357; 5405;
   5414; 5431; 5432; 5440; 5500; 5510; 5544; 5550; 5555; 5560; 5566; 5631; 5633; 5666; 5678; 5679; 5718; 5730; 5800; 5801; 5802; 5810; 5811;
   5815; 5822; 5825; 5850; 5859; 5862; 5877; 5900; 5901; 5902; 5903; 5904; 5906; 5907; 5910; 5911; 5915; 5922; 5925; 5950; 5952; 5959; 5960;
   5961; 5962; 5963; 5985; 5986; 5987; 5988; 5989; 5998; 5999; 6000; 6001; 6002; 6003; 6004; 6005; 6006; 6007; 6009; 6025; 6059; 6100; 6101;
   6106; 6112; 6123; 6129; 6156; 6247; 6346; 6389; 6481; 6500; 6502; 6504; 6510; 6520; 6543; 6547; 6550; 6565; 6566; 6567; 6580; 6600; 6646;
   6666; 6667; 6668; 6669; 6689; 6692; 6699; 6711; 6732; 6779; 6788; 6789; 6792; 6839; 6881; 6896; 6901; 6969; 7000; 7001; 7002; 7004; 7007;
   7019; 7024; 7025; 7050; 7051; 7070; 7080; 7100; 7103; 7106; 7123; 7200; 7201; 7241; 7272; 7278; 7281; 7402; 7435; 7438; 7443; 7496; 7512;
   7625; 7627; 7676; 7725; 7741; 7744; 7749; 7770; 7777; 7778; 7800; 7878; 7900; 7911; 7913; 7920; 7921; 7929; 7937; 7938; 7999; 8000; 8001;
   8002; 8007; 8008; 8009; 8010; 8011; 8015; 8016; 8019; 8021; 8022; 8031; 8042; 8045; 8050; 8080; 8081; 8082; 8083; 8084; 8085; 8086; 8087;
   8088; 8089; 8090; 8093; 8095; 8097; 8098; 8099; 8100; 8180; 8181; 8189; 8192; 8193; 8194; 8200; 8222; 8254; 8290; 8291; 8292; 8293; 8294;
   8300; 8333; 8383; 8385; 8400; 8402; 8443; 8481; 8500; 8540; 8600; 8648; 8649; 8651; 8652; 8654; 8675; 8676; 8686; 8701; 8765; 8766; 8800;
   8873; 8877; 8888; 8889; 8899; 8987; 8994; 8996; 9000; 9001; 9002; 9003; 9009; 9010; 9011; 9040; 9050; 9071; 9080; 9081; 9090; 9091; 9098;
   9099; 9100; 9101; 9102; 9103; 9110; 9111; 9191; 9197; 9198; 9200; 9207; 9220; 9290; 9409; 9415; 9418; 9443; 9444; 9485; 9500; 9501; 9502;
   9503; 9535; 9575; 9593; 9594; 9595; 9600; 9618; 9621; 9643; 9666; 9673; 9815; 9876; 9877; 9878; 9898; 9900; 9914; 9917; 9929; 9941; 9943;
   9944; 9968; 9988; 9998; 9999; 10000; 10001; 10002; 10003; 10004; 10009; 10010; 10012; 10024; 10025; 10082; 10180; 10215; 10243; 10566;
   10616; 10617; 10621; 10626; 10628; 10629; 10778; 11110; 11111; 11967; 12000; 12174; 12265; 12345; 13456; 13722; 13782; 13783; 14000; 14238;
   14441; 14442; 15000; 15002; 15003; 15004; 15660; 15742; 16000; 16001; 16012; 16016; 16018; 16080; 16113; 16992; 16993; 17877; 17988; 18040;
   18101; 18988; 19101; 19283; 19315; 19350; 19780; 19801; 19842; 20000; 20005; 20031; 20221; 20222; 20828; 21571; 22939; 23502; 24444; 24800;
   25734; 25735; 26214; 27000; 27352; 27353; 27355; 27356; 27715; 28201; 30000; 30718; 30951; 31038; 31337; 32768; 32769; 32770; 32771; 32772;
   32773; 32774; 32775; 32776; 32777; 32778; 32779; 32780; 32781; 32782; 32783; 32784; 32785; 33354; 33899; 34571; 34572; 34573; 35500; 38292;
   40193; 40911; 41511; 42510; 44176; 44442; 44443; 44501; 45100; 48080; 49152; 49153; 49154; 49155; 49156; 49157; 49158; 49159; 49160; 49161;
   49163; 49165; 49167; 49175; 49176; 49400; 49999; 50000; 50001; 50002; 50003; 50006; 50300; 50389; 50500; 50636; 50800; 51103; 51493; 52673;
   52822; 52848; 52869; 54045; 54328; 55055; 55056; 55555; 55600; 56737; 56738; 57294; 57797; 58080; 60020; 60443; 61532; 61900; 62078; 63331;
   64623; 64680; 65000; 65129; 65310; 65389].

(** [if !seen[p] { seen[p] = true; ports = append(ports, p) }] *)
Definition addPort (st : gset Z * list Z) (p : Z) : gset Z * list Z :=
  let '(seen, ports) := st in if bool_decide (p ∈ seen) then st else ({[p]} ∪ seen, ports ++ [p]).

(** One element of the comma-separated list; [quote] is [%q]. *)
Definition portPart (quote : string -> string) (st : gset Z * list Z) (part : string) : (gset Z * list Z) + string :=
  let part := TrimSpace part in
  if String.eqb part "" then inl st
  else if Contains part "-" then
    let '(l, r, _) := Cut part "-" in
    let '(start, ok1) := Atoi (TrimSpace l) in
    let '(end_, ok2) := Atoi (TrimSpace r) in
    if negb ok1 || negb ok2 || (start <? 1) || (65535 <? end_) || (end_ <? start) then inr ("invalid port range " +:+ quote part)%string
    else inl (foldl addPort st (seqZ start (end_ - start + 1)))
  else
    let '(p, ok) := Atoi part in
    if negb ok || (p <? 1) || (65535 <? p) then inr ("invalid port " +:+ quote part)%string
    else inl (addPort st p).

Fixpoint portParts (quote : string -> string) (st : gset Z * list Z) (parts : list string) : (gset Z * list Z) + string :=
  match parts with
  | [] => inl st
  | part :: parts => match portPart quote st part with inl st => portParts quote st parts | inr e => inr e end
  end.

Definition parsePortSpec (quote : string -> string) (spec : string) : list Z + string :=
  let spec := TrimSpace spec in
  if String.eqb spec "" then inl []
  else
    let low := ToLower spec in
    if String.eqb low "top20" then inl nmapTop20TCP
    else if String.eqb low "top100" then inl nmapTop100TCP
    else if String.eqb low "top1000" then inl nmapTop1000TCP
    else match portParts quote (∅, []) (Split spec ",") with inl (_, ports) => inl ports | inr e => inr e end.

(** ** Names *)

Definition serviceNames : list (Z * string) :=
  [(21, "ftp"); (22, "ssh"); (23, "telnet"); (25, "smtp"); (445, "microsoft-ds"); (53, "dns"); (80, "http"); (110, "pop3"); (143, "imap");
   (443, "https"); (465, "smtps"); (587, "submission"); (853, "dns-tls"); (993, "imaps"); (995, "pop3s"); (3306, "mysql"); (3389, "rdp");
   (5432, "postgresql"); (5900, "vnc"); (6379, "redis"); (8080, "http-alt"); (8443, "https-alt"); (9200, "elasticsearch"); (27017, "mongodb")]%string.

Definition serviceName (port : Z) : string :=
  match find (fun kv => fst kv =? port) serviceNames with Some kv => snd kv | None => "?" end.

Definition serviceNameUDP (port : Z) : string :=
  match find (fun kv => fst kv =? port)
    [(53, "dns (udp)"); (123, "ntp (udp)"); (161, "snmp (udp)"); (500, "isakmp (udp)"); (1900, "ssdp (udp)"); (5353, "mdns (udp)")]%string with
  | Some kv => snd kv
  | None => (serviceName port +:+ " (udp)")%string
  end.

(** ** Payloads over UDP *)

(** [splitDNSLabels]: the pieces between dots that are not empty *)
Definition splitDNSLabels (name : string) : list string := List.filter (fun l => negb (String.eqb l "")) (Split name ".").

Definition chaosHeader : bytes := [xca; xfe; x01; x00; x00; x01; x00; x00; x00; x00; x00; x00].

Definition wireLabel (lbl : string) : bytes :=
  let lbl := takeString 63 lbl in byteOf (slen lbl) :: ofString lbl.

Definition dnsCHAOSWireProbe (name : string) : bytes :=
  chaosHeader ++ flat_map wireLabel (splitDNSLabels name) ++ [x00] ++ [x00; x10] ++ [x00; x03].

Definition snmpRequest : bytes :=
  [x30; x26; x02; x01; x01; x04; x06; x70; x75; x62; x6c; x69; x63; xa0; x19; x02; x04; x71; xb4; xb5; x68; x02; x01; x00; x02; x01; x00;
   x30; x0b; x30; x09; x06; x05; x2b; x06; x01; x02; x01; x05; x00].

Definition probeUDPPayload (port : Z) : bytes :=
  if port =? 53 then dnsCHAOSWireProbe "version.bind."
  else if port =? 123 then [x16; x02; x00; x01; x00; x00; x00; x00; x00; x00; x00; x00]
  else if port =? 161 then snmpRequest
  else [x00].

(** ** The probes *)

(** What is known about a port. *)
Record portResult := {
  rPort : Z; rOpen : bool; rBanner : string; rService : string; rProduct : string; rVersion : string;
  rExtra : option (gmap string string); rMS : float64; rUDPState : string }.

(** What the scan asks of the network: the connection that verifies a port, how long it
    took, the connections of the probes, and the parts of the probes that are libraries
    or the kernel: see the files of the probes, and [classifyUDPPort] for [classify]. *)
Record network (C : Type) := {
  connect : string -> option C; connectMS : string -> float64;
  dialTCP : string -> option C; dialUDP : string -> option C;
  sshDial : string -> option (string * bytes); readResponse : C -> option esResponse; unmarshal : bytes -> option esDoc;
  askCHAOS : string -> string -> (Z * list (list string)) + string; clock : goTime;
  classify : string -> Z -> bytes -> string }.
Arguments connect {C}. Arguments connectMS {C}. Arguments dialTCP {C}. Arguments dialUDP {C}. Arguments sshDial {C}. Arguments readResponse {C}.
Arguments unmarshal {C}. Arguments askCHAOS {C}. Arguments clock {C}. Arguments classify {C}.

(** A [net.Conn] is a reader and a peer as the LDAP and MongoDB probes use it:
    [io.ReadFull] and [Write]. *)
Section Conn.
Context {C : Type} `{Wire C}.

Definition connFull (n : Z) (c : C) : outcome (option bytes * C) :=
  r <~ recvFull n c ;; Ret (match r with inl (b, c) => (Some b, c) | inr (_, c) => (None, c) end).

Lemma wp_recvFull_end n c (Q : (bytes * C) + (string * C) -> Prop) E : 0 <= n ->
  (forall b c', incoming c = b ++ incoming c' -> blen b = n -> Q (inl (b, c'))) ->
  (forall e c', blen (incoming c) < n -> incoming c' = [] -> Q (inr (e, c'))) -> wp (recvFull n c) Q E.
Proof.
  intros Hn Hs Hf. unfold recvFull.
  apply (wp_loop _ (fun '(got, c1) => incoming c = got ++ incoming c1 /\ blen got <= n)
    (fun '(_, c1) => length (incoming c1))); [|split; [done|]; by rewrite blen_nil|lia].
  intros [got c1] (Hi & Hg). unfold fullTurn. destruct (blen got <? n) eqn:E'; to_prop.
  - destruct (recv _ c1) as [[b e] c2] eqn:Hrecv. apply recv_spec in Hrecv as (Hi2 & Hb & He); [|lia].
    destruct e as [e|].
    + apply wp_ret. cbn. destruct He as [-> Hnil]. apply Hf; [rewrite Hi, Hnil, app_nil_r; lia|]. rewrite Hnil in Hi2. by symmetry in Hi2.
    + apply wp_ret. cbn [stepPost]. rewrite Hi, Hi2, app_assoc, blen_app. split_and!; [done|lia|].
      rewrite length_app. destruct b; [done|]. cbn. lia.
  - apply wp_ret. cbn. apply Hs; [done|lia].
Qed.

Lemma connFull_spec n c : 0 <= n -> exists r c', connFull n c = Ret (r, c') /\
  match r with Some b => incoming c = b ++ incoming c' /\ blen b = n | None => blen (incoming c) < n /\ incoming c' = [] end.
Proof.
  intros Hn. assert (Hw : wp (connFull n c) (fun rc => match fst rc with
    | Some b => incoming c = b ++ incoming (snd rc) /\ blen b = n | None => blen (incoming c) < n /\ incoming (snd rc) = [] end) (fun _ => False)).
  { unfold connFull. wp_step. apply wp_recvFull_end; [done| |]; intros; by apply wp_ret. }
  destruct (connFull n c) as [[r c']| | |]; try done. by exists r, c'.
Qed.

Definition connReader : Reader C := {| pending := incoming; readFull := connFull; readFull_spec := connFull_spec |}.
Definition connPeer : @Peer C connReader := {| send := fun b c => match write b c with inl c => Some c | inr _ => None end |}.

Definition ldapOver (dial : string -> option C) (addr : string) : outcome serviceInfo := @probeLDAP C connReader connPeer (dial addr).
Definition mongoOver (dial : string -> option C) (addr : string) : outcome serviceInfo := @probeMongoDB C connReader connPeer (dial addr).
End Conn.

Section Scan.
Context {C : Type} `{Wire C} (net : network C).

(** [servicePortMap]: the probes, as functions of address and host *)
Definition servicePortMap : list (Z * (string -> string -> outcome serviceInfo)) :=
  let ssh addr _ := probeSSH (dialTCP net) (sshDial net) addr in
  let ldap addr _ := ldapOver (dialTCP net) addr in
  let es addr host := Ret (probeElasticsearch (dialTCP net) (readResponse net) (unmarshal net) addr host) in
  let mongo addr _ := mongoOver (dialTCP net) addr in
  [(22, ssh); (23, fun addr _ => probeTelnet (dialTCP net) addr); (389, ldap); (445, fun addr _ => probeSMB2 (dialTCP net) (clock net) addr);
   (636, ldap); (3389, fun addr _ => probeRDP (dialTCP net) addr); (5432, fun addr _ => probePostgreSQL (dialTCP net) addr);
   (6379, fun addr _ => probeRedis (dialTCP net) addr); (9200, es); (9300, es); (11211, fun addr _ => probeMemcached (dialTCP net) addr);
   (27017, mongo); (27018, mongo); (27019, mongo)].

Definition udpServicePortMap : list (Z * (string -> string -> outcome serviceInfo)) :=
  [(53, fun addr _ => Ret (probeDNSUDP (askCHAOS net) addr)); (123, fun addr _ => probeNTP (dialUDP net) addr)].

Definition probeAt (m : list (Z * (string -> string -> outcome serviceInfo))) (port : Z) : option (string -> string -> outcome serviceInfo) :=
  match find (fun kv => fst kv =? port) m with Some kv => Some (snd kv) | None => None end.

(** The function of [strings.Map]; white space outside ASCII, at which [strings.Fields]
    separates too, is a blank from here on. *)
Definition cleanRune (r : string) : string :=
  match r with
  | String c EmptyString =>
      if existsb (Z.eqb (code c)) [10; 13; 9] then " " else if (code c <? 32) || (code c =? 127) then "" else r
  | _ => if isSpaceRune r then " " else r
  end.

Definition cleanBanner (s : string) : string := TrimSpace (Join (Fields (String.concat "" (map cleanRune (runes s)))) " ").

Definition closedPort (port : Z) : portResult :=
  {| rPort := port; rOpen := false; rBanner := ""; rService := serviceName port; rProduct := ""; rVersion := ""; rExtra := None;
     rMS := Float 0 0; rUDPState := "" |}.

(** An open port with what was found out about it; an empty map is not kept. *)
Definition openPort (port : Z) (ms : float64) (product version banner : string) (extra : option (gmap string string)) : portResult :=
  {| rPort := port; rOpen := true; rBanner := banner; rService := serviceName port; rProduct := product; rVersion := version;
     rExtra := match extra with Some m => if decide (m = ∅) then None else Some m | None => None end; rMS := ms; rUDPState := "" |}.

Definition scanPort (target : string) (port : Z) : outcome portResult :=
  let addr := JoinHostPort target (fmtD port) in
  match connect net addr with
  | None => Ret (closedPort port)
  | Some conn =>
      match probeAt servicePortMap port with
      | Some probe => info <~ probe addr target ;; Ret (openPort port (connectMS net addr) (Product info) (Version info) (Banner info) (Extra info))
      | None =>
          let '(buf, _, _) := recv 256 conn in
          if 0 <? blen buf then
            let banner := cleanBanner (toString buf) in
            let '(product, version) := parseBanner banner in
            Ret (openPort port (connectMS net addr) product version banner None)
          else Ret (openPort port (connectMS net addr) "" "" "" None)
      end
  end.

(** *** Over UDP *)

Definition setUDP (state : string) (port : Z) (r : portResult) : portResult :=
  {| rPort := rPort r; rOpen := rOpen r; rBanner := rBanner r; rService := serviceNameUDP port; rProduct := rProduct r; rVersion := rVersion r;
     rExtra := rExtra r; rMS := rMS r; rUDPState := state |}.

(** The answer of a probe, where the scan over TCP left something open *)
Definition promote (info : serviceInfo) (port : Z) (r : portResult) : portResult :=
  let first a b := if String.eqb a "" then b else a in
  {| rPort := rPort r; rOpen := rOpen r; rBanner := first (rBanner r) (Banner info);
     rService := if String.eqb (rService r) "" || String.eqb (rService r) "?" then serviceNameUDP port else rService r;
     rProduct := first (rProduct r) (Product info); rVersion := first (rVersion r) (Version info);
     rExtra := Some (default ∅ (rExtra r) ∪ default ∅ (Extra info)); rMS := rMS r; rUDPState := "open" |}.

Definition scanUDPPort (r : portResult) (target : string) (port : Z) : outcome portResult :=
  match probeAt udpServicePortMap port with
  | None => Ret r
  | Some probe =>
      info <~ probe (JoinHostPort target (fmtD port)) target ;;
      let cls := classify net target port (probeUDPPayload port) in
      Ret (if negb (String.eqb (Product info) "") then promote info port r
           else if existsb (String.eqb cls) ["open"; "closed"; "filtered"; "open|filtered"]%string then setUDP cls port r
           else r)
  end.

(** *** The scan *)

(** A goroutine per port that writes to the entry of its index; a panic in one of them
    stops the program. *)
Definition scanAll (target : string) (ports : list Z) (arrival : list nat) : outcome (list portResult) :=
  foldl (fun acc idx => results <~ acc ;; r <~ scanPort target (nth idx ports 0) ;; Ret (<[idx := r]> results))
    (Ret (map closedPort ports)) arrival.

Definition scanUDPAll (target : string) (results : list portResult) (arrival : list nat) : outcome (list portResult) :=
  foldl (fun acc idx => results <~ acc ;; let r := nth idx results (closedPort 0) in
                        r <~ scanUDPPort r target (rPort r) ;; Ret (<[idx := r]> results))
    (Ret results) arrival.

(** The indices the second loop starts a goroutine for *)
Definition udpIndices (ports : list Z) : list nat :=
  List.filter (fun i => match probeAt udpServicePortMap (nth i ports 0) with Some _ => true | None => false end) (seq 0 (length ports)).

Definition interesting (r : portResult) : bool := rOpen r || negb (String.eqb (rUDPState r) "").
End Scan.

Definition sepDot : string := ("  " +:+ middleDot +:+ "  ")%string.

(** [%5d] *)
Definition pad5 (n : Z) : string := let s := fmtD n in (Repeat " " (5 - String.length s) +:+ s)%string.

Definition udpText (state : string) : string :=
  if String.eqb state "open" then (sepDot +:+ "udp: open")%string
  else if String.eqb state "closed" then (sepDot +:+ "udp: closed (ICMP)")%string
  else if String.eqb state "filtered" then (sepDot +:+ "udp: filtered")%string
  else if String.eqb state "open|filtered" then (sepDot +:+ "udp: open|filtered")%string
  else ""%string.

Definition extraKeys : list string :=
  ["host_key_type"; "host_key_sha256"; "auth"; "cluster"; "primary"; "mode"; "role"; "id_server"; "version_bind"; "hostname_bind"; "stratum"; "refid"]%string.

Definition extraText (k v : string) : outcome string :=
  if String.eqb v "" then Ret ""%string
  else if String.eqb k "host_key_type" then Ret (sepDot +:+ v)%string
  else if String.eqb k "host_key_sha256" then v <~ truncate v 26 ;; Ret (" " +:+ v)%string
  else if String.eqb k "auth" then
    Ret (if String.eqb v "required" || String.eqb v "restricted" then sepDot +:+ "auth: " +:+ v else if String.eqb v "open" then sepDot +:+ "unauth" else "")%string
  else Ret (sepDot +:+ k +:+ ": " +:+ v)%string.

Definition productText (r : portResult) : outcome string :=
  if negb (String.eqb (rProduct r) "") && negb (String.eqb (rVersion r) "") then Ret (sepDot +:+ rProduct r +:+ " " +:+ rVersion r)%string
  else if negb (String.eqb (rProduct r) "") then Ret (sepDot +:+ rProduct r)%string
  else if negb (String.eqb (rBanner r) "") then b <~ truncate (rBanner r) 36 ;; Ret (sepDot +:+ b)%string
  else Ret ""%string.

Definition portLine (r : portResult) : outcome string :=
  let line := (pad5 (rPort r) +:+ "  " +:+ padRight 13 (rService r))%string in
  let line := (line +:+ udpText (rUDPState r))%string in
  p <~ productText r ;;
  foldl (fun acc k => line <~ acc ;; t <~ extraText k (get (default ∅ (rExtra r)) k) ;; Ret (line +:+ t)%string) (Ret (line +:+ p)%string) extraKeys.

Fixpoint portLines (rs : list portResult) : outcome (list string) :=
  match rs with
  | [] => Ret []
  | r :: rs => l <~ portLine r ;; ls <~ portLines rs ;; Ret (l :: ls)
  end.

Definition stringMap (m : gmap string string) : value := VMap "map[string]string" (map (fun kv => (fst kv, VString (snd kv))) (map_to_list m)).

Definition portValue (r : portResult) : value :=
  VStruct "portResult"
    ([("port", VInt (rPort r)); ("open", VBool (rOpen r))] ++ optString "banner" (rBanner r) ++ optString "service" (rService r)
     ++ optString "product" (rProduct r) ++ optString "version" (rVersion r)
     ++ (match rExtra r with Some m => when (negb (bool_decide (m = ∅))) ("extra", stringMap m) | None => [] end)
     ++ when (negb (isZero (rMS r))) ("ms", VFloat (rMS r)) ++ optString "udp_state" (rUDPState r))%list%string.

Definition portSummary (openCount scanned : Z) (target : string) : string :=
  (fmtD openCount +:+ "/" +:+ fmtD scanned +:+ " port" +:+ plural scanned +:+ " open on " +:+ target)%string.

(** [checkPorts]: the resolved IPv4 addresses and the ports are what the diagnosis holds;
    [arrival] and [arrivalUDP] are the orders in which the goroutines finish. *)
Definition checkPorts {C : Type} `{Wire C} (net : network C) (resolved : bool) (okV4 : list string) (portsToScan : list Z)
    (arrival arrivalUDP : list nat) : outcome Check :=
  match okV4 with
  | target :: _ =>
      if negb resolved then
        Ret {| Name := "Ports"; Status := StatusSkip; Summary := ("skipped " +:+ emDash +:+ " no reachable IPv4 address")%string; Hint := "";
               Millis := Float 0 0; Detail := None |}
      else
        results <~ scanAll net target portsToScan arrival ;;
        results <~ scanUDPAll net target results arrivalUDP ;;
        let open := List.filter interesting results in
        lines <~ portLines open ;;
        Ret {| Name := "Ports"; Status := StatusOK; Summary := portSummary (blen open) (blen portsToScan) target;
               Hint := Join lines (toString [x0a]); Millis := Float 0 0;
               Detail := Some (list_to_map [("target", VString target); ("scanned", VInt (blen portsToScan)); ("open_count", VInt (blen open));
                                            ("open", appended "portResult" portValue open)])%string |}
  | [] =>
      Ret {| Name := "Ports"; Status := StatusSkip; Summary := ("skipped " +:+ emDash +:+ " no reachable IPv4 address")%string; Hint := "";
             Millis := Float 0 0; Detail := None |}
  end.

Example spec_ex : parsePortSpec id "22, 80-82,80" = inl [22; 80; 81; 82].
Proof. by vm_compute. Qed.
Example spec_err : parsePortSpec id "top20,8080" = inr "invalid port top20"%string.
Proof. by vm_compute. Qed.

(** ** The specification of ports *)

Lemma strictly_NoDup l : (fix up (l : list Z) : bool := match l with x :: ((y :: _) as l') => (x <? y) && up l' | _ => true end) l = true -> NoDup l.
Proof.
  set (up := fix up (l : list Z) : bool := match l with x :: ((y :: _) as l') => (x <? y) && up l' | _ => true end).
  assert (Hlt : forall l x, up (x :: l) = true -> Forall (fun y => x < y) l).
  { induction l0 as [|y l0 IH]; intros x Hx; [constructor|]. cbn in Hx. apply andb_true_iff in Hx as [Hxy Hl]. to_prop.
    constructor; [lia|]. eapply Forall_impl; [by apply IH|]. cbn. lia. }
  induction l as [|x l IH]; intros Hl; [constructor|]. constructor.
  - intros Hin. assert (x < x) by exact (proj1 (Forall_forall _ _) (Hlt _ _ Hl) x Hin). lia.
  - apply IH. destruct l as [|y l]; [done|]. cbn in Hl. by apply andb_true_iff in Hl as [_ Hl].
Qed.

(** The presets: the 20, 100 and 1000 ports that their names promise, each once. *)
Lemma presets : (length nmapTop20TCP = 20 /\ length nmapTop100TCP = 100 /\ length nmapTop1000TCP = 1000)%nat /\
  Forall (fun l => NoDup l /\ Forall (fun p => 1 <= p <= 65535) l) [nmapTop20TCP; nmapTop100TCP; nmapTop1000TCP].
Proof.
  split; [by split_and!|]. assert (Hr : forall l, forallb (fun p => (1 <=? p) && (p <=? 65535)) l = true -> Forall (fun p => 1 <= p <= 65535) l).
  { intros l Hl. apply Forall_forall. intros p Hp%list_elem_of_In. rewrite forallb_forall in Hl. apply Hl, andb_true_iff in Hp as [? ?]. to_prop. lia. }
  repeat (apply Forall_cons; split; [split; [apply strictly_NoDup; by vm_compute|apply Hr; by vm_compute]|]). done.
Qed.

(** What the loop over the list keeps: the ports so far, each once and marked as seen. *)
Definition specInv (st : gset Z * list Z) : Prop :=
  NoDup (snd st) /\ Forall (fun p => 1 <= p <= 65535) (snd st) /\ forall p, p ∈ fst st <-> p ∈ snd st.

Lemma addPort_inv st p : specInv st -> 1 <= p <= 65535 -> specInv (addPort st p) /\ forall q, q ∈ snd (addPort st p) <-> q ∈ snd st \/ q = p.
Proof.
  destruct st as [seen ports]. intros (Hn & Hr & Hs) Hp. unfold addPort. cbn [fst snd] in *. destruct (bool_decide_reflect (p ∈ seen)) as [Hin|Hin].
  - split; [done|]. intros q. split; [by left|]. intros [Hq| ->]; [done|]. by apply Hs.
  - split.
    + split; [|split]; cbn [fst snd].
      * apply NoDup_app. split; [done|]. split; [|apply NoDup_singleton]. intros q Hq ->%list_elem_of_singleton. by apply Hin, Hs.
      * apply Forall_app. split; [done|]. by constructor.
      * intros q. rewrite elem_of_union, elem_of_singleton, elem_of_app, list_elem_of_singleton, Hs. tauto.
    + intros q. cbn [snd]. rewrite elem_of_app, list_elem_of_singleton. done.
Qed.

Lemma addPorts_inv ps : forall st, specInv st -> Forall (fun p => 1 <= p <= 65535) ps ->
  specInv (foldl addPort st ps) /\ forall q, q ∈ snd (foldl addPort st ps) <-> q ∈ snd st \/ q ∈ ps.
Proof.
  induction ps as [|p ps IH]; intros st Hst Hps; cbn [foldl].
  - split; [done|]. intros q. split; [by left|]. intros [?|?%elem_of_nil]; done.
  - inversion Hps as [|? ? Hp Hps']; subst. destruct (addPort_inv st p Hst Hp) as [Hst' Hq]. destruct (IH _ Hst' Hps') as [Hst'' Hq'].
    split; [done|]. intros q. rewrite Hq', Hq, elem_of_cons. tauto.
Qed.

Lemma portPart_inv quote st part st' : specInv st -> portPart quote st part = inl st' -> specInv st'.
Proof.
  intros Hst. unfold portPart. destruct (String.eqb _ ""); [by intros [= <-]|]. destruct (Contains _ "-").
  - destruct (Cut _ "-") as [[l r] f]. destruct (Atoi (TrimSpace l)) as [a ok1], (Atoi (TrimSpace r)) as [b ok2].
    destruct (_ || _) eqn:E; [done|]. intros [= <-]. to_prop. apply addPorts_inv; [done|]. apply Forall_forall. intros p Hp%elem_of_seqZ. lia.
  - destruct (Atoi _) as [p ok]. destruct (_ || _) eqn:E; [done|]. intros [= <-]. to_prop. apply addPort_inv; [done|lia].
Qed.

Lemma specInv_empty : specInv (∅, []).
Proof. split; [constructor|]. split; [constructor|]. intros p. cbn. split; [by intros ?%elem_of_empty|by intros ?%elem_of_nil]. Qed.

(** Whatever the text, the ports that [parsePortSpec] returns are distinct and
    between 1 and 65535. *)
Theorem parsePortSpec_ports quote spec ports (Hparse : parsePortSpec quote spec = inl ports) :
  NoDup ports /\ Forall (fun p => 1 <= p <= 65535) ports.
Proof.
  revert Hparse. unfold parsePortSpec. cbv zeta. destruct presets as [_ Hp]. inversion Hp as [|? ? H20 Hp']; subst. inversion Hp' as [|? ? H100 Hp'']; subst.
  inversion Hp'' as [|? ? H1000 _]; subst. destruct (String.eqb _ ""); [intros [= <-]; split; constructor|].
  do 3 (destruct (String.eqb _ _); [by intros [= <-]|]).
  assert (Hloop : forall parts st st', specInv st -> portParts quote st parts = inl st' -> specInv st').
  { induction parts as [|part parts IH]; intros st st' Hst; cbn [portParts]; [by intros [= <-]|].
    destruct (portPart quote st part) as [st1|] eqn:E; [|done]. apply IH. by eapply portPart_inv. }
  destruct (portParts quote _ _) as [[seen ps]|] eqn:E; [|done]. intros [= <-].
  apply Hloop in E as (Hn & Hr & _); [done|apply specInv_empty].
Qed.

(** *** Specifications as they are written *)

(** An element with the white space around its numbers *)
Inductive portItem := One (pre : string) (p : Z) (post : string) | Range (pre : string) (a : Z) (mid1 mid2 : string) (b : Z) (post : string).

Definition itemWritten (i : portItem) : string :=
  match i with
  | One pre p post => pre +:+ decNat p +:+ post
  | Range pre a m1 m2 b post => pre +:+ (decNat a +:+ m1 +:+ "-" +:+ m2 +:+ decNat b) +:+ post
  end.

(** The numbers are those a 64-bit [int] holds. *)
Definition itemText (i : portItem) : Prop :=
  match i with
  | One pre p post => spaces pre /\ spaces post /\ 0 <= p < 2 ^ 63
  | Range pre a m1 m2 b post => (spaces pre /\ spaces post) /\ (spaces m1 /\ spaces m2) /\ 0 <= a < 2 ^ 63 /\ 0 <= b < 2 ^ 63
  end.

Definition itemValid (i : portItem) : Prop :=
  match i with One _ p _ => 1 <= p <= 65535 | Range _ a _ _ b _ => 1 <= a /\ a <= b /\ b <= 65535 end.

Definition covers (i : portItem) (q : Z) : Prop :=
  match i with One _ p _ => q = p | Range _ a _ _ b _ => a <= q <= b end.

Lemma decNat_noSpace n : 0 <= n -> noSpace (decNat n) = true.
Proof.
  intros Hn. unfold noSpace. eapply forallString_impl; [|by apply forallString_decNat]. intros c Hc. unfold isDigit, isSpace in *. to_prop.
  apply negb_true_iff, orb_false_iff. split; [apply Z.eqb_neq; lia|]. apply andb_false_iff. right. apply Z.leb_gt. lia.
Qed.

Lemma noSpace_trimmed s : noSpace s = true -> trimmed s = true.
Proof.
  intros Hs. unfold trimmed. rewrite (trimLeft_noSpace s Hs), trimLeft_noSpace by (unfold noSpace in *; by rewrite forallString_revString).
  by rewrite !String.eqb_refl.
Qed.

Lemma decNat_cons n : 0 <= n -> exists d r, decNat n = String d r /\ isDigit d = true.
Proof.
  intros Hn. pose proof (forallString_decNat n Hn) as Hd. destruct (decNat n) as [|d r] eqn:E.
  - pose proof (decValue_decNat n Hn) as Hv. rewrite E in Hv. cbn in Hv. subst n. by vm_compute in E.
  - exists d, r. split; [done|]. cbn in Hd. by apply andb_true_iff in Hd as [Hd _].
Qed.

Lemma decNat_nonempty n : 0 <= n -> decNat n <> ""%string.
Proof. intros Hn. by destruct (decNat_cons n Hn) as (d & r & -> & _). Qed.

Definition itemBody (i : portItem) : string :=
  match i with One _ p _ => decNat p | Range _ a m1 m2 b _ => decNat a +:+ m1 +:+ "-" +:+ m2 +:+ decNat b end.

Lemma itemBody_trimmed i : itemText i -> trimmed (itemBody i) = true.
Proof.
  destruct i as [pre p post|pre a m1 m2 b post]; cbn [itemText itemBody itemWritten].
  - intros (_ & _ & Hp). apply noSpace_trimmed, decNat_noSpace. lia.
  - intros (_ & (H1 & H2) & Ha & Hb). pose proof (decNat_noSpace a ltac:(lia)) as Na. pose proof (decNat_noSpace b ltac:(lia)) as Nb.
    pose proof (decNat_nonempty a ltac:(lia)) as Ea. pose proof (decNat_nonempty b ltac:(lia)) as Eb.
    unfold trimmed. apply andb_true_iff. split; apply String.eqb_eq.
    + rewrite trimLeft_app; [done|done|by apply trimLeft_noSpace].
    + rewrite !appString_assoc, revString_app. rewrite trimLeft_app; [done|intros E; by apply revString_nil in E|].
      apply trimLeft_noSpace. unfold noSpace in *. by rewrite forallString_revString.
Qed.

Lemma item_trim i : itemText i -> TrimSpace (itemWritten i) = itemBody i.
Proof.
  intros Hi. pose proof (itemBody_trimmed i Hi) as Ht. destruct i as [pre p post|pre a m1 m2 b post]; cbn [itemText itemBody itemWritten] in *.
  - destruct Hi as (H1 & H2 & _). by apply TrimSpace_pad.
  - destruct Hi as ((H1 & H2) & _). by apply TrimSpace_pad.
Qed.

Lemma portPart_trim quote st part : portPart quote st (TrimSpace part) = portPart quote st part.
Proof. unfold portPart. by rewrite TrimSpace_idem. Qed.

Lemma isDigit_not c d : isDigit d = false -> isDigit c = true -> Ascii.eqb c d = false.
Proof. intros Hd Hc. destruct (Ascii.eqb_spec c d) as [->|]; [congruence|done]. Qed.

(** One element: an error exactly if it is not valid, and else the ports it covers. *)
Lemma portPart_item quote st i : specInv st -> itemText i ->
  match portPart quote st (itemWritten i) with
  | inl st' => itemValid i /\ specInv st' /\ forall q, q ∈ snd st' <-> q ∈ snd st \/ covers i q
  | inr _ => ~ itemValid i
  end.
Proof.
  intros Hst Hi. unfold portPart. rewrite (item_trim i Hi). destruct i as [pre p post|pre a m1 m2 b post]; cbn [itemBody].
  - destruct Hi as (_ & _ & Hp). rewrite (proj2 (String.eqb_neq _ _)) by (apply decNat_nonempty; lia).
    assert (Hc : Contains (decNat p) "-" = false) by (apply (not_Contains "-" "" ""), lacks_decNat; [lia|done]). rewrite Hc, Atoi_decNat by done. cbn [negb orb].
    destruct (_ || _) eqn:E; to_prop; cbn [itemValid]; [lia|]. destruct (addPort_inv st p Hst ltac:(lia)) as [H1 H2].
    split; [lia|]. split; [done|]. exact H2.
  - destruct Hi as (_ & (Hm1 & Hm2) & Ha & Hb). pose proof (decNat_nonempty a ltac:(lia)) as Ea. rewrite (proj2 (String.eqb_neq _ _)) by by destruct (decNat a).
    rewrite (appString_assoc (decNat a)), (Contains_mid (decNat a +:+ m1) "-"). change ("-" +:+ m2 +:+ decNat b)%string with (String "-" (m2 +:+ decNat b)).
    rewrite Cut_app.
    2:{ rewrite lacks_app, lacks_decNat by (lia || done). cbn. unfold lacks. eapply forallString_impl; [|exact Hm1]. intros c Hc. cbn.
        destruct (Ascii.eqb_spec c "-") as [->|]; [done|done]. }
    rewrite (TrimSpace_right (decNat a)), (TrimSpace_left m2), !TrimSpace_noSpace by (done || (apply decNat_noSpace; lia)).
    rewrite !Atoi_decNat by done. cbn [negb orb]. destruct (_ || _) eqn:E; to_prop; cbn [itemValid]; [lia|].
    destruct (addPorts_inv (seqZ a (b - a + 1)) st Hst) as [H3 H4]; [apply Forall_forall; intros q Hq%elem_of_seqZ; lia|].
    split; [lia|]. split; [done|]. intros q. rewrite H4, elem_of_seqZ. cbn [covers]. split; (intros [?|?]; [by left|right; lia]).
Qed.

Lemma portParts_items quote items : Forall itemText items -> forall st, specInv st ->
  match portParts quote st (map itemWritten items) with
  | inl st' => Forall itemValid items /\ forall q, q ∈ snd st' <-> q ∈ snd st \/ exists i, i ∈ items /\ covers i q
  | inr _ => exists i, i ∈ items /\ ~ itemValid i
  end.
Proof.
  induction 1 as [|i items Hi Hl IH]; intros st Hst; cbn [map portParts].
  - split; [done|]. intros q. split; [by left|]. intros [?|(i & ?%elem_of_nil & _)]; done.
  - pose proof (portPart_item quote st i Hst Hi) as Hp. destruct (portPart quote st (itemWritten i)) as [st1|e]; [|by exists i; split; [left|]].
    destruct Hp as (Hv & Hst1 & Hq1). pose proof (IH st1 Hst1) as Hr. destruct (portParts _ _ _) as [st2|e].
    + destruct Hr as [Hvs Hq]. split; [by constructor|]. intros q. rewrite Hq, Hq1. setoid_rewrite elem_of_cons. split.
      * intros [[?|?]|(j & ? & ?)]; [by left|right; exists i; by split; [left|]|right; exists j; by split; [right|]].
      * intros [?|(j & [->|?] & ?)]; [by left; left|by left; right|right; by exists j].
    + destruct Hr as (j & Hj & Hn). exists j. by split; [right|].
Qed.

Lemma portParts_trim quote parts : forall st, portParts quote st (map TrimSpace parts) = portParts quote st parts.
Proof.
  induction parts as [|p parts IH]; intros st; [done|]. cbn [map portParts]. rewrite portPart_trim. destruct (portPart quote st p); [apply IH|done].
Qed.

Lemma itemWritten_lacks i : itemText i -> lacks "," (itemWritten i) = true.
Proof.
  assert (Hs : forall s, spaces s -> lacks "," s = true).
  { intros s Hs. unfold lacks. eapply forallString_impl; [|exact Hs]. intros c Hc. cbn. by destruct (Ascii.eqb_spec c ",") as [->|]. }
  destruct i as [pre p post|pre a m1 m2 b post]; cbn [itemText itemBody itemWritten].
  - intros (H1 & H2 & Hp). rewrite !lacks_app, (Hs pre), (Hs post), lacks_decNat by (lia || done). done.
  - intros ((H1 & H2) & (H3 & H4) & Ha & Hb). rewrite !lacks_app, (Hs pre), (Hs post), (Hs m1), (Hs m2), !lacks_decNat by (lia || done). done.
Qed.

(** The text begins, behind white space, with a digit. *)
Lemma itemWritten_digit i : itemText i -> exists pre d r, spaces pre /\ isDigit d = true /\ itemWritten i = (pre +:+ String d r)%string.
Proof.
  destruct i as [pre p post|pre a m1 m2 b post]; cbn [itemText itemBody itemWritten].
  - intros (H1 & _ & Hp). destruct (decNat_cons p ltac:(lia)) as (d & r & -> & Hd). by exists pre, d, (r +:+ post)%string.
  - intros ((H1 & _) & _ & Ha & _). destruct (decNat_cons a ltac:(lia)) as (d & r & -> & Hd). by exists pre, d, ((r +:+ m1 +:+ "-" +:+ m2 +:+ decNat b) +:+ post)%string.
Qed.

Lemma digit_no_preset d r name : isDigit d = true -> match name with String c _ => isDigit c = false | _ => True end ->
  String.eqb (ToLower (String d r)) name = false.
Proof.
  intros Hd Hn. destruct name as [|c name]; [done|]. unfold ToLower. cbn [mapString String.eqb].
  assert (Hl : lowerByte d = d). { unfold lowerByte, isDigit in *. to_prop. by rewrite (proj2 (Z.leb_gt 65 _)) by lia. }
  rewrite Hl. by rewrite (isDigit_not d c).
Qed.

(** C40. A list of ports and ranges is read as it is written, whatever white space stands
    around its numbers: it is refused exactly if it has an element out of 1 to 65535 or a
    range that runs backwards, and else the ports are those that some element covers. *)
Theorem parsePortSpec_written quote items (Hne : items <> []) (Hitems : Forall itemText items) :
  match parsePortSpec quote (Join (map itemWritten items) ",") with
  | inl ports => Forall itemValid items /\ forall q, q ∈ ports <-> exists i, i ∈ items /\ covers i q
  | inr _ => exists i, i ∈ items /\ ~ itemValid i
  end.
Proof.
  destruct items as [|i items]; [done|]. inversion Hitems as [|? ? Hi _]; subst.
  destruct (itemWritten_digit i Hi) as (pre & d & r & Hpre & Hd & Ht).
  assert (Hhead : exists r', TrimSpace (Join (map itemWritten (i :: items)) ",") = String d r').
  { assert (Hj : exists r1, Join (map itemWritten (i :: items)) "," = (pre +:+ String d r1)%string).
    { cbn [map]. rewrite Ht. destruct items as [|j items]; [by exists r|]. cbn [map]. unfold Join. cbn [String.concat].
      eexists. rewrite <- appString_assoc. reflexivity. }
    destruct Hj as [r1 ->]. rewrite TrimSpace_left by done. unfold TrimSpace. cbn [trimLeftFunc].
    assert (Hs : isSpace d = false). { unfold isDigit, isSpace in *. to_prop.
      apply orb_false_iff. split; [apply Z.eqb_neq; lia|]. apply andb_false_iff. right. apply Z.leb_gt. lia. }
    rewrite Hs, trimRight_cons by done. by eexists. }
  unfold parsePortSpec. cbv zeta. destruct Hhead as [r' Hr']. rewrite Hr'. cbn [String.eqb]. rewrite !digit_no_preset by done. rewrite <- Hr'.
  rewrite <- portParts_trim, Split_TrimSpace, portParts_trim, Split_Join by
    (try done; apply forallb_forall; intros s (j & <- & Hj%list_elem_of_In)%in_map_iff; apply itemWritten_lacks; by eapply (proj1 (Forall_forall _ _) Hitems)).
  pose proof (portParts_items quote (i :: items) Hitems _ specInv_empty) as Hp. destruct (portParts _ _ _) as [[seen ports]|e]; [|done].
  destruct Hp as [Hv Hq]. split; [done|]. intros q. rewrite (Hq q). cbn [snd]. split; [by intros [?%elem_of_nil|?]|by right].
Qed.

(** ** The scan *)

Section Ends.
Context {C : Type} `{Wire C}.

(** Two of the probes are modelled over [Reader]; MongoDB's returns, LDAP's may panic. *)
Lemma ldapOver_ends dial addr : ldapOver (C := C) dial addr = Panic \/ exists i, ldapOver (C := C) dial addr = Ret i.
Proof.
  unfold ldapOver, probeLDAP. destruct (dial addr) as [c|]; [|by right; eexists]. destruct (@send C connReader connPeer _ c) as [c1|]; [|by right; eexists].
  pose proof (@readLDAPMessage_total C connReader c1) as Hr. destruct (@readLDAPMessage C connReader c1) as [[r c2]| | |]; try done. cbn [bind].
  destruct (@send C connReader connPeer _ c2) as [c3|]; [|by right; eexists]. destruct (@searchLoop_ends C connReader c3) as [->|[m ->]]; [by left|].
  right. by eexists.
Qed.

Context (net : network C).

Definition ldapCrash (addr : string) (port : Z) : Prop := (port = 389 \/ port = 636) /\ ldapOver (dialTCP net) addr = Panic.

Lemma probeAt_ends port probe addr host : probeAt (servicePortMap net) port = Some probe ->
  (exists i, probe addr host = Ret i) \/ ldapCrash addr port.
Proof.
  assert (Hr : forall (m : outcome serviceInfo) Q, wp m Q (fun _ => False) -> (exists i, m = Ret i) \/ ldapCrash addr port)
    by (intros [i| | |] Q; try done; left; by exists i).
  assert (Hl : port = 389 \/ port = 636 -> (exists i, ldapOver (dialTCP net) addr = Ret i) \/ ldapCrash addr port).
  { intros Hp. destruct (ldapOver_ends (dialTCP net) addr) as [Hc|Hi]; [by right|by left]. }
  unfold probeAt, servicePortMap. cbn [find fst snd].
  repeat (match goal with |- context [?k =? port] => destruct (Z.eqb_spec k port) as [<-|_] end; [intros [= <-]|]); try done.
  - eapply Hr, (probeSSH_total _ _ _ (fun _ => False)).
  - eapply Hr, wp_probeTelnet.
  - apply Hl. by left.
  - eapply Hr, (probeSMB2_total _ _ _ (fun _ => False)).
  - apply Hl. by right.
  - eapply Hr, (probeRDP_total _ _ (fun _ => False)).
  - eapply Hr, wp_probePostgreSQL.
  - eapply Hr, wp_probeRedis.
  - left. by eexists.
  - left. by eexists.
  - eapply Hr, wp_probeMemcached.
  - left. apply probeMongoDB_total.
  - left. apply probeMongoDB_total.
  - left. apply probeMongoDB_total.
Qed.

(** A port is scanned to its end, whatever answers there, unless an LDAP server stops the
    program. *)
Lemma scanPort_ends target port :
  (exists r, scanPort net target port = Ret r /\ rPort r = port /\ rUDPState r = ""%string /\
             (rOpen r = true <-> connect net (JoinHostPort target (fmtD port)) <> None))
  \/ (scanPort net target port = Panic /\ ldapCrash (JoinHostPort target (fmtD port)) port).
Proof.
  unfold scanPort. cbv zeta. set (addr := JoinHostPort target (fmtD port)). destruct (connect net addr) as [c|] eqn:Ec.
  - assert (Hok : forall ms p v b e, exists r, Ret (openPort port ms p v b e) = Ret r /\ rPort r = port /\ rUDPState r = ""%string /\ (rOpen r = true <-> Some c <> None)).
    { intros. eexists. split; [reflexivity|]. split_and!; done. }
    destruct (probeAt _ port) as [probe|] eqn:Ep.
    + destruct (probeAt_ends port probe addr target Ep) as [[i ->]|Hc]; [left; cbn [bind]; apply Hok|]. pose proof Hc as [Hp Hpan].
      right. split; [|done]. revert Ep. destruct Hp as [-> | ->]; intros [= <-]; by rewrite Hpan.
    + left. destruct (recv 256 c) as [[buf e] c']. destruct (_ <? _); [|apply Hok]. destruct (parseBanner _). apply Hok.
  - left. exists (closedPort port). repeat (split; [reflexivity|]). split; [intros Hf; discriminate Hf|intros Hn; destruct (Hn eq_refl)].
Qed.

Lemma scanUDPPort_ends r target : exists r', scanUDPPort net r target (rPort r) = Ret r'.
Proof.
  unfold scanUDPPort, probeAt, udpServicePortMap. cbn [find fst snd]. destruct (53 =? rPort r); [by eexists|]. destruct (123 =? rPort r); [|by eexists].
  pose proof (wp_probeNTP (dialUDP net) (JoinHostPort target (fmtD (rPort r))) (fun _ => False)) as Hw.
  cbn [snd]. destruct (probeNTP _ _) as [i| | |]; try done. cbn [bind]. eexists. reflexivity.
Qed.
End Ends.

(** Goroutines that each compute the entry of their index from the entry that was there. *)
Section Arrival.
Context {A : Type} (f : nat -> A -> outcome A) (d : A).

Definition arrive (out : list A) (arrival : list nat) : outcome (list A) :=
  foldl (fun acc idx => results <~ acc ;; r <~ f idx (nth idx results d) ;; Ret (<[idx := r]> results)) (Ret out) arrival.

Lemma nth_insert_ne (out : list A) i j x : i <> j -> nth i (<[j := x]> out) d = nth i out d.
Proof. intros Hne. rewrite !nth_lookup. by rewrite list_lookup_insert_ne. Qed.

Lemma arrive_results arrival : NoDup arrival -> forall out, (forall i, i ∈ arrival -> (i < length out)%nat /\ exists a, f i (nth i out d) = Ret a) ->
  exists out', arrive out arrival = Ret out' /\ length out' = length out /\
    forall i, (i ∈ arrival -> exists a, f i (nth i out d) = Ret a /\ out' !! i = Some a) /\ (i ∉ arrival -> out' !! i = out !! i).
Proof.
  induction 1 as [|i arrival Hni Hnd IH]; intros out Hf.
  - exists out. split; [done|]. split; [done|]. intros i. split; [by intros ?%elem_of_nil|done].
  - destruct (Hf i ltac:(left)) as (Hi & a & Ha). destruct (IH (<[i := a]> out)) as (out' & Ho & Hl & Hr).
    { intros j Hj. rewrite length_insert. destruct (Hf j ltac:(by right)) as (Hjl & b & Hb). split; [done|]. exists b.
      rewrite nth_insert_ne; [done|]. by intros ->. }
    exists out'. split; [unfold arrive in *; cbn [foldl bind]; by rewrite Ha|]. split; [by rewrite Hl, length_insert|].
    intros j. destruct (decide (j = i)) as [->|Hne].
    + split; [|intros Hn; destruct Hn; left]. intros _. exists a. split; [done|]. rewrite (proj2 (Hr i)) by done. by rewrite list_lookup_insert_eq.
    + destruct (Hr j) as [H1 H2]. split.
      * intros [?|Hj]%elem_of_cons; [done|]. destruct (H1 Hj) as (b & Hb & Hs). exists b. rewrite nth_insert_ne in Hb by done. done.
      * intros Hj. rewrite H2 by (intros ?; apply Hj; by right). by rewrite list_lookup_insert_ne.
Qed.
End Arrival.

Lemma foldl_err {A B} (g : B -> A -> outcome A) (l : list B) (m : outcome A) :
  (forall a, m <> Ret a) -> foldl (fun acc x => a <~ acc ;; g x a) m l = m.
Proof. intros Hm. induction l as [|x l IH]; [done|]. cbn [foldl]. destruct m as [a| | |]; [by destruct (Hm a)|exact IH..]. Qed.

Lemma extraText_total k v : exists t, extraText k v = Ret t.
Proof.
  unfold extraText. repeat (destruct (String.eqb _ _); [try by eexists|]); try by eexists.
  destruct (truncate_spec v 26 ltac:(lia)) as (t & -> & _). by eexists.
Qed.

Lemma portLine_total r : exists l, portLine r = Ret l.
Proof.
  unfold portLine. cbv zeta. assert (Hp : exists p, productText r = Ret p).
  { unfold productText. destruct (_ && _); [by eexists|]. destruct (negb _); [by eexists|]. destruct (negb _); [|by eexists].
    destruct (truncate_spec (rBanner r) 36 ltac:(lia)) as (t & -> & _). by eexists. }
  destruct Hp as [p ->]. cbn [bind]. generalize ((pad5 (rPort r) +:+ "  " +:+ padRight 13 (rService r)) +:+ udpText (rUDPState r) +:+ p)%string. 
  assert (Hk : forall ks line, exists l, foldl (fun acc k => line <~ acc ;; t <~ extraText k (get (default ∅ (rExtra r)) k) ;; Ret (line +:+ t)%string) (Ret line) ks = Ret l).
  { induction ks as [|k ks IH]; intros line; [by eexists|]. cbn [foldl bind]. destruct (extraText_total k (get (default ∅ (rExtra r)) k)) as [t ->]. apply IH. }
  intros _. apply Hk.
Qed.

Lemma portLines_total rs : exists ls, portLines rs = Ret ls /\ length ls = length rs.
Proof.
  induction rs as [|r rs (ls & IH & Hl)]; [by exists []|]. cbn [portLines]. destruct (portLine_total r) as [l ->]. cbn [bind]. rewrite IH.
  exists (l :: ls). split; [done|]. cbn. by rewrite Hl.
Qed.

(** The result of a port: what the scan over TCP found, completed over UDP. *)
Definition portReport {C : Type} `{Wire C} (net : network C) (target : string) (port : Z) (r : portResult) : Prop :=
  exists r0, scanPort net target port = Ret r0 /\ scanUDPPort net r0 target port = Ret r.

Lemma udpIndices_spec {C : Type} `{Wire C} (net : network C) ports i : i ∈ udpIndices net ports <-> exists p, ports !! i = Some p /\ probeAt (udpServicePortMap net) p <> None.
Proof.
  unfold udpIndices. rewrite list_elem_of_In, filter_In, in_seq. split.
  - intros [Hi Hp]. destruct (lookup_lt_is_Some_2 ports i) as [p Hl]; [lia|]. exists p. split; [done|]. rewrite (nth_lookup_Some _ _ 0 p Hl) in Hp.
    by destruct (probeAt _ p).
  - intros (p & Hl & Hp). rewrite (nth_lookup_Some _ _ 0 p Hl). split; [apply lookup_lt_Some in Hl; lia|]. by destruct (probeAt _ p).
Qed.

(** C39. The Ports check returns, in whatever order its goroutines finish: it reports each
    port of the list, in the order of the list, with what the scan over TCP found and the
    UDP probe added, and prints those that are open or have a UDP state.  The exception
    is an LDAP server with an answer that stops the program. *)
Theorem checkPorts_reports {C : Type} `{Wire C} (net : network C) target more ports arrival arrivalUDP
  (Harrival : Permutation arrival (seq 0 (length ports))) (HarrivalUDP : Permutation arrivalUDP (udpIndices net ports))
  (Hldap : forall port, In port ports -> ~ ldapCrash net (JoinHostPort target (fmtD port)) port) :
  exists chk results, checkPorts net true (target :: more) ports arrival arrivalUDP = Ret chk
    /\ Forall2 (portReport net target) ports results
    /\ let open := List.filter interesting results in
       Summary chk = portSummary (blen open) (blen ports) target
       /\ (Detail chk ≫= (fun d => d !! "open"%string)) = Some (appended "portResult" portValue open)
       /\ exists lines, portLines open = Ret lines /\ Hint chk = Join lines (toString [x0a]).
Proof.
  assert (Hscan : forall port, In port ports -> exists r, scanPort net target port = Ret r /\ rPort r = port).
  { intros port Hin. destruct (scanPort_ends net target port) as [(r & Hr & Hp & _)|[_ Hc]]; [by exists r|by destruct (Hldap port Hin)]. }
  assert (Hidx : forall i, i ∈ arrival <-> (i < length ports)%nat) by (intros i; rewrite Harrival, elem_of_seq; lia).
  destruct (arrive_results (fun idx _ => scanPort net target (nth idx ports 0)) (closedPort 0) arrival
    ltac:(rewrite Harrival; apply NoDup_seq) (map closedPort ports)) as (out & Ho & Hlo & Hout).
  { intros i Hi%Hidx. rewrite length_map. split; [done|]. destruct (Hscan (nth i ports 0)) as (r & Hr & _); [by apply nth_In|]. by exists r. }
  rewrite length_map in Hlo.
  assert (Hone : forall i p, ports !! i = Some p -> exists r, scanPort net target p = Ret r /\ rPort r = p /\ out !! i = Some r).
  { intros i p Hp. destruct (Hout i) as [Hin _]. destruct Hin as (r & Hr & Hs); [apply Hidx; by eapply lookup_lt_Some|].
    rewrite (nth_lookup_Some _ _ 0 p Hp) in Hr. exists r. split; [done|]. split; [|done].
    destruct (Hscan p) as (r' & Hr' & Hpr); [by apply list_elem_of_In, (list_elem_of_lookup_2 ports i)|]. rewrite Hr in Hr'. by injection Hr' as <-. }
  destruct (arrive_results (fun _ r => scanUDPPort net r target (rPort r)) (closedPort 0) arrivalUDP) with (out := out) as (out' & Ho' & Hlo' & Hout').
  { rewrite HarrivalUDP. apply NoDup_ListNoDup, List.NoDup_filter, NoDup_ListNoDup, NoDup_seq. }
  { intros i Hi. rewrite HarrivalUDP, udpIndices_spec in Hi. destruct Hi as (p & Hp & _). split; [rewrite Hlo; by eapply lookup_lt_Some|]. apply scanUDPPort_ends. }
  destruct (portLines_total (List.filter interesting out')) as (lines & Hlines & _).
  eexists _, out'. split; [|split; [|split; [|split]]].
  - unfold checkPorts. cbn [negb]. change (scanAll net target ports arrival) with
      (arrive (fun idx _ => scanPort net target (nth idx ports 0)) (closedPort 0) (map closedPort ports) arrival). rewrite Ho. cbn [bind].
    change (scanUDPAll net target out arrivalUDP) with (arrive (fun _ r => scanUDPPort net r target (rPort r)) (closedPort 0) out arrivalUDP).
    rewrite Ho'. cbn [bind]. rewrite Hlines. reflexivity.
  - apply Forall2_same_length_lookup_2; [by rewrite Hlo', Hlo|]. intros i p r' Hp Hr'. destruct (Hone i p Hp) as (r & Hr & Hpr & Hs).
    exists r. split; [done|]. destruct (Hout' i) as [Hin Hnin]. destruct (decide (i ∈ arrivalUDP)) as [Hi|Hi].
    + destruct (Hin Hi) as (r1 & Hr1 & Hs1). rewrite (nth_lookup_Some _ _ (closedPort 0) r Hs), Hpr in Hr1. by simplify_eq.
    + rewrite (Hnin Hi), Hs in Hr'. injection Hr' as <-. unfold scanUDPPort. destruct (probeAt _ p) eqn:Ep; [|done].
      destruct Hi. rewrite HarrivalUDP. apply udpIndices_spec. exists p. by rewrite Ep.
  - done.
  - done.
  - by exists lines.
Qed.

(** The exception: one LDAP server among the ports, and the program is gone, whatever
    the other goroutines were about to report. *)
Lemma checkPorts_ldap_crash {C : Type} `{Wire C} (net : network C) target more ports arrival arrivalUDP port :
  Permutation arrival (seq 0 (length ports)) -> In port ports -> connect net (JoinHostPort target (fmtD port)) <> None ->
  ldapCrash net (JoinHostPort target (fmtD port)) port -> checkPorts net true (target :: more) ports arrival arrivalUDP = Panic.
Proof.
  intros Harr Hin Hconn [Hport Hcrash]. unfold checkPorts. cbn [negb].
  assert (Hpanic : scanPort net target port = Panic).
  { unfold scanPort. cbv zeta. destruct (connect net _) as [c|]; [|done]. destruct Hport as [-> | ->]; cbn [probeAt servicePortMap find fst snd Z.eqb Pos.eqb]; by rewrite Hcrash. }
  assert (Hi : exists i, i ∈ arrival /\ scanPort net target (nth i ports 0) = Panic).
  { apply In_nth with (d := 0) in Hin as (i & Hi & Hn). exists i. split; [rewrite Harr, elem_of_seq; lia|by rewrite Hn]. }
  assert (Hall : scanAll net target ports arrival = Panic); [|by rewrite Hall].
  unfold scanAll. generalize (map closedPort ports). clear Harr. induction arrival as [|j arrival IH]; intros out; [by destruct Hi as (i & ?%elem_of_nil & _)|].
  cbn [foldl bind]. destruct (scanPort_ends net target (nth j ports 0)) as [(r & Hr & _)|[Hr _]]; rewrite Hr; cbn [bind].
  - apply IH. destruct Hi as (i & [->|Hi]%elem_of_cons & Hp); [congruence|by exists i].
  - by apply foldl_err.
Qed.

(** ** What UDP adds *)

(** A port that is known over TCP keeps what is known: an answer over UDP fills in
    what is missing and adds its own details under their keys; without an answer only the
    UDP state and the name of the service change, and only for a verdict of the classifier. *)
Theorem scanUDPPort_merges {C : Type} `{Wire C} (net : network C) r target port r'
  (Hscan : scanUDPPort net r target port = Ret r') :
  rPort r' = rPort r /\ rOpen r' = rOpen r /\ rMS r' = rMS r /\
  (rProduct r <> "" -> rProduct r' = rProduct r)%string /\ (rVersion r <> "" -> rVersion r' = rVersion r)%string /\
  (rBanner r <> "" -> rBanner r' = rBanner r)%string /\
  (forall m k v, rExtra r = Some m -> m !! k = Some v -> exists m', rExtra r' = Some m' /\ m' !! k = Some v) /\
  (rUDPState r' = rUDPState r \/ rUDPState r' = "open"%string \/
   (rUDPState r' = classify net target port (probeUDPPayload port) /\ rProduct r' = rProduct r /\ rExtra r' = rExtra r)).
Proof.
  assert (Hkeep : forall m k v, rExtra r = Some m -> m !! k = Some v -> exists m', rExtra r = Some m' /\ m' !! k = Some v) by (intros; by eexists).
  unfold scanUDPPort in Hscan. destruct (probeAt _ port) as [probe|]; [|injection Hscan as <-; split_and!; try done; by left].
  destruct (probe _ _) as [info| | |]; try done. cbn [bind] in Hscan. injection Hscan as <-. destruct (negb (String.eqb (Product info) "")).
  - unfold promote. cbn [rPort rOpen rMS rProduct rVersion rBanner rExtra rUDPState]. split_and!; try done.
    + intros Hp. by rewrite (proj2 (String.eqb_neq _ _)) by done.
    + intros Hp. by rewrite (proj2 (String.eqb_neq _ _)) by done.
    + intros Hp. by rewrite (proj2 (String.eqb_neq _ _)) by done.
    + intros m k v Hm Hk. eexists. split; [done|]. rewrite Hm. cbn [default]. by apply lookup_union_Some_l.
    + right. by left.
  - match goal with |- context [if ?b then setUDP _ _ _ else _] => destruct b end; [|split_and!; try done; by left]. unfold setUDP. cbn [rPort rOpen rMS rProduct rVersion rBanner rExtra rUDPState].
    split_and!; try done. right. by right.
Qed.

(** ** The CHAOS question on the wire *)

(** The labels of a wire-format name *)
Fixpoint readLabels (fuel : nat) (b : bytes) : list bytes * bytes :=
  match fuel, b with
  | S fuel, n :: r => if beq n x00 then ([], r)
                      else let '(ls, rest) := readLabels fuel (drop (Z.to_nat (bval n)) r) in (take (Z.to_nat (bval n)) r :: ls, rest)
  | _, _ => ([], b)
  end.

Definition labelOk (l : string) : Prop := 1 <= slen l <= 63 /\ lacks "." l = true.

Lemma readLabels_enc ls rest : Forall labelOk ls -> forall fuel, (length ls < fuel)%nat ->
  readLabels fuel (flat_map wireLabel ls ++ [x00] ++ rest) = (map ofString ls, rest).
Proof.
  induction 1 as [|l ls [Hl _] Hls IH]; intros fuel Hf; (destruct fuel as [|fuel]; [lia|]); [done|]. cbn [flat_map map].
  unfold wireLabel at 1. cbv zeta. assert (Hlen : String.length l = Z.to_nat (slen l)) by (unfold slen; lia).
  rewrite takeString_all by lia. cbn [app readLabels]. rewrite bval_byteOf. rewrite Z.mod_small by lia.
  rewrite bval_neq by (rewrite bval_byteOf, Z.mod_small by lia; change (bval x00) with 0; lia).
  assert (Hb : length (ofString l) = Z.to_nat (slen l)) by (pose proof (blen_ofString l) as Hb; unfold blen in Hb; lia).
  rewrite <- app_assoc, <- Hb, drop_app_length, take_app_length. cbn [length] in Hf. by rewrite IH by lia.
Qed.

Lemma splitDNSLabels_written ls : Forall labelOk ls -> ls <> [] -> splitDNSLabels (Join ls "." +:+ ".") = ls.
Proof.
  intros Hls Hne. unfold splitDNSLabels. assert (Hj : (Join ls "." +:+ ".")%string = Join (ls ++ [""%string]) ".").
  { clear Hls. induction ls as [|l ls IH]; [done|]. destruct ls as [|m ls]; [done|].
    change (Join (l :: m :: ls) ".") with (l +:+ "." +:+ Join (m :: ls) ".")%string. rewrite <- !appString_assoc, IH by done. done. }
  rewrite Hj, Split_Join; [|by destruct ls|].
  2:{ rewrite forallb_app. apply andb_true_iff. split; [|done]. apply forallb_forall. intros l Hl%list_elem_of_In. by apply (proj1 (Forall_forall _ _) Hls l Hl). }
  rewrite List.filter_app. cbn. rewrite app_nil_r. clear Hne Hj. induction Hls as [|l ls [Hl _] Hls IH]; [done|]. cbn.
  destruct l; [unfold slen in Hl; cbn in Hl; lia|]. cbn. by rewrite IH.
Qed.

(** The question that probes port 53 is a DNS message: a header with one question, the
    labels of the name as they are written, and the type and class of a CHAOS text. *)
Theorem dnsCHAOSWireProbe_labels ls (Hls : Forall labelOk ls) (Hne : ls <> []) :
  exists q, dnsCHAOSWireProbe (Join ls "." +:+ ".") = chaosHeader ++ q
    /\ readLabels (S (length ls)) q = (map ofString ls, [x00; x10; x00; x03]).
Proof.
  unfold dnsCHAOSWireProbe. rewrite splitDNSLabels_written by done. eexists. split; [reflexivity|]. apply readLabels_enc; [done|lia].
Qed.

(** The request for port 161 asks for 1.3.6.1.2.1, not for sysDescr.0 as the comment says. *)
Example snmp_oid : exists pre, snmpRequest = pre ++ [x06; x05; x2b; x06; x01; x02; x01] ++ [x05; x00] /\ blen snmpRequest = 2 + 0x26.
Proof. by exists (take 31 snmpRequest). Qed.

Module PortWitnesses.
(** A host that shows a banner on every TCP port except 123, and refuses UDP. *)
Definition host : network bytes :=
  {| connect addr := if String.eqb addr "192.0.2.1:123" then None else Some (ofString "220 (vsFTPd 3.0.3)"); connectMS _ := Float 3 0;
     dialTCP _ := Some (ofString "VERSION 1.6.21" ++ [x0d; x0a]); dialUDP _ := None; sshDial _ := None; readResponse _ := None;
     unmarshal _ := None; askCHAOS _ _ := inr "refused"%string; clock := {| tSec := 0; tNsec := 0 |}; classify _ _ _ := "closed"%string |}.

Lemma parsePortSpec_ports_witness :
  parsePortSpec id " 8080, 20-22 ,21" = inl [8080; 20; 21; 22]
  /\ NoDup [8080; 20; 21; 22] /\ Forall (fun p => 1 <= p <= 65535) [8080; 20; 21; 22].
Proof. split; [by vm_compute|]. apply (parsePortSpec_ports id " 8080, 20-22 ,21"). by vm_compute. Defined.

Lemma parsePortSpec_written_witness :
  let items := [One " " 8080 ""; Range "" 20 " " "" 22 " "] in
  Join (map itemWritten items) "," = " 8080,20 -22 "%string /\
  match parsePortSpec id (Join (map itemWritten items) ",") with
  | inl ports => Forall itemValid items /\ forall q, q ∈ ports <-> exists i, i ∈ items /\ covers i q
  | inr _ => exists i, i ∈ items /\ ~ itemValid i
  end.
Proof.
  split; [reflexivity|]. apply parsePortSpec_written; [done|].
  repeat (apply Forall_cons; split; [cbn [itemText]; split_and!; first [reflexivity|lia]|]). done.
Defined.

Lemma no_ldap port : In port [21; 123; 11211] -> ~ ldapCrash host (JoinHostPort "192.0.2.1" (fmtD port)) port.
Proof. intros Hin [[-> | ->] _]; cbn in Hin; lia. Qed.

Lemma checkPorts_reports_witness :
  udpIndices host [21; 123; 11211] = [1%nat] /\
  exists chk results, checkPorts host true ["192.0.2.1"%string] [21; 123; 11211] [2; 0; 1]%nat [1]%nat = Ret chk
    /\ Forall2 (portReport host "192.0.2.1") [21; 123; 11211] results
    /\ let open := List.filter interesting results in
       Summary chk = portSummary (blen open) (blen [21; 123; 11211]) "192.0.2.1"
       /\ (Detail chk ≫= (fun d => d !! "open"%string)) = Some (appended "portResult" portValue open)
       /\ exists lines, portLines open = Ret lines /\ Hint chk = Join lines (toString [x0a]).
Proof.
  split; [reflexivity|]. apply checkPorts_reports.
  - apply NoDup_Permutation; [repeat constructor; set_solver|apply NoDup_seq|]. intros i. rewrite elem_of_seq. cbn [length]. rewrite !elem_of_cons, elem_of_nil. lia.
  - reflexivity.
  - exact no_ldap.
Defined.

Lemma scanUDPPort_merges_witness :
  exists r', scanUDPPort host (openPort 53 (Float 1 0) "BIND" "9" "" None) "192.0.2.1" 53 = Ret r' /\ rProduct r' = "BIND"%string /\ rUDPState r' = "closed"%string.
Proof.
  eexists. split; [reflexivity|]. destruct (scanUDPPort_merges host (openPort 53 (Float 1 0) "BIND" "9" "" None) "192.0.2.1" 53 _ eq_refl) as (_ & _ & _ & Hp & _).
  split; [by apply Hp|reflexivity].
Defined.

Lemma dnsCHAOSWireProbe_labels_witness :
  exists q, dnsCHAOSWireProbe (Join ["version"; "bind"] "." +:+ ".") = chaosHeader ++ q
    /\ readLabels (S (length ["version"; "bind"]%string)) q = (map ofString ["version"; "bind"], [x00; x10; x00; x03])%string.
Proof. apply dnsCHAOSWireProbe_labels; [|done]. repeat (apply Forall_cons; split; [split; [unfold slen; cbn; lia|reflexivity]|]). done. Defined.

(** A port that is closed over TCP and over UDP is counted among the open ones. *)
Example closed_counts_as_open :
  Summary <$> match checkPorts host true ["192.0.2.1"%string] [123] [0]%nat [0]%nat with Ret c => Some c | _ => None end = Some "1/1 port open on 192.0.2.1"%string.
Proof. by vm_compute. Qed.
End PortWitnesses.
