(* ===== verification/Reputation.v ===== *)
(** Reputation of addresses: reputation.go, the DNS blacklists and the confirmed reverse
    names, over the addresses of Asn.v and the regular expressions of Banners.v. *)

From Stdlib Require Import ZArith List String Ascii Strings.Byte Lia Bool Permutation.
From stdpp Require Import base list strings gmap list_numbers.
From S2P Require Import Prelude Bytes GoStrings Text Sorting Result Float Json Report Diff Dns Dnssec Asn Banners.
Open Scope Z_scope.

(** ** The zones *)

Inductive zoneTier := tierComposite | tierSpamSrc | tierExploit | tierPolicy | tierProxy | tierMalware | tierBotnet | tierTor | tierDynamic
  | tierURI | tierAllowlist | tierRegional | tierBackscat.
Definition tierName (t : zoneTier) : string :=
  match t with
  | tierComposite => "composite" | tierSpamSrc => "spam" | tierExploit => "exploit" | tierPolicy => "policy" | tierProxy => "proxy"
  | tierMalware => "malware" | tierBotnet => "botnet" | tierTor => "tor" | tierDynamic => "dynamic" | tierURI => "uri"
  | tierAllowlist => "allowlist" | tierRegional => "regional" | tierBackscat => "backscatter"
  end%string.
Inductive confLevel := confProduction | confOperational | confHeuristic | confExperimental.
Definition confName (c : confLevel) : string :=
  match c with confProduction => "production" | confOperational => "operational" | confHeuristic => "heuristic" | confExperimental => "experimental" end%string.

Record dnsblZone := { zZone : string; zDescription : string; zTier : zoneTier; zConfidence : confLevel }.
Definition zone4 (z d : string) (t : zoneTier) (c : confLevel) : dnsblZone := {| zZone := z; zDescription := d; zTier := t; zConfidence := c |}.

Definition dnsblZones : list dnsblZone := [
  zone4 "zen.spamhaus.org" "Spamhaus ZEN (composite)" tierComposite confProduction;
  zone4 "bl.spamhaus.org" "Spamhaus combined" tierComposite confProduction;
  zone4 "sbl.spamhaus.org" "Spamhaus SBL" tierComposite confProduction;
  zone4 "xbl.spamhaus.org" "Spamhaus XBL (exploits)" tierExploit confProduction;
  zone4 "pbl.spamhaus.org" "Spamhaus PBL (policy)" tierPolicy confProduction;
  zone4 "dbl.spamhaus.org" "Spamhaus DBL (domains)" tierURI confProduction;
  zone4 "zrd.spamhaus.org" "Spamhaus ZRD (zero-rep domains)" tierURI confProduction;
  zone4 "b.barracudacentral.org" "Barracuda Reputation" tierComposite confProduction;
  zone4 "bl.spamcop.net" "SpamCop" tierSpamSrc confProduction;
  zone4 "cbl.abuseat.org" "CBL (Composite Blocking)" tierExploit confProduction;
  zone4 "psbl.surriel.com" "PSBL" tierSpamSrc confProduction;
  zone4 "bl.mailspike.net" "Mailspike BL" tierSpamSrc confProduction;
  zone4 "z.mailspike.net" "Mailspike Z-list" tierSpamSrc confProduction;
  zone4 "rep.mailspike.net" "Mailspike rep" tierComposite confProduction;
  zone4 "truncate.gbudb.net" "GBUdb truncate" tierSpamSrc confProduction;
  zone4 "ix.dnsbl.manitu.net" "NiX Spam (Heise)" tierSpamSrc confProduction;
  zone4 "swl.spamhaus.org" "Spamhaus SWL (whitelist)" tierAllowlist confProduction;
  zone4 "list.dnswl.org" "DNSWL allowlist" tierAllowlist confProduction;
  zone4 "wl.score.mailspike.net" "Mailspike whitelist" tierAllowlist confProduction;
  zone4 "nobl.junkemailfilter.com" "JunkEmail NoBL" tierAllowlist confProduction;
  zone4 "iadb.isipp.com" "ISIPP IADB allowlist" tierAllowlist confProduction;
  zone4 "iadb2.isipp.com" "ISIPP IADB-2 allowlist" tierAllowlist confOperational;
  zone4 "ips.backscatterer.org" "Backscatterer.org" tierBackscat confProduction;
  zone4 "backscatter.uceprotect.net" "UCEPROTECT backscatter" tierBackscat confOperational;
  zone4 "backscatter.spameatingmonkey.net" "SpamEatingMonkey backscatter" tierBackscat confOperational;
  zone4 "ubl.lashback.com" "Lashback UBL" tierSpamSrc confProduction;
  zone4 "ubl.unsubscore.com" "Lashback Unsubscore" tierSpamSrc confProduction;
  zone4 "dnsbl-1.uceprotect.net" "UCEPROTECT L1 (specific)" tierPolicy confOperational;
  zone4 "dnsbl-2.uceprotect.net" "UCEPROTECT L2 (allocation)" tierPolicy confHeuristic;
  zone4 "dnsbl-3.uceprotect.net" "UCEPROTECT L3 (ASN)" tierPolicy confHeuristic;
  zone4 "dnsbl.sorbs.net" "SORBS aggregate" tierComposite confOperational;
  zone4 "spam.dnsbl.sorbs.net" "SORBS spam" tierSpamSrc confOperational;
  zone4 "new.spam.dnsbl.sorbs.net" "SORBS new spam" tierSpamSrc confOperational;
  zone4 "recent.dnsbl.sorbs.net" "SORBS recent" tierSpamSrc confOperational;
  zone4 "old.dnsbl.sorbs.net" "SORBS old" tierSpamSrc confHeuristic;
  zone4 "escalations.dnsbl.sorbs.net" "SORBS escalations" tierSpamSrc confOperational;
  zone4 "socks.dnsbl.sorbs.net" "SORBS SOCKS" tierProxy confOperational;
  zone4 "misc.dnsbl.sorbs.net" "SORBS misc proxies" tierProxy confOperational;
  zone4 "smtp.dnsbl.sorbs.net" "SORBS open relays" tierProxy confOperational;
  zone4 "http.dnsbl.sorbs.net" "SORBS HTTP" tierProxy confOperational;
  zone4 "web.dnsbl.sorbs.net" "SORBS web" tierProxy confHeuristic;
  zone4 "zombie.dnsbl.sorbs.net" "SORBS zombie" tierBotnet confOperational;
  zone4 "block.dnsbl.sorbs.net" "SORBS block" tierPolicy confOperational;
  zone4 "virus.dnsbl.sorbs.net" "SORBS virus" tierMalware confOperational;
  zone4 "safe.dnsbl.sorbs.net" "SORBS safe" tierAllowlist confHeuristic;
  zone4 "problems.dnsbl.sorbs.net" "SORBS problems" tierSpamSrc confHeuristic;
  zone4 "proxies.dnsbl.sorbs.net" "SORBS proxies" tierProxy confOperational;
  zone4 "relays.dnsbl.sorbs.net" "SORBS relays" tierProxy confOperational;
  zone4 "spews.dnsbl.sorbs.net" "SORBS SPEWS" tierSpamSrc confHeuristic;
  zone4 "l1.bbfh.ext.sorbs.net" "SORBS BBFH L1" tierBotnet confHeuristic;
  zone4 "l3.bbfh.ext.sorbs.net" "SORBS BBFH L3" tierBotnet confExperimental;
  zone4 "phishing.rbl.msrbl.net" "MSRBL phishing" tierMalware confOperational;
  zone4 "virus.rbl.msrbl.net" "MSRBL virus" tierMalware confOperational;
  zone4 "combined.rbl.msrbl.net" "MSRBL combined" tierComposite confOperational;
  zone4 "images.rbl.msrbl.net" "MSRBL images" tierSpamSrc confHeuristic;
  zone4 "web.rbl.msrbl.net" "MSRBL web" tierSpamSrc confHeuristic;
  zone4 "spam.rbl.msrbl.net" "MSRBL spam" tierSpamSrc confOperational;
  zone4 "dyna.spamrats.com" "SpamRats dynamic" tierDynamic confOperational;
  zone4 "noptr.spamrats.com" "SpamRats NoPTR" tierPolicy confOperational;
  zone4 "spam.spamrats.com" "SpamRats spam" tierSpamSrc confOperational;
  zone4 "all.spamrats.com" "SpamRats aggregate" tierComposite confOperational;
  zone4 "bl.spameatingmonkey.net" "SpamEatingMonkey BL" tierSpamSrc confOperational;
  zone4 "badnets.spameatingmonkey.net" "SpamEatingMonkey BadNets" tierPolicy confOperational;
  zone4 "netbl.spameatingmonkey.net" "SpamEatingMonkey NetBL" tierSpamSrc confHeuristic;
  zone4 "urired.spameatingmonkey.net" "SpamEatingMonkey URI red" tierURI confOperational;
  zone4 "uribl.spameatingmonkey.net" "SpamEatingMonkey URIBL" tierURI confOperational;
  zone4 "multi.uribl.com" "URIBL multi" tierURI confProduction;
  zone4 "black.uribl.com" "URIBL black" tierURI confProduction;
  zone4 "grey.uribl.com" "URIBL grey" tierURI confOperational;
  zone4 "red.uribl.com" "URIBL red" tierURI confHeuristic;
  zone4 "multi.surbl.org" "SURBL multi" tierURI confProduction;
  zone4 "ph.surbl.org" "SURBL phishing" tierMalware confOperational;
  zone4 "mw.surbl.org" "SURBL malware" tierMalware confOperational;
  zone4 "dnsbl.dronebl.org" "DroneBL" tierBotnet confOperational;
  zone4 "rbl.efnetrbl.org" "EFnet RBL" tierBotnet confOperational;
  zone4 "all.s5h.net" "s5h.net all" tierComposite confOperational;
  zone4 "db.wpbl.info" "WPBL" tierSpamSrc confOperational;
  zone4 "bl.score.senderscore.com" "SenderScore" tierComposite confProduction;
  zone4 "bl.blocklist.de" "blocklist.de" tierSpamSrc confOperational;
  zone4 "bl.0spam.org" "0spam" tierSpamSrc confOperational;
  zone4 "rbl.interserver.net" "InterServer RBL" tierComposite confOperational;
  zone4 "hostkarma.junkemailfilter.com" "JunkEmail HostKarma" tierComposite confOperational;
  zone4 "orvedb.aupads.org" "ORVEDB AUPADS" tierSpamSrc confHeuristic;
  zone4 "rsbl.aupads.org" "RSBL AUPADS" tierSpamSrc confHeuristic;
  zone4 "all.bl.octopull.co.uk" "Octopull all" tierSpamSrc confExperimental;
  zone4 "opm.tornevall.org" "Tornevall OPM" tierProxy confOperational;
  zone4 "bl.deadbeef.com" "deadbeef BL" tierSpamSrc confExperimental;
  zone4 "feb.spamlab.com" "SpamLab feb" tierSpamSrc confHeuristic;
  zone4 "rbl.spamlab.com" "SpamLab RBL" tierSpamSrc confHeuristic;
  zone4 "dnsbl.justspam.org" "JustSpam" tierSpamSrc confOperational;
  zone4 "dnsbl.kempt.net" "kempt.net BL" tierSpamSrc confExperimental;
  zone4 "tor.dan.me.uk" "Tor exit (dan.me.uk)" tierTor confOperational;
  zone4 "tor.dnsbl.sectoor.de" "Sectoor Tor" tierTor confOperational;
  zone4 "exitnodes.tor.dnsbl.sectoor.de" "Sectoor Tor exit" tierTor confOperational;
  zone4 "cbl.anti-spam.org.cn" "ANT China CBL" tierSpamSrc confOperational;
  zone4 "cdl.anti-spam.org.cn" "ANT China CDL" tierComposite confOperational;
  zone4 "cblplus.anti-spam.org.cn" "ANT China CBL+" tierSpamSrc confOperational;
  zone4 "cblless.anti-spam.org.cn" "ANT China CBL-" tierSpamSrc confHeuristic;
  zone4 "all.rbl.jp" "RBL.JP all" tierComposite confOperational;
  zone4 "dyndns.rbl.jp" "RBL.JP dyndns" tierDynamic confOperational;
  zone4 "short.rbl.jp" "RBL.JP short" tierSpamSrc confOperational;
  zone4 "url.rbl.jp" "RBL.JP url" tierURI confOperational;
  zone4 "dnsrbl.swinog.ch" "Swinog Swiss BL" tierRegional confOperational;
  zone4 "uribl.swinog.ch" "Swinog URIBL" tierURI confOperational;
  zone4 "black.dnsbl.brukalai.lt" "Brukalai Lithuania BL" tierRegional confExperimental;
  zone4 "light.dnsbl.brukalai.lt" "Brukalai Lithuania light" tierRegional confExperimental;
  zone4 "forbidden.icm.edu.pl" "ICM Poland forbidden" tierRegional confExperimental;
  zone4 "singular.ttk.pte.hu" "TTK Hungary URI" tierURI confExperimental;
  zone4 "dnsbl.spam-rbl.fr" "Spam-RBL France" tierRegional confExperimental;
  zone4 "bl.suomispam.net" "Suomispam Finland" tierRegional confExperimental;
  zone4 "dnsbl.dnsbl.com.ar" "DNSBL Argentina" tierRegional confExperimental;
  zone4 "dnsbl.calivent.com.pe" "Calivent Peru" tierRegional confExperimental;
  zone4 "bl.scientificspam.net" "Scientific Spam" tierSpamSrc confExperimental;
  zone4 "dnsbl.zapbl.net" "ZapBL" tierSpamSrc confExperimental;
  zone4 "relays.nether.net" "Nether relays" tierProxy confExperimental;
  zone4 "unsure.nether.net" "Nether unsure" tierSpamSrc confExperimental]%string.

(** ** Answers *)

Definition sentinelPrefixes : list string := ["127.255.255."; "127.0.0.0"]%string.
Definition validAnswer (s : string) : bool := HasPrefix s "127." && negb (existsb (HasPrefix s) sentinelPrefixes).

(** [(?i)] is a match in the lower-cased text: the strings of a TXT record are ASCII, the
    others of its bytes being escaped by the package that parses it. *)
Definition dot (c : ascii) : bool := negb (code c =? 10).
Definition oneOf (cs : string) : re := ROpt (RCls (among cs)).
Definition refusalPatterns : list re :=
  [RLit "query refused"; RSeqs [RLit "rate"; oneOf " -"; RLit "limit"]; RSeqs [RLit "over"; oneOf " -"; RLit "quota"];
   RSeqs [RLit "blocked"; RMany dot; RAlts ["resolver"; "dns"]]; RSeqs [RLit "public"; RMany dot; RLit "resolver"];
   RSeqs [RLit "access"; RMany dot; RLit "denied"]; RSeqs [RLit "excessive"; RMany dot; RLit "queries"];
   RSeqs [RLit "too"; RMany dot; RLit "many"; RMany dot; RLit "queries"]; RSeqs [RLit "see"; RMany dot; RLit "refused"]]%string.
Definition refusalTXT (reason : string) : bool :=
  existsb (fun r => match search r (ToLower reason) with Some _ => true | None => false end) refusalPatterns.

(** The records this check looks at, their addresses as the bytes of a [net.IP] *)
Inductive reply := RepA (ip : option bytes) | RepAAAA (ip : option bytes) | RepPTR (name : string) | RepTXT (txt : list string) | RepOther.

Definition TypePTR : Z := 12.

Record dnsblHit := { hIP : string; hZone : string; hDescription : string; hTier : zoneTier; hConfidence : confLevel; hAnswer : string; hReason : string }.
Record fcrdnsResult := { fIP : string; PTRs : list string; ForwardIPs : list string; fVerdict : string; GenericPTR : bool }.

(** ** Reverse names *)

Definition digits : re := RPlus isDigit.
(** [^...] is a match at the start, [(^|\.)...] one at the start or behind a dot. *)
Definition atStart (r : re) (s : string) : bool := match run r s with [] => false | _ => true end.
Definition atLabel (r : re) (s : string) : bool := atStart r s || match search (RSeq (RLit ".") r) s with Some _ => true | None => false end.

Definition genericStart : re :=
  RSeqs [digits; RCls (among "-."); digits; RCls (among "-."); digits; RCls (among "-."); digits; RLit "."].
Definition sepOpt : re := oneOf "-_".
Definition genericLabels : list re :=
  [RSeqs [RLit "ip"; sepOpt; digits; oneOf "-."; digits]; RSeqs [RLit "host"; sepOpt; digits]; RSeqs [RLit "pool"; sepOpt; digits];
   RSeqs [RLit "dynamic"; sepOpt; digits]; RSeqs [RLit "dhcp"; sepOpt; digits]; RSeqs [RLit "dyn"; sepOpt; digits; RCls (among "-.")];
   RSeqs [RLit "dial"; ROpt (RLit "up"); sepOpt; digits]; RSeqs [RLit "broadband"; sepOpt; digits];
   RSeqs [RLit "cust"; ROpt (RLit "omer"); sepOpt; digits]; RSeqs [RLit "client"; sepOpt; digits; RCls (among "-.")]]%string.
Definition looksGeneric (ptr : string) : bool :=
  let p := ToLower (TrimSuffix ptr ".") in atStart genericStart p || existsb (fun r => atLabel r p) genericLabels.

(** [ip.Equal(x)] *)
Definition ipEqual (a b : bytes) : bool :=
  if blen a =? blen b then bool_decide (a = b)
  else if (blen a =? 4) && (blen b =? 16) then bool_decide (take 12 b = v4InV6Prefix) && bool_decide (a = drop 12 b)
  else if (blen a =? 16) && (blen b =? 4) then bool_decide (take 12 a = v4InV6Prefix) && bool_decide (drop 12 a = b)
  else false.

Definition forwardIPs (rrs : list reply) : list bytes :=
  flat_map (fun r => match r with RepA (Some ip) | RepAAAA (Some ip) => [ip] | _ => [] end) rrs.
Definition ptrNames (rrs : list reply) : list string :=
  flat_map (fun r => match r with RepPTR p => let name := TrimSuffix p "." in if String.eqb name "" then [] else [name] | _ => [] end) rrs.

Section Probes.
(** [queryDNS] over the transport of the run, and [dns.ReverseAddr] *)
Context (query : string -> Z -> list reply + string) (reverseAddr : string -> string + string).

Definition isV4 (ip : bytes) : bool := match To4 ip with Some _ => true | None => false end.
Definition forward (ip : bytes) (ptr : string) : list reply :=
  match query ptr (if isV4 ip then TypeA else TypeAAAA) with inl rrs => rrs | inr _ => [] end.

(** The loop over the reverse names *)
Fixpoint fcrdnsLoop (ip : bytes) (ptrs : list string) (res : fcrdnsResult) : fcrdnsResult :=
  match ptrs with
  | [] => res
  | ptr :: ptrs =>
      match forward ip ptr with
      | [] => fcrdnsLoop ip ptrs res
      | fwd =>
          let ips := forwardIPs fwd in
          let res' verdict generic :=
            {| fIP := fIP res; PTRs := PTRs res; ForwardIPs := ForwardIPs res ++ map ipString ips; fVerdict := verdict; GenericPTR := generic |} in
          match ips with
          | [] => fcrdnsLoop ip ptrs (res' "no_forward"%string (GenericPTR res))
          | _ =>
              if existsb (fun f => ipEqual f ip) ips then
                (if looksGeneric ptr then res' "generic_ptr"%string true else res' "pass"%string (GenericPTR res))
              else fcrdnsLoop ip ptrs (res' "mismatch"%string (GenericPTR res))
          end
      end
  end.

Definition noPTR (ip : bytes) (ptrs : list string) : fcrdnsResult :=
  {| fIP := ipString ip; PTRs := ptrs; ForwardIPs := []; fVerdict := "no_ptr"; GenericPTR := false |}.
Definition ptrsOf (ip : bytes) : list string :=
  match reverseAddr (ipString ip) with
  | inr _ => []
  | inl arpa => match query arpa TypePTR with inl rrs => ptrNames rrs | inr _ => [] end
  end.
Definition probeFCrDNS (ip : bytes) : fcrdnsResult := fcrdnsLoop ip (ptrsOf ip) (noPTR ip (ptrsOf ip)).

(** ** Blacklists *)

(** The name of an address in a zone *)
Definition dnsblName (ip : bytes) (z : dnsblZone) : string :=
  match To4 ip with Some v4 => (Join (map (fun b => fmtD (bval b)) (rev v4)) "." +:+ "." +:+ zZone z)%string | None => ""%string end.

Fixpoint firstA (rrs : list reply) : string :=
  match rrs with [] => ""%string | RepA (Some ip) :: _ => ipString ip | _ :: rrs => firstA rrs end.
Fixpoint firstReason (rrs : list reply) : string :=
  match rrs with [] => ""%string | RepTXT txt :: _ => Join txt " " | _ :: rrs => firstReason rrs end.

(** What one goroutine adds: nothing, the mark of an error, or a hit *)
Inductive listing := NotListed | ErrorObserved | Hit (h : dnsblHit).
Definition probeZone (ip : bytes) (z : dnsblZone) : listing :=
  match query (dnsblName ip z) TypeA with
  | inr _ | inl [] => NotListed
  | inl rrs =>
      let answer := firstA rrs in
      if String.eqb answer "" then NotListed
      else if negb (validAnswer answer) then ErrorObserved
      else
        let reason := match query (dnsblName ip z) TypeTXT with inl txt => firstReason txt | inr _ => ""%string end in
        if negb (String.eqb reason "") && refusalTXT reason then ErrorObserved
        else Hit {| hIP := ipString ip; hZone := zZone z; hDescription := zDescription z; hTier := zTier z; hConfidence := zConfidence z;
                    hAnswer := answer; hReason := reason |}
  end.

Record reputationResult := { IPsChecked : Z; ZonesChecked : Z; Hits : list dnsblHit; FCrDNS : list fcrdnsResult; ErrorsObserved : bool }.

(** The matrix: every IPv4 address against every zone *)
Definition matrix (ips : list bytes) : list (bytes * dnsblZone) :=
  flat_map (fun ip => if isV4 ip then map (pair ip) dnsblZones else []) ips.

(** [names] and [cells] are the addresses and the cells of the matrix in the order in
    which their goroutines finish. *)
Definition probeReputation (ips names : list bytes) (cells : list (bytes * dnsblZone)) : reputationResult :=
  let seen := map (fun c => probeZone (fst c) (snd c)) cells in
  {| IPsChecked := blen ips; ZonesChecked := blen dnsblZones;
     Hits := flat_map (fun l => match l with Hit h => [h] | _ => [] end) seen;
     FCrDNS := map probeFCrDNS names;
     ErrorsObserved := existsb (fun l => match l with ErrorObserved => true | _ => false end) seen |}.
End Probes.

(** ** The check *)

Definition blockerHit (h : dnsblHit) : bool :=
  match hConfidence h with
  | confProduction | confOperational => match hTier h with tierComposite | tierSpamSrc | tierExploit | tierBotnet => true | _ => false end
  | _ => false
  end.

Record ipFindings := { blockers : list dnsblHit; other : list dnsblHit; allowlisted : list dnsblHit; fcrdns : option fcrdnsResult }.
Definition noFindings : ipFindings := {| blockers := []; other := []; allowlisted := []; fcrdns := None |}.

Definition isAllow (h : dnsblHit) : bool := match hTier h with tierAllowlist => true | _ => false end.
Definition addHit (f : ipFindings) (h : dnsblHit) : ipFindings :=
  if isAllow h then {| blockers := blockers f; other := other f; allowlisted := allowlisted f ++ [h]; fcrdns := fcrdns f |}
  else if blockerHit h then {| blockers := blockers f ++ [h]; other := other f; allowlisted := allowlisted f; fcrdns := fcrdns f |}
  else {| blockers := blockers f; other := other f ++ [h]; allowlisted := allowlisted f; fcrdns := fcrdns f |}.
Definition setFCrDNS (f : ipFindings) (r : fcrdnsResult) : ipFindings :=
  {| blockers := blockers f; other := other f; allowlisted := allowlisted f; fcrdns := Some r |}.

(** One step of the aggregation: the entry of the address is made when it is missing. *)
Definition at_ip (upd : ipFindings -> ipFindings) (ip : string) (m : gmap string ipFindings) : gmap string ipFindings :=
  <[ip := upd (default noFindings (m !! ip))]> m.
Definition byIP (res : reputationResult) : gmap string ipFindings :=
  let m := foldl (fun m h => at_ip (fun f => addHit f h) (hIP h) m) ∅ (Hits res) in
  foldl (fun m r => at_ip (fun f => setFCrDNS f r) (fIP r) m) m (FCrDNS res).

(** A sum over the map, which does not depend on the order in which it is visited *)
Definition total (g : ipFindings -> nat) (m : gmap string ipFindings) : nat := sum_list_with (fun e => g (snd e)) (map_to_list m).

Definition badVerdict (v : string) : bool := existsb (String.eqb v) ["no_ptr"; "no_forward"; "mismatch"; "generic_ptr"]%string.
Definition badName (f : ipFindings) : nat := match fcrdns f with Some r => if badVerdict (fVerdict r) then 1%nat else 0%nat | None => 0%nat end.

Definition zoneDescs (hits : list dnsblHit) : list string := map hDescription hits.

Definition nameLine (ip : string) (r : fcrdnsResult) : list string :=
  let v := fVerdict r in
  (if String.eqb v "no_ptr" then [ip +:+ " FCrDNS: no PTR record (Gmail/Microsoft reject)"]
   else if String.eqb v "no_forward" then [ip +:+ " FCrDNS: PTR has no forward A/AAAA (" +:+ Join (PTRs r) ", " +:+ ")"]
   else if String.eqb v "mismatch" then [ip +:+ " FCrDNS: forward IPs " +:+ Join (ForwardIPs r) ", " +:+ " don't match"]
   else if String.eqb v "generic_ptr" then [ip +:+ " FCrDNS: generic PTR " +:+ Join (PTRs r) ", " +:+ " (consumer-IP pattern; Gmail rejects)"]
   else [])%string.
Definition ipLines (ip : string) (f : ipFindings) : list string :=
  let line what hits := when (0 <? blen hits)%Z (ip +:+ what +:+ Join (zoneDescs hits) ", ")%string in
  line " production blocklist: "%string (blockers f) ++ line " also on: "%string (other f) ++ line " allowlisted on: "%string (allowlisted f)
  ++ match fcrdns f with Some r => nameLine ip r | None => [] end.

Definition hintLines (m : gmap string ipFindings) : list string :=
  flat_map (fun ip => match m !! ip with Some f => ipLines ip f | None => [] end) (sortStrings (map fst (map_to_list m))).

Definition counted (n : Z) (what : string) : string := (fmtD n +:+ " " +:+ what +:+ plural n)%string.
Definition declined : string :=
  "some DNSBLs declined to answer (Spamhaus blocks public-resolver queries — try --dns udp:<your-resolver>)"%string.

Definition hitFields (h : dnsblHit) : list (string * value) :=
  [("ip", VString (hIP h)); ("zone", VString (hZone h)); ("description", VString (hDescription h)); ("tier", VString (tierName (hTier h)));
   ("confidence", VString (confName (hConfidence h)))]%string ++ optString "answer" (hAnswer h) ++ optString "reason" (hReason h).
Definition nameFields (r : fcrdnsResult) : list (string * value) :=
  [("ip", VString (fIP r))]%string ++ optStrings "ptrs" (PTRs r) ++ optStrings "forward_ips" (ForwardIPs r)
  ++ [("verdict", VString (fVerdict r))]%string ++ optBool "generic_ptr" (GenericPTR r).
(** A slice that was never appended to is nil. *)
Definition orNil {A} (l : list A) : option (list A) := match l with [] => None | _ => Some l end.

Definition reputationCheck (status summary hint : string) (detail : option (gmap string value)) : Check :=
  {| Name := "Reputation"; Status := status; Summary := summary; Hint := hint; Millis := Float 0 0; Detail := detail |}.

Definition reputationStatus (blocked others bad : nat) : string :=
  if (0 <? blocked)%nat then StatusFail else if (0 <? others)%nat || (0 <? bad)%nat then StatusWarn else StatusOK.

(** What the check says of what the probes found *)
Definition reputationReport (res : reputationResult) : Check :=
  let m := byIP res in
  let blocked := total (fun f => length (blockers f)) m in let others := total (fun f => length (other f)) m in
  let allowed := total (fun f => length (allowlisted f)) m in let bad := total badName m in
  let lines := Join (hintLines m) nl in
  let status := reputationStatus blocked others bad in
  let ips := (fmtD (IPsChecked res) +:+ " IP" +:+ plural (IPsChecked res) +:+ ")")%string in
  let detail := Some (reputationDetail (IPsChecked res) (ZonesChecked res) (orNil (map hitFields (Hits res))) (orNil (map nameFields (FCrDNS res)))) in
  if String.eqb status StatusOK then
    let clean := ("clean across " +:+ fmtD (ZonesChecked res) +:+ " blacklist" +:+ plural (ZonesChecked res) +:+ " + FCrDNS (" +:+ ips)%string in
    let hint := if (0 <? allowed)%nat then lines else ""%string in
    reputationCheck StatusOK
      (if (0 <? allowed)%nat then (clean +:+ " — " +:+ counted (Z.of_nat allowed) "allowlist hit")%string else clean)
      (if ErrorsObserved res then ((if String.eqb hint "" then "" else hint +:+ nl) +:+ declined)%string else hint) detail
  else
    let parts := when (0 <? blocked)%nat (counted (Z.of_nat blocked) "production-blocker hit")
                 ++ when (0 <? others)%nat (counted (Z.of_nat others) "secondary hit")
                 ++ when (0 <? bad)%nat (counted (Z.of_nat bad) "FCrDNS issue") in
    reputationCheck status (Join parts ", " +:+ " across " +:+ fmtD (ZonesChecked res) +:+ " zones (" +:+ ips)%string lines detail.

Definition checkReputation (query : string -> Z -> list reply + string) (reverseAddr : string -> string + string)
    (resolved : bool) (ips names : list bytes) (cells : list (bytes * dnsblZone)) : Check :=
  match ips with
  | _ :: _ => if resolved then reputationReport (probeReputation query reverseAddr ips names cells)
              else reputationCheck StatusSkip "skipped — no IPv4 addresses" "" None
  | [] => reputationCheck StatusSkip "skipped — no IPv4 addresses" "" None
  end.

(** ** Sums over the map *)

Lemma total_insert g (m : gmap string ipFindings) k v : (total g (<[k := v]> m) + g (default noFindings (m !! k)) = g v + total g m + match m !! k with Some _ => 0 | None => g noFindings end)%nat.
Proof.
  unfold total. destruct (m !! k) as [w|] eqn:E; cbn [default].
  - rewrite <- (insert_delete_id m k w E) at 2. rewrite <- insert_delete_eq.
    rewrite !map_to_list_insert by apply lookup_delete_eq. cbn. lia.
  - rewrite map_to_list_insert by done. cbn. lia.
Qed.

Lemma total_at g upd ip m : g noFindings = 0%nat ->
  (total g (at_ip upd ip m) + g (default noFindings (m !! ip)) = g (upd (default noFindings (m !! ip))) + total g m)%nat.
Proof. intros H0. unfold at_ip. rewrite total_insert. destruct (m !! ip); cbn; lia. Qed.

(** A sum that every hit raises by what [p] says *)
Lemma total_hits g (p : dnsblHit -> bool) hits m : g noFindings = 0%nat ->
  (forall f h, g (addHit f h) = (g f + if p h then 1 else 0)%nat) ->
  total g (foldl (fun m h => at_ip (fun f => addHit f h) (hIP h) m) m hits) = (total g m + length (List.filter p hits))%nat.
Proof.
  intros H0 Hg. revert m. induction hits as [|h hits IH]; intros m; cbn [foldl List.filter]; [cbn; lia|].
  rewrite IH. pose proof (total_at g (fun f => addHit f h) (hIP h) m H0) as Ht. cbv beta in Ht. rewrite Hg in Ht. destruct (p h); cbn [length]; lia.
Qed.

(** ... and one that the reverse names leave alone *)
Lemma total_names g rs m : g noFindings = 0%nat -> (forall f r, g (setFCrDNS f r) = g f) ->
  total g (foldl (fun m r => at_ip (fun f => setFCrDNS f r) (fIP r) m) m rs) = total g m.
Proof.
  intros H0 Hg. revert m. induction rs as [|r rs IH]; intros m; [done|]. cbn [foldl]. rewrite IH.
  pose proof (total_at g (fun f => setFCrDNS f r) (fIP r) m H0) as Ht. cbv beta in Ht. rewrite Hg in Ht. lia.
Qed.

Definition isOther (h : dnsblHit) : bool := negb (isAllow h) && negb (blockerHit h).

Lemma blocker_not_allow h : blockerHit h = true -> isAllow h = false.
Proof. unfold blockerHit, isAllow. by destruct (hConfidence h), (hTier h). Qed.

Lemma total_blockers res : total (fun f => length (blockers f)) (byIP res) = length (List.filter blockerHit (Hits res)).
Proof.
  unfold byIP. cbv zeta. rewrite total_names, (total_hits _ blockerHit); try done.
  - intros f h. unfold addHit. pose proof (blocker_not_allow h) as Hb.
    destruct (isAllow h) eqn:Ea, (blockerHit h) eqn:Eb; cbn; rewrite ?length_app; cbn; try lia; by specialize (Hb eq_refl).
Qed.

Lemma total_other res : total (fun f => length (other f)) (byIP res) = length (List.filter isOther (Hits res)).
Proof.
  unfold byIP. cbv zeta. rewrite total_names, (total_hits _ isOther); try done.
  intros f h. unfold addHit, isOther. destruct (isAllow h) eqn:Ea, (blockerHit h) eqn:Eb; cbn; rewrite ?length_app; cbn; lia.
Qed.

Lemma total_allowlisted res : total (fun f => length (allowlisted f)) (byIP res) = length (List.filter isAllow (Hits res)).
Proof.
  unfold byIP. cbv zeta. rewrite total_names, (total_hits _ isAllow); try done.
  intros f h. unfold addHit. destruct (isAllow h) eqn:Ea, (blockerHit h) eqn:Eb; cbn; rewrite ?length_app; cbn; lia.
Qed.

(** The reverse names: with one result per address, every bad one counts once. *)
Lemma total_zero g (m : gmap string ipFindings) k : g noFindings = 0%nat -> total g m = 0%nat -> g (default noFindings (m !! k)) = 0%nat.
Proof.
  intros H0 Ht. destruct (m !! k) as [f|] eqn:E; [|done]. apply elem_of_map_to_list in E.
  pose proof (sum_list_with_in (k, f) (fun e => g (snd e)) _ E) as Hle. unfold total in Ht. cbn in *. lia.
Qed.

Lemma total_bad rs m : NoDup (map fIP rs) -> (forall r, In r rs -> badName (default noFindings (m !! fIP r)) = 0%nat) ->
  total badName (foldl (fun m r => at_ip (fun f => setFCrDNS f r) (fIP r) m) m rs) = (total badName m + length (List.filter (fun r => badVerdict (fVerdict r)) rs))%nat.
Proof.
  revert m. induction rs as [|r rs IH]; intros m Hnd Hm; [cbn; lia|]. cbn [map] in Hnd. apply NoDup_cons in Hnd as [Hni Hnd].
  cbn [foldl List.filter]. rewrite IH; [|done|].
  - pose proof (total_at badName (fun f => setFCrDNS f r) (fIP r) m eq_refl) as Ht. rewrite (Hm r (or_introl eq_refl)) in Ht. cbv beta in Ht.
    unfold badName at 2 in Ht. cbn [fcrdns setFCrDNS] in Ht. destruct (badVerdict (fVerdict r)); cbn [length]; lia.
  - intros q Hq. unfold at_ip. rewrite lookup_insert_ne; [apply Hm; by right|]. intros Heq. apply Hni. rewrite Heq. apply list_elem_of_In. by apply in_map.
Qed.

Lemma total_badName res : NoDup (map fIP (FCrDNS res)) ->
  total badName (byIP res) = length (List.filter (fun r => badVerdict (fVerdict r)) (FCrDNS res)).
Proof.
  intros Hnd. unfold byIP. cbv zeta. set (m := foldl _ ∅ (Hits res)).
  assert (Hm : total badName m = 0%nat).
  { subst m. rewrite (total_hits badName (fun _ => false)); [|done|].
    - assert (Hf : forall l : list dnsblHit, List.filter (fun _ => false) l = []) by by induction l. by rewrite Hf.
    - intros f h. unfold addHit. destruct (isAllow h), (blockerHit h); cbn; unfold badName; cbn; lia. }
  rewrite total_bad, Hm; [done|done|]. intros r _. by apply total_zero.
Qed.

(** ** What it means to be listed

    RFC 5782: an answer in 127.0.0.0/8; not 127.255.255.0/24, with which an operator
    declines to answer, nor 127.0.0.0; and no TXT record that says so. *)
Definition blacklistAnswer (a b c d : byte) : bool :=
  beq a x7f && negb (beq b xff && beq c xff) && negb (beq b x00 && beq c x00 && beq d x00).

Lemma octet_127 b t u : HasPrefix (fmtD (bval b) +:+ String "." t) ("127" +:+ String "." u) = beq b x7f && HasPrefix t u.
Proof. destruct b; reflexivity. Qed.
Lemma octet_255 b t u : HasPrefix (fmtD (bval b) +:+ String "." t) ("255" +:+ String "." u) = beq b xff && HasPrefix t u.
Proof. destruct b; reflexivity. Qed.
Lemma octet_0 b t u : HasPrefix (fmtD (bval b) +:+ String "." t) ("0" +:+ String "." u) = beq b x00 && HasPrefix t u.
Proof. destruct b; reflexivity. Qed.
Lemma octet_last b : HasPrefix (fmtD (bval b)) "0" = beq b x00.
Proof. destruct b; reflexivity. Qed.

Definition dotted (a b c d : byte) : string :=
  (fmtD (bval a) +:+ String "." (fmtD (bval b) +:+ String "." (fmtD (bval c) +:+ String "." (fmtD (bval d)))))%string.

Lemma ipString_dotted a b c d : ipString [a; b; c; d] = dotted a b c d.
Proof. reflexivity. Qed.

Lemma validAnswer_octets a b c d : validAnswer (dotted a b c d) = blacklistAnswer a b c d.
Proof.
  unfold validAnswer, blacklistAnswer, dotted, sentinelPrefixes. cbn [existsb].
  change "127."%string with ("127" +:+ String "." "")%string.
  change "127.255.255."%string with ("127" +:+ String "." ("255" +:+ String "." ("255" +:+ String "." "")))%string.
  change "127.0.0.0"%string with ("127" +:+ String "." ("0" +:+ String "." ("0" +:+ String "." "0")))%string.
  rewrite !octet_127, !octet_255, !octet_0, octet_last, !HasPrefix_nil. destruct (beq a x7f), (beq b xff), (beq c xff), (beq b x00), (beq c x00), (beq d x00); reflexivity.
Qed.

(** The addresses of an answer, in order *)
Definition answers (rrs : list reply) : list bytes := flat_map (fun r => match r with RepA (Some ip) => [ip] | _ => [] end) rrs.
Definition firstText (rrs : list reply) : option (list string) :=
  List.hd_error (flat_map (fun r => match r with RepTXT t => [t] | _ => [] end) rrs).

Lemma firstA_answers rrs : firstA rrs = match answers rrs with [] => ""%string | ip :: _ => ipString ip end.
Proof. induction rrs as [|[[ip|]| | | |] rrs IH]; cbn; done. Qed.
Lemma firstReason_text rrs : firstReason rrs = match firstText rrs with Some t => Join t " " | None => ""%string end.
Proof. induction rrs as [|[| | | |] rrs IH]; cbn; done. Qed.

Section Listed.
Context (query : string -> Z -> list reply + string) (reverseAddr : string -> string + string).

(** The address is listed in the zone: what [query] answers for its name in the zone
    begins, among the addresses, with one that means so, and no text takes it back. *)
Definition listed (ip : bytes) (z : dnsblZone) : Prop :=
  exists rrs a b c d more, query (dnsblName ip z) TypeA = inl rrs /\ answers rrs = [a; b; c; d] :: more /\ blacklistAnswer a b c d = true
  /\ forall txt t, query (dnsblName ip z) TypeTXT = inl txt -> firstText txt = Some t -> refusalTXT (Join t " ") = false.

(** An A record holds the four bytes of an IPv4 address. *)
Context (HA : forall q rrs ip, query q TypeA = inl rrs -> In ip (answers rrs) -> blen ip = 4).

Lemma refusalTXT_empty : refusalTXT "" = false.
Proof. reflexivity. Qed.

Definition hitOf (ip : bytes) (z : dnsblZone) (h : dnsblHit) : Prop :=
  hIP h = ipString ip /\ hZone h = zZone z /\ hTier h = zTier z /\ hConfidence h = zConfidence z.

Lemma probeZone_listed ip z : (exists h, probeZone query ip z = Hit h /\ hitOf ip z h) <-> listed ip z.
Proof.
  unfold probeZone, listed. destruct (query (dnsblName ip z) TypeA) as [rrs|e] eqn:Eq;
    [|by split; [intros (? & ? & _)|intros (? & ? & ? & ? & ? & ? & ? & _)]].
  destruct rrs as [|r0 rrs0]; [by split; [intros (? & ? & _)|intros (? & ? & ? & ? & ? & ? & [= <-] & ? & _)]|].
  set (rrs := r0 :: rrs0) in *. rewrite firstA_answers. assert (Hlen : forall v, In v (answers rrs) -> blen v = 4) by (intros v; by apply HA with (q := dnsblName ip z)).
  destruct (answers rrs) as [|v more] eqn:Ea; [by split; [intros (? & ? & _)|intros (? & ? & ? & ? & ? & ? & [= <-] & Ha & _); rewrite Ea in Ha]|].
  assert (Hv : blen v = 4) by (apply Hlen; by left). unfold blen in Hv.
  destruct v as [|a [|b [|c [|d [|? ?]]]]]; cbn [length] in Hv; try lia. rewrite ipString_dotted, validAnswer_octets.
  assert (Hne : String.eqb (dotted a b c d) "" = false) by (destruct a; reflexivity). rewrite Hne.
  destruct (blacklistAnswer a b c d) eqn:Eb; cbn [negb];
    [|by split; [intros (? & ? & _)|intros (? & ? & ? & ? & ? & ? & [= <-] & Ha & Hb & _); rewrite Ea in Ha; injection Ha as <- <- <- <- <-; congruence]].
  set (reason := match query (dnsblName ip z) TypeTXT with inl txt => firstReason txt | inr _ => ""%string end).
  assert (Hr : ((negb (String.eqb reason "") && refusalTXT reason)%bool = false)
    <-> (forall txt t, query (dnsblName ip z) TypeTXT = inl txt -> firstText txt = Some t -> refusalTXT (Join t " ") = false)).
  { assert (He : (negb (String.eqb reason "") && refusalTXT reason)%bool = refusalTXT reason) by (destruct (String.eqb_spec reason "") as [->|]; [by rewrite refusalTXT_empty|done]).
    rewrite He. subst reason. destruct (query _ TypeTXT) as [txt|e]; [|by split; [|intros _; apply refusalTXT_empty]].
    rewrite firstReason_text. split.
    - intros H txt' t [= <-] Ht. by rewrite Ht in H.
    - intros H. destruct (firstText txt) as [t|] eqn:Et; [by apply (H txt t)|apply refusalTXT_empty]. }
  destruct (negb (String.eqb reason "") && refusalTXT reason) eqn:Ef.
  - split; [intros (? & ? & _); done|]. intros (? & ? & ? & ? & ? & ? & _ & _ & _ & H). apply Hr in H. done.
  - split; [intros _|intros _; eexists; by split]. exists rrs, a, b, c, d, more. split_and!; try done. by apply Hr.
Qed.

(** *** Reverse names *)

(** A name of the address leads back to it. *)
Definition confirms (ip : bytes) (ptr : string) : bool := existsb (fun f => ipEqual f ip) (forwardIPs (forward query ip ptr)).

Lemma fcrdnsLoop_pass ip ptrs res : badVerdict (fVerdict res) = true ->
  fVerdict (fcrdnsLoop query ip ptrs res) = "pass"%string <->
  exists before ptr after, ptrs = (before ++ ptr :: after)%list /\ Forall (fun p => confirms ip p = false) before
    /\ confirms ip ptr = true /\ looksGeneric ptr = false.
Proof.
  revert res. induction ptrs as [|p ptrs IH]; intros res Hres.
  - cbn [fcrdnsLoop]. split; [intros Hp; by rewrite Hp in Hres|]. by intros ([|? ?] & ? & ? & ? & _).
  - assert (Hskip : confirms ip p = false -> (exists before ptr after, ptrs = (before ++ ptr :: after)%list /\ Forall (fun p => confirms ip p = false) before
        /\ confirms ip ptr = true /\ looksGeneric ptr = false) <-> exists before ptr after, p :: ptrs = (before ++ ptr :: after)%list
        /\ Forall (fun p => confirms ip p = false) before /\ confirms ip ptr = true /\ looksGeneric ptr = false).
    { intros Hp. split.
      - intros (before & ptr & after & -> & Hb & Hc). exists (p :: before), ptr, after. split; [done|]. split; [by constructor|done].
      - intros ([|q before] & ptr & after & [= -> ->] & Hb & Hc); [destruct Hc; congruence|]. exists before, ptr, after.
        apply Forall_cons in Hb as [_ Hb]. done. }
    pose proof (eq_refl (confirms ip p)) as Hp. unfold confirms in Hp at 1. cbn [fcrdnsLoop]. destruct (forward query ip p) as [|f0 fwd0]; [rewrite IH by done; by apply Hskip|].
    set (fwd := f0 :: fwd0) in *. destruct (forwardIPs fwd) as [|i0 is0]; [rewrite IH by done; by apply Hskip|].
    set (addrs := i0 :: is0) in *. rewrite Hp. destruct (confirms ip p) eqn:Ex; [|rewrite IH by done; by apply Hskip].
        destruct (looksGeneric p) eqn:Eg; cbn [fVerdict]; (split; [try done|]).
    + intros ([|q before] & ptr & after & [= -> ->] & Hb & Hc & Hg); [congruence|]. apply Forall_cons in Hb as [Hb _]. congruence.
    + intros _. by exists [], p, ptrs.
    + done.
Qed.
End Listed.

(** ** The check *)

(** A hit of one of these means that mail is refused. *)
Definition blocking (z : dnsblZone) : Prop :=
  In (zConfidence z) [confProduction; confOperational] /\ In (zTier z) [tierComposite; tierSpamSrc; tierExploit; tierBotnet].

Lemma blockerHit_zone ip z h : hitOf ip z h -> blockerHit h = true <-> blocking z.
Proof.
  intros (_ & _ & Ht & Hc). unfold blockerHit, blocking. rewrite Ht, Hc.
  destruct (zConfidence z), (zTier z); cbn; split; try done; try tauto; intros [H1 H2]; repeat destruct H1 as [H1|H1]; repeat destruct H2 as [H2|H2]; done.
Qed.

Definition secondary (z : dnsblZone) : Prop := zTier z <> tierAllowlist /\ ~ blocking z.

Lemma blocking_tier z : blocking z -> zTier z <> tierAllowlist.
Proof. unfold blocking. intros [_ H] He. rewrite He in H. cbn in H. intuition discriminate. Qed.

Lemma isOther_zone ip z h : hitOf ip z h -> isOther h = true <-> secondary z.
Proof.
  intros Hof. unfold isOther, secondary. rewrite <- (blockerHit_zone ip z h Hof). destruct Hof as (_ & _ & Ht & _). unfold isAllow. rewrite Ht.
  destruct (zTier z), (blockerHit h); cbn; intuition congruence.
Qed.

Lemma filter_some {A} (p : A -> bool) l : (0 < length (List.filter p l))%nat <-> exists x, In x l /\ p x = true.
Proof.
  split.
  - intros H. destruct (List.filter p l) as [|x r] eqn:E; [cbn in H; lia|]. exists x. apply filter_In. rewrite E. by left.
  - intros (x & Hx & Hp). assert (Hin : In x (List.filter p l)) by by apply filter_In. destruct (List.filter p l); [done|cbn; lia].
Qed.

Section Check.
Context (query : string -> Z -> list reply + string) (reverseAddr : string -> string + string).
Context (HA : forall q rrs ip, query q TypeA = inl rrs -> In ip (answers rrs) -> blen ip = 4).

(** Its first name that leads back to the address is not one of a pool of addresses. *)
Definition confirmed (ip : bytes) : Prop :=
  exists before ptr after, ptrsOf query reverseAddr ip = (before ++ ptr :: after)%list
    /\ Forall (fun p => confirms query ip p = false) before /\ confirms query ip ptr = true /\ looksGeneric ptr = false.

Lemma fcrdnsLoop_verdict ip ptrs res : In (fVerdict res) ["pass"; "no_ptr"; "no_forward"; "mismatch"; "generic_ptr"]%string ->
  In (fVerdict (fcrdnsLoop query ip ptrs res)) ["pass"; "no_ptr"; "no_forward"; "mismatch"; "generic_ptr"]%string.
Proof.
  revert res. induction ptrs as [|p ptrs IH]; intros res Hr; [done|]. cbn [fcrdnsLoop].
  destruct (forward query ip p); [by apply IH|]. destruct (forwardIPs _); [apply IH; cbn; tauto|].
  destruct (existsb _ _); [destruct (looksGeneric p); cbn; tauto|apply IH; cbn; tauto].
Qed.

Lemma fcrdnsLoop_ip ip ptrs res : fIP (fcrdnsLoop query ip ptrs res) = fIP res.
Proof.
  revert res. induction ptrs as [|p ptrs IH]; intros res; [done|]. cbn [fcrdnsLoop].
  destruct (forward query ip p); [by apply IH|]. destruct (forwardIPs _); [by rewrite IH|].
  destruct (existsb _ _); [by destruct (looksGeneric p)|by rewrite IH].
Qed.

Lemma badVerdict_confirmed ip : badVerdict (fVerdict (probeFCrDNS query reverseAddr ip)) = false <-> confirmed ip.
Proof.
  unfold confirmed, probeFCrDNS. rewrite <- (fcrdnsLoop_pass query ip _ (noPTR ip (ptrsOf query reverseAddr ip))) by done.
  pose proof (fcrdnsLoop_verdict ip (ptrsOf query reverseAddr ip) (noPTR ip (ptrsOf query reverseAddr ip)) ltac:(cbn; tauto)) as Hin.
  set (v := fVerdict _) in *. clearbody v. cbn in Hin. split; [|by intros ->]. intros Hv.
  repeat destruct Hin as [<-|Hin]; try done.
Qed.

Lemma probeZone_hitOf ip z h : probeZone query ip z = Hit h -> hitOf ip z h.
Proof.
  unfold probeZone. destruct (query _ TypeA) as [[|r rrs]|]; [done| |done]. destruct (String.eqb _ _); [done|]. destruct (negb _); [done|].
  destruct (_ && _)%bool; [done|]. by intros [= <-].
Qed.

Lemma hits_spec names cells ips h : In h (Hits (probeReputation query reverseAddr ips names cells)) <-> exists c, In c cells /\ probeZone query (fst c) (snd c) = Hit h.
Proof.
  cbn [Hits probeReputation]. rewrite in_flat_map. split.
  - intros (l & Hl & Hh). apply in_map_iff in Hl as (c & <- & Hc). exists c. split; [done|].
    destruct (probeZone _ _ _); [done|done|]. by destruct Hh as [->|[]].
  - intros (c & Hc & Hz). exists (Hit h). split; [|by left]. apply in_map_iff. by exists c.
Qed.

Lemma in_matrix ips ip z : In (ip, z) (matrix ips) <-> In ip ips /\ isV4 ip = true /\ In z dnsblZones.
Proof.
  unfold matrix. rewrite in_flat_map. split.
  - intros (x & Hx & Hc). destruct (isV4 x) eqn:E; [|done]. apply in_map_iff in Hc as (y & [= <- <-] & Hy). done.
  - intros (Hi & Hv & Hz). exists ip. split; [done|]. rewrite Hv. apply in_map_iff. by exists z.
Qed.

(** A hit of a kind: some address is listed in some zone that has it. *)
Lemma some_hits ips names cells (p : dnsblHit -> bool) (P : dnsblZone -> Prop) : Permutation cells (matrix ips) ->
  (forall ip z h, hitOf ip z h -> p h = true <-> P z) ->
  (0 < length (List.filter p (Hits (probeReputation query reverseAddr ips names cells))))%nat
  <-> exists ip z, In ip ips /\ isV4 ip = true /\ In z dnsblZones /\ listed query ip z /\ P z.
Proof.
  intros Hperm Hp. rewrite filter_some. split.
  - intros (h & Hh & Hph). apply hits_spec in Hh as ([ip z] & Hc & Hz). apply (Permutation_in _ Hperm) in Hc.
    apply in_matrix in Hc as (Hi & Hv & Hin). cbn [fst snd] in Hz. pose proof (probeZone_hitOf _ _ _ Hz) as Hof.
    exists ip, z. split_and!; try done; [apply (probeZone_listed query HA); by exists h|by apply (Hp ip z h)].
  - intros (ip & z & Hi & Hv & Hz & Hl & HP). apply (probeZone_listed query HA) in Hl as (h & Hh & Hof). exists h.
    split; [|by apply (Hp ip z h)]. apply hits_spec. exists (ip, z). split; [|done]. eapply Permutation_in; [by symmetry|]. by apply in_matrix.
Qed.

(** The Reputation check of a host with addresses, in whatever order the goroutines of the
    names and of the matrix finish: it fails exactly when an IPv4 address is listed in a
    zone whose hits refuse mail, and is OK exactly when every listing is in an allowlist
    and every address is confirmed by its first name that leads back to it; else it
    warns, be the listing an informational one. *)
Theorem checkReputation_status ips names cells (Hne : ips <> []) (Hnames : Permutation names ips) (Hcells : Permutation cells (matrix ips))
  (Hnd : NoDup (map ipString ips)) :
  let st := Status (checkReputation query reverseAddr true ips names cells) in
  let on P := exists ip z, In ip ips /\ isV4 ip = true /\ In z dnsblZones /\ listed query ip z /\ P z in
  (st = StatusFail <-> on blocking)
  /\ (st = StatusOK <-> ~ on (fun z => zTier z <> tierAllowlist) /\ forall ip, In ip ips -> confirmed ip)
  /\ (st <> StatusFail -> st <> StatusOK -> st = StatusWarn).
Proof.
  intros st on. set (res := probeReputation query reverseAddr ips names cells).
  assert (Hst : st = reputationStatus (length (List.filter blockerHit (Hits res))) (length (List.filter isOther (Hits res)))
                       (length (List.filter (fun r => badVerdict (fVerdict r)) (FCrDNS res)))).
  { rewrite <- total_blockers, <- total_other, <- total_badName.
    - subst st. unfold checkReputation. destruct ips as [|i ips']; [done|]. fold res. unfold reputationReport. cbv zeta.
      set (s := reputationStatus _ _ _). destruct (String.eqb_spec s StatusOK) as [->|]; done.
    - subst res. cbn [FCrDNS probeReputation]. rewrite map_map. erewrite map_ext; [|intros ip; unfold probeFCrDNS; apply fcrdnsLoop_ip]. cbn [fIP noPTR].
      by rewrite (Permutation_map ipString Hnames). }
  pose proof (some_hits ips names cells blockerHit blocking Hcells blockerHit_zone) as Hb.
  pose proof (some_hits ips names cells isOther secondary Hcells isOther_zone) as Ho.
  assert (Hbad : (0 < length (List.filter (fun r => badVerdict (fVerdict r)) (FCrDNS res)))%nat <-> exists ip, In ip ips /\ ~ confirmed ip).
  { rewrite filter_some. subst res. cbn [FCrDNS probeReputation]. split.
    - intros (r & Hr & Hv). apply in_map_iff in Hr as (ip & <- & Hi). exists ip. split; [by eapply Permutation_in|].
      intros Hc. apply badVerdict_confirmed in Hc. congruence.
    - intros (ip & Hi & Hc). exists (probeFCrDNS query reverseAddr ip). split; [apply in_map; by eapply Permutation_in; [symmetry|]|].
      destruct (badVerdict _) eqn:E; [done|]. by apply badVerdict_confirmed in E. }
  fold res in Hb, Ho. rewrite Hst. unfold reputationStatus. subst on. cbv beta.
  destruct (Nat.ltb_spec 0 (length (List.filter blockerHit (Hits res)))) as [Hlt|Hge]; cbn [orb].
  { split_and!; [by split; [intros _; apply Hb|]|split; [done|]|done]. intros [Hno _]. exfalso. apply Hno.
    apply Hb in Hlt as (ip & z & Hi & Hv & Hz & Hl & HP). exists ip, z. split_and!; try done. by apply blocking_tier. }
  assert (Hnb : forall ip z, In ip ips -> isV4 ip = true -> In z dnsblZones -> listed query ip z -> ~ blocking z).
  { intros ip z Hi Hv Hz Hl HP. assert (0 < 0)%nat; [|lia]. eapply Nat.lt_le_trans; [apply Hb; by exists ip, z|done]. }
  destruct (_ || _)%bool eqn:E.
  - split_and!; [split; [done|intros (ip & z & Hi & Hv & Hz & Hl & HP); by destruct (Hnb ip z)]|split; [done|]|done]. intros [Hno Hall]. exfalso.
    apply orb_true_iff in E as [E|E]; apply Nat.ltb_lt in E.
    + apply Ho in E as (ip & z & Hi & Hv & Hz & Hl & [HP _]). apply Hno. by exists ip, z.
    + apply Hbad in E as (ip & Hi & Hc). by apply Hc, Hall.
  - apply orb_false_iff in E as [E1 E2]. apply Nat.ltb_ge in E1, E2.
    split_and!; [split; [done|intros (ip & z & Hi & Hv & Hz & Hl & HP); by destruct (Hnb ip z)]|split; [intros _; split|done]|done].
    + intros (ip & z & Hi & Hv & Hz & Hl & HP). assert (0 < 0)%nat; [|lia]. eapply Nat.lt_le_trans; [apply Ho; exists ip, z|done].
      split_and!; try done. split; [done|by apply (Hnb ip)].
    + intros ip Hi. destruct (badVerdict (fVerdict (probeFCrDNS query reverseAddr ip))) eqn:Ev; [|by apply badVerdict_confirmed].
      assert (0 < 0)%nat; [|lia]. eapply Nat.lt_le_trans; [apply Hbad|exact E2]. exists ip. split; [done|]. intros Hc. apply badVerdict_confirmed in Hc. congruence.
Qed.
End Check.

Module ReputationWitnesses.
Definition mailer : bytes := [xc0; x00; x02; x19].
(** A resolver that lists the address in one zone and confirms its name [mx.example.org] *)
Definition resolver (zone : string) (q : string) (t : Z) : list reply + string :=
  if String.eqb q ("25.2.0.192." +:+ zone) && (t =? TypeA) then inl [RepA (Some [x7f; x00; x00; x02])]
  else if String.eqb q "arpa" && (t =? TypePTR) then inl [RepPTR "mx.example.org."]
  else if String.eqb q "mx.example.org" && (t =? TypeA) then inl [RepOther; RepA (Some mailer)]
  else inr "NXDOMAIN"%string.
Definition arpa (_ : string) : string + string := inl "arpa"%string.
Definition statusIn (zone : string) : string := Status (checkReputation (resolver zone) arpa true [mailer] [mailer] (matrix [mailer])).

Lemma resolver_A zone q rrs ip : resolver zone q TypeA = inl rrs -> In ip (answers rrs) -> blen ip = 4.
Proof.
  intros Hq. assert (In ip (answers rrs) -> ip = [x7f; x00; x00; x02] \/ ip = mailer); [|intros [->| ->]%H; done].
  revert Hq. unfold resolver. repeat (destruct (_ && _)%bool; [intros [= <-]; cbn; intuition congruence|]). done.
Qed.

Lemma checkReputation_status_witness : statusIn "zen.spamhaus.org" = StatusFail.
Proof.
  apply (checkReputation_status (resolver "zen.spamhaus.org") arpa (resolver_A "zen.spamhaus.org") [mailer] [mailer] (matrix [mailer]) ltac:(done) (Permutation_refl _) (Permutation_refl _)).
  - apply NoDup_singleton.
  - exists mailer, (zone4 "zen.spamhaus.org" "Spamhaus ZEN (composite)" tierComposite confProduction). split_and!; [by left|done|by left| |unfold blocking; cbn; tauto].
    exists [RepA (Some [x7f; x00; x00; x02])], x7f, x00, x00, x02, []. split_and!; try reflexivity. vm_compute. done.
Defined.

Example listed_nowhere : statusIn "none" = StatusOK. Proof. by vm_compute. Qed.
(** A hit in a heuristic or an experimental zone, which the comment of the check calls
    informational, is a warning like any other. *)
Example heuristic_warns : map statusIn ["dnsbl-3.uceprotect.net"; "bl.deadbeef.com"; "tor.dan.me.uk"]%string = [StatusWarn; StatusWarn; StatusWarn].
Proof. by vm_compute. Qed.
Example allowlisted_ok : statusIn "list.dnswl.org" = StatusOK. Proof. by vm_compute. Qed.
(** A name that resolves to nothing at all is reported as no name. *)
Example unresolved_name : fVerdict (probeFCrDNS (fun q t => if t =? TypePTR then inl [RepPTR "mx.example.org."] else inr "NXDOMAIN"%string) arpa mailer) = "no_ptr"%string.
Proof. by vm_compute. Qed.
End ReputationWitnesses.
