(* ===== verification/Ciphers.v ===== *)
(** Cipher suites: the enumeration and the grading rubric of [cipher_enum.go],
    and the [--cipher-pattern] filter of [tls_cipher_pattern.go]. *)

From Stdlib Require Import ZArith List String Ascii Strings.Byte Lia Bool Permutation.
From stdpp Require Import base list strings numbers.
From S2P Require Import Prelude Bytes GoStrings Stream Extensions Flight ServerHello Tls13Hello ClientHellos.
Open Scope Z_scope.

(** ** Data *)

Record cipherInfo := {
  Code : Z;
  Name : string;
  Grade : string;
  ForwardSecret : bool;
  AEAD : bool;
  CBC : bool;
  Export : bool
}.

Record cipherEnum := { TLSVersion : string; Ciphers : list cipherInfo; WorstGrade : string }.

Definition candidateCiphersTLS12 : list Z :=
  [0xc02f; 0xc030; 0xc02b; 0xc02c; 0xcca8; 0xcca9;
   0xc013; 0xc014; 0xc009; 0xc00a; 0xc027; 0xc023;
   0x009e; 0x009f; 0xccaa;
   0x0033; 0x0039; 0x0067; 0x006b;
   0x009c; 0x009d;
   0x002f; 0x0035; 0x003c; 0x003d;
   0x0005; 0x0004; 0xc011; 0xc007;
   0x000a; 0xc012; 0xc008;
   0x0003; 0x0008; 0x0014].
Definition candidateCiphersTLS13 : list Z := [0x1301; 0x1302; 0x1303; 0x1304; 0x1305].

(** ** Names *)

Definition hexDigit (v : Z) : ascii := hexChar (Z.land v 0xf).
(** Four digits of a [uint16]. *)
Definition uint16HexString (v : Z) : string :=
  String (hexDigit (Z.shiftr v 12)) (String (hexDigit (Z.shiftr v 8))
  (String (hexDigit (Z.shiftr v 4)) (String (hexDigit v) ""))).

Definition knownNames : list (Z * string) :=
  [(0x1301, "TLS_AES_128_GCM_SHA256"); (0x1302, "TLS_AES_256_GCM_SHA384");
   (0x1303, "TLS_CHACHA20_POLY1305_SHA256"); (0x1304, "TLS_AES_128_CCM_SHA256");
   (0x1305, "TLS_AES_128_CCM_8_SHA256");
   (0xc02f, "TLS_ECDHE_RSA_WITH_AES_128_GCM_SHA256"); (0xc030, "TLS_ECDHE_RSA_WITH_AES_256_GCM_SHA384");
   (0xc02b, "TLS_ECDHE_ECDSA_WITH_AES_128_GCM_SHA256"); (0xc02c, "TLS_ECDHE_ECDSA_WITH_AES_256_GCM_SHA384");
   (0xcca8, "TLS_ECDHE_RSA_WITH_CHACHA20_POLY1305"); (0xcca9, "TLS_ECDHE_ECDSA_WITH_CHACHA20_POLY1305");
   (0xc013, "TLS_ECDHE_RSA_WITH_AES_128_CBC_SHA"); (0xc014, "TLS_ECDHE_RSA_WITH_AES_256_CBC_SHA");
   (0xc009, "TLS_ECDHE_ECDSA_WITH_AES_128_CBC_SHA"); (0xc00a, "TLS_ECDHE_ECDSA_WITH_AES_256_CBC_SHA");
   (0xc027, "TLS_ECDHE_RSA_WITH_AES_128_CBC_SHA256"); (0xc023, "TLS_ECDHE_ECDSA_WITH_AES_128_CBC_SHA256");
   (0x009e, "TLS_DHE_RSA_WITH_AES_128_GCM_SHA256"); (0x009f, "TLS_DHE_RSA_WITH_AES_256_GCM_SHA384");
   (0xccaa, "TLS_DHE_RSA_WITH_CHACHA20_POLY1305");
   (0x0033, "TLS_DHE_RSA_WITH_AES_128_CBC_SHA"); (0x0039, "TLS_DHE_RSA_WITH_AES_256_CBC_SHA");
   (0x0067, "TLS_DHE_RSA_WITH_AES_128_CBC_SHA256"); (0x006b, "TLS_DHE_RSA_WITH_AES_256_CBC_SHA256");
   (0x009c, "TLS_RSA_WITH_AES_128_GCM_SHA256"); (0x009d, "TLS_RSA_WITH_AES_256_GCM_SHA384");
   (0x002f, "TLS_RSA_WITH_AES_128_CBC_SHA"); (0x0035, "TLS_RSA_WITH_AES_256_CBC_SHA");
   (0x003c, "TLS_RSA_WITH_AES_128_CBC_SHA256"); (0x003d, "TLS_RSA_WITH_AES_256_CBC_SHA256");
   (0x0005, "TLS_RSA_WITH_RC4_128_SHA"); (0x0004, "TLS_RSA_WITH_RC4_128_MD5");
   (0xc011, "TLS_ECDHE_RSA_WITH_RC4_128_SHA"); (0xc007, "TLS_ECDHE_ECDSA_WITH_RC4_128_SHA");
   (0x000a, "TLS_RSA_WITH_3DES_EDE_CBC_SHA"); (0xc012, "TLS_ECDHE_RSA_WITH_3DES_EDE_CBC_SHA");
   (0xc008, "TLS_ECDHE_ECDSA_WITH_3DES_EDE_CBC_SHA");
   (0x0003, "TLS_RSA_EXPORT_WITH_RC4_40_MD5"); (0x0008, "TLS_RSA_EXPORT_WITH_DES40_CBC_SHA");
   (0x0014, "TLS_DHE_RSA_EXPORT_WITH_DES40_CBC_SHA")]%string.

(** The lookup in a table written as a Go map or a [switch]. *)
Fixpoint assoc {A} (c : Z) (l : list (Z * A)) : option A :=
  match l with
  | [] => None
  | (k, v) :: l' => if c =? k then Some v else assoc c l'
  end.

Definition cipherCodeName (c : Z) : string :=
  match assoc c knownNames with
  | Some name => name
  | None => ("0x" +:+ uint16HexString c)%string
  end.

(** ** The rubric *)

Definition inList (c : Z) (l : list Z) : bool := existsb (Z.eqb c) l.

Definition classifyCipher (c : Z) : cipherInfo :=
  let info (grade : string) (fs aead cbc export : bool) :=
    {| Code := c; Name := cipherCodeName c; Grade := grade; ForwardSecret := fs; AEAD := aead;
       CBC := cbc; Export := export |} in
  if inList c [0x1301; 0x1302; 0x1303; 0x1304; 0x1305] then info "A"%string true true false false
  else if inList c [0xc02f; 0xc030; 0xc02b; 0xc02c; 0xcca8; 0xcca9] then info "A"%string true true false false
  else if inList c [0x009e; 0x009f; 0xccaa] then info "B"%string true true false false
  else if inList c [0xc013; 0xc014; 0xc009; 0xc00a; 0xc027; 0xc023] then info "B"%string true false true false
  else if inList c [0x0033; 0x0039; 0x0067; 0x006b] then info "B"%string true false true false
  else if inList c [0x009c; 0x009d] then info "C"%string false true false false
  else if inList c [0x002f; 0x0035; 0x003c; 0x003d] then info "C"%string false false true false
  else if inList c [0x0005; 0x0004; 0xc011; 0xc007] then info "F"%string false false false false
  else if inList c [0x000a; 0xc012; 0xc008] then info "F"%string false false true false
  else if inList c [0x0003; 0x0008; 0x0014] then info "F"%string false false false true
  else info "?"%string false false false false.

(** ** Probing *)

(** [singleCipherClientHello]; [rnd] is what [rand.Read] left in the buffer. *)
Definition singleCipherClientHello (host : string) (tlsVer cipher : Z) (rnd : bytes) : bytes :=
  let extensions := buildSNIExtension host in
  let extensions := extensions ++ legacyGroups in
  let extensions := extensions ++ legacySigAlgs in
  let '(legacyVer, extensions) :=
    if tlsVer =? 0x0304
    then (0x0303, (extensions ++ [x00; x2b; x00; x03; x02; x03; x04]) ++ [x00; x33; x00; x02; x00; x00])
    else (tlsVer, extensions) in
  helloRecord legacyVer rnd (putBE16 cipher) extensions.

Section Probing.
Context {C : Type} `{Reader C}.

Definition probeOneCipher (net : attemptConn (C := C)) (host : string) (tlsVer cipher : Z) (rnd : bytes)
    : outcome bool :=
  let hello := singleCipherClientHello host tlsVer cipher rnd in
  match net hello with
  | None => Ret false
  | Some conn =>
      r <~ readFull 5 conn ;;
      match fst r with
      | None => Ret false
      | Some hdr => h0 <~ index hdr 0 ;; Ret (beq h0 x16)
      end
  end.
End Probing.

(** The goroutines of [enumerateCiphers] put their results on a channel in any
    order: [arrivals] is what the receiving loop sees. *)
Definition enumerateCiphers (arrivals : list (Z * bool)) : list cipherInfo :=
  flat_map (fun r : Z * bool => if snd r then [classifyCipher (fst r)] else []) arrivals.

(** ** The pattern filter *)

Definition opensslCipherName (code : Z) : string :=
  match assoc code
    [(0x1301, "TLS_AES_128_GCM_SHA256"); (0x1302, "TLS_AES_256_GCM_SHA384");
     (0x1303, "TLS_CHACHA20_POLY1305_SHA256");
     (0xc02f, "ECDHE-RSA-AES128-GCM-SHA256"); (0xc030, "ECDHE-RSA-AES256-GCM-SHA384");
     (0xc013, "ECDHE-RSA-AES128-SHA"); (0xc014, "ECDHE-RSA-AES256-SHA"); (0xc027, "ECDHE-RSA-AES128-SHA256");
     (0xcca8, "ECDHE-RSA-CHACHA20-POLY1305");
     (0xc02b, "ECDHE-ECDSA-AES128-GCM-SHA256"); (0xc02c, "ECDHE-ECDSA-AES256-GCM-SHA384");
     (0xc009, "ECDHE-ECDSA-AES128-SHA"); (0xc00a, "ECDHE-ECDSA-AES256-SHA");
     (0xcca9, "ECDHE-ECDSA-CHACHA20-POLY1305");
     (0x009c, "AES128-GCM-SHA256"); (0x009d, "AES256-GCM-SHA384"); (0x002f, "AES128-SHA");
     (0x0035, "AES256-SHA"); (0x003c, "AES128-SHA256");
     (0x0004, "RC4-MD5"); (0x0005, "RC4-SHA"); (0xc011, "ECDHE-RSA-RC4-SHA"); (0xc007, "ECDHE-ECDSA-RC4-SHA");
     (0x000a, "DES-CBC3-SHA"); (0xc008, "ECDHE-ECDSA-DES-CBC3-SHA"); (0xc012, "ECDHE-RSA-DES-CBC3-SHA");
     (0x0003, "EXP-RC4-MD5"); (0x0006, "EXP-RC2-CBC-MD5"); (0x0008, "EXP-DES-CBC-SHA");
     (0x0001, "NULL-MD5"); (0x0002, "NULL-SHA")]%string
  with Some n => n | None => ""%string end.

Definition cipherPatternMatch (code : Z) (name pattern : string) : bool :=
  if String.eqb pattern "" then false else
  let p := ToLower (TrimSpace pattern) in
  if HasPrefix p "0x" then
    let hex := TrimPrefix p "0x" in
    let actual := hex16 code in
    String.eqb actual hex
  else if Contains (ToLower name) p then true
  else
    let openssl := opensslCipherName code in
    if negb (String.eqb openssl "") then Contains (ToLower openssl) p else false.

Record cipherPatternMatchEntry := {
  eCode : Z; eName : string; eOpenSSL : string; eOffered : bool; eGrade : string; eVersion : string
}.
Record cipherPatternResult := { Pattern : string; Matches : list cipherPatternMatchEntry; HitCount : Z }.

(** The loop's state: [seen], the matches so far and their count. *)
Definition filterTurn (pattern ver : string) (st : list Z * list cipherPatternMatchEntry * Z) (ci : cipherInfo)
    : list Z * list cipherPatternMatchEntry * Z :=
  let '(seen, ms, n) := st in
  if negb (cipherPatternMatch (Code ci) (Name ci) pattern) then st
  else if inList (Code ci) seen then st
  else (Code ci :: seen,
        ms ++ [{| eCode := Code ci; eName := Name ci; eOpenSSL := opensslCipherName (Code ci);
                  eOffered := true; eGrade := Grade ci; eVersion := ver |}], n + 1).
Definition filterCiphersByPattern (enums : list cipherEnum) (pattern : string) : cipherPatternResult :=
  let '(_, ms, n) :=
    fold_left (fun st ce => fold_left (filterTurn pattern (TLSVersion ce)) (Ciphers ce) st) enums ([], [], 0) in
  {| Pattern := pattern; Matches := ms; HitCount := n |}.

Definition esIfPlural (n : Z) : string := (if (n =? 1)%Z then "" else "es")%string.

(** ** Codes and their names *)

Lemma land15_shiftr v k : 0 <= k -> Z.land (Z.shiftr v k) 15 = v / 2 ^ k mod 16.
Proof. intros Hk. change 15 with (Z.ones 4). by rewrite Z.land_ones, Z.shiftr_div_pow2. Qed.

Lemma hex16_inj a b : 0 <= a < 65536 -> 0 <= b < 65536 -> hex16 a = hex16 b -> a = b.
Proof.
  intros Ha Hb H. unfold hex16 in H. rewrite !land15_shiftr in H by lia.
  change 15 with (Z.ones 4) in H. rewrite !Z.land_ones in H by lia.
  injection H as H3 H2' H1' H0'.
  apply hexChar_inj in H3; [|apply Z.mod_pos_bound; lia|apply Z.mod_pos_bound; lia].
  apply hexChar_inj in H2'; [|apply Z.mod_pos_bound; lia|apply Z.mod_pos_bound; lia].
  apply hexChar_inj in H1'; [|apply Z.mod_pos_bound; lia|apply Z.mod_pos_bound; lia].
  apply hexChar_inj in H0'; [|apply Z.mod_pos_bound; lia|apply Z.mod_pos_bound; lia].
  change (2 ^ 12) with 4096 in *. change (2 ^ 8) with 256 in *. change (2 ^ 4) with 16 in *.
  Z.to_euclidean_division_equations. lia.
Qed.

Lemma uint16HexString_hex16 v : uint16HexString v = hex16 v.
Proof. reflexivity. Qed.

Lemma assoc_in {A} c (l : list (Z * A)) v : assoc c l = Some v -> In (c, v) l.
Proof.
  induction l as [|[k w] l IH]; cbn; [done|]. destruct (Z.eqb_spec c k) as [->|]; [|auto].
  intros [= ->]. by left.
Qed.

Lemma assoc_none {A} c (l : list (Z * A)) : assoc c l = None -> ~ In c (map fst l).
Proof.
  induction l as [|[k w] l IH]; cbn; [tauto|]. destruct (Z.eqb_spec c k) as [->|]; [done|].
  intros H [E|E]; [by subst|by apply IH].
Qed.

(** In a table without repeated values, a value determines its key. *)
Lemma table_inj {A} (l : list (Z * A)) :
  NoDup (map snd l) -> forall c d v, In (c, v) l -> In (d, v) l -> c = d.
Proof.
  induction l as [|[k w] l IH]; [done|]. cbn [map snd]. intros Hnd c d v Hc Hd'. inversion_clear Hnd as [|? ? Hn Hd].
  assert (Hin : forall x, In (x, w) l -> In w (map snd l)) by (intros x Hx; by apply (in_map snd) in Hx).
  destruct Hc as [Hc|Hc], Hd' as [Hd''|Hd''].
  - congruence.
  - injection Hc as <- <-. apply Hin in Hd''. by rewrite <- list_elem_of_In in Hd''.
  - injection Hd'' as <- <-. apply Hin in Hc. by rewrite <- list_elem_of_In in Hc.
  - by apply (IH Hd c d v).
Qed.

Lemma knownNames_nodup : NoDup (map snd knownNames).
Proof. apply (bool_decide_unpack _). by vm_compute. Qed.

Lemma knownNames_TLS c name : In (c, name) knownNames -> HasPrefix name "TLS_" = true.
Proof.
  assert (H : forallb (fun p => HasPrefix (snd p) "TLS_") knownNames = true) by reflexivity.
  intros Hin. by apply (proj1 (forallb_forall _ _) H) in Hin.
Qed.

(** ** The rubric, read off the names *)

Definition hasAny (name : string) (l : list string) : bool := existsb (Contains name) l.

(** What the rubric says of a suite, in terms of its IANA name. *)
Definition rubricAEAD (name : string) : bool := hasAny name ["GCM"; "CCM"; "CHACHA20"]%string.
Definition rubricEphemeral (name : string) : bool :=
  hasAny name ["ECDHE_"; "DHE_"]%string || negb (Contains name "_WITH_").
Definition rubricBroken (name : string) : bool := hasAny name ["RC4"; "3DES"; "EXPORT"]%string.
Definition rubricGrade (name : string) : string :=
  if rubricBroken name then "F"
  else if negb (rubricEphemeral name) then "C"
  else if rubricAEAD name && (Contains name "ECDHE_" || negb (Contains name "_WITH_")) then "A" else "B".

Definition candidates : list Z := candidateCiphersTLS12 ++ candidateCiphersTLS13.

Definition rubricHolds (c : Z) : bool :=
  let i := classifyCipher c in let n := cipherCodeName c in
  HasPrefix n "TLS_" && String.eqb (Grade i) (rubricGrade n)
  && Bool.eqb (AEAD i) (rubricAEAD n)
  && Bool.eqb (ForwardSecret i) (rubricEphemeral n && negb (rubricBroken n))
  && Bool.eqb (Export i) (Contains n "EXPORT")
  && Bool.eqb (CBC i) (Contains n "CBC" && negb (Contains n "EXPORT")).

Lemma inList_spec c l : inList c l = true <-> In c l.
Proof.
  unfold inList. rewrite existsb_exists. split.
  - intros (x & Hx & ->%Z.eqb_eq). done.
  - intros Hc. exists c. split; [done|apply Z.eqb_refl].
Qed.

Lemma classify_unknown c : ~ In c candidates -> Grade (classifyCipher c) = "?"%string.
Proof.
  intros Hc. unfold classifyCipher.
  assert (Hl : forall l, forallb (fun x => inList x candidates) l = true -> inList c l = false).
  { intros l Hl. destruct (inList c l) eqn:E; [|done]. apply inList_spec in E.
    apply (proj1 (forallb_forall _ _) Hl), inList_spec in E. done. }
  by rewrite !Hl by reflexivity.
Qed.

(** The rubric is the one the names spell out: for every candidate suite the
    grade is F for RC4, 3DES and EXPORT, C without an ephemeral key exchange, A
    for TLS 1.3 and for ECDHE with an AEAD, B for the rest; the AEAD flag is the
    name's, the forward-secrecy flag is the name's except that it is off for
    every F, and the CBC flag is the name's except for EXPORT; a code outside
    the candidates is graded "?", and different codes have different names. *)
Theorem classifyCipher_rubric c :
  (In c candidates -> rubricHolds c = true) /\
  (~ In c candidates -> Grade (classifyCipher c) = "?"%string) /\
  (forall d, 0 <= c < 65536 -> 0 <= d < 65536 -> cipherCodeName c = cipherCodeName d -> c = d) /\
  NoDup candidates.
Proof.
  split; [|split; [apply classify_unknown|split]].
  - assert (H : forallb rubricHolds candidates = true) by (vm_compute; reflexivity).
    apply (proj1 (forallb_forall _ _) H).
  - intros d Hc Hd. unfold cipherCodeName.
    destruct (assoc c knownNames) as [n|] eqn:Ec, (assoc d knownNames) as [m|] eqn:Ed; intros E.
    + apply assoc_in in Ec, Ed. subst m. by apply (table_inj knownNames knownNames_nodup c d n).
    + apply assoc_in, knownNames_TLS in Ec. by rewrite E in Ec.
    + apply assoc_in, knownNames_TLS in Ed. by rewrite <- E in Ed.
    + injection E as E1 E2 E3 E4. apply hex16_inj; [done|done|]. change (uint16HexString c = uint16HexString d). unfold uint16HexString. by rewrite E1, E2, E3, E4.
  - apply (bool_decide_unpack _). by vm_compute.
Qed.

(** ** The hello and the probe *)

(** The extensions of the hello, in order. *)
Definition singleExts (host : string) (tlsVer : Z) : list (Z * bytes) :=
  legacyExts host (if tlsVer =? 0x0304 then [(0x2b, [x02; x03; x04]); (0x33, [x00; x00])] else []).
Definition helloVersion (tlsVer : Z) : Z := if tlsVer =? 0x0304 then 0x0303 else tlsVer.

Lemma singleCipherClientHello_enc host tlsVer cipher rnd :
  singleCipherClientHello host tlsVer cipher rnd
  = helloRecord (helloVersion tlsVer) rnd (putBE16 cipher) (encExts (singleExts host tlsVer)).
Proof.
  unfold singleCipherClientHello, singleExts, helloVersion, legacyExts. cbn [encExts flat_map].
  rewrite buildSNIExtension_enc. destruct (tlsVer =? 0x0304); rewrite <- !app_assoc; reflexivity.
Qed.

Lemma singleExts_ok host tlsVer : slen host < 65000 -> Forall extOk (singleExts host tlsVer).
Proof.
  intros Hh. apply legacyExts_ok; [done|].
  destruct (tlsVer =? 0x0304); repeat constructor; vm_compute; congruence.
Qed.

Lemma blen_singleExts host tlsVer :
  blen (encExts (singleExts host tlsVer)) = 45 + slen host + (if tlsVer =? 0x0304 then 13 else 0).
Proof.
  unfold singleExts. rewrite blen_encExts. unfold legacyExts. cbn [foldr snd]. rewrite blen_sniData.
  change (blen (drop 4 legacyGroups)) with 8. change (blen (drop 4 legacySigAlgs)) with 20.
  destruct (tlsVer =? 0x0304); cbn [foldr snd]; autorewrite with blen; lia.
Qed.

(** The enumeration's ClientHello is well formed and offers exactly one suite:
    every length is exact, the cipher list is that one code, the extensions
    decode to server_name, supported_groups and signature_algorithms, and, for
    TLS 1.3 only, supported_versions with 0x0304 and an empty key_share under a
    legacy version of 0x0303. *)
Theorem singleCipherHello_wellformed host tlsVer cipher rnd :
  slen host <= 60000 -> blen rnd = 32 ->
  let exts := singleExts host tlsVer in
  let body := helloBody (helloVersion tlsVer) rnd (putBE16 cipher) (encExts exts) in
  singleCipherClientHello host tlsVer cipher rnd
  = encRecord x16 (putBE16 (helloVersion tlsVer)) (encMsg x01 body) /\
  blen (encExts exts) < 65536 /\ blen (encMsg x01 body) < 65536 /\
  extList (encExts exts) = (exts, Clean) /\
  (firstExt 0x2b exts = if tlsVer =? 0x0304 then Some [x02; x03; x04] else None).
Proof.
  intros Hh Hr exts body. pose proof (slen_nonneg host). pose proof (blen_singleExts host tlsVer) as Hl.
  fold exts in Hl. split; [by rewrite singleCipherClientHello_enc, helloRecord_enc|].
  split; [destruct (tlsVer =? 0x0304); lia|].
  split; [unfold body, helloBody; rewrite encMsg_length; autorewrite with blen; destruct (tlsVer =? 0x0304); lia|].
  split; [apply extList_encExts, singleExts_ok; lia|].
  unfold exts, singleExts, legacyExts. rewrite !firstExt_cons. cbn [Z.eqb Pos.eqb].
  by destruct (tlsVer =? 0x0304).
Qed.

Lemma singleCipherHello_wellformed_witness :
  blen (encExts (singleExts "example.com" 0x0304)) < 65536 /\
  firstExt 0x2b (singleExts "example.com" 0x0304) = Some [x02; x03; x04].
Proof.
  destruct (singleCipherHello_wellformed "example.com" 0x0304 0x1301 (repeat x5a 32)) as (_ & Hl & _ & _ & Hx).
  - by vm_compute.
  - reflexivity.
  - split; [exact Hl|exact Hx].
Defined.

Section Probe.
Context {C : Type} `{Reader C}.

(** What the probe answers, on any connection. *)
Definition acceptsHandshake (s : bytes) : bool :=
  (5 <=? blen s) && match s with b :: _ => beq b x16 | [] => false end.

Lemma probeOneCipher_spec (net : attemptConn (C := C)) host ver cipher rnd :
  probeOneCipher net host ver cipher rnd =
  Ret (match net (singleCipherClientHello host ver cipher rnd) with
       | Some c => acceptsHandshake (pending c)
       | None => false
       end).
Proof.
  unfold probeOneCipher. destruct (net _) as [c|]; [|done].
  destruct (readFull_spec 5 c ltac:(lia)) as (r & c' & Hr & Hs). rewrite Hr. cbn [bind fst].
  unfold acceptsHandshake. destruct r as [hdr|].
  - destruct Hs as [-> Hl]. destruct hdr as [|h0 hdr]; [by rewrite blen_nil in Hl|].
    rewrite (read_index (h0 :: hdr) [] h0 hdr) by done. cbn [bind app].
    change (h0 :: hdr ++ pending c') with ((h0 :: hdr) ++ pending c').
    rewrite blen_app, Hl. pose proof (blen_nonneg (pending c')).
    by rewrite (proj2 (Z.leb_le _ _)) by lia.
  - destruct Hs as [Hl _]. by rewrite (proj2 (Z.leb_gt _ _)) by lia.
Qed.
End Probe.

Lemma enumerateCiphers_perm l l' :
  Permutation l l' -> Permutation (enumerateCiphers l) (enumerateCiphers l').
Proof. intros Hp. unfold enumerateCiphers. by apply Permutation_flat_map. Qed.

Lemma enumerateCiphers_filter ok l :
  enumerateCiphers (map (fun c => (c, ok c)) l) = map classifyCipher (List.filter ok l).
Proof.
  unfold enumerateCiphers. induction l as [|c l IH]; [done|]. cbn [map flat_map List.filter fst snd].
  rewrite IH. by destruct (ok c).
Qed.

(** The enumeration against any server: whatever order the goroutines finish
    in, the suites reported are, up to that order, the classifications of
    exactly the candidates whose single-suite hello the server answers with a
    handshake record - no suite twice, none missed, and no probe panics. *)
Theorem enumerateCiphers_complete {C} `{Reader C} (net : attemptConn (C := C)) host ver rnd cands arrivals :
  (forall c b, In (c, b) arrivals -> probeOneCipher net host ver c (rnd c) = Ret b) ->
  Permutation (map fst arrivals) cands -> List.NoDup cands ->
  let accepted c := match net (singleCipherClientHello host ver c (rnd c)) with
                    | Some s => acceptsHandshake (pending s) | None => false end in
  Permutation (enumerateCiphers arrivals) (map classifyCipher (List.filter accepted cands)) /\
  List.NoDup (map Code (enumerateCiphers arrivals)) /\
  (forall c, exists b, probeOneCipher net host ver c (rnd c) = Ret b).
Proof.
  intros Ha Hp Hn accepted.
  assert (Harr : arrivals = map (fun c => (c, accepted c)) (map fst arrivals)).
  { rewrite map_map. rewrite <- (map_id arrivals) at 1. apply map_ext_in. intros [c b] Hin.
    specialize (Ha c b Hin). rewrite probeOneCipher_spec in Ha. injection Ha as Hb. cbn [fst]. by rewrite <- Hb. }
  assert (Hperm : Permutation (enumerateCiphers arrivals) (map classifyCipher (List.filter accepted cands))).
  { rewrite Harr, <- enumerateCiphers_filter. apply enumerateCiphers_perm. by apply Permutation_map. }
  split; [done|]. split.
  - eapply Permutation_NoDup; [apply Permutation_map; symmetry; exact Hperm|].
    assert (Hc : forall c, Code (classifyCipher c) = c)
      by (intros c; unfold classifyCipher; repeat (match goal with |- context [if ?b then _ else _] => destruct b end); done).
    rewrite map_map. rewrite (map_ext _ id) by exact Hc. rewrite map_id. by apply List.NoDup_filter.
  - intros c. rewrite probeOneCipher_spec. by eexists.
Qed.

(** A server that takes one suite. *)
Definition pickyServer (h : bytes) : option bytes :=
  if decide (h = singleCipherClientHello "" 0x0303 0xc02f (repeat x5a 32))
  then Some [x16; x03; x03; x00; x7a] else None.

Lemma enumerateCiphers_complete_witness :
  Permutation (enumerateCiphers [(0x009c, false); (0xc02f, true); (0x0005, false)]) [classifyCipher 0xc02f].
Proof.
  apply (@enumerateCiphers_complete bytes bytesReader pickyServer "" 0x0303 (fun _ => repeat x5a 32)
    [0xc02f; 0x0005; 0x009c] [(0x009c, false); (0xc02f, true); (0x0005, false)]).
  - intros c b Hin. repeat destruct Hin as [Hin|Hin]; try done; injection Hin as <- <-; vm_compute; reflexivity.
  - cbn [map fst]. apply perm_trans with [0xc02f; 0x009c; 0x0005]; [apply perm_swap|].
    apply perm_skip, perm_swap.
  - repeat constructor; cbn; intros Hin; repeat destruct Hin as [Hin|Hin]; done.
Defined.

(** ** The filter *)

Lemma prefix_app a b : String.prefix a (a +:+ b) = true.
Proof. induction a as [|c a IH]; cbn; [by destruct b|]. by destruct (ascii_dec c c). Qed.

Lemma patternMatch_hex p d c name :
  ToLower (TrimSpace p) = ("0x" +:+ hex16 d)%string -> cipherPatternMatch c name p = String.eqb (hex16 c) (hex16 d).
Proof.
  intros Hp. unfold cipherPatternMatch. destruct (String.eqb_spec p "") as [->|_]; [done|].
  rewrite Hp. unfold HasPrefix, TrimPrefix, HasPrefix. by rewrite prefix_app.
Qed.

(** The rows the filter walks over, in order. *)
Definition rowsOf (enums : list cipherEnum) : list (string * cipherInfo) :=
  flat_map (fun ce => map (pair (TLSVersion ce)) (Ciphers ce)) enums.
Definition rowMatches (pattern : string) (r : string * cipherInfo) : bool :=
  cipherPatternMatch (Code (snd r)) (Name (snd r)) pattern.
Definition rowEntry (r : string * cipherInfo) : cipherPatternMatchEntry :=
  {| eCode := Code (snd r); eName := Name (snd r); eOpenSSL := opensslCipherName (Code (snd r));
     eOffered := true; eGrade := Grade (snd r); eVersion := fst r |}.
(** The first matching row of a code. *)
Definition firstRow (pattern : string) (rows : list (string * cipherInfo)) (c : Z) : option (string * cipherInfo) :=
  List.find (fun r => rowMatches pattern r && (Code (snd r) =? c)) rows.

Definition rowTurn (pattern : string) (st : list Z * list cipherPatternMatchEntry * Z) (r : string * cipherInfo) :=
  filterTurn pattern (fst r) st (snd r).

Lemma filter_rows pattern enums st :
  fold_left (fun st ce => fold_left (filterTurn pattern (TLSVersion ce)) (Ciphers ce) st) enums st
  = fold_left (rowTurn pattern) (rowsOf enums) st.
Proof.
  revert st. induction enums as [|ce enums IH]; intros st; [done|]. unfold rowsOf in *.
  cbn [fold_left flat_map]. rewrite fold_left_app, IH. f_equal. clear.
  revert st. induction (Ciphers ce) as [|ci l IH]; intros st; [done|]. cbn [map fold_left]. apply IH.
Qed.

(** What the loop has collected after some rows. *)
Record collected (pattern : string) (rows : list (string * cipherInfo))
    (st : list Z * list cipherPatternMatchEntry * Z) : Prop := {
  col_seen : forall c, In c (fst (fst st)) <-> In c (map eCode (snd (fst st)));
  col_nodup : List.NoDup (map eCode (snd (fst st)));
  col_count : snd st = blen (snd (fst st));
  col_first : forall e, In e (snd (fst st)) <-> exists r, firstRow pattern rows (eCode e) = Some r /\ e = rowEntry r
}.

Lemma find_snoc {A} (f : A -> bool) l x :
  List.find f (l ++ [x]) = match List.find f l with Some y => Some y | None => if f x then Some x else None end.
Proof. induction l as [|y l IH]; cbn; [done|]. by destruct (f y). Qed.

Lemma NoDup_app_snoc {A} (l : list A) x : List.NoDup l -> ~ In x l -> List.NoDup (l ++ [x]).
Proof.
  intros Hl Hx. eapply Permutation_NoDup; [apply Permutation_cons_append|]. by constructor.
Qed.

Lemma rowTurn_collected pattern rows st r :
  collected pattern rows st -> collected pattern (rows ++ [r]) (rowTurn pattern st r).
Proof.
  destruct st as [[seen ms] n]. intros [Hs Hn Hc Hf]; cbn [fst snd] in *. unfold rowTurn, filterTurn.
  assert (Hone : forall c, firstRow pattern (rows ++ [r]) c =
    match firstRow pattern rows c with Some y => Some y
    | None => if rowMatches pattern r && (Code (snd r) =? c) then Some r else None end)
    by (intros c; unfold firstRow; by rewrite find_snoc).
  fold (rowMatches pattern r). destruct (rowMatches pattern r) eqn:Em; cbn [negb].
  - destruct (inList (Code (snd r)) seen) eqn:Ei.
    + apply inList_spec, Hs, in_map_iff in Ei as (e & He & Hin).
      split; cbn [fst snd]; try done. intros e'. rewrite Hf. split; intros (r' & Hr' & ->); exists r'; split; try done.
      * by rewrite Hone, Hr'.
      * rewrite Hone in Hr'. destruct (firstRow pattern rows _) eqn:E; [done|].
        destruct (Z.eqb_spec (Code (snd r)) (eCode (rowEntry r'))) as [Ec|]; [|done].
        apply Hf in Hin as (r1 & Hr1 & _). rewrite He, Ec in Hr1. congruence.
    + assert (Hnew : ~ In (Code (snd r)) (map eCode ms)).
      { rewrite <- Hs. intros Hin. apply inList_spec in Hin. congruence. }
      split; cbn [fst snd].
      * intros c. rewrite map_app, in_app_iff. cbn. rewrite Hs. tauto.
      * rewrite map_app. apply NoDup_app_snoc; done.
      * rewrite blen_app, blen_cons, blen_nil. lia.
      * intros e. rewrite in_app_iff, Hf. cbn [In]. split.
        -- intros [(r' & Hr' & ->)|[<-|[]]]; [exists r'; by rewrite Hone, Hr'|].
           exists r. split; [|done]. rewrite Hone. cbn [eCode].
           destruct (firstRow pattern rows (Code (snd r))) as [r1|] eqn:E.
           { exfalso. apply Hnew, in_map_iff. exists (rowEntry r1).
             assert (Hk : Code (snd r1) = Code (snd r))
               by (unfold firstRow in E; apply find_some in E as [_ E]; to_prop; tauto).
             split; [done|]. apply Hf. exists r1. cbn [eCode rowEntry]. by rewrite Hk. }
           cbn [andb]. by rewrite Z.eqb_refl.
        -- intros (r' & Hr' & ->). rewrite Hone in Hr'.
           destruct (firstRow pattern rows (eCode (rowEntry r'))) as [r1|] eqn:E.
           { injection Hr' as ->. left. by exists r'. }
           cbn [andb] in Hr'. destruct (Code (snd r) =? eCode (rowEntry r')); [|done].
           injection Hr' as ->. by right; left.
  - split; cbn [fst snd]; try done. intros e. rewrite Hf.
    split; intros (r' & Hr' & ->); exists r'; split; try done; rewrite Hone in *; cbn [andb] in *;
      by destruct (firstRow pattern rows _).
Qed.

(** The pattern filter: a pattern of "0x" and four hexadecimal digits, in any
    case and with white space around it, selects exactly that code; for any
    pattern the result has one entry per matching code, from the first matching
    row of the enumeration, and the count is the number of entries. *)
Theorem filterCiphers_spec enums pattern :
  let r := filterCiphersByPattern enums pattern in
  List.NoDup (map eCode (Matches r)) /\ HitCount r = blen (Matches r) /\
  (forall e, In e (Matches r) <->
     exists row, firstRow pattern (rowsOf enums) (eCode e) = Some row /\ e = rowEntry row) /\
  (forall c d name, 0 <= c < 65536 -> 0 <= d < 65536 ->
     ToLower (TrimSpace pattern) = ("0x" +:+ hex16 d)%string ->
     cipherPatternMatch c name pattern = (c =? d)).
Proof.
  intros r. assert (Hall : forall rows, collected pattern rows (fold_left (rowTurn pattern) rows ([], [], 0))).
  { intros rows. induction rows as [|row rows IH] using rev_ind.
    - split; cbn; [tauto|constructor|done|]. intros e. split; [done|]. by intros (? & ? & _).
    - rewrite fold_left_app. by apply rowTurn_collected. }
  specialize (Hall (rowsOf enums)). rewrite <- filter_rows in Hall.
  unfold r, filterCiphersByPattern. destruct (fold_left _ enums _) as [[seen ms] n].
  destruct Hall as [_ Hn Hc Hf]. cbn [fst snd Matches HitCount] in *. split; [done|]. split; [done|]. split; [done|].
  intros c d name Hcr Hdr Hp. rewrite (patternMatch_hex pattern d c name Hp).
  destruct (Z.eqb_spec c d) as [->|Hne]; [apply String.eqb_refl|].
  apply String.eqb_neq. intros E. apply Hne. by apply hex16_inj.
Qed.
