(* ===== verification/Preference.v ===== *)
(** The cipher-preference probe of [tls_preference.go]: which of the offered
    suites the server picks, for the offer and for its reverse. *)

From Stdlib Require Import ZArith List String Ascii Strings.Byte Lia Bool Permutation.
From stdpp Require Import base list strings numbers.
From S2P Require Import Prelude Bytes GoStrings Stream Extensions Flight ServerHello Tls13Hello ClientHellos Ciphers.
Open Scope Z_scope.

Record cipherPreferenceResult := {
  prefTLSVersion : string;
  Order : string;
  ForwardPick : string;
  ReversePick : string
}.

Definition tlsVersionNameForCode (v : Z) : string :=
  if v =? 0x0301 then "TLS 1.0" else if v =? 0x0302 then "TLS 1.1"
  else if v =? 0x0303 then "TLS 1.2" else if v =? 0x0304 then "TLS 1.3" else "".

Definition multiCipherClientHello (host : string) (tlsVer : Z) (ciphers : list Z) (rnd : bytes) : bytes :=
  let extensions := buildSNIExtension host in
  let extensions := extensions ++ legacyGroups in
  let extensions := extensions ++ legacySigAlgs in
  let '(legacyVer, extensions) :=
    if tlsVer =? 0x0304
    then (0x0303, (extensions ++ [x00; x2b; x00; x03; x02; x03; x04]) ++ [x00; x33; x00; x02; x00; x00])
    else (tlsVer, extensions) in
  let cipherBytes := flat_map putBE16 ciphers in
  helloRecord legacyVer rnd cipherBytes extensions.

Definition serverHelloCipherSuite (body : bytes) : outcome Z :=
  if blen body <? 35 then Ret 0 else
  sid <~ index body 34 ;;
  let off := 35 + bval sid in
  if blen body <? off + 2 then Ret 0 else
  a <~ index body off ;; b <~ index body (off + 1) ;;
  Ret (be16 a b).

(** [if hsType == 0x02 { return serverHelloCipherSuite(body[i+4:end]) }] *)
Definition onHelloCipher (body : bytes) (hsType : byte) (lo hi : Z) : outcome (option Z) :=
  if beq hsType x02 then sh <~ slice body lo hi ;; c <~ serverHelloCipherSuite sh ;; Ret (Some c) else Ret None.

Section Probing.
Context {C : Type} `{Reader C}.

Definition readServerHelloCipher (conn : C) : outcome Z := readFlight 0 onHelloCipher conn.

(** [net] is the connection attempt, as in the other probes. *)
Definition probeServerCipherChoice (net : attemptConn (C := C)) (host : string) (tlsVer : Z) (ciphers : list Z)
    (rnd : bytes) : outcome Z :=
  let hello := multiCipherClientHello host tlsVer ciphers rnd in
  match net hello with
  | None => Ret 0
  | Some conn => readServerHelloCipher conn
  end.

(** The two attempts dial twice: [net1] and [net2]. *)
Definition probeCipherPreference (net1 net2 : attemptConn (C := C)) (host : string) (tlsVer : Z)
    (supportedCiphers : list Z) (rnd1 rnd2 : bytes) : outcome cipherPreferenceResult :=
  let res := {| prefTLSVersion := tlsVersionNameForCode tlsVer; Order := ""; ForwardPick := ""; ReversePick := "" |} in
  if blen supportedCiphers <? 2 then Ret res else
  forward <~ probeServerCipherChoice net1 host tlsVer supportedCiphers rnd1 ;;
  if forward =? 0 then Ret res else
  let reversed := rev supportedCiphers in
  reverse <~ probeServerCipherChoice net2 host tlsVer reversed rnd2 ;;
  if reverse =? 0 then Ret res else
  s0 <~ index supportedCiphers 0 ;; r0 <~ index reversed 0 ;;
  Ret {| prefTLSVersion := tlsVersionNameForCode tlsVer;
         Order := if forward =? reverse then "server"
                  else if (forward =? s0) && (reverse =? r0) then "client" else "indeterminate";
         ForwardPick := cipherCodeName forward; ReversePick := cipherCodeName reverse |}.
End Probing.

(** ** The suite of a ServerHello *)

Lemma wp_serverHelloCipherSuite body E : wp (serverHelloCipherSuite body) (fun _ => True) E.
Proof.
  unfold serverHelloCipherSuite. wp_step; [done|]. to_prop.
  wp_step. apply wp_index; [lia|]. intros sid _. pose proof (bval_range sid). cbv zeta.
  wp_step; [done|]. to_prop. wp_step. apply wp_index; [lia|]. intros a _. wp_step. by apply wp_index; [lia|].
Qed.

Definition suiteOf (body : bytes) : Z := match serverHelloCipherSuite body with Ret c => c | _ => 0 end.

Definition pickHelloCipher (hsType : byte) (body : bytes) : option Z :=
  if beq hsType x02 then Some (suiteOf body) else None.

#[export] Instance onHelloCipher_handler : Handler onHelloCipher pickHelloCipher.
Proof.
  intros b ty lo hi Hlo Hhi. unfold onHelloCipher, pickHelloCipher. destruct (beq ty x02); [|done].
  rewrite slice_ok by lia. cbn [bind]. unfold suiteOf.
  pose proof (wp_serverHelloCipherSuite (sub b lo (hi - lo)) (fun _ => False)) as Hw.
  by destruct (serverHelloCipherSuite _).
Qed.

Lemma suiteOf_legacy v1 v0 random sid cipher comp exts :
  blen random = 32 -> blen sid < 256 -> 0 <= cipher < 65536 ->
  suiteOf (legacyServerHello v1 v0 random sid cipher comp exts) = cipher.
Proof.
  intros Hr Hs Hc. pose proof (blen_nonneg sid). pose proof (blen_nonneg exts).
  destruct (legacyServerHello_reads v1 v0 random sid cipher comp exts Hr) as (_ & _ & H34 & Ha & Hb).
  unfold suiteOf, serverHelloCipherSuite. rewrite blen_legacyServerHello, H34 by done.
  rewrite (proj2 (Z.ltb_ge _ 35)) by lia. cbn [bind]. rewrite bval_byteOf, Z.mod_small by lia.
  rewrite (proj2 (Z.ltb_ge _ _)), Ha, Hb by lia. cbn [bind]. by rewrite be16_putBE16, u16_small by lia.
Qed.

Section Verdict.
Context {C : Type} `{Reader C}.

(** What a server that picks [cipher] sends: a flight whose first ServerHello
    names the suite. *)
Record answersWith (conn : C) (cipher : Z) : Prop := {
  aw_flight : exists v1 v0 recs rest before after w1 w0 random sid comp exts,
    Forall recOk recs /\ pending conn = encFlight v1 v0 recs ++ rest
    /\ flightMsgs recs = before ++ (x02, legacyServerHello w1 w0 random sid cipher comp exts) :: after
    /\ Forall (fun m : byte * bytes => fst m <> x02) before /\ blen random = 32 /\ blen sid < 256;
  aw_range : 0 < cipher < 65536
}.

Lemma readServerHelloCipher_answer conn cipher :
  answersWith conn cipher -> readServerHelloCipher conn = Ret cipher.
Proof.
  intros [(v1 & v0 & recs & rest & before & after & w1 & w0 & random & sid & comp & exts
    & Hrecs & Hp & Hm & Hb & Hr & Hs) Hc].
  eapply readFlight_finds; [apply onHelloCipher_handler|exact Hrecs|exact Hp|]. rewrite Hm, firstPick_app.
  replace (firstPick pickHelloCipher before) with (@None Z).
  - cbn [firstPick fst snd]. unfold pickHelloCipher. change (beq x02 x02) with true. rewrite suiteOf_legacy by (done || lia). done.
  - clear -Hb. induction Hb as [|[ty b] before Hty Hb IH]; [done|]. cbn [firstPick fst snd] in *.
    unfold pickHelloCipher at 1. by destruct (beq ty x02) eqn:E; [apply beq_true in E|].
Qed.

(** A server with a choice function, asked with an offer and its reverse. *)
Record choosesBy (net1 net2 : attemptConn (C := C)) (host : string) (tlsVer : Z) (rnd1 rnd2 : bytes)
    (cs : list Z) (choose : list Z -> Z) : Prop := {
  cb_forward : exists c1, net1 (multiCipherClientHello host tlsVer cs rnd1) = Some c1 /\ answersWith c1 (choose cs);
  cb_reverse : exists c2, net2 (multiCipherClientHello host tlsVer (rev cs) rnd2) = Some c2 /\ answersWith c2 (choose (rev cs))
}.

Lemma preference_of_choice net1 net2 host tlsVer rnd1 rnd2 cs choose c0 mid cl :
  cs = c0 :: mid ++ [cl] -> choosesBy net1 net2 host tlsVer rnd1 rnd2 cs choose ->
  probeCipherPreference net1 net2 host tlsVer cs rnd1 rnd2
  = Ret {| prefTLSVersion := tlsVersionNameForCode tlsVer;
           Order := if choose cs =? choose (rev cs) then "server"
                    else if (choose cs =? c0) && (choose (rev cs) =? cl) then "client" else "indeterminate";
           ForwardPick := cipherCodeName (choose cs); ReversePick := cipherCodeName (choose (rev cs)) |}.
Proof.
  intros Hcs [(n1 & Hn1 & Ha1) (n2 & Hn2 & Ha2)].
  pose proof (aw_range _ _ Ha1). pose proof (aw_range _ _ Ha2).
  unfold probeCipherPreference, probeServerCipherChoice. rewrite Hn1, Hn2.
  rewrite (readServerHelloCipher_answer _ _ Ha1), (readServerHelloCipher_answer _ _ Ha2). cbn [bind].
  rewrite (proj2 (Z.ltb_ge _ _))
    by (rewrite Hcs, blen_cons, blen_app, blen_cons, blen_nil; pose proof (blen_nonneg mid); lia).
  rewrite (proj2 (Z.eqb_neq (choose cs) 0)), (proj2 (Z.eqb_neq (choose (rev cs)) 0)) by lia.
  rewrite (read_index cs [] c0 (mid ++ [cl])) by done.
  rewrite (read_index (rev cs) [] cl (rev mid ++ [c0])); [done| |done].
  rewrite Hcs. cbn [rev]. rewrite rev_app_distr. done.
Qed.
End Verdict.

(** The two offers tell the two kinds of servers apart. A server that picks the
    first suite of its own list that is offered gets "server", whatever the order of
    the offer; one that picks the first suite of the offer gets "client"; and in
    either case the picks are reported by name. *)
Theorem probeCipherPreference_verdict {C} `{Reader C} (net1 net2 : attemptConn (C := C)) host tlsVer rnd1 rnd2 cs choose
  (Hlen : 2 <= blen cs) (Hnodup : List.NoDup cs)
  (Hchoose : choosesBy net1 net2 host tlsVer rnd1 rnd2 cs choose) :
  (forall own, (forall offer, choose offer = default 0 (find (fun c => inList c offer) own)) ->
     probeCipherPreference net1 net2 host tlsVer cs rnd1 rnd2
     = Ret {| prefTLSVersion := tlsVersionNameForCode tlsVer; Order := "server";
              ForwardPick := cipherCodeName (choose cs); ReversePick := cipherCodeName (choose cs) |})
  /\ ((forall offer, choose offer = hd 0 offer) ->
     probeCipherPreference net1 net2 host tlsVer cs rnd1 rnd2
     = Ret {| prefTLSVersion := tlsVersionNameForCode tlsVer; Order := "client";
              ForwardPick := cipherCodeName (hd 0 cs); ReversePick := cipherCodeName (List.last cs 0) |}).
Proof.
  assert (Hsplit : exists c0 mid cl, cs = c0 :: mid ++ [cl]).
  { destruct cs as [|c0 cs]; [rewrite blen_nil in Hlen; lia|].
    destruct (@exists_last Z cs) as (mid & cl & ->); [|by exists c0, mid, cl].
    intros ->. rewrite blen_cons, blen_nil in Hlen. lia. }
  destruct Hsplit as (c0 & mid & cl & Hcs).
  rewrite (preference_of_choice net1 net2 host tlsVer rnd1 rnd2 cs choose c0 mid cl Hcs Hchoose). split.
  - intros own Hown. replace (choose (rev cs)) with (choose cs); [by rewrite Z.eqb_refl|].
    rewrite !Hown. f_equal. clear. induction own as [|c own IH]; [done|]. cbn [find].
    replace (inList c (rev cs)) with (inList c cs); [by rewrite IH|].
    apply eq_true_iff_eq. rewrite !inList_spec. apply in_rev.
  - intros Hhead. rewrite !Hhead, Hcs. cbn [rev hd]. rewrite rev_app_distr. cbn [rev app hd].
    rewrite app_comm_cons, last_last, !Z.eqb_refl.
    replace (c0 =? cl) with false; [done|]. symmetry. apply Z.eqb_neq. intros ->. rewrite Hcs in Hnodup.
    inversion Hnodup as [|? ? Hn]; subst. apply Hn, in_or_app. right. by left.
Qed.

(** A server that picks the first suite of the offer. *)
Definition firstOf (offer : list Z) : Z := hd 0 offer.
Definition helloWith (cipher : Z) : bytes :=
  encFlight x03 x03 [Messages [(x02, legacyServerHello x03 x03 (repeat x01 32) [] cipher x00 [])]].
Definition clientOrderNet (offer : list Z) : attemptConn (C := bytes) := fun _ => Some (helloWith (firstOf offer)).

Lemma helloWith_answers cipher : 0 < cipher < 65536 -> answersWith (helloWith cipher) cipher.
Proof.
  intros Hc. split; [|done].
  exists x03, x03, [Messages [(x02, legacyServerHello x03 x03 (repeat x01 32) [] cipher x00 [])]], [], [], [],
    x03, x03, (repeat x01 32), [], x00, []. split_and!; try done.
  constructor; [|done]. split; [|constructor; [by vm_compute|done]]. by vm_compute.
Qed.

Lemma probeCipherPreference_verdict_witness :
  probeCipherPreference (clientOrderNet [0xc02f; 0x002f; 0x0035]) (clientOrderNet (rev [0xc02f; 0x002f; 0x0035]))
    "h" 0x0303 [0xc02f; 0x002f; 0x0035] [] []
  = Ret {| prefTLSVersion := "TLS 1.2"; Order := "client";
           ForwardPick := "TLS_ECDHE_RSA_WITH_AES_128_GCM_SHA256"; ReversePick := "TLS_RSA_WITH_AES_256_CBC_SHA" |}.
Proof.
  refine (proj2 (probeCipherPreference_verdict (clientOrderNet [0xc02f; 0x002f; 0x0035])
    (clientOrderNet (rev [0xc02f; 0x002f; 0x0035])) "h" 0x0303 [] [] [0xc02f; 0x002f; 0x0035] firstOf _ _ _) _).
  - by vm_compute.
  - repeat constructor; cbn; intuition discriminate.
  - split; (eexists; split; [reflexivity|apply helloWith_answers; by vm_compute]).
  - done.
Defined.

(** The offer of one suite is the hello of the enumeration, as the comment says. *)
Lemma multiCipherClientHello_single host tlsVer c rnd :
  multiCipherClientHello host tlsVer [c] rnd = singleCipherClientHello host tlsVer c rnd.
Proof.
  unfold multiCipherClientHello, singleCipherClientHello. cbn [flat_map]. rewrite app_nil_r.
  by destruct (tlsVer =? 0x0304).
Qed.
