(* ===== verification/TlsCheck.v ===== *)
(** Pure parts of [checkTLS] and its helpers in [tls.go]: the pinned-version
    probes, the per-version cipher table, certificate facts and the HSTS flags. *)

From Stdlib Require Import ZArith List String Ascii Strings.Byte Lia Bool Permutation.
From stdpp Require Import base list strings numbers.
From S2P Require Import Prelude Bytes GoStrings Digest Ciphers.
Open Scope Z_scope.

(** ** Versions *)

Definition VersionTLS10 : Z := 0x0301.
Definition VersionTLS11 : Z := 0x0302.
Definition VersionTLS12 : Z := 0x0303.
Definition VersionTLS13 : Z := 0x0304.

Definition tlsVersionName (v : Z) : string :=
  if v =? VersionTLS13 then "TLS 1.3" else if v =? VersionTLS12 then "TLS 1.2"
  else if v =? VersionTLS11 then "TLS 1.1" else if v =? VersionTLS10 then "TLS 1.0"
  else ("TLS (0x" +:+ hex16 v +:+ ")")%string.

Record tlsVersionProbe := { vName : string; vSupported : bool; vCipher : Z }.

Definition probedVersions : list tlsVersionProbe :=
  map (fun n => {| vName := n; vSupported := false; vCipher := 0 |})
    ["TLS 1.0"; "TLS 1.1"; "TLS 1.2"; "TLS 1.3"]%string.

(** The results of the four goroutines arrive in any order: each writes the slot
    of its index. *)
Definition versionArrival (versions : list tlsVersionProbe) (r : nat * bool * Z) : list tlsVersionProbe :=
  let '(idx, ok, cipher) := r in
  alter (fun v => {| vName := vName v; vSupported := ok; vCipher := cipher |}) idx versions.
Definition probeTLSVersions (arrivals : list (nat * bool * Z)) : list tlsVersionProbe :=
  fold_left versionArrival arrivals probedVersions.

Definition supportedVersionNames (probes : list tlsVersionProbe) : list string :=
  flat_map (fun p => if vSupported p then [vName p] else []) probes.

Fixpoint tls10CipherIfSupported (probes : list tlsVersionProbe) : Z :=
  match probes with
  | [] => 0
  | p :: ps => if String.eqb (vName p) "TLS 1.0" && vSupported p then vCipher p else tls10CipherIfSupported ps
  end.

Definition versionOf (name : string) : Z :=
  if String.eqb name "TLS 1.0" then VersionTLS10 else if String.eqb name "TLS 1.1" then VersionTLS11
  else if String.eqb name "TLS 1.2" then VersionTLS12 else if String.eqb name "TLS 1.3" then VersionTLS13
  else 0.
Definition maxSupportedVersion (probes : list tlsVersionProbe) : Z :=
  fold_left (fun max p => if negb (vSupported p) then max
    else let v := versionOf (vName p) in if max <? v then v else max) probes 0.

(** ** The cipher table of the check *)

Definition grade2rank (g : string) : Z :=
  if String.eqb g "A" then 4 else if String.eqb g "B" then 3 else if String.eqb g "C" then 2
  else if String.eqb g "D" then 1 else if String.eqb g "F" then 0 else -1.

Definition worstGrade (got : list cipherInfo) : string :=
  fold_left (fun worst ci => if grade2rank (Grade ci) <? grade2rank worst then Grade ci else worst) got "A"%string.

(** The row of one version: [got] is what [enumerateCiphers] found. *)
Definition enumRow (name : string) (got : list cipherInfo) : list cipherEnum :=
  match got with
  | [] => []
  | _ => [{| TLSVersion := name; Ciphers := got; WorstGrade := worstGrade got |}]
  end.

Definition isWeakCipher (suite : Z) : bool := inList suite [0x0005; 0x000a; 0xc011; 0xc007; 0x003c].

(** ** Certificates *)

Inductive publicKey := RSAKey (bitLen : Z) | ECDSAKey (bitSize : Z) | Ed25519Key | OtherKey.
Inductive publicKeyAlgorithm := RSA | DSA | ECDSA | Ed25519 | UnknownAlgorithm.

(** What the code reads of an [x509.Certificate]; [SignatureAlgorithm] is its
    [String()]. *)
Record certificate := {
  PublicKeyAlgorithm : publicKeyAlgorithm;
  PublicKey : publicKey;
  SignatureAlgorithm : string;
  RawCert : bytes;
  Extensions : list (list Z * bytes)
}.

Definition keyAlgorithmName (cert : certificate) : string :=
  match PublicKeyAlgorithm cert with
  | RSA => "RSA" | ECDSA => "ECDSA" | Ed25519 => "Ed25519" | DSA => "DSA" | UnknownAlgorithm => ""
  end.
Definition keyBits (cert : certificate) : Z :=
  match PublicKey cert with RSAKey n => n | ECDSAKey n => n | Ed25519Key => 256 | OtherKey => 0 end.

(** [for i := 0; i < len(hexed); i += 2 { if i > 0 { ':' }; hexed[i:i+2] }] *)
Fixpoint colonPairs (first : bool) (s : string) : string :=
  match s with
  | String a (String b s') =>
      ((if first then "" else ":") +:+ String a (String b "") +:+ colonPairs false s')%string
  | _ => ""%string
  end.
Definition certFingerprintSHA256 (cert : certificate) : string :=
  colonPairs true (ToUpper (hexEncode (sha256 (RawCert cert)))).

Definition mustStapleOID : list Z := [1; 3; 6; 1; 5; 5; 7; 1; 24].

(** [for i+2 < len(v) { ...; i += 3 }] *)
Definition stapleTurn (v : bytes) (i : Z) : outcome (step Z bool) :=
  if i + 2 <? blen v then
    a <~ index v i ;; b <~ index v (i + 1) ;; c <~ index v (i + 2) ;;
    if beq a x02 && beq b x01 && beq c x05 then Ret (Return true) else Ret (Next (i + 3))
  else Ret (Break i).
Fixpoint mustStapleExts (exts : list (list Z * bytes)) : outcome bool :=
  match exts with
  | [] => Ret false
  | (id, v) :: exts =>
      if negb (bool_decide (id = mustStapleOID)) then mustStapleExts exts else
      if blen v <? 2 then Ret false else
      v0 <~ index v 0 ;;
      if negb (beq v0 x30) then Ret false else
      r <~ loop (stapleTurn v) (S (length v)) 2 ;;
      match r with inr b => Ret b | inl _ => mustStapleExts exts end
  end.
Definition certHasMustStaple (cert : certificate) : outcome bool := mustStapleExts (Extensions cert).

(** ** HSTS as the grade sees it *)

Definition hstsFlags (hsts : string) : bool * bool :=
  (Contains (ToLower hsts) "max-age=" && negb (Contains (ToLower hsts) "max-age=0"),
   Contains (ToLower hsts) "preload").

(** ** Versions: the order of the arrivals *)

Lemma versionArrival_comm vs r1 r2 :
  fst (fst r1) <> fst (fst r2) -> versionArrival (versionArrival vs r1) r2 = versionArrival (versionArrival vs r2) r1.
Proof.
  destruct r1 as [[i1 ok1] c1], r2 as [[i2 ok2] c2]. cbn [fst]. intros Hne.
  unfold versionArrival. by apply list_alter_alter_ne.
Qed.

Lemma arrivals_perm l l' vs :
  Permutation l l' -> List.NoDup (map (fun r => fst (fst r)) l) ->
  fold_left versionArrival l vs = fold_left versionArrival l' vs.
Proof.
  intros Hp. revert vs. induction Hp as [|x l l' Hp IH|x y l|l1 l2 l3 H1 IH1 H2 IH2]; intros vs Hnd; cbn.
  - done.
  - inversion Hnd. by apply IH.
  - f_equal. cbn in Hnd. inversion Hnd as [|? ? Hnin]; subst. apply versionArrival_comm.
    intros E. apply Hnin. left. by rewrite E.
  - rewrite IH1 by done. apply IH2. eapply Permutation_NoDup; [by apply Permutation_map|done].
Qed.

(** Whatever the order in which the four pinned-version probes finish, the
    version table is the one in protocol order with each probe's own result; the
    names given to the grade are those of the accepted versions, and
    [maxSupportedVersion] is the highest of them, 0 when there is none. *)
Theorem probeTLSVersions_report arrivals b0 c0 b1 c1 b2 c2 b3 c3
  (Harr : Permutation arrivals [(0%nat, b0, c0); (1%nat, b1, c1); (2%nat, b2, c2); (3%nat, b3, c3)]) :
  let probes := probeTLSVersions arrivals in
  probes = [ {| vName := "TLS 1.0"; vSupported := b0; vCipher := c0 |};
             {| vName := "TLS 1.1"; vSupported := b1; vCipher := c1 |};
             {| vName := "TLS 1.2"; vSupported := b2; vCipher := c2 |};
             {| vName := "TLS 1.3"; vSupported := b3; vCipher := c3 |} ]
  /\ supportedVersionNames probes
     = (if b0 then ["TLS 1.0"%string] else []) ++ (if b1 then ["TLS 1.1"%string] else [])
       ++ (if b2 then ["TLS 1.2"%string] else []) ++ (if b3 then ["TLS 1.3"%string] else [])
  /\ maxSupportedVersion probes
     = (if b3 then VersionTLS13 else if b2 then VersionTLS12 else if b1 then VersionTLS11
        else if b0 then VersionTLS10 else 0)
  /\ tls10CipherIfSupported probes = (if b0 then c0 else 0).
Proof.
  cbv zeta. unfold probeTLSVersions. rewrite (arrivals_perm _ _ _ Harr).
  - split; [done|]. split; [by destruct b0, b1, b2, b3|]. split; [by destruct b0, b1, b2, b3|by destruct b0].
  - eapply Permutation_NoDup; [symmetry; by apply Permutation_map|]. cbn.
    repeat constructor; cbn; intuition discriminate.
Qed.

Lemma probeTLSVersions_report_witness :
  maxSupportedVersion (probeTLSVersions [(3%nat, false, 0); (2%nat, true, 0xc02f); (1%nat, false, 0); (0%nat, true, 0x2f)])
  = VersionTLS12.
Proof.
  exact (proj1 (proj2 (proj2 (probeTLSVersions_report _ true 0x2f false 0 true 0xc02f false 0
    (Permutation_rev [(3%nat, false, 0); (2%nat, true, 0xc02f); (1%nat, false, 0); (0%nat, true, 0x2f)]))))).
Defined.

(** ** Must-Staple *)

(** The DER of a TLS Feature extension whose features are one byte each. *)
Definition featureBytes (fs : list byte) : bytes := flat_map (fun f : byte => [x02; x01; f]) fs.
Definition featureExt (fs : list byte) : bytes := x30 :: byteOf (blen (featureBytes fs)) :: featureBytes fs.

Lemma stapleTurn_Ret v i : 0 <= i -> exists r, stapleTurn v i = Ret r.
Proof.
  intros Hi. unfold stapleTurn. destruct (i + 2 <? blen v) eqn:E; to_prop; [|by eexists].
  destruct (index_some v i) as [a ->]; [lia|]. destruct (index_some v (i + 1)) as [b ->]; [lia|].
  destruct (index_some v (i + 2)) as [c ->]; [lia|]. cbn [bind]. destruct (_ && _); by eexists.
Qed.

Lemma stapleTurn_at p a b c r :
  stapleTurn (p ++ a :: b :: c :: r) (blen p)
  = Ret (if beq a x02 && beq b x01 && beq c x05 then Return true else Next (blen p + 3)).
Proof.
  unfold stapleTurn. pose proof (blen_nonneg r).
  replace (blen p + 2 <? _) with true by (symmetry; apply Z.ltb_lt; rewrite blen_app, !blen_cons; lia).
  rewrite (read_index _ p a (b :: c :: r) (blen p)) by done.
  rewrite (read_index _ (p ++ [a]) b (c :: r) (blen p + 1))
    by (rewrite <- ?app_assoc || rewrite blen_app, blen_cons, blen_nil; done || lia).
  rewrite (read_index _ (p ++ [a; b]) c r (blen p + 2))
    by (rewrite <- ?app_assoc || rewrite blen_app, !blen_cons, blen_nil; done || lia).
  cbn [bind]. by destruct (_ && _).
Qed.

Lemma staple_loop fs : forall p fuel,
  (length fs < fuel)%nat ->
  loop (stapleTurn (p ++ featureBytes fs)) fuel (blen p)
  = Ret (if existsb (beq x05) fs then inr true else inl (blen p + 3 * blen fs)).
Proof.
  induction fs as [|f fs IH]; intros p [|fuel] Hf; cbn [length] in Hf; try lia.
  - cbn [loop featureBytes flat_map existsb]. unfold stapleTurn. rewrite app_nil_r.
    replace (blen p + 2 <? blen p) with false by (symmetry; apply Z.ltb_ge; lia). do 2 f_equal. change (blen (@nil byte)) with 0. lia.
  - cbn [loop]. change (featureBytes (f :: fs)) with (x02 :: x01 :: f :: featureBytes fs).
    rewrite stapleTurn_at. cbn [existsb]. rewrite !beq_refl. cbn [andb].
    replace (beq f x05) with (beq x05 f).
    2:{ destruct (beq x05 f) eqn:E; symmetry; [apply beq_true in E as <-; apply beq_refl|].
        destruct (beq f x05) eqn:E'; [|done]. apply beq_true in E' as ->. by rewrite beq_refl in E. }
    destruct (beq x05 f); cbn [orb]; [done|].
    replace (blen p + 3) with (blen (p ++ [x02; x01; f])) by (rewrite blen_app, !blen_cons, blen_nil; lia).
    change (x02 :: x01 :: f :: featureBytes fs) with ([x02; x01; f] ++ featureBytes fs). rewrite app_assoc.
    rewrite IH by lia. autorewrite with blen. destruct (existsb _ fs); [done|].
    do 2 f_equal. lia.
Qed.

Lemma wp_stapleTurns v fuel i E : 0 <= i -> (length v < fuel + Z.to_nat i)%nat -> (0 < fuel)%nat ->
  wp (loop (stapleTurn v) fuel i) (fun _ => True) E.
Proof.
  intros Hi Hf Hpos. apply (wp_loop _ (fun i => 0 <= i) (fun i => length v - Z.to_nat i)%nat); [|done|lia].
  clear i Hi Hf. intros i Hi. destruct (stapleTurn_Ret v i Hi) as [r Hr]. rewrite Hr. apply wp_ret.
  revert Hr. unfold stapleTurn. destruct (i + 2 <? blen v) eqn:Hlt; [|by intros [= <-]].
  to_prop. unfold blen in Hlt.
  repeat (destruct (index _ _) as [?| | |]; cbn [bind]; try discriminate).
  destruct (_ && _); intros [= <-]; cbn; [done|lia].
Qed.

Lemma mustStapleExts_skip pre exts :
  Forall (fun e : list Z * bytes => fst e <> mustStapleOID) pre ->
  mustStapleExts (pre ++ exts) = mustStapleExts exts.
Proof.
  induction 1 as [|[id v] pre Hid Hpre IH]; [done|]. cbn [mustStapleExts app].
  rewrite bool_decide_eq_false_2 by done. exact IH.
Qed.

Lemma wp_mustStapleExts exts E : wp (mustStapleExts exts) (fun _ => True) E.
Proof.
  induction exts as [|[id v] exts IH]; cbn [mustStapleExts]; [done|].
  destruct (negb _); [done|]. destruct (blen v <? 2) eqn:Hlt; [done|]. to_prop.
  destruct (index_some v 0) as [v0 ->]; [lia|]. cbn [bind]. destruct (negb _); [done|].
  apply wp_bind. eapply wp_mono; [apply (wp_stapleTurns _ _ _ (fun _ => False)); lia| |done].
  by intros [i|b] _.
Qed.

(** [certHasMustStaple] returns for every certificate, whatever bytes its
    extensions hold; for a TLS Feature extension with one-byte features it says
    exactly whether status_request (5) is among them, and without the extension it
    says no. *)
Theorem certHasMustStaple_spec cert pre fs post
  (Hext : Extensions cert = pre ++ (mustStapleOID, featureExt fs) :: post)
  (Hother : Forall (fun e : list Z * bytes => fst e <> mustStapleOID) (pre ++ post)) :
  certHasMustStaple cert = Ret (existsb (beq x05) fs)
  /\ forall other, safe (certHasMustStaple other)
     /\ (Forall (fun e : list Z * bytes => fst e <> mustStapleOID) (Extensions other)
         -> certHasMustStaple other = Ret false).
Proof.
  apply Forall_app in Hother as [Hpre Hpost]. split.
  - unfold certHasMustStaple. rewrite Hext, mustStapleExts_skip by done. cbn [mustStapleExts].
    rewrite bool_decide_eq_true_2 by done. cbn [negb]. unfold featureExt.
    pose proof (blen_nonneg (featureBytes fs)).
    replace (_ <? 2) with false by (symmetry; apply Z.ltb_ge; rewrite !blen_cons; lia).
    change (index (x30 :: ?l) 0) with (Ret x30). cbn [bind]. rewrite beq_refl. cbn [negb].
    set (hd := [x30; byteOf (blen (featureBytes fs))]).
    change (x30 :: byteOf (blen (featureBytes fs)) :: featureBytes fs) with (hd ++ featureBytes fs).
    change (loop ?f ?n 2) with (loop f n (blen hd)). rewrite staple_loop.
    2:{ rewrite length_app. cbn. enough (length fs <= length (featureBytes fs))%nat by lia.
        clear. induction fs as [|f fs IH]; [done|].
        change (featureBytes (f :: fs)) with (x02 :: x01 :: f :: featureBytes fs). cbn [length]. lia. }
    cbn [bind]. destruct (existsb _ fs); [done|].
    rewrite <- (app_nil_r post), mustStapleExts_skip by done. done.
  - intros other. split; [apply wp_mustStapleExts|]. intros Hnone. unfold certHasMustStaple.
    rewrite <- (app_nil_r (Extensions other)). by rewrite mustStapleExts_skip.
Qed.

Definition stapledCert : certificate :=
  {| PublicKeyAlgorithm := RSA; PublicKey := RSAKey 2048; SignatureAlgorithm := "SHA256-RSA"; RawCert := [];
     Extensions := [([2; 5; 29; 15], [x03; x02]); (mustStapleOID, featureExt [x11; x05])] |}.

Lemma certHasMustStaple_spec_witness : certHasMustStaple stapledCert = Ret true.
Proof.
  refine (proj1 (certHasMustStaple_spec stapledCert [([2; 5; 29; 15], [x03; x02])] [x11; x05] [] eq_refl _)).
  by constructor.
Defined.
