(* ===== verification/ClientSim.v ===== *)
(** The Go names of the TLS cipher suites of the standard library, and the client
    simulation of [tls_client_sim.go]: one handshake per simulated client. *)

From Stdlib Require Import ZArith List String Ascii Strings.Byte Lia Bool Permutation.
From stdpp Require Import base list strings.
From S2P Require Import Prelude Bytes GoStrings Text Result Ciphers TlsCheck Sorting.
Open Scope Z_scope.

(** ** The suites that Go knows *)

Definition TLS_RSA_WITH_RC4_128_SHA : Z := 0x0005.
Definition TLS_RSA_WITH_3DES_EDE_CBC_SHA : Z := 0x000a.
Definition TLS_RSA_WITH_AES_128_CBC_SHA : Z := 0x002f.
Definition TLS_RSA_WITH_AES_256_CBC_SHA : Z := 0x0035.
Definition TLS_RSA_WITH_AES_128_CBC_SHA256 : Z := 0x003c.
Definition TLS_RSA_WITH_AES_128_GCM_SHA256 : Z := 0x009c.
Definition TLS_RSA_WITH_AES_256_GCM_SHA384 : Z := 0x009d.
Definition TLS_ECDHE_ECDSA_WITH_RC4_128_SHA : Z := 0xc007.
Definition TLS_ECDHE_ECDSA_WITH_AES_128_CBC_SHA : Z := 0xc009.
Definition TLS_ECDHE_ECDSA_WITH_AES_256_CBC_SHA : Z := 0xc00a.
Definition TLS_ECDHE_RSA_WITH_RC4_128_SHA : Z := 0xc011.
Definition TLS_ECDHE_RSA_WITH_3DES_EDE_CBC_SHA : Z := 0xc012.
Definition TLS_ECDHE_RSA_WITH_AES_128_CBC_SHA : Z := 0xc013.
Definition TLS_ECDHE_RSA_WITH_AES_256_CBC_SHA : Z := 0xc014.
Definition TLS_ECDHE_ECDSA_WITH_AES_128_CBC_SHA256 : Z := 0xc023.
Definition TLS_ECDHE_RSA_WITH_AES_128_CBC_SHA256 : Z := 0xc027.
Definition TLS_ECDHE_RSA_WITH_AES_128_GCM_SHA256 : Z := 0xc02f.
Definition TLS_ECDHE_ECDSA_WITH_AES_128_GCM_SHA256 : Z := 0xc02b.
Definition TLS_ECDHE_RSA_WITH_AES_256_GCM_SHA384 : Z := 0xc030.
Definition TLS_ECDHE_ECDSA_WITH_AES_256_GCM_SHA384 : Z := 0xc02c.
Definition TLS_ECDHE_RSA_WITH_CHACHA20_POLY1305_SHA256 : Z := 0xcca8.
Definition TLS_ECDHE_ECDSA_WITH_CHACHA20_POLY1305_SHA256 : Z := 0xcca9.
Definition TLS_AES_128_GCM_SHA256 : Z := 0x1301.
Definition TLS_AES_256_GCM_SHA384 : Z := 0x1302.
Definition TLS_CHACHA20_POLY1305_SHA256 : Z := 0x1303.

(** [tls.CipherSuiteName] *)
Definition suiteNames : list (Z * string) := [
  (TLS_RSA_WITH_RC4_128_SHA, "TLS_RSA_WITH_RC4_128_SHA");
  (TLS_RSA_WITH_3DES_EDE_CBC_SHA, "TLS_RSA_WITH_3DES_EDE_CBC_SHA");
  (TLS_RSA_WITH_AES_128_CBC_SHA, "TLS_RSA_WITH_AES_128_CBC_SHA");
  (TLS_RSA_WITH_AES_256_CBC_SHA, "TLS_RSA_WITH_AES_256_CBC_SHA");
  (TLS_RSA_WITH_AES_128_CBC_SHA256, "TLS_RSA_WITH_AES_128_CBC_SHA256");
  (TLS_RSA_WITH_AES_128_GCM_SHA256, "TLS_RSA_WITH_AES_128_GCM_SHA256");
  (TLS_RSA_WITH_AES_256_GCM_SHA384, "TLS_RSA_WITH_AES_256_GCM_SHA384");
  (TLS_ECDHE_ECDSA_WITH_RC4_128_SHA, "TLS_ECDHE_ECDSA_WITH_RC4_128_SHA");
  (TLS_ECDHE_ECDSA_WITH_AES_128_CBC_SHA, "TLS_ECDHE_ECDSA_WITH_AES_128_CBC_SHA");
  (TLS_ECDHE_ECDSA_WITH_AES_256_CBC_SHA, "TLS_ECDHE_ECDSA_WITH_AES_256_CBC_SHA");
  (TLS_ECDHE_RSA_WITH_RC4_128_SHA, "TLS_ECDHE_RSA_WITH_RC4_128_SHA");
  (TLS_ECDHE_RSA_WITH_3DES_EDE_CBC_SHA, "TLS_ECDHE_RSA_WITH_3DES_EDE_CBC_SHA");
  (TLS_ECDHE_RSA_WITH_AES_128_CBC_SHA, "TLS_ECDHE_RSA_WITH_AES_128_CBC_SHA");
  (TLS_ECDHE_RSA_WITH_AES_256_CBC_SHA, "TLS_ECDHE_RSA_WITH_AES_256_CBC_SHA");
  (TLS_ECDHE_ECDSA_WITH_AES_128_CBC_SHA256, "TLS_ECDHE_ECDSA_WITH_AES_128_CBC_SHA256");
  (TLS_ECDHE_RSA_WITH_AES_128_CBC_SHA256, "TLS_ECDHE_RSA_WITH_AES_128_CBC_SHA256");
  (TLS_ECDHE_RSA_WITH_AES_128_GCM_SHA256, "TLS_ECDHE_RSA_WITH_AES_128_GCM_SHA256");
  (TLS_ECDHE_ECDSA_WITH_AES_128_GCM_SHA256, "TLS_ECDHE_ECDSA_WITH_AES_128_GCM_SHA256");
  (TLS_ECDHE_RSA_WITH_AES_256_GCM_SHA384, "TLS_ECDHE_RSA_WITH_AES_256_GCM_SHA384");
  (TLS_ECDHE_ECDSA_WITH_AES_256_GCM_SHA384, "TLS_ECDHE_ECDSA_WITH_AES_256_GCM_SHA384");
  (TLS_ECDHE_RSA_WITH_CHACHA20_POLY1305_SHA256, "TLS_ECDHE_RSA_WITH_CHACHA20_POLY1305_SHA256");
  (TLS_ECDHE_ECDSA_WITH_CHACHA20_POLY1305_SHA256, "TLS_ECDHE_ECDSA_WITH_CHACHA20_POLY1305_SHA256");
  (TLS_AES_128_GCM_SHA256, "TLS_AES_128_GCM_SHA256");
  (TLS_AES_256_GCM_SHA384, "TLS_AES_256_GCM_SHA384");
  (TLS_CHACHA20_POLY1305_SHA256, "TLS_CHACHA20_POLY1305_SHA256")
  ]%string.

Definition CipherSuiteName (id : Z) : string :=
  default ("0x" +:+ ToUpper (hex16 id))%string (assoc id suiteNames).

(** ** The simulated clients *)

Record clientProfile := { Name : string; MinVersion : Z; MaxVersion : Z; CipherSuites : list Z; Notes : string }.
Definition client (name : string) (lo hi : Z) (suites : list Z) (notes : string) : clientProfile :=
  {| Name := name; MinVersion := lo; MaxVersion := hi; CipherSuites := suites; Notes := notes |}.

(** Browsers *)
Definition browserClients : list clientProfile := [
  client "Chrome 137 / Win 11" VersionTLS12 VersionTLS13
    [TLS_AES_128_GCM_SHA256; TLS_AES_256_GCM_SHA384; TLS_CHACHA20_POLY1305_SHA256;
     TLS_ECDHE_ECDSA_WITH_AES_128_GCM_SHA256; TLS_ECDHE_RSA_WITH_AES_128_GCM_SHA256; TLS_ECDHE_ECDSA_WITH_AES_256_GCM_SHA384;
     TLS_ECDHE_RSA_WITH_AES_256_GCM_SHA384; TLS_ECDHE_ECDSA_WITH_CHACHA20_POLY1305_SHA256; TLS_ECDHE_RSA_WITH_CHACHA20_POLY1305_SHA256]
    "Chromium-engine browsers (Edge, Brave, Opera) negotiate identically";
  client "Firefox 130 / Linux" VersionTLS12 VersionTLS13
    [TLS_AES_128_GCM_SHA256; TLS_CHACHA20_POLY1305_SHA256; TLS_AES_256_GCM_SHA384;
     TLS_ECDHE_ECDSA_WITH_AES_128_GCM_SHA256; TLS_ECDHE_RSA_WITH_AES_128_GCM_SHA256; TLS_ECDHE_ECDSA_WITH_CHACHA20_POLY1305_SHA256;
     TLS_ECDHE_RSA_WITH_CHACHA20_POLY1305_SHA256; TLS_ECDHE_ECDSA_WITH_AES_256_GCM_SHA384; TLS_ECDHE_RSA_WITH_AES_256_GCM_SHA384]
    "";
  client "Safari 18 / macOS 15" VersionTLS12 VersionTLS13
    []
    "Webkit-based; iOS Safari mirrors closely";
  client "Edge 137 / Win 11" VersionTLS12 VersionTLS13
    [TLS_AES_128_GCM_SHA256; TLS_AES_256_GCM_SHA384; TLS_CHACHA20_POLY1305_SHA256;
     TLS_ECDHE_RSA_WITH_AES_128_GCM_SHA256; TLS_ECDHE_RSA_WITH_AES_256_GCM_SHA384]
    "Chromium-based Edge — same matrix as Chrome"
  ]%string.

(** Mobile systems *)
Definition mobileClients : list clientProfile := [
  client "iOS 18 Safari" VersionTLS12 VersionTLS13
    [TLS_AES_128_GCM_SHA256; TLS_CHACHA20_POLY1305_SHA256; TLS_AES_256_GCM_SHA384;
     TLS_ECDHE_ECDSA_WITH_AES_128_GCM_SHA256; TLS_ECDHE_RSA_WITH_AES_128_GCM_SHA256; TLS_ECDHE_ECDSA_WITH_CHACHA20_POLY1305_SHA256;
     TLS_ECDHE_RSA_WITH_CHACHA20_POLY1305_SHA256]
    "";
  client "iOS 17 Safari" VersionTLS12 VersionTLS13
    [TLS_AES_128_GCM_SHA256; TLS_CHACHA20_POLY1305_SHA256; TLS_ECDHE_RSA_WITH_AES_128_GCM_SHA256;
     TLS_ECDHE_RSA_WITH_AES_256_GCM_SHA384]
    "";
  client "Android 15 (native)" VersionTLS12 VersionTLS13
    [TLS_AES_128_GCM_SHA256; TLS_AES_256_GCM_SHA384; TLS_CHACHA20_POLY1305_SHA256;
     TLS_ECDHE_ECDSA_WITH_AES_128_GCM_SHA256; TLS_ECDHE_RSA_WITH_AES_128_GCM_SHA256]
    "";
  client "Android 13 (native)" VersionTLS12 VersionTLS13
    [TLS_AES_128_GCM_SHA256; TLS_AES_256_GCM_SHA384; TLS_ECDHE_ECDSA_WITH_AES_128_GCM_SHA256;
     TLS_ECDHE_RSA_WITH_AES_128_GCM_SHA256]
    "";
  client "Android 10 (native)" VersionTLS12 VersionTLS13
    [TLS_ECDHE_RSA_WITH_AES_128_GCM_SHA256; TLS_ECDHE_RSA_WITH_AES_256_GCM_SHA384; TLS_ECDHE_RSA_WITH_CHACHA20_POLY1305_SHA256]
    "";
  client "Android 8.1 (native)" VersionTLS12 VersionTLS12
    [TLS_ECDHE_RSA_WITH_AES_128_GCM_SHA256; TLS_ECDHE_RSA_WITH_AES_256_GCM_SHA384; TLS_ECDHE_RSA_WITH_AES_128_CBC_SHA]
    "";
  client "Android 7.0 (native)" VersionTLS12 VersionTLS12
    [TLS_ECDHE_RSA_WITH_AES_128_GCM_SHA256; TLS_ECDHE_RSA_WITH_AES_256_CBC_SHA; TLS_ECDHE_RSA_WITH_AES_128_CBC_SHA]
    "";
  client "Android 5.0 (native)" VersionTLS12 VersionTLS12
    [TLS_ECDHE_RSA_WITH_AES_128_CBC_SHA; TLS_RSA_WITH_AES_128_CBC_SHA]
    "Old Android; ECDHE+CBC only"
  ]%string.

(** Java, .NET, OpenSSL, Go and curl *)
Definition runtimeClients : list clientProfile := [
  client "Java 21 (LTS)" VersionTLS12 VersionTLS13
    [TLS_AES_128_GCM_SHA256; TLS_AES_256_GCM_SHA384; TLS_ECDHE_RSA_WITH_AES_128_GCM_SHA256;
     TLS_ECDHE_RSA_WITH_AES_256_GCM_SHA384]
    "";
  client "Java 17 (LTS)" VersionTLS12 VersionTLS13
    [TLS_AES_128_GCM_SHA256; TLS_AES_256_GCM_SHA384; TLS_ECDHE_RSA_WITH_AES_128_GCM_SHA256;
     TLS_ECDHE_RSA_WITH_AES_256_GCM_SHA384; TLS_ECDHE_RSA_WITH_AES_128_CBC_SHA256]
    "";
  client "Java 11 (LTS)" VersionTLS12 VersionTLS13
    [TLS_AES_128_GCM_SHA256; TLS_ECDHE_RSA_WITH_AES_128_GCM_SHA256; TLS_ECDHE_RSA_WITH_AES_256_GCM_SHA384;
     TLS_ECDHE_RSA_WITH_AES_128_CBC_SHA]
    "";
  client "Java 8 u371" VersionTLS12 VersionTLS12
    [TLS_ECDHE_RSA_WITH_AES_128_GCM_SHA256; TLS_ECDHE_RSA_WITH_AES_256_GCM_SHA384; TLS_ECDHE_RSA_WITH_AES_128_CBC_SHA256;
     TLS_ECDHE_RSA_WITH_AES_128_CBC_SHA]
    "TLS 1.3 backported but disabled by default";
  client ".NET 8 / Win 11" VersionTLS12 VersionTLS13
    [TLS_AES_128_GCM_SHA256; TLS_AES_256_GCM_SHA384; TLS_ECDHE_RSA_WITH_AES_128_GCM_SHA256;
     TLS_ECDHE_RSA_WITH_AES_256_GCM_SHA384]
    "";
  client ".NET Framework 4.8 / Win 10" VersionTLS12 VersionTLS12
    [TLS_ECDHE_RSA_WITH_AES_128_GCM_SHA256; TLS_ECDHE_RSA_WITH_AES_256_GCM_SHA384; TLS_ECDHE_RSA_WITH_AES_128_CBC_SHA256]
    "";
  client "OpenSSL 3.4 (modern)" VersionTLS12 VersionTLS13
    []
    "";
  client "OpenSSL 3.0 (Ubuntu 22.04)" VersionTLS12 VersionTLS13
    [TLS_AES_128_GCM_SHA256; TLS_AES_256_GCM_SHA384; TLS_CHACHA20_POLY1305_SHA256;
     TLS_ECDHE_ECDSA_WITH_AES_128_GCM_SHA256; TLS_ECDHE_RSA_WITH_AES_128_GCM_SHA256; TLS_ECDHE_ECDSA_WITH_CHACHA20_POLY1305_SHA256]
    "";
  client "OpenSSL 1.1.1 (Ubuntu 20.04 EOL)" VersionTLS12 VersionTLS13
    [TLS_AES_128_GCM_SHA256; TLS_ECDHE_RSA_WITH_AES_128_GCM_SHA256; TLS_ECDHE_RSA_WITH_AES_128_CBC_SHA256]
    "";
  client "OpenSSL 1.0.2 (legacy)" VersionTLS10 VersionTLS12
    [TLS_ECDHE_RSA_WITH_AES_128_GCM_SHA256; TLS_ECDHE_RSA_WITH_AES_128_CBC_SHA; TLS_RSA_WITH_AES_128_CBC_SHA]
    "TLS 1.0/1.1 fallback — most CDNs reject by 2026";
  client "Go 1.24 net/http client" VersionTLS12 VersionTLS13
    []
    "";
  client "curl 8.x / OpenSSL 3.x" VersionTLS12 VersionTLS13
    []
    ""
  ]%string.

(** Old browsers still deployed *)
Definition legacyClients : list clientProfile := [
  client "Chrome 49 / Win XP SP3" VersionTLS10 VersionTLS12
    [TLS_ECDHE_RSA_WITH_AES_128_GCM_SHA256; TLS_ECDHE_RSA_WITH_AES_128_CBC_SHA; TLS_RSA_WITH_AES_128_CBC_SHA]
    "EOL but still seen in industrial / kiosk deployments";
  client "IE 11 / Win 10" VersionTLS10 VersionTLS12
    [TLS_ECDHE_RSA_WITH_AES_256_CBC_SHA; TLS_ECDHE_RSA_WITH_AES_128_CBC_SHA; TLS_RSA_WITH_AES_256_CBC_SHA;
     TLS_RSA_WITH_AES_128_CBC_SHA]
    "Hard-coded CBC preference; legacy enterprise"
  ]%string.

Definition simulatedClients : list clientProfile := browserClients ++ mobileClients ++ runtimeClients ++ legacyClients.

(** ** The simulation *)

Record clientSimulationResult := { Client : string; Success : bool; Version : string; CipherSuite : string; Error : string; rNotes : string }.

(** What [tls.Config] is given; [InsecureSkipVerify] is always set. *)
Record tlsConfig := { ServerName : string; cfgMin : Z; cfgMax : Z; cfgSuites : list Z }.

Section Simulation.
(** The handshakes of [crypto/tls]: version and suite of the connection, or the error.
    [dialSTARTTLS addr sni proto] negotiates the upgrade first. *)
Context (dialSTARTTLS : string -> string -> string -> tlsConfig -> Z -> (Z * Z) + string)
        (dialTLS : string -> tlsConfig -> Z -> (Z * Z) + string).

Definition simulateOneClient (addr sni starttlsProto : string) (timeout : Z) (p : clientProfile) : clientSimulationResult :=
  let cfg := {| ServerName := sni; cfgMin := MinVersion p; cfgMax := MaxVersion p; cfgSuites := CipherSuites p |} in
  match (if negb (String.eqb starttlsProto "") then dialSTARTTLS addr sni starttlsProto cfg timeout else dialTLS addr cfg timeout) with
  | inr err => {| Client := Name p; Success := false; Version := ""; CipherSuite := ""; Error := tidyErr err; rNotes := Notes p |}
  | inl (version, suite) =>
      {| Client := Name p; Success := true; Version := tlsVersionName version; CipherSuite := CipherSuiteName suite; Error := ""; rNotes := Notes p |}
  end.

(** Eight workers take the jobs from a channel and write the slots of their indices;
    [arrival] is the order of the writes.  Times are nanoseconds. *)
Definition simulateClients (addr sni starttlsProto : string) (timeout : Z) (arrival : list nat) : list clientSimulationResult :=
  let per := if 4000000000 <? timeout then 4000000000 else timeout in
  let unset := {| Client := ""; Success := false; Version := ""; CipherSuite := ""; Error := ""; rNotes := "" |} in
  let job idx := match simulatedClients !! idx with Some p => [(idx, simulateOneClient addr sni starttlsProto per p)] | None => [] end in
  slots (repeat unset (length simulatedClients)) (flat_map job arrival).
End Simulation.

Definition simulateClientsHeadline (results : list clientSimulationResult) : string :=
  let ok := blen (List.filter Success results) in
  let fails := map Client (List.filter (fun r => negb (Success r)) results) in
  match fails with
  | [] => ("Client simulation: " +:+ fmtD ok +:+ "/" +:+ fmtD (blen results) +:+ " compatible ✓")%string
  | _ =>
      let fails := sortStrings fails in
      let more := if 3 <? blen fails then blen fails - 3 else 0 in
      ("Client simulation: " +:+ fmtD ok +:+ "/" +:+ fmtD (blen results) +:+ " compatible — fail: " +:+ Join (take 3 fails) ", "
       +:+ (if (0 <? more)%Z then " +" +:+ fmtD more +:+ " more" else ""))%string
  end.

(** ** What is reported *)

(** The order of the results does not matter for the headline. *)
Lemma headline_perm results results' : Permutation results results' -> simulateClientsHeadline results = simulateClientsHeadline results'.
Proof.
  intros Hp. unfold simulateClientsHeadline. cbv zeta.
  assert (Hlen : forall (A : Type) (l l' : list A), Permutation l l' -> blen l = blen l') by (intros A l l' Hl; unfold blen; by rewrite Hl).
  rewrite (Hlen _ _ _ Hp), (Hlen _ _ _ (Permutation_lfilter Success _ _ Hp)).
  pose proof (Permutation_map Client (Permutation_lfilter (fun r => negb (Success r)) _ _ Hp)) as Hf.
  pose proof (sortStrings_perm _ _ Hf) as Hs. revert Hf Hs. generalize (map Client (List.filter (fun r => negb (Success r)) results)) as f1.
  generalize (map Client (List.filter (fun r => negb (Success r)) results')) as f2. intros f2 f1 Hf Hs.
  destruct f1 as [|a f1], f2 as [|b f2]; [done|by apply Permutation_nil in Hf|by apply Permutation_sym, Permutation_nil in Hf|]. by rewrite Hs.
Qed.

(** Whatever the order in which the workers finish, the table has the verdict of every
    simulated client at the place of the client, success with the version and the suite of
    the handshake or failure with its error. *)
Theorem simulateClients_table dialSTARTTLS dialTLS addr sni proto timeout arrival
  (Harrival : Permutation arrival (seq 0 (length simulatedClients))) :
  simulateClients dialSTARTTLS dialTLS addr sni proto timeout arrival
    = map (simulateOneClient dialSTARTTLS dialTLS addr sni proto (Z.min timeout 4000000000)) simulatedClients.
Proof.
  unfold simulateClients. cbv zeta. replace (if 4000000000 <? timeout then 4000000000 else timeout) with (Z.min timeout 4000000000)
    by (destruct (Z.ltb_spec 4000000000 timeout); lia).
  apply slots_jobs; [by rewrite repeat_length|done].
Qed.

Module ClientSimWitnesses.
(** A server with TLS 1.3 alone *)
Definition modern (addr : string) (cfg : tlsConfig) (timeout : Z) : (Z * Z) + string :=
  if cfgMax cfg <? VersionTLS13 then inr "tls: no supported versions : "%string else inl (VersionTLS13, 0x1301).

Lemma simulateClients_table_witness :
  Permutation (rev (seq 0 26)) (seq 0 (length simulatedClients)) /\
  simulateClients (fun _ _ _ _ _ => inr ""%string) modern "192.0.2.1:443" "example.com" "" 10 (rev (seq 0 26))
    = map (simulateOneClient (fun _ _ _ _ _ => inr ""%string) modern "192.0.2.1:443" "example.com" "" 10) simulatedClients.
Proof.
  assert (Hp : Permutation (rev (seq 0 26)) (seq 0 (length simulatedClients))) by (symmetry; apply Permutation_rev).
  split; [exact Hp|]. exact (simulateClients_table _ modern "192.0.2.1:443" "example.com" "" 10 _ Hp).
Defined.

Example modern_headline : simulateClientsHeadline (simulateClients (fun _ _ _ _ _ => inr ""%string) modern "" "" "" 10 (seq 0 26))
  = "Client simulation: 18/26 compatible — fail: .NET Framework 4.8 / Win 10, Android 5.0 (native), Android 7.0 (native) +5 more"%string.
Proof. by vm_compute. Qed.
End ClientSimWitnesses.
