(* ===== verification/EachCipher.v ===== *)
(** The cipher registry of [cipher_registry.go] and the enumeration of every registered
    suite over the versions up to TLS 1.2 of [tls_each_cipher.go]. *)

From Stdlib Require Import ZArith List String Ascii Strings.Byte Lia Bool Permutation Sorting.Sorted.
From stdpp Require Import base list strings.
From S2P Require Import Prelude Bytes GoStrings Stream ClientHellos Ciphers TlsCheck Preference Sorting.
Open Scope Z_scope.

(** ** The registry *)

Record cipherSpec := { Code : Z; Name : string; Family : string; Severity : string }.
Definition spec (c : Z) (n f s : string) : cipherSpec := {| Code := c; Name := n; Family := f; Severity := s |}.

(** No encryption, export grades and DES *)
Definition nullExportDES : list cipherSpec := [
  spec 0x0000 "TLS_NULL_WITH_NULL_NULL" "NULL" "broken";
  spec 0x0001 "TLS_RSA_WITH_NULL_MD5" "NULL" "broken";
  spec 0x0002 "TLS_RSA_WITH_NULL_SHA" "NULL" "broken";
  spec 0x003b "TLS_RSA_WITH_NULL_SHA256" "NULL" "broken";
  spec 0xc001 "TLS_ECDH_ECDSA_WITH_NULL_SHA" "NULL" "broken";
  spec 0xc006 "TLS_ECDHE_ECDSA_WITH_NULL_SHA" "NULL" "broken";
  spec 0xc00b "TLS_ECDH_RSA_WITH_NULL_SHA" "NULL" "broken";
  spec 0xc010 "TLS_ECDHE_RSA_WITH_NULL_SHA" "NULL" "broken";
  spec 0xc015 "TLS_ECDH_anon_WITH_NULL_SHA" "ANON" "broken";
  spec 0x0003 "TLS_RSA_EXPORT_WITH_RC4_40_MD5" "EXPORT" "broken";
  spec 0x0006 "TLS_RSA_EXPORT_WITH_RC2_CBC_40_MD5" "EXPORT" "broken";
  spec 0x0008 "TLS_RSA_EXPORT_WITH_DES40_CBC_SHA" "EXPORT" "broken";
  spec 0x000b "TLS_DH_DSS_EXPORT_WITH_DES40_CBC_SHA" "EXPORT" "broken";
  spec 0x000e "TLS_DH_RSA_EXPORT_WITH_DES40_CBC_SHA" "EXPORT" "broken";
  spec 0x0011 "TLS_DHE_DSS_EXPORT_WITH_DES40_CBC_SHA" "EXPORT" "broken";
  spec 0x0014 "TLS_DHE_RSA_EXPORT_WITH_DES40_CBC_SHA" "EXPORT" "broken";
  spec 0x0017 "TLS_DH_anon_EXPORT_WITH_RC4_40_MD5" "EXPORT" "broken";
  spec 0x0019 "TLS_DH_anon_EXPORT_WITH_DES40_CBC_SHA" "EXPORT" "broken";
  spec 0x0026 "TLS_KRB5_EXPORT_WITH_DES_CBC_40_SHA" "EXPORT" "broken";
  spec 0x0027 "TLS_KRB5_EXPORT_WITH_RC2_CBC_40_SHA" "EXPORT" "broken";
  spec 0x0028 "TLS_KRB5_EXPORT_WITH_RC4_40_SHA" "EXPORT" "broken";
  spec 0x0029 "TLS_KRB5_EXPORT_WITH_DES_CBC_40_MD5" "EXPORT" "broken";
  spec 0x002a "TLS_KRB5_EXPORT_WITH_RC2_CBC_40_MD5" "EXPORT" "broken";
  spec 0x002b "TLS_KRB5_EXPORT_WITH_RC4_40_MD5" "EXPORT" "broken";
  spec 0x0060 "TLS_RSA_EXPORT1024_WITH_RC4_56_MD5" "EXPORT" "broken";
  spec 0x0061 "TLS_RSA_EXPORT1024_WITH_RC2_CBC_56_MD5" "EXPORT" "broken";
  spec 0x0062 "TLS_RSA_EXPORT1024_WITH_DES_CBC_SHA" "EXPORT" "broken";
  spec 0x0063 "TLS_DHE_DSS_EXPORT1024_WITH_DES_CBC_SHA" "EXPORT" "broken";
  spec 0x0064 "TLS_RSA_EXPORT1024_WITH_RC4_56_SHA" "EXPORT" "broken";
  spec 0x0065 "TLS_DHE_DSS_EXPORT1024_WITH_RC4_56_SHA" "EXPORT" "broken";
  spec 0x0009 "TLS_RSA_WITH_DES_CBC_SHA" "RSA" "broken";
  spec 0x000c "TLS_DH_DSS_WITH_DES_CBC_SHA" "RSA" "broken";
  spec 0x000f "TLS_DH_RSA_WITH_DES_CBC_SHA" "RSA" "broken";
  spec 0x0012 "TLS_DHE_DSS_WITH_DES_CBC_SHA" "DHE" "broken";
  spec 0x0015 "TLS_DHE_RSA_WITH_DES_CBC_SHA" "DHE" "broken";
  spec 0x001a "TLS_DH_anon_WITH_DES_CBC_SHA" "ANON" "broken"
  ]%string.

(** 3DES, RC4, Kerberos, CBC, IDEA, anonymous DH *)
Definition weakSuites : list cipherSpec := [
  spec 0x000a "TLS_RSA_WITH_3DES_EDE_CBC_SHA" "RSA" "weak";
  spec 0x000d "TLS_DH_DSS_WITH_3DES_EDE_CBC_SHA" "DHE" "weak";
  spec 0x0010 "TLS_DH_RSA_WITH_3DES_EDE_CBC_SHA" "DHE" "weak";
  spec 0x0013 "TLS_DHE_DSS_WITH_3DES_EDE_CBC_SHA" "DHE" "weak";
  spec 0x0016 "TLS_DHE_RSA_WITH_3DES_EDE_CBC_SHA" "DHE" "weak";
  spec 0x001b "TLS_DH_anon_WITH_3DES_EDE_CBC_SHA" "ANON" "weak";
  spec 0xc003 "TLS_ECDH_ECDSA_WITH_3DES_EDE_CBC_SHA" "ECDHE" "weak";
  spec 0xc008 "TLS_ECDHE_ECDSA_WITH_3DES_EDE_CBC_SHA" "ECDHE" "weak";
  spec 0xc00d "TLS_ECDH_RSA_WITH_3DES_EDE_CBC_SHA" "ECDHE" "weak";
  spec 0xc012 "TLS_ECDHE_RSA_WITH_3DES_EDE_CBC_SHA" "ECDHE" "weak";
  spec 0xc017 "TLS_ECDH_anon_WITH_3DES_EDE_CBC_SHA" "ANON" "weak";
  spec 0x0004 "TLS_RSA_WITH_RC4_128_MD5" "RSA" "broken";
  spec 0x0005 "TLS_RSA_WITH_RC4_128_SHA" "RSA" "broken";
  spec 0x0018 "TLS_DH_anon_WITH_RC4_128_MD5" "ANON" "broken";
  spec 0xc002 "TLS_ECDH_ECDSA_WITH_RC4_128_SHA" "ECDHE" "broken";
  spec 0xc007 "TLS_ECDHE_ECDSA_WITH_RC4_128_SHA" "ECDHE" "broken";
  spec 0xc00c "TLS_ECDH_RSA_WITH_RC4_128_SHA" "ECDHE" "broken";
  spec 0xc011 "TLS_ECDHE_RSA_WITH_RC4_128_SHA" "ECDHE" "broken";
  spec 0xc016 "TLS_ECDH_anon_WITH_RC4_128_SHA" "ANON" "broken";
  spec 0x001e "TLS_KRB5_WITH_DES_CBC_SHA" "KRB5" "broken";
  spec 0x001f "TLS_KRB5_WITH_3DES_EDE_CBC_SHA" "KRB5" "weak";
  spec 0x0020 "TLS_KRB5_WITH_RC4_128_SHA" "KRB5" "broken";
  spec 0x0021 "TLS_KRB5_WITH_IDEA_CBC_SHA" "IDEA" "broken";
  spec 0x0022 "TLS_KRB5_WITH_DES_CBC_MD5" "KRB5" "broken";
  spec 0x0023 "TLS_KRB5_WITH_3DES_EDE_CBC_MD5" "KRB5" "weak";
  spec 0x0024 "TLS_KRB5_WITH_RC4_128_MD5" "KRB5" "broken";
  spec 0x0025 "TLS_KRB5_WITH_IDEA_CBC_MD5" "IDEA" "broken";
  spec 0x002f "TLS_RSA_WITH_AES_128_CBC_SHA" "RSA" "weak";
  spec 0x0030 "TLS_DH_DSS_WITH_AES_128_CBC_SHA" "DHE" "weak";
  spec 0x0031 "TLS_DH_RSA_WITH_AES_128_CBC_SHA" "DHE" "weak";
  spec 0x0032 "TLS_DHE_DSS_WITH_AES_128_CBC_SHA" "DHE" "weak";
  spec 0x0033 "TLS_DHE_RSA_WITH_AES_128_CBC_SHA" "DHE" "weak";
  spec 0x0034 "TLS_DH_anon_WITH_AES_128_CBC_SHA" "ANON" "broken";
  spec 0x0035 "TLS_RSA_WITH_AES_256_CBC_SHA" "RSA" "weak";
  spec 0x0036 "TLS_DH_DSS_WITH_AES_256_CBC_SHA" "DHE" "weak";
  spec 0x0037 "TLS_DH_RSA_WITH_AES_256_CBC_SHA" "DHE" "weak";
  spec 0x0038 "TLS_DHE_DSS_WITH_AES_256_CBC_SHA" "DHE" "weak";
  spec 0x0039 "TLS_DHE_RSA_WITH_AES_256_CBC_SHA" "DHE" "weak";
  spec 0x003a "TLS_DH_anon_WITH_AES_256_CBC_SHA" "ANON" "broken";
  spec 0x003c "TLS_RSA_WITH_AES_128_CBC_SHA256" "RSA" "weak";
  spec 0x003d "TLS_RSA_WITH_AES_256_CBC_SHA256" "RSA" "weak";
  spec 0x003e "TLS_DH_DSS_WITH_AES_128_CBC_SHA256" "DHE" "weak";
  spec 0x003f "TLS_DH_RSA_WITH_AES_128_CBC_SHA256" "DHE" "weak";
  spec 0x0040 "TLS_DHE_DSS_WITH_AES_128_CBC_SHA256" "DHE" "weak";
  spec 0x0067 "TLS_DHE_RSA_WITH_AES_128_CBC_SHA256" "DHE" "weak";
  spec 0x0068 "TLS_DH_DSS_WITH_AES_256_CBC_SHA256" "DHE" "weak";
  spec 0x0069 "TLS_DH_RSA_WITH_AES_256_CBC_SHA256" "DHE" "weak";
  spec 0x006a "TLS_DHE_DSS_WITH_AES_256_CBC_SHA256" "DHE" "weak";
  spec 0x006b "TLS_DHE_RSA_WITH_AES_256_CBC_SHA256" "DHE" "weak";
  spec 0x006c "TLS_DH_anon_WITH_AES_128_CBC_SHA256" "ANON" "broken";
  spec 0x006d "TLS_DH_anon_WITH_AES_256_CBC_SHA256" "ANON" "broken";
  spec 0x0007 "TLS_RSA_WITH_IDEA_CBC_SHA" "IDEA" "broken";
  spec 0x001a "TLS_DH_anon_WITH_DES_CBC_SHA" "ANON" "broken"
  ]%string.

(** SEED, AEAD and PSK *)
Definition seedGCMPSK : list cipherSpec := [
  spec 0x0096 "TLS_RSA_WITH_SEED_CBC_SHA" "SEED" "policy";
  spec 0x0097 "TLS_DH_DSS_WITH_SEED_CBC_SHA" "SEED" "policy";
  spec 0x0098 "TLS_DH_RSA_WITH_SEED_CBC_SHA" "SEED" "policy";
  spec 0x0099 "TLS_DHE_DSS_WITH_SEED_CBC_SHA" "SEED" "policy";
  spec 0x009a "TLS_DHE_RSA_WITH_SEED_CBC_SHA" "SEED" "policy";
  spec 0x009b "TLS_DH_anon_WITH_SEED_CBC_SHA" "ANON" "broken";
  spec 0x009c "TLS_RSA_WITH_AES_128_GCM_SHA256" "RSA" "weak";
  spec 0x009d "TLS_RSA_WITH_AES_256_GCM_SHA384" "RSA" "weak";
  spec 0x009e "TLS_DHE_RSA_WITH_AES_128_GCM_SHA256" "DHE" "modern";
  spec 0x009f "TLS_DHE_RSA_WITH_AES_256_GCM_SHA384" "DHE" "modern";
  spec 0x00a0 "TLS_DH_RSA_WITH_AES_128_GCM_SHA256" "DHE" "weak";
  spec 0x00a1 "TLS_DH_RSA_WITH_AES_256_GCM_SHA384" "DHE" "weak";
  spec 0x00a2 "TLS_DHE_DSS_WITH_AES_128_GCM_SHA256" "DHE" "weak";
  spec 0x00a3 "TLS_DHE_DSS_WITH_AES_256_GCM_SHA384" "DHE" "weak";
  spec 0x00a4 "TLS_DH_DSS_WITH_AES_128_GCM_SHA256" "DHE" "weak";
  spec 0x00a5 "TLS_DH_DSS_WITH_AES_256_GCM_SHA384" "DHE" "weak";
  spec 0x00a6 "TLS_DH_anon_WITH_AES_128_GCM_SHA256" "ANON" "broken";
  spec 0x00a7 "TLS_DH_anon_WITH_AES_256_GCM_SHA384" "ANON" "broken";
  spec 0x008a "TLS_PSK_WITH_RC4_128_SHA" "PSK" "broken";
  spec 0x008b "TLS_PSK_WITH_3DES_EDE_CBC_SHA" "PSK" "weak";
  spec 0x008c "TLS_PSK_WITH_AES_128_CBC_SHA" "PSK" "weak";
  spec 0x008d "TLS_PSK_WITH_AES_256_CBC_SHA" "PSK" "weak";
  spec 0x008e "TLS_DHE_PSK_WITH_RC4_128_SHA" "PSK" "broken";
  spec 0x008f "TLS_DHE_PSK_WITH_3DES_EDE_CBC_SHA" "PSK" "weak";
  spec 0x0090 "TLS_DHE_PSK_WITH_AES_128_CBC_SHA" "PSK" "weak";
  spec 0x0091 "TLS_DHE_PSK_WITH_AES_256_CBC_SHA" "PSK" "weak";
  spec 0x0092 "TLS_RSA_PSK_WITH_RC4_128_SHA" "PSK" "broken";
  spec 0x0093 "TLS_RSA_PSK_WITH_3DES_EDE_CBC_SHA" "PSK" "weak";
  spec 0x0094 "TLS_RSA_PSK_WITH_AES_128_CBC_SHA" "PSK" "weak";
  spec 0x0095 "TLS_RSA_PSK_WITH_AES_256_CBC_SHA" "PSK" "weak"
  ]%string.

(** ECDHE and SRP *)
Definition ecdheSuites : list cipherSpec := [
  spec 0xc001 "TLS_ECDH_ECDSA_WITH_NULL_SHA" "NULL" "broken";
  spec 0xc002 "TLS_ECDH_ECDSA_WITH_RC4_128_SHA" "ECDHE" "broken";
  spec 0xc003 "TLS_ECDH_ECDSA_WITH_3DES_EDE_CBC_SHA" "ECDHE" "weak";
  spec 0xc004 "TLS_ECDH_ECDSA_WITH_AES_128_CBC_SHA" "ECDHE" "weak";
  spec 0xc005 "TLS_ECDH_ECDSA_WITH_AES_256_CBC_SHA" "ECDHE" "weak";
  spec 0xc009 "TLS_ECDHE_ECDSA_WITH_AES_128_CBC_SHA" "ECDHE" "weak";
  spec 0xc00a "TLS_ECDHE_ECDSA_WITH_AES_256_CBC_SHA" "ECDHE" "weak";
  spec 0xc00e "TLS_ECDH_RSA_WITH_AES_128_CBC_SHA" "ECDHE" "weak";
  spec 0xc00f "TLS_ECDH_RSA_WITH_AES_256_CBC_SHA" "ECDHE" "weak";
  spec 0xc013 "TLS_ECDHE_RSA_WITH_AES_128_CBC_SHA" "ECDHE" "weak";
  spec 0xc014 "TLS_ECDHE_RSA_WITH_AES_256_CBC_SHA" "ECDHE" "weak";
  spec 0xc018 "TLS_ECDH_anon_WITH_AES_128_CBC_SHA" "ANON" "broken";
  spec 0xc019 "TLS_ECDH_anon_WITH_AES_256_CBC_SHA" "ANON" "broken";
  spec 0xc023 "TLS_ECDHE_ECDSA_WITH_AES_128_CBC_SHA256" "ECDHE" "weak";
  spec 0xc024 "TLS_ECDHE_ECDSA_WITH_AES_256_CBC_SHA384" "ECDHE" "weak";
  spec 0xc025 "TLS_ECDH_ECDSA_WITH_AES_128_CBC_SHA256" "ECDHE" "weak";
  spec 0xc026 "TLS_ECDH_ECDSA_WITH_AES_256_CBC_SHA384" "ECDHE" "weak";
  spec 0xc027 "TLS_ECDHE_RSA_WITH_AES_128_CBC_SHA256" "ECDHE" "weak";
  spec 0xc028 "TLS_ECDHE_RSA_WITH_AES_256_CBC_SHA384" "ECDHE" "weak";
  spec 0xc029 "TLS_ECDH_RSA_WITH_AES_128_CBC_SHA256" "ECDHE" "weak";
  spec 0xc02a "TLS_ECDH_RSA_WITH_AES_256_CBC_SHA384" "ECDHE" "weak";
  spec 0xc02b "TLS_ECDHE_ECDSA_WITH_AES_128_GCM_SHA256" "ECDHE" "modern";
  spec 0xc02c "TLS_ECDHE_ECDSA_WITH_AES_256_GCM_SHA384" "ECDHE" "modern";
  spec 0xc02d "TLS_ECDH_ECDSA_WITH_AES_128_GCM_SHA256" "ECDHE" "weak";
  spec 0xc02e "TLS_ECDH_ECDSA_WITH_AES_256_GCM_SHA384" "ECDHE" "weak";
  spec 0xc02f "TLS_ECDHE_RSA_WITH_AES_128_GCM_SHA256" "ECDHE" "modern";
  spec 0xc030 "TLS_ECDHE_RSA_WITH_AES_256_GCM_SHA384" "ECDHE" "modern";
  spec 0xc031 "TLS_ECDH_RSA_WITH_AES_128_GCM_SHA256" "ECDHE" "weak";
  spec 0xc032 "TLS_ECDH_RSA_WITH_AES_256_GCM_SHA384" "ECDHE" "weak";
  spec 0xc01a "TLS_SRP_SHA_WITH_3DES_EDE_CBC_SHA" "SRP" "weak";
  spec 0xc01b "TLS_SRP_SHA_RSA_WITH_3DES_EDE_CBC_SHA" "SRP" "weak";
  spec 0xc01c "TLS_SRP_SHA_DSS_WITH_3DES_EDE_CBC_SHA" "SRP" "weak";
  spec 0xc01d "TLS_SRP_SHA_WITH_AES_128_CBC_SHA" "SRP" "weak";
  spec 0xc01e "TLS_SRP_SHA_RSA_WITH_AES_128_CBC_SHA" "SRP" "weak";
  spec 0xc01f "TLS_SRP_SHA_DSS_WITH_AES_128_CBC_SHA" "SRP" "weak";
  spec 0xc020 "TLS_SRP_SHA_WITH_AES_256_CBC_SHA" "SRP" "weak";
  spec 0xc021 "TLS_SRP_SHA_RSA_WITH_AES_256_CBC_SHA" "SRP" "weak";
  spec 0xc022 "TLS_SRP_SHA_DSS_WITH_AES_256_CBC_SHA" "SRP" "weak"
  ]%string.

(** Camellia, ARIA, ChaCha20, TLS 1.3, GOST and signalling *)
Definition laterSuites : list cipherSpec := [
  spec 0x0041 "TLS_RSA_WITH_CAMELLIA_128_CBC_SHA" "Camellia" "info";
  spec 0x0084 "TLS_RSA_WITH_CAMELLIA_256_CBC_SHA" "Camellia" "info";
  spec 0x00ba "TLS_RSA_WITH_CAMELLIA_128_CBC_SHA256" "Camellia" "info";
  spec 0x00c0 "TLS_RSA_WITH_CAMELLIA_256_CBC_SHA256" "Camellia" "info";
  spec 0xc072 "TLS_ECDHE_ECDSA_WITH_CAMELLIA_128_CBC_SHA256" "Camellia" "info";
  spec 0xc073 "TLS_ECDHE_ECDSA_WITH_CAMELLIA_256_CBC_SHA384" "Camellia" "info";
  spec 0xc076 "TLS_ECDHE_RSA_WITH_CAMELLIA_128_CBC_SHA256" "Camellia" "info";
  spec 0xc077 "TLS_ECDHE_RSA_WITH_CAMELLIA_256_CBC_SHA384" "Camellia" "info";
  spec 0xc09c "TLS_RSA_WITH_AES_128_CCM" "RSA" "modern";
  spec 0xc09d "TLS_RSA_WITH_AES_256_CCM" "RSA" "modern";
  spec 0xc09e "TLS_DHE_RSA_WITH_AES_128_CCM" "DHE" "modern";
  spec 0xc09f "TLS_DHE_RSA_WITH_AES_256_CCM" "DHE" "modern";
  spec 0xc0a0 "TLS_RSA_WITH_AES_128_CCM_8" "RSA" "modern";
  spec 0xc0a1 "TLS_RSA_WITH_AES_256_CCM_8" "RSA" "modern";
  spec 0xc0a4 "TLS_RSA_WITH_CAMELLIA_128_GCM_SHA256" "Camellia" "info";
  spec 0xc0a5 "TLS_RSA_WITH_CAMELLIA_256_GCM_SHA384" "Camellia" "info";
  spec 0xc0ac "TLS_ECDHE_ECDSA_WITH_AES_128_CCM" "ECDHE" "modern";
  spec 0xc0ad "TLS_ECDHE_ECDSA_WITH_AES_256_CCM" "ECDHE" "modern";
  spec 0xc0ae "TLS_ECDHE_ECDSA_WITH_AES_128_CCM_8" "ECDHE" "modern";
  spec 0xc0af "TLS_ECDHE_ECDSA_WITH_AES_256_CCM_8" "ECDHE" "modern";
  spec 0xc03c "TLS_RSA_WITH_ARIA_128_CBC_SHA256" "ARIA" "info";
  spec 0xc03d "TLS_RSA_WITH_ARIA_256_CBC_SHA384" "ARIA" "info";
  spec 0xc050 "TLS_RSA_WITH_ARIA_128_GCM_SHA256" "ARIA" "info";
  spec 0xc051 "TLS_RSA_WITH_ARIA_256_GCM_SHA384" "ARIA" "info";
  spec 0xc052 "TLS_DHE_RSA_WITH_ARIA_128_GCM_SHA256" "ARIA" "info";
  spec 0xc053 "TLS_DHE_RSA_WITH_ARIA_256_GCM_SHA384" "ARIA" "info";
  spec 0xc05c "TLS_ECDHE_ECDSA_WITH_ARIA_128_GCM_SHA256" "ARIA" "info";
  spec 0xc05d "TLS_ECDHE_ECDSA_WITH_ARIA_256_GCM_SHA384" "ARIA" "info";
  spec 0xc060 "TLS_ECDHE_RSA_WITH_ARIA_128_GCM_SHA256" "ARIA" "info";
  spec 0xc061 "TLS_ECDHE_RSA_WITH_ARIA_256_GCM_SHA384" "ARIA" "info";
  spec 0xcca8 "TLS_ECDHE_RSA_WITH_CHACHA20_POLY1305_SHA256" "ECDHE" "modern";
  spec 0xcca9 "TLS_ECDHE_ECDSA_WITH_CHACHA20_POLY1305_SHA256" "ECDHE" "modern";
  spec 0xccaa "TLS_DHE_RSA_WITH_CHACHA20_POLY1305_SHA256" "DHE" "modern";
  spec 0xccab "TLS_PSK_WITH_CHACHA20_POLY1305_SHA256" "PSK" "modern";
  spec 0xccac "TLS_ECDHE_PSK_WITH_CHACHA20_POLY1305_SHA256" "PSK" "modern";
  spec 0xccad "TLS_DHE_PSK_WITH_CHACHA20_POLY1305_SHA256" "PSK" "modern";
  spec 0xccae "TLS_RSA_PSK_WITH_CHACHA20_POLY1305_SHA256" "PSK" "modern";
  spec 0x1301 "TLS_AES_128_GCM_SHA256" "TLS13" "modern";
  spec 0x1302 "TLS_AES_256_GCM_SHA384" "TLS13" "modern";
  spec 0x1303 "TLS_CHACHA20_POLY1305_SHA256" "TLS13" "modern";
  spec 0x1304 "TLS_AES_128_CCM_SHA256" "TLS13" "modern";
  spec 0x1305 "TLS_AES_128_CCM_8_SHA256" "TLS13" "modern";
  spec 0x0080 "TLS_GOSTR341094_WITH_28147_CNT_IMIT" "GOST" "policy";
  spec 0x0081 "TLS_GOSTR341001_WITH_28147_CNT_IMIT" "GOST" "policy";
  spec 0xc100 "TLS_GOSTR341112_256_WITH_KUZNYECHIK_CTR_OMAC" "GOST" "policy";
  spec 0xc101 "TLS_GOSTR341112_256_WITH_MAGMA_CTR_OMAC" "GOST" "policy";
  spec 0xc102 "TLS_GOSTR341112_256_WITH_28147_CNT_IMIT" "GOST" "policy";
  spec 0x00ff "TLS_EMPTY_RENEGOTIATION_INFO_SCSV" "RSA" "info";
  spec 0x5600 "TLS_FALLBACK_SCSV" "RSA" "info"
  ]%string.

Definition cipherRegistry : list cipherSpec := nullExportDES ++ weakSuites ++ seedGCMPSK ++ ecdheSuites ++ laterSuites.

Definition cipherRegistryByCode (code : Z) : option cipherSpec := find (fun s => Code s =? code) cipherRegistry.

(** The codes, without repetition; the state is [out] with the map [seen], which has the
    same elements. *)
Definition cipherRegistryAllCodes : list Z :=
  fold_left (fun out s => if inList (Code s) out then out else out ++ [Code s]) cipherRegistry [].

(** ** The enumeration *)

Record eachCipherResult := { rCode : Z; rName : string; rFamily : string; rSeverity : string; rVersion : string }.

(** The row of an accepted suite *)
Definition cipherRow (verName : string) (code : Z) : eachCipherResult :=
  match cipherRegistryByCode code with
  | Some s => {| rCode := code; rName := Name s; rFamily := Family s; rSeverity := Severity s; rVersion := verName |}
  | None => {| rCode := code; rName := cipherCodeName code; rFamily := ""; rSeverity := ""; rVersion := verName |}
  end.

Section EachCipher.
Context {C : Type} `{Reader C}.

(** One goroutine per code; [order] is the order in which they finish. *)
Fixpoint probeCodes (net : attemptConn (C := C)) (host : string) (tlsVer : Z) (rnd : Z -> bytes) (accepted : list eachCipherResult) (order : list Z)
    : outcome (list eachCipherResult) :=
  match order with
  | [] => Ret accepted
  | code :: order =>
      ok <~ probeOneCipher net host tlsVer code (rnd code) ;;
      probeCodes net host tlsVer rnd (if ok then accepted ++ [cipherRow (tlsVersionNameForCode tlsVer) code] else accepted) order
  end.
Definition probeEachCipher net host tlsVer rnd (schedule : list Z -> list Z) : outcome (list eachCipherResult) :=
  probeCodes net host tlsVer rnd [] (schedule cipherRegistryAllCodes).

(** [severityOrder[s]]: a severity that is not a key has the zero value. *)
Definition severityOrder (s : string) : Z :=
  if String.eqb s "broken" then 0 else if String.eqb s "weak" then 1 else if String.eqb s "policy" then 2
  else if String.eqb s "info" then 3 else if String.eqb s "modern" then 4 else if String.eqb s "" then 5 else 0.

Definition rowLess (a b : eachCipherResult) : bool :=
  if negb (String.eqb (rVersion a) (rVersion b)) then strLt (rVersion a) (rVersion b)
  else
    let si := severityOrder (rSeverity a) in let sj := severityOrder (rSeverity b) in
    if negb (si =? sj) then si <? sj else rCode a <? rCode b.

(** [schedule v] is how the goroutines of the version [v] finish. *)
Definition eachCipherAllVersions net host (rnd : Z -> Z -> bytes) (schedule : Z -> list Z -> list Z) : outcome (list eachCipherResult) :=
  all <~ foldl (fun acc v => all <~ acc ;; rows <~ probeEachCipher net host v (rnd v) (schedule v) ;; Ret (all ++ rows))
               (Ret []) [VersionTLS10; VersionTLS11; VersionTLS12] ;;
  Ret (sortBy rowLess all).
End EachCipher.

Record eachCipherSummary := { Total : Z; Broken : Z; Weak : Z; Policy : Z; Modern : Z; Info : Z; Unknown : Z }.

(** One turn of the loop: the field of the severity is incremented. *)
Definition countRow (s : eachCipherSummary) (r : eachCipherResult) : eachCipherSummary :=
  let has x := String.eqb (rSeverity r) x in
  let one (b : bool) n := if b then n + 1 else n in
  let known := has "broken"%string || has "weak"%string || has "policy"%string || has "modern"%string || has "info"%string in
  {| Total := Total s; Broken := one (has "broken"%string) (Broken s); Weak := one (has "weak"%string) (Weak s);
     Policy := one (has "policy"%string) (Policy s); Modern := one (has "modern"%string) (Modern s);
     Info := one (has "info"%string) (Info s); Unknown := one (negb known) (Unknown s) |}.
Definition summarizeEachCipher (rows : list eachCipherResult) : eachCipherSummary :=
  fold_left countRow rows {| Total := blen rows; Broken := 0; Weak := 0; Policy := 0; Modern := 0; Info := 0; Unknown := 0 |}.

(** ** The registry is consistent: a repeated code has the same row, and the codes are
    probed once *)

Lemma registry_functional : forallb (fun s => forallb (fun t => negb (Code s =? Code t) ||
  (String.eqb (Name s) (Name t) && String.eqb (Family s) (Family t) && String.eqb (Severity s) (Severity t))) cipherRegistry) cipherRegistry = true.
Proof. by vm_compute. Qed.

Lemma codes_NoDup : NoDup cipherRegistryAllCodes.
Proof. apply (bool_decide_unpack _). by vm_compute. Qed.

Lemma codes_registry c : In c cipherRegistryAllCodes <-> exists s, In s cipherRegistry /\ Code s = c.
Proof.
  unfold cipherRegistryAllCodes.
  assert (Hf : forall l out, In c (fold_left (fun out s => if inList (Code s) out then out else out ++ [Code s]) l out)
                 <-> In c out \/ exists s, In s l /\ Code s = c).
  { induction l as [|s l IH]; intros out; cbn [fold_left].
    - split; [by left|intros [?|(s & [] & _)]; done].
    - rewrite IH. destruct (inList (Code s) out) eqn:E.
      + apply inList_spec in E. split; [intros [?|(t & Ht & <-)]; [by left|right; exists t; split; [by right|done]]|].
        intros [?|(t & [<-|Ht] & <-)]; [by left|by left|right; by exists t].
      + rewrite in_app_iff. cbn. split.
        * intros [[?|[<-|[]]]|(t & Ht & <-)]; [by left|right; exists s; split; [by left|done]|right; exists t; split; [by right|done]].
        * intros [?|(t & [<-|Ht] & <-)]; [left; by left|left; right; by left|right; by exists t]. }
  rewrite Hf. split; [intros [[]|Hs]; done|by right].
Qed.

(** ** The order of the rows *)

Lemma rowLess_cases a b : rowLess a b = true <->
  strLt (rVersion a) (rVersion b) = true \/ rVersion a = rVersion b /\
   (severityOrder (rSeverity a) < severityOrder (rSeverity b) \/ severityOrder (rSeverity a) = severityOrder (rSeverity b) /\ rCode a < rCode b).
Proof.
  assert (Hirr : forall s, strLt s s = false) by (intros s; destruct (strLt s s) eqn:E; [pose proof (strLt_asym _ _ E); congruence|done]).
  unfold rowLess. destruct (String.eqb_spec (rVersion a) (rVersion b)) as [->|Hne]; cbn [negb].
  - rewrite Hirr. destruct (Z.eqb_spec (severityOrder (rSeverity a)) (severityOrder (rSeverity b))) as [->|Hs]; cbn [negb];
      rewrite Z.ltb_lt; intuition (try done; lia).
  - intuition.
Qed.

Lemma rowLess_trans a b c : rowLess a b = true -> rowLess b c = true -> rowLess a c = true.
Proof.
  rewrite !rowLess_cases. intros [H1|[E1 H1]] [H2|[E2 H2]].
  - left. by eapply strLt_trans.
  - left. by rewrite <- E2.
  - left. by rewrite E1.
  - right. split; [congruence|]. lia.
Qed.

Lemma rowLess_asym a b : rowLess a b = true -> rowLess b a = false.
Proof.
  intros Hab. destruct (rowLess b a) eqn:E; [|done]. apply rowLess_cases in Hab. apply rowLess_cases in E.
  destruct Hab as [H1|[E1 H1]], E as [H2|[E2 H2]].
  - apply strLt_asym in H1. congruence.
  - rewrite E2 in H1. pose proof (strLt_asym _ _ H1). congruence.
  - rewrite E1 in H2. pose proof (strLt_asym _ _ H2). congruence.
  - lia.
Qed.

Lemma rowLess_rows v1 c1 v2 c2 : comparable rowLess (cipherRow v1 c1) (cipherRow v2 c2).
Proof.
  assert (Hv : forall v c, rVersion (cipherRow v c) = v /\ rCode (cipherRow v c) = c) by (intros v c; unfold cipherRow; by destruct (cipherRegistryByCode c)).
  unfold comparable. rewrite !rowLess_cases. destruct (Hv v1 c1) as [-> ->], (Hv v2 c2) as [-> ->].
  destruct (String.eqb_spec v1 v2) as [->|Hne]; [|right; destruct (strLt_total v1 v2 Hne); [left|right]; by left].
  destruct (Z.eqb_spec c1 c2) as [->|Hc]; [by left|]. right.
  set (s1 := severityOrder _). set (s2 := severityOrder _). destruct (Z.lt_trichotomy s1 s2) as [|[|]]; [left|..]; [right; split; [done|lia]|..].
  - destruct (Z.lt_ge_cases c1 c2); [left|right]; right; split; try done; lia.
  - right. right. split; [done|lia].
Qed.

(** Not less, the other way round, is transitive too. *)
Lemma rowLess_neg a b c : rowLess b a = false -> rowLess c b = false -> rowLess c a = false.
Proof.
  intros Hba Hcb. destruct (rowLess c a) eqn:E; [|done]. apply rowLess_cases in E.
  assert (Hn : forall x y, rowLess x y = false -> ~ (strLt (rVersion x) (rVersion y) = true) /\
    (rVersion x = rVersion y -> ~ (severityOrder (rSeverity x) < severityOrder (rSeverity y) \/
       severityOrder (rSeverity x) = severityOrder (rSeverity y) /\ rCode x < rCode y))).
  { intros x y Hxy. split; [intros Hx|intros He Hx]; (rewrite (proj2 (rowLess_cases x y)) in Hxy; [done|]); [by left|by right]. }
  apply Hn in Hba as [Hba1 Hba2]. apply Hn in Hcb as [Hcb1 Hcb2].
  destruct (String.eqb_spec (rVersion a) (rVersion b)) as [Eab|Nab].
  - destruct (String.eqb_spec (rVersion b) (rVersion c)) as [Ebc|Nbc].
    + specialize (Hba2 (eq_sym Eab)). specialize (Hcb2 (eq_sym Ebc)). destruct E as [E|[_ E]]; [|lia].
      rewrite <- Ebc, <- Eab in E. pose proof (strLt_asym _ _ E). congruence.
    + destruct (strLt_total _ _ Nbc) as [Hbc|?]; [|done]. rewrite Eab in E. destruct E as [E|[E _]]; [done|congruence].
  - destruct (strLt_total _ _ Nab) as [Hab|?]; [|done]. destruct E as [E|[E _]].
    + destruct Hcb1. by eapply strLt_trans.
    + destruct Hcb1. by rewrite E.
Qed.

(** ** What is enumerated *)

Section Claims.
Context {C : Type} `{Reader C}.

Definition acceptsSuite (net : attemptConn (C := C)) host (rnd : Z -> Z -> bytes) (v c : Z) : bool :=
  match net (singleCipherClientHello host v c (rnd v c)) with Some s => acceptsHandshake (pending s) | None => false end.

Lemma probeCodes_spec net host v rnd order acc :
  probeCodes net host v (rnd v) acc order
  = Ret (acc ++ map (cipherRow (tlsVersionNameForCode v)) (List.filter (acceptsSuite net host rnd v) order)).
Proof.
  revert acc. induction order as [|c order IH]; intros acc; [by rewrite app_nil_r|].
  cbn [probeCodes List.filter]. rewrite probeOneCipher_spec. cbn [bind]. fold (acceptsSuite net host rnd v c). rewrite IH.
  destruct (acceptsSuite net host rnd v c); [|done]. cbn [map]. by rewrite <- app_assoc.
Qed.

(** The rows before they are sorted *)
Definition acceptedRows (net : attemptConn (C := C)) host rnd (codes : Z -> list Z) : list eachCipherResult :=
  flat_map (fun v => map (cipherRow (tlsVersionNameForCode v)) (List.filter (acceptsSuite net host rnd v) (codes v)))
           [VersionTLS10; VersionTLS11; VersionTLS12].

Lemma eachCipher_rows net host rnd schedule :
  eachCipherAllVersions net host rnd schedule
  = Ret (sortBy rowLess (acceptedRows net host rnd (fun v => schedule v cipherRegistryAllCodes))).
Proof.
  unfold eachCipherAllVersions, acceptedRows, probeEachCipher. cbn [foldl flat_map]. rewrite !probeCodes_spec. cbn [bind]. do 2 f_equal.
  cbn [app]. by rewrite app_nil_r, <- app_assoc.
Qed.

Lemma acceptedRows_In net host rnd codes r : In r (acceptedRows net host rnd codes) <->
  exists v c, (v = VersionTLS10 \/ v = VersionTLS11 \/ v = VersionTLS12) /\ In c (codes v) /\ acceptsSuite net host rnd v c = true
              /\ r = cipherRow (tlsVersionNameForCode v) c.
Proof.
  unfold acceptedRows. rewrite in_flat_map. split.
  - intros (v & Hv & Hr). apply in_map_iff in Hr as (c & <- & Hc). apply filter_In in Hc as [Hc Ha]. exists v, c. split; [|done].
    cbn in Hv. intuition.
  - intros (v & c & Hv & Hc & Ha & ->). exists v. split; [cbn; intuition|]. apply in_map_iff. exists c. split; [done|]. by apply filter_In.
Qed.

Lemma acceptedRows_NoDup net host rnd codes : (forall v, NoDup (codes v)) ->
  NoDup (map (fun r => (rVersion r, rCode r)) (acceptedRows net host rnd codes)).
Proof.
  intros Hn. unfold acceptedRows. cbn [flat_map]. rewrite !map_app, !map_map.
  assert (Hk : forall n l, map (fun c => (rVersion (cipherRow n c), rCode (cipherRow n c))) l = map (pair n) l).
  { intros n l. apply map_ext. intros c. unfold cipherRow. by destruct (cipherRegistryByCode c). }
  rewrite !Hk. cbn [map]. rewrite app_nil_r.
  assert (Hd : forall n l, NoDup l -> NoDup (map (pair n : Z -> string * Z) l)) by (intros n l; apply NoDup_fmap_2; by intros ?? [= ->]).
  assert (Hf : forall v, NoDup (List.filter (acceptsSuite net host rnd v) (codes v))) by (intros v; apply NoDup_ListNoDup, List.NoDup_filter, NoDup_ListNoDup, Hn).
  assert (Hfst : forall n l p, p ∈ map (pair n : Z -> string * Z) l -> fst p = n).
  { intros n l p Hp. apply list_elem_of_fmap in Hp as (c & -> & _). done. }
  rewrite !NoDup_app. split_and!; try (apply Hd, Hf).
  - intros p Hp. apply Hfst in Hp. intros [Hq|Hq]%elem_of_app; apply Hfst in Hq; by rewrite Hp in Hq.
  - intros p Hp. apply Hfst in Hp. intros Hq. apply Hfst in Hq. by rewrite Hp in Hq.
Qed.

(** C13. The enumeration does not depend on how its goroutines are scheduled, does not panic,
    and lists exactly the registered suites that the server takes, one row for each
    version and suite, with the label of the registry, sorted by version, severity and
    code. *)
Theorem eachCipherAllVersions_complete net host rnd schedule schedule'
  (Hs : forall v, Permutation (schedule v cipherRegistryAllCodes) cipherRegistryAllCodes)
  (Hs' : forall v, Permutation (schedule' v cipherRegistryAllCodes) cipherRegistryAllCodes) :
  exists rows, eachCipherAllVersions net host rnd schedule = Ret rows
    /\ eachCipherAllVersions net host rnd schedule' = Ret rows
    /\ StronglySorted (fun a b => rowLess b a = false) rows
    /\ NoDup (map (fun r => (rVersion r, rCode r)) rows)
    /\ forall r, In r rows <-> exists v c, (v = VersionTLS10 \/ v = VersionTLS11 \/ v = VersionTLS12)
         /\ (exists s, In s cipherRegistry /\ Code s = c) /\ acceptsSuite net host rnd v c = true
         /\ r = cipherRow (tlsVersionNameForCode v) c.
Proof.
  rewrite !eachCipher_rows. eexists. split; [reflexivity|]. split; [|split; [|split]].
  - f_equal. apply sortBy_perm; [apply rowLess_trans|apply rowLess_asym|..].
    + intros x y Hx Hy. apply acceptedRows_In in Hx as (v1 & c1 & _ & _ & _ & ->). apply acceptedRows_In in Hy as (v2 & c2 & _ & _ & _ & ->).
      apply rowLess_rows.
    + unfold acceptedRows. cbn [flat_map]. repeat apply Permutation_app; [..|done]; apply Permutation_map, Permutation_lfilter; by rewrite Hs, Hs'.
  - apply sortBy_sorted; [apply rowLess_asym|apply rowLess_neg].
  - rewrite <- sortBy_Permutation. apply acceptedRows_NoDup. intros v. rewrite Hs. apply codes_NoDup.
  - intros r. rewrite <- (sortBy_Permutation rowLess). rewrite acceptedRows_In.
    split; intros (v & c & Hv & Hc & Ha & ->); exists v, c; (split; [done|]; split; [|done]).
    + exact (proj1 (codes_registry c) (Permutation_in c (Hs v) Hc)).
    + apply (proj2 (codes_registry c)) in Hc. exact (Permutation_in c (Permutation_sym (Hs v)) Hc).
Qed.
End Claims.

(** Each row adds to exactly one field. *)
Theorem summarizeEachCipher_total rows : let s := summarizeEachCipher rows in
  Total s = blen rows /\ Broken s + Weak s + Policy s + Modern s + Info s + Unknown s = Total s
  /\ Broken s = blen (List.filter (fun r => String.eqb (rSeverity r) "broken") rows).
Proof.
  unfold summarizeEachCipher. cbv zeta.
  assert (Hg : forall l s, let t := fold_left countRow l s in Total t = Total s /\
    Broken t + Weak t + Policy t + Modern t + Info t + Unknown t = Broken s + Weak s + Policy s + Modern s + Info s + Unknown s + blen l
    /\ Broken t = Broken s + blen (List.filter (fun r => String.eqb (rSeverity r) "broken") l)).
  { induction l as [|r l IH]; intros s; cbv zeta; cbn [fold_left List.filter]; [rewrite blen_nil; lia|].
    destruct (IH (countRow s r)) as (-> & -> & ->). rewrite blen_cons. unfold countRow. cbv beta zeta. cbn [Total Broken Weak Policy Modern Info Unknown].
    destruct (String.eqb_spec (rSeverity r) "broken") as [E|_]; [rewrite E; cbn -[Z.add]; rewrite blen_cons; lia|].
    destruct (String.eqb_spec (rSeverity r) "weak") as [E|_]; [rewrite E; cbn -[Z.add]; lia|].
    destruct (String.eqb_spec (rSeverity r) "policy") as [E|_]; [rewrite E; cbn -[Z.add]; lia|].
    destruct (String.eqb_spec (rSeverity r) "modern") as [E|_]; [rewrite E; cbn -[Z.add]; lia|].
    destruct (String.eqb_spec (rSeverity r) "info") as [E|_]; cbn -[Z.add]; lia. }
  destruct (Hg rows {| Total := blen rows; Broken := 0; Weak := 0; Policy := 0; Modern := 0; Info := 0; Unknown := 0 |}) as (H1 & H2 & H3).
  cbn [Total Broken Weak Policy Modern Info Unknown] in *. lia.
Qed.

Module EachCipherWitnesses.
(** A server that takes one suite, under TLS 1.2 *)
Definition oneSuite (h : bytes) : option bytes :=
  if decide (h = singleCipherClientHello "" 0x0303 0x009c (repeat x5a 32)) then Some [x16; x03; x03; x00; x7a] else None.

Lemma eachCipherAllVersions_complete_witness :
  (forall v, Permutation ((fun (_ : Z) l => rev l) v cipherRegistryAllCodes) cipherRegistryAllCodes) /\
  exists rows, eachCipherAllVersions oneSuite "" (fun _ _ => repeat x5a 32) (fun _ l => rev l) = Ret rows.
Proof.
  assert (Hp : forall v, Permutation ((fun (_ : Z) l => rev l) v cipherRegistryAllCodes) cipherRegistryAllCodes)
    by (intros v; symmetry; apply Permutation_rev).
  split; [exact Hp|].
  destruct (eachCipherAllVersions_complete oneSuite "" (fun _ _ => repeat x5a 32) (fun _ l => rev l) (fun _ l => rev l) Hp Hp) as (rows & Hr & _).
  exists rows. exact Hr.
Defined.

Example one_suite : eachCipherAllVersions oneSuite "" (fun _ _ => repeat x5a 32) (fun _ l => rev l)
  = Ret [{| rCode := 0x009c; rName := "TLS_RSA_WITH_AES_128_GCM_SHA256"; rFamily := "RSA"; rSeverity := "weak"; rVersion := "TLS 1.2" |}].
Proof. by vm_compute. Qed.
End EachCipherWitnesses.
