(* ===== verification/Vulns.v ===== *)
(** The vulnerability probes of [tls_vulns.go], but for the CCS-injection probe
    (file [Ccs]): the list of findings, embedded SCTs, and the hand-written
    probes for SSL 2, SSL 3, export suites, TLS_FALLBACK_SCSV, Heartbleed and
    CRIME. *)

From Stdlib Require Import ZArith List String Ascii Strings.Byte Lia Bool.
From stdpp Require Import base list strings numbers gmap.
From S2P Require Import Prelude Bytes GoStrings Stream Extensions Flight Service ServerHello Tls13Hello ClientHellos.
From S2P Require Import Ciphers TlsCheck Dh Preference.
Open Scope Z_scope.

(** ** Suites *)

Definition isCBCCipher (suite : Z) : bool :=
  inList suite [0x000a; 0x002f; 0x0035; 0x003c; 0xc009; 0xc00a; 0xc013; 0xc014; 0xc027; 0xc023].
Definition is3DESCipher (suite : Z) : bool := suite =? 0x000a.
Definition isRC4Cipher (suite : Z) : bool := inList suite [0x0005; 0xc011; 0xc007].
Definition isForwardSecret (suite : Z) : bool :=
  inList suite [0x1301; 0x1302; 0x1303]
  || inList suite [0xc02f; 0xc030; 0xc02b; 0xc02c; 0xc013; 0xc014; 0xc009; 0xc00a; 0xc027; 0xc023; 0xcca8; 0xcca9;
                   0xc011; 0xc007].

(** ** The list of vulnerabilities *)

Record tlsVuln := { vulnName : string; CVE : string; Description : string; Severity : string }.

Definition severityRank (v : tlsVuln) : Z :=
  if String.eqb (Severity v) "critical" then 4 else if String.eqb (Severity v) "high" then 3
  else if String.eqb (Severity v) "medium" then 2 else if String.eqb (Severity v) "low" then 1 else 0.

Definition vuln (n cve desc sev : string) : tlsVuln :=
  {| vulnName := n; CVE := cve; Description := desc; Severity := sev |}.
(** [if cond { vulns = append(vulns, v) }] *)
Definition appendIf (cond : bool) (v : tlsVuln) (vulns : list tlsVuln) : list tlsVuln :=
  if cond then vulns ++ [v] else vulns.

(** The [switch] on the DH posture. *)
Definition dhVulns (dh : dhParameterPosture) (vulns : list tlsVuln) : list tlsVuln :=
  if Determined dh && Supported dh then
    if (0 <? Bits dh) && (Bits dh <? 1024) then
      vulns ++ [vuln "Weak DH" "CVE-2015-4000"
        ("DH prime is " +:+ fmtD (Bits dh) +:+ " bits — well below 2048-bit recommendation") "high"]%string
    else if CommonPrime dh && (Bits dh <=? 1024) then
      vulns ++ [vuln "Logjam common-prime" "CVE-2015-4000"
        ("DH uses 1024-bit shared prime — " +:+ PrimeName dh) "high"]%string
    else if (Bits dh =? 1024) && negb (CommonPrime dh) then
      vulns ++ [vuln "Weak DH" "CVE-2015-4000" "DH prime is 1024 bits — below 2048-bit recommendation" "medium"]
    else vulns
  else vulns.

Definition detectTLSVulns (cipher tls10Cipher : Z) (sslv3 sslv2 heartbleed crime freak logjam ccsInjection : bool)
    (dh : dhParameterPosture) (ext : tlsExtensionPosture) : list tlsVuln :=
  let vulns := appendIf heartbleed (vuln "Heartbleed" "CVE-2014-0160"
    "OpenSSL Heartbeat leaks server memory — UPDATE NOW" "critical") [] in
  let vulns := appendIf sslv2 (vuln "DROWN" "CVE-2016-0800"
    "SSLv2 enabled — cross-protocol private-key recovery" "critical") vulns in
  let vulns := appendIf crime (vuln "CRIME" "CVE-2012-4929"
    "TLS compression enabled — chosen-plaintext cookie recovery" "high") vulns in
  let vulns := appendIf freak (vuln "FREAK" "CVE-2015-0204"
    "RSA_EXPORT cipher accepted — factorable-RSA downgrade" "high") vulns in
  let vulns := appendIf logjam (vuln "Logjam" "CVE-2015-4000"
    "DHE_EXPORT cipher accepted — 512-bit DH downgrade" "high") vulns in
  let vulns := dhVulns dh vulns in
  let vulns := appendIf (ClientHellos.Determined ext && negb (SecureRenegotiation ext))
    (vuln "Insecure renegotiation" "CVE-2009-3555" "no renegotiation_info — TLS renegotiation MITM" "high") vulns in
  let vulns := appendIf ccsInjection (vuln "CCS Injection" "CVE-2014-0224"
    "out-of-order ChangeCipherSpec accepted — NULL master secret MITM" "high") vulns in
  let vulns := appendIf (is3DESCipher cipher || is3DESCipher tls10Cipher) (vuln "SWEET32" "CVE-2016-2183"
    "3DES (64-bit block) — birthday attack on long sessions" "medium") vulns in
  let vulns := appendIf (isRC4Cipher cipher || isRC4Cipher tls10Cipher) (vuln "RC4" "CVE-2013-2566"
    "RC4 cipher negotiated — prohibited by RFC 7465" "high") vulns in
  let vulns := appendIf (isCBCCipher cipher) (vuln "LUCKY13" "CVE-2013-0169"
    "CBC cipher negotiated — exposed to MAC-timing side-channel" "low") vulns in
  let vulns := appendIf (negb (tls10Cipher =? 0) && isCBCCipher tls10Cipher) (vuln "BEAST" "CVE-2011-3389"
    "TLS 1.0 negotiates a CBC cipher — chosen-plaintext attack" "medium") vulns in
  appendIf sslv3 (vuln "POODLE" "CVE-2014-3566" "SSLv3 accepted — padding oracle on CBC records" "high") vulns.

(** [vulns[best]] while the loop runs over the rest of the slice. *)
Definition worstVulnerability (vulns : list tlsVuln) : option tlsVuln :=
  match vulns with
  | [] => None
  | v :: vs => Some (fold_left (fun best v => if severityRank best <? severityRank v then v else best) vs v)
  end.

(** [vulnSummary] of [tls.go] *)
Definition vulnSummary (vulns : list tlsVuln) : string :=
  match vulns with
  | [v] => (vulnName v +:+ " (" +:+ CVE v +:+ ") — " +:+ Description v)%string
  | _ => ("vulnerable: " +:+ Join (map vulnName vulns) ", ")%string
  end.

(** ** Embedded SCTs *)

Definition sctExtensionOID : list Z := [1; 3; 6; 1; 4; 1; 11129; 2; 4; 2].

(** [for i+2 <= len(body)]: the state is [i] and [count]. *)
Definition sctTurn (body : bytes) (st : Z * Z) : outcome (step (Z * Z) unit) :=
  let '(i, count) := st in
  if i + 2 <=? blen body then
    a <~ index body i ;; b <~ index body (i + 1) ;;
    let sctLen := be16 a b in
    let i := i + 2 in
    if blen body <? i + sctLen then Ret (Break (i, count)) else Ret (Next (i + sctLen, count + 1))
  else Ret (Break (i, count)).

Definition stripOctetString (b : bytes) : outcome bytes :=
  if 2 <=? blen b then
    b0 <~ index b 0 ;;
    if beq b0 x04 then
      b1 <~ index b 1 ;;
      if bval b1 <? 0x80 then sliceFrom b 2
      else if beq b1 x81 && (3 <=? blen b) then sliceFrom b 3
      else if beq b1 x82 && (4 <=? blen b) then sliceFrom b 4
      else Ret b
    else Ret b
  else Ret b.

Definition parseSCTList (b : bytes) : outcome Z :=
  b <~ stripOctetString b ;;
  if blen b <? 2 then Ret 0 else
  b0 <~ index b 0 ;; b1 <~ index b 1 ;;
  let listLen := be16 b0 b1 in
  body <~ sliceFrom b 2 ;;
  if blen body <? listLen then Ret 0 else
  body <~ slice body 0 listLen ;;
  r <~ loop (sctTurn body) (S (length body)) (0, 0) ;;
  Ret (match r with inl (_, count) => count | inr _ => 0 end).

(** [None] is the nil certificate. *)
Definition countEmbeddedSCTs (cert : option certificate) : outcome Z :=
  match cert with
  | None => Ret 0
  | Some cert =>
      match find (fun e : list Z * bytes => bool_decide (fst e = sctExtensionOID)) (TlsCheck.Extensions cert) with
      | Some e => parseSCTList (snd e)
      | None => Ret 0
      end
  end.

(** ** The hellos *)

Definition sslv3Body (rnd : bytes) : bytes :=
  let cipherBytes := flat_map putBE16 [0x002F; 0x0035; 0x000A; 0x0005; 0x0004] in
  let body := [x03; x00] in
  let body := body ++ rnd in
  let body := body ++ [x00] in
  let body := body ++ putBE16 (blen cipherBytes) in
  let body := body ++ cipherBytes in
  body ++ [x01; x00].
Definition sslv3ClientHello (rnd : bytes) : bytes :=
  let body := sslv3Body rnd in
  let hs := [x01] ++ putBE24 (blen body) in
  let hs := hs ++ body in
  ([x16; x03; x00] ++ putBE16 (blen hs)) ++ hs.

Definition fallbackSCSVClientHello (host : string) (ver : Z) (rnd : bytes) : bytes :=
  let cipherBytes := flat_map putBE16 [0x5600; 0xc02f; 0xc030; 0xc02b; 0xc02c; 0xc013; 0xc014; 0x009c; 0x009d; 0x002f; 0x0035] in
  helloRecord ver rnd cipherBytes (buildSNIExtension host).

Definition heartbleedClientHello (host : string) (rnd : bytes) : bytes :=
  let cipherBytes := flat_map putBE16 [0xc02f; 0xc030; 0xc02b; 0xc02c; 0xc013; 0xc014; 0xc009; 0xc00a; 0x009c; 0x009d;
                                       0x002f; 0x0035; 0x000a] in
  let extensions := buildSNIExtension host in
  let extensions := extensions ++ [x00; x0f; x00; x01; x01] in
  helloRecord 0x0302 rnd cipherBytes extensions.

Definition exportClientHello (host : string) (ciphers : list Z) (rnd : bytes) : bytes :=
  helloRecord 0x0301 rnd (flat_map putBE16 ciphers) (buildSNIExtension host).
Definition freakCiphers : list Z := [0x0003; 0x0006; 0x0008; 0x0014; 0x0017; 0x0019].
Definition logjamCiphers : list Z := [0x000b; 0x000d; 0x0011; 0x0014; 0x0019].

Definition crimeBody (host : string) (rnd : bytes) : bytes :=
  let cipherBytes := flat_map putBE16 [0xc02f; 0xc030; 0xc02b; 0xc02c; 0xc013; 0xc014; 0xc009; 0xc00a; 0x009c; 0x009d;
                                       0x002f; 0x0035] in
  let extensions := buildSNIExtension host in
  let body := [x03; x03] in
  let body := body ++ rnd in
  let body := body ++ [x00] in
  let body := body ++ putBE16 (blen cipherBytes) in
  let body := body ++ cipherBytes in
  let body := body ++ [x02; x01; x00] in
  let body := body ++ putBE16 (blen extensions) in
  body ++ extensions.
Definition crimeClientHello (host : string) (rnd : bytes) : bytes :=
  let body := crimeBody host rnd in
  let hs := [x01] ++ putBE24 (blen body) in
  let hs := hs ++ body in
  ([x16; x03; x03] ++ putBE16 (blen hs)) ++ hs.

Definition sslv2Specs : bytes :=
  [x01; x00; x80; x02; x00; x80; x03; x00; x80; x04; x00; x80; x06; x00; x40; x07; x00; xc0].
Definition sslv2ClientHello (challenge : bytes) : bytes :=
  let specs := sslv2Specs in
  let body := [x01; x00; x02] ++ putBE16 (blen specs) ++ [x00; x00] ++ putBE16 (blen challenge) in
  let body := body ++ specs in
  let body := body ++ challenge in
  let out := [byteOf (Z.lor 0x80 (Z.shiftr (blen body) 8)); byteOf (blen body)] in
  out ++ body.

(** ** The probes

    [net] is the connection attempt: what the peer sends after the hello, [None]
    when the dial or the write fails. *)
Section Probes.
Context {C : Type} `{Reader C}.
Implicit Type net : attemptConn (C := C).

Definition probeSSLv3 net (rnd : bytes) : outcome bool :=
  match net (sslv3ClientHello rnd) with
  | None => Ret false
  | Some conn =>
      unpack (header, _) <~ readFull 5 conn ;;
      match header with
      | None => Ret false
      | Some header =>
          h0 <~ index header 0 ;;
          if negb (beq h0 x16) then Ret false else
          h1 <~ index header 1 ;; h2 <~ index header 2 ;;
          Ret (beq h1 x03 && beq h2 x00)
      end
  end.

Definition probeExportCiphers net (host : string) (ciphers : list Z) (rnd : bytes) : outcome bool :=
  match net (exportClientHello host ciphers rnd) with
  | None => Ret false
  | Some conn =>
      unpack (header, _) <~ readFull 5 conn ;;
      match header with
      | None => Ret false
      | Some header => h0 <~ index header 0 ;; Ret (beq h0 x16)
      end
  end.
Definition probeFREAK net (host : string) (rnd : bytes) : outcome bool := probeExportCiphers net host freakCiphers rnd.
Definition probeLogjam net (host : string) (rnd : bytes) : outcome bool := probeExportCiphers net host logjamCiphers rnd.

(** [io.ReadAtLeast(conn, buf, 3)] gives the bytes of the buffer it filled, three
    to five of them; how many depends on the segments of the stream. *)
Definition probeSSLv2 (readAtLeast : C -> option bytes) net (challenge : bytes) : outcome bool :=
  match net (sslv2ClientHello challenge) with
  | None => Ret false
  | Some conn =>
      match readAtLeast conn with
      | None => Ret false
      | Some got =>
          if blen got <? 3 then Ret false else
          b0 <~ index got 0 ;;
          let msgStart := if negb (Z.land (bval b0) 0x80 =? 0) then 2 else 3 in
          if blen got <=? msgStart then Ret false else
          m <~ index got msgStart ;;
          Ret (beq m x04)
      end
  end.

(** The results are [protected] and [conclusive]. *)
Definition probeFallbackSCSV net (host : string) (maxVersion : Z) (rnd : bytes) : outcome (bool * bool) :=
  if maxVersion <=? VersionTLS10 then Ret (true, false) else
  let fallbackVer := maxVersion - 1 in
  match net (fallbackSCSVClientHello host fallbackVer rnd) with
  | None => Ret (false, false)
  | Some conn =>
      unpack (header, conn) <~ readFull 5 conn ;;
      match header with
      | None => Ret (false, false)
      | Some header =>
          recType <~ index header 0 ;; h3 <~ index header 3 ;; h4 <~ index header 4 ;;
          let recLen := be16 h3 h4 in
          if (recLen <? 2) || (Z.shiftl 1 14 <? recLen) then Ret (false, false) else
          unpack (body, _) <~ readFull recLen conn ;;
          match body with
          | None => Ret (false, false)
          | Some body =>
              if beq recType x15 then
                b1 <~ index body 1 ;;
                if bval b1 =? 86 then Ret (true, true) else Ret (false, false)
              else if beq recType x16 then Ret (false, true)
              else Ret (false, false)
          end
      end
  end.

Definition serverHelloCompressionByte (body : bytes) : outcome byte :=
  if blen body <? 35 then Ret xff else
  sid <~ index body 34 ;;
  let off := 35 + bval sid + 2 in
  if blen body <=? off then Ret xff else index body off.

(** [for i+4 <= len(body)]: the walk of [probeCRIME]. *)
Definition crimeTurn (body : bytes) (i : Z) : outcome (step Z bool) :=
  if i + 4 <=? blen body then
    hsType <~ index body i ;;
    l2 <~ index body (i + 1) ;; l1 <~ index body (i + 2) ;; l0 <~ index body (i + 3) ;;
    let hsEnd := i + 4 + be24 l2 l1 l0 in
    if blen body <? hsEnd then Ret (Break i) else
    if beq hsType x02 then
      sh <~ slice body (i + 4) hsEnd ;;
      c <~ serverHelloCompressionByte sh ;;
      Ret (Return (negb (beq c x00)))
    else Ret (Next hsEnd)
  else Ret (Break i).

Definition probeCRIME net (host : string) (rnd : bytes) : outcome bool :=
  match net (crimeClientHello host rnd) with
  | None => Ret false
  | Some conn =>
      unpack (header, conn) <~ readFull 5 conn ;;
      match header with
      | None => Ret false
      | Some header =>
          h0 <~ index header 0 ;;
          if negb (beq h0 x16) then Ret false else
          h3 <~ index header 3 ;; h4 <~ index header 4 ;;
          let recLen := be16 h3 h4 in
          if (recLen <? 6) || (Z.shiftl 1 14 <? recLen) then Ret false else
          unpack (body, _) <~ readFull recLen conn ;;
          match body with
          | None => Ret false
          | Some body => orElse false (loop (crimeTurn body) (S (length body)) 0)
          end
      end
  end.

(** [for i+4 <= len(body)]: the walk of [skipToServerHelloDone]. *)
Definition doneTurn (body : bytes) (i : Z) : outcome (step Z bool) :=
  if i + 4 <=? blen body then
    hsType <~ index body i ;;
    l2 <~ index body (i + 1) ;; l1 <~ index body (i + 2) ;; l0 <~ index body (i + 3) ;;
    if beq hsType x0e then Ret (Return true) else
    let i := i + (4 + be24 l2 l1 l0) in
    if blen body <? i then Ret (Break i) else Ret (Next i)
  else Ret (Break i).

Definition skipTurn (conn : C) : outcome (step C (bool * C)) :=
  unpack (header, conn) <~ readFull 5 conn ;;
  match header with
  | None => Ret (Return (false, conn))
  | Some header =>
      recType <~ index header 0 ;; h3 <~ index header 3 ;; h4 <~ index header 4 ;;
      let recLen := be16 h3 h4 in
      if (recLen <=? 0) || (Z.shiftl 1 14 + 2048 <? recLen) then Ret (Return (false, conn)) else
      unpack (body, conn) <~ readFull recLen conn ;;
      match body with
      | None => Ret (Return (false, conn))
      | Some body =>
          if beq recType x15 then Ret (Return (false, conn))
          else if negb (beq recType x16) then Ret (Next conn)
          else
            r <~ loop (doneTurn body) (S (length body)) 0 ;;
            Ret (match r with inl _ => Next conn | inr b => Return (b, conn) end)
      end
  end.

(** With the connection as it is after the call. *)
Definition skipToServerHelloDone (conn : C) : outcome (bool * C) :=
  r <~ loop skipTurn (S (length (pending conn))) conn ;;
  Ret (match r with inl conn => (false, conn) | inr r => r end).

Context `{!Peer C}.

Definition maliciousHeartbeat : bytes := [x18; x03; x02; x00; x03; x01; x40; x00].

Definition probeHeartbleed net (host : string) (rnd : bytes) : outcome bool :=
  match net (heartbleedClientHello host rnd) with
  | None => Ret false
  | Some conn =>
      unpack (ok, conn) <~ skipToServerHelloDone conn ;;
      if negb ok then Ret false else
      match send maliciousHeartbeat conn with
      | None => Ret false
      | Some conn =>
          unpack (header, _) <~ readFull 5 conn ;;
          match header with
          | None => Ret false
          | Some header =>
              recType <~ index header 0 ;; h3 <~ index header 3 ;; h4 <~ index header 4 ;;
              let recLen := be16 h3 h4 in
              if beq recType x15 then Ret false else Ret (beq recType x18 && (64 <? recLen))
          end
      end
  end.
End Probes.

(** ** The list of findings *)

Definition dhName (dh : dhParameterPosture) : list string :=
  if Determined dh && Supported dh then
    if (0 <? Bits dh) && (Bits dh <? 1024) then ["Weak DH"%string]
    else if CommonPrime dh && (Bits dh <=? 1024) then ["Logjam common-prime"%string]
    else if (Bits dh =? 1024) && negb (CommonPrime dh) then ["Weak DH"%string] else []
  else [].

Lemma map_appendIf {B} (f : tlsVuln -> B) c v l : map f (appendIf c v l) = map f l ++ (if c then [f v] else []).
Proof. unfold appendIf. destruct c; [by rewrite map_app|by rewrite app_nil_r]. Qed.

Lemma map_dhVulns dh l : map vulnName (dhVulns dh l) = map vulnName l ++ dhName dh.
Proof.
  unfold dhVulns, dhName. repeat destruct (_ && _); rewrite ?map_app, ?app_nil_r; done.
Qed.

Lemma detectTLSVulns_names cipher tls10 sslv3 sslv2 hb crime freak logjam ccs dh ext :
  map vulnName (detectTLSVulns cipher tls10 sslv3 sslv2 hb crime freak logjam ccs dh ext)
  = (if hb then ["Heartbleed"%string] else []) ++ (if sslv2 then ["DROWN"%string] else [])
    ++ (if crime then ["CRIME"%string] else []) ++ (if freak then ["FREAK"%string] else [])
    ++ (if logjam then ["Logjam"%string] else []) ++ dhName dh
    ++ (if ClientHellos.Determined ext && negb (SecureRenegotiation ext) then ["Insecure renegotiation"%string] else [])
    ++ (if ccs then ["CCS Injection"%string] else [])
    ++ (if is3DESCipher cipher || is3DESCipher tls10 then ["SWEET32"%string] else [])
    ++ (if isRC4Cipher cipher || isRC4Cipher tls10 then ["RC4"%string] else [])
    ++ (if isCBCCipher cipher then ["LUCKY13"%string] else [])
    ++ (if negb (tls10 =? 0) && isCBCCipher tls10 then ["BEAST"%string] else [])
    ++ (if sslv3 then ["POODLE"%string] else []).
Proof.
  unfold detectTLSVulns. cbv zeta. rewrite !map_appendIf, map_dhVulns, !map_appendIf.
  cbn [map app vulnName vuln]. rewrite <- !app_assoc. done.
Qed.

Lemma sublist_if {A : Type} (x : A) (b : bool) : sublist (if b then [x] else []) [x].
Proof. destruct b; [done|]. apply sublist_nil_l. Qed.

Lemma sublist_dhName dh : sublist (dhName dh) ["Weak DH"; "Logjam common-prime"]%string.
Proof.
  unfold dhName. repeat destruct (_ && _); try apply sublist_nil_l; [|apply sublist_cons; done|];
    apply sublist_skip, sublist_nil_l.
Qed.

Definition vulnNames : list string :=
  ["Heartbleed"; "DROWN"; "CRIME"; "FREAK"; "Logjam"; "Weak DH"; "Logjam common-prime"; "Insecure renegotiation";
   "CCS Injection"; "SWEET32"; "RC4"; "LUCKY13"; "BEAST"; "POODLE"]%string.

Lemma detectTLSVulns_sublist cipher tls10 sslv3 sslv2 hb crime freak logjam ccs dh ext :
  sublist (map vulnName (detectTLSVulns cipher tls10 sslv3 sslv2 hb crime freak logjam ccs dh ext)) vulnNames.
Proof.
  rewrite detectTLSVulns_names. change vulnNames with ((["Heartbleed"]%string ++ ["DROWN"]%string ++ ["CRIME"]%string
    ++ ["FREAK"]%string ++ ["Logjam"]%string ++ ["Weak DH"; "Logjam common-prime"]%string ++ ["Insecure renegotiation"]%string
    ++ ["CCS Injection"]%string ++ ["SWEET32"]%string ++ ["RC4"]%string ++ ["LUCKY13"]%string ++ ["BEAST"]%string
    ++ ["POODLE"]%string)).
  repeat (apply sublist_app; [apply sublist_if || apply sublist_dhName|]). apply sublist_if.
Qed.

Lemma severityRank_critical v : severityRank v = 4 <-> Severity v = "critical"%string.
Proof.
  unfold severityRank. destruct (String.eqb_spec (Severity v) "critical"); [done|].
  repeat destruct (String.eqb _ _); split; intros; done || congruence.
Qed.

Lemma In_appendIf x c v l : In x (appendIf c v l) <-> In x l \/ c = true /\ x = v.
Proof.
  unfold appendIf. destruct c; [|intuition discriminate]. rewrite in_app_iff. cbn. intuition.
Qed.

Lemma In_dhVulns x dh l : In x (dhVulns dh l) -> In x l \/ Severity x <> "critical"%string.
Proof.
  unfold dhVulns. repeat destruct (_ && _); try (intros [H|[<-|[]]]%in_app_or; [by left|by right]); auto.
Qed.

Lemma In_dhVulns_old x dh l : In x l -> In x (dhVulns dh l).
Proof. unfold dhVulns. repeat destruct (_ && _); try done; rewrite in_app_iff; by left. Qed.

Lemma detectTLSVulns_critical cipher tls10 sslv3 sslv2 hb crime freak logjam ccs dh ext :
  (exists v, In v (detectTLSVulns cipher tls10 sslv3 sslv2 hb crime freak logjam ccs dh ext) /\ severityRank v = 4)
  <-> hb = true \/ sslv2 = true.
Proof.
  unfold detectTLSVulns. cbv zeta. split.
  - intros (v & Hin & Hr). apply severityRank_critical in Hr. rewrite !In_appendIf in Hin.
    repeat match goal with
      | H : _ \/ _ |- _ => destruct H
      | H : In v (dhVulns _ _) |- _ => apply In_dhVulns in H; rewrite !In_appendIf in H
      | H : _ /\ v = _ |- _ => destruct H; subst v
      end; try done; auto; by cbn in Hr.
  - intros H. assert (Hv : exists v, (hb = true /\ v = vuln "Heartbleed" "CVE-2014-0160"
      "OpenSSL Heartbeat leaks server memory — UPDATE NOW" "critical" \/ sslv2 = true /\ v = vuln "DROWN" "CVE-2016-0800"
      "SSLv2 enabled — cross-protocol private-key recovery" "critical") /\ severityRank v = 4).
    { destruct H as [H|H]; eexists; (split; [|]); [left; by split|by vm_compute|right; by split|by vm_compute]. }
    destruct Hv as (v & Hv & Hr). exists v. split; [|done]. rewrite !In_appendIf. do 7 left.
    apply In_dhVulns_old. rewrite !In_appendIf. tauto.
Qed.

(** The element a left-to-right search for the worst ends with. *)
Lemma worst_fold vs v :
  exists l r, v :: vs = l ++ fold_left (fun best v => if severityRank best <? severityRank v then v else best) vs v :: r
  /\ Forall (fun u => severityRank u < severityRank
       (fold_left (fun best v => if severityRank best <? severityRank v then v else best) vs v)) l
  /\ Forall (fun u => severityRank u <= severityRank
       (fold_left (fun best v => if severityRank best <? severityRank v then v else best) vs v)) r.
Proof.
  revert v. induction vs as [|w vs IH]; intros v; cbn [fold_left]; [by exists [], []|].
  destruct (Z.ltb_spec (severityRank v) (severityRank w)) as [Hlt|Hge].
  - destruct (IH w) as (l & r & Heq & Hl & Hr). exists (v :: l), r. split; [by rewrite Heq|]. split; [|done].
    constructor; [|done]. destruct l as [|u l]; injection Heq as Hw _; [by rewrite <- Hw|].
    inversion Hl; subst. lia.
  - destruct (IH v) as (l & r & Heq & Hl & Hr). destruct l as [|u l]; injection Heq as Hu Hvs.
    + exists [], (w :: vs). cbn [app]. rewrite <- Hu. split; [done|]. split; [done|]. rewrite <- Hu in Hr.
      constructor; [lia|]. by rewrite Hvs.
    + apply Forall_cons in Hl as [Hu' Hl']. rewrite <- Hu in Hu'. exists (v :: w :: l), r. split; [|split; [|done]].
      * cbn [app]. do 2 f_equal. exact Hvs.
      * constructor; [done|]. constructor; [lia|done].
Qed.

(** The list of vulnerabilities names each of them at most once and in a fixed
    order, and what the check puts in its headline is right: nothing exactly when
    the list is empty, and otherwise the first of the most severe entries, which is
    critical exactly when Heartbleed or SSL 2 was found. *)
Theorem detectTLSVulns_worst cipher tls10 sslv3 sslv2 hb crime freak logjam ccs dh ext :
  let vs := detectTLSVulns cipher tls10 sslv3 sslv2 hb crime freak logjam ccs dh ext in
  sublist (map vulnName vs) vulnNames /\ NoDup (map vulnName vs)
  /\ match worstVulnerability vs with
     | None => vs = []
     | Some w =>
         (exists l r, vs = l ++ w :: r /\ Forall (fun u => severityRank u < severityRank w) l
            /\ Forall (fun u => severityRank u <= severityRank w) r)
         /\ (severityRank w = 4 <-> hb = true \/ sslv2 = true)
     end.
Proof.
  intros vs. split; [apply detectTLSVulns_sublist|].
  split; [eapply sublist_NoDup; [|apply detectTLSVulns_sublist]; apply (bool_decide_unpack _); by vm_compute|].
  pose proof (detectTLSVulns_critical cipher tls10 sslv3 sslv2 hb crime freak logjam ccs dh ext) as Hc. fold vs in Hc.
  destruct vs as [|v vs]; [done|]. cbn [worstVulnerability].
  destruct (worst_fold vs v) as (l & r & Heq & Hl & Hr).
  set (w := fold_left _ vs v) in *. split; [by exists l, r|]. rewrite <- Hc. split.
  - intros Hw. exists w. split; [|done]. rewrite Heq. apply in_or_app. right. by left.
  - intros (u & Hu & H4). assert (Hle : severityRank u <= severityRank w).
    { rewrite Heq in Hu. apply in_app_or in Hu as [Hu|[<-|Hu]]; [|lia|].
      - rewrite List.Forall_forall in Hl. specialize (Hl u Hu). lia.
      - rewrite List.Forall_forall in Hr. by apply Hr. }
    assert (severityRank w <= 4); [|lia]. unfold severityRank. repeat destruct (String.eqb _ _); lia.
Qed.

(** ** Embedded SCTs *)

Definition encSCT (s : bytes) : bytes := putBE16 (blen s) ++ s.
Definition encSCTList (scts : list bytes) : bytes :=
  putBE16 (blen (flat_map encSCT scts)) ++ flat_map encSCT scts.
(** The OCTET STRING around the list, with a length of one, two or three bytes. *)
Definition octetString (b : bytes) : bytes :=
  x04 :: (if blen b <? 128 then [byteOf (blen b)] else if blen b <? 256 then [x81; byteOf (blen b)]
          else x82 :: putBE16 (blen b)) ++ b.

Lemma stripOctetString_enc b : 0 < blen b < 65536 -> stripOctetString (octetString b) = Ret b.
Proof.
  intros Hb. unfold stripOctetString, octetString.
  destruct (Z.ltb_spec (blen b) 128); [|destruct (Z.ltb_spec (blen b) 256)]; cbn [app].
  - rewrite !blen_cons, (proj2 (Z.leb_le _ _)) by lia.
    rewrite (read_index _ [] x04 (byteOf (blen b) :: b) 0), (read_index _ [x04] (byteOf (blen b)) b 1) by done.
    cbn [bind]. change (beq x04 x04) with true. rewrite bval_byteOf, Z.mod_small, (proj2 (Z.ltb_lt _ _)) by lia.
    by apply (read_from _ [x04; byteOf (blen b)]).
  - rewrite !blen_cons, (proj2 (Z.leb_le 2 _)) by lia.
    rewrite (read_index _ [] x04 (x81 :: byteOf (blen b) :: b) 0), (read_index _ [x04] x81 (byteOf (blen b) :: b) 1) by done.
    cbn [bind]. change (beq x04 x04) with true. change (bval x81 <? 128) with false. change (beq x81 x81) with true.
    rewrite (proj2 (Z.leb_le 3 _)) by lia. cbn [andb]. by apply (read_from _ [x04; x81; byteOf (blen b)]).
  - unfold putBE16. cbn [app]. rewrite !blen_cons, (proj2 (Z.leb_le 2 _)) by lia.
    set (h := byteOf (Z.shiftr (blen b) 8)). set (l := byteOf (blen b)).
    rewrite (read_index _ [] x04 (x82 :: h :: l :: b) 0), (read_index _ [x04] x82 (h :: l :: b) 1) by done.
    cbn [bind]. change (beq x04 x04) with true. change (bval x82 <? 128) with false. change (beq x82 x81) with false.
    change (beq x82 x82) with true. rewrite (proj2 (Z.leb_le 4 _)) by lia. cbn [andb].
    by apply (read_from _ [x04; x82; h; l]).
Qed.

Lemma sctTurn_enc p s rest count :
  blen s < 65536 ->
  sctTurn (p ++ encSCT s ++ rest) (blen p, count) = Ret (Next (blen (p ++ encSCT s), count + 1)).
Proof.
  intros Hs. pose proof (blen_nonneg rest). pose proof (blen_nonneg s).
  assert (Hl : blen (encSCT s) = 2 + blen s) by (unfold encSCT; by rewrite blen_app, blen_putBE16).
  unfold sctTurn. rewrite !blen_app, Hl, (proj2 (Z.leb_le _ _)) by lia.
  rewrite (index_pre p _ 0 (blen p) (byteOf (Z.shiftr (blen s) 8))), (index_pre p _ 1 _ (byteOf (blen s))) by done || lia.
  cbn [bind]. rewrite be16_putBE16, u16_small by lia. rewrite (proj2 (Z.ltb_ge _ _)) by lia.
  do 3 f_equal. lia.
Qed.

Lemma sct_loop scts : Forall (fun s : bytes => blen s < 65536) scts -> forall p fuel count,
  (length scts < fuel)%nat ->
  loop (sctTurn (p ++ flat_map encSCT scts)) fuel (blen p, count)
  = Ret (inl (blen (p ++ flat_map encSCT scts), count + blen scts)).
Proof.
  induction 1 as [|s scts Hs Hscts IH]; intros p [|fuel] count Hf; cbn [length] in Hf; try lia; cbn [loop flat_map].
  - unfold sctTurn. rewrite app_nil_r, (proj2 (Z.leb_gt _ _)) by lia. change (blen (@nil bytes)) with 0. do 3 f_equal. lia.
  - rewrite sctTurn_enc by done. rewrite app_assoc, IH by lia. rewrite blen_cons. do 3 f_equal. lia.
Qed.

Lemma blen_encSCTs (scts : list bytes) : (length scts <= length (flat_map encSCT scts))%nat.
Proof.
  induction scts as [|s scts IH]; cbn [flat_map length]; [lia|]. rewrite length_app. unfold encSCT at 1. rewrite length_app.
  cbn [putBE16 length]. lia.
Qed.

Lemma parseSCTList_enc scts :
  Forall (fun s : bytes => blen s < 65536) scts -> blen (flat_map encSCT scts) < 65534 ->
  parseSCTList (octetString (encSCTList scts)) = Ret (blen scts).
Proof.
  intros Hs Hl. pose proof (blen_nonneg (flat_map encSCT scts)). unfold parseSCTList.
  rewrite stripOctetString_enc by (unfold encSCTList; rewrite blen_app, blen_putBE16; lia). cbn [bind].
  set (body := flat_map encSCT scts) in *. unfold encSCTList. fold body. unfold putBE16. cbn [app].
  rewrite !blen_cons, (proj2 (Z.ltb_ge _ _)) by lia.
  set (h := byteOf (Z.shiftr (blen body) 8)). set (l := byteOf (blen body)).
  rewrite (read_index _ [] h (l :: body) 0), (read_index _ [h] l body 1) by done. cbn [bind].
  rewrite (read_from _ [h; l] body 2) by done. cbn [bind].
  unfold h, l. rewrite be16_putBE16, u16_small by lia. rewrite (proj2 (Z.ltb_ge _ _)) by lia.
  rewrite slice_full by done. cbn [bind].
  change (0, 0) with (blen (@nil byte), 0). pose proof (sct_loop scts Hs [] (S (length body)) 0) as Hloop.
  cbn [app] in Hloop. fold body in Hloop. rewrite Hloop by (pose proof (blen_encSCTs scts); unfold body; lia).
  cbn [bind]. by rewrite Z.add_0_l.
Qed.

Lemma wp_stripOctetString b E : wp (stripOctetString b) (fun _ => True) E.
Proof.
  unfold stripOctetString. wp_step; [|done]. to_prop. wp_step. apply wp_index; [lia|].
  intros b0 _.
  wp_step; [|done]. wp_step. apply wp_index; [lia|]. intros b1 _.
  repeat (wp_step; [to_prop; by apply wp_sliceFrom; [lia|]|]). done.
Qed.

Lemma wp_parseSCTList b E : wp (parseSCTList b) (fun n => 0 <= n) E.
Proof.
  unfold parseSCTList. wp_step. eapply wp_mono; [apply (wp_stripOctetString b (fun _ => False))| |done].
  intros b' _. wp_step; [apply wp_ret; lia|]. to_prop.
  wp_step. apply wp_index; [lia|]. intros b0 _. wp_step. apply wp_index; [lia|]. intros b1 _.
  pose proof (be16_range b0 b1). cbv zeta. wp_step. apply wp_sliceFrom; [lia|]. intros _. set (body := sub b' 2 _).
  wp_step; [apply wp_ret; lia|]. to_prop. wp_step. apply wp_slice; [lia..|]. intros _.
  wp_step. set (bd := sub body _ _).
  apply (wp_loop _ (fun st => 0 <= fst st /\ 0 <= snd st) (fun st => length bd - Z.to_nat (fst st))%nat); cbn [fst snd];
    [|lia|lia].
  intros [i n] [Hi Hn]; cbn [fst snd] in *. unfold sctTurn. wp_step; [|by apply wp_ret]. to_prop.
  wp_step. apply wp_index; [lia|]. intros x _. wp_step. apply wp_index; [lia|]. intros y _.
  pose proof (be16_range x y). cbv zeta. unfold blen in *. wp_step; apply wp_ret; cbn [stepPost fst snd]; [done|]. to_prop. lia.
Qed.

(** The count of embedded SCTs: for every certificate, whatever the bytes of its
    extension, the parser returns a number; for a list of SCTs in an OCTET STRING -
    with a length of one, two or three bytes - it returns how many there are. *)
Theorem countEmbeddedSCTs_spec cert scts pre post
  (Hext : TlsCheck.Extensions cert = pre ++ (sctExtensionOID, octetString (encSCTList scts)) :: post)
  (Hpre : Forall (fun e : list Z * bytes => fst e <> sctExtensionOID) pre)
  (Hscts : Forall (fun s : bytes => blen s < 65536) scts) (Hlen : blen (flat_map encSCT scts) < 65534) :
  countEmbeddedSCTs (Some cert) = Ret (blen scts)
  /\ forall other, exists n, countEmbeddedSCTs other = Ret n /\ 0 <= n.
Proof.
  split.
  - unfold countEmbeddedSCTs. rewrite Hext. clear Hext.
    assert (Hf : forall l, find (fun e : list Z * bytes => bool_decide (fst e = sctExtensionOID)) (pre ++ l)
      = find (fun e : list Z * bytes => bool_decide (fst e = sctExtensionOID)) l).
    { intros l. induction Hpre as [|e pre He Hpre IH]; [done|]. cbn [find app]. by rewrite bool_decide_eq_false_2. }
    rewrite Hf. cbn [find]. rewrite bool_decide_eq_true_2 by done. cbn [snd]. by apply parseSCTList_enc.
  - intros [c|]; cbn [countEmbeddedSCTs]; [|by exists 0]. destruct (find _ _) as [e|]; [|by exists 0].
    pose proof (wp_parseSCTList (snd e) (fun _ => False)) as Hw. destruct (parseSCTList (snd e)); try done. eauto.
Qed.

(** ** CRIME *)

(** The compression method of a ServerHello, where there is one. *)
Lemma compression_legacy v1 v0 random sid cipher comp exts :
  blen random = 32 -> blen sid < 256 ->
  serverHelloCompressionByte (legacyServerHello v1 v0 random sid cipher comp exts) = Ret comp.
Proof.
  intros Hr Hs. pose proof (blen_nonneg sid). pose proof (blen_nonneg exts).
  destruct (legacyServerHello_reads v1 v0 random sid cipher comp exts Hr) as (_ & _ & H34 & _).
  unfold serverHelloCompressionByte. rewrite blen_legacyServerHello, H34 by done.
  rewrite (proj2 (Z.ltb_ge _ 35)) by lia. cbn [bind]. rewrite bval_byteOf, Z.mod_small by lia.
  rewrite (proj2 (Z.leb_gt _ _)) by lia.
  apply (read_index _ ([v1; v0] ++ random ++ [byteOf (blen sid)] ++ sid ++ putBE16 cipher) comp
    (putBE16 (blen exts) ++ exts)).
  - unfold legacyServerHello. by rewrite <- !app_assoc.
  - autorewrite with blen. lia.
Qed.

(** A body that ends before its compression method. *)
Definition cutShort (sh : bytes) : Prop :=
  blen sh < 35 \/ exists sid, sh !! 34%nat = Some sid /\ 35 <= blen sh <= 37 + bval sid.

Lemma compression_cut sh : cutShort sh -> serverHelloCompressionByte sh = Ret xff.
Proof.
  unfold serverHelloCompressionByte. intros [Hl|(sid & Hs & Hl)].
  - by rewrite (proj2 (Z.ltb_lt _ _)).
  - rewrite (proj2 (Z.ltb_ge _ _)) by lia. replace (index sh 34) with (Ret sid); [|symmetry; apply index_ret; split; [lia|done]].
    cbn [bind]. by rewrite (proj2 (Z.leb_le _ _)) by lia.
Qed.

Lemma crimeTurn_msg pre ty body rest :
  blen body < 16777216 ->
  crimeTurn (pre ++ encMsg ty body ++ rest) (blen pre)
  = if beq ty x02 then c <~ serverHelloCompressionByte body ;; Ret (Return (negb (beq c x00)))
    else Ret (Next (blen (pre ++ encMsg ty body))).
Proof.
  intros Hl. destruct (msg_header pre ty body rest Hl) as [Ht (l2 & l1 & l0 & H2 & H1 & H0 & Hlen) [_ Hfit] Hb].
  unfold crimeTurn. rewrite (proj2 (Z.leb_le _ _)) by (pose proof (blen_nonneg body); lia).
  rewrite Ht, H2, H1, H0. cbn [bind]. rewrite Hlen, (proj2 (Z.ltb_ge _ _)) by lia.
  destruct (beq ty x02); [by rewrite Hb|]. do 2 f_equal. rewrite blen_app, encMsg_length. lia.
Qed.

Lemma crime_loop before sh rest c : Forall (fun m => fst m <> x02 /\ blen (snd m) < 16777216) before ->
  blen sh < 16777216 -> serverHelloCompressionByte sh = Ret c -> forall pre fuel,
  (length before < fuel)%nat ->
  loop (crimeTurn (pre ++ encMsgs before ++ encMsg x02 sh ++ rest)) fuel (blen pre) = Ret (inr (negb (beq c x00))).
Proof.
  intros Hb Hl Hc. induction Hb as [|[ty m] before [Hty Hm] Hb IH]; intros pre [|fuel] Hf; cbn [length] in Hf; try lia;
    cbn [loop fst snd] in *.
  - change (encMsgs []) with (@nil byte). cbn [app]. rewrite crimeTurn_msg by done.
    change (beq x02 x02) with true. rewrite Hc. done.
  - unfold encMsgs. cbn [flat_map fst snd]. fold (encMsgs before). rewrite <- app_assoc, crimeTurn_msg by done.
    destruct (beq ty x02) eqn:E; [by apply beq_true in E|]. rewrite app_assoc. apply IH. lia.
Qed.

(** The CRIME probe on an answer whose first record holds a ServerHello: with a
    well-formed ServerHello it reports exactly whether the compression method is not
    null. But one that ends before the compression method is reported as vulnerable:
    the parser's 0xff, which its comment calls unknown and not vulnerable, is not
    zero either. *)
Theorem probeCRIME_verdict {C} `{Reader C} (net : attemptConn (C := C)) host rnd conn v1 v0 before sh more rest
  (Hnet : net (crimeClientHello host rnd) = Some conn)
  (Hconn : pending conn = encRecord x16 [v1; v0] (encMsgs before ++ encMsg x02 sh ++ more) ++ rest)
  (Hlen : 6 <= blen (encMsgs before ++ encMsg x02 sh ++ more) <= 16384)
  (Hbefore : Forall (fun m => fst m <> x02 /\ blen (snd m) < 16777216) before) :
  (forall w1 w0 random sid cipher comp exts, blen random = 32 -> blen sid < 256 ->
     sh = legacyServerHello w1 w0 random sid cipher comp exts ->
     probeCRIME net host rnd = Ret (negb (beq comp x00)))
  /\ (cutShort sh -> probeCRIME net host rnd = Ret true).
Proof.
  assert (Hgen : forall c, serverHelloCompressionByte sh = Ret c -> probeCRIME net host rnd = Ret (negb (beq c x00))).
  { intros c Hc. unfold probeCRIME. rewrite Hnet. set (body := encMsgs before ++ encMsg x02 sh ++ more) in *.
    destruct (record_reads conn x16 v1 v0 body rest Hconn)
      as (hdr & c1 & c2 & h3 & h4 & Hr1 & H0 & H3 & H4 & Hl & Hr2 & _); [lia|].
    rewrite Hr1. cbn [bind]. rewrite H0, H3, H4. cbn [bind]. change (beq x16 x16) with true. cbn [negb]. rewrite Hl.
    change (Z.shiftl 1 14) with 16384. rewrite (proj2 (Z.ltb_ge _ 6)), (proj2 (Z.ltb_ge 16384 _)) by lia. cbn [orb].
    rewrite Hr2. cbn [bind]. unfold orElse.
    pose proof (crime_loop before sh more c Hbefore) as Hloop.
    specialize (Hloop ltac:(unfold body in Hlen; rewrite !blen_app, encMsg_length in Hlen;
      pose proof (blen_nonneg (encMsgs before)); pose proof (blen_nonneg more); lia) Hc [] (S (length body))).
    cbn [app] in Hloop. fold body in Hloop. change (blen (@nil byte)) with 0 in Hloop.
    rewrite Hloop; [done|]. unfold body. rewrite length_app. pose proof (length_encMsgs before). lia. }
  split.
  - intros w1 w0 random sid cipher comp exts Hr Hs Hsh. apply Hgen. rewrite Hsh. by apply compression_legacy.
  - intros Hcut. by rewrite (Hgen xff) by by apply compression_cut.
Qed.

Definition shortHello : bytes := encRecord x16 [x03; x03] (encMsgs [] ++ encMsg x02 (repeat x00 36) ++ []) ++ [].

Lemma probeCRIME_verdict_witness :
  probeCRIME (fun _ => Some shortHello) "h" [] = Ret true.
Proof.
  refine (proj2 (probeCRIME_verdict (fun _ => Some shortHello) "h" [] shortHello x03 x03 [] (repeat x00 36) [] []
    eq_refl eq_refl _ _) _).
  - vm_compute. split; discriminate.
  - constructor.
  - right. exists x00. split; [done|]. vm_compute. split; discriminate.
Defined.

Lemma countEmbeddedSCTs_spec_witness :
  countEmbeddedSCTs (Some {| PublicKeyAlgorithm := RSA; PublicKey := RSAKey 2048; SignatureAlgorithm := "SHA256-RSA"; RawCert := [];
    TlsCheck.Extensions := [(sctExtensionOID, octetString (encSCTList [repeat x01 119; repeat x02 118]))] |}) = Ret 2.
Proof.
  refine (proj1 (countEmbeddedSCTs_spec {| PublicKeyAlgorithm := RSA; PublicKey := RSAKey 2048;
    SignatureAlgorithm := "SHA256-RSA"; RawCert := [];
    TlsCheck.Extensions := [(sctExtensionOID, octetString (encSCTList [repeat x01 119; repeat x02 118]))] |}
    [repeat x01 119; repeat x02 118] [] [] eq_refl _ _ _)).
  - constructor.
  - repeat constructor; by vm_compute.
  - by vm_compute.
Defined.

(** ** Heartbleed *)

Lemma doneTurn_msg pre ty body rest :
  blen body < 16777216 ->
  doneTurn (pre ++ encMsg ty body ++ rest) (blen pre)
  = Ret (if beq ty x0e then Return true else Next (blen (pre ++ encMsg ty body))).
Proof.
  intros Hl. destruct (msg_header pre ty body rest Hl) as [Ht (l2 & l1 & l0 & H2 & H1 & H0 & Hlen) [_ Hfit] _].
  unfold doneTurn. rewrite (proj2 (Z.leb_le _ _)) by (pose proof (blen_nonneg body); lia).
  rewrite Ht, H2, H1, H0. cbn [bind]. rewrite Hlen. destruct (beq ty x0e); [done|].
  rewrite (proj2 (Z.ltb_ge _ _)) by lia. do 2 f_equal. rewrite blen_app, encMsg_length. lia.
Qed.

Lemma done_loop msgs : Forall msgOk msgs -> forall pre fuel, (length msgs < fuel)%nat ->
  loop (doneTurn (pre ++ encMsgs msgs)) fuel (blen pre)
  = Ret (if hasDone msgs then inr true else inl (blen (pre ++ encMsgs msgs))).
Proof.
  induction 1 as [|[ty m] msgs Hm Hmsgs IH]; intros pre [|fuel] Hf; cbn [length] in Hf; try lia; cbn [loop].
  - unfold doneTurn. change (encMsgs []) with (@nil byte). rewrite app_nil_r, (proj2 (Z.leb_gt _ _)) by lia. done.
  - unfold encMsgs. cbn [flat_map fst snd]. fold (encMsgs msgs). rewrite doneTurn_msg by done.
    unfold hasDone. cbn [existsb fst]. fold (hasDone msgs). destruct (beq ty x0e); [done|].
    rewrite app_assoc. apply IH. lia.
Qed.

Section Heartbleed.
Context {C : Type} `{Peer C}.

Lemma skipTurn_record (c : C) ty v1 v0 payload rest :
  pending c = encRecord ty [v1; v0] payload ++ rest -> 0 < blen payload <= 18432 ->
  exists c', pending c' = rest /\
    skipTurn c
    = (if beq ty x15 then Ret (Return (false, c'))
       else if negb (beq ty x16) then Ret (Next c')
       else r <~ loop (doneTurn payload) (S (length payload)) 0 ;;
            Ret (match r with inl _ => Next c' | inr b => Return (b, c') end)).
Proof.
  intros Hp Hl. destruct (record_reads c ty v1 v0 payload rest Hp)
    as (hdr & c1 & c2 & h3 & h4 & Hr1 & Hi0 & H3 & H4 & Hlen & Hr2 & Hp2); [lia|].
  exists c2. split; [done|]. unfold skipTurn. rewrite Hr1. cbn [bind]. rewrite Hi0, H3, H4. cbn [bind]. rewrite Hlen.
  change (Z.shiftl 1 14 + 2048) with 18432.
  rewrite (proj2 (Z.leb_gt _ _)), (proj2 (Z.ltb_ge _ _)) by lia. cbn [orb]. rewrite Hr2. done.
Qed.

(** The flight up to and including the record with the ServerHelloDone is read. *)
Lemma skip_flight v1 v0 recs msgs : Forall recOk recs -> recOk (Messages msgs) ->
  hasDone (flightMsgs recs) = false -> hasDone msgs = true -> forall (c : C) rest fuel,
  pending c = encFlight v1 v0 recs ++ encRecord x16 [v1; v0] (encMsgs msgs) ++ rest -> (length recs < fuel)%nat ->
  exists c', pending c' = rest /\ loop skipTurn fuel c = Ret (inr (true, c')).
Proof.
  intros Hrecs [Hml Hmsgs] Hno Hyes. induction Hrecs as [|r recs [Hl Hr] Hrecs IH]; intros c rest [|fuel] Hp Hf;
    cbn [length] in Hf; try lia; cbn [loop].
  - destruct (skipTurn_record c x16 v1 v0 _ _ Hp Hml) as (c' & Hp' & Ht). exists c'. split; [done|]. rewrite Ht.
    change (beq x16 x15) with false. change (beq x16 x16) with true. cbn [negb].
    change 0 with (blen (@nil byte)). change (encMsgs msgs) with ([] ++ encMsgs msgs) at 1.
    rewrite done_loop by (done || (pose proof (length_encMsgs msgs); lia)). by rewrite Hyes.
  - unfold encFlight in Hp. cbn [flat_map] in Hp. fold (encFlight v1 v0 recs) in Hp. rewrite <- app_assoc in Hp.
    destruct (skipTurn_record c _ v1 v0 _ _ Hp Hl) as (c1 & Hp1 & Ht). rewrite Ht. clear Ht.
    unfold flightMsgs in Hno. cbn [flat_map] in Hno. fold (flightMsgs recs) in Hno.
    unfold hasDone in Hno. rewrite existsb_app in Hno. apply orb_false_iff in Hno as [Hno1 Hno2].
    destruct r as [ms|ty p]; cbn [recType recPayload recMsgs] in *.
    + change (beq x16 x15) with false. change (beq x16 x16) with true. cbn [negb].
      change 0 with (blen (@nil byte)). change (encMsgs ms) with ([] ++ encMsgs ms) at 1.
      rewrite done_loop by (done || (pose proof (length_encMsgs ms); lia)). unfold hasDone. rewrite Hno1. cbn [bind].
      apply IH; [done|done|lia].
    + destruct Hr as [H15 H16]. destruct (beq ty x15) eqn:E; [by apply beq_true in E|].
      destruct (beq ty x16) eqn:E'; [by apply beq_true in E'|]. cbn [negb]. apply IH; [done|done|lia].
Qed.

(** The Heartbleed probe against a server whose flight ends in a record with the
    ServerHelloDone: after it has read exactly that flight it sends the request that
    claims 16384 bytes and holds none, and reports the server as vulnerable exactly
    when the next record is a heartbeat record of more than 64 bytes. *)
Theorem probeHeartbleed_verdict (net : attemptConn (C := C)) host rnd conn v1 v0 recs msgs rest
  (Hnet : net (heartbleedClientHello host rnd) = Some conn)
  (Hrecs : Forall recOk recs) (Hmsgs : recOk (Messages msgs))
  (Hno : hasDone (flightMsgs recs) = false) (Hdone : hasDone msgs = true)
  (Hconn : pending conn = encFlight v1 v0 recs ++ encRecord x16 [v1; v0] (encMsgs msgs) ++ rest) :
  exists conn', pending conn' = rest /\ forall conn2 ty w1 w0 payload rest2,
    send maliciousHeartbeat conn' = Some conn2 -> pending conn2 = encRecord ty [w1; w0] payload ++ rest2 ->
    blen payload < 65536 -> probeHeartbleed net host rnd = Ret (beq ty x18 && (64 <? blen payload)).
Proof.
  destruct (skip_flight v1 v0 recs msgs Hrecs Hmsgs Hno Hdone conn rest (S (length (pending conn))) Hconn)
    as (conn' & Hp' & Hskip).
  { rewrite Hconn, length_app. pose proof (length_encFlight v1 v0 recs). lia. }
  exists conn'. split; [done|]. intros conn2 ty w1 w0 payload rest2 Hsend Hp2 Hl.
  unfold probeHeartbleed, skipToServerHelloDone. rewrite Hnet, Hskip. cbn [bind negb]. rewrite Hsend.
  destruct (record_reads conn2 ty w1 w0 payload rest2 Hp2 Hl) as (hdr & c1 & c2 & h3 & h4 & Hr1 & Hi0 & H3 & H4 & Hlen & _).
  rewrite Hr1. cbn [bind]. rewrite Hi0, H3, H4. cbn [bind]. rewrite Hlen.
  destruct (beq ty x15) eqn:E; [|done]. by apply beq_true in E as ->.
Qed.
End Heartbleed.

(** ** Every probe returns *)

Section Total.
Context {C : Type} `{Peer C}.

Lemma wp_serverHelloCompressionByte b E : wp (serverHelloCompressionByte b) (fun _ => True) E.
Proof.
  unfold serverHelloCompressionByte. wp_step; [done|]. to_prop. wp_step. apply wp_index; [lia|]. intros sid _.
  pose proof (bval_range sid). cbv zeta. wp_step; [done|]. to_prop. by apply wp_index; [lia|].
Qed.

Lemma wp_crimeLoop body E : wp (loop (crimeTurn body) (S (length body)) 0) (fun _ => True) E.
Proof.
  apply (wp_loop _ (fun i => 0 <= i) (fun i => length body - Z.to_nat i)%nat); [|lia|lia].
  intros i Hi. unfold crimeTurn. wp_step; [|done]. to_prop.
  wp_step. apply wp_index; [lia|]. intros ty _. wp_step. apply wp_index; [lia|]. intros l2 _.
  wp_step. apply wp_index; [lia|]. intros l1 _. wp_step. apply wp_index; [lia|]. intros l0 _.
  pose proof (be24_range l2 l1 l0). cbv zeta. wp_step; [done|]. to_prop. wp_step.
  - wp_step. apply wp_slice; [lia..|]. intros _. wp_step.
    eapply wp_mono; [apply (wp_serverHelloCompressionByte _ (fun _ => False))|done|done].
  - apply wp_ret. unfold blen in *. cbn. lia.
Qed.

Lemma wp_doneLoop body E : wp (loop (doneTurn body) (S (length body)) 0) (fun _ => True) E.
Proof.
  apply (wp_loop _ (fun i => 0 <= i) (fun i => length body - Z.to_nat i)%nat); [|lia|lia].
  intros i Hi. unfold doneTurn. wp_step; [|done]. to_prop.
  wp_step. apply wp_index; [lia|]. intros ty _. wp_step. apply wp_index; [lia|]. intros l2 _.
  wp_step. apply wp_index; [lia|]. intros l1 _. wp_step. apply wp_index; [lia|]. intros l0 _.
  pose proof (be24_range l2 l1 l0). wp_step; [done|]. cbv zeta.
  wp_step; apply wp_ret; [done|]. to_prop. unfold blen in *. cbn. lia.
Qed.

Lemma wp_skip (c : C) E : wp (skipToServerHelloDone c) (fun _ => True) E.
Proof.
  unfold skipToServerHelloDone. wp_step.
  apply (wp_loop _ (fun _ => True) (fun c => length (pending c))); [|done|lia].
  intros c1 _. unfold skipTurn. wp_step. apply wp_readFull; [lia| |done].
  intros hdr c2 Hp2 Hh. cbn beta iota. wp_step. apply wp_index; [lia|]. intros ty _.
  wp_step. apply wp_index; [lia|]. intros h3 _. wp_step. apply wp_index; [lia|]. intros h4 _.
  cbv zeta. wp_step; [done|]. to_prop. wp_step. apply wp_readFull; [lia| |done].
  intros body c3 Hp3 Hb. cbn beta iota.
  assert ((length (pending c3) < length (pending c1))%nat).
  { apply (f_equal length) in Hp2, Hp3. rewrite length_app in Hp2, Hp3. unfold blen in *. lia. }
  wp_step; [done|]. wp_step; [by cbn|]. wp_step. eapply wp_mono; [apply (wp_doneLoop body (fun _ => False))| |done].
  intros [i|b] _; by cbn.
Qed.

Implicit Type net : attemptConn (C := C).

(** The first header a peer sends, for the probes that look no further. *)
Lemma wp_header (c : C) (k : bytes -> C -> outcome bool) E :
  (forall hdr c', blen hdr = 5 -> wp (k hdr c') (fun _ => True) E) ->
  wp (unpack (header, c') <~ readFull 5 c ;; match header with None => Ret false | Some header => k header c' end)
     (fun _ => True) E.
Proof. intros Hk. wp_step. apply wp_readFull; [lia| |done]. intros hdr c' _ Hl. by apply Hk. Qed.

Lemma safe_export net host ciphers rnd : safe (probeExportCiphers net host ciphers rnd).
Proof.
  unfold safe, probeExportCiphers. destruct (net _) as [c|]; [|done]. apply (wp_header c (fun hdr _ => _)).
  intros hdr c' Hl. wp_step. by apply wp_index; [lia|].
Qed.

(** C14. Each of the seven probes of tls_vulns.go - SSL 3.0, SSL 2.0, FREAK, Logjam, fallback
    SCSV, CRIME and Heartbleed - returns, with a verdict, against any peer: whatever
    bytes it sends, in whatever segments, and wherever the stream ends, none of them
    panics or loops for ever. [readAtLeast] stands for [io.ReadAtLeast] on a buffer
    of five bytes, which gives three to five bytes of the stream or an error. *)
Theorem vuln_probes_total net (host : string) (rnd : bytes) (maxVersion : Z) (readAtLeast : C -> option bytes)
  (Hread : forall c got, readAtLeast c = Some got -> 3 <= blen got <= 5) :
  safe (probeSSLv3 net rnd) /\ safe (probeSSLv2 readAtLeast net rnd)
  /\ safe (probeFREAK net host rnd) /\ safe (probeLogjam net host rnd)
  /\ safe (probeFallbackSCSV net host maxVersion rnd) /\ safe (probeCRIME net host rnd)
  /\ safe (probeHeartbleed net host rnd).
Proof.
  split_and!; [| |by apply safe_export|by apply safe_export|..]; unfold safe.
  - unfold probeSSLv3. destruct (net _) as [c|]; [|done]. apply (wp_header c (fun hdr _ => _)). intros hdr c' Hl.
    wp_step. apply wp_index; [lia|]. intros h0 _. wp_step; [done|]. wp_step. apply wp_index; [lia|]. intros h1 _.
    wp_step. by apply wp_index; [lia|].
  - unfold probeSSLv2. destruct (net _) as [c|]; [|done]. destruct (readAtLeast c) as [got|] eqn:Hg; [|done].
    apply Hread in Hg. wp_step; [done|]. to_prop. wp_step. apply wp_index; [lia|]. intros b0 _. cbv zeta.
    wp_step; [done|]. to_prop. wp_step. by apply wp_index; [destruct (negb _); lia|].
  - unfold probeFallbackSCSV. wp_step; [done|]. cbv zeta. destruct (net _) as [c|]; [|done].
    wp_step. apply wp_readFull; [lia| |done]. intros hdr c' _ Hl. cbn beta iota.
    wp_step. apply wp_index; [lia|]. intros ty _. wp_step. apply wp_index; [lia|]. intros h3 _.
    wp_step. apply wp_index; [lia|]. intros h4 _. cbv zeta. wp_step; [done|]. to_prop.
    wp_step. apply wp_readFull; [lia| |done]. intros body c2 _ Hb. cbn beta iota.
    wp_step; [|by wp_step]. wp_step. apply wp_index; [lia|]. intros b1 _. by wp_step.
  - unfold probeCRIME. destruct (net _) as [c|]; [|done]. apply (wp_header c (fun hdr c' => _)). intros hdr c' Hl.
    wp_step. apply wp_index; [lia|]. intros h0 _. wp_step; [done|]. wp_step. apply wp_index; [lia|]. intros h3 _.
    wp_step. apply wp_index; [lia|]. intros h4 _. cbv zeta. wp_step; [done|]. to_prop.
    wp_step. apply wp_readFull; [lia| |done]. intros body c2 _ Hb. cbn beta iota. unfold orElse. wp_step.
    eapply wp_mono; [apply (wp_crimeLoop body (fun _ => False))|done|done].
  - unfold probeHeartbleed. destruct (net _) as [c|]; [|done]. wp_step.
    eapply wp_mono; [apply (wp_skip c (fun _ => False))| |done]. intros [ok c'] _. wp_step; [done|].
    destruct (send _ c') as [c2|]; [|done]. apply (wp_header c2 (fun hdr _ => _)). intros hdr c3 Hl.
    wp_step. apply wp_index; [lia|]. intros ty _. wp_step. apply wp_index; [lia|]. intros h3 _.
    wp_step. apply wp_index; [lia|]. intros h4 _. cbv zeta. by wp_step.
Qed.
End Total.

Module VulnWitnesses.
(** A peer whose bytes are fixed in advance. *)
#[local] Instance scripted : Peer bytes := {| send := fun _ c => Some c |}.

Definition doneMsgs : list (byte * bytes) := [(x02, [x03; x03]); (x0e, [])].
Definition leak : bytes := repeat x41 100.
Definition leakyServer : bytes :=
  encFlight x03 x02 [Messages [(x0b, [x00; x00; x00])]] ++ encRecord x16 [x03; x02] (encMsgs doneMsgs)
  ++ encRecord x18 [x03; x02] leak ++ [].

Lemma probeHeartbleed_verdict_witness : probeHeartbleed (fun _ => Some leakyServer) "h" [] = Ret true.
Proof.
  destruct (probeHeartbleed_verdict (C := bytes) (fun _ => Some leakyServer) "h" [] leakyServer x03 x02
    [Messages [(x0b, [x00; x00; x00])]] doneMsgs (encRecord x18 [x03; x02] leak ++ []) eq_refl) as (conn' & Hp & Hv).
  - repeat constructor; by vm_compute.
  - split; [by vm_compute|repeat constructor; by vm_compute].
  - by vm_compute.
  - by vm_compute.
  - reflexivity.
  - exact (Hv conn' x18 x03 x02 leak [] eq_refl Hp ltac:(by vm_compute)).
Defined.

(** [io.ReadAtLeast(conn, buf, 3)] when all that is there comes in one segment. *)
Definition readUpTo5 (c : bytes) : option bytes := if 3 <=? blen c then Some (take 5 c) else None.

Lemma readUpTo5_spec c got : readUpTo5 c = Some got -> 3 <= blen got <= 5.
Proof.
  unfold readUpTo5. destruct (3 <=? blen c) eqn:E; [|done]. to_prop. intros [= <-]. unfold blen in *. rewrite length_take. lia.
Qed.

Lemma vuln_probes_total_witness : safe (probeCRIME (fun _ => Some [x16; x03; x03; x00; x07]) "h" []).
Proof.
  exact (proj1 (proj2 (proj2 (proj2 (proj2 (proj2 (vuln_probes_total (C := bytes) (fun _ => Some [x16; x03; x03; x00; x07])
    "h" [] 0 readUpTo5 readUpTo5_spec))))))).
Defined.
End VulnWitnesses.
