(* ===== verification/CtLogs.v ===== *)
(** * The embedded lists: ct_logs.go and hsts_preload.go

    The names of the certificate transparency logs that issued the SCTs of a certificate;
    and the subset of the HSTS preload list, keyed by the SHA-256 of a domain, with the
    walk up the labels of a host. *)
From Stdlib Require Import ZArith List String Ascii Bool Lia Strings.Byte.
From stdpp Require Import base list strings gmap.
From S2P Require Import Prelude Bytes GoStrings Digest TlsCheck Extensions Vulns.
Import ListNotations.
Open Scope Z_scope.

(** ** Definitions *)

Definition ctLogs : list (string * string) := [
  ("0e5794bcf3aea93e331b2c9907b3f790df9bc23d713225dd21a925ac61c54e21", "Google Argon2026h1");
  ("d76d7d10d1a7f577c2c7e95fd700bff982c9335a65e1d0b3017317c0c8c56977", "Google Argon2026h2");
  ("d6d58da9d01753f36a4aa0c7574902afebc7dc2cd38cd9f764c80c89191e9f02", "Google Argon2027h1");
  ("969764bf555897adf743876837084277e9f03ad5f6a4f3366e46a43f0fcaa9c6", "Google Xenon2026h1");
  ("d809553b944f7affc816196f944f85abb0f8fc5e8755260f15d12e72bb454b14", "Google Xenon2026h2");
  ("44c2bd0ce9140e64a5c94a01930a5aa1bb35970e00ee111689682a1c44d7b566", "Google Xenon2027h1");
  ("cb38f715897c84a1445f5bc1ddfbc96ef29a59cd470a690585b0cb14c31458e7", "Cloudflare Nimbus2026");
  ("4c63dc98e59c1dab88f61e8a3ddeae8fab44a3377b5f9b94c3fba19cfcc1be26", "Cloudflare Nimbus2027");
  ("6411c46ca412eca7891ca2022e00bcab4f2807d41e3527abeafed503c97dcdf0", "DigiCert Wyvern2026h1");
  ("c2317e574519a345ee7f38deb29041ebc7c2215a22bf7fd5b5ad769ad90e52cd", "DigiCert Wyvern2026h2");
  ("001a5d1a1c2d9375b6485578f82f71a1ae6eef397d297c8ae3157bcadee1a01e", "DigiCert Wyvern2027h1");
  ("37aa07cc216f2e6d919c709d24d8f731b00f2b147c621cc091a5fa1a84d816dd", "DigiCert Wyvern2027h2");
  ("499c9b69de1d7cecfc36decd8764a6b85baf0a878019d15552fbe9eb29ddf8c3", "DigiCert Sphinx2026h1");
  ("944e4387faecc1ef81f3192426a8186501c7d35f3802013f72677d55372e19d8", "DigiCert Sphinx2026h2");
  ("46a23967c60db64687c66f3df999947693a6a611208457d555e7e3d0a1d9b646", "DigiCert Sphinx2027h1");
  ("1fb0f8a92d8adda121776c05e2aa2e15bacbc62b65393695576aaab52e11d11d", "DigiCert Sphinx2027h2");
  ("252f94c22b29e96e9f411a72072b695c5b52ff97a90d2540bbfcdc51ec4dee0b", "Sectigo Mammoth2026h1");
  ("94b1c18ab0d057c47be0ac040e1f2cbc8dc375727bc951f20a526126863ba73c", "Sectigo Mammoth2026h2");
  ("566cd5a376be83dfe342b675c49c232498a769bac382cbab49a3877d9ab32d01", "Sectigo Sabre2026h1");
  ("1f56d1ab94704a41dd3feafdf4699355302c1431bfe61346089fffae795dcc2f", "Sectigo Sabre2026h2");
  ("d16ea9a568077e6635a03f37a5ddbc03a53c411214d48818f5e931b323cb9504", "Sectigo Elephant2026h1");
  ("af67883b57b04edd8fa6d97ef62ea8eb810ac77160f0245e55d60c2fe785873a", "Sectigo Elephant2026h2");
  ("604c9aaf7a7f775f01d406fc920dc899eb0b1c7df8c9521bfafa17773b978bc9", "Sectigo Elephant2027h1");
  ("a2490cdcdb8e33a400321760d6d4d51a2036191ea77d968be26a8a00f6fffff7", "Sectigo Elephant2027h2");
  ("16832dabf0a9250f0ff03aa545ffc8bfc823d0874bf6042927f8e71f3313f5fa", "Sectigo Tiger2026h1");
  ("c8a3c47fc7b3adb9356b013f6a7a126de33a4e43a5c646f997ad3975991dcf9a", "Sectigo Tiger2026h2");
  ("1c9f682ce9faf0456950f81b968a87dddb3210d84ce6c8b2e382524ac4cf599f", "Sectigo Tiger2027h1");
  ("03802ac262f6e05e03f8bc6f7b9851324fd76a3df5b7595175e222fb8e9bd5f6", "Sectigo Tiger2027h2");
  ("74db9d58f7d47e9dfd787a162a991c18cf698da7c729918c9a18b0450dba44bc", "TrustAsia log2026a");
  ("25b7efdea1130193ed93079770aa322a26620de35ac8aa7c75197de0b1a9e065", "TrustAsia log2026b");
  ("eddaeb815c63213449b47be5077905abd0d93147c27ac5146b3bc58e43e9b6c7", "TrustAsia HETU2027")]%string.

(** [key[:12]] cannot panic: the text of 32 bytes has 64 characters. *)
Definition ctLogName (logID : bytes) : string :=
  if negb (blen logID =? 32) then ""
  else
    let key := hexEncode logID in
    match find (fun e => String.eqb (fst e) (ToLower key)) ctLogs with
    | Some e => snd e
    | None => ("unknown log (" +:+ takeString 12 key +:+ ")")%string
    end.

(** One turn of the loop over the list: the state is [i] and the names so far. *)
Definition sctNameTurn (rest : bytes) (st : Z * list string) : outcome (step (Z * list string) unit) :=
  let '(i, names) := st in
  if i + 2 <=? blen rest then
    a <~ index rest i ;; b <~ index rest (i + 1) ;;
    let sctLen := be16 a b in
    let i := i + 2 in
    if blen rest <? i + sctLen then Ret (Break (i, names)) else
    sct <~ slice rest i (i + sctLen) ;;
    names <~ (if 33 <=? blen sct then
                logID <~ slice sct 1 33 ;;
                let name := ctLogName logID in
                Ret (if String.eqb name "" then names else names ++ [name])
              else Ret names) ;;
    Ret (Next (i + sctLen, names))
  else Ret (Break (i, names)).

Definition listSCTLogs (extValue : bytes) : outcome (list string) :=
  body <~ stripOctetString extValue ;;
  if blen body <? 2 then Ret [] else
  b0 <~ index body 0 ;; b1 <~ index body 1 ;;
  let listLen := be16 b0 b1 in
  rest <~ sliceFrom body 2 ;;
  if blen rest <? listLen then Ret [] else
  rest <~ slice rest 0 listLen ;;
  r <~ loop (sctNameTurn rest) (S (length rest)) (0, []) ;;
  Ret (match r with inl (_, names) => names | inr _ => [] end).

(** ** Theorems *)

(** The name for one SCT: nothing for one too short to hold a log identifier. *)
Definition sctName (sct : bytes) : list string :=
  if 33 <=? blen sct then [ctLogName (take 32 (drop 1 sct))] else [].

Lemma ctLogs_named : forallb (fun e => negb (String.eqb (snd e) "")) ctLogs = true.
Proof. reflexivity. Qed.

Lemma ctLogName_named id : blen id = 32 -> ctLogName id <> ""%string.
Proof.
  intros Hl. unfold ctLogName. rewrite Hl. change (negb (32 =? 32)) with false. cbv iota zeta.
  destruct (find _ ctLogs) as [e|] eqn:E; [|done].
  apply find_some in E as [Hin _]. pose proof ctLogs_named as Hall. rewrite forallb_forall in Hall. specialize (Hall e Hin).
  intros H. by rewrite H in Hall.
Qed.

Lemma sctNameTurn_enc p s rest names : blen s < 65536 ->
  sctNameTurn (p ++ encSCT s ++ rest) (blen p, names) = Ret (Next (blen (p ++ encSCT s), names ++ sctName s)).
Proof.
  intros Hs. pose proof (blen_nonneg rest). pose proof (blen_nonneg s).
  assert (Hl : blen (encSCT s) = 2 + blen s) by (unfold encSCT; by rewrite blen_app, blen_putBE16).
  unfold sctNameTurn. rewrite !blen_app, Hl, (proj2 (Z.leb_le _ _)) by lia.
  rewrite (index_pre p _ 0 (blen p) (byteOf (Z.shiftr (blen s) 8))), (index_pre p _ 1 _ (byteOf (blen s))) by done || lia.
  cbn [bind]. rewrite be16_putBE16, u16_small by lia. rewrite (proj2 (Z.ltb_ge _ _)) by lia.
  unfold encSCT. rewrite <- app_assoc, (app_assoc p).
  rewrite (read_slice _ (p ++ putBE16 (blen s)) s rest) by (rewrite ?blen_app, ?blen_putBE16; (done || lia)). cbn [bind].
  unfold sctName. destruct (Z.leb_spec 33 (blen s)) as [H33|H33].
  - destruct s as [|v s]; [done|]. rewrite blen_cons in H33.
    assert (Hs32 : s = take 32 s ++ drop 32 s) by (symmetry; apply take_drop).
    assert (Ht : blen (take 32 s) = 32) by (unfold blen in *; rewrite length_take; lia).
    rewrite (read_slice (v :: s) [v] (take 32 s) (drop 32 s)) by (cbn [app]; try (by rewrite <- Hs32); rewrite ?Ht; done).
    cbn [bind]. cbn [drop]. rewrite drop_0.
    destruct (String.eqb_spec (ctLogName (take 32 s)) "") as [Heq|_]; [by destruct (ctLogName_named _ Ht)|].
    cbn [bind]. rewrite blen_cons. do 3 f_equal. lia.
  - cbn [bind]. rewrite app_nil_r. do 3 f_equal. lia.
Qed.

Lemma sctName_loop scts : Forall (fun s : bytes => blen s < 65536) scts -> forall p fuel names,
  (length scts < fuel)%nat ->
  loop (sctNameTurn (p ++ flat_map encSCT scts)) fuel (blen p, names)
  = Ret (inl (blen (p ++ flat_map encSCT scts), names ++ flat_map sctName scts)).
Proof.
  induction 1 as [|s scts Hs Hscts IH]; intros p [|fuel] names Hf; cbn [length] in Hf; try lia; cbn [loop flat_map].
  - unfold sctNameTurn. rewrite !app_nil_r, (proj2 (Z.leb_gt _ _)) by lia. reflexivity.
  - rewrite sctNameTurn_enc by done. rewrite (app_assoc p), IH by lia. by rewrite <- !app_assoc.
Qed.

Lemma wp_sctNames body fuel E : (length body < fuel)%nat -> wp (loop (sctNameTurn body) fuel (0, [])) (fun _ => True) E.
Proof.
  intros Hf. apply (wp_loop _ (fun st => 0 <= fst st) (fun st => length body - Z.to_nat (fst st))%nat); cbn [fst]; [|lia|lia].
  intros [i names] Hi; cbn [fst] in Hi. unfold sctNameTurn. wp_step; [|by apply wp_ret]. to_prop.
  wp_step. apply wp_index; [lia|]. intros x _. wp_step. apply wp_index; [lia|]. intros y _.
  pose proof (be16_range x y). cbv zeta. unfold blen in *. wp_step; [by apply wp_ret|]. to_prop.
  wp_step. apply wp_slice; unfold blen; [lia..|]. intros _. set (sct := sub body _ _).
  wp_step. apply (wp_mono _ (fun _ => True) _ (fun _ => False) _); [|intros names' _; apply wp_ret; cbn [stepPost fst]; lia|done].
  wp_step; [|by apply wp_ret]. to_prop. wp_step. apply wp_slice; unfold blen in *; [lia..|]. intros _. by apply wp_ret.
Qed.

Lemma wp_listSCTLogs ext E : wp (listSCTLogs ext) (fun _ => True) E.
Proof.
  unfold listSCTLogs. wp_step. eapply wp_mono; [apply (wp_stripOctetString ext (fun _ => False))| |done]. intros b _.
  wp_step; [by apply wp_ret|]. to_prop. wp_step. apply wp_index; [lia|]. intros b0 _. wp_step. apply wp_index; [lia|]. intros b1 _.
  pose proof (be16_range b0 b1). cbv zeta. wp_step. apply wp_sliceFrom; [lia|]. intros _. set (rest := sub b 2 _).
  wp_step; [by apply wp_ret|]. to_prop. wp_step. apply wp_slice; [lia..|]. intros _.
  wp_step. eapply wp_mono; [apply (wp_sctNames _ _ (fun _ => False)); lia|intros r _; by apply wp_ret|done].
Qed.

(** The names come in the order of the SCTs, and an SCT too short to name its log is
    passed over; the bytes of an extension that is no list give some list too. *)
Theorem listSCTLogs_written scts
  (Hscts : Forall (fun s : bytes => blen s < 65536) scts) (Hlen : blen (flat_map encSCT scts) < 65534) :
  listSCTLogs (octetString (encSCTList scts)) = Ret (flat_map sctName scts)
  /\ forall other, exists names, listSCTLogs other = Ret names.
Proof.
  split.
  - pose proof (blen_nonneg (flat_map encSCT scts)). unfold listSCTLogs.
    rewrite stripOctetString_enc by (unfold encSCTList; rewrite blen_app, blen_putBE16; lia). cbn [bind].
    set (body := flat_map encSCT scts) in *. unfold encSCTList. fold body. unfold putBE16. cbn [app].
    rewrite !blen_cons, (proj2 (Z.ltb_ge _ _)) by lia.
    set (h := byteOf (Z.shiftr (blen body) 8)). set (l := byteOf (blen body)).
    rewrite (read_index _ [] h (l :: body) 0), (read_index _ [h] l body 1) by done. cbn [bind].
    rewrite (read_from _ [h; l] body 2) by done. cbn [bind].
    unfold h, l. rewrite be16_putBE16, u16_small by lia. rewrite (proj2 (Z.ltb_ge _ _)) by lia.
    rewrite slice_full by done. cbn [bind].
    pose proof (sctName_loop scts Hscts [] (S (length body)) []) as Hloop. change (blen (@nil byte)) with 0 in Hloop.
    cbn [app] in Hloop. fold body in Hloop. rewrite Hloop by (pose proof (blen_encSCTs scts); unfold body; lia). done.
  - intros other. pose proof (wp_listSCTLogs other (fun _ => False)) as Hw. destruct (listSCTLogs other) as [names| | |]; try done. by exists names.
Qed.

Module CtLogsWitnesses.
(** Three SCTs: one of a known log, one of no log in the table, one too short. *)
Definition scts : list bytes :=
  [x00 :: default [] (hexDecodeString "0e5794bcf3aea93e331b2c9907b3f790df9bc23d713225dd21a925ac61c54e21") ++ repeat x01 20; x00 :: repeat xab 40; [x00]].

Lemma listSCTLogs_written_witness :
  listSCTLogs (octetString (encSCTList scts)) = Ret ["Google Argon2026h1"; "unknown log (abababababab)"]%string.
Proof.
  refine (eq_trans (proj1 (listSCTLogs_written scts _ _)) _); [repeat constructor|reflexivity|vm_compute; reflexivity].
Defined.
End CtLogsWitnesses.

(** ** The HSTS preload list *)

Record hstsPreloadEntry := { Hash : string; IncludeSubdomains : bool }.
Record hstsPreloadResult := { Preloaded : bool; resSubdomains : bool; MatchedDomain : string; InEmbeddedSet : bool }.

Definition hashDomain (d : string) : string := hexEncode (sha256 (ofString d)).

Definition preloadedApex : list string := [
  "google.com"; "youtube.com"; "googletagmanager.com"; "facebook.com"; "instagram.com"; "whatsapp.com";
  "twitter.com"; "x.com"; "apple.com"; "icloud.com"; "microsoft.com"; "office.com"; "outlook.com";
  "amazon.com"; "aws.amazon.com"; "netflix.com"; "spotify.com"; "github.com"; "gitlab.com"; "bitbucket.org";
  "stackoverflow.com"; "stackexchange.com"; "linkedin.com"; "paypal.com"; "stripe.com";
  "slack.com"; "discord.com"; "telegram.org"; "zoom.us"; "webex.com";
  "cloudflare.com"; "fastly.com"; "akamai.com"; "jsdelivr.net"; "unpkg.com"; "cdnjs.cloudflare.com";
  "chase.com"; "bankofamerica.com"; "wellsfargo.com"; "shopify.com"; "etsy.com"; "ebay.com";
  "mozilla.org"; "letsencrypt.org"; "ietf.org"; "firefox.com"; "protonmail.com"; "tutanota.com"; "fastmail.com";
  "notion.so"; "linear.app"; "figma.com"; "miro.com"; "asana.com"; "trello.com";
  "openai.com"; "anthropic.com"; "perplexity.ai"; "mistral.ai";
  "vercel.com"; "netlify.com"; "render.com"; "heroku.com"; "digitalocean.com"; "cloud.google.com";
  "nytimes.com"; "wsj.com"; "bbc.co.uk"; "theguardian.com"; "reuters.com"; "coinbase.com"; "binance.com"; "kraken.com"]%string.
Definition preloadedNoSub : list string := [].

Definition addDomains (sub : bool) (l : list string) (m : gmap string hstsPreloadEntry) : gmap string hstsPreloadEntry :=
  foldl (fun m d => <[hashDomain d := {| Hash := ""; IncludeSubdomains := sub |}]> m) m l.
Definition hstsPreloadMap : gmap string hstsPreloadEntry := addDomains false preloadedNoSub (addDomains true preloadedApex ∅).

(** [for i := 1; i < len(parts); i++], on the labels that are left *)
Fixpoint walkUp (parts : list string) : option string :=
  match parts with
  | [] | [_] => None
  | _ :: parts =>
      let candidate := Join parts "." in
      match hstsPreloadMap !! hashDomain candidate with
      | Some e => if IncludeSubdomains e then Some candidate else walkUp parts
      | None => walkUp parts
      end
  end.

Definition checkHSTSPreloaded (host : string) : hstsPreloadResult :=
  let host := ToLower (TrimSuffix host ".") in
  match hstsPreloadMap !! hashDomain host with
  | Some e => {| Preloaded := true; resSubdomains := IncludeSubdomains e; MatchedDomain := host; InEmbeddedSet := true |}
  | None =>
      match walkUp (Split host ".") with
      | Some candidate => {| Preloaded := true; resSubdomains := true; MatchedDomain := candidate; InEmbeddedSet := true |}
      | None => {| Preloaded := false; resSubdomains := false; MatchedDomain := ""; InEmbeddedSet := false |}
      end
  end.

Definition hstsPreloadHeadline (r : hstsPreloadResult) : string :=
  if Preloaded r && negb (String.eqb (MatchedDomain r) "") then
    (if resSubdomains r then "HSTS preloaded ✓" else "HSTS preloaded (exact)")
  else "".

(** ** Theorems *)

(** The domains above and including [h]. *)
Definition above (h d : string) : Prop := h = d \/ exists p, h = (p +:+ "." +:+ d)%string.

Fixpoint ancestors (parts : list string) : list string :=
  match parts with [] => [] | _ :: rest => Join parts "." :: ancestors rest end.

Lemma Join_cons_cons w w2 l : Join (w :: w2 :: l) "." = (w +:+ "." +:+ Join (w2 :: l) ".")%string.
Proof. done. Qed.

Lemma ancestors_above parts d : Forall (fun w => lacks "." w = true) parts -> parts <> [] ->
  In d (ancestors parts) <-> above (Join parts ".") d.
Proof.
  induction 1 as [|w parts Hw Hparts IH]; [done|intros _]. cbn [ancestors In]. destruct parts as [|w2 parts].
  - cbn [ancestors In]. unfold above. split; [intros [H|[]]; by left|intros [H|[p Hp]]; [by left|]].
    change (Join [w] ".") with w in Hp. exfalso. rewrite Hp in Hw. clear -Hw. induction p as [|c p IH]; cbn in Hw; [done|].
    apply andb_prop in Hw as [_ Hw]. by apply IH.
  - rewrite IH by done. rewrite Join_cons_cons. set (j := Join (w2 :: parts) "."). unfold above. split.
    + intros [<-|[->|[p ->]]]; [by left|right; by exists w|right]. exists (w +:+ "." +:+ p)%string. by rewrite !appString_assoc.
    + intros [H|[p Hp]]; [by left|right]. revert p Hp Hw. clear. induction w as [|c w IHw]; intros p Hp Hw.
      * destruct p as [|c p]; cbn in Hp; injection Hp as; [by left|right; by exists p].
      * apply andb_prop in Hw as [Hc Hw]. destruct p as [|c' p]; cbn in Hp; injection Hp as Hcc Hp; [by subst c|by apply (IHw p)].
Qed.

Lemma Split_labels s sep : Forall (fun w => lacks sep w = true) (Split s sep).
Proof.
  induction s as [|c s IH]; cbn [Split]; [by constructor|]. destruct (Ascii.eqb_spec c sep) as [->|Hne]; [by constructor|].
  destruct (Split s sep) as [|w ws]; constructor; try by inversion IH.
  - cbn. destruct (Ascii.eqb_spec c sep); done.
  - inversion IH as [|? ? Hw]; subst. cbn. destruct (Ascii.eqb_spec c sep); done.
Qed.

Lemma lookup_addDomains sub l m k :
  addDomains sub l m !! k = if existsb (fun d => String.eqb k (hashDomain d)) l then Some {| Hash := ""; IncludeSubdomains := sub |} else m !! k.
Proof.
  unfold addDomains. revert m. induction l as [|d l IH]; intros m; [done|]. cbn [foldl existsb]. rewrite IH.
  destruct (existsb _ l); [by rewrite orb_true_r|]. rewrite orb_false_r. destruct (String.eqb_spec k (hashDomain d)) as [->|Hne];
    [by rewrite lookup_insert_eq|by rewrite lookup_insert_ne by done].
Qed.

Definition collisionFree (h : string) : Prop := forall d a, above h d -> In a preloadedApex -> hashDomain d = hashDomain a -> d = a.

Section Walk.
Context (P : string -> Prop) (Hfree : forall d a, P d -> In a preloadedApex -> hashDomain d = hashDomain a -> d = a).

Lemma preload_lookup d : P d ->
  hstsPreloadMap !! hashDomain d = if existsb (String.eqb d) preloadedApex then Some {| Hash := ""; IncludeSubdomains := true |} else None.
Proof.
  intros Hd. unfold hstsPreloadMap. rewrite !lookup_addDomains. cbn [preloadedNoSub existsb]. rewrite lookup_empty.
  replace (existsb (fun a => String.eqb (hashDomain d) (hashDomain a)) preloadedApex) with (existsb (String.eqb d) preloadedApex); [done|].
  apply eq_true_iff_eq. rewrite !existsb_exists. split; intros (a & Ha & E); exists a; (split; [done|]).
  - apply String.eqb_eq in E as ->. apply String.eqb_refl.
  - apply String.eqb_eq. apply String.eqb_eq in E. by apply Hfree.
Qed.

Lemma walkUp_find parts : Forall P (tail (ancestors parts)) ->
  walkUp parts = find (fun d => existsb (String.eqb d) preloadedApex) (tail (ancestors parts)).
Proof.
  induction parts as [|w [|w2 parts] IH]; [done|done|]. intros H. cbn [walkUp]. change (tail (ancestors (w :: w2 :: parts))) with (ancestors (w2 :: parts)) in *.
  cbn [ancestors] in H. inversion H as [|x l H1 H2 E1]. subst. cbn [ancestors find]. rewrite preload_lookup by done.
  destruct (existsb _ preloadedApex); [done|]. by apply IH.
Qed.
End Walk.

(** The answer for a host, unless SHA-256 makes one of the domains above it collide with
    an entry: preloaded exactly when the host, without its final dot and in lower case, is
    an entry or stands below one, and then the match is such an entry and the headline
    says so; otherwise the headline is empty. *)
Theorem checkHSTSPreloaded_spec host : let h := ToLower (TrimSuffix host ".") in
  collisionFree h ->
  (Preloaded (checkHSTSPreloaded host) = true <-> exists a, In a preloadedApex /\ above h a)
  /\ (Preloaded (checkHSTSPreloaded host) = true ->
        In (MatchedDomain (checkHSTSPreloaded host)) preloadedApex /\ above h (MatchedDomain (checkHSTSPreloaded host)))
  /\ InEmbeddedSet (checkHSTSPreloaded host) = Preloaded (checkHSTSPreloaded host)
  /\ hstsPreloadHeadline (checkHSTSPreloaded host) = (if Preloaded (checkHSTSPreloaded host) then "HSTS preloaded ✓" else "")%string.
Proof.
  intros h Hfree. set (known := fun d => existsb (String.eqb d) preloadedApex).
  assert (Hknown : forall d, known d = true <-> In d preloadedApex).
  { intros d. unfold known. rewrite existsb_exists. split; [intros (a & Ha & ->%String.eqb_eq); done|intros Hd; exists d; by rewrite String.eqb_refl]. }
  assert (Habove : forall d, In d (ancestors (Split h ".")) <-> above h d).
  { intros d. rewrite ancestors_above by (apply Split_labels || apply Split_nonempty). by rewrite (Join_Split h "."). }
  assert (Hfirst : exists rest, ancestors (Split h ".") = h :: rest).
  { pose proof (Join_Split h ".") as HJ. destruct (Split h ".") as [|w ws] eqn:E; [by destruct (Split_nonempty h ".")|].
    cbn [ancestors]. exists (ancestors ws). by rewrite HJ. }
  assert (Hcheck : checkHSTSPreloaded host = match find known (ancestors (Split h ".")) with
    | Some d => {| Preloaded := true; resSubdomains := true; MatchedDomain := d; InEmbeddedSet := true |}
    | None => {| Preloaded := false; resSubdomains := false; MatchedDomain := ""; InEmbeddedSet := false |} end).
  { unfold checkHSTSPreloaded. fold h. rewrite (preload_lookup (above h)) by (done || by left).
    rewrite (walkUp_find (above h)) by (done || (apply List.Forall_forall; intros d Hd; apply Habove; destruct (ancestors _); [done|by right])).
    destruct Hfirst as [rest ->]. cbn [find tail]. fold known. fold (known h). destruct (known h); [done|]. done. }
  rewrite Hcheck. destruct (find known _) as [d|] eqn:E.
  - apply find_some in E as [Hin Hd]. apply Hknown in Hd. apply Habove in Hin.
    cbn [Preloaded MatchedDomain InEmbeddedSet]. split; [|split; [intros _; exact (conj Hd Hin)|split; [reflexivity|]]].
    + split; [intros _; exists d; exact (conj Hd Hin)|reflexivity].
    + unfold hstsPreloadHeadline. cbn. destruct (String.eqb_spec d "") as [->|_]; [|done].
      exfalso. apply Hknown in Hd. discriminate.
  - cbn [Preloaded MatchedDomain InEmbeddedSet]. split; [|split; [discriminate|split; reflexivity]]. split; [discriminate|intros (a & Ha & Hab)]. apply Habove in Hab. apply Hknown in Ha.
    pose proof (find_none _ _ E a Hab). congruence.
Qed.

Module HstsWitnesses.
(** Hashes every name once. *)
Lemma collisionFree_check h : (let table := map (fun a => (a, hashDomain a)) preloadedApex in
  forallb (fun d => let k := hashDomain d in forallb (fun p => String.eqb d (fst p) || negb (String.eqb k (snd p))) table) (ancestors (Split h "."))) = true ->
  collisionFree h.
Proof.
  intros Hb d a Hd Ha E. cbv zeta in Hb. rewrite forallb_forall in Hb.
  assert (Hin : In d (ancestors (Split h "."))) by (apply ancestors_above; [apply Split_labels|apply Split_nonempty|by rewrite (Join_Split h ".")]).
  specialize (Hb d Hin). rewrite forallb_forall in Hb. specialize (Hb (a, hashDomain a) (in_map _ _ _ Ha)). cbn [fst snd] in Hb.
  rewrite E, String.eqb_refl in Hb. destruct (String.eqb_spec d a) as [->|]; [reflexivity|discriminate].
Qed.

Lemma checkHSTSPreloaded_spec_witness : Preloaded (checkHSTSPreloaded "WWW.Google.com.") = true.
Proof.
  refine (proj2 (proj1 (checkHSTSPreloaded_spec "WWW.Google.com." _)) _).
  - apply collisionFree_check; vm_compute; reflexivity.
  - exists "google.com"%string. split; [by left|right; by exists "www"%string].
Defined.
End HstsWitnesses.
