(* ===== verification/Ccs.v ===== *)
(** The CCS-injection probe: [probeCCSInjection] of [tls_vulns.go] and the TLS 1.2
    key derivation and record protection of [tls_crypto.go] it rests on.  AES-CBC
    ([crypto/aes], [crypto/cipher]) is a parameter; HMAC and the hashes are the
    executable definitions of [Digest]. *)

From Stdlib Require Import ZArith List String Ascii Strings.Byte Lia Bool.
From stdpp Require Import base list strings numbers gmap.
From S2P Require Import Prelude Bytes GoStrings Digest Stream Extensions Flight Service ServerHello Tls13Hello ClientHellos.
Open Scope Z_scope.

(** ** The TLS 1.2 PRF *)

(** [for len(out) < length]: the state is [out] and [a]. *)
Definition phashTurn (mac : bytes -> bytes -> bytes) (secret seed : bytes) (length : Z) (st : bytes * bytes)
    : outcome (step (bytes * bytes) unit) :=
  let '(out, a) := st in
  if blen out <? length then Ret (Next (out ++ mac secret (a ++ seed), mac secret a)) else Ret (Break (out, a)).

(** [mac] is [hmacOnce] for the hash [h]. *)
Definition phash (mac : bytes -> bytes -> bytes) (secret seed : bytes) (length : Z) : outcome bytes :=
  r <~ loop (phashTurn mac secret seed length) (S (Z.to_nat length)) ([], mac secret seed) ;;
  match r with inl (out, _) => slice out 0 length | inr _ => Ret [] end.

Definition tlsPRF12 (secret : bytes) (label : string) (seed : bytes) (length : Z) : outcome bytes :=
  phash hmacSha256 secret (ofString label ++ seed) length.

Record keyBlockAES128CBCSHA := { ClientMAC : bytes; ServerMAC : bytes; ClientKey : bytes; ServerKey : bytes }.

Definition deriveKeysAES128CBCSHA (masterSecret serverRandom clientRandom : bytes) : outcome keyBlockAES128CBCSHA :=
  let seed := serverRandom ++ clientRandom in
  block <~ tlsPRF12 masterSecret "key expansion" seed 72 ;;
  cm <~ slice block 0 20 ;; sm <~ slice block 20 40 ;; ck <~ slice block 40 56 ;; sk <~ slice block 56 72 ;;
  Ret {| ClientMAC := cm; ServerMAC := sm; ClientKey := ck; ServerKey := sk |}.

Definition finishedVerifyData (masterSecret transcriptHash : bytes) : outcome bytes :=
  tlsPRF12 masterSecret "client finished" transcriptHash 12.

(** ** Record protection *)

(** [cipher.NewCBCEncrypter(aes.NewCipher(key), iv).CryptBlocks] and its inverse on
    whole blocks. *)
Class AesCbc := {
  cbcEncrypt : bytes -> bytes -> bytes -> bytes;
  cbcDecrypt : bytes -> bytes -> bytes -> bytes;
  cbc_length : forall k iv m, blen (cbcEncrypt k iv m) = blen m;
  cbc_inverse : forall k iv m, blen k = 16 -> blen iv = 16 -> blen m mod 16 = 0 -> cbcDecrypt k iv (cbcEncrypt k iv m) = m
}.

Section Record.
Context `{AesCbc}.

(** The 13 bytes the MAC covers before the plaintext. *)
Definition macHeader (seqNum : Z) (recordType : byte) (version len : Z) : bytes :=
  beBytes 8 seqNum ++ [recordType] ++ putBE16 version ++ putBE16 len.

Definition encryptRecordAES128CBCSHA (plaintext : bytes) (keys : keyBlockAES128CBCSHA) (recordType : byte)
    (version seqNum : Z) (iv : bytes) : outcome bytes :=
  let aad := macHeader seqNum recordType version (blen plaintext) in
  let macSum := hmacSha1 (ClientMAC keys) (aad ++ plaintext) in
  let body := plaintext ++ macSum in
  let padLen := 16 - blen body mod 16 in
  let body := body ++ repeat (byteOf (padLen - 1)) (Z.to_nat padLen) in
  guard negb ((blen (ClientKey keys) =? 16) || (blen (ClientKey keys) =? 24) || (blen (ClientKey keys) =? 32))
    orelse "crypto/aes: invalid key size" ;;
  if negb (blen iv =? 16) || negb (blen body mod 16 =? 0) then Panic else
  let ciphertext := cbcEncrypt (ClientKey keys) iv body in
  Ret (iv ++ ciphertext).
End Record.

(** ** The probe *)

Definition ccsClientHello (host : string) (clientRandom : bytes) : bytes :=
  helloRecord 0x0303 clientRandom [x00; x2f] (buildSNIExtension host).

(** What the walk over the server's flight collects. *)
Record ccsState := { serverRandom : bytes; negotiatedCipher : Z; transcript : bytes; done : bool }.

(** [case 0x02] of the switch. *)
Definition onCcsServerHello (hsBody : bytes) (s : ccsState) : outcome ccsState :=
  if 38 <=? blen hsBody then
    r <~ slice hsBody 2 34 ;;
    sid <~ index hsBody 34 ;;
    let s := {| serverRandom := serverRandom s ++ r; negotiatedCipher := negotiatedCipher s;
                transcript := transcript s; done := done s |} in
    if 35 + bval sid + 2 <=? blen hsBody then
      a <~ index hsBody (35 + bval sid) ;; b <~ index hsBody (35 + bval sid + 1) ;;
      Ret {| serverRandom := serverRandom s; negotiatedCipher := be16 a b; transcript := transcript s; done := done s |}
    else Ret s
  else Ret s.

Definition ccsMsgTurn (body : bytes) (st : Z * ccsState) : outcome (step (Z * ccsState) unit) :=
  let '(i, s) := st in
  if i + 4 <=? blen body then
    hsType <~ index body i ;;
    l2 <~ index body (i + 1) ;; l1 <~ index body (i + 2) ;; l0 <~ index body (i + 3) ;;
    let hsLen := be24 l2 l1 l0 in
    if blen body <? i + 4 + hsLen then Ret (Break (i, s)) else
    hsBody <~ slice body (i + 4) (i + 4 + hsLen) ;;
    s <~ (if beq hsType x02 then onCcsServerHello hsBody s
          else if beq hsType x0e then Ret {| serverRandom := serverRandom s; negotiatedCipher := negotiatedCipher s;
                                             transcript := transcript s; done := true |}
          else Ret s) ;;
    Ret (Next (i + (4 + hsLen), s))
  else Ret (Break (i, s)).

Section Probe.
Context `{AesCbc} {C : Type} `{Peer C}.

(** One turn of the loop over records: [None] is [return false]. *)
Definition ccsRecordTurn (st : C * ccsState) : outcome (step (C * ccsState) (option (C * ccsState))) :=
  let '(conn, s) := st in
  unpack (hdr, conn) <~ readFull 5 conn ;;
  match hdr with
  | None => Ret (Return None)
  | Some hdr =>
      h0 <~ index hdr 0 ;;
      if beq h0 x15 then Ret (Return None) else
      if negb (beq h0 x16) then Ret (Return None) else
      h3 <~ index hdr 3 ;; h4 <~ index hdr 4 ;;
      let recLen := be16 h3 h4 in
      if (recLen <=? 0) || (Z.shiftl 1 14 + 2048 <? recLen) then Ret (Return None) else
      unpack (body, conn) <~ readFull recLen conn ;;
      match body with
      | None => Ret (Return None)
      | Some body =>
          let s := {| serverRandom := serverRandom s; negotiatedCipher := negotiatedCipher s;
                      transcript := transcript s ++ body; done := false |} in
          r <~ loop (ccsMsgTurn body) (S (length body)) (0, s) ;;
          let s := match r with inl (_, s) => s | inr _ => s end in
          if done s then Ret (Return (Some (conn, s))) else Ret (Next (conn, s))
      end
  end.

Definition ccsInjected : bytes := [x14; x03; x03; x00; x01; x01].

(** The Finished record for a transcript, under the empty master secret. *)
Definition ccsFinishedRecord (serverRandom clientRandom transcript iv : bytes) : outcome bytes :=
  let masterSecret := repeat x00 48 in
  keys <~ deriveKeysAES128CBCSHA masterSecret serverRandom clientRandom ;;
  let transcriptHash := sha256 transcript in
  verifyData <~ finishedVerifyData masterSecret transcriptHash ;;
  let finishedPlain := [x14; x00; x00; x0c] ++ verifyData in
  recordBody <~ encryptRecordAES128CBCSHA finishedPlain keys x16 0x0303 0 iv ;;
  let finishedRecord := [x16; x03; x03] ++ putBE16 (blen recordBody) in
  Ret (finishedRecord ++ recordBody).

(** [iv] is what [rand.Read] left in the buffer. *)
Definition probeCCSInjection (net : bytes -> option C) (host : string) (clientRandom iv : bytes) : outcome bool :=
  let hello := ccsClientHello host clientRandom in
  helloHandshakeBytes <~ sliceFrom hello 5 ;;
  match net hello with
  | None => Ret false
  | Some conn =>
      r <~ loop ccsRecordTurn (S (length (pending conn)))
             (conn, {| serverRandom := []; negotiatedCipher := 0; transcript := helloHandshakeBytes; done := false |}) ;;
      match r with
      | inl _ | inr None => Ret false
      | inr (Some (conn, s)) =>
          if negb (negotiatedCipher s =? 0x002F) || negb (blen (serverRandom s) =? 32) then Ret false else
          match send ccsInjected conn with
          | None => Ret false
          | Some conn =>
              match ccsFinishedRecord (serverRandom s) clientRandom (transcript s) iv with
              | Err _ => Ret false
              | Panic => Panic
              | NoFuel => NoFuel
              | Ret finishedRecord =>
                  match send finishedRecord conn with
                  | None => Ret false
                  | Some conn =>
                      unpack (respHdr, _) <~ readFull 5 conn ;;
                      match respHdr with
                      | None => Ret false
                      | Some respHdr => b <~ index respHdr 0 ;; Ret (beq b x16)
                      end
                  end
              end
          end
      end
  end.
End Probe.

(** ** The PRF is P_hash, cut to length *)

Section PHash.
Context (mac : bytes -> bytes -> bytes) (secret seed : bytes) (size : Z).
Context (Hsize : 0 < size) (Hmac : forall k m, blen (mac k m) = size).

(** A(i) of RFC 5246, section 5, and the concatenation of the first blocks. *)
Fixpoint phashA (i : nat) : bytes := match i with O => seed | S i => mac secret (phashA i) end.
Definition phashBlocks (i k : nat) : bytes := flat_map (fun j => mac secret (phashA (S j) ++ seed)) (seq i k).

Lemma blen_phashBlocks i k : blen (phashBlocks i k) = size * Z.of_nat k.
Proof using Hmac.
  unfold phashBlocks. revert i. induction k as [|k IH]; intros i; cbn [seq flat_map]; [rewrite blen_nil; lia|].
  rewrite blen_app, Hmac, IH. lia.
Qed.

Lemma phashBlocks_snoc k : phashBlocks 0 (S k) = phashBlocks 0 k ++ mac secret (phashA (S k) ++ seed).
Proof. unfold phashBlocks. rewrite seq_S, flat_map_app. cbn [flat_map]. by rewrite app_nil_r. Qed.

Lemma phash_loop length fuel : forall k,
  (Z.to_nat length < fuel + k)%nat -> size * (Z.of_nat k - 1) < length \/ k = O -> 0 <= length ->
  exists n a, loop (phashTurn mac secret seed length) fuel (phashBlocks 0 k, phashA (S k))
              = Ret (inl (phashBlocks 0 n, a)) /\ length <= size * Z.of_nat n.
Proof using Hmac Hsize.
  induction fuel as [|fuel IH]; intros k Hf Hk Hl; [exfalso; nia|]. cbn [loop]. unfold phashTurn at 1.
  rewrite blen_phashBlocks. destruct (Z.ltb_spec (size * Z.of_nat k) length).
  - rewrite <- phashBlocks_snoc. apply (IH (S k)); lia.
  - by exists k, (phashA (S k)).
Qed.

Lemma phashBlocks_prefix i j k : take (length (phashBlocks i j)) (phashBlocks i (j + k)) = phashBlocks i j.
Proof. unfold phashBlocks. rewrite seq_app, flat_map_app. by rewrite take_app_length. Qed.

(** [phash] gives the first [length] bytes of P_hash, however many blocks one takes. *)
Lemma phash_prefix length k :
  0 <= length <= size * Z.of_nat k -> phash mac secret seed length = Ret (take (Z.to_nat length) (phashBlocks 0 k)).
Proof using Hmac Hsize.
  intros Hl. unfold phash.
  destruct (phash_loop length (S (Z.to_nat length)) 0) as (n & a & Hloop & Hn); [lia|by right|lia|].
  change (phashBlocks 0 0) with (@nil byte) in Hloop. cbn [phashA] in Hloop. rewrite Hloop. cbn [bind].
  pose proof (blen_phashBlocks 0 n) as Hb. rewrite slice_ok by lia.
  unfold sub. rewrite Z.sub_0_r. cbn [Z.to_nat drop]. f_equal.
  assert (Hgen : forall n k, length <= size * Z.of_nat n -> (n <= k)%nat ->
    take (Z.to_nat length) (phashBlocks 0 n) = take (Z.to_nat length) (phashBlocks 0 k)).
  { clear -Hmac. intros n k Hn Hk. replace k with (n + (k - n))%nat by lia.
    rewrite <- (phashBlocks_prefix 0 n (k - n)) at 1. rewrite take_take. f_equal.
    pose proof (blen_phashBlocks 0 n) as Hb. unfold blen in Hb. lia. }
  destruct (Nat.le_ge_cases n k); [by apply Hgen|symmetry; apply Hgen; lia].
Qed.
End PHash.

Lemma blen_prf secret label seed length :
  0 <= length -> exists out, tlsPRF12 secret label seed length = Ret out /\ blen out = length.
Proof.
  intros Hl. unfold tlsPRF12.
  rewrite (phash_prefix hmacSha256 secret _ 32 ltac:(lia) blen_hmacSha256 length (Z.to_nat length)) by lia.
  eexists. split; [reflexivity|]. rewrite blen_take; [done|].
  rewrite (blen_phashBlocks hmacSha256 secret _ 32 blen_hmacSha256). lia.
Qed.

(** ** A receiver *)

Section Receiver.
Context `{AesCbc}.

(** A TLS 1.2 receiver with the same keys: decrypt, check the padding, check the MAC. *)
Definition receiveRecord (keys : keyBlockAES128CBCSHA) (recordType : byte) (version seqNum : Z) (record : bytes)
    : option bytes :=
  let plain := cbcDecrypt (ClientKey keys) (take 16 record) (drop 16 record) in
  match List.last (map Some plain) None with
  | None => None
  | Some p =>
      let pad := bval p + 1 in
      let content := take (Z.to_nat (blen plain - pad - 20)) plain in
      if bool_decide (pad + 20 <= blen plain
           /\ drop (Z.to_nat (blen plain - pad)) plain = repeat p (Z.to_nat pad)
           /\ sub plain (blen plain - pad - 20) 20
              = hmacSha1 (ClientMAC keys) (macHeader seqNum recordType version (blen content) ++ content))
      then Some content else None
  end.

Lemma last_snoc_some (l : bytes) (p : byte) n :
  (0 < n)%nat -> List.last (map Some (l ++ repeat p n)) None = Some p.
Proof.
  intros Hn. destruct n as [|n]; [lia|]. rewrite <- (Nat.add_1_r n), repeat_app. cbn [repeat].
  rewrite app_assoc, map_app. cbn [map]. apply last_last.
Qed.

Lemma receive_encrypt plaintext keys recordType version seqNum iv :
  blen (ClientKey keys) = 16 -> blen iv = 16 ->
  exists body, encryptRecordAES128CBCSHA plaintext keys recordType version seqNum iv = Ret body
    /\ receiveRecord keys recordType version seqNum body = Some plaintext.
Proof.
  intros Hk Hiv. unfold encryptRecordAES128CBCSHA, errWhen. rewrite Hk. cbn [Z.eqb Pos.eqb orb negb].
  set (mac := hmacSha1 _ _). set (base := plaintext ++ mac).
  assert (Hmac : blen mac = 20) by apply blen_hmacSha1.
  assert (Hbase : blen base = blen plaintext + 20) by (unfold base; rewrite blen_app; lia).
  set (padLen := 16 - blen base mod 16).
  pose proof (Z.mod_pos_bound (blen base) 16 ltac:(lia)) as Hmod.
  assert (Hpad : 1 <= padLen <= 16) by lia.
  set (p := byteOf (padLen - 1)). assert (Hp : bval p + 1 = padLen) by (unfold p; rewrite bval_byteOf, Z.mod_small; lia).
  set (body := base ++ repeat p (Z.to_nat padLen)).
  assert (Hbody : blen body = blen base + padLen) by (unfold body; rewrite blen_app; unfold blen at 2; rewrite repeat_length; lia).
  assert (Hblock : blen body mod 16 = 0).
  { rewrite Hbody. unfold padLen. rewrite <- (Z.mod_add _ (blen base / 16)) by lia.
    replace (blen base + (16 - blen base mod 16) + blen base / 16 * 16) with ((1 + 2 * (blen base / 16)) * 16).
    - apply Z.mod_mul. lia.
    - pose proof (Z.div_mod (blen base) 16 ltac:(lia)). lia. }
  rewrite Hiv, Hblock. cbn [Z.eqb Pos.eqb negb orb]. eexists. split; [reflexivity|].
  assert (Hli : length iv = 16%nat) by (unfold blen in Hiv; lia).
  unfold receiveRecord. rewrite take_app_length', drop_app_length' by done. rewrite cbc_inverse by done.
  pose proof (blen_nonneg plaintext).
  unfold body at 1. rewrite last_snoc_some by lia. rewrite Hp, Hbody.
  replace (blen base + padLen - padLen) with (blen base) by lia.
  replace (blen base - 20) with (blen plaintext) by lia.
  assert (Htake : take (Z.to_nat (blen plaintext)) body = plaintext).
  { unfold body, base. rewrite <- !app_assoc, take_app_length'; [done|]. unfold blen. lia. }
  rewrite Htake, bool_decide_eq_true_2; [done|]. split; [lia|]. split.
  - unfold body. rewrite drop_app_length'; [done|]. unfold blen. lia.
  - unfold body, base, sub. rewrite <- !app_assoc, drop_app_length' by (unfold blen; lia).
    rewrite take_app_length'; [done|]. unfold blen in Hmac. lia.
Qed.
End Receiver.

(** ** The walk over the server's flight *)

(** What a ServerHello changes, as a total function. *)
Definition helloPure (hsBody : bytes) (s : ccsState) : ccsState :=
  match onCcsServerHello hsBody s with Ret s' => s' | _ => s end.

Lemma wp_onCcsServerHello hsBody s E :
  wp (onCcsServerHello hsBody s) (fun s' => transcript s' = transcript s /\ done s' = done s) E.
Proof.
  unfold onCcsServerHello. wp_step; [|by apply wp_ret]. to_prop. wp_step. apply wp_slice; [lia..|]. intros _.
  wp_step. apply wp_index; [lia|]. intros sid _. pose proof (bval_range sid). cbv zeta.
  wp_step; [|by apply wp_ret]. to_prop. wp_step. apply wp_index; [lia|]. intros a _.
  wp_step. apply wp_index; [lia|]. intros b _. by apply wp_ret.
Qed.

Lemma onCcsServerHello_pure hsBody s : onCcsServerHello hsBody s = Ret (helloPure hsBody s).
Proof.
  pose proof (wp_onCcsServerHello hsBody s (fun _ => False)) as Hw. unfold helloPure.
  by destruct (onCcsServerHello hsBody s).
Qed.

Definition ccsStep (s : ccsState) (m : byte * bytes) : ccsState :=
  if beq (fst m) x02 then helloPure (snd m) s
  else if beq (fst m) x0e then {| serverRandom := serverRandom s; negotiatedCipher := negotiatedCipher s;
                                  transcript := transcript s; done := true |}
  else s.

Lemma ccsStep_facts s m : transcript (ccsStep s m) = transcript s /\ done (ccsStep s m) = done s || beq (fst m) x0e.
Proof.
  unfold ccsStep. destruct (beq (fst m) x02) eqn:E.
  - apply beq_true in E as ->. change (beq x02 x0e) with false. rewrite orb_false_r.
    pose proof (wp_onCcsServerHello (snd m) s (fun _ => False)) as Hw. rewrite onCcsServerHello_pure in Hw. exact Hw.
  - destruct (beq (fst m) x0e); cbn; [by rewrite orb_true_r|by rewrite orb_false_r].
Qed.

Lemma ccsSteps_facts msgs : forall s,
  transcript (fold_left ccsStep msgs s) = transcript s /\ done (fold_left ccsStep msgs s) = done s || hasDone msgs.
Proof.
  induction msgs as [|m msgs IH]; intros s; cbn [fold_left hasDone existsb]; [by rewrite orb_false_r|].
  destruct (IH (ccsStep s m)) as [-> ->], (ccsStep_facts s m) as [-> ->]. by rewrite orb_assoc.
Qed.

Lemma ccs_msg_loop msgs : Forall msgOk msgs -> forall pre fuel s, (length msgs < fuel)%nat ->
  loop (ccsMsgTurn (pre ++ encMsgs msgs)) fuel (blen pre, s)
  = Ret (inl (blen (pre ++ encMsgs msgs), fold_left ccsStep msgs s)).
Proof.
  induction 1 as [|[ty body] msgs Hm Hmsgs IH]; intros pre [|fuel] s Hf; cbn [length] in Hf; try lia; cbn [loop].
  - unfold ccsMsgTurn. change (encMsgs []) with (@nil byte). rewrite app_nil_r, (proj2 (Z.leb_gt _ _)) by lia. done.
  - unfold encMsgs. cbn [flat_map fst snd]. fold (encMsgs msgs).
    destruct (msg_header pre ty body (encMsgs msgs) Hm) as [Ht (l2 & l1 & l0 & H2 & H1 & H0 & Hlen) [_ Hfit] Hb].
    unfold ccsMsgTurn at 1. rewrite (proj2 (Z.leb_le _ _)) by (pose proof (blen_nonneg body); lia).
    rewrite Ht, H2, H1, H0. cbn [bind]. rewrite Hlen, (proj2 (Z.ltb_ge _ _)) by lia. rewrite Hb. cbn [bind].
    rewrite onCcsServerHello_pure. cbn [fold_left].
    replace (blen pre + (4 + blen body)) with (blen (pre ++ encMsg ty body)) by (rewrite blen_app, encMsg_length; lia).
    unfold ccsStep at 2. cbn [fst snd].
    destruct (beq ty x02); [|destruct (beq ty x0e)]; cbn [bind]; rewrite app_assoc; apply IH; lia.
Qed.

(** The server random and the suite that a list of messages leaves. *)
Definition sameHello (s t : ccsState) : Prop := serverRandom s = serverRandom t /\ negotiatedCipher s = negotiatedCipher t.

Lemma ccsStep_same s t m : sameHello s t -> sameHello (ccsStep s m) (ccsStep t m).
Proof.
  intros [Hr Hc]. unfold ccsStep. destruct (beq (fst m) x02); [|by destruct (beq (fst m) x0e)].
  unfold helloPure, onCcsServerHello. destruct (38 <=? _); [|by split].
  destruct (slice (snd m) 2 34) as [r| | |]; cbn [bind]; try by split.
  destruct (index (snd m) 34) as [sid| | |]; cbn [bind]; try by split.
  destruct (_ <=? _); [|by split; cbn; rewrite ?Hr].
  destruct (index (snd m) (35 + bval sid)) as [a| | |]; cbn [bind]; try by split.
  destruct (index (snd m) (35 + bval sid + 1)) as [b| | |]; cbn [bind]; try by split.
  split; cbn; by rewrite ?Hr.
Qed.

Lemma ccsSteps_same msgs : forall s t, sameHello s t -> sameHello (fold_left ccsStep msgs s) (fold_left ccsStep msgs t).
Proof. induction msgs as [|m msgs IH]; intros s t Hst; cbn [fold_left]; [done|]. by apply IH, ccsStep_same. Qed.

Lemma ccsSteps_skip msgs s :
  Forall (fun m : byte * bytes => fst m <> x02) msgs -> sameHello (fold_left ccsStep msgs s) s.
Proof.
  intros Hm. revert s. induction Hm as [|m msgs Hty Hm IH]; intros s; cbn [fold_left]; [done|].
  destruct (IH (ccsStep s m)) as [H1 H2]. unfold sameHello. rewrite H1, H2. unfold ccsStep.
  destruct (beq (fst m) x02) eqn:E; [by apply beq_true in E|]. by destruct (beq (fst m) x0e).
Qed.

Lemma helloPure_legacy w1 w0 random sid cipher comp exts s :
  blen random = 32 -> blen sid < 256 -> 0 <= cipher < 65536 ->
  serverRandom (helloPure (legacyServerHello w1 w0 random sid cipher comp exts) s) = serverRandom s ++ random
  /\ negotiatedCipher (helloPure (legacyServerHello w1 w0 random sid cipher comp exts) s) = cipher.
Proof.
  intros Hr Hs Hc. pose proof (blen_nonneg sid). pose proof (blen_nonneg exts).
  destruct (legacyServerHello_reads w1 w0 random sid cipher comp exts Hr) as (_ & _ & H34 & Ha & Hb).
  unfold helloPure, onCcsServerHello. rewrite blen_legacyServerHello, H34 by done.
  rewrite (proj2 (Z.leb_le 38 _)) by lia.
  rewrite (read_slice _ [w1; w0] random ([byteOf (blen sid)] ++ sid ++ putBE16 cipher ++ [comp] ++ putBE16 (blen exts) ++ exts))
    by (done || (rewrite Hr; done)).
  cbn [bind]. rewrite bval_byteOf, Z.mod_small by lia. rewrite (proj2 (Z.leb_le _ _)), Ha, Hb by lia. cbn [bind].
  split; [done|]. cbn [negotiatedCipher]. by rewrite be16_putBE16, u16_small.
Qed.

Section Verdict.
Context `{AesCbc} {C : Type} `{Peer C}.

(** The state of the walk after a record. *)
Definition afterRecord (s : ccsState) (msgs : list (byte * bytes)) : ccsState :=
  fold_left ccsStep msgs {| serverRandom := serverRandom s; negotiatedCipher := negotiatedCipher s;
                            transcript := transcript s ++ encMsgs msgs; done := false |}.

Lemma ccsRecordTurn_msgs (c : C) s v1 v0 msgs rest :
  pending c = encRecord x16 [v1; v0] (encMsgs msgs) ++ rest -> Forall msgOk msgs -> 0 < blen (encMsgs msgs) <= 18432 ->
  exists c', pending c' = rest /\
    ccsRecordTurn (c, s) = Ret (if hasDone msgs then Return (Some (c', afterRecord s msgs)) else Next (c', afterRecord s msgs)).
Proof.
  intros Hp Hm Hl. destruct (record_reads c x16 v1 v0 _ rest Hp)
    as (hdr & c1 & c2 & h3 & h4 & Hr1 & Hi0 & H3 & H4 & Hlen & Hr2 & Hp2); [lia|].
  exists c2. split; [done|]. unfold ccsRecordTurn. rewrite Hr1. cbn [bind]. rewrite Hi0, H3, H4. cbn [bind]. rewrite Hlen.
  change (beq x16 x15) with false. change (beq x16 x16) with true. cbn [negb].
  change (Z.shiftl 1 14 + 2048) with 18432. rewrite (proj2 (Z.leb_gt _ _)), (proj2 (Z.ltb_ge _ _)) by lia. cbn [orb].
  rewrite Hr2. cbn [bind]. change 0 with (blen (@nil byte)). change (encMsgs msgs) with ([] ++ encMsgs msgs) at 1.
  rewrite ccs_msg_loop by (done || (pose proof (length_encMsgs msgs); lia)). cbn [bind]. fold (afterRecord s msgs).
  destruct (ccsSteps_facts msgs {| serverRandom := serverRandom s; negotiatedCipher := negotiatedCipher s;
                                   transcript := transcript s ++ encMsgs msgs; done := false |}) as [_ Hd].
  cbn [done orb] in Hd. fold (afterRecord s msgs) in Hd. rewrite Hd. by destruct (hasDone msgs).
Qed.

(** A record of the flight: its messages fit and leave the walk going. *)
Definition goesOn (msgs : list (byte * bytes)) : Prop :=
  Forall msgOk msgs /\ 0 < blen (encMsgs msgs) <= 18432 /\ hasDone msgs = false.

Lemma ccs_loop v1 v0 recs msgs : Forall goesOn recs -> Forall msgOk msgs -> 0 < blen (encMsgs msgs) <= 18432 ->
  hasDone msgs = true -> forall (c : C) s rest fuel,
  pending c = flat_map (fun ms => encRecord x16 [v1; v0] (encMsgs ms)) recs ++ encRecord x16 [v1; v0] (encMsgs msgs) ++ rest ->
  (length recs < fuel)%nat ->
  exists c' s', pending c' = rest /\ loop ccsRecordTurn fuel (c, s) = Ret (inr (Some (c', s')))
    /\ transcript s' = transcript s ++ encMsgs (concat recs ++ msgs)
    /\ sameHello s' (fold_left ccsStep (concat recs ++ msgs) s).
Proof.
  intros Hrecs Hm Hl Hd. induction Hrecs as [|ms recs (Hms & Hlms & Hno) Hrecs IH]; intros c s rest [|fuel] Hp Hf;
    cbn [length] in Hf; try lia; cbn [loop].
  - destruct (ccsRecordTurn_msgs c s v1 v0 msgs rest Hp Hm Hl) as (c' & Hp' & Ht). rewrite Ht, Hd.
    exists c', (afterRecord s msgs). split_and!; [done|done| |].
    + unfold afterRecord. by rewrite (proj1 (ccsSteps_facts _ _)).
    + unfold afterRecord. by apply ccsSteps_same.
  - cbn [flat_map] in Hp. rewrite <- app_assoc in Hp.
    destruct (ccsRecordTurn_msgs c s v1 v0 ms _ Hp Hms Hlms) as (c1 & Hp1 & Ht). rewrite Ht, Hno.
    destruct (IH c1 (afterRecord s ms) rest fuel Hp1 ltac:(lia)) as (c' & s' & Hp' & Hloop & Htr & Hsame).
    exists c', s'. split_and!; [done|done| |].
    + rewrite Htr. unfold afterRecord. rewrite (proj1 (ccsSteps_facts _ _)). cbn [transcript concat].
      rewrite <- !app_assoc. f_equal. unfold encMsgs. by rewrite (flat_map_app _ ms).
    + cbn [concat]. rewrite <- app_assoc, fold_left_app.
      assert (Heq : sameHello (fold_left ccsStep (concat recs ++ msgs) (afterRecord s ms))
                      (fold_left ccsStep (concat recs ++ msgs) (fold_left ccsStep ms s)))
        by (apply ccsSteps_same; unfold afterRecord; by apply ccsSteps_same).
      destruct Hsame as [Hs1 Hs2], Heq as [Hs3 Hs4]. split; [by rewrite Hs1|by rewrite Hs2].
Qed.

Lemma length_records v1 v0 recs :
  (length recs <= length (flat_map (fun ms => encRecord x16 [v1; v0] (encMsgs ms)) recs))%nat.
Proof.
  induction recs as [|ms recs IH]; cbn [flat_map length]; [lia|]. rewrite length_app. cbn [encRecord length]. lia.
Qed.

Lemma deriveKeys_ok master sr cr :
  exists keys, deriveKeysAES128CBCSHA master sr cr = Ret keys /\ blen (ClientKey keys) = 16.
Proof.
  unfold deriveKeysAES128CBCSHA. destruct (blen_prf master "key expansion" (sr ++ cr) 72) as (block & -> & Hb); [lia|].
  cbn [bind]. rewrite !slice_ok by lia. cbn [bind]. eexists. split; [reflexivity|]. cbn [ClientKey].
  apply blen_sub; lia.
Qed.

(** C17. The CCS-injection probe against a server that answers with the flight of a
    handshake - one ServerHello with a random of 32 bytes and the offered suite,
    ServerHelloDone at the end: it injects the ChangeCipherSpec and sends one record,
    which a TLS 1.2 receiver holding the keys of the empty master secret decrypts,
    with valid padding and MAC, to the Finished of exactly this handshake; the
    verdict is whether the next record of the server is a handshake record. So a
    server that accepts its Finished under the empty master secret and answers with
    its own is reported, and one that answers with an alert is not. *)
Theorem probeCCSInjection_verdict (net : bytes -> option C) host clientRandom iv conn v1 v0 recs msgs rest
    before after w1 w0 random sid comp exts
  (Hiv : blen iv = 16) (Hnet : net (ccsClientHello host clientRandom) = Some conn)
  (Hrecs : Forall goesOn recs) (Hmsgs : Forall msgOk msgs) (Hlen : 0 < blen (encMsgs msgs) <= 18432)
  (Hdone : hasDone msgs = true)
  (Hconn : pending conn = flat_map (fun ms => encRecord x16 [v1; v0] (encMsgs ms)) recs
     ++ encRecord x16 [v1; v0] (encMsgs msgs) ++ rest)
  (Hflight : concat recs ++ msgs = before ++ (x02, legacyServerHello w1 w0 random sid 0x002f comp exts) :: after)
  (Honce : Forall (fun m : byte * bytes => fst m <> x02) (before ++ after))
  (Hrandom : blen random = 32) (Hsid : blen sid < 256) :
  let handshake := encMsg x01 (helloBody 0x0303 clientRandom [x00; x2f] (buildSNIExtension host))
                   ++ encMsgs (concat recs ++ msgs) in
  exists conn' keys verifyData recordBody,
    pending conn' = rest
    /\ deriveKeysAES128CBCSHA (repeat x00 48) random clientRandom = Ret keys
    /\ finishedVerifyData (repeat x00 48) (sha256 handshake) = Ret verifyData
    /\ receiveRecord keys x16 0x0303 0 recordBody = Some (encMsg x14 verifyData)
    /\ forall conn2 conn3 ty u1 u0 payload rest3,
         send ccsInjected conn' = Some conn2 ->
         send ([x16; x03; x03] ++ putBE16 (blen recordBody) ++ recordBody) conn2 = Some conn3 ->
         pending conn3 = encRecord ty [u1; u0] payload ++ rest3 -> blen payload < 65536 ->
         probeCCSInjection net host clientRandom iv = Ret (beq ty x16).
Proof.
  intros handshake. set (helloMsg := encMsg x01 _) in handshake.
  set (s0 := {| serverRandom := []; negotiatedCipher := 0; transcript := helloMsg; done := false |}).
  destruct (ccs_loop v1 v0 recs msgs Hrecs Hmsgs Hlen Hdone conn s0 rest (S (length (pending conn))) Hconn)
    as (conn' & s' & Hp' & Hloop & Htr & [Hsr Hsc]).
  { rewrite Hconn, length_app. pose proof (length_records v1 v0 recs). lia. }
  assert (Hhello : serverRandom s' = random /\ negotiatedCipher s' = 0x002f).
  { rewrite Hsr, Hsc, Hflight, fold_left_app. cbn [fold_left]. apply Forall_app in Honce as [Hbef Haft].
    destruct (ccsSteps_skip after (ccsStep (fold_left ccsStep before s0)
      (x02, legacyServerHello w1 w0 random sid 0x002f comp exts)) Haft) as [-> ->].
    unfold ccsStep at 1 3. cbn [fst snd]. change (beq x02 x02) with true.
    destruct (helloPure_legacy w1 w0 random sid 0x002f comp exts (fold_left ccsStep before s0) Hrandom Hsid ltac:(lia)) as [-> ->].
    by rewrite (proj1 (ccsSteps_skip before s0 Hbef)). }
  destruct Hhello as [Hr Hc].
  destruct (deriveKeys_ok (repeat x00 48) random clientRandom) as (keys & Hk & Hck).
  destruct (blen_prf (repeat x00 48) "client finished" (sha256 handshake) 12) as (vd & Hvd & Hvl); [lia|].
  change (tlsPRF12 _ _ _ 12) with (finishedVerifyData (repeat x00 48) (sha256 handshake)) in Hvd.
  destruct (receive_encrypt ([x14; x00; x00; x0c] ++ vd) keys x16 0x0303 0 iv Hck Hiv) as (rb & Henc & Hrecv).
  exists conn', keys, vd, rb. split_and!; [done|done|done| |].
  { rewrite Hrecv. unfold encMsg. rewrite Hvl. done. }
  intros conn2 conn3 ty u1 u0 payload rest3 Hs1 Hs2 Hp3 Hl3.
  unfold probeCCSInjection. unfold ccsClientHello in *. rewrite helloRecord_enc in *. fold helloMsg in Hnet |- *.
  change (encRecord x16 (putBE16 0x0303) helloMsg) with (([x16] ++ putBE16 0x0303 ++ putBE16 (blen helloMsg)) ++ helloMsg).
  rewrite (sliceFrom_app ([x16] ++ putBE16 0x0303 ++ putBE16 (blen helloMsg)) helloMsg 5) by done. cbn [bind].
  change (([x16] ++ putBE16 0x0303 ++ putBE16 (blen helloMsg)) ++ helloMsg) with (encRecord x16 (putBE16 0x0303) helloMsg).
  rewrite Hnet. fold s0. rewrite Hloop. cbn [bind]. rewrite Hc, Hr, Hrandom. cbn [Z.eqb Pos.eqb negb orb].
  rewrite Hs1. unfold ccsFinishedRecord. rewrite Hk. cbn [bind].
  replace (transcript s') with handshake by (rewrite Htr; done). rewrite Hvd. cbn [bind]. rewrite Henc. cbn [bind].
  rewrite <- app_assoc, Hs2.
  destruct (record_reads conn3 ty u1 u0 payload rest3 Hp3 Hl3) as (hdr & c1 & c2 & h3 & h4 & Hr1 & Hi0 & _).
  rewrite Hr1. cbn [bind]. by rewrite Hi0.
Qed.
End Verdict.

(** Record protection of TLS 1.2 with AES-128-CBC and HMAC-SHA1: with a 16-byte
    key and IV the record is built without error or panic, whatever the length of
    the plaintext, and a receiver with the same keys, sequence number, type and
    version gets the plaintext back; and the key schedule always gives such keys. *)
Theorem encryptRecord_roundtrip `{AesCbc} plaintext master serverRandom clientRandom recordType version seqNum iv
  (Hiv : blen iv = 16) :
  exists keys body, deriveKeysAES128CBCSHA master serverRandom clientRandom = Ret keys
    /\ encryptRecordAES128CBCSHA plaintext keys recordType version seqNum iv = Ret body
    /\ receiveRecord keys recordType version seqNum body = Some plaintext.
Proof.
  destruct (deriveKeys_ok master serverRandom clientRandom) as (keys & Hk & Hck).
  destruct (receive_encrypt plaintext keys recordType version seqNum iv Hck Hiv) as (body & He & Hr). by exists keys, body.
Qed.

Module CcsWitnesses.
(** A block cipher in name: it leaves the blocks as they are. *)
#[local] Program Instance plainCbc : AesCbc := {| cbcEncrypt _ _ m := m; cbcDecrypt _ _ m := m |}.
Solve All Obligations with done.
#[local] Instance scripted : Peer bytes := {| send := fun _ c => Some c |}.

Lemma encryptRecord_roundtrip_witness :
  exists keys body, encryptRecordAES128CBCSHA [x14; x00] keys x16 0x0303 7 (repeat x05 16) = Ret body
    /\ receiveRecord keys x16 0x0303 7 body = Some [x14; x00].
Proof.
  destruct (encryptRecord_roundtrip [x14; x00] (repeat x00 48) [x01] [x02] x16 0x0303 7 (repeat x05 16) eq_refl)
    as (keys & body & _ & H). by exists keys, body.
Defined.

Definition vulnerableFlight : list (byte * bytes) :=
  [(x02, legacyServerHello x03 x03 (repeat x09 32) [] 0x002f x00 []); (x0b, [x00; x00; x00]); (x0e, [])].
Definition vulnerableServer : bytes :=
  encRecord x16 [x03; x03] (encMsgs vulnerableFlight) ++ encRecord x16 [x03; x03] (repeat xaa 64) ++ [].

Lemma probeCCSInjection_verdict_witness :
  probeCCSInjection (fun _ => Some vulnerableServer) "h" (repeat x07 32) (repeat x05 16) = Ret true.
Proof.
  destruct (probeCCSInjection_verdict (C := bytes) (fun _ => Some vulnerableServer) "h" (repeat x07 32) (repeat x05 16)
    vulnerableServer x03 x03 [] vulnerableFlight (encRecord x16 [x03; x03] (repeat xaa 64) ++ []) []
    [(x0b, [x00; x00; x00]); (x0e, [])] x03 x03 (repeat x09 32) [] x00 [] eq_refl eq_refl)
    as (conn' & keys & vd & rb & Hp & _ & _ & _ & Hv).
  - constructor.
  - repeat constructor; by vm_compute.
  - by vm_compute.
  - by vm_compute.
  - reflexivity.
  - reflexivity.
  - repeat constructor; by vm_compute.
  - reflexivity.
  - reflexivity.
  - exact (Hv conn' conn' x16 x03 x03 (repeat xaa 64) [] eq_refl eq_refl Hp eq_refl).
Defined.
End CcsWitnesses.
