(* ===== verification/Robot.v ===== *)
(** The ROBOT probe of [tls_robot.go].  [crypto/rsa] and [crypto/x509] are
    parameters: what key a certificate holds, and PKCS#1 v1.5 encryption. *)

From Stdlib Require Import ZArith List String Ascii Strings.Byte Lia Bool Permutation.
From stdpp Require Import base list strings numbers gmap.
From S2P Require Import Prelude Bytes GoStrings Decimal Stream Extensions Flight Service ClientHellos Ccs.
Open Scope Z_scope.

Record robotResult := {
  Probed : bool;
  CipherTested : string;
  DistinctBuckets : Z;
  Vulnerable : bool;
  BucketSummary : string
}.

(** RSA keys: [certKey] is [x509.ParseCertificate] and the type assertion on its
    key ([None] when either fails); [encrypt] is [rsa.EncryptPKCS1v15] with the
    random bytes it draws, [None] for an error. *)
Class RsaKeys (K : Type) := {
  certKey : bytes -> option K;
  keySize : K -> Z;
  encrypt : K -> bytes -> bytes -> option bytes;
  encrypt_length : forall k r m c, encrypt k r m = Some c -> blen c = keySize k /\ blen m + 11 <= keySize k
}.

(** ** The mutations *)

(** [b[i] ^= 0x01]: out of range it panics. *)
Definition flipAt (b : bytes) (i : Z) : outcome bytes :=
  x <~ index b i ;; Ret (<[Z.to_nat i := byteOf (Z.lxor (bval x) 1)]> b).

Definition mutateValid (encrypted : bytes) : outcome bytes := Ret encrypted.
Definition mutateBadVersion (encrypted : bytes) : outcome bytes :=
  if 0 <? blen encrypted then flipAt encrypted 0 else Ret encrypted.
Definition mutateBadSeparator (encrypted : bytes) : outcome bytes :=
  if 1 <? blen encrypted then flipAt encrypted (blen encrypted - 49) else Ret encrypted.
Definition mutateShortPMS (encrypted : bytes) : outcome bytes :=
  if blen encrypted <? 32 then Ret encrypted else slice encrypted 0 (blen encrypted - 2).
(** [rnd] is what [rand.Read] left in the new slice. *)
Definition mutateRandomCipher (rnd : bytes) (encrypted : bytes) : outcome bytes := Ret (take (length encrypted) rnd).

Definition buildClientKeyExchangeRSA (encryptedPMS : bytes) : bytes :=
  let body := putBE16 (blen encryptedPMS) in
  let body := body ++ encryptedPMS in
  let hs := [x10] ++ putBE24 (blen body) in
  let hs := hs ++ body in
  let rec := [x16; x03; x03] ++ putBE16 (blen hs) in
  rec ++ hs.

Definition parseRSAKeyFromCertList {K} `{RsaKeys K} (b : bytes) : outcome (option K) :=
  if blen b <? 3 then Ret None else
  b2 <~ index b 0 ;; b1 <~ index b 1 ;; b0 <~ index b 2 ;;
  let listLen := be24 b2 b1 b0 in
  if blen b <? listLen + 3 then Ret None else
  p <~ slice b 3 (3 + listLen) ;;
  if blen p <? 3 then Ret None else
  p2 <~ index p 0 ;; p1 <~ index p 1 ;; p0 <~ index p 2 ;;
  let certLen := be24 p2 p1 p0 in
  if blen p <? certLen + 3 then Ret None else
  certDER <~ slice p 3 (3 + certLen) ;;
  Ret (certKey certDER).

(** ** The connections *)

(** [net.DialTimeout] and the write of the hello: either can fail. *)
Inductive dialed (C : Type) := DialErr | WriteErr | Connected (conn : C).
Arguments DialErr {C}.
Arguments WriteErr {C}.
Arguments Connected {C} conn.

Section Probe.
Context {K : Type} `{RsaKeys K} {C : Type} `{Peer C}.

(** [for i+4 <= len(body)] of [fetchRSAServerKey]: the result is the key and [ok]. *)
Definition certTurn (body : bytes) (i : Z) : outcome (step Z (option K * bool)) :=
  if i + 4 <=? blen body then
    hsType <~ index body i ;;
    l2 <~ index body (i + 1) ;; l1 <~ index body (i + 2) ;; l0 <~ index body (i + 3) ;;
    let hsLen := be24 l2 l1 l0 in
    if blen body <? i + 4 + hsLen then Ret (Return (None, false)) else
    hsBody <~ slice body (i + 4) (i + 4 + hsLen) ;;
    if beq hsType x0b then k <~ parseRSAKeyFromCertList hsBody ;; Ret (Return (k, true))
    else Ret (Next (i + (4 + hsLen)))
  else Ret (Break i).

Definition fetchTurn (conn : C) : outcome (step C (option K * bool)) :=
  unpack (hdr, conn) <~ readFull 5 conn ;;
  match hdr with
  | None => Ret (Return (None, false))
  | Some hdr =>
      h0 <~ index hdr 0 ;;
      if negb (beq h0 x16) then Ret (Return (None, false)) else
      h3 <~ index hdr 3 ;; h4 <~ index hdr 4 ;;
      let recLen := be16 h3 h4 in
      if (recLen <=? 0) || (Z.shiftl 1 14 + 2048 <? recLen) then Ret (Return (None, false)) else
      unpack (body, conn) <~ readFull recLen conn ;;
      match body with
      | None => Ret (Return (None, false))
      | Some body =>
          r <~ loop (certTurn body) (S (length body)) 0 ;;
          Ret (match r with inl _ => Next conn | inr r => Return r end)
      end
  end.

Definition fetchRSAServerKey (net : bytes -> dialed C) (host : string) (clientRandom : bytes) : outcome (option K * bool) :=
  match net (ccsClientHello host clientRandom) with
  | DialErr | WriteErr => Ret (None, false)
  | Connected conn => orElse (None, false) (loop fetchTurn (S (length (pending conn))) conn)
  end.

(** [for i+4 <= len(body)] of [probeOneROBOT]: the state is [i] and [done]. *)
Definition robotMsgTurn (body : bytes) (st : Z * bool) : outcome (step (Z * bool) unit) :=
  let '(i, done) := st in
  if i + 4 <=? blen body then
    hsType <~ index body i ;;
    l2 <~ index body (i + 1) ;; l1 <~ index body (i + 2) ;; l0 <~ index body (i + 3) ;;
    let hsLen := be24 l2 l1 l0 in
    if blen body <? i + 4 + hsLen then Ret (Break (i, done)) else
    Ret (Next (i + (4 + hsLen), done || beq hsType x0e))
  else Ret (Break (i, done)).

(** The walk to ServerHelloDone: the connection after it, or the signature of what
    went wrong. *)
Definition robotTurn (conn : C) : outcome (step C (C + string)) :=
  unpack (hdr, conn) <~ readFull 5 conn ;;
  match hdr with
  | None => Ret (Return (inr "early_io_err"%string))
  | Some hdr =>
      h0 <~ index hdr 0 ;;
      if negb (beq h0 x16) then Ret (Return (inr "non_handshake_record"%string)) else
      h3 <~ index hdr 3 ;; h4 <~ index hdr 4 ;;
      let recLen := be16 h3 h4 in
      unpack (body, conn) <~ readFull recLen conn ;;
      match body with
      | None => Ret (Return (inr "body_io_err"%string))
      | Some body =>
          r <~ loop (robotMsgTurn body) (S (length body)) (0, false) ;;
          let done := match r with inl (_, done) => done | inr _ => false end in
          if done then Ret (Return (inl conn)) else Ret (Next conn)
      end
  end.

(** What the single [conn.Read] of the response gives. *)
Inductive readResult := Data (got : bytes) | EOF | ReadErr.

Definition responseSignature (r : readResult) : outcome string :=
  match r with
  | EOF => Ret "eof"%string
  | ReadErr => Ret "read_err"%string
  | Data resp =>
      let n := blen resp in
      if n <? 6 then Ret "short_response"%string else
      recordType <~ index resp 0 ;;
      let lengthBucket := byteOf (n / 16) in
      lb <~ uint8str (bval lengthBucket) ;;
      if beq recordType x15 && (7 <=? n) then
        r5 <~ index resp 5 ;; r6 <~ index resp 6 ;;
        l <~ uint8str (bval r5) ;; d <~ uint8str (bval r6) ;;
        Ret ("alert_l" +:+ l +:+ "_d" +:+ d +:+ "_lb" +:+ lb)%string
      else
        t <~ uint8str (bval recordType) ;;
        Ret ("rt" +:+ t +:+ "_lb" +:+ lb)%string
  end.

(** What a probe draws from [rand.Reader]. *)
Record draws := { dRandom : bytes; dPremaster : bytes; dPadding : bytes; dFinished : bytes }.

Definition robotCCS : bytes := [x14; x03; x03; x00; x01; x01].

(** [pubKey] is [None] for the nil pointer, on which [EncryptPKCS1v15] panics. *)
Definition probeOneROBOT (net : bytes -> dialed C) (readOnce : C -> readResult) (host : string) (pubKey : option K)
    (mutate : bytes -> outcome bytes) (d : draws) : outcome string :=
  match net (ccsClientHello host (dRandom d)) with
  | DialErr => Ret "dial_failed"%string
  | WriteErr => Ret "hello_write_failed"%string
  | Connected conn =>
      r <~ loop robotTurn (S (length (pending conn))) conn ;;
      match r with
      | inl _ => Ret ""%string
      | inr (inr sig) => Ret sig
      | inr (inl conn) =>
          let premaster := [x03; x03] ++ dPremaster d in
          match pubKey with
          | None => Panic
          | Some pubKey =>
              match encrypt pubKey (dPadding d) premaster with
              | None => Ret "rsa_encrypt_err"%string
              | Some encrypted =>
                  mutated <~ mutate encrypted ;;
                  match send (buildClientKeyExchangeRSA mutated) conn with
                  | None => Ret "cke_write_failed"%string
                  | Some conn =>
                      match send robotCCS conn with
                      | None => Ret "ccs_write_failed"%string
                      | Some conn =>
                          match send ([x16; x03; x03; x00; x3b] ++ dFinished d) conn with
                          | None => Ret "finished_write_failed"%string
                          | Some conn => responseSignature (readOnce conn)
                          end
                      end
                  end
              end
          end
      end
  end.

(** ** The verdict *)

Definition robotProbes (rnd : bytes) : list (string * (bytes -> outcome bytes)) :=
  [("valid", mutateValid); ("bad_version", mutateBadVersion); ("bad_separator", mutateBadSeparator);
   ("short_pms", mutateShortPMS); ("random_cipher", mutateRandomCipher rnd)]%string.

Definition addToBucket (buckets : gmap string (list string)) (sig name : string) : gmap string (list string) :=
  <[sig := default [] (buckets !! sig) ++ [name]]> buckets.

(** [order] lists the entries of the map as Go's [range] visits them. *)
Definition formatBuckets (order : list (string * list string)) : string :=
  Join (map (fun b => (fst b +:+ "={" +:+ Join (snd b) "," +:+ "}")%string) order) " | ".

(** From the signatures of the five probes, in the order they run, to the result.  [visit] is the order in which Go's [range] goes through a map. *)
Definition robotVerdict (sigs : list (string * string)) (visit : gmap string (list string) -> list (string * list string)) : robotResult :=
  let buckets := fold_left (fun b p => addToBucket b (snd p) (fst p)) sigs ∅ in
  let probeBucket := fold_left (fun m p => <[fst p := snd p]> m) sigs (∅ : gmap string string) in
  let validBucket := get probeBucket "valid" in
  let i0 := get probeBucket "bad_version" in
  let i1 := get probeBucket "bad_separator" in
  let i2 := get probeBucket "random_cipher" in
  let allInvalidSame := negb (String.eqb i0 "") && String.eqb i0 i1 && String.eqb i0 i2 in
  let validDiffersFromInvalid := negb (String.eqb validBucket "") && negb (String.eqb validBucket i0) in
  {| Probed := true; CipherTested := "TLS_RSA_WITH_AES_128_CBC_SHA"; DistinctBuckets := Z.of_nat (size buckets);
     Vulnerable := allInvalidSame && validDiffersFromInvalid; BucketSummary := formatBuckets (visit buckets) |}.

(** The five probes: probe [i] dials [nets i] and draws [ds i]. *)
Fixpoint runProbes (nets : nat -> bytes -> dialed C) (readOnce : C -> readResult) (host : string) (rsaKey : option K)
    (ds : nat -> draws) (i : nat) (probes : list (string * (bytes -> outcome bytes))) : outcome (list (string * string)) :=
  match probes with
  | [] => Ret []
  | (name, mutate) :: probes =>
      sig <~ probeOneROBOT (nets i) readOnce host rsaKey mutate (ds i) ;;
      rest <~ runProbes nets readOnce host rsaKey ds (S i) probes ;;
      Ret ((name, sig) :: rest)
  end.

Definition probeROBOT (net0 : bytes -> dialed C) (nets : nat -> bytes -> dialed C) (readOnce : C -> readResult)
    (host : string) (clientRandom rnd : bytes) (ds : nat -> draws) (visit : gmap string (list string) -> list (string * list string))
    : outcome robotResult :=
  unpack (rsaKey, ok) <~ fetchRSAServerKey net0 host clientRandom ;;
  if negb ok then
    Ret {| Probed := false; CipherTested := ""; DistinctBuckets := 0; Vulnerable := false; BucketSummary := "" |}
  else
    sigs <~ runProbes nets readOnce host rsaKey ds 0 (robotProbes rnd) ;;
    Ret (robotVerdict sigs visit).
End Probe.

Definition robotHeadline (r : robotResult) : string :=
  if negb (Probed r) then ""%string
  else if Vulnerable r then "ROBOT: vulnerable (Bleichenbacher oracle)"%string else ""%string.

(** ** Every step returns *)

Lemma wp_parseRSAKey {K} `{RsaKeys K} b E : wp (parseRSAKeyFromCertList b) (fun _ => True) E.
Proof.
  unfold parseRSAKeyFromCertList. wp_step; [done|]. to_prop.
  wp_step. apply wp_index; [lia|]. intros b2 _. wp_step. apply wp_index; [lia|]. intros b1 _.
  wp_step. apply wp_index; [lia|]. intros b0 _. pose proof (be24_range b2 b1 b0). cbv zeta. wp_step; [done|]. to_prop.
  wp_step. apply wp_slice; [lia..|]. intros _. wp_step; [done|]. to_prop.
  wp_step. apply wp_index; [lia|]. intros p2 _. wp_step. apply wp_index; [lia|]. intros p1 _.
  wp_step. apply wp_index; [lia|]. intros p0 _. pose proof (be24_range p2 p1 p0). cbv zeta. wp_step; [done|]. to_prop.
  wp_step. by apply wp_slice; [lia..|].
Qed.

Lemma uint8str_bval x : uint8str (bval x) = Ret (decNat (bval x)).
Proof. apply printer_decNat. pose proof (bval_range x). lia. Qed.

(** The signature as a total function, and it is never empty. *)
Definition signatureOf (r : readResult) : string :=
  match responseSignature r with Ret s => s | _ => ""%string end.

Lemma responseSignature_ok r : responseSignature r = Ret (signatureOf r) /\ signatureOf r <> ""%string.
Proof.
  unfold signatureOf. destruct r as [resp| |]; [|done..]. unfold responseSignature.
  destruct (blen resp <? 6) eqn:E6; [done|]. to_prop.
  destruct (index_some resp 0) as [t Ht]; [lia|]. destruct (index_some resp 5) as [r5 H5]; [lia|].
  rewrite Ht, H5, uint8str_bval. cbn [bind]. destruct (beq t x15 && (7 <=? blen resp)) eqn:E.
  - to_prop. destruct (index_some resp 6) as [r6 H6]; [lia|]. rewrite H6. cbn [bind]. rewrite !uint8str_bval. done.
  - rewrite uint8str_bval. done.
Qed.

Lemma flipAt_ok b i : 0 <= i < blen b -> exists b', flipAt b i = Ret b'.
Proof. intros Hi. unfold flipAt. destruct (index_some b i Hi) as [x ->]. cbn. eauto. Qed.

(** The mutations that the probe runs, on a ciphertext of at least 49 bytes. *)
Lemma mutations_ok rnd name mutate e :
  In (name, mutate) (robotProbes rnd) -> 49 <= blen e -> exists m, mutate e = Ret m.
Proof.
  intros Hin He. destruct Hin as [[= <- <-]|[[= <- <-]|[[= <- <-]|[[= <- <-]|[[= <- <-]|[]]]]]]; [by exists e| | | |eexists; done].
  - unfold mutateBadVersion. rewrite (proj2 (Z.ltb_lt _ _)) by lia. apply flipAt_ok. lia.
  - unfold mutateBadSeparator. rewrite (proj2 (Z.ltb_lt _ _)) by lia. apply flipAt_ok. lia.
  - unfold mutateShortPMS. rewrite (proj2 (Z.ltb_ge _ _)) by lia. rewrite slice_ok by lia. eauto.
Qed.

Section Total.
Context {K : Type} `{RsaKeys K} {C : Type} `{Peer C}.

Lemma wp_certLoop body E : wp (loop (certTurn (K := K) body) (S (length body)) 0) (fun _ => True) E.
Proof.
  apply (wp_loop _ (fun i => 0 <= i) (fun i => length body - Z.to_nat i)%nat); [|lia|lia].
  intros i Hi. unfold certTurn. wp_step; [|done]. to_prop.
  wp_step. apply wp_index; [lia|]. intros ty _. wp_step. apply wp_index; [lia|]. intros l2 _.
  wp_step. apply wp_index; [lia|]. intros l1 _. wp_step. apply wp_index; [lia|]. intros l0 _.
  pose proof (be24_range l2 l1 l0). cbv zeta. wp_step; [done|]. to_prop.
  wp_step. apply wp_slice; [lia..|]. intros _. wp_step.
  - wp_step. eapply wp_mono; [apply (wp_parseRSAKey _ (fun _ => False))|done|done].
  - apply wp_ret. unfold blen in *. cbn. lia.
Qed.

Lemma wp_fetch (net : bytes -> dialed C) host rnd E : wp (fetchRSAServerKey (K := K) net host rnd) (fun _ => True) E.
Proof.
  unfold fetchRSAServerKey. destruct (net _) as [| |conn]; [done..|]. unfold orElse. wp_step.
  apply (wp_loop _ (fun _ => True) (fun c => length (pending c))); [|done|lia].
  intros c _. unfold fetchTurn. wp_step. apply wp_readFull; [lia| |done]. intros hdr c2 Hp2 Hh. cbn beta iota.
  wp_step. apply wp_index; [lia|]. intros h0 _. wp_step; [done|].
  wp_step. apply wp_index; [lia|]. intros h3 _. wp_step. apply wp_index; [lia|]. intros h4 _.
  cbv zeta. wp_step; [done|]. to_prop. wp_step. apply wp_readFull; [lia| |done]. intros body c3 Hp3 Hb. cbn beta iota.
  wp_step. eapply wp_mono; [apply (wp_certLoop body (fun _ => False))| |done]. intros [i|r] _; cbn; [|done].
  apply (f_equal length) in Hp2, Hp3. rewrite length_app in Hp2, Hp3. unfold blen in *. split; [done|lia].
Qed.

Lemma wp_robotMsgs body E :
  wp (loop (robotMsgTurn body) (S (length body)) (0, false)) (fun _ => True) E.
Proof.
  apply (wp_loop _ (fun st => 0 <= fst st) (fun st => length body - Z.to_nat (fst st))%nat); [|cbn; lia|cbn; lia].
  intros [i d] Hi. cbn [fst] in Hi. unfold robotMsgTurn. wp_step; [|done]. to_prop.
  wp_step. apply wp_index; [lia|]. intros ty _. wp_step. apply wp_index; [lia|]. intros l2 _.
  wp_step. apply wp_index; [lia|]. intros l1 _. wp_step. apply wp_index; [lia|]. intros l0 _.
  pose proof (be24_range l2 l1 l0). cbv zeta. wp_step; [done|]. to_prop.
  apply wp_ret. unfold blen in *. cbn. lia.
Qed.

Lemma wp_robotWalk (conn : C) E : wp (loop robotTurn (S (length (pending conn))) conn)
  (fun r => match r with inl _ => False | inr (inr sig) => sig <> ""%string | _ => True end) E.
Proof.
  apply (wp_loop _ (fun _ => True) (fun c => length (pending c))); [|done|lia].
  intros c _. unfold robotTurn. wp_step. apply wp_readFull; [lia| |done]. intros hdr c2 Hp2 Hh. cbn beta iota.
  wp_step. apply wp_index; [lia|]. intros h0 _. wp_step; [done|].
  wp_step. apply wp_index; [lia|]. intros h3 _. wp_step. apply wp_index; [lia|]. intros h4 _.
  cbv zeta. pose proof (be16_range h3 h4). wp_step. apply wp_readFull; [lia| |done]. intros body c3 Hp3 Hb. cbn beta iota.
  wp_step. eapply wp_mono; [apply (wp_robotMsgs body (fun _ => False))| |done]. intros r _.
  wp_step; [done|]. apply wp_ret. cbn.
  apply (f_equal length) in Hp2, Hp3. rewrite length_app in Hp2, Hp3. unfold blen in *. split; [done|lia].
Qed.

(** One probe returns a signature unless the key is nil. *)
Lemma probeOne_ok (net : bytes -> dialed C) readOnce host (k : K) rnd name mutate d :
  In (name, mutate) (robotProbes rnd) -> blen (dPremaster d) = 46 ->
  exists sig, probeOneROBOT net readOnce host (Some k) mutate d = Ret sig /\ sig <> ""%string.
Proof.
  intros Hin Hd. unfold probeOneROBOT. destruct (net _) as [| |conn]; [by eauto..|].
  pose proof (wp_robotWalk conn (fun _ => False)) as Hw.
  destruct (loop robotTurn _ conn) as [[?|[c'|sig]]| | |]; try done; cbn [bind]; [|by eauto].
  destruct (encrypt k (dPadding d) ([x03; x03] ++ dPremaster d)) as [e|] eqn:He; [|by eauto].
  apply encrypt_length in He as [He1 He2]. rewrite blen_app, Hd in He2. change (blen [x03; x03]) with 2 in He2.
  destruct (mutations_ok rnd name mutate e Hin) as [m Hm]; [lia|]. rewrite Hm. cbn [bind].
  do 3 (destruct (send _ _) as [?|]; [|by eauto]). destruct (responseSignature_ok (readOnce c1)) as [-> Hs]. eauto.
Qed.
End Total.

(** ** The walks over a well-formed flight *)

Definition isCert (m : byte * bytes) : bool := beq (fst m) x0b.

(** The body of a Certificate message: the leaf first. *)
Definition certificateMsg (der more : bytes) : bytes :=
  let l := putBE24 (blen der) ++ der ++ more in putBE24 (blen l) ++ l.

Section Walks.
Context {K : Type} `{RsaKeys K} {C : Type} `{Peer C}.

Lemma parseRSAKey_certificate (der more : bytes) : blen (certificateMsg der more) < 16777216 ->
  parseRSAKeyFromCertList (certificateMsg der more) = Ret (certKey der).
Proof.
  unfold certificateMsg. cbv zeta. set (l := putBE24 (blen der) ++ der ++ more).
  assert (Hd : blen l = 3 + blen der + blen more) by (unfold l; rewrite !blen_app; change (blen (putBE24 _)) with 3; lia).
  rewrite blen_app. change (blen (putBE24 (blen l))) with 3. intros Hb.
  pose proof (blen_nonneg der). pose proof (blen_nonneg more). unfold parseRSAKeyFromCertList.
  rewrite (proj2 (Z.ltb_ge _ _)) by (rewrite blen_app; change (blen (putBE24 (blen l))) with 3; lia).
  rewrite (read_index _ [] (byteOf (Z.shiftr (blen l) 16)) ([byteOf (Z.shiftr (blen l) 8); byteOf (blen l)] ++ l)) by done.
  rewrite (read_index _ [byteOf (Z.shiftr (blen l) 16)] (byteOf (Z.shiftr (blen l) 8)) ([byteOf (blen l)] ++ l)) by done.
  rewrite (read_index _ [byteOf (Z.shiftr (blen l) 16); byteOf (Z.shiftr (blen l) 8)] (byteOf (blen l)) l) by done.
  cbn [bind]. rewrite be24_putBE24, Z.mod_small by lia.
  rewrite (proj2 (Z.ltb_ge _ _)) by (rewrite blen_app; change (blen (putBE24 (blen l))) with 3; lia).
  rewrite (read_slice _ (putBE24 (blen l)) l []) by (rewrite ?app_nil_r; done || (change (blen (putBE24 _)) with 3; lia)).
  cbn [bind]. rewrite (proj2 (Z.ltb_ge _ _)) by lia.
  rewrite (read_index l [] (byteOf (Z.shiftr (blen der) 16)) ([byteOf (Z.shiftr (blen der) 8); byteOf (blen der)] ++ der ++ more)) by done.
  rewrite (read_index l [byteOf (Z.shiftr (blen der) 16)] (byteOf (Z.shiftr (blen der) 8)) ([byteOf (blen der)] ++ der ++ more)) by done.
  rewrite (read_index l [byteOf (Z.shiftr (blen der) 16); byteOf (Z.shiftr (blen der) 8)] (byteOf (blen der)) (der ++ more)) by done.
  cbn [bind]. rewrite be24_putBE24, Z.mod_small by lia. rewrite (proj2 (Z.ltb_ge _ _)) by lia.
  rewrite (read_slice l (putBE24 (blen der)) der more) by (done || (change (blen (putBE24 _)) with 3; lia)). done.
Qed.

Lemma cert_loop msgs : Forall msgOk msgs -> forall pre fuel, (length msgs < fuel)%nat ->
  loop (certTurn (K := K) (pre ++ encMsgs msgs)) fuel (blen pre)
  = match List.find isCert msgs with
    | Some m => k <~ parseRSAKeyFromCertList (snd m) ;; Ret (inr (k, true))
    | None => Ret (inl (blen (pre ++ encMsgs msgs)))
    end.
Proof.
  induction 1 as [|[ty m] msgs Hm Hmsgs IH]; intros pre [|fuel] Hf; cbn [length] in Hf; try lia; cbn [loop].
  - unfold certTurn. change (encMsgs []) with (@nil byte). rewrite app_nil_r, (proj2 (Z.leb_gt _ _)) by lia. done.
  - unfold encMsgs. cbn [flat_map fst snd]. fold (encMsgs msgs).
    destruct (msg_header pre ty m (encMsgs msgs) Hm) as [Ht (l2 & l1 & l0 & E2 & E1 & E0 & Hlen) [_ Hfit] Hb].
    unfold certTurn at 1. rewrite (proj2 (Z.leb_le _ _)) by (pose proof (blen_nonneg m); lia).
    rewrite Ht, E2, E1, E0. cbn [bind]. rewrite Hlen, (proj2 (Z.ltb_ge _ _)) by lia. rewrite Hb. cbn [bind].
    cbn [List.find]. unfold isCert at 1. cbn [fst]. destruct (beq ty x0b).
    + cbn [snd]. by destruct (parseRSAKeyFromCertList m).
    + cbn [bind]. replace (blen pre + (4 + blen m)) with (blen (pre ++ encMsg ty m)) by (rewrite blen_app, encMsg_length; lia).
      rewrite app_assoc. apply IH. lia.
Qed.

Lemma find_app {A} (f : A -> bool) l k :
  List.find f (l ++ k) = match List.find f l with Some x => Some x | None => List.find f k end.
Proof. induction l as [|x l IH]; cbn; [done|]. by destruct (f x). Qed.

(** A record of handshake messages. *)
Definition hsRecord (msgs : list (byte * bytes)) : Prop := Forall msgOk msgs /\ 0 < blen (encMsgs msgs) <= 18432.
Definition encRecs (v1 v0 : byte) (recs : list (list (byte * bytes))) : bytes :=
  flat_map (fun ms => encRecord x16 [v1; v0] (encMsgs ms)) recs.

Lemma fetchTurn_record (c : C) v1 v0 msgs rest :
  pending c = encRecord x16 [v1; v0] (encMsgs msgs) ++ rest -> hsRecord msgs ->
  exists c', pending c' = rest /\
    fetchTurn (K := K) c = match List.find isCert msgs with
      | Some m => k <~ parseRSAKeyFromCertList (snd m) ;; Ret (Return (k, true))
      | None => Ret (Next c')
      end.
Proof.
  intros Hp [Hm Hl]. destruct (record_reads c x16 v1 v0 _ rest Hp)
    as (hdr & c1 & c2 & h3 & h4 & Hr1 & Hi0 & E3 & E4 & Hlen & Hr2 & Hp2); [lia|].
  exists c2. split; [done|]. unfold fetchTurn. rewrite Hr1. cbn [bind]. rewrite Hi0, E3, E4. cbn [bind]. rewrite Hlen.
  change (beq x16 x16) with true. cbn [negb]. change (Z.shiftl 1 14 + 2048) with 18432.
  rewrite (proj2 (Z.leb_gt _ _)), (proj2 (Z.ltb_ge _ _)) by lia. cbn [orb]. rewrite Hr2. cbn [bind].
  change 0 with (blen (@nil byte)). change (encMsgs msgs) with ([] ++ encMsgs msgs) at 1.
  rewrite cert_loop by (done || (pose proof (length_encMsgs msgs); lia)).
  destruct (List.find isCert msgs) as [m|]; [|done]. by destruct (parseRSAKeyFromCertList (snd m)).
Qed.

(** The first Certificate message of the flight decides the key. *)
Lemma fetch_finds (net : bytes -> dialed C) host rnd conn v1 v0 recs rest der more :
  net (ccsClientHello host rnd) = Connected conn -> Forall hsRecord recs ->
  List.find isCert (concat recs) = Some (x0b, certificateMsg der more) ->
  pending conn = encRecs v1 v0 recs ++ rest -> blen (certificateMsg der more) < 16777216 ->
  fetchRSAServerKey net host rnd = Ret (certKey der, true).
Proof.
  intros Hnet Hrecs Hfind Hp Hl. unfold fetchRSAServerKey. rewrite Hnet. unfold orElse.
  enough (forall fuel (c : C), (length recs <= fuel)%nat -> pending c = encRecs v1 v0 recs ++ rest ->
            loop (fetchTurn (K := K)) fuel c = Ret (inr (certKey der, true))) as E.
  { rewrite E; [done| |done]. rewrite Hp. unfold encRecs. rewrite length_app. pose proof (length_records v1 v0 recs). lia. }
  clear Hp Hnet conn. induction Hrecs as [|ms recs Hms Hrecs IH]; intros [|fuel] c Hf Hp; cbn [length] in Hf; try done; try lia.
  unfold encRecs in Hp. cbn [flat_map] in Hp. fold (encRecs v1 v0 recs) in Hp. rewrite <- app_assoc in Hp.
  destruct (fetchTurn_record c v1 v0 ms _ Hp Hms) as (c1 & Hp1 & Ht). cbn [loop]. rewrite Ht. clear Ht.
  cbn [concat] in Hfind. rewrite find_app in Hfind. destruct (List.find isCert ms) as [m|].
  - injection Hfind as ->. cbn [snd]. by rewrite parseRSAKey_certificate.
  - cbn [bind]. apply IH; [done|lia|done].
Qed.

Lemma robot_msg_loop msgs : Forall msgOk msgs -> forall pre fuel d, (length msgs < fuel)%nat ->
  loop (robotMsgTurn (pre ++ encMsgs msgs)) fuel (blen pre, d)
  = Ret (inl (blen (pre ++ encMsgs msgs), d || hasDone msgs)).
Proof.
  induction 1 as [|[ty m] msgs Hm Hmsgs IH]; intros pre [|fuel] d Hf; cbn [length] in Hf; try lia; cbn [loop].
  - unfold robotMsgTurn. change (encMsgs []) with (@nil byte).
    rewrite app_nil_r, (proj2 (Z.leb_gt _ _)), orb_false_r by lia. done.
  - unfold encMsgs. cbn [flat_map fst snd]. fold (encMsgs msgs).
    destruct (msg_header pre ty m (encMsgs msgs) Hm) as [Ht (l2 & l1 & l0 & E2 & E1 & E0 & Hlen) [_ Hfit] _].
    unfold robotMsgTurn at 1. rewrite (proj2 (Z.leb_le _ _)) by (pose proof (blen_nonneg m); lia).
    rewrite Ht, E2, E1, E0. cbn [bind]. rewrite Hlen, (proj2 (Z.ltb_ge _ _)) by lia.
    replace (blen pre + (4 + blen m)) with (blen (pre ++ encMsg ty m)) by (rewrite blen_app, encMsg_length; lia).
    unfold hasDone. cbn [existsb fst]. fold (hasDone msgs). rewrite orb_assoc, app_assoc. apply IH. lia.
Qed.

(** The flight of a server up to the record with its ServerHelloDone, and what comes after. *)
Definition upToDone (b rest : bytes) : Prop := exists v1 v0 recs msgs,
  Forall hsRecord recs /\ hsRecord msgs /\ hasDone (concat recs) = false /\ hasDone msgs = true
  /\ b = encRecs v1 v0 recs ++ encRecord x16 [v1; v0] (encMsgs msgs) ++ rest.

Lemma robotTurn_record (c : C) v1 v0 msgs rest :
  pending c = encRecord x16 [v1; v0] (encMsgs msgs) ++ rest -> hsRecord msgs ->
  exists c', pending c' = rest /\ robotTurn c = Ret (if hasDone msgs then Return (inl c') else Next c').
Proof.
  intros Hp [Hm Hl]. destruct (record_reads c x16 v1 v0 _ rest Hp)
    as (hdr & c1 & c2 & h3 & h4 & Hr1 & Hi0 & E3 & E4 & Hlen & Hr2 & Hp2); [lia|].
  exists c2. split; [done|]. unfold robotTurn. rewrite Hr1. cbn [bind]. rewrite Hi0, E3, E4. cbn [bind]. rewrite Hlen.
  change (beq x16 x16) with true. cbn [negb]. rewrite Hr2. cbn [bind].
  change 0 with (blen (@nil byte)). change (encMsgs msgs) with ([] ++ encMsgs msgs) at 1.
  rewrite robot_msg_loop by (done || (pose proof (length_encMsgs msgs); lia)). cbn [bind orb]. by destruct (hasDone msgs).
Qed.

Lemma robot_walks (conn : C) rest : upToDone (pending conn) rest ->
  exists c', pending c' = rest /\ loop robotTurn (S (length (pending conn))) conn = Ret (inr (inl c')).
Proof.
  intros (v1 & v0 & recs & msgs & Hrecs & Hmsgs & Hno & Hyes & Hp).
  enough (forall fuel (c : C), (length recs < fuel)%nat ->
            pending c = encRecs v1 v0 recs ++ encRecord x16 [v1; v0] (encMsgs msgs) ++ rest ->
            exists c', pending c' = rest /\ loop robotTurn fuel c = Ret (inr (inl c'))) as E.
  { apply E; [|done]. rewrite Hp. unfold encRecs. rewrite length_app. pose proof (length_records v1 v0 recs). lia. }
  clear Hp conn. induction Hrecs as [|ms recs Hms Hrecs IH]; intros [|fuel] c Hf Hp; cbn [length] in Hf; try lia; cbn [loop].
  - destruct (robotTurn_record c v1 v0 msgs rest Hp Hmsgs) as (c' & Hp' & Ht). exists c'. rewrite Ht, Hyes. done.
  - unfold encRecs in Hp. cbn [flat_map] in Hp. fold (encRecs v1 v0 recs) in Hp. rewrite <- app_assoc in Hp.
    cbn [concat] in Hno. unfold hasDone in Hno. rewrite existsb_app in Hno. apply orb_false_iff in Hno as [Hno1 Hno2].
    destruct (robotTurn_record c v1 v0 ms _ Hp Hms) as (c1 & Hp1 & Ht). rewrite Ht.
    unfold hasDone. rewrite Hno1. apply IH; [done|lia|done].
Qed.
End Walks.

(** ** The verdict *)

Section Verdict.
Context {K : Type} `{RsaKeys K} {C : Type} `{Peer C}.
Variable visit : gmap string (list string) -> list (string * list string).

(** The verdict in terms of the five signatures. *)
Lemma robotVerdict_vulnerable v a b s r :
  Vulnerable (robotVerdict [("valid", v); ("bad_version", a); ("bad_separator", b); ("short_pms", s);
                            ("random_cipher", r)]%string visit) = true
  <-> v <> ""%string /\ a <> ""%string /\ a = b /\ a = r /\ v <> a.
Proof.
  unfold robotVerdict. cbn [Vulnerable fold_left fst snd]. cbv zeta. unfold get.
  repeat (rewrite lookup_insert_ne by done). rewrite !lookup_insert_eq. cbn [default].
  repeat (rewrite lookup_insert_ne by done). rewrite !lookup_insert_eq.
  repeat (rewrite lookup_insert_ne by done). rewrite !lookup_insert_eq. cbn [default id].
  rewrite !andb_true_iff, !negb_true_iff, !String.eqb_eq, !String.eqb_neq. tauto.
Qed.

Implicit Types (nets : nat -> bytes -> dialed C) (readOnce : C -> readResult).

Lemma runProbes_ok nets readOnce host (k : K) ds rnd probes : (forall i, blen (dPremaster (ds i)) = 46) ->
  forall i, incl probes (robotProbes rnd) ->
  exists sigs, runProbes nets readOnce host (Some k) ds i probes = Ret sigs.
Proof.
  intros Hd. induction probes as [|[name mutate] probes IH]; intros i Hin; cbn [runProbes]; [eauto|].
  destruct (probeOne_ok (nets i) readOnce host k rnd name mutate (ds i)) as (sig & -> & _); [apply Hin; by left|done|].
  cbn [bind]. destruct (IH (S i)) as (sigs & ->); [|cbn; eauto]. intros x Hx. apply Hin. by right.
Qed.

(** The ROBOT check returns, against any servers on its six connections, except
    in one case: the first server sent a Certificate whose leaf holds no RSA key,
    which [fetchRSAServerKey] reports as success with a nil key. *)
Theorem probeROBOT_returns (net0 : bytes -> dialed C) nets readOnce host rnd0 rnd ds
  (Hd : forall i, blen (dPremaster (ds i)) = 46) :
  safe (probeROBOT net0 nets readOnce host rnd0 rnd ds visit)
  \/ fetchRSAServerKey (K := K) net0 host rnd0 = Ret (None, true).
Proof.
  pose proof (wp_fetch (K := K) net0 host rnd0 (fun _ => False)) as Hw. unfold probeROBOT.
  destruct (fetchRSAServerKey net0 host rnd0) as [[[k|] ok]| | |]; try done; cbn [bind]; destruct ok; cbn [negb];
    [left|by left|by right|by left].
  destruct (runProbes_ok nets readOnce host k ds rnd (robotProbes rnd) Hd 0 (incl_refl _)) as (sigs & Hs).
  by rewrite Hs.
Qed.

(** C15. The nil key: a server whose Certificate message (well formed, with a leaf
    that is not an RSA certificate) is followed, on the next connection, by a flight
    up to ServerHelloDone, makes the check pass a nil public key to the encryption
    and stops the program. *)
Theorem probeROBOT_nil_key (net0 : bytes -> dialed C) nets readOnce host rnd0 rnd ds conn0 conn v1 v0 recs rest der more rest1
  (Hnet0 : net0 (ccsClientHello host rnd0) = Connected conn0) (Hrecs : Forall hsRecord recs)
  (Hcert : List.find isCert (concat recs) = Some (x0b, certificateMsg der more))
  (Hlen : blen (certificateMsg der more) < 16777216) (Hp0 : pending conn0 = encRecs v1 v0 recs ++ rest)
  (Hkey : certKey (K := K) der = None)
  (Hnet : nets 0%nat (ccsClientHello host (dRandom (ds 0%nat))) = Connected conn) (Hp : upToDone (pending conn) rest1) :
  probeROBOT net0 nets readOnce host rnd0 rnd ds visit = Panic.
Proof.
  unfold probeROBOT. rewrite (fetch_finds net0 host rnd0 conn0 v1 v0 recs rest der more), Hkey by done. cbn [bind negb].
  unfold robotProbes. cbn [runProbes]. unfold probeOneROBOT. rewrite Hnet.
  destruct (robot_walks conn rest1 Hp) as (c' & _ & ->). done.
Qed.

(** What becomes of probe [i], whose ciphertext is [m]: its connection fails, or its
    server sends a flight up to ServerHelloDone and, after the three records of the
    probe, answers with [server m]. *)
Definition outcomeOf nets readOnce (host : string) (ds : nat -> draws) (server : bytes -> readResult)
    (i : nat) (m : bytes) (sig : string) : Prop :=
  match nets i (ccsClientHello host (dRandom (ds i))) with
  | DialErr => sig = "dial_failed"%string
  | WriteErr => sig = "hello_write_failed"%string
  | Connected conn => sig = signatureOf (server m) /\ exists rest, upToDone (pending conn) rest /\
      forall c, pending c = rest -> exists c1 c2 c3, send (buildClientKeyExchangeRSA m) c = Some c1
        /\ send robotCCS c1 = Some c2 /\ send ([x16; x03; x03; x00; x3b] ++ dFinished (ds i)) c2 = Some c3
        /\ readOnce c3 = server m
  end.

Lemma outcomeOf_probe nets readOnce host ds server i m sig (k : K) e mutate :
  encrypt k (dPadding (ds i)) ([x03; x03] ++ dPremaster (ds i)) = Some e -> mutate e = Ret m ->
  outcomeOf nets readOnce host ds server i m sig ->
  probeOneROBOT (nets i) readOnce host (Some k) mutate (ds i) = Ret sig /\ sig <> ""%string.
Proof.
  intros He Hm. unfold outcomeOf, probeOneROBOT. destruct (nets i _) as [| |conn]; [by intros ->..|].
  intros (-> & rest & Hup & Hsend). destruct (robot_walks conn rest Hup) as (c' & Hp' & ->). cbn [bind].
  rewrite He, Hm. cbn [bind]. destruct (Hsend c' Hp') as (c1 & c2 & c3 & -> & -> & -> & ->). apply responseSignature_ok.
Qed.

(** C16. The verdict of the ROBOT check against a server that answers each encrypted
    premaster secret [m] with [server m]: vulnerable exactly when the three invalid
    ciphertexts get one and the same signature and the valid one another. So a server
    that does not look at the ciphertext is never flagged while all connections
    succeed; the answer to the truncated ciphertext is ignored. A connection that
    fails counts as a signature of its own, so a failure of the valid probe alone
    flags a server that treats all ciphertexts alike. *)
Theorem probeROBOT_verdict (net0 : bytes -> dialed C) nets readOnce host rnd0 rnd ds (k : K) (server : bytes -> readResult)
  e0 e1 e2 e3 e4 m1 m2 m3 s0 s1 s2 s3 s4
  (Hfetch : fetchRSAServerKey net0 host rnd0 = Ret (Some k, true))
  (He : forall i, (i < 5)%nat -> encrypt k (dPadding (ds i)) ([x03; x03] ++ dPremaster (ds i)) = nth i [Some e0; Some e1; Some e2; Some e3; Some e4] None)
  (Hm1 : mutateBadVersion e1 = Ret m1) (Hm2 : mutateBadSeparator e2 = Ret m2) (Hm3 : mutateShortPMS e3 = Ret m3)
  (Ho0 : outcomeOf nets readOnce host ds server 0 e0 s0) (Ho1 : outcomeOf nets readOnce host ds server 1 m1 s1)
  (Ho2 : outcomeOf nets readOnce host ds server 2 m2 s2) (Ho3 : outcomeOf nets readOnce host ds server 3 m3 s3)
  (Ho4 : outcomeOf nets readOnce host ds server 4 (take (length e4) rnd) s4) :
  exists r, probeROBOT net0 nets readOnce host rnd0 rnd ds visit = Ret r /\ Probed r = true
    /\ (Vulnerable r = true <-> s1 = s2 /\ s1 = s4 /\ s0 <> s1).
Proof.
  unfold probeROBOT. rewrite Hfetch. cbn [bind negb]. unfold robotProbes. cbn [runProbes].
  destruct (outcomeOf_probe _ _ _ _ _ _ _ _ k e0 mutateValid (He 0%nat ltac:(lia)) eq_refl Ho0) as [-> N0].
  destruct (outcomeOf_probe _ _ _ _ _ _ _ _ k e1 mutateBadVersion (He 1%nat ltac:(lia)) Hm1 Ho1) as [-> N1].
  destruct (outcomeOf_probe _ _ _ _ _ _ _ _ k e2 mutateBadSeparator (He 2%nat ltac:(lia)) Hm2 Ho2) as [-> N2].
  destruct (outcomeOf_probe _ _ _ _ _ _ _ _ k e3 mutateShortPMS (He 3%nat ltac:(lia)) Hm3 Ho3) as [-> N3].
  destruct (outcomeOf_probe _ _ _ _ _ _ _ _ k e4 (mutateRandomCipher rnd) (He 4%nat ltac:(lia)) eq_refl Ho4) as [-> N4].
  cbn [bind]. eexists. split; [done|]. split; [done|]. rewrite robotVerdict_vulnerable. tauto.
Qed.
End Verdict.

Module RobotWitnesses.
(** A key is its size in bytes, and padding is on the left. *)
Definition padLeft (k : Z) (r m : bytes) : option bytes :=
  if blen m + 11 <=? k then Some (repeat x00 (Z.to_nat (k - blen m)) ++ m) else None.

Lemma padLeft_length k r m c : padLeft k r m = Some c -> blen c = k /\ blen m + 11 <= k.
Proof.
  unfold padLeft. destruct (blen m + 11 <=? k) eqn:E; [|done]. to_prop. intros [= <-].
  rewrite blen_app. unfold blen at 1. rewrite repeat_length. lia.
Qed.

#[local] Instance sizeKeys : RsaKeys Z := {|
  certKey der := match der with [] => None | b :: _ => Some (bval b) end;
  keySize k := k; encrypt := padLeft; encrypt_length := padLeft_length |}.

(** A peer whose bytes are fixed in advance. *)
#[local] Instance scripted : Peer bytes := {| send := fun _ c => Some c |}.

Definition flight (der : bytes) : list (byte * bytes) := [(x02, repeat x03 38); (x0b, certificateMsg der []); (x0e, [])].
Definition server (der : bytes) : bytes := encRecs x03 x03 [] ++ encRecord x16 [x03; x03] (encMsgs (flight der)) ++ [].
Definition rnd : draws := {| dRandom := []; dPremaster := repeat x05 46; dPadding := []; dFinished := repeat x00 59 |}.
Definition badMac : bytes := [x15; x03; x03; x00; x02; x02; x14].

Lemma hsRecord_flight der : bool_decide (blen der < 100) = true -> hsRecord (flight der).
Proof.
  intros Hd%bool_decide_eq_true. assert (Hc : blen (certificateMsg der []) = 6 + blen der).
  { unfold certificateMsg. cbv zeta. rewrite !blen_app. change (blen (@nil byte)) with 0.
    repeat match goal with |- context [blen (putBE24 ?n)] => change (blen (putBE24 n)) with 3 end. lia. }
  pose proof (blen_nonneg der). split.
  - constructor; [by vm_compute|]. constructor; [|constructor; [by vm_compute|constructor]]. unfold msgOk. cbn [snd]. lia.
  - unfold flight, encMsgs. cbn [flat_map fst snd]. rewrite !blen_app, !encMsg_length, Hc.
    change (blen (repeat x03 38)) with 38. change (blen (@nil byte)) with 0. lia.
Qed.

Lemma upToDone_server der : bool_decide (blen der < 100) = true -> upToDone (server der) [].
Proof.
  intros Hd. exists x03, x03, [], (flight der). split; [constructor|]. split; [by apply hsRecord_flight|]. done.
Qed.

Lemma probeROBOT_returns_witness :
  safe (probeROBOT (K := Z) (fun _ => @DialErr bytes) (fun _ _ => DialErr) (fun _ => EOF) "h" [] [] (fun _ => rnd) map_to_list).
Proof.
  destruct (probeROBOT_returns (K := Z) map_to_list (fun _ => @DialErr bytes) (fun _ _ => DialErr) (fun _ => EOF) "h" [] []
    (fun _ => rnd) (fun _ => eq_refl)) as [Hs|Hs]; [exact Hs|discriminate Hs].
Defined.

Lemma probeROBOT_nil_key_witness :
  probeROBOT (K := Z) (fun _ => Connected (server [])) (fun _ _ => Connected (server [])) (fun _ => EOF) "h" [] []
    (fun _ => rnd) map_to_list = Panic.
Proof.
  apply (probeROBOT_nil_key (K := Z) map_to_list (fun _ => Connected (server [])) (fun _ _ => Connected (server [])) (fun _ => EOF)
    "h" [] [] (fun _ => rnd) (server []) (server []) x03 x03 [flight []] [] [] [] []).
  - reflexivity.
  - constructor; [by apply hsRecord_flight|constructor].
  - reflexivity.
  - by vm_compute.
  - reflexivity.
  - reflexivity.
  - reflexivity.
  - by apply upToDone_server.
Defined.

(** Every answer is the same alert; the dial of the valid probe fails. *)
Definition flaky (i : nat) (hello : bytes) : dialed bytes := match i with O => DialErr | _ => Connected (server [x80]) end.

Lemma probeROBOT_verdict_witness :
  exists r, probeROBOT (K := Z) (fun _ => Connected (server [x80])) flaky (fun _ => Data badMac) "h" [] []
    (fun _ => rnd) map_to_list = Ret r /\ Vulnerable r = true.
Proof.
  pose (e := repeat x00 80 ++ [x03; x03] ++ repeat x05 46).
  destruct (probeROBOT_verdict (K := Z) map_to_list (fun _ => Connected (server [x80])) flaky (fun _ => Data badMac) "h" [] []
    (fun _ => rnd) 128 (fun _ => Data badMac) e e e e e (x01 :: drop 1 e) (take 79 e ++ [x01] ++ drop 80 e) (take 126 e)
    "dial_failed" "alert_l2_d20_lb0" "alert_l2_d20_lb0" "alert_l2_d20_lb0" "alert_l2_d20_lb0") as (r & Hr & _ & Hv).
  - by vm_compute.
  - intros i Hi. do 5 (destruct i as [|i]; [by vm_compute|]). lia.
  - by vm_compute.
  - by vm_compute.
  - by vm_compute.
  - reflexivity.
  - split; [by vm_compute|]. exists []. split; [by apply upToDone_server|]. intros c _. by exists c, c, c.
  - split; [by vm_compute|]. exists []. split; [by apply upToDone_server|]. intros c _. by exists c, c, c.
  - split; [by vm_compute|]. exists []. split; [by apply upToDone_server|]. intros c _. by exists c, c, c.
  - split; [by vm_compute|]. exists []. split; [by apply upToDone_server|]. intros c _. by exists c, c, c.
  - exists r. split; [exact Hr|]. apply Hv. by vm_compute.
Defined.
End RobotWitnesses.
