(* ===== verification/CbcOracles.v ===== *)
(** The CBC padding-oracle probes of [tls_cbc_oracles.go]: GOLDENDOODLE, Zombie
    POODLE and Sleeping POODLE.  They share the hello, the walk over the server's
    flight and the record protection of [Ccs].  AES is a parameter, the CBC mode of
    [crypto/cipher] is executable here. *)

From Stdlib Require Import ZArith List String Ascii Strings.Byte Lia Bool Permutation Sorted.
From stdpp Require Import base list strings numbers.
From S2P Require Import Prelude Bytes GoStrings Digest Stream Extensions Flight Service ServerHello ClientHellos Ccs Robot.
Open Scope Z_scope.

(** ** CBC over a block cipher *)

(** [aes.NewCipher(key)] with its [Encrypt] and [Decrypt] on one block. *)
Class BlockCipher := {
  blockE : bytes -> bytes -> bytes;
  blockD : bytes -> bytes -> bytes;
  blockE_length : forall k b, blen (blockE k b) = blen b;
  blockD_length : forall k b, blen (blockD k b) = blen b;
  blockD_inverse : forall k b, blen k = 16 -> blen b = 16 -> blockD k (blockE k b) = b
}.

(** [b] with [a] xored over its first bytes. *)
Fixpoint xorBytes (a b : bytes) : bytes :=
  match a, b with
  | x :: a, y :: b => byteOf (Z.lxor (bval x) (bval y)) :: xorBytes a b
  | [], b => b
  | _, [] => []
  end.

(** [CryptBlocks] of the CBC encrypter and decrypter: [n] counts the blocks. *)
Fixpoint cbcE `{BlockCipher} (n : nat) (k iv m : bytes) : bytes :=
  match n with
  | O => m
  | S n => let c := blockE k (xorBytes iv (take 16 m)) in c ++ cbcE n k c (drop 16 m)
  end.
Fixpoint cbcD `{BlockCipher} (n : nat) (k iv m : bytes) : bytes :=
  match n with
  | O => m
  | S n => xorBytes iv (blockD k (take 16 m)) ++ cbcD n k (take 16 m) (drop 16 m)
  end.

Lemma blen_xorBytes a b : blen (xorBytes a b) = blen b.
Proof. revert b. induction a as [|x a IH]; intros [|y b]; cbn [xorBytes]; rewrite ?blen_cons, ?IH; done. Qed.

Lemma lxor_byte a b : 0 <= a < 256 -> 0 <= b < 256 -> 0 <= Z.lxor a b < 256.
Proof.
  intros Ha Hb. split; [apply Z.lxor_nonneg; lia|]. destruct (Z.eq_dec (Z.lxor a b) 0) as [->|Hn]; [lia|].
  assert (Hpos : 0 < Z.lxor a b) by (pose proof (proj2 (Z.lxor_nonneg a b)); lia).
  change 256 with (2 ^ 8). apply Z.log2_lt_pow2; [done|].
  pose proof (Z.log2_lxor a b ltac:(lia) ltac:(lia)) as Hl.
  assert (Hlog : forall z, 0 <= z < 256 -> Z.log2 z < 8).
  { intros z Hz. destruct (Z.eq_dec z 0) as [->|]; [done|]. apply Z.log2_lt_pow2; [lia|]. change (2 ^ 8) with 256. lia. }
  pose proof (Hlog a Ha). pose proof (Hlog b Hb). lia.
Qed.

Lemma xorBytes_twice a b : xorBytes a (xorBytes a b) = b.
Proof.
  revert b. induction a as [|x a IH]; intros [|y b]; cbn [xorBytes]; [done..|]. rewrite IH. f_equal.
  apply bval_inj. rewrite !bval_byteOf. pose proof (bval_range x). pose proof (bval_range y).
  rewrite (Z.mod_small (Z.lxor _ (bval y))) by (apply lxor_byte; lia).
  rewrite <- Z.lxor_assoc, Z.lxor_nilpotent, Z.lxor_0_l. apply Z.mod_small. lia.
Qed.

Section Cbc.
Context `{BlockCipher}.

Lemma blen_cbcE k n : forall iv m, blen (cbcE n k iv m) = blen m.
Proof.
  induction n as [|n IH]; intros iv m; cbn [cbcE]; [done|].
  rewrite blen_app, IH, blockE_length, blen_xorBytes, <- blen_app, take_drop. done.
Qed.

Lemma cbcD_cbcE k n : blen k = 16 -> forall iv m, blen m = 16 * Z.of_nat n -> cbcD n k iv (cbcE n k iv m) = m.
Proof.
  intros Hk. induction n as [|n IH]; intros iv m Hm; cbn [cbcD cbcE]; [done|].
  assert (Ht : blen (take 16 m) = 16) by (change 16%nat with (Z.to_nat 16); rewrite blen_take; lia).
  set (c := blockE k _). assert (Hc : blen c = 16) by (unfold c; by rewrite blockE_length, blen_xorBytes).
  assert (Hl : length c = 16%nat) by (unfold blen in Hc; lia).
  rewrite take_app_length', drop_app_length' by done. rewrite IH.
  - unfold c. rewrite blockD_inverse by (done || by rewrite blen_xorBytes). by rewrite xorBytes_twice, take_drop.
  - change 16%nat with (Z.to_nat 16). rewrite blen_drop; lia.
Qed.

Definition blocks (m : bytes) : nat := Z.to_nat (blen m / 16).

#[export] Program Instance cbcMode : AesCbc := {|
  cbcEncrypt k iv m := cbcE (blocks m) k iv m;
  cbcDecrypt k iv m := cbcD (blocks m) k iv m
|}.
Next Obligation. intros. apply blen_cbcE. Qed.
Next Obligation.
  intros k iv m Hk Hiv Hm. cbv beta. replace (blocks (cbcE (blocks m) k iv m)) with (blocks m) by (unfold blocks; by rewrite blen_cbcE).
  apply cbcD_cbcE; [done|]. unfold blocks. pose proof (blen_nonneg m).
  rewrite Z2Nat.id by (apply Z.div_pos; lia). pose proof (Z.div_mod (blen m) 16). lia.
Qed.
End Cbc.

(** ** The malformed record *)

Inductive malformedMode := badMacGoodPad | goodMacBadPad | badMacBadPad.

(** [b[i] ^= v] *)
Definition xorAt (b : bytes) (i v : Z) : outcome bytes :=
  x <~ index b i ;; Ret (<[Z.to_nat i := byteOf (Z.lxor (bval x) v)]> b).

Section Oracle.
Context `{AesCbc}.

(** [iv] is what [rand.Read] left in the buffer. *)
Definition buildMalformedCBCRecord (keys : keyBlockAES128CBCSHA) (mode : malformedMode) (iv : bytes) : outcome bytes :=
  let plaintext := ofString "GET / HTTP/1.0" ++ [x0d; x0a; x0d; x0a] in
  body <~ encryptRecordAES128CBCSHA plaintext keys x17 0x0303 0 iv ;;
  body <~ match mode with
          | badMacGoodPad => if 32 <=? blen body then xorAt body (blen body - 17) 0x42 else Ret body
          | goodMacBadPad => if 16 <=? blen body then xorAt body (blen body - 1) 0xff else Ret body
          | badMacBadPad =>
              if 32 <=? blen body then body <~ xorAt body (blen body - 17) 0x42 ;; xorAt body (blen body - 1) 0xff
              else Ret body
          end ;;
  let rec := [x17; x03; x03] ++ putBE16 (blen body) in
  Ret (rec ++ body).

(** ** One connection *)

Context {C : Type} `{Peer C}.

(** What a connection finds: the network, the random bytes it draws, and the time
    from before the record is written to after the header of the answer is read. *)
Record trial := { tNet : bytes -> dialed C; tRandom : bytes; tIV : bytes; tTook : Z }.

(** The loop is the one of the CCS probe; the transcript it keeps is not used. *)
Definition handshakeForCBCOracle (net : bytes -> dialed C) (host : string) (clientRandom : bytes)
    : outcome (option (C * keyBlockAES128CBCSHA)) :=
  match net (ccsClientHello host clientRandom) with
  | DialErr | WriteErr => Ret None
  | Connected conn =>
      r <~ loop ccsRecordTurn (S (length (pending conn)))
             (conn, {| serverRandom := []; negotiatedCipher := 0; transcript := []; done := false |}) ;;
      match r with
      | inl _ | inr None => Ret None
      | inr (Some (conn, s)) =>
          if negb (negotiatedCipher s =? 0x002F) || negb (blen (serverRandom s) =? 32) then Ret None else
          let masterSecret := repeat x00 48 in
          keys <~ deriveKeysAES128CBCSHA masterSecret (serverRandom s) clientRandom ;;
          Ret (Some (conn, keys))
      end
  end.

(** What the three senders start with, up to the write of the record: [None] is
    [return _, false].  An error of the builder ends the same way. *)
Definition sendMalformedCBC (host : string) (t : trial) (mode : malformedMode) : outcome (option C) :=
  hs <~ handshakeForCBCOracle (tNet t) host (tRandom t) ;;
  match hs with
  | None => Ret None
  | Some (conn, keys) =>
      match buildMalformedCBCRecord keys mode (tIV t) with
      | Err _ => Ret None
      | Panic => Panic
      | NoFuel => NoFuel
      | Ret record => Ret (send record conn)
      end
  end.

Definition sendMalformedCBCAndReadAlert (host : string) (t : trial) (mode : malformedMode) : outcome (option byte) :=
  conn <~ sendMalformedCBC host t mode ;;
  match conn with
  | None => Ret None
  | Some conn =>
      unpack (hdr, conn) <~ readFull 5 conn ;;
      match hdr with
      | None => Ret None
      | Some hdr =>
          h0 <~ index hdr 0 ;;
          if negb (beq h0 x15) then Ret None else
          h3 <~ index hdr 3 ;; h4 <~ index hdr 4 ;;
          let recLen := be16 h3 h4 in
          if (recLen <? 2) || (1024 <? recLen) then Ret None else
          unpack (body, conn) <~ readFull recLen conn ;;
          match body with
          | None => Ret None
          | Some body => if 2 <=? blen body then b <~ index body 1 ;; Ret (Some b) else Ret None
          end
      end
  end.

Definition sendMalformedCBCAndReadLength (host : string) (t : trial) (mode : malformedMode) : outcome (option Z) :=
  conn <~ sendMalformedCBC host t mode ;;
  match conn with
  | None => Ret None
  | Some conn =>
      unpack (hdr, _) <~ readFull 5 conn ;;
      match hdr with
      | None => Ret None
      | Some hdr => h3 <~ index hdr 3 ;; h4 <~ index hdr 4 ;; Ret (Some (be16 h3 h4))
      end
  end.

Definition sendMalformedCBCAndTimeIt (host : string) (t : trial) (mode : malformedMode) : outcome (option Z) :=
  conn <~ sendMalformedCBC host t mode ;;
  match conn with
  | None => Ret None
  | Some conn =>
      unpack (hdr, _) <~ readFull 5 conn ;;
      match hdr with None => Ret None | Some _ => Ret (Some (tTook t)) end
  end.

(** ** The three probes *)

Definition probeGoldenDoodleOracle (host : string) (t1 t2 : trial) : outcome bool :=
  r1 <~ sendMalformedCBCAndReadAlert host t1 badMacGoodPad ;;
  match r1 with
  | None => Ret false
  | Some alert1 =>
      r2 <~ sendMalformedCBCAndReadAlert host t2 goodMacBadPad ;;
      match r2 with
      | None => Ret false
      | Some alert2 => Ret (negb (beq alert1 alert2))
      end
  end.

(** The loop over the modes: [None] is [return false]. *)
Fixpoint zombieLengths (host : string) (probes : list (malformedMode * trial)) (resps : list Z) : outcome (option (list Z)) :=
  match probes with
  | [] => Ret (Some resps)
  | (mode, t) :: probes =>
      r <~ sendMalformedCBCAndReadLength host t mode ;;
      match r with
      | None => Ret None
      | Some respLen => zombieLengths host probes (resps ++ [respLen])
      end
  end.

Definition probeZombiePoodleOracle (host : string) (t1 t2 t3 : trial) : outcome bool :=
  resps <~ zombieLengths host [(badMacGoodPad, t1); (goodMacBadPad, t2); (badMacBadPad, t3)] [] ;;
  match resps with
  | None => Ret false
  | Some resps =>
      r0 <~ index resps 0 ;; r1 <~ index resps 1 ;; r2 <~ index resps 2 ;;
      let allSame := (r0 =? r1) && (r1 =? r2) in
      Ret (negb allSame)
  end.

(** [for i := 0; i < trials; i++]: the differences of the pairs, as the second loop
    makes them non-negative. *)
Fixpoint sleepingDiffs (host : string) (pairs : list (trial * trial)) (diffs : list Z) : outcome (option (list Z)) :=
  match pairs with
  | [] => Ret (Some diffs)
  | (ta, tb) :: pairs =>
      r1 <~ sendMalformedCBCAndTimeIt host ta badMacGoodPad ;;
      r2 <~ sendMalformedCBCAndTimeIt host tb goodMacBadPad ;;
      match r1, r2 with
      | Some t1, Some t2 =>
          let diff := t1 - t2 in
          let diff := if diff <? 0 then - diff else diff in
          sleepingDiffs host pairs (diffs ++ [diff])
      | _, _ => Ret None
      end
  end.
End Oracle.
Arguments trial : clear implicits.

(** [diffs[i], diffs[j] = diffs[j], diffs[i]] when [diffs[j] < diffs[i]]. *)
Definition exchange (i : nat) (diffs : list Z) (j : nat) : list Z :=
  match diffs !! i, diffs !! j with
  | Some x, Some y => if y <? x then <[j := x]> (<[i := y]> diffs) else diffs
  | _, _ => diffs
  end.
Definition exchangeFrom (diffs : list Z) (i : nat) : list Z :=
  fold_left (exchange i) (seq (S i) (length diffs - S i)) diffs.
Definition exchangeSort (diffs : list Z) : list Z := fold_left exchangeFrom (seq 0 (length diffs)) diffs.

Definition millisecond : Z := 1000000.

Section Probe.
Context `{AesCbc} {C : Type} `{Peer C}.

Definition probeSleepingPoodleOracle (host : string) (ts : nat -> trial C * trial C) : outcome bool :=
  diffs <~ sleepingDiffs host (map ts (seq 0 3)) [] ;;
  match diffs with
  | None => Ret false
  | Some diffs =>
      let diffs := exchangeSort diffs in
      median <~ index diffs (blen diffs / 2) ;;
      Ret (20 * millisecond <? median)
  end.

Record cbcOracleResult := {
  Probed : bool; GoldenDoodle : bool; ZombiePoodle : bool; SleepingPoodle : bool; CipherNegotiable : bool }.

Record trials := { gd1 : trial C; gd2 : trial C; zp1 : trial C; zp2 : trial C; zp3 : trial C;
                   sp : nat -> trial C * trial C }.

Definition probeCBCOracles (host : string) (ts : trials) : outcome cbcOracleResult :=
  gd <~ probeGoldenDoodleOracle host (gd1 ts) (gd2 ts) ;;
  zp <~ probeZombiePoodleOracle host (zp1 ts) (zp2 ts) (zp3 ts) ;;
  sl <~ probeSleepingPoodleOracle host (sp ts) ;;
  Ret {| Probed := true; GoldenDoodle := gd; ZombiePoodle := zp; SleepingPoodle := sl; CipherNegotiable := false |}.
End Probe.

Definition cbcOracleHeadline (r : cbcOracleResult) : string :=
  if negb (Probed r) then ""%string else
  let hits := (if GoldenDoodle r then ["GOLDENDOODLE"] else [])
              ++ (if ZombiePoodle r then ["Zombie POODLE"] else [])
              ++ (if SleepingPoodle r then ["Sleeping POODLE"] else []) in
  match hits with
  | [] => ""%string
  | _ => ("CBC oracle: " +:+ Join hits ", ")%string
  end.

(** ** The median *)

(** The exchange sort puts the middle of the three differences in the middle. *)
Lemma exchangeSort_median a b c :
  index (exchangeSort [a; b; c]) 1 = Ret (Z.max (Z.min a b) (Z.min (Z.max a b) c)).
Proof.
  unfold exchangeSort, exchangeFrom. cbn [length seq fold_left Nat.sub]. unfold exchange.
  repeat (cbn -[Z.max Z.min Z.ltb]; match goal with |- context [Z.ltb ?x ?y] => destruct (Z.ltb_spec x y) end); unfold index; cbn -[Z.max Z.min]; f_equal; lia.
Qed.

(** ** The record that is sent *)

Section Record.
Context `{AesCbc}.

Definition getRequest : bytes := ofString "GET / HTTP/1.0" ++ [x0d; x0a; x0d; x0a].

(** What the record protects, before encryption: 18 bytes, the MAC, 10 bytes of
    padding. *)
Definition protected (keys : keyBlockAES128CBCSHA) : bytes :=
  getRequest ++ hmacSha1 (ClientMAC keys) (macHeader 0 x17 0x0303 18 ++ getRequest) ++ repeat x09 10.

Lemma blen_protected keys : blen (protected keys) = 48.
Proof. unfold protected. rewrite !blen_app, blen_hmacSha1. done. Qed.

Lemma encrypt_request keys iv : blen (ClientKey keys) = 16 -> blen iv = 16 ->
  encryptRecordAES128CBCSHA getRequest keys x17 0x0303 0 iv
  = Ret (iv ++ cbcEncrypt (ClientKey keys) iv (protected keys)).
Proof.
  intros Hk Hiv. unfold encryptRecordAES128CBCSHA, errWhen. rewrite Hk, Hiv. cbn [Z.eqb Pos.eqb orb negb].
  change (blen getRequest) with 18. rewrite !blen_app, blen_hmacSha1. change (blen getRequest) with 18.
  change (Z.to_nat _) with 10%nat. change (byteOf (16 - (18 + 20) mod 16 - 1)) with x09.
  change ((18 + 20 + blen (repeat x09 10)) mod 16 =? 0) with true. cbn [negb]. unfold protected.
  by rewrite <- app_assoc.
Qed.

Lemma xorAt_ok b i v : 0 <= i < blen b ->
  exists x, b !! Z.to_nat i = Some x /\ xorAt b i v = Ret (<[Z.to_nat i := byteOf (Z.lxor (bval x) v)]> b).
Proof.
  intros Hi. unfold xorAt. destruct (index_some b i Hi) as [x Hx]. rewrite Hx. exists x. split; [|done].
  by apply index_ret in Hx as [_ ?].
Qed.

(** In each mode the record has the same header and the same length. *)
Lemma build_header keys mode iv : blen (ClientKey keys) = 16 -> blen iv = 16 ->
  exists body, buildMalformedCBCRecord keys mode iv = Ret ([x17; x03; x03; x00; x40] ++ body) /\ blen body = 64.
Proof.
  intros Hk Hiv. unfold buildMalformedCBCRecord. fold getRequest. rewrite encrypt_request by done. cbn [bind].
  set (body := iv ++ _). assert (Hb : blen body = 64) by (unfold body; rewrite blen_app, cbc_length, blen_protected; lia).
  assert (Hins : forall (b : bytes) i x, blen (<[i := x]> b) = blen b) by (intros; unfold blen; by rewrite length_insert).
  rewrite Hb. cbn [Z.leb Z.compare Pos.compare Pos.compare_cont].
  destruct mode.
  - destruct (xorAt_ok body (64 - 17) 0x42) as (x & _ & ->); [lia|]. cbn [bind]. rewrite Hins, Hb.
    eexists. split; [done|]. by rewrite Hins.
  - destruct (xorAt_ok body (64 - 1) 0xff) as (x & _ & ->); [lia|]. cbn [bind]. rewrite Hins, Hb.
    eexists. split; [done|]. by rewrite Hins.
  - destruct (xorAt_ok body (64 - 17) 0x42) as (x & _ & ->); [lia|]. cbn [bind]. rewrite Hins, Hb.
    match goal with |- context [xorAt ?b _ 0xff] => destruct (xorAt_ok b (64 - 1) 0xff) as (y & _ & ->); [rewrite Hins, Hb; lia|] end.
    cbn [bind]. rewrite !Hins, Hb. eexists. split; [done|]. by rewrite !Hins.
Qed.
End Record.

(** ** The walk always ends *)

Lemma wp_ccsMsgs body s E : wp (loop (ccsMsgTurn body) (S (length body)) (0, s)) (fun _ => True) E.
Proof.
  apply (wp_loop _ (fun st => 0 <= fst st) (fun st => length body - Z.to_nat (fst st))%nat); [|cbn; lia|cbn; lia].
  intros [i st] Hi. cbn [fst] in Hi. unfold ccsMsgTurn. wp_step; [|done]. to_prop.
  wp_step. apply wp_index; [lia|]. intros ty _. wp_step. apply wp_index; [lia|]. intros l2 _.
  wp_step. apply wp_index; [lia|]. intros l1 _. wp_step. apply wp_index; [lia|]. intros l0 _.
  pose proof (be24_range l2 l1 l0). cbv zeta. wp_step; [done|]. to_prop.
  wp_step. apply wp_slice; [lia..|]. intros _. rewrite onCcsServerHello_pure. wp_step.
  apply (wp_mono _ (fun _ => True) _ (fun _ => False)); [by destruct (beq ty x02), (beq ty x0e)| |done].
  intros s' _. apply wp_ret. unfold blen in *. cbn. lia.
Qed.

Section Total.
Context `{AesCbc} {C : Type} `{Peer C}.

Lemma wp_ccsWalk (conn : C) s E : wp (loop ccsRecordTurn (S (length (pending conn))) (conn, s)) (fun _ => True) E.
Proof.
  apply (wp_loop _ (fun _ => True) (fun st => length (pending (fst st)))); [|done|cbn; lia].
  intros [c st] _. unfold ccsRecordTurn. wp_step. apply wp_readFull; [lia| |done]. intros hdr c2 Hp2 Hh. cbn beta iota.
  wp_step. apply wp_index; [lia|]. intros h0 _. wp_step; [done|]. wp_step; [done|].
  wp_step. apply wp_index; [lia|]. intros h3 _. wp_step. apply wp_index; [lia|]. intros h4 _.
  cbv zeta. wp_step; [done|]. to_prop. wp_step. apply wp_readFull; [lia| |done]. intros body c3 Hp3 Hb. cbn beta iota.
  wp_step. eapply wp_mono; [apply (wp_ccsMsgs body _ (fun _ => False))| |done]. intros r _.
  wp_step; [done|]. apply wp_ret. cbn.
  apply (f_equal length) in Hp2, Hp3. rewrite length_app in Hp2, Hp3. unfold blen in *. split; [done|lia].
Qed.

Lemma wp_handshake (net : bytes -> dialed C) host rnd E :
  wp (handshakeForCBCOracle net host rnd)
     (fun r => match r with Some (_, keys) => blen (ClientKey keys) = 16 | None => True end) E.
Proof.
  unfold handshakeForCBCOracle. destruct (net _) as [| |conn]; [done..|].
  wp_step. eapply wp_mono; [apply (wp_ccsWalk conn _ (fun _ => False))| |done].
  intros [?|[[c s]|]] _; [done| |done]. wp_step; [done|].
  destruct (deriveKeys_ok (repeat x00 48) (serverRandom s) rnd) as (keys & -> & Hk). done.
Qed.

Lemma wp_sendMalformed host (t : trial C) mode E : blen (tIV t) = 16 ->
  wp (sendMalformedCBC host t mode) (fun _ => True) E.
Proof.
  intros Hiv. unfold sendMalformedCBC. wp_step. eapply wp_mono; [apply (wp_handshake _ _ _ (fun _ => False))| |done].
  intros [[c keys]|] Hk; [|done]. by destruct (build_header keys mode (tIV t) Hk Hiv) as (body & -> & _).
Qed.

Lemma wp_readAlert host (t : trial C) mode E : blen (tIV t) = 16 ->
  wp (sendMalformedCBCAndReadAlert host t mode) (fun _ => True) E.
Proof.
  intros Hiv. unfold sendMalformedCBCAndReadAlert. wp_step.
  eapply wp_mono; [apply (wp_sendMalformed host t mode (fun _ => False) Hiv)| |done]. intros [c|] _; [|done].
  wp_step. apply wp_readFull; [lia| |done]. intros hdr c2 Hp2 Hh. cbn beta iota.
  wp_step. apply wp_index; [lia|]. intros h0 _. wp_step; [done|].
  wp_step. apply wp_index; [lia|]. intros h3 _. wp_step. apply wp_index; [lia|]. intros h4 _.
  cbv zeta. pose proof (be16_range h3 h4). wp_step; [done|]. to_prop.
  wp_step. apply wp_readFull; [lia| |done]. intros body c3 Hp3 Hb. cbn beta iota.
  wp_step; [|done]. to_prop. wp_step. apply wp_index; [lia|done].
Qed.

Lemma wp_readLength host (t : trial C) mode E : blen (tIV t) = 16 ->
  wp (sendMalformedCBCAndReadLength host t mode) (fun _ => True) E.
Proof.
  intros Hiv. unfold sendMalformedCBCAndReadLength. wp_step.
  eapply wp_mono; [apply (wp_sendMalformed host t mode (fun _ => False) Hiv)| |done]. intros [c|] _; [|done].
  wp_step. apply wp_readFull; [lia| |done]. intros hdr c2 Hp2 Hh. cbn beta iota.
  wp_step. apply wp_index; [lia|]. intros h3 _. wp_step. apply wp_index; [lia|done].
Qed.

Lemma wp_timeIt host (t : trial C) mode E : blen (tIV t) = 16 ->
  wp (sendMalformedCBCAndTimeIt host t mode) (fun _ => True) E.
Proof.
  intros Hiv. unfold sendMalformedCBCAndTimeIt. wp_step.
  eapply wp_mono; [apply (wp_sendMalformed host t mode (fun _ => False) Hiv)| |done]. intros [c|] _; [|done].
  wp_step. apply wp_readFull; [lia|done|done].
Qed.

Lemma wp_goldenDoodle host (t1 t2 : trial C) E : blen (tIV t1) = 16 -> blen (tIV t2) = 16 ->
  wp (probeGoldenDoodleOracle host t1 t2) (fun _ => True) E.
Proof.
  intros Hv1 Hv2. unfold probeGoldenDoodleOracle. wp_step.
  eapply wp_mono; [apply (wp_readAlert _ _ _ (fun _ => False) Hv1)| |done]. intros [a1|] _; [|done].
  wp_step. eapply wp_mono; [apply (wp_readAlert _ _ _ (fun _ => False) Hv2)| |done]. by intros [a2|] _.
Qed.

Lemma wp_zombieLengths host (probes : list (malformedMode * trial C)) : forall resps,
  Forall (fun p => blen (tIV (snd p)) = 16) probes ->
  wp (zombieLengths host probes resps)
     (fun r => match r with Some l => length l = (length resps + length probes)%nat | None => True end) (fun _ => False).
Proof.
  induction probes as [|[mode t] probes IH]; intros resps Hf; cbn [zombieLengths length]; [cbn; lia|].
  apply Forall_cons_1 in Hf as [Ht Hf]. wp_step. eapply wp_mono; [apply (wp_readLength _ _ _ (fun _ => False) Ht)| |done].
  intros [n|] _; [|done]. eapply wp_mono; [by apply IH| |done]. intros [l|]; [|done]. rewrite length_app. cbn. lia.
Qed.

Lemma wp_sleepingDiffs host (pairs : list (trial C * trial C)) : forall diffs,
  Forall (fun p => blen (tIV (fst p)) = 16 /\ blen (tIV (snd p)) = 16) pairs ->
  wp (sleepingDiffs host pairs diffs)
     (fun r => match r with Some l => length l = (length diffs + length pairs)%nat | None => True end) (fun _ => False).
Proof.
  induction pairs as [|[ta tb] pairs IH]; intros diffs Hf; cbn [sleepingDiffs length]; [cbn; lia|].
  apply Forall_cons_1 in Hf as [[Ha Hb] Hf].
  wp_step. eapply wp_mono; [apply (wp_timeIt _ _ _ (fun _ => False) Ha)| |done]. intros r1 _.
  wp_step. eapply wp_mono; [apply (wp_timeIt _ _ _ (fun _ => False) Hb)| |done]. intros r2 _.
  destruct r1, r2; [|done..]. eapply wp_mono; [by apply IH| |done]. intros [l|]; [|done]. rewrite length_app. cbn. lia.
Qed.
End Total.

(** ** A server that does not look inside the record *)

Section Blind.
Context `{AesCbc} {C : Type} `{Peer C}.

(** Whatever 64 bytes the record carries, the server sends [p] after it. *)
Definition headerOnly (p : bytes) : Prop := forall (c : C) body, blen body = 64 ->
  exists c', send ([x17; x03; x03; x00; x40] ++ body) c = Some c' /\ pending c' = p.

Context (host : string) (p : bytes) (Hblind : headerOnly p).

Lemma wp_sendBlind (t : trial C) mode E : blen (tIV t) = 16 ->
  wp (sendMalformedCBC host t mode) (fun r => match r with Some c => pending c = p | None => True end) E.
Proof using Hblind.
  intros Hiv. unfold sendMalformedCBC. wp_step. eapply wp_mono; [apply (wp_handshake _ _ _ (fun _ => False))| |done].
  intros [[c keys]|] Hk; [|done]. destruct (build_header keys mode (tIV t) Hk Hiv) as (body & -> & Hb).
  destruct (Hblind c body Hb) as (c' & -> & Hp). done.
Qed.

Lemma wp_alertBlind (t : trial C) mode E : blen (tIV t) = 16 ->
  wp (sendMalformedCBCAndReadAlert host t mode)
     (fun r => match r with Some a => p !! 6%nat = Some a | None => True end) E.
Proof using Hblind.
  intros Hiv. unfold sendMalformedCBCAndReadAlert. wp_step.
  eapply wp_mono; [apply (wp_sendBlind t mode (fun _ => False) Hiv)| |done]. intros [c|] Hc; [|done].
  wp_step. apply wp_readFull; [lia| |done]. intros hdr c2 Hp2 Hh. cbn beta iota.
  wp_step. apply wp_index; [lia|]. intros h0 _. wp_step; [done|].
  wp_step. apply wp_index; [lia|]. intros h3 _. wp_step. apply wp_index; [lia|]. intros h4 _.
  cbv zeta. pose proof (be16_range h3 h4). wp_step; [done|]. to_prop.
  wp_step. apply wp_readFull; [lia| |done]. intros body c3 Hp3 Hb. cbn beta iota.
  wp_step; [|done]. to_prop. wp_step. apply wp_index; [lia|]. intros b Hi. cbn.
  rewrite <- Hc, Hp2, Hp3. assert (Hl : length hdr = 5%nat) by (unfold blen in Hh; lia).
  rewrite lookup_app_r, Hl by lia. apply lookup_app_l_Some. done.
Qed.

Lemma wp_lengthBlind (t : trial C) mode E : blen (tIV t) = 16 ->
  wp (sendMalformedCBCAndReadLength host t mode)
     (fun r => match r with
               | Some n => exists h3 h4, p !! 3%nat = Some h3 /\ p !! 4%nat = Some h4 /\ n = be16 h3 h4
               | None => True end) E.
Proof using Hblind.
  intros Hiv. unfold sendMalformedCBCAndReadLength. wp_step.
  eapply wp_mono; [apply (wp_sendBlind t mode (fun _ => False) Hiv)| |done]. intros [c|] Hc; [|done].
  wp_step. apply wp_readFull; [lia| |done]. intros hdr c2 Hp2 Hh. cbn beta iota.
  wp_step. apply wp_index; [lia|]. intros h3 H3. wp_step. apply wp_index; [lia|]. intros h4 H4. cbn.
  rewrite <- Hc, Hp2. exists h3, h4. split_and!; [by apply lookup_app_l_Some..|done].
Qed.

Lemma zombieBlind (t1 t2 t3 : trial C) E : blen (tIV t1) = 16 -> blen (tIV t2) = 16 -> blen (tIV t3) = 16 ->
  wp (probeZombiePoodleOracle host t1 t2 t3) (fun b => b = false) E.
Proof using Hblind.
  intros Hv1 Hv2 Hv3. unfold probeZombiePoodleOracle. cbn [zombieLengths]. wp_step.
  wp_step. eapply wp_mono; [apply (wp_lengthBlind _ _ (fun _ => False) Hv1)| |done]. intros [n1|] Hn1; [|done].
  wp_step. eapply wp_mono; [apply (wp_lengthBlind _ _ (fun _ => False) Hv2)| |done]. intros [n2|] Hn2; [|done].
  wp_step. eapply wp_mono; [apply (wp_lengthBlind _ _ (fun _ => False) Hv3)| |done]. intros [n3|] Hn3; [|done].
  destruct Hn1 as (a & b & Ha & Hb & ->), Hn2 as (a2 & b2 & Ha2 & Hb2 & ->), Hn3 as (a3 & b3 & Ha3 & Hb3 & ->).
  simplify_eq/=. by rewrite Z.eqb_refl.
Qed.

Lemma goldenBlind (t1 t2 : trial C) E : blen (tIV t1) = 16 -> blen (tIV t2) = 16 ->
  wp (probeGoldenDoodleOracle host t1 t2) (fun b => b = false) E.
Proof using Hblind.
  intros Hv1 Hv2. unfold probeGoldenDoodleOracle. wp_step.
  eapply wp_mono; [apply (wp_alertBlind _ _ (fun _ => False) Hv1)| |done]. intros [a1|] Ha1; [|done].
  wp_step. eapply wp_mono; [apply (wp_alertBlind _ _ (fun _ => False) Hv2)| |done]. intros [a2|] Ha2; [|done].
  cbn. simplify_eq. by rewrite beq_refl.
Qed.
End Blind.

(** The random bytes of a trial, and two timings that are close. *)
Definition drawn {C} (t : trial C) : Prop := blen (tIV t) = 16.
Definition allDrawn {C} (ts : trials (C := C)) : Prop :=
  drawn (gd1 ts) /\ drawn (gd2 ts) /\ drawn (zp1 ts) /\ drawn (zp2 ts) /\ drawn (zp3 ts)
  /\ forall i, drawn (fst (sp ts i)) /\ drawn (snd (sp ts i)).

Section Timing.
Context `{AesCbc} {C : Type} `{Peer C}.

Lemma wp_timeIs host (t : trial C) mode E : drawn t ->
  wp (sendMalformedCBCAndTimeIt host t mode) (fun r => match r with Some d => d = tTook t | None => True end) E.
Proof.
  intros Hiv. unfold sendMalformedCBCAndTimeIt. wp_step.
  eapply wp_mono; [apply (wp_sendMalformed host t mode (fun _ => False) Hiv)| |done]. intros [c|] _; [|done].
  wp_step. apply wp_readFull; [lia|done|done].
Qed.

(** With a difference of at most [d] in two of the three pairs, the median is at
    most [d]. *)
Lemma wp_sleeping host (ts : nat -> trial C * trial C) E : (forall i, drawn (fst (ts i)) /\ drawn (snd (ts i))) ->
  let gap i := Z.abs (tTook (fst (ts i)) - tTook (snd (ts i))) in
  wp (probeSleepingPoodleOracle host ts)
     (fun b => b = true -> 20 * millisecond < Z.max (Z.min (gap 0%nat) (gap 1%nat)) (Z.min (Z.max (gap 0%nat) (gap 1%nat)) (gap 2%nat))) E.
Proof.
  intros Hd gap. unfold probeSleepingPoodleOracle. change (map ts (seq 0 3)) with [ts 0%nat; ts 1%nat; ts 2%nat].
  assert (Habs : forall z, (if z <? 0 then - z else z) = Z.abs z) by (intros z; destruct (Z.ltb_spec z 0); lia).
  wp_step. cbn [sleepingDiffs].
  pose proof (Hd 0%nat) as [H00 H01]. pose proof (Hd 1%nat) as [H10 H11]. pose proof (Hd 2%nat) as [H20 H21]. unfold gap. clear gap.
  destruct (ts 0%nat) as [a0 b0], (ts 1%nat) as [a1 b1], (ts 2%nat) as [a2 b2]. cbn [fst snd] in *.
  wp_step. eapply wp_mono; [apply (wp_timeIs host a0 _ (fun _ => False) H00)| |done]. intros r1 Hr1.
  wp_step. eapply wp_mono; [apply (wp_timeIs host b0 _ (fun _ => False) H01)| |done]. intros r2 Hr2.
  destruct r1 as [r1|], r2 as [r2|]; [|done..].
  wp_step. eapply wp_mono; [apply (wp_timeIs host a1 _ (fun _ => False) H10)| |done]. intros r3 Hr3.
  wp_step. eapply wp_mono; [apply (wp_timeIs host b1 _ (fun _ => False) H11)| |done]. intros r4 Hr4.
  destruct r3 as [r3|], r4 as [r4|]; [|done..].
  wp_step. eapply wp_mono; [apply (wp_timeIs host a2 _ (fun _ => False) H20)| |done]. intros r5 Hr5.
  wp_step. eapply wp_mono; [apply (wp_timeIs host b2 _ (fun _ => False) H21)| |done]. intros r6 Hr6.
  destruct r5 as [r5|], r6 as [r6|]; [|done..]. cbn [app]. rewrite !Habs. subst. apply wp_ret.
  set (x := Z.abs _). set (y := Z.abs (_ - tTook b1)). set (z := Z.abs (_ - tTook b2)).
  assert (Hl : blen (exchangeSort [x; y; z]) / 2 = 1).
  { unfold exchangeSort, exchangeFrom. cbn [length seq fold_left Nat.sub]. unfold blen, exchange.
    repeat (cbn -[Z.ltb]; match goal with |- context [Z.ltb ?x ?y] => destruct (Z.ltb_spec x y) end); done. }
  rewrite Hl, exchangeSort_median. cbn [bind]. apply wp_ret. intros Hlt. by apply Z.ltb_lt in Hlt.
Qed.
End Timing.

(** ** Padding *)

Section Padding.
Context `{BlockCipher}.

Lemma xorBytes_lookup a : forall b i x y, a !! i = Some x -> b !! i = Some y ->
  xorBytes a b !! i = Some (byteOf (Z.lxor (bval x) (bval y))).
Proof.
  induction a as [|u a IH]; intros [|v b] [|i] x y Ha Hb; cbn in *; simplify_eq; [done|]. by apply IH.
Qed.

Lemma three_blocks k iv a b c : blen a = 16 -> blen b = 16 -> blen c = 16 ->
  cbcDecrypt k iv (a ++ b ++ c) = xorBytes iv (blockD k a) ++ xorBytes a (blockD k b) ++ xorBytes b (blockD k c).
Proof.
  intros Ha Hb Hc. cbn [cbcDecrypt cbcMode]. unfold blocks. rewrite !blen_app, Ha, Hb, Hc.
  change (Z.to_nat _) with 3%nat. cbn [cbcD]. unfold blen in *.
  rewrite (take_app_length' a), (drop_app_length' a) by lia. rewrite (take_app_length' b), (drop_app_length' b) by lia.
  rewrite (take_ge c), (drop_ge c) by lia. by rewrite app_nil_r.
Qed.

(** Three blocks of text, encrypted: the text of the last comes back xored with the
    ciphertext before it. *)
Lemma cbcE_three k iv m : blen k = 16 -> blen m = 48 -> exists a b c,
  cbcEncrypt k iv m = a ++ b ++ c /\ blen a = 16 /\ blen b = 16 /\ blen c = 16 /\ blockD k c = xorBytes b (drop 32 m).
Proof.
  intros Hk Hm. cbn [cbcEncrypt cbcMode]. unfold blocks. rewrite Hm. change (Z.to_nat _) with 3%nat. cbn [cbcE].
  rewrite !drop_drop. cbn [Nat.add]. rewrite (drop_ge m 48), app_nil_r by (unfold blen in Hm; lia).
  set (a := blockE k _). set (b := blockE k (xorBytes a _)). set (c := blockE k (xorBytes b _)).
  assert (Hd : forall n, (n <= 32)%nat -> blen (take 16 (drop n m)) = 16).
  { intros n Hn. unfold blen in *. rewrite length_take, length_drop. lia. }
  exists a, b, c. unfold a, b, c. split; [done|]. rewrite !blockE_length, !blen_xorBytes.
  split_and!; [by apply (Hd 0%nat); lia|apply Hd; lia|apply Hd; lia|].
  rewrite blockD_inverse by (done || (rewrite blen_xorBytes; apply Hd; lia)).
  rewrite take_ge; [done|]. rewrite length_drop. unfold blen in Hm. lia.
Qed.

(** The byte flipped at the end of a block comes back in the text of the next. *)
Lemma flip_next b c q k x y :
  blockD k c = xorBytes b q -> b !! 15%nat = Some x -> q !! 15%nat = Some y ->
  xorBytes (<[15%nat := byteOf (Z.lxor (bval x) 66)]> b) (blockD k c) !! 15%nat = Some (byteOf (Z.lxor 66 (bval y))).
Proof.
  intros -> Hx Hy. rewrite (xorBytes_lookup _ _ 15 (byteOf (Z.lxor (bval x) 66)) (byteOf (Z.lxor (bval x) (bval y)))).
  - f_equal. f_equal. pose proof (bval_range x). pose proof (bval_range y).
    rewrite !bval_byteOf, !Z.mod_small by (apply lxor_byte; lia).
    rewrite (Z.lxor_comm (bval x) 66), Z.lxor_assoc, <- (Z.lxor_assoc (bval x) (bval x)), Z.lxor_nilpotent, Z.lxor_0_l. done.
  - rewrite list_lookup_insert_eq; [done|]. by apply lookup_lt_Some in Hx.
  - by apply xorBytes_lookup.
Qed.

Lemma protected_last keys : drop 32 (protected keys) !! 15%nat = Some x09.
Proof.
  rewrite lookup_drop. unfold protected. rewrite app_assoc, lookup_app_r; rewrite length_app;
    pose proof (blen_hmacSha1 (ClientMAC keys) (macHeader 0 x17 0x0303 18 ++ getRequest)) as Hh;
    unfold blen in Hh; change (length getRequest) with 18%nat; [|lia].
  by replace (32 + 15 - _)%nat with 9%nat by lia.
Qed.

(** Text of 48 bytes that ends in 75: the receiver looks no further. *)
Lemma receive_bad_padding keys ty version seqNum body :
  let plain := cbcDecrypt (ClientKey keys) (take 16 body) (drop 16 body) in
  length plain = 48%nat -> plain !! 47%nat = Some x4b -> receiveRecord keys ty version seqNum body = None.
Proof.
  intros plain Hl Hp. unfold receiveRecord. fold plain.
  assert (Hlast : List.last (map Some plain) None = Some x4b).
  { rewrite <- (take_drop 47 plain). rewrite (drop_S _ x4b) by done. rewrite (drop_ge plain 48) by lia.
    rewrite map_app. apply last_last. }
  rewrite Hlast. rewrite bool_decide_eq_false_2; [done|]. intros [Hpad _]. unfold blen in Hpad. rewrite Hl in Hpad. by vm_compute in Hpad.
Qed.

(** The record with its flipped byte, block by block. *)
Lemma badMacGoodPad_blocks keys iv : blen (ClientKey keys) = 16 -> blen iv = 16 ->
  exists a b c x, buildMalformedCBCRecord keys badMacGoodPad iv
      = Ret ([x17; x03; x03; x00; x40] ++ iv ++ a ++ <[15%nat := byteOf (Z.lxor (bval x) 66)]> b ++ c)
    /\ blen a = 16 /\ blen b = 16 /\ blen c = 16 /\ b !! 15%nat = Some x
    /\ blockD (ClientKey keys) c = xorBytes b (drop 32 (protected keys)).
Proof.
  intros Hk Hiv. destruct (cbcE_three (ClientKey keys) iv (protected keys) Hk (blen_protected keys))
    as (a & b & c & Henc & Ha & Hb & Hc & Hd).
  assert (length iv = 16%nat /\ length a = 16%nat /\ length b = 16%nat) as (Li & La & Lb) by (unfold blen in *; lia).
  destruct (lookup_lt_is_Some_2 b 15 ltac:(lia)) as [x Hx]. exists a, b, c, x. split_and!; [|done..].
  unfold buildMalformedCBCRecord. fold getRequest. rewrite encrypt_request, Henc by done. cbn [bind].
  assert (Hl : blen (iv ++ a ++ b ++ c) = 64) by (rewrite !blen_app; lia). rewrite Hl.
  cbn [Z.leb Z.compare Pos.compare Pos.compare_cont]. unfold xorAt.
  rewrite (read_index _ (iv ++ a ++ take 15 b) x c).
  - cbn [bind]. change (Z.to_nat (64 - 17)) with 47%nat. rewrite insert_app_r_alt by lia. rewrite Li, insert_app_r_alt by lia.
    rewrite La, insert_app_l by lia. cbn [Nat.sub]. do 2 f_equal. rewrite !blen_app in *. unfold blen at 3.
    rewrite length_insert. fold (blen b). by replace (blen iv + (blen a + (blen b + blen c))) with 64 by lia.
  - rewrite <- !app_assoc. do 2 f_equal. change (x :: c) with ([x] ++ c). rewrite app_assoc. f_equal.
    rewrite <- (take_drop 15 b) at 1. f_equal. rewrite (drop_S _ x) by done. rewrite drop_ge; [done|lia].
  - rewrite !blen_app. unfold blen at 3. rewrite length_take. unfold blen in *. lia.
Qed.
End Padding.

(** The record that is to have a bad MAC under good padding has bad padding: with
    any block cipher, keys and IV, the byte that the probe flips - the last one of
    the block before the last - is xored by CBC into the byte that gives the length of
    the padding, so that the record decrypts to 48 bytes of which the last, 9 in what
    was encrypted, asks for 75 more of the same; a receiver rejects it before it looks
    at the MAC. *)
Theorem badMacGoodPad_padding `{BlockCipher} keys iv
  (Hkey : blen (ClientKey keys) = 16) (Hiv : blen iv = 16) :
  protected keys !! 47%nat = Some (byteOf 9) /\
  exists body, buildMalformedCBCRecord keys badMacGoodPad iv = Ret ([x17; x03; x03; x00; x40] ++ body)
    /\ let plain := cbcDecrypt (ClientKey keys) (take 16 body) (drop 16 body) in
       length plain = 48%nat /\ plain !! 47%nat = Some (byteOf 75)
       /\ receiveRecord keys x17 0x0303 0 body = None.
Proof.
  pose proof (protected_last keys) as Hp. split; [by rewrite lookup_drop in Hp|].
  destruct (badMacGoodPad_blocks keys iv Hkey Hiv) as (a & b & c & x & Hrec & Ha & Hb & Hc & Hx & Hd).
  set (b' := <[15%nat := byteOf (Z.lxor (bval x) 66)]> b) in *. assert (Hb' : blen b' = 16) by (unfold b', blen; by rewrite length_insert).
  exists (iv ++ a ++ b' ++ c). split; [done|]. cbv zeta.
  assert (Hpl : let plain := cbcDecrypt (ClientKey keys) (take 16 (iv ++ a ++ b' ++ c)) (drop 16 (iv ++ a ++ b' ++ c)) in
                length plain = 48%nat /\ plain !! 47%nat = Some (byteOf 75)).
  { rewrite (take_app_length' iv), (drop_app_length' iv) by (unfold blen in *; lia). rewrite three_blocks by done. cbv zeta.
    assert (Hl : forall u v, blen v = 16 -> length (xorBytes u (blockD (ClientKey keys) v)) = 16%nat).
    { intros u v Hv. pose proof (blen_xorBytes u (blockD (ClientKey keys) v)). pose proof (blockD_length (ClientKey keys) v).
      unfold blen in *. lia. }
    split; [rewrite !length_app, !Hl by done; done|].
    rewrite lookup_app_r; rewrite Hl by done; [|lia]. rewrite lookup_app_r; rewrite Hl by done; [|lia].
    exact (flip_next b c _ _ x x09 Hd Hx Hp). }
  destruct Hpl as [Hl Hlast]. split_and!; [done|done|]. by apply receive_bad_padding.
Qed.

(** A network that nothing answers on: no suite was negotiated, and [Probed] says that
    the probes ran. *)
Lemma probed_unreachable `{AesCbc} {C : Type} `{Peer C} host (ts : trials (C := C)) :
  (forall t, In t [gd1 ts; zp1 ts; fst (sp ts 0); snd (sp ts 0)] -> forall hello, tNet t hello = DialErr) ->
  probeCBCOracles host ts
  = Ret {| Probed := true; GoldenDoodle := false; ZombiePoodle := false; SleepingPoodle := false; CipherNegotiable := false |}.
Proof.
  intros Hnet.
  assert (Hs : forall t mode, In t [gd1 ts; zp1 ts; fst (sp ts 0); snd (sp ts 0)] -> sendMalformedCBC host t mode = Ret None).
  { intros t mode Ht. unfold sendMalformedCBC, handshakeForCBCOracle. by rewrite Hnet. }
  unfold probeCBCOracles, probeGoldenDoodleOracle, sendMalformedCBCAndReadAlert. rewrite Hs by (by left). cbn [bind].
  unfold probeZombiePoodleOracle. cbn [zombieLengths]. unfold sendMalformedCBCAndReadLength. rewrite Hs by (right; by left). cbn [bind].
  unfold probeSleepingPoodleOracle. cbn [map seq sleepingDiffs]. destruct (sp ts 0) as [ta tb]. cbn [sleepingDiffs fst snd] in *.
  unfold sendMalformedCBCAndTimeIt. rewrite !Hs by (cbn; tauto). done.
Qed.

(** C31. A server that reacts to the header of the record alone - as one does that was
    sent no ClientKeyExchange and no ChangeCipherSpec before it, and so has no keys - is
    never found vulnerable: the three records of a probe have the same header, so the
    alerts and the lengths agree, and the verdict on the delay is negative when in two
    of the three pairs the times are within 20 ms of each other.  In any case the
    probes return, whatever the network does, and [Probed] is set: for a server that
    refuses the suite or does not answer too, where the comment of the code says that it
    is not ([probed_unreachable]). *)
Theorem cbcOracles_blind `{AesCbc} {C : Type} `{Peer C} host p (ts : trials (C := C))
  (Hdrawn : allDrawn ts) (Hblind : headerOnly (C := C) p)
  (Hgap : let gap i := Z.abs (tTook (fst (sp ts i)) - tTook (snd (sp ts i))) in
          exists i j, (i < j < 3)%nat /\ gap i <= 20 * millisecond /\ gap j <= 20 * millisecond) :
  exists r, probeCBCOracles host ts = Ret r /\ Probed r = true
    /\ GoldenDoodle r = false /\ ZombiePoodle r = false /\ SleepingPoodle r = false
    /\ cbcOracleHeadline r = ""%string.
Proof.
  destruct Hdrawn as (Hv1 & Hv2 & Hv3 & Hv4 & Hv5 & Hsp). unfold probeCBCOracles.
  pose proof (goldenBlind host p Hblind (gd1 ts) (gd2 ts) (fun _ => False) Hv1 Hv2) as Hg.
  pose proof (zombieBlind host p Hblind (zp1 ts) (zp2 ts) (zp3 ts) (fun _ => False) Hv3 Hv4 Hv5) as Hz.
  pose proof (wp_sleeping host (sp ts) (fun _ => False) Hsp) as Hs.
  destruct (probeGoldenDoodleOracle _ _ _) as [gd| | |]; try done. cbn in Hg. subst gd.
  destruct (probeZombiePoodleOracle _ _ _) as [zp| | |]; try done. cbn in Hz. subst zp.
  destruct (probeSleepingPoodleOracle _ _) as [sl| | |]; try done. cbn [wp] in Hs. cbn [bind].
  assert (sl = false) as ->.
  { destruct sl; [|done]. specialize (Hs eq_refl). cbv zeta in Hgap. destruct Hgap as (i & j & Hij & Hi & Hj).
    assert (i = 0 /\ j = 1 \/ i = 0 /\ j = 2 \/ i = 1 /\ j = 2)%nat as [[-> ->]|[[-> ->]|[-> ->]]] by lia; lia. }
  eexists. split; [reflexivity|]. done.
Qed.

Module CbcWitnesses.
(** A block cipher in name. *)
#[local] Program Instance plainBlocks : BlockCipher := {| blockE _ b := b; blockD _ b := b |}.
Solve All Obligations with done.

Definition someKeys : keyBlockAES128CBCSHA :=
  {| ClientMAC := repeat x01 20; ServerMAC := repeat x02 20; ClientKey := repeat x03 16; ServerKey := repeat x04 16 |}.

Lemma badMacGoodPad_padding_witness :
  exists body, receiveRecord someKeys x17 0x0303 0 body = None /\ length body = 64%nat
    /\ buildMalformedCBCRecord someKeys badMacGoodPad (repeat x05 16) = Ret ([x17; x03; x03; x00; x40] ++ body).
Proof.
  destruct (badMacGoodPad_padding someKeys (repeat x05 16) eq_refl eq_refl) as (_ & body & Hb & _ & _ & Hr).
  exists body. split_and!; [done| |done].
  assert (Hl : match buildMalformedCBCRecord someKeys badMacGoodPad (repeat x05 16) with Ret r => length r | _ => 0%nat end = 69%nat)
    by (vm_compute; reflexivity).
  rewrite Hb in Hl. rewrite length_app in Hl. cbn in Hl. lia.
Defined.

(** A server that answers the record with a plaintext alert, unexpected_message. *)
Inductive stage := Greeted (left : bytes) | Answering (left : bytes).
Definition left (s : stage) : bytes := match s with Greeted b | Answering b => b end.
Definition keep (s : stage) (b : bytes) : stage := match s with Greeted _ => Greeted b | Answering _ => Answering b end.
#[local] Program Instance stageReader : Reader stage := {|
  pending := left;
  readFull n s := r <~ bytesReadFull n (left s) ;; Ret (fst r, keep s (snd r))
|}.
Next Obligation.
  intros n s Hn. destruct (readFull_spec (C := bytes) n (left s) Hn) as (r & c' & Hr & Hs).
  cbn [readFull bytesReader] in Hr. rewrite Hr. exists r, (keep s c'). split; [done|].
  assert (left (keep s c') = c') as -> by by destruct s. by destruct r.
Qed.
#[local] Instance stagePeer : Peer stage := {| send _ _ := Some (Answering [x15; x03; x03; x00; x02; x02; x0a]) |}.

Definition flight : list (byte * bytes) :=
  [(x02, legacyServerHello x03 x03 (repeat x09 32) [] 0x002f x00 []); (x0e, [])].
Definition aTrial (took : Z) : trial stage :=
  {| tNet := fun _ => Connected (Greeted (encRecord x16 [x03; x03] (encMsgs flight)));
     tRandom := repeat x07 32; tIV := repeat x05 16; tTook := took |}.
Definition someTrials : trials (C := stage) :=
  {| gd1 := aTrial 0; gd2 := aTrial 0; zp1 := aTrial 0; zp2 := aTrial 0; zp3 := aTrial 0;
     sp := fun i => (aTrial 1000000, aTrial (Z.of_nat i * 15000000)) |}.

Lemma cbcOracles_blind_witness :
  exists r, probeCBCOracles "h" someTrials = Ret r /\ SleepingPoodle r = false.
Proof.
  destruct (cbcOracles_blind "h" [x15; x03; x03; x00; x02; x02; x0a] someTrials) as (r & Hr & _ & _ & _ & Hs & _).
  - unfold allDrawn, drawn. cbn. split_and!; done.
  - intros c body _. eexists. split; reflexivity.
  - exists 0%nat, 1%nat. split; [lia|]. by vm_compute.
  - exists r. split; [exact Hr|exact Hs].
Defined.
End CbcWitnesses.
