(* ===== verification/Reneg.v ===== *)
(** The client-initiated renegotiation probe of [tls_reneg.go]: a complete TLS 1.2
    handshake with RSA key exchange, then a second ClientHello on the encrypted
    channel.  Record protection and key derivation are those of [Ccs], the RSA
    parameters those of [Robot]. *)

From Stdlib Require Import ZArith List String Ascii Strings.Byte Lia Bool.
From stdpp Require Import base list strings numbers.
From S2P Require Import Prelude Bytes GoStrings Digest Stream Extensions Flight Service ServerHello ClientHellos Ccs Robot.
Open Scope Z_scope.

Record renegResult := {
  rrProbed : bool;
  ClientInitAccepted : bool;
  DoSAmplification : bool;
  RenegCountIn5s : Z;
  TrialsConsistent : Z;
  Notes : string
}.

Definition computeMasterSecret (premaster clientRandom serverRandom : bytes) : outcome bytes :=
  let seed := clientRandom ++ serverRandom in
  tlsPRF12 premaster "master secret" seed 48.

Definition sha256OfTranscript (transcript : bytes) : bytes := sha256 transcript.

(** [rnd] is what [rand.Read] left in the 32-byte buffer. *)
Definition buildSecondClientHello (host : string) (clientVerifyData rnd : bytes) : bytes :=
  let cipherSuites := [0x002f; 0xc02f; 0xc014; 0x009c] in
  let cipherBytes := flat_map putBE16 cipherSuites in
  let extensions := buildSNIExtension host in
  let renegInfo := [xff; x01] ++ putBE16 (blen clientVerifyData + 1) in
  let renegInfo := renegInfo ++ [byteOf (blen clientVerifyData)] in
  let renegInfo := renegInfo ++ clientVerifyData in
  let extensions := extensions ++ renegInfo in
  let extLen := blen extensions in
  let body := [x03; x03] in
  let body := body ++ rnd in
  let body := body ++ [x00] in
  let body := body ++ putBE16 (blen cipherBytes) in
  let body := body ++ cipherBytes in
  let body := body ++ [x01; x00] in
  let body := body ++ putBE16 extLen in
  let body := body ++ extensions in
  let hs := [x01] ++ putBE24 (blen body) in
  hs ++ body.

(** What the walk collects: the server random, the suite and the transcript, and the
    key of the last Certificate. *)
Abbreviation flightState K := (ccsState * option K)%type.

Section Handshake.
Context `{AesCbc} {K : Type} `{RsaKeys K} {C : Type} `{Peer C}.

(** [for i := 0; i+4 <= len(body); ] *)
Definition renegMsgTurn (body : bytes) (st : Z * flightState K) : outcome (step (Z * flightState K) unit) :=
  let '(i, (s, rsaKey)) := st in
  if i + 4 <=? blen body then
    hsType <~ index body i ;;
    l2 <~ index body (i + 1) ;; l1 <~ index body (i + 2) ;; l0 <~ index body (i + 3) ;;
    let hsLen := be24 l2 l1 l0 in
    if blen body <? i + 4 + hsLen then Ret (Break (i, (s, rsaKey))) else
    hsBody <~ slice body (i + 4) (i + 4 + hsLen) ;;
    s' <~ (if beq hsType x02 then s <~ onCcsServerHello hsBody s ;; Ret (s, rsaKey)
           else if beq hsType x0b then k <~ parseRSAKeyFromCertList hsBody ;; Ret (s, k)
           else if beq hsType x0e then Ret ({| serverRandom := serverRandom s; negotiatedCipher := negotiatedCipher s;
                                               transcript := transcript s; done := true |}, rsaKey)
           else Ret (s, rsaKey)) ;;
    Ret (Next (i + (4 + hsLen), s'))
  else Ret (Break (i, (s, rsaKey))).

(** One turn of the loop over records: [None] is [return st, false]. *)
Definition renegRecordTurn (st : C * flightState K) : outcome (step (C * flightState K) (option (C * flightState K))) :=
  let '(conn, (s, rsaKey)) := st in
  unpack (hdr, conn) <~ readFull 5 conn ;;
  match hdr with
  | None => Ret (Return None)
  | Some hdr =>
      h0 <~ index hdr 0 ;;
      if beq h0 x15 || negb (beq h0 x16) then Ret (Return None) else
      h3 <~ index hdr 3 ;; h4 <~ index hdr 4 ;;
      let recLen := be16 h3 h4 in
      unpack (body, conn) <~ readFull recLen conn ;;
      match body with
      | None => Ret (Return None)
      | Some body =>
          let s := {| serverRandom := serverRandom s; negotiatedCipher := negotiatedCipher s;
                      transcript := transcript s ++ body; done := false |} in
          r <~ loop (renegMsgTurn body) (S (length body)) (0, (s, rsaKey)) ;;
          let st := match r with inl (_, st) => st | inr _ => (s, rsaKey) end in
          if done (fst st) then Ret (Return (Some (conn, st))) else Ret (Next (conn, st))
      end
  end.

(** [for i := 0; i < 2; i++]: two records of the server, neither of them an alert. *)
Fixpoint readRecords (n : nat) (conn : C) : outcome (option C) :=
  match n with
  | O => Ret (Some conn)
  | S n =>
      unpack (hdr, conn) <~ readFull 5 conn ;;
      match hdr with
      | None => Ret None
      | Some hdr =>
          h0 <~ index hdr 0 ;;
          if beq h0 x15 then Ret None else
          h3 <~ index hdr 3 ;; h4 <~ index hdr 4 ;;
          unpack (body, conn) <~ readFull (be16 h3 h4) conn ;;
          match body with None => Ret None | Some _ => readRecords n conn end
      end
  end.

Record renegHandshakeState := { conn : C; keys : keyBlockAES128CBCSHA; clientSeq : Z; clientVerifyData : bytes }.

(** What the handshake draws from [rand]. *)
Record hsDraws := { hRandom : bytes; hPremaster : bytes; hPadding : bytes; hIV : bytes }.

(** [if _, err := conn.Write(b); err != nil { return st, false }] *)
Definition sendOr {R} (b : bytes) (c : C) (k : C -> outcome (option R)) : outcome (option R) :=
  match send b c with None => Ret None | Some c => k c end.

(** A record that [encryptRecordAES128CBCSHA] built: its error ends the probe. *)
Definition encrypted {R} (plaintext : bytes) (keys : keyBlockAES128CBCSHA) (seqNum : Z) (iv : bytes)
    (k : bytes -> outcome (option R)) : outcome (option R) :=
  match encryptRecordAES128CBCSHA plaintext keys x16 0x0303 seqNum iv with
  | Err _ => Ret None
  | Panic => Panic
  | NoFuel => NoFuel
  | Ret body => k ([x16; x03; x03] ++ putBE16 (blen body) ++ body)
  end.

(** The second half of [renegFullHandshake], once the flight of the server is in. *)
Definition renegFinish (c : C) (s : ccsState) (rsaKey : K) (d : hsDraws) : outcome (option renegHandshakeState) :=
  let premaster := [x03; x03] ++ hPremaster d in
  match encrypt rsaKey (hPadding d) premaster with
  | None => Ret None
  | Some enc =>
      let cke := buildClientKeyExchangeRSA enc in
      hs <~ sliceFrom cke 5 ;;
      let transcript := transcript s ++ hs in
      sendOr cke c (fun c =>
      masterSecret <~ computeMasterSecret premaster (hRandom d) (serverRandom s) ;;
      keys <~ deriveKeysAES128CBCSHA masterSecret (serverRandom s) (hRandom d) ;;
      sendOr ccsInjected c (fun c =>
      let transcriptHashBytes := sha256OfTranscript transcript in
      verifyData <~ finishedVerifyData masterSecret transcriptHashBytes ;;
      let finishedPlain := [x14; x00; x00; x0c] ++ verifyData in
      encrypted finishedPlain keys 0 (hIV d) (fun finishedRec =>
      sendOr finishedRec c (fun c =>
      c <~ readRecords 2 c ;;
      Ret (match c with
           | None => None
           | Some c => Some {| conn := c; keys := keys; clientSeq := 1; clientVerifyData := verifyData |}
           end)))))
  end.

Definition renegFullHandshake (net : bytes -> dialed C) (host : string) (d : hsDraws)
    : outcome (option renegHandshakeState) :=
  let hello := ccsClientHello host (hRandom d) in
  transcript0 <~ sliceFrom hello 5 ;;
  match net hello with
  | DialErr | WriteErr => Ret None
  | Connected c =>
      r <~ loop renegRecordTurn (S (length (pending c)))
             (c, ({| serverRandom := []; negotiatedCipher := 0; transcript := transcript0; done := false |}, None)) ;;
      match r with
      | inl _ | inr None => Ret None
      | inr (Some (c, (s, rsaKey))) =>
          match rsaKey with
          | Some rsaKey =>
              if negb (negotiatedCipher s =? 0x002F) || negb (blen (serverRandom s) =? 32) then Ret None
              else renegFinish c s rsaKey d
          | None => Ret None
          end
      end
  end.

(** ** The second hello *)

(** What a renegotiation draws: the random of the hello and the IV of its record. *)
Record renegDraws := { nRandom : bytes; nIV : bytes }.

(** The hello of a renegotiation, encrypted and sent: the state has the next sequence
    number. *)
Definition sendReneg (host : string) (state : renegHandshakeState) (d : renegDraws) : outcome (option renegHandshakeState) :=
  let innerHello := buildSecondClientHello host (clientVerifyData state) (nRandom d) in
  encrypted innerHello (keys state) (clientSeq state) (nIV d) (fun rec =>
  sendOr rec (conn state) (fun c =>
  Ret (Some {| conn := c; keys := keys state; clientSeq := u64 (clientSeq state + 1);
               clientVerifyData := clientVerifyData state |}))).

Definition renegOneTrial (net : bytes -> dialed C) (host : string) (d : hsDraws) (n : renegDraws) : outcome bool :=
  st <~ renegFullHandshake net host d ;;
  match st with
  | None => Ret false
  | Some state =>
      st <~ sendReneg host state n ;;
      match st with
      | None => Ret false
      | Some state =>
          unpack (hdr, _) <~ readFull 5 (conn state) ;;
          match hdr with
          | None => Ret false
          | Some hdr => h0 <~ index hdr 0 ;; Ret (beq h0 x16)
          end
      end
  end.

(** ** The burst *)

(** A turn of the burst: what [time.Now()] says at its test, and what it draws. *)
Record burstTurn := { now : Z; drawn : renegDraws }.

(** [for time.Now().Before(deadline)], over the turns there is time for: [NoFuel] is a
    list that ends before its clock reaches the deadline. *)
Fixpoint burst (host : string) (deadline : Z) (turns : list burstTurn) (state : renegHandshakeState) (count : Z) : outcome Z :=
  match turns with
  | [] => NoFuel
  | t :: turns =>
      if now t <? deadline then
        st <~ sendReneg host state (drawn t) ;;
        match st with
        | None => Ret count
        | Some state =>
            unpack (hdr, c) <~ readFull 5 (conn state) ;;
            match hdr with
            | None => Ret count
            | Some hdr =>
                h0 <~ index hdr 0 ;;
                if negb (beq h0 x16) then Ret count else
                h3 <~ index hdr 3 ;; h4 <~ index hdr 4 ;;
                let bodyLen := be16 h3 h4 in
                unpack (_, c) <~ readFull bodyLen c ;;
                burst host deadline turns
                  {| conn := c; keys := keys state; clientSeq := clientSeq state; clientVerifyData := clientVerifyData state |}
                  (count + 1)
            end
        end
      else Ret count
  end.

(** [start] is the clock at [time.Now().Add(budget)]. *)
Definition renegBurstTrial (net : bytes -> dialed C) (host : string) (budget start : Z) (d : hsDraws) (turns : list burstTurn)
    : outcome (Z * bool) :=
  st <~ renegFullHandshake net host d ;;
  match st with
  | None => Ret (0, false)
  | Some state =>
      let deadline := start + budget in
      count <~ burst host deadline turns state 0 ;;
      Ret (count, true)
  end.

(** ** The probe *)

Record renegEnv := {
  eNet : nat -> bytes -> dialed C;
  eDraws : nat -> hsDraws;
  eHello : nat -> renegDraws;
  eStart : Z;
  eTurns : list burstTurn
}.

Fixpoint renegTrials (host : string) (e : renegEnv) (i : nat) (n : nat) (accepted : Z) : outcome Z :=
  match n with
  | O => Ret accepted
  | S n =>
      ok <~ renegOneTrial (eNet e i) host (eDraws e i) (eHello e i) ;;
      renegTrials host e (S i) n (if (ok : bool) then accepted + 1 else accepted)
  end.

Definition fiveSeconds : Z := 5000000000.

Definition probeClientInitReneg (host : string) (e : renegEnv) : outcome renegResult :=
  accepted <~ renegTrials host e 0 3 0 ;;
  if accepted =? 0 then
    Ret {| rrProbed := true; ClientInitAccepted := false; DoSAmplification := false; RenegCountIn5s := 0;
           TrialsConsistent := accepted; Notes := "all trials: renegotiation refused or unsupported cipher" |}
  else if 2 <=? accepted then
    unpack (dosCount, _) <~ renegBurstTrial (eNet e 3) host fiveSeconds (eStart e) (eDraws e 3) (eTurns e) ;;
    Ret {| rrProbed := true; ClientInitAccepted := true; DoSAmplification := 5 <=? dosCount; RenegCountIn5s := dosCount;
           TrialsConsistent := accepted; Notes := "" |}
  else
    Ret {| rrProbed := true; ClientInitAccepted := false; DoSAmplification := false; RenegCountIn5s := 0;
           TrialsConsistent := accepted; Notes := "1/3 trials accepted — inconsistent, not flagging" |}.
End Handshake.

(** ** Everything returns *)

Lemma parseKey_total {K} `{RsaKeys K} b : exists k, parseRSAKeyFromCertList b = Ret k.
Proof.
  pose proof (wp_parseRSAKey b (fun _ => False)) as Hw. destruct (parseRSAKeyFromCertList b); try done. by eexists.
Qed.

Section Total.
Context `{AesCbc} {K : Type} `{RsaKeys K} {C : Type} `{Peer C}.

Lemma wp_renegMsgs body s (k : option K) E : wp (loop (renegMsgTurn body) (S (length body)) (0, (s, k))) (fun _ => True) E.
Proof.
  apply (wp_loop _ (fun st => 0 <= fst st) (fun st => length body - Z.to_nat (fst st))%nat); [|cbn; lia|cbn; lia].
  intros [i [s1 k1]] Hi. cbn [fst] in Hi. unfold renegMsgTurn. wp_step; [|done]. to_prop.
  wp_step. apply wp_index; [lia|]. intros ty _. wp_step. apply wp_index; [lia|]. intros l2 _.
  wp_step. apply wp_index; [lia|]. intros l1 _. wp_step. apply wp_index; [lia|]. intros l0 _.
  pose proof (be24_range l2 l1 l0). cbv zeta. wp_step; [done|]. to_prop.
  wp_step. apply wp_slice; [lia..|]. intros _. rewrite onCcsServerHello_pure.
  destruct (parseKey_total (K := K) (sub body (i + 4) (i + 4 + be24 l2 l1 l0 - (i + 4)))) as [k2 ->]. wp_step.
  apply (wp_mono _ (fun _ => True) _ (fun _ => False)); [by destruct (beq ty x02), (beq ty x0b), (beq ty x0e)| |done].
  intros s' _. apply wp_ret. unfold blen in *. cbn. lia.
Qed.

Lemma wp_renegWalk (c : C) (st : flightState K) E :
  wp (loop renegRecordTurn (S (length (pending c))) (c, st)) (fun _ => True) E.
Proof.
  apply (wp_loop _ (fun _ => True) (fun st => length (pending (fst st)))); [|done|cbn; lia].
  intros [c1 [s k]] _. unfold renegRecordTurn. wp_step. apply wp_readFull; [lia| |done]. intros hdr c2 Hp2 Hh. cbn beta iota.
  wp_step. apply wp_index; [lia|]. intros h0 _. wp_step; [done|].
  wp_step. apply wp_index; [lia|]. intros h3 _. wp_step. apply wp_index; [lia|]. intros h4 _.
  cbv zeta. pose proof (be16_range h3 h4). wp_step. apply wp_readFull; [lia| |done]. intros body c3 Hp3 Hb. cbn beta iota.
  wp_step. eapply wp_mono; [apply (wp_renegMsgs body _ _ (fun _ => False))| |done]. intros r _.
  wp_step; [done|]. apply wp_ret. cbn.
  apply (f_equal length) in Hp2, Hp3. rewrite length_app in Hp2, Hp3. unfold blen in *. split; [done|lia].
Qed.

Lemma wp_readRecords n : forall (c : C) E, wp (readRecords n c) (fun _ => True) E.
Proof.
  induction n as [|n IH]; intros c E; cbn [readRecords]; [done|].
  wp_step. apply wp_readFull; [lia| |done]. intros hdr c2 _ Hh. cbn beta iota.
  wp_step. apply wp_index; [lia|]. intros h0 _. wp_step; [done|].
  wp_step. apply wp_index; [lia|]. intros h3 _. wp_step. apply wp_index; [lia|]. intros h4 _.
  pose proof (be16_range h3 h4). wp_step. apply wp_readFull; [lia| |done]. intros body c3 _ _. apply IH.
Qed.

Lemma wp_sendOr {R} b (c : C) (k : C -> outcome (option R)) Q E :
  Q None -> (forall c, wp (k c) Q E) -> wp (sendOr b c k) Q E.
Proof. intros Hn Hk. unfold sendOr. by destruct (send b c). Qed.

Lemma wp_encrypted {R} plaintext keys seqNum iv (k : bytes -> outcome (option R)) Q E :
  blen (ClientKey keys) = 16 -> blen iv = 16 -> (forall rec, wp (k rec) Q E) -> wp (encrypted plaintext keys seqNum iv k) Q E.
Proof.
  intros Hk Hiv Hc. unfold encrypted. by destruct (receive_encrypt plaintext keys x16 0x0303 seqNum iv Hk Hiv) as (b & -> & _).
Qed.

(** A state whose keys the cipher takes. *)
Definition ready (st : option (renegHandshakeState (C := C))) : Prop :=
  match st with Some s => blen (ClientKey (keys s)) = 16 | None => True end.

Lemma wp_renegFinish (c : C) s (k : K) d E : blen (hIV d) = 16 -> wp (renegFinish c s k d) ready E.
Proof.
  intros Hiv. unfold renegFinish. destruct (encrypt _ _ _) as [enc|]; [|done].
  unfold buildClientKeyExchangeRSA. cbv zeta. rewrite <- app_assoc.
  match goal with |- context [sliceFrom (?a ++ ?b ++ ?r) 5] => rewrite (app_assoc a b r), (sliceFrom_app (a ++ b) r 5) by done end.
  cbn [bind]. apply wp_sendOr; [done|]. intros c1.
  destruct (blen_prf ([x03; x03] ++ hPremaster d) "master secret" (hRandom d ++ serverRandom s) 48) as (master & Hm & _); [lia|].
  unfold computeMasterSecret. rewrite Hm. cbn [bind].
  destruct (deriveKeys_ok master (serverRandom s) (hRandom d)) as (ks & -> & Hk). cbn [bind].
  apply wp_sendOr; [done|]. intros c2. unfold finishedVerifyData.
  match goal with |- context [tlsPRF12 master "client finished" ?t 12] =>
    destruct (blen_prf master "client finished" t 12) as (vd & -> & _); [lia|] end.
  cbn [bind]. apply wp_encrypted; [done..|]. intros rec. apply wp_sendOr; [done|]. intros c3.
  wp_step. eapply wp_mono; [apply (wp_readRecords 2 c3 (fun _ => False))| |done]. intros [c4|] _; [|done]. exact Hk.
Qed.

Lemma wp_renegHandshake (net : bytes -> dialed C) host d E : blen (hIV d) = 16 ->
  wp (renegFullHandshake (K := K) net host d) ready E.
Proof.
  intros Hiv. unfold renegFullHandshake, ccsClientHello. rewrite helloRecord_enc. unfold encRecord at 1.
  match goal with |- context [sliceFrom (x16 :: ?v ++ ?l ++ ?r) 5] =>
    change (x16 :: v ++ l ++ r) with (([x16] ++ v ++ l) ++ r); rewrite (sliceFrom_app ([x16] ++ v ++ l) r 5) by done end.
  cbn [bind]. destruct (net _) as [| |c]; [done..|].
  wp_step. eapply wp_mono; [apply (wp_renegWalk c _ (fun _ => False))| |done].
  intros [?|[[c1 [s [k|]]]|]] _; [done| |done|done]. wp_step; [done|]. by apply wp_renegFinish.
Qed.

Lemma wp_sendReneg host (st : renegHandshakeState (C := C)) n E : blen (ClientKey (keys st)) = 16 -> blen (nIV n) = 16 ->
  wp (sendReneg host st n) ready E.
Proof.
  intros Hk Hiv. unfold sendReneg. apply wp_encrypted; [done..|]. intros rec. apply wp_sendOr; [done|]. done.
Qed.

Lemma wp_renegOneTrial (net : bytes -> dialed C) host d n E : blen (hIV d) = 16 -> blen (nIV n) = 16 ->
  wp (renegOneTrial (K := K) net host d n) (fun _ => True) E.
Proof.
  intros Hiv Hn. unfold renegOneTrial. wp_step.
  eapply wp_mono; [apply (wp_renegHandshake net host d (fun _ => False) Hiv)| |done]. intros [st|] Hst; [|done].
  wp_step. eapply wp_mono; [apply (wp_sendReneg host st n (fun _ => False) Hst Hn)| |done]. intros [st2|] _; [|done].
  wp_step. apply wp_readFull; [lia| |done]. intros hdr c2 _ Hh. cbn beta iota.
  wp_step. apply wp_index; [lia|]. done.
Qed.

(** A clock that passes the deadline within the turns. *)
Definition ends (deadline : Z) (turns : list burstTurn) : Prop := exists t, In t turns /\ deadline <= now t.

Lemma wp_burst host deadline turns : forall (st : renegHandshakeState (C := C)) count,
  ends deadline turns -> Forall (fun t => blen (nIV (drawn t)) = 16) turns -> blen (ClientKey (keys st)) = 16 ->
  wp (burst host deadline turns st count) (fun n => count <= n < count + blen turns) (fun _ => False).
Proof.
  induction turns as [|t turns IH]; intros st count (u & Hin & Hu) Hd Hk; [done|]. cbn [burst].
  apply Forall_cons_1 in Hd as [Ht Hd]. rewrite blen_cons. pose proof (blen_nonneg turns).
  destruct (Z.ltb_spec (now t) deadline) as [Hlt|]; [|apply wp_ret; lia].
  assert (Hends : ends deadline turns) by (destruct Hin as [->|Hin]; [lia|by exists u]).
  wp_step. eapply wp_mono; [apply (wp_sendReneg host st _ (fun _ => False) Hk Ht)| |done]. intros [st2|] Hst2; [|apply wp_ret; lia].
  wp_step. apply wp_readFull; [lia| |intros; apply wp_ret; lia]. intros hdr c2 _ Hh. cbn beta iota.
  wp_step. apply wp_index; [lia|]. intros h0 _. wp_step; [apply wp_ret; lia|].
  wp_step. apply wp_index; [lia|]. intros h3 _. wp_step. apply wp_index; [lia|]. intros h4 _.
  cbv zeta. pose proof (be16_range h3 h4).
  wp_step. apply wp_readFull; [lia| |]; intros; (eapply wp_mono; [by apply IH| |done]); cbn beta; lia.
Qed.

(** The random bytes the probe draws. *)
Definition envOk (e : renegEnv (C := C)) : Prop :=
  (forall i, blen (hIV (eDraws e i)) = 16) /\ (forall i, blen (nIV (eHello e i)) = 16)
  /\ Forall (fun t => blen (nIV (drawn t)) = 16) (eTurns e) /\ ends (eStart e + fiveSeconds) (eTurns e).

Lemma wp_renegTrials host (e : renegEnv (C := C)) n : envOk e -> forall i acc,
  wp (renegTrials (K := K) host e i n acc) (fun a => acc <= a <= acc + Z.of_nat n) (fun _ => False).
Proof.
  intros (Hd & Hh & _). induction n as [|n IH]; intros i acc; cbn [renegTrials]; [cbn; lia|].
  wp_step. eapply wp_mono; [by apply (wp_renegOneTrial _ _ _ _ (fun _ => False))| |done]. intros ok _.
  eapply wp_mono; [apply IH| |done]. cbn beta. destruct ok; lia.
Qed.
End Total.

(** ** The walk over a well-formed flight *)

Section Walk.
Context `{AesCbc} {K : Type} `{RsaKeys K} {C : Type} `{Peer C}.

(** The key of a Certificate message, as a total function. *)
Definition keyOf (body : bytes) : option K := match parseRSAKeyFromCertList body with Ret k => k | _ => None end.

Definition renegStep (st : flightState K) (m : byte * bytes) : flightState K :=
  (ccsStep (fst st) m, if beq (fst m) x0b then keyOf (snd m) else snd st).

Lemma reneg_msg_loop msgs : Forall msgOk msgs -> forall pre fuel st, (length msgs < fuel)%nat ->
  loop (renegMsgTurn (pre ++ encMsgs msgs)) fuel (blen pre, st)
  = Ret (inl (blen (pre ++ encMsgs msgs), fold_left renegStep msgs st)).
Proof.
  induction 1 as [|[ty body] msgs Hm Hmsgs IH]; intros pre [|fuel] [s k] Hf; cbn [length] in Hf; try lia; cbn [loop].
  - unfold renegMsgTurn. change (encMsgs []) with (@nil byte). rewrite app_nil_r, (proj2 (Z.leb_gt _ _)) by lia. done.
  - unfold encMsgs. cbn [flat_map fst snd]. fold (encMsgs msgs).
    destruct (msg_header pre ty body (encMsgs msgs) Hm) as [Ht (l2 & l1 & l0 & H2' & H1' & H0' & Hlen) [_ Hfit] Hb].
    unfold renegMsgTurn at 1. rewrite (proj2 (Z.leb_le _ _)) by (pose proof (blen_nonneg body); lia).
    rewrite Ht, H2', H1', H0'. cbn [bind]. rewrite Hlen, (proj2 (Z.ltb_ge _ _)) by lia. rewrite Hb. cbn [bind].
    rewrite onCcsServerHello_pure. destruct (parseKey_total (K := K) body) as [k2 Hk2]. rewrite Hk2. cbn [fold_left].
    replace (blen pre + (4 + blen body)) with (blen (pre ++ encMsg ty body)) by (rewrite blen_app, encMsg_length; lia).
    unfold renegStep at 2, ccsStep, keyOf. cbn [fst snd]. rewrite Hk2.
    destruct (beq ty x02) eqn:E2; [apply beq_true in E2 as ->|destruct (beq ty x0b) eqn:Eb; [apply beq_true in Eb as ->|destruct (beq ty x0e)]];
      cbn [bind]; rewrite app_assoc; apply IH; lia.
Qed.

Lemma renegSteps_fst msgs : forall st, fst (fold_left renegStep msgs st) = fold_left ccsStep msgs (fst st).
Proof. induction msgs as [|m msgs IH]; intros st; cbn [fold_left]; [done|]. by rewrite IH. Qed.

(** The last Certificate decides the key. *)
Lemma renegSteps_key pre der more post st :
  Forall (fun m : byte * bytes => fst m <> x0b) post -> blen (certificateMsg der more) < 16777216 ->
  snd (fold_left renegStep (pre ++ (x0b, certificateMsg der more) :: post) st) = certKey der.
Proof.
  intros Hpost Hl. rewrite fold_left_app. cbn [fold_left]. set (s1 := renegStep _ _).
  assert (Hs1 : snd s1 = certKey der).
  { unfold s1, renegStep. cbn [fst snd]. change (beq x0b x0b) with true. unfold keyOf. by rewrite parseRSAKey_certificate. }
  clearbody s1. revert s1 Hs1. induction Hpost as [|m post Hm Hpost IH]; intros s1 Hs1; cbn [fold_left]; [done|].
  apply IH. unfold renegStep. cbn [snd]. destruct (beq (fst m) x0b) eqn:E; [by apply beq_true in E|done].
Qed.

(** The state after a record. *)
Definition afterRec (st : flightState K) (msgs : list (byte * bytes)) : flightState K :=
  fold_left renegStep msgs ({| serverRandom := serverRandom (fst st); negotiatedCipher := negotiatedCipher (fst st);
                               transcript := transcript (fst st) ++ encMsgs msgs; done := false |}, snd st).

Definition fits (msgs : list (byte * bytes)) : Prop := Forall msgOk msgs /\ blen (encMsgs msgs) < 65536.

Lemma renegRecordTurn_msgs (c : C) (st : flightState K) v1 v0 msgs rest :
  pending c = encRecord x16 [v1; v0] (encMsgs msgs) ++ rest -> fits msgs ->
  exists c', pending c' = rest /\
    renegRecordTurn (c, st) = Ret (if hasDone msgs then Return (Some (c', afterRec st msgs)) else Next (c', afterRec st msgs)).
Proof.
  intros Hp [Hm Hl]. destruct (record_reads c x16 v1 v0 _ rest Hp)
    as (hdr & c1 & c2 & h3 & h4 & Hr1 & Hi0 & H3' & H4' & Hlen & Hr2 & Hp2); [lia|].
  exists c2. split; [done|]. destruct st as [s k]. unfold renegRecordTurn. rewrite Hr1. cbn [bind]. rewrite Hi0, H3', H4'. cbn [bind].
  rewrite Hlen. change (beq x16 x15) with false. change (beq x16 x16) with true. cbn [negb orb].
  rewrite Hr2. cbn [bind]. change 0 with (blen (@nil byte)). change (encMsgs msgs) with ([] ++ encMsgs msgs) at 1.
  rewrite reneg_msg_loop by (done || (pose proof (length_encMsgs msgs); lia)). cbn [bind].
  fold (afterRec (s, k) msgs). change (fold_left renegStep msgs _) with (afterRec (s, k) msgs).
  assert (Hd : done (fst (afterRec (s, k) msgs)) = hasDone msgs).
  { unfold afterRec. rewrite renegSteps_fst. cbn [fst]. by destruct (ccsSteps_facts msgs {| serverRandom := serverRandom s;
      negotiatedCipher := negotiatedCipher s; transcript := transcript s ++ encMsgs msgs; done := false |}) as [_ ->]. }
  rewrite Hd. by destruct (hasDone msgs).
Qed.

(** What the walk leaves that does not depend on the records: all but the transcript. *)
Definition sameFlight (st1 st2 : flightState K) : Prop := sameHello (fst st1) (fst st2) /\ snd st1 = snd st2.

Lemma renegSteps_same msgs : forall st1 st2, sameFlight st1 st2 ->
  sameFlight (fold_left renegStep msgs st1) (fold_left renegStep msgs st2).
Proof.
  induction msgs as [|m msgs IH]; intros st1 st2 [Hh Hk]; cbn [fold_left]; [done|]. apply IH. split; cbn [renegStep fst snd].
  - by apply ccsStep_same.
  - by rewrite Hk.
Qed.

Lemma sameFlight_trans st1 st2 st3 : sameFlight st1 st2 -> sameFlight st2 st3 -> sameFlight st1 st3.
Proof. intros [[H1' H2'] H3'] [[H4' H5'] H6']. repeat split; congruence. Qed.

Lemma afterRec_same st msgs : sameFlight (afterRec st msgs) (fold_left renegStep msgs st).
Proof. unfold afterRec. by apply renegSteps_same. Qed.

Lemma afterRec_transcript st msgs : transcript (fst (afterRec st msgs)) = transcript (fst st) ++ encMsgs msgs.
Proof. unfold afterRec. rewrite renegSteps_fst. by rewrite (proj1 (ccsSteps_facts _ _)). Qed.

Lemma reneg_loop v1 v0 recs msgs : Forall (fun ms => fits ms /\ hasDone ms = false) recs -> fits msgs -> hasDone msgs = true ->
  forall (c : C) st rest fuel,
  pending c = encRecs v1 v0 recs ++ encRecord x16 [v1; v0] (encMsgs msgs) ++ rest -> (length recs < fuel)%nat ->
  exists c' st', pending c' = rest /\ loop renegRecordTurn fuel (c, st) = Ret (inr (Some (c', st')))
    /\ transcript (fst st') = transcript (fst st) ++ encMsgs (concat recs ++ msgs)
    /\ sameFlight st' (fold_left renegStep (concat recs ++ msgs) st).
Proof.
  intros Hrecs Hm Hd. induction Hrecs as [|ms recs [Hms Hno] Hrecs IH]; intros c st rest [|fuel] Hp Hf;
    cbn [length] in Hf; try lia; cbn [loop].
  - destruct (renegRecordTurn_msgs c st v1 v0 msgs rest Hp Hm) as (c' & Hp' & Ht). rewrite Ht, Hd.
    exists c', (afterRec st msgs). split_and!; [done|done|apply afterRec_transcript|apply afterRec_same].
  - unfold encRecs in Hp. cbn [flat_map] in Hp. fold (encRecs v1 v0 recs) in Hp. rewrite <- app_assoc in Hp.
    destruct (renegRecordTurn_msgs c st v1 v0 ms _ Hp Hms) as (c1 & Hp1 & Ht). rewrite Ht, Hno.
    destruct (IH c1 (afterRec st ms) rest fuel Hp1 ltac:(lia)) as (c' & st' & Hp' & Hloop & Htr & Hsame).
    exists c', st'. split_and!; [done|done| |].
    + rewrite Htr, afterRec_transcript. cbn [concat]. rewrite <- !app_assoc. f_equal. unfold encMsgs. by rewrite (flat_map_app _ ms).
    + cbn [concat]. rewrite <- app_assoc, fold_left_app. eapply sameFlight_trans; [exact Hsame|].
      apply renegSteps_same, afterRec_same.
Qed.
End Walk.

(** ** The second hello *)

Definition secondCiphers : bytes := flat_map putBE16 [0x002f; 0xc02f; 0xc014; 0x009c].

(** A ClientHello with the server name and renegotiation_info, which carries the
    verify data of the first handshake behind its length. *)
Lemma buildSecondClientHello_enc host vd rnd :
  buildSecondClientHello host vd rnd
  = encMsg x01 (helloBody 0x0303 rnd secondCiphers (encExts [(0, sniData host); (0xff01, byteOf (blen vd) :: vd)])).
Proof.
  unfold buildSecondClientHello. fold secondCiphers. rewrite buildSNIExtension_enc.
  assert (He : [xff; x01] ++ putBE16 (blen vd + 1) ++ [byteOf (blen vd)] ++ vd = encExt (0xff01, byteOf (blen vd) :: vd)).
  { unfold encExt. cbn [fst snd]. rewrite blen_cons, (Z.add_comm 1), !putBE16_u16. reflexivity. }
  rewrite <- !app_assoc, He. unfold helloBody, encMsg, encExts. cbn [flat_map]. rewrite app_nil_r. reflexivity.
Qed.

(** ** What is sent, and the verdict *)

Definition record (body : bytes) : bytes := [x16; x03; x03] ++ putBE16 (blen body) ++ body.

Section Verdict.
Context `{AesCbc} {K : Type} `{RsaKeys K} {C : Type} `{Peer C}.

Lemma encrypted_ok {R} plaintext keys seqNum iv :
  blen (ClientKey keys) = 16 -> blen iv = 16 ->
  exists body, receiveRecord keys x16 0x0303 seqNum body = Some plaintext
    /\ forall (k : bytes -> outcome (option R)), encrypted plaintext keys seqNum iv k = k (record body).
Proof.
  intros Hk Hiv. destruct (receive_encrypt plaintext keys x16 0x0303 seqNum iv Hk Hiv) as (body & He & Hr).
  exists body. split; [done|]. intros k'. unfold encrypted. by rewrite He.
Qed.

Lemma readRecords_two (c : C) t1 t2 u1 u0 p1 p2 rest :
  pending c = encRecord t1 [u1; u0] p1 ++ encRecord t2 [u1; u0] p2 ++ rest -> t1 <> x15 -> t2 <> x15 ->
  blen p1 < 65536 -> blen p2 < 65536 -> exists c', pending c' = rest /\ readRecords 2 c = Ret (Some c').
Proof.
  intros Hp Ht1 Ht2 Hl1 Hl2.
  destruct (record_reads c t1 u1 u0 p1 _ Hp Hl1) as (hdr & c1 & c2 & h3 & h4 & Hr1 & Hi0 & H3' & H4' & Hlen & Hr2 & Hp2).
  destruct (record_reads c2 t2 u1 u0 p2 _ Hp2 Hl2) as (hdr' & c3 & c4 & h3' & h4' & Hr3 & Hi0' & H3'' & H4'' & Hlen' & Hr4 & Hp4).
  assert (Hne : forall t, t <> x15 -> beq t x15 = false) by (intros t Ht; destruct (beq t x15) eqn:E; [by apply beq_true in E|done]).
  exists c4. split; [done|]. cbn [readRecords]. rewrite Hr1. cbn [bind]. rewrite Hi0, H3', H4'. cbn [bind].
  rewrite (Hne t1 Ht1), Hlen, Hr2. cbn [bind]. rewrite Hr3. cbn [bind]. rewrite Hi0', H3'', H4''. cbn [bind].
  by rewrite (Hne t2 Ht2), Hlen', Hr4.
Qed.

(** The state after a complete handshake, and what the client has sent for it. *)
Lemma renegFinish_ok s (k : K) d enc :
  blen (hIV d) = 16 -> encrypt k (hPadding d) ([x03; x03] ++ hPremaster d) = Some enc ->
  let sent := transcript s ++ encMsg x10 (putBE16 (blen enc) ++ enc) in
  exists master ks vd fin,
    computeMasterSecret ([x03; x03] ++ hPremaster d) (hRandom d) (serverRandom s) = Ret master
    /\ deriveKeysAES128CBCSHA master (serverRandom s) (hRandom d) = Ret ks /\ blen (ClientKey ks) = 16
    /\ finishedVerifyData master (sha256 sent) = Ret vd /\ blen vd = 12
    /\ receiveRecord ks x16 0x0303 0 fin = Some (encMsg x14 vd)
    /\ forall (c1 c2 c3 c4 : C), send (buildClientKeyExchangeRSA enc) c1 = Some c2 -> send ccsInjected c2 = Some c3 ->
         send (record fin) c3 = Some c4 -> forall c5, readRecords 2 c4 = Ret (Some c5) ->
         renegFinish c1 s k d = Ret (Some {| conn := c5; keys := ks; clientSeq := 1; clientVerifyData := vd |}).
Proof.
  intros Hiv Henc sent.
  destruct (blen_prf ([x03; x03] ++ hPremaster d) "master secret" (hRandom d ++ serverRandom s) 48) as (master & Hm & _); [lia|].
  destruct (deriveKeys_ok master (serverRandom s) (hRandom d)) as (ks & Hks & Hck).
  destruct (blen_prf master "client finished" (sha256 sent) 12) as (vd & Hvd & Hvl); [lia|].
  destruct (encrypted_ok (R := renegHandshakeState (C := C)) ([x14; x00; x00; x0c] ++ vd) ks 0 (hIV d) Hck Hiv) as (fin & Hrecv & Hfin).
  exists master, ks, vd, fin. split_and!; [done|done|done|done|done| |].
  { rewrite Hrecv. unfold encMsg. by rewrite Hvl. }
  intros c1 c2 c3 c4 Hs1 Hs2 Hs3 c5 Hrd. unfold renegFinish. rewrite Henc. cbv zeta.
  assert (Hcke : buildClientKeyExchangeRSA enc = encRecord x16 [x03; x03] (encMsg x10 (putBE16 (blen enc) ++ enc))).
  { unfold buildClientKeyExchangeRSA, encRecord, encMsg. rewrite <- !app_assoc. reflexivity. }
  assert (Hfrom : sliceFrom (buildClientKeyExchangeRSA enc) 5 = Ret (encMsg x10 (putBE16 (blen enc) ++ enc))).
  { rewrite Hcke. unfold encRecord.
    match goal with |- context [x16 :: ?v ++ ?l ++ ?r] =>
      change (x16 :: v ++ l ++ r) with (([x16] ++ v ++ l) ++ r); by rewrite (sliceFrom_app ([x16] ++ v ++ l) r 5) end. }
  rewrite Hfrom. cbn [bind]. fold sent. unfold sendOr. rewrite Hs1. unfold computeMasterSecret. rewrite Hm. cbn [bind].
  rewrite Hks. cbn [bind]. rewrite Hs2. unfold sha256OfTranscript, finishedVerifyData. rewrite Hvd. cbn [bind].
  by rewrite Hfin, Hs3, Hrd.
Qed.

(** C30. The renegotiation probe against a server that takes the offered suite and shows a
    certificate with an RSA key: it sends the encrypted premaster secret, and a
    server that derives the keys from that secret and the two randoms decrypts its
    Finished, computed over exactly the messages of this handshake, at sequence number
    0, and at sequence number 1 the second ClientHello, whose renegotiation_info
    carries the verify data of that Finished.  The trial counts as accepted exactly
    when the record that answers is of the handshake type - whatever it holds. *)
Theorem renegOneTrial_verdict (net : bytes -> dialed C) host (d : hsDraws) (n : renegDraws) conn0 v1 v0 recs msgs rest
    before after w1 w0 random sid comp exts pre der more post (k : K) enc
  (Hiv : blen (hIV d) = 16) (Hniv : blen (nIV n) = 16)
  (Hnet : net (ccsClientHello host (hRandom d)) = Connected conn0)
  (Hrecs : Forall (fun ms => fits ms /\ hasDone ms = false) recs) (Hmsgs : fits msgs) (Hdone : hasDone msgs = true)
  (Hconn : pending conn0 = encRecs v1 v0 recs ++ encRecord x16 [v1; v0] (encMsgs msgs) ++ rest)
  (Hflight : concat recs ++ msgs = before ++ (x02, legacyServerHello w1 w0 random sid 0x002f comp exts) :: after)
  (Honce : Forall (fun m : byte * bytes => fst m <> x02) (before ++ after))
  (Hrandom : blen random = 32) (Hsid : blen sid < 256)
  (Hcert : concat recs ++ msgs = pre ++ (x0b, certificateMsg der more) :: post)
  (Hlast : Forall (fun m : byte * bytes => fst m <> x0b) post) (Hcl : blen (certificateMsg der more) < 16777216)
  (Hkey : certKey der = Some k) (Henc : encrypt k (hPadding d) ([x03; x03] ++ hPremaster d) = Some enc) :
  let handshake := encMsg x01 (helloBody 0x0303 (hRandom d) [x00; x2f] (buildSNIExtension host))
                   ++ encMsgs (concat recs ++ msgs) ++ encMsg x10 (putBE16 (blen enc) ++ enc) in
  exists c1 master ks vd fin ren,
    pending c1 = rest
    /\ computeMasterSecret ([x03; x03] ++ hPremaster d) (hRandom d) random = Ret master
    /\ deriveKeysAES128CBCSHA master random (hRandom d) = Ret ks
    /\ finishedVerifyData master (sha256 handshake) = Ret vd
    /\ receiveRecord ks x16 0x0303 0 fin = Some (encMsg x14 vd)
    /\ receiveRecord ks x16 0x0303 1 ren = Some (encMsg x01 (helloBody 0x0303 (nRandom n) secondCiphers
         (encExts [(0, sniData host); (0xff01, byteOf 12 :: vd)])))
    /\ forall c2 c3 c4 t1 t2 u1 u0 p1 p2 rest2,
         send (buildClientKeyExchangeRSA enc) c1 = Some c2 -> send ccsInjected c2 = Some c3 -> send (record fin) c3 = Some c4 ->
         pending c4 = encRecord t1 [u1; u0] p1 ++ encRecord t2 [u1; u0] p2 ++ rest2 -> t1 <> x15 -> t2 <> x15 ->
         blen p1 < 65536 -> blen p2 < 65536 ->
         exists c5, pending c5 = rest2 /\ forall c6 ty s1 s0 payload rest3,
           send (record ren) c5 = Some c6 -> pending c6 = encRecord ty [s1; s0] payload ++ rest3 -> blen payload < 65536 ->
           renegOneTrial (K := K) net host d n = Ret (beq ty x16).
Proof.
  intros handshake. set (helloMsg := encMsg x01 _) in handshake.
  set (st0 := ({| serverRandom := []; negotiatedCipher := 0; transcript := helloMsg; done := false |}, @None K) : flightState K).
  destruct (reneg_loop v1 v0 recs msgs Hrecs Hmsgs Hdone conn0 st0 rest (S (length (pending conn0))) Hconn)
    as (c1 & [s' k'] & Hp' & Hloop & Htr & [[Hsr Hsc] Hsk]).
  { rewrite Hconn, length_app. pose proof (length_records v1 v0 recs). unfold encRecs. lia. }
  cbn [fst snd] in Htr, Hsr, Hsc, Hsk. rewrite renegSteps_fst in Hsr, Hsc.
  assert (Hk' : k' = Some k) by (rewrite Hsk, Hcert, <- Hkey; by apply renegSteps_key).
  assert (Hhello : serverRandom s' = random /\ negotiatedCipher s' = 0x002f).
  { rewrite Hsr, Hsc, Hflight, fold_left_app. cbn [fold_left]. apply Forall_app in Honce as [Hbef Haft].
    set (sb := fold_left ccsStep before (fst st0)).
    destruct (ccsSteps_skip after (ccsStep sb (x02, legacyServerHello w1 w0 random sid 0x002f comp exts)) Haft) as [-> ->].
    unfold ccsStep. cbn [fst snd]. change (beq x02 x02) with true.
    destruct (helloPure_legacy w1 w0 random sid 0x002f comp exts sb Hrandom Hsid ltac:(lia)) as [-> ->].
    unfold sb. by rewrite (proj1 (ccsSteps_skip before _ Hbef)). }
  destruct Hhello as [Hr Hc]. subst k'.
  destruct (renegFinish_ok s' k d enc Hiv Henc) as (master & ks & vd & fin & Hm & Hks & Hck & Hvd & Hvl & Hfin & Hrun).
  rewrite Hr in Hm, Hks. replace (transcript s' ++ _) with handshake in Hvd by (rewrite Htr; unfold handshake; by rewrite app_assoc).
  destruct (encrypted_ok (R := renegHandshakeState (C := C)) (buildSecondClientHello host vd (nRandom n)) ks 1 (nIV n) Hck Hniv)
    as (ren & Hren & Hsent).
  exists c1, master, ks, vd, fin, ren. split_and!; [done..|by rewrite Hren, buildSecondClientHello_enc, Hvl|].
  intros c2 c3 c4 t1 t2 u1 u0 p1 p2 rest2 Hs1 Hs2 Hs3 Hp4 Ht1 Ht2 Hl1 Hl2.
  destruct (readRecords_two c4 t1 t2 u1 u0 p1 p2 rest2 Hp4 Ht1 Ht2 Hl1 Hl2) as (c5 & Hp5 & Hrd). exists c5. split; [done|].
  intros c6 ty s1 s0 payload rest3 Hs4 Hp6 Hl3. unfold renegOneTrial, renegFullHandshake. unfold ccsClientHello in *.
  rewrite helloRecord_enc in *. fold helloMsg in Hnet |- *.
  change (encRecord x16 (putBE16 0x0303) helloMsg) with (([x16] ++ putBE16 0x0303 ++ putBE16 (blen helloMsg)) ++ helloMsg).
  rewrite (sliceFrom_app ([x16] ++ putBE16 0x0303 ++ putBE16 (blen helloMsg)) helloMsg 5) by done. cbn [bind].
  change (([x16] ++ putBE16 0x0303 ++ putBE16 (blen helloMsg)) ++ helloMsg) with (encRecord x16 (putBE16 0x0303) helloMsg).
  rewrite Hnet. cbv beta iota. fold st0. 
  rewrite Hloop, Hk'. cbn [bind]. rewrite Hc, Hr, Hrandom. cbn [Z.eqb Pos.eqb negb orb].
  rewrite (Hrun c1 c2 c3 c4 Hs1 Hs2 Hs3 c5 Hrd). cbn [bind]. unfold sendReneg. cbn [clientVerifyData keys clientSeq conn].
  rewrite Hsent. unfold sendOr. rewrite Hs4. cbn [bind conn].
  destruct (record_reads c6 ty s1 s0 payload rest3 Hp6 Hl3) as (hdr & c7 & c8 & h3 & h4 & Hr1 & Hi0 & _).
  rewrite Hr1. cbn [bind]. by rewrite Hi0.
Qed.
End Verdict.

(** ** The result *)

Section Result.
Context `{AesCbc} {K : Type} `{RsaKeys K} {C : Type} `{Peer C}.

Lemma renegTrials_counts host (e : renegEnv (C := C)) (oks : nat -> bool) :
  (forall i, renegOneTrial (K := K) (eNet e i) host (eDraws e i) (eHello e i) = Ret (oks i)) ->
  forall n i acc, renegTrials (K := K) host e i n acc = Ret (acc + blen (List.filter oks (seq i n))).
Proof.
  intros Hok. induction n as [|n IH]; intros i acc; cbn [renegTrials seq List.filter]; [change (blen (@nil nat)) with 0; f_equal; lia|].
  rewrite Hok. cbn [bind]. rewrite IH. destruct (oks i); [rewrite blen_cons|]; f_equal; lia.
Qed.

(** The verdict on renegotiation: the probe always returns, and renegotiation is
    reported as accepted exactly when at least two of the three trials saw it, with a
    note exactly when it is not; the denial of service exactly when it is accepted and
    the burst counts at least five; and the count never passes the turns that the clock
    allows. *)
Theorem probeClientInitReneg_result host (e : renegEnv (C := C)) (Henv : envOk e) :
  exists r oks, probeClientInitReneg (K := K) host e = Ret r
    /\ (forall i, renegOneTrial (K := K) (eNet e i) host (eDraws e i) (eHello e i) = Ret (oks i))
    /\ rrProbed r = true /\ TrialsConsistent r = blen (List.filter oks [0; 1; 2]%nat)
    /\ (ClientInitAccepted r = true <-> 2 <= TrialsConsistent r)
    /\ (Notes r = ""%string <-> ClientInitAccepted r = true)
    /\ (DoSAmplification r = true <-> ClientInitAccepted r = true /\ 5 <= RenegCountIn5s r)
    /\ 0 <= RenegCountIn5s r < blen (eTurns e).
Proof.
  pose proof Henv as (Hd & Hh & Ht & Hends).
  assert (Hok : forall i, exists b, renegOneTrial (K := K) (eNet e i) host (eDraws e i) (eHello e i) = Ret b).
  { intros i. pose proof (wp_renegOneTrial (K := K) (eNet e i) host _ _ (fun _ => False) (Hd i) (Hh i)) as Hw.
    destruct (renegOneTrial _ _ _ _); try done. by eexists. }
  set (oks i := match renegOneTrial (K := K) (eNet e i) host (eDraws e i) (eHello e i) with Ret b => b | _ => false end).
  assert (Hoks : forall i, renegOneTrial (K := K) (eNet e i) host (eDraws e i) (eHello e i) = Ret (oks i)).
  { intros i. unfold oks. by destruct (Hok i) as [b ->]. }
  clearbody oks. assert (Hturns : 0 < blen (eTurns e)).
  { destruct Hends as (t & Hin & _). destruct (eTurns e); [done|]. rewrite blen_cons. pose proof (blen_nonneg l). lia. }
  unfold probeClientInitReneg. rewrite (renegTrials_counts host e oks Hoks 3 0 0). cbn [bind seq]. rewrite Z.add_0_l.
  set (acc := blen _). destruct (Z.eqb_spec acc 0) as [Ha|Ha].
  { eexists _, oks. split; [reflexivity|]. cbn. split_and!; try done; split; intros; try done; lia. }
  destruct (Z.leb_spec 2 acc) as [H2'|H2'].
  2:{ eexists _, oks. split; [reflexivity|]. cbn. split_and!; try done; split; intros; try done; lia. }
  unfold renegBurstTrial. pose proof (wp_renegHandshake (K := K) (eNet e 3) host _ (fun _ => False) (Hd 3%nat)) as Hw.
  destruct (renegFullHandshake _ _ _) as [[st|]| | |]; try done; cbn [bind].
  - pose proof (wp_burst host _ (eTurns e) st 0 Hends Ht Hw) as Hb.
    destruct (burst _ _ _ _ _) as [n| | |]; try done. cbn [bind wp] in *. eexists _, oks. split; [reflexivity|]. cbn.
    split_and!; try done; try lia; split; intros; done.
  - eexists _, oks. split; [reflexivity|]. cbn. split_and!; try done; try lia; split; intros; try done; lia.
Qed.

(** The burst counts handshake records, not renegotiations: on a server that
    answers none of the second hellos, but whose last answer is still arriving in [recs]
    records of the handshake type, each of them is counted, so that five such records
    are reported as denial-of-service amplification. *)
Theorem burst_counts_records host deadline (turns : list burstTurn) (st : renegHandshakeState (C := C)) v1 v0 (recs : list bytes)
  (Hquiet : forall b (c : C), exists c', send b c = Some c' /\ pending c' = pending c)
  (Hrecs : Forall (fun p => blen p < 65536) recs) (Hkey : blen (ClientKey (keys st)) = 16)
  (Hpend : pending (conn st) = flat_map (encRecord x16 [v1; v0]) recs)
  (Hclock : Forall (fun t => now t < deadline /\ blen (nIV (drawn t)) = 16) turns) (Hlong : (length recs < length turns)%nat) :
  burst host deadline turns st 0 = Ret (blen recs).
Proof.
  enough (Hgen : forall count, burst host deadline turns st count = Ret (count + blen recs)) by (rewrite Hgen; done).
  revert turns st Hkey Hpend Hclock Hlong. induction Hrecs as [|p recs Hp Hrecs IH]; intros turns st Hkey Hpend Hclock Hlong count;
    destruct Hclock as [|t turns [Hnow Hiv] Hclock]; cbn [length] in Hlong; try lia; cbn [burst];
    rewrite (proj2 (Z.ltb_lt _ _)) by done; unfold sendReneg;
    destruct (encrypted_ok (R := renegHandshakeState (C := C)) (buildSecondClientHello host (clientVerifyData st) (nRandom (drawn t)))
      (keys st) (clientSeq st) (nIV (drawn t)) Hkey Hiv) as (ren & _ & Hren); rewrite Hren; unfold sendOr;
    destruct (Hquiet (record ren) (conn st)) as (c1 & Hs1 & Hp1); rewrite Hs1; cbn [bind conn].
  - destruct (readFull_eof 5 c1) as [c2 Hr]; [by rewrite Hp1, Hpend|]. rewrite Hr. cbn [bind]. change (blen (@nil bytes)) with 0. f_equal; lia.
  - rewrite Hpend in Hp1. cbn [flat_map] in Hp1.
    destruct (record_reads c1 x16 v1 v0 p _ Hp1 Hp) as (hdr & c2 & c3 & h3 & h4 & Hr1 & Hi0 & H3' & H4' & Hlen & Hr2 & Hp2).
    rewrite Hr1. cbn [bind]. rewrite Hi0. cbn [bind]. change (beq x16 x16) with true. cbn [negb]. rewrite H3', H4'. cbn [bind].
    rewrite Hlen, Hr2. cbn [bind]. rewrite (IH turns _); [|done|exact Hp2|done|lia]. rewrite blen_cons. f_equal; lia.
Qed.
End Result.

Module RenegWitnesses.
#[local] Program Instance plainCbc : AesCbc := {| cbcEncrypt _ _ m := m; cbcDecrypt _ _ m := m |}.
Solve All Obligations with done.
#[local] Instance scripted : Peer bytes := {| send := fun _ c => Some c |}.

(** Keys known by their size, and a padding that only lengthens the message. *)
Definition padLeft (k : Z) (r m : bytes) : option bytes :=
  if bool_decide (blen m + 11 <= k) then Some (repeat x00 (Z.to_nat (k - blen m)) ++ m) else None.
Lemma renegPad_length k r m c : padLeft k r m = Some c -> blen c = k /\ blen m + 11 <= k.
Proof.
  unfold padLeft. case_bool_decide as E; [|done]. intros [= <-]. split; [|done].
  rewrite blen_app. unfold blen at 1. rewrite repeat_length. lia.
Qed.
#[local] Instance sizeKeys : RsaKeys Z := {|
  certKey der := match der with [] => None | b :: _ => Some (bval b) end;
  keySize k := k; encrypt := padLeft; encrypt_length := renegPad_length |}.

Definition flight : list (byte * bytes) :=
  [(x02, legacyServerHello x03 x03 (repeat x09 32) [] 0x002f x00 []); (x0b, certificateMsg [x80] []); (x0e, [])].
Definition tail : bytes := encRecord x14 [x03; x03] [x01] ++ encRecord x16 [x03; x03] (repeat xaa 64)
  ++ encRecord x16 [x03; x03] (repeat xbb 80) ++ [].
Definition server : bytes := encRecs x03 x03 [] ++ encRecord x16 [x03; x03] (encMsgs flight) ++ tail.
Definition someDraws : hsDraws := {| hRandom := repeat x07 32; hPremaster := repeat x05 46; hPadding := []; hIV := repeat x06 16 |}.
Definition someReneg : renegDraws := {| nRandom := repeat x08 32; nIV := repeat x04 16 |}.

Lemma renegOneTrial_verdict_witness :
  renegOneTrial (K := Z) (fun _ => Connected server) "h" someDraws someReneg = Ret true.
Proof.
  destruct (renegOneTrial_verdict (K := Z) (C := bytes) (fun _ => Connected server) "h" someDraws someReneg server x03 x03 [] flight
    tail [] [(x0b, certificateMsg [x80] []); (x0e, [])] x03 x03 (repeat x09 32) [] x00 []
    [(x02, legacyServerHello x03 x03 (repeat x09 32) [] 0x002f x00 [])] [x80] [] [(x0e, [])] 128
    (repeat x00 80 ++ [x03; x03] ++ repeat x05 46) eq_refl eq_refl eq_refl)
    as (c1 & master & ks & vd & fin & ren & Hp & _ & _ & _ & _ & _ & Hv).
  - constructor.
  - split; [repeat constructor; by vm_compute|by vm_compute].
  - reflexivity.
  - reflexivity.
  - reflexivity.
  - repeat constructor; by vm_compute.
  - reflexivity.
  - reflexivity.
  - reflexivity.
  - repeat constructor; by vm_compute.
  - by vm_compute.
  - reflexivity.
  - reflexivity.
  - destruct (Hv c1 c1 c1 x14 x16 x03 x03 [x01] (repeat xaa 64) (encRecord x16 [x03; x03] (repeat xbb 80) ++ []) eq_refl eq_refl eq_refl Hp)
      as (c5 & Hp5 & Hv5); [by vm_compute..|].
    exact (Hv5 c5 x16 x03 x03 (repeat xbb 80) [] eq_refl Hp5 eq_refl).
Defined.

(** Nobody answers the dial. *)
Definition deadEnv : renegEnv (C := bytes) :=
  {| eNet := fun _ _ => DialErr; eDraws := fun _ => someDraws; eHello := fun _ => someReneg; eStart := 0;
     eTurns := [{| now := 6000000000; drawn := someReneg |}] |}.
Lemma probeClientInitReneg_result_witness :
  exists r, probeClientInitReneg (K := Z) "h" deadEnv = Ret r /\ rrProbed r = true.
Proof.
  destruct (probeClientInitReneg_result (K := Z) "h" deadEnv) as (r & oks & Hr & _ & Hp & _).
  - split_and!; [done|done|repeat constructor|]. exists {| now := 6000000000; drawn := someReneg |}. split; [by left|by vm_compute].
  - exists r. split; [exact Hr|exact Hp].
Defined.

Definition idleState : renegHandshakeState (C := bytes) :=
  {| conn := flat_map (encRecord x16 [x03; x03]) (repeat [x01] 5);
     keys := {| ClientMAC := repeat x01 20; ServerMAC := repeat x02 20; ClientKey := repeat x03 16; ServerKey := repeat x04 16 |};
     clientSeq := 1; clientVerifyData := repeat x0a 12 |}.
Lemma burst_counts_records_witness :
  burst "h" 100 (repeat {| now := 1; drawn := someReneg |} 6) idleState 0 = Ret 5.
Proof.
  apply (burst_counts_records "h" 100 (repeat {| now := 1; drawn := someReneg |} 6) idleState x03 x03 (repeat [x01] 5)).
  - intros b c. exists c. split; reflexivity.
  - repeat constructor.
  - reflexivity.
  - reflexivity.
  - repeat constructor.
  - cbn. lia.
Defined.
End RenegWitnesses.
