(* ===== verification/TlsGrade.v ===== *)
(** The letter grade of [tls_grade.go]. *)

From Stdlib Require Import ZArith List String Ascii Strings.Byte Lia Bool.
From stdpp Require Import base list strings numbers.
From S2P Require Import Prelude Bytes GoStrings Dh Ciphers TlsCheck.
Open Scope Z_scope.

Record tlsGrade := {
  Letter : string;
  Score : Z;
  ProtocolScore : Z;
  KeyExchScore : Z;
  CipherScore : Z;
  Caps : list string;
  Bonuses : list string;
  Reasoning : string
}.

(** ** The three dimensions *)

Definition containsAny (haystack needles : list string) : bool :=
  existsb (fun h => existsb (Contains h) needles) haystack.

Definition scoreProtocols (versions : list string) : Z :=
  if containsAny versions ["TLS 1.3"%string] then 100
  else if containsAny versions ["TLS 1.2"%string] then 90
  else if containsAny versions ["TLS 1.1"%string] then 60
  else if containsAny versions ["TLS 1.0"%string] then 50
  else if containsAny versions ["SSL 3"%string] then 30
  else 0.

(** [None] is the nil leaf. *)
Definition scoreKeyExchange (leaf : option certificate) : Z :=
  match leaf with
  | None => 50
  | Some leaf =>
      let bits := keyBits leaf in
      let alg := ToLower (keyAlgorithmName leaf) in
      if String.eqb alg "ecdsa" || String.eqb alg "ed25519" then if 256 <=? bits then 100 else 80
      else if String.eqb alg "rsa" then
        if 4096 <=? bits then 100 else if 2048 <=? bits then 90 else if 1024 <=? bits then 40 else 0
      else 50
  end.

Definition cipherGradeToRank (grade : string) : Z :=
  if String.eqb grade "A" then 4 else if String.eqb grade "B" then 3
  else if String.eqb grade "C" then 2 else if String.eqb grade "F" then 1 else 0.

Definition bestRank (ciphers : list cipherInfo) : Z :=
  fold_left (fun best c => let r := cipherGradeToRank (Grade c) in if best <? r then r else best) ciphers 0.
Definition scoreCiphers (ciphers : list cipherInfo) : Z :=
  match bestRank ciphers with 4 => 100 | 3 => 80 | 2 => 60 | 1 => 20 | _ => 0 end.

(** ** Letters *)

Definition scoreToLetter (score : Z) : string :=
  (if (80 <=? score)%Z then "A" else if (65 <=? score)%Z then "B" else if (50 <=? score)%Z then "C"
   else if (35 <=? score)%Z then "D" else "F")%string.

Definition letterRank (letter : string) : Z :=
  if String.eqb letter "A+" then 6 else if String.eqb letter "A" then 5 else if String.eqb letter "A-" then 4
  else if String.eqb letter "B" then 3 else if String.eqb letter "C" then 2 else if String.eqb letter "D" then 1
  else if String.eqb letter "F" then 0 else -1.

Definition capLetter (current cap : string) : string :=
  if letterRank current <=? letterRank cap then current else cap.

(** ** The grade *)

(** The arguments of [gradeTLS]. *)
Record gradeInput := {
  versions : list string;
  ciphers : list cipherInfo;
  leaf : option certificate;
  hstsValid : bool;
  hstsPreload : bool;
  ocspStapled : bool;
  mustStaple : bool;
  forwardSecrecy : bool;
  weakDH : bool;
  heartbleed : bool;
  robot : bool;
  insecureReneg : bool
}.

(** The letter and the caps so far. *)
Definition capState : Type := string * list string.

(** [if cond { letter = "F"; caps = append(caps, why) }] *)
Definition failWhen (cond : bool) (why : string) (st : capState) : capState :=
  if cond then ("F"%string, snd st ++ [why]) else st.
(** [if cond { letter = capLetter(letter, cap); caps = append(caps, why) }] *)
Definition capWhen (cond : bool) (cap why : string) (st : capState) : capState :=
  if cond then (capLetter (fst st) cap, snd st ++ [why]) else st.
(** [if cond && letter == "A" { letter = "A-"; caps = append(caps, why) }] *)
Definition dropA (cond : bool) (why : string) (st : capState) : capState :=
  if cond && String.eqb (fst st) "A" then ("A-"%string, snd st ++ [why]) else st.

Definition hasRC4 (l : list cipherInfo) : bool := existsb (fun c => Contains (ToUpper (Name c)) "RC4") l.
Definition weakSignature (leaf : option certificate) : bool :=
  match leaf with
  | Some leaf => Contains (ToLower (SignatureAlgorithm leaf)) "sha1" || Contains (ToLower (SignatureAlgorithm leaf)) "md5"
  | None => false
  end.
Definition signatureText (leaf : option certificate) : string :=
  match leaf with Some leaf => SignatureAlgorithm leaf | None => "" end.

(** From the base letter through the caps and the two A- rules. *)
Definition applyCaps (i : gradeInput) (st : capState) : capState :=
  let st := failWhen (heartbleed i) "Heartbleed vulnerable" st in
  let st := failWhen (robot i) "ROBOT vulnerable" st in
  let st := failWhen (insecureReneg i) "insecure renegotiation (CVE-2009-3555)" st in
  let st := capWhen (containsAny (versions i) ["SSL 3"%string]) "C" "SSLv3 enabled" st in
  let st := capWhen (containsAny (versions i) ["TLS 1.0"%string]) "C" "TLS 1.0 enabled" st in
  let st := capWhen (containsAny (versions i) ["TLS 1.1"%string]) "C" "TLS 1.1 enabled" st in
  let st := capWhen (hasRC4 (ciphers i)) "B" "RC4 ciphers offered" st in
  let st := capWhen (weakDH i) "B" "weak DH parameters (< 2048 bit)" st in
  let st := capWhen (negb (forwardSecrecy i)) "B" "no forward secrecy (ECDHE/DHE absent)" st in
  let st := capWhen (weakSignature (leaf i)) "A"
    ("weak cert signature (" +:+ signatureText (leaf i) +:+ ")")%string st in
  let st := dropA (negb (containsAny (versions i) ["TLS 1.3"%string]))
    "TLS 1.3 not offered (SSL Labs Feb 2025: caps A-)" st in
  dropA (negb (hstsValid i)) "HSTS missing (SSL Labs Feb 2025: caps A-)" st.

(** [explainGrade], on the parts of the grade it reads. *)
Definition explainGrade (letter : string) (score : Z) (caps bonuses : list string) : string :=
  let parts := [(letter +:+ " (base score " +:+ fmtD score +:+ ")")%string] in
  let parts := match caps with [] => parts | _ => parts ++ [("capped: " +:+ Join caps ", ")%string] end in
  let parts := match bonuses with [] => parts | _ => parts ++ [("bonus: " +:+ Join bonuses ", ")%string] end in
  Join parts " · ".

Definition gradeTLS (i : gradeInput) : tlsGrade :=
  let protocolScore := scoreProtocols (versions i) in
  let keyExchScore := scoreKeyExchange (leaf i) in
  let cipherScore := scoreCiphers (ciphers i) in
  let score := (protocolScore * 30 + keyExchScore * 30 + cipherScore * 40) / 100 in
  let '(letter, caps) := applyCaps i (scoreToLetter score, []) in
  let modernOnly := negb (containsAny (versions i) ["TLS 1.0"; "TLS 1.1"; "SSL 3"]%string) in
  let uplift := String.eqb letter "A" && (match caps with [] => true | _ => false end) && hstsValid i && modernOnly in
  let letter := if uplift then "A+"%string else letter in
  let bonuses :=
    if uplift then
      ["HSTS valid"; "modern protocols only (TLS 1.2+)"]%string
      ++ (if hstsPreload i then ["HSTS preload-eligible"%string] else [])
      ++ (if mustStaple i && ocspStapled i then ["OCSP Must-Staple enforced"%string] else [])
    else [] in
  {| Letter := letter; Score := score; ProtocolScore := protocolScore; KeyExchScore := keyExchScore;
     CipherScore := cipherScore; Caps := caps; Bonuses := bonuses;
     Reasoning := explainGrade letter score caps bonuses |}.

Definition gradeHeadline (g : tlsGrade) : string :=
  if String.eqb (Letter g) "" then ""%string else ("Grade: " +:+ Letter g)%string.

(** What [checkTLS] passes to the grade: the accepted versions, the flattened
    cipher table, the flags of the Strict-Transport-Security header when the HTTP
    trace has one, and the findings of the other probes. *)
Record observations := {
  oVersions : list tlsVersionProbe;
  oCipherEnums : list cipherEnum;
  oLeaf : certificate;
  oHSTS : option string;
  oStapled : bool;
  oMustStaple : bool;
  oForwardSecret : bool;
  oDH : dhParameterPosture;
  oHeartbleed : bool;
  oRobot : bool;
  oClientInitAccepted : bool
}.
Definition gradeInputOf (o : observations) : gradeInput :=
  let '(valid, preload) := match oHSTS o with Some h => hstsFlags h | None => (false, false) end in
  {| versions := supportedVersionNames (oVersions o);
     ciphers := flat_map Ciphers (oCipherEnums o);
     leaf := Some (oLeaf o);
     hstsValid := valid; hstsPreload := preload;
     ocspStapled := oStapled o; mustStaple := oMustStaple o; forwardSecrecy := oForwardSecret o;
     weakDH := Determined (oDH o) && Supported (oDH o) && (0 <? Bits (oDH o)) && (Bits (oDH o) <? 2048);
     heartbleed := oHeartbleed o; robot := oRobot o; insecureReneg := oClientInitAccepted o |}.

(** ** The grade as one formula *)

Definition letters : list string := ["A+"; "A"; "A-"; "B"; "C"; "D"; "F"]%string.

(** The rank the rules give: the base, limited by every cap that applies; then,
    for what is still an A, A- without TLS 1.3 or HSTS, A with a weak
    signature, and A+ otherwise. *)
Definition limit (c : bool) (cap r : Z) : Z := if c then Z.min r cap else r.
Definition referenceRank (i : gradeInput) (base : Z) : Z :=
  let r := limit (heartbleed i || robot i || insecureReneg i) 0 base in
  let r := limit (containsAny (versions i) ["SSL 3"; "TLS 1.0"; "TLS 1.1"]%string) 2 r in
  let r := limit (hasRC4 (ciphers i) || weakDH i || negb (forwardSecrecy i)) 3 r in
  if r <? 5 then r
  else if negb (containsAny (versions i) ["TLS 1.3"%string]) || negb (hstsValid i) then 4
  else if weakSignature (leaf i) then 5 else 6.

(** The letter of a state has rank [r]; when that is an A, there are no caps
    exactly when [clean]. *)
Record graded (r : Z) (clean : bool) (st : capState) : Prop := {
  g_letter : In (fst st) letters;
  g_rank : letterRank (fst st) = r;
  g_clean : r = 5 -> (match snd st with [] => true | _ => false end) = clean
}.

Lemma letterRank_inj a b : In a letters -> In b letters -> letterRank a = letterRank b -> a = b.
Proof.
  intros Ha Hb. repeat destruct Ha as [<-|Ha]; try done; repeat destruct Hb as [<-|Hb]; try done.
Qed.

Lemma letterRank_range a : In a letters -> 0 <= letterRank a <= 6.
Proof. intros Ha. repeat destruct Ha as [<-|Ha]; try done. Qed.

Lemma letterRank_A a : In a letters -> String.eqb a "A" = (letterRank a =? 5).
Proof.
  intros Ha. destruct (String.eqb_spec a "A") as [->|E]; [done|].
  symmetry. apply Z.eqb_neq. intros H. apply E, letterRank_inj; [done|cbn; tauto|done].
Qed.

Lemma capLetter_min a b :
  In a letters -> In b letters ->
  In (capLetter a b) letters /\ letterRank (capLetter a b) = Z.min (letterRank a) (letterRank b).
Proof.
  intros Ha Hb. unfold capLetter. destruct (letterRank a <=? letterRank b) eqn:E; to_prop; split; done || lia.
Qed.

Lemma snoc_clean {A : Type} (l : list A) (x : A) : (match l ++ [x] with [] => true | _ => false end) = false.
Proof. by destruct l. Qed.

Lemma limit_limit a b cap r : limit a cap (limit b cap r) = limit (b || a) cap r.
Proof. unfold limit. destruct a, b; cbn [orb]; lia. Qed.

Section GradedSteps.

Context (c : bool) (r : Z) (clean : bool) (st : capState) (H : graded r clean st).

Lemma graded_capWhen cap why :
  In cap letters ->
  graded (limit c (letterRank cap) r) (clean && negb (c && (5 <=? letterRank cap))) (capWhen c cap why st).
Proof using H.
  destruct H as [Hl Hr Hc]. intros Hcap. unfold capWhen, limit.
  destruct c; [|by split; rewrite ?andb_true_r].
  destruct (capLetter_min (fst st) cap Hl Hcap) as [Hin Hmin].
  split; cbn [fst snd]; [done|by rewrite Hmin, Hr|].
  intros E. rewrite snoc_clean. destruct (Z.leb_spec 5 (letterRank cap)); [by destruct clean|lia].
Qed.

(** A cap below A keeps [clean]: what it caps is no longer an A. *)
Lemma graded_capLow cap why :
  In cap letters -> letterRank cap < 5 -> graded (limit c (letterRank cap) r) clean (capWhen c cap why st).
Proof using H.
  intros Hcap Hlow. pose proof (graded_capWhen cap why Hcap) as G.
  replace (5 <=? letterRank cap) with false in G by (symmetry; by apply Z.leb_gt).
  by rewrite andb_false_r, andb_true_r in G.
Qed.

Lemma graded_failWhen why : graded (limit c 0 r) clean (failWhen c why st).
Proof using H.
  destruct H as [Hl Hr Hc]. pose proof (letterRank_range _ Hl) as Hran. unfold failWhen, limit. destruct c; [|done].
  split; cbn [fst snd]; [cbn; tauto|change (letterRank "F") with 0; lia|lia].
Qed.

Lemma graded_dropA why : graded (if c && (r =? 5) then 4 else r) clean (dropA c why st).
Proof using H.
  destruct H as [Hl Hr Hc]. unfold dropA. rewrite (letterRank_A _ Hl), Hr.
  destruct (c && (r =? 5)); [|done]. split; cbn [fst snd]; [cbn; tauto|done|lia].
Qed.

End GradedSteps.

Lemma containsAny_cons l n ns : containsAny l (n :: ns) = containsAny l [n] || containsAny l ns.
Proof.
  induction l as [|h l IH]; [done|].
  change (containsAny (h :: l) ?ms) with (existsb (Contains h) ms || containsAny l ms) in *.
  rewrite IH. cbn [existsb].
  destruct (Contains h n), (existsb (Contains h) ns), (containsAny l [n]); done.
Qed.

Lemma scoreToLetter_graded s : graded (letterRank (scoreToLetter s)) true (scoreToLetter s, []).
Proof. split; [|done..]. unfold scoreToLetter. cbn [fst]. repeat (destruct (_ <=? _)%Z; [cbn; tauto|]). cbn. tauto. Qed.

Lemma base_range s : 0 <= letterRank (scoreToLetter s) <= 5.
Proof. unfold scoreToLetter. repeat (destruct (_ <=? _)%Z; [cbv; split; discriminate|]). cbv. split; discriminate. Qed.

Lemma graded_eq r clean r' clean' st :
  graded r clean st -> r = r' -> (r = 5 -> clean = clean') -> graded r' clean' st.
Proof. intros [Hl Hr Hc] <- Hclean. split; [done..|]. intros E. by rewrite (Hc E), (Hclean E). Qed.

Lemma limit_le c cap r b : r <= b -> limit c cap r <= b.
Proof. unfold limit. destruct c; lia. Qed.

(** What the caps and the A- rules make of a base letter: the rank of the
    reference, an A without caps standing for its A+. *)
Lemma applyCaps_graded i base st :
  0 <= base <= 5 -> graded base true st ->
  graded (Z.min 5 (referenceRank i base)) (referenceRank i base =? 6) (applyCaps i st).
Proof.
  intros Hb H. eassert (G : graded _ _ (applyCaps i st)).
  { unfold applyCaps. cbv zeta.
    eapply graded_dropA, graded_dropA, graded_capWhen; [|cbn; tauto].
    do 6 (eapply graded_capLow; [|cbn; tauto|reflexivity]). do 3 eapply graded_failWhen. exact H. }
  change (letterRank "A") with 5 in G. change (letterRank "B") with 3 in G. change (letterRank "C") with 2 in G.
  rewrite !limit_limit in G. unfold referenceRank. cbv zeta.
  rewrite (containsAny_cons _ "SSL 3"), (containsAny_cons _ "TLS 1.0").
  rewrite !orb_assoc in *.
  assert (Hm : limit (hasRC4 (ciphers i) || weakDH i || negb (forwardSecrecy i)) 3
    (limit (containsAny (versions i) ["SSL 3"%string] || containsAny (versions i) ["TLS 1.0"%string]
            || containsAny (versions i) ["TLS 1.1"%string]) 2
      (limit (heartbleed i || robot i || insecureReneg i) 0 base)) <= 5) by (repeat apply limit_le; lia).
  revert G Hm. generalize (limit (hasRC4 (ciphers i) || weakDH i || negb (forwardSecrecy i)) 3
    (limit (containsAny (versions i) ["SSL 3"%string] || containsAny (versions i) ["TLS 1.0"%string]
            || containsAny (versions i) ["TLS 1.1"%string]) 2
      (limit (heartbleed i || robot i || insecureReneg i) 0 base))) as m. intros m G Hm.
  eapply graded_eq; [exact G|..]; clear G; unfold limit;
    destruct (weakSignature (leaf i)), (negb (containsAny _ _)), (negb (hstsValid i));
    (assert (m = 5 \/ m < 5) as [->|Hlt] by lia; [done|]);
    rewrite ?(Z.min_l m 5) by lia; rewrite ?(Z.min_r 5 m) by lia;
    rewrite ?(proj2 (Z.ltb_lt m 5) Hlt), ?(proj2 (Z.eqb_neq m 5)) by lia; cbn [andb orb negb];
    rewrite ?(proj2 (Z.eqb_neq m 5)) by lia; lia.
Qed.

Lemma referenceRank_6 i base :
  base <= 5 -> referenceRank i base = 6 ->
  hstsValid i = true /\ containsAny (versions i) ["TLS 1.0"; "TLS 1.1"; "SSL 3"]%string = false.
Proof.
  intros Hb. unfold referenceRank. cbv zeta.
  rewrite (containsAny_cons _ "SSL 3" ["TLS 1.0"; "TLS 1.1"]%string), (containsAny_cons _ "TLS 1.0" ["TLS 1.1"]%string),
    (containsAny_cons _ "TLS 1.0" ["TLS 1.1"; "SSL 3"]%string), (containsAny_cons _ "TLS 1.1" ["SSL 3"]%string).
  generalize (containsAny (versions i) ["TLS 1.0"%string]) (containsAny (versions i) ["TLS 1.1"%string])
    (containsAny (versions i) ["SSL 3"%string]) (containsAny (versions i) ["TLS 1.3"%string]).
  assert (Hm : limit (heartbleed i || robot i || insecureReneg i) 0 base <= 5) by (apply limit_le; lia).
  revert Hm. generalize (limit (heartbleed i || robot i || insecureReneg i) 0 base) as m.
  generalize (hasRC4 (ciphers i) || weakDH i || negb (forwardSecrecy i)). intros low m Hm v10 v11 ssl v13.
  assert (Hlow : forall b, ssl || (v10 || v11) = true -> limit b 3 (limit (ssl || (v10 || v11)) 2 m) < 5).
  { intros b ->. unfold limit. destruct b; lia. }
  destruct (Z.ltb_spec (limit low 3 (limit (ssl || (v10 || v11)) 2 m)) 5) as [H|H]; [lia|].
  destruct v13, (hstsValid i); cbn [negb orb]; try lia. intros _. split; [done|].
  destruct ssl, v10, v11; cbn [orb] in *; try done; specialize (Hlow low eq_refl); lia.
Qed.

Lemma referenceRank_range i base : 0 <= base <= 5 -> 0 <= referenceRank i base <= 6.
Proof. intros Hb. unfold referenceRank, limit. cbv zeta. repeat case_match; lia. Qed.

Lemma score_bounds i : 0 <= Score (gradeTLS i) <= 100.
Proof.
  assert (Hp : 0 <= scoreProtocols (versions i) <= 100).
  { unfold scoreProtocols. repeat (destruct (containsAny _ _); [lia|]). lia. }
  assert (Hk : 0 <= scoreKeyExchange (leaf i) <= 100).
  { unfold scoreKeyExchange. destruct (leaf i); [|lia]. repeat case_match; lia. }
  assert (Hc : 0 <= scoreCiphers (ciphers i) <= 100).
  { unfold scoreCiphers. destruct (bestRank _) as [|[[p|[p|p|]|]|[p|[p|p|]|]|]|]; lia. }
  unfold gradeTLS. destruct (applyCaps _ _) as [letter caps]. cbn [Score].
  Z.to_euclidean_division_equations; lia.
Qed.

Lemma gradeTLS_letter i :
  Letter (gradeTLS i)
  = (let '(letter, caps) := applyCaps i (scoreToLetter (Score (gradeTLS i)), []) in
     if String.eqb letter "A" && (match caps with [] => true | _ => false end) && hstsValid i
        && negb (containsAny (versions i) ["TLS 1.0"; "TLS 1.1"; "SSL 3"]%string)
     then "A+" else letter)%string.
Proof.
  assert (E : Score (gradeTLS i)
    = (scoreProtocols (versions i) * 30 + scoreKeyExchange (leaf i) * 30 + scoreCiphers (ciphers i) * 40) / 100).
  { unfold gradeTLS. by destruct (applyCaps _ _). }
  rewrite E. unfold gradeTLS. by destruct (applyCaps _ _).
Qed.

(** C12. The letter of [gradeTLS] is the one the rules give as a single formula,
    whatever the order in which the caps were applied: the rank of the base
    letter, limited to F by Heartbleed, ROBOT or insecure renegotiation, to C by
    any of SSL 3, TLS 1.0 and TLS 1.1, to B by RC4, weak DH or missing forward
    secrecy; what is still an A becomes A- without TLS 1.3 or without HSTS, stays
    A with a SHA-1 or MD5 signature and is raised to A+ otherwise. The letter is
    one of the seven and the score lies between 0 and 100. *)
Theorem gradeTLS_reference i :
  In (Letter (gradeTLS i)) letters
  /\ letterRank (Letter (gradeTLS i)) = referenceRank i (letterRank (scoreToLetter (Score (gradeTLS i))))
  /\ 0 <= Score (gradeTLS i) <= 100.
Proof.
  split; [|split; [|apply score_bounds]];
    pose proof (base_range (Score (gradeTLS i))) as Hb;
    pose proof (applyCaps_graded i _ _ Hb (scoreToLetter_graded _)) as [Hl Hr Hc];
    pose proof (referenceRank_range i _ Hb) as Hran;
    rewrite (gradeTLS_letter i) at 1;
    destruct (applyCaps _ _) as [letter caps]; cbn [fst snd] in *; rewrite (letterRank_A _ Hl), Hr.
  - by destruct (_ && _); [cbn; tauto|].
  - revert Hr Hc Hran. pose proof (referenceRank_6 i _ (proj2 Hb)) as H6. revert H6.
    generalize (referenceRank i (letterRank (scoreToLetter (Score (gradeTLS i))))) as R. intros R H6 Hr Hc Hran.
    destruct (Z.eq_dec R 6) as [->|E].
    + destruct (H6 eq_refl) as [-> ->]. by rewrite (Hc eq_refl).
    + destruct (Z.eqb_spec (5 `min` R) 5) as [E5|E5]; cbn [andb]; [|lia].
      rewrite (Hc E5), (proj2 (Z.eqb_neq R 6) E). cbn [andb]. lia.
Qed.

(** ** What the grade does not see *)

Lemma bestRank_app l l' : bestRank (l ++ l') = fold_left Z.max (map (fun c => cipherGradeToRank (Grade c)) l') (bestRank l).
Proof.
  unfold bestRank. rewrite fold_left_app. set (b := fold_left _ l 0). clearbody b. revert b.
  induction l' as [|c l' IH]; intros b; cbn [fold_left map]; [done|]. rewrite IH. f_equal.
  destruct (Z.ltb_spec b (cipherGradeToRank (Grade c))); lia.
Qed.

Lemma fold_max_absorb l b : Forall (fun r => r <= b) l -> fold_left Z.max l b = b.
Proof. induction 1 as [|r l Hr Hl IH]; cbn [fold_left]; [done|]. by rewrite Z.max_l. Qed.

Definition withCiphers (i : gradeInput) (l : list cipherInfo) : gradeInput :=
  {| versions := versions i; ciphers := l; leaf := leaf i; hstsValid := hstsValid i; hstsPreload := hstsPreload i;
     ocspStapled := ocspStapled i; mustStaple := mustStaple i; forwardSecrecy := forwardSecrecy i; weakDH := weakDH i;
     heartbleed := heartbleed i; robot := robot i; insecureReneg := insecureReneg i |}.

(** The grade looks at the best suite of a server and at RC4, not at its
    weakest suite: adding suites that are graded no better than the best one and
    whose names do not contain RC4 - 3DES and DES40 EXPORT suites, graded F, among
    them - changes nothing, neither the letter nor the score nor the caps. *)
Theorem gradeTLS_weakest_ignored i extra
  (Hgrade : Forall (fun c => cipherGradeToRank (Grade c) <= bestRank (ciphers i)) extra)
  (Hrc4 : hasRC4 extra = false) :
  gradeTLS (withCiphers i (ciphers i ++ extra)) = gradeTLS i.
Proof.
  assert (Hr : hasRC4 (ciphers i ++ extra) = hasRC4 (ciphers i)).
  { unfold hasRC4 in *. by rewrite existsb_app, Hrc4, orb_false_r. }
  assert (Hs : scoreCiphers (ciphers i ++ extra) = scoreCiphers (ciphers i)).
  { unfold scoreCiphers. rewrite bestRank_app, fold_max_absorb; [done|].
    rewrite List.Forall_map. exact Hgrade. }
  unfold gradeTLS, applyCaps. cbn [withCiphers versions ciphers leaf hstsValid hstsPreload ocspStapled mustStaple
    forwardSecrecy weakDH heartbleed robot insecureReneg]. by rewrite Hr, Hs.
Qed.

(** A server with TLS 1.3, a P-256 certificate and HSTS, and its grade: A+ also
    when it still accepts 3DES and an export suite. *)
Definition modernServer : gradeInput :=
  {| versions := ["TLS 1.2"; "TLS 1.3"]%string; ciphers := map classifyCipher [0x1301; 0xc02f];
     leaf := Some {| PublicKeyAlgorithm := ECDSA; PublicKey := ECDSAKey 256; SignatureAlgorithm := "ECDSA-SHA256";
                     RawCert := []; Extensions := [] |};
     hstsValid := true; hstsPreload := false; ocspStapled := false; mustStaple := false; forwardSecrecy := true;
     weakDH := false; heartbleed := false; robot := false; insecureReneg := false |}.

Lemma gradeTLS_weakest_ignored_witness :
  let weak := map classifyCipher [0x000a; 0x0008] in
  map Grade weak = ["F"; "F"]%string /\ Letter (gradeTLS (withCiphers modernServer (ciphers modernServer ++ weak))) = "A+"%string.
Proof.
  cbv zeta. split; [by vm_compute|].
  rewrite (gradeTLS_weakest_ignored modernServer (map classifyCipher [0x000a; 0x0008]));
    [by vm_compute|by repeat constructor; vm_compute|by vm_compute].
Defined.

Lemma In_snoc {A : Type} (x : A) c why st : In x (if c : bool then st ++ [why] else st) -> c = true /\ x = why \/ In x st.
Proof. destruct c; [|by right]. intros [H|[->|[]]]%in_app_or; [by right|by left]. Qed.

Lemma In_capWhen x c cap why st : In x (snd (capWhen c cap why st)) -> c = true /\ x = why \/ In x (snd st).
Proof. intros H. apply In_snoc. unfold capWhen in H. by destruct c. Qed.
Lemma In_failWhen x c why st : In x (snd (failWhen c why st)) -> c = true /\ x = why \/ In x (snd st).
Proof. intros H. apply In_snoc. unfold failWhen in H. by destruct c. Qed.
Lemma In_dropA x c why st : In x (snd (dropA c why st)) -> x = why \/ In x (snd st).
Proof. unfold dropA. destruct (_ && _); [|by right]. intros [H|[->|[]]]%in_app_or; [by right|by left]. Qed.

Lemma vName_arrivals l vs : map vName (fold_left versionArrival l vs) = map vName vs.
Proof.
  revert vs. induction l as [|[[i ok] c] l IH]; intros vs; cbn [fold_left]; [done|]. rewrite IH. unfold versionArrival.
  revert i. induction vs as [|v vs IHv]; intros [|i]; cbn; try done. f_equal. apply IHv.
Qed.

Lemma probed_no_ssl3 arrivals : containsAny (supportedVersionNames (probeTLSVersions arrivals)) ["SSL 3"%string] = false.
Proof.
  pose proof (vName_arrivals arrivals probedVersions) as Hn. change (fold_left _ _ _) with (probeTLSVersions arrivals) in Hn.
  apply not_true_is_false. unfold containsAny. rewrite existsb_exists. intros (n & Hin & Hc).
  unfold supportedVersionNames in Hin. apply in_flat_map in Hin as (p & Hp & Hn').
  apply (in_map vName) in Hp. rewrite Hn in Hp. destruct (vSupported p); [|done]. destruct Hn' as [<-|[]].
  cbn in Hp. by destruct Hp as [E|[E|[E|[E|[]]]]]; rewrite <- E in Hc.
Qed.

(** Composition of the version probes and the grade: the check probes TLS 1.0
    to 1.3 only, so whatever arrives and whatever the other observations are, the
    cap for SSL 3 is never applied and [scoreProtocols] never returns 30. *)
Theorem checkTLS_never_ssl3 o arrivals :
  oVersions o = probeTLSVersions arrivals ->
  ~ In "SSLv3 enabled"%string (Caps (gradeTLS (gradeInputOf o))) /\ ProtocolScore (gradeTLS (gradeInputOf o)) <> 30.
Proof.
  intros Ho. pose proof (probed_no_ssl3 arrivals) as Hssl. rewrite <- Ho in Hssl.
  assert (Hv : versions (gradeInputOf o) = supportedVersionNames (oVersions o)).
  { unfold gradeInputOf. destruct (oHSTS o) as [h|]; [by destruct (hstsFlags h)|done]. }
  rewrite <- Hv in Hssl. generalize dependent (gradeInputOf o). intros i Hssl _. split.
  - assert (HC : Caps (gradeTLS i) = snd (applyCaps i (scoreToLetter ((scoreProtocols (versions i) * 30
      + scoreKeyExchange (leaf i) * 30 + scoreCiphers (ciphers i) * 40) / 100), []))).
    { unfold gradeTLS. by destruct (applyCaps _ _). }
    rewrite HC. unfold applyCaps. cbv zeta. intros H.
    repeat (apply In_dropA in H as [H|H] || apply In_capWhen in H as [[Hb H]|H] || apply In_failWhen in H as [[Hb H]|H]);
      try discriminate; [|done]. by rewrite Hssl in Hb.
  - assert (HP : ProtocolScore (gradeTLS i) = scoreProtocols (versions i)).
    { unfold gradeTLS. by destruct (applyCaps _ _). }
    rewrite HP. unfold scoreProtocols. rewrite Hssl. by repeat case_match.
Qed.

Definition oldServer : observations :=
  {| oVersions := probeTLSVersions [(0%nat, true, 0x2f)]; oCipherEnums := [];
     oLeaf := {| PublicKeyAlgorithm := RSA; PublicKey := RSAKey 2048; SignatureAlgorithm := "SHA256-RSA"; RawCert := [];
                 Extensions := [] |};
     oHSTS := None; oStapled := false; oMustStaple := false; oForwardSecret := false;
     oDH := noPosture;
     oHeartbleed := false; oRobot := false; oClientInitAccepted := false |}.

Lemma checkTLS_never_ssl3_witness : ProtocolScore (gradeTLS (gradeInputOf oldServer)) <> 30.
Proof. exact (proj2 (checkTLS_never_ssl3 oldServer [(0%nat, true, 0x2f)] eq_refl)). Defined.

(** One second of HSTS is enough for A+. *)
Lemma hsts_any_maxage : hstsFlags "max-age=1" = (true, false).
Proof. by vm_compute. Qed.
