(* ===== verification/Mozilla.v ===== *)
(** The Mozilla TLS configuration profiles of [tls_mozilla.go]. *)

From Stdlib Require Import ZArith List String Ascii Strings.Byte Lia Bool.
From stdpp Require Import base list strings numbers.
From S2P Require Import Prelude Bytes GoStrings Ciphers TlsCheck.
Open Scope Z_scope.

Record mozillaProfile := {
  pName : string;
  MinTLSVersion : string;
  MaxTLSVersion : string;
  AllowedTLS12 : list Z;
  AllowedTLS13 : list Z;
  ForbidWeakCiphers : bool
}.

Definition mozillaModern : mozillaProfile :=
  {| pName := "modern"; MinTLSVersion := "TLS 1.3"; MaxTLSVersion := "TLS 1.3"; AllowedTLS12 := [];
     AllowedTLS13 := [0x1301; 0x1302; 0x1303]; ForbidWeakCiphers := false |}.

Definition mozillaIntermediate : mozillaProfile :=
  {| pName := "intermediate"; MinTLSVersion := "TLS 1.2"; MaxTLSVersion := "TLS 1.3";
     AllowedTLS12 := [0xc02f; 0xc030; 0xc02b; 0xc02c; 0xcca8; 0xcca9; 0x009e; 0x009f];
     AllowedTLS13 := [0x1301; 0x1302; 0x1303]; ForbidWeakCiphers := true |}.

Definition mozillaOld : mozillaProfile :=
  {| pName := "old"; MinTLSVersion := "TLS 1.0"; MaxTLSVersion := "TLS 1.3";
     AllowedTLS12 := [0xc02f; 0xc030; 0xc02b; 0xc02c; 0xcca8; 0xcca9; 0x009e; 0x009f;
                      0xc013; 0xc014; 0xc009; 0xc00a; 0x0033; 0x0039;
                      0x002f; 0x0035; 0x009c; 0x009d];
     AllowedTLS13 := [0x1301; 0x1302; 0x1303]; ForbidWeakCiphers := true |}.

Record mozillaProfileVerdict := { Passes : bool; Reasons : list string }.
Record mozillaComplianceResult := {
  Modern : mozillaProfileVerdict;
  Intermediate : mozillaProfileVerdict;
  Old : mozillaProfileVerdict
}.

(** The Go map answers 0 for a name it does not have. *)
Definition versionRank (a : string) : Z :=
  if String.eqb a "SSL 2.0" then 0 else if String.eqb a "SSL 3.0" then 1 else if String.eqb a "TLS 1.0" then 2
  else if String.eqb a "TLS 1.1" then 3 else if String.eqb a "TLS 1.2" then 4 else if String.eqb a "TLS 1.3" then 5
  else 0.
Definition tlsVersionLessThan (a b : string) : bool := versionRank a <? versionRank b.

Definition cipherInList (c : Z) (list : list Z) : bool := existsb (fun x => x =? c) list.

(** Rule 1, one version: the reasons and [minOK]. *)
Definition versionRule (p : mozillaProfile) (st : list string * bool) (v : tlsVersionProbe) : list string * bool :=
  let '(reasons, minOK) := st in
  if negb (vSupported v) then (reasons, minOK) else
  let reasons :=
    if tlsVersionLessThan (vName v) (MinTLSVersion p)
    then reasons ++ [("server allows " +:+ vName v +:+ " (below profile floor " +:+ MinTLSVersion p +:+ ")")%string]
    else reasons in
  (reasons, if String.eqb (vName v) (MinTLSVersion p) || String.eqb (vName v) (MaxTLSVersion p) then true else minOK).

(** The suites a profile allows in the rows of a version; [None] is the
    [default: continue] of the switch. *)
Definition allowedFor (p : mozillaProfile) (ver : string) : option (list Z) :=
  if String.eqb ver "TLS 1.3" then Some (AllowedTLS13 p)
  else if String.eqb ver "TLS 1.2" then Some (AllowedTLS12 p) else None.

(** Rule 2, the suites of one row, up to its [break]. *)
Fixpoint cipherRule (ver : string) (allowed : list Z) (cs : list cipherInfo) (reasons : list string) : list string :=
  match cs with
  | [] => reasons
  | ci :: cs =>
      if cipherInList (Code ci) allowed then cipherRule ver allowed cs reasons else
      let reasons := reasons ++ [(ver +:+ ": disallowed cipher " +:+ Name ci)%string] in
      if 5 <? blen reasons then reasons ++ ["(more — truncated)"%string]
      else cipherRule ver allowed cs reasons
  end.

(** Rule 2, the rows, up to the outer [break]. *)
Fixpoint enumRule (p : mozillaProfile) (enums : list cipherEnum) (reasons : list string) : list string :=
  match enums with
  | [] => reasons
  | ce :: enums =>
      match allowedFor p (TLSVersion ce) with
      | None => enumRule p enums reasons
      | Some allowed =>
          let reasons := cipherRule (TLSVersion ce) allowed (Ciphers ce) reasons in
          if 6 <? blen reasons then reasons else enumRule p enums reasons
      end
  end.

(** Rule 3: the first suite graded F of every row. *)
Definition weakRule (enums : list cipherEnum) (reasons : list string) : list string :=
  fold_left (fun reasons ce =>
    match find (fun ci => String.eqb (Grade ci) "F") (Ciphers ce) with
    | Some ci => reasons ++ [(TLSVersion ce +:+ ": F-graded cipher " +:+ Name ci)%string]
    | None => reasons
    end) enums reasons.

Definition evalProfile (p : mozillaProfile) (versions : list tlsVersionProbe) (cipherEnums : list cipherEnum)
    : mozillaProfileVerdict :=
  let '(reasons, minOK) := fold_left (versionRule p) versions ([], false) in
  let reasons := if negb minOK then reasons ++ [("server doesn't support required " +:+ MinTLSVersion p)%string]
                 else reasons in
  let reasons := enumRule p cipherEnums reasons in
  let reasons := if ForbidWeakCiphers p then weakRule cipherEnums reasons else reasons in
  {| Passes := match reasons with [] => true | _ => false end; Reasons := reasons |}.

Definition evaluateMozillaCompliance (versions : list tlsVersionProbe) (cipherEnums : list cipherEnum)
    : mozillaComplianceResult :=
  {| Modern := evalProfile mozillaModern versions cipherEnums;
     Intermediate := evalProfile mozillaIntermediate versions cipherEnums;
     Old := evalProfile mozillaOld versions cipherEnums |}.

Definition mozillaHeadline (r : mozillaComplianceResult) : string :=
  let parts :=
    (if Passes (Modern r) then ["modern ✓"%string] else [])
    ++ (if Passes (Intermediate r) then ["intermediate ✓"%string] else [])
    ++ (if Passes (Old r) && negb (Passes (Intermediate r)) && negb (Passes (Modern r)) then ["old ✓"%string] else []) in
  if negb (Passes (Modern r)) && negb (Passes (Intermediate r)) && negb (Passes (Old r)) then "Mozilla: fails all"
  else match parts with [] => "" | _ => "Mozilla: " +:+ Join parts " / " end.

(** ** What passing means *)

(** The rules, without the bookkeeping of reasons. *)
Record complies (p : mozillaProfile) (versions : list tlsVersionProbe) (enums : list cipherEnum) : Prop := {
  c_floor : forall v, In v versions -> vSupported v = true -> versionRank (MinTLSVersion p) <= versionRank (vName v);
  c_ends : exists v, In v versions /\ vSupported v = true /\ (vName v = MinTLSVersion p \/ vName v = MaxTLSVersion p);
  c_suites : forall ce allowed, In ce enums -> allowedFor p (TLSVersion ce) = Some allowed ->
    forall ci, In ci (Ciphers ce) -> In (Code ci) allowed;
  c_weak : ForbidWeakCiphers p = true -> forall ce ci, In ce enums -> In ci (Ciphers ce) -> Grade ci <> "F"%string
}.

Lemma snoc_not_nil {A : Type} (l : list A) (x : A) : l ++ [x] <> [].
Proof. by destruct l. Qed.

Lemma versionRule_spec p versions : forall reasons minOK reasons' minOK',
  fold_left (versionRule p) versions (reasons, minOK) = (reasons', minOK') ->
  (reasons' = [] <-> reasons = [] /\ forall v, In v versions -> vSupported v = true ->
     versionRank (MinTLSVersion p) <= versionRank (vName v))
  /\ (minOK' = true <-> minOK = true \/ exists v, In v versions /\ vSupported v = true
        /\ (vName v = MinTLSVersion p \/ vName v = MaxTLSVersion p)).
Proof.
  induction versions as [|v versions IH]; intros reasons minOK reasons' minOK'; cbn [fold_left].
  - intros [= <- <-]. split; [firstorder|]. split; [by left|]. by intros [?|(? & [] & _)].
  - destruct (versionRule p (reasons, minOK) v) as [r1 m1] eqn:E. intros H.
    destruct (IH _ _ _ _ H) as [Hr Hm]. rewrite Hr, Hm. clear IH H Hr Hm. unfold versionRule in E.
    destruct (vSupported v) eqn:Hs; cbn [negb] in E; injection E as <- <-.
    + unfold tlsVersionLessThan. split.
      * destruct (Z.ltb_spec (versionRank (vName v)) (versionRank (MinTLSVersion p))) as [Hlt|Hge].
        -- split; [by intros [?%snoc_not_nil _]|]. intros [_ Hall]. specialize (Hall v (or_introl eq_refl) Hs). lia.
        -- split; intros [H1 H2]; (split; [done|]); [intros w [<-|Hw]; [done|by apply H2]|intros w Hw; apply H2; by right].
      * destruct (_ || _) eqn:Eo.
        -- split; [intros _; right; exists v|by left]. split_and!; [by left|done|].
           apply orb_true_iff in Eo as [E|E]; apply String.eqb_eq in E; auto.
        -- apply orb_false_iff in Eo as [E1 E2]. apply String.eqb_neq in E1, E2. firstorder congruence.
    + split; firstorder congruence.
Qed.

Lemma cipherInList_spec c l : cipherInList c l = true <-> In c l.
Proof.
  unfold cipherInList. rewrite existsb_exists. split; [by intros (x & Hx & <-%Z.eqb_eq)|].
  intros Hc. exists c. by rewrite Z.eqb_refl.
Qed.

Lemma cipherRule_spec ver allowed cs : forall reasons,
  cipherRule ver allowed cs reasons = [] <-> reasons = [] /\ forall ci, In ci cs -> In (Code ci) allowed.
Proof.
  induction cs as [|ci cs IH]; intros reasons; cbn [cipherRule]; [firstorder|].
  destruct (cipherInList (Code ci) allowed) eqn:E.
  - rewrite IH. apply cipherInList_spec in E. split; intros [H1 H2]; (split; [done|]); [intros c [<-|Hc]; auto|].
    intros c Hc. apply H2. by right.
  - split.
    + intros H. exfalso. revert H. destruct (5 <? _); [apply snoc_not_nil|]. rewrite IH. by intros [?%snoc_not_nil _].
    + intros [_ H]. specialize (H ci (or_introl eq_refl)). apply cipherInList_spec in H. congruence.
Qed.

Lemma enumRule_spec p enums : forall reasons,
  enumRule p enums reasons = [] <-> reasons = [] /\ forall ce allowed, In ce enums ->
    allowedFor p (TLSVersion ce) = Some allowed -> forall ci, In ci (Ciphers ce) -> In (Code ci) allowed.
Proof.
  induction enums as [|ce enums IH]; intros reasons; cbn [enumRule]; [firstorder|].
  destruct (allowedFor p (TLSVersion ce)) as [allowed|] eqn:Ha.
  - pose proof (cipherRule_spec (TLSVersion ce) allowed (Ciphers ce) reasons) as Hc.
    destruct (6 <? _) eqn:E.
    + split.
      * intros H. rewrite H in E. done.
      * intros [H1 H2]. apply Hc. split; [done|]. apply (H2 ce); [by left|done].
    + rewrite IH, Hc. split.
      * intros [[H1 H2] H3]. split; [done|]. intros ce' al [<-|Hin] Hal; [|by apply H3].
        by rewrite Hal in Ha; injection Ha as ->.
      * intros [H1 H2]. split; [split; [done|by apply (H2 ce); [left|]]|]. intros ce' al Hin. apply H2. by right.
  - rewrite IH. split; intros [H1 H2]; (split; [done|]).
    + intros ce' al [<-|Hin]; [congruence|by apply H2].
    + intros ce' al Hin. apply H2. by right.
Qed.

Lemma weakRule_spec enums : forall reasons,
  weakRule enums reasons = [] <->
  reasons = [] /\ forall ce ci, In ce enums -> In ci (Ciphers ce) -> Grade ci <> "F"%string.
Proof.
  unfold weakRule. induction enums as [|ce enums IH]; intros reasons; cbn [fold_left]; [firstorder|]. rewrite IH.
  destruct (find _ (Ciphers ce)) as [ci|] eqn:E.
  - apply find_some in E as [Hin HF]. apply String.eqb_eq in HF.
    split; [by intros [?%snoc_not_nil _]|]. intros [_ H]. exfalso. by apply (H ce ci (or_introl eq_refl) Hin).
  - split; intros [H1 H2]; (split; [done|]).
    + intros ce' ci [<-|Hin] Hci; [|by apply (H2 ce')]. intros HF.
      pose proof (find_none _ _ E ci Hci) as Hn. cbn beta in Hn. by rewrite HF in Hn.
    + intros ce' ci Hin. apply H2. by right.
Qed.

Lemma evalProfile_complies p versions enums :
  Passes (evalProfile p versions enums) = true <-> complies p versions enums.
Proof.
  unfold evalProfile. destruct (fold_left (versionRule p) versions ([], false)) as [reasons minOK] eqn:E.
  destruct (versionRule_spec _ _ _ _ _ _ E) as [Hr Hm]. cbn [Passes].
  set (r0 := if negb minOK then _ else reasons).
  assert (H0 : r0 = [] <-> reasons = [] /\ minOK = true).
  { subst r0. destruct minOK; cbn [negb]; [tauto|]. split; [by intros ?%snoc_not_nil|by intros [_ ?]]. }
  set (r := if ForbidWeakCiphers p then _ else _).
  assert (HR : r = [] <-> enumRule p enums r0 = [] /\ (ForbidWeakCiphers p = true ->
    forall ce ci, In ce enums -> In ci (Ciphers ce) -> Grade ci <> "F"%string)).
  { subst r. destruct (ForbidWeakCiphers p); [rewrite weakRule_spec; tauto|]. split; [|tauto]. by intros. }
  transitivity (r = []); [by destruct r|]. rewrite HR, enumRule_spec, H0, Hr, Hm. split.
  - intros [[[[_ Hf] [?|He]] Hs] Hw]; [done|]. by split.
  - intros [Hf He Hs Hw]. tauto.
Qed.

(** A profile passes exactly when the rules hold: no accepted version is below
    the floor, the lowest or the highest version of the profile is accepted, every
    suite found with TLS 1.2 or 1.3 is in the allow-list of its version, and, where
    the profile forbids weak suites, no row has a suite graded F. The truncation of
    the list of reasons never turns a failure into a pass. *)
Theorem evalProfile_passes p versions enums :
  Passes (evalProfile p versions enums) = true <-> complies p versions enums.
Proof. apply evalProfile_complies. Qed.

(** ** The profiles against each other *)

(** The rows as [checkTLS] builds them: accepted versions, suites with the grade of
    the rubric. *)
Definition rowsOfCheck (versions : list tlsVersionProbe) (enums : list cipherEnum) : Prop :=
  forall ce, In ce enums ->
    (exists v, In v versions /\ vSupported v = true /\ vName v = TLSVersion ce)
    /\ forall ci, In ci (Ciphers ce) -> exists c, ci = classifyCipher c.

Lemma allowed13_not_F c : In c [0x1301; 0x1302; 0x1303] -> Grade (classifyCipher c) <> "F"%string.
Proof. intros H. by repeat destruct H as [<-|H]. Qed.

Lemma floor_TLS13 v : versionRank "TLS 1.3" <= versionRank v -> v = "TLS 1.3"%string.
Proof.
  destruct (String.eqb_spec v "TLS 1.3") as [->|H13]; [done|]. intros H. exfalso. revert H.
  change (versionRank "TLS 1.3") with 5. unfold versionRank.
  rewrite (proj2 (String.eqb_neq v "TLS 1.3") H13). repeat (destruct (String.eqb v _)); lia.
Qed.

Lemma modern_complies p versions enums :
  rowsOfCheck versions enums -> MaxTLSVersion p = "TLS 1.3"%string ->
  versionRank (MinTLSVersion p) <= 5 -> AllowedTLS13 p = [0x1301; 0x1302; 0x1303] ->
  complies mozillaModern versions enums -> complies p versions enums.
Proof.
  intros Hrows Hmax Hmin H13 [Hf (v & Hv & Hs & Hn) Hc _].
  assert (Hver : forall ce, In ce enums -> TLSVersion ce = "TLS 1.3"%string).
  { intros ce Hin. destruct (Hrows ce Hin) as [(w & Hw & Hws & <-) _]. by apply floor_TLS13, Hf. }
  assert (Hcode : forall ce ci, In ce enums -> In ci (Ciphers ce) -> In (Code ci) [0x1301; 0x1302; 0x1303]).
  { intros ce ci Hce Hci. apply (Hc ce _ Hce); [|done]. by rewrite (Hver ce Hce). }
  split.
  - intros w Hw Hws. specialize (Hf w Hw Hws). change (versionRank (MinTLSVersion mozillaModern)) with 5 in Hf. lia.
  - exists v. split_and!; [done..|]. right. rewrite Hmax. by destruct Hn.
  - intros ce al Hce Hal ci Hci. rewrite (Hver ce Hce) in Hal. injection Hal as <-. rewrite H13. by apply (Hcode ce).
  - intros _ ce ci Hce Hci. destruct (proj2 (Hrows ce Hce) ci Hci) as [c ->].
    apply allowed13_not_F. replace c with (Code (classifyCipher c)) at 1; [by apply (Hcode ce)|].
    unfold classifyCipher. by repeat case_match.
Qed.

(** On what the check collects, the profiles are nested at the top: a server
    that passes modern passes intermediate and old, and then the headline names
    modern and intermediate and not old. *)
Theorem modern_passes_all versions enums
  (Hrows : rowsOfCheck versions enums)
  (Hmodern : Passes (Modern (evaluateMozillaCompliance versions enums)) = true) :
  let r := evaluateMozillaCompliance versions enums in
  Passes (Intermediate r) = true /\ Passes (Old r) = true
  /\ mozillaHeadline r = "Mozilla: modern ✓ / intermediate ✓"%string.
Proof.
  cbv zeta. pose proof Hmodern as Hm. apply evalProfile_complies in Hm.
  assert (Hi : Passes (Intermediate (evaluateMozillaCompliance versions enums)) = true).
  { apply evalProfile_complies. by apply modern_complies. }
  assert (Ho : Passes (Old (evaluateMozillaCompliance versions enums)) = true).
  { apply evalProfile_complies. by apply modern_complies. }
  split_and!; [done..|]. unfold mozillaHeadline. by rewrite Hmodern, Hi, Ho.
Qed.

Definition probesOf (b10 b11 b12 b13 : bool) : list tlsVersionProbe :=
  [ {| vName := "TLS 1.0"; vSupported := b10; vCipher := 0 |}; {| vName := "TLS 1.1"; vSupported := b11; vCipher := 0 |};
    {| vName := "TLS 1.2"; vSupported := b12; vCipher := 0 |}; {| vName := "TLS 1.3"; vSupported := b13; vCipher := 0 |} ].

Lemma modern_passes_all_witness :
  Passes (Old (evaluateMozillaCompliance (probesOf false false false true)
    [{| TLSVersion := "TLS 1.3"; Ciphers := [classifyCipher 0x1301]; WorstGrade := "A" |}])) = true.
Proof.
  refine (proj1 (proj2 (modern_passes_all _ _ _ _))); [|by vm_compute].
  intros ce [<-|[]]. split.
  - exists {| vName := "TLS 1.3"; vSupported := true; vCipher := 0 |}. split_and!; [by do 3 right; left|done..].
  - intros ci [<-|[]]. by exists 0x1301.
Defined.

(** The rule on versions asks for one end of the range and not, as its comment
    says, for every version in it: a server that accepts TLS 1.2 only and no TLS 1.3
    passes intermediate whenever its suites do, and the same server never passes the
    weaker profile old, so passing is not monotone in the strictness of the profile. *)
Theorem intermediate_without_tls13 versions enums
  (Hv : map (fun v => (vName v, vSupported v)) versions
        = map (fun v => (vName v, vSupported v)) (probesOf false false true false))
  (Hsuites : forall ce, In ce enums -> TLSVersion ce = "TLS 1.2"%string
     /\ forall ci, In ci (Ciphers ce) -> In (Code ci) (AllowedTLS12 mozillaIntermediate) /\ Grade ci <> "F"%string) :
  Passes (Intermediate (evaluateMozillaCompliance versions enums)) = true
  /\ Passes (Old (evaluateMozillaCompliance versions enums)) = false.
Proof.
  assert (Hin : forall n s, (exists v, In v versions /\ vName v = n /\ vSupported v = s)
    <-> In (n, s) (map (fun v => (vName v, vSupported v)) (probesOf false false true false))).
  { intros n s. rewrite <- Hv, in_map_iff. split; [intros (v & ? & <- & <-)|intros (v & [= <- <-] & ?)]; by exists v. }
  assert (Honly : forall v, In v versions -> vSupported v = true -> vName v = "TLS 1.2"%string).
  { intros v H1 H2. assert (H : In (vName v, true) (map (fun v => (vName v, vSupported v)) (probesOf false false true false)))
      by (apply Hin; by exists v). cbn in H. intuition congruence. }
  split.
  - apply evalProfile_complies. split.
    + intros v H1 H2. by rewrite (Honly v H1 H2).
    + destruct (proj2 (Hin "TLS 1.2"%string true)) as (v & H1 & H2 & H3); [by do 2 right; left|].
      exists v. split_and!; [done..|]. by left.
    + intros ce al Hce Hal ci Hci. destruct (Hsuites ce Hce) as [Hver Hcs]. rewrite Hver in Hal.
      injection Hal as <-. by apply Hcs.
    + intros _ ce ci Hce Hci. by apply (Hsuites ce Hce).
  - apply not_true_is_false. intros H. apply evalProfile_complies in H as [_ (v & H1 & H2 & H3) _ _].
    rewrite (Honly v H1 H2) in H3. by destruct H3.
Qed.

Lemma intermediate_without_tls13_witness :
  mozillaHeadline (evaluateMozillaCompliance (probesOf false false true false)
    [{| TLSVersion := "TLS 1.2"; Ciphers := map classifyCipher [0xc02f; 0xc030]; WorstGrade := "A" |}])
  = "Mozilla: intermediate ✓"%string
  /\ Passes (Old (evaluateMozillaCompliance (probesOf false false true false)
    [{| TLSVersion := "TLS 1.2"; Ciphers := map classifyCipher [0xc02f; 0xc030]; WorstGrade := "A" |}])) = false.
Proof.
  split; [by vm_compute|]. refine (proj2 (intermediate_without_tls13 _ _ eq_refl _)).
  intros ce [<-|[]]. split; [done|]. intros ci [<-|[<-|[]]]; (split; [|by vm_compute]); vm_compute; tauto.
Defined.
