(* ===== verification/Tls13Record.v ===== *)
(** The TLS 1.3 key schedule and record protection of the 0-RTT probe:
    [tls13_keysched.go] and [tls13_record.go]. *)

From Stdlib Require Import ZArith List String Ascii Strings.Byte Lia Bool.
From stdpp Require Import base list strings numbers.
From S2P Require Import Prelude Bytes GoStrings Digest Stream Extensions Flight ServerHello Tls13Hello.
Open Scope Z_scope.

(** ** HKDF-Expand: the reader of [golang.org/x/crypto/hkdf]

    [hkdfRead secret info n] is [n] bytes read from [hkdf.Expand(sha256.New,
    secret, info)]; the read fails past 255 blocks of 32 bytes (RFC 5869). *)
Class HkdfExpand := {
  hkdfRead : bytes -> bytes -> Z -> option bytes;
  hkdfRead_ok : forall secret info n, 0 <= n <= 8160 ->
    exists b, hkdfRead secret info n = Some b /\ blen b = n
}.

(** ** AES-128-GCM: [crypto/aes] with [cipher.NewGCM]

    [newAEAD] fails on a key of a size AES does not have.  [aeadOpen] gives
    [None] when the tag does not verify. *)
Class Aead (K : Type) := {
  newAEAD : bytes -> outcome K;
  aeadSeal : K -> bytes -> bytes -> bytes -> bytes;
  aeadOpen : K -> bytes -> bytes -> bytes -> option bytes;
  newAEAD_safe : forall key, safe (newAEAD key);
  newAEAD_16 : forall key, blen key = 16 -> exists k, newAEAD key = Ret k;
  aeadSeal_length : forall k nonce pt aad, blen (aeadSeal k nonce pt aad) = blen pt + 16;
  aeadOpen_seal : forall k nonce pt aad, aeadOpen k nonce (aeadSeal k nonce pt aad) aad = Some pt
}.
Definition aeadOverhead : Z := 16.

(** ** Key schedule *)

Section KeySchedule.
Context `{HkdfExpand}.

(** The HkdfLabel structure. *)
Definition hkdfLabelBytes (label : string) (context : bytes) (length : Z) : bytes :=
  let hkdfLabel := putBE16 (u16 length) in
  let full := ofString ("tls13 " +:+ label) in
  let hkdfLabel := hkdfLabel ++ [byteOf (blen full)] in
  let hkdfLabel := hkdfLabel ++ full in
  let hkdfLabel := hkdfLabel ++ [byteOf (blen context)] in
  hkdfLabel ++ context.

Definition hkdfExpandLabel (secret : bytes) (label : string) (context : bytes) (length : Z) : bytes :=
  match hkdfRead secret (hkdfLabelBytes label context length) length with
  | Some out => out
  | None => []
  end.

Definition deriveSecret (secret : bytes) (label : string) (messages : bytes) : bytes :=
  hkdfExpandLabel secret label (sha256 messages) sha256_Size.

Definition deriveSecretFromHash (secret : bytes) (label : string) (transcriptHash : bytes) : bytes :=
  hkdfExpandLabel secret label transcriptHash sha256_Size.

(** A [nil] salt or ikm stands for 32 zero bytes. *)
Definition hkdfExtract (salt ikm : option bytes) : bytes :=
  let zero := repeat x00 32 in
  hmacSha256 (default zero salt) (default zero ikm).

Record tls13KeySchedule := {
  earlySecret : bytes;
  handshakeSecret : bytes;
  masterSecret : bytes;
  clientHandshakeTraffic : bytes;
  serverHandshakeTraffic : bytes;
  clientApplicationTraffic : bytes;
  serverApplicationTraffic : bytes
}.

Definition newTLS13KeySchedule : tls13KeySchedule :=
  let zero := repeat x00 32 in
  {| earlySecret := hkdfExtract (Some zero) (Some zero);
     handshakeSecret := []; masterSecret := []; clientHandshakeTraffic := [];
     serverHandshakeTraffic := []; clientApplicationTraffic := [];
     serverApplicationTraffic := [] |}.

Definition emptyHashSHA256 : bytes := sha256 [].

Definition deriveHandshakeSecret (s : tls13KeySchedule) (ecdheShared transcriptHashCHSH : bytes)
    : tls13KeySchedule :=
  let derived := hkdfExpandLabel (earlySecret s) "derived" emptyHashSHA256 sha256_Size in
  let hs := hkdfExtract (Some derived) (Some ecdheShared) in
  {| earlySecret := earlySecret s;
     handshakeSecret := hs;
     masterSecret := masterSecret s;
     clientHandshakeTraffic := deriveSecretFromHash hs "c hs traffic" transcriptHashCHSH;
     serverHandshakeTraffic := deriveSecretFromHash hs "s hs traffic" transcriptHashCHSH;
     clientApplicationTraffic := clientApplicationTraffic s;
     serverApplicationTraffic := serverApplicationTraffic s |}.

Definition deriveMasterSecret (s : tls13KeySchedule) (th : bytes) : tls13KeySchedule :=
  let zero := repeat x00 32 in
  let derived := hkdfExpandLabel (handshakeSecret s) "derived" emptyHashSHA256 sha256_Size in
  let ms := hkdfExtract (Some derived) (Some zero) in
  {| earlySecret := earlySecret s;
     handshakeSecret := handshakeSecret s;
     masterSecret := ms;
     clientHandshakeTraffic := clientHandshakeTraffic s;
     serverHandshakeTraffic := serverHandshakeTraffic s;
     clientApplicationTraffic := deriveSecretFromHash ms "c ap traffic" th;
     serverApplicationTraffic := deriveSecretFromHash ms "s ap traffic" th |}.

Definition finishedVerifyData13 (trafficSecret transcriptHash : bytes) : bytes :=
  let finishedKey := hkdfExpandLabel trafficSecret "finished" [] sha256_Size in
  hmacSha256 finishedKey transcriptHash.

Definition recordKeys (trafficSecret : bytes) : bytes * bytes :=
  (hkdfExpandLabel trafficSecret "key" [] 16, hkdfExpandLabel trafficSecret "iv" [] 12).
End KeySchedule.

(** ** Record protection *)

Section Record.
Context `{HkdfExpand} {K : Type} `{Aead K}.

Record recordProtector := {
  rpKey : bytes;
  rpIv : bytes;
  rpAead : K;
  rpSeq : Z
}.

Definition newRecordProtector (trafficSecret : bytes) : outcome recordProtector :=
  let '(key, iv) := recordKeys trafficSecret in
  aead <~ newAEAD key ;;
  Ret {| rpKey := key; rpIv := iv; rpAead := aead; rpSeq := 0 |}.

(** [r.seq++] on a [uint64] *)
Definition bumpSeq (r : recordProtector) : recordProtector :=
  {| rpKey := rpKey r; rpIv := rpIv r; rpAead := rpAead r; rpSeq := u64 (rpSeq r + 1) |}.

(** [copy(dst, src)] into [n] zero bytes *)
Definition copyZero (n : nat) (src : bytes) : bytes :=
  take n src ++ repeat x00 (n - length src).

Definition computeNonce (r : recordProtector) : bytes :=
  let nonce := copyZero 12 (rpIv r) in
  take 4 nonce ++ beBytes 8 (Z.lxor (beWord (drop 4 nonce)) (rpSeq r)).

(** The scan from the end for the inner content type. *)
Fixpoint stripPadding (i : nat) (pt : bytes) : outcome (bytes * byte) :=
  match i with
  | O => Err "tls13 record: empty inner plaintext"
  | S n =>
      b <~ index pt (Z.of_nat n) ;;
      if negb (beq b x00) then
        p <~ slice pt 0 (Z.of_nat n) ;; Ret (p, b)
      else stripPadding n pt
  end.

(** [r.open(record)]: the protector with its new counter, and the result. *)
Definition open (r : recordProtector) (record : bytes) : recordProtector * outcome (bytes * byte) :=
  let decrypt : outcome bytes :=
    guard blen record <? 5 orelse "tls13 record: too short for header" ;;
    headerType <~ index record 0 ;;
    guard negb (beq headerType recordApplicationData)
      orelse "tls13 record: outer type not application_data" ;;
    lb <~ slice record 3 5 ;;
    cipherLen <~ BE_Uint16 lb ;;
    guard negb (5 + cipherLen =? blen record) orelse "tls13 record: cipher length mismatch" ;;
    guard cipherLen <? aeadOverhead orelse "tls13 record: ciphertext shorter than AEAD tag" ;;
    aad <~ slice record 0 5 ;;
    ct <~ sliceFrom record 5 ;;
    match aeadOpen (rpAead r) (computeNonce r) ct aad with
    | Some pt => Ret pt
    | None => Err "cipher: message authentication failed"
    end in
  match decrypt with
  | Ret pt => (bumpSeq r, stripPadding (length pt) pt)
  | Err e => (r, Err e)
  | Panic => (r, Panic)
  | NoFuel => (r, NoFuel)
  end.

(** [r.seal(plaintext, innerType)] *)
Definition seal (r : recordProtector) (plaintext : bytes) (innerType : byte) : recordProtector * bytes :=
  let inner := plaintext ++ [innerType] in
  let cipherLen := blen inner + aeadOverhead in
  let header := [recordApplicationData; x03; x03] ++ putBE16 (u16 cipherLen) in
  let out := header ++ aeadSeal (rpAead r) (computeNonce r) inner header in
  (bumpSeq r, out).
End Record.
Arguments recordProtector K : clear implicits.

(** ** Properties of record protection *)

Lemma stripPadding_zeros content ty n :
  ty <> x00 ->
  stripPadding (length (content ++ [ty] ++ repeat x00 n)) (content ++ [ty] ++ repeat x00 n)
  = Ret (content, ty).
Proof.
  intros Hty. set (pt := content ++ [ty] ++ repeat x00 n).
  assert (Hstep : forall m, (m <= n)%nat ->
    stripPadding (length content + 1 + m) pt = Ret (content, ty)).
  { induction m as [|m IH]; intros Hm.
    - rewrite Nat.add_0_r, Nat.add_1_r. cbn [stripPadding].
      rewrite (read_index pt content ty (repeat x00 n)) by done. cbn [bind].
      destruct (beq ty x00) eqn:E; [by apply beq_true in E|]. cbn [negb].
      rewrite (read_slice pt [] content ([ty] ++ repeat x00 n)) by done. done.
    - rewrite Nat.add_succ_r. cbn [stripPadding].
      rewrite (read_index pt (content ++ [ty] ++ repeat x00 m) x00 (repeat x00 (n - S m))).
      + cbn [bind]. change (beq x00 x00) with true. cbn [negb]. apply IH. lia.
      + unfold pt. rewrite <- !app_assoc. do 2 f_equal.
        change (x00 :: repeat x00 (n - S m)) with (repeat x00 (S (n - S m))).
        rewrite <- repeat_app. f_equal. lia.
      + unfold blen. rewrite !length_app, repeat_length. cbn. lia. }
  rewrite <- (Hstep n) by lia. f_equal. unfold pt. rewrite !length_app, repeat_length. cbn. lia.
Qed.

Lemma wp_stripPadding i pt :
  (i <= length pt)%nat -> wp (stripPadding i pt) (fun r => snd r <> x00) (fun _ => True).
Proof.
  induction i as [|i IH]; intros Hi; cbn [stripPadding]; [done|].
  wp_step. apply wp_index; [unfold blen; lia|]. intros b _.
  destruct (beq b x00) eqn:E; cbn [negb]; [apply IH; lia|].
  wp_step. apply wp_slice; [lia|lia|unfold blen; lia|]. intros _. cbn.
  intros ->. by rewrite beq_refl in E.
Qed.

Section Props.
Context `{HkdfExpand} {K : Type} `{Aead K}.

(** Two protectors of one direction: the writer's and the reader's. *)
Definition inSync (w r : recordProtector K) : Prop :=
  rpIv w = rpIv r /\ rpAead w = rpAead r /\ rpSeq w = rpSeq r.

Lemma inSync_bump w r : inSync w r -> inSync (bumpSeq w) (bumpSeq r).
Proof. intros (? & ? & Hs). unfold inSync, bumpSeq. cbn. by rewrite Hs. Qed.

Lemma inSync_nonce w r : inSync w r -> computeNonce w = computeNonce r.
Proof. intros (Hi & _ & Hs). unfold computeNonce. by rewrite Hi, Hs. Qed.

Lemma seal_length w pt ty : blen (snd (seal w pt ty)) = 5 + blen pt + 1 + 16.
Proof.
  unfold seal. cbn [snd]. rewrite blen_app, aeadSeal_length. autorewrite with blen. lia.
Qed.

(** A sealed record opens to its plaintext and inner type at the other end. *)
Lemma open_seal w r pt ty :
  inSync w r -> ty <> x00 -> blen pt + 17 < 65536 ->
  open r (snd (seal w pt ty)) = (bumpSeq r, Ret (pt, ty)).
Proof.
  intros Hsync Hty Hl. pose proof (blen_nonneg pt).
  pose proof (inSync_nonce w r Hsync) as Hnonce. destruct Hsync as (_ & Haead & _).
  pose proof (seal_length w pt ty) as Hlen.
  unfold seal in *. cbn [snd] in *. rewrite Hnonce, Haead in *.
  assert (Hc : blen (pt ++ [ty]) + aeadOverhead = blen pt + 17)
    by (unfold aeadOverhead; autorewrite with blen; lia).
  rewrite Hc in *. rewrite u16_small in * by lia.
  set (hdr := [recordApplicationData; x03; x03] ++ putBE16 (blen pt + 17)) in *.
  set (ct := aeadSeal (rpAead r) (computeNonce r) (pt ++ [ty]) hdr) in *.
  unfold open, errWhen. rewrite Hlen, (proj2 (Z.ltb_ge _ _)) by lia.
  rewrite (read_index (hdr ++ ct) [] recordApplicationData
    ([x03; x03] ++ putBE16 (blen pt + 17) ++ ct)) by done.
  cbn [bind]. change (negb (beq recordApplicationData recordApplicationData)) with false. cbn iota.
  rewrite (read_slice (hdr ++ ct) [recordApplicationData; x03; x03]
    (putBE16 (blen pt + 17)) ct) by done.
  cbn [bind]. rewrite <- (app_nil_r (putBE16 (blen pt + 17))), BE_Uint16_put. cbn [bind].
  rewrite u16_small by lia.
  rewrite (proj2 (Z.eqb_eq (5 + (blen pt + 17)) _)) by lia. cbn [negb].
  rewrite (proj2 (Z.ltb_ge (blen pt + 17) _)) by (unfold aeadOverhead; lia).
  rewrite (read_slice (hdr ++ ct) [] hdr ct), (read_from (hdr ++ ct) hdr ct) by done.
  cbn [bind]. unfold ct. rewrite aeadOpen_seal. cbn [bind].
  by rewrite <- (stripPadding_zeros pt ty 0).
Qed.

(** Sealing a sequence of messages one after the other. *)
Fixpoint sealAll (w : recordProtector K) (ms : list (bytes * byte)) : list bytes :=
  match ms with
  | [] => []
  | (pt, ty) :: ms => let '(w', rec) := seal w pt ty in rec :: sealAll w' ms
  end.
Fixpoint openAll (r : recordProtector K) (recs : list bytes) : list (outcome (bytes * byte)) :=
  match recs with
  | [] => []
  | rec :: recs => let '(r', m) := open r rec in m :: openAll r' recs
  end.

Lemma openAll_sealAll w r ms :
  inSync w r -> Forall (fun m => snd m <> x00 /\ blen (fst m) + 17 < 65536) ms ->
  openAll r (sealAll w ms) = map Ret ms.
Proof.
  intros Hs Hm. revert w r Hs. induction Hm as [|[pt ty] ms [Hty Hl] _ IH]; intros w r Hs; [done|].
  cbn [sealAll]. destruct (seal w pt ty) as [w' rec] eqn:E. cbn [openAll map].
  assert (Hrec : rec = snd (seal w pt ty)) by (by rewrite E). rewrite Hrec, open_seal by done.
  f_equal. apply IH. replace w' with (bumpSeq w) by (unfold seal in E; by injection E).
  by apply inSync_bump.
Qed.

(** Opening never panics, and moves the counter exactly when a record
    authenticates. *)
Lemma open_spec r record :
  safe (snd (open r record)) /\
  (fst (open r record) = bumpSeq r /\
     (exists pt, aeadOpen (rpAead r) (computeNonce r) (sub record 5 (blen record - 5))
                          (sub record 0 5) = Some pt)
   \/ fst (open r record) = r /\ exists e, snd (open r record) = Err e).
Proof.
  unfold open.
  match goal with |- context [match ?c with Ret _ => _ | _ => _ end] => set (decrypt := c) end.
  assert (Hd : wp decrypt (fun pt => aeadOpen (rpAead r) (computeNonce r)
      (sub record 5 (blen record - 5)) (sub record 0 5) = Some pt) (fun _ => True)).
  { unfold decrypt. wp_run; auto. }
  destruct decrypt as [pt|e| |]; cbn [fst snd]; try done.
  - split; [|left; split; eauto].
    eapply safe_wp, wp_stripPadding. lia.
  - split; [done|]. right. eauto.
Qed.
End Props.

(** *** Nonces *)

Lemma beWord_app a b : beWord (a ++ b) = beWord a * 256 ^ blen b + beWord b.
Proof.
  unfold beWord. rewrite foldl_app.
  assert (Hg : forall l acc, foldl (fun acc x => acc * 256 + bval x) acc l
    = acc * 256 ^ blen l + foldl (fun acc x => acc * 256 + bval x) 0 l).
  { induction l as [|x l IH] using rev_ind; intros acc; cbn [foldl].
    - rewrite blen_nil. cbn. lia.
    - rewrite !foldl_app. cbn [foldl]. rewrite IH.
      rewrite blen_app. change (blen [x]) with 1.
      pose proof (blen_nonneg l). rewrite Z.pow_add_r by lia. lia. }
  apply Hg.
Qed.

Lemma beWord_range b : 0 <= beWord b < 256 ^ blen b.
Proof.
  induction b as [|x b IH] using rev_ind; [done|].
  rewrite beWord_app, blen_app. change (blen [x]) with 1. change (beWord [x]) with (bval x).
  pose proof (bval_range x). pose proof (blen_nonneg b). rewrite Z.pow_add_r by lia. lia.
Qed.

Lemma beBytes_S n v : beBytes (S n) v = byteOf (Z.shiftr v (8 * Z.of_nat n)) :: beBytes n v.
Proof. unfold beBytes. rewrite seq_S, rev_app_distr. done. Qed.

(** Writing a number that fits and reading it gives it back. *)
Lemma beWord_beBytes n v : 0 <= v -> beWord (beBytes n v) = v mod 256 ^ Z.of_nat n.
Proof.
  intros Hv. induction n as [|n IH]; [by rewrite Z.mod_1_r|].
  rewrite beBytes_S. change (byteOf ?b :: ?l) with ([byteOf b] ++ l). rewrite beWord_app, IH.
  unfold blen. rewrite length_beBytes. change (beWord [byteOf ?b]) with (bval (byteOf b)).
  rewrite bval_byteOf, Z.shiftr_div_pow2 by lia.
  replace (2 ^ (8 * Z.of_nat n)) with (256 ^ Z.of_nat n)
    by (rewrite Z.pow_mul_r by lia; done).
  rewrite Nat2Z.inj_succ, Z.pow_succ_r by lia.
  rewrite (Z.mul_comm 256), Z.rem_mul_r by (try apply Z.pow_nonzero; lia). lia.
Qed.

Lemma lxor_range n a b : 0 <= n -> 0 <= a < 2 ^ n -> 0 <= b < 2 ^ n -> 0 <= Z.lxor a b < 2 ^ n.
Proof.
  intros Hn Ha Hb. assert (H0 : 0 <= Z.lxor a b) by (apply Z.lxor_nonneg; lia).
  split; [done|]. destruct (Z.eq_dec (Z.lxor a b) 0) as [->|Hne]; [lia|].
  apply Z.log2_lt_pow2; [lia|].
  pose proof (Z.log2_lxor a b ltac:(lia) ltac:(lia)) as Hl.
  assert (Hlt : forall x, 0 <= x < 2 ^ n -> x <> 0 -> Z.log2 x < n)
    by (intros x Hx Hx0; apply Z.log2_lt_pow2; lia).
  destruct (Z.eq_dec a 0) as [->|Hna].
  { rewrite Z.lxor_0_l in *. by apply Hlt. }
  destruct (Z.eq_dec b 0) as [->|Hnb].
  { rewrite Z.lxor_0_r in *. by apply Hlt. }
  pose proof (Hlt a Ha Hna). pose proof (Hlt b Hb Hnb). lia.
Qed.

(** Different counters give different nonces. *)
Lemma computeNonce_inj {K} (r1 r2 : recordProtector K) :
  rpIv r1 = rpIv r2 ->
  0 <= rpSeq r1 < 2 ^ 64 -> 0 <= rpSeq r2 < 2 ^ 64 ->
  computeNonce r1 = computeNonce r2 -> rpSeq r1 = rpSeq r2.
Proof.
  intros Hiv Hs1 Hs2. unfold computeNonce. rewrite Hiv.
  set (nonce := copyZero 12 (rpIv r2)). intros Heq. apply app_inv_head in Heq.
  assert (Hlen : blen (drop 4 nonce) = 8).
  { unfold nonce, copyZero, blen. rewrite length_drop, length_app, length_take, repeat_length. lia. }
  pose proof (beWord_range (drop 4 nonce)) as Hw. rewrite Hlen in Hw.
  change (256 ^ 8) with (2 ^ 64) in Hw.
  pose proof (lxor_range 64 _ _ ltac:(lia) Hw Hs1) as H1.
  pose proof (lxor_range 64 _ _ ltac:(lia) Hw Hs2) as H2.
  apply (f_equal beWord) in Heq.
  rewrite !beWord_beBytes in Heq by lia.
  change (256 ^ Z.of_nat 8) with (2 ^ 64) in Heq. rewrite !Z.mod_small in Heq by lia.
  apply (f_equal (Z.lxor (beWord (drop 4 nonce)))) in Heq.
  by rewrite <- !Z.lxor_assoc, Z.lxor_nilpotent, !Z.lxor_0_l in Heq.
Qed.

(** ** Concrete instances, for evaluation

    HKDF-Expand as RFC 5869 defines it over HMAC-SHA256, and a stand-in for
    AES-GCM that keeps the plaintext and appends a 16-byte hash of key, nonce,
    additional data and plaintext: it has the documented laws and computes. *)

Module Concrete.
Fixpoint hkdfBlocks (prk info prev : bytes) (i n : nat) : bytes :=
  match n with
  | O => []
  | S n' =>
      let t := hmacSha256 prk (prev ++ info ++ [byteOf (Z.of_nat i)]) in
      t ++ hkdfBlocks prk info t (S i) n'
  end.

Lemma blen_hkdfBlocks prk info prev i n : blen (hkdfBlocks prk info prev i n) = 32 * Z.of_nat n.
Proof.
  revert prev i. induction n as [|n IH]; intros prev i; cbn [hkdfBlocks]; [done|].
  rewrite blen_app, blen_hmacSha256, IH. lia.
Qed.

Definition hkdfRead5869 (prk info : bytes) (n : Z) : option bytes :=
  if n <=? 8160
  then Some (take (Z.to_nat n) (hkdfBlocks prk info [] 1 (S (Z.to_nat (n / 32)))))
  else None.

#[export] Program Instance hkdf5869 : HkdfExpand := {| hkdfRead := hkdfRead5869 |}.
Next Obligation.
  intros prk info n Hn. unfold hkdfRead5869. rewrite (proj2 (Z.leb_le _ _)) by lia.
  eexists. split; [done|]. rewrite blen_take; [done|]. rewrite blen_hkdfBlocks.
  pose proof (Z.div_mod n 32 ltac:(lia)). pose proof (Z.mod_pos_bound n 32 ltac:(lia)).
  rewrite Nat2Z.inj_succ, Z2Nat.id by (apply Z.div_pos; lia). lia.
Qed.

Definition tag (k nonce aad pt : bytes) : bytes := take 16 (sha256 (k ++ nonce ++ aad ++ pt)).

Lemma length_tag k nonce aad pt : length (tag k nonce aad pt) = 16%nat.
Proof.
  unfold tag. rewrite length_take. pose proof (blen_sha256 (k ++ nonce ++ aad ++ pt)) as H.
  unfold blen in H. lia.
Qed.

Definition plainSeal (k nonce pt aad : bytes) : bytes := pt ++ tag k nonce aad pt.
Definition plainOpen (k nonce ct aad : bytes) : option bytes :=
  let n := (length ct - 16)%nat in
  let pt := take n ct in
  if bool_decide (drop n ct = tag k nonce aad pt) then Some pt else None.

#[export] Program Instance plainAead : Aead bytes := {|
  newAEAD key :=
    if (blen key =? 16) || (blen key =? 24) || (blen key =? 32) then Ret key
    else Err "crypto/aes: invalid key size";
  aeadSeal := plainSeal;
  aeadOpen := plainOpen
|}.
Next Obligation. intros key. unfold safe. wp_run; done. Qed.
Next Obligation.
  intros key Hk. cbn beta. rewrite Hk. eauto.
Qed.
Next Obligation.
  intros. unfold plainSeal. rewrite blen_app. unfold blen at 2. by rewrite length_tag.
Qed.
Next Obligation.
  intros. unfold plainOpen, plainSeal. rewrite length_app, length_tag.
  replace (length pt + 16 - 16)%nat with (length pt) by lia.
  rewrite take_app_length, drop_app_length. by rewrite bool_decide_true.
Qed.
End Concrete.

(** *** Test vectors of RFC 8448, section 3 *)

Definition hexBytes (l : list Z) : bytes := map byteOf l.

Section Rfc8448.
Import Concrete.

Let ecdhe : bytes := hexBytes [
  0x8b; 0xd4; 0x05; 0x4f; 0xb5; 0x5b; 0x9d; 0x63; 0xfd; 0xfb; 0xac; 0xf9; 0xf0; 0x4b; 0x9f; 0x0d;
  0x35; 0xe6; 0xd6; 0x3f; 0x53; 0x75; 0x63; 0xef; 0xd4; 0x62; 0x72; 0x90; 0x0f; 0x89; 0x49; 0x2d].
Let thCHSH : bytes := hexBytes [
  0x86; 0x0c; 0x06; 0xed; 0xc0; 0x78; 0x58; 0xee; 0x8e; 0x78; 0xf0; 0xe7; 0x42; 0x8c; 0x58; 0xed;
  0xd6; 0xb4; 0x3f; 0x2c; 0xa3; 0xe6; 0xe9; 0x5f; 0x02; 0xed; 0x06; 0x3c; 0xf0; 0xe1; 0xca; 0xd8].
Let ks : tls13KeySchedule := deriveHandshakeSecret newTLS13KeySchedule ecdhe thCHSH.

Example rfc8448_early :
  hexEncode (earlySecret ks) = "33ad0a1c607ec03b09e6cd9893680ce210adf300aa1f2660e1b22e10f170f92a"%string.
Proof. vm_compute. reflexivity. Qed.

Example rfc8448_handshake :
  hexEncode (handshakeSecret ks)
  = "1dc826e93606aa6fdc0aadc12f741b01046aa6b99f691ed221a9f0ca043fbeac"%string.
Proof. vm_compute. reflexivity. Qed.

Example rfc8448_traffic :
  (hexEncode (clientHandshakeTraffic ks), hexEncode (serverHandshakeTraffic ks))
  = ("b3eddb126e067f35a780b3abf45e2d8f3b1a950738f52e9600746a0e27a55a21"%string,
     "b67b7d690cc16c4e75e54213cb2d37b4e9c912bcded9105d42befd59d391ad38"%string).
Proof. vm_compute. reflexivity. Qed.

Example rfc8448_server_keys :
  (hexEncode (fst (recordKeys (serverHandshakeTraffic ks))),
   hexEncode (snd (recordKeys (serverHandshakeTraffic ks))))
  = ("3fce516009c21727d0f2e4e86ee403bc"%string, "5d313eb2671276ee13000b30"%string).
Proof. vm_compute. reflexivity. Qed.
End Rfc8448.

(** ** Claims about record protection *)

Lemma rpSeq_iter {K} (r : recordProtector K) n :
  0 <= rpSeq r < 2 ^ 64 -> rpSeq (Nat.iter n bumpSeq r) = (rpSeq r + Z.of_nat n) mod 2 ^ 64.
Proof.
  intros Hr. induction n as [|n IH]; [change (rpSeq r = (rpSeq r + 0) mod 2 ^ 64); rewrite Z.mod_small; lia|].
  change (rpSeq (bumpSeq (Nat.iter n bumpSeq r)) = (rpSeq r + Z.of_nat (S n)) mod 2 ^ 64).
  unfold bumpSeq at 1. cbn [rpSeq]. rewrite IH. unfold u64.
  change 18446744073709551616 with (2 ^ 64). rewrite Zplus_mod_idemp_l. f_equal. lia.
Qed.

Lemma rpIv_iter {K} (r : recordProtector K) n : rpIv (Nat.iter n bumpSeq r) = rpIv r.
Proof. induction n as [|n IH]; [done|]. by rewrite <- IH. Qed.

(** C4. What one side seals the other side opens: any sequence of messages
    sealed by a [recordProtector] is read back, contents and inner types, by a
    protector with the same keys that starts at the same counter. *)
Theorem records_roundtrip `{HkdfExpand} {K} `{Aead K} (w r : recordProtector K) ms :
  inSync w r -> Forall (fun m => snd m <> x00 /\ blen (fst m) + 17 < 65536) ms ->
  openAll r (sealAll w ms) = map Ret ms.
Proof. apply openAll_sealAll. Qed.

(** [open] never panics, whatever record it is given, and the sequence number
    advances exactly when the record authenticates under the current nonce with
    its first five bytes as additional data: a forged record gives an error and
    leaves the protector able to read the genuine one. *)
Theorem open_total `{HkdfExpand} {K} `{Aead K} (r : recordProtector K) record :
  safe (snd (open r record)) /\
  (fst (open r record) = bumpSeq r /\
     (exists pt, aeadOpen (rpAead r) (computeNonce r) (sub record 5 (blen record - 5))
                          (sub record 0 5) = Some pt)
   \/ fst (open r record) = r /\ exists e, snd (open r record) = Err e).
Proof. apply open_spec. Qed.

(** The nonce of the record number [n] (RFC 8446, section 5.3): the IV xored with the
    number, written as 64 bits behind four zero bytes. *)
Definition xorByte (a b : byte) : byte := byteOf (Z.lxor (bval a) (bval b)).
Definition rfcNonce (iv : bytes) (n : Z) : bytes := zip_with xorByte iv (repeat x00 4 ++ beBytes 8 n).

Lemma byteOf_lxor a b : byteOf (Z.lxor a b) = xorByte (byteOf a) (byteOf b).
Proof.
  unfold xorByte. apply bval_inj. rewrite !bval_byteOf. apply Z.bits_inj'. intros k Hk.
  change 256 with (2 ^ 8). rewrite <- !Z.land_ones by lia. rewrite !Z.land_spec, !Z.lxor_spec, !Z.land_spec.
  by destruct (Z.testbit a k), (Z.testbit b k), (Z.testbit (Z.ones 8) k).
Qed.

Lemma beBytes_lxor n v w : beBytes n (Z.lxor v w) = zip_with xorByte (beBytes n v) (beBytes n w).
Proof.
  unfold beBytes. induction (rev (seq 0 n)) as [|i l IH]; [done|]. cbn [map zip_with]. rewrite IH, Z.shiftr_lxor. by rewrite byteOf_lxor.
Qed.

(** Reading bytes as a number and writing it gives them back. *)
Lemma beBytes_high n x w : beBytes n (x * 256 ^ Z.of_nat n + w) = beBytes n w.
Proof.
  unfold beBytes. apply map_ext_in. intros i Hi%in_rev%in_seq. apply bval_inj. rewrite !bval_byteOf, !Z.shiftr_div_pow2 by lia.
  replace (256 ^ Z.of_nat n) with (256 * 256 ^ (Z.of_nat n - Z.of_nat i - 1) * 2 ^ (8 * Z.of_nat i)).
  - replace (x * (256 * 256 ^ (Z.of_nat n - Z.of_nat i - 1) * 2 ^ (8 * Z.of_nat i)) + w)
      with (x * 256 ^ (Z.of_nat n - Z.of_nat i - 1) * 256 * 2 ^ (8 * Z.of_nat i) + w) by lia.
    rewrite Z.div_add_l by (apply Z.pow_nonzero; lia). rewrite Z.add_comm, Z.mod_add by lia. done.
  - rewrite Z.pow_mul_r by lia. change (2 ^ 8) with 256. rewrite <- Z.pow_succ_r, <- Z.pow_add_r by lia. f_equal. lia.
Qed.

Lemma beBytes_beWord b : beBytes (length b) (beWord b) = b.
Proof.
  induction b as [|x b IH]; [done|]. cbn [length]. rewrite beBytes_S. change (x :: b) with ([x] ++ b). rewrite beWord_app.
  change (beWord [x]) with (bval x). change (blen b) with (Z.of_nat (length b)).
  rewrite beBytes_high, IH. cbn [app]. f_equal. apply bval_inj. rewrite bval_byteOf, Z.shiftr_div_pow2 by lia.
  replace (2 ^ (8 * Z.of_nat (length b))) with (256 ^ Z.of_nat (length b)) by (rewrite Z.pow_mul_r by lia; done).
  pose proof (beWord_range b) as Hb. unfold blen in Hb. rewrite Z.div_add_l by lia. rewrite (Z.div_small (beWord b)) by lia.
  pose proof (bval_range x). rewrite Z.mod_small; lia.
Qed.

Lemma computeNonce_rfc {K} (r : recordProtector K) : blen (rpIv r) = 12 -> computeNonce r = rfcNonce (rpIv r) (rpSeq r).
Proof.
  intros Hiv. unfold computeNonce, rfcNonce, copyZero. assert (Hl : length (rpIv r) = 12%nat) by (unfold blen in Hiv; lia).
  rewrite Hl, (take_ge (rpIv r) 12) by lia. change (repeat x00 (12 - 12)) with (@nil byte). rewrite app_nil_r, beBytes_lxor.
  replace (beBytes 8 (beWord (drop 4 (rpIv r)))) with (drop 4 (rpIv r)).
  2:{ rewrite <- (beBytes_beWord (drop 4 (rpIv r))) at 1. by rewrite length_drop, Hl. }
  rewrite <- (take_drop 4 (rpIv r)) at 3. rewrite zip_with_app by (rewrite length_take, repeat_length; lia). f_equal.
  assert (Hz : forall l : bytes, l = zip_with xorByte l (repeat x00 (length l))).
  { induction l as [|x l IH]; [done|]. cbn [length repeat zip_with]. rewrite <- IH. f_equal. unfold xorByte.
    change (bval x00) with 0. by rewrite Z.lxor_0_r, byteOf_bval. }
  rewrite (Hz (take 4 (rpIv r))) at 1. by rewrite length_take, Hl.
Qed.

(** One record as [seal] writes it, under a nonce *)
Definition sealedWith `{HkdfExpand} {K} `{Aead K} (k : K) (m : bytes * byte) (nonce : bytes) : bytes :=
  let header := [recordApplicationData; x03; x03] ++ putBE16 (u16 (blen (fst m) + 17)) in
  header ++ aeadSeal k nonce (fst m ++ [snd m]) header.

Lemma sealAll_nonces `{HkdfExpand} {K} `{Aead K} ms : forall w : recordProtector K,
  blen (rpIv w) = 12 -> 0 <= rpSeq w -> rpSeq w + Z.of_nat (length ms) <= 2 ^ 64 ->
  sealAll w ms = zip_with (sealedWith (rpAead w)) ms (map (fun i => rfcNonce (rpIv w) (rpSeq w + Z.of_nat i)) (seq 0 (length ms))).
Proof.
  induction ms as [|[pt ty] ms IH]; intros w Hiv Hpos Hn; [done|]. cbn [length] in Hn. cbn [sealAll seal length seq map zip_with].
  f_equal.
  - unfold sealedWith. cbn [fst snd]. rewrite computeNonce_rfc, Z.add_0_r by done. rewrite blen_app. unfold aeadOverhead.
    change (blen [ty]) with 1. by replace (blen pt + 1 + 16) with (blen pt + 17) by lia.
  - destruct ms as [|m ms]; [done|]. cbn [length] in Hn. rewrite IH; unfold bumpSeq; cbn [rpIv rpSeq rpAead].
    + unfold u64. change 18446744073709551616 with (2 ^ 64). rewrite Z.mod_small by lia.
      f_equal. rewrite <- (seq_shift _ 0), map_map. apply map_ext. intros i. f_equal. lia.
    + done.
    + unfold u64. apply Z.mod_pos_bound. lia.
    + unfold u64. change 18446744073709551616 with (2 ^ 64). rewrite Z.mod_small by lia. cbn [length]. lia.
Qed.

(** C5. No two records are sealed under the same nonce: from a fresh protector, the
    records that [seal] writes for any sequence of messages carry in turn the nonces
    that RFC 8446 gives to the numbers 0, 1, 2, ... of the records, and as long as there
    are at most 2^64 of them these nonces are all different. *)
Theorem nonces_distinct `{HkdfExpand} {K} `{Aead K} (w : recordProtector K) ms :
  rpSeq w = 0 -> blen (rpIv w) = 12 -> Z.of_nat (length ms) <= 2 ^ 64 ->
  let nonces := map (fun i => rfcNonce (rpIv w) (Z.of_nat i)) (seq 0 (length ms)) in
  sealAll w ms = zip_with (sealedWith (rpAead w)) ms nonces /\ NoDup nonces.
Proof.
  intros Hw Hiv Hn nonces. split.
  - rewrite sealAll_nonces by (rewrite ?Hw; done || lia). by rewrite Hw.
  - apply (NoDup_fmap_2_strong (fun i => rfcNonce (rpIv w) (Z.of_nat i))); [|apply NoDup_seq].
    intros i j Hi%list_elem_of_In%in_seq Hj%list_elem_of_In%in_seq Heq.
    set (at_ n := {| rpKey := rpKey w; rpIv := rpIv w; rpAead := rpAead w; rpSeq := n |}).
    assert (Hs : rpSeq (at_ (Z.of_nat i)) = rpSeq (at_ (Z.of_nat j))); [|cbn in Hs; lia].
    apply computeNonce_inj; cbn [rpIv rpSeq at_]; [done|lia..|].
    by rewrite !computeNonce_rfc by done.
Qed.

Module RecordWitnesses.
Import Concrete.

Definition fresh : recordProtector bytes :=
  {| rpKey := repeat x11 16; rpIv := repeat x22 12; rpAead := repeat x11 16; rpSeq := 0 |}.

Lemma records_roundtrip_witness :
  openAll fresh (sealAll fresh [([x01; x02], x16); ([], x17); ([x00], x15)])
  = [Ret ([x01; x02], x16); Ret ([], x17); Ret ([x00], x15)].
Proof.
  apply (records_roundtrip fresh fresh [([x01; x02], x16); ([], x17); ([x00], x15)]); [done|].
  repeat constructor; cbn [fst snd]; (discriminate || by vm_compute).
Defined.

Lemma nonces_distinct_witness :
  NoDup (map (fun i => rfcNonce (repeat x22 12) (Z.of_nat i)) (seq 0 3))
  /\ hexEncode (rfcNonce (repeat x22 12) 258) = "222222222222222222222320"%string.
Proof.
  split; [|reflexivity]. apply (nonces_distinct fresh [([x01], x16); ([], x17); ([x00], x15)]); [done|done|cbn; lia].
Defined.
End RecordWitnesses.
