(* ===== verification/Tls13Handshake.v ===== *)
(** The 0-RTT probe: the hand-rolled TLS 1.3 handshake of
    [tls13_handshake.go], over any [Reader] for what the peer sends.

    The connection's deadline is the end of the stream; the shorter read window
    after the handshake is the environment's [postWindow].  The running
    SHA-256 transcript is the bytes written to it, and [snapshotHash] hashes
    them. *)

From Stdlib Require Import ZArith List String Ascii Strings.Byte Lia Bool.
From stdpp Require Import base list strings numbers.
From S2P Require Import Prelude Bytes GoStrings Digest Stream Extensions Flight ServerHello Tls13Hello.
From S2P Require Import Tls13Record.
Open Scope Z_scope.

Record tls13ProbeResult := {
  HandshakeOK : bool;
  NSTReceived : bool;
  MaxEarlyData : Z;
  ZeroRTTOffered : bool;
  Notes : string
}.
Definition zeroResult : tls13ProbeResult :=
  {| HandshakeOK := false; NSTReceived := false; MaxEarlyData := 0; ZeroRTTOffered := false;
     Notes := "" |}.

Definition setHandshakeOK (r : tls13ProbeResult) (ok : bool) : tls13ProbeResult :=
  {| HandshakeOK := ok; NSTReceived := NSTReceived r; MaxEarlyData := MaxEarlyData r;
     ZeroRTTOffered := ZeroRTTOffered r; Notes := Notes r |}.

(** [snapshotHash(h)] for a hash that has been written [transcript] *)
Definition snapshotHash (transcript : bytes) : bytes := sha256 transcript.

(** The value so far of [out], and what has been written to the connection. *)
Record run := { out : tls13ProbeResult; sent : list bytes }.

(** [return out, err] *)
Definition failure : Type := run * string.

Definition failWith {A} (st : run) (e : string) : outcome (A + failure) := Ret (inr (st, e)).

(** [a, err := c; if err != nil { return out, fmt.Errorf(pre+"%w", err) }] *)
Definition attempt {A B} (st : run) (pre : string) (c : outcome A) (k : A -> outcome (B + failure))
    : outcome (B + failure) :=
  match c with
  | Ret a => k a
  | Err e => failWith st (pre +:+ e)
  | Panic => Panic
  | NoFuel => NoFuel
  end.

(** The same after a write, which leaves the state it reached. *)
Definition written {B} (pre : string) (w : run * option string) (k : run -> outcome (B + failure))
    : outcome (B + failure) :=
  match w with
  | (st, Some e) => failWith st (pre +:+ e)
  | (st, None) => k st
  end.

(** ** Records *)

Record plaintextRecord := { contentType : byte; payload : bytes }.

Section Read.
Context {C : Type} `{Reader C}.

Definition readPlaintextRecord (c : C) : outcome (plaintextRecord * C) :=
  unpack (header, c) <~ readFull 5 c ;;
  match header with
  | None => Err "EOF"
  | Some header =>
      h1 <~ index header 1 ;;
      h2 <~ index header 2 ;;
      guard negb (beq h1 x03) || (negb (beq h2 x03) && negb (beq h2 x01))
        orelse ("unexpected record version " +:+ hexByte h1 +:+ " " +:+ hexByte h2) ;;
      lb <~ slice header 3 5 ;;
      length <~ BE_Uint16 lb ;;
      guard 16384 + 256 <? length orelse ("record length " +:+ fmtD length +:+ " exceeds limit") ;;
      unpack (pl, c) <~ readFull length c ;;
      match pl with
      | None => Err "unexpected EOF"
      | Some pl =>
          ty <~ index header 0 ;;
          Ret ({| contentType := ty; payload := pl |}, c)
      end
  end.
End Read.

(** The record the protector is given: header rebuilt around the payload. *)
Definition rebuildRecord (p : bytes) : bytes :=
  [recordApplicationData; x03; x03] ++ putBE16 (u16 (blen p)) ++ p.

(** ** Handshake messages in the drained buffer *)

(** [hsBuffer], [transcript], [out.HandshakeOK] and [gotServerFinished]. *)
Record hsState := { hsBuffer : bytes; hsTranscript : bytes; hsOK : bool; gotFinished : bool }.

Definition hsMessageTurn (s : hsState) : outcome (step hsState unit) :=
  if blen (hsBuffer s) <? 4 then Ret (Break s) else
  msgType <~ index (hsBuffer s) 0 ;;
  l2 <~ index (hsBuffer s) 1 ;; l1 <~ index (hsBuffer s) 2 ;; l0 <~ index (hsBuffer s) 3 ;;
  let msgLen := be24 l2 l1 l0 in
  if blen (hsBuffer s) <? 4 + msgLen then Ret (Break s) else
  fullMsg <~ slice (hsBuffer s) 0 (4 + msgLen) ;;
  rest <~ sliceFrom (hsBuffer s) (4 + msgLen) ;;
  Ret (Next {| hsBuffer := rest; hsTranscript := hsTranscript s ++ fullMsg; hsOK := true;
               gotFinished := gotFinished s || beq msgType hsFinished |}).

Definition hsMessages (s : hsState) : outcome hsState :=
  r <~ loop hsMessageTurn (S (length (hsBuffer s))) s ;;
  Ret (match r with inl s' => s' | inr _ => s end).

(** ** Messages after the handshake *)

(** [out.NSTReceived] and [out.MaxEarlyData] *)
Record nstState := { nstSeen : bool; nstMax : Z }.

Definition nstMessageTurn (pt : bytes) (x : Z * nstState) : outcome (step (Z * nstState) unit) :=
  let '(i, s) := x in
  if i + 4 <=? blen pt then
    t <~ index pt i ;;
    l2 <~ index pt (i + 1) ;; l1 <~ index pt (i + 2) ;; l0 <~ index pt (i + 3) ;;
    let l := be24 l2 l1 l0 in
    if blen pt <? i + 4 + l then Ret (Break (i, s)) else
    body <~ slice pt (i + 4) (i + 4 + l) ;;
    if beq t hsNewSessionTicket then
      match parseNewSessionTicket body with
      | Ret nst =>
          Ret (Next (i + (4 + l),
            {| nstSeen := true;
               nstMax := if nstMax s <? maxEarlyData nst then maxEarlyData nst else nstMax s |}))
      | Err _ => Ret (Next (i + (4 + l), {| nstSeen := true; nstMax := nstMax s |}))
      | Panic => Panic
      | NoFuel => NoFuel
      end
    else Ret (Next (i + (4 + l), s))
  else Ret (Break (i, s)).

Definition nstMessages (pt : bytes) (s : nstState) : outcome nstState :=
  r <~ loop (nstMessageTurn pt) (S (length pt)) (0, s) ;;
  Ret (match r with inl (_, s') => s' | inr _ => s end).

(** ** The probe *)

Section Probe.
Context {C : Type} `{Reader C} `{HkdfExpand} {K : Type} `{Aead K} {Key : Type} `{X25519 Key}.

(** The outside world: whether the dial and the [n]-th write succeed, the
    random source, and what the read window after the handshake leaves of
    the stream. *)
Record env := {
  dialErr : option string;
  writeErr : nat -> option string;
  randomness : entropy Key;
  postWindow : C -> C
}.
Variable e : env.

(** [conn.Write(b)] *)
Definition connWrite (st : run) (b : bytes) : run * option string :=
  match writeErr e (length (sent st)) with
  | Some err => (st, Some err)
  | None => ({| out := out st; sent := sent st ++ [b] |}, None)
  end.

Definition writeRecord (st : run) (ty : byte) (p : bytes) : run * option string :=
  let header := [ty; x03; x03] ++ putBE16 (u16 (blen p)) in
  match connWrite st header with
  | (st, Some err) => (st, Some err)
  | (st, None) => connWrite st p
  end.

(** *** Hello exchange: the state after the ServerHello has been accepted *)
Record helloDone := { hdRun : run; hdConn : C; hdHello : clientHelloMaterial Key;
                      hdServer : parsedServerHello; hdTranscript : bytes }.

Definition helloPhase (sni : string) (c : C) : outcome (helloDone + failure) :=
  let st := {| out := zeroResult; sent := [] |} in
  match dialErr e with
  | Some err => failWith st ("dial: " +:+ err)
  | None =>
    attempt st "build ClientHello: " (buildClientHello sni (randomness e)) (fun ch =>
    written "write ClientHello: " (writeRecord st recordHandshake (chBytes ch)) (fun st =>
    let transcript := chBytes ch in
    attempt st "read ServerHello record: " (readPlaintextRecord c) (fun '(shRecord, c) =>
    if negb (beq (contentType shRecord) recordHandshake) then
      failWith st ("ServerHello: expected record type 22, got " +:+ fmtD (bval (contentType shRecord)))
    else
    attempt st "parse ServerHello: " (parseServerHello (payload shRecord)) (fun sh =>
    if negb (shCipherSuite sh =? tls13CipherAES128GCMSHA256) then
      failWith st ("server selected unsupported cipher 0x" +:+ hex16 (shCipherSuite sh))
    else if helloRetryRequest sh then
      failWith st "server sent HelloRetryRequest (probe handles only single-flight x25519)"
    else
      Ret (inl {| hdRun := st; hdConn := c; hdHello := ch; hdServer := sh;
                  hdTranscript := transcript ++ shBytes sh |})))))
  end.

(** *** Keys of the handshake phase *)
Definition handshakeKeys (hd : helloDone)
    : outcome (tls13KeySchedule * recordProtector K * recordProtector K + failure) :=
  let st := hdRun hd in
  attempt st "server x25519 pubkey: " (newPublicKey (x25519ServerPub (hdServer hd))) (fun peerPub =>
  attempt st "x25519 ECDH: " (ecdhShared (x25519Priv (hdHello hd)) peerPub) (fun shared =>
  let ks := deriveHandshakeSecret newTLS13KeySchedule shared (snapshotHash (hdTranscript hd)) in
  attempt st "server handshake protector: " (newRecordProtector (serverHandshakeTraffic ks)) (fun srv =>
  attempt st "client handshake protector: " (newRecordProtector (clientHandshakeTraffic ks)) (fun cli =>
  Ret (inl (ks, srv, cli)))))).

(** *** Draining the server's encrypted handshake records *)
Record drainState := { drConn : C; drProt : recordProtector K; drHs : hsState }.

Definition drainTurn (st : run) (d : drainState) : outcome (step drainState failure) :=
  if gotFinished (drHs d) then Ret (Break d) else
  let here := {| out := setHandshakeOK (out st) (hsOK (drHs d)); sent := sent st |} in
  match readPlaintextRecord (drConn d) with
  | Err err => Ret (Return (here, ("read post-SH record: " +:+ err)%string))
  | Panic => Panic
  | NoFuel => NoFuel
  | Ret (rec, c) =>
      if beq (contentType rec) recordChangeCipherSpec then
        Ret (Next {| drConn := c; drProt := drProt d; drHs := drHs d |})
      else if negb (beq (contentType rec) recordApplicationData) then
        Ret (Return (here, ("unexpected post-SH record type " +:+ fmtD (bval (contentType rec)))%string))
      else
        let '(prot, opened) := open (drProt d) (rebuildRecord (payload rec)) in
        match opened with
        | Err err => Ret (Return (here, ("decrypt handshake record: " +:+ err)%string))
        | Panic => Panic
        | NoFuel => NoFuel
        | Ret (pt, innerType) =>
            if negb (beq innerType recordHandshake) then
              Ret (Return (here, ("expected handshake inner type, got " +:+ fmtD (bval innerType))%string))
            else
              hs <~ hsMessages {| hsBuffer := hsBuffer (drHs d) ++ pt;
                                  hsTranscript := hsTranscript (drHs d);
                                  hsOK := hsOK (drHs d); gotFinished := gotFinished (drHs d) |} ;;
              Ret (Next {| drConn := c; drProt := prot; drHs := hs |})
        end
  end.

(** A turn that goes round again has read at least a record header. *)
Definition drainPhase (st : run) (d : drainState) : outcome (drainState + failure) :=
  loop (drainTurn st) (S (length (pending (drConn d)))) d.

(** *** The client's Finished, and the request that follows it *)
Definition finishedMsg (ks : tls13KeySchedule) (th : bytes) : bytes :=
  let vd := finishedVerifyData13 (clientHandshakeTraffic ks) th in
  [hsFinished; x00; x00; byteOf (blen vd)] ++ vd.

Definition httpRequest (sni : string) : bytes :=
  let crlf := String "013" (String "010" "") in
  ofString ("GET / HTTP/1.1" +:+ crlf +:+ "Host: " +:+ sni +:+ crlf +:+ "User-Agent: netdoc"
            +:+ crlf +:+ "Connection: close" +:+ crlf +:+ crlf).

(** Everything sent after the server's Finished, and the protector the
    server's application records are read with. *)
Definition finishPhase (st : run) (sni : string) (ks : tls13KeySchedule) (cli : recordProtector K)
    (transcript : bytes) : outcome (run * recordProtector K + failure) :=
  let th := snapshotHash transcript in
  written "write CCS: " (writeRecord st recordChangeCipherSpec [x01]) (fun st =>
  let '(_, encFinished) := seal cli (finishedMsg ks th) recordHandshake in
  written "write client Finished: " (connWrite st encFinished) (fun st =>
  let ks := deriveMasterSecret ks th in
  attempt st "server application protector: " (newRecordProtector (serverApplicationTraffic ks)) (fun srvApp =>
  attempt st "client application protector: " (newRecordProtector (clientApplicationTraffic ks)) (fun cliApp =>
  if String.eqb sni "" then Ret (inl (st, srvApp))
  else
    let '(_, appRec) := seal cliApp (httpRequest sni) recordApplicationData in
    let '(st, _) := connWrite st appRec in
    Ret (inl (st, srvApp)))))).

(** *** Waiting for NewSessionTickets *)
Record postState := { poConn : C; poProt : recordProtector K; poNst : nstState }.

Definition postTurn (s : postState) : outcome (step postState unit) :=
  match readPlaintextRecord (poConn s) with
  | Err _ => Ret (Break s)
  | Panic => Panic
  | NoFuel => NoFuel
  | Ret (rec, c) =>
      if beq (contentType rec) recordChangeCipherSpec then
        Ret (Next {| poConn := c; poProt := poProt s; poNst := poNst s |})
      else if negb (beq (contentType rec) recordApplicationData) then Ret (Break s)
      else
        let '(prot, opened) := open (poProt s) (rebuildRecord (payload rec)) in
        match opened with
        | Err _ => Ret (Break s)
        | Panic => Panic
        | NoFuel => NoFuel
        | Ret (pt, innerType) =>
            if beq innerType recordAlert then Ret (Break s)
            else if negb (beq innerType recordHandshake) then
              Ret (Next {| poConn := c; poProt := prot; poNst := poNst s |})
            else
              nst <~ nstMessages pt (poNst s) ;;
              Ret (Next {| poConn := c; poProt := prot; poNst := nst |})
        end
  end.

Definition postPhase (s : postState) : outcome nstState :=
  r <~ loop postTurn (S (length (pending (poConn s)))) s ;;
  Ret (match r with inl s' => poNst s' | inr _ => poNst s end).

(** *** The verdict *)
Definition verdict (handshakeOK : bool) (s : nstState) : tls13ProbeResult :=
  let zero := nstSeen s && (0 <? nstMax s) in
  {| HandshakeOK := handshakeOK;
     NSTReceived := nstSeen s;
     MaxEarlyData := nstMax s;
     ZeroRTTOffered := zero;
     Notes :=
       if zero then
         "server NewSessionTicket carries early_data extension with max_early_data_size=" +:+ fmtD (nstMax s)
       else if nstSeen s then
         "server issued NewSessionTicket without early_data extension — resumption supported, 0-RTT not offered"
       else if handshakeOK then
         "TLS 1.3 handshake succeeded but server emitted no NewSessionTicket within window — resumption disabled or delayed"
       else "" |}%string.

(** [sequence] two phases, the first of which may have returned. *)
Definition andThen {A B} (c : outcome (A + failure)) (k : A -> outcome (B + failure))
    : outcome (B + failure) :=
  r <~ c ;; match r with inl a => k a | inr f => Ret (inr f) end.

(** [probeTLS13EarlyData]: the final state on success, else the state the
    error returns with. *)
Definition probeTLS13EarlyData (sni : string) (c : C) : outcome (run + failure) :=
  andThen (helloPhase sni c) (fun hd =>
  andThen (handshakeKeys hd) (fun '(ks, srv, cli) =>
  andThen (drainPhase (hdRun hd)
             {| drConn := hdConn hd; drProt := srv;
                drHs := {| hsBuffer := []; hsTranscript := hdTranscript hd; hsOK := false;
                           gotFinished := false |} |}) (fun d =>
  let st := {| out := setHandshakeOK (out (hdRun hd)) (hsOK (drHs d)); sent := sent (hdRun hd) |} in
  andThen (finishPhase st sni ks cli (hsTranscript (drHs d))) (fun '(st, srvApp) =>
  nst <~ postPhase {| poConn := postWindow e (drConn d); poProt := srvApp;
                      poNst := {| nstSeen := false; nstMax := 0 |} |} ;;
  Ret (inl {| out := verdict (hsOK (drHs d)) nst; sent := sent st |}))))).
End Probe.

(** ** Handshake messages: framing *)


(** A body that fits the 24-bit length, and bytes that are not yet a message. *)
Definition incomplete (b : bytes) : Prop :=
  forall m rest, msgOk m -> b <> encMsg (fst m) (snd m) ++ rest.

Lemma encMsg_header ty body rest :
  encMsg ty body ++ rest =
  ty :: byteOf (Z.shiftr (blen body) 16) :: byteOf (Z.shiftr (blen body) 8) :: byteOf (blen body)
     :: body ++ rest.
Proof. done. Qed.

Lemma incomplete_nil : incomplete [].
Proof. by intros m rest _. Qed.


(** A message is determined by the bytes it starts with. *)
Lemma encMsg_inj ty1 body1 rest1 ty2 body2 rest2 :
  blen body1 < 16777216 -> blen body2 < 16777216 ->
  encMsg ty1 body1 ++ rest1 = encMsg ty2 body2 ++ rest2 ->
  ty1 = ty2 /\ body1 = body2 /\ rest1 = rest2.
Proof.
  intros Ho1 Ho2. rewrite !encMsg_header. intros [= -> Ha Hb Hc Hrest].
  pose proof (be24_putBE24 (blen body1)) as E1. pose proof (be24_putBE24 (blen body2)) as E2.
  rewrite Ha, Hb, Hc in E1. rewrite E2 in E1.
  pose proof (blen_nonneg body1). pose proof (blen_nonneg body2).
  rewrite !Z.mod_small in E1 by lia.
  destruct (app_inj_1 body1 body2 rest1 rest2) as [-> ->]; auto. apply Nat2Z.inj. by symmetry.
Qed.

Lemma header_of (b : bytes) :
  4 <= blen b -> exists t l2 l1 l0 r, b = t :: l2 :: l1 :: l0 :: r.
Proof.
  unfold blen. destruct b as [|t [|l2 [|l1 [|l0 r]]]]; cbn; try lia. eauto 10.
Qed.

(** Four header bytes, and as many bytes as they announce, are a message. *)
Lemma message_cases (b : bytes) :
  (exists m rest, msgOk m /\ b = encMsg (fst m) (snd m) ++ rest) \/
  incomplete b /\ (4 <= blen b ->
    exists t l2 l1 l0 r, b = t :: l2 :: l1 :: l0 :: r /\ blen b < 4 + be24 l2 l1 l0).
Proof.
  destruct (Z_lt_dec (blen b) 4) as [Hs|Hs].
  { right. split; [|lia]. intros m rest Hm ->. rewrite blen_app, encMsg_length in Hs.
    pose proof (blen_nonneg rest). pose proof (blen_nonneg (snd m)). lia. }
  destruct (header_of b ltac:(lia)) as (t & l2 & l1 & l0 & r & ->).
  set (l := be24 l2 l1 l0). pose proof (be24_range l2 l1 l0) as Hl. fold l in Hl.
  assert (Hb : blen (t :: l2 :: l1 :: l0 :: r) = 4 + blen r) by (autorewrite with blen; lia).
  destruct (Z_lt_dec (blen r) l) as [Hr|Hr].
  - right. rewrite Hb. split; [|intros _; do 5 eexists; split; [done|fold l; lia]].
    intros [ty body] rest Hm Heq. cbn [fst snd] in *. rewrite encMsg_header in Heq.
    injection Heq as -> E2 E1 E0 ->. unfold l in Hr.
    rewrite E2, E1, E0, be24_putBE24, blen_app in Hr.
    unfold msgOk in Hm. cbn [snd] in Hm. pose proof (blen_nonneg body). pose proof (blen_nonneg rest).
    rewrite Z.mod_small in Hr by lia. lia.
  - left. exists (t, take (Z.to_nat l) r), (drop (Z.to_nat l) r). unfold msgOk. cbn [fst snd].
    rewrite encMsg_header, take_drop, blen_take by lia. split; [lia|].
    pose proof (putBE24_be24 l2 l1 l0) as Hp. fold l in Hp. injection Hp as -> -> ->. done.
Qed.

(** Every byte string is messages followed by an incomplete one. *)
Lemma messages_split b :
  exists msgs rest, b = encMsgs msgs ++ rest /\ Forall msgOk msgs /\ incomplete rest.
Proof.
  remember (length b) as n eqn:Hn. revert b Hn.
  induction n as [n IH] using lt_wf_ind. intros b ->.
  destruct (message_cases b) as [(m & rest & Hm & ->)|[Hi _]].
  - destruct (IH (length rest)) with (b := rest) as (ms & r & -> & Hms & Hr); [|done|].
    { rewrite length_app. pose proof (encMsg_length (fst m) (snd m)) as Hl.
      pose proof (blen_nonneg (snd m)). unfold blen in *. lia. }
    exists (m :: ms), r. cbn. rewrite <- app_assoc. eauto.
  - by exists [], b.
Qed.

(** A prefix of a sequence of messages starts with its first messages. *)
Lemma messages_prefix ms1 r1 q ms :
  encMsgs ms1 ++ r1 ++ q = encMsgs ms -> Forall msgOk ms1 -> Forall msgOk ms ->
  exists ms2, ms = ms1 ++ ms2 /\ r1 ++ q = encMsgs ms2.
Proof.
  revert ms. induction ms1 as [|m1 ms1 IH]; intros ms Heq Ho1 Ho; [by exists ms|].
  destruct ms as [|m ms]; [done|]. inversion_clear Ho1; inversion_clear Ho.
  cbn in Heq. rewrite <- app_assoc in Heq.
  apply encMsg_inj in Heq as (Ht & Hb & Hr); [|done..].
  destruct (IH ms Hr) as (ms2 & -> & Hms2); [done..|].
  exists ms2. split; [|done]. destruct m, m1. cbn in *. by subst.
Qed.

(** ** The buffer of handshake messages *)

(** [s] after the messages [ms] have been taken out of the buffer. *)
Definition hsApply (s : hsState) (ms : list (byte * bytes)) (rest : bytes) : hsState :=
  {| hsBuffer := rest;
     hsTranscript := hsTranscript s ++ encMsgs ms;
     hsOK := hsOK s || negb (bool_decide (ms = []));
     gotFinished := gotFinished s || existsb (fun m => beq (fst m) hsFinished) ms |}.

Lemma hsMessageTurn_msg s m rest :
  hsBuffer s = encMsg (fst m) (snd m) ++ rest -> msgOk m ->
  hsMessageTurn s = Ret (Next {| hsBuffer := rest;
                                 hsTranscript := hsTranscript s ++ encMsg (fst m) (snd m);
                                 hsOK := true;
                                 gotFinished := gotFinished s || beq (fst m) hsFinished |}).
Proof.
  destruct m as [ty body]. unfold msgOk. cbn [fst snd]. intros Hs Hm.
  pose proof (blen_nonneg body). pose proof (blen_nonneg rest).
  unfold hsMessageTurn. rewrite Hs, blen_app, encMsg_length.
  rewrite (proj2 (Z.ltb_ge _ 4)) by lia.
  set (b2 := byteOf (Z.shiftr (blen body) 16)). set (b1 := byteOf (Z.shiftr (blen body) 8)).
  set (b0 := byteOf (blen body)).
  rewrite (read_index _ [] ty (b2 :: b1 :: b0 :: body ++ rest)),
    (read_index _ [ty] b2 (b1 :: b0 :: body ++ rest)),
    (read_index _ [ty; b2] b1 (b0 :: body ++ rest)),
    (read_index _ [ty; b2; b1] b0 (body ++ rest)) by done.
  cbn [bind]. unfold b2, b1, b0. rewrite be24_putBE24, Z.mod_small by lia.
  rewrite (proj2 (Z.ltb_ge _ _)) by lia.
  rewrite (read_slice _ [] (encMsg ty body) rest), (read_from _ (encMsg ty body) rest)
    by (done || (rewrite ?blen_nil, encMsg_length; lia)).
  done.
Qed.

Lemma hsMessageTurn_incomplete s : incomplete (hsBuffer s) -> hsMessageTurn s = Ret (Break s).
Proof.
  intros Hi. unfold hsMessageTurn. destruct (blen (hsBuffer s) <? 4) eqn:E; [done|]. to_prop.
  destruct (message_cases (hsBuffer s)) as [(m & rest & Hm & Hb)|[_ H4]].
  { by destruct (Hi m rest Hm). }
  destruct (H4 E) as (t & l2 & l1 & l0 & r & Hb & Hl). rewrite Hb in *.
  rewrite (read_index _ [] t (l2 :: l1 :: l0 :: r)), (read_index _ [t] l2 (l1 :: l0 :: r)),
    (read_index _ [t; l2] l1 (l0 :: r)), (read_index _ [t; l2; l1] l0 r) by done.
  cbn [bind]. by rewrite (proj2 (Z.ltb_lt _ _)).
Qed.

Lemma hsLoop_messages s ms rest fuel :
  hsBuffer s = encMsgs ms ++ rest -> Forall msgOk ms -> incomplete rest ->
  (length ms < fuel)%nat -> loop hsMessageTurn fuel s = Ret (inl (hsApply s ms rest)).
Proof.
  intros Hb Hms Hi. revert s fuel Hb. induction Hms as [|m ms Hm _ IH]; intros s fuel Hb Hf;
    (destruct fuel as [|fuel]; [lia|]); cbn [loop].
  - cbn in Hb. subst. rewrite hsMessageTurn_incomplete by done. unfold hsApply. cbn.
    rewrite app_nil_r, !orb_false_r. by destruct s.
  - cbn in Hb. rewrite <- app_assoc in Hb. rewrite (hsMessageTurn_msg s m _ Hb Hm).
    cbn in Hf. rewrite IH by (done || lia). unfold hsApply. cbn [hsTranscript hsOK gotFinished].
    cbn [existsb]. rewrite orb_assoc, <- app_assoc. do 3 f_equal.
    by rewrite orb_true_r.
Qed.


Lemma hsMessages_spec s ms rest :
  hsBuffer s = encMsgs ms ++ rest -> Forall msgOk ms -> incomplete rest ->
  hsMessages s = Ret (hsApply s ms rest).
Proof.
  intros Hb Hms Hi. unfold hsMessages. rewrite (hsLoop_messages s ms rest) by
    (done || (rewrite Hb, length_app; pose proof (length_encMsgs ms); lia)).
  done.
Qed.

(** No byte of the flight is lost: what leaves the buffer enters the transcript. *)
Lemma hsMessages_conserve s :
  exists s', hsMessages s = Ret s' /\
    hsTranscript s' ++ hsBuffer s' = hsTranscript s ++ hsBuffer s /\ incomplete (hsBuffer s').
Proof.
  destruct (messages_split (hsBuffer s)) as (ms & rest & Hb & Hms & Hi).
  eexists. split; [by apply (hsMessages_spec s ms rest)|]. cbn. by rewrite Hb, app_assoc.
Qed.

(** Records may cut the flight anywhere. *)
Lemma hsMessages_app s q s' :
  hsMessages s = Ret s' ->
  hsMessages {| hsBuffer := hsBuffer s' ++ q; hsTranscript := hsTranscript s';
                hsOK := hsOK s'; gotFinished := gotFinished s' |}
  = hsMessages {| hsBuffer := hsBuffer s ++ q; hsTranscript := hsTranscript s;
                  hsOK := hsOK s; gotFinished := gotFinished s |}.
Proof.
  destruct (messages_split (hsBuffer s)) as (ms & rest & Hb & Hms & Hi).
  rewrite (hsMessages_spec s ms rest) by done. intros [= <-]. cbn [hsApply hsBuffer hsTranscript hsOK gotFinished].
  destruct (messages_split (rest ++ q)) as (ms2 & rest2 & Hb2 & Hms2 & Hi2).
  rewrite (hsMessages_spec _ ms2 rest2) by done.
  rewrite (hsMessages_spec _ (ms ++ ms2) rest2).
  - unfold hsApply. cbn [hsTranscript hsOK gotFinished]. unfold encMsgs.
    rewrite flat_map_app, existsb_app, app_assoc, !orb_assoc. do 2 f_equal.
    rewrite <- orb_assoc. f_equal. by destruct ms, ms2.
  - cbn [hsBuffer]. unfold encMsgs in *. by rewrite flat_map_app, Hb, <- !app_assoc, Hb2.
  - by apply Forall_app.
  - done.
Qed.

(** ** Tickets among the messages after the handshake *)

Definition nstApply (s : nstState) (m : byte * bytes) : nstState :=
  if beq (fst m) hsNewSessionTicket then
    {| nstSeen := true;
       nstMax := match parseNewSessionTicket (snd m) with
                 | Ret t => Z.max (nstMax s) (maxEarlyData t)
                 | _ => nstMax s
                 end |}
  else s.

Lemma nstTurn_msg pre m rest s :
  msgOk m ->
  nstMessageTurn (pre ++ encMsg (fst m) (snd m) ++ rest) (blen pre, s)
  = Ret (Next (blen (pre ++ encMsg (fst m) (snd m)), nstApply s m)).
Proof.
  destruct m as [ty body]. unfold msgOk. cbn [fst snd]. intros Hm.
  pose proof (blen_nonneg body). pose proof (blen_nonneg rest). pose proof (blen_nonneg pre).
  unfold nstMessageTurn. rewrite !blen_app, encMsg_length.
  rewrite (proj2 (Z.leb_le _ _)) by lia.
  set (b2 := byteOf (Z.shiftr (blen body) 16)). set (b1 := byteOf (Z.shiftr (blen body) 8)).
  set (b0 := byteOf (blen body)).
  rewrite (read_index _ pre ty (b2 :: b1 :: b0 :: body ++ rest)),
    (read_index _ (pre ++ [ty]) b2 (b1 :: b0 :: body ++ rest)),
    (read_index _ (pre ++ [ty; b2]) b1 (b0 :: body ++ rest)),
    (read_index _ (pre ++ [ty; b2; b1]) b0 (body ++ rest))
    by (by rewrite <- ?app_assoc || by rewrite ?blen_app).
  cbn [bind]. unfold b2, b1, b0. rewrite be24_putBE24, Z.mod_small by lia.
  rewrite (proj2 (Z.ltb_ge _ _)) by lia.
  rewrite (read_slice _ (pre ++ ty :: putBE24 (blen body)) body rest)
    by ((by rewrite <- ?app_assoc) || (rewrite ?blen_app; change (blen (ty :: putBE24 (blen body))) with 4; lia)).
  cbn [bind]. unfold nstApply. cbn [fst snd].
  pose proof (wp_parseNewSessionTicket body) as Hp.
  replace (blen pre + (4 + blen body)) with (blen pre + (4 + blen body)) by lia.
  destruct (beq ty hsNewSessionTicket); [|done].
  destruct (parseNewSessionTicket body) as [t|e| |]; try done.
  do 4 f_equal. destruct (nstMax s <? maxEarlyData t) eqn:E; to_prop; lia.
Qed.

Lemma nstTurn_incomplete pre rest s :
  incomplete rest -> nstMessageTurn (pre ++ rest) (blen pre, s) = Ret (Break (blen pre, s)).
Proof.
  intros Hi. unfold nstMessageTurn. rewrite blen_app.
  destruct (blen pre + 4 <=? blen pre + blen rest) eqn:E; [|done]. to_prop.
  destruct (message_cases rest) as [(m & r & Hm & Hb)|[_ H4]]; [by destruct (Hi m r Hm)|].
  destruct (H4 ltac:(lia)) as (t & l2 & l1 & l0 & r & -> & Hl).
  rewrite (read_index _ pre t (l2 :: l1 :: l0 :: r)), (read_index _ (pre ++ [t]) l2 (l1 :: l0 :: r)),
    (read_index _ (pre ++ [t; l2]) l1 (l0 :: r)), (read_index _ (pre ++ [t; l2; l1]) l0 r)
    by (by rewrite <- ?app_assoc || by rewrite ?blen_app).
  cbn [bind]. by rewrite (proj2 (Z.ltb_lt _ _)) by lia.
Qed.

Lemma nstLoop_messages pre ms rest s fuel :
  Forall msgOk ms -> incomplete rest -> (length ms < fuel)%nat ->
  loop (nstMessageTurn (pre ++ encMsgs ms ++ rest)) fuel (blen pre, s)
  = Ret (inl (blen (pre ++ encMsgs ms), fold_left nstApply ms s)).
Proof.
  intros Hms Hi. revert pre s fuel. induction Hms as [|m ms Hm _ IH]; intros pre s fuel Hf;
    (destruct fuel as [|fuel]; [lia|]); cbn [loop].
  - cbn [encMsgs flat_map app]. by rewrite nstTurn_incomplete, app_nil_r.
  - unfold encMsgs in *. cbn [flat_map] in *. rewrite <- app_assoc, nstTurn_msg by done.
    cbn in Hf. rewrite !app_assoc, <- app_assoc.
    rewrite IH by lia. done.
Qed.

(** The tickets of a record: every complete message counts, once. *)
Lemma nstMessages_spec ms rest s :
  Forall msgOk ms -> incomplete rest ->
  nstMessages (encMsgs ms ++ rest) s = Ret (fold_left nstApply ms s).
Proof.
  intros Hms Hi. unfold nstMessages.
  pose proof (nstLoop_messages [] ms rest s (S (length (encMsgs ms ++ rest))) Hms Hi) as Hl.
  cbn [app] in Hl. change (blen (@nil byte)) with 0 in Hl. rewrite Hl; [done|].
  rewrite length_app. pose proof (length_encMsgs ms). lia.
Qed.

(** What the state always satisfies. *)
Definition nstInv (s : nstState) : Prop :=
  0 <= nstMax s < 4294967296 /\ (nstSeen s = false -> nstMax s = 0).

Lemma nstApply_inv s m : nstInv s -> nstInv (nstApply s m).
Proof.
  intros [Hr Hs]. unfold nstApply. destruct (beq _ _); [|done]. split; cbn; [|done].
  pose proof (wp_parseNewSessionTicket (snd m)) as Hp.
  destruct (parseNewSessionTicket (snd m)) as [t| | |]; try done.
  cbn in Hp. pose proof (nst_maxEarlyData _ _ Hp). lia.
Qed.

Lemma wp_nstMessages pt s E : nstInv s -> wp (nstMessages pt s) nstInv E.
Proof.
  destruct (messages_split pt) as (ms & rest & -> & Hms & Hi). rewrite nstMessages_spec by done.
  intros Hs. cbn. clear Hms. revert s Hs.
  induction ms as [|m ms IH]; intros s Hs; cbn; [done|]. by apply IH, nstApply_inv.
Qed.

Lemma wp_hsMessages s (Q : hsState -> Prop) E :
  (forall ms rest, hsBuffer s = encMsgs ms ++ rest -> Q (hsApply s ms rest)) ->
  wp (hsMessages s) Q E.
Proof.
  intros HQ. destruct (messages_split (hsBuffer s)) as (ms & rest & Hb & Hms & Hi).
  rewrite (hsMessages_spec s ms rest) by done. by apply HQ.
Qed.

(** ** Plaintext records *)

Section ReadProps.
Context {C : Type} `{Reader C}.

(** A record that is read was the next thing in the stream. *)
Lemma wp_readPlaintextRecord (c : C) :
  wp (readPlaintextRecord c)
     (fun r => exists ver, blen ver = 2 /\ blen (payload (fst r)) <= 16640 /\
        pending c = encRecord (contentType (fst r)) ver (payload (fst r)) ++ pending (snd r))
     (fun _ => True).
Proof.
  unfold readPlaintextRecord. wp_step. apply wp_readFull; [lia| |done].
  intros h c1 Hp Hh. cbn beta iota.
  destruct h as [|ty [|v1 [|v0 [|l1 [|l0 [|? ?]]]]]]; try (unfold blen in Hh; cbn in Hh; lia).
  change (index [ty; v1; v0; l1; l0] 1) with (Ret v1).
  change (index [ty; v1; v0; l1; l0] 2) with (Ret v0).
  change (slice [ty; v1; v0; l1; l0] 3 5) with (Ret [l1; l0]).
  cbn [bind]. wp_step; [done|].
  change (BE_Uint16 [l1; l0]) with (Ret (be16 l1 l0)). cbn [bind].
  pose proof (be16_range l1 l0) as Hl. wp_step; [done|]. to_prop. wp_step.
  apply wp_readFull; [lia| |done]. intros p c2 Hp2 Hpl. cbn beta iota.
  change (index [ty; v1; v0; l1; l0] 0) with (Ret ty). cbn [bind wp fst snd contentType payload].
  exists [v1; v0]. split; [done|]. split; [lia|].
  rewrite Hp, Hp2. unfold encRecord. rewrite Hpl, putBE16_be16. done.
Qed.

Lemma readPlaintextRecord_record (c : C) ty v0 p rest :
  pending c = encRecord ty [x03; v0] p ++ rest ->
  v0 = x01 \/ v0 = x03 -> blen p <= 16640 ->
  exists c', readPlaintextRecord c = Ret ({| contentType := ty; payload := p |}, c') /\
             pending c' = rest.
Proof.
  intros Hp Hv Hl. pose proof (blen_nonneg p).
  set (h1 := byteOf (Z.shiftr (blen p) 8)). set (h0 := byteOf (blen p)).
  destruct (readFull_ok 5 c [ty; x03; v0; h1; h0] (p ++ rest)) as (c1 & Hr1 & Hp1); [by rewrite Hp|done|].
  destruct (readFull_ok (blen p) c1 p rest) as (c2 & Hr2 & Hp2); [done..|].
  exists c2. split; [|done]. unfold readPlaintextRecord, errWhen. rewrite Hr1. cbn [bind].
  change (index [ty; x03; v0; h1; h0] 1) with (Ret x03).
  change (index [ty; x03; v0; h1; h0] 2) with (Ret v0).
  change (slice [ty; x03; v0; h1; h0] 3 5) with (Ret (putBE16 (blen p))).
  cbn [bind]. replace (_ || _) with false by (destruct Hv as [-> | ->]; done).
  rewrite <- (app_nil_r (putBE16 (blen p))), BE_Uint16_put, u16_small by lia. cbn [bind].
  rewrite (proj2 (Z.ltb_ge _ _)) by lia. rewrite Hr2. done.
Qed.

(** The end of the stream is an error, not a hang. *)
Lemma readPlaintextRecord_eof (c : C) : pending c = [] -> readPlaintextRecord c = Err "EOF".
Proof.
  intros Hp. unfold readPlaintextRecord.
  destruct (readFull_eof 5 c) as [c' ->]; [by rewrite Hp|]. done.
Qed.
End ReadProps.

(** ** The phases return, whatever the peer sends *)

Lemma wp_attempt {A B} st pre (c : outcome A) (k : A -> outcome (B + failure)) Q E :
  wp c (fun a => wp (k a) Q E) (fun e => Q (inr (st, (pre +:+ e)%string))) ->
  wp (attempt st pre c k) Q E.
Proof. by destruct c. Qed.

Lemma wp_written {B} pre w (k : run -> outcome (B + failure)) Q E :
  (forall e, Q (inr (fst w, (pre +:+ e)%string))) -> wp (k (fst w)) Q E ->
  wp (written pre w k) Q E.
Proof. destruct w as [st [e|]]; cbn; auto. Qed.

Lemma wp_andThen {A B} (c : outcome (A + failure)) (k : A -> outcome (B + failure)) Q E :
  wp c (fun r => match r with inl a => wp (k a) Q E | inr f => Q (inr f) end) E ->
  wp (andThen c k) Q E.
Proof. destruct c as [[?|?]|?| |]; cbn; auto. Qed.

Lemma safe_as_wp {A} (c : outcome A) (Q : A -> Prop) (E : string -> Prop) :
  safe c -> (forall a, Q a) -> (forall e, E e) -> wp c Q E.
Proof. destruct c; cbn; auto. Qed.

(** Until the verdict, only [HandshakeOK] has been set. *)
Definition undecided (st : run) : Prop := exists ok, out st = setHandshakeOK zeroResult ok.

(** What a phase must give: [P] of its value, or an error with no verdict. *)
Definition phase {A} (P : A -> Prop) (r : A + failure) : Prop :=
  match r with inl a => P a | inr (st, _) => undecided st end.

(** The random source works, or says that it does not. *)
Definition entropySafe {Key} (r : entropy Key) : Prop :=
  safe (randRandom r) /\ safe (randSessionID r) /\ safe (randKey r).

Section Total.
Context {C : Type} `{Reader C} `{HkdfExpand} {K : Type} `{Aead K} {Key : Type} `{X25519 Key}.
Implicit Types (e : env (C := C) (Key := Key)) (st : run).

Lemma connWrite_out e st b : out (fst (connWrite e st b)) = out st.
Proof. unfold connWrite. by destruct (writeErr _ _). Qed.

Lemma writeRecord_out e st ty p : out (fst (writeRecord e st ty p)) = out st.
Proof.
  unfold writeRecord. pose proof (connWrite_out e st ([ty; x03; x03] ++ putBE16 (u16 (blen p)))) as Hw.
  destruct (connWrite e st _) as [st' [err|]]; cbn in *; [done|]. by rewrite connWrite_out.
Qed.

Lemma wp_helloPhase e sni c E :
  entropySafe (randomness e) ->
  wp (helloPhase e sni c)
     (phase (fun hd => undecided (hdRun hd) /\
        hdTranscript hd = chBytes (hdHello hd) ++ shBytes (hdServer hd) /\
        shCipherSuite (hdServer hd) = tls13CipherAES128GCMSHA256 /\
        helloRetryRequest (hdServer hd) = false)) E.
Proof.
  intros (Hr1 & Hr2 & Hr3). unfold helloPhase.
  assert (Hz : forall s, undecided {| out := zeroResult; sent := s |}) by (by exists false).
  destruct (dialErr e); [by apply Hz|].
  apply wp_attempt. unfold buildClientHello.
  repeat (wp_step; apply safe_as_wp; [done| |by intros; apply Hz]; intros ?). cbn [wp].
  match goal with |- wp (written _ (writeRecord e ?s ?t ?p) _) _ _ =>
    pose proof (writeRecord_out e s t p) as Hw; set (w := writeRecord e s t p) in * end.
  assert (Hu : undecided (fst w)) by (by exists false).
  apply wp_written; [done|]. apply wp_attempt.
  eapply wp_mono; [apply wp_readPlaintextRecord| |by intros].
  intros [rec c1] _. cbn [fst snd]. destruct (negb _); [done|]. apply wp_attempt.
  eapply wp_mono; [apply wp_parseServerHello| |by intros]. intros sh Hsh. cbn beta.
  destruct (negb _) eqn:Ec; [done|]. destruct (helloRetryRequest sh) eqn:Eh; [done|].
  cbn. to_prop. done.
Qed.

Lemma newRecordProtector_safe secret : safe (newRecordProtector (K := K) secret).
Proof.
  unfold newRecordProtector, recordKeys, safe. cbn beta iota. wp_step.
  apply safe_as_wp; [apply newAEAD_safe|done..].
Qed.

Lemma wp_handshakeKeys (hd : helloDone (C := C) (Key := Key)) E :
  undecided (hdRun hd) -> wp (handshakeKeys (K := K) hd) (phase (fun _ => True)) E.
Proof.
  intros Hu. unfold handshakeKeys.
  repeat (apply wp_attempt; apply safe_as_wp;
    [solve [apply newPublicKey_safe|apply ecdhShared_safe|apply newRecordProtector_safe]|
     intros ?|by intros]).
  done.
Qed.

Definition unread (d : drainState (C := C) (K := K)) : nat := length (pending (drConn d)).

Lemma encRecord_length ty ver p : blen ver = 2 -> blen (encRecord ty ver p) = 5 + blen p.
Proof. intros Hv. unfold encRecord. autorewrite with blen. lia. Qed.

Lemma record_shorter (c c' : C) ty ver p :
  blen ver = 2 -> pending c = encRecord ty ver p ++ pending c' ->
  (length (pending c') < length (pending c))%nat.
Proof.
  intros Hv ->. rewrite length_app. pose proof (encRecord_length ty ver p Hv).
  pose proof (blen_nonneg p). unfold blen in *. lia.
Qed.

(** The drain ends, and it ends with a Finished message in the transcript. *)
Lemma wp_drainPhase st d E :
  undecided st -> gotFinished (drHs d) = false ->
  wp (drainPhase (K := K) st d)
     (phase (fun d' => gotFinished (drHs d') = true /\ hsOK (drHs d') = true /\
        exists ms, hsTranscript (drHs d') = hsTranscript (drHs d) ++ encMsgs ms /\
                   existsb (fun m => beq (fst m) hsFinished) ms = true)) E.
Proof.
  intros Hu Hf. unfold drainPhase.
  apply (wp_loop _ (fun d' => exists ms,
    hsTranscript (drHs d') = hsTranscript (drHs d) ++ encMsgs ms /\
    (gotFinished (drHs d') = true ->
       existsb (fun m => beq (fst m) hsFinished) ms = true /\ hsOK (drHs d') = true)) unread);
    [|exists []; cbn; rewrite app_nil_r; split; [done|congruence]|unfold unread; lia].
  intros d1 (ms & Ht & Hg). unfold drainTurn.
  destruct (gotFinished (drHs d1)) eqn:Egf; [cbn; destruct (Hg eq_refl); eauto 10|].
  assert (Hh : forall ok s, undecided {| out := setHandshakeOK (out st) ok; sent := s |}).
  { intros ok s. destruct Hu as [b ->]. by exists ok. }
  pose proof (wp_readPlaintextRecord (drConn d1)) as Hr.
  destruct (readPlaintextRecord (drConn d1)) as [[rec c]|e| |]; try done; cbn in Hr; [|cbn; auto].
  destruct Hr as (ver & Hv & _ & Hp). pose proof (record_shorter _ _ _ _ _ Hv Hp) as Hless.
  destruct (beq _ _); [cbn; split; [by exists ms; rewrite Egf|done]|].
  destruct (negb _); [cbn; auto|].
  pose proof (open_spec (drProt d1) (rebuildRecord (payload rec))) as [Hs _].
  destruct (open (drProt d1) _) as [prot opened]. cbn [snd] in Hs.
  destruct opened as [[pt ity]|e| |]; try done; [|cbn; auto].
  destruct (negb _); [cbn; auto|]. wp_step. apply wp_hsMessages. cbn [hsBuffer].
  intros ms2 rest _. cbn. split; [|done]. exists (ms ++ ms2).
  unfold encMsgs. rewrite Ht, flat_map_app, app_assoc, existsb_app. split; [done|].
  intros Hms2. rewrite Hms2, orb_true_r. split; [done|].
  destruct ms2; [done|]. by rewrite orb_true_r.
Qed.

Lemma wp_finishPhase e st sni (ks : tls13KeySchedule) (cli : recordProtector K) tr E :
  undecided st -> wp (finishPhase e st sni ks cli tr) (phase (fun r => undecided (fst r))) E.
Proof.
  intros [ok Ho]. unfold finishPhase.
  pose proof (writeRecord_out e st recordChangeCipherSpec [x01]) as Hw.
  set (w := writeRecord e st recordChangeCipherSpec [x01]) in *.
  apply wp_written; [intros; exists ok; by rewrite Hw|].
  destruct (seal cli _ _) as [cli' encFin].
  pose proof (connWrite_out e (fst w) encFin) as Hw2. rewrite Hw in Hw2.
  set (w2 := connWrite e (fst w) encFin) in *.
  assert (Hu : undecided (fst w2)) by (exists ok; by rewrite Hw2).
  apply wp_written; [done|].
  do 2 (apply wp_attempt; apply safe_as_wp; [apply newRecordProtector_safe|intros ?|by intros]).
  destruct (String.eqb sni ""); [done|].
  destruct (seal _ (httpRequest sni) _) as [? appRec].
  pose proof (connWrite_out e (fst w2) appRec) as Hw3.
  destruct (connWrite e (fst w2) appRec) as [st' o]. cbn in *.
  exists ok. by rewrite Hw3, Hw2.
Qed.

Lemma wp_postPhase (s : postState (C := C) (K := K)) E :
  nstInv (poNst s) -> wp (postPhase s) nstInv E.
Proof.
  intros Hs. unfold postPhase. wp_step.
  apply (wp_loop _ (fun s => nstInv (poNst s)) (fun s => length (pending (poConn s))));
    [|done|lia].
  intros s1 Hs1. unfold postTurn. pose proof (wp_readPlaintextRecord (poConn s1)) as Hr.
  destruct (readPlaintextRecord (poConn s1)) as [[rec c]|e| |]; try done; cbn in Hr.
  destruct Hr as (ver & Hv & _ & Hp). pose proof (record_shorter _ _ _ _ _ Hv Hp) as Hless.
  destruct (beq _ _); [done|]. destruct (negb _); [done|].
  pose proof (open_spec (poProt s1) (rebuildRecord (payload rec))) as [Ho _].
  destruct (open (poProt s1) _) as [prot opened]. cbn [snd] in Ho.
  destruct opened as [[pt ity]|e| |]; try done.
  destruct (beq _ _); [done|]. destruct (negb _); [done|]. wp_step.
  eapply wp_mono; [by apply wp_nstMessages| |done]. intros nst Hn. done.
Qed.

(** The result of the whole probe. *)
Definition probePost (r : run + failure) : Prop :=
  phase (fun st => exists nst, nstInv nst /\ out st = verdict true nst) r.

Lemma wp_probe e sni c E :
  entropySafe (randomness e) -> wp (probeTLS13EarlyData (K := K) e sni c) probePost E.
Proof.
  intros He. unfold probeTLS13EarlyData.
  apply wp_andThen. eapply wp_mono; [by apply wp_helloPhase| |done].
  intros [hd|[st err]]; [|done]. intros (Hu & _).
  apply wp_andThen. eapply wp_mono; [by apply wp_handshakeKeys| |done].
  intros [[[ks srv] cli]|[st err]]; [intros _|done].
  apply wp_andThen. eapply wp_mono; [by apply wp_drainPhase| |done].
  intros [d|[st err]]; [|done]. intros (_ & Hok & _). rewrite Hok.
  apply wp_andThen. eapply wp_mono; [apply wp_finishPhase| |done]; [destruct Hu as [b ->]; by exists true|].
  intros [[st srvApp]|[st err]]; [intros _|done].
  wp_step. eapply wp_mono; [by apply wp_postPhase| |done].
  intros nst Hn. cbn. eauto.
Qed.
End Total.

(** ** An honest server *)

Section Honest.
Context {C : Type} `{Reader C} `{HkdfExpand} {K : Type} `{Aead K} {Key : Type} `{X25519 Key}.

Lemma newRecordProtector_ok secret : exists r, newRecordProtector (K := K) secret = Ret r.
Proof.
  unfold newRecordProtector, recordKeys. cbn beta iota.
  assert (Hk : blen (hkdfExpandLabel secret "key" [] 16) = 16).
  { unfold hkdfExpandLabel. set (info := hkdfLabelBytes _ _ _).
    destruct (hkdfRead_ok secret info 16 ltac:(lia)) as (b & -> & Hb). done. }
  destruct (newAEAD_16 _ Hk) as [k ->]. cbn. eauto.
Qed.

(** A sealed record on the wire is a record, and what is rebuilt of it after
    it was read is the sealed record again. *)
Lemma seal_record (w : recordProtector K) pt ty :
  blen pt + 17 < 65536 ->
  exists ct, snd (seal w pt ty) = encRecord recordApplicationData [x03; x03] ct /\
    blen ct = blen pt + 17 /\ rebuildRecord ct = snd (seal w pt ty).
Proof.
  intros Hl. pose proof (blen_nonneg pt). unfold seal. cbn [snd].
  assert (Hc : blen (pt ++ [ty]) + aeadOverhead = blen pt + 17)
    by (unfold aeadOverhead; autorewrite with blen; lia).
  rewrite Hc, u16_small by lia.
  set (hdr := [recordApplicationData; x03; x03] ++ putBE16 (blen pt + 17)).
  set (ct := aeadSeal _ _ _ _). exists ct.
  assert (Hct : blen ct = blen pt + 17)
    by (unfold ct; rewrite aeadSeal_length; autorewrite with blen; lia).
  unfold encRecord, rebuildRecord. rewrite Hct, u16_small by lia. done.
Qed.

(** What a turn of either reading loop does with one sealed record. *)
Lemma read_sealed (c : C) (w r : recordProtector K) pt ty rest :
  pending c = snd (seal w pt ty) ++ rest -> inSync w r -> ty <> x00 -> blen pt <= 16623 ->
  exists p c', readPlaintextRecord c = Ret ({| contentType := recordApplicationData; payload := p |}, c') /\
    pending c' = rest /\ open r (rebuildRecord p) = (bumpSeq r, Ret (pt, ty)).
Proof.
  intros Hp Hs Hty Hl. destruct (seal_record w pt ty ltac:(lia)) as (ct & He & Hct & Hr).
  rewrite He in Hp. destruct (readPlaintextRecord_record c recordApplicationData x03 ct rest)
    as (c' & Hread & Hrest); [done|by right|lia|].
  exists ct, c'. split; [done|]. split; [done|]. rewrite Hr. apply open_seal; [done|done|lia].
Qed.

(** The flight: messages of which only the last is a Finished, cut into
    records anywhere. *)
Definition flightOk (ms : list (byte * bytes)) (fin : bytes) : Prop :=
  Forall (fun m => msgOk m /\ fst m <> hsFinished) ms /\ blen fin < 16777216.

Definition handshakeRecords (chunks : list bytes) : list (bytes * byte) :=
  map (fun c => (c, recordHandshake)) chunks.

Definition chunkOk (c : bytes) : Prop := c <> [] /\ blen c <= 16384.

Lemma flightOk_msgs ms fin : flightOk ms fin -> Forall msgOk (ms ++ [(hsFinished, fin)]).
Proof.
  intros [Hms Hf]. apply Forall_app. split; [|by constructor].
  eapply Forall_impl; [|exact Hms]. cbn. tauto.
Qed.

Lemma not_finished ms fin :
  flightOk ms fin -> existsb (fun m => beq (fst m) hsFinished) ms = false.
Proof.
  intros [Hms _]. induction Hms as [|m ms [_ Hm] _ IH]; [done|]. cbn. rewrite IH, orb_false_r.
  destruct (beq (fst m) hsFinished) eqn:E; [|done]. by apply beq_true in E.
Qed.

(** Taking a chunk out of the flight. *)
Lemma flight_step buf c cs ms fin :
  flightOk ms fin -> buf ++ c ++ concat cs = encMsgs (ms ++ [(hsFinished, fin)]) ->
  Forall chunkOk cs ->
  exists ms1 r1, Forall msgOk ms1 /\ incomplete r1 /\ buf ++ c = encMsgs ms1 ++ r1 /\
    ((cs = [] /\ r1 = [] /\ ms1 = ms ++ [(hsFinished, fin)]) \/
     (cs <> [] /\ exists ms2, ms = ms1 ++ ms2 /\ flightOk ms1 fin /\ flightOk ms2 fin /\
       r1 ++ concat cs = encMsgs (ms2 ++ [(hsFinished, fin)]))).
Proof.
  intros Hfl Heq Hcs. destruct (messages_split (buf ++ c)) as (ms1 & r1 & Hb & Ho1 & Hi).
  exists ms1, r1. split; [done|]. split; [done|]. split; [done|].
  rewrite app_assoc, Hb, <- app_assoc in Heq.
  destruct (messages_prefix ms1 r1 (concat cs) _ Heq Ho1 (flightOk_msgs _ _ Hfl)) as (ms2 & Hms & Hr).
  destruct cs as [|c' cs].
  - left. cbn in Hr. rewrite app_nil_r in Hr. split; [done|].
    destruct ms2 as [|m ms2]; [by rewrite app_nil_r in Hms|]. exfalso.
    assert (Ho : Forall msgOk (ms1 ++ m :: ms2)) by (rewrite <- Hms; by apply flightOk_msgs).
    apply Forall_app in Ho as [_ Ho]. inversion_clear Ho. by apply (Hi m (encMsgs ms2)).
  - right. split; [done|]. inversion_clear Hcs as [|? ? [Hne _] _].
    destruct ms2 as [|m ms2 _] using rev_ind.
    { cbn in Hr. apply app_eq_nil in Hr as [_ Hr]. cbn in Hr. apply app_eq_nil in Hr as [? _]. done. }
    rewrite app_assoc in Hms. apply app_inj_tail in Hms as [-> <-].
    exists ms2. destruct Hfl as [Hfl Hf]. apply Forall_app in Hfl as [? ?]. by repeat split.
Qed.

Definition drained (tr : bytes) (ms : list (byte * bytes)) (fin : bytes) : hsState :=
  {| hsBuffer := []; hsTranscript := tr ++ encMsgs (ms ++ [(hsFinished, fin)]);
     hsOK := true; gotFinished := true |}.

Lemma drain_flight st chunks : forall (d : drainState (C := C) (K := K)) w rest ms fin fuel,
  pending (drConn d) = concat (sealAll w (handshakeRecords chunks)) ++ rest ->
  inSync w (drProt d) -> Forall chunkOk chunks -> flightOk ms fin ->
  hsBuffer (drHs d) ++ concat chunks = encMsgs (ms ++ [(hsFinished, fin)]) ->
  incomplete (hsBuffer (drHs d)) -> gotFinished (drHs d) = false ->
  (length chunks < fuel)%nat ->
  exists d', loop (drainTurn st) fuel d = Ret (inl d') /\ pending (drConn d') = rest /\
             drHs d' = drained (hsTranscript (drHs d)) ms fin.
Proof.
  induction chunks as [|c cs IH]; intros d w rest ms fin fuel Hp Hsync Hch Hfl Hb Hi Hg Hfuel;
    (destruct fuel as [|fuel]; [lia|]).
  { exfalso. cbn in Hb. rewrite app_nil_r in Hb.
    destruct ms as [|m ms]; [apply (Hi (hsFinished, fin) []); [apply Hfl|done]|].
    destruct Hfl as [Hms _]. inversion_clear Hms as [|? ? [Hm _] _].
    by apply (Hi m (encMsgs (ms ++ [(hsFinished, fin)]))). }
  inversion_clear Hch as [|? ? [Hne Hl] Hcs]. cbn [loop]. unfold drainTurn at 1. rewrite Hg.
  cbn [handshakeRecords map sealAll] in Hp.
  destruct (seal w c recordHandshake) as [w' rec] eqn:Eseal. cbn [concat] in Hp.
  rewrite <- app_assoc in Hp.
  destruct (read_sealed (drConn d) w (drProt d) c recordHandshake
    (concat (sealAll w' (handshakeRecords cs)) ++ rest)) as (p & c' & -> & Hp' & Ho);
    [by rewrite Eseal|done|done|lia|].
  cbn [contentType payload]. rewrite Ho; clear Ho. change (beq recordApplicationData recordChangeCipherSpec) with false.
  change (beq recordApplicationData recordApplicationData) with true.
  change (beq recordHandshake recordHandshake) with true. cbn [negb].
  cbn [concat] in Hb. destruct (flight_step _ _ _ _ _ Hfl Hb Hcs) as (ms1 & r1 & Ho & Hi1 & Hbc & Hcase).
  rewrite (hsMessages_spec _ ms1 r1) by done. cbn [bind].
  set (d1 := {| drConn := c'; drProt := _; drHs := _ |}).
  assert (Hsync' : inSync w' (bumpSeq (drProt d))).
  { replace w' with (bumpSeq w) by (unfold seal in Eseal; by injection Eseal). by apply inSync_bump. }
  destruct Hcase as [(-> & -> & ->)|(Hcs' & ms2 & -> & Hf1 & Hf2 & Hr)].
  - exists d1. split; [|split; [done|]].
    + destruct fuel as [|fuel]; [cbn in Hfuel; lia|]. cbn [loop]. unfold drainTurn at 1.
      cbn [d1 drHs hsApply gotFinished]. rewrite existsb_app. cbn. by rewrite !orb_true_r.
    + unfold d1, drained, hsApply. cbn. rewrite existsb_app. cbn. rewrite !orb_true_r.
      f_equal. by destruct ms; [|rewrite orb_true_r]; rewrite ?orb_true_r.
  - destruct (IH d1 w' rest ms2 fin fuel) as (d' & Hl' & Hpd & Hd'); try done; [|cbn in Hfuel; lia|].
    { cbn [d1 drHs hsApply gotFinished]. by rewrite (not_finished _ _ Hf1). }
    exists d'. split; [done|]. split; [done|]. rewrite Hd'. unfold drained. cbn [d1 drHs hsApply hsTranscript].
    unfold encMsgs. by rewrite <- (app_assoc ms1), (flat_map_app _ ms1), <- app_assoc.
Qed.

(** The change_cipher_spec record a server may send in between. *)
Definition ccsRecord : bytes := encRecord recordChangeCipherSpec [x03; x03] [x01].
Definition maybeCCS (ccs : bool) : bytes := if ccs then ccsRecord else [].

Lemma drain_ccs st (ccs : bool) (d : drainState (C := C) (K := K)) rest fuel :
  pending (drConn d) = maybeCCS ccs ++ rest -> gotFinished (drHs d) = false ->
  exists c', pending c' = rest /\
    loop (drainTurn st) ((if ccs then 1 else 0) + fuel) d
    = loop (drainTurn st) fuel {| drConn := c'; drProt := drProt d; drHs := drHs d |}.
Proof.
  intros Hp Hg. destruct ccs; cbn [maybeCCS app] in Hp.
  - destruct (readPlaintextRecord_record (drConn d) recordChangeCipherSpec x03 [x01] rest)
      as (c' & Hr & Hc); [done|by right|done|].
    exists c'. split; [done|]. cbn [Nat.add loop]. unfold drainTurn at 1. by rewrite Hg, Hr.
  - exists (drConn d). split; [done|]. by destruct d.
Qed.

Lemma sealAll_length (w : recordProtector K) ms :
  (length ms <= length (concat (sealAll w ms)))%nat.
Proof.
  revert w. induction ms as [|[pt ty] ms IH]; intros w; [cbn; lia|]. cbn [sealAll].
  destruct (seal w pt ty) as [w' rec] eqn:E. cbn [concat]. rewrite length_app.
  pose proof (seal_length w pt ty) as Hl. rewrite E in Hl. cbn [snd] in Hl.
  pose proof (blen_nonneg pt). specialize (IH w'). unfold blen in *. cbn [length]. lia.
Qed.

Lemma drainPhase_flight st (d : drainState (C := C) (K := K)) w ccs chunks ms fin rest :
  pending (drConn d) = maybeCCS ccs ++ concat (sealAll w (handshakeRecords chunks)) ++ rest ->
  inSync w (drProt d) -> Forall chunkOk chunks -> flightOk ms fin ->
  concat chunks = encMsgs (ms ++ [(hsFinished, fin)]) ->
  hsBuffer (drHs d) = [] -> gotFinished (drHs d) = false ->
  exists d', drainPhase st d = Ret (inl d') /\ pending (drConn d') = rest /\
             drHs d' = drained (hsTranscript (drHs d)) ms fin.
Proof.
  intros Hp Hs Hch Hfl Hb Hbuf Hg. unfold drainPhase.
  assert (Hlen : (length chunks + (if ccs then 1 else 0) <= length (pending (drConn d)))%nat).
  { rewrite Hp, !length_app. pose proof (sealAll_length w (handshakeRecords chunks)) as Hl.
    unfold handshakeRecords in Hl at 1. rewrite length_map in Hl.
    destruct ccs; cbn [maybeCCS ccsRecord length]; [|cbn; lia]. cbn. lia. }
  set (fuel := S (length (pending (drConn d)))).
  replace fuel with ((if ccs then 1 else 0) + (fuel - (if ccs then 1 else 0)))%nat by (destruct ccs; lia).
  destruct (drain_ccs st ccs d _ (fuel - (if ccs then 1 else 0)) Hp Hg) as (c' & Hc & ->).
  destruct (drain_flight st chunks {| drConn := c'; drProt := drProt d; drHs := drHs d |} w rest ms fin
    (fuel - (if ccs then 1 else 0))) as (d' & Hd); cbn [drConn drProt drHs]; try done.
  - by rewrite Hbuf.
  - rewrite Hbuf. apply incomplete_nil.
  - lia.
  - exists d'. done.
Qed.

(** Tickets, one or more to a record. *)
Definition ticketRecords (batches : list (list (byte * bytes))) : list (bytes * byte) :=
  map (fun ms => (encMsgs ms, recordHandshake)) batches.
Definition batchOk (ms : list (byte * bytes)) : Prop :=
  Forall msgOk ms /\ blen (encMsgs ms) <= 16384.

Lemma post_records batches : forall (s : postState (C := C) (K := K)) w fuel,
  pending (poConn s) = concat (sealAll w (ticketRecords batches)) ->
  inSync w (poProt s) -> Forall batchOk batches -> (length batches < fuel)%nat ->
  exists s', loop postTurn fuel s = Ret (inl s') /\
             poNst s' = fold_left nstApply (concat batches) (poNst s).
Proof.
  induction batches as [|ms bs IH]; intros s w fuel Hp Hsync Hok Hf;
    (destruct fuel as [|fuel]; [lia|]); cbn [loop]; unfold postTurn at 1.
  { rewrite readPlaintextRecord_eof by done. eauto. }
  inversion_clear Hok as [|? ? [Hms Hl] Hbs]. cbn [ticketRecords map sealAll] in Hp.
  destruct (seal w (encMsgs ms) recordHandshake) as [w' rec] eqn:Eseal. cbn [concat] in Hp.
  destruct (read_sealed (poConn s) w (poProt s) (encMsgs ms) recordHandshake
    (concat (sealAll w' (ticketRecords bs)))) as (p & c' & -> & Hp' & Ho);
    [by rewrite Eseal|done|done|lia|].
  cbn [contentType payload]. rewrite Ho.
  change (beq recordApplicationData recordChangeCipherSpec) with false.
  change (beq recordApplicationData recordApplicationData) with true.
  change (beq recordHandshake recordAlert) with false.
  change (beq recordHandshake recordHandshake) with true. cbn [negb].
  rewrite <- (app_nil_r (encMsgs ms)), nstMessages_spec by (done || apply incomplete_nil). cbn [bind].
  destruct (IH {| poConn := c'; poProt := bumpSeq (poProt s); poNst := fold_left nstApply ms (poNst s) |}
    w' fuel) as (s' & Hs' & Hn); [done| |done|cbn in Hf; lia|].
  { replace w' with (bumpSeq w) by (unfold seal in Eseal; by injection Eseal). by apply inSync_bump. }
  exists s'. split; [done|]. rewrite Hn. cbn [poNst concat]. by rewrite fold_left_app.
Qed.

Lemma postPhase_tickets (s : postState (C := C) (K := K)) w batches :
  pending (poConn s) = concat (sealAll w (ticketRecords batches)) ->
  inSync w (poProt s) -> Forall batchOk batches ->
  postPhase s = Ret (fold_left nstApply (concat batches) (poNst s)).
Proof.
  intros Hp Hs Hb. unfold postPhase.
  destruct (post_records batches s w (S (length (pending (poConn s)))) Hp Hs Hb) as (s' & -> & Hn).
  - rewrite Hp. pose proof (sealAll_length w (ticketRecords batches)) as Hl.
    unfold ticketRecords in Hl at 1. rewrite length_map in Hl. lia.
  - cbn [bind]. by rewrite Hn.
Qed.
End Honest.

(** ** Claims about the encrypted flight *)

(** C3. Reassembly of handshake messages: however the records cut the flight,
    the message loop never panics, loses no byte (what leaves [hsBuffer] enters
    the transcript, in order), stops only at bytes that are no complete message,
    and handing it the flight in two pieces gives the state the whole gives. *)
Theorem hsMessages_reassembly tr p q :
  let start b := {| hsBuffer := b; hsTranscript := tr; hsOK := false; gotFinished := false |} in
  exists s, hsMessages (start p) = Ret s /\
    hsTranscript s ++ hsBuffer s = tr ++ p /\ incomplete (hsBuffer s) /\
    hsMessages {| hsBuffer := hsBuffer s ++ q; hsTranscript := hsTranscript s; hsOK := hsOK s;
                  gotFinished := gotFinished s |}
    = hsMessages (start (p ++ q)).
Proof.
  intros start. destruct (hsMessages_conserve (start p)) as (s & Hs & Hc & Hi).
  exists s. split; [done|]. split; [done|]. split; [done|]. exact (hsMessages_app (start p) q s Hs).
Qed.
