(* ===== verification/Tls13Probe.v ===== *)
(** What the 0-RTT probe of [tls13_handshake.go] reports of a server: an
    abstract honest server, whose flight and tickets are any messages cut into
    records anywhere, and the probe's verdict on it. *)

From Stdlib Require Import ZArith List String Ascii Strings.Byte Lia Bool.
From stdpp Require Import base list strings numbers.
From S2P Require Import Prelude Bytes GoStrings Digest Stream Extensions Flight ServerHello Tls13Hello.
From S2P Require Import Tls13Record Tls13Handshake.
Open Scope Z_scope.

(** ** The server *)

Record server := {
  svRandom : bytes;
  svSessionID : bytes;
  (** the ServerHello's extensions before and after key_share *)
  svPre : list (Z * bytes);
  svPost : list (Z * bytes);
  svPub : bytes;
  svCCS : bool;
  (** the encrypted flight: messages, the Finished that ends it, and how it is
      cut into records *)
  svFlight : list (byte * bytes);
  svFinished : bytes;
  svChunks : list bytes;
  (** the messages after the handshake, record by record *)
  svTickets : list (list (byte * bytes))
}.

Definition serverExts (sv : server) : bytes :=
  encExts (svPre sv ++ (extKeyShare, keyShareData (svPub sv)) :: svPost sv).
Definition serverHelloMsg (sv : server) : bytes :=
  encMsg hsServerHello
    (encServerHello (svRandom sv) (svSessionID sv) tls13CipherAES128GCMSHA256 x00 (serverExts sv)).
Definition serverFlight (sv : server) : bytes := encMsgs (svFlight sv ++ [(hsFinished, svFinished sv)]).

Record serverOk (sv : server) : Prop := {
  ok_random : blen (svRandom sv) = 32 /\ svRandom sv <> hrrRandom;
  ok_sid : blen (svSessionID sv) <= 32;
  ok_pub : 0 < blen (svPub sv) < 65000;
  ok_exts : Forall extOk (svPre sv ++ svPost sv);
  ok_share : Forall (fun e => fst e <> extKeyShare) (svPre sv ++ svPost sv);
  ok_size : blen (serverExts sv) <= 16000;
  ok_flight : flightOk (svFlight sv) (svFinished sv);
  ok_chunks : Forall chunkOk (svChunks sv);
  ok_cut : concat (svChunks sv) = serverFlight sv;
  ok_tickets : Forall batchOk (svTickets sv)
}.

(** The messages after the handshake, as the probe tallies them. *)
Definition ticketTally (sv : server) : nstState :=
  fold_left nstApply (concat (svTickets sv)) {| nstSeen := false; nstMax := 0 |}.

Section Probe.
Context {C : Type} `{Reader C} `{HkdfExpand} {K : Type} `{Aead K} {Key : Type} `{X25519 Key}.

(** A network that works. *)
Definition goodEnv (rnd sid : bytes) (k : Key) : env (C := C) (Key := Key) :=
  {| dialErr := None; writeErr := fun _ => None; randomness := goodEntropy rnd sid k;
     postWindow := id |}.

(** The client's hello, and the keys both sides derive from the shared secret. *)
Definition helloOf (sni : string) (rnd sid : bytes) (k : Key) : bytes :=
  encMsg hsClientHello (clientHelloBody sni rnd sid (publicKeyBytes k)).
Definition scheduleOf (ch sh shared : bytes) : tls13KeySchedule :=
  deriveHandshakeSecret newTLS13KeySchedule shared (snapshotHash (ch ++ sh)).
Definition masterOf (ks : tls13KeySchedule) (tr : bytes) : tls13KeySchedule :=
  deriveMasterSecret ks (snapshotHash tr).

Definition serverStream (sv : server) (w wApp : recordProtector K) : bytes :=
  encRecord recordHandshake [x03; x03] (serverHelloMsg sv) ++ maybeCCS (svCCS sv)
  ++ concat (sealAll w (handshakeRecords (svChunks sv)))
  ++ concat (sealAll wApp (ticketRecords (svTickets sv))).

(** One conversation: who speaks to whom, with which keys. *)
Record conversation := {
  cvSni : string; cvRandom : bytes; cvSessionID : bytes; cvKey : Key;
  cvServer : server; cvPeer : bytes; cvShared : bytes;
  cvServerHs : recordProtector K; cvServerApp : recordProtector K;
  cvClientHs : recordProtector K; cvClientApp : recordProtector K
}.
Definition cvHello (cv : conversation) : bytes :=
  helloOf (cvSni cv) (cvRandom cv) (cvSessionID cv) (cvKey cv).
Definition cvSchedule (cv : conversation) : tls13KeySchedule :=
  scheduleOf (cvHello cv) (serverHelloMsg (cvServer cv)) (cvShared cv).
Definition cvTranscript (cv : conversation) : bytes :=
  (cvHello cv ++ serverHelloMsg (cvServer cv)) ++ serverFlight (cvServer cv).
Definition cvMaster (cv : conversation) : tls13KeySchedule :=
  masterOf (cvSchedule cv) (cvTranscript cv).

Record conversationOk (cv : conversation) : Prop := {
  cv_server : serverOk (cvServer cv);
  cv_peer : newPublicKey (svPub (cvServer cv)) = Ret (cvPeer cv);
  cv_shared : ecdhShared (cvKey cv) (cvPeer cv) = Ret (cvShared cv);
  cv_serverHs : newRecordProtector (serverHandshakeTraffic (cvSchedule cv)) = Ret (cvServerHs cv);
  cv_clientHs : newRecordProtector (clientHandshakeTraffic (cvSchedule cv)) = Ret (cvClientHs cv);
  cv_serverApp : newRecordProtector (serverApplicationTraffic (cvMaster cv)) = Ret (cvServerApp cv);
  cv_clientApp : newRecordProtector (clientApplicationTraffic (cvMaster cv)) = Ret (cvClientApp cv)
}.

(** The records the probe puts on the wire, write by write. *)
Definition plainRecord (ty : byte) (p : bytes) : list bytes :=
  [[ty; x03; x03] ++ putBE16 (u16 (blen p)); p].
Definition clientWrites (cv : conversation) : list bytes :=
  plainRecord recordHandshake (cvHello cv)
  ++ plainRecord recordChangeCipherSpec [x01]
  ++ [snd (seal (cvClientHs cv)
            (finishedMsg (cvSchedule cv) (snapshotHash (cvTranscript cv))) recordHandshake)]
  ++ (if String.eqb (cvSni cv) "" then []
      else [snd (seal (cvClientApp cv) (httpRequest (cvSni cv)) recordApplicationData)]).

(** *** The phases on a conversation *)

Lemma parse_serverHelloMsg sv :
  serverOk sv ->
  parseServerHello (serverHelloMsg sv)
  = Ret {| shRandom := svRandom sv; shCipherSuite := tls13CipherAES128GCMSHA256;
           x25519ServerPub := svPub sv; helloRetryRequest := false; shBytes := serverHelloMsg sv |}.
Proof.
  intros Hok. destruct (ok_random sv Hok) as [Hr Hn].
  pose proof (ok_sid sv Hok). pose proof (ok_pub sv Hok). pose proof (ok_size sv Hok).
  unfold serverHelloMsg. rewrite <- (app_nil_r (encMsg _ _)) at 1. rewrite parseServerHello_msg.
  - rewrite parseServerHelloBody_fields by (split; [done|lia|vm_compute; split; congruence|lia]).
    unfold serverExts at 1.
    rewrite shExtensions_share by (apply Hok || lia). cbn [bind].
    rewrite bool_decide_false by done. cbn [negb andb errWhen].
    by rewrite (proj2 (Z.eqb_neq _ _)) by lia.
  - rewrite blen_encServerHello by done. lia.
Qed.

Lemma blen_serverHelloMsg sv :
  serverOk sv -> blen (serverHelloMsg sv) = 44 + blen (svSessionID sv) + blen (serverExts sv).
Proof.
  intros Hok. unfold serverHelloMsg.
  rewrite encMsg_length, blen_encServerHello by apply Hok. lia.
Qed.

Lemma helloPhase_server sv sni rnd sid k (c : C) rest :
  serverOk sv ->
  pending c = encRecord recordHandshake [x03; x03] (serverHelloMsg sv) ++ rest ->
  exists c' hd, helloPhase (goodEnv rnd sid k) sni c = Ret (inl hd) /\ pending c' = rest /\
    hd = {| hdRun := {| out := zeroResult; sent := plainRecord recordHandshake (helloOf sni rnd sid k) |};
            hdConn := c';
            hdHello := {| chBytes := helloOf sni rnd sid k; chRandom := rnd; chSessionID := sid;
                          x25519Priv := k; x25519Pub := publicKeyBytes k |};
            hdServer := {| shRandom := svRandom sv; shCipherSuite := tls13CipherAES128GCMSHA256;
                           x25519ServerPub := svPub sv; helloRetryRequest := false;
                           shBytes := serverHelloMsg sv |};
            hdTranscript := helloOf sni rnd sid k ++ serverHelloMsg sv |}.
Proof.
  intros Hok Hp.
  destruct (readPlaintextRecord_record c recordHandshake x03 (serverHelloMsg sv) rest) as (c' & Hr & Hc);
    [done|by right| |].
  { rewrite blen_serverHelloMsg by done. pose proof (ok_sid sv Hok). pose proof (ok_size sv Hok). lia. }
  do 2 eexists. split; [|split; [exact Hc|reflexivity]].
  unfold helloPhase. cbn [dialErr goodEnv randomness]. unfold buildClientHello.
  cbn [goodEntropy randRandom randSessionID randKey bind attempt chBytes].
  change (([hsClientHello] ++ putBE24 ?n) ++ ?b) with (encMsg hsClientHello b).
  fold (helloOf sni rnd sid k). cbn [writeRecord connWrite writeErr written goodEnv sent app].
  rewrite Hr. cbn [attempt contentType payload]. change (beq recordHandshake recordHandshake) with true.
  cbn [negb]. rewrite parse_serverHelloMsg by done. cbn [attempt shCipherSuite helloRetryRequest shBytes].
  by rewrite Z.eqb_refl.
Qed.

Lemma finishPhase_good rnd sid k st sni ks (cli : recordProtector K) tr srvApp cliApp :
  newRecordProtector (serverApplicationTraffic (masterOf ks tr)) = Ret srvApp ->
  newRecordProtector (clientApplicationTraffic (masterOf ks tr)) = Ret cliApp ->
  finishPhase (goodEnv rnd sid k) st sni ks cli tr
  = Ret (inl ({| out := out st;
                 sent := sent st ++ plainRecord recordChangeCipherSpec [x01]
                   ++ [snd (seal cli (finishedMsg ks (snapshotHash tr)) recordHandshake)]
                   ++ (if String.eqb sni "" then []
                       else [snd (seal cliApp (httpRequest sni) recordApplicationData)]) |}, srvApp)).
Proof.
  unfold masterOf. intros Hs Hc. unfold finishPhase, writeRecord, connWrite.
  cbn [goodEnv writeErr written out sent]. rewrite Hs, Hc.
  cbn [attempt]. unfold plainRecord.
  destruct (seal cli _ _) as [? encFin], (seal cliApp _ _) as [? req].
  destruct (String.eqb sni ""); cbn [app snd]; rewrite <- ?app_assoc; done.
Qed.

(** The probe of a conversation, run to its end. *)
Lemma probe_conversation (cv : conversation) (c : C) :
  conversationOk cv ->
  pending c = serverStream (cvServer cv) (cvServerHs cv) (cvServerApp cv) ->
  probeTLS13EarlyData (goodEnv (cvRandom cv) (cvSessionID cv) (cvKey cv)) (cvSni cv) c
  = Ret (inl {| out := verdict true (ticketTally (cvServer cv)); sent := clientWrites cv |}).
Proof.
  intros Hcv Hp. pose proof (cv_server cv Hcv) as Hok. unfold probeTLS13EarlyData.
  destruct (helloPhase_server (cvServer cv) (cvSni cv) (cvRandom cv) (cvSessionID cv) (cvKey cv) c
    _ Hok Hp) as (c1 & hd & -> & Hp1 & ->).
  unfold andThen at 1. cbn [bind]. unfold handshakeKeys.
  cbn [hdServer x25519ServerPub hdHello x25519Priv hdTranscript hdRun hdConn].
  rewrite (cv_peer cv Hcv). cbn [attempt]. rewrite (cv_shared cv Hcv). cbn [attempt].
  fold (cvHello cv). fold (scheduleOf (cvHello cv) (serverHelloMsg (cvServer cv)) (cvShared cv)).
  fold (cvSchedule cv). rewrite (cv_serverHs cv Hcv), (cv_clientHs cv Hcv).
  cbn [attempt]. unfold andThen at 1. cbn [bind].
  match goal with |- context [drainPhase ?st0 ?d0] =>
    destruct (drainPhase_flight st0 d0 (cvServerHs cv) (svCCS (cvServer cv)) (svChunks (cvServer cv))
      (svFlight (cvServer cv)) (svFinished (cvServer cv)) _ Hp1) as (d & -> & Hpd & Hd);
      [done|apply Hok|apply Hok|apply Hok|done|done|] end.
  unfold andThen at 1. cbn [bind]. rewrite Hd. cbn [drained hsTranscript hsOK drHs].
  fold (serverFlight (cvServer cv)). fold (cvTranscript cv).
  rewrite (finishPhase_good _ _ _ _ _ _ _ _ _ _ (cv_serverApp cv Hcv) (cv_clientApp cv Hcv)).
  unfold andThen at 1. cbn [bind out sent].
  rewrite (postPhase_tickets _ (cvServerApp cv) (svTickets (cvServer cv))); [done| |done|apply Hok].
  done.
Qed.
End Probe.

(** ** The tally of tickets *)

Definition ticketMsg (t : tls13NewSessionTicket) (exts : bytes) : byte * bytes :=
  (hsNewSessionTicket, encNST t exts).
Definition earlyDataExts (pre post : list (Z * bytes)) (n : Z) : bytes :=
  encExts (pre ++ (extEarlyData, putBE32 n) :: post).

Lemma nstApply_early s t pre post n :
  nstParts t (earlyDataExts pre post n) ->
  Forall extOk (pre ++ post) -> Forall (fun e => fst e <> extEarlyData) (pre ++ post) ->
  0 <= n < 4294967296 ->
  nstApply s (ticketMsg t (earlyDataExts pre post n))
  = {| nstSeen := true; nstMax := Z.max (nstMax s) n |}.
Proof.
  intros Ht Ho Hn Hr. unfold nstApply, ticketMsg. cbn [fst snd].
  change (beq hsNewSessionTicket hsNewSessionTicket) with true. cbn iota.
  rewrite parseNewSessionTicket_fields by done. unfold earlyDataExts.
  rewrite nstExtensions_earlyData by done. done.
Qed.

(** Messages that are not tickets leave no trace. *)
Lemma nstApply_others s ms :
  Forall (fun m => fst m <> hsNewSessionTicket) ms -> fold_left nstApply ms s = s.
Proof.
  induction 1 as [|m ms Hm _ IH]; [done|]. cbn [fold_left]. unfold nstApply at 2.
  destruct (beq (fst m) hsNewSessionTicket) eqn:E; [by apply beq_true in E|]. done.
Qed.

(** ** The verdict of the probe *)

Section Claims.
Context {C : Type} `{Reader C} `{HkdfExpand} {K : Type} `{Aead K} {Key : Type} `{X25519 Key}.

(** C1. [probeTLS13EarlyData] returns for every peer: whatever bytes the
    stream holds and wherever it ends, no slice bound is exceeded and no loop
    runs on.  A success always has [HandshakeOK], and [ZeroRTTOffered] exactly
    when a ticket was received whose [MaxEarlyData], a [uint32], is positive;
    an error leaves the verdict fields zero. *)
Theorem probe_total (e : env (C := C) (Key := Key)) sni (c : C) :
  entropySafe (randomness e) ->
  exists r, probeTLS13EarlyData (K := K) e sni c = Ret r /\
  match r with
  | inl st =>
      HandshakeOK (out st) = true /\
      (ZeroRTTOffered (out st) = true <->
         NSTReceived (out st) = true /\ 0 < MaxEarlyData (out st)) /\
      0 <= MaxEarlyData (out st) < 4294967296 /\
      (NSTReceived (out st) = false -> MaxEarlyData (out st) = 0)
  | inr (st, _) =>
      NSTReceived (out st) = false /\ MaxEarlyData (out st) = 0 /\
      ZeroRTTOffered (out st) = false /\ Notes (out st) = ""%string
  end.
Proof.
  intros He. pose proof (wp_probe (K := K) e sni c (fun _ => False) He) as Hw.
  destruct (probeTLS13EarlyData e sni c) as [[st|[st err]]| | |]; try done; (eexists; split; [done|]).
  - destruct Hw as (nst & [Hr Hs] & ->). cbn. rewrite andb_true_iff, Z.ltb_lt. done.
  - destruct Hw as [ok Ho]. rewrite Ho. done.
Qed.

(** C2. Against an honest server the handshake completes: for every ServerHello
    with an x25519 share, every encrypted flight cut into records at any
    points, a change_cipher_spec record or none, and any tickets, the probe
    succeeds, its verdict is the tally of the server's tickets, and it has
    written exactly the ClientHello, change_cipher_spec and Finished that the
    key schedule prescribes, then the request. *)
Theorem probe_honest_server (cv : conversation (K := K) (Key := Key)) (c : C) :
  conversationOk cv ->
  pending c = serverStream (cvServer cv) (cvServerHs cv) (cvServerApp cv) ->
  probeTLS13EarlyData (goodEnv (cvRandom cv) (cvSessionID cv) (cvKey cv)) (cvSni cv) c
  = Ret (inl {| out := verdict true (ticketTally (cvServer cv)); sent := clientWrites cv |}).
Proof. apply probe_conversation. Qed.

(** A server that, among any other messages after the handshake, sends one
    NewSessionTicket whose early_data extension says [n] bytes is reported
    with [MaxEarlyData = n], and as offering 0-RTT exactly when [n > 0]. *)
Theorem probe_reports_early_data (cv : conversation (K := K) (Key := Key)) (c : C)
    t pre post n before after :
  conversationOk cv ->
  pending c = serverStream (cvServer cv) (cvServerHs cv) (cvServerApp cv) ->
  concat (svTickets (cvServer cv)) = before ++ ticketMsg t (earlyDataExts pre post n) :: after ->
  Forall (fun m => fst m <> hsNewSessionTicket) (before ++ after) ->
  nstParts t (earlyDataExts pre post n) ->
  Forall extOk (pre ++ post) -> Forall (fun e => fst e <> extEarlyData) (pre ++ post) ->
  0 <= n < 4294967296 ->
  exists st,
    probeTLS13EarlyData (goodEnv (cvRandom cv) (cvSessionID cv) (cvKey cv)) (cvSni cv) c
    = Ret (inl st) /\
    NSTReceived (out st) = true /\ MaxEarlyData (out st) = n /\
    ZeroRTTOffered (out st) = (0 <? n).
Proof.
  intros Hcv Hp Ht Ho Hparts Hok Hne Hn. rewrite (probe_conversation cv c Hcv Hp).
  eexists. split; [done|]. cbn [out].
  assert (Htally : ticketTally (cvServer cv) = {| nstSeen := true; nstMax := n |}).
  { apply Forall_app in Ho as [Hb Ha].
    unfold ticketTally. rewrite Ht, fold_left_app, (nstApply_others _ before) by done.
    cbn [fold_left]. rewrite nstApply_early, (nstApply_others _ after) by done. cbn [nstMax].
    by rewrite Z.max_r by lia. }
  by rewrite Htally.
Qed.

(** The probe does send application data: with a server name, the last
    write of a completed handshake is a record which the server, reading with
    the client application keys, opens to an HTTP request for that name. *)
Theorem probe_sends_application_data (cv : conversation (K := K) (Key := Key)) (c : C) r :
  conversationOk cv ->
  pending c = serverStream (cvServer cv) (cvServerHs cv) (cvServerApp cv) ->
  cvSni cv <> ""%string -> slen (cvSni cv) <= 255 -> inSync (cvClientApp cv) r ->
  exists st earlier rec,
    probeTLS13EarlyData (goodEnv (cvRandom cv) (cvSessionID cv) (cvKey cv)) (cvSni cv) c
    = Ret (inl st) /\ sent st = earlier ++ [rec] /\
    snd (open r rec) = Ret (httpRequest (cvSni cv), recordApplicationData).
Proof.
  intros Hcv Hp Hsni Hl Hsync. rewrite (probe_conversation cv c Hcv Hp).
  do 3 eexists. split; [done|]. cbn [sent]. unfold clientWrites.
  rewrite (proj2 (String.eqb_neq _ _)) by done.
  rewrite !app_assoc. split; [done|].
  rewrite open_seal; [done|done|done|].
  unfold httpRequest. rewrite blen_ofString. unfold slen in *.
  rewrite !length_appString. cbn [String.length]. lia.
Qed.
End Claims.

(** ** A conversation, evaluated *)

Module Example.
Import Concrete.

(** A stand-in for X25519 with the documented sizes. *)
Definition toyPublic (k : bytes) : bytes := take 32 (k ++ repeat x00 32).
Definition toyXor (a b : bytes) : bytes :=
  zip_with (fun x y => byteOf (Z.lxor (bval x) (bval y))) a b.
#[export] Program Instance toyX25519 : X25519 bytes := {|
  publicKeyBytes := toyPublic;
  newPublicKey b := if blen b =? 32 then Ret b else Err "crypto/ecdh: invalid public key";
  ecdhShared k b := Ret (toyXor (toyPublic k) b)
|}.
Next Obligation.
  intros k. unfold toyPublic, blen. rewrite length_take, length_app, repeat_length. lia.
Qed.
Next Obligation. intros b. cbn beta. by destruct (blen b =? 32). Qed.
Next Obligation. done. Qed.

Definition protector (secret : bytes) : recordProtector bytes :=
  match newRecordProtector secret with
  | Ret r => r
  | _ => {| rpKey := []; rpIv := []; rpAead := []; rpSeq := 0 |}
  end.

Definition ticketOf : tls13NewSessionTicket :=
  {| lifetime := 7200; ageAdd := 12345; nstNonce := [x00; x01]; ticket := repeat x77 48;
     maxEarlyData := 0 |}.
Definition flightMsgs : list (byte * bytes) := [(x08, [x00; x00]); (x0b, repeat xcc 300)].
Definition flightBytes : bytes := encMsgs (flightMsgs ++ [(hsFinished, repeat x66 32)]).

(** A server that cuts its flight inside message headers and offers 16384 bytes. *)
Definition exServer : server :=
  {| svRandom := repeat x44 32; svSessionID := repeat x22 32;
     svPre := [(extSupportedVersions, [x03; x04])]; svPost := []; svPub := repeat x55 32;
     svCCS := true; svFlight := flightMsgs; svFinished := repeat x66 32;
     svChunks := [take 2 flightBytes; take 7 (drop 2 flightBytes); drop 9 flightBytes];
     svTickets := [[ticketMsg ticketOf (earlyDataExts [] [] 16384)]] |}.

Definition exHello : bytes := helloOf "example.com" (repeat x11 32) (repeat x22 32) (repeat x33 32).
Definition exShared : bytes := toyXor (toyPublic (repeat x33 32)) (repeat x55 32).
Definition exSchedule : tls13KeySchedule := scheduleOf exHello (serverHelloMsg exServer) exShared.
Definition exMaster : tls13KeySchedule :=
  masterOf exSchedule ((exHello ++ serverHelloMsg exServer) ++ serverFlight exServer).

Definition exCv : conversation :=
  {| cvSni := "example.com"; cvRandom := repeat x11 32; cvSessionID := repeat x22 32;
     cvKey := repeat x33 32; cvServer := exServer; cvPeer := repeat x55 32; cvShared := exShared;
     cvServerHs := protector (serverHandshakeTraffic exSchedule);
     cvServerApp := protector (serverApplicationTraffic exMaster);
     cvClientHs := protector (clientHandshakeTraffic exSchedule);
     cvClientApp := protector (clientApplicationTraffic exMaster) |}.

Lemma protector_ok secret : newRecordProtector secret = Ret (protector secret).
Proof.
  unfold protector. by destruct (newRecordProtector_ok (K := bytes) secret) as [r ->].
Qed.

Lemma exServer_ok : serverOk exServer.
Proof.
  assert (Hle : forall a b, (a <=? b) = true -> a <= b) by (intros; by apply Z.leb_le).
  assert (Hlt : forall a b, (a <? b) = true -> a < b) by (intros; by apply Z.ltb_lt).
  split; [split; [done|by vm_compute]|by apply Hle|split; by apply Hlt| | |by apply Hle| | |reflexivity|].
  - repeat constructor; by vm_compute.
  - repeat constructor; by vm_compute.
  - split; [|by apply Hlt]. repeat constructor; cbn [fst snd]; (by apply Hlt) || by vm_compute.
  - repeat constructor; (by apply Hle) || by vm_compute.
  - constructor; [|done]. split; [|by apply Hle]. by repeat constructor.
Qed.

Lemma exCv_ok : conversationOk exCv.
Proof. split; [apply exServer_ok|reflexivity|reflexivity|apply protector_ok..]. Qed.

Definition exStream : bytes := serverStream exServer (cvServerHs exCv) (cvServerApp exCv).

(** The same bytes, a few at a time. *)
Fixpoint dribble (n : nat) (b : bytes) : conn :=
  match n with O => [] | S n => (take 97 b, false) :: dribble n (drop 97 b) end.
Definition exConn : conn := dribble 20 exStream.

Lemma probe_total_witness :
  exists r, probeTLS13EarlyData (C := bytes)
    (goodEnv (repeat x11 32) (repeat x22 32) (repeat x33 32)) "example.com" [x16; x03; x03; xff; xff; x00]
    = Ret r /\
  match r with
  | inl st =>
      HandshakeOK (out st) = true /\
      (ZeroRTTOffered (out st) = true <->
         NSTReceived (out st) = true /\ 0 < MaxEarlyData (out st)) /\
      0 <= MaxEarlyData (out st) < 4294967296 /\
      (NSTReceived (out st) = false -> MaxEarlyData (out st) = 0)
  | inr (st, _) =>
      NSTReceived (out st) = false /\ MaxEarlyData (out st) = 0 /\
      ZeroRTTOffered (out st) = false /\ Notes (out st) = ""%string
  end.
Proof. apply (probe_total (K := bytes)). repeat split. Defined.

Lemma probe_honest_server_witness :
  pending exConn = exStream /\
  probeTLS13EarlyData (goodEnv (repeat x11 32) (repeat x22 32) (repeat x33 32)) "example.com" exConn
  = Ret (inl {| out := verdict true {| nstSeen := true; nstMax := 16384 |};
                sent := clientWrites exCv |}).
Proof.
  split; [vm_compute; reflexivity|].
  change {| nstSeen := true; nstMax := 16384 |} with (ticketTally exServer).
  apply (probe_honest_server exCv exConn exCv_ok). vm_compute. reflexivity.
Defined.

Lemma probe_reports_early_data_witness :
  exists st,
    probeTLS13EarlyData (goodEnv (repeat x11 32) (repeat x22 32) (repeat x33 32)) "example.com" exStream
    = Ret (inl st) /\
    NSTReceived (out st) = true /\ MaxEarlyData (out st) = 16384 /\
    ZeroRTTOffered (out st) = true.
Proof.
  apply (probe_reports_early_data exCv exStream ticketOf [] [] 16384 [] []);
    [apply exCv_ok|reflexivity|reflexivity|done| |done|done|lia].
  split; vm_compute; split; congruence.
Defined.

Lemma probe_sends_application_data_witness :
  exists st earlier rec,
    probeTLS13EarlyData (goodEnv (repeat x11 32) (repeat x22 32) (repeat x33 32)) "example.com" exStream
    = Ret (inl st) /\ sent st = earlier ++ [rec] /\
    snd (open (cvClientApp exCv) rec) = Ret (httpRequest "example.com", recordApplicationData).
Proof.
  apply (probe_sends_application_data exCv exStream (cvClientApp exCv));
    [apply exCv_ok|reflexivity|done|vm_compute; congruence|by repeat split].
Defined.
End Example.
