(* ===== verification/TlsPosture.v ===== *)
(** Findings that the TLS check derives from what it has already seen or from one more
    exchange of the libraries: Winshock ([tls_winshock.go]), BREACH ([tls_breach.go]) and
    the posture on early data ([tls_zero_rtt.go]), which builds on the hand-written
    TLS 1.3 handshake. *)

From Stdlib Require Import ZArith List String Ascii Strings.Byte Lia Bool.
From stdpp Require Import base list strings numbers.
From S2P Require Import Prelude Bytes GoStrings Decimal Result Tls13Handshake.
Open Scope Z_scope.

(** ** Winshock *)

Record winshockResult := { SchannelInferred : bool; InferenceSignals : list string; PatchLevelKnowable : bool; wNote : string }.

Definition schannelJARMPrefixes : list string :=
  ["2ad2ad0002ad2ad0002ad2ad2ad2ad"; "2ad2ad0002ad2ad22c2ad2ad2ad2ad";
   "21d19d00021d21d21c21d19d21d19d"; "2ad000002ad2ad00042ad2ad2ad2ad"]%string.

Definition jarmSignal (jarm : string) : list string :=
  if String.eqb jarm "" then []
  else match find (fun p => HasPrefix jarm p) schannelJARMPrefixes with
       | Some prefix => [("JARM matches Schannel pattern: " +:+ takeString 16 prefix +:+ "...")%string]
       | None => []
       end.

Definition headerSignal (serverHeader : string) : list string :=
  if String.eqb serverHeader "" then []
  else
    let lower := ToLower serverHeader in
    if Contains lower "microsoft-iis" then [("HTTP Server header: " +:+ serverHeader)%string]
    else if Contains lower "microsoft-httpapi" then ["HTTP Server: HTTP.SYS (Schannel-backed)"]%string
    else [].

Definition probeWinshock (jarm ja3s ja4s serverHeader : string) : winshockResult :=
  let found := jarmSignal jarm ++ headerSignal serverHeader in
  let signals := found ++ when (negb (String.eqb ja3s "")) ("JA3S: " +:+ ja3s)%string
                       ++ when (negb (String.eqb ja4s "")) ("JA4S: " +:+ ja4s)%string in
  match found with
  | [] => {| SchannelInferred := false; InferenceSignals := signals; PatchLevelKnowable := false;
             wNote := "no Schannel signals — Winshock not applicable" |}
  | _ => {| SchannelInferred := true; InferenceSignals := signals; PatchLevelKnowable := false;
            wNote := "Server appears to be Microsoft Schannel. Winshock (CVE-2014-6321, KB2992611) affects unpatched Schannel — patch level NOT determinable from passive signals. Verify via Windows Update history or active probe in an authorized pentest context." |}
  end.

Definition winshockHeadline (w : winshockResult) : string :=
  if negb (SchannelInferred w) then "" else "Schannel detected — Winshock (CVE-2014-6321) patch status unverified".

(** The probe speaks of Schannel exactly for one of the four JARM prefixes or a Server
    header of IIS or HTTP.SYS, whatever the other fingerprints are. *)
Theorem probeWinshock_inferred jarm ja3s ja4s header :
  (winshockHeadline (probeWinshock jarm ja3s ja4s header) <> ""%string <->
     (exists p, In p schannelJARMPrefixes /\ HasPrefix jarm p = true)
     \/ Contains (ToLower header) "microsoft-iis" = true \/ Contains (ToLower header) "microsoft-httpapi" = true)
  /\ PatchLevelKnowable (probeWinshock jarm ja3s ja4s header) = false.
Proof.
  assert (Hj : jarmSignal jarm <> [] <-> exists p, In p schannelJARMPrefixes /\ HasPrefix jarm p = true).
  { unfold jarmSignal. destruct (String.eqb_spec jarm "") as [->|Hne].
    - split; [intros Hn; by destruct Hn|]. intros (p & Hp & Hpre). destruct Hp as [<-|[<-|[<-|[<-|[]]]]]; discriminate Hpre.
    - destruct (find _ _) as [p|] eqn:E; split; [intros _; apply find_some in E as [Hin Hp]; by exists p|done|intros Hn; by destruct Hn|].
      intros (p & Hin & Hp). pose proof (find_none _ _ E p Hin) as Hf. cbv beta in Hf. congruence. }
  assert (Hh : headerSignal header <> [] <-> Contains (ToLower header) "microsoft-iis" = true \/ Contains (ToLower header) "microsoft-httpapi" = true).
  { unfold headerSignal. destruct (String.eqb_spec header "") as [->|Hne]; [by split; [intros Hn; destruct Hn|intros [?|?]]|].
    destruct (Contains _ "microsoft-iis"), (Contains _ "microsoft-httpapi"); cbn; intuition done. }
  unfold probeWinshock. rewrite <- Hh, <- Hj. clear Hh Hj. destruct (jarmSignal jarm) as [|s js], (headerSignal header) as [|h hs]; cbn [app];
    (split; [|reflexivity]); unfold winshockHeadline; cbn [SchannelInferred negb]; (split; [intros Hn|intros Hs]); try done.
  - by destruct Hs as [Hs|Hs]; destruct Hs.
  - by right.
  - by left.
  - by left.
Qed.

(** ** BREACH *)

Record breachResult := { CompressionEnabled : bool; Encoding : string; Vary : string; bNote : string }.

(** The headers of the answer that are looked at *)
Record headAnswer := { contentEncoding : string; varyHeader : string }.

Definition breachURL (host : string) (port : Z) : outcome string :=
  let scheme := if (port =? 80) || (port =? 8080) then "http"%string else "https"%string in
  addr <~ (if (String.eqb scheme "https" && negb (port =? 443)) || (String.eqb scheme "http" && negb (port =? 80))
           then p <~ itoa port ;; Ret (host +:+ ":" +:+ p)%string else Ret host) ;;
  Ret (scheme +:+ "://" +:+ addr +:+ "/")%string.

Definition breachVerdict (a : headAnswer) : breachResult :=
  let enc := ToLower (TrimSpace (contentEncoding a)) in
  let vary := varyHeader a in
  let out c n := {| CompressionEnabled := c; Encoding := enc; Vary := vary; bNote := n |} in
  if String.eqb enc "" then out false "no Content-Encoding — BREACH preconditions not met"%string
  else if existsb (String.eqb enc) ["gzip"; "deflate"; "br"; "compress"]%string then
    out true ("Content-Encoding: " +:+ enc +:+ " — vulnerable IF response reflects attacker-controlled input. Mitigations: don't reflect secrets in compressed responses; use CSRF tokens that don't appear in HTML body; disable compression for sensitive endpoints."
              +:+ (if negb (String.eqb vary "") && Contains (ToLower vary) "accept-encoding" then " (Vary: Accept-Encoding present — at least cache-aware)" else ""))%string
  else out false ("unknown Content-Encoding " +:+ enc)%string.

(** [newRequest] is the error of [http.NewRequest]; [head] is the client's answer to the
    HEAD request for the URL. *)
Definition probeBREACH (newRequest : string -> option string) (head : string -> headAnswer + string) (host : string) (port : Z) : outcome breachResult :=
  url <~ breachURL host port ;;
  let failed n := {| CompressionEnabled := false; Encoding := ""; Vary := ""; bNote := n |} in
  Ret (match newRequest url with
       | Some err => failed ("request build failed: " +:+ tidyErr err)%string
       | None => match head url with
                 | inr err => failed ("HEAD failed: " +:+ tidyErr err)%string
                 | inl a => breachVerdict a
                 end
       end).

Definition breachHeadline (b : breachResult) : string :=
  if negb (CompressionEnabled b) then "" else ("BREACH: " +:+ Encoding b +:+ " enabled (reflection-dependent)")%string.

(** For every port the probe returns; it asks on the port it was given, over http for 80
    and 8080 and over https else, and reports compression exactly if the answer names one
    of four codings, in any case. *)
Theorem probeBREACH_verdict newRequest head host port (Hport : 0 <= port < 65536) :
  let url := ((if ((port =? 80) || (port =? 8080))%Z then "http" else "https") +:+ "://" +:+ host
              +:+ (if ((port =? 80) || (port =? 443))%Z then "" else ":" +:+ decNat port) +:+ "/")%string in
  exists r, probeBREACH newRequest head host port = Ret r /\
    (breachHeadline r <> ""%string <-> newRequest url = None /\ exists a, head url = inl a
       /\ In (ToLower (TrimSpace (contentEncoding a))) ["gzip"; "deflate"; "br"; "compress"]%string).
Proof.
  intros url. assert (Hurl : breachURL host port = Ret url).
  { unfold breachURL, url. destruct (port =? 80) eqn:E80, (port =? 443) eqn:E443, (port =? 8080) eqn:E8080; to_prop; try lia; cbn [orb andb negb String.eqb];
      cbn -[itoa]; try done; rewrite itoa_small by lia; cbn [bind]; by rewrite <- !appString_assoc. }
  unfold probeBREACH. rewrite Hurl. cbn [bind]. eexists. split; [reflexivity|].
  destruct (newRequest url) as [e|]; [by split; [done|intros [? _]]|]. destruct (head url) as [a|e]; [|by split; [done|intros (_ & a & ? & _)]].
  unfold breachVerdict. cbv zeta. set (enc := ToLower _). destruct (String.eqb_spec enc "") as [He|He].
  - split; [done|]. intros (_ & b & [= <-] & Hin). fold enc in Hin. rewrite He in Hin. cbn in Hin. by repeat destruct Hin as [?|Hin].
  - destruct (existsb (String.eqb enc) _) eqn:Ex.
    + split; [intros _; split; [done|]; exists a; split; [done|]|intros _ Hx; discriminate Hx].
      apply existsb_exists in Ex as (x & Hin & Hx). apply String.eqb_eq in Hx. by rewrite <- Hx in Hin.
    + split; [done|]. intros (_ & b & [= <-] & Hin). fold enc in Hin. assert (Ht : existsb (String.eqb enc) ["gzip"; "deflate"; "br"; "compress"]%string = true); [|congruence].
      apply existsb_exists. exists enc. split; [done|apply String.eqb_refl].
Qed.

(** ** Early data *)

Record zeroRTTResult := {
  TLS13Supported : bool; ResumptionWorks : bool; PrereqsMet : bool; zOffered : bool; zMaxEarlyData : Z; ProbeMode : string; zNotes : string
}.

(** The prerequisites as the libraries see them.  [first] is the version of the first
    handshake of [crypto/tls], or its error; [second] is whether the second one, with the
    same session cache, resumed. *)
Definition tier2 (first : Z + string) (second : bool + string) : zeroRTTResult :=
  let out t res pre n := {| TLS13Supported := t; ResumptionWorks := res; PrereqsMet := pre; zOffered := false; zMaxEarlyData := 0;
                            ProbeMode := "tier2_prereqs"; zNotes := n |} in
  match first with
  | inr err => out false false false ("TLS 1.3 handshake failed: " +:+ tidyErr err)%string
  | inl version =>
      if negb (version =? 0x0304) then out false false false "server doesn't speak TLS 1.3"%string
      else match second with
           | inr err => out true false false ("resumption handshake failed: " +:+ tidyErr err)%string
           | inl resumed =>
               out true resumed resumed
                 (if resumed then "TLS 1.3 + ticket resumption — 0-RTT capable if server's NewSessionTicket advertises max_early_data_size"%string else ""%string)
           end
  end.

(** [tier1] is what the hand-written handshake returns. *)
Definition probeZeroRTTPrereqs (tier1 : outcome (run + failure)) (first : Z + string) (second : bool + string) : outcome zeroRTTResult :=
  r1 <~ tier1 ;;
  Ret (match r1 with
       | inl st =>
           if HandshakeOK (out st) then
             {| TLS13Supported := true; ResumptionWorks := NSTReceived (out st); PrereqsMet := NSTReceived (out st);
                zOffered := ZeroRTTOffered (out st); zMaxEarlyData := MaxEarlyData (out st);
                ProbeMode := "tier1_handrolled"; zNotes := Notes (out st) |}
           else tier2 first second
       | inr _ => tier2 first second
       end).

Definition zeroRTTHeadline (r : zeroRTTResult) : string :=
  if String.eqb (ProbeMode r) "tier1_handrolled" then
    if zOffered r then "0-RTT offered ✓"
    else if ResumptionWorks r then "0-RTT not offered (NST has no early_data)" else ""
  else if PrereqsMet r then "0-RTT prereqs ✓" else "".

Lemma tier2_headline first second : zOffered (tier2 first second) = false /\
  zeroRTTHeadline (tier2 first second) = (if bool_decide (first = inl 0x0304 /\ second = inl true) then "0-RTT prereqs ✓" else "")%string.
Proof.
  unfold tier2. destruct first as [version|e]; [|rewrite bool_decide_eq_false_2; [done|by intros [? _]]].
  destruct (Z.eqb_spec version 0x0304) as [->|Hv]; cbn [negb]; [|rewrite bool_decide_eq_false_2; [done|by intros [[= ?] _]]].
  destruct second as [[]|e]; [by rewrite bool_decide_eq_true_2|by rewrite bool_decide_eq_false_2; [|intros [_ ?]]|by rewrite bool_decide_eq_false_2; [|intros [_ ?]]].
Qed.

(** When the hand-written handshake completes, its tickets decide: early data is promised
    exactly for a ticket with a limit.  When it does not, the headline speaks of
    prerequisites at most, and exactly for TLS 1.3 with a session that was resumed. *)
Theorem zeroRTT_headline r1 first second : exists r, probeZeroRTTPrereqs (Ret r1) first second = Ret r /\
  match r1 with
  | inl st => (forall s, out st = verdict true s -> zMaxEarlyData r = nstMax s /\
      zeroRTTHeadline r = (if nstSeen s then if (0 <? nstMax s)%Z then "0-RTT offered ✓" else "0-RTT not offered (NST has no early_data)" else "")%string)
      /\ (HandshakeOK (out st) = false -> r = tier2 first second)
  | inr _ => r = tier2 first second
  end /\ (r = tier2 first second -> zOffered r = false
           /\ zeroRTTHeadline r = (if bool_decide (first = inl 0x0304 /\ second = inl true) then "0-RTT prereqs ✓" else "")%string).
Proof.
  eexists. split; [reflexivity|]. split; [|intros ->; apply tier2_headline]. destruct r1 as [st|f]; [|done]. split.
  - intros s Ho. rewrite Ho. cbn. by destruct (nstSeen s), (0 <? nstMax s).
  - by intros ->.
Qed.
