(* ===== verification/TlsValues.v ===== *)
(** The results of the TLS probes as they stand in the detail of the TLS check: each
    struct with its JSON names, and without the fields that [omitempty] leaves out. *)

From Stdlib Require Import ZArith List String Lia Bool.
From stdpp Require Import base list strings.
From S2P Require Import Prelude Bytes GoStrings Clock Result Float Json Detail ClientHellos Dh Jarm Ja4 Ciphers TlsCheck Preference.
From S2P Require Import Mozilla TlsGrade Dane Vulns Robot CbcOracles Reneg Pqc Ech Obscure TlsPosture Injection Crl.
From S2P Require Import ClientSim EachCipher Distrust CtLogs.
Import ListNotations.
Open Scope Z_scope.
Open Scope string_scope.

Definition dhValue (d : dhParameterPosture) : value :=
  struct "dhParameterPosture" [boolean "supported" (Dh.Supported d); optInt "bits" (Bits d); boolean "common_prime" (CommonPrime d);
    optString "prime_name" (PrimeName d); optString "fingerprint_sha256" (FingerprintSHA d)].
Definition cipherValue (c : cipherInfo) : value :=
  struct "cipherInfo" [int "code" (Ciphers.Code c); str "name" (Ciphers.Name c); str "grade" (Grade c); boolean "forward_secret" (ForwardSecret c);
    boolean "aead" (AEAD c); boolean "cbc" (CBC c); boolean "export" (Export c)].
Definition enumValue (e : cipherEnum) : value :=
  struct "cipherEnum" [str "tls_version" (TLSVersion e); [("ciphers", made "cipherInfo" cipherValue (Ciphers e))]; str "worst_grade" (WorstGrade e)].
Definition preferenceValue (p : cipherPreferenceResult) : value :=
  struct "cipherPreferenceResult" [str "tls_version" (prefTLSVersion p); str "order" (Order p); optString "forward_pick" (ForwardPick p);
    optString "reverse_pick" (ReversePick p)].
Definition profileValue (v : mozillaProfileVerdict) : value :=
  struct "mozillaProfileVerdict" [boolean "passes" (Passes v); optStrings "reasons" (Reasons v)].
Definition mozillaValue (m : mozillaComplianceResult) : value :=
  struct "mozillaComplianceResult" [[("modern", profileValue (Mozilla.Modern m)); ("intermediate", profileValue (Intermediate m)); ("old", profileValue (Old m))]].
Definition gradeValue (g : tlsGrade) : value :=
  struct "tlsGrade" [str "letter" (Letter g); int "score" (Score g); int "protocol_score" (ProtocolScore g); int "key_exchange_score" (KeyExchScore g);
    int "cipher_score" (CipherScore g); optStrings "caps" (Caps g); optStrings "bonuses" (Bonuses g); str "reasoning" (Reasoning g)].
Definition patternEntryValue (m : cipherPatternMatchEntry) : value :=
  struct "cipherPatternMatchEntry" [int "code" (Ciphers.eCode m); str "name" (Ciphers.eName m); optString "openssl_name" (Ciphers.eOpenSSL m); boolean "offered" (Ciphers.eOffered m);
    optString "grade" (Ciphers.eGrade m); optString "tls_version" (Ciphers.eVersion m)].
Definition patternValue (r : cipherPatternResult) : value :=
  struct "cipherPatternResult" [str "pattern" (Pattern r); [("matches", appended "cipherPatternMatchEntry" patternEntryValue (Matches r))];
    int "hit_count" (HitCount r)].

Definition tlsaValue (t : tlsaRecord) : value :=
  struct "tlsaRecord" [int "usage" (Usage t); int "selector" (Selector t); int "matching_type" (MatchingType t); str "cert" (Dane.Cert t);
    str "usage_str" (UsageStr t); str "selector_str" (SelectorStr t); str "matching_str" (MatchingStr t); boolean "matched" (Matched t)].
Definition daneDetail (d : daneResult) : value :=
  struct "daneResult" [str "query_name" (QueryName d); when (negb (blen (drRecords d) =? 0)%Z) ("records", made "tlsaRecord" tlsaValue (drRecords d));
    boolean "any_matched" (AnyMatched d); boolean "dnssec_required" (DNSSECRequired d); optStrings "issues" (Dane.Issues d)].
Definition vulnValue (v : tlsVuln) : value :=
  struct "tlsVuln" [str "name" (vulnName v); str "cve" (CVE v); str "description" (Description v); str "severity" (Vulns.Severity v)].
Definition robotValue (r : robotResult) : value :=
  struct "robotResult" [boolean "probed" (Robot.Probed r); optString "cipher_tested" (CipherTested r); optInt "distinct_buckets" (DistinctBuckets r);
    optBool "vulnerable" (Robot.Vulnerable r); optString "bucket_summary" (BucketSummary r)].
Definition cbcValue (r : cbcOracleResult) : value :=
  struct "cbcOracleResult" [boolean "probed" (CbcOracles.Probed r); optBool "goldendoodle" (GoldenDoodle r); optBool "zombie_poodle" (ZombiePoodle r);
    optBool "sleeping_poodle" (SleepingPoodle r); optBool "cipher_negotiable" (CipherNegotiable r)].
Definition renegValue (r : renegResult) : value :=
  struct "renegResult" [boolean "probed" (rrProbed r); optBool "client_init_accepted" (ClientInitAccepted r); optBool "dos_amplification" (DoSAmplification r);
    optInt "reneg_count_in_5s" (RenegCountIn5s r); optInt "trials_consistent" (TrialsConsistent r); optString "notes" (Reneg.Notes r)].

(** The probes of which [Probed] is always set. *)
Definition pqcValue (p : pqcResult) : value :=
  struct "pqcResult" [boolean "probed" true; boolean "supported" (Pqc.Supported p); optInt "group_code" (GroupCode p); optString "group_name" (GroupName p)].
Definition zeroRTTValue (z : zeroRTTResult) : value :=
  struct "zeroRTTResult" [boolean "probed" true; boolean "tls13_supported" (TLS13Supported z); boolean "resumption_works" (ResumptionWorks z);
    boolean "prereqs_met" (PrereqsMet z); optBool "zero_rtt_offered" (zOffered z); optInt "max_early_data" (zMaxEarlyData z);
    optString "probe_mode" (ProbeMode z); optString "notes" (zNotes z)].
Definition breachValue (b : breachResult) : value :=
  struct "breachResult" [boolean "probed" true; boolean "compression_enabled" (CompressionEnabled b); optString "encoding" (Encoding b);
    optString "vary" (Vary b); optString "note" (bNote b)].
Definition winshockValue (w : winshockResult) : value :=
  struct "winshockResult" [boolean "probed" true; boolean "schannel_inferred" (SchannelInferred w); optStrings "inference_signals" (InferenceSignals w);
    boolean "patch_level_knowable" (PatchLevelKnowable w); optString "note" (wNote w)].

Definition echValue (p : echPosture) : value :=
  struct "echPosture" [boolean "supported" (Ech.Supported p); optInt "config_count" (ConfigCount p); optInt "version" (Ech.Version p);
    optInt "cipher_suite_count" (CipherSuiteCount p); optInt "public_key_bits" (PublicKeyBits p); optInt "raw_length" (RawLength p)].
(** The fields of an [obscureCipherEntry] have no tags, so their names are those of Go. *)
Definition obscureEntryValue (e : obscureCipherEntry) : value :=
  struct "obscureCipherEntry" [int "Code" (Obscure.Code e); str "Name" (Obscure.Name e); str "Family" (Obscure.Family e); str "Severity" (Obscure.Severity e)].
Definition obscureValue (r : obscureCipherResult) : value :=
  struct "obscureCipherResult" [boolean "probed" (Obscure.Probed r);
    match OfferedSuite r with Some e => [("offered_suite", obscureEntryValue e)] | None => [] end;
    optString "note" (Obscure.Note r); int "probes_attempted" (Probed_Count r)].
Definition injectionValue (r : starttlsInjectionResult) : value :=
  struct "starttlsInjectionResult" [boolean "probed" (Injection.Probed r); str "protocol" (Injection.Protocol r); boolean "vulnerable" (Injection.Vulnerable r);
    optString "evidence" (Injection.Evidence r); optString "notes" (Injection.Notes r)].
(** [omitempty] does not leave out a time. *)
Definition crlValue (r : crlResult) : value :=
  struct "crlResult" [boolean "attempted" (Attempted r); optString "distribution_url" (DistributionURL r); str "this_update" (formatRFC3339 (rThisUpdate r));
    str "next_update" (formatRFC3339 (rNextUpdate r)); optInt "revocation_count" (RevocationCount r); optBool "leaf_revoked" (LeafRevoked r);
    optBool "fresh" (Fresh r); optBool "stale" (Stale r); optString "note" (Crl.Note r); optString "error" (Crl.Error r)].
Definition simValue (r : clientSimulationResult) : value :=
  struct "clientSimulationResult" [str "client" (Client r); boolean "success" (Success r); optString "version" (ClientSim.Version r);
    optString "cipher_suite" (CipherSuite r); optString "error" (ClientSim.Error r); optString "notes" (rNotes r)].
Definition eachValue (r : eachCipherResult) : value :=
  struct "eachCipherResult" [int "code" (rCode r); str "name" (EachCipher.rName r); optString "family" (rFamily r); optString "severity" (rSeverity r);
    str "tls_version" (EachCipher.rVersion r)].
Definition eachSummaryValue (s : eachCipherSummary) : value :=
  struct "eachCipherSummary" [int "total" (Total s); optInt "broken" (Broken s); optInt "weak" (Weak s); optInt "policy" (Policy s);
    optInt "modern" (EachCipher.Modern s); optInt "info" (Info s); optInt "unknown" (Unknown s)].
Definition rootValue (r : distrustedRoot) : value :=
  struct "distrustedRoot" [str "IssuerDN" (IssuerDN r); str "FingerprintSHA256" (FingerprintSHA256 r); str "CommonName" (CommonName r);
    str "Reason" (Reason r); [("DistrustedBy", VStrings (Some (DistrustedBy r)))]; str "Since" (Since r)].
Definition hitValue (h : distrustHit) : value :=
  struct "distrustHit" [str "cert_subject" (CertSubject h); str "cert_issuer" (CertIssuer h); [("root", rootValue (Root h))]; str "confidence" (Confidence h)].
Definition preloadValue (r : hstsPreloadResult) : value :=
  struct "hstsPreloadResult" [boolean "preloaded" (Preloaded r); optBool "include_subdomains" (resSubdomains r); optString "matched_domain" (MatchedDomain r);
    boolean "in_embedded_set" (InEmbeddedSet r)].
