(* ===== verification/TlsReport.v ===== *)
(** [checkTLS] of tls.go: how the handshake, the certificate and the findings of all the
    TLS probes become one check, with its status, summary, hint and detail.

    The probes are modelled in their own files; here their results are the fields of a
    [tlsEvidence].  Each goroutine of the source writes its own variable, so the order in
    which they finish does not show.  The evidence comes as an [outcome]: no goroutine
    recovers, so a probe that panics, as the one of [Robot] can, ends the check. *)

From Stdlib Require Import ZArith List String Lia Bool.
From stdpp Require Import base list strings gmap.
From S2P Require Import Prelude Bytes GoStrings Clock Decimal Result Float Json Detail Dane ClientHellos Dh Jarm Ja4 Ciphers TlsCheck Preference.
From S2P Require Import Mozilla TlsGrade Vulns Robot CbcOracles Reneg Pqc Ech Obscure TlsPosture Injection Crl CtLogs.
From S2P Require Import ClientSim EachCipher Distrust CtLogs TlsValues Report Diff.
Import ListNotations.
Open Scope Z_scope.

(** ** What the check is given *)

(** What is read of a certificate beyond [certificate] *)
Record peerCert := {
  x509 : certificate; cSubject : string; cIssuer : string; cIssuerOrgs : list string; cNotAfter : goTime;
  cDNSNames : list string; cSerial : bytes; cIsCA : bool
}.

(** [tls.ConnectionState] *)
Record connState := {
  sVersion : Z; sCipher : Z; NegotiatedProtocol : string; PeerCertificates : list peerCert; OCSPResponse : bytes;
  SignedCertificateTimestamps : list bytes
}.

(** The part of an OCSP response that is used; status 0 is good, 1 revoked, 2 unknown. *)
Record ocspResponse := { ocspCode : Z; ocspNext : goTime }.

(** Of the diagnosis: [hHSTS] and [hGet] are of the trace of the HTTP request. *)
Record httpTrace := { hHSTS : string; hGet : option (string -> string) }.
Record tlsTarget := {
  tHost : string; tHTTPS : bool; tResolved : bool; tStarttls : string; tPattern : string; tEachCipher : bool;
  tTrace : option httpTrace
}.

(** What the probes found.  [fallbackSCSV], [enumerate] and [preference] are probes that
    are given a result of others: the highest version, the version and the suites to try. *)
Record tlsEvidence := {
  versionProbes : list tlsVersionProbe; sslv3Supported : bool; sslv2Supported : bool; sessionResumed : bool;
  evHeartbleed : bool; evCrime : bool; evFreak : bool; evLogjam : bool; evCCS : bool; alpnList : list string;
  extPosture : tlsExtensionPosture; dhPosture : dhParameterPosture; evEch : echPosture; ticketbleed : bool;
  evJarm : jarmResult; evPqc : pqcResult; evCbc : cbcOracleResult; evRobot : robotResult; evZeroRTT : zeroRTTResult;
  evReneg : renegResult; fallbackSCSV : Z -> bool * bool; daneRes : option daneResult;
  enumerate : Z -> list Z -> list cipherInfo; preference : Z -> list Z -> cipherPreferenceResult;
  evCrl : crlResult; evEach : list eachCipherResult; evJa4s : string; evSims : list clientSimulationResult;
  evBreach : breachResult; evObscure : obscureCipherResult; evInjection : starttlsInjectionResult
}.

(** ** The certificate *)

Definition issuerName (leaf : peerCert) : string :=
  let issuer := cIssuer leaf in
  let issuer := if String.eqb issuer "" && (0 <? blen (cIssuerOrgs leaf)) then hd ""%string (cIssuerOrgs leaf) else issuer in
  if String.eqb issuer "" then "unknown CA" else issuer.

Definition issuerLine (leaf : peerCert) : outcome string :=
  short <~ truncate (issuerName leaf) 32 ;;
  let hint := ("issued by " +:+ short +:+ "  " +:+ middleDot +:+ "  expires " +:+ formatDay (cNotAfter leaf))%string in
  let kalg := keyAlgorithmName (x509 leaf) in
  let kbits := keyBits (x509 leaf) in
  Ret (if String.eqb kalg "" then hint
       else if 0 <? kbits then (hint +:+ "  " +:+ middleDot +:+ "  " +:+ kalg +:+ " " +:+ fmtD kbits)%string
       else (hint +:+ "  " +:+ middleDot +:+ "  " +:+ kalg)%string).

Definition chainEntry (c : peerCert) : value :=
  struct "chainEntry" [str "subject" (cSubject c); str "issuer" (cIssuer c); str "expires" (formatRFC3339 (cNotAfter c)); optStrings "dns_names" (cDNSNames c);
    optString "key_algorithm" (keyAlgorithmName (x509 c)); optInt "key_bits" (keyBits (x509 c)); optString "signature_algorithm" (SignatureAlgorithm (x509 c));
    optString "serial" (ToUpper (hexEncode (cSerial c))); optString "fingerprint_sha256" (certFingerprintSHA256 (x509 c)); optBool "is_ca" (cIsCA c)].

(** [int(time.Until(leaf.NotAfter).Hours() / 24)]; the quotients are taken of integers. *)
Definition daysLeftAt (now : goTime) (leaf : peerCert) : Z := Z.quot (untilAt now (cNotAfter leaf)) (24 * 3600 * 1000000000).

Definition ocspText (parseOCSP : bytes -> option ocspResponse) (st : connState) : string * string :=
  match (if 0 <? blen (OCSPResponse st) then parseOCSP (OCSPResponse st) else None) with
  | Some r =>
      ((if (ocspCode r =? 0)%Z then "Good" else if (ocspCode r =? 1)%Z then "Revoked" else if (ocspCode r =? 2)%Z then "Unknown" else "")%string,
       if (tSec (ocspNext r) =? tSec zeroTime) && (tNsec (ocspNext r) =? 0) then ""%string else formatRFC3339 (ocspNext r))
  | None => (""%string, ""%string)
  end.

Definition isWildcard (leaf : peerCert) : bool := existsb (fun n => HasPrefix n "*.") (cDNSNames leaf).

(** The number of SCTs, and the names of the logs of those embedded in the certificate *)
Definition sctsOf (st : connState) (leaf : peerCert) : outcome (Z * list string) :=
  let n := blen (SignedCertificateTimestamps st) in
  if n =? 0 then
    n <~ countEmbeddedSCTs (Some (x509 leaf)) ;;
    logs <~ match find (fun e : list Z * bytes => bool_decide (fst e = sctExtensionOID)) (Extensions (x509 leaf)) with
            | Some e => listSCTLogs (snd e)
            | None => Ret []
            end ;;
    Ret (n, logs)
  else Ret (n, []).

(** ** The cipher table *)

Definition pinnedOf (name : string) : option (Z * list Z) :=
  if String.eqb name "TLS 1.3" then Some (VersionTLS13, candidateCiphersTLS13)
  else if String.eqb name "TLS 1.2" then Some (VersionTLS12, candidateCiphersTLS12)
  else if String.eqb name "TLS 1.1" then Some (VersionTLS11, candidateCiphersTLS12)
  else if String.eqb name "TLS 1.0" then Some (VersionTLS10, candidateCiphersTLS12)
  else None.

(** One turn of the loop over the versions: a row of the table and a preference *)
Definition cipherRows (ev : tlsEvidence) (p : tlsVersionProbe) : list cipherEnum * list cipherPreferenceResult :=
  if negb (vSupported p) then ([], []) else
  match pinnedOf (vName p) with
  | None => ([], [])
  | Some (pinned, candidates) =>
      let got := enumerate ev pinned candidates in
      (enumRow (vName p) got,
       if 2 <=? blen got then
         let pref := preference ev pinned (map Ciphers.Code got) in
         if String.eqb (Order pref) "" then [] else [pref]
       else [])
  end.
Definition cipherEnums (ev : tlsEvidence) : list cipherEnum := flat_map (fun p => fst (cipherRows ev p)) (versionProbes ev).
Definition cipherPreferences (ev : tlsEvidence) : list cipherPreferenceResult := flat_map (fun p => snd (cipherRows ev p)) (versionProbes ev).

(** ** The vulnerabilities *)

Definition distrustHits (st : connState) : list distrustHit :=
  checkChainDistrust (map (fun c => Some {| Raw := RawCert (x509 c); SubjectCN := cSubject c; IssuerCN := cIssuer c |}) (PeerCertificates st)).

Definition distrustVuln (h : distrustHit) : tlsVuln :=
  vuln ("Distrusted CA: " +:+ CommonName (Root h)) ""
    (Reason (Root h) +:+ " (distrusted by " +:+ Join (DistrustedBy (Root h)) ", " +:+ " since " +:+ Since (Root h) +:+ ")") "high".

Definition renegVulns (r : renegResult) (vulns : list tlsVuln) : list tlsVuln :=
  if DoSAmplification r then
    vulns ++ [vuln "Client-init renegotiation DoS" "CVE-2011-1473"
      "server accepts unrate-limited client-initiated TLS renegotiation — DoS amplification vector" "medium"]
  else appendIf (ClientInitAccepted r) (vuln "Client-init renegotiation" ""
      "server accepts client-initiated renegotiation — should be disabled or rate-limited" "low") vulns.

Definition reportedVulns (st : connState) (ev : tlsEvidence) : list tlsVuln :=
  let vulns := detectTLSVulns (sCipher st) (tls10CipherIfSupported (versionProbes ev)) (sslv3Supported ev) (sslv2Supported ev) (evHeartbleed ev)
                 (evCrime ev) (evFreak ev) (evLogjam ev) (evCCS ev) (dhPosture ev) (extPosture ev) in
  let vulns := appendIf (ticketbleed ev) (vuln "Ticketbleed" "CVE-2016-9244" "F5 BIG-IP echoed server memory in session_id (Ticketbleed)" "high") vulns in
  let vulns := appendIf (GoldenDoodle (evCbc ev)) (vuln "GOLDENDOODLE" "CVE-2019-1559" "CBC padding oracle — distinguishable alert codes" "high") vulns in
  let vulns := appendIf (ZombiePoodle (evCbc ev)) (vuln "Zombie POODLE" "CVE-2019-6593" "CBC padding oracle — observable response-length differences" "high") vulns in
  let vulns := appendIf (SleepingPoodle (evCbc ev)) (vuln "Sleeping POODLE" "CVE-2019-6593" "CBC padding oracle — observable response-timing differences" "medium") vulns in
  let vulns := appendIf (Robot.Vulnerable (evRobot ev)) (vuln "ROBOT" "CVE-2017-13099" "Bleichenbacher oracle — distinguishable RSA decryption responses" "high") vulns in
  renegVulns (evReneg ev) vulns ++ map distrustVuln (distrustHits st).

Definition supportedVersions (ev : tlsEvidence) : list string := supportedVersionNames (versionProbes ev).
Definition weakVersions (ev : tlsEvidence) : bool := existsb (fun v => String.eqb v "TLS 1.0" || String.eqb v "TLS 1.1") (supportedVersions ev).

(** ** The status *)

(** The [switch] at the end *)
Definition tlsVerdict (verifyErr : option string) (daysLeft : Z) (vulns : list tlsVuln) (st : connState) (weak : bool) : string * string :=
  let version := tlsVersionName (sVersion st) in
  let days := (fmtD daysLeft +:+ " day" +:+ plural daysLeft)%string in
  match verifyErr with
  | Some e => (StatusFail, ("certificate problem — " +:+ tidyErr e)%string)
  | None =>
      if daysLeft <? 0 then (StatusFail, "certificate has expired"%string)
      else if daysLeft <? 21 then (StatusWarn, (version +:+ " — certificate expires in " +:+ days)%string)
      else match worstVulnerability vulns with
      | Some worst => ((if 3 <=? severityRank worst then StatusFail else StatusWarn), vulnSummary vulns)
      | None =>
          if isWeakCipher (sCipher st) then (StatusWarn, (version +:+ " — weak cipher negotiated (" +:+ CipherSuiteName (sCipher st) +:+ ")")%string)
          else if weak then (StatusWarn, (version +:+ " — server allows deprecated TLS 1.0/1.1")%string)
          else (StatusOK, (version +:+ " — certificate valid for " +:+ fmtD daysLeft +:+ " more day" +:+ plural daysLeft)%string)
      end
  end.

(** ** The second line of the hint *)

(** The fingerprint made up from the state of the connection: hash, text and number of
    extensions *)
Definition ja3sOf (st : connState) : outcome (option (string * string * Z)) :=
  if negb (sVersion st =? 0) && negb (sCipher st =? 0) then
    let exts := (when (negb (String.eqb (NegotiatedProtocol st) "")) "16" ++ when (0 <? blen (OCSPResponse st))%Z "5"
                 ++ when (0 <? blen (SignedCertificateTimestamps st))%Z "18")%list%string in
    v <~ decimalUint16 (sVersion st) ;; c <~ decimalUint16 (sCipher st) ;;
    let raw := (v +:+ "," +:+ c +:+ "," +:+ Join exts "-")%string in
    Ret (Some (md5sum (ofString raw), raw, blen exts))
  else Ret None.

Definition said (h : string) : list string := when (negb (String.eqb h "")) h.

Definition hstsSeen (t : tlsTarget) : bool := match tTrace t with Some tr => negb (String.eqb (hHSTS tr) "") | None => false end.

Definition ocspLine (stapled must : bool) (status : string) : list string :=
  (if stapled && negb (String.eqb status "") then [("OCSP " +:+ status)%string]
   else if stapled then ["OCSP stapled"%string]
   else if must then ["Must-Staple set but no staple"%string] else [])
  ++ when (must && stapled) "Must-Staple"%string.

Definition sctLine (n : Z) (logs : list string) : list string :=
  when (0 <? n) ("SCT×" +:+ fmtD n +:+ (if (0 <? blen logs)%Z then " (" +:+ Join (take 2 logs) ", " +:+ ")" else ""))%string.

Definition alpnLine (proto : string) : list string :=
  if String.eqb proto "h2" then ["HTTP/2 ALPN"%string]
  else when (negb (String.eqb proto "") && negb (String.eqb proto "http/1.1")) ("ALPN: " +:+ proto)%string.

Definition daneLine (d : option daneResult) : list string :=
  match d with
  | Some d => [("DANE×" +:+ fmtD (blen (drRecords d)) +:+ (if AnyMatched d then " ✓" else " unmatched"))%string]
  | None => []
  end.

Definition enumLine (enums : list cipherEnum) : list string :=
  when (0 <? blen enums)
    ("ciphers: " +:+ Join (map (fun ce => TLSVersion ce +:+ "×" +:+ fmtD (blen (Ciphers ce)) +:+ " " +:+ WorstGrade ce) enums) ", ")%string.

Definition eachSummary (t : tlsTarget) (ev : tlsEvidence) : option eachCipherSummary :=
  if tEachCipher t && (0 <? blen (evEach ev)) then Some (summarizeEachCipher (evEach ev)) else None.
Definition eachLine (s : option eachCipherSummary) : list string :=
  match s with
  | Some s =>
      let part n what := when (0 <? n) (fmtD n +:+ " " +:+ what)%string in
      when (0 <? Total s) ("each-cipher: " +:+ fmtD (Total s) +:+ " total ("
        +:+ Join (part (Broken s) "broken" ++ part (Weak s) "weak" ++ part (Policy s) "policy" ++ part (EachCipher.Modern s) "modern")%list ", " +:+ ")")%string
  | None => []
  end.

Definition preferenceLine (prefs : list cipherPreferenceResult) : list string :=
  match prefs with
  | [] => []
  | p :: ps =>
      if forallb (fun q => String.eqb (Order q) (Order p)) ps then [("cipher pref: " +:+ Order p)%string]
      else [("cipher pref: " +:+ Join (map (fun q => prefTLSVersion q +:+ ":" +:+ Order q) prefs) ", ")%string]
  end.

Definition alpnListLine (l : list string) (proto : string) : list string :=
  match l with
  | [] => []
  | [p] => if String.eqb p proto then [] else [("ALPN supported: " +:+ p)%string]
  | _ => [("ALPN supported: " +:+ Join l ", ")%string]
  end.

Definition dhLine (dh : dhParameterPosture) : list string :=
  when (Dh.Determined dh && Dh.Supported dh)
    ("DH " +:+ fmtD (Bits dh) +:+ "-bit" +:+ (if String.eqb (PrimeName dh) "" then "" else " (" +:+ PrimeName dh +:+ ")"))%string.

Definition patternLine (quote : string -> string) (pattern : string) (enums : list cipherEnum) : list string :=
  if String.eqb pattern "" then [] else
  let n := HitCount (filterCiphersByPattern enums pattern) in
  if 0 <? n then [("pattern " +:+ quote pattern +:+ ": " +:+ fmtD n +:+ " cipher match" +:+ esIfPlural n +:+ " offered")%string]
  else [("pattern " +:+ quote pattern +:+ ": no matches in offered ciphers ✓")%string].

Definition serverHeader (t : tlsTarget) : string :=
  match tTrace t with Some tr => match hGet tr with Some get => get "Server"%string | None => "" end | None => "" end.
Definition stsHeader (t : tlsTarget) : option string :=
  match tTrace t with Some tr => match hGet tr with Some get => Some (get "Strict-Transport-Security"%string) | None => None end | None => None end.

Definition observationsOf (t : tlsTarget) (st : connState) (leaf : peerCert) (mustStaple : bool) (ev : tlsEvidence) : observations :=
  {| oVersions := versionProbes ev; oCipherEnums := cipherEnums ev; oLeaf := x509 leaf; oHSTS := stsHeader t;
     oStapled := (0 <? blen (OCSPResponse st)); oMustStaple := mustStaple; oForwardSecret := isForwardSecret (sCipher st);
     oDH := dhPosture ev; oHeartbleed := evHeartbleed ev; oRobot := Robot.Vulnerable (evRobot ev);
     oClientInitAccepted := ClientInitAccepted (evReneg ev) |}.

(** The probe of a STARTTLS target that speaks no protocol with a plan, and the probes
    for HTTP targets *)
Definition breachOf (t : tlsTarget) (ev : tlsEvidence) : option breachResult :=
  if String.eqb (tStarttls t) "" then Some (evBreach ev) else None.
Definition obscureOf (t : tlsTarget) (ev : tlsEvidence) : option obscureCipherResult :=
  if String.eqb (tStarttls t) "" && Obscure.Probed (evObscure ev) then Some (evObscure ev) else None.
Definition injectionOf (t : tlsTarget) (ev : tlsEvidence) : option starttlsInjectionResult :=
  if negb (String.eqb (tStarttls t) "") && Injection.Probed (evInjection ev) then Some (evInjection ev) else None.

(** FALLBACK_SCSV is probed when some version is supported: (protected, conclusive). *)
Definition scsvOf (ev : tlsEvidence) : bool * bool :=
  let maxVer := maxSupportedVersion (versionProbes ev) in
  if maxVer =? 0 then (false, false) else fallbackSCSV ev maxVer.

Definition newline : string := toString [Byte.x0a].

Section Report.
Context (quote : string -> string) (parseOCSP : bytes -> option ocspResponse).

(** What [checkTLS] derives from the handshake before it writes the report *)
Record derived := {
  vMustStaple : bool; vSCTs : Z; vLogs : list string; vJa3s : option (string * string * Z); vEchText : string; vDistrustText : string;
  vWinshock : winshockResult
}.

Definition derive (t : tlsTarget) (st : connState) (leaf : peerCert) (ev : tlsEvidence) : outcome derived :=
  must <~ certHasMustStaple (x509 leaf) ;;
  scts <~ sctsOf st leaf ;;
  ja3s <~ ja3sOf st ;;
  echText <~ echHeadline (evEch ev) ;;
  distrustText <~ distrustHeadline (distrustHits st) ;;
  Ret {| vMustStaple := must; vSCTs := fst scts; vLogs := snd scts; vJa3s := ja3s; vEchText := echText; vDistrustText := distrustText;
         vWinshock := probeWinshock (Fingerprint (evJarm ev)) (match ja3s with Some (h, _, _) => h | None => "" end) (evJa4s ev) (serverHeader t) |}.

Definition secondLine (t : tlsTarget) (st : connState) (leaf : peerCert) (ev : tlsEvidence) (v : derived) : list string :=
  let versionList := (when (sslv3Supported ev) "SSL 3.0"%string ++ supportedVersions ev)%list in
  let stapled := 0 <? blen (OCSPResponse st) in
  let '(scsvProtected, scsvConclusive) := scsvOf ev in
  (when (0 <? blen versionList) (Join versionList "/")
  ++ ocspLine stapled (vMustStaple v) (fst (ocspText parseOCSP st))
  ++ when (isWildcard leaf) "wildcard cert"%string
  ++ when (hstsSeen t) "HSTS"%string
  ++ sctLine (vSCTs v) (vLogs v)
  ++ alpnLine (NegotiatedProtocol st)
  ++ daneLine (daneRes ev)
  ++ enumLine (cipherEnums ev)
  ++ eachLine (eachSummary t ev)
  ++ preferenceLine (cipherPreferences ev)
  ++ alpnListLine (alpnList ev) (NegotiatedProtocol st)
  ++ when (ClientHellos.Determined (extPosture ev) && negb (ExtendedMasterSecret (extPosture ev))) "no EMS"%string
  ++ dhLine (dhPosture ev)
  ++ said (vEchText v)
  ++ said (jarmHeadline (evJarm ev))
  ++ said (ja4Headline (evJa4s ev))
  ++ said (mozillaHeadline (evaluateMozillaCompliance (versionProbes ev) (cipherEnums ev)))
  ++ said (pqcHeadline (evPqc ev))
  ++ said (cbcOracleHeadline (evCbc ev))
  ++ said (vDistrustText v)
  ++ said (hstsPreloadHeadline (checkHSTSPreloaded (tHost t)))
  ++ said (robotHeadline (evRobot ev))
  ++ said (zeroRTTHeadline (evZeroRTT ev))
  ++ said (simulateClientsHeadline (evSims ev))
  ++ patternLine quote (tPattern t) (cipherEnums ev)
  ++ match breachOf t ev with Some b => said (breachHeadline b) | None => [] end
  ++ said (winshockHeadline (vWinshock v))
  ++ match obscureOf t ev with Some o => said (obscureCipherHeadline o) | None => [] end
  ++ match injectionOf t ev with Some i => said (starttlsInjectionHeadline i) | None => [] end
  ++ [gradeHeadline (gradeTLS (gradeInputOf (observationsOf t st leaf (vMustStaple v) ev)))]
  ++ when (sessionResumed ev) "resumption"%string
  ++ when (isWeakCipher (sCipher st) && negb (is3DESCipher (sCipher st))) "weak cipher"%string
  ++ when (negb (isForwardSecret (sCipher st))) "no forward secrecy"%string
  ++ when (scsvConclusive && negb scsvProtected) "no FALLBACK_SCSV"%string
  ++ when (weakVersions ev) "allows TLS 1.0/1.1"%string
  ++ map vulnName (reportedVulns st ev))%list.

(** The entries of [c.Detail] in the order in which they are set, statement by statement *)
Definition detailParts (t : tlsTarget) (st : connState) (leaf : peerCert) (ev : tlsEvidence) (v : derived) (daysLeft : Z) (handshakeMs : float64)
    : list (list (string * value)) :=
  let cert := x509 leaf in
  let enums := cipherEnums ev in let prefs := cipherPreferences ev in let vulns := reportedVulns st ev in
  let '(ocspStatus, ocspNextUpdate) := ocspText parseOCSP st in
  let '(scsvProtected, scsvConclusive) := scsvOf ev in
  let preload := checkHSTSPreloaded (tHost t) in
  [
    str "version" (tlsVersionName (sVersion st)); str "cipher" (CipherSuiteName (sCipher st)); boolean "cipher_weak" (isWeakCipher (sCipher st));
    boolean "forward_secrecy" (isForwardSecret (sCipher st)); str "alpn" (NegotiatedProtocol st); [("handshake_ms", VFloat handshakeMs)];
    str "issuer" (cIssuer leaf); str "subject" (cSubject leaf); str "expires" (formatRFC3339 (cNotAfter leaf)); int "days_left" daysLeft;
    [("chain", appended "chainEntry" chainEntry (PeerCertificates st))]; str "key_algorithm" (keyAlgorithmName cert); int "key_bits" (keyBits cert);
    str "signature_algo" (SignatureAlgorithm cert); int "san_count" (blen (cDNSNames leaf)); boolean "wildcard_cert" (isWildcard leaf);
    str "fingerprint_sha256" (certFingerprintSHA256 cert); boolean "ocsp_stapled" (0 <? blen (OCSPResponse st))%Z; boolean "must_staple" (vMustStaple v);
    int "sct_count" (vSCTs v); boolean "session_resumption" (sessionResumed ev);
    [("supported_versions", VStrings (match supportedVersions ev with [] => None | l => Some l end))];
    boolean "weak_versions" (weakVersions ev); boolean "sslv3" (sslv3Supported ev);
    optString "ocsp_status" ocspStatus; optString "ocsp_next_update" ocspNextUpdate;
    when (Attempted (evCrl ev)) ("crl", crlValue (evCrl ev));
    when scsvConclusive ("fallback_scsv", VBool scsvProtected);
    match daneRes ev with Some d => [("dane", daneDetail d)] | None => [] end;
    when (0 <? blen enums)%Z ("cipher_enum", made "cipherEnum" enumValue enums);
    match eachSummary t ev with
    | Some s => [("each_cipher", made "eachCipherResult" eachValue (evEach ev)); ("each_cipher_summary", eachSummaryValue s)] | None => [] end;
    when (0 <? blen prefs)%Z ("cipher_preference", made "cipherPreferenceResult" preferenceValue prefs);
    optStrings "alpn_offered" (alpnList ev);
    (if ClientHellos.Determined (extPosture ev) then
       [("extended_master_secret", VBool (ExtendedMasterSecret (extPosture ev))); ("secure_renegotiation", VBool (SecureRenegotiation (extPosture ev)))] else []);
    when (Dh.Determined (dhPosture ev) && Dh.Supported (dhPosture ev)) ("dh_parameters", dhValue (dhPosture ev));
    when (Ech.Supported (evEch ev)) ("ech", echValue (evEch ev));
    when (negb (String.eqb (Fingerprint (evJarm ev)) "") && negb (allZeros (Fingerprint (evJarm ev)))) ("jarm", jarmValue (evJarm ev));
    when (negb (String.eqb (evJa4s ev) "")) ("ja4s", VStruct "ja4Result" [("ja4s", VString (evJa4s ev))]);
    match vJa3s v with
    | Some (h, raw, n) => [("ja3s", VMap anyMap [("hash", VString h); ("raw", VString raw); ("version", VInt (sVersion st)); ("cipher", VInt (sCipher st));
                                                 ("ext_count", VInt n)])]
    | None => [] end;
    [("mozilla_profile", mozillaValue (evaluateMozillaCompliance (versionProbes ev) enums))];
    match tTrace t with Some tr => optString "hsts" (hHSTS tr) | None => [] end;
    when (0 <? blen vulns)%Z ("vulnerabilities", made "tlsVuln" vulnValue vulns);
    when (InEmbeddedSet preload) ("hsts_preload", preloadValue preload);
    [("pqc", pqcValue (evPqc ev))];
    when (CbcOracles.Probed (evCbc ev)) ("cbc_oracles", cbcValue (evCbc ev));
    when (0 <? blen (distrustHits st))%Z ("distrusted_roots", made "distrustHit" hitValue (distrustHits st));
    when (Robot.Probed (evRobot ev)) ("robot", robotValue (evRobot ev));
    [("zero_rtt", zeroRTTValue (evZeroRTT ev))];
    when (rrProbed (evReneg ev)) ("client_init_reneg", renegValue (evReneg ev));
    [("client_simulation", made "clientSimulationResult" simValue (evSims ev))];
    when (negb (String.eqb (tPattern t) "")) ("cipher_pattern_match", patternValue (filterCiphersByPattern enums (tPattern t)));
    match breachOf t ev with Some b => [("breach", breachValue b)] | None => [] end;
    [("winshock", winshockValue (vWinshock v))];
    match obscureOf t ev with Some o => [("obscure_ciphers", obscureValue o)] | None => [] end;
    match injectionOf t ev with Some i => [("starttls_injection", injectionValue i)] | None => [] end;
    [("grade", gradeValue (gradeTLS (gradeInputOf (observationsOf t st leaf (vMustStaple v) ev))))]
  ]%string.
Definition tlsDetail t st leaf ev v daysLeft handshakeMs : list (string * value) := concat (detailParts t st leaf ev v daysLeft handshakeMs).

Definition tlsCheck (status summary hint : string) (ms : float64) (detail : option (gmap string value)) : Check :=
  {| Report.Name := "TLS"; Status := status; Summary := summary; Hint := hint; Millis := ms; Detail := detail |}.

(** [verify] is [leaf.Verify] against the roots of the system, for the name of the
    target and the certificates behind the leaf. *)
Definition checkTLS (t : tlsTarget) (handshake : connState + string) (verify : peerCert -> list peerCert -> string -> option string) (now : goTime)
    (handshakeMs : float64) (probes : outcome tlsEvidence) : outcome Check :=
  if negb (tHTTPS t) then Ret (tlsCheck StatusSkip "skipped — not an HTTPS target" "" (Float 0 0) None)
  else if negb (tResolved t) then Ret (tlsCheck StatusSkip "skipped — DNS did not resolve" "" (Float 0 0) None)
  else match handshake with
  | inr e => Ret (tlsCheck StatusFail "TLS handshake failed" "" (Float 0 0) (Some {["error"%string := VString (tidyErr e)]}))
  | inl st =>
      match PeerCertificates st with
      | [] => Ret (tlsCheck StatusFail "server presented no certificate" "" (Float 0 0) None)
      | leaf :: rest =>
          let verifyErr := verify leaf rest (tHost t) in
          let daysLeft := daysLeftAt now leaf in
          ev <~ probes ;;
          hint <~ issuerLine leaf ;;
          v <~ derive t st leaf ev ;;
          let second := secondLine t st leaf ev v in
          let '(status, summary) := tlsVerdict verifyErr daysLeft (reportedVulns st ev) st (weakVersions ev) in
          Ret (tlsCheck status summary (hint +:+ newline +:+ Join second ("  " +:+ middleDot +:+ "  ")) handshakeMs
                 (Some (list_to_map (tlsDetail t st leaf ev v daysLeft handshakeMs))))
      end
  end.
End Report.

(** ** What makes a finding *)

Definition weakDH (dh : dhParameterPosture) : bool :=
  Dh.Determined dh && Dh.Supported dh && ((0 <? Bits dh) && (Bits dh <=? 1024) || CommonPrime dh && (Bits dh <=? 1024)).

Definition anyFinding (st : connState) (ev : tlsEvidence) : bool :=
  let tls10 := tls10CipherIfSupported (versionProbes ev) in
  existsb id [evHeartbleed ev; sslv2Supported ev; sslv3Supported ev; evCrime ev; evFreak ev; evLogjam ev; evCCS ev; ticketbleed ev;
    weakDH (dhPosture ev); ClientHellos.Determined (extPosture ev) && negb (SecureRenegotiation (extPosture ev));
    is3DESCipher (sCipher st) || is3DESCipher tls10; isRC4Cipher (sCipher st) || isRC4Cipher tls10; isCBCCipher (sCipher st); isCBCCipher tls10;
    GoldenDoodle (evCbc ev); ZombiePoodle (evCbc ev); SleepingPoodle (evCbc ev); Robot.Vulnerable (evRobot ev);
    DoSAmplification (evReneg ev) || ClientInitAccepted (evReneg ev); negb (bool_decide (distrustHits st = []))].

Lemma appendIf_nil c v l : appendIf c v l = [] <-> l = [] /\ c = false.
Proof. unfold appendIf. destruct c; [split; [by intros []%app_nil|by intros []]|split; [by intros ->|by intros []]]. Qed.

Lemma dhVulns_nil dh l : dhVulns dh l = [] <-> l = [] /\ weakDH dh = false.
Proof.
  unfold dhVulns, weakDH. destruct (Dh.Determined dh && Dh.Supported dh); cbn [andb]; [|by split; [intros ->|intros []]].
  assert (Hbits : (0 <? Bits dh) && (Bits dh <=? 1024) = (0 <? Bits dh) && (Bits dh <? 1024) || (Bits dh =? 1024)) by lia.
  rewrite Hbits. clear Hbits.
  destruct ((0 <? Bits dh) && (Bits dh <? 1024)); cbn [orb]; [by split; [intros []%app_nil|intros []]|].
  destruct (CommonPrime dh); cbn [andb negb orb]; rewrite ?andb_true_r, ?andb_false_r, ?orb_false_r;
    repeat match goal with |- context [?a =? ?b] => destruct (Z.eqb_spec a b) | |- context [?a <=? ?b] => destruct (Z.leb_spec a b) end; cbn [orb];
    try lia; (split; [intros Hn; try (by apply app_nil in Hn as []); by split|by intros [-> ?]]).
Qed.

Lemma renegVulns_nil r l : renegVulns r l = [] <-> l = [] /\ DoSAmplification r || ClientInitAccepted r = false.
Proof.
  unfold renegVulns. destruct (DoSAmplification r); cbn [orb]; [split; [by intros []%app_nil|by intros []]|apply appendIf_nil].
Qed.

Lemma reportedVulns_nil st ev : reportedVulns st ev = [] <-> anyFinding st ev = false.
Proof.
  unfold reportedVulns, detectTLSVulns, anyFinding. cbv zeta. set (tls10 := tls10CipherIfSupported _). cbn [existsb id].
  assert (Hcbc : negb (tls10 =? 0) && isCBCCipher tls10 = isCBCCipher tls10) by (destruct (Z.eqb_spec tls10 0) as [->|]; reflexivity).
  rewrite Hcbc.
  assert (Happ : forall (l : list tlsVuln) (hits : list distrustHit), (l ++ map distrustVuln hits)%list = [] <-> l = [] /\ negb (bool_decide (hits = [])) = false).
  { intros l hits. destruct hits as [|h hits]; [rewrite app_nil_r, bool_decide_eq_true_2 by done; by split; [intros ->|intros []]|].
    rewrite bool_decide_eq_false_2 by done. split; [by intros []%app_nil|by intros []]. }
  rewrite Happ, renegVulns_nil, !appendIf_nil, dhVulns_nil, !appendIf_nil, !orb_false_iff. tauto.
Qed.

(** A weak suite is always a finding too, so the branch of the [switch] for weak suites
    is never taken. *)
Lemma weak_cipher_dead st ev : isWeakCipher (sCipher st) = true -> reportedVulns st ev <> [].
Proof.
  intros Hw Hn. apply reportedVulns_nil in Hn. unfold anyFinding in Hn. cbv zeta in Hn. cbn [existsb id] in Hn. rewrite !orb_false_iff in Hn.
  destruct Hn as (_ & _ & _ & _ & _ & _ & _ & _ & _ & _ & [H3 _] & [H4 _] & H5 & _).
  unfold isWeakCipher, isCBCCipher, is3DESCipher, isRC4Cipher, inList in *. cbn [existsb] in *.
  rewrite !orb_false_iff in *. rewrite !orb_true_iff in Hw. destruct H4 as (H4 & ? & ? & _), H5 as (? & ? & ? & ? & _).
  repeat (destruct Hw as [Hw|Hw]; [congruence|]). discriminate.
Qed.

Definition severe (v : tlsVuln) : Prop := 3 <= severityRank v.

Lemma worst_rank vulns : match worstVulnerability vulns with
  | None => vulns = []
  | Some w => vulns <> [] /\ (severe w <-> exists v, In v vulns /\ severe v) end.
Proof.
  destruct vulns as [|v vulns]; [done|]. cbn [worstVulnerability]. split; [done|]. destruct (worst_fold vulns v) as (l & r & Heq & Hl & Hr).
  set (w := fold_left _ vulns v) in *. rewrite Heq. unfold severe. split.
  - intros Hw. exists w. split; [|done]. rewrite in_app_iff. right. by left.
  - intros (u & Hu & Hs). apply in_app_or in Hu as [Hu|[<-|Hu]]; [|done|].
    + rewrite List.Forall_forall in Hl. specialize (Hl u Hu). lia.
    + rewrite List.Forall_forall in Hr. specialize (Hr u Hu). lia.
Qed.

(** The status of the verdict, whatever the words of its summary *)
Lemma tlsVerdict_status verifyErr days st ev :
  let status := fst (tlsVerdict verifyErr days (reportedVulns st ev) st (weakVersions ev)) in
  (status = StatusOK <-> verifyErr = None /\ 21 <= days /\ anyFinding st ev = false /\ weakVersions ev = false)
  /\ (status = StatusFail <-> verifyErr <> None \/ days < 0 \/ 21 <= days /\ exists v, In v (reportedVulns st ev) /\ severe v)
  /\ (status <> StatusOK -> status <> StatusFail -> status = StatusWarn).
Proof.
  intros status. subst status. rewrite <- reportedVulns_nil. pose proof (weak_cipher_dead st ev) as Hweak. generalize dependent (reportedVulns st ev). intros vulns Hweak.
  pose proof (worst_rank vulns) as Hw. unfold tlsVerdict. cbv zeta.
  destruct verifyErr as [e|]; cbn [fst]; [split_and!; [by split; [|intros []]|by split; [left|]|done]|].
  destruct (Z.ltb_spec days 0); cbn [fst]; [split_and!; [by split; [|intros (_ & ? & _); lia]|by split; [right; left|]|done]|].
  destruct (Z.ltb_spec days 21); cbn [fst]; [split_and!; [by split; [|intros (_ & ? & _); lia]|by split; [|intros [|[|[? _]]]; [done|lia|lia]]|done]|].
  destruct (worstVulnerability vulns) as [w|]; cbn [fst].
  - destruct Hw as [Hne Hw]. destruct (Z.leb_spec 3 (severityRank w)) as [Hs|Hs]; (split_and!; [by split; [|intros (_ & _ & ? & _)]| |done]).
    + split; [intros _; right; right; split; [done|by apply Hw]|done].
    + split; [done|]. intros [|[|[_ Hv]]]; [done|lia|]. apply Hw in Hv. unfold severe in Hv. lia.
  - subst vulns. destruct (isWeakCipher (sCipher st)); [by destruct Hweak|].
    destruct (weakVersions ev); cbn [fst]; (split_and!; [|split; [done|intros [|[|[_ (v & [] & _)]]]; [done|lia]]|done]); [by split; [|intros (_ & _ & _ & ?)]|done].
Qed.

(** ** The detail *)

(** The keys a report may have, in the order they are written *)
Definition detailKeys : list (list string) := [
  ["version"]; ["cipher"]; ["cipher_weak"]; ["forward_secrecy"]; ["alpn"]; ["handshake_ms"]; ["issuer"]; ["subject"]; ["expires"]; ["days_left"];
  ["chain"]; ["key_algorithm"]; ["key_bits"]; ["signature_algo"]; ["san_count"]; ["wildcard_cert"]; ["fingerprint_sha256"]; ["ocsp_stapled"];
  ["must_staple"]; ["sct_count"]; ["session_resumption"]; ["supported_versions"]; ["weak_versions"]; ["sslv3"]; ["ocsp_status"]; ["ocsp_next_update"];
  ["crl"]; ["fallback_scsv"]; ["dane"]; ["cipher_enum"]; ["each_cipher"; "each_cipher_summary"]; ["cipher_preference"]; ["alpn_offered"];
  ["extended_master_secret"; "secure_renegotiation"]; ["dh_parameters"]; ["ech"]; ["jarm"]; ["ja4s"]; ["ja3s"]; ["mozilla_profile"]; ["hsts"];
  ["vulnerabilities"]; ["hsts_preload"]; ["pqc"]; ["cbc_oracles"]; ["distrusted_roots"]; ["robot"]; ["zero_rtt"]; ["client_init_reneg"];
  ["client_simulation"]; ["cipher_pattern_match"]; ["breach"]; ["winshock"]; ["obscure_ciphers"]; ["starttls_injection"]; ["grade"]]%string.

Lemma detailParts_keyed parseOCSP t st leaf ev v days ms : Forall2 keyed (detailParts parseOCSP t st leaf ev v days ms) detailKeys.
Proof.
  unfold detailParts. cbv zeta. destruct (ocspText parseOCSP st) as [status next]. destruct (scsvOf ev) as [protected conclusive].
  unfold detailKeys.
  repeat first [apply Forall2_nil_2 | apply Forall2_cons_2; [unfold str, int, boolean, optString, optStrings; keyed_tac|]].
Qed.

Lemma detailKeys_NoDup : NoDup (concat detailKeys).
Proof. apply (bool_decide_unpack _). by vm_compute. Qed.

Lemma tlsDetail_lookup parseOCSP t st leaf ev v days ms i keys part k x :
  detailKeys !! i = Some keys -> k ∈ keys -> detailParts parseOCSP t st leaf ev v days ms !! i = Some part ->
  (list_to_map (tlsDetail parseOCSP t st leaf ev v days ms) : gmap string value) !! k = Some x <-> In (k, x) part.
Proof. apply parts_lookup; [apply detailParts_keyed|apply detailKeys_NoDup]. Qed.

(** The parts of the findings and of the grade *)
Lemma part_vulnerabilities parseOCSP t st leaf ev v days ms : detailParts parseOCSP t st leaf ev v days ms !! 41%nat
  = Some (when (0 <? blen (reportedVulns st ev)) ("vulnerabilities"%string, made "tlsVuln" vulnValue (reportedVulns st ev))).
Proof. unfold detailParts. cbv zeta. destruct (ocspText parseOCSP st), (scsvOf ev). reflexivity. Qed.

Lemma part_grade parseOCSP t st leaf ev v days ms : detailParts parseOCSP t st leaf ev v days ms !! 55%nat
  = Some [("grade"%string, gradeValue (gradeTLS (gradeInputOf (observationsOf t st leaf (vMustStaple v) ev))))].
Proof. unfold detailParts. cbv zeta. destruct (ocspText parseOCSP st), (scsvOf ev). reflexivity. Qed.

Lemma detail_vulnerabilities parseOCSP t st leaf ev v days ms :
  (list_to_map (tlsDetail parseOCSP t st leaf ev v days ms) : gmap string value) !! "vulnerabilities"%string
  = if anyFinding st ev then Some (made "tlsVuln" vulnValue (reportedVulns st ev)) else None.
Proof.
  apply option_eq. intros x.
  rewrite (tlsDetail_lookup parseOCSP t st leaf ev v days ms 41 ["vulnerabilities"%string] _ _ x eq_refl (list_elem_of_here _ _)
    (part_vulnerabilities parseOCSP t st leaf ev v days ms)).
  pose proof (reportedVulns_nil st ev) as [H1 H2]. destruct (reportedVulns st ev) as [|w l].
  - rewrite H1 by done. by split.
  - destruct (anyFinding st ev); [|by specialize (H2 eq_refl)]. cbn. split; [intros [[= <-]|[]]; done|intros [= <-]; by left].
Qed.

Lemma detail_grade parseOCSP t st leaf ev v days ms :
  (list_to_map (tlsDetail parseOCSP t st leaf ev v days ms) : gmap string value) !! "grade"%string
  = Some (gradeValue (gradeTLS (gradeInputOf (observationsOf t st leaf (vMustStaple v) ev)))).
Proof. apply (tlsDetail_lookup parseOCSP t st leaf ev v days ms 55 ["grade"%string] _ _ _ eq_refl (list_elem_of_here _ _) (part_grade parseOCSP t st leaf ev v days ms)). by left. Qed.

(** ** The check *)

(** What the code relies on: the numbers of the handshake have 16 bits, and a chain is
    not absurdly long. *)
Record sensible (st : connState) (ev : tlsEvidence) : Prop := {
  s_version : 0 <= sVersion st < 65536;
  s_cipher : 0 <= sCipher st < 65536;
  s_chain : blen (PeerCertificates st) < 10 ^ 10;
  s_ech : ConfigCount (evEch ev) < 10 ^ 12
}.

Lemma wp_sctsOf st leaf E : wp (sctsOf st leaf) (fun _ => True) E.
Proof.
  unfold sctsOf. wp_step; [|by apply wp_ret]. wp_step. apply (wp_mono _ (fun _ => True) _ (fun _ => False)); [|intros n _|done].
  - unfold countEmbeddedSCTs. destruct (find _ _); [|by apply wp_ret]. eapply wp_mono; [apply (wp_parseSCTList _ (fun _ => False))|done|done].
  - wp_step. apply (wp_mono _ (fun _ => True) _ (fun _ => False)); [|intros logs _; by apply wp_ret|done].
    destruct (find _ _); [apply wp_listSCTLogs|by apply wp_ret].
Qed.

Lemma wp_derive t st leaf ev E : sensible st ev -> wp (derive t st leaf ev) (fun _ => True) E.
Proof.
  intros [Hv Hc Hl He]. unfold derive. wp_step.
  apply (wp_mono _ (fun _ => True) _ (fun _ => False)); [exact (wp_mustStapleExts _ _)|intros must _|done].
  wp_step. apply (wp_mono _ (fun _ => True) _ (fun _ => False)); [apply wp_sctsOf|intros scts _|done].
  wp_step. apply (wp_mono _ (fun _ => True) _ (fun _ => False)); [|intros ja3s _|done].
  { unfold ja3sOf. wp_step; [|by apply wp_ret]. rewrite !decimalUint16_decNat by done. done. }
  wp_step. apply (wp_mono _ (fun _ => True) _ (fun _ => False)); [|intros echText _|done].
  { unfold echHeadline. wp_step; [by apply wp_ret|]. wp_step; [|by apply wp_ret]. to_prop. rewrite itoa_small by lia. done. }
  wp_step. apply (wp_mono _ (fun _ => True) _ (fun _ => False)); [|intros distrustText _; by apply wp_ret|done].
  unfold distrustHeadline, distrustHits. set (hits := checkChainDistrust _).
  assert (Hhits : blen hits < 10 ^ 12).
  { subst hits. pose proof (length_hits (map (fun c => Some {| Raw := RawCert (x509 c); SubjectCN := cSubject c; IssuerCN := cIssuer c |}) (PeerCertificates st))) as H.
    rewrite length_map in H. unfold blen in *. lia. }
  destruct hits as [|h [|h2 hits]]; [by apply wp_ret..|]. rewrite itoa_small by (pose proof (blen_nonneg (h :: h2 :: hits)); lia). done.
Qed.

Section Claims.
Context (quote : string -> string) (parseOCSP : bytes -> option ocspResponse).

(** C37. On every HTTPS target with a certificate, when its probes return, the check returns,
    and when one of them panics so does the check.  Its status is OK exactly
    when the certificate is valid for the host and for three weeks more, no probe found
    anything, and TLS 1.0 and 1.1 are refused; it fails exactly when the certificate does
    not verify or has expired, or, with three weeks left, when some finding is of high or
    critical severity; else it warns.  The detail lists the findings under
    [vulnerabilities], when there are any, and the grade of the observations. *)
Theorem checkTLS_status t st verify now ms probes ev leaf rest
  (Hprobes : probes = Ret ev) (Hhttps : tHTTPS t = true) (Hres : tResolved t = true) (Hpeers : PeerCertificates st = leaf :: rest) (Hs : sensible st ev) :
  exists c m must, checkTLS quote parseOCSP t (inl st) verify now ms probes = Ret c
    /\ (Status c = StatusOK <->
          verify leaf rest (tHost t) = None /\ 21 <= daysLeftAt now leaf /\ anyFinding st ev = false /\ weakVersions ev = false)
    /\ (Status c = StatusFail <->
          verify leaf rest (tHost t) <> None \/ daysLeftAt now leaf < 0
          \/ 21 <= daysLeftAt now leaf /\ exists v, In v (reportedVulns st ev) /\ severe v)
    /\ (Status c <> StatusOK -> Status c <> StatusFail -> Status c = StatusWarn)
    /\ Detail c = Some m /\ certHasMustStaple (x509 leaf) = Ret must
    /\ (m !! "vulnerabilities"%string = if anyFinding st ev then Some (made "tlsVuln" vulnValue (reportedVulns st ev)) else None)
    /\ m !! "grade"%string = Some (gradeValue (gradeTLS (gradeInputOf (observationsOf t st leaf must ev))))
    /\ checkTLS quote parseOCSP t (inl st) verify now ms Panic = Panic.
Proof.
  destruct (truncate_spec (issuerName leaf) 32 ltac:(lia)) as (short & Hshort & _).
  pose proof (wp_derive t st leaf ev (fun _ => False) Hs) as Hd. destruct (derive t st leaf ev) as [v| | |] eqn:Ev; try done.
  assert (Hmust : certHasMustStaple (x509 leaf) = Ret (vMustStaple v)).
  { unfold derive in Ev. destruct (certHasMustStaple _) as [must| | |]; cbn [bind] in Ev; try done.
    destruct (sctsOf st leaf); cbn [bind] in Ev; try done. destruct (ja3sOf st); cbn [bind] in Ev; try done.
    destruct (echHeadline _); cbn [bind] in Ev; try done. destruct (distrustHeadline _); cbn [bind] in Ev; try done. by injection Ev as <-. }
  unfold checkTLS. rewrite Hhttps, Hres, Hpeers, Hprobes. cbn [negb bind]. unfold issuerLine. rewrite Hshort, Ev. cbn [bind].
  pose proof (tlsVerdict_status (verify leaf rest (tHost t)) (daysLeftAt now leaf) st ev) as Hstatus. cbv zeta in Hstatus.
  destruct (tlsVerdict _ _ _ _ _) as [status summary]. cbn [fst] in Hstatus. destruct Hstatus as (Hok & Hfail & Hwarn).
  eexists _, _, _. split; [reflexivity|]. cbn [Status Detail tlsCheck].
  split; [exact Hok|]. split; [exact Hfail|]. split; [exact Hwarn|]. split; [reflexivity|]. split; [exact Hmust|].
  split; [apply detail_vulnerabilities|split; [apply detail_grade|reflexivity]].
Qed.
End Claims.

(** A certificate that expires within three weeks hides every finding: the check only
    warns, whatever the severity. *)
Lemma expiring_hides_findings vulns st weak days : 0 <= days < 21 -> fst (tlsVerdict None days vulns st weak) = StatusWarn.
Proof. intros Hd. unfold tlsVerdict. rewrite (proj2 (Z.ltb_ge days 0)), (proj2 (Z.ltb_lt days 21)) by lia. done. Qed.

Module TlsWitnesses.
Definition at_ (s : Z) : goTime := {| tSec := s; tNsec := 0 |}.
Definition leaf : peerCert :=
  {| x509 := {| PublicKeyAlgorithm := TlsCheck.RSA; PublicKey := RSAKey 2048; SignatureAlgorithm := "SHA256-RSA"; RawCert := [Byte.x30]; Extensions := [] |};
     cSubject := "www.example.com"; cIssuer := "Example CA"; cIssuerOrgs := []; cNotAfter := at_ 1800000000; cDNSNames := ["*.example.com"%string];
     cSerial := [Byte.x01]; cIsCA := false |}.
Definition st : connState :=
  {| sVersion := 0x0303; sCipher := 0xc02f; NegotiatedProtocol := "h2"; PeerCertificates := [leaf]; OCSPResponse := []; SignedCertificateTimestamps := [] |}.
Definition target : tlsTarget :=
  {| tHost := "www.example.com"; tHTTPS := true; tResolved := true; tStarttls := ""; tPattern := ""; tEachCipher := false; tTrace := None |}.
(** A server with TLS 1.2 alone; [hb] is what the Heartbleed probe found. *)
Definition found (hb : bool) : tlsEvidence :=
  {| versionProbes := probeTLSVersions [(2%nat, true, 0xc02f)]; sslv3Supported := false; sslv2Supported := false; sessionResumed := false;
     evHeartbleed := hb; evCrime := false; evFreak := false; evLogjam := false; evCCS := false; alpnList := ["h2"%string];
     extPosture := {| ExtendedMasterSecret := true; SecureRenegotiation := true; ClientHellos.Determined := true |}; dhPosture := noPosture;
     evEch := noEch; ticketbleed := false; evJarm := {| Jarm.Fingerprint := ""; Jarm.Raw := ""; Jarm.ProbeNames := [] |}; evPqc := pqcNo;
     evCbc := {| CbcOracles.Probed := true; GoldenDoodle := false; ZombiePoodle := false; SleepingPoodle := false; CipherNegotiable := false |};
     evRobot := {| Robot.Probed := true; CipherTested := ""; DistinctBuckets := 0; Robot.Vulnerable := false; BucketSummary := "" |};
     evZeroRTT := {| TLS13Supported := false; ResumptionWorks := false; PrereqsMet := false; zOffered := false; zMaxEarlyData := 0; ProbeMode := ""; zNotes := "" |};
     evReneg := {| rrProbed := true; ClientInitAccepted := false; DoSAmplification := false; RenegCountIn5s := 0; TrialsConsistent := 0; Reneg.Notes := "" |};
     fallbackSCSV := fun _ => (true, true); daneRes := None; enumerate := fun _ _ => []; preference := fun _ _ => {| prefTLSVersion := ""; Order := ""; ForwardPick := ""; ReversePick := "" |};
     evCrl := noCRL false "" "" ""; evEach := []; evJa4s := ""; evSims := [];
     evBreach := {| CompressionEnabled := false; Encoding := ""; Vary := ""; bNote := "" |};
     evObscure := {| Obscure.Probed := false; OfferedSuite := None; Obscure.Note := ""; Probed_Count := 0 |};
     evInjection := {| Injection.Probed := false; Injection.Protocol := ""; Injection.Vulnerable := false; Injection.Evidence := ""; Injection.Notes := "" |} |}.

Lemma found_sensible hb : sensible st (found hb).
Proof. split; vm_compute; intuition congruence. Qed.

Lemma checkTLS_status_witness :
  exists c, checkTLS id (fun _ => None) target (inl st) (fun _ _ _ => None) (at_ 1790000000) (Float 0 0) (Ret (found true)) = Ret c /\ Status c = StatusFail.
Proof.
  destruct (checkTLS_status id (fun _ => None) target st (fun _ _ _ => None) (at_ 1790000000) (Float 0 0) (Ret (found true)) (found true) leaf []
    eq_refl eq_refl eq_refl eq_refl (found_sensible true)) as (c & m & must & Hc & _ & Hfail & _).
  exists c. split; [exact Hc|]. apply Hfail. right. right. split; [vm_compute; discriminate|].
  exists (vuln "Heartbleed" "CVE-2014-0160" "OpenSSL Heartbeat leaks server memory — UPDATE NOW" "critical").
  split; [left; reflexivity|vm_compute; discriminate].
Defined.

Definition statusOf (c : outcome Check) : option (string * string) := match c with Ret c => Some (Status c, Summary c) | _ => None end.
Definition run (now : Z) (hb : bool) : option (string * string) :=
  statusOf (checkTLS id (fun _ => None) target (inl st) (fun _ _ _ => None) (at_ now) (Float 0 0) (Ret (found hb))).

Example healthy : run 1790000000 false = Some (StatusOK, "TLS 1.2 — certificate valid for 115 more days"%string).
Proof. vm_compute. reflexivity. Qed.
(** Heartbleed, with a certificate for twenty more days *)
Example heartbleed_hidden : run 1798272000 true = Some (StatusWarn, "TLS 1.2 — certificate expires in 20 days"%string).
Proof. vm_compute. reflexivity. Qed.
(** A finding without a CVE *)
Example no_cve : vulnSummary (renegVulns {| rrProbed := true; ClientInitAccepted := true; DoSAmplification := false; RenegCountIn5s := 0; TrialsConsistent := 0; Reneg.Notes := "" |} [])
  = "Client-init renegotiation () — server accepts client-initiated renegotiation — should be disabled or rate-limited"%string.
Proof. reflexivity. Qed.
End TlsWitnesses.
